(* ===== verification/_CoqProject ===== *)
-Q . S2P
Prelude.v
GoMonad.v
GoLib.v
GoText.v
Database.v
Sha256.v
Models.v
Results.v
ResultsFacts.v
External.v
Tables.v
Nacl.v
IndexerTypes.v
Indexer.v
Ethereum.v
SignKeys.v
Tree.v
CensusTree.v
BearerAPI.v
CensusRuns.v
CensusAPI.v
CensusAPIFacts.v
CensusManager.v
CensusManagerFacts.v
StateDB.v
StateTrees.v
IndexerVotes.v
Scrutinizer.v
TallyFacts.v
IndexerFacts.v
IndexerRuns.v
ClientVote.v
State.v
StateFacts.v
CommitFacts.v
Account.v
AccountFacts.v
ProcessID.v
VoteCache.v
Process.v
ProcessFacts.v
CensusProof.v
Census.v
AccountTx.v
VoteTx.v
ProcessTx.v
Transaction.v
App.v
Snapshot.v
CensusDownloader.v
KeyKeeper.v
KeyKeeperFacts.v
TxFacts.v
KeyKeeperRuns.v
Vocone.v
Lifecycle.v
BlockFacts.v
ChainFacts.v
VoconeFacts.v
TokenFacts.v
VoteFacts.v
Codecs.v
Sample.v
IndexerSample.v
KeeperSample.v
ChainSample.v
CensusSample.v
AccountSpec.v
ProcessSpec.v
TxSpec.v
VoteSpec.v
ChainSpec.v
IdSpec.v
TallySpec.v
KeeperSpec.v
VoconeSpec.v
CensusSpec.v
CensusManagerSpec.v
BearerSpec.v
SnapshotSpec.v
