(* ===== verification/Prelude.v ===== *)
(** * go-dvote / Vocdoni node: a verification development

    The repository is the node of the Vochain, a Tendermint blockchain for voting.  A node keeps
    a state of accounts, oracles, voting processes and votes in Merkle trees, checks and applies
    the transactions of every block, and an indexer on the side collects the votes and computes
    the results of the processes.

    ** The parts and their files

    - Go itself.  [GoMonad.v]: a method that reads and writes an object of type [S] is a function
      [S -> S * outcome A]; the outcome is a value, an error or a panic, and what was written
      before an error or a panic stays written.  [GoLib.v] and [GoText.v] have what is used of the
      standard library (paths, hexadecimal, endianness, decimal numbers, JSON), [Sha256.v] the
      hash.  Integers are [Z] at their width with the wrapping written out ([u32], [u64], [i64]).
    - Code that is not in the repository is a class with the operations the node calls and the
      laws their documentation promises: [Proto] (protobuf messages, [Models.v]), [Arbo], [Lru],
      [EthCrypto], [ProofLibs] in [External.v]; [Tables], [Memo] and [SealedBox] in [Tables.v] and
      [Nacl.v]; [Database] in [Database.v], [EthSign], [KeeperEnv], [Fifo], [ArboCensus],
      [ApiLibs] and [SnapshotLibs] beside their callers.
      [Codecs.v], the files ending in [Sample.v] and the samples of [SnapshotSpec.v] and
      [CensusManagerSpec.v] instantiate all of them, so that every hypothesis of a property is
      shown to hold somewhere; they hold nothing of the program.
    - Storage: [Tree.v] is [src/tree/tree.go], [StateDB.v] is [src/statedb] (nested trees, the
      propagation of roots, versions, views), [StateTrees.v] the trees of [src/vochain/state_trees.go].
    - State: [State.v] ([src/vochain/state.go]), [Account.v] ([account.go]), [Process.v]
      ([process.go]), [ProcessID.v] ([process_id.go]), [VoteCache.v] ([cache.go]), [Census.v]
      ([census.go]), [CensusProof.v] ([proof.go] and the salted keys).  The record [State] has the
      fields of the Go type; a method is a definition with its name.
    - Transactions: [Ethereum.v] (recovery of signers), [AccountTx.v], [VoteTx.v], [ProcessTx.v]
      (the checks) and [Transaction.v] ([AddTx], every payload) for [src/vochain/transaction.go].
    - Blocks: [App.v], the ABCI methods of [src/vochain/app.go] and [Save].
    - Indexer: [Results.v] (the ballot protocol and the matrix of the results), [IndexerTypes.v]
      (records, rows and their encodings), [Indexer.v] (both databases, queries, processes),
      [IndexerVotes.v] (votes, live and final results), [Scrutinizer.v] (the handlers of events,
      [Commit], the goroutines it starts, the recovery), for [src/vochain/scrutinizer].
    - Client: [ClientVote.v], the encrypted vote packages of [src/client/util.go]; [Nacl.v].
    - Databases: [Database.v], the interface of [src/db/interface.go] as a class with its laws, the
      batches of [src/db/batch.go], the prefixed databases of [src/db/prefixeddb] and the iteration
      of [src/db/pebbledb].
    - Key keeper: [SignKeys.v] (the keys of a signer, [src/crypto/ethereum]) and [KeyKeeper.v]
      ([src/vochain/keykeeper]): its handlers of events and the goroutines of [Commit] as tasks.
    - Single node: [Vocone.v] ([src/vocone]), which makes its own blocks from a queue.
    - Censuses: [CensusTree.v] ([src/censustree]), the tree of a census with its counts and, when it
      is indexed, the numbering of its keys; [CensusAPI.v] ([src/urlapi/census.go] and its helpers),
      the requests on censuses; [BearerAPI.v] ([src/httprouter/bearerstdapi]), tokens and quotas.
    - Census manager: [CensusManager.v] ([src/census]), the namespaces, the
      requests of accounts and the queue of imports; [CensusDownloader.v]
      ([src/vochain/censusdownloader]), which fills the queue from the processes of a block.
    - Snapshots: [Snapshot.v] ([src/vochain/state_snapshot.go]), the file with the dumps of the trees of
      the state and [Commit] with the snapshot.

    ** The theorems

    The files ending in [Facts.v] and [Runs.v] have the lemmas: what an operation does to
    the contents of the trees or tables ([sview] is the content of one of the six main trees in the
    working state; the child trees of the processes, with their votes, censuses and nullifiers, are
    stored under [child_key], and [opens], [dirty_child] and [root_in] speak of them).
    The files ending in [Spec.v] have the properties, each with a witness on the sample node.

    - [AccountSpec.v]: transfers between two accounts conserve the tokens, minting, delegates, costs,
      faucet packages; the self-transfer that succeeds and creates tokens.
    - [ProcessSpec.v]: the abstract machine of process statuses and that every transaction refines
      it; creation of processes, status and results; the index by start block.
    - [TxSpec.v]: who signs what the token transactions do, no replay, [CheckTx] is read only.
    - [VoteSpec.v]: a nullifier votes once, what a vote that passes the check has, the cache.
    - [ChainSpec.v]: the calls of tendermint are the steps [app_step] of a machine; in all its
      reachable states the store is good, committed processes only evolve, [BeginBlock] starts from
      the last commit, [Save] commits the main trees and the child trees that were written, a
      restart recovers them.
    - [IdSpec.v]: identifiers are decoded to what they were built from and are distinct; the salts.
    - [TallySpec.v]: the final results are the sums of the valid ballots in every interleaving of
      the goroutines that count them ([TallyFacts.v], with the semaphore and the steps that
      panic), live results are final results, both databases agree over the blocks and tallies of
      [IndexerRuns.v], encrypted votes are opened; and the votes, cancellations and restarts that
      break these.
    - [KeeperSpec.v]: a batch under prefixes refines the sequence of its writes, iterations,
      signatures name their key; a scheduled reveal happens in every order of the steps
      ([KeyKeeperRuns.v]), keys are accepted by the chain, and the race that loses them.
    - [VoconeSpec.v]: the blocks of the single node are the queue in order, its chain keeps the
      invariant of [ChainFacts.v]; the restart that overwrites a block, the numbers that drift.
    - [CensusSpec.v], with [CensusRuns.v] and [CensusAPIFacts.v]: the weight and
      the index of a census over any history, an indexed census as the list of its keys, the
      weight that an added key proves over any later requests, dumps, publication, the well-formedness of the censuses of the API over any requests, and
      that only its token changes a census. [BearerSpec.v]: quotas, in sequence and in a race.
    - [CensusManagerSpec.v], with [CensusManagerFacts.v]: an account changes only its own censuses,
      an imported census has the root it is named by, a good import is served and a failed one
      blocks its census. [CensusDownloader.v]: what a block puts in the queue.
    - [SnapshotSpec.v]: a snapshot is read as it was written and has all the
      trees of the state; [Commit] with it does what [App_Commit] does.

    ** Bounds and fuel

    A loop of the source is a recursion on the list it ranges over, without fuel, with these
    exceptions.  [json_value] reads nested JSON with a fuel of twice the length of the text plus
    two, as at most two calls nest at each character.  [dec_digits] has the number of bits of the number as fuel,
    which is not less than its decimal digits ([decimal_spec]).  [commit_loop] has one more than the
    length of the queue, as each round takes a transaction from it ([commit_loop_run] proves that it
    returns), and [getBlock_loop] a bound on the transactions of a block.  [propagateRoot] has one more than
    the depth of the open trees ([CommitFacts.v] proves that it returns).  [query_tries] has the
    1000 tries of the source, and the loops of SHA-256 the number of rounds and blocks.

    ** Not modelled, and why

    The tendermint node, its block store and mempool, peer to peer networking, HTTP and the RPC
    of the APIs, IPFS, the Ethereum client and the code generated from its contracts, command line
    programs and Docker tests are input and output around calls that are modelled, or generated.
    Locks are left out where an operation runs to its end under its lock; where goroutines
    interleave and the result could depend on it ([WalkEnvelopes]) they are steps of a relation.
    The goroutine of [CachePurge] runs at once.  A transaction is added to the queue of the
    single node before or after it commits a block, not meanwhile, and a call of its administration
    that fails is not a step.  The manager of censuses has a database for each census.
    Input and output errors of the databases and of the files are not modelled: a read finds what
    was written, and a write is refused only when a transaction is full (badger also refuses empty
    and very long keys, which are not written).
    Log messages and metrics are left out, and the text of an error only keeps what distinguishes it.
    The lists of the indexer with filters and pages, and the text formats for people, are queries
    that change nothing.  The arbo Merkle tree, the curves and the protobuf encoding are libraries. *)

From stdpp Require Import base option list strings gmap pretty.
From Stdlib Require Import ZArith Ascii String Lia.

Open Scope Z_scope.

(** ** Go values *)

(** A Go [string] and a Go [[]byte] are both finite sequences of octets; Rocq's
    [string] is a list of 8-bit [ascii] characters, so it serves for both.  Where
    the code distinguishes a nil slice from an empty one the model uses
    [option bytes]. *)
Abbreviation bytes := string (only parsing).

(** Machine integers are kept as [Z] at their width. *)
Definition u8 (z : Z) : Z := z mod 2 ^ 8.
Definition u16 (z : Z) : Z := z mod 2 ^ 16.
Definition u32 (z : Z) : Z := z mod 2 ^ 32.
Definition u64 (z : Z) : Z := z mod 2 ^ 64.
Definition i32 (z : Z) : Z := (z + 2 ^ 31) mod 2 ^ 32 - 2 ^ 31.
Definition i64 (z : Z) : Z := (z + 2 ^ 63) mod 2 ^ 64 - 2 ^ 63.

Definition is_u32 (z : Z) : Prop := 0 <= z < 2 ^ 32.
Definition is_u64 (z : Z) : Prop := 0 <= z < 2 ^ 64.

Create HintDb go discriminated.
Create HintDb wordsize discriminated.

Lemma u32_range z : is_u32 (u32 z).
Proof. apply Z.mod_pos_bound. lia. Qed.

Lemma u64_range z : is_u64 (u64 z).
Proof. apply Z.mod_pos_bound. lia. Qed.

Lemma u32_id z : is_u32 z -> u32 z = z.
Proof. apply Z.mod_small. Qed.

Lemma u64_id z : is_u64 z -> u64 z = z.
Proof. apply Z.mod_small. Qed.

#[export] Hint Resolve u32_range u64_range : wordsize.

(** Addition of two 64-bit values either is exact or loses exactly [2^64]. *)
Lemma u64_add_cases a b :
  is_u64 a -> is_u64 b ->
  (a + b < 2 ^ 64 /\ u64 (a + b) = a + b) \/
  (2 ^ 64 <= a + b /\ u64 (a + b) = a + b - 2 ^ 64).
Proof.
  unfold is_u64, u64. intros Ha Hb.
  destruct (Z_lt_le_dec (a + b) (2 ^ 64)); [left | right]; split; try lia.
  - apply Z.mod_small. lia.
  - replace (a + b) with (a + b - 2 ^ 64 + 1 * 2 ^ 64) at 1 by lia.
    rewrite Z.mod_add by lia. apply Z.mod_small. lia.
Qed.

Lemma u32_add_cases a b :
  is_u32 a -> is_u32 b ->
  (a + b < 2 ^ 32 /\ u32 (a + b) = a + b) \/
  (2 ^ 32 <= a + b /\ u32 (a + b) = a + b - 2 ^ 32).
Proof.
  unfold is_u32, u32. intros Ha Hb.
  destruct (Z_lt_le_dec (a + b) (2 ^ 32)); [left | right]; split; try lia.
  - apply Z.mod_small. lia.
  - replace (a + b) with (a + b - 2 ^ 32 + 1 * 2 ^ 32) at 1 by lia.
    rewrite Z.mod_add by lia. apply Z.mod_small. lia.
Qed.

(** ** Octets *)

Definition byte_val (a : ascii) : Z := Z.of_N (N_of_ascii a).
Definition byte_of (z : Z) : ascii := ascii_of_N (Z.to_N (z mod 256)).

Lemma byte_val_range a : 0 <= byte_val a < 256.
Proof.
  unfold byte_val. pose proof (N_ascii_bounded a). lia.
Qed.

Lemma byte_val_of z : byte_val (byte_of z) = z mod 256.
Proof.
  unfold byte_val, byte_of. pose proof (Z.mod_pos_bound z 256 ltac:(lia)).
  rewrite N_ascii_embedding by lia. lia.
Qed.

Lemma byte_of_val a : byte_of (byte_val a) = a.
Proof.
  unfold byte_of, byte_val. pose proof (N_ascii_bounded a).
  rewrite Z.mod_small by lia. rewrite N2Z.id. apply ascii_N_embedding.
Qed.

(** *** Byte strings *)

#[global] Arguments String.append !s1 s2 / : assert.

Definition blen (b : bytes) : Z := Z.of_nat (String.length b).

(** [b[:n]] and [b[n:]]; bounds are checked by the callers that need it. *)
Fixpoint btake (n : nat) (b : bytes) : bytes :=
  match n, b with
  | S n', String c b' => String c (btake n' b')
  | _, _ => EmptyString
  end.

Fixpoint bdrop (n : nat) (b : bytes) : bytes :=
  match n, b with
  | S n', String _ b' => bdrop n' b'
  | O, _ => b
  | _, EmptyString => EmptyString
  end.

(** [make([]byte, n)]. *)
Fixpoint zeros (n : nat) : bytes :=
  match n with O => EmptyString | S n' => String "000"%char (zeros n') end.

(** [b[i]], [None] when out of range. *)
Definition bget (i : nat) (b : bytes) : option Z := byte_val <$> String.get i b.

Lemma string_length_app (a b : string) :
  String.length (a +:+ b) = (String.length a + String.length b)%nat.
Proof. induction a; simpl; auto. Qed.

Lemma string_app_nil_r (a : string) : a +:+ "" = a.
Proof. induction a; simpl; congruence. Qed.

Lemma string_app_assoc (a b c : string) : (a +:+ b) +:+ c = a +:+ (b +:+ c).
Proof. induction a; simpl; congruence. Qed.

Lemma btake_app n a b : String.length a = n -> btake n (a +:+ b) = a.
Proof. revert a. induction n; intros [|c a] H; simpl in *; try congruence; f_equal; auto. Qed.

Lemma bdrop_app n a b : String.length a = n -> bdrop n (a +:+ b) = b.
Proof. revert a. induction n; intros [|c a] H; simpl in *; try congruence; auto. Qed.

Lemma btake_app_le n a b : (n <= String.length a)%nat -> btake n (a +:+ b) = btake n a.
Proof. revert a. induction n; intros [|c a] H; simpl in *; try done; [lia|]. f_equal. apply IHn. lia. Qed.

Lemma btake_btake n m b : (n <= m)%nat -> btake n (btake m b) = btake n b.
Proof.
  revert m b. induction n; intros [|m] [|c b] H; simpl; try done; [lia|]. f_equal. apply IHn. lia.
Qed.

Lemma bdrop_add n m b : bdrop (n + m) b = bdrop m (bdrop n b).
Proof. revert b. induction n; intros [|c b]; simpl; auto. by destruct m. Qed.

Lemma btake_all n a : String.length a = n -> btake n a = a.
Proof. intros H. rewrite <- (string_app_nil_r a) at 1. by apply btake_app. Qed.

Lemma btake_bdrop n b : btake n b +:+ bdrop n b = b.
Proof. revert b. induction n; intros [|c b]; simpl; try done. by rewrite IHn. Qed.

Lemma length_btake n b : String.length (btake n b) = Nat.min n (String.length b).
Proof. revert b. induction n; intros [|c b]; simpl; auto. Qed.

Lemma length_bdrop n b : String.length (bdrop n b) = (String.length b - n)%nat.
Proof. revert b. induction n; intros [|c b]; simpl; auto. Qed.

Lemma length_zeros n : String.length (zeros n) = n.
Proof. induction n; simpl; auto. Qed.

Lemma string_app_inj_l (a a' b b' : string) :
  String.length a = String.length a' -> a +:+ b = a' +:+ b' -> a = a' /\ b = b'.
Proof.
  revert a'. induction a as [|c a IH]; intros [|c' a'] Hlen Heq; simpl in *; try discriminate; auto.
  injection Heq as -> Heq. destruct (IH a') as [-> ->]; auto.
Qed.

(** ** encoding/binary *)

(** [binary.LittleEndian.PutUintN] writes the [n] low octets, least significant
    first; [UintN] reads them back and panics when the slice is too short. *)
Fixpoint le_bytes (n : nat) (z : Z) : bytes :=
  match n with
  | O => EmptyString
  | S n' => String (byte_of z) (le_bytes n' (z / 256))
  end.

Fixpoint le_val (b : bytes) : Z :=
  match b with
  | EmptyString => 0
  | String c b' => byte_val c + 256 * le_val b'
  end.

(** Big endian, also the format of [big.Int.Bytes] and [big.Int.SetBytes]. *)
Fixpoint be_val_acc (acc : Z) (b : bytes) : Z :=
  match b with
  | EmptyString => acc
  | String c b' => be_val_acc (256 * acc + byte_val c) b'
  end.
Definition be_val : bytes -> Z := be_val_acc 0.

Fixpoint be_bytes (n : nat) (z : Z) : bytes :=
  match n with
  | O => EmptyString
  | S n' => be_bytes n' (z / 256) +:+ String (byte_of z) EmptyString
  end.

Lemma length_le_bytes n z : String.length (le_bytes n z) = n.
Proof. revert z. induction n; simpl; auto. Qed.

Lemma length_be_bytes n z : String.length (be_bytes n z) = n.
Proof.
  revert z. induction n; intros z; simpl; auto.
  rewrite string_length_app, IHn. simpl. lia.
Qed.

Lemma le_val_range b : 0 <= le_val b < 256 ^ blen b.
Proof.
  induction b as [|c b IH]; [unfold blen; cbn; lia|].
  unfold blen in *. cbn [le_val String.length].
  pose proof (byte_val_range c). rewrite Nat2Z.inj_succ, Z.pow_succ_r by lia. lia.
Qed.

(** Encoding then decoding returns the value truncated to the width. *)
Lemma le_val_bytes n z : le_val (le_bytes n z) = z mod 256 ^ Z.of_nat n.
Proof.
  revert z. induction n as [|n IH]; intros z.
  - cbn. by rewrite Z.mod_1_r.
  - cbn [le_bytes le_val]. rewrite byte_val_of, IH, Nat2Z.inj_succ, Z.pow_succ_r by lia.
    pose proof (Z.pow_pos_nonneg 256 (Z.of_nat n) ltac:(lia) ltac:(lia)).
    rewrite Z.rem_mul_r by lia. lia.
Qed.

Lemma le_bytes_val n b : String.length b = n -> le_bytes n (le_val b) = b.
Proof.
  revert b. induction n as [|n IH]; intros [|c b] H; cbn [String.length] in *;
    try discriminate; [done|].
  injection H as H. pose proof (byte_val_range c). cbn [le_bytes le_val]. f_equal.
  - rewrite <- (byte_of_val c) at 2. unfold byte_of.
    by rewrite (Z.mul_comm 256), Z.mod_add by lia.
  - rewrite (Z.mul_comm 256), Z.div_add by lia.
    rewrite (Z.div_small (byte_val c)), Z.add_0_l by lia. auto.
Qed.

Lemma le_bytes_inj n a b :
  0 <= a < 256 ^ Z.of_nat n -> 0 <= b < 256 ^ Z.of_nat n ->
  le_bytes n a = le_bytes n b -> a = b.
Proof.
  intros Ha Hb H. apply (f_equal le_val) in H. rewrite !le_val_bytes in H.
  by rewrite !Z.mod_small in H.
Qed.

Lemma be_val_acc_app acc a b :
  be_val_acc acc (a +:+ b) = be_val_acc (be_val_acc acc a) b.
Proof. revert acc. induction a; intros; simpl; auto. Qed.

Lemma be_val_bytes n z : be_val (be_bytes n z) = z mod 256 ^ Z.of_nat n.
Proof.
  unfold be_val. revert z. induction n as [|n IH]; intros z.
  - cbn. by rewrite Z.mod_1_r.
  - cbn [be_bytes]. rewrite be_val_acc_app, IH. cbn [be_val_acc].
    rewrite byte_val_of, Nat2Z.inj_succ, Z.pow_succ_r by lia.
    pose proof (Z.pow_pos_nonneg 256 (Z.of_nat n) ltac:(lia) ltac:(lia)).
    rewrite Z.rem_mul_r by lia. lia.
Qed.

(** ** Boolean tests *)

(** [bool_inv] turns the hypotheses that a boolean test gave [true] or [false] into
    propositions. *)
Ltac bool_inv :=
  repeat match goal with
  | H : bool_decide _ = true |- _ => apply bool_decide_eq_true in H
  | H : bool_decide (_ <> _) = false |- _ => apply bool_decide_eq_false, dec_stable in H
  | H : bool_decide _ = false |- _ => apply bool_decide_eq_false in H
  | H : negb _ = true |- _ => apply negb_true_iff in H
  | H : negb _ = false |- _ => apply negb_false_iff in H
  | H : _ && _ = true |- _ => apply andb_prop in H as [? ?]
  | H : _ || _ = false |- _ => apply orb_false_iff in H as [? ?]
  | H : (_ =? _) = true |- _ => apply Z.eqb_eq in H
  | H : (_ =? _) = false |- _ => apply Z.eqb_neq in H
  | H : (_ <? _) = true |- _ => apply Z.ltb_lt in H
  | H : (_ <? _) = false |- _ => apply Z.ltb_ge in H
  | H : (_ <=? _) = true |- _ => apply Z.leb_le in H
  | H : (_ <=? _) = false |- _ => apply Z.leb_gt in H
  | H : (_ =? _)%nat = true |- _ => apply Nat.eqb_eq in H
  | H : (_ =? _)%nat = false |- _ => apply Nat.eqb_neq in H
  end.

(** ** Sums over maps *)

Section msum.
Context {K A : Type} `{Countable K} (f : A -> Z).

Definition msum (m : gmap K A) : Z := map_fold (fun _ v n => f v + n) 0 m.

Lemma msum_empty : msum ∅ = 0.
Proof. apply map_fold_empty. Qed.

Lemma msum_insert_new k v m : m !! k = None -> msum (<[k := v]> m) = f v + msum m.
Proof. intros Hk. unfold msum. rewrite map_fold_insert_L; [done| |done]. intros. lia. Qed.

Lemma msum_delete k m : msum m = from_option f 0 (m !! k) + msum (delete k m).
Proof.
  destruct (m !! k) as [v|] eqn:Hk; simpl.
  - rewrite <- (msum_insert_new k) by apply lookup_delete_eq. by rewrite insert_delete_id.
  - by rewrite delete_id.
Qed.

(** Replacing one entry changes the sum by the difference. *)
Lemma msum_insert k v m :
  msum (<[k := v]> m) = msum m - from_option f 0 (m !! k) + f v.
Proof.
  rewrite (msum_delete k (<[k := v]> m)), lookup_insert_eq, delete_insert_eq. simpl.
  rewrite (msum_delete k m). lia.
Qed.

Lemma msum_nonneg m : (forall v, 0 <= f v) -> 0 <= msum m.
Proof.
  intros Hf. induction m as [|k v m Hk IH] using map_ind; [by rewrite msum_empty|].
  rewrite msum_insert_new by done. specialize (Hf v). lia.
Qed.
End msum.
