(* ===== verification/GoMonad.v ===== *)
(** * Go functions as state-passing computations

    A Go method that reads and writes an object of type [S], and returns a value
    of type [A] and an [error], is a function [S -> S * outcome A].  The state is
    returned whatever the outcome is: Go code that returns an error does not undo
    the writes it has already made.  A run-time panic (nil dereference, index out
    of range, slice too short) is an outcome of its own.

    The file holds the error values with [errors.Is], the monad and its notations
    (stdpp's [x ← m; k]), the inversion lemmas that take a successful run apart,
    and a small logic for relations kept by a computation ([keeps]). *)

From stdpp Require Import base option list strings.
From S2P Require Import Prelude.

(** ** Errors *)

(** [Sentinel] is a package-level error variable, identified by its name;
    [Errorf] is [fmt.Errorf] or [errors.New] without [%w]; [Wrap] is [fmt.Errorf]
    with [%w], which [errors.Is] sees through. *)
Inductive error :=
| Sentinel (name : string)
| Errorf (msg : string)
| Wrap (msg : string) (e : error).

#[export] Instance error_eq_dec : EqDecision error.
Proof. solve_decision. Defined.

(** [errors.Is(e, target)]. *)
Fixpoint errors_is (e target : error) : bool :=
  bool_decide (e = target) ||
  match e with
  | Wrap _ e' => errors_is e' target
  | _ => false
  end.

Lemma errors_is_refl e : errors_is e e = true.
Proof. destruct e; simpl; by rewrite bool_decide_true. Qed.

Lemma errors_is_wrap msg e target : errors_is e target = true -> errors_is (Wrap msg e) target = true.
Proof. intros H. simpl. rewrite H. apply orb_true_r. Qed.

Lemma errors_is_sentinel n n' : errors_is (Sentinel n) (Sentinel n') = bool_decide (n = n').
Proof.
  simpl. rewrite orb_false_r. apply bool_decide_ext. split; [by intros [=] | by intros ->].
Qed.

Lemma errors_is_errorf msg n : errors_is (Errorf msg) (Sentinel n) = false.
Proof. reflexivity. Qed.

(** ** Outcomes *)

Inductive outcome (A : Type) :=
| Ok (a : A)
| Err (e : error)
| Panic (why : string).
Arguments Ok {A} a.
Arguments Err {A} e.
Arguments Panic {A} why.

#[export] Instance outcome_ret : MRet outcome := @Ok.
#[export] Instance outcome_bind : MBind outcome :=
  fun A B f m => match m with Ok a => f a | Err e => Err e | Panic w => Panic w end.
#[export] Instance outcome_fmap : FMap outcome :=
  fun A B f m => match m with Ok a => Ok (f a) | Err e => Err e | Panic w => Panic w end.

(** Calls into third-party code return a value or an error, and no panic. *)
Definition of_sum {A} (r : error + A) : outcome A :=
  match r with inl e => Err e | inr a => Ok a end.

(** [fmt.Errorf("msg: %w", err)] on the error path. *)
Definition wrapping_out {A} (msg : string) (o : outcome A) : outcome A :=
  match o with Err e => Err (Wrap msg e) | _ => o end.

(** [if b { return err }] in a function without state. *)
Definition check (b : bool) (e : error) : outcome unit := if b then Err e else Ok tt.

Definition is_ok {A} (o : outcome A) : bool := match o with Ok _ => true | _ => false end.
Definition is_panic {A} (o : outcome A) : bool := match o with Panic _ => true | _ => false end.

Lemma outcome_bind_Ok {A B} (m : outcome A) (f : A -> outcome B) b :
  m ≫= f = Ok b <-> exists a, m = Ok a /\ f a = Ok b.
Proof. destruct m; simpl; split; [eauto | naive_solver | done | naive_solver | done | naive_solver]. Qed.

Lemma check_Ok b e u : check b e = Ok u <-> b = false.
Proof. destruct b, u; simpl; split; by intros. Qed.

Lemma of_sum_Ok {A} (r : error + A) a : of_sum r = Ok a <-> r = inr a.
Proof. destruct r; simpl; split; by intros [= ->] || done. Qed.

Lemma of_sum_not_panic {A} (r : error + A) w : of_sum r <> Panic w.
Proof. by destruct r. Qed.

Lemma wrapping_out_Ok {A} msg (o : outcome A) a : wrapping_out msg o = Ok a <-> o = Ok a.
Proof. destruct o; simpl; split; by intros. Qed.

(** ** The monad *)

Definition GoM (S A : Type) : Type := S -> S * outcome A.

#[export] Instance gom_ret {S} : MRet (GoM S) := fun A a s => (s, Ok a).
#[export] Instance gom_bind {S} : MBind (GoM S) :=
  fun A B f m s =>
    match m s with
    | (s', Ok a) => f a s'
    | (s', Err e) => (s', Err e)
    | (s', Panic w) => (s', Panic w)
    end.

Definition lift {S A} (o : outcome A) : GoM S A := fun s => (s, o).
Definition throw {S A} (e : error) : GoM S A := lift (Err e).
Definition panic {S A} (why : string) : GoM S A := lift (Panic why).
Definition get {S} : GoM S S := fun s => (s, Ok s).
Definition gets {S A} (f : S -> A) : GoM S A := fun s => (s, Ok (f s)).
Definition put {S} (s : S) : GoM S unit := fun _ => (s, Ok tt).
Definition modify {S} (f : S -> S) : GoM S unit := fun s => (f s, Ok tt).

(** [if b { return err }]. *)
Definition reject {S} (b : bool) (e : error) : GoM S unit := lift (check b e).

(** [if err := m; err != nil { return fmt.Errorf("msg: %w", err) }]. *)
Definition wrapping {S A} (msg : string) (m : GoM S A) : GoM S A :=
  fun s => let (s', o) := m s in (s', wrapping_out msg o).

(** The error is replaced by a fresh one ([fmt.Errorf] with [%s] or [%v]). *)
Definition replacing {S A} (msg : string) (m : GoM S A) : GoM S A :=
  fun s => match m s with (s', Err _) => (s', Err (Errorf msg)) | r => r end.

(** [x, err := m], the error being inspected by the code that follows. *)
Definition catch {S A} (m : GoM S A) : GoM S (error + A) :=
  fun s => match m s with
           | (s', Ok a) => (s', Ok (inr a))
           | (s', Err e) => (s', Ok (inl e))
           | (s', Panic w) => (s', Panic w)
           end.

(** [defer cleanup(); m]. *)
Definition deferring {S A} (cleanup : S -> S) (m : GoM S A) : GoM S A :=
  fun s => let (s', o) := m s in (cleanup s', o).

(** [if err := m; err != nil { log }]. *)
Definition logged {S A} (m : GoM S A) : GoM S unit := catch m;; mret tt.

(** A computation on a component of the state. *)
Definition zoom {S T A} (proj : S -> T) (inj : T -> S -> S) (m : GoM T A) : GoM S A :=
  fun s => let (t, o) := m (proj s) in (inj t s, o).

Fixpoint mfor {S A} (l : list A) (body : A -> GoM S unit) : GoM S unit :=
  match l with
  | [] => mret tt
  | x :: l' => body x;; mfor l' body
  end.

Declare Scope go_scope.
Delimit Scope go_scope with go.
Notation "'when' b 'return' e ; k" := (reject b e ;; k)
  (at level 100, b at level 200, e at level 200, k at level 200, right associativity) : go_scope.

(** ** Taking a run apart *)

Section runs.
Context {S : Type}.
Implicit Types s : S.

Lemma bind_run {A B} (m : GoM S A) (f : A -> GoM S B) s s' r :
  (m ≫= f) s = (s', r) <->
  (exists a s1, m s = (s1, Ok a) /\ f a s1 = (s', r)) \/
  (exists e, m s = (s', Err e) /\ r = Err e) \/
  (exists w, m s = (s', Panic w) /\ r = Panic w).
Proof.
  unfold mbind, gom_bind. destruct (m s) as [s1 [a|e|w]]; split; intros H; naive_solver.
Qed.

Lemma bind_Ok {A B} (m : GoM S A) (f : A -> GoM S B) s s' b :
  (m ≫= f) s = (s', Ok b) <-> exists a s1, m s = (s1, Ok a) /\ f a s1 = (s', Ok b).
Proof. rewrite bind_run. split; naive_solver. Qed.

Lemma bind_run_Ok {A B} (m : GoM S A) (f : A -> GoM S B) s s1 a :
  m s = (s1, Ok a) -> (m ≫= f) s = f a s1.
Proof. unfold mbind, gom_bind. by intros ->. Qed.

Lemma bind_run_Err {A B} (m : GoM S A) (f : A -> GoM S B) s s1 e :
  m s = (s1, Err e) -> (m ≫= f) s = (s1, Err e).
Proof. unfold mbind, gom_bind. by intros ->. Qed.

Lemma bind_gets {A B} (f : S -> A) (k : A -> GoM S B) s : (gets f ≫= k) s = k (f s) s.
Proof. reflexivity. Qed.

Lemma lift_Ok {A} (o : outcome A) s s' a : lift o s = (s', Ok a) <-> s' = s /\ o = Ok a.
Proof. unfold lift. naive_solver. Qed.

Lemma reject_Ok b e s s' u : reject b e s = (s', Ok u) <-> s' = s /\ b = false.
Proof. unfold reject. rewrite lift_Ok, check_Ok. done. Qed.

Lemma throw_Ok {A} e s s' (a : A) : throw e s = (s', Ok a) <-> False.
Proof. unfold throw, lift. naive_solver. Qed.

Lemma panic_Ok {A} w s s' (a : A) : panic w s = (s', Ok a) <-> False.
Proof. unfold panic, lift. naive_solver. Qed.

Lemma ret_Ok {A} (a b : A) s s' : (mret a : GoM S A) s = (s', Ok b) <-> s' = s /\ a = b.
Proof. unfold mret, gom_ret. naive_solver. Qed.

Lemma gets_Ok {A} (f : S -> A) s s' a : gets f s = (s', Ok a) <-> s' = s /\ a = f s.
Proof. unfold gets. naive_solver. Qed.

Lemma modify_Ok (f : S -> S) s s' u : modify f s = (s', Ok u) <-> s' = f s.
Proof. unfold modify. destruct u. naive_solver. Qed.

Lemma wrapping_Ok {A} msg (m : GoM S A) s s' a :
  wrapping msg m s = (s', Ok a) <-> m s = (s', Ok a).
Proof. unfold wrapping. destruct (m s) as [s1 []]; simpl; naive_solver. Qed.

Lemma wrapping_Err {A} msg (m : GoM S A) s s' e :
  m s = (s', Err e) -> wrapping msg m s = (s', Err (Wrap msg e)).
Proof. unfold wrapping. by intros ->. Qed.

Lemma wrapping_state {A} msg (m : GoM S A) s : (wrapping msg m s).1 = (m s).1.
Proof. unfold wrapping. by destruct (m s). Qed.

Lemma replacing_Ok {A} msg (m : GoM S A) s s' a :
  replacing msg m s = (s', Ok a) <-> m s = (s', Ok a).
Proof. unfold replacing. destruct (m s) as [s1 []]; simpl; naive_solver. Qed.

Lemma catch_Ok {A} (m : GoM S A) s s' r :
  catch m s = (s', Ok r) <->
  (exists a, m s = (s', Ok a) /\ r = inr a) \/ (exists e, m s = (s', Err e) /\ r = inl e).
Proof. unfold catch. destruct (m s) as [s1 []]; simpl; naive_solver. Qed.

Lemma deferring_Ok {A} f (m : GoM S A) s s' a :
  deferring f m s = (s', Ok a) <-> exists s1, m s = (s1, Ok a) /\ s' = f s1.
Proof. unfold deferring. destruct (m s) as [s1 o]; simpl; naive_solver. Qed.

Lemma zoom_run {T A} proj inj (m : GoM T A) s s' r :
  zoom proj inj m s = (s', r) <-> exists t, m (proj s) = (t, r) /\ s' = inj t s.
Proof. unfold zoom. destruct (m (proj s)) as [t o]; naive_solver. Qed.
End runs.

(** [go_inv] decomposes every hypothesis that says a computation ran to [Ok]. *)
Ltac go_inv1 :=
  match goal with
  | H : (_ ≫= _) ?s = (_, Ok _) |- _ =>
      let a := fresh "a" in let s1 := fresh "s" in let Hm := fresh "Hrun" in
      apply bind_Ok in H as (a & s1 & Hm & H)
  | H : lift _ _ = (_, Ok _) |- _ => apply lift_Ok in H as [? H]; subst
  | H : reject _ _ _ = (_, Ok _) |- _ => apply reject_Ok in H as [? H]; subst
  | H : throw _ _ = (_, Ok _) |- _ => apply throw_Ok in H; destruct H
  | H : panic _ _ = (_, Ok _) |- _ => apply panic_Ok in H; destruct H
  | H : mret _ _ = (_, Ok _) |- _ => apply ret_Ok in H as [? ?]; subst
  | H : gets _ _ = (_, Ok _) |- _ => apply gets_Ok in H as [? ?]; subst
  | H : modify _ _ = (_, Ok _) |- _ => apply modify_Ok in H; subst
  | H : wrapping _ _ _ = (_, Ok _) |- _ => apply wrapping_Ok in H
  | H : replacing _ _ _ = (_, Ok _) |- _ => apply replacing_Ok in H
  | H : of_sum _ = Ok _ |- _ => apply of_sum_Ok in H
  | H : check _ _ = Ok _ |- _ => apply check_Ok in H
  | H : wrapping_out _ _ = Ok _ |- _ => apply wrapping_out_Ok in H
  | H : _ ≫= _ = Ok _ |- _ =>
      let a := fresh "a" in let Hm := fresh "Hrun" in
      apply outcome_bind_Ok in H as (a & Hm & H)
  | H : Ok _ = Ok _ |- _ => injection H as H; subst
  | H : (_, Ok _) = (_, Ok _) |- _ => injection H as ? ?; subst
  | H : Err _ = Ok _ |- _ => discriminate H
  | H : Panic _ = Ok _ |- _ => discriminate H
  | H : (_, Err _) = (_, Ok _) |- _ => discriminate H
  | H : (_, Panic _) = (_, Ok _) |- _ => discriminate H
  end.
Ltac go_inv := repeat go_inv1.

(** [go_run] executes the monadic operations of a goal, up to the first branch on
    something unknown. *)
Ltac go_run :=
  cbv beta iota zeta delta
    [mbind mret gom_bind gom_ret outcome_bind outcome_ret lift throw panic get gets put modify
     reject check wrapping wrapping_out replacing catch deferring zoom of_sum].

Lemma logged_run {S A} (m : GoM S A) s s' o : m s = (s', o) -> is_panic o = false -> logged m s = (s', Ok tt).
Proof. intros Hm Ho. unfold logged. go_run. rewrite Hm. by destruct o. Qed.

Lemma mfor_app {S A} (l1 l2 : list A) (body : A -> GoM S unit) s s1 :
  mfor l1 body s = (s1, Ok tt) -> mfor (l1 ++ l2) body s = mfor l2 body s1.
Proof.
  revert s. induction l1 as [|x l1 IH]; intros s; [by intros [= ->]|]. cbn [mfor app]. intros Hrun.
  apply bind_Ok in Hrun as ([] & s2 & Hb & Hrun). erewrite bind_run_Ok by exact Hb. by apply IH.
Qed.

Lemma mfor_run {S A} (f : A -> GoM S unit) l x s s1 s' o :
  f x s = (s1, Ok tt) -> mfor l f s1 = (s', o) -> mfor (x :: l) f s = (s', o).
Proof. intros Hx Hl. cbn [mfor]. by rewrite (bind_run_Ok _ _ _ _ _ Hx). Qed.

(** A loop whose body returns and keeps an invariant. *)
Lemma mfor_invariant {S A} (I : S -> Prop) (f : A -> GoM S unit) l s :
  Forall (fun x => forall s, I s -> exists s', f x s = (s', Ok tt) /\ I s') l -> I s ->
  exists s', mfor l f s = (s', Ok tt) /\ I s'.
Proof.
  intros Hf. revert s. induction Hf as [|x l Hx _ IH]; intros s Hs; [by exists s|].
  destruct (Hx s Hs) as (s1 & Hrun & Hs1). destruct (IH s1 Hs1) as (s' & Hl & Hs'). exists s'. split; [|done].
  by apply (mfor_run f l x s s1).
Qed.

(** ** Relations kept by a computation *)

(** [keeps R m]: whatever the outcome, the states before and after are related. *)
Definition keeps {S A} (R : S -> S -> Prop) (m : GoM S A) : Prop := forall s, R s (m s).1.

Create HintDb keeps discriminated.

Section keeps.
Context {S : Type} (R : S -> S -> Prop) `{!PreOrder R}.

Lemma keeps_run {A} (m : GoM S A) s s' r : keeps R m -> m s = (s', r) -> R s s'.
Proof. intros H Hm. specialize (H s). by rewrite Hm in H. Qed.

Lemma keeps_ret {A} (a : A) : keeps R (mret a).
Proof. intros s. simpl. reflexivity. Qed.

Lemma keeps_lift {A} (o : outcome A) : keeps R (lift o).
Proof. intros s. simpl. reflexivity. Qed.

Lemma keeps_throw {A} e : keeps R (throw (A:=A) e).
Proof. apply keeps_lift. Qed.

Lemma keeps_panic {A} w : keeps R (panic (A:=A) w).
Proof. apply keeps_lift. Qed.

Lemma keeps_reject b e : keeps R (reject b e).
Proof. apply keeps_lift. Qed.

Lemma keeps_gets {A} (f : S -> A) : keeps R (gets f).
Proof. intros s. simpl. reflexivity. Qed.

Lemma keeps_bind {A B} (m : GoM S A) (f : A -> GoM S B) :
  keeps R m -> (forall a, keeps R (f a)) -> keeps R (m ≫= f).
Proof.
  intros Hm Hf s. specialize (Hm s). unfold mbind, gom_bind.
  destruct (m s) as [s1 [a|e|w]]; simpl in *; auto. etrans; [exact Hm | apply Hf].
Qed.

(** The same from one state, where the continuation may use how [m] ran. *)
Lemma kept_bind {A B} (m : GoM S A) (f : A -> GoM S B) s :
  R s (m s).1 -> (forall a s1, m s = (s1, Ok a) -> R s1 (f a s1).1) -> R s ((m ≫= f) s).1.
Proof.
  intros Hm Hf. unfold mbind, gom_bind. destruct (m s) as [s1 [a|e|w]]; simpl in *; auto.
  etrans; [exact Hm | by apply Hf].
Qed.

Lemma keeps_wrapping {A} msg (m : GoM S A) : keeps R m -> keeps R (wrapping msg m).
Proof. intros H s. specialize (H s). unfold wrapping. by destruct (m s). Qed.

Lemma keeps_replacing {A} msg (m : GoM S A) : keeps R m -> keeps R (replacing msg m).
Proof. intros H s. specialize (H s). unfold replacing. by destruct (m s) as [? []]. Qed.

Lemma keeps_catch {A} (m : GoM S A) : keeps R m -> keeps R (catch m).
Proof. intros H s. specialize (H s). unfold catch. by destruct (m s) as [? []]. Qed.

Lemma keeps_deferring {A} f (m : GoM S A) :
  (forall s, R s (f s)) -> keeps R m -> keeps R (deferring f m).
Proof.
  intros Hf H s. specialize (H s). unfold deferring. destruct (m s) as [s1 o]; simpl in *.
  etrans; [exact H | apply Hf].
Qed.

Lemma keeps_mfor {A} (l : list A) body :
  (forall x, keeps R (body x)) -> keeps R (mfor l body).
Proof.
  intros Hb. induction l as [|x l IH]; simpl; [apply keeps_ret|].
  apply keeps_bind; auto.
Qed.
End keeps.

(** A kept relation may be weakened, and strengthened by another kept one. *)
Lemma keeps_impl {S A} (R R' : S -> S -> Prop) (m : GoM S A) :
  (forall s s', R s s' -> R' s s') -> keeps R m -> keeps R' m.
Proof. intros H Hm s. auto. Qed.

Lemma keeps_and {S A} (R R' : S -> S -> Prop) (m : GoM S A) :
  keeps R m -> keeps R' m -> keeps (fun s s' => R s s' /\ R' s s') m.
Proof. intros H H' s. auto. Qed.

#[export] Hint Resolve keeps_ret keeps_lift keeps_throw keeps_panic keeps_reject keeps_gets
  keeps_wrapping keeps_replacing keeps_catch keeps_mfor : keeps.

(** [keeps_auto] walks the structure of a computation. *)
Ltac keeps_step :=
  match goal with
  | |- keeps _ (_ ≫= _) => apply keeps_bind; [eauto with typeclass_instances | | intros ?]
  | |- keeps _ (match ?x with _ => _ end) => destruct x
  | |- keeps _ (let _ := _ in _) => cbv zeta
  | |- keeps _ (wrapping _ _) => apply keeps_wrapping
  | |- keeps _ (replacing _ _) => apply keeps_replacing
  | |- keeps _ (catch _) => apply keeps_catch
  | |- keeps _ (mfor _ _) => apply keeps_mfor; [eauto with typeclass_instances | intros ?]
  | |- keeps _ _ => solve [eauto with keeps typeclass_instances]
  end.
Ltac keeps_auto := repeat keeps_step.

(** The same for the run from one state. *)
Ltac kept_auto :=
  match goal with |- ?R ?s (?m ?s).1 => refine ((_ : keeps R m) s); keeps_auto end.
