(* ===== verification/GoLib.v ===== *)
(** * The parts of Go's standard library the node relies on

    [path.Clean] and [path.Join] (used to build database keys), [encoding/hex] and
    the [%x] verb, [encoding/binary] with its panics, and decimal [big.Int]
    parsing.  They are part of the language's library, so they are modelled by
    executable functions. *)

From stdpp Require Import base option list strings pretty.
From Stdlib Require Import Ascii String ZArith Lia.
From S2P Require Import Prelude GoMonad.

(** ** path *)

Definition slash : ascii := "/"%char.

(** The elements between slashes, empty ones included. *)
Fixpoint split_on (sep : ascii) (s : string) : list string :=
  match s with
  | EmptyString => [""]
  | String c s' =>
      if bool_decide (c = sep) then "" :: split_on sep s'
      else match split_on sep s' with
           | [] => [String c ""]
           | x :: xs => String c x :: xs
           end
  end.

Fixpoint join_with (sep : string) (l : list string) : string :=
  match l with
  | [] => ""
  | [x] => x
  | x :: l' => x +:+ sep +:+ join_with sep l'
  end.

(** One pass over the elements with a stack of the kept ones, innermost first. *)
Fixpoint clean_elems (rooted : bool) (kept : list string) (l : list string) : list string :=
  match l with
  | [] => rev kept
  | x :: l' =>
      if bool_decide (x = "") || bool_decide (x = ".") then clean_elems rooted kept l'
      else if bool_decide (x = "..") then
        match kept with
        | y :: ys =>
            if bool_decide (y = "..") then clean_elems rooted (".." :: kept) l'
            else clean_elems rooted ys l'
        | [] => if rooted then clean_elems rooted [] l' else clean_elems rooted [".."] l'
        end
      else clean_elems rooted (x :: kept) l'
  end.

Definition path_Clean (p : string) : string :=
  let rooted := match p with String c _ => bool_decide (c = slash) | _ => false end in
  let body := join_with "/" (clean_elems rooted [] (split_on slash p)) in
  if rooted then "/" +:+ body
  else if bool_decide (body = "") then "." else body.

Definition path_Join (l : list string) : string :=
  match List.filter (fun x => negb (bool_decide (x = ""))) l with
  | [] => ""
  | l' => path_Clean (join_with "/" l')
  end.

Example path_Clean_ex1 : path_Clean "a//b/../c/." = "a/c". Proof. reflexivity. Qed.
Example path_Clean_ex2 : path_Clean "/../a" = "/a". Proof. reflexivity. Qed.
Example path_Clean_ex3 : path_Clean "" = ".". Proof. reflexivity. Qed.
Example path_Clean_ex4 : path_Clean "../../x/" = "../../x". Proof. reflexivity. Qed.
Example path_Join_ex1 : path_Join ["m"; "v"] = "m/v". Proof. reflexivity. Qed.
Example path_Join_ex2 : path_Join ["s"; "votes/../x"] = "s/x". Proof. reflexivity. Qed.

(** A path element that [Clean] leaves alone: not empty, no slash, not a dot name. *)
Definition plain_elem (s : string) : bool :=
  negb (bool_decide (s = "")) && negb (bool_decide (s = ".")) && negb (bool_decide (s = ".."))
  && bool_decide (split_on slash s = [s]).

Lemma split_on_plain s t :
  split_on slash s = [s] -> split_on slash (s +:+ String slash t) = s :: split_on slash t.
Proof.
  revert t. induction s as [|c s IH]; intros t; [done|].
  cbn [split_on String.append]. case_bool_decide as Hc.
  { subst. by intros [=]. }
  destruct (split_on slash s) as [|x xs] eqn:E; [intros [= ->]|intros [= -> ->]].
  - (* the split of a string is never empty *)
    destruct s; simpl in E; [done|]. case_bool_decide; [done|]. by destruct (split_on slash s).
  - by rewrite IH.
Qed.

(** Joining two plain elements puts one slash between them. *)
Lemma path_Join_plain a b :
  plain_elem a = true -> plain_elem b = true -> path_Join [a; b] = a +:+ "/" +:+ b.
Proof.
  unfold plain_elem. intros Ha Hb.
  repeat (apply andb_prop in Ha as [Ha ?]; apply andb_prop in Hb as [Hb ?]).
  repeat match goal with
  | H : negb (bool_decide _) = true |- _ => apply negb_true_iff, bool_decide_eq_false in H
  | H : bool_decide _ = true |- _ => apply bool_decide_eq_true in H
  end.
  unfold path_Join. cbn [List.filter]. rewrite !bool_decide_eq_false_2 by done.
  cbn [negb join_with]. unfold path_Clean.
  assert (Hsplit : split_on slash (a +:+ "/" +:+ b) = [a; b]).
  { change ("/" +:+ b) with (String slash b). rewrite split_on_plain by done. congruence. }
  assert (Hroot : match a +:+ "/" +:+ b with
                  | EmptyString => false | String c _ => bool_decide (c = slash) end = false).
  { destruct a as [|c a]; [done|]. cbn [String.append].
    apply bool_decide_eq_false_2. intros ->.
    match goal with H : split_on slash (String slash a) = _ |- _ => simpl in H; congruence end. }
  rewrite Hroot, Hsplit. cbn [clean_elems].
  rewrite (bool_decide_eq_false_2 (a = "")), (bool_decide_eq_false_2 (a = ".")),
    (bool_decide_eq_false_2 (a = "..")), (bool_decide_eq_false_2 (b = "")),
    (bool_decide_eq_false_2 (b = ".")), (bool_decide_eq_false_2 (b = "..")) by done.
  cbn [orb rev app join_with].
  rewrite bool_decide_eq_false_2; [done|]. by destruct a.
Qed.

(** ** encoding/hex and the verb [%x] *)

Definition hex_digit (z : Z) : ascii :=
  if z <? 10 then byte_of (48 + z) else byte_of (87 + z).

Fixpoint hex_encode (b : bytes) : string :=
  match b with
  | EmptyString => ""
  | String c b' =>
      String (hex_digit (byte_val c / 16)) (String (hex_digit (byte_val c mod 16)) (hex_encode b'))
  end.

Definition hex_val (c : ascii) : option Z :=
  let v := byte_val c in
  if (48 <=? v) && (v <=? 57) then Some (v - 48)
  else if (97 <=? v) && (v <=? 102) then Some (v - 87)
  else if (65 <=? v) && (v <=? 70) then Some (v - 55)
  else None.

(** [hex.DecodeString]: an odd length or a non-digit is an error. *)
Fixpoint hex_decode (s : string) : option bytes :=
  match s with
  | EmptyString => Some ""
  | String c1 (String c2 s') =>
      v1 ← hex_val c1; v2 ← hex_val c2; b ← hex_decode s'; Some (String (byte_of (16 * v1 + v2)) b)
  | _ => None
  end.

Lemma hex_val_digit z : 0 <= z < 16 -> hex_val (hex_digit z) = Some z.
Proof.
  intros H. assert (z = 0 \/ z = 1 \/ z = 2 \/ z = 3 \/ z = 4 \/ z = 5 \/ z = 6 \/ z = 7 \/ z = 8
    \/ z = 9 \/ z = 10 \/ z = 11 \/ z = 12 \/ z = 13 \/ z = 14 \/ z = 15) as Hz by lia.
  repeat destruct Hz as [-> | Hz]; try reflexivity. subst. reflexivity.
Qed.

Lemma hex_decode_encode b : hex_decode (hex_encode b) = Some b.
Proof.
  induction b as [|c b IH]; [done|].
  pose proof (byte_val_range c). cbn [hex_encode hex_decode].
  rewrite (hex_val_digit (byte_val c / 16))
    by (split; [apply Z.div_pos; lia | apply Z.div_lt_upper_bound; lia]).
  rewrite (hex_val_digit (byte_val c mod 16)) by (apply Z.mod_pos_bound; lia).
  simpl. rewrite IH. simpl. do 2 f_equal.
  rewrite <- (byte_of_val c) at 3. f_equal.
  rewrite <- Z.div_mod by lia. done.
Qed.

Lemma hex_encode_inj a b : hex_encode a = hex_encode b -> a = b.
Proof. intros H. apply (f_equal hex_decode) in H. rewrite !hex_decode_encode in H. congruence. Qed.

Lemma length_hex_encode b : String.length (hex_encode b) = (2 * String.length b)%nat.
Proof. induction b; simpl; lia. Qed.

(** ** encoding/binary *)

Definition LittleEndian_PutUint64 (z : Z) : bytes := le_bytes 8 z.
Definition LittleEndian_PutUint32 (z : Z) : bytes := le_bytes 4 z.

Definition LittleEndian_Uint64 (b : bytes) : outcome Z :=
  if (String.length b <? 8)%nat then Panic "index out of range" else Ok (le_val (btake 8 b)).
Definition LittleEndian_Uint32 (b : bytes) : outcome Z :=
  if (String.length b <? 4)%nat then Panic "index out of range" else Ok (le_val (btake 4 b)).

Lemma LittleEndian_Uint64_Put z :
  is_u64 z -> LittleEndian_Uint64 (LittleEndian_PutUint64 z) = Ok z.
Proof.
  intros Hz. unfold LittleEndian_Uint64, LittleEndian_PutUint64.
  rewrite length_le_bytes. cbn [Nat.ltb Nat.leb]. rewrite btake_all by apply length_le_bytes.
  rewrite le_val_bytes. f_equal. apply Z.mod_small, Hz.
Qed.

Lemma LittleEndian_Uint32_Put z :
  is_u32 z -> LittleEndian_Uint32 (LittleEndian_PutUint32 z) = Ok z.
Proof.
  intros Hz. unfold LittleEndian_Uint32, LittleEndian_PutUint32.
  rewrite length_le_bytes. cbn [Nat.ltb Nat.leb]. rewrite btake_all by apply length_le_bytes.
  rewrite le_val_bytes. f_equal. apply Z.mod_small, Hz.
Qed.

(** ** math/big *)

(** [big.Int.Bytes]: the minimal big-endian form of the absolute value. *)
Fixpoint trim_zeros (b : bytes) : bytes :=
  match b with
  | String c b' => if byte_val c =? 0 then trim_zeros b' else b
  | EmptyString => ""
  end.

Definition big_width (z : Z) : nat := S (Z.to_nat (Z.log2 (Z.abs z) / 8)).
Definition big_Bytes (z : Z) : bytes := trim_zeros (be_bytes (big_width z) (Z.abs z)).
Definition big_SetBytes (b : bytes) : Z := be_val b.

Lemma be_val_acc_trim b : be_val_acc 0 (trim_zeros b) = be_val_acc 0 b.
Proof.
  induction b as [|c b IH]; [done|]. cbn [trim_zeros be_val_acc].
  destruct (Z.eqb_spec (byte_val c) 0) as [E|E]; [|done].
  rewrite E. exact IH.
Qed.

(** A non-negative integer survives [Bytes] then [SetBytes]. *)
Lemma big_SetBytes_Bytes z : 0 <= z -> big_SetBytes (big_Bytes z) = z.
Proof.
  intros Hz. unfold big_SetBytes, big_Bytes, be_val. rewrite be_val_acc_trim.
  fold (be_val (be_bytes (big_width z) (Z.abs z))).
  rewrite be_val_bytes, Z.abs_eq by done. apply Z.mod_small. split; [done|].
  unfold big_width. rewrite Z.abs_eq by done.
  destruct (Z.eq_dec z 0) as [->|Hnz]; [reflexivity|].
  pose proof (Z.log2_nonneg z). pose proof (Z.log2_spec z ltac:(lia)) as [_ Hlt].
  pose proof (Z.div_pos (Z.log2 z) 8 ltac:(lia) ltac:(lia)).
  rewrite Nat2Z.inj_succ, Z2Nat.id by lia.
  replace 256 with (2 ^ 8) by reflexivity. rewrite <- Z.pow_mul_r by lia.
  eapply Z.lt_le_trans; [exact Hlt|]. apply Z.pow_le_mono_r; [lia|].
  pose proof (Z.mod_pos_bound (Z.log2 z) 8 ltac:(lia)).
  pose proof (Z.div_mod (Z.log2 z) 8 ltac:(lia)). lia.
Qed.

Definition dec_val (c : ascii) : option Z :=
  let v := byte_val c in if (48 <=? v) && (v <=? 57) then Some (v - 48) else None.

Fixpoint dec_parse (acc : Z) (s : string) : option Z :=
  match s with
  | EmptyString => Some acc
  | String c s' => d ← dec_val c; dec_parse (10 * acc + d) s'
  end.

(** [new(big.Int).SetString(s, 10)]: an optional sign and at least one digit. *)
Definition big_SetString10 (s : string) : option Z :=
  match s with
  | EmptyString => None
  | String c s' =>
      if bool_decide (c = "-"%char) then
        match s' with EmptyString => None | _ => Z.opp <$> dec_parse 0 s' end
      else if bool_decide (c = "+"%char) then
        match s' with EmptyString => None | _ => dec_parse 0 s' end
      else dec_parse 0 s
  end.

(** ** Slices *)

(** [b[i] = v], for an index in range. *)
Definition set_octet (i : nat) (v : Z) (b : bytes) : bytes :=
  btake i b +:+ String (byte_of v) (bdrop (S i) b).

(** [l[i]] and [l[i] = x]; an index out of range is a panic. *)
Definition slice_get {A} (l : list A) (i : Z) : outcome A :=
  if i <? 0 then Panic "index out of range"
  else match l !! Z.to_nat i with Some x => Ok x | None => Panic "index out of range" end.

Definition slice_set {A} (l : list A) (i : Z) (x : A) : outcome (list A) :=
  if (0 <=? i) && (i <? Z.of_nat (List.length l)) then Ok (<[Z.to_nat i := x]> l)
  else Panic "index out of range".

(** Dereference of a pointer. *)
Definition deref {A} (p : option A) : outcome A :=
  match p with Some x => Ok x | None => Panic "nil pointer dereference" end.

Lemma slice_set_Ok {A} (l : list A) i x l' :
  slice_set l i x = Ok l' <->
  0 <= i < Z.of_nat (List.length l) /\ l' = <[Z.to_nat i := x]> l.
Proof.
  unfold slice_set. destruct (Z.leb_spec 0 i), (Z.ltb_spec i (Z.of_nat (List.length l))); simpl;
    split; try (intros [=]; subst); try (intros [? ->]); auto; lia.
Qed.

Lemma slice_set_panics {A} (l : list A) i x :
  Z.of_nat (List.length l) <= i -> is_panic (slice_set l i x) = true.
Proof.
  intros Hi. unfold slice_set. destruct (Z.ltb_spec i (Z.of_nat (List.length l))); [lia|].
  by rewrite andb_false_r.
Qed.

Lemma deref_Ok {A} (p : option A) x : deref p = Ok x <-> p = Some x.
Proof. destruct p; simpl; split; by intros [= ->]. Qed.
