(* ===== verification/GoText.v ===== *)
(** * Numbers and JSON as text

    The parts of [math/big], [strconv] and [encoding/json] with which the indexer reads and
    writes votes: decimal printing, [big.Int.SetString] with base 0, and [json.Unmarshal] of a
    [VotePackage].  The decoder follows the steps of the Go one where they can be observed:
    the whole input is checked first, a field is found by its name or by case folding, a field
    that appears again is decoded over the slice of the first time, and an ill-typed value is
    an error of the whole call. *)

From stdpp Require Import base option list strings.
From Stdlib Require Import ZArith Lia Ascii.
From S2P Require Import Prelude GoMonad GoLib.

(** ** Decimal numbers *)

Definition dec_digit (d : Z) : ascii := byte_of (48 + d).

Fixpoint dec_digits (fuel : nat) (z : Z) (acc : string) : string :=
  match fuel with
  | O => acc
  | S fuel' =>
      let acc := String (dec_digit (z mod 10)) acc in
      if z / 10 =? 0 then acc else dec_digits fuel' (z / 10) acc
  end.

(** [big.Int.String]. *)
Definition big_String (z : Z) : string :=
  let n := Z.abs z in
  let ds := dec_digits (S (Z.to_nat (Z.log2 n))) n "" in
  if z <? 0 then String "-" ds else ds.

(** [strconv.ParseInt(s, 10, 64)]. *)
Definition ParseInt10_64 (s : string) : option Z :=
  z ← big_SetString10 s;
  if (- 2 ^ 63 <=? z) && (z <? 2 ^ 63) then Some z else None.

(** *** [big.Int.SetString(s, 0)]

    The base is read from the prefix, and underscores may separate digits. *)

Definition digit_val (c : ascii) : Z :=
  let v := byte_val c in
  if (48 <=? v) && (v <=? 57) then v - 48
  else if (97 <=? v) && (v <=? 122) then v - 97 + 10
  else if (65 <=? v) && (v <=? 90) then v - 65 + 10
  else 63.

Inductive seen := SeenSep | SeenDigit | SeenOther.

Record scanned := mkScanned {
  sc_val : Z;
  sc_count : nat;
  sc_prev : seen;
  sc_invalSep : bool;
  sc_rest : string
}.

Fixpoint scan_digits (base : Z) (r : scanned) (s : string) : scanned :=
  match s with
  | EmptyString => mkScanned (sc_val r) (sc_count r) (sc_prev r) (sc_invalSep r) ""
  | String c s' =>
      if bool_decide (c = "_"%char) then
        let bad := match sc_prev r with SeenDigit => sc_invalSep r | _ => true end in
        scan_digits base (mkScanned (sc_val r) (sc_count r) SeenSep bad "") s'
      else if base <=? digit_val c then
        mkScanned (sc_val r) (sc_count r) (sc_prev r) (sc_invalSep r) s
      else
        scan_digits base
          (mkScanned (base * sc_val r + digit_val c) (S (sc_count r)) SeenDigit (sc_invalSep r) "") s'
  end.

Definition no_digits (prev : seen) : scanned := mkScanned 0 0 prev false "".

(** [scan] of [nat]: [octal] tells that the prefix was a lone zero. *)
Definition scan_result (octal : bool) (r : scanned) : option Z :=
  if sc_invalSep r || match sc_prev r with SeenSep => true | _ => false end then None
  else if negb (bool_decide (sc_rest r = "")) then None
  else match sc_count r with
       | O => if octal then Some 0 else None
       | S _ => Some (sc_val r)
       end.

Definition scan_unsigned (s : string) : option Z :=
  match s with
  | String "0" EmptyString => Some 0
  | String "0" (String c s') =>
      let v := byte_val c in
      if (v =? 98) || (v =? 66) then scan_result false (scan_digits 2 (no_digits SeenDigit) s')
      else if (v =? 111) || (v =? 79) then scan_result false (scan_digits 8 (no_digits SeenDigit) s')
      else if (v =? 120) || (v =? 88) then scan_result false (scan_digits 16 (no_digits SeenDigit) s')
      else scan_result true (scan_digits 8 (no_digits SeenDigit) (String c s'))
  | _ => scan_result false (scan_digits 10 (no_digits SeenOther) s)
  end.

Definition big_SetString0 (s : string) : option Z :=
  match s with
  | String "-" s' => Z.opp <$> scan_unsigned s'
  | String "+" s' => scan_unsigned s'
  | _ => scan_unsigned s
  end.

(** ** JSON *)

Inductive json :=
| JNull
| JBool (b : bool)
| JNumber (lit : string)
| JString (s : string)
| JArray (l : list json)
| JObject (l : list (string * json)).

Definition is_space (c : ascii) : bool :=
  let v := byte_val c in (v =? 32) || (v =? 9) || (v =? 13) || (v =? 10).

Fixpoint skip_space (s : string) : string :=
  match s with
  | String c s' => if is_space c then skip_space s' else s
  | EmptyString => s
  end.

(** *** Strings *)

Definition between (a b : Z) (c : ascii) : bool := (a <=? byte_val c) && (byte_val c <=? b).

(** The octets of a rune, and of [unicode.ReplacementChar]. *)
Definition utf8_encode (r : Z) : bytes :=
  let cont x := byte_of (128 + x mod 64) in
  if r <? 128 then String (byte_of r) ""
  else if r <? 2048 then String (byte_of (192 + r / 64)) (String (cont r) "")
  else if r <? 65536 then
    String (byte_of (224 + r / 4096)) (String (cont (r / 64)) (String (cont r) ""))
  else
    String (byte_of (240 + r / 262144))
      (String (cont (r / 4096)) (String (cont (r / 64)) (String (cont r) ""))).

Definition replacement : bytes := utf8_encode 65533.

(** [utf8.DecodeRune] on a string that starts with a byte of 128 or more: the length of a
    well-formed sequence. *)
Definition utf8_len (s : bytes) : option nat :=
  match s with
  | String c0 (String c1 s1) =>
      if between 194 223 c0 then if between 128 191 c1 then Some 2%nat else None
      else if between 224 239 c0 then
        let lo := if byte_val c0 =? 224 then 160 else 128 in
        let hi := if byte_val c0 =? 237 then 159 else 191 in
        match s1 with
        | String c2 _ => if between lo hi c1 && between 128 191 c2 then Some 3%nat else None
        | EmptyString => None
        end
      else if between 240 244 c0 then
        let lo := if byte_val c0 =? 240 then 144 else 128 in
        let hi := if byte_val c0 =? 244 then 143 else 191 in
        match s1 with
        | String c2 (String c3 _) =>
            if between lo hi c1 && between 128 191 c2 && between 128 191 c3 then Some 4%nat else None
        | _ => None
        end
      else None
  | _ => None
  end.

Definition getu4 (a b c d : ascii) : option Z :=
  x ← hex_val a; y ← hex_val b; z ← hex_val c; w ← hex_val d;
  Some (4096 * x + 256 * y + 16 * z + w).

Definition is_surrogate (r : Z) : bool := (55296 <=? r) && (r <? 57344).

(** [utf16.DecodeRune]. *)
Definition utf16_decode (r1 r2 : Z) : option Z :=
  if (55296 <=? r1) && (r1 <? 56320) && (56320 <=? r2) && (r2 <? 57344)
  then Some ((r1 - 55296) * 1024 + (r2 - 56320) + 65536) else None.

Definition simple_escape (c : ascii) : option ascii :=
  let v := byte_val c in
  if (v =? 34) || (v =? 92) || (v =? 47) then Some c
  else if v =? 98 then Some (byte_of 8)
  else if v =? 102 then Some (byte_of 12)
  else if v =? 110 then Some (byte_of 10)
  else if v =? 114 then Some (byte_of 13)
  else if v =? 116 then Some (byte_of 9)
  else None.

(** The value of the literal whose opening quote was read, and what follows its closing
    quote.  [skip] octets are copied: they continue a well-formed sequence. *)
Fixpoint json_string (skip : nat) (s : string) : option (string * string) :=
  match skip, s with
  | _, EmptyString => None
  | S k, String c s1 => '(v, rest) ← json_string k s1; Some (String c v, rest)
  | O, String c s1 =>
      let v := byte_val c in
      if v =? 34 then Some ("", s1)
      else if v <? 32 then None
      else if v =? 92 then
        match s1 with
        | EmptyString => None
        | String e s2 =>
            if byte_val e =? 117 then
              match s2 with
              | String a (String b (String c' (String d s3))) =>
                  r ← getu4 a b c' d;
                  if is_surrogate r then
                    match s3 with
                    | String b1 (String u1 (String a' (String b' (String c'' (String d' s4))))) =>
                        match (if (byte_val b1 =? 92) && (byte_val u1 =? 117)
                               then getu4 a' b' c'' d' ≫= utf16_decode r else None) with
                        | Some dec => '(v, rest) ← json_string O s4; Some (utf8_encode dec +:+ v, rest)
                        | None => '(v, rest) ← json_string O s3; Some (replacement +:+ v, rest)
                        end
                    | _ => '(v, rest) ← json_string O s3; Some (replacement +:+ v, rest)
                    end
                  else '(v, rest) ← json_string O s3; Some (utf8_encode r +:+ v, rest)
              | _ => None
              end
            else
              x ← simple_escape e;
              '(v, rest) ← json_string O s2;
              Some (String x v, rest)
        end
      else if v <? 128 then '(v, rest) ← json_string O s1; Some (String c v, rest)
      else match utf8_len s with
           | Some n => '(v, rest) ← json_string (pred n) s1; Some (String c v, rest)
           | None => '(v, rest) ← json_string O s1; Some (replacement +:+ v, rest)
           end
  end.

(** *** Numbers *)

Definition is_digit (c : ascii) : bool := between 48 57 c.

Fixpoint take_digits (s : string) : string * string :=
  match s with
  | String c s' => if is_digit c then let '(d, r) := take_digits s' in (String c d, r) else ("", s)
  | EmptyString => ("", "")
  end.

(** One digit at least. *)
Definition digits1 (s : string) : option (string * string) :=
  let '(d, r) := take_digits s in if bool_decide (d = "") then None else Some (d, r).

Definition json_int (s : string) : option (string * string) :=
  match s with
  | String "0" s' => Some ("0", s')
  | _ => digits1 s
  end.

Definition json_frac (s : string) : option (string * string) :=
  match s with
  | String "." s' => '(d, r) ← digits1 s'; Some (String "." d, r)
  | _ => Some ("", s)
  end.

Definition json_exp (s : string) : option (string * string) :=
  match s with
  | String e s' =>
      if (byte_val e =? 101) || (byte_val e =? 69) then
        match s' with
        | String c s2 =>
            if (byte_val c =? 43) || (byte_val c =? 45)
            then '(d, r) ← digits1 s2; Some (String e (String c d), r)
            else '(d, r) ← digits1 s'; Some (String e d, r)
        | EmptyString => None
        end
      else Some ("", s)
  | EmptyString => Some ("", "")
  end.

Definition json_number (s : string) : option (string * string) :=
  let '(sign, s) := match s with String "-" s' => ("-", s') | _ => ("", s) end in
  '(i, s) ← json_int s;
  '(f, s) ← json_frac s;
  '(e, s) ← json_exp s;
  Some (sign +:+ i +:+ f +:+ e, s).

(** *** Values

    [depth] counts the open arrays and objects, which are limited to 10000. *)

Definition maxNestingDepth : Z := 10000.

Fixpoint strip_prefix (p s : string) : option string :=
  match p, s with
  | EmptyString, _ => Some s
  | String a p', String b s' => if bool_decide (a = b) then strip_prefix p' s' else None
  | _, _ => None
  end.

Lemma strip_prefix_app p s : strip_prefix p (p +:+ s) = Some s.
Proof. induction p as [|c p IH]; [by destruct s|]. cbn. by rewrite bool_decide_true. Qed.

Definition json_literal (s : string) : option (json * string) :=
  match strip_prefix "null" s with
  | Some r => Some (JNull, r)
  | None =>
      match strip_prefix "true" s with
      | Some r => Some (JBool true, r)
      | None =>
          match strip_prefix "false" s with
          | Some r => Some (JBool false, r)
          | None => '(n, r) ← json_number s; Some (JNumber n, r)
          end
      end
  end.

Fixpoint json_value (fuel : nat) (depth : Z) (s : string) : option (json * string) :=
  match fuel with
  | O => None
  | S fuel' =>
      let s := skip_space s in
      match s with
      | String "[" s1 =>
          if maxNestingDepth <? depth + 1 then None
          else match skip_space s1 with
               | String "]" s2 => Some (JArray [], s2)
               | _ => '(l, s2) ← json_elems fuel' (depth + 1) s1; Some (JArray l, s2)
               end
      | String "{" s1 =>
          if maxNestingDepth <? depth + 1 then None
          else match skip_space s1 with
               | String "}" s2 => Some (JObject [], s2)
               | _ => '(l, s2) ← json_members fuel' (depth + 1) s1; Some (JObject l, s2)
               end
      | String q s1 =>
          if byte_val q =? 34 then '(v, s2) ← json_string 0 s1; Some (JString v, s2)
          else json_literal s
      | EmptyString => None
      end
  end
with json_elems (fuel : nat) (depth : Z) (s : string) : option (list json * string) :=
  match fuel with
  | O => None
  | S fuel' =>
      '(v, s1) ← json_value fuel' depth s;
      match skip_space s1 with
      | String "," s2 => '(l, s3) ← json_elems fuel' depth s2; Some (v :: l, s3)
      | String "]" s2 => Some ([v], s2)
      | _ => None
      end
  end
with json_members (fuel : nat) (depth : Z) (s : string) : option (list (string * json) * string) :=
  match fuel with
  | O => None
  | S fuel' =>
      match skip_space s with
      | String q s1 =>
          if byte_val q =? 34 then
            '(k, s2) ← json_string 0 s1;
            match skip_space s2 with
            | String ":" s3 =>
                '(v, s4) ← json_value fuel' depth s3;
                match skip_space s4 with
                | String "," s5 => '(l, s6) ← json_members fuel' depth s5; Some ((k, v) :: l, s6)
                | String "}" s5 => Some ([(k, v)], s5)
                | _ => None
                end
            | _ => None
            end
          else None
      | EmptyString => None
      end
  end.

(** [checkValid]: one value and nothing but spaces after it. *)
Definition json_parse (s : string) : option json :=
  '(v, r) ← json_value (2 * String.length s + 2) 0 s;
  if bool_decide (skip_space r = "") then Some v else None.

(** *** The fields of a structure *)

Definition fold_mask (c : ascii) : Z := Z.land (byte_val c) 223.
Definition is_letter (z : Z) : bool := (65 <=? z) && (z <=? 90).

(** [equalFoldRight]: ASCII case folding, and the long s for an s.  A Kelvin sign for a k
    cannot appear in the names of the fields used here. *)
Fixpoint equalFoldRight (name key : string) : bool :=
  match name, key with
  | EmptyString, EmptyString => true
  | String a name', String b key' =>
      if byte_val b <? 128 then
        (bool_decide (a = b) || (is_letter (fold_mask a) && (fold_mask a =? fold_mask b)))
        && equalFoldRight name' key'
      else
        match key' with
        | String b2 key'' =>
            (fold_mask a =? 83) && (byte_val b =? 197) && (byte_val b2 =? 191) && equalFoldRight name' key''
        | EmptyString => false
        end
  | _, _ => false
  end.

(** The field of [fields] a key names: the exact one first. *)
Definition json_field (fields : list string) (key : string) : option string :=
  if bool_decide (key ∈ fields) then Some key
  else list_find (fun f => equalFoldRight f key = true) fields ≫= fun '(_, f) => Some f.

(** ** [json.Unmarshal] of a vote package

    The slice of the votes is kept as its backing array and its length, as a field that is
    repeated is decoded over the elements of the first time. *)

Record vote_slice := mkVoteSlice { vs_backing : list Z; vs_len : nat }.

Definition no_votes : vote_slice := mkVoteSlice [] 0.
Definition vs_list (v : vote_slice) : list Z := take (vs_len v) (vs_backing v).

(** Element [i]: [null] leaves it as it is. *)
Definition json_elem (i : nat) (v : json) (backing : list Z) : option (list Z) :=
  let backing := if (i <? List.length backing)%nat then backing else backing ++ [0] in
  match v with
  | JNull => Some backing
  | JNumber lit => n ← ParseInt10_64 lit; Some (<[i := n]> backing)
  | _ => None
  end.

Fixpoint json_ints (i : nat) (l : list json) (backing : list Z) : option (list Z) :=
  match l with
  | [] => Some backing
  | v :: l' => backing ← json_elem i v backing; json_ints (S i) l' backing
  end.

Definition json_votes (v : json) (old : vote_slice) : option vote_slice :=
  match v with
  | JNull | JArray [] => Some no_votes
  | JArray l => b ← json_ints 0 l (vs_backing old); Some (mkVoteSlice b (List.length l))
  | _ => None
  end.

Definition vote_fields : list string := ["nonce"; "votes"].

Fixpoint json_vote_fields (l : list (string * json)) (votes : vote_slice) : option vote_slice :=
  match l with
  | [] => Some votes
  | (k, v) :: l' =>
      votes ← match json_field vote_fields k with
              | None => Some votes
              | Some f =>
                  if bool_decide (f = "votes") then json_votes v votes
                  else match v with JNull | JString _ => Some votes | _ => None end
              end;
      json_vote_fields l' votes
  end.

(** [json.Unmarshal(raw, &vote)]: the votes of the package, if there was no error. *)
Definition json_VotePackage (raw : bytes) : option (list Z) :=
  v ← json_parse raw;
  match v with
  | JNull => Some []
  | JObject l => vs_list <$> json_vote_fields l no_votes
  | _ => None
  end.

(** ** Lemmas *)

Fixpoint all_digits (s : string) : bool :=
  match s with EmptyString => true | String c s' => is_digit c && all_digits s' end.

Lemma dec_digit_val d : 0 <= d < 10 -> byte_val (dec_digit d) = 48 + d.
Proof. intros Hd. unfold dec_digit. rewrite byte_val_of. apply Z.mod_small. lia. Qed.

Lemma dec_digit_is_digit d : 0 <= d < 10 -> is_digit (dec_digit d) = true.
Proof. intros Hd. unfold is_digit, between. rewrite dec_digit_val by done. lia. Qed.

Lemma dec_val_digit d : 0 <= d < 10 -> dec_val (dec_digit d) = Some d.
Proof.
  intros Hd. unfold dec_val. rewrite dec_digit_val by done.
  replace ((48 <=? 48 + d) && (48 + d <=? 57)) with true by lia. f_equal. lia.
Qed.

Lemma dec_parse_digit a d rest :
  0 <= d < 10 -> dec_parse a (String (dec_digit d) rest) = dec_parse (10 * a + d) rest.
Proof. intros Hd. cbn [dec_parse]. by rewrite dec_val_digit. Qed.

Lemma dec_digits_app fuel z acc : dec_digits fuel z acc = dec_digits fuel z "" +:+ acc.
Proof.
  revert z acc. induction fuel as [|fuel IH]; intros z acc; [done|]. simpl.
  destruct (z / 10 =? 0); [done|]. rewrite IH, (IH _ (String _ "")), string_app_assoc. done.
Qed.

Lemma dec_digits_S fuel z acc :
  dec_digits (S fuel) z acc =
    if z / 10 =? 0 then String (dec_digit (z mod 10)) acc
    else dec_digits fuel (z / 10) (String (dec_digit (z mod 10)) acc).
Proof. done. Qed.

(** The digits of a number below [2 ^ fuel] and their value. *)
Lemma dec_digits_spec fuel z :
  0 <= z < 2 ^ Z.of_nat (S fuel) ->
  exists c s, dec_digits (S fuel) z "" = String c s /\ is_digit c = true /\ all_digits s = true /\
    (c = dec_digit 0 -> z = 0 /\ s = "") /\
    (forall a rest, exists k, 0 <= k /\ dec_parse a (String c s +:+ rest) = dec_parse (a * 10 ^ k + z) rest).
Proof.
  revert z. induction fuel as [|fuel IH]; intros z Hz.
  - assert (z = 0 \/ z = 1) as [-> | ->] by lia; eexists _, ""; split_and!; try done;
      intros a rest; exists 1; (split; [lia|]);
      cbn [String.append]; rewrite Z.mod_small, dec_parse_digit, Z.pow_1_r by done; f_equal; lia.
  - rewrite dec_digits_S. pose proof (Z.mod_pos_bound z 10 ltac:(lia)) as Hm.
    pose proof (Z.div_mod z 10 ltac:(lia)) as Hdm. destruct (Z.eqb_spec (z / 10) 0) as [Hq|Hq].
    + eexists _, "". split_and!; [done|by apply dec_digit_is_digit|done| |].
      * intros Hc%(f_equal byte_val). rewrite !dec_digit_val in Hc by lia. split; [lia|done].
      * intros a rest. exists 1. split; [lia|]. cbn [String.append].
        rewrite dec_parse_digit, Z.pow_1_r by done. f_equal. lia.
    + destruct (IH (z / 10)) as (c & s & Hs & Hc & Hd & H0 & Hv).
      { rewrite Nat2Z.inj_succ, Z.pow_succ_r in Hz by lia. split; [lia|].
        assert (0 < 2 ^ Z.of_nat (S fuel)) by (apply Z.pow_pos_nonneg; lia). lia. }
      rewrite dec_digits_app, Hs.
      eexists c, (s +:+ _). split_and!; [done|done| | |].
      * clear -Hd Hm. induction s as [|c' s IHs]; simpl in *; [by rewrite dec_digit_is_digit|].
        apply andb_true_iff in Hd as [-> Hd]. auto.
      * intros ->. destruct H0 as [Hz0 _]; [done|]. lia.
      * intros a rest. destruct (Hv a (String (dec_digit (z mod 10)) rest)) as (k & Hk & Hp).
        exists (k + 1). split; [lia|]. cbn [String.append] in *. rewrite string_app_assoc.
        cbn [String.append]. rewrite Hp, dec_parse_digit, Z.pow_add_r, Z.pow_1_r by lia. f_equal. lia.
Qed.

Lemma decimal_spec z : 0 <= z ->
  exists c s, dec_digits (S (Z.to_nat (Z.log2 z))) z "" = String c s /\ is_digit c = true /\
    all_digits s = true /\ (c = dec_digit 0 -> z = 0 /\ s = "") /\ dec_parse 0 (String c s) = Some z.
Proof.
  intros Hz. destruct (dec_digits_spec (Z.to_nat (Z.log2 z)) z) as (c & s & Hs & Hc & Hd & H0 & Hv).
  { split; [done|]. rewrite Nat2Z.inj_succ, Z2Nat.id by apply Z.log2_nonneg.
    destruct (Z.eq_dec z 0) as [->|]; [done|]. apply Z.log2_spec. lia. }
  exists c, s. split_and!; [done..|]. destruct (Hv 0 "") as (k & _ & Hp).
  rewrite string_app_nil_r in Hp. by rewrite Hp.
Qed.

Lemma scan_digits_dec s r v :
  all_digits s = true -> dec_parse (sc_val r) s = Some v -> sc_invalSep r = false -> sc_prev r <> SeenSep ->
  (s <> "" \/ sc_count r <> O) -> scan_result false (scan_digits 10 r s) = Some v.
Proof.
  revert r. induction s as [|c s IH]; intros r Hd Hp Hi Hs Hn; cbn [scan_digits].
  - simpl in Hp. destruct Hn as [|Hn]; [done|]. unfold scan_result. cbn. rewrite Hi.
    destruct (sc_prev r); try done; (destruct (sc_count r); [done|]); by injection Hp as ->.
  - cbn [all_digits] in Hd. apply andb_true_iff in Hd as [Hc Hd]. cbn [dec_parse] in Hp.
    apply bind_Some in Hp as (d & Hd' & Hp). unfold dec_val in Hd'.
    assert (Hv : digit_val c = d /\ d < 10).
    { unfold digit_val. destruct (_ && _) eqn:E; [|done]. injection Hd' as <-. split; [done|lia]. }
    destruct Hv as [<- Hlt]. rewrite bool_decide_false.
    2: { intros ->. done. }
    destruct (Z.leb_spec 10 (digit_val c)); [lia|]. apply IH; cbn; auto; done.
Qed.

Lemma is_digit_range c : is_digit c = true -> 48 <= byte_val c <= 57.
Proof. unfold is_digit, between. lia. Qed.

(** A number of more than one digit starts with a digit other than 0. *)
Lemma scan_unsigned_decimal z :
  0 <= z -> scan_unsigned (dec_digits (S (Z.to_nat (Z.log2 z))) z "") = Some z.
Proof.
  intros Hz. destruct (decimal_spec z Hz) as (c & s & -> & Hc & Hd & H0 & Hv).
  assert (Hscan : scan_result false (scan_digits 10 (no_digits SeenOther) (String c s)) = Some z).
  { apply scan_digits_dec; try done; [|by left]. cbn [all_digits]. by rewrite Hc. }
  destruct (decide (c = dec_digit 0)) as [E|Hne].
  - destruct (H0 E) as [-> ->]. by rewrite E.
  - unfold scan_unsigned. destruct c as [[] [] [] [] [] [] [] []]; done.
Qed.

Lemma decimal_head z :
  0 <= z -> exists c s, dec_digits (S (Z.to_nat (Z.log2 z))) z "" = String c s /\ is_digit c = true.
Proof. intros Hz. destruct (decimal_spec z Hz) as (c & s & -> & Hc & _). eauto. Qed.

Lemma big_SetString0_String z : big_SetString0 (big_String z) = Some z.
Proof.
  unfold big_String, big_SetString0. pose proof (scan_unsigned_decimal (Z.abs z) ltac:(lia)) as Hs.
  destruct (decimal_head (Z.abs z) ltac:(lia)) as (c & s & E & Hc). rewrite E in *.
  destruct (Z.ltb_spec z 0).
  - rewrite Hs. simpl. f_equal. lia.
  - rewrite Z.abs_eq in Hs by lia. destruct c as [[] [] [] [] [] [] [] []]; done.
Qed.

Lemma big_SetString10_String z : big_SetString10 (big_String z) = Some z.
Proof.
  unfold big_String, big_SetString10. destruct (decimal_spec (Z.abs z) ltac:(lia)) as (c & s & E & Hc & Hd & _ & Hv).
  rewrite E. destruct (Z.ltb_spec z 0).
  - rewrite bool_decide_true by done. rewrite Hv. simpl. f_equal. lia.
  - apply is_digit_range in Hc. rewrite !bool_decide_false by (intros ->; destruct Hc as [Hc _]; by apply Hc).
    rewrite Hv. f_equal. lia.
Qed.

Lemma ParseInt_String z : - 2 ^ 63 <= z < 2 ^ 63 -> ParseInt10_64 (big_String z) = Some z.
Proof.
  intros Hz. unfold ParseInt10_64. rewrite big_SetString10_String. simpl.
  destruct (Z.leb_spec (- 2 ^ 63) z), (Z.ltb_spec z (2 ^ 63)); done || lia.
Qed.

(** *** A vote package is decoded to its votes *)

Definition stops (t : ascii) : Prop := t = ","%char \/ t = "]"%char.

Lemma take_digits_all s t rest :
  all_digits s = true -> stops t -> take_digits (s +:+ String t rest) = (s, String t rest).
Proof.
  intros Hd Ht. induction s as [|c s IH].
  - by destruct Ht as [-> | ->].
  - cbn [all_digits] in Hd. apply andb_true_iff in Hd as [Hc Hd]. cbn [String.append take_digits].
    by rewrite Hc, IH.
Qed.

Lemma json_int_decimal z t rest :
  0 <= z -> stops t ->
  json_int (dec_digits (S (Z.to_nat (Z.log2 z))) z "" +:+ String t rest) =
    Some (dec_digits (S (Z.to_nat (Z.log2 z))) z "", String t rest).
Proof.
  intros Hz Ht. destruct (decimal_spec z Hz) as (c & s & -> & Hc & Hd & H0 & _).
  assert (Hds : digits1 (String c s +:+ String t rest) = Some (String c s, String t rest)).
  { unfold digits1. rewrite take_digits_all; [done| |done]. cbn [all_digits]. by rewrite Hc. }
  destruct (decide (c = dec_digit 0)) as [E|Hne].
  - destruct (H0 E) as [_ ->]. by rewrite E.
  - unfold json_int. cbn [String.append] in *. destruct c as [[] [] [] [] [] [] [] []]; done.
Qed.

#[local] Arguments json_int : simpl never.
#[local] Arguments json_frac : simpl never.
#[local] Arguments json_exp : simpl never.

Lemma json_number_String z t rest :
  stops t -> json_number (big_String z +:+ String t rest) = Some (big_String z, String t rest).
Proof.
  intros Ht. unfold big_String, json_number.
  pose proof (json_int_decimal (Z.abs z) t rest ltac:(lia) Ht) as Hi.
  destruct (decimal_head (Z.abs z) ltac:(lia)) as (c & s & E & Hc). rewrite E in *.
  assert (Htail : json_frac (String t rest) = Some ("", String t rest) /\
                  json_exp (String t rest) = Some ("", String t rest)) by (by destruct Ht as [-> | ->]).
  destruct Htail as [Hf He].
  destruct (z <? 0).
  - cbn [String.append] in *. rewrite Hi. simpl. rewrite Hf. simpl. rewrite He. simpl.
    by rewrite string_app_nil_r.
  - cbn [String.append] in *.
    assert (Hm : match String c (s +:+ String t rest) with
                 | String "-" s' => ("-", s') | _ => ("", String c (s +:+ String t rest)) end =
                 ("", String c (s +:+ String t rest)))
      by (destruct c as [[] [] [] [] [] [] [] []]; done).
    rewrite Hm, Hi. simpl. rewrite Hf. simpl. rewrite He. simpl. by rewrite string_app_nil_r.
Qed.

Lemma json_value_number fuel depth c s n rest :
  is_digit c = true \/ c = "-"%char -> json_number (String c s) = Some (n, rest) ->
  json_value (S fuel) depth (String c s) = Some (JNumber n, rest).
Proof.
  intros Hc Hn. assert (Hv : json_value (S fuel) depth (String c s) = json_literal (String c s)).
  { destruct Hc as [Hc | ->]; [|reflexivity]. destruct c as [[] [] [] [] [] [] [] []]; done. }
  assert (Hl : json_literal (String c s) = '(n, r) ← json_number (String c s); Some (JNumber n, r)).
  { destruct Hc as [Hc | ->]; [|reflexivity]. destruct c as [[] [] [] [] [] [] [] []]; done. }
  by rewrite Hv, Hl, Hn.
Qed.

Lemma big_String_head z : exists c s, big_String z = String c s /\ (is_digit c = true \/ c = "-"%char).
Proof.
  unfold big_String. destruct (decimal_head (Z.abs z) ltac:(lia)) as (c & s & -> & Hc).
  destruct (z <? 0); eauto.
Qed.

Lemma json_value_String fuel depth z t rest :
  stops t ->
  json_value (S fuel) depth (big_String z +:+ String t rest) = Some (JNumber (big_String z), String t rest).
Proof.
  intros Ht. pose proof (json_number_String z t rest Ht) as Hn.
  destruct (big_String_head z) as (c & s & E & Hc). rewrite E in *. by apply json_value_number.
Qed.

Lemma json_elems_String fuel depth l z rest :
  (List.length l < fuel)%nat ->
  json_elems (S fuel) depth (join_with "," (big_String <$> z :: l) +:+ String "]" rest) =
    Some (JNumber ∘ big_String <$> z :: l, rest).
Proof.
  revert fuel z. induction l as [|y l IH]; intros fuel z Hf; (destruct fuel as [|fuel]; [simpl in Hf; lia|]).
  - cbn [fmap list_fmap join_with json_elems]. rewrite json_value_String by (by right). done.
  - simpl in Hf. specialize (IH fuel y ltac:(lia)).
    assert (Hj : join_with "," (big_String <$> z :: y :: l) =
                 big_String z +:+ String "," (join_with "," (big_String <$> y :: l))) by done.
    rewrite Hj, string_app_assoc. cbn [String.append].
    change (json_elems (S (S fuel)) depth ?x) with
      ('(v, s1) ← json_value (S fuel) depth x;
       match skip_space s1 with
       | String "," s2 => '(l, s3) ← json_elems (S fuel) depth s2; Some (v :: l, s3)
       | String "]" s2 => Some ([v], s2)
       | _ => None
       end).
    rewrite json_value_String by (by left). cbn [mbind option_bind skip_space is_space].
    change (is_space ",") with false. cbv iota beta. by rewrite IH.
Qed.

Lemma json_ints_String i l b :
  List.length b = i -> Forall (fun z => - 2 ^ 63 <= z < 2 ^ 63) l ->
  json_ints i (JNumber ∘ big_String <$> l) b = Some (b ++ l).
Proof.
  intros Hb Hl. revert i b Hb. induction Hl as [|z l Hz _ IH]; intros i b Hb; simpl.
  - by rewrite app_nil_r.
  - unfold json_elem. rewrite Hb, Nat.ltb_irrefl. cbn [compose]. unfold compose.
    rewrite ParseInt_String by done. simpl. rewrite IH.
    + rewrite insert_app_r_alt by lia. rewrite Hb, Nat.sub_diag. simpl. by rewrite <- app_assoc.
    + rewrite length_insert, length_app. simpl. lia.
Qed.

(** The text that [json.Marshal] gives for a package without a nonce. *)
Definition vote_text (l : list Z) : bytes :=
  let quote := String (byte_of 34) "" in
  "{" +:+ quote +:+ "votes" +:+ quote +:+ ":[" +:+ join_with "," (big_String <$> l) +:+ "]}".

Lemma json_value_vote_text fuel z l :
  (List.length l < fuel)%nat ->
  json_value (S (S (S (S fuel)))) 0 (vote_text (z :: l)) =
    Some (JObject [("votes", JArray (JNumber ∘ big_String <$> z :: l))], "").
Proof.
  intros Hf. unfold vote_text. cbn [String.append].
  pose proof (json_elems_String fuel 2 l z "}" Hf) as He.
  destruct (big_String_head z) as (c & s & Ez & Hc).
  assert (Hj : exists s', join_with "," (big_String <$> z :: l) = String c s').
  { rewrite fmap_cons, Ez. destruct (big_String <$> l); cbn [join_with String.append]; eauto. }
  destruct Hj as [s' Hj]. rewrite Hj in *. cbn [String.append] in *.
  assert (Hsp : skip_space (String c (s' +:+ "]}")) = String c (s' +:+ "]}") /\ c <> "]"%char).
  { destruct Hc as [Hc | ->]; [|done]. destruct c as [[] [] [] [] [] [] [] []]; done. }
  destruct Hsp as [Hsp Hne].
  assert (Hv : json_value (S (S fuel)) 1 (String "[" (String c (s' +:+ "]}"))) =
    Some (JArray (JNumber ∘ big_String <$> z :: l), "}")).
  { change (json_value (S (S fuel)) 1 (String "[" ?x)) with
      (match skip_space x with
       | String "]" s2 => Some (JArray [], s2)
       | _ => '(l, s2) ← json_elems (S fuel) 2 x; Some (JArray l, s2)
       end).
    rewrite Hsp. assert (Hm : forall A (u v : A), match String c (s' +:+ "]}") with String "]" _ => u | _ => v end = v).
    { intros A u v. destruct c as [[] [] [] [] [] [] [] []]; done. }
    destruct c as [[] [] [] [] [] [] [] []]; try done; by rewrite He. }
  change (json_value (S (S (S (S fuel)))) 0 (String "{" ?x)) with
    ('(l, s2) ← json_members (S (S (S fuel))) 1 x; Some (JObject l, s2)).
  change (json_members (S (S (S fuel))) 1 ?x) with
    ('(v, s4) ← json_value (S (S fuel)) 1 (String "[" (String c (s' +:+ "]}")));
     match skip_space s4 with
     | String "," s5 => '(l, s6) ← json_members (S (S fuel)) 1 s5; Some (("votes", v) :: l, s6)
     | String "}" s5 => Some ([("votes", v)], s5)
     | _ => None
     end).
  by rewrite Hv.
Qed.

Lemma join_length (l : list string) :
  Forall (fun s => s <> "") l -> (List.length l <= String.length (join_with "," l))%nat.
Proof.
  induction 1 as [|s l Hs Hl IH]; [simpl; lia|]. destruct s as [|c s]; [done|].
  destruct l as [|s' l]; simpl in *; [lia|]. rewrite string_length_app. simpl. lia.
Qed.

Lemma length_vote_text l : (List.length l + 2 <= String.length (vote_text l))%nat.
Proof.
  assert (Hj : (List.length l <= String.length (join_with "," (big_String <$> l)))%nat).
  { rewrite <- (length_fmap big_String l). apply join_length, Forall_fmap, Forall_forall.
    intros x _. unfold compose. destruct (big_String_head x) as (? & ? & -> & _). done. }
  unfold vote_text. rewrite !string_length_app. cbn [String.length]. lia.
Qed.

(** Every list of votes is decoded from its text. *)
Lemma json_VotePackage_text l :
  Forall (fun z => - 2 ^ 63 <= z < 2 ^ 63) l -> json_VotePackage (vote_text l) = Some l.
Proof.
  intros Hl. destruct l as [|z l]; [vm_compute; reflexivity|].
  pose proof (length_vote_text (z :: l)) as Hlen. cbn [List.length] in Hlen.
  unfold json_VotePackage, json_parse.
  remember (2 * String.length (vote_text (z :: l)) + 2)%nat as n eqn:En.
  destruct n as [|[|[|[|n]]]]; try lia.
  rewrite json_value_vote_text by lia. cbn [mbind option_bind]. rewrite bool_decide_true by done.
  assert (Hv : json_votes (JArray (JNumber ∘ big_String <$> z :: l)) no_votes =
               Some (mkVoteSlice (z :: l) (S (List.length l)))).
  { pose proof (json_ints_String 0 (z :: l) [] eq_refl Hl) as Hi. rewrite fmap_cons in *.
    unfold json_votes. cbn [vs_backing no_votes]. rewrite Hi. cbn. by rewrite length_fmap. }
  change (vs_list <$> (votes ← json_votes (JArray (JNumber ∘ big_String <$> z :: l)) no_votes; Some votes) =
          Some (z :: l)).
  rewrite Hv. cbn. unfold vs_list. cbn. by rewrite firstn_all.
Qed.
