(* ===== verification/Database.v ===== *)
(** * Key-value databases

    [src/db/interface.go]: the interfaces [Database] and [WriteTx] are the class [Database], with
    what their comments promise as [DatabaseLaws].  A transaction is described by the contents it
    started from and its pending writes; the badger and pebble stores of
    [src/db] are such databases.  [src/db/prefixeddb/prefixeddb.go] is a database on top of a
    database, and [src/db/batch.go] a transaction that commits by itself when it becomes too big. *)

From stdpp Require Import base option list strings gmap sorting.
From Stdlib Require Import ZArith Lia.
From S2P Require Import Prelude GoMonad GoLib GoText.

Definition ErrKeyNotFound : error := Sentinel "key not found".
Definition ErrTxnTooBig : error := Sentinel "txn too big".
Definition ErrConflict : error := Sentinel "txn conflict".

(** [D] is the database, [T] a write transaction; a read transaction is one without writes. *)
Class Database (D T : Type) := {
  db_WriteTx : D -> T;
  tx_Get : bytes -> D -> T -> T * outcome bytes;
  tx_Set : bytes -> bytes -> T -> T * outcome unit;
  tx_Delete : bytes -> T -> T * outcome unit;
  tx_Apply : T -> T -> T * outcome unit;
  tx_Commit : T -> D -> D * outcome unit;
  (** the calls of the callback *)
  db_Iterate : bytes -> D -> list (bytes * bytes)
}.

(** The abstraction of a database and of its transactions. *)
Class DatabaseView (D T : Type) := {
  contents : D -> bytes -> option bytes;
  tx_base : T -> bytes -> option bytes;
  tx_writes : T -> bytes -> option (option bytes);
  (** no key that the transaction has read was changed by another one *)
  tx_clean : T -> D -> Prop;
  (** the key the callback of [Iterate] gets, of the prefix and the rest of the key *)
  iter_key : bytes -> bytes -> bytes
}.

(** Pending writes over contents. *)
Definition overlay (w : bytes -> option (option bytes)) (m : bytes -> option bytes) (k : bytes) : option bytes :=
  match w k with Some v => v | None => m k end.

Definition fn_write (k : bytes) (v : option bytes) (w : bytes -> option (option bytes)) (k' : bytes) :
    option (option bytes) :=
  if decide (k' = k) then Some v else w k'.

(** Lexicographic order of octets. *)
Fixpoint bytes_le (a b : bytes) : bool :=
  match a, b with
  | EmptyString, _ => true
  | _, EmptyString => false
  | String x a', String y b' => (byte_val x <? byte_val y) || ((byte_val x =? byte_val y) && bytes_le a' b')
  end.

Section laws.
Context {D T : Type} `{Database D T, DatabaseView D T}.

(** A write was added to a transaction, or did not fit and left it as it was. *)
Definition wrote (k : bytes) (v : option bytes) (t : T) (r : T * outcome unit) : Prop :=
  (r.2 = Ok tt /\ (forall k', tx_writes r.1 k' = fn_write k v (tx_writes t) k') /\
   (forall k', tx_base r.1 k' = tx_base t k') /\ (forall d, tx_clean t d -> tx_clean r.1 d)) \/
  r = (t, Err ErrTxnTooBig).

(** A new transaction that has read some keys. *)
Definition after_reads (ks : list bytes) (d : D) : T := fold_left (fun t k => (tx_Get k d t).1) ks (db_WriteTx d).

(** What the callers rely on, for the keys and values they use: a write is refused only because
    the transaction is full.  Badger also refuses an empty key and keys or values above its
    limits; the laws are about databases where the keys that are written are not of these. *)
Class DatabaseLaws : Prop := {
  db_WriteTx_spec d k : tx_base (db_WriteTx d) k = contents d k /\ tx_writes (db_WriteTx d) k = None;
  db_WriteTx_clean d : tx_clean (db_WriteTx d) d;
  (** a read of a key that nobody else has changed *)
  tx_Get_spec k d t :
    contents d k = tx_base t k ->
    (tx_Get k d t).2 = match overlay (tx_writes t) (tx_base t) k with Some v => Ok v | None => Err ErrKeyNotFound end;
  tx_Get_same k d t k' :
    tx_base (tx_Get k d t).1 k' = tx_base t k' /\ tx_writes (tx_Get k d t).1 k' = tx_writes t k';
  tx_Get_clean k d t : contents d k = tx_base t k -> tx_clean t d -> tx_clean (tx_Get k d t).1 d;
  tx_Set_spec k v t : wrote k (Some v) t (tx_Set k v t);
  tx_Delete_spec k t : wrote k None t (tx_Delete k t);
  (** one write always fits *)
  tx_Set_fits k v ks d : (tx_Set k v (after_reads ks d)).2 = Ok tt;
  tx_Delete_fits k ks d : (tx_Delete k (after_reads ks d)).2 = Ok tt;
  tx_Apply_spec other t :
    ((tx_Apply other t).2 = Ok tt /\
     (forall k, tx_writes (tx_Apply other t).1 k = match tx_writes other k with Some v => Some v | None => tx_writes t k end) /\
     (forall k, tx_base (tx_Apply other t).1 k = tx_base t k)) \/
    (tx_Apply other t).2 = Err ErrTxnTooBig;
  (** a commit fails only on a conflict *)
  tx_Commit_spec t d :
    tx_clean t d ->
    (tx_Commit t d).2 = Ok tt /\ forall k, contents (tx_Commit t d).1 k = overlay (tx_writes t) (contents d) k;
  db_Iterate_spec prefix d :
    exists l : list (bytes * bytes),
      db_Iterate prefix d = (fun '(rest, v) => (iter_key prefix rest, v)) <$> l /\
      StronglySorted (fun a b => bytes_le a.1 b.1 = true) l /\ NoDup l.*1 /\
      forall rest v, (rest, v) ∈ l <-> contents d (prefix +:+ rest) = Some v
}.
End laws.
Arguments DatabaseLaws D T {_ _}.

(** Transactions that write other keys do not make a conflict. *)
Class ConflictLaws (D T : Type) `{DatabaseLaws D T} := {
  tx_reads : T -> bytes -> Prop;
  db_WriteTx_reads d k : ~ tx_reads (db_WriteTx d) k;
  tx_Get_reads k d t k' : tx_reads (tx_Get k d t).1 k' -> tx_reads t k' \/ k' = k;
  tx_Set_reads k v t k' : tx_reads (tx_Set k v t).1 k' -> tx_reads t k';
  tx_Delete_reads k t k' : tx_reads (tx_Delete k t).1 k' -> tx_reads t k';
  tx_Commit_clean t t' d :
    tx_clean t d -> tx_clean t' d -> (forall k, tx_writes t' k <> None -> ~ tx_reads t k) ->
    tx_clean t (tx_Commit t' d).1
}.

(** ** A prefixed database *)

Definition prefixSlice (prefix v : bytes) : bytes := prefix +:+ v.

(** [bytes.TrimPrefix]. *)
Definition TrimPrefix (s prefix : bytes) : bytes := default s (strip_prefix prefix s).

Section prefixed.
Context {D T : Type} `{Database D T} (prefix : bytes).

Definition Prefixed_WriteTx (d : D) : T := db_WriteTx d.
Definition Prefixed_Get (key : bytes) (d : D) (t : T) : T * outcome bytes := tx_Get (prefixSlice prefix key) d t.
Definition Prefixed_Set (key value : bytes) (t : T) : T * outcome unit := tx_Set (prefixSlice prefix key) value t.
Definition Prefixed_Delete (key : bytes) (t : T) : T * outcome unit := tx_Delete (prefixSlice prefix key) t.
Definition Prefixed_Apply (other t : T) : T * outcome unit := tx_Apply other t.
Definition Prefixed_Commit (t : T) (d : D) : D * outcome unit := tx_Commit t d.
Definition Prefixed_Iterate (p : bytes) (d : D) : list (bytes * bytes) :=
  (fun '(key, value) => (TrimPrefix key prefix, value)) <$> db_Iterate (prefixSlice prefix p) d.

Definition PrefixedDatabase : Database D T := {|
  db_WriteTx := Prefixed_WriteTx;
  tx_Get := Prefixed_Get;
  tx_Set := Prefixed_Set;
  tx_Delete := Prefixed_Delete;
  tx_Apply := Prefixed_Apply;
  tx_Commit := Prefixed_Commit;
  db_Iterate := Prefixed_Iterate
|}.

(** What a prefixed database holds of the database below. *)
Definition PrefixedView `{DatabaseView D T} : DatabaseView D T := {|
  contents d k := contents d (prefix +:+ k);
  tx_base t k := tx_base t (prefix +:+ k);
  tx_writes t k := tx_writes t (prefix +:+ k);
  tx_clean t d := tx_clean t d;
  iter_key p rest := TrimPrefix (iter_key (prefixSlice prefix p) rest) prefix
|}.
End prefixed.

(** [NewPrefixedDatabase]: a handle is the prefix over the database it wraps, if it has one. *)
Inductive db_handle := Bare | WithPrefix (prefix : bytes).

Definition NewPrefixedDatabase (h : db_handle) (prefix : bytes) : db_handle :=
  match h with
  | WithPrefix p => WithPrefix (prefixSlice p prefix)
  | Bare => WithPrefix prefix
  end.

Definition handle_ops {D T} (base : Database D T) (h : db_handle) : Database D T :=
  match h with Bare => base | WithPrefix p => @PrefixedDatabase D T base p end.

(** [key[n:]]. *)
Definition slice_from (n : nat) (b : bytes) : outcome bytes :=
  if (String.length b <? n)%nat then Panic "slice bounds out of range" else Ok (bdrop n b).

(** ** Iteration over pebble

    [src/db/pebbledb/pebledb.go]: an iterator of pebble goes, in order, through the entries from
    its lower bound up to its upper bound, which is left out. *)

Fixpoint upper_loop (n : nat) (e : bytes) : option bytes :=
  match n with
  | O => None
  | S i =>
      let v := u8 (default 0 (bget i e) + 1) in
      let e := set_octet i v e in
      if negb (v =? 0) then Some (btake (S i) e) else upper_loop i e
  end.

(** [nil], no upper bound, is [None]. *)
Definition keyUpperBound (b : bytes) : option bytes := upper_loop (String.length b) b.

Definition bytes_lt (a b : bytes) : bool := negb (bytes_le b a).

Definition pebble_NewIter (lower : bytes) (upper : option bytes) (entries : list (bytes * bytes)) :
    list (bytes * bytes) :=
  List.filter (fun '(k, _) => bytes_le lower k && match upper with Some u => bytes_lt k u | None => true end) entries.

Fixpoint local_keys (n : nat) (entries : list (bytes * bytes)) : outcome (list (bytes * bytes)) :=
  match entries with
  | [] => Ok []
  | (k, v) :: l => localKey ← slice_from n k; l ← local_keys n l; Ok ((localKey, v) :: l)
  end.

(** The calls of the callback, for the entries of the database in order. *)
Definition PebbleDB_Iterate (prefix : bytes) (entries : list (bytes * bytes)) : outcome (list (bytes * bytes)) :=
  local_keys (String.length prefix) (pebble_NewIter prefix (keyUpperBound prefix) entries).

(** ** A batch *)

Section batch.
Context {D T : Type} `{Database D T}.

Record Batch := mkBatch { b_tx : T; b_db : D; b_maxSize : Z; b_count : Z }.

Definition DefaultBatchMaxSize : Z := 1024 * 1024.
Definition NewBatchMaxSize (d : D) (maxSize : Z) : Batch := mkBatch (db_WriteTx d) d maxSize 0.
Definition NewBatch (d : D) : Batch := NewBatchMaxSize d DefaultBatchMaxSize.

Definition set_b_tx x b := mkBatch x (b_db b) (b_maxSize b) (b_count b).
Definition set_b_db x b := mkBatch (b_tx b) x (b_maxSize b) (b_count b).
Definition set_b_count x b := mkBatch (b_tx b) (b_db b) (b_maxSize b) x.

Definition on_tx {A} (f : T -> T * outcome A) : GoM Batch A :=
  fun b => let '(t, r) := f (b_tx b) in (set_b_tx t b, r).

Definition Batch_Get (key : bytes) : GoM Batch bytes := fun b => on_tx (tx_Get key (b_db b)) b.

Definition Batch_Commit : GoM Batch unit :=
  fun b => let '(d, r) := tx_Commit (b_tx b) (b_db b) in (set_b_db d b, r).

(** [Set] and [Delete], for the write [w] of the transaction.  The count goes up when the method
    returns no error. *)
Definition Batch_write (w : T -> T * outcome unit) : GoM Batch unit :=
  (r ← catch (on_tx w);
   b ← get;
   if match r with inl e => errors_is e ErrTxnTooBig | inr _ => false end || (u64 (b_count b + 1) =? b_maxSize b)
   then
     Batch_Commit;;
     modify (set_b_count 0);;
     modify (fun b => set_b_tx (db_WriteTx (b_db b)) b);;
     on_tx w
   else match r with inl e => throw e | inr _ => mret tt end);;
  modify (fun b => set_b_count (u64 (b_count b + 1)) b).

Definition Batch_Set (key value : bytes) : GoM Batch unit := Batch_write (tx_Set key value).
Definition Batch_Delete (key : bytes) : GoM Batch unit := Batch_write (tx_Delete key).
Definition Batch_Apply (other : T) : GoM Batch unit := on_tx (tx_Apply other).
End batch.
Arguments Batch D T : clear implicits.

(** ** Databases with a prefix, and batches

    A prefixed database is a database that sees the keys with its prefix, and a batch reads and
    writes as one transaction whatever the commits it makes in between. *)

Lemma strip_prefix_Some p k rest : strip_prefix p k = Some rest <-> k = p +:+ rest.
Proof.
  split; [|by intros ->; apply strip_prefix_app]. revert k. induction p as [|c p IH]; intros [|x k]; cbn; try done.
  - by intros [= <-].
  - by intros [= <-].
  - destruct (bool_decide (c = x)) eqn:E; [|done]. apply bool_decide_eq_true in E as ->. intros Hk.
    f_equal. by apply IH.
Qed.

Lemma TrimPrefix_append p s : TrimPrefix (p +:+ s) p = s.
Proof. unfold TrimPrefix. by rewrite strip_prefix_app. Qed.

Lemma append_inj p a b : p +:+ a = p +:+ b -> a = b.
Proof. induction p as [|c p IH]; cbn; [done|]. intros [= E]. by apply IH. Qed.

(** The key [k] does not have the prefix [p]. *)
Definition outside (p k : bytes) : Prop := forall rest, k <> p +:+ rest.

Section facts.
Context {D T : Type} {ops : Database D T} {view : DatabaseView D T} {laws : DatabaseLaws D T}.

Lemma fn_write_prefix p k v w k' :
  fn_write (p +:+ k) v w (p +:+ k') = fn_write k v (fun k => w (p +:+ k)) k'.
Proof.
  unfold fn_write. destruct (decide (k' = k)) as [->|Hne]; [by rewrite decide_True|].
  rewrite decide_False; [done|]. intros E. by apply Hne, (append_inj p).
Qed.

Lemma wrote_prefixed p k v t r :
  wrote (D := D) (p +:+ k) v t r -> @wrote D T (PrefixedView p) k v t r.
Proof.
  intros [(Hr & Hw & Hb & Hc) | Hr]; [left|by right]. split_and!; [done|..]; [intros k'|intros k'|done]; cbn; [|done].
  by rewrite Hw, fn_write_prefix.
Qed.

(** [Iterate] of the stores gives the whole key. *)
Definition full_keys : Prop := forall prefix rest, iter_key (D := D) (T := T) prefix rest = prefix +:+ rest.

Lemma after_reads_prefixed p ks d :
  @after_reads D T (PrefixedDatabase p) ks d = after_reads (prefixSlice p <$> ks) d.
Proof.
  unfold after_reads. cbn [db_WriteTx PrefixedDatabase]. unfold Prefixed_WriteTx.
  generalize (db_WriteTx (T := T) d). induction ks as [|k ks IH]; intros t; [done|]. apply IH.
Qed.

Lemma prefixed_laws p : @DatabaseLaws D T (PrefixedDatabase p) (PrefixedView p).
Proof.
  split.
  - intros d k. apply (@db_WriteTx_spec D T ops view laws).
  - intros d. apply (@db_WriteTx_clean D T ops view laws).
  - intros k d t Hk. by apply (@tx_Get_spec D T ops view laws).
  - intros k d t k'. apply (@tx_Get_same D T ops view laws).
  - intros k d t. apply (@tx_Get_clean D T ops view laws).
  - intros k v t. apply wrote_prefixed, (@tx_Set_spec D T ops view laws).
  - intros k t. apply wrote_prefixed, (@tx_Delete_spec D T ops view laws).
  - intros k v ks d. rewrite after_reads_prefixed. apply (@tx_Set_fits D T ops view laws).
  - intros k ks d. rewrite after_reads_prefixed. apply (@tx_Delete_fits D T ops view laws).
  - intros other t. destruct (@tx_Apply_spec D T ops view laws other t) as [(Hr & Hw & Hb) | Hr]; [left|by right].
    split_and!; [done|..]; intros k; [apply Hw|apply Hb].
  - intros t d Hok. destruct (@tx_Commit_spec D T ops view laws t d Hok) as [Hr Hc]. split; [done|]. intros k. apply Hc.
  - intros q d. cbn. destruct (@db_Iterate_spec D T ops view laws (p +:+ q) d) as (l & Hi & Hs & Hn & Hl). exists l.
    unfold Prefixed_Iterate, prefixSlice. rewrite Hi, <- list_fmap_compose. split_and!; [|done|done|].
    + apply list_fmap_ext. intros i [rest v] _. done.
    + intros rest v. by rewrite Hl, string_app_assoc.
Qed.

(** With whole keys, a prefixed database gives whole keys too. *)
Lemma prefixed_full_keys p :
  full_keys -> forall q rest, @iter_key D T (PrefixedView p) q rest = q +:+ rest.
Proof. intros Hfull q rest. cbn. by rewrite Hfull, string_app_assoc, TrimPrefix_append. Qed.

(** ** Batches *)

Inductive write_op := WSet (k v : bytes) | WDelete (k : bytes).

Definition write_key (op : write_op) : bytes := match op with WSet k _ => k | WDelete k => k end.
Definition write_value (op : write_op) : option bytes := match op with WSet _ v => Some v | WDelete _ => None end.

Definition apply_write (m : bytes -> option bytes) (op : write_op) (k : bytes) : option bytes :=
  if decide (k = write_key op) then write_value op else m k.

Definition batch_op (op : write_op) : GoM (Batch D T) unit :=
  match op with WSet k v => Batch_Set k v | WDelete k => Batch_Delete k end.

Definition tx_op (op : write_op) : T -> T * outcome unit :=
  match op with WSet k v => tx_Set k v | WDelete k => tx_Delete k end.

Lemma tx_op_wrote op t : wrote (D := D) (write_key op) (write_value op) t (tx_op op t).
Proof. destruct op; [apply tx_Set_spec|apply tx_Delete_spec]. Qed.

Lemma tx_op_fits op ks d : (tx_op op (after_reads ks d)).2 = Ok tt.
Proof. destruct op; [apply tx_Set_fits|apply tx_Delete_fits]. Qed.

(** What a transaction on [d] reads is [m]. *)
Record tx_view (t : T) (d : D) (m : bytes -> option bytes) : Prop := {
  tv_base k : tx_base (D := D) t k = contents (T := T) d k;
  tv_clean : tx_clean t d;
  tv_view k : overlay (tx_writes (D := D) t) (contents (T := T) d) k = m k
}.

Lemma tx_view_new d : tx_view (db_WriteTx d) d (contents (T := T) d).
Proof.
  split; [intros k; apply db_WriteTx_spec|apply db_WriteTx_clean|].
  intros k. unfold overlay. by rewrite (proj2 (db_WriteTx_spec (D := D) d k)).
Qed.

Lemma tx_view_ext t d m m' : (forall k, m k = m' k) -> tx_view t d m -> tx_view t d m'.
Proof. intros Hm [Hb Hc Hv]. split; [done|done|]. intros k. by rewrite <- Hm. Qed.

Lemma overlay_write k v (w w' : bytes -> option (option bytes)) m op k' :
  k = write_key op -> v = write_value op -> (forall k', w' k' = fn_write k v w k') ->
  overlay w' m k' = apply_write (overlay w m) op k'.
Proof.
  intros -> -> Hw. unfold overlay, apply_write. rewrite Hw. unfold fn_write. by destruct (decide _).
Qed.

Lemma tx_view_op op t d m t' :
  tx_view t d m -> tx_op op t = (t', Ok tt) -> tx_view t' d (apply_write m op).
Proof.
  intros [Hb Hc Hv] E. pose proof (tx_op_wrote op t) as Hw. rewrite E in Hw.
  destruct Hw as [(_ & Hw & Hbase & Hclean) | [=]]. cbn in *.
  split; [intros k; by rewrite Hbase|by apply Hclean|].
  intros k. erewrite overlay_write by done. unfold apply_write. destruct (decide _); [done|]. apply Hv.
Qed.

Lemma tx_view_get k t d m :
  tx_view t d m ->
  exists t', tx_Get k d t = (t', match m k with Some v => Ok v | None => Err ErrKeyNotFound end) /\ tx_view t' d m.
Proof.
  intros [Hb Hc Hv]. pose proof (tx_Get_spec (D := D) k d t (eq_sym (Hb k))) as Hg.
  pose proof (tx_Get_same (D := D) k d t) as Hs. pose proof (tx_Get_clean (D := D) k d t (eq_sym (Hb k)) Hc) as Hc'.
  destruct (tx_Get k d t) as [t' r]. cbn in *. exists t'. split.
  { rewrite Hg, <- Hv. unfold overlay. by rewrite Hb. }
  split; [intros k'; by rewrite (proj1 (Hs k'))|done|].
  intros k'. rewrite <- Hv. unfold overlay. by rewrite (proj2 (Hs k')).
Qed.

Lemma after_reads_view ks d :
  tx_view (after_reads ks d) d (contents (T := T) d) /\ forall k, tx_writes (D := D) (after_reads (T := T) ks d) k = None.
Proof.
  unfold after_reads.
  assert (Hnew : tx_view (db_WriteTx (T := T) d) d (contents (T := T) d) /\
                 forall k, tx_writes (D := D) (db_WriteTx (T := T) d) k = None).
  { split; [apply tx_view_new|]. intros k. apply db_WriteTx_spec. }
  revert Hnew. generalize (db_WriteTx (T := T) d). induction ks as [|k ks IH]; intros t [Ht Hw]; [done|].
  cbn. apply IH. destruct (tx_view_get k t d _ Ht) as (t' & Hg & Ht'). rewrite Hg. split; [done|].
  intros k'. pose proof (tx_Get_same (D := D) k d t k') as [_ Hs]. rewrite Hg in Hs. cbn in Hs |- *. by rewrite Hs.
Qed.

(** One write in a transaction without writes. *)
Lemma tx_op_fresh op ks d :
  exists t, tx_op op (after_reads ks d) = (t, Ok tt) /\ tx_view t d (apply_write (contents (T := T) d) op) /\
            forall k, tx_writes (D := D) t k <> None -> k = write_key op.
Proof.
  destruct (after_reads_view ks d) as [Hv Hn]. pose proof (tx_op_fits op ks d) as Hf.
  pose proof (tx_op_wrote op (after_reads ks d)) as Hw.
  destruct (tx_op op (after_reads ks d)) as [t r] eqn:E. cbn in Hf. subst r.
  exists t. split_and!; [done|by eapply tx_view_op|].
  destruct Hw as [(_ & Hw & _) | [=]]. cbn in Hw. intros k Hk. rewrite Hw in Hk. unfold fn_write in Hk.
  destruct (decide (k = write_key op)); [done|]. by rewrite Hn in Hk.
Qed.

Lemma tx_view_commit t d m :
  tx_view t d m -> exists d', tx_Commit t d = (d', Ok tt) /\ forall k, contents (T := T) d' k = m k.
Proof.
  intros [Hb Hc Hv]. destruct (tx_Commit_spec (D := D) t d Hc) as [Hr Hd].
  destruct (tx_Commit t d) as [d' r]. cbn in *. subst r. exists d'. split; [done|].
  intros k. by rewrite Hd, Hv.
Qed.

(** What a batch reads is [m]. *)
Definition batch_reads (b : Batch D T) (m : bytes -> option bytes) : Prop := tx_view (b_tx b) (b_db b) m.

Lemma batch_commit_run b m :
  batch_reads b m -> exists d, Batch_Commit b = (set_b_db d b, Ok tt) /\ forall k, contents (T := T) d k = m k.
Proof.
  intros Hb. destruct (tx_view_commit _ _ _ Hb) as (d & Hc & Hd). exists d. split; [|done].
  unfold Batch_Commit. by rewrite Hc.
Qed.

Lemma batch_write_new op b m n :
  (forall k, contents (T := T) (b_db b) k = m k) ->
  exists b', (on_tx (tx_op op);; modify (fun b => set_b_count (u64 (b_count b + 1)) b))
               (set_b_tx (db_WriteTx (b_db b)) (set_b_count n b)) = (b', Ok tt) /\
             batch_reads b' (apply_write m op).
Proof.
  intros Hm. pose proof (tx_op_fits op [] (b_db b)) as Hn.
  cbn [after_reads fold_left] in Hn.
  destruct (tx_op op (db_WriteTx (b_db b))) as [t r] eqn:E. cbn in Hn. subst r. eexists. split.
  { erewrite bind_run_Ok by (unfold on_tx; cbn; by rewrite E). reflexivity. }
  unfold batch_reads. cbn. eapply tx_view_op, E. eapply tx_view_ext, tx_view_new. done.
Qed.

(** The branch that commits. *)
Lemma batch_flush op b m :
  batch_reads b m ->
  exists b', ((Batch_Commit;;
               modify (set_b_count 0);;
               modify (fun b => set_b_tx (db_WriteTx (b_db b)) b);;
               on_tx (tx_op op));;
              modify (fun b => set_b_count (u64 (b_count b + 1)) b)) b = (b', Ok tt) /\
             batch_reads b' (apply_write m op).
Proof.
  intros Hb. destruct (batch_commit_run b m Hb) as (d & Hc & Hd).
  destruct (batch_write_new op (set_b_db d b) m 0 Hd) as (b' & Hr & Hb'). exists b'. split; [|done].
  rewrite <- Hr. unfold mbind, gom_bind. rewrite Hc. reflexivity.
Qed.

Lemma batch_write_eq w b t r :
  w (b_tx b) = (t, r) -> r = Ok tt \/ r = Err ErrTxnTooBig ->
  Batch_write w b =
  ((if match r with Ok _ => false | _ => true end || (u64 (b_count b + 1) =? b_maxSize b)
    then Batch_Commit;; modify (set_b_count 0);; modify (fun b => set_b_tx (db_WriteTx (b_db b)) b);; on_tx w
    else mret tt);;
   modify (fun b => set_b_count (u64 (b_count b + 1)) b)) (set_b_tx t b).
Proof.
  intros Hw Hr. unfold Batch_write, catch, on_tx, mbind, gom_bind. rewrite Hw.
  destruct Hr as [-> | ->]; cbn [fst snd get set_b_tx b_count b_maxSize]; [|reflexivity].
  destruct (_ =? _); reflexivity.
Qed.

Lemma batch_op_run op b m :
  batch_reads b m -> exists b', batch_op op b = (b', Ok tt) /\ batch_reads b' (apply_write m op).
Proof.
  intros Hb. replace (batch_op op) with (Batch_write (tx_op op)) by (by destruct op).
  destruct (tx_op op (b_tx b)) as [t r] eqn:E.
  destruct (tx_op_wrote op (b_tx b)) as [(Hr & _) | Hr]; rewrite E in Hr.
  - cbn in Hr. subst r. rewrite (batch_write_eq _ _ _ _ E) by auto.
    assert (Hb1 : batch_reads (set_b_tx t b) (apply_write m op)) by (by eapply tx_view_op).
    destruct (_ =? _); cbn [orb].
    + destruct (batch_flush op _ _ Hb1) as (b' & Hr & Hb'). exists b'. split; [done|].
      eapply tx_view_ext, Hb'. intros k. unfold apply_write. by destruct (decide _).
    + eexists. split; [reflexivity|]. exact Hb1.
  - injection Hr as -> ->. rewrite (batch_write_eq _ _ _ _ E) by auto. cbn [orb]. by apply batch_flush.
Qed.

(** A sequence of writes. *)
Lemma batch_ops_run (ws : list write_op) b m :
  batch_reads b m ->
  exists b', mfor ws batch_op b = (b', Ok tt) /\ batch_reads b' (fold_left apply_write ws m).
Proof.
  revert b m. induction ws as [|op ws IH]; intros b m Hb; [by exists b|].
  destruct (batch_op_run op b m Hb) as (b1 & Hr & Hb1). destruct (IH _ _ Hb1) as (b' & Hr' & Hb').
  exists b'. split; [|done]. cbn [mfor]. by erewrite bind_run_Ok by exact Hr.
Qed.

Lemma batch_get_run k b m :
  batch_reads b m ->
  exists b', Batch_Get k b = (b', match m k with Some v => Ok v | None => Err ErrKeyNotFound end) /\ batch_reads b' m.
Proof.
  intros Hb. destruct (tx_view_get k _ _ _ Hb) as (t & Hg & Ht). unfold Batch_Get, on_tx. rewrite Hg.
  eexists. split; [reflexivity|]. exact Ht.
Qed.

(** ** Batches on a prefixed database *)

Definition prefix_op (p : bytes) (op : write_op) : write_op :=
  match op with WSet k v => WSet (p +:+ k) v | WDelete k => WDelete (p +:+ k) end.

Lemma apply_write_prefix p op m k :
  apply_write m (prefix_op p op) (p +:+ k) = apply_write (fun k => m (p +:+ k)) op k.
Proof.
  unfold apply_write. destruct op as [k0 v|k0]; cbn;
    (destruct (decide (k = k0)) as [->|Hne]; [by rewrite decide_True|]);
    (rewrite decide_False; [done|]; intros E; by apply Hne, (append_inj p)).
Qed.

Lemma apply_write_outside p op m k : outside p k -> apply_write m (prefix_op p op) k = m k.
Proof. intros Ho. unfold apply_write. destruct op; cbn; by rewrite decide_False. Qed.

Lemma fold_write_ext (ws : list write_op) m m' k :
  (forall k, m k = m' k) -> fold_left apply_write ws m k = fold_left apply_write ws m' k.
Proof.
  revert m m'. induction ws as [|op ws IH]; intros m m' Hm; [done|]. cbn. apply IH. intros k'.
  unfold apply_write. by destruct (decide _).
Qed.

Lemma fold_write_prefix p (ws : list write_op) m k :
  fold_left apply_write (prefix_op p <$> ws) m (p +:+ k) = fold_left apply_write ws (fun k => m (p +:+ k)) k.
Proof.
  revert m. induction ws as [|op ws IH]; intros m; [done|]. cbn. rewrite IH.
  apply fold_write_ext. intros k'. apply apply_write_prefix.
Qed.

Lemma fold_write_outside p (ws : list write_op) m k :
  outside p k -> fold_left apply_write (prefix_op p <$> ws) m k = m k.
Proof.
  revert m. induction ws as [|op ws IH]; intros m Ho; [done|]. cbn. rewrite IH by done. by apply apply_write_outside.
Qed.

(** The prefix a handle stands for; a batch on the handle is a batch on the database below. *)
Definition handle_prefix (h : db_handle) : bytes := match h with Bare => "" | WithPrefix p => p end.

Lemma handle_prefix_nested (ps : list bytes) h :
  handle_prefix (fold_left NewPrefixedDatabase ps h) = handle_prefix h +:+ String.concat "" ps.
Proof.
  revert h. induction ps as [|p ps IH]; intros h; cbn [fold_left]; [by rewrite string_app_nil_r|].
  rewrite IH. replace (handle_prefix (NewPrefixedDatabase h p)) with (handle_prefix h +:+ p) by (by destruct h).
  rewrite string_app_assoc. f_equal. destruct ps; cbn; [by rewrite string_app_nil_r|done].
Qed.
End facts.

(** The writes of a batch on a handle. *)
Definition handle_op {D T} (base : Database D T) (h : db_handle) (op : write_op) : GoM (Batch D T) unit :=
  @batch_op D T (handle_ops base h) op.

Lemma handle_op_prefix {D T} (base : Database D T) h op :
  handle_op base h op = @batch_op D T base (prefix_op (handle_prefix h) op).
Proof. by destruct h, op. Qed.

Lemma handle_run {D T} {base : Database D T} {view : DatabaseView D T} {laws : DatabaseLaws D T} h d maxSize ws :
  exists b d', mfor ws (handle_op base h) (@NewBatchMaxSize D T (handle_ops base h) d maxSize) = (b, Ok tt) /\
    @Batch_Commit D T (handle_ops base h) b = (set_b_db d' b, Ok tt) /\
    forall k, contents d' k = fold_left apply_write (prefix_op (handle_prefix h) <$> ws) (contents d) k.
Proof.
  assert (Hn : @NewBatchMaxSize D T (handle_ops base h) d maxSize = @NewBatchMaxSize D T base d maxSize) by (by destruct h).
  assert (Hc : @Batch_Commit D T (handle_ops base h) = @Batch_Commit D T base) by (by destruct h).
  rewrite Hn, Hc. destruct (batch_ops_run (prefix_op (handle_prefix h) <$> ws) (NewBatchMaxSize d maxSize) (contents d))
    as (b & Hr & Hb); [apply tx_view_new|].
  destruct (batch_commit_run _ _ Hb) as (d' & Hd & Hk). exists b, d'. split_and!; [|done|done].
  rewrite <- Hr. clear. generalize (@NewBatchMaxSize D T base d maxSize). induction ws as [|op ws IH]; intros b; [done|].
  cbn [mfor fmap list_fmap]. rewrite handle_op_prefix. unfold mbind, gom_bind.
  destruct (batch_op _ b) as [b1 []]; auto.
Qed.

(** ** The bounds of an iteration over pebble *)

(** The upper bound, octet by octet. *)
Fixpoint upper (b : bytes) : option bytes :=
  match b with
  | EmptyString => None
  | String c b' =>
      match upper b' with
      | Some u => Some (String c u)
      | None => if u8 (byte_val c + 1) =? 0 then None else Some (String (byte_of (u8 (byte_val c + 1))) "")
      end
  end.

Lemma bget_mid a c b : bget (String.length a) (a +:+ String c b) = Some (byte_val c).
Proof. induction a as [|x a IH]; [done|exact IH]. Qed.

Lemma upper_snoc a c :
  upper (a +:+ String c "") =
  if u8 (byte_val c + 1) =? 0 then upper a else Some (a +:+ String (byte_of (u8 (byte_val c + 1))) "").
Proof.
  induction a as [|x a IH]; cbn [String.append upper]; [by destruct (_ =? _)|].
  rewrite IH. by destruct (_ =? _).
Qed.

Lemma bytes_snoc (a : bytes) n : String.length a = S n -> exists b c, a = b +:+ String c "" /\ String.length b = n.
Proof.
  intros Hl. pose proof (length_bdrop n a) as Hd. rewrite Hl in Hd.
  destruct (bdrop n a) as [|c [|c' r]] eqn:E; cbn in Hd; [lia| |lia].
  exists (btake n a), c. rewrite <- E, btake_bdrop. split; [done|]. rewrite length_btake. lia.
Qed.

Lemma upper_loop_eq n a rest : String.length a = n -> upper_loop n (a +:+ rest) = upper a.
Proof.
  revert a rest. induction n as [|n IH]; intros a rest Hl; [by destruct a|].
  destruct (bytes_snoc a n Hl) as (b & c & -> & Hb). rewrite upper_snoc, string_app_assoc. cbn [String.append upper_loop].
  rewrite <- Hb, bget_mid. cbn [default]. unfold id. destruct (u8 (byte_val c + 1) =? 0); cbn [negb].
  - rewrite Hb. unfold set_octet. rewrite btake_app by done. by apply IH.
  - f_equal. unfold set_octet. rewrite (btake_app (String.length b) b) by done.
    replace (S (String.length b)) with (String.length (b +:+ String (byte_of (u8 (byte_val c + 1))) ""))
      by (rewrite string_length_app; cbn; lia).
    set (x := byte_of _). change (String x (bdrop ?n ?r)) with (String x "" +:+ bdrop n r).
    rewrite <- string_app_assoc. by rewrite btake_app.
Qed.

Lemma keyUpperBound_eq b : keyUpperBound b = upper b.
Proof. unfold keyUpperBound. rewrite <- (string_app_nil_r b) at 2. by apply upper_loop_eq. Qed.

(** The keys between the bounds are those with the prefix. *)
Lemma upper_range p k :
  bytes_le p k && match upper p with Some u => bytes_lt k u | None => true end = true <->
  exists rest, k = p +:+ rest.
Proof.
  revert k. induction p as [|c p IH]; intros k; [split; [by exists k|done]|].
  destruct k as [|x k]; [split; [done|by intros [rest [=]]]|].
  pose proof (byte_val_range c) as Hc. pose proof (byte_val_range x) as Hx. specialize (IH k).
  assert (Hpre : (exists rest, String x k = String c p +:+ rest) <-> x = c /\ exists rest, k = p +:+ rest).
  { split; [intros [rest [= -> ->]]; eauto|intros [-> [rest ->]]; by exists rest]. }
  rewrite Hpre, <- IH. clear Hpre IH. assert (Heq : x = c <-> byte_val x = byte_val c).
  { split; [by intros ->|]. intros E. by rewrite <- (byte_of_val x), E, byte_of_val. }
  rewrite Heq. cbn [bytes_le upper]. destruct (upper p) as [u|].
  - unfold bytes_lt. cbn [bytes_le].
    destruct (Z.ltb_spec (byte_val c) (byte_val x)), (Z.eqb_spec (byte_val c) (byte_val x)),
      (bytes_le p k), (bytes_le u k); cbn; intuition (try lia; try congruence).
  - destruct (Z.eqb_spec (u8 (byte_val c + 1)) 0) as [E|E].
    + assert (byte_val c = 255).
      { destruct (Z.eq_dec (byte_val c) 255); [done|]. unfold u8 in E. rewrite Z.mod_small in E; lia. }
      destruct (Z.ltb_spec (byte_val c) (byte_val x)), (Z.eqb_spec (byte_val c) (byte_val x)), (bytes_le p k);
        cbn; intuition (try lia; try congruence).
    + assert (Hlt : byte_val c + 1 < 256).
      { destruct (Z.eq_dec (byte_val c) 255) as [E255|]; [|lia]. rewrite E255 in E. done. }
      assert (Hv : byte_val (byte_of (u8 (byte_val c + 1))) = byte_val c + 1).
      { rewrite byte_val_of. unfold u8. rewrite (Z.mod_small (byte_val c + 1) (2 ^ 8)) by lia. apply Z.mod_small. lia. }
      unfold bytes_lt. cbn [bytes_le]. rewrite Hv.
      destruct (Z.ltb_spec (byte_val c) (byte_val x)), (Z.eqb_spec (byte_val c) (byte_val x)),
        (Z.ltb_spec (byte_val c + 1) (byte_val x)), (Z.eqb_spec (byte_val c + 1) (byte_val x)), (bytes_le p k);
        cbn; intuition (try lia; try congruence).
Qed.

(** [Iterate] of pebble goes through the keys with the prefix, and gives the rest of each; no slice
    is out of range. *)
Lemma PebbleDB_Iterate_run prefix (entries : list (bytes * bytes)) :
  PebbleDB_Iterate prefix entries =
  Ok (omap (fun '(k, v) => (fun rest => (rest, v)) <$> strip_prefix prefix k) entries).
Proof.
  unfold PebbleDB_Iterate, pebble_NewIter. rewrite keyUpperBound_eq.
  induction entries as [|[k v] l IH]; [done|]. cbn [List.filter].
  pose proof (upper_range prefix k) as Hr.
  destruct (bytes_le prefix k && _) eqn:E.
  - destruct (proj1 Hr eq_refl) as [rest ->]. cbn [local_keys]. unfold slice_from.
    rewrite (proj2 (Nat.ltb_ge _ _)) by (rewrite string_length_app; lia). rewrite bdrop_app by done.
    cbn [mbind outcome_bind]. rewrite IH. cbn. by rewrite strip_prefix_app.
  - rewrite IH. cbn. destruct (strip_prefix prefix k) as [rest|] eqn:Es; [|done].
    apply strip_prefix_Some in Es as ->. enough (false = true) by done. apply Hr. by eexists.
Qed.
