(* ===== verification/Sha256.v ===== *)
(** * crypto/sha256

    The node hashes keys with SHA-256 from Go's standard library
    ([sha256.New], [sha256.Sum256]) and with Tendermint's [crypto.Sha256], which is
    the same function.  This is FIPS 180-4 on 32-bit words kept as [Z]. *)

From stdpp Require Import base list strings.
From Stdlib Require Import ZArith Lia.
From S2P Require Import Prelude GoLib.

Definition rotr (n x : Z) : Z := Z.lor (Z.shiftr x n) (u32 (Z.shiftl x (32 - n))).

Definition bsig0 (x : Z) : Z := Z.lxor (Z.lxor (rotr 2 x) (rotr 13 x)) (rotr 22 x).
Definition bsig1 (x : Z) : Z := Z.lxor (Z.lxor (rotr 6 x) (rotr 11 x)) (rotr 25 x).
Definition ssig0 (x : Z) : Z := Z.lxor (Z.lxor (rotr 7 x) (rotr 18 x)) (Z.shiftr x 3).
Definition ssig1 (x : Z) : Z := Z.lxor (Z.lxor (rotr 17 x) (rotr 19 x)) (Z.shiftr x 10).
Definition ch (x y z : Z) : Z := Z.lxor (Z.land x y) (Z.land (Z.lxor x (2 ^ 32 - 1)) z).
Definition maj (x y z : Z) : Z := Z.lxor (Z.lxor (Z.land x y) (Z.land x z)) (Z.land y z).

(** *** Constants *)

(** The standard takes them from the first primes: the first 32 bits of the fractional
    parts of the cube roots (64 round constants) and of the square roots (8 initial
    values). *)
Definition is_prime (n : Z) : bool :=
  forallb (fun d => negb (n mod d =? 0)) (Z.of_nat <$> seq 2 (Z.to_nat (Z.sqrt n) - 1)).

Definition primes (bound : nat) : list Z := List.filter is_prime (Z.of_nat <$> seq 2 bound).

(** The integer cube root, bit by bit from [2^n]. *)
Fixpoint icbrt (n : nat) (x r : Z) : Z :=
  match n with
  | O => r
  | S n' => let r' := r + 2 ^ Z.of_nat n' in icbrt n' x (if r' * r' * r' <=? x then r' else r)
  end.

Definition K256 : list Z :=
  Eval vm_compute in (fun p => u32 (icbrt 36 (p * 2 ^ 96) 0)) <$> primes 310.

Definition H256 : list Z :=
  Eval vm_compute in (fun p => u32 (Z.sqrt (p * 2 ^ 64))) <$> primes 18.

(** The eight working variables. *)
Record sha_state := Sha { sa : Z; sb : Z; sc : Z; sd : Z; se : Z; sf : Z; sg : Z; sh : Z }.

Definition sha_init : sha_state :=
  let h i := nth i H256 0 in Sha (h 0%nat) (h 1%nat) (h 2%nat) (h 3%nat) (h 4%nat) (h 5%nat) (h 6%nat) (h 7%nat).

(** The message schedule, most recent word first. *)
Fixpoint schedule (n : nat) (w : list Z) : list Z :=
  match n with
  | O => w
  | S n' =>
      let x := u32 (ssig1 (nth 1 w 0) + nth 6 w 0 + ssig0 (nth 14 w 0) + nth 15 w 0) in
      schedule n' (x :: w)
  end.

Definition round (st : sha_state) (kw : Z * Z) : sha_state :=
  let t1 := sh st + bsig1 (se st) + ch (se st) (sf st) (sg st) + fst kw + snd kw in
  let t2 := bsig0 (sa st) + maj (sa st) (sb st) (sc st) in
  Sha (u32 (t1 + t2)) (sa st) (sb st) (sc st) (u32 (sd st + t1)) (se st) (sf st) (sg st).

Definition compress (st : sha_state) (block : list Z) : sha_state :=
  let w := rev (schedule 48 (rev block)) in
  let r := fold_left round (combine K256 w) st in
  Sha (u32 (sa st + sa r)) (u32 (sb st + sb r)) (u32 (sc st + sc r)) (u32 (sd st + sd r))
      (u32 (se st + se r)) (u32 (sf st + sf r)) (u32 (sg st + sg r)) (u32 (sh st + sh r)).

Fixpoint words (n : nat) (b : bytes) : list Z :=
  match n with
  | O => []
  | S n' => be_val (btake 4 b) :: words n' (bdrop 4 b)
  end.

Fixpoint blocks (n : nat) (b : bytes) (st : sha_state) : sha_state :=
  match n with
  | O => st
  | S n' => blocks n' (bdrop 64 b) (compress st (words 16 b))
  end.

Definition sha_pad (b : bytes) : bytes :=
  b +:+ String (byte_of 0x80) (zeros (Z.to_nat ((55 - blen b) mod 64))) +:+ be_bytes 8 (8 * blen b).

Definition sha256 (b : bytes) : bytes :=
  let p := sha_pad b in
  let st := blocks (String.length p / 64) p sha_init in
  be_bytes 4 (sa st) +:+ be_bytes 4 (sb st) +:+ be_bytes 4 (sc st) +:+ be_bytes 4 (sd st) +:+
  be_bytes 4 (se st) +:+ be_bytes 4 (sf st) +:+ be_bytes 4 (sg st) +:+ be_bytes 4 (sh st).

Example constants_count : length K256 = 64%nat /\ length H256 = 8%nat.
Proof. split; reflexivity. Qed.

(** FIPS 180-4 test vectors: one block, and a message whose padding needs a second block. *)
Example sha256_abc :
  hex_encode (sha256 "abc") = "ba7816bf8f01cfea414140de5dae2223b00361a396177a9cb410ff61f20015ad".
Proof. vm_compute. reflexivity. Qed.

Example sha256_two_blocks :
  hex_encode (sha256 "abcdbcdecdefdefgefghfghighijhijkijkljklmklmnlmnomnopnopq")
  = "248d6a61d20638b8e5c026930c3e6039a33ce45964ff2167f6ecedd419db06c1".
Proof. vm_compute. reflexivity. Qed.

Lemma length_sha256 b : String.length (sha256 b) = 32%nat.
Proof. unfold sha256. by rewrite !string_length_app, !length_be_bytes. Qed.

Global Opaque sha256.
