(* ===== verification/Models.v ===== *)
(** * The protobuf messages of the Vochain

    The package [go.vocdoni.io/proto/build/go/models] is generated code that is not
    part of the repository.  Each message is a record with the fields the node's
    code reads or writes; a pointer field, or a field whose nil value the code tests,
    is an [option].  A nil element of a repeated message field has the same encoding
    and the same getters as an empty message, and is modelled by it.  Enumerations
    are open in proto3, hence the [Unrecognized] constructors. *)

From stdpp Require Import base option list strings.
From S2P Require Import Prelude GoMonad.

(** ** Enumerations *)

Inductive TxType :=
| TX_UNKNOWN | NEW_PROCESS | SET_PROCESS_STATUS | SET_PROCESS_CENSUS | SET_PROCESS_QUESTION_INDEX
| SET_PROCESS_RESULTS | ADD_ORACLE | REMOVE_ORACLE | ADD_VALIDATOR | REMOVE_VALIDATOR
| ADD_PROCESS_KEYS | REVEAL_PROCESS_KEYS | REGISTER_VOTER_KEY | MINT_TOKENS | SEND_TOKENS
| SET_ACCOUNT_INFO | ADD_DELEGATE_FOR_ACCOUNT | DEL_DELEGATE_FOR_ACCOUNT | COLLECT_FAUCET
| TxType_Unrecognized (n : Z).

Inductive ProcessStatus :=
| PROCESS_UNKNOWN | READY | ENDED | CANCELED | PAUSED | RESULTS
| ProcessStatus_Unrecognized (n : Z).

Definition ProcessStatus_number (st : ProcessStatus) : Z :=
  match st with
  | PROCESS_UNKNOWN => 0 | READY => 1 | ENDED => 2 | CANCELED => 3 | PAUSED => 4 | RESULTS => 5
  | ProcessStatus_Unrecognized n => n
  end.

Inductive ProofArbo_Type := BLAKE2B | POSEIDON | ProofArbo_Unrecognized (n : Z).

Inductive ProofCA_Type :=
| PCA_UNKNOWN | ECDSA | ECDSA_PIDSALTED | ECDSA_BLIND | ECDSA_BLIND_PIDSALTED
| ProofCA_Unrecognized (n : Z).

(** The numbers of the census origins appear in the process identifiers. *)
Definition CENSUS_UNKNOWN : Z := 0.
Definition OFF_CHAIN_TREE : Z := 1.
Definition OFF_CHAIN_TREE_WEIGHTED : Z := 2.
Definition OFF_CHAIN_CA : Z := 3.
Definition ERC20 : Z := 11.
Definition MINI_ME : Z := 15.

#[export] Instance TxType_eq_dec : EqDecision TxType.
Proof. solve_decision. Defined.
#[export] Instance ProcessStatus_eq_dec : EqDecision ProcessStatus.
Proof. solve_decision. Defined.
#[export] Instance ProofArbo_Type_eq_dec : EqDecision ProofArbo_Type.
Proof. solve_decision. Defined.
#[export] Instance ProofCA_Type_eq_dec : EqDecision ProofCA_Type.
Proof. solve_decision. Defined.

(** ** Messages *)

(** Ballot properties. *)
Record EnvelopeType := mkEnvelopeType {
  Serial : bool;
  Anonymous : bool;
  EncryptedVotes : bool;
  UniqueValues : bool;
  CostFromWeight : bool
}.

#[export] Instance EnvelopeType_eq_dec : EqDecision EnvelopeType.
Proof. solve_decision. Defined.

Record ProcessMode := mkProcessMode {
  AutoStart : bool;
  Interruptible : bool;
  DynamicCensus : bool;
  EncryptedMetaData : bool;
  PreRegister : bool
}.

#[export] Instance ProcessMode_eq_dec : EqDecision ProcessMode.
Proof. solve_decision. Defined.

Record ProcessVoteOptions := mkProcessVoteOptions {
  MaxCount : Z;
  MaxValue : Z;
  MaxVoteOverwrites : Z;
  MaxTotalCost : Z;
  CostExponent : Z
}.

#[export] Instance ProcessVoteOptions_eq_dec : EqDecision ProcessVoteOptions.
Proof. solve_decision. Defined.

(** The fields are [uint32]. *)
Definition options_range (o : ProcessVoteOptions) : Prop :=
  is_u32 (MaxCount o) /\ is_u32 (MaxValue o) /\ is_u32 (MaxVoteOverwrites o) /\
  is_u32 (MaxTotalCost o) /\ is_u32 (CostExponent o).

(** An amount of tokens and the metadata attached to an address. *)
Record Account := mkAccount {
  Balance : Z;
  Nonce : Z;
  InfoURI : string;
  DelegateAddrs : list bytes;
  ProcessIndex : Z
}.

#[export] Instance Account_eq_dec : EqDecision Account.
Proof. solve_decision. Defined.

Definition with_Balance (x : Z) (r : Account) : Account :=
  mkAccount x (Nonce r) (InfoURI r) (DelegateAddrs r) (ProcessIndex r).

Definition with_Nonce (x : Z) (r : Account) : Account :=
  mkAccount (Balance r) x (InfoURI r) (DelegateAddrs r) (ProcessIndex r).

Definition with_InfoURI (x : string) (r : Account) : Account :=
  mkAccount (Balance r) (Nonce r) x (DelegateAddrs r) (ProcessIndex r).

Definition with_DelegateAddrs (x : list bytes) (r : Account) : Account :=
  mkAccount (Balance r) (Nonce r) (InfoURI r) x (ProcessIndex r).

Definition with_ProcessIndex (x : Z) (r : Account) : Account :=
  mkAccount (Balance r) (Nonce r) (InfoURI r) (DelegateAddrs r) x.

Record Treasurer := mkTreasurer {
  Treasurer_Address : bytes;
  Treasurer_Nonce : Z
}.

#[export] Instance Treasurer_eq_dec : EqDecision Treasurer.
Proof. solve_decision. Defined.

Definition with_Treasurer_Nonce (x : Z) (r : Treasurer) : Treasurer :=
  mkTreasurer (Treasurer_Address r) x.

Record Validator := mkValidator {
  Validator_Address : bytes;
  Validator_PubKey : bytes;
  Validator_Power : Z
}.

#[export] Instance Validator_eq_dec : EqDecision Validator.
Proof. solve_decision. Defined.

(** Results sent by an oracle; a question is the list of its big-endian totals. *)
Record ProcessResult := mkProcessResult {
  Votes : list (list bytes);
  PR_ProcessId : bytes;
  PR_EntityId : bytes;
  OracleAddress : option bytes
}.

#[export] Instance ProcessResult_eq_dec : EqDecision ProcessResult.
Proof. solve_decision. Defined.

(** A voting process as the state keeps it. *)
Record Process := mkProcess {
  ProcessId : bytes;
  EntityId : bytes;
  StartBlock : Z;
  BlockCount : Z;
  CensusRoot : bytes;
  CensusURI : option string;
  EncryptionPrivateKeys : list string;
  EncryptionPublicKeys : list string;
  KeyIndex : option Z;
  Status : ProcessStatus;
  P_EnvelopeType : option EnvelopeType;
  Mode : option ProcessMode;
  VoteOptions : option ProcessVoteOptions;
  CensusOrigin : Z;
  Results : list ProcessResult;
  EthIndexSlot : option Z;
  SourceBlockHeight : option Z;
  MaxCensusSize : option Z;
  RollingCensusRoot : bytes;
  RollingCensusSize : option Z;
  NullifiersRoot : bytes;
  Namespace : Z;
  Metadata : option string;
  SourceNetworkId : Z
}.

#[export] Instance Process_eq_dec : EqDecision Process.
Proof. solve_decision. Defined.

Definition with_ProcessId (x : bytes) (r : Process) : Process :=
  mkProcess x (EntityId r) (StartBlock r) (BlockCount r) (CensusRoot r)
     (CensusURI r) (EncryptionPrivateKeys r) (EncryptionPublicKeys r) (KeyIndex r) (Status r)
     (P_EnvelopeType r) (Mode r) (VoteOptions r) (CensusOrigin r) (Results r)
     (EthIndexSlot r) (SourceBlockHeight r) (MaxCensusSize r) (RollingCensusRoot r) (RollingCensusSize r)
     (NullifiersRoot r) (Namespace r) (Metadata r) (SourceNetworkId r).

Definition with_EntityId (x : bytes) (r : Process) : Process :=
  mkProcess (ProcessId r) x (StartBlock r) (BlockCount r) (CensusRoot r)
     (CensusURI r) (EncryptionPrivateKeys r) (EncryptionPublicKeys r) (KeyIndex r) (Status r)
     (P_EnvelopeType r) (Mode r) (VoteOptions r) (CensusOrigin r) (Results r)
     (EthIndexSlot r) (SourceBlockHeight r) (MaxCensusSize r) (RollingCensusRoot r) (RollingCensusSize r)
     (NullifiersRoot r) (Namespace r) (Metadata r) (SourceNetworkId r).

Definition with_StartBlock (x : Z) (r : Process) : Process :=
  mkProcess (ProcessId r) (EntityId r) x (BlockCount r) (CensusRoot r)
     (CensusURI r) (EncryptionPrivateKeys r) (EncryptionPublicKeys r) (KeyIndex r) (Status r)
     (P_EnvelopeType r) (Mode r) (VoteOptions r) (CensusOrigin r) (Results r)
     (EthIndexSlot r) (SourceBlockHeight r) (MaxCensusSize r) (RollingCensusRoot r) (RollingCensusSize r)
     (NullifiersRoot r) (Namespace r) (Metadata r) (SourceNetworkId r).

Definition with_CensusRoot (x : bytes) (r : Process) : Process :=
  mkProcess (ProcessId r) (EntityId r) (StartBlock r) (BlockCount r) x
     (CensusURI r) (EncryptionPrivateKeys r) (EncryptionPublicKeys r) (KeyIndex r) (Status r)
     (P_EnvelopeType r) (Mode r) (VoteOptions r) (CensusOrigin r) (Results r)
     (EthIndexSlot r) (SourceBlockHeight r) (MaxCensusSize r) (RollingCensusRoot r) (RollingCensusSize r)
     (NullifiersRoot r) (Namespace r) (Metadata r) (SourceNetworkId r).

Definition with_CensusURI (x : option string) (r : Process) : Process :=
  mkProcess (ProcessId r) (EntityId r) (StartBlock r) (BlockCount r) (CensusRoot r)
     x (EncryptionPrivateKeys r) (EncryptionPublicKeys r) (KeyIndex r) (Status r)
     (P_EnvelopeType r) (Mode r) (VoteOptions r) (CensusOrigin r) (Results r)
     (EthIndexSlot r) (SourceBlockHeight r) (MaxCensusSize r) (RollingCensusRoot r) (RollingCensusSize r)
     (NullifiersRoot r) (Namespace r) (Metadata r) (SourceNetworkId r).

Definition with_EncryptionPrivateKeys (x : list string) (r : Process) : Process :=
  mkProcess (ProcessId r) (EntityId r) (StartBlock r) (BlockCount r) (CensusRoot r)
     (CensusURI r) x (EncryptionPublicKeys r) (KeyIndex r) (Status r)
     (P_EnvelopeType r) (Mode r) (VoteOptions r) (CensusOrigin r) (Results r)
     (EthIndexSlot r) (SourceBlockHeight r) (MaxCensusSize r) (RollingCensusRoot r) (RollingCensusSize r)
     (NullifiersRoot r) (Namespace r) (Metadata r) (SourceNetworkId r).

Definition with_EncryptionPublicKeys (x : list string) (r : Process) : Process :=
  mkProcess (ProcessId r) (EntityId r) (StartBlock r) (BlockCount r) (CensusRoot r)
     (CensusURI r) (EncryptionPrivateKeys r) x (KeyIndex r) (Status r)
     (P_EnvelopeType r) (Mode r) (VoteOptions r) (CensusOrigin r) (Results r)
     (EthIndexSlot r) (SourceBlockHeight r) (MaxCensusSize r) (RollingCensusRoot r) (RollingCensusSize r)
     (NullifiersRoot r) (Namespace r) (Metadata r) (SourceNetworkId r).

Definition with_KeyIndex (x : option Z) (r : Process) : Process :=
  mkProcess (ProcessId r) (EntityId r) (StartBlock r) (BlockCount r) (CensusRoot r)
     (CensusURI r) (EncryptionPrivateKeys r) (EncryptionPublicKeys r) x (Status r)
     (P_EnvelopeType r) (Mode r) (VoteOptions r) (CensusOrigin r) (Results r)
     (EthIndexSlot r) (SourceBlockHeight r) (MaxCensusSize r) (RollingCensusRoot r) (RollingCensusSize r)
     (NullifiersRoot r) (Namespace r) (Metadata r) (SourceNetworkId r).

Definition with_Status (x : ProcessStatus) (r : Process) : Process :=
  mkProcess (ProcessId r) (EntityId r) (StartBlock r) (BlockCount r) (CensusRoot r)
     (CensusURI r) (EncryptionPrivateKeys r) (EncryptionPublicKeys r) (KeyIndex r) x
     (P_EnvelopeType r) (Mode r) (VoteOptions r) (CensusOrigin r) (Results r)
     (EthIndexSlot r) (SourceBlockHeight r) (MaxCensusSize r) (RollingCensusRoot r) (RollingCensusSize r)
     (NullifiersRoot r) (Namespace r) (Metadata r) (SourceNetworkId r).

Definition with_Results (x : list ProcessResult) (r : Process) : Process :=
  mkProcess (ProcessId r) (EntityId r) (StartBlock r) (BlockCount r) (CensusRoot r)
     (CensusURI r) (EncryptionPrivateKeys r) (EncryptionPublicKeys r) (KeyIndex r) (Status r)
     (P_EnvelopeType r) (Mode r) (VoteOptions r) (CensusOrigin r) x
     (EthIndexSlot r) (SourceBlockHeight r) (MaxCensusSize r) (RollingCensusRoot r) (RollingCensusSize r)
     (NullifiersRoot r) (Namespace r) (Metadata r) (SourceNetworkId r).

Definition with_RollingCensusRoot (x : bytes) (r : Process) : Process :=
  mkProcess (ProcessId r) (EntityId r) (StartBlock r) (BlockCount r) (CensusRoot r)
     (CensusURI r) (EncryptionPrivateKeys r) (EncryptionPublicKeys r) (KeyIndex r) (Status r)
     (P_EnvelopeType r) (Mode r) (VoteOptions r) (CensusOrigin r) (Results r)
     (EthIndexSlot r) (SourceBlockHeight r) (MaxCensusSize r) x (RollingCensusSize r)
     (NullifiersRoot r) (Namespace r) (Metadata r) (SourceNetworkId r).

Definition with_RollingCensusSize (x : option Z) (r : Process) : Process :=
  mkProcess (ProcessId r) (EntityId r) (StartBlock r) (BlockCount r) (CensusRoot r)
     (CensusURI r) (EncryptionPrivateKeys r) (EncryptionPublicKeys r) (KeyIndex r) (Status r)
     (P_EnvelopeType r) (Mode r) (VoteOptions r) (CensusOrigin r) (Results r)
     (EthIndexSlot r) (SourceBlockHeight r) (MaxCensusSize r) (RollingCensusRoot r) x
     (NullifiersRoot r) (Namespace r) (Metadata r) (SourceNetworkId r).

Definition with_NullifiersRoot (x : bytes) (r : Process) : Process :=
  mkProcess (ProcessId r) (EntityId r) (StartBlock r) (BlockCount r) (CensusRoot r)
     (CensusURI r) (EncryptionPrivateKeys r) (EncryptionPublicKeys r) (KeyIndex r) (Status r)
     (P_EnvelopeType r) (Mode r) (VoteOptions r) (CensusOrigin r) (Results r)
     (EthIndexSlot r) (SourceBlockHeight r) (MaxCensusSize r) (RollingCensusRoot r) (RollingCensusSize r)
     x (Namespace r) (Metadata r) (SourceNetworkId r).

(** The leaf of the Processes tree. *)
Record StateDBProcess := mkStateDBProcess {
  SDB_Process : option Process;
  VotesRoot : bytes
}.

#[export] Instance StateDBProcess_eq_dec : EqDecision StateDBProcess.
Proof. solve_decision. Defined.

Record Vote := mkVote {
  Vote_Height : Z;
  Vote_ProcessId : bytes;
  VotePackage : bytes;
  Nullifier : bytes;
  Weight : bytes;
  Vote_KeyIndexes : list Z
}.

#[export] Instance Vote_eq_dec : EqDecision Vote.
Proof. solve_decision. Defined.

Definition with_Vote_Height (x : Z) (r : Vote) : Vote :=
  mkVote x (Vote_ProcessId r) (VotePackage r) (Nullifier r) (Weight r)
     (Vote_KeyIndexes r).

Definition with_Nullifier (x : bytes) (r : Vote) : Vote :=
  mkVote (Vote_Height r) (Vote_ProcessId r) (VotePackage r) x (Weight r)
     (Vote_KeyIndexes r).

Definition with_Weight (x : bytes) (r : Vote) : Vote :=
  mkVote (Vote_Height r) (Vote_ProcessId r) (VotePackage r) (Nullifier r) x
     (Vote_KeyIndexes r).

Definition with_Vote_KeyIndexes (x : list Z) (r : Vote) : Vote :=
  mkVote (Vote_Height r) (Vote_ProcessId r) (VotePackage r) (Nullifier r) (Weight r)
     x.

(** The leaf of a Votes tree. *)
Record StateDBVote := mkStateDBVote {
  VoteHash : bytes;
  SV_ProcessId : bytes;
  SV_Nullifier : bytes
}.

#[export] Instance StateDBVote_eq_dec : EqDecision StateDBVote.
Proof. solve_decision. Defined.

Record ProcessIdList := mkProcessIdList {
  ProcessIds : list bytes
}.

#[export] Instance ProcessIdList_eq_dec : EqDecision ProcessIdList.
Proof. solve_decision. Defined.

Record ProofArbo := mkProofArbo {
  PA_Type : ProofArbo_Type;
  PA_Siblings : bytes;
  PA_Value : option bytes
}.

#[export] Instance ProofArbo_eq_dec : EqDecision ProofArbo.
Proof. solve_decision. Defined.

Record CAbundle := mkCAbundle {
  CB_ProcessId : bytes;
  CB_Address : bytes
}.

#[export] Instance CAbundle_eq_dec : EqDecision CAbundle.
Proof. solve_decision. Defined.

Record ProofCA := mkProofCA {
  CA_Type : ProofCA_Type;
  CA_Bundle : option CAbundle;
  CA_Signature : bytes
}.

#[export] Instance ProofCA_eq_dec : EqDecision ProofCA.
Proof. solve_decision. Defined.

Record ProofEthereumStorage := mkProofEthereumStorage {
  ES_Key : bytes;
  ES_Value : bytes;
  ES_Siblings : list bytes
}.

#[export] Instance ProofEthereumStorage_eq_dec : EqDecision ProofEthereumStorage.
Proof. solve_decision. Defined.

Record ProofMinime := mkProofMinime {
  ProofPrevBlock : option ProofEthereumStorage;
  ProofNextBlock : option ProofEthereumStorage
}.

#[export] Instance ProofMinime_eq_dec : EqDecision ProofMinime.
Proof. solve_decision. Defined.

Record ProofZkSNARK := mkProofZkSNARK {
  CircuitParametersIndex : Z;
  ZK_A : list string;
  ZK_B : list string;
  ZK_C : list string;
  ZK_PublicInputs : list string
}.

#[export] Instance ProofZkSNARK_eq_dec : EqDecision ProofZkSNARK.
Proof. solve_decision. Defined.

(** The [oneof] of a census proof; an unset payload is [ProofNone]. *)
Inductive Proof :=
| ProofNone
| ProofGraviton
| ProofIden3
| ProofOfArbo (p : ProofArbo)
| ProofOfCA (p : ProofCA)
| ProofOfEthereumStorage (p : ProofEthereumStorage)
| ProofOfMinime (p : ProofMinime)
| ProofOfZkSNARK (p : ProofZkSNARK).

#[export] Instance Proof_eq_dec : EqDecision Proof.
Proof. solve_decision. Defined.

Record VoteEnvelope := mkVoteEnvelope {
  VE_Nonce : bytes;
  VE_ProcessId : bytes;
  VE_Proof : option Proof;
  VE_VotePackage : bytes;
  VE_Nullifier : bytes;
  VE_KeyIndexes : list Z
}.

#[export] Instance VoteEnvelope_eq_dec : EqDecision VoteEnvelope.
Proof. solve_decision. Defined.

Record AdminTx := mkAdminTx {
  Adm_Txtype : TxType;
  Adm_ProcessId : option bytes;
  Adm_Address : option bytes;
  Adm_Nonce : Z;
  Adm_KeyIndex : option Z;
  EncryptionPrivateKey : option bytes;
  EncryptionPublicKey : option bytes
}.

#[export] Instance AdminTx_eq_dec : EqDecision AdminTx.
Proof. solve_decision. Defined.

Record NewProcessTx := mkNewProcessTx {
  NP_Nonce : Z;
  NP_Process : option Process
}.

#[export] Instance NewProcessTx_eq_dec : EqDecision NewProcessTx.
Proof. solve_decision. Defined.

Record SetProcessTx := mkSetProcessTx {
  SP_Txtype : TxType;
  SP_Nonce : Z;
  SP_ProcessId : bytes;
  SP_Status : option ProcessStatus;
  SP_CensusRoot : option bytes;
  SP_CensusURI : option string;
  SP_Results : option ProcessResult
}.

#[export] Instance SetProcessTx_eq_dec : EqDecision SetProcessTx.
Proof. solve_decision. Defined.

Record RegisterKeyTx := mkRegisterKeyTx {
  RK_ProcessId : bytes;
  RK_Proof : option Proof;
  NewKey : bytes;
  RK_Weight : string
}.

#[export] Instance RegisterKeyTx_eq_dec : EqDecision RegisterKeyTx.
Proof. solve_decision. Defined.

Record FaucetPayload := mkFaucetPayload {
  Identifier : Z;
  FP_To : bytes;
  Amount : Z
}.

#[export] Instance FaucetPayload_eq_dec : EqDecision FaucetPayload.
Proof. solve_decision. Defined.

Record FaucetPackage := mkFaucetPackage {
  FP_Payload : option FaucetPayload;
  FP_Signature : option bytes
}.

#[export] Instance FaucetPackage_eq_dec : EqDecision FaucetPackage.
Proof. solve_decision. Defined.

Record SetAccountInfoTx := mkSetAccountInfoTx {
  SAI_Nonce : Z;
  SAI_InfoURI : option string;
  SAI_Account : bytes;
  SAI_FaucetPackage : option FaucetPackage
}.

#[export] Instance SetAccountInfoTx_eq_dec : EqDecision SetAccountInfoTx.
Proof. solve_decision. Defined.

Record SetTransactionCostsTx := mkSetTransactionCostsTx {
  TC_Txtype : TxType;
  TC_Nonce : Z;
  TC_Value : Z
}.

#[export] Instance SetTransactionCostsTx_eq_dec : EqDecision SetTransactionCostsTx.
Proof. solve_decision. Defined.

Record MintTokensTx := mkMintTokensTx {
  MT_Nonce : Z;
  MT_To : bytes;
  MT_Value : Z
}.

#[export] Instance MintTokensTx_eq_dec : EqDecision MintTokensTx.
Proof. solve_decision. Defined.

Record SendTokensTx := mkSendTokensTx {
  ST_Nonce : Z;
  ST_From : option bytes;
  ST_To : option bytes;
  ST_Value : Z
}.

#[export] Instance SendTokensTx_eq_dec : EqDecision SendTokensTx.
Proof. solve_decision. Defined.

Record SetAccountDelegateTx := mkSetAccountDelegateTx {
  SAD_Txtype : TxType;
  SAD_Nonce : Z;
  Delegate : bytes
}.

#[export] Instance SetAccountDelegateTx_eq_dec : EqDecision SetAccountDelegateTx.
Proof. solve_decision. Defined.

Record CollectFaucetTx := mkCollectFaucetTx {
  CF_Nonce : Z;
  CF_FaucetPackage : option FaucetPackage
}.

#[export] Instance CollectFaucetTx_eq_dec : EqDecision CollectFaucetTx.
Proof. solve_decision. Defined.

(** The [oneof] payload of a transaction; [Tx_Other] stands for payloads the node
    does not handle. *)
Inductive TxPayload :=
| Tx_Vote (t : VoteEnvelope)
| Tx_Admin (t : AdminTx)
| Tx_NewProcess (t : NewProcessTx)
| Tx_SetProcess (t : SetProcessTx)
| Tx_RegisterKey (t : RegisterKeyTx)
| Tx_SetAccountInfo (t : SetAccountInfoTx)
| Tx_SetTransactionCosts (t : SetTransactionCostsTx)
| Tx_MintTokens (t : MintTokensTx)
| Tx_SendTokens (t : SendTokensTx)
| Tx_SetAccountDelegate (t : SetAccountDelegateTx)
| Tx_CollectFaucet (t : CollectFaucetTx)
| Tx_Other.

#[export] Instance TxPayload_eq_dec : EqDecision TxPayload.
Proof. solve_decision. Defined.

(** [models.Tx]: the payload may be unset. *)
Record Tx := mkTx { Payload : option TxPayload }.

#[export] Instance Tx_eq_dec : EqDecision Tx.
Proof. solve_decision. Defined.

(** The getters of the payload: nil on a nil transaction or on another payload. *)
Definition tx_payload (vtx : option Tx) : option TxPayload := vtx ≫= Payload.

Definition GetVote (vtx : option Tx) : option VoteEnvelope :=
  match tx_payload vtx with Some (Tx_Vote t) => Some t | _ => None end.
Definition GetAdmin (vtx : option Tx) : option AdminTx :=
  match tx_payload vtx with Some (Tx_Admin t) => Some t | _ => None end.
Definition GetNewProcess (vtx : option Tx) : option NewProcessTx :=
  match tx_payload vtx with Some (Tx_NewProcess t) => Some t | _ => None end.
Definition GetSetProcess (vtx : option Tx) : option SetProcessTx :=
  match tx_payload vtx with Some (Tx_SetProcess t) => Some t | _ => None end.
Definition GetRegisterKey (vtx : option Tx) : option RegisterKeyTx :=
  match tx_payload vtx with Some (Tx_RegisterKey t) => Some t | _ => None end.
Definition GetSetAccountInfo (vtx : option Tx) : option SetAccountInfoTx :=
  match tx_payload vtx with Some (Tx_SetAccountInfo t) => Some t | _ => None end.
Definition GetSetTransactionCosts (vtx : option Tx) : option SetTransactionCostsTx :=
  match tx_payload vtx with Some (Tx_SetTransactionCosts t) => Some t | _ => None end.
Definition GetMintTokens (vtx : option Tx) : option MintTokensTx :=
  match tx_payload vtx with Some (Tx_MintTokens t) => Some t | _ => None end.
Definition GetSendTokens (vtx : option Tx) : option SendTokensTx :=
  match tx_payload vtx with Some (Tx_SendTokens t) => Some t | _ => None end.
Definition GetSetAccountDelegateTx (vtx : option Tx) : option SetAccountDelegateTx :=
  match tx_payload vtx with Some (Tx_SetAccountDelegate t) => Some t | _ => None end.
Definition GetCollectFaucet (vtx : option Tx) : option CollectFaucetTx :=
  match tx_payload vtx with Some (Tx_CollectFaucet t) => Some t | _ => None end.

Record SignedTx := mkSignedTx {
  STx_Tx : bytes;
  STx_Signature : option bytes
}.

#[export] Instance SignedTx_eq_dec : EqDecision SignedTx.
Proof. solve_decision. Defined.
