(* ===== verification/Results.v ===== *)
(** * The results of a process

    [src/vochain/scrutinizer/indexertypes/results.go]: the matrix of the votes counted so far,
    one row for each question and one column for each option.  A [BigInt] of the matrix is
    allocated by [NewEmptyVotes] and belongs to one cell only, so the cells are values; the
    weight of a [Results] is never nil.  The mutex of [AddVote] is taken around
    [count_ballot]. *)

From stdpp Require Import base option list strings.
From Stdlib Require Import ZArith Lia.
From S2P Require Import Prelude GoMonad GoLib Models.

Definition MaxQuestions : Z := 64.
Definition MaxOptions : Z := 128.

Record IndexResults := mkResults {
  R_ProcessID : bytes;
  R_Votes : list (list Z);
  R_Weight : Z;
  R_EnvelopeHeight : Z;
  R_EnvelopeType : option EnvelopeType;
  R_VoteOpts : option ProcessVoteOptions;
  R_Signatures : list bytes;
  R_Final : bool;
  R_BlockHeight : Z
}.

#[export] Instance IndexResults_eq_dec : EqDecision IndexResults.
Proof. solve_decision. Defined.

Definition set_Votes (x : list (list Z)) (r : IndexResults) : IndexResults :=
  mkResults (R_ProcessID r) x (R_Weight r) (R_EnvelopeHeight r) (R_EnvelopeType r) (R_VoteOpts r)
    (R_Signatures r) (R_Final r) (R_BlockHeight r).
Definition set_Weight (x : Z) (r : IndexResults) : IndexResults :=
  mkResults (R_ProcessID r) (R_Votes r) x (R_EnvelopeHeight r) (R_EnvelopeType r) (R_VoteOpts r)
    (R_Signatures r) (R_Final r) (R_BlockHeight r).
Definition set_EnvelopeHeight (x : Z) (r : IndexResults) : IndexResults :=
  mkResults (R_ProcessID r) (R_Votes r) (R_Weight r) x (R_EnvelopeType r) (R_VoteOpts r)
    (R_Signatures r) (R_Final r) (R_BlockHeight r).
Definition set_BlockHeight (x : Z) (r : IndexResults) : IndexResults :=
  mkResults (R_ProcessID r) (R_Votes r) (R_Weight r) (R_EnvelopeHeight r) (R_EnvelopeType r)
    (R_VoteOpts r) (R_Signatures r) (R_Final r) x.

Definition NewEmptyVotes (questions options : Z) : list (list Z) :=
  if (questions =? 0) || (options =? 0) then []
  else replicate (Z.to_nat questions) (replicate (Z.to_nat options) 0).

(** [r.Votes[q][o].Add(r.Votes[q][o], x)]. *)
Definition add_cell (q o x : Z) : GoM IndexResults unit :=
  votes ← gets R_Votes;
  row ← lift (slice_get votes q);
  v ← lift (slice_get row o);
  modify (set_Votes (<[Z.to_nat q := <[Z.to_nat o := v + x]> row]> votes)).

(** [range l], with the index. *)
Definition range {A} (l : list A) : list (Z * A) := imap (fun i x => (Z.of_nat i, x)) l.

Definition Results_Add (new : IndexResults) : GoM IndexResults unit :=
  modify (fun r => set_Weight (R_Weight r + R_Weight new) r);;
  modify (fun r => if R_BlockHeight r <? R_BlockHeight new then set_BlockHeight (R_BlockHeight new) r else r);;
  modify (fun r => set_EnvelopeHeight (u64 (R_EnvelopeHeight r + R_EnvelopeHeight new)) r);;
  if bool_decide (R_Votes new = []) then mret tt
  else
    votes ← gets R_Votes;
    (when negb (List.length (R_Votes new) =? List.length votes)%nat
     return Errorf "results.Add: incorrect number of fields";
     mfor (range (R_Votes new)) (fun '(i, row) =>
       votes ← gets R_Votes;
       mine ← lift (slice_get votes i);
       when (List.length mine <? List.length row)%nat return Errorf "results.Add: values overflow";
       mfor (range row) (fun '(j, x) => add_cell i j x)))%go.

(** ** [AddVote]: the checks of the ballot protocol *)

Fixpoint unique_values (seen : list Z) (l : list Z) : bool :=
  match l with
  | [] => true
  | v :: l' => negb (bool_decide (v ∈ seen)) && unique_values (v :: seen) l'
  end.

Fixpoint check_max_value (maxValue : Z) (l : list Z) : outcome unit :=
  match l with
  | [] => Ok tt
  | v :: l' => check (maxValue <? u32 v) (Errorf "max value overflow");; check_max_value maxValue l'
  end.

(** [Cmp] dereferences the maximum, which is the weight of the voter or the option. *)
Fixpoint check_cost (exponent : Z) (maxCost : option Z) (cost : Z) (l : list Z) : outcome unit :=
  match l with
  | [] => Ok tt
  | v :: l' =>
      let cost := cost + u64 v ^ exponent in
      m ← deref maxCost;
      check (m <? cost) (Errorf "max total cost overflow");;
      check_cost exponent maxCost cost l'
  end.

Definition ballot_check (et : EnvelopeType) (opts : ProcessVoteOptions) (voteValues : list Z)
    (weight : option Z) : outcome unit :=
  let n := Z.of_nat (List.length voteValues) in
  check ((MaxCount opts <? n) || (MaxOptions <? n)) (Errorf "max count overflow");;
  check (UniqueValues et && negb (unique_values [] voteValues)) (Errorf "values are not unique");;
  (if 0 <? MaxValue opts then check_max_value (MaxValue opts) voteValues else Ok tt);;
  (if (0 <? MaxTotalCost opts) || CostFromWeight et
   then check_cost (CostExponent opts)
          (if CostFromWeight et then weight else Some (MaxTotalCost opts)) 0 voteValues
   else Ok tt).

(** The update, under the lock. *)
Definition count_ballot (et : EnvelopeType) (opts : ProcessVoteOptions) (voteValues : list Z)
    (weight : option Z) : GoM IndexResults unit :=
  let weight := default 1 weight in
  modify (fun r => set_Weight (R_Weight r + weight) r);;
  modify (fun r => if bool_decide (R_Votes r = [])
                   then set_Votes (NewEmptyVotes (MaxCount opts) (MaxValue opts + 1)) r else r);;
  modify (fun r => set_EnvelopeHeight (u64 (R_EnvelopeHeight r + 1)) r);;
  if MaxValue opts =? 0 then
    let weight := if CostFromWeight et then 1 else weight in
    mfor (range voteValues) (fun '(q, value) => add_cell q 0 (u64 value * weight))
  else mfor (range voteValues) (fun '(q, opt) => add_cell q opt weight).

(** What [AddVote] does before it takes the lock. *)
Definition AddVote_check (r : IndexResults) (voteValues : list Z) (weight : option Z) :
    outcome (EnvelopeType * ProcessVoteOptions) :=
  match R_VoteOpts r with
  | None => Err (Errorf "addVote: processVoteOptions is nil")
  | Some opts =>
      check (negb (bool_decide (R_Votes r = [])) &&
             negb (Z.of_nat (List.length (R_Votes r)) =? MaxCount opts))
        (Errorf "addVote: currentResults size mismatch");;
      match R_EnvelopeType r with
      | None => Err (Errorf "addVote: envelopeType is nil")
      | Some et => ballot_check et opts voteValues weight;; Ok (et, opts)
      end
  end.

Definition Results_AddVote (voteValues : list Z) (weight : option Z) : GoM IndexResults unit :=
  r ← get;
  '(et, opts) ← lift (AddVote_check r voteValues weight);
  count_ballot et opts voteValues weight.
