(* ===== verification/ResultsFacts.v ===== *)
(** * Counting ballots

    What [AddVote] and [Add] of [Results.v] do to the matrix of the votes, cell by cell, and
    when a ballot is refused, counted, or makes the program panic. *)

From stdpp Require Import base option list strings.
From Stdlib Require Import ZArith Lia.
From S2P Require Import Prelude GoMonad GoLib Models Results.

(** ** Matrices *)

Definition cell (votes : list (list Z)) (q o : nat) : Z := default 0 (votes !! q ≫= (.!! o)).

Definition shaped (m n : nat) (votes : list (list Z)) : Prop :=
  List.length votes = m /\ Forall (fun row => List.length row = n) votes.

Lemma shaped_ext m n votes votes' :
  shaped m n votes -> shaped m n votes' ->
  (forall q o, (q < m)%nat -> (o < n)%nat -> cell votes q o = cell votes' q o) -> votes = votes'.
Proof.
  intros [Hm Hn] [Hm' Hn'] Hc. apply list_eq_same_length with m; [done|done|].
  intros q row row' Hq Hr Hr'. rewrite Forall_lookup in Hn, Hn'.
  apply list_eq_same_length with n; [by eapply Hn'|by eapply Hn|].
  intros o x y Ho Hx Hy. specialize (Hc q o Hq Ho). unfold cell in Hc.
  rewrite Hr, Hr' in Hc. cbn in Hc. by rewrite Hx, Hy in Hc.
Qed.

Lemma shaped_empty m n : shaped m n (replicate m (replicate n 0)).
Proof. split; [apply length_replicate|]. apply Forall_replicate, length_replicate. Qed.

Lemma cell_empty m n q o : cell (replicate m (replicate n 0)) q o = 0.
Proof.
  unfold cell. destruct (replicate m _ !! q) as [row|] eqn:E; [|done].
  apply lookup_replicate in E as [-> _]. cbn. destruct (replicate n 0 !! o) as [x|] eqn:E; [|done].
  by apply lookup_replicate in E as [-> _].
Qed.

Lemma NewEmptyVotes_eq m n :
  0 < m -> 0 < n -> NewEmptyVotes m n = replicate (Z.to_nat m) (replicate (Z.to_nat n) 0).
Proof. intros Hm Hn. unfold NewEmptyVotes. destruct (Z.eqb_spec m 0), (Z.eqb_spec n 0); done || lia. Qed.

Lemma NewEmptyVotes_shaped m n :
  0 < m -> 0 < n -> shaped (Z.to_nat m) (Z.to_nat n) (NewEmptyVotes m n).
Proof. intros. rewrite NewEmptyVotes_eq by done. apply shaped_empty. Qed.

Lemma cell_NewEmptyVotes m n q o : cell (NewEmptyVotes m n) q o = 0.
Proof. unfold NewEmptyVotes. destruct (_ || _); [done|]. apply cell_empty. Qed.

(** ** The loops *)

Lemma add_cell_run r pre row post o x y :
  R_Votes r = pre ++ row :: post -> 0 <= o -> row !! Z.to_nat o = Some y ->
  add_cell (Z.of_nat (List.length pre)) o x r =
    (set_Votes (pre ++ alter (fun z => z + x) (Z.to_nat o) row :: post) r, Ok tt).
Proof.
  intros Hv Ho Hy. unfold add_cell. go_run. unfold slice_get.
  destruct (Z.ltb_spec (Z.of_nat (List.length pre)) 0); [lia|]. destruct (Z.ltb_spec o 0); [lia|].
  rewrite Hv, Nat2Z.id, list_lookup_middle, Hy by done. rewrite insert_app_r_alt, Nat.sub_diag by lia.
  cbn. do 4 f_equal. apply list_eq. intros i. rewrite list_lookup_alter, list_lookup_insert.
  destruct (decide (Z.to_nat o = i)) as [<-|Hne].
  - rewrite decide_True by (split; [done|by eapply lookup_lt_Some]). by rewrite Hy.
  - by rewrite decide_False by tauto.
Qed.

(** The list [l] with indices from [k]. *)
Definition range_from {A} (k : nat) (l : list A) : list (Z * A) :=
  imap (fun i x => (Z.of_nat (k + i), x)) l.

Lemma range_from_cons {A} k (x : A) l : range_from k (x :: l) = (Z.of_nat k, x) :: range_from (S k) l.
Proof.
  unfold range_from. simpl. rewrite Nat.add_0_r. f_equal. apply imap_ext.
  intros i y _. cbn. by rewrite Nat.add_succ_r.
Qed.

(** The element [v] at index [q] adds [val v] to the cell [q], [col v]. *)

Section count.
Context (col val : Z -> Z).

Fixpoint count_rows (l : list Z) (votes : list (list Z)) : list (list Z) :=
  match l, votes with
  | v :: l', row :: votes' => alter (fun x => x + val v) (Z.to_nat (col v)) row :: count_rows l' votes'
  | _, _ => votes
  end.

Definition ballot_term (l : list Z) (q o : nat) : Z :=
  match l !! q with Some v => if col v =? Z.of_nat o then val v else 0 | None => 0 end.

Lemma count_rows_shaped l m n votes : shaped m n votes -> shaped m n (count_rows l votes).
Proof.
  intros [Hm Hn]. split.
  - rewrite <- Hm. clear. revert votes. induction l as [|v l IH]; intros [|row votes]; try done.
    simpl. by rewrite IH.
  - clear Hm. revert votes Hn. induction l as [|v l IH]; intros [|row votes] Hn; try done.
    apply Forall_cons in Hn as [Hr Hn]. constructor; [by rewrite length_alter|auto].
Qed.

Lemma cell_count_rows l m n votes q o :
  shaped m n votes -> (q < m)%nat -> (o < n)%nat -> Forall (fun v => 0 <= col v) l ->
  cell (count_rows l votes) q o = cell votes q o + ballot_term l q o.
Proof.
  intros [Hm Hn] Hq Ho Hl. subst m. unfold ballot_term. revert votes q Hn Hq.
  induction Hl as [|v l Hv Hl IH]; intros [|row votes] q Hn Hq; simpl in Hq; try lia.
  - rewrite lookup_nil. cbn [count_rows]. lia.
  - apply Forall_cons in Hn as [Hr Hn]. destruct q as [|q]; [|apply (IH votes q Hn); lia].
    unfold cell. cbn. destruct (lookup_lt_is_Some_2 row o ltac:(lia)) as [x Hx].
    destruct (Z.eqb_spec (col v) (Z.of_nat o)) as [E|E].
    + rewrite E, Nat2Z.id, list_lookup_alter, decide_True, Hx by done. done.
    + rewrite list_lookup_alter, decide_False, Hx by lia. cbn. lia.
Qed.

Lemma count_loop l r pre n votes :
  R_Votes r = pre ++ votes -> (List.length l <= List.length votes)%nat ->
  Forall (fun row => List.length row = n) votes -> Forall (fun v => 0 <= col v < Z.of_nat n) l ->
  mfor (range_from (List.length pre) l) (fun '(q, v) => add_cell q (col v) (val v)) r =
    (set_Votes (pre ++ count_rows l votes) r, Ok tt).
Proof.
  intros Hv Hlen Hn Hl. revert r pre votes Hv Hlen Hn.
  induction Hl as [|v l Hv' Hl IH]; intros r pre votes Hv Hlen Hn.
  - cbn. rewrite <- Hv. by destruct r.
  - destruct votes as [|row votes]; simpl in Hlen; [lia|]. apply Forall_cons in Hn as [Hr Hn].
    rewrite range_from_cons. cbn [mfor].
    destruct (lookup_lt_is_Some_2 row (Z.to_nat (col v)) ltac:(lia)) as [y Hy].
    erewrite bind_run_Ok by (by eapply add_cell_run; [done|lia|done]).
    specialize (IH (set_Votes (pre ++ alter (fun z => z + val v) (Z.to_nat (col v)) row :: votes) r)
      (pre ++ [alter (fun z => z + val v) (Z.to_nat (col v)) row]) votes).
    rewrite length_app, Nat.add_1_r in IH. rewrite IH; [|cbn; by rewrite <- app_assoc|lia|done].
    cbn. by rewrite <- app_assoc.
Qed.
End count.

(** ** Sums of matrices *)

Fixpoint add_list (new mine : list Z) : list Z :=
  match new, mine with x :: new', y :: mine' => (y + x) :: add_list new' mine' | _, _ => mine end.

Fixpoint add_rows (new mine : list (list Z)) : list (list Z) :=
  match new, mine with x :: new', y :: mine' => add_list x y :: add_rows new' mine' | _, _ => mine end.

Lemma length_add_list new mine : List.length (add_list new mine) = List.length mine.
Proof. revert mine. induction new as [|x new IH]; intros [|y mine]; simpl; auto. Qed.

Lemma lookup_add_list new mine o :
  List.length new = List.length mine ->
  default 0 (add_list new mine !! o) = default 0 (mine !! o) + default 0 (new !! o).
Proof.
  revert mine o. induction new as [|x new IH]; intros [|y mine] o Hl; try done.
  destruct o as [|o]; [done|]. apply IH. by injection Hl.
Qed.

Lemma add_rows_shaped m n new mine : shaped m n mine -> shaped m n (add_rows new mine).
Proof.
  intros [Hm Hn]. rewrite <- Hm. clear Hm. split.
  - clear. revert mine. induction new as [|x new IH]; intros [|y mine]; simpl; auto.
  - revert mine Hn. induction new as [|x new IH]; intros [|y mine] Hn; try done.
    apply Forall_cons in Hn as [Hy Hn]. constructor; [by rewrite length_add_list|auto].
Qed.

Lemma cell_add_rows m n new mine q o :
  shaped m n new -> shaped m n mine -> cell (add_rows new mine) q o = cell mine q o + cell new q o.
Proof.
  intros [Hm Hn] [Hm' Hn']. assert (Hl : List.length new = List.length mine) by congruence.
  clear Hm Hm'. revert mine q Hl Hn'. induction Hn as [|x new Hx Hn IH]; intros [|y mine] q Hl Hn'; try done.
  apply Forall_cons in Hn' as [Hy Hn']. destruct q as [|q].
  - apply lookup_add_list. congruence.
  - apply (IH mine q); [by injection Hl|done].
Qed.

Lemma add_row_loop new r pre mpre mine post :
  R_Votes r = pre ++ (mpre ++ mine) :: post -> (List.length new <= List.length mine)%nat ->
  mfor (range_from (List.length mpre) new) (fun '(j, x) => add_cell (Z.of_nat (List.length pre)) j x) r =
    (set_Votes (pre ++ (mpre ++ add_list new mine) :: post) r, Ok tt).
Proof.
  revert r mpre mine. induction new as [|x new IH]; intros r mpre mine Hv Hl.
  - cbn. rewrite <- Hv. by destruct r.
  - destruct mine as [|y mine]; simpl in Hl; [lia|]. rewrite range_from_cons. cbn [mfor].
    erewrite bind_run_Ok.
    2: { eapply (add_cell_run r pre (mpre ++ y :: mine) post); [done|apply Nat2Z.is_nonneg|]. rewrite Nat2Z.id. by apply list_lookup_middle. }
    rewrite Nat2Z.id. rewrite alter_app_r_alt, Nat.sub_diag by lia. cbn [alter list_alter].
    specialize (IH (set_Votes (pre ++ (mpre ++ (y + x) :: mine) :: post) r) (mpre ++ [y + x]) mine).
    rewrite length_app, Nat.add_1_r in IH. rewrite IH; [|cbn; by rewrite <- app_assoc|lia].
    cbn. by rewrite <- app_assoc.
Qed.

Definition add_body : Z * list Z -> GoM IndexResults unit := fun '(i, row) =>
  votes ← gets R_Votes;
  mine ← lift (slice_get votes i);
  reject (List.length mine <? List.length row)%nat (Errorf "results.Add: values overflow");;
  mfor (range row) (fun '(j, x) => add_cell i j x).

Lemma range_0 {A} (l : list A) : range l = range_from 0 l.
Proof. done. Qed.

Lemma add_rows_loop new r pre mine :
  R_Votes r = pre ++ mine -> Forall2 (fun x y => List.length x = List.length y) new mine ->
  mfor (range_from (List.length pre) new) add_body r = (set_Votes (pre ++ add_rows new mine) r, Ok tt).
Proof.
  intros Hv Hf. revert r pre Hv. induction Hf as [|x y new mine Hxy Hf IH]; intros r pre Hv.
  - cbn. rewrite <- Hv. by destruct r.
  - rewrite range_from_cons. cbn [mfor].
    assert (Hb : add_body (Z.of_nat (List.length pre), x) r =
                 (set_Votes (pre ++ add_list x y :: mine) r, Ok tt)).
    { unfold add_body. rewrite bind_gets, Hv.
      erewrite bind_run_Ok.
      2: { unfold slice_get, lift. destruct (Z.ltb_spec (Z.of_nat (List.length pre)) 0); [lia|].
           by rewrite Nat2Z.id, list_lookup_middle. }
      erewrite bind_run_Ok by (unfold reject, check; rewrite Hxy, Nat.ltb_irrefl; reflexivity).
      rewrite range_0. apply (add_row_loop x r pre [] y mine); [done|lia]. }
    erewrite bind_run_Ok by exact Hb.
    specialize (IH (set_Votes (pre ++ add_list x y :: mine) r) (pre ++ [add_list x y])).
    rewrite length_app, Nat.add_1_r in IH. rewrite IH by (cbn; by rewrite <- app_assoc).
    cbn. by rewrite <- app_assoc.
Qed.

Lemma Results_Add_run new r m n :
  shaped m n (R_Votes new) -> shaped m n (R_Votes r) -> R_Votes new <> [] ->
  Results_Add new r =
    (mkResults (R_ProcessID r) (add_rows (R_Votes new) (R_Votes r)) (R_Weight r + R_Weight new)
       (u64 (R_EnvelopeHeight r + R_EnvelopeHeight new)) (R_EnvelopeType r) (R_VoteOpts r)
       (R_Signatures r) (R_Final r) (Z.max (R_BlockHeight r) (R_BlockHeight new)), Ok tt).
Proof.
  intros [Hm Hn] [Hm' Hn'] Hne. unfold Results_Add.
  erewrite bind_run_Ok by reflexivity. erewrite bind_run_Ok by reflexivity. erewrite bind_run_Ok by reflexivity.
  rewrite bool_decide_false by done. rewrite bind_gets.
  set (r1 := set_EnvelopeHeight _ _).
  assert (Hv : R_Votes r1 = R_Votes r) by (subst r1; cbn; by destruct (_ <? _)).
  erewrite bind_run_Ok by (unfold reject, check; rewrite Hv, Hm, Hm', Nat.eqb_refl; reflexivity).
  etransitivity; [apply (add_rows_loop (R_Votes new) r1 [] (R_Votes r) Hv)|].
  { apply Forall2_same_length_lookup_2; [congruence|]. intros i x y Hx Hy.
    rewrite Forall_lookup in Hn, Hn'. by rewrite (Hn i x), (Hn' i y). }
  f_equal. subst r1. unfold set_Votes. cbn.
  destruct (Z.ltb_spec (R_BlockHeight r) (R_BlockHeight new)); cbn; f_equal; lia.
Qed.

(** ** Ballots *)

Fixpoint total_cost (exponent : Z) (l : list Z) : Z :=
  match l with [] => 0 | v :: l' => u64 v ^ exponent + total_cost exponent l' end.

(** The rules of the ballot protocol, as the checks read them. *)
Definition ballot_ok (et : EnvelopeType) (opts : ProcessVoteOptions) (values : list Z) (w : Z) : Prop :=
  Z.of_nat (List.length values) <= MaxCount opts /\ Z.of_nat (List.length values) <= MaxOptions /\
  (UniqueValues et = true -> NoDup values) /\
  (0 < MaxValue opts -> Forall (fun v => u32 v <= MaxValue opts) values) /\
  (0 < MaxTotalCost opts \/ CostFromWeight et = true ->
   total_cost (CostExponent opts) values <= if CostFromWeight et then w else MaxTotalCost opts).

Lemma unique_values_spec seen l :
  unique_values seen l = true <-> NoDup l /\ Forall (fun v => v ∉ seen) l.
Proof.
  revert seen. induction l as [|v l IH]; intros seen; simpl.
  - split; [|done]. intros _. split; constructor.
  - rewrite andb_true_iff, negb_true_iff, bool_decide_eq_false, IH, NoDup_cons, Forall_cons.
    rewrite !Forall_forall. setoid_rewrite not_elem_of_cons. naive_solver.
Qed.

Lemma check_max_value_spec m l :
  (check_max_value m l = Ok tt <-> Forall (fun v => u32 v <= m) l) /\ is_panic (check_max_value m l) = false.
Proof.
  induction l as [|v l [IH IHp]]; simpl; [split; [|done]; split; [constructor|done]|].
  rewrite Forall_cons, <- IH. destruct (Z.ltb_spec m (u32 v)); simpl.
  - split; [|done]. split; [done|]. lia.
  - split; [|done]. split; [done|]. tauto.
Qed.

Lemma total_cost_nonneg e l : 0 <= total_cost e l.
Proof.
  induction l as [|v l IH]; simpl; [done|]. pose proof (Z.pow_nonneg (u64 v) e) as Hp.
  pose proof (u64_range v) as Hv. unfold is_u64 in Hv. specialize (Hp ltac:(lia)). lia.
Qed.

Lemma check_cost_spec e m c l :
  0 <= c <= m ->
  (check_cost e (Some m) c l = Ok tt <-> c + total_cost e l <= m) /\
  is_panic (check_cost e (Some m) c l) = false.
Proof.
  revert c. induction l as [|v l IH]; intros c Hc; cbn [check_cost total_cost].
  - split; [|done]. split; [lia|done].
  - pose proof (total_cost_nonneg e l). pose proof (Z.pow_nonneg (u64 v) e) as Hp.
    pose proof (u64_range v) as Hv. unfold is_u64 in Hv. specialize (Hp ltac:(lia)).
    cbn [deref mbind outcome_bind]. destruct (Z.ltb_spec m (c + u64 v ^ e)); cbn [check mbind outcome_bind].
    + split; [|done]. split; [done|lia].
    + destruct (IH (c + u64 v ^ e) ltac:(lia)) as [-> ->]. split; [lia|done].
Qed.

Lemma ballot_check_spec et opts values w :
  0 <= w ->
  (ballot_check et opts values (Some w) = Ok tt <-> ballot_ok et opts values w) /\
  is_panic (ballot_check et opts values (Some w)) = false.
Proof.
  intros Hw. unfold ballot_check, ballot_ok.
  set (n := Z.of_nat (List.length values)).
  destruct (Z.ltb_spec (MaxCount opts) n), (Z.ltb_spec MaxOptions n); cbn [orb check mbind outcome_bind];
    try (split; [|done]; split; [done|lia]).
  destruct (UniqueValues et && negb (unique_values [] values)) eqn:Eu; cbn [check mbind outcome_bind].
  { apply andb_true_iff in Eu as [Eu Ev]. apply negb_true_iff in Ev. split; [|done]. split; [done|].
    intros (_ & _ & Hu & _). specialize (Hu Eu).
    assert (unique_values [] values = true); [|congruence].
    apply unique_values_spec. split; [done|]. apply Forall_forall. intros v _. apply not_elem_of_nil. }
  assert (Hu : UniqueValues et = true -> NoDup values).
  { intros E. rewrite E in Eu. apply negb_false_iff, unique_values_spec in Eu. tauto. }
  assert (Hmax : (if 0 <? MaxValue opts then check_max_value (MaxValue opts) values else Ok tt) = Ok tt <->
                 (0 < MaxValue opts -> Forall (fun v => u32 v <= MaxValue opts) values)).
  { destruct (Z.ltb_spec 0 (MaxValue opts)); [|split; [lia|done]].
    rewrite (proj1 (check_max_value_spec _ _)). tauto. }
  assert (Hmp : is_panic (if 0 <? MaxValue opts then check_max_value (MaxValue opts) values else Ok tt) = false).
  { destruct (0 <? MaxValue opts); [apply check_max_value_spec|done]. }
  destruct (if 0 <? MaxValue opts then _ else _) as [[]|e|x]; cbn [mbind outcome_bind]; try done.
  2: { split; [|done]. split; [done|]. intros (_ & _ & _ & Hm & _). by apply Hmax in Hm. }
  destruct (Z.ltb_spec 0 (MaxTotalCost opts)), (CostFromWeight et) eqn:Ecf; cbn [orb];
    try (destruct (check_cost_spec (CostExponent opts) w 0 values ltac:(lia)) as [-> ->]; cbn [Z.add];
         split; [|done]; tauto).
  - destruct (check_cost_spec (CostExponent opts) (MaxTotalCost opts) 0 values ltac:(lia)) as [-> ->].
    cbn [Z.add]. split; [|done]. tauto.
  - split; [|done]. split; [|done]. intros _. split_and!; try done; [tauto|]. intros [|]; [lia|done].
Qed.

(** Where an accepted ballot is counted, and with which value. *)
Definition ballot_col (opts : ProcessVoteOptions) (v : Z) : Z := if MaxValue opts =? 0 then 0 else v.
Definition ballot_val (et : EnvelopeType) (opts : ProcessVoteOptions) (w v : Z) : Z :=
  if MaxValue opts =? 0 then u64 v * (if CostFromWeight et then 1 else w) else w.

(** The values are columns of the matrix. *)
Definition in_range (opts : ProcessVoteOptions) (values : list Z) : Prop :=
  Forall (fun v => 0 <= ballot_col opts v <= MaxValue opts) values.

#[export] Instance in_range_dec opts values : Decision (in_range opts values).
Proof. unfold in_range. apply _. Defined.

Record tallying (opts : ProcessVoteOptions) (et : EnvelopeType) (r : IndexResults) : Prop := {
  ta_opts : R_VoteOpts r = Some opts;
  ta_type : R_EnvelopeType r = Some et;
  ta_range : options_range opts;
  ta_shape : R_Votes r = [] \/ shaped (Z.to_nat (MaxCount opts)) (Z.to_nat (MaxValue opts + 1)) (R_Votes r)
}.

Definition base_votes (opts : ProcessVoteOptions) (r : IndexResults) : list (list Z) :=
  if bool_decide (R_Votes r = []) then NewEmptyVotes (MaxCount opts) (MaxValue opts + 1) else R_Votes r.

Definition counted (et : EnvelopeType) (opts : ProcessVoteOptions) (values : list Z) (w : Z)
    (r : IndexResults) : IndexResults :=
  mkResults (R_ProcessID r) (count_rows (ballot_col opts) (ballot_val et opts w) values (base_votes opts r))
    (R_Weight r + w) (u64 (R_EnvelopeHeight r + 1)) (R_EnvelopeType r) (R_VoteOpts r) (R_Signatures r)
    (R_Final r) (R_BlockHeight r).

Lemma base_votes_shaped et opts r :
  tallying opts et r -> shaped (Z.to_nat (MaxCount opts)) (Z.to_nat (MaxValue opts + 1)) (base_votes opts r).
Proof.
  intros [_ _ (Hc & Hv & _) Hs]. unfold base_votes. unfold is_u32 in *. case_bool_decide as E.
  - destruct (Z.eq_dec (MaxCount opts) 0) as [->|]; [by split|]. apply NewEmptyVotes_shaped; lia.
  - by destruct Hs.
Qed.

Lemma cell_base_votes opts r q o : cell (base_votes opts r) q o = cell (R_Votes r) q o.
Proof.
  unfold base_votes. case_bool_decide as E; [|done]. by rewrite E, cell_NewEmptyVotes.
Qed.

(** The state of [count_ballot] when its loop starts, and the loop. *)
Definition count_start (opts : ProcessVoteOptions) (w : Z) (r : IndexResults) : IndexResults :=
  mkResults (R_ProcessID r) (base_votes opts r) (R_Weight r + w) (u64 (R_EnvelopeHeight r + 1))
    (R_EnvelopeType r) (R_VoteOpts r) (R_Signatures r) (R_Final r) (R_BlockHeight r).

Lemma count_ballot_loop et opts values w r :
  count_ballot et opts values (Some w) r =
    mfor (range_from 0 values) (fun '(q, v) => add_cell q (ballot_col opts v) (ballot_val et opts w v))
      (count_start opts w r).
Proof.
  unfold count_ballot. cbn [default from_option]. cbv zeta.
  erewrite bind_run_Ok by reflexivity. erewrite bind_run_Ok by reflexivity. erewrite bind_run_Ok by reflexivity.
  set (r1 := set_EnvelopeHeight _ _).
  assert (r1 = count_start opts w r) as ->.
  { subst r1. unfold count_start, base_votes. cbn. case_bool_decide; done. }
  unfold ballot_col, ballot_val. destruct (MaxValue opts =? 0); done.
Qed.

Lemma counted_tallying et opts values w r : tallying opts et r -> tallying opts et (counted et opts values w r).
Proof.
  intros Ht. destruct Ht as [Ho He Hr Hs] eqn:E. split; [done|done|done|]. right.
  apply count_rows_shaped. by apply (base_votes_shaped et).
Qed.

(** While the process is tallied only the rules of the ballot are checked. *)
Lemma AddVote_check_tallying et opts values weight r :
  tallying opts et r ->
  AddVote_check r values weight = (ballot_check et opts values weight;; Ok (et, opts)).
Proof.
  intros [Ho He (Hc & _) Hs]. unfold is_u32 in Hc. unfold AddVote_check. rewrite Ho, He.
  case_bool_decide as Ev; [done|]. destruct Hs as [|[Hl _]]; [done|].
  by rewrite Hl, Z2Nat.id, Z.eqb_refl by lia.
Qed.

Lemma AddVote_steps et opts values weight r :
  tallying opts et r ->
  Results_AddVote values weight r =
    (lift (ballot_check et opts values weight);; count_ballot et opts values weight) r.
Proof.
  intros Ht. unfold Results_AddVote. erewrite bind_run_Ok by reflexivity.
  rewrite (AddVote_check_tallying et opts) by done. by destruct (ballot_check _ _ _ _) as [[]| |].
Qed.

Lemma AddVote_passes et opts values w r :
  tallying opts et r -> 0 <= w -> ballot_ok et opts values w ->
  Results_AddVote values (Some w) r =
    mfor (range_from 0 values) (fun '(q, v) => add_cell q (ballot_col opts v) (ballot_val et opts w v))
      (count_start opts w r).
Proof.
  intros Ht Hw Hok. rewrite (AddVote_steps et opts) by done.
  apply (ballot_check_spec et opts values w Hw) in Hok. erewrite bind_run_Ok by (unfold lift; by rewrite Hok).
  apply count_ballot_loop.
Qed.

(** A ballot that passes the checks and is in range is counted. *)
Lemma AddVote_counted et opts values w r :
  tallying opts et r -> 0 <= w -> ballot_ok et opts values w -> in_range opts values ->
  Results_AddVote values (Some w) r = (counted et opts values w r, Ok tt).
Proof.
  intros Ht Hw Hok Hin. pose proof (base_votes_shaped et opts r Ht) as [Hm Hn].
  rewrite (AddVote_passes et opts) by done.
  etransitivity; [apply (count_loop (ballot_col opts) (ballot_val et opts w) values (count_start opts w r) []
    (Z.to_nat (MaxValue opts + 1)) (base_votes opts r))|]; [done| |done| |done].
  - destruct Hok as (Hl & _). rewrite Hm. lia.
  - eapply Forall_impl; [exact Hin|]. cbn. lia.
Qed.

(** A ballot that fails the checks is refused and changes nothing. *)
Lemma AddVote_refused et opts values w r :
  tallying opts et r -> 0 <= w -> ~ ballot_ok et opts values w ->
  exists e, Results_AddVote values (Some w) r = (r, Err e).
Proof.
  intros Ht Hw Hok. rewrite (AddVote_steps et opts) by done.
  destruct (ballot_check_spec et opts values w Hw) as [Hspec Hp].
  destruct (ballot_check et opts values (Some w)) as [[]|e|x] eqn:E; [by destruct Hok; apply Hspec| |done].
  exists e. by erewrite bind_run_Err by reflexivity.
Qed.

Lemma add_cell_panics r q o x row :
  R_Votes r !! q = Some row -> o < 0 \/ Z.of_nat (List.length row) <= o ->
  is_panic (add_cell (Z.of_nat q) o x r).2 = true.
Proof.
  intros Hr Ho. unfold add_cell. rewrite bind_gets.
  erewrite bind_run_Ok.
  2: { unfold slice_get, lift. destruct (Z.ltb_spec (Z.of_nat q) 0); [lia|]. by rewrite Nat2Z.id, Hr. }
  unfold slice_get, lift. go_run. destruct (Z.ltb_spec o 0); [done|].
  by rewrite lookup_ge_None_2 by lia.
Qed.

Lemma out_of_range_split opts values :
  ~ in_range opts values ->
  exists good bad rest, values = good ++ bad :: rest /\ in_range opts good /\
    ~ 0 <= ballot_col opts bad <= MaxValue opts.
Proof.
  intros Hin. induction values as [|v l IH]; [by destruct Hin; constructor|].
  destruct (decide (0 <= ballot_col opts v <= MaxValue opts)) as [Hv|Hv].
  - destruct IH as (good & bad & rest & -> & Hg & Hb).
    { intros Hl. apply Hin. by constructor. }
    exists (v :: good), bad, rest. split_and!; [done|by constructor|done].
  - exists [], v, l. split_and!; [done|constructor|done].
Qed.

(** One that passes the checks out of range makes the program panic. *)
Lemma AddVote_panics et opts values w r :
  tallying opts et r -> 0 <= w -> ballot_ok et opts values w -> ~ in_range opts values ->
  is_panic (Results_AddVote values (Some w) r).2 = true.
Proof.
  intros Ht Hw Hok Hin. pose proof (base_votes_shaped et opts r Ht) as [Hm Hn].
  rewrite (AddVote_passes et opts) by done. destruct Ht as [_ _ (Hc & Hv & _) _]. unfold is_u32 in *.
  destruct (out_of_range_split _ _ Hin) as (good & bad & rest & -> & Hg & Hb).
  unfold range_from. rewrite imap_app. destruct Hok as (Hlen & _). rewrite length_app in Hlen. simpl in Hlen.
  erewrite mfor_app.
  2: { apply (count_loop (ballot_col opts) (ballot_val et opts w) good (count_start opts w r) []
         (Z.to_nat (MaxValue opts + 1)) (base_votes opts r)); [done| |done|].
       - rewrite Hm. lia.
       - eapply Forall_impl; [exact Hg|]. cbn. lia. }
  cbn [imap mfor compose]. unfold compose. rewrite Nat.add_0_l, Nat.add_0_r.
  destruct (count_rows_shaped (ballot_col opts) (ballot_val et opts w) good _ _ _ (conj Hm Hn)) as [Hm' Hn'].
  destruct (lookup_lt_is_Some_2 (count_rows (ballot_col opts) (ballot_val et opts w) good (base_votes opts r))
    (List.length good) ltac:(lia)) as [row Hrow].
  rewrite Forall_lookup in Hn'.
  assert (Hp : is_panic (add_cell (Z.of_nat (List.length good)) (ballot_col opts bad) (ballot_val et opts w bad)
    (set_Votes ([] ++ count_rows (ballot_col opts) (ballot_val et opts w) good (base_votes opts r))
       (count_start opts w r))).2 = true).
  { eapply add_cell_panics; [exact Hrow|]. rewrite (Hn' _ _ Hrow). lia. }
  unfold mbind, gom_bind. by destruct (add_cell _ _ _ _) as [s1 [|e|x]].
Qed.

(** ** Many ballots *)

#[export] Instance ballot_ok_dec et opts values w : Decision (ballot_ok et opts values w).
Proof. unfold ballot_ok. apply _. Defined.

(** The values of a vote and the weight of its voter. *)
Definition ballot : Type := list Z * Z.

Section tally.
Context (et : EnvelopeType) (opts : ProcessVoteOptions).

Definition accepted (b : ballot) : Prop := ballot_ok et opts b.1 b.2.
Definition count (r : IndexResults) (b : ballot) : IndexResults := counted et opts b.1 b.2 r.
Definition term (b : ballot) : nat -> nat -> Z :=
  ballot_term (ballot_col opts) (ballot_val et opts b.2) b.1.

#[export] Instance accepted_dec b : Decision (accepted b).
Proof. unfold accepted. apply _. Defined.

(** A ballot with a weight that is counted or refused, but does not panic. *)
Definition countable (b : ballot) : Prop := 0 <= b.2 /\ (accepted b -> in_range opts b.1).

Lemma count_tallying r b : tallying opts et r -> tallying opts et (count r b).
Proof. apply counted_tallying. Qed.

Lemma cell_count r b q o :
  tallying opts et r -> in_range opts b.1 ->
  (q < Z.to_nat (MaxCount opts))%nat -> (o < Z.to_nat (MaxValue opts + 1))%nat ->
  cell (R_Votes (count r b)) q o = cell (R_Votes r) q o + term b q o.
Proof.
  intros Ht Hin Hq Ho. unfold count, counted. cbn [R_Votes].
  rewrite (cell_count_rows _ _ _ (Z.to_nat (MaxCount opts)) (Z.to_nat (MaxValue opts + 1)));
    [by rewrite cell_base_votes|by apply (base_votes_shaped et)|done|done|].
  eapply Forall_impl; [exact Hin|]. cbn. lia.
Qed.

Lemma count_shaped r b :
  tallying opts et r -> shaped (Z.to_nat (MaxCount opts)) (Z.to_nat (MaxValue opts + 1)) (R_Votes (count r b)).
Proof. intros Ht. apply count_rows_shaped. by apply (base_votes_shaped et). Qed.

Lemma results_ext r r' :
  R_ProcessID r = R_ProcessID r' -> R_Votes r = R_Votes r' -> R_Weight r = R_Weight r' ->
  R_EnvelopeHeight r = R_EnvelopeHeight r' -> R_EnvelopeType r = R_EnvelopeType r' ->
  R_VoteOpts r = R_VoteOpts r' -> R_Signatures r = R_Signatures r' -> R_Final r = R_Final r' ->
  R_BlockHeight r = R_BlockHeight r' -> r = r'.
Proof. destruct r, r'. cbn. congruence. Qed.

Lemma u64_add_idem a b : u64 (u64 a + b) = u64 (a + b).
Proof. unfold u64. by rewrite Zplus_mod_idemp_l. Qed.

(** The order of two ballots does not matter. *)
Lemma count_comm r b1 b2 :
  tallying opts et r -> in_range opts b1.1 -> in_range opts b2.1 ->
  count (count r b1) b2 = count (count r b2) b1.
Proof.
  intros Ht H1 H2. apply results_ext; try done.
  - eapply shaped_ext; [by apply count_shaped, count_tallying|by apply count_shaped, count_tallying|].
    intros q o Hq Ho. rewrite !cell_count by (done || by apply count_tallying). lia.
  - cbn. lia.
Qed.

Lemma foldl_count_tallying bs r : tallying opts et r -> tallying opts et (foldl count r bs).
Proof. revert r. induction bs as [|b bs IH]; intros r Ht; [done|]. apply IH. by apply count_tallying. Qed.

Lemma foldl_count_permutation bs bs' r :
  bs ≡ₚ bs' -> tallying opts et r -> Forall (fun b => in_range opts b.1) bs ->
  foldl count r bs = foldl count r bs'.
Proof.
  intros Hp. revert r. induction Hp as [|b bs bs' Hp IH|b1 b2 bs|bs1 bs2 bs3 Hp1 IH1 Hp2 IH2]; intros r Ht Hin.
  - done.
  - apply Forall_cons in Hin as [_ Hin]. cbn. apply IH; [by apply count_tallying|done].
  - apply Forall_cons in Hin as [H1 [H2 Hin]%Forall_cons]. cbn. by rewrite count_comm.
  - rewrite IH1 by done. apply IH2; [done|]. by rewrite <- Hp1.
Qed.

Fixpoint sum_terms (bs : list ballot) (q o : nat) : Z :=
  match bs with [] => 0 | b :: bs' => term b q o + sum_terms bs' q o end.
Fixpoint sum_weights (bs : list ballot) : Z := match bs with [] => 0 | b :: bs' => b.2 + sum_weights bs' end.

Lemma cell_foldl_count bs r q o :
  tallying opts et r -> Forall (fun b => in_range opts b.1) bs ->
  (q < Z.to_nat (MaxCount opts))%nat -> (o < Z.to_nat (MaxValue opts + 1))%nat ->
  cell (R_Votes (foldl count r bs)) q o = cell (R_Votes r) q o + sum_terms bs q o.
Proof.
  intros Ht Hin Hq Ho. revert r Ht. induction Hin as [|b bs Hb Hin IH]; intros r Ht; cbn; [lia|].
  rewrite IH by (by apply count_tallying). rewrite cell_count by done. lia.
Qed.

Lemma weight_foldl_count bs r : R_Weight (foldl count r bs) = R_Weight r + sum_weights bs.
Proof. revert r. induction bs as [|b bs IH]; intros r; cbn; [lia|]. rewrite IH. cbn. lia. Qed.

Lemma height_foldl_count bs r :
  u64 (R_EnvelopeHeight (foldl count r bs)) = u64 (R_EnvelopeHeight r + Z.of_nat (List.length bs)).
Proof.
  revert r. induction bs as [|b bs IH]; intros r; cbn [foldl List.length]; [by rewrite Z.add_0_r|].
  rewrite IH. cbn. rewrite u64_add_idem. f_equal. lia.
Qed.

(** Votes counted one after the other, those that are refused being skipped. *)
Definition count_all (bs : list ballot) : GoM IndexResults unit :=
  mfor bs (fun b => catch (Results_AddVote b.1 (Some b.2));; mret tt).

Lemma AddVote_countable r b :
  tallying opts et r -> countable b ->
  (catch (Results_AddVote b.1 (Some b.2));; mret tt) r =
    (if decide (accepted b) then count r b else r, Ok tt).
Proof.
  intros Ht [Hw Hin]. destruct (decide (accepted b)) as [Ha|Ha].
  - erewrite bind_run_Ok by (unfold catch; by rewrite (AddVote_counted et opts) by auto). done.
  - destruct (AddVote_refused et opts b.1 b.2 r Ht Hw Ha) as [e He].
    erewrite bind_run_Ok by (unfold catch; by rewrite He). done.
Qed.

Lemma count_all_run bs r :
  tallying opts et r -> Forall countable bs ->
  count_all bs r = (foldl count r (filter accepted bs), Ok tt).
Proof.
  intros Ht Hc. revert r Ht. induction Hc as [|b bs Hb Hc IH]; intros r Ht; [done|].
  unfold count_all in *. cbn [mfor]. erewrite bind_run_Ok by (by apply AddVote_countable).
  rewrite filter_cons. destruct (decide (accepted b)); [|by apply IH].
  rewrite IH by (by apply count_tallying). done.
Qed.
End tally.

(** ** Sums of results *)

Definition sum_results (new r : IndexResults) : IndexResults :=
  mkResults (R_ProcessID r) (if bool_decide (R_Votes new = []) then R_Votes r else add_rows (R_Votes new) (R_Votes r))
    (R_Weight r + R_Weight new) (u64 (R_EnvelopeHeight r + R_EnvelopeHeight new)) (R_EnvelopeType r)
    (R_VoteOpts r) (R_Signatures r) (R_Final r) (Z.max (R_BlockHeight r) (R_BlockHeight new)).

Lemma Results_Add_sum new r m n :
  R_Votes new = [] \/ shaped m n (R_Votes new) -> shaped m n (R_Votes r) ->
  Results_Add new r = (sum_results new r, Ok tt).
Proof.
  intros Hn Hr. unfold sum_results. case_bool_decide as E.
  - unfold Results_Add. rewrite bool_decide_true by done.
    erewrite bind_run_Ok by reflexivity. erewrite bind_run_Ok by reflexivity. erewrite bind_run_Ok by reflexivity.
    unfold mret, gom_ret. f_equal. cbn.
    destruct (Z.ltb_spec (R_BlockHeight r) (R_BlockHeight new)); apply results_ext; cbn; done || lia.
  - destruct Hn as [|Hn]; [done|]. by apply (Results_Add_run new r m n).
Qed.

Lemma sum_results_shaped new r m n : shaped m n (R_Votes r) -> shaped m n (R_Votes (sum_results new r)).
Proof. intros Hr. unfold sum_results. cbn. case_bool_decide; [done|]. by apply add_rows_shaped. Qed.

Lemma cell_sum_results new r m n q o :
  R_Votes new = [] \/ shaped m n (R_Votes new) -> shaped m n (R_Votes r) ->
  cell (R_Votes (sum_results new r)) q o = cell (R_Votes r) q o + cell (R_Votes new) q o.
Proof.
  intros Hn Hr. unfold sum_results. cbn. case_bool_decide as E.
  - rewrite E. change (cell [] q o) with 0. lia.
  - destruct Hn as [|Hn]; [done|]. by eapply cell_add_rows.
Qed.
