(* ===== verification/External.v ===== *)
(** * Code that is not in the repository

    Third-party packages are parameters of the model.  Each one is a class of
    operations; the documented behaviour the node relies on is a second class of
    laws about them, so that every theorem names what it assumes.

    - [EthCrypto]: go-ethereum's [common] and [crypto];
    - [Codec] and [Proto]: google.golang.org/protobuf on the generated messages;
    - [Arbo]: the Merkle tree package github.com/vocdoni/arbo;
    - [Lru]: github.com/hashicorp/golang-lru. *)

From stdpp Require Import base option list strings gmap.
From Stdlib Require Import ZArith Eqdep_dec.
From S2P Require Import Prelude GoMonad Models.

(** ** [common.Address], an array of 20 octets *)

Record Address := mkAddress {
  addr_bytes : bytes;
  addr_len : (String.length addr_bytes =? 20)%nat = true
}.

Lemma address_eq (a b : Address) : addr_bytes a = addr_bytes b -> a = b.
Proof.
  destruct a as [x Hx], b as [y Hy]. simpl. intros ->. f_equal.
  apply UIP_dec, Bool.bool_dec.
Qed.

#[export] Instance Address_eq_dec : EqDecision Address.
Proof.
  intros a b. destruct (decide (addr_bytes a = addr_bytes b)) as [H|H].
  - left. by apply address_eq.
  - right. by intros ->.
Defined.

Lemma addr_bytes_inj a b : addr_bytes a = addr_bytes b <-> a = b.
Proof. split; [apply address_eq | by intros ->]. Qed.

Lemma addr_bytes_length a : String.length (addr_bytes a) = 20%nat.
Proof. apply Nat.eqb_eq, addr_len. Qed.

(** [common.Address{}], also [types.EthereumZeroAddress]. *)
Definition zero_address : Address := mkAddress (zeros 20) eq_refl.

(** ** go-ethereum *)

Class EthCrypto := {
  (** an [*ecdsa.PublicKey] *)
  ecdsa_pub : Type;
  Keccak256 : bytes -> bytes;
  (** crops from the left when longer than an address, pads with zeros when shorter *)
  BytesToAddress : bytes -> Address;
  SigToPub : bytes -> bytes -> error + ecdsa_pub;
  CompressPubkey : ecdsa_pub -> bytes;
  DecompressPubkey : bytes -> error + ecdsa_pub;
  FromECDSAPub : ecdsa_pub -> bytes;
  UnmarshalPubkey : bytes -> error + ecdsa_pub;
  PubkeyToAddress : ecdsa_pub -> Address;
}.

Class EthCryptoLaws `{EthCrypto} := {
  BytesToAddress_bytes a : BytesToAddress (addr_bytes a) = a;
  Keccak256_length b : String.length (Keccak256 b) = 32%nat;
  CompressPubkey_length pk : String.length (CompressPubkey pk) = 33%nat;
  DecompressPubkey_Compress pk : DecompressPubkey (CompressPubkey pk) = inr pk;
  UnmarshalPubkey_From pk : UnmarshalPubkey (FromECDSAPub pk) = inr pk;
}.

(** ** protobuf *)

(** [proto.Marshal] fails on strings that are not UTF-8, [proto.Unmarshal] on
    malformed input; what was encoded is decoded to the same message. *)
Class Codec (A : Type) := {
  marshal : A -> option bytes;
  unmarshal : bytes -> option A;
}.

Class CodecLaws (A : Type) `{Codec A} :=
  unmarshal_marshal (a : A) b : marshal a = Some b -> unmarshal b = Some a.

Class Proto := {
  Proto_Account :: Codec Account;
  Proto_Treasurer :: Codec Treasurer;
  Proto_Validator :: Codec Validator;
  Proto_Process :: Codec Process;
  Proto_StateDBProcess :: Codec StateDBProcess;
  Proto_Vote :: Codec Vote;
  Proto_StateDBVote :: Codec StateDBVote;
  Proto_ProcessIdList :: Codec ProcessIdList;
  Proto_FaucetPayload :: Codec FaucetPayload;
  Proto_CAbundle :: Codec CAbundle;
  Proto_SignedTx :: Codec SignedTx;
  Proto_Tx :: Codec Tx;
}.

Class ProtoLaws `{Proto} := {
  ProtoLaws_Account :: CodecLaws Account;
  ProtoLaws_Treasurer :: CodecLaws Treasurer;
  ProtoLaws_Validator :: CodecLaws Validator;
  ProtoLaws_StateDBProcess :: CodecLaws StateDBProcess;
  ProtoLaws_StateDBVote :: CodecLaws StateDBVote;
  ProtoLaws_ProcessIdList :: CodecLaws ProcessIdList;
  (** the integer fields of a decoded message fit their Go types *)
  unmarshal_Account_range b (a : Account) : unmarshal b = Some a ->
    is_u64 (Balance a) /\ is_u32 (Nonce a) /\ is_u32 (ProcessIndex a);
  unmarshal_Treasurer_range b (t : Treasurer) : unmarshal b = Some t -> is_u32 (Treasurer_Nonce t);
  unmarshal_StateDBProcess_range b (x : StateDBProcess) p :
    unmarshal b = Some x -> SDB_Process x = Some p ->
    is_u32 (StartBlock p) /\ is_u32 (BlockCount p) /\
    match KeyIndex p with Some i => is_u32 i | None => True end;
  unmarshal_StateDBProcess_options b (x : StateDBProcess) p o :
    unmarshal b = Some x -> SDB_Process x = Some p -> VoteOptions p = Some o -> options_range o;
}.

(** [b, err := proto.Marshal(x); if err != nil { return ... }]. *)
Definition Marshal {S A} `{Codec A} (a : A) : GoM S bytes :=
  match marshal a with Some b => mret b | None => throw (Errorf "proto: marshal") end.
Definition Unmarshal {S A} `{Codec A} (b : bytes) : GoM S A :=
  match unmarshal b with Some a => mret a | None => throw (Errorf "proto: unmarshal") end.

Lemma Marshal_Ok {S A} `{Codec A} (a : A) (s s' : S) b :
  Marshal a s = (s', Ok b) <-> s' = s /\ marshal a = Some b.
Proof. unfold Marshal. destruct (marshal a); [rewrite ret_Ok | rewrite throw_Ok]; naive_solver. Qed.

Lemma Marshal_cases {S A} `{Codec A} (a : A) (s : S) :
  (exists b, marshal a = Some b /\ Marshal a s = (s, Ok b)) \/ (exists e, Marshal a s = (s, Err e)).
Proof. unfold Marshal. destruct (marshal a) as [b|]; [left; by exists b | right; by eexists]. Qed.

Lemma Unmarshal_Ok {S A} `{Codec A} b (s s' : S) (a : A) :
  Unmarshal b s = (s', Ok a) <-> s' = s /\ unmarshal b = Some a.
Proof. unfold Unmarshal. destruct (unmarshal b); [rewrite ret_Ok | rewrite throw_Ok]; naive_solver. Qed.

Lemma keeps_Marshal {S A} `{Codec A} (R : S -> S -> Prop) `{!PreOrder R} (a : A) : keeps R (Marshal a).
Proof. unfold Marshal. destruct (marshal a); [by apply keeps_ret | by apply keeps_throw]. Qed.

Lemma keeps_Unmarshal {S A} `{Codec A} (R : S -> S -> Prop) `{!PreOrder R} b :
  keeps R (Unmarshal (A:=A) b).
Proof. unfold Unmarshal. destruct (unmarshal b); [by apply keeps_ret | by apply keeps_throw]. Qed.

#[export] Hint Resolve keeps_Marshal keeps_Unmarshal : keeps.

(** ** arbo *)

Inductive HashFunction := HashSha256 | HashPoseidon | HashBlake2b.

(** [HashFunction.Len] is 32 for the three of them. *)
Definition HashFunction_Len (h : HashFunction) : nat := 32.

(** [arbo.ErrKeyNotFound]. *)
Definition arbo_ErrKeyNotFound : error := Sentinel "arbo.ErrKeyNotFound".

(** A value of type [arbo] is a tree with the database keys it owns.  [arbo_iter]
    is [IterateWithStopWithTx] restricted to the leaves (see [IterateLeaves]): it
    threads an accumulator, and the boolean is the callback's request to stop. *)
Class Arbo := {
  arbo : Type;
  arbo_new : HashFunction -> Z -> arbo;
  arbo_get : arbo -> bytes -> error + bytes;
  arbo_add : arbo -> bytes -> bytes -> error + arbo;
  arbo_update : arbo -> bytes -> bytes -> error + arbo;
  arbo_root : arbo -> bytes;
  arbo_set_root : arbo -> bytes -> error + arbo;
  arbo_snapshot : arbo -> bytes -> error + arbo;
  arbo_iter : forall A : Type, arbo -> (A -> bytes -> bytes -> A * bool) -> A -> A;
}.
Arguments arbo_iter {_ A}.

(** The laws relate a tree to the finite map of its leaves and to its number of
    levels, which bounds the length of a key in bits. *)
Class ArboLaws `{Arbo} := {
  leaves : arbo -> gmap bytes bytes;
  levels : arbo -> Z;
  leaves_new h l : leaves (arbo_new h l) = ∅;
  levels_new h l : levels (arbo_new h l) = l;
  root_new h l : arbo_root (arbo_new h l) = zeros 32;
  root_length t : String.length (arbo_root t) = 32%nat;
  get_found t k v : leaves t !! k = Some v -> arbo_get t k = inr v;
  get_missing t k : leaves t !! k = None -> 8 * blen k <= levels t ->
    arbo_get t k = inl arbo_ErrKeyNotFound;
  get_error t k : leaves t !! k = None -> exists e, arbo_get t k = inl e;
  add_ok t k v t' : arbo_add t k v = inr t' ->
    leaves t !! k = None /\ leaves t' = <[k := v]> (leaves t) /\ levels t' = levels t;
  update_ok t k v t' : arbo_update t k v = inr t' ->
    is_Some (leaves t !! k) /\ leaves t' = <[k := v]> (leaves t) /\ levels t' = levels t;
  update_present t k v : is_Some (leaves t !! k) -> blen v <= 65535 ->
    exists t', arbo_update t k v = inr t';
  update_missing t k v : leaves t !! k = None -> 8 * blen k <= levels t ->
    arbo_update t k v = inl arbo_ErrKeyNotFound;
  set_root_ok t r t' : arbo_set_root t r = inr t' -> arbo_root t' = r /\ levels t' = levels t;
  snapshot_current t : exists t', arbo_snapshot t (arbo_root t) = inr t' /\
    leaves t' = leaves t /\ levels t' = levels t;
}.

(** arbo documents the callback's result as "stop iterating on the branch": below a
    leaf there is nothing left, so every leaf is visited, in some order. *)
Class ArboIterBranch `{ArboLaws} :=
  iter_branch (A : Type) t (f : A -> bytes -> bytes -> A * bool) (a : A) :
    exists order : list (bytes * bytes),
      order ≡ₚ map_to_list (leaves t) /\
      arbo_iter t f a = fold_left (fun acc kv => fst (f acc kv.1 kv.2)) order a.

(** The fold that gives up at the first request to stop. *)
Fixpoint fold_stop {A B} (f : A -> B -> A * bool) (l : list B) (a : A) : A :=
  match l with
  | [] => a
  | x :: l' => let '(a', stop) := f a x in if stop then a' else fold_stop f l' a'
  end.

(** The comments of package statedb describe another contract: "when callback
    returns true, the iteration is stopped and this function returns". *)
Class ArboIterStop `{ArboLaws} :=
  iter_stop (A : Type) t (f : A -> bytes -> bytes -> A * bool) (a : A) :
    exists order : list (bytes * bytes),
      order ≡ₚ map_to_list (leaves t) /\
      arbo_iter t f a = fold_stop (fun acc kv => f acc kv.1 kv.2) order a.

(** ** golang-lru *)

(** The vote cache holds two kinds of keys, transaction identifiers (a [[32]byte])
    and prefixed nullifiers (a [string]); the second kind has nil values. *)
Inductive cache_key := TxID (id : bytes) | NullKey (k : string).
Inductive cache_val := CachedVote (v : Vote) | CachedNil.

#[export] Instance cache_key_eq_dec : EqDecision cache_key.
Proof. solve_decision. Defined.
#[export] Instance cache_key_countable : Countable cache_key.
Proof.
  apply (inj_countable' (fun k => match k with TxID i => inl i | NullKey k => inr k end)
                        (fun s => match s with inl i => TxID i | inr k => NullKey k end)).
  by intros [].
Defined.

Class Lru := {
  lru : Type;
  lru_get : lru -> cache_key -> lru * option cache_val;
  lru_add : lru -> cache_key -> cache_val -> lru;
  lru_remove : lru -> cache_key -> lru;
  lru_keys : lru -> list cache_key;
  lru_len : lru -> Z;
  lru_resize : lru -> Z -> lru;
}.

(** [Get] only changes the recency order; [Add] may evict other entries. *)
Class LruLaws `{Lru} := {
  entries : lru -> gmap cache_key cache_val;
  lru_get_spec c k : (lru_get c k).2 = entries c !! k;
  lru_get_entries c k : entries (lru_get c k).1 = entries c;
  lru_add_evicts c k v : entries (lru_add c k v) ⊆ <[k := v]> (entries c);
  lru_add_stored c k v : entries (lru_add c k v) !! k = Some v;
  lru_remove_spec c k : entries (lru_remove c k) = delete k (entries c);
  lru_keys_spec c k : k ∈ lru_keys c <-> is_Some (entries c !! k);
}.

(** ** Libraries that check census proofs and ballots *)

(** arbo's proof verification, go-blindsecp256k1, the curve operations of secp256k1,
    storage-proofs-eth-go, go-snark and curve25519.  [add_base pk s] is the public key
    [pk + s·G]. *)
Class ProofLibs `{EthCrypto} := {
  arbo_hash : HashFunction -> bytes -> error + bytes;
  arbo_CheckProof : HashFunction -> bytes -> bytes -> bytes -> bytes -> error + bool;
  arbo_BytesToBigInt : bytes -> Z;
  ecdsa_add_base : ecdsa_pub -> bytes -> ecdsa_pub;
  blind_pub : Type;
  blind_sig : Type;
  NewPublicKeyFromECDSA : bytes -> error + blind_pub;
  NewSignatureFromBytesUncompressed : bytes -> error + blind_sig;
  blind_Verify : Z -> blind_sig -> blind_pub -> bool;
  blind_add_base : blind_pub -> bytes -> blind_pub;
  BytesToHash : bytes -> bytes;
  mapbased_VerifyProof : Address -> bytes -> ProofEthereumStorage -> Z -> Z -> option error;
  (** the balance is nil when the value cannot be parsed *)
  minime_ParseMinimeValue : bytes -> option Z;
  minime_VerifyProof :
    Address -> bytes -> list ProofEthereumStorage -> Z -> Z -> Z -> option error;
  snark_vk : Type;
  snark_proof : Type;
  ProofStringToProof : list string -> list (list string) -> list string -> error + snark_proof;
  PublicSignalsStringToPublicSignals : list string -> error + list Z;
  snark_Verify : snark_vk -> snark_proof -> list Z -> bool;
  X25519_base : bytes -> error + bytes;
}.
