(* ===== verification/Tables.v ===== *)
(** * The tables of the indexer's databases

    The indexer keeps its records in a badgerhold store and in an SQLite database, neither of
    which is part of the repository.  Both are used as tables of records with a key; the class
    [Tables] has the operations the indexer calls and [TablesLaws] what their documentation
    promises.  A table is read and written without input or output errors.
    The in-memory caches are the class [Memo]. *)

From stdpp Require Import base option list strings gmap.
From S2P Require Import Prelude GoMonad.

Inductive db_key := KBytes (b : bytes) | KUint (n : Z).

#[export] Instance db_key_eq_dec : EqDecision db_key.
Proof. solve_decision. Defined.

#[export] Instance db_key_countable : Countable db_key.
Proof.
  refine (inj_countable' (fun k => match k with KBytes b => inl b | KUint n => inr n end)
    (fun x => match x with inl b => KBytes b | inr n => KUint n end) _).
  by intros [].
Defined.

Class Tables := {
  table : Type -> Type;
  t_empty {R} : table R;
  (** [FindOne] by key, [Get], [SELECT ... WHERE id = ?] *)
  t_find {R} : db_key -> table R -> option R;
  (** [Insert], [INSERT INTO]; [None] when the key is there *)
  t_insert {R} : db_key -> R -> table R -> option (table R);
  (** [Upsert], and the write of an updated record *)
  t_put {R} : db_key -> R -> table R -> table R;
  (** every record, in the order of the database *)
  t_rows {R} : table R -> list (db_key * R)
}.

Class TablesLaws `{Tables} := {
  find_empty {R} k : t_find k (t_empty : table R) = None;
  insert_new {R} k (v : R) t :
    t_find k t = None -> exists t', t_insert k v t = Some t' /\
      forall k', t_find k' t' = if decide (k' = k) then Some v else t_find k' t;
  insert_old {R} k (v : R) t : t_find k t <> None -> t_insert k v t = None;
  find_put {R} k (v : R) t k' : t_find k' (t_put k v t) = if decide (k' = k) then Some v else t_find k' t;
  rows_keys {R} (t : table R) : NoDup (t_rows t).*1;
  rows_find {R} (t : table R) k v : (k, v) ∈ t_rows t <-> t_find k t = Some v
}.

(** An update of the record with a key, if there is one. *)
Definition t_update `{Tables} {R} (k : db_key) (f : R -> R) (t : table R) : table R :=
  match t_find k t with Some r => t_put k (f r) t | None => t end.

Section facts.
Context `{TablesLaws}.

Lemma insert_Some {R} k (v : R) t t' :
  t_insert k v t = Some t' ->
  t_find k t = None /\ forall k', t_find k' t' = if decide (k' = k) then Some v else t_find k' t.
Proof.
  intros Hi. destruct (t_find k t) as [r|] eqn:E.
  - rewrite insert_old in Hi by (by rewrite E). done.
  - destruct (insert_new k v t E) as (t1 & Ht & Hf). rewrite Ht in Hi. by injection Hi as <-.
Qed.

Lemma find_update {R} k (f : R -> R) t k' :
  t_find k' (t_update k f t) = if decide (k' = k) then f <$> t_find k t else t_find k' t.
Proof.
  unfold t_update. destruct (t_find k t) as [r|] eqn:E; [apply find_put|].
  destruct (decide (k' = k)) as [->|]; done.
Qed.

Lemma rows_NoDup {R} (t : table R) : NoDup (t_rows t).
Proof. apply (NoDup_fmap_1 fst), rows_keys. Qed.

(** A new record is one more row. *)
Lemma rows_insert {R} k (v : R) t t' : t_insert k v t = Some t' -> t_rows t' ≡ₚ (k, v) :: t_rows t.
Proof.
  intros [Hn Hf]%insert_Some. apply NoDup_Permutation.
  - apply rows_NoDup.
  - constructor; [|apply rows_NoDup]. rewrite rows_find. congruence.
  - intros [k' v']. rewrite elem_of_cons, !rows_find, Hf. destruct (decide (k' = k)) as [->|Hne].
    + rewrite Hn. naive_solver.
    + naive_solver.
Qed.
End facts.

(** ** Caches

    [src/db/lru/lru.go] on top of golang-lru: [Get] only changes the recency order and [Add]
    may evict other entries. *)

Class Memo := {
  memo : Type -> Type;
  memo_new {V} : memo V;
  memo_get {V} : memo V -> string -> memo V * option V;
  memo_add {V} : memo V -> string -> V -> memo V
}.

Class MemoLaws `{Memo} := {
  memo_entries {V} : memo V -> string -> option V;
  memo_new_spec {V} k : memo_entries (memo_new : memo V) k = None;
  memo_get_spec {V} (c : memo V) k : (memo_get c k).2 = memo_entries c k;
  memo_get_entries {V} (c : memo V) k k' : memo_entries (memo_get c k).1 k' = memo_entries c k';
  memo_add_spec {V} (c : memo V) k v k' v' :
    memo_entries (memo_add c k v) k' = Some v' -> (k' = k /\ v' = v) \/ memo_entries c k' = Some v'
}.
