(* ===== verification/Nacl.v ===== *)
(** * Sealed boxes

    [src/crypto/nacl/nacl.go]: keys of 32 octets in hexadecimal, and anonymous encryption with
    the box of golang.org/x/crypto, which is the class [SealedBox]; the scalar multiplication
    is [X25519_base].  The random octets of an encryption are an argument. *)

From stdpp Require Import base option list strings.
From S2P Require Import Prelude GoMonad GoLib Models External.

Definition KeyLength : nat := 32.

Class SealedBox := {
  (** message, public key, random octets *)
  box_SealAnonymous : bytes -> bytes -> bytes -> error + bytes;
  (** cipher, public key, private key *)
  box_OpenAnonymous : bytes -> bytes -> bytes -> option bytes
}.

Section nacl.
Context `{EthCrypto, !ProofLibs, !SealedBox}.

Record privateKey := mkPrivateKey { pk_key : bytes; pk_pub : bytes }.

Definition key_decode (hexkey : string) : outcome bytes :=
  match hex_decode hexkey with
  | None => Err (Errorf "encoding/hex")
  | Some b => if negb (String.length b =? KeyLength)%nat then Err (Errorf "key length must be 32") else Ok b
  end.

Definition derivePublic (key : bytes) : outcome privateKey :=
  pub ← of_sum (X25519_base key);
  Ok (mkPrivateKey key (btake KeyLength (pub +:+ zeros KeyLength))).

Definition DecodePrivate (hexkey : string) : outcome privateKey :=
  key ← key_decode hexkey;
  derivePublic key.

Definition DecodePublic (hexkey : string) : outcome bytes := key_decode hexkey.

(** [Anonymous.Encrypt], for a recipient. *)
Definition Anonymous_Encrypt (message recipient rand : bytes) : outcome bytes :=
  of_sum (box_SealAnonymous message recipient rand).

Definition Decrypt (priv : privateKey) (cipher : bytes) : outcome bytes :=
  match box_OpenAnonymous cipher (pk_pub priv) (pk_key priv) with
  | Some message => Ok message
  | None => Err (Errorf "could not open box")
  end.

(** What is sealed for the public key of a private key is opened with it. *)
Class SealedBoxLaws :=
  box_open_seal key priv m rand c :
    derivePublic key = Ok priv -> box_SealAnonymous m (pk_pub priv) rand = inr c ->
    box_OpenAnonymous c (pk_pub priv) key = Some m.

Lemma Decrypt_Encrypt `{!SealedBoxLaws} hexkey priv m rand c :
  DecodePrivate hexkey = Ok priv -> Anonymous_Encrypt m (pk_pub priv) rand = Ok c -> Decrypt priv c = Ok m.
Proof.
  intros Hd Hc. unfold DecodePrivate in Hd. apply outcome_bind_Ok in Hd as (key & _ & Hd).
  assert (pk_key priv = key) as Hk.
  { unfold derivePublic in Hd. apply outcome_bind_Ok in Hd as (pub & _ & Hd). by injection Hd as <-. }
  unfold Anonymous_Encrypt in Hc. apply of_sum_Ok in Hc. unfold Decrypt.
  by rewrite Hk, (box_open_seal key priv m rand c).
Qed.
End nacl.
