(* ===== verification/IndexerTypes.v ===== *)
(** * The records of the indexer

    The types of [src/vochain/scrutinizer/indexertypes/types.go], the rows of the SQLite tables
    of [src/vochain/scrutinizer/db/models.go], and the conversions between them.  A nil and an
    empty slice are not distinguished, and a time is its Unix time.  The messages stored in a
    row are encoded by protobuf, whose codecs are the class [ProtoOpts]. *)

From stdpp Require Import base option list strings.
From Stdlib Require Import ZArith Lia Ascii.
From S2P Require Import Prelude GoMonad GoLib GoText Models Results External.

(** ** Protobuf *)

Definition zero_EnvelopeType : EnvelopeType := mkEnvelopeType false false false false false.
Definition zero_ProcessMode : ProcessMode := mkProcessMode false false false false false.
Definition zero_ProcessVoteOptions : ProcessVoteOptions := mkProcessVoteOptions 0 0 0 0 0.

Class ProtoOpts := {
  Proto_EnvelopeType :: Codec EnvelopeType;
  Proto_ProcessMode :: Codec ProcessMode;
  Proto_ProcessVoteOptions :: Codec ProcessVoteOptions;
  (** the name of a value of the enumeration *)
  SourceNetworkId_String : Z -> string
}.

Class ProtoOptsLaws `{ProtoOpts} := {
  EnvelopeType_laws :: CodecLaws EnvelopeType;
  ProcessMode_laws :: CodecLaws ProcessMode;
  ProcessVoteOptions_laws :: CodecLaws ProcessVoteOptions;
  (** these messages have no required field, hence always an encoding *)
  EnvelopeType_marshals (x : EnvelopeType) : marshal x <> None;
  ProcessMode_marshals (x : ProcessMode) : marshal x <> None;
  ProcessVoteOptions_marshals x : options_range x -> marshal x <> None;
  (** no bytes are the message with the default fields *)
  EnvelopeType_empty : unmarshal "" = Some zero_EnvelopeType;
  ProcessMode_empty : unmarshal "" = Some zero_ProcessMode;
  ProcessVoteOptions_empty : unmarshal "" = Some zero_ProcessVoteOptions
}.

(** ** Badgerhold records *)

Definition CountStoreEntities : Z := 0.
Definition CountStoreProcesses : Z := 1.
Definition CountStoreEnvelopes : Z := 2.
Definition CountStoreTransactions : Z := 3.

Record CountStore := mkCountStore { CS_Type : Z; CS_Count : Z }.

Record IndexProcess := mkIndexProcess {
  IP_ID : bytes;
  IP_EntityID : bytes;
  IP_EntityIndex : Z;
  IP_StartBlock : Z;
  IP_EndBlock : Z;
  IP_Rheight : Z;
  IP_CensusRoot : bytes;
  IP_RollingCensusRoot : bytes;
  IP_CensusURI : string;
  IP_Metadata : string;
  IP_CensusOrigin : Z;
  IP_Status : Z;
  IP_Namespace : Z;
  IP_Envelope : option EnvelopeType;
  IP_Mode : option ProcessMode;
  IP_VoteOpts : option ProcessVoteOptions;
  IP_PrivateKeys : list string;
  IP_PublicKeys : list string;
  IP_QuestionIndex : Z;
  IP_CreationTime : Z;
  IP_HaveResults : bool;
  IP_FinalResults : bool;
  IP_SourceBlockHeight : Z;
  IP_SourceNetworkId : string;
  IP_MaxCensusSize : Z;
  IP_RollingCensusSize : Z
}.

Record Entity := mkEntity { EN_ID : bytes; EN_ProcessCount : Z; EN_CreationTime : Z }.

Record VoteReference := mkVoteReference {
  VR_Nullifier : bytes;
  VR_ProcessID : bytes;
  VR_VoterID : bytes;
  VR_Height : Z;
  VR_Weight : Z;
  VR_TxIndex : Z;
  VR_CreationTime : Z
}.

Record TxReference := mkTxReference {
  TR_Index : Z;
  TR_Hash : bytes;
  TR_BlockHeight : Z;
  TR_TxBlockIndex : Z
}.

Record ScrutinizerOnProcessData := mkOnProcessData { OP_EntityID : bytes; OP_ProcessID : bytes }.

(** ** Rows *)

Record DBProcess := mkDBProcess {
  DB_ID : bytes;
  DB_EntityID : string;
  DB_EntityIndex : Z;
  DB_StartBlock : Z;
  DB_EndBlock : Z;
  DB_ResultsHeight : Z;
  DB_HaveResults : bool;
  DB_FinalResults : bool;
  DB_CensusRoot : bytes;
  DB_RollingCensusRoot : bytes;
  DB_RollingCensusSize : Z;
  DB_MaxCensusSize : Z;
  DB_CensusUri : string;
  DB_Metadata : string;
  DB_CensusOrigin : Z;
  DB_Status : Z;
  DB_Namespace : Z;
  DB_EnvelopePb : bytes;
  DB_ModePb : bytes;
  DB_VoteOptsPb : bytes;
  DB_PrivateKeys : string;
  DB_PublicKeys : string;
  DB_QuestionIndex : Z;
  DB_CreationTime : Z;
  DB_SourceBlockHeight : Z;
  DB_SourceNetworkID : string;
  DB_ResultsVotes : string;
  DB_ResultsWeight : string;
  DB_ResultsEnvelopeHeight : Z;
  DB_ResultsSignatures : string;
  DB_ResultsBlockHeight : Z
}.

Record DBVoteReference := mkDBVoteReference {
  DV_Nullifier : bytes;
  DV_ProcessID : bytes;
  DV_Height : Z;
  DV_Weight : string;
  DV_TxIndex : Z;
  DV_CreationTime : Z;
  DV_VoterID : bytes
}.

(** ** Encodings *)

(** [encodeVotes]: the rows between spaces, the cells between commas. *)
Definition encodeVotes (votes : list (list Z)) : string :=
  join_with " " ((fun row => join_with "," (big_String <$> row)) <$> votes).

(** A cell that is not a number is skipped. *)
Definition decodeVotes (input : string) : list (list Z) :=
  (fun group => omap big_SetString0 (split_on ","%char group)) <$> split_on " "%char input.

Definition decodeBigint (s : string) : Z := default 0 (big_SetString0 s).

Definition nonEmptySplit (s : string) (sep : ascii) : list string :=
  let l := split_on sep s in if bool_decide (l = [""]) then [] else l.

Definition joinHexBytes (l : list bytes) : string := join_with "," (hex_encode <$> l).

Definition hexSplit (joined : string) : outcome (list bytes) :=
  if bool_decide (joined = "") then Ok []
  else match mapM hex_decode (split_on ","%char joined) with
       | Some l => Ok l
       | None => Panic "hex.DecodeString"
       end.

Section conversions.
Context `{ProtoOpts}.

(** [encodedPb]; the encoding of a nil message is empty. *)
Definition encodedPb {A} `{Codec A} (msg : option A) : outcome bytes :=
  match msg with
  | None => Ok ""
  | Some m => match marshal m with Some b => Ok b | None => Panic "proto.Marshal" end
  end.

Definition ProcessFromDB (d : DBProcess) : IndexProcess :=
  {| IP_ID := DB_ID d; IP_EntityID := DB_EntityID d; IP_EntityIndex := u32 (DB_EntityIndex d);
     IP_StartBlock := u32 (DB_StartBlock d); IP_EndBlock := u32 (DB_EndBlock d);
     IP_Rheight := u32 (DB_ResultsHeight d); IP_CensusRoot := DB_CensusRoot d;
     IP_RollingCensusRoot := DB_RollingCensusRoot d; IP_CensusURI := DB_CensusUri d;
     IP_Metadata := DB_Metadata d; IP_CensusOrigin := i32 (DB_CensusOrigin d);
     IP_Status := i32 (DB_Status d); IP_Namespace := u32 (DB_Namespace d);
     IP_Envelope := Some (default zero_EnvelopeType (unmarshal (DB_EnvelopePb d)));
     IP_Mode := if bool_decide (DB_ModePb d = "") then None
                else Some (default zero_ProcessMode (unmarshal (DB_ModePb d)));
     IP_VoteOpts := if bool_decide (DB_VoteOptsPb d = "") then None
                    else Some (default zero_ProcessVoteOptions (unmarshal (DB_VoteOptsPb d)));
     IP_PrivateKeys := nonEmptySplit (DB_PrivateKeys d) ","%char;
     IP_PublicKeys := nonEmptySplit (DB_PublicKeys d) ","%char;
     IP_QuestionIndex := 0; IP_CreationTime := DB_CreationTime d; IP_HaveResults := DB_HaveResults d;
     IP_FinalResults := DB_FinalResults d; IP_SourceBlockHeight := u64 (DB_SourceBlockHeight d);
     IP_SourceNetworkId := DB_SourceNetworkID d; IP_MaxCensusSize := u64 (DB_MaxCensusSize d);
     IP_RollingCensusSize := u64 (DB_RollingCensusSize d) |}.

(** Nil when the envelope type cannot be decoded. *)
Definition ResultsFromDB (d : DBProcess) : outcome (option IndexResults) :=
  sigs ← hexSplit (DB_ResultsSignatures d);
  Ok (match unmarshal (DB_EnvelopePb d) with
      | None => None
      | Some et =>
          Some {| R_ProcessID := DB_ID d; R_Votes := decodeVotes (DB_ResultsVotes d);
                  R_Weight := decodeBigint (DB_ResultsWeight d);
                  R_EnvelopeHeight := u64 (DB_ResultsEnvelopeHeight d); R_EnvelopeType := Some et;
                  R_VoteOpts := if bool_decide (DB_VoteOptsPb d = "") then None
                                else Some (default zero_ProcessVoteOptions (unmarshal (DB_VoteOptsPb d)));
                  R_Signatures := sigs; R_Final := DB_FinalResults d;
                  R_BlockHeight := u32 (DB_ResultsBlockHeight d) |}
      end).

Definition VoteReferenceFromDB (d : DBVoteReference) : outcome VoteReference :=
  match big_SetString0 (DV_Weight d) with
  | None => Panic "wrong format for bigInt"
  | Some w =>
      Ok (mkVoteReference (DV_Nullifier d) (DV_ProcessID d) (DV_VoterID d) (u32 (DV_Height d)) w
            (i32 (DV_TxIndex d)) (DV_CreationTime d))
  end.
End conversions.
