(* ===== verification/Indexer.v ===== *)
(** * The databases of the indexer

    The state of [src/vochain/scrutinizer/scrutinizer.go] (type [Scrutinizer]), the SQL queries
    of [src/vochain/scrutinizer/db] and the processes of [src/vochain/scrutinizer/process.go].

    The indexer reads the chain through the application; the record [Chain] has what it reads
    at the time of a call.  The goroutines that [Commit] starts are kept in [tasks] and run
    later.  [enableBadgerhold] is the package variable of that name.  Logs, timeouts and the
    comparison of the two databases, which only logs, are left out. *)

From stdpp Require Import base option list strings gmap.
From Stdlib Require Import ZArith.
From S2P Require Import Prelude GoMonad GoLib GoText Models Results External Tables Nacl IndexerTypes.

(** What the indexer reads from the application. *)
Record Chain := mkChain {
  ch_Process : bytes -> error + Process;                  (** [App.State.Process(pid, false)] *)
  ch_Height : Z;
  ch_IsSynchronizing : bool;
  ch_TimestampStartBlock : Z;
  ch_GetTxHash : Z -> Z -> error + (SignedTx * bytes);    (** the block store *)
  ch_Now : Z
}.

Definition ErrNotFound : error := Sentinel "badgerhold.ErrNotFound".
Definition ErrKeyExists : error := Sentinel "badgerhold.ErrKeyExists".
Definition ErrNoRows : error := Sentinel "sql.ErrNoRows".
Definition ErrUnique : error := Sentinel "UNIQUE constraint failed".

Record VoteWithIndex := mkVoteWithIndex { vi_vote : Vote; vi_voterID : bytes; vi_txIndex : Z }.

(** The goroutines of [Commit]. *)
Inductive Task :=
| IndexTxs (txList : list TxReference)
| ComputePending (height : Z).

(** The callbacks of the event listeners. *)
Inductive ResultsEvent :=
| OnComputeResults (results : IndexResults) (process : IndexProcess) (height : Z)
| OnOracleResults (pid : bytes) (results : ProcessResult) (height : Z).

Section indexer.
Context `{Tables, Memo, ProtoOpts}.

Record Pools := mkPools {
  voteIndexPool : list VoteWithIndex;
  votePool : gmap bytes (list Vote);
  newProcessPool : list ScrutinizerOnProcessData;
  updateProcessPool : list bytes;
  resultsPool : list ScrutinizerOnProcessData;
  newTxPool : list TxReference
}.

Record IndexDB := mkIndexDB {
  bh_results : table IndexResults;
  bh_processes : table IndexProcess;
  bh_votes : table VoteReference;
  bh_entities : table Entity;
  bh_counts : table CountStore;
  bh_txs : table TxReference;
  sql_processes : table DBProcess;
  sql_votes : table DBVoteReference
}.

Record Scrutinizer := mkScrutinizer {
  pools : Pools;
  liveResultsProcs : gset bytes;
  idb : IndexDB;
  envelopeHeightCache : memo Z;
  resultsCache : memo IndexResults;
  ignoreLiveResults : bool;
  tasks : list Task;
  notified : list ResultsEvent
}.

Definition set_bh_results x d := mkIndexDB x (bh_processes d) (bh_votes d) (bh_entities d) (bh_counts d) (bh_txs d) (sql_processes d) (sql_votes d).
Definition set_bh_processes x d := mkIndexDB (bh_results d) x (bh_votes d) (bh_entities d) (bh_counts d) (bh_txs d) (sql_processes d) (sql_votes d).
Definition set_bh_votes x d := mkIndexDB (bh_results d) (bh_processes d) x (bh_entities d) (bh_counts d) (bh_txs d) (sql_processes d) (sql_votes d).
Definition set_bh_entities x d := mkIndexDB (bh_results d) (bh_processes d) (bh_votes d) x (bh_counts d) (bh_txs d) (sql_processes d) (sql_votes d).
Definition set_bh_counts x d := mkIndexDB (bh_results d) (bh_processes d) (bh_votes d) (bh_entities d) x (bh_txs d) (sql_processes d) (sql_votes d).
Definition set_bh_txs x d := mkIndexDB (bh_results d) (bh_processes d) (bh_votes d) (bh_entities d) (bh_counts d) x (sql_processes d) (sql_votes d).
Definition set_sql_processes x d := mkIndexDB (bh_results d) (bh_processes d) (bh_votes d) (bh_entities d) (bh_counts d) (bh_txs d) x (sql_votes d).
Definition set_sql_votes x d := mkIndexDB (bh_results d) (bh_processes d) (bh_votes d) (bh_entities d) (bh_counts d) (bh_txs d) (sql_processes d) x.

Definition set_pools x s := mkScrutinizer x (liveResultsProcs s) (idb s) (envelopeHeightCache s) (resultsCache s) (ignoreLiveResults s) (tasks s) (notified s).
Definition set_liveResultsProcs x s := mkScrutinizer (pools s) x (idb s) (envelopeHeightCache s) (resultsCache s) (ignoreLiveResults s) (tasks s) (notified s).
Definition set_idb x s := mkScrutinizer (pools s) (liveResultsProcs s) x (envelopeHeightCache s) (resultsCache s) (ignoreLiveResults s) (tasks s) (notified s).
Definition set_envelopeHeightCache x s := mkScrutinizer (pools s) (liveResultsProcs s) (idb s) x (resultsCache s) (ignoreLiveResults s) (tasks s) (notified s).
Definition set_resultsCache x s := mkScrutinizer (pools s) (liveResultsProcs s) (idb s) (envelopeHeightCache s) x (ignoreLiveResults s) (tasks s) (notified s).
Definition set_tasks x s := mkScrutinizer (pools s) (liveResultsProcs s) (idb s) (envelopeHeightCache s) (resultsCache s) (ignoreLiveResults s) x (notified s).
Definition set_notified x s := mkScrutinizer (pools s) (liveResultsProcs s) (idb s) (envelopeHeightCache s) (resultsCache s) (ignoreLiveResults s) (tasks s) x.

Abbreviation D := (GoM IndexDB) (only parsing).

(** A call on a database, and one on a table of it. *)
Definition on_idb {A} (m : GoM IndexDB A) : GoM Scrutinizer A := zoom idb set_idb m.

Definition tbl_find {R} (t : IndexDB -> table R) (k : db_key) (missing : error) : GoM IndexDB R :=
  d ← get; match t_find k (t d) with Some r => mret r | None => throw missing end.
Definition tbl_insert {R} (t : IndexDB -> table R) (set : table R -> IndexDB -> IndexDB) (exists_ : error)
    (k : db_key) (r : R) : GoM IndexDB unit :=
  d ← get;
  match t_insert k r (t d) with Some t' => modify (set t') | None => throw exists_ end.
Definition tbl_put {R} (t : IndexDB -> table R) (set : table R -> IndexDB -> IndexDB) (k : db_key) (r : R) :
    GoM IndexDB unit :=
  modify (fun d => set (t_put k r (t d)) d).
(** [UpdateMatching] on a key, [UPDATE ... WHERE id = ?]: nothing happens without a record, and
    an error of the function leaves the record as it is. *)
Definition tbl_update {R} (t : IndexDB -> table R) (set : table R -> IndexDB -> IndexDB) (k : db_key)
    (f : R -> outcome R) : GoM IndexDB unit :=
  d ← get;
  match t_find k (t d) with
  | None => mret tt
  | Some r => r' ← lift (f r); tbl_put t set k r'
  end.

(** [queryWithRetries]: a transaction conflict is tried again, 1000 times in all. *)
Fixpoint error_text (e : error) : string :=
  match e with
  | Sentinel n => n
  | Errorf m => m
  | Wrap m e' => m +:+ ": " +:+ error_text e'
  end.

Fixpoint str_contains (sub s : string) : bool :=
  match strip_prefix sub s with
  | Some _ => true
  | None => match s with EmptyString => false | String _ s' => str_contains sub s' end
  end.

Definition kvErrorStringForRetry : string := "Transaction Conflict".

Fixpoint query_tries (tries : nat) (query : GoM IndexDB unit) : GoM IndexDB unit :=
  match tries with
  | O => throw (Errorf "cannot update record: max retires reached")
  | S tries' =>
      r ← catch query;
      match r with
      | inr _ => mret tt
      | inl e =>
          if str_contains kvErrorStringForRetry (error_text e) then query_tries tries' query
          else throw (Wrap "cannot update record" e)
      end
  end.

Definition queryWithRetries (query : GoM IndexDB unit) : GoM IndexDB unit := query_tries 1000 query.

(** ** The SQL queries *)

Definition row_results_height (h : Z) (d : DBProcess) : DBProcess :=
  mkDBProcess (DB_ID d) (DB_EntityID d) (DB_EntityIndex d) (DB_StartBlock d) (DB_EndBlock d) h
    (DB_HaveResults d) (DB_FinalResults d) (DB_CensusRoot d) (DB_RollingCensusRoot d)
    (DB_RollingCensusSize d) (DB_MaxCensusSize d) (DB_CensusUri d) (DB_Metadata d)
    (DB_CensusOrigin d) (DB_Status d) (DB_Namespace d) (DB_EnvelopePb d) (DB_ModePb d)
    (DB_VoteOptsPb d) (DB_PrivateKeys d) (DB_PublicKeys d) (DB_QuestionIndex d) (DB_CreationTime
    d) (DB_SourceBlockHeight d) (DB_SourceNetworkID d) (DB_ResultsVotes d) (DB_ResultsWeight d)
    (DB_ResultsEnvelopeHeight d) (DB_ResultsSignatures d) (DB_ResultsBlockHeight d).

Definition row_cancelled (d : DBProcess) : DBProcess :=
  mkDBProcess (DB_ID d) (DB_EntityID d) (DB_EntityIndex d) (DB_StartBlock d) (DB_EndBlock d)
    (DB_ResultsHeight d) false true (DB_CensusRoot d) (DB_RollingCensusRoot d)
    (DB_RollingCensusSize d) (DB_MaxCensusSize d) (DB_CensusUri d) (DB_Metadata d)
    (DB_CensusOrigin d) (DB_Status d) (DB_Namespace d) (DB_EnvelopePb d) (DB_ModePb d)
    (DB_VoteOptsPb d) (DB_PrivateKeys d) (DB_PublicKeys d) (DB_QuestionIndex d) (DB_CreationTime
    d) (DB_SourceBlockHeight d) (DB_SourceNetworkID d) (DB_ResultsVotes d) (DB_ResultsWeight d)
    (DB_ResultsEnvelopeHeight d) (DB_ResultsSignatures d) (DB_ResultsBlockHeight d).

Definition row_results (votes weight : string) (height blockHeight : Z) (d : DBProcess) : DBProcess :=
  mkDBProcess (DB_ID d) (DB_EntityID d) (DB_EntityIndex d) (DB_StartBlock d) (DB_EndBlock d)
    (DB_ResultsHeight d) (DB_HaveResults d) (DB_FinalResults d) (DB_CensusRoot d)
    (DB_RollingCensusRoot d) (DB_RollingCensusSize d) (DB_MaxCensusSize d) (DB_CensusUri d)
    (DB_Metadata d) (DB_CensusOrigin d) (DB_Status d) (DB_Namespace d) (DB_EnvelopePb d)
    (DB_ModePb d) (DB_VoteOptsPb d) (DB_PrivateKeys d) (DB_PublicKeys d) (DB_QuestionIndex d)
    (DB_CreationTime d) (DB_SourceBlockHeight d) (DB_SourceNetworkID d) votes weight height
    (DB_ResultsSignatures d) blockHeight.

Definition row_ready (votes weight : string) (height : Z) (signatures : string) (blockHeight : Z)
    (d : DBProcess) : DBProcess :=
  mkDBProcess (DB_ID d) (DB_EntityID d) (DB_EntityIndex d) (DB_StartBlock d) (DB_EndBlock d)
    (DB_ResultsHeight d) true true (DB_CensusRoot d) (DB_RollingCensusRoot d)
    (DB_RollingCensusSize d) (DB_MaxCensusSize d) (DB_CensusUri d) (DB_Metadata d)
    (DB_CensusOrigin d) (DB_Status d) (DB_Namespace d) (DB_EnvelopePb d) (DB_ModePb d)
    (DB_VoteOptsPb d) (DB_PrivateKeys d) (DB_PublicKeys d) (DB_QuestionIndex d) (DB_CreationTime
    d) (DB_SourceBlockHeight d) (DB_SourceNetworkID d) votes weight height signatures blockHeight.

(** The columns of [updateProcessFromState]. *)
Record StateColumns := mkStateColumns {
  sc_EndBlock : Z;
  sc_CensusRoot : bytes;
  sc_RollingCensusRoot : bytes;
  sc_CensusUri : string;
  sc_PrivateKeys : string;
  sc_PublicKeys : string;
  sc_Metadata : string;
  sc_RollingCensusSize : Z;
  sc_Status : Z
}.

Definition row_from_state (c : StateColumns) (d : DBProcess) : DBProcess :=
  mkDBProcess (DB_ID d) (DB_EntityID d) (DB_EntityIndex d) (DB_StartBlock d) (sc_EndBlock c)
    (DB_ResultsHeight d) (DB_HaveResults d) (DB_FinalResults d) (sc_CensusRoot c)
    (sc_RollingCensusRoot c) (sc_RollingCensusSize c) (DB_MaxCensusSize d) (sc_CensusUri c)
    (sc_Metadata c) (DB_CensusOrigin d) (sc_Status c) (DB_Namespace d) (DB_EnvelopePb d)
    (DB_ModePb d) (DB_VoteOptsPb d) (sc_PrivateKeys c) (sc_PublicKeys c) (DB_QuestionIndex d)
    (DB_CreationTime d) (DB_SourceBlockHeight d) (DB_SourceNetworkID d) (DB_ResultsVotes d)
    (DB_ResultsWeight d) (DB_ResultsEnvelopeHeight d) (DB_ResultsSignatures d)
    (DB_ResultsBlockHeight d).

Definition CreateProcess (row : DBProcess) : D unit :=
  tbl_insert sql_processes set_sql_processes ErrUnique (KBytes (DB_ID row)) row.
Definition GetProcess (id : bytes) : D DBProcess := tbl_find sql_processes (KBytes id) ErrNoRows.
Definition GetProcessStatus (id : bytes) : D Z := row ← GetProcess id; mret (DB_Status row).
Definition sql_update (id : bytes) (f : DBProcess -> DBProcess) : D unit :=
  tbl_update sql_processes set_sql_processes (KBytes id) (fun d => Ok (f d)).
Definition SetProcessResultsCancelled (id : bytes) : D unit := sql_update id row_cancelled.
Definition SetProcessResultsHeight (id : bytes) (h : Z) : D unit := sql_update id (row_results_height h).
Definition SetProcessResultsReady (id : bytes) (votes weight : string) (height : Z) (signatures : string)
    (blockHeight : Z) : D unit :=
  sql_update id (row_ready votes weight height signatures blockHeight).
Definition UpdateProcessFromState (id : bytes) (c : StateColumns) : D unit := sql_update id (row_from_state c).
(** [WHERE id = ? AND final_results = FALSE] *)
Definition UpdateProcessResults (id : bytes) (votes weight : string) (height blockHeight : Z) : D unit :=
  sql_update id (fun d => if DB_FinalResults d then d else row_results votes weight height blockHeight d).
Definition CreateVoteReference (row : DBVoteReference) : D unit :=
  tbl_insert sql_votes set_sql_votes ErrUnique (KBytes (DV_Nullifier row)) row.
Definition GetVoteReference (nullifier : bytes) : D DBVoteReference :=
  tbl_find sql_votes (KBytes nullifier) ErrNoRows.

(** ** Processes *)

Definition with_Rheight (h : Z) (p : IndexProcess) : IndexProcess :=
  mkIndexProcess (IP_ID p) (IP_EntityID p) (IP_EntityIndex p) (IP_StartBlock p) (IP_EndBlock p) h
    (IP_CensusRoot p) (IP_RollingCensusRoot p) (IP_CensusURI p) (IP_Metadata p) (IP_CensusOrigin
    p) (IP_Status p) (IP_Namespace p) (IP_Envelope p) (IP_Mode p) (IP_VoteOpts p) (IP_PrivateKeys
    p) (IP_PublicKeys p) (IP_QuestionIndex p) (IP_CreationTime p) (IP_HaveResults p)
    (IP_FinalResults p) (IP_SourceBlockHeight p) (IP_SourceNetworkId p) (IP_MaxCensusSize p)
    (IP_RollingCensusSize p).

Definition with_ready (p : IndexProcess) : IndexProcess :=
  mkIndexProcess (IP_ID p) (IP_EntityID p) (IP_EntityIndex p) (IP_StartBlock p) (IP_EndBlock p)
    (IP_Rheight p) (IP_CensusRoot p) (IP_RollingCensusRoot p) (IP_CensusURI p) (IP_Metadata p)
    (IP_CensusOrigin p) (IP_Status p) (IP_Namespace p) (IP_Envelope p) (IP_Mode p) (IP_VoteOpts p)
    (IP_PrivateKeys p) (IP_PublicKeys p) (IP_QuestionIndex p) (IP_CreationTime p) true true
    (IP_SourceBlockHeight p) (IP_SourceNetworkId p) (IP_MaxCensusSize p) (IP_RollingCensusSize p).

Definition with_cancelled (p : IndexProcess) : IndexProcess :=
  mkIndexProcess (IP_ID p) (IP_EntityID p) (IP_EntityIndex p) (IP_StartBlock p) (IP_EndBlock p) 0
    (IP_CensusRoot p) (IP_RollingCensusRoot p) (IP_CensusURI p) (IP_Metadata p) (IP_CensusOrigin
    p) (IP_Status p) (IP_Namespace p) (IP_Envelope p) (IP_Mode p) (IP_VoteOpts p) (IP_PrivateKeys
    p) (IP_PublicKeys p) (IP_QuestionIndex p) (IP_CreationTime p) false true (IP_SourceBlockHeight
    p) (IP_SourceNetworkId p) (IP_MaxCensusSize p) (IP_RollingCensusSize p).

(** The fields of a process that [updateProcess] takes from the state, all but the status. *)
Definition with_state (c : Process) (p : IndexProcess) : IndexProcess :=
  mkIndexProcess (IP_ID p) (IP_EntityID p) (IP_EntityIndex p) (IP_StartBlock p) (u32 (BlockCount c
    + StartBlock c)) (IP_Rheight p) (CensusRoot c) (RollingCensusRoot c) (default "" (CensusURI
    c)) (default "" (Metadata c)) (IP_CensusOrigin p) (IP_Status p) (IP_Namespace p) (IP_Envelope
    p) (IP_Mode p) (IP_VoteOpts p) (EncryptionPrivateKeys c) (EncryptionPublicKeys c)
    (IP_QuestionIndex p) (IP_CreationTime p) (IP_HaveResults p) (IP_FinalResults p)
    (IP_SourceBlockHeight p) (IP_SourceNetworkId p) (IP_MaxCensusSize p) (default 0
    (RollingCensusSize c)).

Definition with_IP_Status (st : Z) (p : IndexProcess) : IndexProcess :=
  mkIndexProcess (IP_ID p) (IP_EntityID p) (IP_EntityIndex p) (IP_StartBlock p) (IP_EndBlock p)
    (IP_Rheight p) (IP_CensusRoot p) (IP_RollingCensusRoot p) (IP_CensusURI p) (IP_Metadata p)
    (IP_CensusOrigin p) st (IP_Namespace p) (IP_Envelope p) (IP_Mode p) (IP_VoteOpts p)
    (IP_PrivateKeys p) (IP_PublicKeys p) (IP_QuestionIndex p) (IP_CreationTime p) (IP_HaveResults
    p) (IP_FinalResults p) (IP_SourceBlockHeight p) (IP_SourceNetworkId p) (IP_MaxCensusSize p)
    (IP_RollingCensusSize p).

Context (enableBadgerhold : bool).

Definition isOpenProcess (ch : Chain) (processID : bytes) : outcome bool :=
  p ← of_sum (ch_Process ch processID);
  match P_EnvelopeType p with
  | None => Err (Errorf "cannot fetch process or envelope type not defined")
  | Some et => Ok (negb (EncryptedVotes et))
  end.

Definition ProcessInfo (pid : bytes) : D IndexProcess :=
  (if enableBadgerhold then p ← tbl_find bh_processes (KBytes pid) ErrNotFound; mret tt else mret tt);;
  row ← GetProcess pid;
  mret (ProcessFromDB row).

(** [update.Count++] of a counter. *)
Definition count_up (type : Z) : D unit :=
  tbl_update bh_counts set_bh_counts (KUint type)
    (fun c => Ok (mkCountStore (CS_Type c) (u64 (CS_Count c + 1)))).

(** The entity of a new process: created if it is not there, with one more process. *)
Definition add_entity (eid : bytes) (blockTime : Z) : D unit :=
  r ← catch (tbl_find bh_entities (KBytes eid) ErrNotFound);
  entity ← match r with
           | inr e => mret e
           | inl _ => count_up CountStoreEntities;; mret (mkEntity eid 0 blockTime)
           end;
  queryWithRetries (tbl_put bh_entities set_bh_entities (KBytes eid)
    (mkEntity (EN_ID entity) (u32 (EN_ProcessCount entity + 1)) (EN_CreationTime entity))).

(** The results of a process without votes; 0 is an option too. *)
Definition empty_results (pid : bytes) (options : ProcessVoteOptions) (et : option EnvelopeType) : IndexResults :=
  mkResults pid (NewEmptyVotes (MaxCount options) (MaxValue options + 1)) 0 0 et (Some options) [] false 0.

Definition new_process (pid : bytes) (p : Process) (compResultsHeight blockTime : Z) : IndexProcess :=
  {| IP_ID := pid; IP_EntityID := EntityId p; IP_EntityIndex := 0; IP_StartBlock := StartBlock p;
     IP_EndBlock := u32 (BlockCount p + StartBlock p); IP_Rheight := compResultsHeight;
     IP_CensusRoot := CensusRoot p; IP_RollingCensusRoot := RollingCensusRoot p;
     IP_CensusURI := default "" (CensusURI p); IP_Metadata := default "" (Metadata p);
     IP_CensusOrigin := i32 (CensusOrigin p); IP_Status := ProcessStatus_number (Status p);
     IP_Namespace := Namespace p; IP_Envelope := P_EnvelopeType p; IP_Mode := Mode p;
     IP_VoteOpts := VoteOptions p; IP_PrivateKeys := EncryptionPrivateKeys p;
     IP_PublicKeys := EncryptionPublicKeys p; IP_QuestionIndex := 0; IP_CreationTime := blockTime;
     IP_HaveResults := 0 <? compResultsHeight; IP_FinalResults := false;
     IP_SourceBlockHeight := default 0 (SourceBlockHeight p);
     IP_SourceNetworkId := SourceNetworkId_String (SourceNetworkId p);
     IP_MaxCensusSize := default 0 (MaxCensusSize p); IP_RollingCensusSize := default 0 (RollingCensusSize p) |}.

Definition new_row (pid : bytes) (p : Process) (options : ProcessVoteOptions) (compResultsHeight blockTime : Z)
    (envelopePb modePb voteOptsPb : bytes) : DBProcess :=
  {| DB_ID := pid; DB_EntityID := EntityId p; DB_EntityIndex := 0; DB_StartBlock := StartBlock p;
     DB_EndBlock := u32 (BlockCount p + StartBlock p); DB_ResultsHeight := compResultsHeight;
     DB_HaveResults := 0 <? compResultsHeight; DB_FinalResults := false; DB_CensusRoot := CensusRoot p;
     DB_RollingCensusRoot := RollingCensusRoot p;
     DB_RollingCensusSize := i64 (default 0 (RollingCensusSize p));
     DB_MaxCensusSize := i64 (default 0 (MaxCensusSize p)); DB_CensusUri := default "" (CensusURI p);
     DB_Metadata := default "" (Metadata p); DB_CensusOrigin := CensusOrigin p;
     DB_Status := ProcessStatus_number (Status p); DB_Namespace := Namespace p; DB_EnvelopePb := envelopePb;
     DB_ModePb := modePb; DB_VoteOptsPb := voteOptsPb;
     DB_PrivateKeys := join_with "," (EncryptionPrivateKeys p);
     DB_PublicKeys := join_with "," (EncryptionPublicKeys p); DB_QuestionIndex := 0;
     DB_CreationTime := blockTime; DB_SourceBlockHeight := i64 (default 0 (SourceBlockHeight p));
     DB_SourceNetworkID := SourceNetworkId_String (SourceNetworkId p);
     DB_ResultsVotes := encodeVotes (NewEmptyVotes (MaxCount options) (MaxValue options + 1));
     DB_ResultsWeight := "0"; DB_ResultsEnvelopeHeight := 0; DB_ResultsSignatures := "";
     DB_ResultsBlockHeight := 0 |}.

Definition newEmptyProcess (ch : Chain) (pid : bytes) : D unit :=
  p ← wrapping "cannot create new empty process" (lift (of_sum (ch_Process ch pid)));
  match VoteOptions p with
  | None => throw (Errorf "newEmptyProcess: vote options is nil")
  | Some options =>
      (when MaxCount options =? 0 return Errorf "newEmptyProcess: maxCount is zero";
       when (MaxQuestions <? MaxCount options) || (MaxOptions <? MaxValue options)
       return Errorf "maxCount or maxValue overflows hardcoded maximums";
       let eid := EntityId p in
       let currentBlockTime := ch_TimestampStartBlock ch in
       (if enableBadgerhold then
          queryWithRetries (tbl_insert bh_results set_bh_results ErrKeyExists (KBytes pid)
            (empty_results pid options (P_EnvelopeType p)));;
          catch (count_up CountStoreProcesses);;
          add_entity eid currentBlockTime
        else mret tt);;
       live ← wrapping "cannot check if process is live" (lift (isOpenProcess ch pid));
       let compResultsHeight := if (live : bool) then u32 (BlockCount p + StartBlock p + 1) else 0 in
       (if enableBadgerhold then
          queryWithRetries (tbl_insert bh_processes set_bh_processes ErrKeyExists (KBytes pid)
            (new_process pid p compResultsHeight currentBlockTime))
        else mret tt);;
       envelopePb ← lift (encodedPb (P_EnvelopeType p));
       modePb ← lift (encodedPb (Mode p));
       voteOptsPb ← lift (encodedPb (VoteOptions p));
       wrapping "sql create process"
         (CreateProcess (new_row pid p options compResultsHeight currentBlockTime envelopePb modePb voteOptsPb)))%go
  end.

(** On a process that is being canceled: no results but the envelope height and the weight. *)
Definition drop_results (r : IndexResults) : IndexResults :=
  mkResults (R_ProcessID r) [] (R_Weight r) (R_EnvelopeHeight r) (Some zero_EnvelopeType)
    (Some zero_ProcessVoteOptions) [] false 0.

Definition canceling (old : Z) (new : ProcessStatus) : bool :=
  negb (old =? ProcessStatus_number CANCELED) && bool_decide (new = CANCELED).

Definition updateProcess (ch : Chain) (pid : bytes) : D unit :=
  p ← wrapping "updateProcess: cannot fetch process" (lift (of_sum (ch_Process ch pid)));
  (if enableBadgerhold then
     d ← get;
     match t_find (KBytes pid) (bh_processes d) with
     | None => mret tt
     | Some old =>
         let update := with_state p old in
         update ← (if canceling (IP_Status old) (Status p) then
                     tbl_update bh_results set_bh_results (KBytes pid) (fun r => Ok (drop_results r));;
                     mret (with_cancelled update)
                   else mret update);
         queryWithRetries (tbl_put bh_processes set_bh_processes (KBytes pid)
           (with_IP_Status (ProcessStatus_number (Status p)) update))
     end
   else mret tt);;
  previousStatus ← GetProcessStatus pid;
  UpdateProcessFromState pid
    (mkStateColumns (u32 (BlockCount p + StartBlock p)) (CensusRoot p) (RollingCensusRoot p)
       (default "" (CensusURI p)) (join_with "," (EncryptionPrivateKeys p))
       (join_with "," (EncryptionPublicKeys p)) (default "" (Metadata p))
       (i64 (default 0 (RollingCensusSize p))) (ProcessStatus_number (Status p)));;
  if canceling (i32 previousStatus) (Status p) then
    SetProcessResultsHeight pid 0;;
    SetProcessResultsCancelled pid
  else mret tt.

Definition setResultsHeight (pid : bytes) (height : Z) : D unit :=
  if height =? 0 then panic "setting results height to 0?"
  else
    (if enableBadgerhold then
       queryWithRetries (tbl_update bh_processes set_bh_processes (KBytes pid) (fun p => Ok (with_Rheight height p)))
     else mret tt);;
    SetProcessResultsHeight pid height.
End indexer.
