(* ===== verification/Ethereum.v ===== *)
(** * Ethereum signatures

    Models the functions of [src/crypto/ethereum/ethereum.go] that do not hold a
    private key.  [PubKeyFromSignature] normalises octet 64 of the caller's slice in
    place; no caller uses that octet afterwards, so the model works on a copy. *)

From stdpp Require Import base option list strings pretty.
From Stdlib Require Import ZArith Ascii String Lia.
From S2P Require Import Prelude GoMonad GoLib Models External.

Definition SignatureLength : nat := 65.
Definition PubKeyLengthBytes : nat := 33.
Definition PubKeyLengthBytesUncompressed : nat := 65.

Definition newline : string := String (byte_of 10) "".
Definition SigningPrefix : string := String (byte_of 25) "Ethereum Signed Message:" +:+ newline.

(** [signature[64] > 1 && signature[64] -= 27], at the width of a byte. *)
Definition normalize_recid (v : Z) : Z := if 1 <? v then u8 (v - 27) else v.

Definition trimHex (s : string) : string :=
  match s with
  | String c1 (String c2 s') =>
      if bool_decide (c1 = "0"%char) && (bool_decide (c2 = "x"%char) || bool_decide (c2 = "X"%char))
      then s' else s
  | _ => s
  end.

Section ethereum.
Context `{EthCrypto}.

Definition HashRaw (data : bytes) : bytes := Keccak256 data.

Definition Hash (data : bytes) : bytes :=
  HashRaw (SigningPrefix +:+ pretty (Z.of_nat (String.length data)) +:+ data).

Definition BuildVocdoniTransaction (txData : bytes) (chainID : string) : bytes :=
  "Vocdoni signed transaction:" +:+ newline +:+ chainID +:+ newline +:+ hex_encode (HashRaw txData).

Definition BuildVocdoniMessage (message : bytes) : bytes :=
  "Vocdoni signed message:" +:+ newline +:+ hex_encode (HashRaw message).

Definition DecompressPubKey (pubComp : bytes) : outcome bytes :=
  if (PubKeyLengthBytes <? String.length pubComp)%nat then Ok pubComp
  else pub ← wrapping_out "decompress pubKey" (of_sum (DecompressPubkey pubComp));
       Ok (FromECDSAPub pub).

Definition CompressPubKey (pubHexDec : string) : outcome string :=
  let pubHexDec := trimHex pubHexDec in
  if (String.length pubHexDec <? PubKeyLengthBytesUncompressed * 2)%nat then Ok pubHexDec
  else match hex_decode pubHexDec with
       | None => Err (Errorf "hex")
       | Some pubBytes =>
           pub ← of_sum (UnmarshalPubkey pubBytes);
           Ok (hex_encode (CompressPubkey pub))
       end.

Definition AddrFromPublicKey (pub : bytes) : outcome Address :=
  pub ← (if (String.length pub <=? PubKeyLengthBytes)%nat then DecompressPubKey pub else Ok pub);
  pubkey ← of_sum (UnmarshalPubkey pub);
  Ok (PubkeyToAddress pubkey).

Definition PubKeyFromSignature (message signature : bytes) : outcome bytes :=
  if (String.length signature <? SignatureLength)%nat
     || (SignatureLength + 12 <? String.length signature)%nat
  then Err (Errorf "signature length not correct")
  else
    v ← deref (bget 64 signature);
    let v := normalize_recid v in
    if 1 <? v then Err (Errorf "bad recover ID byte")
    else
      pubKey ← wrapping_out "sigToPub" (of_sum (SigToPub (Hash message) (set_octet 64 v signature)));
      Ok (CompressPubkey pubKey).

Definition AddrFromSignature (message signature : bytes) : outcome Address :=
  pub ← PubKeyFromSignature message signature;
  AddrFromPublicKey pub.

(** The address of a recovered key is the address go-ethereum gives to the key. *)
Lemma AddrFromPublicKey_compressed `{!EthCryptoLaws} pk :
  AddrFromPublicKey (CompressPubkey pk) = Ok (PubkeyToAddress pk).
Proof.
  unfold AddrFromPublicKey, DecompressPubKey, PubKeyLengthBytes.
  rewrite CompressPubkey_length. cbn [Nat.leb Nat.ltb].
  rewrite DecompressPubkey_Compress. cbn. by rewrite UnmarshalPubkey_From.
Qed.

(** An address recovered from a signature is the address of the key that go-ethereum
    recovers from the normalised signature. *)
Lemma AddrFromSignature_sound `{!EthCryptoLaws} message signature addr :
  AddrFromSignature message signature = Ok addr ->
  exists v pk, bget 64 signature = Some v /\ normalize_recid v <= 1 /\
    SigToPub (Hash message) (set_octet 64 (normalize_recid v) signature) = inr pk /\
    addr = PubkeyToAddress pk.
Proof.
  unfold AddrFromSignature, PubKeyFromSignature. intros Hrun. go_inv.
  destruct (_ || _); [done|]. go_inv.
  match goal with H : deref _ = _ |- _ => apply deref_Ok in H; rename H into Hv end.
  destruct (Z.ltb_spec 1 (normalize_recid a0)); [done|]. go_inv.
  rewrite AddrFromPublicKey_compressed in Hrun. go_inv. eauto 10.
Qed.

Lemma AddrFromPublicKey_total pub : is_panic (AddrFromPublicKey pub) = false.
Proof.
  unfold AddrFromPublicKey, DecompressPubKey.
  destruct (_ <=? _)%nat; [destruct (_ <? _)%nat|]; simpl.
  - by destruct (UnmarshalPubkey pub).
  - destruct (DecompressPubkey pub) as [?|pk]; simpl; [done|]. by destruct (UnmarshalPubkey _).
  - by destruct (UnmarshalPubkey pub).
Qed.

(** A signature of any length is rejected or processed, never a panic. *)
Lemma AddrFromSignature_total message signature : is_panic (AddrFromSignature message signature) = false.
Proof.
  unfold AddrFromSignature, PubKeyFromSignature.
  destruct (_ || _) eqn:Hlen; [done|].
  apply orb_false_iff in Hlen as [Hlen _]. apply Nat.ltb_ge in Hlen.
  assert (exists v, bget 64 signature = Some v) as [v ->].
  { unfold bget. destruct (String.get 64 signature) eqn:E; [by eexists|].
    exfalso. revert Hlen E. unfold SignatureLength. clear. generalize 64%nat.
    induction signature as [|c b IH]; intros [|n]; simpl; try lia; [done|].
    intros Hlen. apply IH. lia. }
  simpl. destruct (1 <? normalize_recid v); [done|].
  destruct (SigToPub _ _); simpl; [done|]. apply AddrFromPublicKey_total.
Qed.
End ethereum.
