(* ===== verification/SignKeys.v ===== *)
(** * Keys that sign

    The type [SignKeys] of [src/crypto/ethereum/ethereum.go]: an ECDSA key of go-ethereum, which
    is the class [EthSign], and the addresses whose signatures it accepts.  What a key signs is
    recovered to the address of the key, with the functions of [Ethereum.v]. *)

From stdpp Require Import base option list strings gmap.
From Stdlib Require Import ZArith Ascii String Lia.
From S2P Require Import Prelude GoMonad GoLib Models External Ethereum.

Class EthSign `{EthCrypto} := {
  (** an [*ecdsa.PrivateKey] with its number *)
  ecdsa_priv : Type;
  GenerateKey : bytes -> error + ecdsa_priv;
  HexToECDSA : string -> error + ecdsa_priv;
  FromECDSA : ecdsa_priv -> bytes;
  (** [D.Bytes()] *)
  priv_D : ecdsa_priv -> bytes;
  priv_PublicKey : ecdsa_priv -> ecdsa_pub;
  (** hash and key *)
  ecdsa_Sign : bytes -> ecdsa_priv -> error + bytes
}.

(** A signature has 65 octets, the last one is 0 or 1, and the key is recovered from it; a hash
    of 32 octets can be signed.  A key is read from the hexadecimal of its octets. *)
Class EthSignLaws `{EthSign} := {
  Sign_total h k : String.length h = 32%nat -> exists sig, ecdsa_Sign h k = inr sig;
  Sign_format h k sig : ecdsa_Sign h k = inr sig ->
    String.length sig = 65%nat /\ exists v, bget 64 sig = Some v /\ 0 <= v <= 1;
  SigToPub_Sign h k sig : ecdsa_Sign h k = inr sig -> SigToPub h sig = inr (priv_PublicKey k);
  HexToECDSA_From k : HexToECDSA (hex_encode (FromECDSA k)) = inr k
}.

Section sign_keys.
Context `{EthSign}.

(** [Public] and [Private] are the zero structs until a key is set. *)
Record SignKeys := mkSignKeys {
  sk_Public : option ecdsa_pub;
  sk_Private : option ecdsa_priv;
  sk_Authorized : list Address
}.

Definition NewSignKeys : SignKeys := mkSignKeys None None [].

Definition set_key (key : ecdsa_priv) : GoM SignKeys unit :=
  modify (fun k => mkSignKeys (Some (priv_PublicKey key)) (Some key) (sk_Authorized k)).

(** [Generate], with the random octets. *)
Definition Generate (rand : bytes) : GoM SignKeys unit :=
  key ← lift (of_sum (GenerateKey rand)); set_key key.

Definition AddHexKey (privHex : string) : GoM SignKeys unit :=
  key ← lift (of_sum (HexToECDSA (trimHex privHex))); set_key key.

Definition AddAuthKey (address : Address) : GoM SignKeys unit :=
  modify (fun k => mkSignKeys (sk_Public k) (sk_Private k) (address :: sk_Authorized k)).

Definition PublicKey (k : SignKeys) : outcome bytes :=
  pub ← deref (sk_Public k); Ok (CompressPubkey pub).

Definition HexString (k : SignKeys) : outcome (string * string) :=
  pub ← PublicKey k;
  priv ← deref (sk_Private k);
  Ok (hex_encode pub, hex_encode (FromECDSA priv)).

Definition PubKeyFromPrivateKey (privHex : string) : outcome string :=
  let '(s, r) := AddHexKey privHex NewSignKeys in
  r;;
  pubpriv ← HexString s;
  Ok (fst pubpriv).

Definition SK_Address (k : SignKeys) : outcome Address :=
  pub ← deref (sk_Public k); Ok (PubkeyToAddress pub).

(** The three methods that sign, for the message the source builds. *)
Definition sign_message (k : SignKeys) (message : bytes) : outcome bytes :=
  match sk_Private k with
  | None => Err (Errorf "no private key available")
  | Some priv => of_sum (ecdsa_Sign (Hash message) priv)
  end.

Definition SignEthereum (k : SignKeys) (message : bytes) : outcome bytes := sign_message k message.
Definition SignVocdoniTx (k : SignKeys) (txData : bytes) (chainID : string) : outcome bytes :=
  sign_message k (BuildVocdoniTransaction txData chainID).
Definition SignVocdoniMsg (k : SignKeys) (message : bytes) : outcome bytes :=
  sign_message k (BuildVocdoniMessage message).

Definition VerifySender (k : SignKeys) (message signature : bytes) : outcome (bool * Address) :=
  recoveredAddr ← AddrFromSignature message signature;
  Ok (bool_decide (recoveredAddr ∈ sk_Authorized k), recoveredAddr).

(** ** Facts *)

(** The two fields come from one key. *)
Definition keyed (k : SignKeys) (key : ecdsa_priv) : Prop :=
  sk_Private k = Some key /\ sk_Public k = Some (priv_PublicKey key).

Context `{!EthCryptoLaws, !EthSignLaws}.

Lemma set_octet_same i (b : bytes) v : bget i b = Some v -> set_octet i v b = b.
Proof.
  revert b. induction i as [|i IH]; intros [|c b] Hb; try done.
  - injection Hb as <-. cbn. by rewrite byte_of_val.
  - cbn in Hb |- *. specialize (IH b Hb). unfold set_octet in IH. cbn in IH. by f_equal.
Qed.

(** The digits of a key have no prefix. *)
Lemma trimHex_hex b : trimHex (hex_encode b) = hex_encode b.
Proof.
  destruct b as [|c b]; [done|]. cbn [hex_encode trimHex].
  assert (Hm : 0 <= byte_val c mod 16 < 16) by (apply Z.mod_pos_bound; lia). apply hex_val_digit in Hm.
  rewrite (bool_decide_eq_false_2 (_ = "x"%char)), (bool_decide_eq_false_2 (_ = "X"%char)), andb_false_r; [done|..];
    intros E; by rewrite E in Hm.
Qed.

Lemma sign_total k key message : keyed k key -> exists sig, sign_message k message = Ok sig.
Proof.
  intros [Hk _]. unfold sign_message. rewrite Hk.
  destruct (Sign_total (Hash message) key) as [sig Hs]; [apply Keccak256_length|].
  exists sig. by rewrite Hs.
Qed.

Lemma sign_recovers k key message sig :
  keyed k key -> sign_message k message = Ok sig ->
  AddrFromSignature message sig = Ok (PubkeyToAddress (priv_PublicKey key)).
Proof.
  intros [Hk _] Hs. unfold sign_message in Hs. rewrite Hk in Hs. apply of_sum_Ok in Hs.
  destruct (Sign_format _ _ _ Hs) as (Hlen & v & Hv & Hr). pose proof (SigToPub_Sign _ _ _ Hs) as Hp.
  unfold AddrFromSignature, PubKeyFromSignature. rewrite Hlen. cbn [Nat.ltb Nat.leb orb SignatureLength].
  rewrite Hv. assert (Hlow : (1 <? v) = false) by (apply Z.ltb_ge; lia).
  assert (Hn : normalize_recid v = v) by (unfold normalize_recid; by rewrite Hlow).
  cbn [deref mbind outcome_bind]. rewrite Hn, Hlow, set_octet_same, Hp by done. cbn.
  apply AddrFromPublicKey_compressed.
Qed.

Lemma sign_verified k key j message sig :
  keyed k key -> sign_message k message = Ok sig ->
  VerifySender j message sig =
  Ok (bool_decide (PubkeyToAddress (priv_PublicKey key) ∈ sk_Authorized j), PubkeyToAddress (priv_PublicKey key)).
Proof. intros Hk Hs. unfold VerifySender. by rewrite (sign_recovers k key). Qed.
End sign_keys.
