(* ===== verification/Tree.v ===== *)
(** * Package tree: the wrapper over arbo

    Models [src/tree/tree.go].  Every writing method takes an optional [db.WriteTx];
    when it is nil the method opens a transaction of its own and commits it before
    returning.  [TreeState] keeps the committed tree and the contents seen through
    the open transaction. *)

From stdpp Require Import base option list strings gmap.
From S2P Require Import Prelude GoMonad External.

Section tree.
Context `{Arbo}.

Record TreeState := mkTreeState { t_db : arbo; t_tx : arbo }.

(** [opts.DB.WriteTx()] and [wTx.Commit()]. *)
Definition open_tx (s : TreeState) : TreeState := mkTreeState (t_db s) (t_db s).
Definition commit_tx (s : TreeState) : TreeState := mkTreeState (t_tx s) (t_tx s).
Definition set_tx (t : arbo) (s : TreeState) : TreeState := mkTreeState (t_db s) t.

(** A new transaction when the caller gave none. *)
Definition begin_tx (givenTx : bool) : GoM TreeState unit :=
  if givenTx then mret tt else modify open_tx.
Definition end_tx (givenTx : bool) : GoM TreeState unit :=
  if givenTx then mret tt else modify commit_tx.

Definition Tree_Get (givenTx : bool) (key : bytes) : GoM TreeState bytes :=
  s ← get; lift (of_sum (arbo_get (if givenTx then t_tx s else t_db s) key)).

Definition Tree_Add (givenTx : bool) (key value : bytes) : GoM TreeState unit :=
  begin_tx givenTx;;
  s ← get;
  t ← lift (of_sum (arbo_add (t_tx s) key value));
  modify (set_tx t);;
  end_tx givenTx.

(** The fallback to [Add] passes on the transaction, and returns its result. *)
Definition Tree_Set (givenTx : bool) (key value : bytes) : GoM TreeState unit :=
  begin_tx givenTx;;
  s ← get;
  match arbo_update (t_tx s) key value with
  | inl e => if errors_is e arbo_ErrKeyNotFound then Tree_Add true key value else throw e
  | inr t => modify (set_tx t);; end_tx givenTx
  end.

Definition Tree_SetRoot (givenTx : bool) (root : bytes) : GoM TreeState unit :=
  begin_tx givenTx;;
  s ← get;
  t ← lift (of_sum (arbo_set_root (t_tx s) root));
  modify (set_tx t);;
  end_tx givenTx.

(** Iteration over the leaves, threading the variables the callback captures. *)
Definition Tree_IterateLeaves {A} (t : arbo) (f : A -> bytes -> bytes -> A * bool) (a : A) : A :=
  arbo_iter t f a.

(** Package statedb always passes a transaction; its trees use these two. *)
Definition tree_add (t : arbo) (key value : bytes) : outcome arbo :=
  of_sum (arbo_add t key value).

Definition tree_set (t : arbo) (key value : bytes) : outcome arbo :=
  match arbo_update t key value with
  | inl e => if errors_is e arbo_ErrKeyNotFound then tree_add t key value else Err e
  | inr t' => Ok t'
  end.

(** ** Lemmas *)

Lemma Tree_Set_given d t key value :
  Tree_Set true key value (mkTreeState d t) =
  match tree_set t key value with
  | Ok t' => (mkTreeState d t', Ok tt)
  | Err e => (mkTreeState d t, Err e)
  | Panic w => (mkTreeState d t, Panic w)
  end.
Proof.
  unfold Tree_Set, Tree_Add, tree_set, tree_add, begin_tx, end_tx. go_run. cbn [t_tx t_db open_tx].
  destruct (arbo_update t key value) as [e|t1]; [|done].
  destruct (errors_is e arbo_ErrKeyNotFound); [|done].
  cbn [t_tx t_db]. by destruct (arbo_add t key value).
Qed.

Section laws.
Context `{!ArboLaws}.

(** [Set] adds or updates the leaf and touches no other one. *)
Lemma tree_set_leaves t key value t' :
  tree_set t key value = Ok t' ->
  leaves t' = <[key := value]> (leaves t) /\ levels t' = levels t.
Proof.
  unfold tree_set, tree_add. destruct (arbo_update t key value) as [e|t1] eqn:E.
  - destruct (errors_is e arbo_ErrKeyNotFound); [|done].
    intros Ha%of_sum_Ok. by apply add_ok in Ha as (_ & -> & ->).
  - intros [= ->]. by apply update_ok in E as (_ & -> & ->).
Qed.

Lemma tree_add_leaves t key value t' :
  tree_add t key value = Ok t' ->
  leaves t !! key = None /\ leaves t' = <[key := value]> (leaves t) /\ levels t' = levels t.
Proof. intros Ha%of_sum_Ok. by apply add_ok in Ha. Qed.

Lemma tree_add_duplicate t key value v : leaves t !! key = Some v -> exists e, tree_add t key value = Err e.
Proof.
  intros Hl. unfold tree_add. destruct (arbo_add t key value) as [e|t'] eqn:E; simpl; [eauto|].
  apply add_ok in E as [E _]. congruence.
Qed.

(** With a nil transaction and a key that is not in the tree, [Set] reports
    success (when arbo accepts the leaf) and the committed tree is unchanged: the
    leaf is added to a transaction that is discarded on return. *)
Lemma Set_nil_tx_loses_new_key t key value t' :
  leaves t !! key = None -> 8 * blen key <= levels t -> arbo_add t key value = inr t' ->
  exists s', Tree_Set false key value (mkTreeState t t) = (s', Ok tt) /\ t_db s' = t.
Proof.
  intros Hnone Hlen Hadd. exists (mkTreeState t t').
  unfold Tree_Set, Tree_Add, begin_tx, end_tx. go_run. cbn [t_tx t_db open_tx].
  rewrite (update_missing t key value) by done.
  rewrite errors_is_refl. simpl. by rewrite Hadd.
Qed.

(** [Add] with a nil transaction does commit. *)
Lemma Add_nil_tx_commits t key value t' :
  arbo_add t key value = inr t' ->
  exists s', Tree_Add false key value (mkTreeState t t) = (s', Ok tt) /\ t_db s' = t'.
Proof.
  intros Hadd. exists (mkTreeState t' t').
  unfold Tree_Add, begin_tx, end_tx. go_run. simpl. by rewrite Hadd.
Qed.
End laws.
End tree.
