(* ===== verification/CensusTree.v ===== *)
(** * Census trees

    Models [src/censustree/censustree.go]: the Merkle tree of a census with, in the same database,
    the number of its leaves, the sum of their weights and, when the census is indexed, the index
    of every key. *)

From stdpp Require Import base option list strings gmap.
From Stdlib Require Import ZArith Lia.
From S2P Require Import Prelude GoMonad GoLib External Tree.

(** ** arbo, beyond what the state uses *)

(** [arbo_open] is [NewTreeWithTx] on a database that has a tree.  [arbo_add_batch] returns the
    indexes of the keys it could not add, also with an error; [arbo_gen_proof] the value, the
    siblings and whether the key exists. *)
Class ArboCensus `{Arbo} := {
  arbo_open : HashFunction -> Z -> arbo -> arbo;
  arbo_add_batch : arbo -> list bytes -> list bytes -> (list nat * error) + (list nat * arbo);
  arbo_nleafs : arbo -> Z;
  arbo_gen_proof : arbo -> bytes -> error + (bytes * bytes * bool);
  arbo_dump : arbo -> error + bytes;
  arbo_import_dump : arbo -> bytes -> error + arbo;
  arbo_BigIntToBytes : Z -> Z -> bytes;
}.

(** The leaves of a batch, without those that are not valid. *)
Definition batch_leaf (ks vs : list bytes) (m : gmap bytes bytes) (i : nat) : gmap bytes bytes :=
  match ks !! i with Some k => <[k := default "" (vs !! i)]> m | None => m end.
Definition valid_indexes (n : nat) (invalid : list nat) : list nat :=
  filter (fun i => i ∉ invalid) (seq 0 n).

(** [hasher] is the hash function of a tree.  A tree is imported into an empty one only. *)
Class ArboCensusLaws `{ArboLaws, !EthCrypto, !ProofLibs, !ArboCensus} := {
  hasher : arbo -> HashFunction;
  hasher_new h l : hasher (arbo_new h l) = h;
  hasher_add t k v t' : arbo_add t k v = inr t' -> hasher t' = hasher t;
  hasher_batch t ks vs inv t' : arbo_add_batch t ks vs = inr (inv, t') -> hasher t' = hasher t;
  open_same t : arbo_open (hasher t) (levels t) t = t;
  open_ok h l t : leaves (arbo_open h l t) = leaves t /\ arbo_root (arbo_open h l t) = arbo_root t /\
    levels (arbo_open h l t) = l /\ hasher (arbo_open h l t) = h;
  batch_ok t ks vs inv t' : arbo_add_batch t ks vs = inr (inv, t') ->
    levels t' = levels t /\ NoDup inv /\ (forall i, i ∈ inv -> (i < List.length ks)%nat) /\
    leaves t' = fold_left (batch_leaf ks vs) (valid_indexes (List.length ks) inv) (leaves t) /\
    forall i k, ks !! i = Some k -> i ∉ inv ->
      leaves t !! k = None /\ forall j, ks !! j = Some k -> j ∉ inv -> j = i;
  nleafs_size t : arbo_nleafs t = Z.of_nat (size (leaves t));
  gen_proof_ok t k v s : arbo_gen_proof t k = inr (v, s, true) ->
    leaves t !! k = Some v /\ arbo_CheckProof (hasher t) k v (arbo_root t) s = inr true;
  gen_proof_found t k v : leaves t !! k = Some v -> exists s, arbo_gen_proof t k = inr (v, s, true);
  import_ok t b t' : arbo_import_dump t b = inr t' -> leaves t = ∅ /\ levels t' = levels t /\ hasher t' = hasher t;
  import_dump t b t0 : leaves t = ∅ -> levels t = levels t0 -> hasher t = hasher t0 -> arbo_dump t0 = inr b ->
    exists t', arbo_import_dump t b = inr t' /\ leaves t' = leaves t0 /\ arbo_root t' = arbo_root t0;
  import_leaves t b t0 t' : arbo_dump t0 = inr b -> arbo_import_dump t b = inr t' -> leaves t' = leaves t0;
  BytesToBigInt_empty : arbo_BytesToBigInt "" = 0;
  BytesToBigInt_range b : 0 <= arbo_BytesToBigInt b;
  BytesToBigInt_BigInt n z : 0 <= z < 256 ^ n -> arbo_BytesToBigInt (arbo_BigIntToBytes n z) = z;
}.

Section censustree.
Context `{Arbo, EthCrypto, !ProofLibs, !ArboCensus}.

(** ** The database of a census *)

Definition censusWeightKey : bytes := "censusWeight".
Definition censusIndexKey : bytes := "censusIndex".
Definition isIndexAsKeysCensus : bytes := "isIndexAsKey".
Definition censusKeysToIndexPrefix : bytes := "keyIndex".
Definition nLevels : Z := 256.

(** What is under the prefix of a census: the tree, once it is created, and the other entries.  A
    transaction has the tree and the entries it wrote. *)
Record CensusDB := mkCensusDB { cd_tree : option arbo; cd_kv : gmap bytes bytes }.
Record CensusTx := mkCensusTx { ctx_tree : option arbo; ctx_kv : gmap bytes bytes }.

Definition empty_census : CensusDB := mkCensusDB None ∅.
Definition set_cd_tree (a : arbo) (d : CensusDB) : CensusDB := mkCensusDB (Some a) (cd_kv d).

Definition tx_commit (x : CensusTx) (d : CensusDB) : CensusDB :=
  mkCensusDB (match ctx_tree x with Some a => Some a | None => cd_tree d end) (ctx_kv x ∪ cd_kv d).

(** [wTx := DB().WriteTx(); defer wTx.Discard(); ...; return wTx.Commit()]. *)
Definition in_tx {A} (m : CensusDB -> GoM CensusTx A) : GoM CensusDB A :=
  fun d => match m d (mkCensusTx None ∅) with
           | (x, Ok a) => (tx_commit x d, Ok a)
           | (_, Err e) => (d, Err e)
           | (_, Panic w) => (d, Panic w)
           end.

Definition kv_Get (d : CensusDB) (key : bytes) : GoM CensusTx (option bytes) :=
  gets (fun x => (ctx_kv x ∪ cd_kv d) !! key).
Definition kv_Set (key value : bytes) : GoM CensusTx unit :=
  modify (fun x => mkCensusTx (ctx_tree x) (<[key := value]> (ctx_kv x))).

(** ** The tree *)

Inductive Census_Type := Census_UNKNOWN | Census_ARBO_BLAKE2B | Census_ARBO_POSEIDON | Census_Other (n : Z).

#[export] Instance Census_Type_eq_dec : EqDecision Census_Type.
Proof. solve_decision. Defined.

(** The switch of [New]. *)
Definition type_hash (t : Census_Type) : option HashFunction :=
  match t with
  | Census_ARBO_BLAKE2B => Some HashBlake2b
  | Census_ARBO_POSEIDON => Some HashPoseidon
  | _ => None
  end.

(** A tree that [FromRoot] made has its snapshot and neither hash function nor length. *)
Record CTree := mkCTree {
  ct_snapshot : option arbo;
  ct_public : bool;
  censusType : Census_Type;
  hashFunc : option HashFunction;
  hashLen : Z;
  indexAsKeysCensus : bool;
}.

Definition set_public (p : bool) (t : CTree) : CTree :=
  mkCTree (ct_snapshot t) p (censusType t) (hashFunc t) (hashLen t) (indexAsKeysCensus t).
Definition CT_Publish : CTree -> CTree := set_public true.
Definition CT_Unpublish : CTree -> CTree := set_public false.
Definition CT_IsPublic : CTree -> bool := ct_public.

Definition CT_Hash (t : CTree) (data : bytes) : outcome bytes :=
  match hashFunc t with Some h => of_sum (arbo_hash h data) | None => Panic "nil function" end.
Definition CT_BigIntToBytes (t : CTree) (b : Z) : bytes := arbo_BigIntToBytes (hashLen t) b.

(** The tree that is read: the snapshot, or the one of the database with the hash function. *)
Definition open_tree (t : CTree) (a : option arbo) : outcome arbo :=
  match hashFunc t, a with
  | Some h, Some a => Ok (arbo_open h nLevels a)
  | _, _ => Err arbo_ErrKeyNotFound
  end.
Definition tree_of (t : CTree) (d : CensusDB) : outcome arbo :=
  match ct_snapshot t with Some a => Ok a | None => open_tree t (cd_tree d) end.

Definition CT_Root (t : CTree) (d : CensusDB) : outcome bytes := a ← tree_of t d; Ok (arbo_root a).
Definition CT_Get (t : CTree) (key : bytes) (d : CensusDB) : outcome bytes :=
  a ← tree_of t d; of_sum (arbo_get a key).
Definition CT_Size (t : CTree) (d : CensusDB) : outcome Z := a ← tree_of t d; Ok (u64 (arbo_nleafs a)).
Definition CT_Dump (t : CTree) (d : CensusDB) : outcome bytes := a ← tree_of t d; of_sum (arbo_dump a).

Definition FromRoot (t : CTree) (root : bytes) (d : CensusDB) : outcome CTree :=
  a ← tree_of t d;
  a' ← of_sum (arbo_snapshot a root);
  Ok (mkCTree (Some a') false (censusType t) None 0 false).

(** ** Counts *)

Definition GetCensusWeight (d : CensusDB) : Z :=
  match cd_kv d !! censusWeightKey with Some weight => arbo_BytesToBigInt weight | None => 0 end.
Definition GetCensusIndex (d : CensusDB) : Z :=
  match cd_kv d !! censusIndexKey with Some index => u32 (u64 (arbo_BytesToBigInt index)) | None => 0 end.

Definition updateCensusWeight (t : CTree) (d : CensusDB) (w : bytes) : GoM CensusTx unit :=
  weightBytes ← kv_Get d censusWeightKey;
  let weight := arbo_BytesToBigInt (default "" weightBytes) + arbo_BytesToBigInt w in
  kv_Set censusWeightKey (CT_BigIntToBytes t weight).

Definition updateCensusIndex (t : CTree) (d : CensusDB) (delta : Z) : GoM CensusTx Z :=
  indexBytes ← kv_Get d censusIndexKey;
  let currentIndex := match indexBytes with Some b => arbo_BytesToBigInt b | None => 0 end in
  kv_Set censusIndexKey (CT_BigIntToBytes t (currentIndex + delta));;
  mret (u64 currentIndex).

Definition keyToIndex (key : bytes) (d : CensusDB) : outcome bytes :=
  match cd_kv d !! (censusKeysToIndexPrefix +:+ key) with
  | Some index => Ok index
  | None => Err (Sentinel "ErrKeyNotFound")
  end.
Definition indexKey (key index : bytes) : GoM CensusTx unit := kv_Set (censusKeysToIndexPrefix +:+ key) index.

(** ** Proofs *)

(** [root] is nil to verify against the last root.  The arbo tree has the hash function of the type
    it was created with. *)
Definition CT_VerifyProof (t : CTree) (key value proof : bytes) (root : option bytes) (d : CensusDB) : outcome bool :=
  root ← match root with
         | Some r => Ok r
         | None => wrapping_out "cannot get tree root" (CT_Root t d)
         end;
  indexedKey ← (if indexAsKeysCensus t
                then match keyToIndex value d with Err _ => Err (Errorf "cannot get index key") | o => o end
                else Ok key);
  match type_hash (censusType t) with
  | Some h => of_sum (arbo_CheckProof h indexedKey value root proof)
  | None => Panic "nil function"
  end.

Definition tree_GenProof (a : arbo) (key : bytes) : outcome (bytes * bytes) :=
  r ← of_sum (arbo_gen_proof a key);
  let '(leafV, s, existence) := r in
  if existence : bool then Ok (leafV, s) else Err (Errorf "key does not exist").

Definition CT_GenProof (t : CTree) (key : bytes) (d : CensusDB) : outcome (bytes * bytes) :=
  a ← tree_of t d;
  if indexAsKeysCensus t then
    index ← match keyToIndex key d with Err _ => Err (Errorf "cannot get index key") | o => o end;
    tree_GenProof a index
  else tree_GenProof a key.

(** ** Additions *)

(** [AddWithTx] and [AddBatchWithTx], on the tree of the transaction. *)
Definition in_tree {A} (t : CTree) (d : CensusDB) (f : arbo -> outcome (arbo * A)) : GoM CensusTx A :=
  x ← get;
  a ← lift (match ct_snapshot t with
            | Some _ => Err (Errorf "snapshot is not editable")
            | None => open_tree t (match ctx_tree x with Some a => Some a | None => cd_tree d end)
            end);
  r ← lift (f a);
  modify (fun x => mkCensusTx (Some r.1) (ctx_kv x));;
  mret r.2.

Definition tree_Add (t : CTree) (d : CensusDB) (key value : bytes) : GoM CensusTx unit :=
  in_tree t d (fun a => a' ← of_sum (arbo_add a key value); Ok (a', tt)).
Definition tree_AddBatch (t : CTree) (d : CensusDB) (keys values : list bytes) : GoM CensusTx (list nat) :=
  in_tree t d (fun a => match arbo_add_batch a keys values with
                        | inl (_, e) => Err e
                        | inr (invalid, a') => Ok (a', invalid)
                        end).

(** A nil value is different from an empty one. *)
Definition CT_Add (t : CTree) (key : bytes) (value : option bytes) : GoM CensusDB unit :=
  in_tx (fun d =>
    index ← updateCensusIndex t d 1;
    (if indexAsKeysCensus t then
       match value with
       | Some _ => throw (Errorf "index as keys is enabled for this census tree, values are not allowed")
       | None =>
           let indexBytes := LittleEndian_PutUint64 index in
           wrapping "cannot add to census" (tree_Add t d indexBytes key);;
           indexKey key indexBytes
       end
     else wrapping "cannot add to census" (tree_Add t d key (default "" value)));;
    match value with
    | Some v => if indexAsKeysCensus t then mret tt else updateCensusWeight t d v
    | None => mret tt
    end).

(** [PutUint32] fills the first four of the eight octets. *)
Definition batch_index (index : Z) : bytes := LittleEndian_PutUint32 index +:+ zeros 4.

(** The loop that rewrites the keys of an indexed census. *)
Fixpoint index_keys (index : Z) (keys : list bytes) : GoM CensusTx (list bytes) :=
  match keys with
  | [] => mret []
  | k :: keys' =>
      indexKey k (batch_index index);;
      newKeys ← index_keys (u32 (index + 1)) keys';
      mret (batch_index index :: newKeys)
  end.

(** The weight of the keys, less the one of those that were not added. *)
Fixpoint sum_weights (values : list bytes) (ixs : list nat) : outcome Z :=
  match ixs with
  | [] => Ok 0
  | i :: ixs' => v ← slice_get values (Z.of_nat i); rest ← sum_weights values ixs'; Ok (arbo_BytesToBigInt v + rest)
  end.

Definition CT_AddBatch (t : CTree) (keys : list bytes) (values : option (list bytes)) : GoM CensusDB (list nat) :=
  in_tx (fun d =>
    new ← (if indexAsKeysCensus t then
             match values with
             | Some _ => throw (Errorf "index as keys is enabled for this census tree, values are not allowed")
             | None => newKeys ← index_keys (GetCensusIndex d) keys; mret (newKeys, keys)
             end
           else mret (keys, default [] values));
    invalids ← tree_AddBatch t d new.1 new.2;
    updateCensusIndex t d (u32 (Z.of_nat (List.length keys) - Z.of_nat (List.length invalids)));;
    (match values with
     | Some vs =>
         if indexAsKeysCensus t then mret tt
         else added ← lift (sum_weights vs (seq 0 (List.length keys)));
              removed ← lift (sum_weights vs invalids);
              updateCensusWeight t d (CT_BigIntToBytes t (added - removed))
     | None => mret tt
     end);;
    mret invalids).

(** ** Imports *)

(** [copy] into an array of eight octets. *)
Definition copy8 (b : bytes) : bytes := String.substring 0 8 b +:+ zeros (8 - String.length b).

Definition tree_leaves (t : CTree) (d : CensusDB) : outcome (list (bytes * bytes)) :=
  a ← tree_of t d; Ok (Tree_IterateLeaves a (fun l k v => (l ++ [(k, v)], false)) []).

(** The error of [IterateLeaves] is dropped. *)
Definition fillKeyToIndex (t : CTree) (d : CensusDB) : GoM CensusTx unit :=
  let indexKeys := match tree_leaves t d with Ok l => l | _ => [] end in
  mfor indexKeys (fun '(indexLE, key) => indexKey key (copy8 indexLE));;
  let currentIndex := GetCensusIndex d in
  updateCensusIndex t d (u32 (Z.of_nat (List.length indexKeys) - currentIndex));;
  mret tt.

(** The import is committed before the counts are. *)
Definition CT_ImportDump (t : CTree) (b : bytes) : GoM CensusDB unit :=
  d ← get;
  a ← lift (match ct_snapshot t with Some _ => Err (Errorf "snapshot is not editable") | None => tree_of t d end);
  a' ← lift (wrapping_out "could not import dump" (of_sum (arbo_import_dump a b)));
  modify (set_cd_tree a');;
  in_tx (fun d =>
    if indexAsKeysCensus t then replacing "could not generate key to index mapping" (fillKeyToIndex t d)
    else l ← lift (wrapping_out "could not add weight" (tree_leaves t d));
         let addedWeight := fold_left (fun w '(_, v) => w + arbo_BytesToBigInt v) l 0 in
         wrapping "could not update census weight" (updateCensusWeight t d (CT_BigIntToBytes t addedWeight))).

(** ** Opening *)

(** 0xFF when the census is indexed, 0x00 otherwise. *)
Definition mark_of (indexed : bool) : bytes := String (byte_of (if indexed then 255 else 0)) EmptyString.

(** [tree.New] creates the tree if the database has none. *)
Definition load_tree (h : HashFunction) (d : CensusDB) : arbo := default (arbo_new h nLevels) (cd_tree d).

(** The mark of an indexed census is committed when [New] returns, after the index. *)
Definition CT_New (type : Census_Type) (indexed : bool) : GoM CensusDB CTree :=
  match type_hash type with
  | None => throw (Errorf "unrecognized census type")
  | Some h =>
      modify (fun d => set_cd_tree (load_tree h d) d);;
      mark ← gets (fun d => cd_kv d !! isIndexAsKeysCensus);
      indexed ← (match mark with
                 | None => mret indexed
                 | Some b => if indexed && bool_decide (b = mark_of false)
                             then throw (Errorf "census tree was not created with indexAsKeys option enabled")
                             else mret (bool_decide (b = mark_of true))
                 end);
      let t := mkCTree None false type (Some h) (Z.of_nat (HashFunction_Len h)) indexed in
      in_tx (fun d => wrapping "cannot update census index" (updateCensusIndex t d 0));;
      (match mark with
       | None => in_tx (fun _ => kv_Set isIndexAsKeysCensus (mark_of indexed))
       | Some _ => mret tt
       end);;
      mret t
  end.
End censustree.
