(* ===== verification/BearerAPI.v ===== *)
(** * Bearer authorization

    Models [src/httprouter/bearerstdapi/bearerstdapi.go] and the part of
    [src/httprouter/httprouter.go] that calls it: which requests reach their handler, and what
    they cost.  Network input and output, and the log, are left out. *)

From stdpp Require Import base option list strings gmap.
From Stdlib Require Import ZArith Lia.
From S2P Require Import Prelude GoMonad GoLib Database.

Inductive AuthAccessType := AccessTypePublic | AccessTypeQuota | AccessTypePrivate | AccessTypeAdmin.

#[export] Instance AuthAccessType_eq_dec : EqDecision AuthAccessType.
Proof. solve_decision. Defined.

Definition bearerPrefix : string := "Bearer ".

Record BearerStandardAPI := mkBearerStandardAPI {
  basePath : string;
  authTokens : gmap string Z;
  adminToken : string;
}.

Definition set_authTokens (m : gmap string Z) (b : BearerStandardAPI) : BearerStandardAPI :=
  mkBearerStandardAPI (basePath b) m (adminToken b).

Definition starts_with_slash (s : string) : bool :=
  match s with String c _ => bool_decide (byte_val c = 47) | EmptyString => false end.

(** [strings.TrimSuffix(s, "/")]. *)
Fixpoint trim_slash (s : string) : string :=
  match s with
  | EmptyString => EmptyString
  | String c EmptyString => if bool_decide (byte_val c = 47) then EmptyString else s
  | String c s' => String c (trim_slash s')
  end.

Definition NewBearerStandardAPI (baseRoute : string) : outcome BearerStandardAPI :=
  _ ← check (negb (starts_with_slash baseRoute)) (Errorf "invalid base route, it must start with /");
  let baseRoute := if (1 <? String.length baseRoute)%nat then trim_slash baseRoute else baseRoute in
  Ok (mkBearerStandardAPI baseRoute ∅ "").

(** [true], or the error. *)
Definition AuthorizeRequest (authToken : string) (accessType : AuthAccessType) : GoM BearerStandardAPI bool :=
  b ← get;
  match accessType with
  | AccessTypeAdmin =>
      reject (negb (bool_decide (authToken = adminToken b))) (Errorf "admin token not valid");; mret true
  | AccessTypePrivate =>
      reject (bool_decide (authTokens b !! authToken = None)) (Errorf "auth token not valid");; mret true
  | AccessTypeQuota =>
      match authTokens b !! authToken with
      | Some remainingReqs =>
          if remainingReqs <? 1 then throw (Errorf "no more requests available")
          else modify (set_authTokens (<[authToken := remainingReqs - 1]> (authTokens b)));; mret true
      | None => throw (Errorf "no more requests available")
      end
  | AccessTypePublic => mret true
  end.

(** The token of a request, from its header. *)
Definition ProcessData (authorization : string) : string := TrimPrefix authorization bearerPrefix.

Definition SetAdminToken (bearerToken : string) : GoM BearerStandardAPI unit :=
  modify (fun b => mkBearerStandardAPI (basePath b) (authTokens b) bearerToken).
Definition AddAuthToken (bearerToken : string) (requests : Z) : GoM BearerStandardAPI unit :=
  modify (fun b => set_authTokens (<[bearerToken := requests]> (authTokens b)) b).
Definition DelAuthToken (bearerToken : string) : GoM BearerStandardAPI unit :=
  modify (fun b => set_authTokens (delete bearerToken (authTokens b)) b).
Definition GetAuthTokens (bearerToken : string) (b : BearerStandardAPI) : Z :=
  default 0 (authTokens b !! bearerToken).

(** The path and the access of a method. *)
Definition RegisterMethod (pattern accessType : string) (b : BearerStandardAPI) : outcome (string * AuthAccessType) :=
  _ ← (if bool_decide (pattern = "") then Panic "index out of range"
       else if starts_with_slash pattern then Ok tt else Panic "pattern must start with /");
  let path := path_Join [basePath b; pattern] in
  if bool_decide (accessType = "public") then Ok (path, AccessTypePublic)
  else if bool_decide (accessType = "quota") then Ok (path, AccessTypeQuota)
  else if bool_decide (accessType = "private") then Ok (path, AccessTypePrivate)
  else if bool_decide (accessType = "admin") then Ok (path, AccessTypeAdmin)
  else Err (Errorf "method access type not implemented").

(** What the router answers: the handler is called when the request is authorized. *)
Inductive routed := Unauthorized (e : error) | Handled (token : string).

Definition routerHandler (accessType : AuthAccessType) (authorization : string) : GoM BearerStandardAPI routed :=
  let token := ProcessData authorization in
  r ← catch (AuthorizeRequest token accessType);
  match r with
  | inr true => mret (Handled token)
  | inr false => mret (Unauthorized (Errorf ""))
  | inl e => mret (Unauthorized e)
  end.

(** ** Requests at the same time

    [Load] and [Store] of the map are atomic, but a request of the quota makes one of each: a
    request in flight has the credits it loaded. *)

Inductive quota_request := Waiting | Loaded (remainingReqs : Z) | Served | Refused.

Inductive quota_step (token : string) : BearerStandardAPI * quota_request -> BearerStandardAPI * quota_request -> Prop :=
| quota_load b n :
    authTokens b !! token = Some n -> 1 <= n -> quota_step token (b, Waiting) (b, Loaded n)
| quota_refuse b :
    (forall n, authTokens b !! token = Some n -> n < 1) -> quota_step token (b, Waiting) (b, Refused)
| quota_store b n :
    quota_step token (b, Loaded n) (set_authTokens (<[token := n - 1]> (authTokens b)) b, Served).

(** A step of one of the requests of a token. *)
Inductive quota_steps (token : string) :
    BearerStandardAPI * list quota_request -> BearerStandardAPI * list quota_request -> Prop :=
| quota_one b b' rs i r r' :
    rs !! i = Some r -> quota_step token (b, r) (b', r') -> quota_steps token (b, rs) (b', <[i := r']> rs).
