(* ===== verification/CensusRuns.v ===== *)
(** * Census trees: operations

    The additions, the imports and the proofs of [CensusTree.v] on a census that was opened: the
    counts of a census with weights, and the list of the keys of an indexed one. *)

From stdpp Require Import base option list strings gmap.
From Stdlib Require Import ZArith Lia.
From S2P Require Import Prelude GoMonad GoLib External Tree CensusTree.

(** ** Census trees: lemmas

    What the operations of [CensusTree.v] do to the leaves, the counts and the index of a census. *)

Section facts.
Context `{ArboLaws, EthCrypto, !ProofLibs, !ArboCensus, !ArboCensusLaws, !ArboIterBranch}.

(** ** Counts *)

(** The numbers of the entries of a census, and the sum of the weights of its leaves. *)
Definition raw_weight (m : gmap bytes bytes) : Z := arbo_BytesToBigInt (default "" (m !! censusWeightKey)).
Definition raw_index (m : gmap bytes bytes) : Z := arbo_BytesToBigInt (default "" (m !! censusIndexKey)).
Definition weight_sum (m : gmap bytes bytes) : Z := map_fold (fun _ v acc => arbo_BytesToBigInt v + acc) 0 m.

Lemma GetCensusWeight_raw d : GetCensusWeight d = raw_weight (cd_kv d).
Proof.
  unfold GetCensusWeight, raw_weight. destruct (cd_kv d !! censusWeightKey); [done|]. by rewrite BytesToBigInt_empty.
Qed.

Lemma GetCensusIndex_raw d : GetCensusIndex d = u32 (u64 (raw_index (cd_kv d))).
Proof.
  unfold GetCensusIndex, raw_index. destruct (cd_kv d !! censusIndexKey); [done|]. by rewrite BytesToBigInt_empty.
Qed.

Lemma weight_sum_insert m k v :
  m !! k = None -> weight_sum (<[k := v]> m) = arbo_BytesToBigInt v + weight_sum m.
Proof. intros Hk. unfold weight_sum. rewrite map_fold_insert_L; [done| |done]. intros. lia. Qed.

Lemma weight_sum_nonneg m : 0 <= weight_sum m.
Proof.
  induction m as [|k v m Hk IH] using map_ind; [done|].
  rewrite weight_sum_insert by done. pose proof (BytesToBigInt_range v). lia.
Qed.

(** A fold over the leaves in any order. *)
Lemma fold_leaves m (l : list (bytes * bytes)) z :
  l ≡ₚ map_to_list m -> fold_left (fun w '(_, v) => w + arbo_BytesToBigInt v) l z = z + weight_sum m.
Proof.
  intros Hl. assert (Hf : forall l z, fold_left (fun w '(_, v) => w + arbo_BytesToBigInt v) l z =
    z + foldr (fun (kv : bytes * bytes) acc => arbo_BytesToBigInt kv.2 + acc) 0 l).
  { clear. intros l. induction l as [|[k v] l IH]; intros z; cbn; [lia|]. rewrite IH. lia. }
  assert (Hp : forall l l' : list (bytes * bytes), l ≡ₚ l' ->
    foldr (fun kv acc => arbo_BytesToBigInt kv.2 + acc) 0 l = foldr (fun kv acc => arbo_BytesToBigInt kv.2 + acc) 0 l').
  { clear. induction 1; cbn; lia. }
  rewrite Hf, (Hp _ _ Hl). f_equal. unfold weight_sum. rewrite map_fold_foldr.
  generalize (map_to_list m). clear. intros l. induction l as [|[k v] l IH]; cbn; [done|]. by rewrite IH.
Qed.

(** ** Transactions *)

Lemma updateCensusIndex_run t d delta x :
  updateCensusIndex t d delta x =
  (mkCensusTx (ctx_tree x)
     (<[censusIndexKey := CT_BigIntToBytes t (raw_index (ctx_kv x ∪ cd_kv d) + delta)]> (ctx_kv x)),
   Ok (u64 (raw_index (ctx_kv x ∪ cd_kv d)))).
Proof.
  unfold updateCensusIndex, kv_Get, kv_Set, raw_index. go_run.
  destruct ((ctx_kv x ∪ cd_kv d) !! censusIndexKey); cbn; [done|]. by rewrite BytesToBigInt_empty.
Qed.

Lemma updateCensusWeight_run t d w x :
  updateCensusWeight t d w x =
  (mkCensusTx (ctx_tree x)
     (<[censusWeightKey := CT_BigIntToBytes t (raw_weight (ctx_kv x ∪ cd_kv d) + arbo_BytesToBigInt w)]> (ctx_kv x)), Ok tt).
Proof. reflexivity. Qed.

Lemma raw_weight_index m v : raw_weight (<[censusIndexKey := v]> m) = raw_weight m.
Proof. unfold raw_weight. by rewrite lookup_insert_ne. Qed.
Lemma raw_index_weight m v : raw_index (<[censusWeightKey := v]> m) = raw_index m.
Proof. unfold raw_index. by rewrite lookup_insert_ne. Qed.
Lemma raw_index_insert m v : raw_index (<[censusIndexKey := v]> m) = arbo_BytesToBigInt v.
Proof. unfold raw_index. by rewrite lookup_insert_eq. Qed.
Lemma raw_weight_insert m v : raw_weight (<[censusWeightKey := v]> m) = arbo_BytesToBigInt v.
Proof. unfold raw_weight. by rewrite lookup_insert_eq. Qed.

(** ** Batches *)

Definition leaf_weight (vs : list bytes) (i : nat) : Z := arbo_BytesToBigInt (default "" (vs !! i)).
Definition sum_leaf_weights (vs : list bytes) (l : list nat) : Z := foldr (fun i acc => leaf_weight vs i + acc) 0 l.

Lemma sum_leaf_weights_perm vs l l' : l ≡ₚ l' -> sum_leaf_weights vs l = sum_leaf_weights vs l'.
Proof. unfold sum_leaf_weights. induction 1; cbn; lia. Qed.

Lemma sum_leaf_weights_app vs l l' : sum_leaf_weights vs (l ++ l') = sum_leaf_weights vs l + sum_leaf_weights vs l'.
Proof. unfold sum_leaf_weights. induction l as [|i l IH]; cbn; lia. Qed.

Lemma sum_leaf_weights_nil l : sum_leaf_weights [] l = 0.
Proof.
  unfold sum_leaf_weights. induction l as [|i l IH]; cbn; [done|].
  unfold leaf_weight at 1. rewrite lookup_nil. cbn. rewrite BytesToBigInt_empty. lia.
Qed.

Lemma sum_weights_Ok vs l z : sum_weights vs l = Ok z -> z = sum_leaf_weights vs l.
Proof.
  revert z. induction l as [|i l IH]; intros z; cbn; [by intros [= <-]|].
  intros (v & Hv & (z' & Hz & [= <-])%outcome_bind_Ok)%outcome_bind_Ok. rewrite (IH _ Hz).
  unfold slice_get in Hv. rewrite (proj2 (Z.ltb_ge _ _)), Nat2Z.id in Hv by lia. unfold leaf_weight.
  destruct (vs !! i); by simplify_eq.
Qed.

Lemma valid_indexes_perm n inv :
  NoDup inv -> (forall i, i ∈ inv -> (i < n)%nat) -> valid_indexes n inv ++ inv ≡ₚ seq 0 n.
Proof.
  intros Hn Hlt. apply NoDup_Permutation.
  - apply NoDup_app. split_and!; [apply NoDup_filter, NoDup_seq| |done].
    intros i Hi%list_elem_of_filter. tauto.
  - apply NoDup_seq.
  - intros i. unfold valid_indexes. rewrite elem_of_app, list_elem_of_filter, elem_of_seq.
    destruct (decide (i ∈ inv)) as [Hi|Hi]; [pose proof (Hlt _ Hi)|]; naive_solver lia.
Qed.

Lemma batch_fold ks vs l m :
  NoDup l -> (forall i, i ∈ l -> exists k, ks !! i = Some k /\ m !! k = None) ->
  (forall i j, i ∈ l -> j ∈ l -> ks !! i = ks !! j -> i = j) ->
  let m' := fold_left (batch_leaf ks vs) l m in
  weight_sum m' = weight_sum m + sum_leaf_weights vs l /\ size m' = (size m + List.length l)%nat /\
  (forall i k, i ∈ l -> ks !! i = Some k -> m' !! k = Some (default "" (vs !! i))) /\
  (forall k, (forall i, i ∈ l -> ks !! i <> Some k) -> m' !! k = m !! k).
Proof.
  cbv zeta. revert m. induction l as [|i l IH]; intros m Hn Hfresh Hinj; cbn [fold_left].
  { split_and!; [cbn; lia|cbn; lia|by intros i k Hi%not_elem_of_nil|done]. }
  apply NoDup_cons in Hn as [Hi Hn]. destruct (Hfresh i) as (k & Hk & Hm); [set_solver|].
  assert (Hb : batch_leaf ks vs m i = <[k := default "" (vs !! i)]> m) by (unfold batch_leaf; by rewrite Hk).
  rewrite Hb. destruct (IH (<[k := default "" (vs !! i)]> m)) as (Hw & Hs & Hin & Hout); [done| | |].
  { intros j Hj. destruct (Hfresh j) as (k' & Hk' & Hm'); [set_solver|]. exists k'. split; [done|].
    rewrite lookup_insert_ne; [done|]. intros ->. apply Hi. rewrite (Hinj i j); [done|set_solver|set_solver|congruence]. }
  { intros j j' Hj Hj'. apply Hinj; set_solver. }
  split_and!.
  - rewrite Hw, weight_sum_insert by done.
    change (sum_leaf_weights vs (i :: l)) with (arbo_BytesToBigInt (default "" (vs !! i)) + sum_leaf_weights vs l). lia.
  - rewrite Hs, map_size_insert_None by done. cbn. lia.
  - intros j k' [->|Hj]%elem_of_cons Hk'; [|by apply Hin]. simplify_eq. rewrite Hout.
    + by rewrite lookup_insert_eq.
    + intros j' Hj' E. apply Hi. rewrite (Hinj i j'); [done|set_solver|set_solver|congruence].
  - intros k' Hno. rewrite Hout by (intros j Hj; apply Hno; set_solver).
    rewrite lookup_insert_ne; [done|]. intros ->. apply (Hno i); [set_solver|done].
Qed.

(** What a batch does to the leaves. *)
Lemma add_batch_leaves a ks vs inv a' :
  arbo_add_batch a ks vs = inr (inv, a') ->
  weight_sum (leaves a') = weight_sum (leaves a) + sum_leaf_weights vs (seq 0 (List.length ks)) - sum_leaf_weights vs inv /\
  size (leaves a') = (size (leaves a) + (List.length ks - List.length inv))%nat /\
  (List.length inv <= List.length ks)%nat /\
  (forall i k, ks !! i = Some k -> i ∉ inv -> leaves a !! k = None /\ leaves a' !! k = Some (default "" (vs !! i))) /\
  (forall k, (forall i, ks !! i = Some k -> i ∈ inv) -> leaves a' !! k = leaves a !! k).
Proof.
  intros (_ & Hn & Hlt & -> & Hfresh)%batch_ok. pose proof (valid_indexes_perm _ _ Hn Hlt) as Hp.
  assert (Hv : forall i, i ∈ valid_indexes (List.length ks) inv <-> i ∉ inv /\ (i < List.length ks)%nat).
  { intros i. unfold valid_indexes. rewrite list_elem_of_filter, elem_of_seq. intuition lia. }
  destruct (batch_fold ks vs (valid_indexes (List.length ks) inv) (leaves a)) as (Hw & Hs & Hin & Hout).
  - apply NoDup_filter, NoDup_seq.
  - intros i [Hi [k Hk]%lookup_lt_is_Some]%Hv. exists k. split; [done|]. by apply (Hfresh i).
  - intros i j [Hi [k Hk]%lookup_lt_is_Some]%Hv [Hj Hjl]%Hv E. symmetry. eapply (Hfresh i k); [done|done|congruence|done].
  - apply sum_leaf_weights_perm with (vs := vs) in Hp as Hsum. rewrite sum_leaf_weights_app in Hsum.
    apply Permutation_length in Hp. rewrite length_app, length_seq in Hp.
    split_and!; [lia|lia|lia| |].
    + intros i k Hk Hi. split; [by apply (Hfresh i)|]. apply Hin; [|done]. apply Hv. split; [done|].
      by apply lookup_lt_Some in Hk.
    + intros k Hk. apply Hout. intros i [Hi _]%Hv E. by apply Hi, Hk.
Qed.

Lemma sum_leaf_weights_nonneg vs l : 0 <= sum_leaf_weights vs l.
Proof.
  unfold sum_leaf_weights, leaf_weight. induction l as [|i l IH]; cbn; [done|].
  pose proof (BytesToBigInt_range (default "" (vs !! i))). lia.
Qed.

Lemma batch_weight_nonneg a ks vs inv a' :
  arbo_add_batch a ks vs = inr (inv, a') ->
  0 <= sum_leaf_weights vs (seq 0 (List.length ks)) - sum_leaf_weights vs inv.
Proof.
  intros (_ & Hn & Hlt & _)%batch_ok. pose proof (valid_indexes_perm _ _ Hn Hlt) as Hp.
  apply sum_leaf_weights_perm with (vs := vs) in Hp. rewrite sum_leaf_weights_app in Hp.
  pose proof (sum_leaf_weights_nonneg vs (valid_indexes (List.length ks) inv)). lia.
Qed.
End facts.

Section runs.
Context `{ArboLaws, EthCrypto, !ProofLibs, !ArboCensus, !ArboCensusLaws, !ArboIterBranch}.

(** ** Censuses that [New] has opened *)

Record opened (t : CTree) (d : CensusDB) (a : arbo) : Prop := {
  op_snapshot : ct_snapshot t = None;
  op_len : hashLen t = 32;
  op_hash : hashFunc t = Some (hasher a);
  op_type : type_hash (censusType t) = Some (hasher a);
  op_tree : tree_of t d = Ok a;
  op_levels : levels a = nLevels;
}.

(** The same tree on a database with other counts, and after a change of the leaves. *)
Lemma opened_change t d a a' kv :
  opened t d a -> levels a' = levels a -> hasher a' = hasher a -> opened t (mkCensusDB (Some a') kv) a'.
Proof.
  intros [Os On Oh Oy Ot Ol] Hl Hh. split; [done|done|by rewrite Hh|by rewrite Hh| |by rewrite Hl].
  unfold tree_of, open_tree. cbn [cd_tree]. rewrite Os, Oh, <- Hh, <- Ol, <- Hl. by rewrite open_same.
Qed.

Lemma decode_bigint t d a z : opened t d a -> 0 <= z < 256 ^ 32 -> arbo_BytesToBigInt (CT_BigIntToBytes t z) = z.
Proof. intros O Hz. unfold CT_BigIntToBytes. rewrite (op_len _ _ _ O). by apply BytesToBigInt_BigInt. Qed.

Lemma in_tree_run {A} t d a f x (r : outcome (arbo * A)) :
  opened t d a -> ctx_tree x = None -> f a = r ->
  in_tree t d f x = match r with
                    | Ok (a', v) => (mkCensusTx (Some a') (ctx_kv x), Ok v)
                    | Err e => (x, Err e)
                    | Panic w => (x, Panic w)
                    end.
Proof.
  intros O Hx <-. pose proof (op_tree _ _ _ O) as Ht. unfold tree_of in Ht. unfold in_tree. go_run.
  rewrite (op_snapshot _ _ _ O) in *. rewrite Hx, Ht. by destruct (f a) as [[a' v]|e|w].
Qed.

Lemma tree_Add_run t d a key v x :
  opened t d a -> ctx_tree x = None ->
  tree_Add t d key v x = match arbo_add a key v with
                         | inr a' => (mkCensusTx (Some a') (ctx_kv x), Ok tt)
                         | inl e => (x, Err e)
                         end.
Proof. intros O Hx. unfold tree_Add. erewrite in_tree_run by done. by destruct (arbo_add a key v). Qed.

Lemma tree_AddBatch_run t d a ks vs x :
  opened t d a -> ctx_tree x = None ->
  tree_AddBatch t d ks vs x = match arbo_add_batch a ks vs with
                              | inr (inv, a') => (mkCensusTx (Some a') (ctx_kv x), Ok inv)
                              | inl (_, e) => (x, Err e)
                              end.
Proof.
  intros O Hx. unfold tree_AddBatch. erewrite in_tree_run by done. by destruct (arbo_add_batch a ks vs) as [[]|[]].
Qed.

(** An operation that fails changes nothing. *)
Lemma in_tx_fails {A} (m : CensusDB -> GoM CensusTx A) d d' o : in_tx m d = (d', o) -> is_ok o = false -> d' = d.
Proof. unfold in_tx. destruct (m d _) as [x [a|e|w]]; intros [= <- <-]; done. Qed.

(** The counts of a census with weights. *)
Definition weight_ok (a : arbo) (d : CensusDB) : Prop :=
  weight_sum (leaves a) < 256 ^ 32 -> raw_weight (cd_kv d) = weight_sum (leaves a).
Definition index_ok (a : arbo) (d : CensusDB) : Prop :=
  Z.of_nat (size (leaves a)) < 2 ^ 32 -> raw_index (cd_kv d) = Z.of_nat (size (leaves a)).

(** The entries after an update of the counts. *)
Definition bump (t : CTree) (n : Z) (kv : gmap bytes bytes) : gmap bytes bytes :=
  <[censusIndexKey := CT_BigIntToBytes t (raw_index kv + n)]> kv.
Definition weigh (t : CTree) (w : Z) (kv : gmap bytes bytes) : gmap bytes bytes :=
  <[censusWeightKey := CT_BigIntToBytes t (raw_weight kv + w)]> kv.

Lemma updateCensusIndex_bump t d delta x x' r :
  updateCensusIndex t d delta x = (x', r) ->
  r = Ok (u64 (raw_index (ctx_kv x ∪ cd_kv d))) /\ ctx_tree x' = ctx_tree x /\
  ctx_kv x' ∪ cd_kv d = bump t delta (ctx_kv x ∪ cd_kv d).
Proof. rewrite updateCensusIndex_run. intros [= <- <-]. unfold bump. by rewrite insert_union_l. Qed.

Lemma updateCensusWeight_weigh t d w x x' r :
  updateCensusWeight t d w x = (x', r) ->
  r = Ok tt /\ ctx_tree x' = ctx_tree x /\
  ctx_kv x' ∪ cd_kv d = weigh t (arbo_BytesToBigInt w) (ctx_kv x ∪ cd_kv d).
Proof. rewrite updateCensusWeight_run. intros [= <- <-]. unfold weigh. by rewrite insert_union_l. Qed.

Lemma raw_index_bump t d a n kv :
  opened t d a -> 0 <= raw_index kv + n < 256 ^ 32 -> raw_index (bump t n kv) = raw_index kv + n.
Proof. intros O Hb. unfold bump. rewrite raw_index_insert. by apply (decode_bigint _ _ _ _ O). Qed.

Lemma raw_weight_weigh t d a w kv :
  opened t d a -> 0 <= raw_weight kv + w < 256 ^ 32 -> raw_weight (weigh t w kv) = raw_weight kv + w.
Proof. intros O Hb. unfold weigh. rewrite raw_weight_insert. by apply (decode_bigint _ _ _ _ O). Qed.

Lemma raw_weight_bump t n kv : raw_weight (bump t n kv) = raw_weight kv.
Proof. apply raw_weight_index. Qed.
Lemma raw_index_weigh t w kv : raw_index (weigh t w kv) = raw_index kv.
Proof. apply raw_index_weight. Qed.

Lemma in_tx_Ok {A} (m : CensusDB -> GoM CensusTx A) d d' r :
  in_tx m d = (d', Ok r) -> exists x, m d (mkCensusTx None ∅) = (x, Ok r) /\ d' = tx_commit x d.
Proof. unfold in_tx. destruct (m d _) as [x [a|e|w]]; intros [= <- <-]. eauto. Qed.

Lemma CT_Add_weighted_run t key value d d' a :
  opened t d a -> indexAsKeysCensus t = false -> CT_Add t key value d = (d', Ok tt) ->
  exists a', arbo_add a key (default "" value) = inr a' /\ cd_tree d' = Some a' /\
    cd_kv d' = match value with
               | Some v => weigh t (arbo_BytesToBigInt v) (bump t 1 (cd_kv d))
               | None => bump t 1 (cd_kv d)
               end.
Proof.
  intros O Hi Hr. unfold CT_Add in Hr. apply in_tx_Ok in Hr as (x & Hr & ->). apply bind_Ok in Hr as (i & x1 & Hx1 & Hr).
  apply updateCensusIndex_bump in Hx1 as (_ & Ht1 & Hk1). cbn [ctx_tree ctx_kv] in *. rewrite (left_id_L ∅ (∪)) in Hk1.
  rewrite Hi in Hr. apply bind_Ok in Hr as ([] & x2 & Ha%wrapping_Ok & Hr). rewrite (tree_Add_run t d a) in Ha by done.
  destruct (arbo_add a key (default "" value)) as [e|a']; [done|]. injection Ha as <-. exists a'. split; [done|].
  destruct value as [v|].
  - apply updateCensusWeight_weigh in Hr as (_ & Ht2 & Hk2). unfold tx_commit. rewrite Ht2. cbn in *. by rewrite Hk2, Hk1.
  - apply ret_Ok in Hr as [-> _]. by split.
Qed.

(** The counts after leaves were added. *)
Lemma counts_grow t d d' a a' w n :
  opened t d a -> 0 <= n ->
  weight_sum (leaves a') = weight_sum (leaves a) + w -> 0 <= w ->
  Z.of_nat (size (leaves a')) = Z.of_nat (size (leaves a)) + n ->
  (w < 256 ^ 32 -> raw_weight (cd_kv d') = raw_weight (weigh t w (cd_kv d))) \/ w = 0 /\ raw_weight (cd_kv d') = raw_weight (cd_kv d) ->
  raw_index (cd_kv d') = raw_index (bump t (u32 n) (cd_kv d)) ->
  (weight_ok a d -> weight_ok a' d') /\ (index_ok a d -> index_ok a' d').
Proof.
  intros O Hn Hw Hw0 Hs Hd Hi. split; intros Hok Hb; [rewrite Hw in *|rewrite Hs in *].
  - pose proof (weight_sum_nonneg (leaves a)).
    destruct Hd as [Hd | [-> ->]]; [rewrite Hd by lia|rewrite Hok by lia; lia].
    rewrite (raw_weight_weigh t d a) by (try done; rewrite Hok by lia; lia). rewrite Hok by lia. lia.
  - rewrite Hi, (u32_id n) by (unfold is_u32; lia).
    rewrite (raw_index_bump t d a) by (try done; rewrite Hok by lia; lia). rewrite Hok by lia. lia.
Qed.

Lemma CT_Add_weighted t key value d d' a :
  opened t d a -> indexAsKeysCensus t = false -> CT_Add t key value d = (d', Ok tt) ->
  exists a', arbo_add a key (default "" value) = inr a' /\ opened t d' a' /\
    (weight_ok a d -> weight_ok a' d') /\ (index_ok a d -> index_ok a' d').
Proof.
  intros O Hi Hr. destruct (CT_Add_weighted_run _ _ _ _ _ _ O Hi Hr) as (a' & Ha & Ht & Hkv). exists a'.
  pose proof (hasher_add _ _ _ _ Ha) as Hh. destruct (add_ok _ _ _ _ Ha) as (Hnew & Hl & Hlev).
  split; [done|]. split; [destruct d' as [tr kv']; cbn in Ht; subst tr; by eapply opened_change|].
  pose proof (BytesToBigInt_range (default "" value)).
  apply (counts_grow t d d' a a' (arbo_BytesToBigInt (default "" value)) 1); [done|lia| |done| | |].
  - rewrite Hl, weight_sum_insert by done. lia.
  - rewrite Hl, map_size_insert_None by done. lia.
  - rewrite Hkv. destruct value as [v|]; [left|right].
    + intros _. unfold weigh. by rewrite !raw_weight_insert, raw_weight_bump.
    + split; [apply BytesToBigInt_empty|apply raw_weight_bump].
  - rewrite Hkv. destruct value as [v|]; [by rewrite raw_index_weigh|done].
Qed.

Lemma CT_AddBatch_weighted t keys values d d' inv a :
  opened t d a -> indexAsKeysCensus t = false -> Z.of_nat (List.length keys) < 2 ^ 32 ->
  CT_AddBatch t keys values d = (d', Ok inv) ->
  exists a', arbo_add_batch a keys (default [] values) = inr (inv, a') /\ opened t d' a' /\
    (weight_ok a d -> weight_ok a' d') /\ (index_ok a d -> index_ok a' d').
Proof.
  intros O Hi Hlen Hr. unfold CT_AddBatch in Hr. apply in_tx_Ok in Hr as (x & Hr & ->). rewrite Hi in Hr.
  apply bind_Ok in Hr as (new & x0 & Hx0 & Hr). apply ret_Ok in Hx0 as [-> <-]. cbn [fst snd] in Hr.
  apply bind_Ok in Hr as (inv' & x1 & Ha & Hr). rewrite (tree_AddBatch_run t d a) in Ha by done.
  destruct (arbo_add_batch a keys (default [] values)) as [[? e]|[inv1 a']] eqn:Hb; [done|]. injection Ha as <- <-.
  apply bind_Ok in Hr as (i & x2 & Hx2 & Hr). apply updateCensusIndex_bump in Hx2 as (_ & Ht2 & Hk2).
  cbn [ctx_tree ctx_kv] in *. rewrite (left_id_L ∅ (∪)) in Hk2.
  apply bind_Ok in Hr as ([] & x3 & Hx3 & Hr). apply ret_Ok in Hr as [-> ->]. exists a'. split; [done|].
  pose proof (hasher_batch _ _ _ _ _ Hb) as Hh. destruct (batch_ok _ _ _ _ _ Hb) as (Hlev & _).
  destruct (add_batch_leaves _ _ _ _ _ Hb) as (Hw & Hs & Hle & _).
  assert (Hkv : ctx_tree x3 = Some a' /\ (ctx_kv x3 ∪ cd_kv d) =
    match values with
    | Some vs => weigh t (arbo_BytesToBigInt (CT_BigIntToBytes t (sum_leaf_weights vs (seq 0 (List.length keys)) -
                                                 sum_leaf_weights vs inv)))
    | None => id
    end (bump t (u32 (Z.of_nat (List.length keys) - Z.of_nat (List.length inv))) (cd_kv d))).
  { destruct values as [vs|]; [|apply ret_Ok in Hx3 as [-> _]; by rewrite Hk2].
    apply bind_Ok in Hx3 as (z1 & ? & Hz1 & Hx3). apply lift_Ok in Hz1 as [-> ->%sum_weights_Ok].
    apply bind_Ok in Hx3 as (z2 & ? & Hz2 & Hx3). apply lift_Ok in Hz2 as [-> ->%sum_weights_Ok].
    apply updateCensusWeight_weigh in Hx3 as (_ & Ht3 & Hk3). by rewrite Ht3, Hk3, Hk2. }
  destruct Hkv as [Ht Hkv]. unfold tx_commit. rewrite Ht. split; [by eapply opened_change|].
  set (w := sum_leaf_weights (default [] values) (seq 0 (List.length keys)) - sum_leaf_weights (default [] values) inv) in *.
  assert (Hw0 : 0 <= w) by (by apply (batch_weight_nonneg _ _ _ _ _ Hb)).
  apply (counts_grow t d _ a a' w (Z.of_nat (List.length keys) - Z.of_nat (List.length inv)));
    [done|lia|lia|done|lia| |]; cbn [cd_kv]; rewrite Hkv; destruct values as [vs|].
  - left. intros Hb32. rewrite (decode_bigint _ _ _ _ O) by (change (0 <= w < 256 ^ 32); lia). unfold weigh.
    by rewrite !raw_weight_insert, raw_weight_bump.
  - right. split; [|apply raw_weight_bump]. subst w. cbn. by rewrite !sum_leaf_weights_nil.
  - by rewrite raw_index_weigh.
  - done.
Qed.

(** ** Imports *)

Lemma tree_leaves_run t d a :
  opened t d a -> exists order, tree_leaves t d = Ok order /\ order ≡ₚ map_to_list (leaves a).
Proof.
  intros O. unfold tree_leaves. rewrite (op_tree _ _ _ O). cbn.
  destruct (iter_branch _ a (fun l k v => (l ++ [(k, v)], false)) []) as (order & Hp & Hi).
  exists order. split; [|done]. f_equal. unfold Tree_IterateLeaves. rewrite Hi. clear.
  assert (Hf : forall l0, fold_left (fun acc kv => (acc ++ [(kv.1, kv.2)], false).1) order l0 = l0 ++ order).
  { induction order as [|[k v] order IH]; intros l0; cbn; [by rewrite app_nil_r|]. by rewrite IH, <- app_assoc. }
  apply Hf.
Qed.

Lemma CT_ImportDump_weighted t b d a :
  opened t d a -> indexAsKeysCensus t = false ->
  match arbo_import_dump a b with
  | inl e => CT_ImportDump t b d = (d, Err (Wrap "could not import dump" e))
  | inr a' => exists d', CT_ImportDump t b d = (d', Ok tt) /\ opened t d' a' /\ (weight_ok a d -> weight_ok a' d') /\
      raw_index (cd_kv d') = raw_index (cd_kv d)
  end.
Proof.
  intros O Hi. unfold CT_ImportDump. rewrite (bind_run_Ok get _ d d d eq_refl). cbv beta.
  rewrite (op_snapshot _ _ _ O), (op_tree _ _ _ O). rewrite (bind_run_Ok (lift (Ok a)) _ d d a eq_refl). cbv beta.
  destruct (arbo_import_dump a b) as [e|a'] eqn:Hb; [done|].
  rewrite (bind_run_Ok (lift (Ok a')) _ d d a' eq_refl). cbv beta.
  rewrite (bind_run_Ok (modify (set_cd_tree a')) _ d (set_cd_tree a' d) tt eq_refl). cbv beta.
  destruct (import_ok _ _ _ Hb) as (Hempty & Hlev & Hh).
  assert (O' : opened t (set_cd_tree a' d) a') by (by eapply opened_change).
  destruct (tree_leaves_run _ _ _ O') as (order & Hl & Hp). unfold in_tx. rewrite Hi, Hl.
  rewrite (bind_run_Ok (lift (Ok order)) _ _ _ order eq_refl). cbv beta zeta.
  rewrite (fold_leaves _ _ 0 Hp), Z.add_0_l. unfold wrapping. rewrite updateCensusWeight_run. cbn [wrapping_out ctx_kv].
  rewrite (left_id_L ∅ (∪)). eexists. split; [reflexivity|]. unfold tx_commit. cbn [ctx_tree ctx_kv cd_tree set_cd_tree cd_kv].
  rewrite insert_empty, <- insert_union_singleton_l. split_and!; [by eapply opened_change| |by rewrite raw_index_weight].
  intros Hok Hb32. unfold weight_ok in Hok. rewrite Hempty in Hok. cbn [cd_kv]. rewrite raw_weight_insert, Hok by done.
  pose proof (weight_sum_nonneg (leaves a')). change (weight_sum ∅) with 0. rewrite !Z.add_0_l.
  by rewrite !(decode_bigint _ _ _ _ O) by (rewrite ?(decode_bigint _ _ _ _ O) by lia; lia).
Qed.

(** ** Indexed censuses *)

(** The key of the leaf with an index. *)
Definition slot (i : nat) : bytes := le_bytes 8 (Z.of_nat i).

Lemma slot_inj i j : Z.of_nat i < 2 ^ 32 -> Z.of_nat j < 2 ^ 32 -> slot i = slot j -> i = j.
Proof. intros Hi Hj E. apply le_bytes_inj in E; [lia|lia|lia]. Qed.

Lemma slot_length i : String.length (slot i) = 8%nat.
Proof. apply length_le_bytes. Qed.

Lemma le_bytes_app n m z : 0 <= z < 256 ^ Z.of_nat n -> le_bytes n z +:+ zeros m = le_bytes (n + m) z.
Proof.
  revert z. induction n as [|n IH]; intros z Hz.
  - assert (z = 0) as -> by lia. clear Hz. change (zeros m = le_bytes m 0).
    induction m as [|m IH]; [done|]. cbn [zeros le_bytes]. change (0 / 256) with 0. by rewrite <- IH.
  - cbn [le_bytes Nat.add zeros]. cbn. f_equal. apply IH. rewrite Nat2Z.inj_succ, Z.pow_succ_r in Hz by lia.
    split; [apply Z.div_pos; lia|]. apply Z.div_lt_upper_bound; lia.
Qed.

Lemma batch_index_slot i : Z.of_nat i < 2 ^ 32 -> batch_index (Z.of_nat i) = slot i.
Proof. intros Hi. unfold batch_index, LittleEndian_PutUint32. apply (le_bytes_app 4 4). lia. Qed.

Definition key_entry (k : bytes) : bytes := censusKeysToIndexPrefix +:+ k.

Lemma key_entry_inj k k' : key_entry k = key_entry k' -> k = k'.
Proof. unfold key_entry, censusKeysToIndexPrefix. cbn. by intros [=]. Qed.

Lemma raw_index_key m k v : raw_index (<[key_entry k := v]> m) = raw_index m.
Proof. unfold raw_index. by rewrite lookup_insert_ne. Qed.

Lemma bump_lookup t n kv key : key <> censusIndexKey -> bump t n kv !! key = kv !! key.
Proof. intros Hk. unfold bump. by rewrite lookup_insert_ne. Qed.

(** An indexed census as the list of its keys: the leaf of each index has its key, and each key has
    the index of one of its places. *)
Record numbered (ks : list bytes) (a : arbo) (kv : gmap bytes bytes) : Prop := {
  nb_index : raw_index kv = Z.of_nat (List.length ks);
  nb_size : size (leaves a) = List.length ks;
  nb_leaf : forall i k, ks !! i = Some k -> leaves a !! slot i = Some k;
  nb_only : forall key k, leaves a !! key = Some k -> exists i, ks !! i = Some k /\ key = slot i;
  nb_entry : forall k, k ∈ ks -> exists i, ks !! i = Some k /\ kv !! key_entry k = Some (slot i);
}.

Lemma CT_Add_indexed t key d d' a ks :
  opened t d a -> indexAsKeysCensus t = true -> numbered ks a (cd_kv d) ->
  Z.of_nat (List.length ks) + 1 < 2 ^ 32 -> CT_Add t key None d = (d', Ok tt) ->
  exists a', arbo_add a (slot (List.length ks)) key = inr a' /\ opened t d' a' /\ numbered (ks ++ [key]) a' (cd_kv d').
Proof.
  intros O Hi [Nx Ns Nl No Ne] Hb Hr. unfold CT_Add in Hr. apply in_tx_Ok in Hr as (x & Hr & ->).
  apply bind_Ok in Hr as (i & x1 & Hx1 & Hr). apply updateCensusIndex_bump in Hx1 as ([= ->] & Ht1 & Hk1).
  cbn [ctx_tree ctx_kv] in *. rewrite (left_id_L ∅ (∪)) in Hr, Hk1. rewrite Hi in Hr.
  rewrite Nx, (u64_id (Z.of_nat _)) in Hr by (unfold is_u64; lia).
  change (LittleEndian_PutUint64 (Z.of_nat (List.length ks))) with (slot (List.length ks)) in Hr.
  apply bind_Ok in Hr as ([] & x3 & Hr & Hret). apply ret_Ok in Hret as [-> _].
  apply bind_Ok in Hr as ([] & x2 & Ha%wrapping_Ok & Hr). rewrite (tree_Add_run t d a) in Ha by done.
  destruct (arbo_add a (slot (List.length ks)) key) as [e|a'] eqn:Hadd; [done|]. injection Ha as <-.
  apply modify_Ok in Hr as ->. exists a'. split; [done|]. unfold tx_commit. cbn [ctx_tree ctx_kv].
  pose proof (hasher_add _ _ _ _ Hadd) as Hh. destruct (add_ok _ _ _ _ Hadd) as (Hnew & Hl & Hlev).
  split; [by eapply opened_change|]. cbn [cd_kv]. rewrite <- insert_union_l, Hk1.
  change (censusKeysToIndexPrefix +:+ key) with (key_entry key). split.
  - rewrite raw_index_key, (raw_index_bump t d a), length_app by (done || lia). cbn. lia.
  - rewrite Hl, map_size_insert_None, Ns, length_app by done. cbn. lia.
  - intros i k. rewrite Hl, lookup_app_Some. intros [Hik|[Hle Hik]].
    + rewrite lookup_insert_ne; [by apply Nl|]. intros E. apply slot_inj in E; apply lookup_lt_Some in Hik; lia.
    + apply list_lookup_singleton_Some in Hik as [Hz ->]. replace i with (List.length ks) by lia. by rewrite lookup_insert_eq.
  - intros key' k. rewrite Hl, lookup_insert_Some. intros [[<- <-]|[_ (i & Hik & ->)%No]].
    + exists (List.length ks). by rewrite lookup_app_r, Nat.sub_diag by lia.
    + exists i. by rewrite lookup_app_l by (by apply lookup_lt_Some in Hik).
  - intros k Hk. destruct (decide (k = key)) as [->|Hne].
    + exists (List.length ks). by rewrite lookup_app_r, Nat.sub_diag, lookup_insert_eq by lia.
    + apply elem_of_app in Hk as [(i & Hik & He)%Ne|Hk%list_elem_of_singleton]; [|done]. exists i.
      rewrite lookup_app_l by (by apply lookup_lt_Some in Hik). split; [done|].
      rewrite lookup_insert_ne by (intros E%key_entry_inj; congruence). by rewrite bump_lookup.
Qed.

Lemma index_keys_run n keys x :
  Z.of_nat n + Z.of_nat (List.length keys) < 2 ^ 32 ->
  exists x', index_keys (Z.of_nat n) keys x = (x', Ok (slot <$> seq n (List.length keys))) /\ ctx_tree x' = ctx_tree x /\
    (forall k, k ∈ keys -> exists i, keys !! i = Some k /\ ctx_kv x' !! key_entry k = Some (slot (n + i))) /\
    (forall key, (forall k, k ∈ keys -> key <> key_entry k) -> ctx_kv x' !! key = ctx_kv x !! key).
Proof.
  revert n x. induction keys as [|k keys IH]; intros n x Hb; cbn [index_keys List.length seq].
  { exists x. split_and!; [done|done|by intros k Hk%not_elem_of_nil|done]. }
  cbn [List.length] in Hb. rewrite batch_index_slot by lia.
  set (x1 := mkCensusTx (ctx_tree x) (<[key_entry k := slot n]> (ctx_kv x))).
  rewrite (bind_run_Ok (indexKey k (slot n)) _ x x1 tt eq_refl).
  replace (u32 (Z.of_nat n + 1)) with (Z.of_nat (S n)) by (rewrite u32_id by (unfold is_u32; lia); lia).
  destruct (IH (S n) x1) as (x' & Hr & Ht & Hin & Hout); [lia|]. rewrite (bind_run_Ok _ _ _ _ _ Hr).
  exists x'. split_and!; [done|done| |].
  - intros k' [->|Hk']%elem_of_cons.
    + destruct (decide (k ∈ keys)) as [Hk|Hk].
      * apply Hin in Hk as (i & Hi & He). exists (S i). by rewrite Nat.add_succ_r.
      * exists 0%nat. split; [done|]. rewrite Nat.add_0_r, Hout; [by cbn; rewrite lookup_insert_eq|].
        intros k' Hk' E%key_entry_inj. by subst.
    + apply Hin in Hk' as (i & Hi & He). exists (S i). by rewrite Nat.add_succ_r.
  - intros key Hno. rewrite Hout by (intros k' Hk'; apply Hno; set_solver).
    cbn. rewrite lookup_insert_ne; [done|]. intros <-. by apply (Hno k); [set_solver|].
Qed.

(** The index counts the keys that were added, the entries all of them. *)
Lemma CT_AddBatch_indexed t keys d d' inv a ks :
  opened t d a -> indexAsKeysCensus t = true -> numbered ks a (cd_kv d) ->
  Z.of_nat (List.length ks) + Z.of_nat (List.length keys) < 2 ^ 32 -> CT_AddBatch t keys None d = (d', Ok inv) ->
  exists a', arbo_add_batch a (slot <$> seq (List.length ks) (List.length keys)) keys = inr (inv, a') /\ opened t d' a' /\
    raw_index (cd_kv d') = Z.of_nat (List.length ks) + Z.of_nat (List.length keys) - Z.of_nat (List.length inv) /\
    (forall k, k ∈ keys -> exists i, keys !! i = Some k /\ cd_kv d' !! key_entry k = Some (slot (List.length ks + i))) /\
    (forall k, k ∉ keys -> cd_kv d' !! key_entry k = cd_kv d !! key_entry k).
Proof.
  intros O Hi [Nx Ns Nl No Ne] Hb Hr. unfold CT_AddBatch in Hr. apply in_tx_Ok in Hr as (x & Hr & ->). rewrite Hi in Hr.
  apply bind_Ok in Hr as (new & x0 & Hx0 & Hr).
  rewrite GetCensusIndex_raw, Nx, (u64_id (Z.of_nat _)), u32_id in Hx0 by (unfold is_u64, is_u32; lia).
  destruct (index_keys_run (List.length ks) keys (mkCensusTx None ∅) Hb) as (x1 & Hx1 & Ht1 & Hin & Hout).
  rewrite (bind_run_Ok _ _ _ _ _ Hx1) in Hx0. apply ret_Ok in Hx0 as [-> <-]. cbn [fst snd] in Hr.
  apply bind_Ok in Hr as (inv' & x2 & Ha & Hr). rewrite (tree_AddBatch_run t d a) in Ha by done.
  destruct (arbo_add_batch a _ keys) as [[? e]|[inv1 a']] eqn:Hbatch; [done|]. injection Ha as <- <-.
  apply bind_Ok in Hr as (i & x3 & Hx3 & Hr). apply updateCensusIndex_bump in Hx3 as (_ & Ht3 & Hk3).
  cbn [ctx_tree ctx_kv] in *. apply bind_Ok in Hr as ([] & x4 & Hx4 & Hr). apply ret_Ok in Hx4 as [-> _].
  apply ret_Ok in Hr as [-> ->]. exists a'. split; [done|]. unfold tx_commit. rewrite Ht3.
  pose proof (hasher_batch _ _ _ _ _ Hbatch) as Hh. destruct (batch_ok _ _ _ _ _ Hbatch) as (Hlev & _).
  destruct (add_batch_leaves _ _ _ _ _ Hbatch) as (_ & _ & Hle & _). rewrite length_fmap, length_seq in Hle.
  split; [by eapply opened_change|]. cbn [cd_kv]. rewrite Hk3.
  assert (Hraw : raw_index (ctx_kv x1 ∪ cd_kv d) = Z.of_nat (List.length ks)).
  { rewrite <- Nx. unfold raw_index. rewrite lookup_union, Hout, lookup_empty by done. by rewrite (left_id_L None (∪)). }
  split_and!.
  - rewrite (raw_index_bump t d a), Hraw, u32_id by (done || unfold is_u32; rewrite ?Hraw, ?u32_id by (unfold is_u32; lia); lia). lia.
  - intros k (j & Hj & He)%Hin. exists j. split; [done|]. rewrite bump_lookup by done. by apply lookup_union_Some_l.
  - intros k Hk. rewrite bump_lookup, lookup_union, Hout, lookup_empty by (try done; intros k' Hk' E%key_entry_inj; congruence).
    by rewrite (left_id_L None (∪)).
Qed.

Lemma CT_AddBatch_numbered t keys d d' a ks :
  opened t d a -> indexAsKeysCensus t = true -> numbered ks a (cd_kv d) ->
  Z.of_nat (List.length ks) + Z.of_nat (List.length keys) < 2 ^ 32 -> CT_AddBatch t keys None d = (d', Ok []) ->
  exists a', opened t d' a' /\ numbered (ks ++ keys) a' (cd_kv d').
Proof.
  intros O Hi Nb Hb Hr. destruct (CT_AddBatch_indexed _ _ _ _ _ _ _ O Hi Nb Hb Hr) as (a' & Hbatch & O' & Hx & Hin & Hout).
  exists a'. split; [done|]. destruct (add_batch_leaves _ _ _ _ _ Hbatch) as (_ & Hsize & _ & Hl & Hother).
  assert (Hslot : forall i k, keys !! i = Some k ->
            (slot <$> seq (List.length ks) (List.length keys)) !! i = Some (slot (List.length ks + i))).
  { intros i k Hik. rewrite list_lookup_fmap, lookup_seq_lt by (by apply lookup_lt_Some in Hik). done. }
  destruct Nb as [Nx Ns Nl No Ne]. split.
  - rewrite Hx, length_app. cbn. lia.
  - rewrite Hsize, Ns, length_app, length_fmap, length_seq. cbn. lia.
  - intros i k. rewrite lookup_app_Some. intros [Hik|[Hle Hik]].
    + rewrite Hother; [by apply Nl|]. intros j (y & E & [-> Hj]%lookup_seq)%list_lookup_fmap_Some.
      apply lookup_lt_Some in Hik. apply slot_inj in E; lia.
    + destruct (Hl (i - List.length ks)%nat (slot i)) as [_ Hv]; [|set_solver|by rewrite Hik in Hv].
      rewrite (Hslot _ _ Hik). do 2 f_equal. lia.
  - intros key k Hk. destruct (decide (key ∈ slot <$> seq (List.length ks) (List.length keys))) as [Hin'|Hno].
    + apply list_elem_of_lookup in Hin' as [j Hj]. destruct (Hl j key Hj) as [_ Hv]; [set_solver|].
      apply list_lookup_fmap_Some in Hj as (y & -> & [-> Hj]%lookup_seq).
      destruct (lookup_lt_is_Some_2 keys j Hj) as [k' Hk']. rewrite Hv, Hk' in Hk. injection Hk as ->.
      exists (List.length ks + j)%nat. split; [|done]. rewrite lookup_app_r by lia. by rewrite Nat.add_comm, Nat.add_sub.
    + rewrite Hother in Hk by (intros j Hj; exfalso; by apply Hno, list_elem_of_lookup; exists j).
      apply No in Hk as (i & Hik & ->). exists i. by rewrite lookup_app_l by (by apply lookup_lt_Some in Hik).
  - intros k Hk. destruct (decide (k ∈ keys)) as [Hk'|Hk'].
    + apply Hin in Hk' as (i & Hik & He). exists (List.length ks + i)%nat. split; [|done].
      rewrite lookup_app_r by lia. by rewrite Nat.add_comm, Nat.add_sub.
    + apply elem_of_app in Hk as [(i & Hik & He)%Ne|Hk]; [|done]. exists i. rewrite Hout by done.
      by rewrite lookup_app_l by (by apply lookup_lt_Some in Hik).
Qed.

(** A leaf at the index makes every further addition fail. *)
Lemma CT_Add_blocked t key d a i :
  opened t d a -> indexAsKeysCensus t = true -> raw_index (cd_kv d) = Z.of_nat i -> Z.of_nat i < 2 ^ 32 ->
  is_Some (leaves a !! slot i) -> exists e, CT_Add t key None d = (d, Err e).
Proof.
  intros O Hi Hx Hb [v Hv]. unfold CT_Add, in_tx.
  rewrite (bind_run_Ok _ _ _ _ _ (updateCensusIndex_run t d 1 _)). cbv beta. cbn [ctx_tree ctx_kv].
  rewrite (left_id_L ∅ (∪)), Hi, Hx, (u64_id (Z.of_nat i)) by (unfold is_u64; lia).
  set (x := mkCensusTx None _). change (LittleEndian_PutUint64 (Z.of_nat i)) with (slot i).
  pose proof (tree_Add_run t d a (slot i) key x O eq_refl) as Ha.
  destruct (arbo_add a (slot i) key) as [e|a'] eqn:E; [|by apply add_ok in E as [E _]; congruence].
  exists (Wrap "cannot add to census" e). unfold mbind, gom_bind.
  by rewrite (wrapping_Err _ _ _ _ _ Ha).
Qed.

(** ** Proofs *)

Lemma verify_root t d a key v s index :
  opened t d a -> (if indexAsKeysCensus t then keyToIndex v d else Ok key) = Ok index ->
  arbo_CheckProof (hasher a) index v (arbo_root a) s = inr true ->
  CT_VerifyProof t key v s None d = Ok true /\ CT_VerifyProof t key v s (Some (arbo_root a)) d = Ok true.
Proof.
  intros O Hi Hc. unfold CT_VerifyProof, CT_Root. rewrite (op_tree _ _ _ O). cbn.
  destruct (indexAsKeysCensus t); rewrite ?Hi; cbn; [|injection Hi as ->]; by rewrite (op_type _ _ _ O), Hc.
Qed.

(** The proof of a leaf, and of a key of an indexed census. *)
Lemma proof_weighted t d a key v :
  opened t d a -> indexAsKeysCensus t = false -> leaves a !! key = Some v ->
  exists s, CT_GenProof t key d = Ok (v, s) /\ CT_VerifyProof t key v s None d = Ok true /\
    CT_VerifyProof t key v s (Some (arbo_root a)) d = Ok true.
Proof.
  intros O Hi Hl. destruct (gen_proof_found a key v Hl) as [s Hs]. exists s.
  split; [|apply (verify_root t d a key v s key); [done|by rewrite Hi|by apply gen_proof_ok]].
  unfold CT_GenProof, tree_GenProof. rewrite (op_tree _ _ _ O), Hi. cbn. by rewrite Hs.
Qed.

Lemma proof_indexed t d a ks key k :
  opened t d a -> indexAsKeysCensus t = true -> numbered ks a (cd_kv d) -> k ∈ ks ->
  exists s, CT_GenProof t k d = Ok (k, s) /\ CT_VerifyProof t key k s None d = Ok true /\
    CT_VerifyProof t key k s (Some (arbo_root a)) d = Ok true.
Proof.
  intros O Hi [Nx Ns Nl No Ne] (i & Hik & He)%Ne. destruct (gen_proof_found a (slot i) k (Nl _ _ Hik)) as [s Hs]. exists s.
  assert (Hk : keyToIndex k d = Ok (slot i)).
  { unfold keyToIndex. change (censusKeysToIndexPrefix +:+ k) with (key_entry k). by rewrite He. }
  split; [|apply (verify_root t d a key k s (slot i)); [done|by rewrite Hi|by apply gen_proof_ok]].
  unfold CT_GenProof, tree_GenProof. rewrite (op_tree _ _ _ O), Hi. cbn [mbind outcome_bind]. rewrite Hk.
  cbn [mbind outcome_bind]. by rewrite Hs.
Qed.

(** ** Opening *)

(** What is kept of a census between two runs. *)
Record stored (type : Census_Type) (indexed : bool) (d : CensusDB) (a : arbo) : Prop := {
  sd_tree : exists a0, cd_tree d = Some a0 /\ a = arbo_open (hasher a) nLevels a0;
  sd_type : type_hash type = Some (hasher a);
  sd_mark : cd_kv d !! isIndexAsKeysCensus = Some (mark_of indexed);
}.

(** A tree as [New] returns it. *)
Record fits (t : CTree) (type : Census_Type) (indexed : bool) : Prop := {
  ft_snapshot : ct_snapshot t = None;
  ft_len : hashLen t = 32;
  ft_hash : hashFunc t = type_hash type;
  ft_type : censusType t = type;
  ft_indexed : indexAsKeysCensus t = indexed;
}.

Lemma fits_opened t type indexed d a : fits t type indexed -> stored type indexed d a -> opened t d a.
Proof.
  intros [Fs Fl Fh Ft Fi] [(a0 & Ht & Ha) Sy Sm]. split; [done|done|by rewrite Fh|by rewrite Ft| |].
  - unfold tree_of, open_tree. by rewrite Fs, Fh, Sy, Ht, <- Ha.
  - rewrite Ha. apply open_ok.
Qed.

Lemma opened_stored t type indexed d a :
  fits t type indexed -> opened t d a -> cd_kv d !! isIndexAsKeysCensus = Some (mark_of indexed) -> stored type indexed d a.
Proof.
  intros [Fs Fl Fh Ft Fi] [Os On Oh Oy Ot Ol] Hm. split; [|by rewrite <- Ft|done].
  unfold tree_of, open_tree in Ot. rewrite Os, Oh in Ot. destruct (cd_tree d) as [a0|]; [|done]. injection Ot as Ot. eauto.
Qed.

Lemma stored_unique type ix ix' d a a' : stored type ix d a -> stored type ix' d a' -> ix' = ix /\ a' = a.
Proof.
  intros [(a0 & T1 & A1) Y1 M1] [(a0' & T2 & A2) Y2 M2]. split.
  - rewrite M1 in M2. injection M2 as M2. by destruct ix, ix'.
  - assert (hasher a' = hasher a) by congruence. congruence.
Qed.

(** The same database as a census of another type. *)
Lemma stored_retype type type' h ix d a :
  stored type ix d a -> type_hash type' = Some h ->
  exists a', stored type' ix d a' /\ leaves a' = leaves a /\ arbo_root a' = arbo_root a.
Proof.
  intros [(a0 & St & Sa) Sy Sm] Hh. exists (arbo_open h nLevels a0). rewrite Sa.
  destruct (open_ok h nLevels a0) as (-> & -> & _ & Hh1). destruct (open_ok (hasher a) nLevels a0) as (-> & -> & _).
  split_and!; [|done|done]. split; [|by rewrite Hh1|done]. exists a0. by rewrite Hh1.
Qed.

Lemma CT_New_run type indexed h d :
  type_hash type = Some h ->
  match cd_kv d !! isIndexAsKeysCensus with
  | None => exists t, CT_New type indexed d =
      (mkCensusDB (Some (load_tree h d)) (<[isIndexAsKeysCensus := mark_of indexed]> (bump t 0 (cd_kv d))), Ok t) /\ fits t type indexed
  | Some b =>
      if indexed && bool_decide (b = mark_of false)
      then exists e, CT_New type indexed d = (set_cd_tree (load_tree h d) d, Err e)
      else exists t, CT_New type indexed d = (mkCensusDB (Some (load_tree h d)) (bump t 0 (cd_kv d)), Ok t) /\
             fits t type (bool_decide (b = mark_of true))
  end.
Proof.
  intros Hh. unfold CT_New. rewrite Hh.
  rewrite (bind_run_Ok (modify (fun d => set_cd_tree (load_tree h d) d)) _ d (set_cd_tree (load_tree h d) d) tt eq_refl). rewrite bind_gets. cbn [cd_kv set_cd_tree].
  assert (Hix : forall t, in_tx (fun d => wrapping "cannot update census index" (updateCensusIndex t d 0)) (set_cd_tree (load_tree h d) d) =
                     (mkCensusDB (Some (load_tree h d)) (bump t 0 (cd_kv d)), Ok (u64 (raw_index (cd_kv d))))).
  { intros t. unfold in_tx, wrapping. rewrite updateCensusIndex_run. cbn [wrapping_out ctx_kv cd_kv set_cd_tree].
    unfold tx_commit. cbn [ctx_tree ctx_kv cd_tree cd_kv set_cd_tree]. rewrite !(left_id_L ∅ (∪)).
    by rewrite insert_empty, <- insert_union_singleton_l. }
  destruct (cd_kv d !! isIndexAsKeysCensus) as [b|] eqn:Hm.
  - destruct (indexed && bool_decide (b = mark_of false)); [by eexists|].
    rewrite (bind_run_Ok (mret _) _ _ _ _ eq_refl). rewrite (bind_run_Ok _ _ _ _ _ (Hix _)).
    rewrite (bind_run_Ok (mret tt) _ _ _ tt eq_refl). by eexists.
  - rewrite (bind_run_Ok (mret indexed) _ _ _ _ eq_refl). rewrite (bind_run_Ok _ _ _ _ _ (Hix _)). eexists. split.
    + unfold in_tx. unfold mbind, gom_bind. cbn. unfold tx_commit. cbn.
      rewrite insert_empty, <- insert_union_singleton_l. reflexivity.
    + by split.
Qed.

(** A new census, and one that is opened again. *)
Lemma CT_New_empty type indexed h :
  type_hash type = Some h ->
  exists t d, CT_New type indexed empty_census = (d, Ok t) /\ fits t type indexed /\
    stored type indexed d (arbo_new h nLevels) /\ raw_index (cd_kv d) = 0 /\ raw_weight (cd_kv d) = 0 /\
    leaves (arbo_new h nLevels) = ∅.
Proof.
  intros Hh. pose proof (CT_New_run type indexed h empty_census Hh) as Hr. cbn [cd_kv empty_census] in Hr. rewrite lookup_empty in Hr.
  destruct Hr as (t & Hr & F). eexists t, _. split; [exact Hr|]. split; [done|].
  assert (S : forall kv, stored type indexed (mkCensusDB (Some (arbo_new h nLevels))
            (<[isIndexAsKeysCensus := mark_of indexed]> kv)) (arbo_new h nLevels)).
  { intros kv. split; [|by rewrite hasher_new|apply lookup_insert_eq]. exists (arbo_new h nLevels). split; [done|].
    pose proof (open_same (arbo_new h nLevels)) as E. rewrite levels_new in E. by rewrite E. }
  split; [apply S|]. cbn [cd_kv]. split_and!; [| |apply leaves_new].
  - unfold raw_index at 1. rewrite lookup_insert_ne by done. change (raw_index (bump t 0 ∅) = 0).
    rewrite (raw_index_bump t _ _ 0 ∅ (fits_opened _ _ _ _ _ F (S ∅))); unfold raw_index; rewrite lookup_empty; cbn;
      rewrite BytesToBigInt_empty; lia.
  - unfold raw_weight. rewrite lookup_insert_ne, bump_lookup, lookup_empty by done. apply BytesToBigInt_empty.
Qed.

Lemma CT_New_again type indexed d a :
  stored type indexed d a ->
  exists t d', CT_New type false d = (d', Ok t) /\ fits t type indexed /\ stored type indexed d' a /\
    cd_tree d' = cd_tree d /\ cd_kv d' = bump t 0 (cd_kv d).
Proof.
  intros [(a0 & St & Sa) Sy Sm]. pose proof (CT_New_run type false (hasher a) d Sy) as Hr. rewrite Sm in Hr. cbn [andb] in Hr.
  destruct Hr as (t & Hr & F). exists t. eexists. split; [exact Hr|].
  assert (F' : fits t type indexed). { replace indexed with (bool_decide (mark_of indexed = mark_of true)); [done|]. by destruct indexed. }
  assert (Ht : load_tree (hasher a) d = a0) by (unfold load_tree; by rewrite St).
  split_and!; [done| |by rewrite Ht, St|done]. split; [|done|cbn [cd_kv]; by rewrite bump_lookup].
  exists a0. by rewrite Ht.
Qed.

(** ** The mark *)

Definition same_mark (x x' : CensusTx) : Prop := ctx_kv x' !! isIndexAsKeysCensus = ctx_kv x !! isIndexAsKeysCensus.

#[local] Instance same_mark_preorder : PreOrder same_mark.
Proof. split; [by intros x|]. intros x y z A B. unfold same_mark in *. congruence. Qed.

Lemma same_mark_Set key v : key <> isIndexAsKeysCensus -> keeps same_mark (kv_Set key v).
Proof. intros Hk x. unfold same_mark. cbn. by rewrite lookup_insert_ne. Qed.

Lemma same_mark_index t d n : keeps same_mark (updateCensusIndex t d n).
Proof.
  apply keeps_bind; [apply _|apply keeps_gets, _|]. intros b. apply keeps_bind; [apply _|by apply same_mark_Set|].
  intros _. apply keeps_ret, _.
Qed.

Lemma same_mark_weight t d w : keeps same_mark (updateCensusWeight t d w).
Proof. apply keeps_bind; [apply _|apply keeps_gets, _|]. intros b. by apply same_mark_Set. Qed.

Lemma same_mark_tree {A} t d (f : arbo -> outcome (arbo * A)) : keeps same_mark (in_tree t d f).
Proof.
  apply keeps_bind; [apply _|intros x; reflexivity|]. intros x. apply keeps_bind; [apply _|apply keeps_lift, _|]. intros a.
  apply keeps_bind; [apply _|apply keeps_lift, _|]. intros r. apply keeps_bind; [apply _|intros y; reflexivity|].
  intros _. apply keeps_ret, _.
Qed.

Lemma in_tx_mark {A} (m : CensusDB -> GoM CensusTx A) d :
  keeps same_mark (m d) -> cd_kv (in_tx m d).1 !! isIndexAsKeysCensus = cd_kv d !! isIndexAsKeysCensus.
Proof.
  intros Hm. specialize (Hm (mkCensusTx None ∅)). unfold in_tx. destruct (m d _) as [x [r|e|w]]; [|done|done].
  cbn in *. unfold same_mark in Hm. cbn in Hm. rewrite lookup_union, Hm, lookup_empty. by rewrite (left_id_L None (∪)).
Qed.

#[local] Hint Resolve same_mark_index same_mark_weight same_mark_tree : keeps.

Lemma CT_Add_mark t key value d : cd_kv (CT_Add t key value d).1 !! isIndexAsKeysCensus = cd_kv d !! isIndexAsKeysCensus.
Proof.
  apply in_tx_mark. apply keeps_bind; [apply _|apply same_mark_index|]. intros i.
  apply keeps_bind; [apply _| |intros _; destruct value, (indexAsKeysCensus t); eauto using keeps_ret, same_mark_weight with typeclass_instances].
  destruct (indexAsKeysCensus t); [destruct value; [apply keeps_throw, _|]|apply keeps_wrapping, same_mark_tree].
  apply keeps_bind; [apply _|apply keeps_wrapping, same_mark_tree|]. intros _. by apply same_mark_Set.
Qed.

Lemma CT_ImportDump_mark t b d : cd_kv (CT_ImportDump t b d).1 !! isIndexAsKeysCensus = cd_kv d !! isIndexAsKeysCensus.
Proof.
  unfold CT_ImportDump. unfold mbind at 1, gom_bind at 1. cbn [get].
  unfold mbind at 1, gom_bind at 1. cbn [lift]. destruct (match ct_snapshot t with Some _ => _ | None => _ end) as [a|e|w]; [|done|done].
  unfold mbind at 1, gom_bind at 1. cbn [lift]. destruct (wrapping_out _ _) as [a'|e|w]; [|done|done].
  rewrite (bind_run_Ok (modify (set_cd_tree a')) _ d (set_cd_tree a' d) tt eq_refl).
  etrans; [apply in_tx_mark|done]. destruct (indexAsKeysCensus t).
  - apply keeps_replacing. unfold fillKeyToIndex. apply keeps_bind; [apply _| |].
    { apply keeps_mfor; [apply _|]. intros [k v]. by apply same_mark_Set. }
    intros _. apply keeps_bind; [apply _|apply same_mark_index|]. intros _. apply keeps_ret, _.
  - apply keeps_bind; [apply _|apply keeps_lift, _|]. intros l. apply keeps_wrapping, same_mark_weight.
Qed.

(** Whatever the outcome, the census stays what it is. *)
Lemma CT_Add_stored t key value d a type indexed :
  fits t type indexed -> stored type indexed d a ->
  exists a', stored type indexed (CT_Add t key value d).1 a' /\
    (indexed = false -> weight_ok a d -> weight_ok a' (CT_Add t key value d).1).
Proof.
  intros F S. pose proof (fits_opened _ _ _ _ _ F S) as O. pose proof (CT_Add_mark t key value d) as Hm.
  destruct (CT_Add t key value d) as [d' o] eqn:Hr. cbn in *. destruct o as [[]|e|w].
  2,3: rewrite (in_tx_fails _ _ _ _ Hr eq_refl); eauto.
  assert (Hs : forall a', opened t d' a' -> stored type indexed d' a').
  { intros a' O'. eapply opened_stored; [done|done|]. rewrite Hm. apply S. }
  pose proof (ft_indexed _ _ _ F) as Hi. destruct indexed.
  - unfold CT_Add in Hr. apply in_tx_Ok in Hr as (x & Hr & ->). apply bind_Ok in Hr as (i & x1 & Hx1 & Hr).
    apply updateCensusIndex_bump in Hx1 as (_ & Ht1 & _). rewrite Hi in Hr. destruct value as [v|]; [by apply bind_Ok in Hr as (?&?&?&?)|].
    apply bind_Ok in Hr as ([] & x3 & Hr & Hret). apply ret_Ok in Hret as [-> _].
    apply bind_Ok in Hr as ([] & x2 & Ha%wrapping_Ok & Hr). rewrite (tree_Add_run t d a) in Ha by done.
    destruct (arbo_add a _ key) as [e|a'] eqn:Hadd; [done|]. injection Ha as <-. apply modify_Ok in Hr as ->.
    exists a'. split; [|done]. apply Hs. eapply opened_change; [done| |by eapply hasher_add].
    by destruct (add_ok _ _ _ _ Hadd) as (_ & _ & ->).
  - destruct (CT_Add_weighted _ _ _ _ _ _ O Hi Hr) as (a' & _ & O' & Hw & _). exists a'. split; [by apply Hs|done].
Qed.

Definition same_tree (x x' : CensusTx) : Prop := ctx_tree x' = ctx_tree x.

#[local] Instance same_tree_preorder : PreOrder same_tree.
Proof. split; [by intros x|]. intros x y z A B. unfold same_tree in *. congruence. Qed.

Lemma fillKeyToIndex_tree t d : keeps same_tree (fillKeyToIndex t d).
Proof.
  apply keeps_bind; [apply _|apply keeps_mfor; [apply _|]; by intros [k v] x|]. intros _.
  apply keeps_bind; [apply _|intros x; by rewrite updateCensusIndex_run|]. intros _. apply keeps_ret, _.
Qed.

Lemma in_tx_tree {A} (m : CensusDB -> GoM CensusTx A) d : keeps same_tree (m d) -> cd_tree (in_tx m d).1 = cd_tree d.
Proof.
  intros Hm. specialize (Hm (mkCensusTx None ∅)). unfold in_tx, same_tree in *.
  destruct (m d _) as [x [r|e|w]]; [|done|done]. cbn in *. by rewrite Hm.
Qed.

Lemma CT_ImportDump_tree t b d a :
  opened t d a -> indexAsKeysCensus t = true ->
  match arbo_import_dump a b with
  | inr a' => cd_tree (CT_ImportDump t b d).1 = Some a'
  | inl _ => (CT_ImportDump t b d).1 = d
  end.
Proof.
  intros O Hi. unfold CT_ImportDump. rewrite (bind_run_Ok get _ d d d eq_refl). cbv beta.
  rewrite (op_snapshot _ _ _ O), (op_tree _ _ _ O). rewrite (bind_run_Ok (lift (Ok a)) _ d d a eq_refl). cbv beta.
  destruct (arbo_import_dump a b) as [e|a']; [done|].
  rewrite (bind_run_Ok (lift (Ok a')) _ d d a' eq_refl). cbv beta.
  rewrite (bind_run_Ok (modify (set_cd_tree a')) _ d (set_cd_tree a' d) tt eq_refl). cbv beta.
  rewrite in_tx_tree; [done|]. rewrite Hi. apply keeps_replacing, fillKeyToIndex_tree.
Qed.

Lemma CT_ImportDump_stored t b d a type indexed :
  fits t type indexed -> stored type indexed d a ->
  exists a', stored type indexed (CT_ImportDump t b d).1 a' /\
    (indexed = false -> weight_ok a d -> weight_ok a' (CT_ImportDump t b d).1) /\
    (arbo_import_dump a b = inr a' \/ a' = a).
Proof.
  intros F S. pose proof (fits_opened _ _ _ _ _ F S) as O. pose proof (CT_ImportDump_mark t b d) as Hm.
  pose proof (ft_indexed _ _ _ F) as Hi.
  exists (match arbo_import_dump a b with inr a' => a' | inl _ => a end).
  split_and!; [| |destruct (arbo_import_dump a b); eauto].
  - eapply opened_stored; [done| |rewrite Hm; apply S]. destruct indexed.
    + pose proof (CT_ImportDump_tree t b d a O Hi) as Ht. destruct (arbo_import_dump a b) as [e|a'] eqn:Hb; [by rewrite Ht|].
      destruct (CT_ImportDump t b d) as [[tr kv] o]. cbn in Ht. subst tr.
      apply import_ok in Hb as (_ & Hl & Hh). by eapply opened_change.
    + pose proof (CT_ImportDump_weighted t b d a O Hi) as Hw.
      destruct (arbo_import_dump a b) as [e|a']; [by rewrite Hw|]. destruct Hw as (d' & Hr & O' & _). by rewrite Hr.
  - intros -> Hok. pose proof (CT_ImportDump_weighted t b d a O Hi) as Hw.
    destruct (arbo_import_dump a b) as [e|a']; [by rewrite Hw|]. destruct Hw as (d' & Hr & O' & Hw & _). rewrite Hr. by apply Hw.
Qed.

(** ** Imports into an indexed census *)

Lemma copy8_same b : String.length b = 8%nat -> copy8 b = b.
Proof.
  intros Hb. unfold copy8. rewrite Hb. do 8 (destruct b as [|? b]; [discriminate Hb|]). destruct b; [done|discriminate Hb].
Qed.

Lemma fill_run (l : list (bytes * bytes)) x :
  (forall key k, (key, k) ∈ l -> String.length key = 8%nat) ->
  exists x', mfor l (fun '(indexLE, key) => indexKey key (copy8 indexLE)) x = (x', Ok tt) /\ ctx_tree x' = ctx_tree x /\
    (forall key k, (key, k) ∈ l -> exists key', (key', k) ∈ l /\ ctx_kv x' !! key_entry k = Some key') /\
    (forall e, (forall k, e <> key_entry k) -> ctx_kv x' !! e = ctx_kv x !! e) /\
    (forall k, (forall key, (key, k) ∉ l) -> ctx_kv x' !! key_entry k = ctx_kv x !! key_entry k).
Proof.
  revert x. induction l as [|[key k] l IH]; intros x Hlen; cbn [mfor].
  { exists x. split_and!; [done|done|by intros ?? ?%not_elem_of_nil|done|done]. }
  rewrite copy8_same by (apply (Hlen key k); set_solver).
  set (x1 := mkCensusTx (ctx_tree x) (<[key_entry k := key]> (ctx_kv x))).
  rewrite (bind_run_Ok (indexKey k key) _ x x1 tt eq_refl).
  destruct (IH x1) as (x' & Hr & Ht & Hin & Hout & Hrest); [intros key2 k2 Hk2; apply (Hlen key2 k2); set_solver|].
  exists x'. split_and!; [done|done| | |].
  - intros key2 k2 [[= -> ->]|Hk]%elem_of_cons.
    + destruct (decide (k ∈ l.*2)) as [Hk|Hk].
      * apply list_elem_of_fmap in Hk as ([key' k'] & -> & Hk). apply Hin in Hk as (key3 & Hk3 & He). exists key3. set_solver.
      * exists key. split; [set_solver|]. rewrite Hrest; [cbn; by rewrite lookup_insert_eq|].
        intros key' Hk'. apply Hk, list_elem_of_fmap. by exists (key', k).
    + apply Hin in Hk as (key3 & Hk3 & He). exists key3. set_solver.
  - intros e He. rewrite Hout by done. cbn. by rewrite lookup_insert_ne by (intros E; by apply (He k)).
  - intros k2 Hk2. rewrite Hrest by (intros key' Hk'; apply (Hk2 key'); set_solver).
    cbn. rewrite lookup_insert_ne; [done|]. intros E%key_entry_inj. apply (Hk2 key). set_solver.
Qed.

Lemma CT_ImportDump_indexed t b d a a' a0 ks kv0 :
  opened t d a -> indexAsKeysCensus t = true -> raw_index (cd_kv d) = 0 ->
  arbo_dump a0 = inr b -> numbered ks a0 kv0 -> Z.of_nat (List.length ks) < 2 ^ 32 -> arbo_import_dump a b = inr a' ->
  exists d', CT_ImportDump t b d = (d', Ok tt) /\ opened t d' a' /\ numbered ks a' (cd_kv d').
Proof.
  intros O Hi Hx Hdump [Nx Ns Nl No Ne] Hb Himp. unfold CT_ImportDump. rewrite (bind_run_Ok get _ d d d eq_refl). cbv beta.
  rewrite (op_snapshot _ _ _ O), (op_tree _ _ _ O). rewrite (bind_run_Ok (lift (Ok a)) _ d d a eq_refl). cbv beta.
  rewrite Himp. rewrite (bind_run_Ok (lift (Ok a')) _ d d a' eq_refl). cbv beta.
  rewrite (bind_run_Ok (modify (set_cd_tree a')) _ d (set_cd_tree a' d) tt eq_refl). cbv beta.
  destruct (import_ok _ _ _ Himp) as (_ & Hlev & Hh). pose proof (import_leaves _ _ _ _ Hdump Himp) as Hl.
  assert (O' : opened t (set_cd_tree a' d) a') by (by eapply opened_change).
  destruct (tree_leaves_run _ _ _ O') as (order & Hord & Hp). rewrite Hl in Hp.
  assert (Hel : forall key k, (key, k) ∈ order <-> leaves a0 !! key = Some k).
  { intros key k. rewrite Hp. apply elem_of_map_to_list. }
  destruct (fill_run order (mkCensusTx None ∅)) as (x' & Hfill & Ht & Hin & Hout & _).
  { intros key k (i & _ & ->)%Hel%No. apply slot_length. }
  unfold in_tx. rewrite Hi. unfold replacing, fillKeyToIndex. rewrite Hord. cbv beta zeta.
  rewrite (bind_run_Ok _ _ _ _ _ Hfill). cbv beta. rewrite (bind_run_Ok _ _ _ _ _ (updateCensusIndex_run _ _ _ _)).
  cbn [mret gom_ret]. eexists. split; [reflexivity|]. unfold tx_commit. cbn [ctx_tree ctx_kv]. rewrite Ht.
  split; [by eapply opened_change|]. cbn [cd_kv set_cd_tree cd_tree ctx_tree]. rewrite <- insert_union_l.
  assert (Hraw : raw_index (ctx_kv x' ∪ cd_kv d) = 0).
  { rewrite <- Hx. unfold raw_index. rewrite lookup_union, Hout by (intros k; done). cbn [ctx_kv]. by rewrite lookup_empty, (left_id_L None (∪)). }
  rewrite GetCensusIndex_raw. cbn [cd_kv set_cd_tree]. rewrite Hx. change (u32 (u64 0)) with 0.
  apply Permutation_length in Hp as Hlen. rewrite length_map_to_list, Ns in Hlen. rewrite Hlen, Z.sub_0_r, u32_id by (unfold is_u32; lia).
  split.
  - rewrite raw_index_insert, Hraw, (decode_bigint _ _ _ _ O) by lia. lia.
  - by rewrite Hl.
  - intros i k Hik. rewrite Hl. by apply Nl.
  - intros key k. rewrite Hl. apply No.
  - intros k [i Hik]%list_elem_of_lookup. destruct (Hin (slot i) k) as (key' & (j & Hj & ->)%Hel%No & He); [by apply Hel, Nl|].
    exists j. split; [done|]. rewrite lookup_insert_ne by done. by apply lookup_union_Some_l.
Qed.
End runs.
