(* ===== verification/CensusAPI.v ===== *)
(** * The census requests of the URL API

    Models [src/urlapi/census.go], [src/urlapi/census_helpers.go] and [src/urlapi/compression.go]:
    the references of the censuses with their tokens, in the database and in memory, and the
    handler of every request.  A handler gets the parameters of the path and the decoded body, and
    returns what it sends.  The encodings of gob and JSON give back what they were given, and are
    left out; the answer of the storage, the random octets and the decoded body are arguments. *)

From stdpp Require Import base option list strings gmap.
From Stdlib Require Import ZArith Lia.
From S2P Require Import Prelude GoMonad GoLib GoText External Tree CensusTree.

(** google/uuid, and zstd of klauspost/compress. *)
Class ApiLibs := {
  uuid_Parse : string -> error + bytes;
  zstd_EncodeAll : bytes -> bytes;
  zstd_DecodeAll : bytes -> error + bytes;
}.

(** [src/util/helpers.go]. *)
Definition TrimHex (s : string) : string :=
  match s with
  | String c0 (String c1 s') =>
      if (byte_val c0 =? 48) && ((byte_val c1 =? 120) || (byte_val c1 =? 88)) then s' else s
  | _ => s
  end.

(** ** Compression *)

(** The magic number of zstd. *)
Definition isZstd (src : bytes) : bool :=
  match src with
  | String c0 (String c1 (String c2 (String c3 _))) =>
      (byte_val c0 =? 40) && (byte_val c1 =? 181) && (byte_val c2 =? 47) && (byte_val c3 =? 253)
  | _ => false
  end.

Class ApiLibsLaws `{ApiLibs} := {
  zstd_magic b : isZstd (zstd_EncodeAll b) = true;
  zstd_roundtrip b : zstd_DecodeAll (zstd_EncodeAll b) = inr b;
  uuid_size s u : uuid_Parse s = inr u -> String.length u = 16%nat;
}.

Section compression.
Context `{ApiLibs}.

Definition compressBytes (src : bytes) : bytes := zstd_EncodeAll src.
Definition decompressBytes (src : bytes) : bytes :=
  if isZstd src then match zstd_DecodeAll src with inr dst => dst | inl _ => "" end else src.
End compression.

(** ** Parameters *)

Definition censusDBprefix : string := "cs_".
Definition censusIDsize : nat := 32.

Definition censusType_of (t : string) : Census_Type * bool :=
  if bool_decide (t = "zkindexed") then (Census_ARBO_POSEIDON, true)
  else if bool_decide (t = "weighted") then (Census_ARBO_BLAKE2B, false)
  else (Census_UNKNOWN, false).

Definition hex_DecodeString (s : string) : outcome bytes :=
  match hex_decode s with Some b => Ok b | None => Err (Errorf "encoding/hex") end.

Definition censusIDparse (censusID : string) : outcome bytes :=
  let censusID := TrimHex censusID in
  _ ← check (negb (String.length censusID =? censusIDsize * 2)%nat) (Errorf "invalid censusID format");
  hex_DecodeString censusID.

Definition censusKeyParse (key : string) : outcome bytes := hex_DecodeString (TrimHex key).

Definition censusWeightParse (w : string) : outcome Z :=
  match big_SetString10 w with Some weight => Ok weight | None => Err (Errorf "cannot parse weight") end.

Definition censusName (censusID : bytes) : string := censusDBprefix +:+ hex_encode censusID.

Section api.
Context `{Arbo, EthCrypto, !ProofLibs, !ArboCensus, !ApiLibs}.

(** ** References *)

Record refData := mkRefData {
  AuthToken : option bytes;
  CensusType : Census_Type;
  Indexed : bool;
  IsPublic : bool;
}.
Record censusRef := mkCensusRef { cr_tree : CTree; cr_data : refData }.

(** The database has the references, under the identifier of the census, and the censuses under
    their names; [censusMap] is in memory. *)
Record URLAPI := mkURLAPI {
  u_refs : gmap bytes refData;
  u_trees : gmap string CensusDB;
  censusMap : gmap bytes censusRef;
}.

Definition set_refs x (u : URLAPI) : URLAPI := mkURLAPI x (u_trees u) (censusMap u).
Definition set_trees x (u : URLAPI) : URLAPI := mkURLAPI (u_refs u) x (censusMap u).
Definition set_censusMap x (u : URLAPI) : URLAPI := mkURLAPI (u_refs u) (u_trees u) x.

#[local] Notation U := (GoM URLAPI).

(** The database with the prefix of a census. *)
Definition census_at (censusID : bytes) (u : URLAPI) : CensusDB :=
  default empty_census (u_trees u !! censusName censusID).
Definition on_census {A} (censusID : bytes) (m : GoM CensusDB A) : U A :=
  zoom (census_at censusID) (fun d u => set_trees (<[censusName censusID := d]> (u_trees u)) u) m.

Definition addCensusRefToDB (censusID : bytes) (authToken : option bytes) (t : Census_Type)
    (indexed public : bool) : U refData :=
  let ref := mkRefData authToken t indexed public in
  modify (fun u => set_refs (<[censusID := ref]> (u_refs u)) u);; mret ref.

Definition delCensusRefFromDB (censusID : bytes) : U unit :=
  modify (fun u => set_censusMap (delete censusID (censusMap u)) (set_refs (delete censusID (u_refs u)) u)).

Definition getCensusRefFromDB (censusID : bytes) : U refData :=
  u ← get;
  match u_refs u !! censusID with
  | Some ref => mret ref
  | None => throw (Errorf "census id not found in local storage")
  end.

Definition createNewCensus (censusID : bytes) (type : Census_Type) (indexed public : bool)
    (authToken : option bytes) : U censusRef :=
  tree ← on_census censusID (CT_New type indexed);
  data ← addCensusRefToDB censusID authToken type indexed public;
  let ref := mkCensusRef (if public then CT_Publish tree else tree) data in
  modify (fun u => set_censusMap (<[censusID := ref]> (censusMap u)) u);;
  mret ref.

Definition censusRefExist (censusID : bytes) : U bool :=
  gets (fun u => bool_decide (is_Some (censusMap u !! censusID))).

(** The token is checked when the request has one. *)
Definition check_token (authToken : option bytes) (data : refData) : outcome unit :=
  match authToken with
  | None => Ok tt
  | Some token =>
      match AuthToken data with
      | None => Err (Errorf "census is locked")
      | Some token' => check (negb (bool_decide (token = token'))) (Errorf "wrong authentication token")
      end
  end.

Definition loadCensus (censusID : bytes) (authToken : option bytes) : U censusRef :=
  u ← get;
  match censusMap u !! censusID with
  | Some ref => lift (check_token authToken (cr_data ref));; mret ref
  | None =>
      data ← getCensusRefFromDB censusID;
      lift (check_token authToken data);;
      tree ← on_census censusID (CT_New (CensusType data) false);
      let ref := mkCensusRef (if IsPublic data then CT_Publish tree else tree) data in
      modify (fun u => set_censusMap (<[censusID := ref]> (censusMap u)) u);;
      mret ref
  end.

(** [DeleteCensusTreeFromDatabase]: every entry with the prefix.  All names have the same length, so
    that no other name is in front of the prefix. *)
Definition DeleteCensusTreeFromDatabase (name : string) : U unit :=
  modify (fun u => set_trees (filter (fun '(n, _) => String.prefix name n = false) (u_trees u)) u).

(** ** Handlers *)

(** What a handler sends: no data, a [Census] or a [CensusDump]. *)
Record CensusMsg := mkCensusMsg {
  CM_CensusID : bytes; CM_Root : bytes; CM_Weight : option Z; CM_Key : bytes; CM_Proof : bytes;
  CM_Value : bytes; CM_Size : Z; CM_Valid : bool; CM_URI : string
}.

(** Nil fields are [None]. *)
Record CensusDump := mkCensusDump {
  CD_Type : Census_Type; CD_RootHash : option bytes; CD_Data : option bytes; CD_Indexed : bool
}.

Inductive Reply := SendNil (code : Z) | SendCensus (c : CensusMsg) | SendDump (d : CensusDump).

Definition HTTPstatusCodeOK : Z := 200.
Definition HTTPstatusCodeErr : Z := 400.

Definition parse_token (token : string) : outcome bytes := of_sum (uuid_Parse token).

Definition censusCreateHandler (random : bytes) (authToken type : string) : U Reply :=
  token ← lift (parse_token authToken);
  let '(censusType, indexed) := censusType_of type in
  reject (bool_decide (censusType = Census_UNKNOWN)) (Errorf "census type is unknown");;
  createNewCensus random censusType indexed false (Some token);;
  mret (SendCensus (mkCensusMsg random "" None "" "" "" 0 false "")).

Definition censusAddHandler (authToken censusID key weight : string) : U Reply :=
  token ← lift (parse_token authToken);
  censusID ← lift (censusIDparse censusID);
  key ← lift (censusKeyParse key);
  weight ← (if bool_decide (weight = "") then mret None
            else w ← lift (censusWeightParse weight); mret (Some w));
  ref ← loadCensus censusID (Some token);
  keyHash ← lift (CT_Hash (cr_tree ref) key);
  (match weight with
   | Some w => wrapping "cannot add key and value to tree"
                 (on_census censusID (CT_Add (cr_tree ref) keyHash (Some (CT_BigIntToBytes (cr_tree ref) w))))
   | None => wrapping "cannot add key to tree" (on_census censusID (CT_Add (cr_tree ref) keyHash None))
   end);;
  mret (SendNil HTTPstatusCodeOK).

Definition censusRootHandler (censusID : string) : U Reply :=
  censusID ← lift (censusIDparse censusID);
  ref ← loadCensus censusID None;
  u ← get;
  root ← lift (CT_Root (cr_tree ref) (census_at censusID u));
  mret (SendCensus (mkCensusMsg "" root None "" "" "" 0 false "")).

Definition censusDumpHandler (authToken censusID : string) : U Reply :=
  token ← lift (parse_token authToken);
  censusID ← lift (censusIDparse censusID);
  ref ← loadCensus censusID (Some token);
  u ← get;
  root ← lift (CT_Root (cr_tree ref) (census_at censusID u));
  dump ← lift (CT_Dump (cr_tree ref) (census_at censusID u));
  mret (SendDump (mkCensusDump (CensusType (cr_data ref)) (Some root) (Some (compressBytes dump))
                    (Indexed (cr_data ref)))).

Definition censusImportHandler (authToken censusID : string) (body : outcome CensusDump) : U Reply :=
  token ← lift (parse_token authToken);
  censusID ← lift (censusIDparse censusID);
  cdata ← lift body;
  match CD_Data cdata, CD_RootHash cdata with
  | Some data, Some rootHash =>
      ref ← loadCensus censusID (Some token);
      reject (negb (bool_decide (CensusType (cr_data ref) = CD_Type cdata))) (Errorf "census type does not match");;
      reject (negb (bool_decide (Indexed (cr_data ref) = CD_Indexed cdata))) (Errorf "indexed flag does not match");;
      on_census censusID (CT_ImportDump (cr_tree ref) (decompressBytes data));;
      u ← get;
      root ← lift (CT_Root (cr_tree ref) (census_at censusID u));
      reject (negb (bool_decide (root = rootHash))) (Errorf "root hash does not match after importing dump");;
      mret (SendNil HTTPstatusCodeOK)
  | _, _ => throw (Errorf "missing dump or root parameters")
  end.

Definition censusWeightHandler (censusID : string) : U Reply :=
  censusID ← lift (censusIDparse censusID);
  loadCensus censusID None;;
  weight ← gets (fun u => GetCensusWeight (census_at censusID u));
  mret (SendCensus (mkCensusMsg "" "" (Some weight) "" "" "" 0 false "")).

Definition censusSizeHandler (censusID : string) : U Reply :=
  censusID ← lift (censusIDparse censusID);
  ref ← loadCensus censusID None;
  u ← get;
  size ← lift (CT_Size (cr_tree ref) (census_at censusID u));
  mret (SendCensus (mkCensusMsg "" "" None "" "" "" size false "")).

(** The answer is sent before the tree is removed. *)
Definition censusDeleteHandler (authToken censusID : string) : U Reply :=
  token ← lift (parse_token authToken);
  censusID ← lift (censusIDparse censusID);
  loadCensus censusID (Some token);;
  delCensusRefFromDB censusID;;
  DeleteCensusTreeFromDatabase (censusName censusID);;
  mret (SendNil HTTPstatusCodeOK).

(** [storage] is nil, or answers to [Publish] with the identifier of the exported dump; an error is
    logged. *)
Definition export_uri (storage : option (CensusDump -> error + string)) (dump : CensusDump) : string :=
  match storage with
  | Some publish => match publish dump with inr uri => uri | inl _ => "" end
  | None => ""
  end.

Definition censusPublishHandler (storage : option (CensusDump -> error + string))
    (authToken censusID root : string) : U Reply :=
  token ← lift (parse_token authToken);
  censusID ← lift (censusIDparse censusID);
  ref ← loadCensus censusID (Some token);
  u ← get;
  let d := census_at censusID u in
  tree ← (if bool_decide (root = "") then mret (cr_tree ref)
          else fromRoot ← replacing "could not decode root" (lift (hex_DecodeString root));
               lift (FromRoot (cr_tree ref) fromRoot d));
  root ← lift (CT_Root tree d);
  exist ← censusRefExist root;
  reject exist (Errorf "a published census with root already exist");;
  dump ← lift (CT_Dump tree d);
  newRef ← createNewCensus root (CensusType (cr_data ref)) (Indexed (cr_data ref)) true None;
  on_census root (CT_ImportDump (cr_tree newRef) dump);;
  let uri := export_uri storage (mkCensusDump (CensusType (cr_data ref)) (Some root) (Some (compressBytes dump))
                                   (Indexed (cr_data ref))) in
  mret (SendCensus (mkCensusMsg root "" None "" "" "" 0 false uri)).

Definition censusProofHandler (censusID key : string) : U Reply :=
  censusID ← lift (censusIDparse censusID);
  key ← lift (censusKeyParse key);
  ref ← loadCensus censusID None;
  keyHash ← lift (CT_Hash (cr_tree ref) key);
  u ← get;
  p ← lift (CT_GenProof (cr_tree ref) keyHash (census_at censusID u));
  let '(leafV, siblings) := p in
  let weight := if (0 <? String.length leafV)%nat && negb (indexAsKeysCensus (cr_tree ref))
                then Some (arbo_BytesToBigInt leafV) else None in
  mret (SendCensus (mkCensusMsg "" "" weight "" siblings leafV 0 false "")).

(** The fields of the body; nil is [None]. *)
Definition censusVerifyHandler (censusID : string) (key proof root : option bytes) (value : bytes) : U Reply :=
  censusID ← lift (censusIDparse censusID);
  match key, proof with
  | Some key, Some proof =>
      ref ← loadCensus censusID None;
      keyHash ← lift (CT_Hash (cr_tree ref) key);
      u ← get;
      valid ← lift (CT_VerifyProof (cr_tree ref) keyHash value proof root (census_at censusID u));
      if valid : bool then mret (SendCensus (mkCensusMsg "" "" None "" "" "" 0 true ""))
      else mret (SendNil HTTPstatusCodeErr)
  | _, _ => throw (Errorf "missing key or proof parameters")
  end.

(** ** Requests *)

(** The methods that [enableCensusHandlers] registers, with the parameters of their paths and what
    the handlers get from outside; and a restart of the process, which empties the memory. *)
Inductive request :=
| RCreate (random : bytes) (token type : string)
| RAdd (token censusID key weight : string)
| RRoot (censusID : string)
| RDump (token censusID : string)
| RImport (token censusID : string) (body : outcome CensusDump)
| RWeight (censusID : string)
| RSize (censusID : string)
| RPublish (storage : option (CensusDump -> error + string)) (token censusID root : string)
| RDelete (token censusID : string)
| RProof (censusID key : string)
| RVerify (censusID : string) (key proof root : option bytes) (value : bytes)
| RRestart.

Definition serve (r : request) : U Reply :=
  match r with
  | RCreate random token type => censusCreateHandler random token type
  | RAdd token id key weight => censusAddHandler token id key weight
  | RRoot id => censusRootHandler id
  | RDump token id => censusDumpHandler token id
  | RImport token id body => censusImportHandler token id body
  | RWeight id => censusWeightHandler id
  | RSize id => censusSizeHandler id
  | RPublish storage token id root => censusPublishHandler storage token id root
  | RDelete token id => censusDeleteHandler token id
  | RProof id key => censusProofHandler id key
  | RVerify id key proof root value => censusVerifyHandler id key proof root value
  | RRestart => modify (set_censusMap ∅);; mret (SendNil HTTPstatusCodeOK)
  end.

(** The state after a request, whatever its answer, and after a sequence of them. *)
Definition served (u : URLAPI) (r : request) : URLAPI := (serve r u).1.
Definition served_all (u : URLAPI) (rs : list request) : URLAPI := fold_left served rs u.

(** The token of a request. *)
Definition request_token (r : request) : option bytes :=
  match r with
  | RCreate _ token _ | RAdd token _ _ _ | RDump token _ | RImport token _ _ | RPublish _ token _ _ | RDelete token _ =>
      match uuid_Parse token with inr t => Some t | inl _ => None end
  | _ => None
  end.
End api.
