(* ===== verification/CensusAPIFacts.v ===== *)
(** * The census requests: lemmas

    The invariant of the censuses of the API, that every request keeps it, and which requests leave
    a census as it is. *)

From stdpp Require Import base option list strings gmap.
From Stdlib Require Import ZArith Lia.
From S2P Require Import Prelude GoMonad GoLib GoText External Tree CensusTree CensusRuns CensusAPI.

Lemma censusName_inj i j : censusName i = censusName j -> i = j.
Proof. unfold censusName, censusDBprefix. cbn. intros [= E]. by apply hex_encode_inj. Qed.

Lemma prefix_same_length s s' : String.length s = String.length s' -> String.prefix s s' = true -> s = s'.
Proof.
  revert s'. induction s as [|c s IH]; intros [|c' s']; cbn; try done. intros [= Hl].
  case_match; [|done]. subst. intros Hp. by rewrite (IH s').
Qed.

Lemma censusName_prefix i j :
  String.length i = String.length j -> String.prefix (censusName i) (censusName j) = true -> i = j.
Proof.
  intros Hl Hp. apply censusName_inj, prefix_same_length; [|done]. unfold censusName, censusDBprefix.
  cbn. by rewrite !length_hex_encode, Hl.
Qed.

Section facts.
Context `{ArboLaws, EthCrypto, !ProofLibs, !ArboCensus, !ArboCensusLaws, !ArboIterBranch, !ApiLibs}.

(** ** The invariant *)

(** Every reference has its census, with the right weight when it has weights, the references in
    memory are those of the database, and nothing is left under an identifier without reference. *)
Record api_ok (u : URLAPI) : Prop := {
  ok_census : forall id data, u_refs u !! id = Some data -> String.length id = 32%nat /\
    exists ix a, stored (CensusType data) ix (census_at id u) a /\ (ix = false -> weight_ok a (census_at id u));
  ok_memory : forall id ref, censusMap u !! id = Some ref -> u_refs u !! id = Some (cr_data ref) /\
    forall ix a, stored (CensusType (cr_data ref)) ix (census_at id u) a -> fits (cr_tree ref) (CensusType (cr_data ref)) ix;
  ok_fresh : forall id, u_refs u !! id = None -> census_at id u = empty_census;
}.

(** The census [id], if there is one, has the same token, the same kind and the same leaves; its
    reference is the same if it has a token. *)
Definition untouched (id : bytes) (u u' : URLAPI) : Prop :=
  forall data ix a, u_refs u !! id = Some data -> stored (CensusType data) ix (census_at id u) a ->
  exists data' a', u_refs u' !! id = Some data' /\ AuthToken data' = AuthToken data /\
    (is_Some (AuthToken data) -> data' = data) /\
    stored (CensusType data') ix (census_at id u') a' /\ leaves a' = leaves a.

Lemma untouched_trans_at id u1 u2 u3 data ix a :
  untouched id u1 u2 ->
  (forall d2, u_refs u2 !! id = Some d2 -> AuthToken d2 = AuthToken data -> untouched id u2 u3) ->
  u_refs u1 !! id = Some data -> stored (CensusType data) ix (census_at id u1) a ->
  exists data' a', u_refs u3 !! id = Some data' /\ AuthToken data' = AuthToken data /\
    (is_Some (AuthToken data) -> data' = data) /\
    stored (CensusType data') ix (census_at id u3) a' /\ leaves a' = leaves a.
Proof.
  intros H12 H23 Hd S. destruct (H12 _ _ _ Hd S) as (d2 & a2 & Hd2 & Ht2 & He2 & S2 & Hl2).
  destruct (H23 _ Hd2 Ht2 _ _ _ Hd2 S2) as (d3 & a3 & Hd3 & Ht3 & He3 & S3 & Hl3). exists d3, a3. split_and!; [done|congruence| |done|congruence].
  intros Ht. rewrite He3 by (by rewrite Ht2). by apply He2.
Qed.

#[local] Instance untouched_preorder id : PreOrder (untouched id).
Proof.
  split; [intros u data ix a Hd S; by exists data, a|].
  intros u1 u2 u3 H12 H23 data ix a Hd S. by apply (untouched_trans_at id u1 u2 u3).
Qed.

(** ** One census *)

Definition put_census (id : bytes) (d : CensusDB) (u : URLAPI) : URLAPI :=
  set_trees (<[censusName id := d]> (u_trees u)) u.

Lemma census_at_put id d u id' : census_at id' (put_census id d u) = if decide (id = id') then d else census_at id' u.
Proof.
  unfold census_at, put_census. cbn. destruct (decide (id = id')) as [->|Hne]; [by rewrite lookup_insert_eq|].
  rewrite lookup_insert_ne; [done|]. intros E. by apply Hne, censusName_inj.
Qed.

Lemma on_census_run {A} id (m : GoM CensusDB A) u :
  on_census id m u = (put_census id (m (census_at id u)).1 u, (m (census_at id u)).2).
Proof. unfold on_census, zoom. by destruct (m (census_at id u)). Qed.

(** An operation on the census [id] that keeps it stored, as the same tree with other leaves. *)
Lemma put_census_ok u id data ix a d' a' :
  api_ok u -> u_refs u !! id = Some data -> stored (CensusType data) ix (census_at id u) a ->
  stored (CensusType data) ix d' a' -> (ix = false -> weight_ok a (census_at id u) -> weight_ok a' d') ->
  api_ok (put_census id d' u).
Proof.
  intros [Oc Om Of] Hd S S' Hw. split.
  - intros id1 data1 Hd1. destruct (Oc _ _ Hd1) as (Hlen & ix1 & a1 & S1 & Hw1). split; [done|].
    rewrite census_at_put. destruct (decide (id = id1)) as [<-|Hne]; [|eauto].
    cbn in Hd1. rewrite Hd1 in Hd. injection Hd as ->. exists ix, a'. split; [done|]. intros Hix. apply Hw; [done|].
    destruct (stored_unique _ _ _ _ _ _ S S1) as [-> ->]. by apply Hw1.
  - intros id1 ref Hr. destruct (Om _ _ Hr) as [Hd1 Hf]. split; [done|]. intros ix1 a1. rewrite census_at_put.
    destruct (decide (id = id1)) as [<-|Hne]; [|apply Hf]. intros S1. rewrite Hd1 in Hd. injection Hd as <-.
    destruct (stored_unique _ _ _ _ _ _ S' S1) as [-> _].
    by eapply Hf.
  - intros id1 Hn. rewrite census_at_put. destruct (decide (id = id1)) as [<-|Hne]; [cbn in Hn; congruence|by apply Of].
Qed.

Lemma put_census_other id id' d u : id' <> id -> untouched id u (put_census id' d u).
Proof.
  intros Hne data ix a Hd S. exists data, a. split_and!; [done|done|done| |done]. rewrite census_at_put.
  by rewrite decide_False.
Qed.

(** ** Loading *)

(** The same references, trees and marks: only counts may differ. *)
Definition same_store (u u' : URLAPI) : Prop :=
  u_refs u' = u_refs u /\ forall id, cd_tree (census_at id u') = cd_tree (census_at id u) /\
    (forall k, k <> censusIndexKey -> cd_kv (census_at id u') !! k = cd_kv (census_at id u) !! k) /\
    (raw_index (cd_kv (census_at id u)) < 256 ^ 32 -> raw_index (cd_kv (census_at id u')) = raw_index (cd_kv (census_at id u))).

Lemma same_store_refl u : same_store u u.
Proof. by split. Qed.

Lemma same_store_mark u u' id : same_store u u' ->
  cd_kv (census_at id u') !! isIndexAsKeysCensus = cd_kv (census_at id u) !! isIndexAsKeysCensus.
Proof. intros [_ Hs]. by apply (Hs id). Qed.

Lemma same_store_stored u u' id type ix a :
  same_store u u' -> stored type ix (census_at id u') a <-> stored type ix (census_at id u) a.
Proof. intros Hs. pose proof (same_store_mark _ _ id Hs) as Hm. destruct (proj2 Hs id) as [Ht _]. split; intros [St Sy Sm]; (split; [|done|congruence]);
    destruct St as (a0 & Ha & Ho); exists a0; (split; [congruence|done]). Qed.

Lemma same_store_untouched u u' id : same_store u u' -> untouched id u u'.
Proof.
  intros Hs data ix a Hd S. exists data, a. split_and!; [by rewrite (proj1 Hs)|done|done|by apply (same_store_stored u)|done].
Qed.

Lemma remember_ok u id ref :
  api_ok u -> u_refs u !! id = Some (cr_data ref) ->
  (forall ix a, stored (CensusType (cr_data ref)) ix (census_at id u) a -> fits (cr_tree ref) (CensusType (cr_data ref)) ix) ->
  api_ok (set_censusMap (<[id := ref]> (censusMap u)) u).
Proof.
  intros [Oc Om Of] Hd Hf. split; [exact Oc| |exact Of]. intros id1 ref1. cbn.
  rewrite lookup_insert_Some. intros [[<- <-]|[_ Hr]]; [done|]. by apply Om.
Qed.

Lemma fits_public b t type ix : fits t type ix -> fits (if b : bool then CT_Publish t else t) type ix.
Proof. destruct b; [|done]. intros []. by split. Qed.

Lemma reopened_ok u id data ix a :
  api_ok u -> u_refs u !! id = Some data -> stored (CensusType data) ix (census_at id u) a ->
  exists t d', CT_New (CensusType data) false (census_at id u) = (d', Ok t) /\ fits t (CensusType data) ix /\
    stored (CensusType data) ix d' a /\ api_ok (put_census id d' u) /\ same_store u (put_census id d' u).
Proof.
  intros I Hd S. destruct (CT_New_again _ _ _ _ S) as (t & d' & Hr & F & S' & Ht & Hkv).
  exists t, d'. split_and!; [done|done|done| |].
  - eapply put_census_ok; [done|done|exact S|exact S'|]. intros _ Hw. unfold weight_ok. by rewrite Hkv, raw_weight_bump.
  - split; [done|]. intros id'. rewrite census_at_put. destruct (decide (id = id')) as [<-|Hne]; [|done].
    rewrite Ht, Hkv. split_and!; [done|intros k Hk; by apply lookup_insert_ne|]. intros Hlt.
    pose proof (BytesToBigInt_range (default "" (cd_kv (census_at id u) !! censusIndexKey))).
    rewrite (raw_index_bump t d' a _ _ (fits_opened _ _ _ _ _ F S')); unfold raw_index in *; lia.
Qed.

Lemma check_token_cases tok data : check_token tok data = Ok tt \/ exists e, check_token tok data = Err e.
Proof. unfold check_token. destruct tok as [t|]; [|eauto]. destruct (AuthToken data) as [t'|]; [|eauto]. case_bool_decide; cbn; eauto. Qed.

Lemma loadCensus_run id tok u u' o :
  api_ok u -> loadCensus id tok u = (u', o) ->
  api_ok u' /\ same_store u u' /\
  match o with
  | Ok ref => u_refs u !! id = Some (cr_data ref) /\ check_token tok (cr_data ref) = Ok tt /\
      exists ix a, stored (CensusType (cr_data ref)) ix (census_at id u') a /\ fits (cr_tree ref) (CensusType (cr_data ref)) ix
  | Err _ => forall data, u_refs u !! id = Some data -> check_token tok data <> Ok tt
  | Panic _ => False
  end.
Proof.
  intros I. unfold loadCensus. rewrite (bind_run_Ok get _ u u u eq_refl).
  destruct (censusMap u !! id) as [ref|] eqn:Hm.
  - destruct (ok_memory _ I _ _ Hm) as [Hd Hf]. destruct (ok_census _ I _ _ Hd) as (_ & ix & a & S & _).
    unfold mbind, gom_bind, lift. destruct (check_token_cases tok (cr_data ref)) as [Hc|[e Hc]]; rewrite Hc;
      intros [= <- <-]; split_and!; eauto; [by split|by split|]. intros data Hd'. assert (data = cr_data ref) as -> by congruence.
    by rewrite Hc.
  - unfold getCensusRefFromDB. unfold mbind at 1, gom_bind at 1. rewrite (bind_run_Ok get _ u u u eq_refl).
    destruct (u_refs u !! id) as [data|] eqn:Hd; [|intros [= <- <-]; split_and!; [done|by split|by intros data]].
    cbn [mret gom_ret]. destruct (ok_census _ I _ _ Hd) as (_ & ix & a & S & _).
    destruct (check_token_cases tok data) as [Hc|[e Hc]]; rewrite Hc; unfold mbind at 1, gom_bind at 1, lift;
      [|intros [= <- <-]; split_and!; [done|by split|intros data' [= <-]; by rewrite Hc]].
    destruct (reopened_ok _ _ _ _ _ I Hd S) as (t & d' & Hr & F & S' & I' & Hu).
    rewrite (bind_run_Ok _ _ u (put_census id d' u) t) by (by rewrite on_census_run, Hr).
    intros [= <- <-]. cbn [cr_data cr_tree].
    assert (S2 : stored (CensusType data) ix (census_at id (put_census id d' u)) a) by (by rewrite census_at_put, decide_True).
    split_and!; [|exact Hu|done|done|].
    + apply (remember_ok (put_census id d' u) id (mkCensusRef _ data)); [done|done|]. intros ix1 a1 S1.
      destruct (stored_unique _ _ _ _ _ _ S2 S1) as [-> _]. by apply fits_public.
    + exists ix, a. split; [exact S2|by apply fits_public].
Qed.

(** ** Requests *)

(** The token does not open the census [id]. *)
Definition strange (id : bytes) (tok : option bytes) (u : URLAPI) : Prop :=
  forall data t, u_refs u !! id = Some data -> tok = Some t -> AuthToken data <> Some t.

(** The invariant is kept, and the census [id] is left as it is unless the token is its own. *)
Definition spares (id : bytes) (tok : option bytes) (u u' : URLAPI) : Prop :=
  api_ok u -> api_ok u' /\ (strange id tok u -> untouched id u u').

#[local] Instance spares_preorder id tok : PreOrder (spares id tok).
Proof.
  split; [intros u I; split; [done|reflexivity]|]. intros u1 u2 u3 H12 H23 I1. destruct (H12 I1) as [I2 U12].
  destruct (H23 I2) as [I3 U23]. split; [done|]. intros Hs data ix a Hd S.
  apply (untouched_trans_at id u1 u2 u3); [by apply U12| |done|done]. intros d2 Hd2 Ht2. apply U23.
  intros data' t Hd' Ht. rewrite Hd2 in Hd'. injection Hd' as <-. rewrite Ht2. by apply Hs.
Qed.

Lemma spares_load id tok cid t : keeps (spares id tok) (loadCensus cid t).
Proof.
  intros u I. destruct (loadCensus cid t u) as [u' o] eqn:Hr. destruct (loadCensus_run _ _ _ _ _ I Hr) as (I' & Hu & _).
  split; [done|]. intros _. by apply same_store_untouched.
Qed.

Lemma spares_get id tok : keeps (spares id tok) get.
Proof. intros u. reflexivity. Qed.

#[local] Hint Resolve spares_load spares_get : keeps.

Lemma spares_root id tok cid : keeps (spares id tok) (censusRootHandler cid).
Proof. unfold censusRootHandler. keeps_auto. Qed.
Lemma spares_dump id tok t cid : keeps (spares id tok) (censusDumpHandler t cid).
Proof. unfold censusDumpHandler. keeps_auto. Qed.
Lemma spares_weight id tok cid : keeps (spares id tok) (censusWeightHandler cid).
Proof. unfold censusWeightHandler. keeps_auto. Qed.
Lemma spares_size id tok cid : keeps (spares id tok) (censusSizeHandler cid).
Proof. unfold censusSizeHandler. keeps_auto. Qed.
Lemma spares_proof id tok cid key : keeps (spares id tok) (censusProofHandler cid key).
Proof. unfold censusProofHandler. keeps_auto. Qed.
Lemma spares_verify id tok cid key proof root value : keeps (spares id tok) (censusVerifyHandler cid key proof root value).
Proof. unfold censusVerifyHandler. keeps_auto. Qed.

(** A request that loads the census [cid] with a token, and then works on it. *)
Lemma spares_loaded {A} id tok cid (k : censusRef -> GoM URLAPI A) :
  (forall u ref ix a, api_ok u -> u_refs u !! cid = Some (cr_data ref) -> AuthToken (cr_data ref) = Some tok ->
     stored (CensusType (cr_data ref)) ix (census_at cid u) a -> fits (cr_tree ref) (CensusType (cr_data ref)) ix ->
     spares id (Some tok) u (k ref u).1) ->
  keeps (spares id (Some tok)) (ref ← loadCensus cid (Some tok); k ref).
Proof.
  intros Hk u. pose proof (spares_load id (Some tok) cid (Some tok) u) as HL. unfold mbind, gom_bind.
  destruct (loadCensus cid (Some tok) u) as [u' [ref|e|w]] eqn:Hr; cbn in HL; [|exact HL|exact HL]. intros I.
  destruct (loadCensus_run _ _ _ _ _ I Hr) as (I' & [Hrefs _] & Hd & Hc & ix & a & S & F).
  revert I. change (spares id (Some tok) u (k ref u').1). etrans; [exact HL|].
  apply (Hk u' ref ix a); [done|by rewrite Hrefs| |done|done]. cbn in Hc. destruct (AuthToken (cr_data ref)) as [t|]; [|done].
  apply check_Ok, negb_false_iff, bool_decide_eq_true in Hc. by subst.
Qed.

(** An operation on a census that the token opens. *)
Lemma spares_change {A} id tok cid (m : GoM CensusDB A) u data ix a :
  api_ok u -> u_refs u !! cid = Some data -> AuthToken data = Some tok -> stored (CensusType data) ix (census_at cid u) a ->
  (exists a', stored (CensusType data) ix (m (census_at cid u)).1 a' /\
     (ix = false -> weight_ok a (census_at cid u) -> weight_ok a' (m (census_at cid u)).1)) ->
  spares id (Some tok) u (on_census cid m u).1.
Proof.
  intros I Hd Ht S (a' & S' & Hw) _. rewrite on_census_run. cbn [fst]. split; [by eapply put_census_ok|].
  intros Hs. destruct (decide (cid = id)) as [->|Hne]; [by destruct (Hs data tok)|by apply put_census_other].
Qed.

Lemma keeps_token {A} (R : URLAPI -> URLAPI -> Prop) token t (k : bytes -> GoM URLAPI A) :
  uuid_Parse token = inr t -> keeps R (k t) -> keeps R (token ← lift (parse_token token); k token).
Proof.
  intros Ht Hk u. rewrite (bind_run_Ok (lift (parse_token token)) _ u u t); [apply Hk|].
  unfold parse_token. by rewrite Ht.
Qed.

Lemma spares_add id token cid key weight t :
  uuid_Parse token = inr t -> keeps (spares id (Some t)) (censusAddHandler token cid key weight).
Proof.
  intros Ht. apply (keeps_token _ _ t); [done|]. apply keeps_bind; [apply _|apply keeps_lift, _|]. intros cid'.
  apply keeps_bind; [apply _|apply keeps_lift, _|]. intros key'.
  apply keeps_bind; [apply _|destruct (bool_decide _); keeps_auto|]. intros w. apply spares_loaded.
  intros u ref ix a I Hd Htok S F. revert u I Hd S. intros u I Hd S.
  unfold mbind at 1, gom_bind at 1. cbn [lift]. destruct (CT_Hash (cr_tree ref) key') as [kh|e|p]; [|reflexivity|reflexivity].
  apply kept_bind; [apply _| |intros; reflexivity].
  destruct w as [w|]; rewrite wrapping_state; (eapply spares_change; [done|done|done|exact S|by apply CT_Add_stored]).
Qed.

Lemma spares_import id token cid body t :
  uuid_Parse token = inr t -> keeps (spares id (Some t)) (censusImportHandler token cid body).
Proof.
  intros Ht. apply (keeps_token _ _ t); [done|]. apply keeps_bind; [apply _|apply keeps_lift, _|]. intros cid'.
  apply keeps_bind; [apply _|apply keeps_lift, _|]. intros cdata.
  destruct (CD_Data cdata) as [data|], (CD_RootHash cdata) as [rootHash|]; try apply keeps_throw, _.
  apply spares_loaded. intros u ref ix a I Hd Htok S F.
  apply kept_bind; [apply _|reflexivity|]. intros [] u1 [-> _]%reject_Ok.
  apply kept_bind; [apply _|reflexivity|]. intros [] u1 [-> _]%reject_Ok.
  apply kept_bind; [apply _| |].
  - eapply spares_change; [done|done|done|exact S|].
    destruct (CT_ImportDump_stored (cr_tree ref) (decompressBytes data) _ _ _ _ F S) as (a' & S' & Hw & _). eauto.
  - intros [] u2 _. kept_auto.
Qed.

(** ** Deletion *)

Definition deleted (cid : bytes) (u : URLAPI) : URLAPI :=
  set_trees (filter (fun '(n, _) => String.prefix (censusName cid) n = false) (u_trees u))
    (set_censusMap (delete cid (censusMap u)) (set_refs (delete cid (u_refs u)) u)).

Lemma census_at_deleted cid u id :
  census_at id (deleted cid u) = if String.prefix (censusName cid) (censusName id) then empty_census else census_at id u.
Proof.
  unfold census_at, deleted. cbn [u_trees set_trees]. destruct (String.prefix _ _) eqn:E.
  - rewrite map_lookup_filter_None_2; [done|]. right. intros d _. by rewrite E.
  - destruct (u_trees u !! censusName id) as [d|] eqn:Hd.
    + by rewrite (map_lookup_filter_Some_2 _ _ _ d).
    + rewrite map_lookup_filter_None_2; [done|]. by left.
Qed.

Lemma prefix_refl s : String.prefix s s = true.
Proof. induction s as [|c s IH]; cbn; [done|]. case_match; [done|congruence]. Qed.

Lemma deleted_ok cid u :
  api_ok u -> String.length cid = 32%nat -> api_ok (deleted cid u) /\ forall id, id <> cid -> untouched id u (deleted cid u).
Proof.
  intros [Oc Om Of] Hlen.
  assert (Hother : forall id data, u_refs u !! id = Some data -> id <> cid -> census_at id (deleted cid u) = census_at id u).
  { intros id data Hd Hne. rewrite census_at_deleted. destruct (String.prefix _ _) eqn:E; [|done].
    apply censusName_prefix in E; [congruence|]. destruct (Oc _ _ Hd) as [-> _]. done. }
  split.
  - split; cbn.
    + intros id data Hd. apply lookup_delete_Some in Hd as [Hne Hd]. rewrite (Hother _ _ Hd) by done. by apply Oc.
    + intros id ref Hr. apply lookup_delete_Some in Hr as [Hne Hr]. destruct (Om _ _ Hr) as [Hd Hf].
      rewrite lookup_delete_ne, (Hother _ _ Hd) by done. done.
    + intros id Hd. rewrite census_at_deleted. destruct (decide (id = cid)) as [->|Hne]; [by rewrite prefix_refl|].
      rewrite lookup_delete_ne in Hd by done. destruct (String.prefix _ _); [done|by apply Of].
  - intros id Hne data ix a Hd S. exists data, a. cbn. rewrite lookup_delete_ne, (Hother _ _ Hd) by done. done.
Qed.

Lemma spares_delete id token cid t :
  uuid_Parse token = inr t -> keeps (spares id (Some t)) (censusDeleteHandler token cid).
Proof.
  intros Ht. apply (keeps_token _ _ t); [done|]. apply keeps_bind; [apply _|apply keeps_lift, _|]. intros cid'.
  apply (spares_loaded id t cid' (fun _ => _)). intros u ref ix a I Hd Htok S F _.
  change (api_ok (deleted cid' u) /\ (strange id (Some t) u -> untouched id u (deleted cid' u))).
  destruct (deleted_ok cid' u I) as [I' Hu]; [by apply (ok_census _ I) in Hd as [? _]|]. split; [done|].
  intros Hs. destruct (decide (id = cid')) as [->|Hne]; [by destruct (Hs (cr_data ref) t)|by apply Hu].
Qed.

(** ** Creation *)

(** The state when the tree of a new reference was opened. *)
Definition referred (id : bytes) (d : CensusDB) (ref : censusRef) (u : URLAPI) : URLAPI :=
  mkURLAPI (<[id := cr_data ref]> (u_refs u)) (<[censusName id := d]> (u_trees u)) (<[id := ref]> (censusMap u)).

Lemma census_at_referred id d ref u id' : census_at id' (referred id d ref u) = if decide (id = id') then d else census_at id' u.
Proof. apply (census_at_put id d u id'). Qed.

Lemma createNewCensus_run id type ix public tok u :
  createNewCensus id type ix public tok u =
  match CT_New type ix (census_at id u) with
  | (d, Ok t) =>
      let ref := mkCensusRef (if public then CT_Publish t else t) (mkRefData tok type ix public) in
      (referred id d ref u, Ok ref)
  | (d, Err e) => (put_census id d u, Err e)
  | (d, Panic w) => (put_census id d u, Panic w)
  end.
Proof.
  unfold createNewCensus. unfold mbind at 1, gom_bind at 1. rewrite on_census_run.
  by destruct (CT_New type ix (census_at id u)) as [d [t|e|w]].
Qed.

(** A reference to a census that is stored. *)
Lemma referred_ok u id d ref ix a :
  api_ok u -> String.length id = 32%nat -> stored (CensusType (cr_data ref)) ix d a -> (ix = false -> weight_ok a d) ->
  fits (cr_tree ref) (CensusType (cr_data ref)) ix -> api_ok (referred id d ref u).
Proof.
  intros [Oc Om Of] Hlen S Hw F. split.
  - intros id1 data1. cbn. rewrite lookup_insert_Some, census_at_referred. intros [[<- <-]|[Hne Hd]].
    + rewrite decide_True by done. eauto.
    + rewrite decide_False by done. by apply Oc.
  - intros id1 ref1. cbn. rewrite lookup_insert_Some, census_at_referred. intros [[<- <-]|[Hne Hr]].
    + rewrite decide_True, lookup_insert_eq by done. split; [done|]. intros ix1 a1 S1.
      by destruct (stored_unique _ _ _ _ _ _ S S1) as [-> _].
    + rewrite decide_False, lookup_insert_ne by done. by apply Om.
  - intros id1. cbn. rewrite lookup_insert_None, census_at_referred. intros [Hn Hne]. rewrite decide_False by done. by apply Of.
Qed.

(** A reference under another identifier, or one that takes the place of a public reference to the same leaves. *)
Lemma referred_untouched u id d ref id' :
  (forall data ix a, id' = id -> u_refs u !! id = Some data -> stored (CensusType data) ix (census_at id u) a ->
     AuthToken (cr_data ref) = None /\ AuthToken data = None /\
     exists a', stored (CensusType (cr_data ref)) ix d a' /\ leaves a' = leaves a) ->
  untouched id' u (referred id d ref u).
Proof.
  intros Hsame data ix a Hd S. destruct (decide (id = id')) as [<-|Hne].
  - destruct (Hsame _ _ _ eq_refl Hd S) as (Ht & Ht' & a' & S' & Hl). exists (cr_data ref), a'.
    rewrite census_at_referred, decide_True by done.
    split_and!; [apply lookup_insert_eq|congruence|rewrite Ht'; by intros [??]|done|done].
  - exists data, a. rewrite census_at_referred, decide_False by done.
    split_and!; [by apply lookup_insert_Some; right|done|done|done|done].
Qed.

Lemma weight_ok_new h l d : raw_weight (cd_kv d) = 0 -> weight_ok (arbo_new h l) d.
Proof. intros Hr _. by rewrite leaves_new. Qed.

(** Under an identifier without reference, the census is new. *)
Lemma createNewCensus_fresh id type ix public tok h u :
  api_ok u -> String.length id = 32%nat -> u_refs u !! id = None -> type_hash type = Some h ->
  exists ref d, createNewCensus id type ix public tok u = (referred id d ref u, Ok ref) /\
    cr_data ref = mkRefData tok type ix public /\ fits (cr_tree ref) type ix /\ stored type ix d (arbo_new h nLevels) /\
    raw_index (cd_kv d) = 0 /\ raw_weight (cd_kv d) = 0 /\
    api_ok (referred id d ref u) /\ (forall id', untouched id' u (referred id d ref u)).
Proof.
  intros I Hlen Hn Hh. destruct (CT_New_empty type ix h Hh) as (t & d & Hr & F & S & Hi & Hw & _).
  exists (mkCensusRef (if public then CT_Publish t else t) (mkRefData tok type ix public)), d.
  rewrite createNewCensus_run, (ok_fresh _ I _ Hn), Hr. pose proof (fits_public public _ _ _ F) as F'.
  split_and!; try done.
  - eapply referred_ok; [done|done|exact S|intros _; by apply weight_ok_new|done].
  - intros id'. apply referred_untouched. intros data ix' a -> Hd. congruence.
Qed.

(** Over a public census, the census is opened again, with its leaves and its numbering. *)
Lemma createNewCensus_over id type ix h u data0 ix0 a0 :
  api_ok u -> u_refs u !! id = Some data0 -> AuthToken data0 = None ->
  stored (CensusType data0) ix0 (census_at id u) a0 -> type_hash type = Some h ->
  let '(u', o) := createNewCensus id type ix true None u in
  api_ok u' /\ (forall id', untouched id' u u') /\
  match o with
  | Ok ref => u_refs u' !! id = Some (cr_data ref) /\ CensusType (cr_data ref) = type /\ AuthToken (cr_data ref) = None /\
      exists a, stored type ix0 (census_at id u') a /\ leaves a = leaves a0 /\ fits (cr_tree ref) type ix0
  | Err _ => True
  | Panic _ => False
  end.
Proof.
  intros I Hd Ht S Hh. rewrite createNewCensus_run. pose proof (CT_New_run type ix h (census_at id u) Hh) as Hr.
  destruct (stored_retype _ type h _ _ _ S Hh) as (a & S' & Hl & _).
  destruct S as [(b & Sb & Sa) Sy Sm]. rewrite Sm in Hr.
  assert (Hb : load_tree h (census_at id u) = b) by (unfold load_tree; by rewrite Sb). rewrite Hb in Hr.
  assert (S : stored (CensusType data0) ix0 (census_at id u) a0) by (split; eauto).
  destruct (ix && _).
  - destruct Hr as [e ->]. assert (E : set_cd_tree b (census_at id u) = census_at id u).
    { revert Sb. destruct (census_at id u). cbn. by intros ->. }
    rewrite E. split_and!; [by eapply put_census_ok| |done]. intros id' data ix' a' Hd' S''. exists data, a'.
    split_and!; [done|done|done| |done]. rewrite census_at_put. destruct (decide (id = id')) as [->|]; done.
  - destruct Hr as (t & -> & F). set (d := mkCensusDB (Some b) (bump t 0 (cd_kv (census_at id u)))).
    assert (F' : fits (CT_Publish t) type ix0).
    { apply (fits_public true). replace ix0 with (bool_decide (mark_of ix0 = mark_of true)); [done|]. by destruct ix0. }
    assert (Sd : stored type ix0 d a).
    { destruct S' as [(c & Sc & Sa') Sy' Sm']. split; [|done|]; unfold d; cbn [cd_tree cd_kv]; [|by rewrite bump_lookup].
      exists b. split; [done|]. rewrite Sc in Sb. by injection Sb as ->. }
    cbv zeta. split_and!; [| |apply lookup_insert_eq|done|done|].
    + eapply referred_ok; [done|by apply (ok_census _ I) in Hd as [? _]|exact Sd| |done]. intros ->.
      destruct (ok_census _ I _ _ Hd) as (_ & ix1 & a1 & S1 & Hw). destruct (stored_unique _ _ _ _ _ _ S S1) as [-> ->].
      unfold weight_ok, d. cbn [cd_kv]. rewrite raw_weight_bump, Hl. by apply Hw.
    + intros id'. apply referred_untouched. intros data ix' a' -> Hd' S1.
      assert (data = data0) as -> by congruence. destruct (stored_unique _ _ _ _ _ _ S S1) as [-> ->]. eauto.
    + exists a. rewrite census_at_referred, decide_True by done. done.
Qed.

Lemma spares_create id tok token random type t u :
  uuid_Parse token = inr t -> String.length random = 32%nat -> u_refs u !! random = None ->
  spares id tok u (censusCreateHandler random token type u).1.
Proof.
  intros Ht Hlen Hn I. unfold censusCreateHandler.
  rewrite (bind_run_Ok (lift (parse_token token)) _ u u t) by (unfold parse_token; by rewrite Ht). cbv beta.
  destruct (censusType_of type) as [ct ix] eqn:E.
  destruct (bool_decide (ct = Census_UNKNOWN)) eqn:Hk; [by split|].
  rewrite (bind_run_Ok (reject false _) _ u u tt eq_refl). cbv beta. assert (exists h, type_hash ct = Some h) as [h Hh].
  { unfold censusType_of in E. repeat case_match; simplify_eq; eauto. }
  destruct (createNewCensus_fresh random ct ix false (Some t) h u I Hlen Hn Hh) as (ref & d & Hc & _ & _ & _ & _ & _ & I' & Hu).
  rewrite (bind_run_Ok _ _ _ _ _ Hc). split; [done|]. intros _. exact (Hu id).
Qed.

(** ** Publication *)

(** The public census under the root of [src], if there is one, has the leaves of [src]. *)
Definition agrees (src : arbo) (u : URLAPI) : Prop :=
  forall data ix a, u_refs u !! arbo_root src = Some data -> stored (CensusType data) ix (census_at (arbo_root src) u) a ->
  AuthToken data = None /\ leaves src = leaves a.

(** No two trees have the same root and other leaves, among the trees of the censuses and their earlier versions, and
    no census with a token has an identifier that is a root. *)
Definition no_collision (u : URLAPI) : Prop :=
  forall cid data ix a src, u_refs u !! cid = Some data -> stored (CensusType data) ix (census_at cid u) a ->
  (src = a \/ exists r, arbo_snapshot a r = inr src) -> agrees src u.

Lemma same_store_agrees u u' src : same_store u u' -> agrees src u -> agrees src u'.
Proof. intros Hs Ha data ix a Hd S. rewrite (proj1 Hs) in Hd. apply (same_store_stored _ _ _ _ _ _ Hs) in S. eauto. Qed.

Definition import_into (root : bytes) (type : Census_Type) (indexed : bool) (dump : bytes) : GoM URLAPI unit :=
  newRef ← createNewCensus root type indexed true None;
  on_census root (CT_ImportDump (cr_tree newRef) dump).

Lemma import_into_ok src type ix h dump u :
  api_ok u -> type_hash type = Some h -> arbo_dump src = inr dump -> agrees src u ->
  api_ok (import_into (arbo_root src) type ix dump u).1 /\
  forall id, untouched id u (import_into (arbo_root src) type ix dump u).1.
Proof.
  intros I Hh Hdump Ha. unfold import_into. set (root := arbo_root src) in *.
  destruct (u_refs u !! root) as [data0|] eqn:Hd.
  - destruct (ok_census _ I _ _ Hd) as (_ & ix0 & a0 & S0 & _). destruct (Ha _ _ _ Hd S0) as [Ht0 Hl0].
    pose proof (createNewCensus_over root type ix h u data0 ix0 a0 I Hd Ht0 S0 Hh) as Hc.
    unfold mbind, gom_bind. destruct (createNewCensus _ _ _ _ _ u) as [u1 [ref|e|w]]; [|naive_solver|naive_solver].
    destruct Hc as (I1 & U1 & Hd1 & <- & Ht1 & a1 & S1 & Hl1 & F1). rewrite on_census_run. cbn [fst].
    destruct (CT_ImportDump_stored _ dump _ _ _ _ F1 S1) as (a2 & S2 & Hw2 & Hi2).
    split; [by eapply put_census_ok|]. intros id. etrans; [apply U1|].
    destruct (decide (root = id)) as [<-|Hne]; [|by apply put_census_other].
    intros data ix' a Hd' S'. assert (data = cr_data ref) as -> by congruence.
    destruct (stored_unique _ _ _ _ _ _ S1 S') as [-> ->]. exists (cr_data ref), a2.
    rewrite census_at_put, decide_True by done. split_and!; [done|done|done|done|].
    destruct Hi2 as [Hi| ->]; [|done]. rewrite (import_leaves _ _ _ _ Hdump Hi). congruence.
  - destruct (createNewCensus_fresh root type ix true None h u I (root_length src) Hd Hh)
      as (ref & d & Hc & Hdata & F & S & _ & _ & I1 & U1).
    rewrite (bind_run_Ok _ _ _ _ _ Hc). cbv beta. rewrite on_census_run. cbn [fst].
    assert (S' : stored (CensusType (cr_data ref)) ix (census_at root (referred root d ref u)) (arbo_new h nLevels)).
    { rewrite census_at_referred, decide_True, Hdata by done. exact S. }
    assert (F' : fits (cr_tree ref) (CensusType (cr_data ref)) ix) by (by rewrite Hdata).
    destruct (CT_ImportDump_stored _ dump _ _ _ _ F' S') as (a2 & S2 & Hw2 & _).
    split; [eapply put_census_ok; [done|apply lookup_insert_eq|exact S'|done|done]|]. intros id.
    destruct (decide (root = id)) as [<-|Hne]; [intros data ix' a Hd'; congruence|].
    etrans; [apply U1|by apply put_census_other].
Qed.

Lemma bind_last_state {A B C} (m : GoM URLAPI A) (f : A -> GoM URLAPI B) (c : C) u :
  ((a ← m; (f a;; mret c)) u).1 = ((a ← m; f a) u).1.
Proof. unfold mbind, gom_bind. destruct (m u) as [u1 [x|e|w]]; [|done|done]. by destruct (f x u1) as [u2 [y|e|w]]. Qed.

(** The tree that is published: the tree of the census, or an earlier version of it. *)
Lemma published_tree t type ix d a root u tree u' :
  opened t d a -> fits t type ix ->
  (if bool_decide (root = "") then mret t
   else fromRoot ← replacing "could not decode root" (lift (hex_DecodeString root)); lift (FromRoot t fromRoot d)) u =
    ((u', Ok tree) : URLAPI * outcome CTree) ->
  u' = u /\ exists src, tree_of tree d = Ok src /\ (src = a \/ exists r, arbo_snapshot a r = inr src) /\ (root = "" -> src = a).
Proof.
  intros O F. case_bool_decide as Hroot.
  - intros [-> ->]%ret_Ok. split; [done|]. exists a. split_and!; [apply O|by left|done].
  - intros (r & u1 & Hr & Ht)%bind_Ok. apply replacing_Ok, lift_Ok in Hr as [-> _]. apply lift_Ok in Ht as [-> Ht].
    split; [done|]. unfold FromRoot in Ht. rewrite (op_tree _ _ _ O) in Ht. cbn in Ht.
    destruct (arbo_snapshot a r) as [e|src] eqn:Hs; [done|]. cbn in Ht. injection Ht as <-. exists src.
    split_and!; [done|by right; exists r|done].
Qed.

Lemma no_collision_same u u' : same_store u u' -> no_collision u -> no_collision u'.
Proof.
  intros Hs Hnc cid data ix a src Hd S Hsrc. rewrite (proj1 Hs) in Hd. apply (same_store_stored _ _ _ _ _ _ Hs) in S.
  eapply same_store_agrees; [done|by eapply Hnc].
Qed.

Lemma spares_publish id tok storage token cid root t u :
  uuid_Parse token = inr t -> no_collision u -> spares id tok u (censusPublishHandler storage token cid root u).1.
Proof.
  intros Ht Hnc I. enough (Hsp : spares id tok u (censusPublishHandler storage token cid root u).1) by (by apply Hsp).
  unfold censusPublishHandler.
  rewrite (bind_run_Ok (lift (parse_token token)) _ u u t) by (unfold parse_token; by rewrite Ht). cbv beta.
  apply kept_bind; [apply _|reflexivity|]. intros cid' u0 [-> _]%lift_Ok.
  apply kept_bind; [apply _|apply spares_load|]. intros ref u1 Hl.
  destruct (loadCensus_run _ _ _ _ _ I Hl) as (I1 & Hs & Hd & _ & ix & a & S & F).
  apply (no_collision_same _ _ Hs) in Hnc. rewrite <- (proj1 Hs) in Hd. pose proof (fits_opened _ _ _ _ _ F S) as O.
  rewrite (bind_run_Ok get _ u1 u1 u1 eq_refl). cbv beta zeta.
  apply kept_bind; [apply _|kept_auto; by case_bool_decide; keeps_auto|]. intros tree u2 Htree.
  destruct (published_tree _ _ _ _ _ _ _ _ _ O F Htree) as (-> & src & Hsrc & Hfrom & _).
  apply kept_bind; [apply _|reflexivity|]. intros root' u2 [-> Hroot]%lift_Ok.
  unfold CT_Root in Hroot. rewrite Hsrc in Hroot. injection Hroot as <-.
  apply kept_bind; [apply _|reflexivity|]. intros exist u2 Hex. unfold censusRefExist, gets in Hex. injection Hex as <- _.
  apply kept_bind; [apply _|reflexivity|]. intros [] u2 [-> _]%reject_Ok.
  apply kept_bind; [apply _|reflexivity|]. intros dump u2 [-> Hdump]%lift_Ok.
  unfold CT_Dump in Hdump. rewrite Hsrc in Hdump. cbn in Hdump. destruct (arbo_dump src) as [e|b] eqn:Hb; [done|]. injection Hdump as <-.
  rewrite bind_last_state. change (spares id tok u1
    (import_into (arbo_root src) (CensusType (cr_data ref)) (Indexed (cr_data ref)) b u1).1).
  destruct (import_into_ok src (CensusType (cr_data ref)) (Indexed (cr_data ref)) (hasher a) b u1) as [I2 U2];
    [done|apply S|done|exact (Hnc _ _ _ _ _ Hd S Hfrom)|]. intros _. split; [done|]. intros _. exact (U2 id).
Qed.

(** A dump that is imported into an empty census of the same kind. *)
Lemma import_fresh t type ix d a src dump :
  fits t type ix -> stored type ix d a -> leaves a = ∅ -> raw_index (cd_kv d) = 0 ->
  hasher src = hasher a -> levels src = nLevels -> arbo_dump src = inr dump ->
  (ix = true -> exists ks kv, numbered ks src kv /\ Z.of_nat (List.length ks) < 2 ^ 32) ->
  exists d' a', CT_ImportDump t dump d = (d', Ok tt) /\ stored type ix d' a' /\
    leaves a' = leaves src /\ arbo_root a' = arbo_root src /\
    (ix = true -> forall ks kv, numbered ks src kv -> Z.of_nat (List.length ks) < 2 ^ 32 -> numbered ks a' (cd_kv d')).
Proof.
  intros F S Hl0 Hx Hh Hlev Hdump Hks. pose proof (fits_opened _ _ _ _ _ F S) as O. pose proof (ft_indexed _ _ _ F) as Hi.
  destruct (import_dump a dump src) as (a' & Himp & Hl & Hr); [done|by rewrite (op_levels _ _ _ O)|done|done|].
  pose proof (CT_ImportDump_mark t dump d) as Hm. rewrite (sd_mark _ _ _ _ S) in Hm.
  assert (exists d', CT_ImportDump t dump d = (d', Ok tt) /\ opened t d' a' /\
            (ix = true -> forall ks kv, numbered ks src kv -> Z.of_nat (List.length ks) < 2 ^ 32 -> numbered ks a' (cd_kv d')))
    as (d' & Hd' & O' & Hnum).
  { destruct ix.
    - destruct (Hks eq_refl) as (ks0 & kv0 & N0 & Hb0).
      destruct (CT_ImportDump_indexed _ _ _ _ _ _ _ _ O Hi Hx Hdump N0 Hb0 Himp) as (d' & Hd' & O' & _).
      exists d'. split_and!; [done|done|]. intros _ ks kv N Hb.
      destruct (CT_ImportDump_indexed _ _ _ _ _ _ _ _ O Hi Hx Hdump N Hb Himp) as (d2 & Hd2 & _ & N2). congruence.
    - pose proof (CT_ImportDump_weighted _ dump _ _ O Hi) as Hw. rewrite Himp in Hw. destruct Hw as (d' & Hd' & O' & _).
      by exists d'. }
  rewrite Hd' in Hm. exists d', a'. split_and!; [done|by eapply opened_stored|done|done|done].
Qed.

(** Under a root without reference, the new census has the leaves of the source, its weight or its numbering, and its root. *)
Lemma import_into_fresh src type ix dump u :
  api_ok u -> type_hash type = Some (hasher src) -> levels src = nLevels -> arbo_dump src = inr dump ->
  u_refs u !! arbo_root src = None ->
  (ix = true -> exists ks kv, numbered ks src kv /\ Z.of_nat (List.length ks) < 2 ^ 32) ->
  exists u' a', import_into (arbo_root src) type ix dump u = (u', Ok tt) /\
    u_refs u' = <[arbo_root src := mkRefData None type ix true]> (u_refs u) /\
    stored type ix (census_at (arbo_root src) u') a' /\ leaves a' = leaves src /\ arbo_root a' = arbo_root src /\
    (ix = true -> forall ks kv, numbered ks src kv -> Z.of_nat (List.length ks) < 2 ^ 32 ->
       numbered ks a' (cd_kv (census_at (arbo_root src) u'))).
Proof.
  intros I Hh Hlev Hdump Hn Hks. set (root := arbo_root src) in *.
  destruct (createNewCensus_fresh root type ix true None _ u I (root_length src) Hn Hh)
    as (ref & d & Hc & Hdata & F & S & Hx & _ & _ & _).
  destruct (import_fresh _ _ _ _ _ src dump F S (leaves_new _ _) Hx) as (d' & a' & Hd' & S' & Hl & Hr & Hnum);
    [by rewrite hasher_new|done|done|done|].
  exists (put_census root d' (referred root d ref u)), a'.
  rewrite census_at_put, decide_True by done. split_and!; [| |done|done|done|done].
  - unfold import_into. rewrite (bind_run_Ok _ _ _ _ _ Hc). cbv beta. rewrite on_census_run, census_at_referred, decide_True by done.
    by rewrite Hd'.
  - cbn. by rewrite Hdata.
Qed.

(** A census is opened by its token, and without token. *)
Lemma loadCensus_checked id data tok ix a u :
  api_ok u -> u_refs u !! id = Some data -> check_token tok data = Ok tt -> stored (CensusType data) ix (census_at id u) a ->
  exists u' ref, loadCensus id tok u = (u', Ok ref) /\ api_ok u' /\ same_store u u' /\ cr_data ref = data /\
    stored (CensusType data) ix (census_at id u') a /\ fits (cr_tree ref) (CensusType data) ix.
Proof.
  intros I Hd Hct S. destruct (loadCensus id tok u) as [u1 o] eqn:Hl.
  destruct (loadCensus_run _ _ _ _ _ I Hl) as (I1 & Hs & Ho).
  destruct o as [ref|e|w]; [|by destruct (Ho _ Hd)|done]. destruct Ho as (Hd1 & _ & ix1 & a1 & S1 & F1).
  assert (cr_data ref = data) as Hdata by congruence. rewrite Hdata in S1, F1.
  pose proof (proj1 (same_store_stored _ _ _ _ _ _ Hs) S1) as S1'.
  destruct (stored_unique _ _ _ _ _ _ S S1') as [-> ->]. by exists u1, ref.
Qed.

Lemma loadCensus_open id data t ix a u :
  api_ok u -> u_refs u !! id = Some data -> AuthToken data = Some t -> stored (CensusType data) ix (census_at id u) a ->
  exists u' ref, loadCensus id (Some t) u = (u', Ok ref) /\ api_ok u' /\ same_store u u' /\ cr_data ref = data /\
    stored (CensusType data) ix (census_at id u') a /\ fits (cr_tree ref) (CensusType data) ix.
Proof. intros I Hd Htok S. apply loadCensus_checked; [done|done| |done]. cbn. rewrite Htok. by rewrite bool_decide_true. Qed.

Lemma hash_fits t type ix d a b : fits t type ix -> stored type ix d a -> CT_Hash t b = of_sum (arbo_hash (hasher a) b).
Proof. intros F S. unfold CT_Hash. by rewrite (ft_hash _ _ _ F), (sd_type _ _ _ _ S). Qed.

(** A key that a request has added to a census with weights is a leaf, with the weight as its value. *)
Lemma add_run token cid t u id data a key kb weight w u' r :
  api_ok u -> uuid_Parse token = inr t -> censusIDparse cid = Ok id -> u_refs u !! id = Some data -> AuthToken data = Some t ->
  stored (CensusType data) false (census_at id u) a -> censusKeyParse key = Ok kb ->
  weight <> "" -> censusWeightParse weight = Ok w -> 0 <= w < 2 ^ 256 ->
  censusAddHandler token cid key weight u = (u', Ok r) ->
  u_refs u' = u_refs u /\ exists a' kh v, stored (CensusType data) false (census_at id u') a' /\
    arbo_hash (hasher a') kb = inr kh /\ leaves a' !! kh = Some v /\ arbo_BytesToBigInt v = w.
Proof.
  intros I Ht Hid Hd Htok S Hkey Hne Hw Hlt Hrun. unfold censusAddHandler in Hrun.
  rewrite (bind_run_Ok (lift (parse_token token)) _ u u t) in Hrun by (unfold parse_token; by rewrite Ht). cbv beta in Hrun.
  rewrite (bind_run_Ok (lift (censusIDparse cid)) _ u u id) in Hrun by (unfold lift; by rewrite Hid). cbv beta in Hrun.
  rewrite (bind_run_Ok (lift (censusKeyParse key)) _ u u kb) in Hrun by (unfold lift; by rewrite Hkey). cbv beta in Hrun.
  rewrite (bool_decide_eq_false_2 _ Hne), (bind_run_Ok _ _ u u (Some w)) in Hrun
    by (by rewrite (bind_run_Ok (lift (censusWeightParse weight)) _ u u w) by (unfold lift; by rewrite Hw)).
  cbv beta in Hrun. destruct (loadCensus_open _ _ _ _ _ _ I Hd Htok S) as (u1 & ref & Hl & I1 & Hs & Hdata & S1 & F1).
  rewrite (bind_run_Ok _ _ _ _ _ Hl) in Hrun. cbv beta in Hrun. rewrite (hash_fits _ _ _ _ _ _ F1 S1) in Hrun.
  destruct (arbo_hash (hasher a) kb) as [e|kh] eqn:Hh; [done|].
  rewrite (bind_run_Ok (lift (of_sum (inr kh))) _ u1 u1 kh eq_refl) in Hrun. cbv beta in Hrun.
  apply bind_Ok in Hrun as ([] & u2 & Hadd%wrapping_Ok & Hret). apply ret_Ok in Hret as [-> _].
  pose proof (fits_opened _ _ _ _ _ F1 S1) as O. set (v := CT_BigIntToBytes (cr_tree ref) w) in *.
  destruct (CT_Add_stored (cr_tree ref) kh (Some v) _ _ _ _ F1 S1) as (a' & S' & _).
  rewrite on_census_run in Hadd. destruct (CT_Add (cr_tree ref) kh (Some v) (census_at id u1)) as [d' o] eqn:Hrun'.
  cbn in Hadd, S'. injection Hadd as <- ->.
  destruct (CT_Add_weighted _ _ _ _ _ _ O (ft_indexed _ _ _ F1) Hrun') as (a2 & Ha & O2 & _).
  assert (a2 = a') as -> by (pose proof (op_tree _ _ _ O2) as E; rewrite (op_tree _ _ _ (fits_opened _ _ _ _ _ F1 S')) in E; congruence).
  split; [apply Hs|]. exists a', kh, v. rewrite census_at_put, decide_True, (hasher_add _ _ _ _ Ha) by done.
  split_and!; [done|done| |by apply (decode_bigint _ _ _ _ O)].
  destruct (add_ok _ _ _ _ Ha) as (_ & -> & _). apply lookup_insert_eq.
Qed.

(** The requests for the proof of a leaf and for its verification. *)
Lemma proof_run cid u id data a key kb kh v :
  api_ok u -> censusIDparse cid = Ok id -> u_refs u !! id = Some data -> stored (CensusType data) false (census_at id u) a ->
  censusKeyParse key = Ok kb -> arbo_hash (hasher a) kb = inr kh -> leaves a !! kh = Some v -> v <> "" ->
  exists u' s, censusProofHandler cid key u =
      (u', Ok (SendCensus (mkCensusMsg "" "" (Some (arbo_BytesToBigInt v)) "" s v 0 false ""))) /\
    api_ok u' /\ same_store u u' /\ arbo_CheckProof (hasher a) kh v (arbo_root a) s = inr true.
Proof.
  intros I Hid Hd S Hkey Hh Hv Hne. unfold censusProofHandler.
  rewrite (bind_run_Ok (lift (censusIDparse cid)) _ u u id) by (unfold lift; by rewrite Hid). cbv beta.
  rewrite (bind_run_Ok (lift (censusKeyParse key)) _ u u kb) by (unfold lift; by rewrite Hkey). cbv beta.
  destruct (loadCensus_checked _ _ None _ _ _ I Hd eq_refl S) as (u1 & ref & Hl & I1 & Hs & _ & S1 & F1).
  rewrite (bind_run_Ok _ _ _ _ _ Hl). cbv beta. rewrite (hash_fits _ _ _ _ _ _ F1 S1), Hh.
  rewrite (bind_run_Ok (lift _) _ u1 u1 kh eq_refl). cbv beta. rewrite (bind_run_Ok get _ u1 u1 u1 eq_refl). cbv beta.
  pose proof (fits_opened _ _ _ _ _ F1 S1) as O. pose proof (ft_indexed _ _ _ F1) as Hi.
  destruct (gen_proof_found a kh v Hv) as [s Hp]. exists u1, s.
  assert (Hg : CT_GenProof (cr_tree ref) kh (census_at id u1) = Ok (v, s)).
  { unfold CT_GenProof, tree_GenProof. rewrite (op_tree _ _ _ O), Hi. cbn. by rewrite Hp. }
  rewrite Hg, (bind_run_Ok (lift _) _ u1 u1 (v, s) eq_refl). cbv beta iota zeta. rewrite Hi.
  split_and!; [|done|done|by apply gen_proof_ok]. by destruct v.
Qed.

Lemma root_run cid u id data ix a :
  api_ok u -> censusIDparse cid = Ok id -> u_refs u !! id = Some data -> stored (CensusType data) ix (census_at id u) a ->
  exists u', censusRootHandler cid u = (u', Ok (SendCensus (mkCensusMsg "" (arbo_root a) None "" "" "" 0 false ""))) /\
    api_ok u' /\ same_store u u'.
Proof.
  intros I Hid Hd S. unfold censusRootHandler.
  rewrite (bind_run_Ok (lift (censusIDparse cid)) _ u u id) by (unfold lift; by rewrite Hid). cbv beta.
  destruct (loadCensus_checked _ _ None _ _ _ I Hd eq_refl S) as (u1 & ref & Hl & I1 & Hs & _ & S1 & F1).
  rewrite (bind_run_Ok _ _ _ _ _ Hl). cbv beta. rewrite (bind_run_Ok get _ u1 u1 u1 eq_refl). cbv beta.
  unfold CT_Root. rewrite (op_tree _ _ _ (fits_opened _ _ _ _ _ F1 S1)). exists u1. by split_and!.
Qed.

Lemma verify_run cid u id data a kb kh v s root :
  api_ok u -> censusIDparse cid = Ok id -> u_refs u !! id = Some data -> stored (CensusType data) false (census_at id u) a ->
  arbo_hash (hasher a) kb = inr kh -> arbo_CheckProof (hasher a) kh v (arbo_root a) s = inr true ->
  root = None \/ root = Some (arbo_root a) ->
  exists u', censusVerifyHandler cid (Some kb) (Some s) root v u =
    (u', Ok (SendCensus (mkCensusMsg "" "" None "" "" "" 0 true ""))).
Proof.
  intros I Hid Hd S Hh Hc Hroot. unfold censusVerifyHandler.
  rewrite (bind_run_Ok (lift (censusIDparse cid)) _ u u id) by (unfold lift; by rewrite Hid). cbv beta iota.
  destruct (loadCensus_checked _ _ None _ _ _ I Hd eq_refl S) as (u1 & ref & Hl & I1 & Hs & _ & S1 & F1).
  rewrite (bind_run_Ok _ _ _ _ _ Hl). cbv beta. rewrite (hash_fits _ _ _ _ _ _ F1 S1), Hh.
  rewrite (bind_run_Ok (lift _) _ u1 u1 kh eq_refl). cbv beta. rewrite (bind_run_Ok get _ u1 u1 u1 eq_refl). cbv beta.
  destruct (verify_root (cr_tree ref) (census_at id u1) a kh v s kh) as [H1v H2v];
    [by eapply fits_opened|by rewrite (ft_indexed _ _ _ F1)|done|].
  exists u1. destruct Hroot as [-> | ->]; by rewrite ?H1v, ?H2v.
Qed.

Lemma publish_run storage token cid t u id data ix a dump :
  api_ok u -> uuid_Parse token = inr t -> censusIDparse cid = Ok id -> u_refs u !! id = Some data -> AuthToken data = Some t ->
  stored (CensusType data) ix (census_at id u) a -> Indexed data = ix -> u_refs u !! arbo_root a = None -> arbo_dump a = inr dump ->
  (ix = true -> exists ks kv, numbered ks a kv /\ Z.of_nat (List.length ks) < 2 ^ 32) ->
  exists u' msg a', censusPublishHandler storage token cid "" u = (u', Ok (SendCensus msg)) /\ CM_CensusID msg = arbo_root a /\
    api_ok u' /\ u_refs u' = <[arbo_root a := mkRefData None (CensusType data) ix true]> (u_refs u) /\
    stored (CensusType data) ix (census_at (arbo_root a) u') a' /\ leaves a' = leaves a /\ arbo_root a' = arbo_root a /\
    (ix = true -> forall ks kv, numbered ks a kv -> Z.of_nat (List.length ks) < 2 ^ 32 ->
       numbered ks a' (cd_kv (census_at (arbo_root a) u'))).
Proof.
  intros I Ht Hid Hd Htok S Hix Hn Hdump Hks. unfold censusPublishHandler.
  rewrite (bind_run_Ok (lift (parse_token token)) _ u u t) by (unfold parse_token; by rewrite Ht). cbv beta.
  rewrite (bind_run_Ok (lift (censusIDparse cid)) _ u u id) by (unfold lift; by rewrite Hid). cbv beta.
  destruct (loadCensus_open _ _ _ _ _ _ I Hd Htok S) as (u1 & ref & Hl & I1 & Hs & Hdata & S1 & F1). subst ix.
  rewrite (bind_run_Ok _ _ _ _ _ Hl). cbv beta. rewrite (bind_run_Ok get _ u1 u1 u1 eq_refl). cbv beta zeta.
  pose proof (fits_opened _ _ _ _ _ F1 S1) as O. rewrite (bool_decide_true ("" = "")) by done. rewrite (bind_run_Ok (mret (cr_tree ref)) _ u1 u1 _ eq_refl). cbv beta.
  unfold CT_Root, CT_Dump. rewrite (op_tree _ _ _ O).
  rewrite (bind_run_Ok (lift _) _ u1 u1 (arbo_root a) eq_refl). cbv beta.
  assert (Hmem : censusMap u1 !! arbo_root a = None).
  { destruct (censusMap u1 !! arbo_root a) as [r|] eqn:E; [|done]. apply (ok_memory _ I1) in E as [E _]. rewrite (proj1 Hs) in E. congruence. }
  rewrite (bind_run_Ok (censusRefExist (arbo_root a)) _ u1 u1 false) by (unfold censusRefExist, gets; by rewrite Hmem). cbv beta.
  rewrite (bind_run_Ok (reject false _) _ u1 u1 tt eq_refl). cbv beta. cbn [mbind outcome_bind]. rewrite Hdump.
  rewrite (bind_run_Ok (lift _) _ u1 u1 dump eq_refl). cbv beta.
  destruct (import_into_fresh a (CensusType data) (Indexed data) dump u1) as (u' & a' & Hrun & Hrefs & S' & Hla & Hra & Hnum);
    [done|apply S|apply O|done|by rewrite (proj1 Hs)|done|].
  destruct (import_into_ok a (CensusType data) (Indexed data) (hasher a) dump u1) as [I' _];
    [done|apply S|done|intros data' ix' a2; rewrite (proj1 Hs); congruence|].
  rewrite Hrun in I'. cbn [fst] in I'. unfold import_into in Hrun. apply bind_Ok in Hrun as (ref' & u2 & Hc & Hon).
  rewrite Hdata. rewrite (bind_run_Ok _ _ _ _ _ Hc). cbv beta. rewrite (bind_run_Ok _ _ _ _ _ Hon). cbv beta.
  rewrite (proj1 Hs) in Hrefs. eexists u', _, a'. split; [reflexivity|]. by split_and!.
Qed.

(** What a census sends as a dump, and what another makes of it. *)
Lemma dump_run token cid t u id data ix a dump :
  api_ok u -> uuid_Parse token = inr t -> censusIDparse cid = Ok id -> u_refs u !! id = Some data -> AuthToken data = Some t ->
  stored (CensusType data) ix (census_at id u) a -> arbo_dump a = inr dump ->
  exists u', censusDumpHandler token cid u =
    (u', Ok (SendDump (mkCensusDump (CensusType data) (Some (arbo_root a)) (Some (compressBytes dump)) (Indexed data)))) /\
    api_ok u' /\ same_store u u'.
Proof.
  intros I Ht Hid Hd Htok S Hdump. unfold censusDumpHandler.
  rewrite (bind_run_Ok (lift (parse_token token)) _ u u t) by (unfold parse_token; by rewrite Ht). cbv beta.
  rewrite (bind_run_Ok (lift (censusIDparse cid)) _ u u id) by (unfold lift; by rewrite Hid). cbv beta.
  destruct (loadCensus_open _ _ _ _ _ _ I Hd Htok S) as (u1 & ref & Hl & I1 & Hs & Hdata & S1 & F1).
  rewrite (bind_run_Ok _ _ _ _ _ Hl). cbv beta. rewrite (bind_run_Ok get _ u1 u1 u1 eq_refl). cbv beta zeta.
  pose proof (fits_opened _ _ _ _ _ F1 S1) as O. unfold CT_Root, CT_Dump. rewrite (op_tree _ _ _ O). cbn [mbind outcome_bind].
  rewrite Hdump, Hdata. exists u1. by split_and!.
Qed.

Lemma import_run token cid t u id data ix a src dump :
  decompressBytes (compressBytes dump) = dump ->
  api_ok u -> uuid_Parse token = inr t -> censusIDparse cid = Ok id -> u_refs u !! id = Some data -> AuthToken data = Some t ->
  stored (CensusType data) ix (census_at id u) a -> leaves a = ∅ -> raw_index (cd_kv (census_at id u)) = 0 ->
  hasher src = hasher a -> levels src = nLevels -> arbo_dump src = inr dump ->
  (ix = true -> exists ks kv, numbered ks src kv /\ Z.of_nat (List.length ks) < 2 ^ 32) ->
  exists u' a', censusImportHandler token cid
      (Ok (mkCensusDump (CensusType data) (Some (arbo_root src)) (Some (compressBytes dump)) (Indexed data))) u =
    (u', Ok (SendNil HTTPstatusCodeOK)) /\ u_refs u' = u_refs u /\
    stored (CensusType data) ix (census_at id u') a' /\ leaves a' = leaves src /\ arbo_root a' = arbo_root src.
Proof.
  intros Hz I Ht Hid Hd Htok S Hl0 Hx Hh Hlev Hdump Hks. unfold censusImportHandler.
  rewrite (bind_run_Ok (lift (parse_token token)) _ u u t) by (unfold parse_token; by rewrite Ht). cbv beta.
  rewrite (bind_run_Ok (lift (censusIDparse cid)) _ u u id) by (unfold lift; by rewrite Hid). cbv beta.
  rewrite (bind_run_Ok (lift (Ok _)) _ u u _ eq_refl). cbn [CD_Data CD_RootHash CD_Type CD_Indexed].
  destruct (loadCensus_open _ _ _ _ _ _ I Hd Htok S) as (u1 & ref & Hl & I1 & Hs & Hdata & S1 & F1).
  rewrite (bind_run_Ok _ _ _ _ _ Hl). cbv beta. rewrite Hdata, !bool_decide_true by done. cbn [negb].
  rewrite !(bind_run_Ok (reject false _) _ u1 u1 tt eq_refl). cbv beta. rewrite Hz.
  destruct (import_fresh _ _ _ _ _ src dump F1 S1 Hl0) as (d' & a' & Hd' & S' & Hla & Hra & _); [|done|done|done|done|].
  { destruct (proj2 Hs id) as (_ & _ & ->); [done|]. rewrite Hx. by vm_compute. }
  rewrite (bind_run_Ok _ _ u1 (put_census id d' u1) tt) by (by rewrite on_census_run, Hd'). cbv beta.
  rewrite (bind_run_Ok get _ _ _ _ eq_refl). cbv beta. rewrite census_at_put, decide_True by done.
  unfold CT_Root. rewrite (op_tree _ _ _ (fits_opened _ _ _ _ _ F1 S')). rewrite (bind_run_Ok (lift _) _ _ _ (arbo_root a') eq_refl).
  cbv beta. rewrite Hra, bool_decide_true by done. exists (put_census id d' u1), a'.
  rewrite census_at_put, decide_True by done. split_and!; [done|apply Hs|done|done|done].
Qed.

(** ** Sequences of requests *)

(** What the code relies on: 32 random bytes are no identifier yet, and roots do not collide. *)
Definition proper (u : URLAPI) (r : request) : Prop :=
  match r with
  | RCreate random _ _ => String.length random = 32%nat /\ u_refs u !! random = None
  | RPublish _ _ _ _ => no_collision u
  | _ => True
  end.

Fixpoint proper_all (u : URLAPI) (rs : list request) : Prop :=
  match rs with [] => True | r :: rs => proper u r /\ proper_all (served u r) rs end.

Lemma proper_all_app u rs rs' : proper_all u (rs ++ rs') -> proper_all u rs /\ proper_all (served_all u rs) rs'.
Proof.
  revert u. induction rs as [|r rs IH]; intros u Hp; [done|]. destruct Hp as [Hr Hp]. destruct (IH _ Hp). done.
Qed.

Lemma bad_token {A} token (k : bytes -> GoM URLAPI A) e u :
  uuid_Parse token = inl e -> ((token ← lift (parse_token token); k token) u).1 = u.
Proof. intros He. unfold mbind, gom_bind, lift, parse_token. by rewrite He. Qed.

Lemma restarted_ok id u : spares id None u (set_censusMap ∅ u).
Proof.
  intros [Oc Om Of]. split; [by split|]. intros _ data ix a Hd S. by exists data, a.
Qed.

Lemma served_spares id r u : proper u r -> spares id (request_token r) u (served u r).
Proof.
  unfold served. destruct r; cbn [serve request_token proper]; intros Hp;
    try (destruct (uuid_Parse token) as [e|t] eqn:Ht; 
         [match goal with |- spares _ _ _ (?m _).1 => replace (m u).1 with u by (symmetry; exact (bad_token token _ e u Ht)) end; reflexivity|]).
  - destruct Hp. by apply (spares_create _ _ _ _ _ t).
  - by apply spares_add.
  - apply spares_root.
  - apply spares_dump.
  - by apply spares_import.
  - apply spares_weight.
  - apply spares_size.
  - by apply (spares_publish _ _ _ _ _ _ t).
  - by apply spares_delete.
  - apply spares_proof.
  - apply spares_verify.
  - apply restarted_ok.
Qed.

Lemma served_all_ok rs u : api_ok u -> proper_all u rs -> api_ok (served_all u rs).
Proof.
  revert u. induction rs as [|r rs IH]; intros u I; [done|]. intros [Hp Hps]. apply IH; [|done].
  by apply (served_spares "" r u Hp).
Qed.

Lemma served_all_untouched id tok rs u :
  api_ok u -> proper_all u rs -> (forall data, u_refs u !! id = Some data -> AuthToken data = tok) ->
  (forall r t, r ∈ rs -> request_token r = Some t -> tok <> Some t) -> is_Some (u_refs u !! id) ->
  untouched id u (served_all u rs).
Proof.
  revert u. induction rs as [|r rs IH]; intros u I; [reflexivity|]. intros [Hp Hps] Htok Hr [data Hd].
  destruct (served_spares id r u Hp I) as [I1 U1].
  assert (Hu : untouched id u (served u r)).
  { apply U1. intros data' t Hd' Ht. rewrite (Htok _ Hd'). apply (Hr r); [left|done]. }
  destruct (ok_census _ I _ _ Hd) as (_ & ix & a & S & _).
  destruct (Hu _ _ _ Hd S) as (data' & _ & Hd' & Ht' & _). pose proof (Htok _ Hd) as Hdt.
  etrans; [exact Hu|]. apply IH; [done|done| | |by eexists].
  - intros data2 Hd2. assert (data2 = data') as -> by congruence. congruence.
  - intros r' t Hin. apply Hr. by right.
Qed.

(** A census with weights that has a token keeps its reference, and its leaves only grow. *)
Definition grows (id : bytes) (u u' : URLAPI) : Prop :=
  forall data a, u_refs u !! id = Some data -> is_Some (AuthToken data) -> stored (CensusType data) false (census_at id u) a ->
  exists a', u_refs u' !! id = Some data /\ stored (CensusType data) false (census_at id u') a' /\ leaves a ⊆ leaves a'.

Lemma untouched_grows id u u' : untouched id u u' -> grows id u u'.
Proof.
  intros Hu data a Hd Ht S. destruct (Hu _ _ _ Hd S) as (data' & a' & Hd' & _ & He & S' & Hl).
  rewrite (He Ht) in *. exists a'. by rewrite Hl.
Qed.

Lemma grows_trans id u1 u2 u3 : grows id u1 u2 -> grows id u2 u3 -> grows id u1 u3.
Proof.
  intros H12 H23 data a Hd Ht S. destruct (H12 _ _ Hd Ht S) as (a2 & Hd2 & S2 & Hl2).
  destruct (H23 _ _ Hd2 Ht S2) as (a3 & Hd3 & S3 & Hl3). exists a3. split_and!; [done|done|by etrans].
Qed.

Lemma spares_grows id u u' : api_ok u -> spares id None u u' -> grows id u u'.
Proof. intros I Hs. destruct (Hs I) as [_ Hu]. apply untouched_grows, Hu. by intros data t _. Qed.

Lemma CT_Add_grows id cid ref key value u :
  api_ok u -> u_refs u !! cid = Some (cr_data ref) ->
  (exists ix a, stored (CensusType (cr_data ref)) ix (census_at cid u) a /\ fits (cr_tree ref) (CensusType (cr_data ref)) ix) ->
  grows id u (on_census cid (CT_Add (cr_tree ref) key value) u).1.
Proof.
  intros I Hd (ix & a0 & S0 & F0). rewrite on_census_run. cbn [fst].
  destruct (decide (cid = id)) as [->|Hne]; [|by apply untouched_grows, put_census_other].
  intros data a Hd' Ht S. assert (data = cr_data ref) as -> by congruence.
  destruct (stored_unique _ _ _ _ _ _ S S0) as [-> ->].
  destruct (CT_Add_stored (cr_tree ref) key value _ _ _ _ F0 S) as (a' & S' & _). exists a'.
  rewrite census_at_put, decide_True by done. split_and!; [done|done|].
  destruct (CT_Add (cr_tree ref) key value (census_at id u)) as [d' o] eqn:Hr. cbn [fst] in S'.
  destruct (is_ok o) eqn:Ho.
  - destruct o as [[]| |]; [|done..].
    destruct (CT_Add_weighted _ _ _ _ _ _ (fits_opened _ _ _ _ _ F0 S) (ft_indexed _ _ _ F0) Hr) as (a2 & Ha & O2 & _).
    assert (a2 = a') as ->.
    { pose proof (op_tree _ _ _ O2) as E. rewrite (op_tree _ _ _ (fits_opened _ _ _ _ _ F0 S')) in E. congruence. }
    destruct (add_ok _ _ _ _ Ha) as (Hnew & -> & _). by apply insert_subseteq.
  - rewrite (in_tx_fails _ _ _ _ Hr Ho) in S'. by destruct (stored_unique _ _ _ _ _ _ S S') as [_ ->].
Qed.

Lemma grows_refl id u : grows id u u.
Proof. intros data a Hd _ S. by exists a. Qed.

Lemma loaded_add_grows id cid t kb w u :
  api_ok u ->
  grows id u ((ref ← loadCensus cid (Some t);
    keyHash ← lift (CT_Hash (cr_tree ref) kb);
    (match w with
     | Some w => wrapping "cannot add key and value to tree"
                   (on_census cid (CT_Add (cr_tree ref) keyHash (Some (CT_BigIntToBytes (cr_tree ref) w))))
     | None => wrapping "cannot add key to tree" (on_census cid (CT_Add (cr_tree ref) keyHash None))
     end);;
    mret (SendNil HTTPstatusCodeOK)) u).1.
Proof.
  intros I. unfold mbind, gom_bind. destruct (loadCensus cid (Some t) u) as [u1 [ref|e|p]] eqn:Hl;
    destruct (loadCensus_run _ _ _ _ _ I Hl) as (I1 & Hs & Ho); [|by apply untouched_grows, same_store_untouched|done].
  apply (grows_trans _ u u1); [by apply untouched_grows, same_store_untouched|].
  unfold lift. destruct (CT_Hash (cr_tree ref) kb) as [kh|e|p]; [|apply grows_refl..].
  destruct Ho as (Hd & _ & Hst). rewrite <- (proj1 Hs) in Hd.
  assert (Hg : forall ctx value, grows id u1 (wrapping ctx (on_census cid (CT_Add (cr_tree ref) kh value)) u1).1).
  { intros ctx value. rewrite wrapping_state. by apply CT_Add_grows. }
  destruct w as [w|]; match goal with |- context [wrapping ?c (on_census _ (CT_Add _ _ ?v)) u1] =>
    specialize (Hg c v); destruct (wrapping c (on_census cid (CT_Add (cr_tree ref) kh v)) u1) as [u2 [[]|e|p]] end; exact Hg.
Qed.

Lemma add_grows id token cid key weight u : api_ok u -> grows id u (censusAddHandler token cid key weight u).1.
Proof.
  intros I. unfold censusAddHandler.
  do 3 (unfold mbind at 1, gom_bind at 1, lift at 1; match goal with |- context [match ?o with Ok _ => _ | _ => _ end] =>
    destruct o; [|apply grows_refl..] end).
  unfold mbind at 1, gom_bind at 1. destruct (bool_decide _); [by apply loaded_add_grows|].
  unfold mbind at 1, gom_bind at 1, lift at 1. destruct (censusWeightParse weight); [|apply grows_refl..].
  by apply loaded_add_grows.
Qed.

(** A request that does not take keys from the census with the token [t]: only its deletion and an import do. *)
Definition mild (t : bytes) (r : request) : Prop :=
  match r with RImport _ _ _ | RDelete _ _ => request_token r <> Some t | _ => True end.

Lemma served_grows id t r u data :
  api_ok u -> proper u r -> mild t r -> u_refs u !! id = Some data -> AuthToken data = Some t -> grows id u (served u r).
Proof.
  intros I Hp Hm Hd Ht. pose proof (served_spares id r u Hp I) as [_ Hs].
  assert (Hother : request_token r <> Some t -> grows id u (served u r)).
  { intros Hne. apply untouched_grows, Hs. intros data' t' Hd' Ht'. assert (data' = data) as -> by congruence. congruence. }
  unfold served in *. destruct r; cbn [serve request_token proper mild] in *; try by apply Hother.
  - destruct (uuid_Parse token) as [e|t'] eqn:Hu; [by apply Hother|]. destruct Hp. by eapply spares_grows, spares_create.
  - by apply add_grows.
  - apply spares_grows, spares_dump. done.
  - destruct (uuid_Parse token) as [e|t'] eqn:Hu; [by apply Hother|]. by eapply spares_grows, spares_publish.
Qed.

Lemma served_all_grows id t rs u data :
  api_ok u -> proper_all u rs -> Forall (mild t) rs -> u_refs u !! id = Some data -> AuthToken data = Some t ->
  (exists a, stored (CensusType data) false (census_at id u) a) -> grows id u (served_all u rs).
Proof.
  revert u. induction rs as [|r rs IH]; intros u I Hp Hm Hd Ht [a S]; [intros data' a' Hd' _ S'; by exists a'|].
  destruct Hp as [Hp Hps]. apply Forall_cons in Hm as [Hm Hms].
  pose proof (served_grows id t r u data I Hp Hm Hd Ht) as Hg.
  destruct (Hg _ _ Hd (ex_intro _ t Ht) S) as (a' & Hd' & S' & _).
  apply (grows_trans _ _ (served u r)); [done|]. apply IH; try done; [by apply (served_spares id r u Hp)|by eexists].
Qed.

Lemma api_ok_init : api_ok (mkURLAPI ∅ ∅ ∅).
Proof. split; [intros id data|intros id ref|intros id _]; cbn; [by rewrite lookup_empty..|]. unfold census_at. cbn. by rewrite lookup_empty. Qed.
End facts.
