(* ===== verification/CensusManager.v ===== *)
(** * The census manager

    Models [src/census/census.go], [src/census/handler.go] and [src/census/importqueue.go]: the
    namespaces of the censuses with their trees, in the database and in memory, the requests on
    them, and the queue of the censuses that are imported from a remote storage.

    The database has a census under the name of its namespace, and the entries of the manager; the
    prefixes are taken not to run into each other.  The file of the namespaces and a dump in the
    storage are what their JSON and their compression decode to.  An operation runs to its end before
    the next one, so that the mutexes are left out; the files of old versions are not moved. *)

From stdpp Require Import base option list strings gmap.
From Stdlib Require Import ZArith Lia.
From S2P Require Import Prelude GoMonad GoLib GoText External Ethereum Tree CensusTree CensusAPI.

Definition ErrNamespaceExist : error := Sentinel "namespace already exists".
Definition CurrentCensusVersion : Z := 1.

(** [strings.Contains(s, "/")]. *)
Fixpoint has_slash (s : string) : bool :=
  match s with "" => false | String c s' => (byte_val c =? 47) || has_slash s' end.

Section manager.
Context `{Arbo, EthCrypto, !ProofLibs, !ArboCensus}.

Record Namespace := mkNamespace {
  NS_Type : Census_Type;
  NS_Name : string;
  NS_Keys : list string;
  NS_Version : Z;
}.
Record Namespaces := mkNamespaces { RootKey : string; NS_List : list Namespace }.

Record censusImport := mkCensusImport { ci_censusID : string; ci_censusURI : string }.

(** The file, which may be missing or not be JSON, and the database outlive the process. *)
Record Manager := mkManager {
  m_config : option (option Namespaces);
  m_dbs : gmap string CensusDB;
  m_kv : gmap bytes bytes;
  Census : Namespaces;
  Trees : gmap string CTree;
  importQueue : list censusImport;
  queueSize : Z;
  failedQueue : gmap string string;
}.

Definition set_m_config x (m : Manager) : Manager :=
  mkManager x (m_dbs m) (m_kv m) (Census m) (Trees m) (importQueue m) (queueSize m) (failedQueue m).
Definition set_m_dbs x (m : Manager) : Manager :=
  mkManager (m_config m) x (m_kv m) (Census m) (Trees m) (importQueue m) (queueSize m) (failedQueue m).
Definition set_m_kv x (m : Manager) : Manager :=
  mkManager (m_config m) (m_dbs m) x (Census m) (Trees m) (importQueue m) (queueSize m) (failedQueue m).
Definition set_Census x (m : Manager) : Manager :=
  mkManager (m_config m) (m_dbs m) (m_kv m) x (Trees m) (importQueue m) (queueSize m) (failedQueue m).
Definition set_Trees x (m : Manager) : Manager :=
  mkManager (m_config m) (m_dbs m) (m_kv m) (Census m) x (importQueue m) (queueSize m) (failedQueue m).
Definition set_importQueue x (m : Manager) : Manager :=
  mkManager (m_config m) (m_dbs m) (m_kv m) (Census m) (Trees m) x (queueSize m) (failedQueue m).
Definition set_queueSize x (m : Manager) : Manager :=
  mkManager (m_config m) (m_dbs m) (m_kv m) (Census m) (Trees m) (importQueue m) x (failedQueue m).
Definition set_failedQueue x (m : Manager) : Manager :=
  mkManager (m_config m) (m_dbs m) (m_kv m) (Census m) (Trees m) (importQueue m) (queueSize m) x.

Notation M := (GoM Manager).

(** The database with the name of a census in front. *)
Definition db_of (name : string) (m : Manager) : CensusDB := default empty_census (m_dbs m !! name).
Definition on_db {A} (name : string) (x : GoM CensusDB A) : M A :=
  zoom (db_of name) (fun d m => set_m_dbs (<[name := d]> (m_dbs m)) m) x.
(** What an operation of a tree reads. *)
Definition read_db {A} (name : string) (f : CensusDB -> outcome A) : M A :=
  m ← get; lift (f (db_of name m)).

(** [Publish] on the tree that [Trees] points to. *)
Definition publish_tree (name : string) : M unit := modify (fun m => set_Trees (alter CT_Publish name (Trees m)) m).

(** ** Namespaces *)

Definition save : M unit := modify (fun m => set_m_config (Some (Some (Census m))) m).

Definition Exists (name : string) (m : Manager) : bool :=
  existsb (fun ns => bool_decide (name = NS_Name ns)) (NS_List (Census m)).

Definition LoadTree (name : string) (type : Census_Type) : M unit :=
  m ← get;
  match Trees m !! name with
  | Some _ => mret tt
  | None =>
      censusTree ← on_db name (CT_New type false);
      modify (fun m => set_Trees (<[name := censusTree]> (Trees m)) m);;
      publish_tree name
  end.

Definition UnloadTree (name : string) : M unit := modify (fun m => set_Trees (delete name (Trees m)) m).

Definition AddNamespace (name : string) (type : Census_Type) (authPubKeys : list string) : M CTree :=
  m ← get;
  reject (Exists name m) ErrNamespaceExist;;
  censusTree ← on_db name (CT_New type false);
  modify (fun m => set_Trees (<[name := censusTree]> (Trees m)) m);;
  modify (fun m => set_Census (mkNamespaces (RootKey (Census m))
                                 (NS_List (Census m) ++ [mkNamespace type name authPubKeys CurrentCensusVersion])) m);;
  save;;
  mret censusTree.

(** The loop of [DelNamespace]: the first namespace with the name. *)
Fixpoint remove_namespace (name : string) (l : list Namespace) : list Namespace :=
  match l with
  | [] => []
  | ns :: l' => if bool_decide (NS_Name ns = name) then l' else ns :: remove_namespace name l'
  end.

Definition DelNamespace (name : string) : M unit :=
  reject (bool_decide (name = "")) (Errorf "no valid namespace provided");;
  m ← get;
  if negb (Exists name m) then mret tt
  else
    modify (fun m => set_Census (mkNamespaces (RootKey (Census m)) (remove_namespace name (NS_List (Census m)))) m);;
    save.

(** The censuses that were created, those that were imported, and those in memory. *)
Definition Count (m : Manager) : Z * Z * Z :=
  (Z.of_nat (List.length (List.filter (fun ns => has_slash (NS_Name ns)) (NS_List (Census m)))),
   Z.of_nat (List.length (List.filter (fun ns => negb (has_slash (NS_Name ns))) (NS_List (Census m)))),
   Z.of_nat (size (Trees m))).

(** The namespaces of the file, without those of version 0. *)
Fixpoint load_namespaces (l : list Namespace) : M bool :=
  match l with
  | [] => mret false
  | ns :: l' =>
      if NS_Version ns =? 0 then load_namespaces l';; mret true
      else if NS_Version ns =? CurrentCensusVersion then
        modify (fun m => set_Census (mkNamespaces (RootKey (Census m)) (NS_List (Census m) ++ [ns])) m);;
        load_namespaces l'
      else throw (Errorf "unexpected census version")
  end.

(** The manager of a new process. *)
Definition restarted (m : Manager) : Manager :=
  mkManager (m_config m) (m_dbs m) (m_kv m) (mkNamespaces "" []) ∅ [] 0 ∅.

Definition key_given (rootAuthPubKey : string) : bool := (PubKeyLengthBytes * 2 <=? String.length rootAuthPubKey)%nat.

Definition set_RootKey (key : string) : M unit := modify (fun m => set_Census (mkNamespaces key (NS_List (Census m))) m).

Definition Start (rootAuthPubKey : string) : M unit :=
  m ← get;
  match m_config m with
  | None =>
      modify (set_Census (mkNamespaces (if key_given rootAuthPubKey then rootAuthPubKey else "") []));;
      save
  | Some None => mret tt
  | Some (Some namespaces) =>
      set_RootKey (RootKey namespaces);;
      cleanOldCensues ← load_namespaces (NS_List namespaces);
      (if cleanOldCensues : bool then save else mret tt);;
      (if key_given rootAuthPubKey then set_RootKey rootAuthPubKey else mret tt);;
      m ← get;
      mfor (NS_List (Census m)) (fun ns => catch (LoadTree (NS_Name ns) (NS_Type ns));; mret tt)
  end.

(** ** The index of the keys *)

Definition keyCensusKeyIndex (censusID : string) (key : bytes) : bytes := path_Join ["key"; censusID; key].
Definition keyCensusLen (censusID : string) : bytes := path_Join [censusID; "len"].

(** The error of [IterateLeaves] is dropped. *)
Definition Manager_fillKeyToIndex (censusID : string) (t : CTree) : M unit :=
  m ← get;
  let indexKeys := match tree_leaves t (db_of censusID m) with Ok l => l | _ => [] end in
  let kv := fold_left (fun kv '(indexLE, key) => <[keyCensusKeyIndex censusID key := indexLE]> kv) indexKeys (m_kv m) in
  modify (set_m_kv (<[keyCensusLen censusID := LittleEndian_PutUint64 (Z.of_nat (List.length indexKeys))]> kv)).

Definition KeyToIndex (censusID : string) (key : bytes) : M bytes :=
  m ← get;
  match Trees m !! censusID with
  | None => throw (Errorf "census tree not loaded")
  | Some tr =>
      reject (negb (bool_decide (censusType tr = Census_ARBO_POSEIDON))) (Errorf "expected Tree type to be Census_ARBO_POSEIDON");;
      match m_kv m !! keyCensusKeyIndex censusID key with
      | Some index => mret index
      | None => throw (Sentinel "ErrKeyNotFound")
      end
  end.

(** ** Imports *)

(** What is published. *)
Record Dump := mkDump { D_Type : Census_Type; D_RootHash : bytes; D_Data : bytes }.

(** The storage at the time of a call: an error, with whether it is a timeout, or what was stored,
    which may not be a dump. *)
Record Storage := mkStorage {
  URIprefix : string;
  Retrieve : string -> (bool * error) + option Dump;
  Publish : Dump -> error + string;
}.

Definition Manager_ImportDump (censusID : string) (type : Census_Type) (dumpRoot data : bytes) : M unit :=
  tr ← wrapping "cannot create new census namespace" (AddNamespace censusID type []);
  wrapping "error importing dump" (on_db censusID (CT_ImportDump tr data));;
  root ← wrapping "error importing dump" (read_db censusID (CT_Root tr));
  if negb (bool_decide (root = dumpRoot)) then
    catch (DelNamespace censusID);;
    throw (Errorf "root hash does not match imported census, aborting import")
  else
    (if bool_decide (type = Census_ARBO_POSEIDON)
     then wrapping "error filling keyToIndex" (Manager_fillKeyToIndex censusID tr) else mret tt);;
    publish_tree censusID.

Definition importTree (tree : option Dump) (cid : string) : M unit :=
  match tree with
  | None => throw (Errorf "retrieved census does not have a valid format")
  | Some dump =>
      reject (negb (bool_decide (hex_encode (D_RootHash dump) = TrimHex cid)))
        (Errorf "dump root Hash and census ID root hash do not match, aborting import");;
      reject (bool_decide (D_Data dump = "")) (Errorf "no claims found on the retreived census");;
      r ← catch (Manager_ImportDump cid (D_Type dump) (D_RootHash dump) (D_Data dump));
      match r with
      | inr _ => mret tt
      | inl e => if errors_is e ErrNamespaceExist then mret tt else throw e
      end
  end.

Definition queueAdd (i : Z) : M unit := modify (fun m => set_queueSize (queueSize m + i) m).

(** [uri[len(m.RemoteStorage.URIprefix()):]]. *)
Definition uri_path (storage : Storage) (uri : string) : outcome string :=
  if (String.length (URIprefix storage) <=? String.length uri)%nat then Ok (bdrop (String.length (URIprefix storage)) uri)
  else Panic "slice bounds out of range".

(** The storage is nil when it is not configured. *)
Definition retrieve (storage : option Storage) (uri : string) : M ((bool * error) + option Dump) :=
  match storage with
  | None => panic "nil pointer dereference"
  | Some st => path ← lift (uri_path st uri); mret (Retrieve st path)
  end.

Definition AddToImportQueue (censusID censusURI : string) : M unit :=
  modify (fun m => set_importQueue (importQueue m ++ [mkCensusImport censusID censusURI]) m).

Definition handleImport (storage : option Storage) (imp : censusImport) : M unit :=
  let cid := ci_censusID imp in
  let uri := ci_censusURI imp in
  m ← get;
  if Exists cid m then mret tt
  else
    queueAdd 1;;
    r ← retrieve storage uri;
    match r with
    | inl (timeout, _) =>
        (if timeout : bool then modify (fun m => set_failedQueue (<[cid := uri]> (failedQueue m)) m) else mret tt);;
        queueAdd (-1)
    | inr censusRaw =>
        catch (importTree censusRaw cid);;
        queueAdd (-1)
    end.

(** One round of a daemon, with the import at the front of the queue. *)
Definition importQueueDaemon_round (storage : option Storage) : M unit :=
  m ← get;
  match importQueue m with
  | [] => mret tt
  | imp :: queue => modify (set_importQueue queue);; handleImport storage imp
  end.

Definition retry_import (storage : option Storage) (entry : string * string) : M unit :=
  let '(cid, uri) := entry in
  r ← retrieve storage uri;
  match r with
  | inl _ => mret tt
  | inr censusRaw =>
      catch (importTree censusRaw cid);;
      modify (fun m => set_failedQueue (delete cid (failedQueue m)) m)
  end.

(** The entries are a copy of the queue, in the order of the iteration; the storage may answer
    differently to each. *)
Definition handleImportFailedQueue (entries : list ((string * string) * option Storage)) : M unit :=
  mfor entries (fun es => retry_import es.2 es.1).
End manager.

(** ** The requests to the census manager

    [Handler] of [src/census/handler.go], a definition for each method. *)

(** The fields of a request that the manager reads; nil is [None]. *)
Record APIrequest := mkAPIrequest {
  Method : string;
  R_CensusID : string;
  R_CensusType : Census_Type;
  R_PubKeys : list string;
  R_CensusKey : option bytes;
  R_CensusKeys : list bytes;
  R_CensusValue : option bytes;
  R_Weight : option Z;
  R_Weights : list (option Z);
  R_Digested : bool;
  R_RootHash : bytes;
  R_ProofData : bytes;
  R_CensusDump : bytes;
  R_URI : string;
}.

Record APIresponse := mkAPIresponse {
  A_CensusID : string;
  A_CensusList : list string;
  A_Root : bytes;
  A_InvalidClaims : list nat;
  A_ValidProof : option bool;
  A_Siblings : bytes;
  A_CensusValue : bytes;
  A_Weight : option Z;
  A_Size : option Z;
  A_CensusDump : bytes;
  A_URI : string;
}.

Definition response0 : APIresponse := mkAPIresponse "" [] "" [] None "" "" None None "" "".

Section handler.
Context `{Arbo, EthCrypto, !ProofLibs, !ArboCensus}.
Notation M := (GoM Manager).

Definition addCensus (r : APIrequest) (censusPrefix : string) : M APIresponse :=
  let type := if bool_decide (R_CensusType r = Census_UNKNOWN) then Census_ARBO_BLAKE2B else R_CensusType r in
  reject (negb (bool_decide (type = Census_ARBO_BLAKE2B)) && negb (bool_decide (type = Census_ARBO_POSEIDON)))
    (Errorf "census type not supported");;
  let name := censusPrefix +:+ R_CensusID r in
  AddNamespace name type (R_PubKeys r);;
  publish_tree name;;
  mret (mkAPIresponse name [] "" [] None "" "" None None "" "").

Definition getCensusList : M APIresponse :=
  m ← get;
  mret (mkAPIresponse "" (map_to_list (Trees m)).*1 "" [] None "" "" None None "" "").

Definition root_response (root : bytes) (invalid : list nat) : APIresponse :=
  mkAPIresponse "" [] root invalid None "" "" None None "" "".

Definition census_getRoot (name : string) (tr : CTree) : M APIresponse :=
  root ← read_db name (CT_Root tr);
  mret (root_response root []).

(** [BigIntToBytes] of a nil number. *)
Definition weight_bytes (tr : CTree) (w : option Z) : outcome bytes :=
  match w with Some w => Ok (CT_BigIntToBytes tr w) | None => Panic "nil pointer dereference" end.

Fixpoint map_out {A B} (f : A -> outcome B) (l : list A) : outcome (list B) :=
  match l with
  | [] => Ok []
  | x :: l' => y ← f x; ys ← map_out f l'; Ok (y :: ys)
  end.

(** The values are nil when there are no keys. *)
Definition addClaimBulk (r : APIrequest) (name : string) (tr : CTree) (validAuthPrefix : bool) : M APIresponse :=
  if validAuthPrefix then
    reject ((0 <? List.length (R_Weights r))%nat && negb (List.length (R_Weights r) =? List.length (R_CensusKeys r))%nat)
      (Errorf "weights and censusKeys have different size");;
    batchKeys ← lift (if R_Digested r then Ok (R_CensusKeys r)
                      else map_out (fun k => wrapping_out "error hashig key" (CT_Hash tr k)) (R_CensusKeys r));
    batchValues ← lift (if (0 <? List.length (R_Weights r))%nat then map_out (weight_bytes tr) (R_Weights r)
                        else Ok (replicate (List.length (R_CensusKeys r)) (CT_BigIntToBytes tr 1)));
    invalidClaims ← on_db name (CT_AddBatch tr batchKeys (match batchValues with [] => None | _ => Some batchValues end));
    root ← read_db name (CT_Root tr);
    mret (root_response root invalidClaims)
  else throw (Errorf "invalid authentication").

Definition addClaim (r : APIrequest) (name : string) (tr : CTree) (validAuthPrefix : bool) : M APIresponse :=
  if validAuthPrefix then
    match R_CensusKey r with
    | None => throw (Errorf "error decoding claim data")
    | Some key =>
        key ← lift (if R_Digested r then Ok key else wrapping_out "error digesting data" (CT_Hash tr key));
        let value := CT_BigIntToBytes tr (default 1 (R_Weight r)) in
        on_db name (CT_Add tr key (Some value));;
        root ← read_db name (CT_Root tr);
        mret (root_response root [])
    end
  else throw (Errorf "invalid authentication").

(** The dump is imported when the request has keys. *)
Definition importDump (r : APIrequest) (name : string) (tr : CTree) (validAuthPrefix : bool) : M APIresponse :=
  if validAuthPrefix then
    (if (0 <? List.length (R_CensusKeys r))%nat then on_db name (CT_ImportDump tr (R_CensusDump r)) else mret tt);;
    mret response0
  else throw (Errorf "invalid authentication").

Definition importRemote (storage : option Storage) (r : APIrequest) (name : string) (tr : CTree) (validAuthPrefix : bool) : M APIresponse :=
  reject (negb validAuthPrefix) (Errorf "invalid authentication");;
  match storage with
  | None => throw (Errorf "import remote storage not supported")
  | Some st =>
      reject (negb (String.prefix (URIprefix st) (R_URI r)) || (String.length (R_URI r) <=? String.length (URIprefix st))%nat)
        (Errorf "URI not supported");;
      match Retrieve st (bdrop (String.length (URIprefix st)) (R_URI r)) with
      | inl _ => throw (Errorf "cannot retrieve census")
      | inr None => throw (Errorf "retrieved census do not have a correct format")
      | inr (Some dump) =>
          reject (bool_decide (D_Data dump = "")) (Errorf "no claims found");;
          replacing "error importing census" (on_db name (CT_ImportDump tr (D_Data dump)));;
          mret response0
      end
  end.

Definition request_key (r : APIrequest) (tr : CTree) : outcome bytes :=
  let key := default "" (R_CensusKey r) in
  if R_Digested r then Ok key else wrapping_out "error digesting data" (CT_Hash tr key).

(** The root of the request, or the last one. *)
Definition request_root (r : APIrequest) (name : string) (tr : CTree) : M bytes :=
  if bool_decide (R_RootHash r = "") then read_db name (CT_Root tr) else mret (R_RootHash r).

Definition checkProof (r : APIrequest) (name : string) (tr : CTree) : M APIresponse :=
  reject (bool_decide (R_ProofData r = "")) (Errorf "proofData not provided");;
  root ← request_root r name tr;
  key ← lift (request_key r tr);
  let value := default (CT_BigIntToBytes tr 1) (R_CensusValue r) in
  validProof ← read_db name (CT_VerifyProof tr key value (R_ProofData r) (Some root));
  mret (mkAPIresponse "" [] "" [] (Some validProof) "" "" None None "" "").

(** The key of a Poseidon census is the index, which is put in front of the siblings. *)
Definition genProof (r : APIrequest) (name : string) (tr : CTree) : M APIresponse :=
  key ← lift (request_key r tr);
  kp ← (if bool_decide (censusType tr = Census_ARBO_POSEIDON)
        then index ← KeyToIndex name key; mret (index, index) else mret (key, ""));
  p ← read_db name (CT_GenProof tr kp.1);
  let '(leafV, siblings) := p in
  let weight := if bool_decide (leafV = "") then None else Some (arbo_BytesToBigInt leafV) in
  mret (mkAPIresponse "" [] "" [] None (kp.2 +:+ siblings) leafV weight None "" "").

Definition getSize (name : string) (tr : CTree) : M APIresponse :=
  size ← read_db name (CT_Size tr);
  mret (mkAPIresponse "" [] "" [] None "" "" None (Some (i64 size)) "" "").

Definition getCensusWeight (name : string) : M APIresponse :=
  m ← get;
  mret (mkAPIresponse "" [] "" [] None "" "" (Some (GetCensusWeight (db_of name m))) None "" "").

(** The dump of the tree at a root. *)
Definition dump_root (name : string) (tr : CTree) (root : bytes) : M bytes :=
  snapshot ← read_db name (FromRoot tr root);
  read_db name (CT_Dump snapshot).

Definition dump_census (r : APIrequest) (name : string) (tr : CTree) (validAuthPrefix : bool) : M APIresponse :=
  reject (negb validAuthPrefix) (Errorf "invalid authentication");;
  root ← request_root r name tr;
  dump ← dump_root name tr root;
  mret (mkAPIresponse "" [] "" [] None "" "" None None dump "").

(** The published census is added under its root; an error other than the one of the import is logged. *)
Definition publish_census (storage : option Storage) (r : APIrequest) (name : string) (tr : CTree) (validAuthPrefix : bool) : M APIresponse :=
  reject (negb validAuthPrefix) (Errorf "invalid authentication");;
  match storage with
  | None => throw (Errorf "not supported")
  | Some st =>
      root ← read_db name (CT_Root tr);
      data ← dump_root name tr root;
      cid ← lift (of_sum (Publish st (mkDump (censusType tr) root data)));
      let namespace := hex_encode root in
      r2 ← catch (AddNamespace namespace (censusType tr) (R_PubKeys r));
      (match r2 with
       | inl _ => mret tt
       | inr tr2 =>
           i ← catch (on_db namespace (CT_ImportDump tr2 data));
           match i with
           | inl e => catch (DelNamespace namespace);; throw e
           | inr _ => publish_tree namespace
           end
       end);;
      mret (mkAPIresponse "" [] root [] None "" "" None None "" (URIprefix st +:+ cid))
  end.

(** The methods on a census, before and after the tree is taken at the root of the request. *)
Definition census_methods (storage : option Storage) (r : APIrequest) (name : string) (tr : CTree) (validAuthPrefix : bool) : M APIresponse :=
  let meth s := bool_decide (Method r = s) in
  if meth "getRoot" then census_getRoot name tr
  else if meth "addClaimBulk" then addClaimBulk r name tr validAuthPrefix
  else if meth "addClaim" then addClaim r name tr validAuthPrefix
  else if meth "importDump" then importDump r name tr validAuthPrefix
  else if meth "importRemote" then importRemote storage r name tr validAuthPrefix
  else if meth "checkProof" then checkProof r name tr
  else
    tr ← (if (1 <? String.length (R_RootHash r))%nat
          then replacing "cannot fetch snapshot for root" (read_db name (FromRoot tr (R_RootHash r))) else mret tr);
    if meth "genProof" then genProof r name tr
    else if meth "getSize" then getSize name tr
    else if meth "getCensusWeight" then getCensusWeight name
    else if meth "dumpPlain" then throw (Errorf "dumpPlain is deprecated, dump should be used instead")
    else if meth "dump" then dump_census r name tr validAuthPrefix
    else if meth "publish" then publish_census storage r name tr validAuthPrefix
    else mret response0.

Definition trim_id (r : APIrequest) : APIrequest :=
  mkAPIrequest (Method r) (TrimHex (R_CensusID r)) (R_CensusType r) (R_PubKeys r) (R_CensusKey r) (R_CensusKeys r)
    (R_CensusValue r) (R_Weight r) (R_Weights r) (R_Digested r) (R_RootHash r) (R_ProofData r) (R_CensusDump r) (R_URI r).

Definition Handler (storage : option Storage) (r : APIrequest) (censusPrefix : string) : M APIresponse :=
  let r := trim_id r in
  let name := R_CensusID r in
  if bool_decide (Method r = "addCensus") then addCensus r censusPrefix
  else if bool_decide (Method r = "getCensusList") then getCensusList
  else
    m ← get;
    reject (negb (Exists name m)) (Errorf "censusId not valid or not found");;
    let validAuthPrefix := bool_decide (censusPrefix = "") || String.prefix censusPrefix name in
    match Trees m !! name with
    | None => throw (Errorf "censusId cannot be loaded")
    | Some tr =>
        reject (negb (CT_IsPublic tr)) (Errorf "census not yet published");;
        census_methods storage r name tr validAuthPrefix
    end.
End handler.
