(* ===== verification/CensusManagerFacts.v ===== *)
(** * Facts about the census manager

    What the operations of the manager change of one census, the well-formedness of its trees, and
    the runs of an import. *)

From stdpp Require Import base option list strings gmap.
From Stdlib Require Import ZArith Lia.
From S2P Require Import Prelude GoMonad GoLib GoText External Ethereum Tree CensusTree CensusRuns CensusAPI CensusManager.

(** ** One census *)

Section spared.
Context `{Arbo, EthCrypto, !ProofLibs, !ArboCensus}.

(** The namespaces with a name. *)
Definition ns_of (n : string) (m : Manager) : list Namespace := List.filter (fun ns => bool_decide (n = NS_Name ns)) (NS_List (Census m)).

Lemma Exists_ns_of n m : Exists n m = true <-> ns_of n m <> [].
Proof.
  unfold Exists, ns_of. induction (NS_List (Census m)) as [|ns l IH]; cbn; [done|]. by case_bool_decide.
Qed.

(** The census [n] is as it was. *)
Record same_at (n : string) (m m' : Manager) : Prop := {
  sa_ns : ns_of n m' = ns_of n m;
  sa_db : db_of n m' = db_of n m;
  sa_tree : Trees m' !! n = Trees m !! n;
}.

#[global] Instance same_at_preorder n : PreOrder (same_at n).
Proof.
  split; [by split|]. intros m1 m2 m3 [A1 B1 C1] [A2 B2 C2]. by split; [rewrite A2|rewrite B2|rewrite C2].
Qed.

Lemma same_at_get n : keeps (same_at n) get.
Proof. by intros m. Qed.

Lemma same_at_read {A} n name (f : CensusDB -> outcome A) : keeps (same_at n) (read_db name f).
Proof. by intros m. Qed.

Lemma same_at_on_db {A} n name (x : GoM CensusDB A) : name <> n -> keeps (same_at n) (on_db name x).
Proof.
  intros Hn m. unfold on_db, zoom. destruct (x (db_of name m)) as [d o]. split; [done| |done].
  cbn. unfold db_of. cbn. by rewrite lookup_insert_ne.
Qed.

Lemma same_at_publish n name : name <> n -> keeps (same_at n) (publish_tree name).
Proof. intros Hn m. split; [done|done|]. cbn. by rewrite lookup_alter_ne. Qed.

Lemma same_at_save n : keeps (same_at n) save.
Proof. by intros m. Qed.

Lemma same_at_insert n name t : name <> n -> keeps (same_at n) (modify (fun m => set_Trees (<[name := t]> (Trees m)) m)).
Proof. intros Hn m. split; [done|done|]. cbn. by rewrite lookup_insert_ne. Qed.

Lemma same_at_append n ns : NS_Name ns <> n ->
  keeps (same_at n) (modify (fun m => set_Census (mkNamespaces (RootKey (Census m)) (NS_List (Census m) ++ [ns])) m)).
Proof.
  intros Hn m. split; [|done|done]. unfold ns_of. cbn. rewrite List.filter_app. cbn.
  rewrite bool_decide_eq_false_2 by congruence. apply app_nil_r.
Qed.

Lemma read_Ok {A} name (f : CensusDB -> outcome A) m m' x : read_db name f m = (m', Ok x) -> m' = m /\ f (db_of name m) = Ok x.
Proof. unfold read_db. rewrite (bind_run_Ok get _ m m m eq_refl). cbv beta. intros [-> Hf]%lift_Ok. done. Qed.

#[local] Hint Resolve same_at_get same_at_read same_at_on_db same_at_publish same_at_save same_at_insert : keeps.

Lemma same_at_AddNamespace n name type keys : name <> n -> keeps (same_at n) (AddNamespace name type keys).
Proof.
  intros Hn. unfold AddNamespace. keeps_auto. by apply same_at_append.
Qed.

Lemma remove_other n name l : name <> n ->
  List.filter (fun ns => bool_decide (n = NS_Name ns)) (remove_namespace name l) = List.filter (fun ns => bool_decide (n = NS_Name ns)) l.
Proof.
  intros Hn. induction l as [|ns l IH]; [done|]. cbn. destruct (decide (NS_Name ns = name)) as [E|E].
  - rewrite (bool_decide_eq_true_2 (NS_Name ns = name)), (bool_decide_eq_false_2 (n = NS_Name ns)) by congruence. done.
  - rewrite (bool_decide_eq_false_2 (NS_Name ns = name)) by done. cbn. by rewrite IH.
Qed.

Lemma same_at_DelNamespace n name : name <> n -> keeps (same_at n) (DelNamespace name).
Proof.
  intros Hn. unfold DelNamespace. keeps_auto. intros m. split; [|done|done]. unfold ns_of. cbn. by apply remove_other.
Qed.

Lemma same_at_fill n name t : keeps (same_at n) (Manager_fillKeyToIndex name t).
Proof. by intros m. Qed.

(** A namespace that exists is not added again. *)
Lemma AddNamespace_exists name type keys m : Exists name m = true -> AddNamespace name type keys m = (m, Err ErrNamespaceExist).
Proof. intros He. unfold AddNamespace. rewrite (bind_run_Ok get _ m m m eq_refl). cbv beta. by rewrite He. Qed.

Lemma same_at_KeyToIndex n name key : keeps (same_at n) (KeyToIndex name key).
Proof. unfold KeyToIndex. keeps_auto. Qed.

Lemma same_at_request_root n r name tr : keeps (same_at n) (request_root r name tr).
Proof. unfold request_root. keeps_auto. Qed.

Lemma same_at_dump_root n name tr root : keeps (same_at n) (dump_root name tr root).
Proof. unfold dump_root. keeps_auto. Qed.

#[local] Hint Resolve same_at_AddNamespace same_at_DelNamespace same_at_fill same_at_KeyToIndex same_at_request_root same_at_dump_root : keeps.

Lemma dump_root_Ok name tr root m m' data :
  dump_root name tr root m = (m', Ok data) ->
  m' = m /\ exists snapshot, FromRoot tr root (db_of name m) = Ok snapshot /\ CT_Dump snapshot (db_of name m) = Ok data.
Proof. unfold dump_root. intros (s & m1 & [-> Hs]%read_Ok & [-> Hd]%read_Ok)%bind_Ok. eauto. Qed.

(** ** The methods *)

(** A method that may not change [name] changes no census other than the one it publishes. *)
Definition reads (n name : string) (valid : bool) : Prop := valid = true -> name <> n.

Lemma same_at_addClaimBulk n r name tr valid : reads n name valid -> keeps (same_at n) (addClaimBulk r name tr valid).
Proof. intros Hr. unfold addClaimBulk. destruct valid; [specialize (Hr eq_refl)|]; keeps_auto. Qed.
Lemma same_at_addClaim n r name tr valid : reads n name valid -> keeps (same_at n) (addClaim r name tr valid).
Proof. intros Hr. unfold addClaim. destruct valid; [specialize (Hr eq_refl)|]; keeps_auto. Qed.
Lemma same_at_importDump n r name tr valid : reads n name valid -> keeps (same_at n) (importDump r name tr valid).
Proof. intros Hr. unfold importDump. destruct valid; [specialize (Hr eq_refl)|]; keeps_auto. Qed.
Lemma same_at_importRemote n st r name tr valid : reads n name valid -> keeps (same_at n) (importRemote st r name tr valid).
Proof.
  intros Hr. unfold importRemote. destruct valid; [specialize (Hr eq_refl); keeps_auto|]. intros m. reflexivity.
Qed.
Lemma same_at_getRoot n name tr : keeps (same_at n) (census_getRoot name tr).
Proof. unfold census_getRoot. keeps_auto. Qed.
Lemma same_at_checkProof n r name tr : keeps (same_at n) (checkProof r name tr).
Proof. unfold checkProof. keeps_auto. Qed.
Lemma same_at_genProof n r name tr : keeps (same_at n) (genProof r name tr).
Proof. unfold genProof. keeps_auto. Qed.
Lemma same_at_getSize n name tr : keeps (same_at n) (getSize name tr).
Proof. unfold getSize. keeps_auto. Qed.
Lemma same_at_getCensusWeight n name : keeps (same_at n) (getCensusWeight name).
Proof. unfold getCensusWeight. keeps_auto. Qed.
Lemma same_at_dump_census n r name tr valid : keeps (same_at n) (dump_census r name tr valid).
Proof. unfold dump_census. keeps_auto. Qed.
#[local] Hint Resolve same_at_addClaimBulk same_at_addClaim same_at_importDump same_at_importRemote same_at_getRoot same_at_checkProof
  same_at_genProof same_at_getSize same_at_getCensusWeight same_at_dump_census : keeps.

(** The methods, with what [publish] does left open. *)
Lemma census_methods_keep (R : Manager -> Manager -> Prop) `{!PreOrder R} n st r name tr valid m :
  (forall m m', same_at n m m' -> R m m') -> reads n name valid ->
  (forall tr', (tr' = tr \/ FromRoot tr (R_RootHash r) (db_of name m) = Ok tr') -> R m (publish_census st r name tr' valid m).1) ->
  R m (census_methods st r name tr valid m).1.
Proof.
  intros Hs Hr Hp. assert (Hk : forall A (x : GoM Manager A), keeps (same_at n) x -> keeps R x) by (intros A x Hx m0; apply Hs, Hx).
  unfold census_methods. do 6 (case_bool_decide; [apply Hk; eauto with keeps|]).
  assert (Htail : forall tr', (tr' = tr \/ FromRoot tr (R_RootHash r) (db_of name m) = Ok tr') ->
    R m ((if bool_decide (Method r = "genProof") then genProof r name tr'
          else if bool_decide (Method r = "getSize") then getSize name tr'
          else if bool_decide (Method r = "getCensusWeight") then getCensusWeight name
          else if bool_decide (Method r = "dumpPlain") then throw (Errorf "dumpPlain is deprecated, dump should be used instead")
          else if bool_decide (Method r = "dump") then dump_census r name tr' valid
          else if bool_decide (Method r = "publish") then publish_census st r name tr' valid
          else mret response0) m).1).
  { intros tr' Htr. do 5 (case_bool_decide; [apply Hk; eauto with keeps typeclass_instances|]). case_bool_decide; [by apply Hp|reflexivity]. }
  destruct (1 <? String.length (R_RootHash r))%nat.
  - apply (kept_bind R); [apply Hk; apply keeps_replacing; eauto with keeps|]. intros tr' m1 Hrun.
    apply replacing_Ok, read_Ok in Hrun as [-> Hrun]. apply Htail. by right.
  - rewrite (bind_run_Ok (mret tr) _ m m tr eq_refl). apply Htail. by left.
Qed.

Lemma prefix_app_true p s : String.prefix p (p +:+ s) = true.
Proof. induction p as [|c p IH]; [by destruct s|]. cbn. case_match; [done|congruence]. Qed.

(** A request with a prefix that the census [n] does not have. *)
Lemma Handler_keep (R : Manager -> Manager -> Prop) `{!PreOrder R} n st r prefix m :
  (forall m m', same_at n m m' -> R m m') -> prefix <> "" -> String.prefix prefix n = false ->
  (forall name tr tr' valid, Trees m !! name = Some tr -> (tr' = tr \/ FromRoot tr (R_RootHash r) (db_of name m) = Ok tr') ->
     R m (publish_census st (trim_id r) name tr' valid m).1) ->
  R m (Handler st r prefix m).1.
Proof.
  intros Hs Hne Hpre Hp. assert (Hk : forall A (x : GoM Manager A), keeps (same_at n) x -> keeps R x) by (intros A x Hx m0; apply Hs, Hx).
  unfold Handler. set (name := R_CensusID (trim_id r)). case_bool_decide.
  { apply Hk. unfold addCensus. assert (prefix +:+ name <> n) by (intros E; by rewrite <- E, prefix_app_true in Hpre). keeps_auto. }
  case_bool_decide; [reflexivity|]. rewrite (bind_run_Ok get _ m m m eq_refl). cbv beta.
  apply (kept_bind R); [reflexivity|]. intros u m1 Hrun. apply lift_Ok in Hrun as [-> _].
  destruct (Trees m !! name) as [tr|] eqn:Htr; [|reflexivity]. apply (kept_bind R); [reflexivity|]. intros u' m1 Hrun. apply lift_Ok in Hrun as [-> _].
  apply (census_methods_keep R n); [done| |].
  - rewrite bool_decide_eq_false_2 by done. intros Hv E. change (String.prefix prefix name = true) in Hv. by rewrite E, Hpre in Hv.
  - intros tr' Htr'. by eapply Hp.
Qed.

(** A census that exists is not changed by the publication of another one. *)
Lemma publish_spares n st r name tr valid m : Exists n m = true -> same_at n m (publish_census st r name tr valid m).1.
Proof.
  intros He. unfold publish_census. apply (kept_bind (same_at n)); [reflexivity|]. intros u m1 Hrun. apply lift_Ok in Hrun as [-> _].
  destruct st as [st|]; [|reflexivity].
  apply (kept_bind (same_at n)); [apply same_at_read|]. intros root m1 Hrun. apply read_Ok in Hrun as [-> _].
  apply (kept_bind (same_at n)); [apply same_at_dump_root|]. intros data m1 Hrun. apply dump_root_Ok in Hrun as [-> _].
  apply (kept_bind (same_at n)); [reflexivity|]. intros cid m1 Hrun. apply lift_Ok in Hrun as [-> _].
  destruct (decide (hex_encode root = n)) as [<-|Hn].
  - erewrite bind_run_Ok by (unfold catch; rewrite AddNamespace_exists by done; reflexivity). reflexivity.
  - match goal with |- same_at n m (?x m).1 => refine ((_ : keeps (same_at n) x) m) end. keeps_auto.
Qed.
End spared.

(** ** The trees of the manager *)

(** arbo: [Snapshot] is the tree at a root. *)
Class ArboSnapshotLaws `{ArboCensusLaws} :=
  snapshot_at t r t' : arbo_snapshot t r = inr t' -> arbo_root t' = r /\ levels t' = levels t /\ hasher t' = hasher t.

Section imports.
Context `{ArboLaws, EthCrypto, !ProofLibs, !ArboCensus, !ArboCensusLaws}.

(** A tree that [New] returned. *)
Definition plain (t : CTree) : Prop := ct_snapshot t = None /\ hashFunc t = type_hash (censusType t).
Definition plain_all (m : Manager) : Prop := forall name t, Trees m !! name = Some t -> plain t.

Lemma CT_New_false type d :
  match type_hash type with
  | None => CT_New type false d = (d, Err (Errorf "unrecognized census type"))
  | Some h => exists t d', CT_New type false d = (d', Ok t) /\ plain t /\ censusType t = type /\ ct_public t = false /\
      cd_tree d' = Some (load_tree h d)
  end.
Proof.
  destruct (type_hash type) as [h|] eqn:Hh; [|unfold CT_New; by rewrite Hh].
  assert (Hpub : forall d' t, CT_New type false d = (d', Ok t) -> ct_public t = false).
  { unfold CT_New. rewrite Hh. intros d' t (u & d1 & _ & (mk & d2 & _ & (ix & d3 & _ & (j & d4 & _ & (v & d5 & _ & Hr)%bind_Ok)%bind_Ok)%bind_Ok)%bind_Ok)%bind_Ok.
    apply ret_Ok in Hr as [_ <-]. done. }
  pose proof (CT_New_run type false h d Hh) as Hr. cbn [andb] in Hr.
  destruct (cd_kv d !! isIndexAsKeysCensus); destruct Hr as (t & Hr & [F1 F2 F3 F4 F5]); exists t; eexists; (split; [exact Hr|]);
    (split_and!; [split; [done|congruence]|done|by eapply Hpub|done]).
Qed.

(** What [AddNamespace] does. *)
Record added (name : string) (type : Census_Type) (h : HashFunction) (t : CTree) (m m' : Manager) : Prop := {
  ad_tree : Trees m' = <[name := t]> (Trees m);
  ad_plain : plain t;
  ad_type : censusType t = type;
  ad_public : ct_public t = false;
  ad_db : cd_tree (db_of name m') = Some (load_tree h (db_of name m));
  ad_exists : Exists name m' = true;
  ad_config : m_config m' = Some (Some (Census m'));
  ad_versions : exists ns, NS_List (Census m') = NS_List (Census m) ++ [ns] /\ NS_Version ns = CurrentCensusVersion /\
    NS_Name ns = name /\ NS_Type ns = type;
}.

Lemma AddNamespace_run name type keys m :
  Exists name m = false ->
  match type_hash type with
  | None => exists m' e, AddNamespace name type keys m = (m', Err e) /\ errors_is e ErrNamespaceExist = false /\
      Trees m' = Trees m /\ Census m' = Census m /\ forall n, same_at n m m'
  | Some h => exists m' t, AddNamespace name type keys m = (m', Ok t) /\ added name type h t m m'
  end.
Proof.
  intros He. unfold AddNamespace. rewrite (bind_run_Ok get _ m m m eq_refl). cbv beta. rewrite He.
  rewrite (bind_run_Ok (reject false _) _ m m tt eq_refl). cbv beta.
  pose proof (CT_New_false type (db_of name m)) as Hn. destruct (type_hash type) as [h|].
  - destruct Hn as (t & d' & Hr & Hp & Ht & Hpub & Hd). eexists _, t.
    assert (Hon : on_db name (CT_New type false) m = (set_m_dbs (<[name := d']> (m_dbs m)) m, Ok t)) by (unfold on_db, zoom; by rewrite Hr).
    split; [by rewrite (bind_run_Ok _ _ _ _ _ Hon)|]. split; cbn; try done.
    + unfold db_of at 1. cbn. by rewrite lookup_insert_eq.
    + rewrite existsb_app. cbn. rewrite bool_decide_eq_true_2 by done. apply orb_true_r.
    + by eexists.
  - eexists _, _. split; [unfold mbind, gom_bind, on_db, zoom; rewrite Hn; reflexivity|]. split_and!; [done|done|done|].
    intros n. split; [done| |done]. unfold db_of. cbn. destruct (decide (name = n)) as [->|Hne]; [by rewrite lookup_insert_eq|by rewrite lookup_insert_ne].
Qed.

Lemma added_public name type h t m m' n t' :
  added name type h t m m' -> Trees m' !! n = Some t' -> ct_public t' = true -> n <> name /\ Trees m !! n = Some t'.
Proof.
  intros A Ht Hp. rewrite (ad_tree _ _ _ _ _ _ A) in Ht. destruct (decide (name = n)) as [->|Hne].
  - rewrite lookup_insert_eq in Ht. injection Ht as <-. by rewrite (ad_public _ _ _ _ _ _ A) in Hp.
  - by rewrite lookup_insert_ne in Ht.
Qed.

Definition plainly (m m' : Manager) : Prop := plain_all m -> plain_all m'.
#[local] Instance plainly_preorder : PreOrder plainly.
Proof. split; [by intros m Hm|]. intros m1 m2 m3 H12 H23 Hm. by apply H23, H12. Qed.

Lemma plainly_trees {A} (x : GoM Manager A) : (forall m, Trees (x m).1 = Trees m) -> keeps plainly x.
Proof. intros Ht m Hm name t. rewrite Ht. apply Hm. Qed.

Lemma plainly_get : keeps plainly get.
Proof. by apply plainly_trees. Qed.
Lemma plainly_read {A} name (f : CensusDB -> outcome A) : keeps plainly (read_db name f).
Proof. by apply plainly_trees. Qed.
Lemma plainly_on_db {A} name (x : GoM CensusDB A) : keeps plainly (on_db name x).
Proof. apply plainly_trees. intros m. unfold on_db, zoom. by destruct (x (db_of name m)). Qed.
Lemma plainly_publish name : keeps plainly (publish_tree name).
Proof.
  intros m Hm n t. cbn. destruct (decide (name = n)) as [->|Hne]; [|rewrite lookup_alter_ne by done; apply Hm].
  rewrite lookup_alter_eq. destruct (Trees m !! n) as [t0|] eqn:Ht; [|done]. intros [= <-]. exact (Hm _ _ Ht).
Qed.
Lemma plainly_DelNamespace name : keeps plainly (DelNamespace name).
Proof.
  apply plainly_trees. intros m. unfold DelNamespace. unfold reject, lift, mbind, gom_bind, get. destruct (check _ _); [|done|done].
  by destruct (negb _).
Qed.
Lemma plainly_fill name t : keeps plainly (Manager_fillKeyToIndex name t).
Proof. by apply plainly_trees. Qed.
Lemma plainly_AddNamespace name type keys : keeps plainly (AddNamespace name type keys).
Proof.
  intros m Hm. destruct (Exists name m) eqn:He; [by rewrite AddNamespace_exists|].
  pose proof (AddNamespace_run name type keys m He) as Hr. destruct (type_hash type) as [h|].
  - destruct Hr as (m' & t & -> & A). intros n t'. cbn. rewrite (ad_tree _ _ _ _ _ _ A). destruct (decide (name = n)) as [->|Hne].
    + rewrite lookup_insert_eq. intros [= <-]. apply A.
    + rewrite lookup_insert_ne by done. apply Hm.
  - destruct Hr as (m' & e & -> & _ & Ht & _). intros n t'. cbn. rewrite Ht. apply Hm.
Qed.
#[local] Hint Resolve plainly_get plainly_read plainly_on_db plainly_publish plainly_DelNamespace plainly_fill plainly_AddNamespace : keeps.

Lemma plainly_Handler st r prefix : keeps plainly (Handler st r prefix).
Proof.
  unfold Handler, addCensus, getCensusList, census_methods, census_getRoot, addClaimBulk, addClaim, importDump, importRemote, checkProof,
    genProof, KeyToIndex, getSize, getCensusWeight, dump_census, publish_census, dump_root, request_root. keeps_auto.
Qed.

Lemma plainly_ImportDump cid type root data : keeps plainly (Manager_ImportDump cid type root data).
Proof. unfold Manager_ImportDump. keeps_auto. Qed.

(** ** The root of an imported census *)

(** A census without a slash in its name, once it is public, has the root that its name says. *)
Definition authentic (n : string) (m : Manager) : Prop :=
  forall t, Trees m !! n = Some t -> ct_public t = true ->
    Exists n m = true /\ exists root, CT_Root t (db_of n m) = Ok root /\ hex_encode root = TrimHex n.

Definition kept_authentic (n : string) (m m' : Manager) : Prop := authentic n m -> authentic n m'.
#[local] Instance kept_authentic_preorder n : PreOrder (kept_authentic n).
Proof. split; [by intros m Hm|]. intros m1 m2 m3 H12 H23 Hm. by apply H23, H12. Qed.

Lemma same_at_authentic n m m' : same_at n m m' -> kept_authentic n m m'.
Proof.
  intros [Sn Sd St] Ha t Ht Hp. rewrite St in Ht. destruct (Ha t Ht Hp) as [He Hr].
  split; [|by rewrite Sd]. apply Exists_ns_of. rewrite Sn. by apply Exists_ns_of.
Qed.

(** The tree of [n] has not been published. *)
Definition hidden (n : string) (m : Manager) : Prop := forall t, Trees m !! n = Some t -> ct_public t = false.

Lemma hidden_authentic n m : hidden n m -> authentic n m.
Proof. intros Hh t Ht Hp. by rewrite (Hh t Ht) in Hp. Qed.

Lemma added_hidden n type h t m m' : added n type h t m m' -> hidden n m'.
Proof. intros A t' Ht. rewrite (ad_tree _ _ _ _ _ _ A), lookup_insert_eq in Ht. injection Ht as <-. apply A. Qed.

Lemma published_authentic n t m root :
  Trees m !! n = Some t -> Exists n m = true -> CT_Root t (db_of n m) = Ok root -> hex_encode root = TrimHex n ->
  authentic n (publish_tree n m).1.
Proof.
  intros Ht He Hr Hx t' Ht' _. cbn in Ht'. rewrite lookup_alter_eq, Ht in Ht'. injection Ht' as <-. split; [done|]. by exists root.
Qed.

Lemma on_db_state {A} name (x : GoM CensusDB A) m :
  on_db name x m = (set_m_dbs (<[name := (x (db_of name m)).1]> (m_dbs m)) m, (x (db_of name m)).2).
Proof. unfold on_db, zoom. by destruct (x (db_of name m)). Qed.

Lemma db_of_set name d m : db_of name (set_m_dbs (<[name := d]> (m_dbs m)) m) = d.
Proof. unfold db_of. cbn. by rewrite lookup_insert_eq. Qed.

Lemma DelNamespace_trees name m : Trees (DelNamespace name m).1 = Trees m.
Proof.
  unfold DelNamespace. unfold reject, lift, mbind, gom_bind, get. destruct (check _ _); [|done|done]. by destruct (negb _).
Qed.

Lemma ImportDump_authentic n type root data m :
  hex_encode root = TrimHex n -> kept_authentic n m (Manager_ImportDump n type root data m).1.
Proof.
  intros Hx Ha. unfold Manager_ImportDump. destruct (Exists n m) eqn:He.
  { unfold wrapping, mbind, gom_bind. by rewrite AddNamespace_exists. }
  pose proof (AddNamespace_run n type [] m He) as Hr. destruct (type_hash type) as [h|].
  2: { destruct Hr as (m' & e & Hr & _ & _ & _ & Hs). unfold wrapping, mbind, gom_bind. rewrite Hr. by apply (same_at_authentic n m). }
  destruct Hr as (m1 & t & Hr & A). rewrite (bind_run_Ok (wrapping _ _) _ m m1 t) by (by apply wrapping_Ok). cbv beta.
  pose proof (added_hidden _ _ _ _ _ _ A) as Hh. assert (Ht : Trees m1 !! n = Some t) by (rewrite (ad_tree _ _ _ _ _ _ A); apply lookup_insert_eq).
  destruct (CT_ImportDump t data (db_of n m1)) as [d2 o] eqn:Hi. set (m2 := set_m_dbs (<[n := d2]> (m_dbs m1)) m1).
  assert (Hon : on_db n (CT_ImportDump t data) m1 = (m2, o)) by (rewrite on_db_state, Hi; done).
  destruct o as [u|e|w]; [|unfold wrapping, mbind, gom_bind; rewrite Hon; by apply hidden_authentic..].
  rewrite (bind_run_Ok (wrapping _ _) _ m1 m2 u) by (by apply wrapping_Ok). cbv beta.
  assert (Hd2 : db_of n m2 = d2) by apply db_of_set.
  assert (Hread : read_db n (CT_Root t) m2 = (m2, CT_Root t d2)) by (rewrite <- Hd2; reflexivity).
  destruct (CT_Root t d2) as [r|e|w] eqn:Hroot; [|unfold wrapping, mbind, gom_bind; rewrite Hread; by apply hidden_authentic..].
  rewrite (bind_run_Ok (wrapping _ _) _ m2 m2 r) by (by apply wrapping_Ok). cbv beta. case_bool_decide as Hrr; cbn [negb].
  - subst r. assert (Hpub : authentic n (publish_tree n m2).1).
    { eapply (published_authentic n t m2 root); [done|apply A|by rewrite Hd2|done]. }
    case_bool_decide; [|exact Hpub]. erewrite bind_run_Ok by reflexivity. cbv beta. exact Hpub.
  - apply hidden_authentic. intros t' Ht'. apply Hh. rewrite <- Ht'. symmetry.
    match goal with |- Trees (?x m2).1 !! n = _ => change (Trees (x m2).1 !! n = Trees m2 !! n) end.
    f_equal. unfold mbind, gom_bind, catch. pose proof (DelNamespace_trees n m2) as Hd. by destruct (DelNamespace n m2) as [m3 []].
Qed.

(** ** The root of a published census *)

Definition typed (t : CTree) (d : CensusDB) : Prop :=
  forall a, tree_of t d = Ok a -> levels a = nLevels /\ type_hash (censusType t) = Some (hasher a).

Lemma plain_typed t d : plain t -> typed t d.
Proof.
  intros [Hs Hh] a. unfold tree_of, open_tree. rewrite Hs, Hh. destruct (type_hash _) as [h|]; [|done]. destruct (cd_tree d) as [a0|]; [|done].
  intros [= <-]. destruct (open_ok h nLevels a0) as (_ & _ & -> & ->). done.
Qed.

Lemma FromRoot_typed `{!ArboSnapshotLaws} t root d t' :
  typed t d -> FromRoot t root d = Ok t' ->
  typed t' d /\ censusType t' = censusType t /\ exists a, tree_of t' d = Ok a /\ arbo_root a = root.
Proof.
  intros Ht. unfold FromRoot. destruct (tree_of t d) as [a| |] eqn:Ha; [|done|done]. cbn.
  destruct (arbo_snapshot a root) as [e|a'] eqn:Hs; [done|]. cbn. intros [= <-]. destruct (snapshot_at _ _ _ Hs) as (Hr & Hl & Hh).
  destruct (Ht _ Ha) as [Hl' Hh']. split_and!; [|done|by exists a']. intros a1 [= <-]. cbn. by rewrite Hl, Hh.
Qed.

#[local] Existing Instance same_tree_preorder.

Lemma import_count_tree t d :
  keeps same_tree
    (if indexAsKeysCensus t then replacing "could not generate key to index mapping" (fillKeyToIndex t d)
     else l ← lift (wrapping_out "could not add weight" (tree_leaves t d));
          wrapping "could not update census weight"
            (updateCensusWeight t d (CT_BigIntToBytes t (fold_left (fun w '(_, v) => w + arbo_BytesToBigInt v) l 0)))).
Proof.
  destruct (indexAsKeysCensus t); [apply keeps_replacing, fillKeyToIndex_tree|].
  apply keeps_bind; [apply _|apply keeps_lift, _|]. intros l. apply keeps_wrapping. intros x. by rewrite updateCensusWeight_run.
Qed.

(** The tree of a census after an import. *)
Lemma ImportDump_Ok t data d d' h a0 :
  plain t -> type_hash (censusType t) = Some h -> cd_tree d = Some a0 -> CT_ImportDump t data d = (d', Ok tt) ->
  exists b, arbo_import_dump (arbo_open h nLevels a0) data = inr b /\ CT_Root t d' = Ok (arbo_root b).
Proof.
  intros [Hs Hh] Hty Hd Hi. rewrite Hty in Hh. unfold CT_ImportDump in Hi. rewrite (bind_run_Ok get _ d d d eq_refl) in Hi. cbv beta in Hi.
  assert (Ht : forall d0 a1, cd_tree d0 = Some a1 -> tree_of t d0 = Ok (arbo_open h nLevels a1)).
  { intros d0 a1 Hd0. unfold tree_of, open_tree. by rewrite Hs, Hh, Hd0. }
  rewrite Hs, (Ht _ _ Hd) in Hi. rewrite (bind_run_Ok (lift (Ok _)) _ d d _ eq_refl) in Hi. cbv beta in Hi.
  destruct (arbo_import_dump (arbo_open h nLevels a0) data) as [e|b] eqn:Hb; [done|]. exists b. split; [done|].
  rewrite (bind_run_Ok (lift (Ok b)) _ d d b eq_refl) in Hi. cbv beta in Hi.
  rewrite (bind_run_Ok (modify (set_cd_tree b)) _ d (set_cd_tree b d) tt eq_refl) in Hi. cbv beta in Hi.
  assert (Hd' : cd_tree d' = Some b).
  { match type of Hi with in_tx ?f ?d0 = _ => pose proof (in_tx_tree f d0 (import_count_tree t d0)) as Hx end.
    rewrite Hi in Hx. exact Hx. }
  unfold CT_Root. rewrite (Ht _ _ Hd'). cbn. f_equal. apply open_ok.
Qed.

Lemma hex_digit_not_x d : 0 <= d < 16 -> byte_val (hex_digit d) <> 120 /\ byte_val (hex_digit d) <> 88.
Proof. intros Hd%hex_val_digit. unfold hex_val in Hd. split; intros E; by rewrite E in Hd. Qed.

Lemma TrimHex_hex b : TrimHex (hex_encode b) = hex_encode b.
Proof.
  destruct b as [|c b]; [done|]. cbn [hex_encode TrimHex].
  destruct (hex_digit_not_x (byte_val c mod 16)) as [Hx Hy]; [apply Z.mod_pos_bound; lia|].
  rewrite (proj2 (Z.eqb_neq _ _) Hx), (proj2 (Z.eqb_neq _ _) Hy). by rewrite andb_false_r.
Qed.

Lemma bind_mret_state {A B} (x : GoM Manager A) (b : B) m : ((x ≫= fun _ => mret b) m).1 = (x m).1.
Proof. unfold mbind, gom_bind. by destruct (x m) as [m1 []]. Qed.

(** The import of a dump into a census that was just added. *)
Lemma added_import n type h t m m1 src data :
  added n type h t m m1 -> type_hash type = Some h -> arbo_dump src = inr data -> levels src = nLevels -> hasher src = h ->
  hex_encode (arbo_root src) = TrimHex n ->
  authentic n ((i ← catch (on_db n (CT_ImportDump t data));
                match i with inl e => catch (DelNamespace n);; throw e | inr _ => publish_tree n end) m1).1.
Proof.
  intros A Hh Hdump Hl Hsh Hx. pose proof (added_hidden _ _ _ _ _ _ A) as Hhid.
  assert (Ht : Trees m1 !! n = Some t) by (rewrite (ad_tree _ _ _ _ _ _ A); apply lookup_insert_eq).
  destruct (CT_ImportDump t data (db_of n m1)) as [d2 o] eqn:Hi. set (m2 := set_m_dbs (<[n := d2]> (m_dbs m1)) m1).
  assert (Hon : on_db n (CT_ImportDump t data) m1 = (m2, o)) by (rewrite on_db_state, Hi; done).
  destruct o as [[]|e|w]; [| |unfold mbind, gom_bind, catch; rewrite Hon; by apply hidden_authentic].
  - rewrite (bind_run_Ok (catch _) _ m1 m2 (inr tt)) by (unfold catch; by rewrite Hon). cbv beta iota.
    rewrite <- (ad_type _ _ _ _ _ _ A) in Hh.
    destruct (ImportDump_Ok t data _ d2 h _ (ad_plain _ _ _ _ _ _ A) Hh (ad_db _ _ _ _ _ _ A) Hi) as (b & Hb & Hroot).
    destruct (open_ok h nLevels (load_tree h (db_of n m))) as (_ & _ & Hol & Hoh).
    destruct (import_dump _ data src (proj1 (import_ok _ _ _ Hb))) as (b' & Hb' & _ & Hbr); [congruence|congruence|done|].
    rewrite Hb in Hb'. injection Hb' as <-. rewrite Hbr in Hroot.
    eapply published_authentic; [exact Ht|apply A| |exact Hx]. unfold m2. by rewrite db_of_set.
  - rewrite (bind_run_Ok (catch _) _ m1 m2 (inl e)) by (unfold catch; by rewrite Hon). cbv beta iota.
    apply hidden_authentic. intros t' Ht'. apply Hhid. rewrite <- Ht'.
    unfold mbind, gom_bind, catch. pose proof (DelNamespace_trees n m2) as Hd. destruct (DelNamespace n m2) as [m3 []]; cbn in *; by rewrite Hd.
Qed.

Lemma publish_authentic `{!ArboSnapshotLaws} n st r name tr valid m :
  typed tr (db_of name m) -> kept_authentic n m (publish_census st r name tr valid m).1.
Proof.
  intros Hty. unfold publish_census. apply (kept_bind (kept_authentic n)); [reflexivity|]. intros u m1 Hrun. apply lift_Ok in Hrun as [-> _].
  destruct st as [st|]; [|reflexivity].
  apply (kept_bind (kept_authentic n)); [apply same_at_authentic, same_at_read|]. intros root m1 Hrun. apply read_Ok in Hrun as [-> _].
  apply (kept_bind (kept_authentic n)); [apply same_at_authentic, same_at_dump_root|]. intros data m1 Hrun.
  apply dump_root_Ok in Hrun as (-> & snapshot & Hsn & Hdump).
  apply (kept_bind (kept_authentic n)); [reflexivity|]. intros cid m1 Hrun. apply lift_Ok in Hrun as [-> _].
  destruct (decide (hex_encode root = n)) as [Hn|Hn].
  2: { apply same_at_authentic. match goal with |- same_at n m (?x m).1 => refine ((_ : keeps (same_at n) x) m) end.
       keeps_auto; eauto using same_at_AddNamespace, same_at_on_db, same_at_DelNamespace, same_at_publish. }
  destruct (FromRoot_typed _ _ _ _ Hty Hsn) as (Hty' & Htt & src & Hsrc & Hroot).
  unfold CT_Dump in Hdump. rewrite Hsrc in Hdump. cbn in Hdump. destruct (arbo_dump src) as [|b] eqn:Hb; [done|]. injection Hdump as ->.
  destruct (Hty' _ Hsrc) as [Hl Hh]. rewrite Htt in Hh. rewrite Hn. destruct (Exists n m) eqn:He.
  { erewrite bind_run_Ok by (unfold catch; rewrite AddNamespace_exists by done; reflexivity). reflexivity. }
  pose proof (AddNamespace_run n (censusType tr) (R_PubKeys r) m He) as Hr. rewrite Hh in Hr. destruct Hr as (m1 & t & Hr & A).
  erewrite bind_run_Ok by (unfold catch; rewrite Hr; reflexivity). cbv beta iota. intros _.
  rewrite bind_mret_state. eapply added_import; [exact A|done..|]. by rewrite Hroot, Hn, <- Hn, TrimHex_hex.
Qed.

(** ** The queue *)

Lemma same_at_ImportDump n cid type root data : cid <> n -> keeps (same_at n) (Manager_ImportDump cid type root data).
Proof.
  intros Hn. unfold Manager_ImportDump.
  keeps_auto; eauto using same_at_AddNamespace, same_at_on_db, same_at_read, same_at_DelNamespace, same_at_fill, same_at_publish.
Qed.

Lemma importTree_authentic n tree cid : keeps (kept_authentic n) (importTree tree cid).
Proof.
  intros m. unfold importTree. destruct tree as [dump|]; [|reflexivity].
  apply (kept_bind (kept_authentic n)); [reflexivity|]. intros u m1 [-> Hx]%reject_Ok.
  apply (kept_bind (kept_authentic n)); [reflexivity|]. intros u' m1 [-> _]%reject_Ok.
  apply negb_false_iff, bool_decide_eq_true in Hx.
  assert (Hi : kept_authentic n m (Manager_ImportDump cid (D_Type dump) (D_RootHash dump) (D_Data dump) m).1).
  { destruct (decide (cid = n)) as [->|Hn]; [by apply ImportDump_authentic|]. by apply same_at_authentic, same_at_ImportDump. }
  apply (kept_bind (kept_authentic n)); [unfold catch; by destruct (Manager_ImportDump _ _ _ _ m) as [m1 []]|].
  intros [e|u2] m1 _; [|reflexivity]. by destruct (errors_is e _).
Qed.

Lemma plainly_importTree tree cid : keeps plainly (importTree tree cid).
Proof.
  unfold importTree. keeps_auto. apply plainly_ImportDump.
Qed.

(** A state with the same namespaces, databases and trees. *)
Lemma same_at_modify n f : (forall m, Census (f m) = Census m /\ m_dbs (f m) = m_dbs m /\ Trees (f m) = Trees m) -> keeps (same_at n) (modify f).
Proof. intros Hf m. destruct (Hf m) as (Hc & Hd & Ht). split; cbn; unfold ns_of, db_of; by rewrite ?Hc, ?Hd, ?Ht. Qed.

Lemma authentic_modify n f : (forall m, Census (f m) = Census m /\ m_dbs (f m) = m_dbs m /\ Trees (f m) = Trees m) -> keeps (kept_authentic n) (modify f).
Proof. intros Hf m. by apply same_at_authentic, same_at_modify. Qed.

Lemma authentic_get n : keeps (kept_authentic n) get.
Proof. by intros m. Qed.
Lemma authentic_retrieve n st uri : keeps (kept_authentic n) (retrieve st uri).
Proof. intros m. unfold retrieve. destruct st as [st|]; [|reflexivity]. unfold uri_path. by destruct (_ <=? _)%nat. Qed.
#[local] Hint Resolve importTree_authentic authentic_get authentic_retrieve : keeps.

Lemma handleImport_authentic n st imp : keeps (kept_authentic n) (handleImport st imp).
Proof. unfold handleImport, queueAdd. keeps_auto; by apply authentic_modify. Qed.

Lemma retry_authentic n st entry : keeps (kept_authentic n) (retry_import st entry).
Proof. unfold retry_import. keeps_auto; by apply authentic_modify. Qed.

Lemma plainly_modify f : (forall m, Trees (f m) = Trees m) -> keeps plainly (modify f).
Proof. intros Hf. by apply plainly_trees. Qed.
Lemma plainly_retrieve st uri : keeps plainly (retrieve st uri).
Proof. intros m. unfold retrieve. destruct st as [st|]; [|reflexivity]. unfold uri_path. by destruct (_ <=? _)%nat. Qed.
#[local] Hint Resolve plainly_importTree plainly_retrieve : keeps.

Lemma plainly_handleImport st imp : keeps plainly (handleImport st imp).
Proof. unfold handleImport, queueAdd. keeps_auto; by apply plainly_modify. Qed.
Lemma plainly_retry st entry : keeps plainly (retry_import st entry).
Proof. unfold retry_import. keeps_auto; by apply plainly_modify. Qed.

(** ** Steps of the manager *)

(** A request, an import that is put in the queue, a round of a daemon, or a round over the imports that failed. *)
Inductive step :=
| SRequest (storage : option Storage) (r : APIrequest) (prefix : string)
| SQueue (cid uri : string)
| SImport (storage : option Storage)
| SRetry (entries : list ((string * string) * option Storage)).

Definition run_step (s : step) (m : Manager) : Manager :=
  match s with
  | SRequest st r prefix => (Handler st r prefix m).1
  | SQueue cid uri => (AddToImportQueue cid uri m).1
  | SImport st => (importQueueDaemon_round st m).1
  | SRetry entries => (handleImportFailedQueue entries m).1
  end.
Definition run_steps (l : list step) (m : Manager) : Manager := fold_left (fun m s => run_step s m) l m.

(** The prefix of a request is an address and a slash. *)
Definition slash_prefixed (s : step) : Prop := match s with SRequest _ _ prefix => has_slash prefix = true | _ => True end.

Lemma has_slash_prefix p n : String.prefix p n = true -> has_slash p = true -> has_slash n = true.
Proof.
  revert p. induction n as [|c n IH]; intros [|c' p]; cbn; try done. case_match; [|done]. subst c'.
  intros Hp [Hc|Hs]%orb_true_iff; apply orb_true_iff; [by left|right; by eapply IH].
Qed.

Lemma plainly_step s m : plainly m (run_step s m).
Proof.
  destruct s as [st r prefix|cid uri|st|entries]; cbn [run_step]; [apply plainly_Handler|by apply plainly_modify| |].
  - unfold importQueueDaemon_round. rewrite (bind_run_Ok get _ m m m eq_refl). cbv beta. destruct (importQueue m) as [|imp q]; [by intros Hm|].
    match goal with |- plainly m (?x m).1 => refine ((_ : keeps plainly x) m) end. keeps_auto; first [by apply plainly_modify|apply plainly_handleImport].
  - unfold handleImportFailedQueue. apply keeps_mfor; [apply _|]. intros x. apply plainly_retry.
Qed.

Lemma authentic_step `{!ArboSnapshotLaws} n s m :
  has_slash n = false -> slash_prefixed s -> plain_all m -> kept_authentic n m (run_step s m).
Proof.
  intros Hn Hs Hp. destruct s as [st r prefix|cid uri|st|entries]; cbn [run_step].
  - apply (Handler_keep (kept_authentic n) n).
    + apply same_at_authentic.
    + by intros ->.
    + destruct (String.prefix prefix n) eqn:E; [|done]. by rewrite (has_slash_prefix _ _ E Hs) in Hn.
    + intros name tr tr' valid Htr [->|Hf]; apply publish_authentic.
      * apply plain_typed, (Hp _ _ Htr).
      * eapply FromRoot_typed; [|exact Hf]. apply plain_typed, (Hp _ _ Htr).
  - by apply authentic_modify.
  - unfold importQueueDaemon_round. rewrite (bind_run_Ok get _ m m m eq_refl). cbv beta. destruct (importQueue m) as [|imp q]; [reflexivity|].
    match goal with |- kept_authentic n m (?x m).1 => refine ((_ : keeps (kept_authentic n) x) m) end.
    keeps_auto; first [by apply authentic_modify|apply handleImport_authentic].
  - unfold handleImportFailedQueue. apply keeps_mfor; [apply _|]. intros x. apply retry_authentic.
Qed.

Lemma getRoot_answer st r prefix m m' resp :
  Method r = "getRoot" -> Handler st r prefix m = (m', Ok resp) ->
  exists t, Trees m !! TrimHex (R_CensusID r) = Some t /\ ct_public t = true /\
    CT_Root t (db_of (TrimHex (R_CensusID r)) m) = Ok (A_Root resp).
Proof.
  intros Hm Hh. unfold Handler in Hh. cbn [Method trim_id] in Hh. rewrite Hm in Hh.
  do 2 (rewrite bool_decide_eq_false_2 in Hh by done). rewrite (bind_run_Ok get _ m m m eq_refl) in Hh. cbv beta in Hh.
  apply bind_Ok in Hh as (u & m1 & [-> _]%reject_Ok & Hh). cbn [R_CensusID trim_id] in Hh.
  destruct (Trees m !! TrimHex (R_CensusID r)) as [t|]; [|done]. apply bind_Ok in Hh as (u' & m1 & [-> Hp]%reject_Ok & Hh).
  exists t. split; [done|]. split; [by apply negb_false_iff in Hp|]. unfold census_methods in Hh. cbn [Method trim_id] in Hh. rewrite Hm in Hh.
  rewrite bool_decide_eq_true_2 in Hh by done. unfold census_getRoot in Hh. apply bind_Ok in Hh as (root & m1 & [-> Hroot]%read_Ok & Hh).
  apply ret_Ok in Hh as [_ <-]. exact Hroot.
Qed.

(** ** Imports that fail *)

(** A dump that the tree does not take leaves the new namespace without its census. *)
Lemma ImportDump_fails cid type h root data m e :
  Exists cid m = false -> type_hash type = Some h ->
  arbo_import_dump (arbo_open h nLevels (load_tree h (db_of cid m))) data = inl e ->
  exists m' t e', Manager_ImportDump cid type root data m = (m', Err e') /\ errors_is e' ErrNamespaceExist = errors_is e ErrNamespaceExist /\
    added cid type h t m m'.
Proof.
  intros He Hh Hi. pose proof (AddNamespace_run cid type [] m He) as Hr. rewrite Hh in Hr. destruct Hr as (m1 & t & Hr & A).
  exists (set_m_dbs (<[cid := db_of cid m1]> (m_dbs m1)) m1), t. eexists. unfold Manager_ImportDump.
  rewrite (bind_run_Ok (wrapping _ _) _ m m1 t) by (by apply wrapping_Ok). cbv beta.
  assert (Hf : CT_ImportDump t data (db_of cid m1) = (db_of cid m1, Err (Wrap "could not import dump" e))).
  { unfold CT_ImportDump. rewrite (bind_run_Ok get _ _ _ _ eq_refl). cbv beta. destruct (ad_plain _ _ _ _ _ _ A) as [Hs Hf].
    rewrite (ad_type _ _ _ _ _ _ A), Hh in Hf. rewrite Hs. unfold tree_of, open_tree. rewrite Hs, Hf, (ad_db _ _ _ _ _ _ A).
    rewrite (bind_run_Ok (lift (Ok _)) _ _ _ _ eq_refl). cbv beta. rewrite Hi. reflexivity. }
  split_and!.
  - unfold wrapping, mbind, gom_bind. rewrite on_db_state, Hf. reflexivity.
  - done.
  - destruct A. split; try done. by rewrite db_of_set.
Qed.

Lemma added_queue name type h t m m' n : added name type h t m m' -> added name type h t m (set_queueSize n m').
Proof. intros [A1 A2 A3 A4 A5 A6 A7 A8]. by split. Qed.

Lemma handleImport_fails cid uri st dump h e m :
  Exists cid m = false -> uri_path st uri = Ok (bdrop (String.length (URIprefix st)) uri) ->
  Retrieve st (bdrop (String.length (URIprefix st)) uri) = inr (Some dump) ->
  hex_encode (D_RootHash dump) = TrimHex cid -> D_Data dump <> "" -> type_hash (D_Type dump) = Some h ->
  arbo_import_dump (arbo_open h nLevels (load_tree h (db_of cid m))) (D_Data dump) = inl e ->
  exists m' t, handleImport (Some st) (mkCensusImport cid uri) m = (m', Ok tt) /\ added cid (D_Type dump) h t m m'.
Proof.
  intros He Hu Hret Hx Hne Hh Hi. set (m1 := set_queueSize (queueSize m + 1) m).
  destruct (ImportDump_fails cid (D_Type dump) h (D_RootHash dump) (D_Data dump) m1 e He Hh Hi) as (m2 & t & e' & Hr & _ & A).
  exists (set_queueSize (queueSize m2 + -1) m2), t. split; [|apply added_queue; destruct A; by split].
  unfold handleImport. rewrite (bind_run_Ok get _ m m m eq_refl). cbv beta. cbn [ci_censusID ci_censusURI]. rewrite He.
  rewrite (bind_run_Ok (queueAdd 1) _ m m1 tt eq_refl). cbv beta. unfold retrieve. rewrite Hu.
  rewrite (bind_run_Ok _ _ m1 m1 (inr (Some dump))) by (rewrite (bind_run_Ok (lift (Ok _)) _ _ _ _ eq_refl); cbv beta; by rewrite Hret). cbv beta iota.
  assert (Ht : exists r, catch (importTree (Some dump) cid) m1 = (m2, Ok r)).
  { unfold importTree. rewrite (bool_decide_eq_true_2 _ Hx), (bool_decide_eq_false_2 _ Hne). cbn [negb].
    unfold catch at 1. do 2 (rewrite (bind_run_Ok (reject false _) _ m1 m1 tt eq_refl); cbv beta).
    rewrite (bind_run_Ok (catch _) _ m1 m2 (inl e')) by (unfold catch; by rewrite Hr). cbv beta iota.
    destruct (errors_is e' ErrNamespaceExist); by eexists. }
  destruct Ht as [r Ht]. by rewrite (bind_run_Ok _ _ _ _ _ Ht).
Qed.

Lemma LoadTree_run name type m :
  exists m', (catch (LoadTree name type);; mret tt) m = (m', Ok tt) /\ (forall n, n <> name -> same_at n m m') /\
    forall h, Trees m !! name = None -> type_hash type = Some h ->
      exists t, Trees m' !! name = Some t /\ ct_public t = true /\ CT_Root t (db_of name m') = Ok (arbo_root (load_tree h (db_of name m))).
Proof.
  destruct (Trees m !! name) as [t0|] eqn:Ht.
  { exists m. unfold LoadTree, mbind, gom_bind, catch, get. rewrite Ht. split_and!; [done|reflexivity|done]. }
  assert (Hs : forall n, n <> name -> keeps (same_at n) (catch (LoadTree name type);; mret tt)).
  { intros n Hn. unfold LoadTree. keeps_auto; eauto using same_at_get, same_at_on_db, same_at_insert, same_at_publish. }
  pose proof (CT_New_false type (db_of name m)) as Hnew. destruct (type_hash type) as [h|] eqn:Htype.
  - destruct Hnew as (t & d' & Hr & [Hsn Hh] & Hty & Hpub & Hd). eexists. split_and!.
    + unfold LoadTree, mbind, gom_bind, catch, get. rewrite Ht, on_db_state, Hr. reflexivity.
    + intros n Hn. specialize (Hs n Hn m). unfold LoadTree, mbind, gom_bind, catch, get in Hs. by rewrite Ht, on_db_state, Hr in Hs.
    + intros h' _ [= <-]. exists (CT_Publish t). cbn. rewrite lookup_alter_eq, lookup_insert_eq. split_and!; [done|done|].
      assert (Hdb : db_of name (set_Trees (alter CT_Publish name (<[name := t]> (Trees m)))
                (set_Trees (<[name := t]> (Trees m)) (set_m_dbs (<[name := d']> (m_dbs m)) m))) = d') by apply (db_of_set name d' m).
      rewrite Hdb. unfold CT_Root, tree_of, open_tree. cbn. rewrite Hsn, Hh, Hty, Htype, Hd. cbn. f_equal. apply open_ok.
  - eexists. split_and!; [|intros n Hn; specialize (Hs n Hn m)|done].
    + unfold LoadTree, mbind, gom_bind, catch, get. rewrite Ht, on_db_state, Hnew. reflexivity.
    + unfold LoadTree, mbind, gom_bind, catch, get in Hs. by rewrite Ht, on_db_state, Hnew in Hs.
Qed.

Definition load_all (l : list Namespace) : GoM Manager unit := mfor l (fun ns => catch (LoadTree (NS_Name ns) (NS_Type ns));; mret tt).

Lemma load_all_other n l m :
  Forall (fun ns => NS_Name ns <> n) l -> exists m', load_all l m = (m', Ok tt) /\ same_at n m m'.
Proof.
  intros Hl. revert m. induction Hl as [|ns l Hns _ IH]; intros m; [by exists m|].
  destruct (LoadTree_run (NS_Name ns) (NS_Type ns) m) as (m1 & R1 & S1 & _). destruct (IH m1) as (m2 & R2 & S2). exists m2. split.
  - unfold load_all. cbn [mfor]. by rewrite (bind_run_Ok _ _ _ _ _ R1).
  - etrans; [by apply S1|done].
Qed.

Lemma load_namespaces_run l m :
  Forall (fun ns => NS_Version ns = CurrentCensusVersion) l ->
  load_namespaces l m = (set_Census (mkNamespaces (RootKey (Census m)) (NS_List (Census m) ++ l)) m, Ok false).
Proof.
  intros Hl. revert m. induction Hl as [|ns l Hns _ IH]; intros m.
  { cbn. rewrite app_nil_r. by destruct m as [? ? ? [? ?]]. }
  cbn [load_namespaces]. rewrite Hns. change (CurrentCensusVersion =? 0) with false. change (CurrentCensusVersion =? CurrentCensusVersion) with true. cbv iota. erewrite bind_run_Ok by reflexivity. cbv beta. rewrite IH. cbn.
  by rewrite <- app_assoc.
Qed.

(** A restart loads the last of the namespaces and publishes it. *)
Lemma Start_loads cid type h l ns key m :
  m_config m = Some (Some (Census m)) -> NS_List (Census m) = l ++ [ns] -> NS_Name ns = cid -> NS_Type ns = type -> type_hash type = Some h ->
  Forall (fun ns => NS_Version ns = CurrentCensusVersion) (l ++ [ns]) -> Forall (fun ns => NS_Name ns <> cid) l ->
  exists m' t, Start key (restarted m) = (m', Ok tt) /\ Trees m' !! cid = Some t /\ ct_public t = true /\
    CT_Root t (db_of cid m') = Ok (arbo_root (load_tree h (db_of cid m))).
Proof.
  intros Hc Hl Hn Hty Hh Hv Hne. unfold Start. rewrite (bind_run_Ok get _ _ _ _ eq_refl). cbv beta. cbn [m_config restarted]. rewrite Hc.
  erewrite bind_run_Ok by reflexivity. cbv beta. rewrite Hl.
  erewrite bind_run_Ok by (apply load_namespaces_run; done). cbv beta iota. erewrite bind_run_Ok by reflexivity. cbv beta.
  set (m1 := set_Census _ _). assert (Hkey : exists k, (if key_given key then set_RootKey key else mret tt) m1 =
    (set_Census (mkNamespaces k (l ++ [ns])) m1, Ok tt)) by (destruct (key_given key); eexists; reflexivity).
  destruct Hkey as [k Hkey]. rewrite (bind_run_Ok _ _ _ _ _ Hkey). cbv beta. set (m2 := set_Census (mkNamespaces k _) m1).
  rewrite (bind_run_Ok get _ _ _ _ eq_refl). cbv beta. change (NS_List (Census m2)) with (l ++ [ns]).
  destruct (load_all_other cid l m2 Hne) as (m3 & R3 & [_ Sd St]). unfold load_all in R3. rewrite (mfor_app _ _ _ _ _ R3).
  cbn [mfor]. destruct (LoadTree_run (NS_Name ns) (NS_Type ns) m3) as (m4 & R4 & _ & Hload). rewrite Hn, Hty in *.
  destruct (Hload h) as (t & Ht & Hp & Hroot); [rewrite St; apply lookup_empty|done|].
  exists m4, t. split; [by rewrite (bind_run_Ok _ _ _ _ _ R4)|]. split_and!; [done|done|]. by rewrite Hroot, Sd.
Qed.

(** ** Imports with another root *)

Lemma fill_index_Ok (l : list (bytes * bytes)) x : exists x', mfor l (fun '(indexLE, key) => indexKey key (copy8 indexLE)) x = (x', Ok tt).
Proof. revert x. induction l as [|[k v] l IH]; intros x; [by exists x|]. cbn [mfor]. erewrite bind_run_Ok by reflexivity. cbv beta. apply IH. Qed.

(** The counts of an import do not fail. *)
Lemma ImportDump_taken t data d h a0 b :
  plain t -> type_hash (censusType t) = Some h -> cd_tree d = Some a0 -> arbo_import_dump (arbo_open h nLevels a0) data = inr b ->
  exists d', CT_ImportDump t data d = (d', Ok tt) /\ cd_tree d' = Some b.
Proof.
  intros [Hs Hh] Hty Hd Hb. rewrite Hty in Hh. unfold CT_ImportDump. rewrite (bind_run_Ok get _ d d d eq_refl). cbv beta.
  assert (Ht : forall d0 a1, cd_tree d0 = Some a1 -> tree_of t d0 = Ok (arbo_open h nLevels a1)).
  { intros d0 a1 Hd0. unfold tree_of, open_tree. by rewrite Hs, Hh, Hd0. }
  rewrite Hs, (Ht _ _ Hd). rewrite (bind_run_Ok (lift (Ok _)) _ d d _ eq_refl). cbv beta. rewrite Hb.
  rewrite (bind_run_Ok (lift (Ok b)) _ d d b eq_refl). cbv beta.
  rewrite (bind_run_Ok (modify (set_cd_tree b)) _ d (set_cd_tree b d) tt eq_refl). cbv beta.
  match goal with |- context[in_tx ?f ?d0] => pose proof (in_tx_tree f d0 (import_count_tree t d0)) as Hx;
    assert (Hok : (in_tx f d0).2 = Ok tt); [|destruct (in_tx f d0) as [d' o]; cbn in Hx, Hok; subst o; by exists d'] end.
  unfold in_tx. destruct (indexAsKeysCensus t).
  - unfold fillKeyToIndex. match goal with |- context[mfor ?l _] => destruct (fill_index_Ok l (mkCensusTx None ∅)) as [x' Hx'] end.
    unfold replacing, mbind, gom_bind. rewrite Hx', updateCensusIndex_run. done.
  - unfold tree_leaves. rewrite (Ht (set_cd_tree b d) b eq_refl). cbn [mbind outcome_bind wrapping_out].
    rewrite (bind_run_Ok (lift (Ok _)) _ _ _ _ eq_refl). done.
Qed.

Lemma remove_last name l ns :
  Forall (fun x => NS_Name x <> name) l -> NS_Name ns = name -> remove_namespace name (l ++ [ns]) = l.
Proof.
  intros Hl Hn. induction Hl as [|x l Hx _ IH]; cbn; [by rewrite bool_decide_eq_true_2|]. by rewrite bool_decide_eq_false_2, IH.
Qed.

Lemma Exists_names name m : Exists name m = false -> Forall (fun ns => NS_Name ns <> name) (NS_List (Census m)).
Proof.
  unfold Exists. induction (NS_List (Census m)) as [|ns l IH]; cbn; [constructor|]. case_bool_decide; [done|]. intros Hl. constructor; [congruence|by apply IH].
Qed.

(** A namespace is not imported over a census that has leaves. *)
Lemma ImportDump_over cid type root data m a :
  Exists cid m = false -> cd_tree (db_of cid m) = Some a -> leaves a <> ∅ ->
  exists m' e, Manager_ImportDump cid type root data m = (m', Err e).
Proof.
  intros He Hd Hl. destruct (type_hash type) as [h|] eqn:Hh.
  - destruct (arbo_import_dump (arbo_open h nLevels (load_tree h (db_of cid m))) data) as [e|b] eqn:Hi.
    + destruct (ImportDump_fails cid type h root data m e He Hh Hi) as (m' & t & e' & Hr & _). by exists m', e'.
    + apply import_ok in Hi as [Hi _]. unfold load_tree in Hi. rewrite Hd in Hi. cbn in Hi. destruct (open_ok h nLevels a) as [Ho _]. congruence.
  - pose proof (AddNamespace_run cid type [] m He) as Hr. rewrite Hh in Hr. destruct Hr as (m' & e & Hr & _).
    exists m', (Wrap "cannot create new census namespace" e). unfold Manager_ImportDump, wrapping, mbind, gom_bind. by rewrite Hr.
Qed.

(** The census with another root is left in the database. *)
Lemma ImportDump_other_root cid type h root data m b :
  Exists cid m = false -> cid <> "" -> type_hash type = Some h ->
  arbo_import_dump (arbo_open h nLevels (load_tree h (db_of cid m))) data = inr b -> arbo_root b <> root ->
  exists m' e, Manager_ImportDump cid type root data m = (m', Err e) /\ Exists cid m' = false /\ cd_tree (db_of cid m') = Some b.
Proof.
  intros He Hne Hh Hi Hroot. pose proof (AddNamespace_run cid type [] m He) as Hr. rewrite Hh in Hr. destruct Hr as (m1 & t & Hr & A).
  unfold Manager_ImportDump. rewrite (bind_run_Ok (wrapping _ _) _ m m1 t) by (by apply wrapping_Ok). cbv beta.
  assert (Hty : type_hash (censusType t) = Some h) by (by rewrite (ad_type _ _ _ _ _ _ A)).
  destruct (ImportDump_taken t data _ h _ b (ad_plain _ _ _ _ _ _ A) Hty (ad_db _ _ _ _ _ _ A) Hi) as (d2 & Hi2 & Hd2).
  destruct (ImportDump_Ok t data _ d2 h _ (ad_plain _ _ _ _ _ _ A) Hty (ad_db _ _ _ _ _ _ A) Hi2) as (b' & Hb' & Hroot2).
  rewrite Hi in Hb'. injection Hb' as <-. set (m2 := set_m_dbs (<[cid := d2]> (m_dbs m1)) m1).
  rewrite (bind_run_Ok (wrapping _ _) _ m1 m2 tt) by (apply wrapping_Ok; by rewrite on_db_state, Hi2). cbv beta.
  assert (Hdb : db_of cid m2 = d2) by apply db_of_set.
  rewrite (bind_run_Ok (wrapping _ _) _ m2 m2 (arbo_root b)) by (apply wrapping_Ok; unfold read_db; rewrite (bind_run_Ok get _ _ _ _ eq_refl); cbv beta; by rewrite Hdb, Hroot2).
  cbv beta. rewrite bool_decide_eq_false_2 by done. cbn [negb].
  destruct (ad_versions _ _ _ _ _ _ A) as (ns & Hl & _ & Hnm & _).
  assert (Hdel : exists m3, DelNamespace cid m2 = (m3, Ok tt) /\ NS_List (Census m3) = NS_List (Census m) /\ m_dbs m3 = m_dbs m2).
  { unfold DelNamespace. rewrite bool_decide_eq_false_2 by done. rewrite (bind_run_Ok (reject false _) _ _ _ tt eq_refl). cbv beta.
    rewrite (bind_run_Ok get _ _ _ _ eq_refl). cbv beta. replace (Exists cid m2) with true by (symmetry; exact (ad_exists _ _ _ _ _ _ A)).
    eexists. split; [reflexivity|]. cbn. split; [|done]. rewrite Hl. apply remove_last; [by apply Exists_names|done]. }
  destruct Hdel as (m3 & Hdel & Hl3 & Hd3). eexists m3, _. split; [unfold mbind, gom_bind, catch; rewrite Hdel; reflexivity|]. split.
  - unfold Exists in *. by rewrite Hl3.
  - unfold db_of. rewrite Hd3. fold (db_of cid m2). by rewrite Hdb.
Qed.

(** ** Imports that succeed *)

Lemma ImportDump_good cid type h data m src :
  Exists cid m = false -> db_of cid m = empty_census -> type_hash type = Some h ->
  arbo_dump src = inr data -> levels src = nLevels -> hasher src = h ->
  exists m' t b, Manager_ImportDump cid type (arbo_root src) data m = (m', Ok tt) /\ Exists cid m' = true /\
    Trees m' !! cid = Some t /\ ct_public t = true /\ CT_Root t (db_of cid m') = Ok (arbo_root src) /\
    cd_tree (db_of cid m') = Some b /\ leaves b = leaves src.
Proof.
  intros He Hdb Hh Hdump Hlev Hhash. pose proof (AddNamespace_run cid type [] m He) as Hr. rewrite Hh in Hr. destruct Hr as (m1 & t & Hr & A).
  assert (Hty : type_hash (censusType t) = Some h) by (by rewrite (ad_type _ _ _ _ _ _ A)).
  assert (Hd1 : cd_tree (db_of cid m1) = Some (arbo_new h nLevels)) by (rewrite (ad_db _ _ _ _ _ _ A), Hdb; done).
  destruct (open_ok h nLevels (arbo_new h nLevels)) as (Ol & _ & Olv & Oh). rewrite leaves_new in Ol.
  destruct (import_dump _ data src Ol) as (b & Hb & Hbl & Hbr); [congruence|congruence|done|].
  destruct (ImportDump_taken t data _ h _ b (ad_plain _ _ _ _ _ _ A) Hty Hd1 Hb) as (d2 & Hi2 & Hd2).
  destruct (ImportDump_Ok t data _ d2 h _ (ad_plain _ _ _ _ _ _ A) Hty Hd1 Hi2) as (b' & Hb' & Hroot).
  rewrite Hb in Hb'. injection Hb' as <-. rewrite Hbr in Hroot. set (m2 := set_m_dbs (<[cid := d2]> (m_dbs m1)) m1).
  assert (Hdb2 : db_of cid m2 = d2) by apply db_of_set.
  assert (Htr : Trees m2 !! cid = Some t) by (cbn; rewrite (ad_tree _ _ _ _ _ _ A); apply lookup_insert_eq).
  unfold Manager_ImportDump. rewrite (bind_run_Ok (wrapping _ _) _ m m1 t) by (by apply wrapping_Ok). cbv beta.
  rewrite (bind_run_Ok (wrapping _ _) _ m1 m2 tt) by (apply wrapping_Ok; by rewrite on_db_state, Hi2). cbv beta.
  rewrite (bind_run_Ok (wrapping _ _) _ m2 m2 (arbo_root src))
    by (apply wrapping_Ok; unfold read_db; rewrite (bind_run_Ok get _ _ _ _ eq_refl); cbv beta; by rewrite Hdb2, Hroot).
  cbv beta. rewrite bool_decide_eq_true_2 by done. cbn [negb].
  assert (Hfill : exists kv, (if bool_decide (type = Census_ARBO_POSEIDON)
      then wrapping "error filling keyToIndex" (Manager_fillKeyToIndex cid t) else mret tt) m2 = (set_m_kv kv m2, Ok tt)).
  { case_bool_decide; [by eexists|]. exists (m_kv m2). by destruct m2. }
  destruct Hfill as [kv Hfill]. rewrite (bind_run_Ok _ _ _ _ _ Hfill). cbv beta. eexists _, (CT_Publish t), b. split; [reflexivity|].
  split_and!; [exact (ad_exists _ _ _ _ _ _ A)| |done| | |done].
  - cbn. rewrite lookup_alter_eq. cbn in Htr. by rewrite Htr.
  - change (CT_Root t (db_of cid m2) = Ok (arbo_root src)). by rewrite Hdb2.
  - change (cd_tree (db_of cid m2) = Some b). by rewrite Hdb2.
Qed.
End imports.
