(* ===== verification/StateDB.v ===== *)
(** * Package statedb: a hierarchy of Merkle trees in one database

    Models [src/statedb/{statedb,treeupdate,treeview,utils}.go].  The key-value
    database is kept as the content each prefix holds: the arbo tree stored under
    a prefix ([db_trees], keyed by the whole prefix, e.g. ["s/procs/t/"]) and the
    plain entries ([db_kv], keyed by the whole key).  A write transaction is a copy
    of the database; committing it makes the copy the database.

    The handles [*TreeUpdate] form a tree through [openSubs]; here a handle is the
    path of subtree prefixes that leads to it from the main tree, and [tx_open] maps
    the paths of the opened trees to their fields.  The main tree has the path []. *)

From stdpp Require Import base option list strings gmap.
From S2P Require Import Prelude GoMonad GoLib External Tree.

(** [db.ErrKeyNotFound], [statedb.ErrReadOnly] and [statedb.ErrEmptyTree]. *)
Definition db_ErrKeyNotFound : error := Sentinel "db.ErrKeyNotFound".
Definition ErrReadOnly : error := Sentinel "statedb.ErrReadOnly".
Definition ErrEmptyTree : error := Sentinel "statedb.ErrEmptyTree".

Definition subKeyTree : string := "t".
Definition subKeyMeta : string := "m".
Definition subKeyNoState : string := "n".
Definition subKeySubTree : string := "s".
Definition pathVersion : string := "v".
Definition keyCurVersion : bytes := "current".

(** [uint32ToBytes] *)
Definition uint32ToBytes (v : Z) : bytes := LittleEndian_PutUint32 v.

(** [subDB], [subWriteTx] and [subReadTx] prepend the same prefix. *)
Definition sub_prefix (prefix path : string) : string := prefix +:+ path +:+ "/".

(** ** Tree configurations *)

Definition GetRootFn : Type := bytes -> outcome bytes.
Definition SetRootFn : Type := bytes -> bytes -> outcome bytes.

Record TreeParams := mkTreeParams {
  HashFunc : HashFunction;
  KindID : string;
  MaxLevels : Z;
  ParentLeafGetRoot : GetRootFn;
  ParentLeafSetRoot : SetRootFn;
}.

Record TreeNonSingletonConfig := mkTreeNonSingletonConfig {
  hashFunc : HashFunction;
  kindID : string;
  parentLeafGetRoot : GetRootFn;
  parentLeafSetRoot : SetRootFn;
  maxLevels : Z;
}.

Record TreeConfig := mkTreeConfig {
  parentLeafKey : bytes;
  prefix : string;
  tree_cfg : TreeNonSingletonConfig;
}.

Definition NewTreeNonSingletonConfig (params : TreeParams) : TreeNonSingletonConfig :=
  mkTreeNonSingletonConfig (HashFunc params) (KindID params)
    (ParentLeafGetRoot params) (ParentLeafSetRoot params) (MaxLevels params).

Definition WithKey (c : TreeNonSingletonConfig) (key : bytes) : TreeConfig :=
  mkTreeConfig key (kindID c +:+ key) c.

Definition NewTreeSingletonConfig (params : TreeParams) : TreeConfig :=
  mkTreeConfig (KindID params) (KindID params) (NewTreeNonSingletonConfig params).

Definition TreeConfig_Key (c : TreeConfig) : bytes := kindID (tree_cfg c).

(** The functions of the main tree are nil: calling them panics. *)
Definition mainTreeCfg : TreeConfig :=
  NewTreeSingletonConfig (mkTreeParams HashSha256 "" 256
    (fun _ => Panic "nil function") (fun _ _ => Panic "nil function")).

(** [hashLen] of the [StateDB]. *)
Definition hashLen : nat := HashFunction_Len (hashFunc (tree_cfg mainTreeCfg)).

Section statedb.
Context `{Arbo}.

Record DB := mkDB {
  db_trees : gmap string arbo;
  db_kv : gmap string bytes;
}.

Definition empty_DB : DB := mkDB ∅ ∅.
Definition with_trees (f : gmap string arbo -> gmap string arbo) (d : DB) : DB :=
  mkDB (f (db_trees d)) (db_kv d).
Definition with_kv (f : gmap string bytes -> gmap string bytes) (d : DB) : DB :=
  mkDB (db_trees d) (f (db_kv d)).

(** ** Versions *)

Definition version_key (k : bytes) : string :=
  sub_prefix "" (path_Join [subKeyMeta; pathVersion]) +:+ k.

Definition setVersionRoot (version : Z) (root : bytes) (d : DB) : DB :=
  let d := with_kv (<[version_key (uint32ToBytes version) := root]>) d in
  with_kv (<[version_key keyCurVersion := uint32ToBytes version]>) d.

Definition getVersion (d : DB) : outcome Z :=
  match db_kv d !! version_key keyCurVersion with
  | None => Ok 0
  | Some versionLE => LittleEndian_Uint32 versionLE
  end.

Definition getVersionRoot (d : DB) (version : Z) : outcome bytes :=
  match db_kv d !! version_key (uint32ToBytes version) with
  | Some root => Ok root
  | None => if version =? 0 then Ok (zeros hashLen) else Err db_ErrKeyNotFound
  end.

Definition getRoot (d : DB) : outcome bytes :=
  version ← getVersion d;
  getVersionRoot d version.

(** [Version], [VersionRoot] and [Hash] run the helpers on a read transaction. *)
Definition StateDB_Version : DB -> outcome Z := getVersion.
Definition StateDB_VersionRoot : DB -> Z -> outcome bytes := getVersionRoot.
Definition StateDB_Hash : DB -> outcome bytes := getRoot.

(** ** Opening and updating trees *)

Record TreeUpdate := mkTreeUpdate {
  tu_prefix : string;     (** the prefix of [tx] *)
  tu_cfg : TreeConfig;
  dirtyTree : bool;
}.

Record TreeTx := mkTreeTx {
  tx_db : DB;
  tx_open : gmap (list string) TreeUpdate;
}.

Definition on_db (f : DB -> DB) (t : TreeTx) : TreeTx := mkTreeTx (f (tx_db t)) (tx_open t).
Definition on_open (f : gmap (list string) TreeUpdate -> gmap (list string) TreeUpdate)
  (t : TreeTx) : TreeTx := mkTreeTx (tx_db t) (f (tx_open t)).

(** The prefix of [treeWithTx.tx]. *)
Definition tree_key (prefix : string) : string := sub_prefix prefix subKeyTree.

(** Dereference of a handle, and of the tree it points to. *)
Definition node (p : list string) : GoM TreeTx TreeUpdate :=
  open ← gets tx_open;
  match open !! p with Some u => mret u | None => panic "tree is not open" end.

Definition node_tree (u : TreeUpdate) : GoM TreeTx arbo :=
  d ← gets tx_db;
  match db_trees d !! tree_key (tu_prefix u) with
  | Some t => mret t
  | None => panic "tree is not stored"
  end.

Definition store_tree (u : TreeUpdate) (t : arbo) : GoM TreeTx unit :=
  modify (on_db (with_trees (<[tree_key (tu_prefix u) := t]>))).

Definition set_dirty (p : list string) : GoM TreeTx unit :=
  modify (on_open (alter (fun u => mkTreeUpdate (tu_prefix u) (tu_cfg u) true) p)).

Definition TU_Get (p : list string) (key : bytes) : GoM TreeTx bytes :=
  u ← node p;
  t ← node_tree u;
  lift (of_sum (arbo_get t key)).

Definition TU_Root (p : list string) : GoM TreeTx bytes :=
  u ← node p;
  t ← node_tree u;
  mret (arbo_root t).

Definition TU_Iterate {A} (p : list string) (f : A -> bytes -> bytes -> A * bool) (a : A) :
  GoM TreeTx A :=
  u ← node p;
  t ← node_tree u;
  mret (Tree_IterateLeaves t f a).

(** [dirtyTree] is set before the write is tried. *)
Definition TU_Add (p : list string) (key value : bytes) : GoM TreeTx unit :=
  set_dirty p;;
  u ← node p;
  t ← node_tree u;
  t' ← lift (tree_add t key value);
  store_tree u t'.

(** [u.tree.Set] itself, as [propagateRoot] uses it. *)
Definition TU_tree_Set (p : list string) (key value : bytes) : GoM TreeTx unit :=
  u ← node p;
  t ← node_tree u;
  t' ← lift (tree_set t key value);
  store_tree u t'.

Definition TU_Set (p : list string) (key value : bytes) : GoM TreeTx unit :=
  set_dirty p;;
  TU_tree_Set p key value.

(** [NoState().Get] and [NoState().Set]. *)
Definition nostate_key (u : TreeUpdate) (key : bytes) : string :=
  sub_prefix (tu_prefix u) subKeyNoState +:+ key.

Definition TU_NoState_Get (p : list string) (key : bytes) : GoM TreeTx bytes :=
  u ← node p;
  d ← gets tx_db;
  match db_kv d !! nostate_key u key with
  | Some v => mret v
  | None => throw db_ErrKeyNotFound
  end.

Definition TU_NoState_Set (p : list string) (key value : bytes) : GoM TreeTx unit :=
  u ← node p;
  modify (on_db (with_kv (<[nostate_key u key := value]>))).

(** [tree.New] loads the tree stored under the prefix, or creates an empty one, and
    [SetRoot] is only called when the root differs. *)
Definition open_at (key : string) (cfg : TreeNonSingletonConfig) (root : bytes) (d : DB) :
  DB * outcome unit :=
  let t := default (arbo_new (hashFunc cfg) (maxLevels cfg)) (db_trees d !! key) in
  let d := with_trees (<[key := t]>) d in
  if bool_decide (root = arbo_root t) then (d, Ok tt)
  else match arbo_set_root t root with
       | inl e => (d, Err e)
       | inr t' => (with_trees (<[key := t']>) d, Ok tt)
       end.

Definition sub_path (u : TreeUpdate) (cfg : TreeConfig) : string :=
  sub_prefix (tu_prefix u) (path_Join [subKeySubTree; prefix cfg]).

(** [SubTree] returns the path of the opened tree. *)
Definition SubTree (p : list string) (cfg : TreeConfig) : GoM TreeTx (list string) :=
  let q := p ++ [prefix cfg] in
  open ← gets tx_open;
  match open !! q with
  | Some _ => mret q
  | None =>
      parentLeaf ← TU_Get p (parentLeafKey cfg);
      root ← lift (parentLeafGetRoot (tree_cfg cfg) parentLeaf);
      u ← node p;
      let tx := sub_path u cfg in
      zoom tx_db (fun d => on_db (fun _ => d)) (open_at (tree_key tx) (tree_cfg cfg) root);;
      modify (on_open (<[q := mkTreeUpdate tx cfg false]>));;
      mret q
  end.

Fixpoint DeepSubTree (p : list string) (cfgs : list TreeConfig) : GoM TreeTx (list string) :=
  match cfgs with
  | [] => mret p
  | cfg :: cfgs' => q ← SubTree p cfg; DeepSubTree q cfgs'
  end.

Definition DeepGet (p : list string) (key : bytes) (cfgs : list TreeConfig) : GoM TreeTx bytes :=
  q ← DeepSubTree p cfgs; TU_Get q key.
Definition DeepAdd (p : list string) (key value : bytes) (cfgs : list TreeConfig) :
  GoM TreeTx unit :=
  q ← DeepSubTree p cfgs; TU_Add q key value.
Definition DeepSet (p : list string) (key value : bytes) (cfgs : list TreeConfig) :
  GoM TreeTx unit :=
  q ← DeepSubTree p cfgs; TU_Set q key value.

(** [SetUint64] and [GetUint64] on a [NoState] database. *)
Definition NoState_SetUint64 (p : list string) (key : bytes) (n : Z) : GoM TreeTx unit :=
  TU_NoState_Set p key (LittleEndian_PutUint64 n).
Definition NoState_GetUint64 (p : list string) (key : bytes) : GoM TreeTx Z :=
  value ← TU_NoState_Get p key;
  lift (LittleEndian_Uint64 value).

(** ** Commit *)

(** The subtrees opened directly under [p]. *)
Definition is_child (p q : list string) : bool :=
  match q with [] => false | _ => bool_decide (removelast q = p) end.

Definition openSubs (p : list string) (open : gmap (list string) TreeUpdate) :
  list (list string * TreeUpdate) :=
  filter (fun e => is_child p e.1 = true) (map_to_list open).

Record update := mkUpdate { upd_setRoot : SetRootFn; upd_root : bytes }.

Definition add_update (key : bytes) (x : update) (m : gmap bytes (list update)) :
  gmap bytes (list update) :=
  <[key := default [] (m !! key) ++ [x]]> m.

(** The inner loop: several subtrees may keep their roots in the same leaf. *)
Fixpoint apply_updates (leaf : bytes) (us : list update) : outcome bytes :=
  match us with
  | [] => Ok leaf
  | x :: us' => leaf' ← upd_setRoot x leaf (upd_root x); apply_updates leaf' us'
  end.

Definition update_leaf (p : list string) (kus : bytes * list update) : GoM TreeTx unit :=
  leaf ← TU_Get p kus.1;
  leaf' ← lift (apply_updates leaf kus.2);
  TU_tree_Set p kus.1 leaf'.

(** The first [Range]: the roots of the subtrees that changed, by leaf key. *)
Fixpoint gather_updates (rec : list string -> GoM TreeTx (option bytes))
  (subs : list (list string * TreeUpdate)) (m : gmap bytes (list update)) :
  GoM TreeTx (gmap bytes (list update)) :=
  match subs with
  | [] => mret m
  | (q, sub) :: subs' =>
      root ← rec q;
      match root with
      | None => gather_updates rec subs' m
      | Some root =>
          gather_updates rec subs'
            (add_update (parentLeafKey (tu_cfg sub))
               (mkUpdate (parentLeafSetRoot (tree_cfg (tu_cfg sub))) root) m)
      end
  end.

(** [None] is the nil root: nothing to propagate.  The recursion descends along
    [openSubs]; the fuel bounds the depth of the hierarchy. *)
Fixpoint propagateRoot (fuel : nat) (p : list string) : GoM TreeTx (option bytes) :=
  match fuel with
  | O => panic "depth"
  | S fuel' =>
      open ← gets tx_open;
      u ← node p;
      match openSubs p open with
      | [] => if negb (dirtyTree u) then mret None
              else root ← TU_Root p; mret (Some root)
      | subs =>
          updatesByKey ← gather_updates (propagateRoot fuel') subs ∅;
          if bool_decide (updatesByKey = ∅) && negb (dirtyTree u) then mret None
          else
            mfor (map_to_list updatesByKey) (update_leaf p);;
            root ← TU_Root p;
            mret (Some root)
      end
  end.

Definition depth (open : gmap (list string) TreeUpdate) : nat :=
  list_max (length <$> (map_to_list open).*1).

(** After the roots are propagated the transaction holds the new version; its
    contents then become the database ([t.tx.Commit]). *)
Definition TreeTx_Commit (version : Z) : GoM TreeTx unit :=
  open ← gets tx_open;
  root ← propagateRoot (S (depth open)) [];
  modify (on_open (filter (fun e => e.1 = [])));;
  d ← gets tx_db;
  curVersion ← lift (getVersion d);
  root ← match root with
         | Some root => mret root
         | None => lift (getVersionRoot d curVersion)
         end;
  modify (on_db (setVersionRoot version root)).

(** [BeginTx]: a fresh transaction with the main tree opened at the last root. *)
Definition BeginTx (d : DB) : outcome TreeTx :=
  root ← getRoot d;
  let '(d', r) := open_at (tree_key "") (tree_cfg mainTreeCfg) root d in
  r;;
  Ok (mkTreeTx d' {[ [] := mkTreeUpdate "" mainTreeCfg false ]}).

(** ** Read-only views *)

(** A view reads the live database; its tree is the snapshot at a root. *)
Record TreeView := mkTreeView {
  tv_prefix : string;
  tv_tree : arbo;
}.

(** [tree.New] on a [readOnlyWriteTx] fails with [ErrReadOnly] when the tree has to be
    created, which the callers turn into [ErrEmptyTree]. *)
Definition view_at (d : DB) (prefix : string) (root : bytes) : outcome TreeView :=
  match db_trees d !! tree_key prefix with
  | None => Err ErrEmptyTree
  | Some t => t' ← of_sum (arbo_snapshot t root); Ok (mkTreeView prefix t')
  end.

Definition StateDB_TreeView (d : DB) (root : option bytes) : outcome TreeView :=
  root ← match root with Some r => Ok r | None => getRoot d end;
  view_at d "" root.

Definition TV_Get (v : TreeView) (key : bytes) : outcome bytes := of_sum (arbo_get (tv_tree v) key).
Definition TV_Root (v : TreeView) : outcome bytes := Ok (arbo_root (tv_tree v)).
Definition TV_Iterate {A} (v : TreeView) (f : A -> bytes -> bytes -> A * bool) (a : A) : outcome A :=
  Ok (Tree_IterateLeaves (tv_tree v) f a).
Definition TV_NoState_Get (d : DB) (v : TreeView) (key : bytes) : outcome bytes :=
  match db_kv d !! (sub_prefix (tv_prefix v) subKeyNoState +:+ key) with
  | Some b => Ok b
  | None => Err db_ErrKeyNotFound
  end.

Definition TV_SubTree (d : DB) (v : TreeView) (cfg : TreeConfig) : outcome TreeView :=
  parentLeaf ← TV_Get v (parentLeafKey cfg);
  root ← parentLeafGetRoot (tree_cfg cfg) parentLeaf;
  view_at d (sub_prefix (tv_prefix v) (path_Join [subKeySubTree; prefix cfg])) root.

Fixpoint TV_DeepSubTree (d : DB) (v : TreeView) (cfgs : list TreeConfig) : outcome TreeView :=
  match cfgs with
  | [] => Ok v
  | cfg :: cfgs' => v' ← TV_SubTree d v cfg; TV_DeepSubTree d v' cfgs'
  end.

Definition TV_DeepGet (d : DB) (v : TreeView) (key : bytes) (cfgs : list TreeConfig) :
  outcome bytes :=
  v' ← TV_DeepSubTree d v cfgs; TV_Get v' key.

End statedb.
