(* ===== verification/StateTrees.v ===== *)
(** * The trees of the Vochain state

    Models [src/vochain/state_trees.go], the functions of [src/vochain/state.go] that
    keep the root of a subtree in the leaf of its parent, and the constants and error
    values of [src/vochain/types.go] and [src/types/consts.go] the state uses. *)

From stdpp Require Import base option list strings gmap.
From S2P Require Import Prelude GoMonad GoLib Models External StateDB.

(** ** Errors and sizes *)

Definition ErrVoteDoesNotExist : error := Sentinel "ErrVoteDoesNotExist".
Definition ErrNotEnoughBalance : error := Sentinel "ErrNotEnoughBalance".
Definition ErrAccountNonceInvalid : error := Sentinel "ErrAccountNonceInvalid".
Definition ErrProcessNotFound : error := Sentinel "ErrProcessNotFound".
Definition ErrBalanceOverflow : error := Sentinel "ErrBalanceOverflow".
Definition ErrAccountBalanceZero : error := Sentinel "ErrAccountBalanceZero".
Definition ErrAccountNotExist : error := Sentinel "ErrAccountNotExist".
Definition ErrAccountAlreadyExists : error := Sentinel "ErrAccountAlreadyExists".
Definition ErrNilTx : error := Sentinel "ErrNilTx".
Definition ErrProcessChildLeafRootUnknown : error := Sentinel "ErrProcessChildLeafRootUnknown".

Definition defaultHashLen : nat := 32.
Definition ProcessIDsize : nat := 32.
Definition VoteNullifierSize : nat := 32.
Definition EntityIDsize : nat := 20.
Definition KeyKeeperMaxKeyIndex : nat := 16.
Definition treasurerKey : string := "treasurer".
Definition voteCountKey : string := "voteCount".
Definition voteCachePurgeThreshold : Z := 180.

Fixpoint repeat_byte (c : Ascii.ascii) (n : nat) : bytes :=
  match n with O => "" | S n' => String c (repeat_byte c n') end.

(** [common.HexToAddress("0xff...ff")]. *)
Definition BurnAddress : Address := mkAddress (repeat_byte (byte_of 255) 20) eq_refl.

(** ** Roots kept in leaves *)

Definition rootLeafGetRoot (value : bytes) : outcome bytes :=
  if negb (String.length value =? defaultHashLen)%nat
  then Err (Wrap "wrong length" ErrProcessChildLeafRootUnknown)
  else Ok value.

Definition rootLeafSetRoot (value root : bytes) : outcome bytes :=
  if negb (String.length value =? defaultHashLen)%nat then Err (Errorf "wrong length")
  else Ok root.

Section roots.
Context `{Proto}.

Definition unmarshal_sdbProc (value : bytes) : outcome StateDBProcess :=
  match unmarshal value with
  | Some x => Ok x
  | None => Err (Errorf "cannot unmarshal StateDBProcess")
  end.

Definition marshal_sdbProc (x : StateDBProcess) : outcome bytes :=
  match marshal x with
  | Some b => Ok b
  | None => Err (Errorf "cannot marshal StateDBProcess")
  end.

Definition known_root (root : bytes) : outcome bytes :=
  if negb (String.length root =? defaultHashLen)%nat
  then Err (Wrap "wrong length" ErrProcessChildLeafRootUnknown)
  else Ok root.

(** [sdbProc.Process] is a pointer: a leaf without a process makes these panic. *)
Definition processGetCensusRoot (value : bytes) : outcome bytes :=
  sdbProc ← unmarshal_sdbProc value;
  p ← deref (SDB_Process sdbProc);
  known_root (RollingCensusRoot p).

Definition processSetCensusRoot (value root : bytes) : outcome bytes :=
  sdbProc ← unmarshal_sdbProc value;
  p ← deref (SDB_Process sdbProc);
  marshal_sdbProc (mkStateDBProcess (Some (with_RollingCensusRoot root p)) (VotesRoot sdbProc)).

Definition processGetPreRegisterNullifiersRoot (value : bytes) : outcome bytes :=
  sdbProc ← unmarshal_sdbProc value;
  p ← deref (SDB_Process sdbProc);
  known_root (NullifiersRoot p).

Definition processSetPreRegisterNullifiersRoot (value root : bytes) : outcome bytes :=
  sdbProc ← unmarshal_sdbProc value;
  p ← deref (SDB_Process sdbProc);
  marshal_sdbProc (mkStateDBProcess (Some (with_NullifiersRoot root p)) (VotesRoot sdbProc)).

Definition processGetVotesRoot (value : bytes) : outcome bytes :=
  sdbProc ← unmarshal_sdbProc value;
  known_root (VotesRoot sdbProc).

Definition processSetVotesRoot (value root : bytes) : outcome bytes :=
  sdbProc ← unmarshal_sdbProc value;
  marshal_sdbProc (mkStateDBProcess (SDB_Process sdbProc) root).

(** ** Tree configurations *)

(** The keys of the map [MainTrees]. *)
Inductive StateTree :=
| TreeProcess | TreeExtra | TreeOracles | TreeValidators | TreeAccounts | TreeFaucet.

(** The keys of the map [ChildTrees]. *)
Inductive StateChildTree :=
| ChildTreeCensus | ChildTreeCensusPoseidon | ChildTreePreRegisterNullifiers | ChildTreeVotes.

Definition StateTree_KindID (t : StateTree) : string :=
  match t with
  | TreeExtra => "xtra"
  | TreeOracles => "oracs"
  | TreeValidators => "valids"
  | TreeProcess => "procs"
  | TreeAccounts => "balan"
  | TreeFaucet => "faucet"
  end.

Definition StateTreeCfg (t : StateTree) : TreeConfig :=
  NewTreeSingletonConfig (mkTreeParams HashSha256 (StateTree_KindID t) 256
                            rootLeafGetRoot rootLeafSetRoot).

Definition StateChildTreeCfg (t : StateChildTree) : TreeNonSingletonConfig :=
  NewTreeNonSingletonConfig
    match t with
    | ChildTreeCensus =>
        mkTreeParams HashSha256 "cen" 256 processGetCensusRoot processSetCensusRoot
    | ChildTreeCensusPoseidon =>
        mkTreeParams HashPoseidon "cenPos" 64 processGetCensusRoot processSetCensusRoot
    | ChildTreePreRegisterNullifiers =>
        mkTreeParams HashSha256 "prNul" 256
          processGetPreRegisterNullifiersRoot processSetPreRegisterNullifiersRoot
    | ChildTreeVotes =>
        mkTreeParams HashSha256 "votes" 256 processGetVotesRoot processSetVotesRoot
    end.

(** [StateParentChildTreeCfg] *)
Definition StateParentChildTreeCfg (parent : StateTree) (child : StateChildTree) (key : bytes) :
  list TreeConfig :=
  [StateTreeCfg parent; WithKey (StateChildTreeCfg child) key].
End roots.

#[export] Instance StateTree_eq_dec : EqDecision StateTree.
Proof. solve_decision. Defined.

(** The configurations of the process children are lenses on the leaf: what is set is
    read back, and setting one root leaves the other ones alone. *)
Section lenses.
Context `{ProtoLaws}.

Lemma unmarshal_sdbProc_marshal x b : marshal_sdbProc x = Ok b -> unmarshal_sdbProc b = Ok x.
Proof.
  unfold marshal_sdbProc, unmarshal_sdbProc. destruct (marshal x) eqn:E; [|done].
  intros [= <-]. by rewrite (unmarshal_marshal _ _ E).
Qed.

Lemma known_root_Ok r r' : known_root r = Ok r' <-> String.length r = 32%nat /\ r' = r.
Proof.
  unfold known_root, defaultHashLen. destruct (Nat.eqb_spec (String.length r) 32); simpl;
    split; try (intros [=]; subst); try (intros [? ->]); auto; congruence.
Qed.

Lemma rootLeafGetRoot_Ok v r : rootLeafGetRoot v = Ok r <-> String.length v = 32%nat /\ r = v.
Proof.
  unfold rootLeafGetRoot, defaultHashLen. destruct (Nat.eqb_spec (String.length v) 32); simpl;
    split; try (intros [=]; subst); try (intros [? ->]); auto; congruence.
Qed.
End lenses.
