(* ===== verification/IndexerVotes.v ===== *)
(** * Votes and results of the indexer

    [src/vochain/scrutinizer/vote.go]: references to votes, live results, and the computation
    of the final results from the votes of the block store.  [WalkEnvelopes] runs its callback
    in goroutines; [computeFinalResults] is the run in the order of the database, and
    [TallyFacts.v] has the interleavings. *)

From stdpp Require Import base option list strings gmap.
From Stdlib Require Import ZArith.
From S2P Require Import Prelude GoMonad GoLib GoText Models Results External Tables Nacl Ethereum.
From S2P Require Import StateTrees IndexerTypes Indexer.

Definition ErrNoResultsYet : error := Sentinel "no results yet".

Record EnvelopeMetadata := mkEnvelopeMetadata {
  EM_ProcessId : bytes;
  EM_Nullifier : bytes;
  EM_VoterID : bytes;
  EM_TxIndex : Z;
  EM_Height : Z;
  EM_TxHash : bytes
}.

Record EnvelopePackage := mkEnvelopePackage {
  EP_Nonce : bytes;
  EP_VotePackage : bytes;
  EP_EncryptionKeyIndexes : list Z;
  EP_Weight : string;
  EP_Signature : bytes;
  EP_Meta : EnvelopeMetadata
}.

Section votes.
Context `{Tables, Memo, ProtoOpts, Proto, EthCrypto, !ProofLibs, !SealedBox} (enableBadgerhold : bool).

Abbreviation D := (GoM IndexDB) (only parsing).
Abbreviation I := (GoM Scrutinizer) (only parsing).

(** [VoterID.Address] of [src/types/types.go]. *)
Definition VoterID_Address (v : bytes) : outcome bytes :=
  match v with
  | EmptyString => Panic "index out of range"
  | String c pub =>
      if byte_val c =? 1 then addr ← AddrFromPublicKey pub; Ok (addr_bytes addr)
      else Err (Sentinel "voterID type not supported")
  end.

Definition GetEnvelopeReference (nullifier : bytes) : D VoteReference :=
  txRef ← tbl_find bh_votes (KBytes nullifier) ErrNotFound;
  row ← GetVoteReference nullifier;
  lift (VoteReferenceFromDB row);;
  mret txRef.

(** The vote of a transaction of the block store. *)
Definition envelope_of (stx : SignedTx) : outcome VoteEnvelope :=
  match unmarshal (A := Tx) (STx_Tx stx) with
  | None => Err (Errorf "proto: unmarshal")
  | Some tx =>
      match GetVote (Some tx) with
      | None => Err (Errorf "transaction is not an Envelope")
      | Some envelope => Ok envelope
      end
  end.

Definition GetEnvelope (ch : Chain) (nullifier : bytes) : D EnvelopePackage :=
  voteRef ← GetEnvelopeReference nullifier;
  '(stx, txHash) ← lift (of_sum (ch_GetTxHash ch (VR_Height voteRef) (VR_TxIndex voteRef)));
  envelope ← lift (envelope_of stx);
  let meta := mkEnvelopeMetadata (VE_ProcessId envelope) nullifier "" (VR_TxIndex voteRef) (VR_Height voteRef) txHash in
  meta ← (if 0 <? blen (EM_VoterID meta) then
            id ← replacing "cannot get voterID from public key" (lift (VoterID_Address (VR_VoterID voteRef)));
            mret (mkEnvelopeMetadata (EM_ProcessId meta) (EM_Nullifier meta) id (EM_TxIndex meta) (EM_Height meta)
                    (EM_TxHash meta))
          else mret meta);
  mret (mkEnvelopePackage (VE_Nonce envelope) (VE_VotePackage envelope) (VE_KeyIndexes envelope)
          (big_String (VR_Weight voteRef)) (default "" (STx_Signature stx)) meta).

(** ** Votes *)

Fixpoint decrypt_all (keys : list string) (raw : bytes) : outcome bytes :=
  match keys with
  | [] => Ok raw
  | k :: keys' =>
      match DecodePrivate k with
      | Ok priv => raw' ← wrapping_out "cannot decrypt vote" (Decrypt priv raw); decrypt_all keys' raw'
      | Err _ => Err (Errorf "cannot create private key cipher")
      | Panic w => Panic w
      end
  end.

(** The keys are used from the last one to the first. *)
Definition unmarshalVote (VotePackage : bytes) (keys : list string) : outcome (list Z) :=
  rawVote ← decrypt_all (rev keys) VotePackage;
  match json_VotePackage rawVote with
  | Some votes => Ok votes
  | None => Err (Errorf "cannot unmarshal vote")
  end.

Definition addLiveVote (ch : Chain) (pid VotePackage : bytes) (weight : Z) : GoM IndexResults unit :=
  open ← replacing "cannot check if process is open" (lift (isOpenProcess ch pid));
  vote ← (if (open : bool) then
            r ← catch (lift (unmarshalVote VotePackage []));
            mret (match r with inr v => Some v | inl _ => None end)
          else mret None);
  match vote with
  | Some v => Results_AddVote v (Some weight)
  | None =>
      modify (fun r => set_Weight (R_Weight r + weight) r);;
      modify (fun r => set_EnvelopeHeight (u64 (R_EnvelopeHeight r + 1)) r)
  end.

Definition addVoteIndex (ch : Chain) (nullifier pid : bytes) (blockHeight : Z) (weight : bytes) (txIndex : Z)
    (voterID : bytes) : D unit :=
  let weightInt := big_SetBytes weight in
  (if enableBadgerhold then
     tbl_insert bh_votes set_bh_votes ErrKeyExists (KBytes nullifier)
       (mkVoteReference nullifier pid voterID blockHeight weightInt txIndex (ch_Now ch))
   else mret tt);;
  CreateVoteReference (mkDBVoteReference nullifier pid blockHeight (big_String weightInt) txIndex (ch_Now ch) voterID).

(** ** Live results *)

Definition addProcessToLiveResults (pid : bytes) : I unit :=
  modify (fun s => set_liveResultsProcs ({[pid]} ∪ liveResultsProcs s) s).
Definition delProcessFromLiveResults (pid : bytes) : I unit :=
  modify (fun s => set_liveResultsProcs (liveResultsProcs s ∖ {[pid]}) s).
Definition isProcessLiveResults (pid : bytes) (s : Scrutinizer) : bool := bool_decide (pid ∈ liveResultsProcs s).

(** The update of a stored record; final results are not changed. *)
Definition add_partial (partial stored : IndexResults) : outcome IndexResults :=
  if R_Final stored then Ok stored
  else match Results_Add partial stored with
       | (r, Ok _) => Ok r
       | (_, Err e) => Err e
       | (_, Panic w) => Panic w
       end.

(** The error of [Add] is ignored on the row. *)
Definition commitVotesUnsafe (pid : bytes) (partialResults : IndexResults) : D unit :=
  (if enableBadgerhold then
     queryWithRetries (tbl_update bh_results set_bh_results (KBytes pid) (add_partial partialResults))
   else mret tt);;
  row ← GetProcess pid;
  res ← lift (ResultsFromDB row);
  results ← lift (deref res);
  results ← lift (match Results_Add partialResults results with
                  | (_, Panic w) => Panic w
                  | (r, _) => Ok r
                  end);
  UpdateProcessResults pid (encodeVotes (R_Votes results)) (big_String (R_Weight results))
    (i64 (R_EnvelopeHeight results)) (R_BlockHeight results).

(** [commitVotes] is the same under the locks. *)
Definition commitVotes (pid : bytes) (partialResults : IndexResults) : D unit := commitVotesUnsafe pid partialResults.

(** ** Final results *)

(** The references of [ForEach(Where("ProcessID").Eq(pid))]. *)
Definition vote_refs (pid : bytes) (d : IndexDB) : list VoteReference :=
  filter (fun v => VR_ProcessID v = pid) (t_rows (bh_votes d)).*2.

(** The envelopes the callback of [WalkEnvelopes] is called with: a reference without a vote in
    the block store is logged and skipped. *)
Definition walked (ch : Chain) (txRef : VoteReference) : option (VoteEnvelope * Z) :=
  match ch_GetTxHash ch (VR_Height txRef) (VR_TxIndex txRef) with
  | inl _ => None
  | inr (stx, _) => match envelope_of stx with Ok env => Some (env, VR_Weight txRef) | _ => None end
  end.

Definition WalkEnvelopes (ch : Chain) (pid : bytes) (d : IndexDB) : list (VoteEnvelope * Z) :=
  omap (walked ch) (vote_refs pid d).

(** The private keys a vote was encrypted with. *)
Fixpoint vote_keys (privateKeys : list string) (indexes : list Z) : outcome (option (list string)) :=
  match indexes with
  | [] => Ok (Some [])
  | k :: indexes' =>
      if Z.of_nat KeyKeeperMaxKeyIndex <=? k then Ok None
      else
        key ← slice_get privateKeys k;
        rest ← vote_keys privateKeys indexes';
        Ok (option_map (cons key) rest)
  end.

(** The votes of an envelope; [None] when the callback returns before counting it. *)
Definition final_vote (p : IndexProcess) (vote : VoteEnvelope) : outcome (option (list Z)) :=
  keys ←
    (if match IP_Envelope p with Some et => EncryptedVotes et | None => false end then
       if (List.length (IP_PrivateKeys p) <? List.length (VE_KeyIndexes vote))%nat then Ok None
       else
         keys ← vote_keys (IP_PrivateKeys p) (VE_KeyIndexes vote);
         Ok (match keys with Some [] => None | _ => keys end)
     else Ok (Some []));
  match keys with
  | None => Ok None
  | Some keys =>
      match unmarshalVote (VE_VotePackage vote) keys with
      | Ok v => Ok (Some v)
      | Err _ => Ok None
      | Panic w => Panic w
      end
  end.

(** The callback: [nvotes] is the second component. *)
Definition count_envelope (p : IndexProcess) : VoteEnvelope * Z -> GoM (IndexResults * Z) unit :=
  fun '(vote, weight) =>
  v ← lift (final_vote p vote);
  match v with
  | None => mret tt
  | Some values =>
      r ← catch (zoom fst (fun r s => (r, s.2)) (Results_AddVote values (Some weight)));
      match r with
      | inl _ => mret tt
      | inr _ => modify (fun s => (s.1, u64 (s.2 + 1)))
      end
  end.

Definition final_start (ch : Chain) (p : IndexProcess) (opts : ProcessVoteOptions) : IndexResults :=
  mkResults (IP_ID p) (NewEmptyVotes (MaxCount opts) (MaxValue opts + 1)) 0 0 (IP_Envelope p) (Some opts) [] true
    (ch_Height ch).

Definition computeFinalResults (ch : Chain) (p : IndexProcess) : D IndexResults :=
  opts ← lift (deref (IP_VoteOpts p));
  (when (MaxCount opts =? 0) || (MaxValue opts =? 0)
   return Errorf "computeNonLiveResults: maxCount and/or maxValue is zero";
   when (MaxQuestions <? MaxCount opts) || (MaxOptions <? MaxValue opts)
   return Errorf "maxCount and/or maxValue overflows hardcoded maximum";
   d ← get;
   match mfor (WalkEnvelopes ch (IP_ID p) d) (count_envelope p) (final_start ch p opts, 0) with
   | ((results, nvotes), Ok _) => mret (set_EnvelopeHeight nvotes results)
   | (_, Err e) => throw e
   | (_, Panic w) => panic w
   end)%go.

Definition ComputeResult (ch : Chain) (processID : bytes) : I unit :=
  p ← wrapping "computeResult: cannot load processID from database" (on_idb (ProcessInfo enableBadgerhold processID));
  results ← on_idb (computeFinalResults ch p);
  (if enableBadgerhold then
     replacing "computeResult: cannot update processID" (on_idb (queryWithRetries
       (tbl_update bh_processes set_bh_processes (KBytes processID) (fun p => Ok (with_ready p)))))
   else mret tt);;
  on_idb (SetProcessResultsReady processID (encodeVotes (R_Votes results)) (big_String (R_Weight results))
    (i64 (R_EnvelopeHeight results)) (joinHexBytes (R_Signatures results)) (R_BlockHeight results));;
  (if enableBadgerhold then
     on_idb (queryWithRetries (tbl_put bh_results set_bh_results (KBytes processID) results))
   else mret tt);;
  modify (fun s => set_notified (notified s ++ [OnComputeResults results p (ch_Height ch)]) s).

(** ** Queries *)

Definition GetEnvelopeHeight (processID : bytes) : I Z :=
  if bool_decide (processID = "") then
    c ← on_idb (tbl_find bh_counts (KUint CountStoreEnvelopes) ErrNotFound);
    mret (CS_Count c)
  else
    s ← get;
    let '(c, val) := memo_get (envelopeHeightCache s) processID in
    modify (set_envelopeHeightCache c);;
    match val with
    | Some h => mret h
    | None =>
        results ← on_idb (tbl_find bh_results (KBytes processID) ErrNotFound);
        (if R_Final results then
           modify (fun s => set_envelopeHeightCache
                              (memo_add (envelopeHeightCache s) processID (R_EnvelopeHeight results)) s)
         else mret tt);;
        mret (R_EnvelopeHeight results)
    end.

(** The row is read, but the record of badgerhold is the answer while it is enabled. *)
Definition GetResults (processID : bytes) : I (option IndexResults) :=
  stored ←
    (if enableBadgerhold then
       s ← get;
       let '(c, val) := memo_get (resultsCache s) processID in
       modify (set_resultsCache c);;
       match val with
       | Some r => mret (Some (inl r))
       | None =>
           results ← on_idb (tbl_find bh_results (KBytes processID) ErrNoResultsYet);
           (if R_Final results then
              modify (fun s => set_resultsCache (memo_add (resultsCache s) processID results) s)
            else mret tt);;
           mret (Some (inr results))
       end
     else mret None);
  match stored with
  | Some (inl r) => mret (Some r)
  | _ =>
      row ← on_idb (GetProcess processID);
      sqlResults ← lift (ResultsFromDB row);
      mret (match stored with Some (inr results) => Some results | _ => sqlResults end)
  end.

Definition GetResultsWeight (processID : bytes) : D Z :=
  results ← tbl_find bh_results (KBytes processID) ErrNotFound;
  mret (R_Weight results).

Definition BuildProcessResult (results : IndexResults) (entityID : bytes) : ProcessResult :=
  mkProcessResult (map (map big_Bytes) (R_Votes results)) (R_ProcessID results) entityID None.
End votes.
