(* ===== verification/Scrutinizer.v ===== *)
(** * The indexer as a listener of the chain

    The handlers of [src/vochain/scrutinizer/scrutinizer.go] and of
    [src/vochain/scrutinizer/transaction.go]: what is collected during a block, what [Commit]
    writes, and the recovery after the node has synchronised.  [range_pool] is the order in
    which Go ranges over the map of the votes, and the goroutines that [Commit] starts are the
    tasks [run_task] runs later. *)

From stdpp Require Import base option list strings gmap.
From Stdlib Require Import ZArith.
From S2P Require Import Prelude GoMonad GoLib GoText Models Results External Tables Nacl Ethereum.
From S2P Require Import StateTrees IndexerTypes Indexer IndexerVotes.

Section scrutinizer.
Context `{Tables, Memo, ProtoOpts, Proto, EthCrypto, !ProofLibs, !SealedBox} (enableBadgerhold : bool).

Abbreviation D := (GoM IndexDB) (only parsing).
Abbreviation I := (GoM Scrutinizer) (only parsing).

(** ** Start *)

(** The counter, or the number of records when there is none. *)
Definition retrieve_count (type : Z) (rows : IndexDB -> Z) : D Z :=
  d ← get;
  match t_find (KUint type) (bh_counts d) with
  | Some c => mret (CS_Count c)
  | None =>
      tbl_put bh_counts set_bh_counts (KUint type) (mkCountStore type (u64 (rows d)));;
      mret (u64 (rows d))
  end.

Definition rows_of {R} (t : IndexDB -> table R) (d : IndexDB) : Z := Z.of_nat (List.length (t_rows (t d))).

Definition retrieveCounts : D unit :=
  if enableBadgerhold then
    retrieve_count CountStoreTransactions (rows_of bh_txs);;
    retrieve_count CountStoreEnvelopes (rows_of bh_votes);;
    retrieve_count CountStoreProcesses (rows_of bh_processes);;
    retrieve_count CountStoreEntities (rows_of bh_entities);;
    mret tt
  else mret tt.

Definition no_pools : Pools := mkPools [] ∅ [] [] [] [].

(** [NewScrutinizer] on the databases [d]. *)
Definition NewScrutinizer (d : IndexDB) (countLiveResults : bool) : Scrutinizer * outcome unit :=
  on_idb (replacing "could not create scrutinizer" retrieveCounts)
    (mkScrutinizer no_pools ∅ d memo_new memo_new (negb countLiveResults) [] []).

(** ** The events of a block *)

Definition Scrutinizer_Rollback : I unit := modify (set_pools no_pools).

Definition add_newProcess (x : ScrutinizerOnProcessData) (p : Pools) : Pools :=
  mkPools (voteIndexPool p) (votePool p) (newProcessPool p ++ [x]) (updateProcessPool p) (resultsPool p) (newTxPool p).
Definition add_updateProcess (x : bytes) (p : Pools) : Pools :=
  mkPools (voteIndexPool p) (votePool p) (newProcessPool p) (updateProcessPool p ++ [x]) (resultsPool p) (newTxPool p).
Definition add_results (x : ScrutinizerOnProcessData) (p : Pools) : Pools :=
  mkPools (voteIndexPool p) (votePool p) (newProcessPool p) (updateProcessPool p) (resultsPool p ++ [x]) (newTxPool p).
Definition add_newTx (x : TxReference) (p : Pools) : Pools :=
  mkPools (voteIndexPool p) (votePool p) (newProcessPool p) (updateProcessPool p) (resultsPool p) (newTxPool p ++ [x]).
Definition add_vote (v : Vote) (p : Pools) : Pools :=
  mkPools (voteIndexPool p) (<[Vote_ProcessId v := default [] (votePool p !! Vote_ProcessId v) ++ [v]]> (votePool p))
    (newProcessPool p) (updateProcessPool p) (resultsPool p) (newTxPool p).
Definition add_voteIndex (x : VoteWithIndex) (p : Pools) : Pools :=
  mkPools (voteIndexPool p ++ [x]) (votePool p) (newProcessPool p) (updateProcessPool p) (resultsPool p) (newTxPool p).

Definition on_pools (f : Pools -> Pools) : I unit := modify (fun s => set_pools (f (pools s)) s).

Definition Scrutinizer_OnProcess (pid eid : bytes) : I unit := on_pools (add_newProcess (mkOnProcessData eid pid)).

Definition Scrutinizer_OnVote (v : Vote) (voterID : bytes) (txIndex : Z) : I unit :=
  s ← get;
  (if negb (ignoreLiveResults s) && isProcessLiveResults (Vote_ProcessId v) s then on_pools (add_vote v) else mret tt);;
  on_pools (add_voteIndex (mkVoteWithIndex v voterID txIndex)).

Definition Scrutinizer_OnCancel (pid : bytes) : I unit := on_pools (add_updateProcess pid).
Definition Scrutinizer_OnProcessKeys (pid : bytes) : I unit := on_pools (add_updateProcess pid).

Definition Scrutinizer_OnProcessStatusChange (ch : Chain) (pid : bytes) (status : ProcessStatus) : I unit :=
  (if bool_decide (status = ENDED) then
     live ← catch (lift (isOpenProcess ch pid));
     match live with
     | inr true => on_pools (add_results (mkOnProcessData "" pid))
     | _ => mret tt
     end
   else mret tt);;
  on_pools (add_updateProcess pid).

Definition Scrutinizer_OnRevealKeys (ch : Chain) (pid : bytes) : I unit :=
  match ch_Process ch pid with
  | inl _ => mret tt
  | inr p =>
      match KeyIndex p with
      | None => mret tt
      | Some i =>
          (if i <? 1 then on_pools (add_results (mkOnProcessData (EntityId p) pid)) else mret tt);;
          on_pools (add_updateProcess pid)
      end
  end.

(** The goroutine that compares the results only logs. *)
Definition Scrutinizer_OnProcessResults (ch : Chain) (pid : bytes) (results : ProcessResult) : I unit :=
  modify (fun s => set_notified (notified s ++ [OnOracleResults pid results (ch_Height ch)]) s);;
  if ch_IsSynchronizing ch then mret tt else on_pools (add_updateProcess pid).

Definition Scrutinizer_OnNewTx (hash : bytes) (blockHeight txIndex : Z) : I unit :=
  on_pools (add_newTx (mkTxReference 0 hash blockHeight txIndex)).

Definition Scrutinizer_OnProcessesStart (ch : Chain) (pids : list bytes) : I unit :=
  mfor pids (fun p => logged (on_idb (updateProcess enableBadgerhold ch p))).

(** ** Commit *)

Definition commit_new_processes (ch : Chain) : I unit :=
  s ← get;
  mfor (newProcessPool (pools s)) (fun p =>
    r ← catch (on_idb (newEmptyProcess enableBadgerhold ch (OP_ProcessID p)));
    match r with
    | inl _ => mret tt
    | inr _ => if ch_IsSynchronizing ch then mret tt else addProcessToLiveResults (OP_ProcessID p)
    end).

Definition commit_updates (ch : Chain) : I unit :=
  s ← get;
  mfor (updateProcessPool (pools s)) (fun p => logged (on_idb (updateProcess enableBadgerhold ch p))).

Definition commit_schedule (height : Z) : I unit :=
  s ← get;
  mfor (resultsPool (pools s)) (fun p =>
    r ← catch (on_idb (setResultsHeight enableBadgerhold (OP_ProcessID p) (u32 (height + 1))));
    match r with
    | inl _ => mret tt
    | inr _ => delProcessFromLiveResults (OP_ProcessID p)
    end).

Definition commit_votes_index (ch : Chain) (height : Z) : I unit :=
  s ← get;
  let votes := voteIndexPool (pools s) in
  mfor votes (fun v =>
    logged (on_idb (addVoteIndex enableBadgerhold ch (Nullifier (vi_vote v)) (Vote_ProcessId (vi_vote v)) height
      (Weight (vi_vote v)) (vi_txIndex v) (vi_voterID v))));;
  if negb (bool_decide (votes = [])) && enableBadgerhold then
    logged (on_idb (tbl_update bh_counts set_bh_counts (KUint CountStoreEnvelopes)
      (fun c => Ok (mkCountStore (CS_Type c) (u64 (CS_Count c + Z.of_nat (List.length votes)))))))
  else mret tt.

(** The results of the votes of one process in the block. *)
Definition block_start (proc : IndexProcess) : IndexResults :=
  mkResults "" [] 0 0 (IP_Envelope proc) (IP_VoteOpts proc) [] false 0.

Definition block_results (ch : Chain) (proc : IndexProcess) (votes : list Vote) : IndexResults * outcome unit :=
  mfor votes (fun v =>
    logged (addLiveVote ch (Vote_ProcessId v) (VotePackage v) (big_SetBytes (Weight v)))) (block_start proc).

Definition commit_live_process (ch : Chain) (pid : bytes) (votes : list Vote) : I unit :=
  r ← catch (on_idb (ProcessInfo enableBadgerhold pid));
  match r with
  | inl _ => mret tt
  | inr proc =>
      match block_results ch proc votes with
      | (results, Ok _) => logged (on_idb (commitVotes enableBadgerhold pid results))
      | (_, Err e) => throw e
      | (_, Panic w) => panic w
      end
  end.

Definition commit_live (range_pool : gmap bytes (list Vote) -> list (bytes * list Vote)) (ch : Chain) : I unit :=
  s ← get;
  mfor (range_pool (votePool (pools s))) (fun '(pid, votes) => commit_live_process ch pid votes).

Definition start_task (t : Task) : I unit := modify (fun s => set_tasks (tasks s ++ [t]) s).

Definition Scrutinizer_Commit (range_pool : gmap bytes (list Vote) -> list (bytes * list Vote)) (ch : Chain)
    (height : Z) : I unit :=
  commit_new_processes ch;;
  commit_updates ch;;
  s ← get;
  start_task (IndexTxs (newTxPool (pools s)));;
  commit_schedule height;;
  commit_votes_index ch height;;
  commit_live range_pool ch;;
  if 0 <? height then start_task (ComputePending height) else mret tt.

(** ** The goroutines *)

Fixpoint index_txs (i count : Z) (l : list TxReference) : D unit :=
  match l with
  | [] => mret tt
  | tx :: l' =>
      let index := u64 (count + i + 1) in
      tbl_insert bh_txs set_bh_txs ErrKeyExists (KUint index)
        (mkTxReference index (TR_Hash tx) (TR_BlockHeight tx) (TR_TxBlockIndex tx));;
      index_txs (i + 1) count l'
  end.

Definition indexNewTxs (txList : list TxReference) : D unit :=
  if bool_decide (txList = []) then mret tt
  else
    c ← tbl_find bh_counts (KUint CountStoreTransactions) ErrNotFound;
    index_txs 0 (CS_Count c) txList;;
    tbl_put bh_counts set_bh_counts (KUint CountStoreTransactions)
      (mkCountStore (CS_Type c) (u64 (CS_Count c + Z.of_nat (List.length txList)))).

(** The processes whose results are due at a height. *)
Definition due (height : Z) (d : IndexDB) : list bytes :=
  IP_ID <$> filter (fun p => IP_Rheight p = height) (t_rows (bh_processes d)).*2.

Definition computePendingProcesses (ch : Chain) (height : Z) : I unit :=
  if enableBadgerhold then
    s ← get;
    mfor (due height (idb s)) (fun pid => logged (ComputeResult enableBadgerhold ch pid))
  else mret tt.

Definition run_task (ch : Chain) (t : Task) : I unit :=
  match t with
  | IndexTxs l => logged (on_idb (indexNewTxs l))
  | ComputePending height => computePendingProcesses ch height
  end.

(** ** Recovery *)

Definition recover_process (ch : Chain) (pid : bytes) : I unit :=
  match ch_Process ch pid with
  | inl _ => mret tt
  | inr process =>
      options ← lift (deref (VoteOptions process));
      on_idb (queryWithRetries (tbl_put bh_results set_bh_results (KBytes pid)
        (empty_results pid options (P_EnvelopeType process))));;
      s ← get;
      match mfor (WalkEnvelopes ch pid (idb s)) (fun '(vote, weight) =>
              logged (addLiveVote ch (VE_ProcessId vote) (VE_VotePackage vote) weight))
              (mkResults "" [] 0 0 (P_EnvelopeType process) (Some options) [] false 0) with
      | (results, Ok _) =>
          r ← catch (on_idb (commitVotesUnsafe enableBadgerhold pid results));
          match r with inl _ => mret tt | inr _ => addProcessToLiveResults pid end
      | (_, Err e) => throw e
      | (_, Panic w) => panic w
      end
  end.

(** [AfterSyncBootstrap], once the chain is synchronised. *)
Definition AfterSyncBootstrap (ch : Chain) : I unit :=
  s ← get;
  if ignoreLiveResults s || negb enableBadgerhold then mret tt
  else
    mfor (IP_ID <$> filter (fun p => IP_FinalResults p = false) (t_rows (bh_processes (idb s))).*2)
      (recover_process ch).
End scrutinizer.
