(* ===== verification/TallyFacts.v ===== *)
(** * The final results of a process

    [computeFinalResults] counts the votes in the goroutines of [WalkEnvelopes].  [walk_step]
    is a step of one of them: the semaphore, which twenty of them hold at most, then up to the
    lock of [AddVote], under it, and the increment of the number of votes; the semaphore is
    released with the last step of a goroutine.  [walk_panics] holds of the walks in which a
    callback can panic, which stops the node.  Every interleaving ends with the results of the
    sequential run. *)

From stdpp Require Import base option list strings gmap.
From Stdlib Require Import ZArith Lia.
From S2P Require Import Prelude GoMonad GoLib GoText Models Results ResultsFacts External Tables Nacl Ethereum.
From S2P Require Import StateTrees IndexerTypes Indexer IndexerVotes.

Section tally.
Context `{Tables, Memo, ProtoOpts, Proto, EthCrypto, !ProofLibs, !SealedBox}.
Context (p : IndexProcess).

(** ** The goroutines *)

Inductive walker :=
| Waiting (e : VoteEnvelope * Z)
| Ready (e : VoteEnvelope * Z)
| Checked (b : ballot)
| Counted.

Record walk := mkWalk { w_results : IndexResults; w_nvotes : Z; w_tasks : list walker }.

Definition limitConcurrentProcessing : nat := 20.

(** The goroutines that hold the semaphore. *)
Definition holding (l : list walker) : nat :=
  List.length (List.filter (fun t => match t with Waiting _ => false | _ => true end) l).

Inductive walk_step : walk -> walk -> Prop :=
| walk_acquire r n l1 e l2 :
    (holding (l1 ++ Waiting e :: l2) < limitConcurrentProcessing)%nat ->
    walk_step (mkWalk r n (l1 ++ Waiting e :: l2)) (mkWalk r n (l1 ++ Ready e :: l2))
| walk_skip r n l1 e l2 :
    final_vote p e.1 = Ok None ->
    walk_step (mkWalk r n (l1 ++ Ready e :: l2)) (mkWalk r n (l1 ++ l2))
| walk_refuse r n l1 e l2 values err :
    final_vote p e.1 = Ok (Some values) -> AddVote_check r values (Some e.2) = Err err ->
    walk_step (mkWalk r n (l1 ++ Ready e :: l2)) (mkWalk r n (l1 ++ l2))
| walk_check r n l1 e l2 values x :
    final_vote p e.1 = Ok (Some values) -> AddVote_check r values (Some e.2) = Ok x ->
    walk_step (mkWalk r n (l1 ++ Ready e :: l2)) (mkWalk r n (l1 ++ Checked (values, e.2) :: l2))
| walk_count r n l1 b l2 et opts r' :
    R_EnvelopeType r = Some et -> R_VoteOpts r = Some opts ->
    count_ballot et opts b.1 (Some b.2) r = (r', Ok tt) ->
    walk_step (mkWalk r n (l1 ++ Checked b :: l2)) (mkWalk r' n (l1 ++ Counted :: l2))
| walk_done r n l1 l2 :
    walk_step (mkWalk r n (l1 ++ Counted :: l2)) (mkWalk r (u64 (n + 1)) (l1 ++ l2)).

Inductive walk_panics : walk -> Prop :=
| panics_decode r n l1 e l2 why :
    final_vote p e.1 = Panic why -> walk_panics (mkWalk r n (l1 ++ Ready e :: l2))
| panics_check r n l1 e l2 values why :
    final_vote p e.1 = Ok (Some values) -> AddVote_check r values (Some e.2) = Panic why ->
    walk_panics (mkWalk r n (l1 ++ Ready e :: l2))
| panics_count r n l1 b l2 et opts r' why :
    R_EnvelopeType r = Some et -> R_VoteOpts r = Some opts ->
    count_ballot et opts b.1 (Some b.2) r = (r', Panic why) -> walk_panics (mkWalk r n (l1 ++ Checked b :: l2)).

(** ** The votes that count *)

Context (et : EnvelopeType) (opts : ProcessVoteOptions).

Definition decoded (e : VoteEnvelope * Z) : option ballot :=
  match final_vote p e.1 with Ok (Some values) => Some (values, e.2) | _ => None end.

(** The ballot of an envelope, if it is counted. *)
Definition valid_ballot (e : VoteEnvelope * Z) : option ballot :=
  b ← decoded e; if decide (accepted et opts b) then Some b else None.

(** An envelope that can be decoded or skipped, and counted or refused. *)
Definition tractable (e : VoteEnvelope * Z) : Prop :=
  is_panic (final_vote p e.1) = false /\ (forall v, final_vote p e.1 <> Err v) /\ 0 <= e.2 /\
  forall b, valid_ballot e = Some b -> in_range opts b.1.

Lemma tractable_cases e :
  tractable e -> final_vote p e.1 = Ok None \/ exists values, final_vote p e.1 = Ok (Some values).
Proof.
  intros (Hp & He & _). destruct (final_vote p e.1) as [[v|]|err|w]; [eauto|eauto|by destruct (He err)|done].
Qed.

Lemma valid_ballot_Some e b :
  valid_ballot e = Some b -> final_vote p e.1 = Ok (Some b.1) /\ b.2 = e.2 /\ accepted et opts b.
Proof.
  unfold valid_ballot, decoded. destruct (final_vote p e.1) as [[v|]|err|w] eqn:E; try done. cbn.
  destruct (decide _) as [Ha|]; [|done]. intros [= <-]. done.
Qed.

(** The sequential run counts the valid ballots in order. *)
Lemma count_envelope_run e r n :
  tallying opts et r -> tractable e ->
  count_envelope p e (r, n) =
    match valid_ballot e with
    | Some b => ((count et opts r b, u64 (n + 1)), Ok tt)
    | None => ((r, n), Ok tt)
    end.
Proof.
  intros Ht Htr. pose proof Htr as (_ & _ & Hw & Hin). destruct e as [vote w]. unfold count_envelope.
  destruct (tractable_cases _ Htr) as [E|[values E]]; cbn [fst snd] in *.
  - erewrite bind_run_Ok by (unfold lift; by rewrite E).
    assert (valid_ballot (vote, w) = None) as -> by (unfold valid_ballot, decoded; cbn; by rewrite E). done.
  - erewrite bind_run_Ok by (unfold lift; by rewrite E).
    assert (Hv : valid_ballot (vote, w) = if decide (accepted et opts (values, w)) then Some (values, w) else None).
    { unfold valid_ballot, decoded. cbn. by rewrite E. }
    destruct (decide (accepted et opts (values, w))) as [Ha|Ha]; rewrite Hv.
    + erewrite bind_run_Ok.
      2: { unfold catch, zoom. cbn [fst snd]. rewrite (AddVote_counted et opts) by (auto; by apply (Hin _ Hv)).
           reflexivity. }
      done.
    + destruct (AddVote_refused et opts values w r Ht Hw Ha) as [err Herr].
      erewrite bind_run_Ok by (unfold catch, zoom; cbn [fst snd]; rewrite Herr; reflexivity). done.
Qed.

Lemma count_envelopes_run envs r n :
  tallying opts et r -> Forall tractable envs ->
  mfor envs (count_envelope p) (r, n) =
    ((foldl (count et opts) r (omap valid_ballot envs),
      foldl (fun n _ => u64 (n + 1)) n (omap valid_ballot envs)), Ok tt).
Proof.
  intros Ht Hf. revert r n Ht. induction Hf as [|e envs He Hf IH]; intros r n Ht; [done|].
  cbn [mfor]. erewrite bind_run_Ok.
  2: { rewrite count_envelope_run by done.
       instantiate (1 := tt). instantiate (1 := match valid_ballot e with
         | Some b => (count et opts r b, u64 (n + 1)) | None => (r, n) end). by destruct (valid_ballot e). }
  cbn [omap list_omap]. destruct (valid_ballot e) as [b|]; [|by apply IH].
  rewrite IH by (by apply count_tallying). done.
Qed.

Lemma nvotes_run (bs : list ballot) n : u64 (foldl (fun n _ => u64 (n + 1)) n bs) = u64 (n + Z.of_nat (List.length bs)).
Proof.
  revert n. induction bs as [|b bs IH]; intros n; cbn [foldl List.length]; [by rewrite Z.add_0_r|].
  rewrite IH, u64_add_idem. f_equal. lia.
Qed.
(** ** Every interleaving *)

Context (r0 : IndexResults) (envs : list (VoteEnvelope * Z)).
Hypothesis r0_tallying : tallying opts et r0.
Hypothesis envs_tractable : Forall tractable envs.

Definition valid : list ballot := omap valid_ballot envs.
Definition walk_start : walk := mkWalk r0 0 (Waiting <$> envs).

(** The ballot a goroutine has still to count. *)
Definition pending (t : walker) : option ballot :=
  match t with Waiting e | Ready e => valid_ballot e | Checked b => Some b | Counted => None end.

Definition task_ok (t : walker) : Prop :=
  match t with
  | Waiting e | Ready e => tractable e
  | Checked b => accepted et opts b /\ in_range opts b.1 /\ 0 <= b.2
  | Counted => True
  end.

Definition is_counted (t : walker) : Prop := match t with Counted => True | _ => False end.
#[local] Instance is_counted_dec t : Decision (is_counted t).
Proof. destruct t; apply _. Defined.

Definition ncounted (l : list walker) : Z := Z.of_nat (List.length (filter is_counted l)).

Lemma ncounted_middle l1 t l2 :
  ncounted (l1 ++ t :: l2) = (match t with Counted => 1 | _ => 0 end) + ncounted (l1 ++ l2).
Proof.
  unfold ncounted. rewrite !filter_app, filter_cons, !length_app.
  destruct t; cbn [is_counted]; destruct (decide _); try done; cbn [List.length]; lia.
Qed.

(** [done] are the ballots counted so far, in the order of the lock. *)
Record walk_inv (w : walk) (done : list ballot) : Prop := {
  wi_results : w_results w = foldl (count et opts) r0 done;
  wi_votes : done ++ omap pending (w_tasks w) ≡ₚ valid;
  wi_tasks : Forall task_ok (w_tasks w);
  wi_nvotes : u64 (w_nvotes w + ncounted (w_tasks w)) = u64 (Z.of_nat (List.length done));
  wi_u64 : is_u64 (w_nvotes w)
}.

Lemma walk_inv_start : walk_inv walk_start [].
Proof.
  split; [done| | |  |done].
  - cbn. unfold valid. clear. induction envs as [|e l IH]; [done|]. cbn.
    destruct (valid_ballot e); [by rewrite IH|done].
  - apply Forall_fmap. eapply Forall_impl; [exact envs_tractable|done].
  - cbn. assert (filter is_counted (Waiting <$> envs) = []) as Hf by (clear; by induction envs).
    unfold ncounted. by rewrite Hf.
Qed.

Lemma walk_inv_tallying w done : walk_inv w done -> tallying opts et (w_results w).
Proof. intros Hi. rewrite (wi_results _ _ Hi). by apply foldl_count_tallying. Qed.

Lemma omap_middle l1 t l2 :
  omap pending (l1 ++ t :: l2) ≡ₚ (match pending t with Some b => [b] | None => [] end) ++ omap pending (l1 ++ l2).
Proof.
  rewrite !omap_app. cbn [omap list_omap]. destruct (pending t) as [b|]; cbn; [|done].
  by rewrite Permutation_middle.
Qed.

Lemma checked_accepted r values (w : Z) x :
  tallying opts et r -> 0 <= w -> AddVote_check r values (Some w) = Ok x ->
  accepted et opts (values, w).
Proof.
  intros Ht Hw Hx. rewrite (AddVote_check_tallying et opts) in Hx by done.
  apply outcome_bind_Ok in Hx as ([] & Hx & _). by apply (ballot_check_spec et opts values w Hw).
Qed.

Lemma refused_not_accepted r values (w : Z) err :
  tallying opts et r -> 0 <= w -> AddVote_check r values (Some w) = Err err ->
  ~ accepted et opts (values, w).
Proof.
  intros Ht Hw Hx Ha. rewrite (AddVote_check_tallying et opts) in Hx by done.
  apply (ballot_check_spec et opts values w Hw) in Ha. by rewrite Ha in Hx.
Qed.

Lemma count_ballot_counted r b :
  tallying opts et r -> 0 <= b.2 -> accepted et opts b -> in_range opts b.1 ->
  count_ballot et opts b.1 (Some b.2) r = (count et opts r b, Ok tt).
Proof.
  intros Ht Hw Ha Hin. pose proof (AddVote_counted et opts b.1 b.2 r Ht Hw Ha Hin) as Hrun.
  rewrite (AddVote_steps et opts) in Hrun by done. apply (ballot_check_spec et opts b.1 b.2 Hw) in Ha.
  erewrite bind_run_Ok in Hrun by (unfold lift; by rewrite Ha). done.
Qed.

Lemma walk_inv_step w w' done : walk_inv w done -> walk_step w w' -> exists done', walk_inv w' done'.
Proof.
  intros Hi Hs. pose proof (walk_inv_tallying _ _ Hi) as Ht. destruct Hi as [Hr Hv Hk Hn Hu].
  destruct Hs as [r n l1 e l2 Hlim|r n l1 e l2 E|r n l1 e l2 values err E Ec|r n l1 e l2 values x E Ec
                 |r n l1 b l2 et' opts' r' Het Hop Hc|r n l1 l2];
    cbn [w_results w_tasks w_nvotes] in *; apply Forall_app in Hk as [Hk1 [Hk Hk2]%Forall_cons]; cbn [task_ok] in *.
  - exists done. split; cbn; [done| |by apply Forall_app; split; [|constructor]|by rewrite ncounted_middle in *|done].
    by rewrite omap_middle in *.
  - exists done. split; cbn; [done| |by apply Forall_app|by rewrite ncounted_middle in Hn|done].
    rewrite omap_middle in Hv. cbn [pending] in Hv.
    assert (valid_ballot e = None) as Hb by (unfold valid_ballot, decoded; by rewrite E). by rewrite Hb in Hv.
  - exists done. split; cbn; [done| |by apply Forall_app|by rewrite ncounted_middle in Hn|done].
    rewrite omap_middle in Hv. cbn [pending] in Hv.
    assert (valid_ballot e = None) as Hb; [|by rewrite Hb in Hv].
    unfold valid_ballot, decoded. rewrite E. cbn. apply decide_False.
    apply (refused_not_accepted r values e.2 err Ht); [|done]. by destruct Hk as (_ & _ & ? & _).
  - exists done. destruct Hk as (_ & _ & Hw & Hin).
    assert (Ha : accepted et opts (values, e.2)) by by eapply checked_accepted.
    assert (Hb : valid_ballot e = Some (values, e.2)).
    { unfold valid_ballot, decoded. rewrite E. cbn. by rewrite decide_True. }
    split; cbn; [done| | |by rewrite ncounted_middle in *|done].
    + rewrite omap_middle in *. cbn [pending] in *. by rewrite Hb in Hv.
    + apply Forall_app. split; [done|]. constructor; [|done]. split_and!; [done|by apply (Hin _ Hb)|done].
  - exists (done ++ [b]). destruct Hk as (Ha & Hin & Hw).
    rewrite (ta_type _ _ _ Ht) in Het. rewrite (ta_opts _ _ _ Ht) in Hop. simplify_eq.
    rewrite count_ballot_counted in Hc by done. injection Hc as <-.
    split; cbn; [by rewrite foldl_app| |by apply Forall_app; split; [|constructor]| |done].
    + rewrite omap_middle in *. cbn [pending] in *. by rewrite <- app_assoc.
    + rewrite ncounted_middle in *. rewrite length_app, Nat2Z.inj_add. cbn [List.length Z.of_nat].
      rewrite <- (u64_add_idem (Z.of_nat (List.length done))), <- Hn, u64_add_idem. f_equal. lia.
  - exists done. split; cbn; [done| |by apply Forall_app| |apply u64_range].
    + by rewrite omap_middle in Hv.
    + rewrite u64_add_idem, <- Hn, ncounted_middle. f_equal. lia.
Qed.

Lemma walk_inv_star w : rtc walk_step walk_start w -> exists done, walk_inv w done.
Proof.
  intros Hs. assert (Hgen : forall w0 w1, rtc walk_step w0 w1 -> forall done, walk_inv w0 done ->
                            exists done', walk_inv w1 done').
  { intros w0 w1. induction 1 as [w0|w0 w1 w2 Hs1 _ IH]; intros done Hi; [eauto|].
    destruct (walk_inv_step _ _ _ Hi Hs1) as [done' Hi']. by eapply IH. }
  eapply Hgen; [exact Hs|apply walk_inv_start].
Qed.

Lemma check_no_panic r e values why :
  tallying opts et r -> tractable e -> AddVote_check r values (Some e.2) <> Panic why.
Proof.
  intros Ht (_ & _ & Hw & _) Ec. rewrite (AddVote_check_tallying et opts) in Ec by done.
  destruct (ballot_check_spec et opts values e.2 Hw) as [_ Hp]. by destruct (ballot_check _ _ _ _) as [[]| |].
Qed.

(** A goroutine that holds the semaphore has a step. *)
Lemma holder_steps r n l1 t l2 done :
  walk_inv (mkWalk r n (l1 ++ t :: l2)) done -> (forall e, t <> Waiting e) ->
  exists w', walk_step (mkWalk r n (l1 ++ t :: l2)) w'.
Proof.
  intros Hi Hne. pose proof (walk_inv_tallying _ _ Hi) as Ht. pose proof (wi_tasks _ _ Hi) as Hk. cbn in Ht, Hk.
  apply Forall_app in Hk as [_ [Hk _]%Forall_cons]. destruct t as [e|e|b|]; cbn in Hk; [by destruct (Hne e)|..].
  - destruct (tractable_cases _ Hk) as [E|[values E]]; [eexists; by apply walk_skip|].
    destruct (AddVote_check r values (Some e.2)) as [x|err|x] eqn:Ec; [eexists; by eapply walk_check|eexists; by eapply walk_refuse|].
    by destruct (check_no_panic r e values x).
  - destruct Hk as (Ha & Hin & Hw). eexists.
    eapply walk_count; [apply Ht|apply Ht|by apply count_ballot_counted].
  - eexists. apply walk_done.
Qed.

Lemma holding_some l : (0 < holding l)%nat -> exists l1 t l2, l = l1 ++ t :: l2 /\ forall e, t <> Waiting e.
Proof.
  unfold holding. induction l as [|t l IH]; cbn; [lia|]. destruct t as [e|e|b|]; cbn; intros Hl;
    [|by eexists [], _, _..]. destruct (IH Hl) as (l1 & t & l2 & -> & Ht). by exists (Waiting e :: l1), t, l2.
Qed.

(** The goroutines are never blocked together. *)
Lemma walk_progress w done : walk_inv w done -> w_tasks w <> [] -> exists w', walk_step w w'.
Proof.
  intros Hi Hne. destruct w as [r n l]. cbn in Hne. destruct (decide (0 < holding l)%nat) as [Hl|Hl].
  - destruct (holding_some l Hl) as (l1 & t & l2 & -> & Ht). by eapply holder_steps.
  - destruct l as [|t l]; [done|]. destruct t as [e|e|b|]; [|by destruct Hl; unfold holding; cbn; lia..].
    eexists. apply (walk_acquire r n []). cbn [app]. unfold limitConcurrentProcessing. lia.
Qed.

Lemma walk_no_panic w done : walk_inv w done -> ~ walk_panics w.
Proof.
  intros Hi Hp. pose proof (walk_inv_tallying _ _ Hi) as Ht. pose proof (wi_tasks _ _ Hi) as Hk.
  destruct Hp as [r n l1 e l2 why E|r n l1 e l2 values why E Ec|r n l1 b l2 et' opts' r' why Het Hop Hc]; cbn in Ht, Hk;
    apply Forall_app in Hk as [_ [Hk _]%Forall_cons]; cbn in Hk.
  - destruct Hk as (Hnp & _). by rewrite E in Hnp.
  - by apply (check_no_panic r e values why).
  - destruct Hk as (Ha & Hin & Hw). rewrite (ta_type _ _ _ Ht) in Het. rewrite (ta_opts _ _ _ Ht) in Hop. simplify_eq.
    by rewrite count_ballot_counted in Hc.
Qed.

Definition work (t : walker) : nat := match t with Waiting _ => 4 | Ready _ => 3 | Checked _ => 2 | Counted => 1 end.

Lemma walk_step_work w w' :
  walk_step w w' -> (sum_list_with work (w_tasks w') < sum_list_with work (w_tasks w))%nat.
Proof. intros []; cbn; rewrite !sum_list_with_app; cbn; lia. Qed.

Lemma walk_bounded n w w' :
  nsteps walk_step n w w' -> (n + sum_list_with work (w_tasks w') <= sum_list_with work (w_tasks w))%nat.
Proof.
  induction 1 as [w|n w w1 w' Hs _ IH]; [lia|]. apply walk_step_work in Hs. lia.
Qed.

Lemma walk_start_work : sum_list_with work (w_tasks walk_start) = (4 * List.length envs)%nat.
Proof. cbn. clear. induction envs as [|e l IH]; [done|]. cbn in *. lia. Qed.

(** The results when all the goroutines have returned. *)
Lemma walk_final w :
  rtc walk_step walk_start w -> w_tasks w = [] ->
  w_results w = foldl (count et opts) r0 valid /\ w_nvotes w = u64 (Z.of_nat (List.length valid)).
Proof.
  intros Hs Hw. destruct (walk_inv_star w Hs) as [done [Hr Hv _ Hn Hu]]. rewrite Hw in *.
  cbn in Hv. rewrite app_nil_r in Hv. split.
  - rewrite Hr. apply foldl_count_permutation; [done|done|]. rewrite Hv. apply Forall_forall.
    intros b Hb. apply list_elem_of_omap in Hb as (e & He & Hb). rewrite Forall_forall in envs_tractable.
    by apply (envs_tractable e He).
  - unfold ncounted in Hn. cbn in Hn. rewrite Z.add_0_r, u64_id in Hn by done. by rewrite Hn, Hv.
Qed.
End tally.
