(* ===== verification/IndexerFacts.v ===== *)
(** * The two databases of the indexer

    The encodings of [IndexerTypes.v] can be decoded, and the SQL row of a process is decoded to
    the results that badgerhold holds, while the process is created, counted and finished. *)

From stdpp Require Import base option list strings gmap.
From Stdlib Require Import ZArith Lia Ascii.
From S2P Require Import Prelude GoMonad GoLib GoText Models Results ResultsFacts External Tables Nacl Ethereum.
From S2P Require Import StateTrees IndexerTypes Indexer IndexerVotes Scrutinizer TallyFacts.

(** ** Encodings *)

Fixpoint lacks (sep : ascii) (s : string) : bool :=
  match s with EmptyString => true | String c s' => negb (bool_decide (c = sep)) && lacks sep s' end.

Lemma split_on_lacks sep s : lacks sep s = true -> split_on sep s = [s].
Proof.
  induction s as [|c s IH]; cbn; [done|]. case_bool_decide; [done|]. cbn. intros Hs. by rewrite IH.
Qed.

Lemma split_on_app sep s rest :
  lacks sep s = true -> split_on sep (s +:+ String sep rest) = s :: split_on sep rest.
Proof.
  induction s as [|c s IH]; cbn; [by rewrite bool_decide_true by done|].
  case_bool_decide; [done|]. cbn. intros Hs. by rewrite IH.
Qed.

Lemma split_join sep (l : list string) :
  l <> [] -> Forall (fun s => lacks sep s = true) l -> split_on sep (join_with (String sep "") l) = l.
Proof.
  induction l as [|s l IH]; [done|]. intros _ Hl. apply Forall_cons in Hl as [Hs Hl].
  destruct l as [|s' l]; [by apply split_on_lacks|].
  change (join_with _ (s :: s' :: l)) with (s +:+ String sep (join_with (String sep "") (s' :: l))).
  rewrite split_on_app by done. by rewrite IH.
Qed.

Lemma all_digits_lacks sep s : is_digit sep = false -> all_digits s = true -> lacks sep s = true.
Proof.
  intros Hsep. induction s as [|c s IH]; [done|]. cbn. intros [Hc Hs]%andb_true_iff.
  rewrite IH by done. rewrite bool_decide_false; [done|]. intros ->. congruence.
Qed.

Lemma big_String_lacks sep z :
  is_digit sep = false -> sep <> "-"%char -> lacks sep (big_String z) = true.
Proof.
  intros Hsep Hm. unfold big_String. destruct (decimal_spec (Z.abs z) ltac:(lia)) as (c & s & -> & Hc & Hd & _).
  assert (Hl : lacks sep (String c s) = true) by (apply all_digits_lacks; [done|]; cbn; by rewrite Hc).
  destruct (z <? 0); [|done]. cbn [lacks]. rewrite bool_decide_false by congruence. done.
Qed.

Lemma lacks_app sep a b : lacks sep (a +:+ b) = lacks sep a && lacks sep b.
Proof. induction a as [|c a IH]; [done|]. cbn. by rewrite IH, andb_assoc. Qed.

Lemma lacks_join sep t (l : list string) :
  t <> sep -> Forall (fun s => lacks sep s = true) l -> lacks sep (join_with (String t "") l) = true.
Proof.
  intros Ht. induction 1 as [|s l Hs Hl IH]; [done|]. destruct l as [|s' l]; [done|].
  change (join_with _ (s :: s' :: l)) with (s +:+ String t (join_with (String t "") (s' :: l))).
  rewrite lacks_app, Hs. cbn [lacks]. by rewrite bool_decide_false.
Qed.

Lemma decode_row (row : list Z) :
  row <> [] -> omap big_SetString0 (split_on ","%char (join_with "," (big_String <$> row))) = row.
Proof.
  intros Hne. rewrite (split_join ","%char).
  - clear. induction row as [|z row IH]; [done|]. cbn. rewrite big_SetString0_String. by rewrite IH.
  - by destruct row.
  - apply Forall_fmap, Forall_forall. intros z _. by apply big_String_lacks.
Qed.

(** The votes of a row are read back. *)
Lemma decode_encodeVotes votes :
  votes <> [] -> Forall (fun row => row <> []) votes -> decodeVotes (encodeVotes votes) = votes.
Proof.
  intros Hne Hr. unfold decodeVotes, encodeVotes. rewrite (split_join " "%char).
  - rewrite <- list_fmap_compose. clear Hne. induction Hr as [|row votes Hrow Hr IH]; [done|].
    cbn [fmap list_fmap]. unfold compose at 1. cbn beta. by rewrite decode_row, IH.
  - by destruct votes.
  - apply Forall_fmap. eapply Forall_impl; [exact Hr|]. intros row _. unfold compose.
    apply lacks_join; [done|]. apply Forall_fmap, Forall_forall. intros z _. by apply big_String_lacks.
Qed.

Lemma decodeBigint_String z : decodeBigint (big_String z) = z.
Proof. unfold decodeBigint. by rewrite big_SetString0_String. Qed.

Lemma u64_i64 z : is_u64 z -> u64 (i64 z) = z.
Proof.
  intros Hz. unfold i64, u64. rewrite Zminus_mod, Z.mod_mod, <- Zminus_mod by lia.
  rewrite Z.add_simpl_r. by apply Z.mod_small.
Qed.

(** ** Calls on the tables *)

Section databases.
Context `{TablesLaws, Memo, ProtoOptsLaws, Proto, EthCrypto, !ProofLibs, !SealedBox}.

Lemma tbl_find_run {R} (t : IndexDB -> table R) k missing d r :
  t_find k (t d) = Some r -> tbl_find t k missing d = (d, Ok r).
Proof. intros Hf. unfold tbl_find. erewrite bind_run_Ok by reflexivity. by rewrite Hf. Qed.

Lemma tbl_insert_run {R} (t : IndexDB -> table R) set e k (r : R) d t' :
  t_insert k r (t d) = Some t' -> tbl_insert t set e k r d = (set t' d, Ok tt).
Proof. intros Hi. unfold tbl_insert. erewrite bind_run_Ok by reflexivity. by rewrite Hi. Qed.

Lemma tbl_update_run {R} (t : IndexDB -> table R) set k f d r r' :
  t_find k (t d) = Some r -> f r = Ok r' -> tbl_update t set k f d = (set (t_put k r' (t d)) d, Ok tt).
Proof.
  intros Hf Hr. unfold tbl_update. erewrite bind_run_Ok by reflexivity. rewrite Hf.
  erewrite bind_run_Ok by (unfold lift; by rewrite Hr). done.
Qed.

Lemma query_Ok query d d' : query d = (d', Ok tt) -> queryWithRetries query d = (d', Ok tt).
Proof.
  intros Hq. unfold queryWithRetries. assert (Hgen : forall n, query_tries (S n) query d = (d', Ok tt)).
  { intros n. cbn [query_tries]. erewrite bind_run_Ok by (unfold catch; by rewrite Hq). done. }
  exact (Hgen 999%nat).
Qed.

(** ** The results of a process in both databases *)

Definition row_shape (opts : ProcessVoteOptions) (r : IndexResults) : Prop :=
  0 < MaxCount opts /\
  shaped (Z.to_nat (MaxCount opts)) (Z.to_nat (MaxValue opts + 1)) (R_Votes r) /\
  is_u64 (R_EnvelopeHeight r) /\ is_u32 (R_BlockHeight r).

Record indexed (pid : bytes) (opts : ProcessVoteOptions) (et : EnvelopeType) (r : IndexResults) (d : IndexDB) : Prop := {
  ix_results : t_find (KBytes pid) (bh_results d) = Some r;
  ix_id : R_ProcessID r = pid;
  ix_process : t_find (KBytes pid) (bh_processes d) <> None;
  ix_row : exists row, t_find (KBytes pid) (sql_processes d) = Some row /\ ResultsFromDB row = Ok (Some r);
  ix_tally : tallying opts et r;
  ix_shape : row_shape opts r
}.

(** The other processes of the databases. *)
Definition same_others (pid : bytes) (d d' : IndexDB) : Prop :=
  forall pid', pid' <> pid ->
    t_find (KBytes pid') (bh_results d') = t_find (KBytes pid') (bh_results d) /\
    t_find (KBytes pid') (bh_processes d') = t_find (KBytes pid') (bh_processes d) /\
    t_find (KBytes pid') (sql_processes d') = t_find (KBytes pid') (sql_processes d).

Lemma shape_decodes opts et r :
  tallying opts et r -> row_shape opts r -> decodeVotes (encodeVotes (R_Votes r)) = R_Votes r.
Proof.
  intros Ht (Hc & [Hm Hn] & _). destruct Ht as [_ _ (_ & Hv & _) _]. unfold is_u32 in Hv. apply decode_encodeVotes.
  - intros E. rewrite E in Hm. cbn in Hm. lia.
  - eapply Forall_impl; [exact Hn|]. cbn. intros row Hr ->. cbn in Hr. lia.
Qed.

(** The columns of the results, written to the row of a process, are read back. *)
Lemma ResultsFromDB_results opts et row r r' :
  ResultsFromDB row = Ok (Some r) -> tallying opts et r' -> row_shape opts r' ->
  R_ProcessID r' = R_ProcessID r -> R_EnvelopeType r' = R_EnvelopeType r -> R_VoteOpts r' = R_VoteOpts r ->
  R_Signatures r' = R_Signatures r -> R_Final r' = R_Final r ->
  ResultsFromDB (row_results (encodeVotes (R_Votes r')) (big_String (R_Weight r')) (i64 (R_EnvelopeHeight r'))
    (R_BlockHeight r') row) = Ok (Some r').
Proof.
  intros Hrow Ht Hs Hid Het Hop Hsig Hfin. pose proof (shape_decodes _ _ _ Ht Hs) as Hdec.
  destruct Hs as (_ & _ & Hh & Hb). unfold ResultsFromDB in *. cbn in *.
  destruct (hexSplit (DB_ResultsSignatures row)) as [sigs|e|w]; cbn in *; try done.
  destruct (unmarshal (DB_EnvelopePb row)) as [et'|]; [|done]. injection Hrow as <-. cbn in *. do 2 f_equal.
  apply results_ext; cbn; try done; [by rewrite decodeBigint_String|by apply u64_i64|by apply u32_id].
Qed.

Lemma indexed_info pid opts et r d :
  indexed pid opts et r d ->
  exists p, ProcessInfo true pid d = (d, Ok p) /\ IP_VoteOpts p = Some opts /\ IP_Envelope p = Some et /\
    IP_ID p = pid /\ exists row, t_find (KBytes pid) (sql_processes d) = Some row /\ p = ProcessFromDB row.
Proof.
  intros [_ Hid Hp (row & Hrow & Hr) Ht _]. destruct (t_find (KBytes pid) (bh_processes d)) as [p0|] eqn:E; [|done].
  exists (ProcessFromDB row). unfold ProcessInfo.
  split.
  { erewrite bind_run_Ok.
    2: { erewrite bind_run_Ok by (by apply tbl_find_run). reflexivity. }
    unfold GetProcess. erewrite bind_run_Ok by (by apply tbl_find_run). done. }
  destruct Ht as [Ho He _ _]. unfold ResultsFromDB in Hr.
  destruct (hexSplit (DB_ResultsSignatures row)) as [sigs|e|w]; cbn in Hr; try done.
  destruct (unmarshal (DB_EnvelopePb row)) as [et'|] eqn:Eu; [|done]. injection Hr as <-. cbn in Ho, He.
  injection He as ->. cbn. rewrite Eu. split_and!; [done|done|done|eauto].
Qed.

(** What [commitVotes] leaves: final results are not changed. *)
Definition committed_results (partial r : IndexResults) : IndexResults :=
  if R_Final r then r else sum_results partial r.

Definition fits (opts : ProcessVoteOptions) (partial : IndexResults) : Prop :=
  (R_Votes partial = [] \/
   shaped (Z.to_nat (MaxCount opts)) (Z.to_nat (MaxValue opts + 1)) (R_Votes partial)) /\
  is_u32 (R_BlockHeight partial).

Lemma sum_results_tallying opts et partial r :
  tallying opts et r -> row_shape opts r -> fits opts partial ->
  tallying opts et (sum_results partial r) /\ row_shape opts (sum_results partial r).
Proof.
  intros [Ho He Hr _] (Hc & Hs & Hh & Hb) [_ Hpb]. pose proof (sum_results_shaped partial r _ _ Hs) as Hs'.
  split; [split; [done..|by right]|]. split_and!; [done|done|apply u64_range|].
  unfold is_u32 in *. cbn. lia.
Qed.

Lemma committed_results_good opts et partial r :
  tallying opts et r -> row_shape opts r -> fits opts partial ->
  tallying opts et (committed_results partial r) /\ row_shape opts (committed_results partial r).
Proof. unfold committed_results. destruct (R_Final r); [done|]. apply sum_results_tallying. Qed.

(** The tables other than those of the processes and the results. *)
Definition same_rest (d d' : IndexDB) : Prop :=
  bh_votes d' = bh_votes d /\ bh_entities d' = bh_entities d /\ bh_counts d' = bh_counts d /\
  bh_txs d' = bh_txs d /\ sql_votes d' = sql_votes d.

Lemma row_final row r : ResultsFromDB row = Ok (Some r) -> DB_FinalResults row = R_Final r.
Proof.
  unfold ResultsFromDB. destruct (hexSplit _) as [sigs|e|w]; cbn; try done.
  destruct (unmarshal _); [|done]. by intros [= <-].
Qed.

(** Partial results are added to the record and to the row, each with its own. *)
Lemma commitVotes_both pid opts et r1 r2 row d partial :
  t_find (KBytes pid) (bh_results d) = Some r1 -> t_find (KBytes pid) (sql_processes d) = Some row ->
  ResultsFromDB row = Ok (Some r2) -> tallying opts et r1 -> row_shape opts r1 -> tallying opts et r2 ->
  row_shape opts r2 -> fits opts partial ->
  exists row', ResultsFromDB row' = Ok (Some (committed_results partial r2)) /\
    commitVotes true pid partial d =
      (set_sql_processes (t_put (KBytes pid) row' (sql_processes d))
         (set_bh_results (t_put (KBytes pid) (committed_results partial r1) (bh_results d)) d), Ok tt).
Proof.
  intros Hres Hrow Hr Ht1 Hs1 Ht2 Hs2 Hf.
  pose proof (committed_results_good opts et partial r2 Ht2 Hs2 Hf) as [Ht' Hs'].
  assert (Hadd : forall r, row_shape opts r -> Results_Add partial r = (sum_results partial r, Ok tt)).
  { intros r Hs. eapply Results_Add_sum; [apply Hf|apply Hs]. }
  set (r' := committed_results partial r2) in *.
  set (row' := if R_Final r2 then row else row_results (encodeVotes (R_Votes r')) (big_String (R_Weight r'))
                 (i64 (R_EnvelopeHeight r')) (R_BlockHeight r') row).
  exists row'. split.
  - subst row' r'. unfold committed_results in *. destruct (R_Final r2) eqn:Ef; [done|].
    by apply (ResultsFromDB_results opts et row r2).
  - unfold commitVotes, commitVotesUnsafe. erewrite bind_run_Ok.
    2: { apply query_Ok, (tbl_update_run _ _ _ _ _ r1 (committed_results partial r1) Hres). unfold add_partial, committed_results.
         destruct (R_Final r1); [done|]. by rewrite Hadd. }
    erewrite bind_run_Ok by (by apply tbl_find_run). erewrite bind_run_Ok by (unfold lift; by rewrite Hr).
    erewrite bind_run_Ok by reflexivity. rewrite Hadd by done. erewrite bind_run_Ok by reflexivity.
    unfold UpdateProcessResults, sql_update. erewrite tbl_update_run; [reflexivity|exact Hrow|].
    subst row' r'. unfold committed_results. rewrite (row_final _ _ Hr). by destruct (R_Final r2).
Qed.

Lemma commitVotes_indexed pid opts et r d partial :
  indexed pid opts et r d -> fits opts partial ->
  exists d', commitVotes true pid partial d = (d', Ok tt) /\
    indexed pid opts et (committed_results partial r) d' /\ same_others pid d d' /\ same_rest d d'.
Proof.
  intros [Hres Hid Hp (row & Hrow & Hr) Ht Hs] Hf.
  pose proof (committed_results_good opts et partial r Ht Hs Hf) as [Ht' Hs'].
  destruct (commitVotes_both pid opts et r r row d partial) as (row' & Hr' & Hrun); try done.
  eexists. split; [exact Hrun|]. split; [|split; [|done]].
  - split; cbn; [by rewrite find_put, decide_True|unfold committed_results; by destruct (R_Final r)|done| |done|done].
    exists row'. by rewrite find_put, decide_True.
  - intros pid' Hne. cbn. rewrite !find_put, !decide_False by congruence. done.
Qed.

(** ** The votes of a block *)

(** The votes of an open process with these options. *)
Definition open_process (ch : Chain) (pid : bytes) : Prop := isOpenProcess ch pid = Ok true.

(** A package and its weight. *)
Definition weighed : Type := bytes * Z.
Definition vote_weighed (v : Vote) : weighed := (VotePackage v, big_SetBytes (Weight v)).

Definition live_decoded (x : weighed) : option ballot :=
  match unmarshalVote x.1 [] with Ok values => Some (values, x.2) | _ => None end.

Definition live_valid (et : EnvelopeType) (opts : ProcessVoteOptions) (x : weighed) : option ballot :=
  b ← live_decoded x; if decide (accepted et opts b) then Some b else None.

(** A ballot that is counted does not panic. *)
Definition live_tractable (et : EnvelopeType) (opts : ProcessVoteOptions) (x : weighed) : Prop :=
  0 <= x.2 /\ forall b, live_valid et opts x = Some b -> in_range opts b.1.

Definition live_step (et : EnvelopeType) (opts : ProcessVoteOptions) (r : IndexResults) (x : weighed) : IndexResults :=
  match live_decoded x with
  | None => set_EnvelopeHeight (u64 (R_EnvelopeHeight r + 1)) (set_Weight (R_Weight r + x.2) r)
  | Some b => if decide (accepted et opts b) then count et opts r b else r
  end.

Lemma big_SetBytes_nonneg b : 0 <= big_SetBytes b.
Proof.
  unfold big_SetBytes, be_val. assert (Hgen : forall acc, 0 <= acc -> 0 <= be_val_acc acc b); [|by apply Hgen].
  induction b as [|c b IH]; intros acc Hacc; [done|]. cbn [be_val_acc]. apply IH.
  pose proof (byte_val_range c). lia.
Qed.

Lemma addLiveVote_decoded ch pid package w values r :
  open_process ch pid -> unmarshalVote package [] = Ok values ->
  addLiveVote ch pid package w r = Results_AddVote values (Some w) r.
Proof.
  intros Hop Hu. unfold open_process in Hop. unfold addLiveVote. erewrite bind_run_Ok by (unfold replacing, lift; by rewrite Hop).
  erewrite bind_run_Ok by (erewrite bind_run_Ok by (unfold catch, lift; by rewrite Hu); reflexivity). done.
Qed.

Lemma addLiveVote_undecoded ch pid package w e r :
  open_process ch pid -> unmarshalVote package [] = Err e ->
  addLiveVote ch pid package w r =
    (set_EnvelopeHeight (u64 (R_EnvelopeHeight r + 1)) (set_Weight (R_Weight r + w) r), Ok tt).
Proof.
  intros Hop Hu. unfold open_process in Hop. unfold addLiveVote. erewrite bind_run_Ok by (unfold replacing, lift; by rewrite Hop).
  erewrite bind_run_Ok by (erewrite bind_run_Ok by (unfold catch, lift; by rewrite Hu); reflexivity). done.
Qed.

Lemma unmarshalVote_plain_no_panic package w : unmarshalVote package [] <> Panic w.
Proof. unfold unmarshalVote. cbn [rev decrypt_all mbind outcome_bind]. by destruct (json_VotePackage package). Qed.

Lemma addLiveVote_run ch pid x opts et r :
  open_process ch pid -> tallying opts et r -> live_tractable et opts x ->
  logged (addLiveVote ch pid x.1 x.2) r = (live_step et opts r x, Ok tt).
Proof.
  intros Hop Ht [Hw Hin]. unfold live_step, live_valid, live_decoded in *.
  destruct (unmarshalVote x.1 []) as [values|e|w] eqn:E; [| |by destruct (unmarshalVote_plain_no_panic _ _ E)].
  - cbn in Hin. destruct (decide (accepted et opts (values, x.2))) as [Ha|Ha].
    + apply logged_run with (o := Ok tt); [|done]. rewrite (addLiveVote_decoded _ _ _ _ values) by done.
      apply (AddVote_counted et opts); [done|done|done|by apply (Hin _ eq_refl)].
    + destruct (AddVote_refused et opts values _ r Ht Hw Ha) as [e He].
      apply logged_run with (o := Err e); [|done]. by rewrite (addLiveVote_decoded _ _ _ _ values).
  - apply logged_run with (o := Ok tt); [|done]. by apply (addLiveVote_undecoded _ _ _ _ e).
Qed.

Lemma live_step_tallying opts et r v : tallying opts et r -> tallying opts et (live_step et opts r v).
Proof.
  intros Ht. unfold live_step. destruct (live_decoded v) as [b|].
  - destruct (decide _); [by apply count_tallying|done].
  - destruct Ht as [Ho He Hr Hs]. by split.
Qed.

Lemma foldl_live_tallying opts et votes r :
  tallying opts et r -> tallying opts et (foldl (live_step et opts) r votes).
Proof. revert r. induction votes as [|v votes IH]; intros r Ht; [done|]. apply IH. by apply live_step_tallying. Qed.

Lemma block_results_run ch proc votes opts et :
  IP_VoteOpts proc = Some opts -> IP_Envelope proc = Some et -> options_range opts ->
  Forall (fun v => open_process ch (Vote_ProcessId v)) votes ->
  Forall (live_tractable et opts) (vote_weighed <$> votes) ->
  block_results ch proc votes = (foldl (live_step et opts) (block_start proc) (vote_weighed <$> votes), Ok tt).
Proof.
  intros Ho He Hr Hop Hin. unfold block_results.
  assert (Ht : tallying opts et (block_start proc)) by (split; [done|done|done|by left]).
  revert Ht. generalize (block_start proc). induction Hop as [|v votes Hv Hop IH]; intros r Ht; [done|].
  apply Forall_cons in Hin as [Hv' Hin]. cbn [mfor]. erewrite bind_run_Ok by (by apply (addLiveVote_run ch _ (vote_weighed v))).
  apply IH; [done|by apply live_step_tallying].
Qed.

(** The cells of the results of a block are the sums of its valid ballots. *)
Lemma cell_foldl_live opts et votes r q o :
  tallying opts et r -> Forall (live_tractable et opts) votes ->
  (q < Z.to_nat (MaxCount opts))%nat -> (o < Z.to_nat (MaxValue opts + 1))%nat ->
  cell (R_Votes (foldl (live_step et opts) r votes)) q o =
    cell (R_Votes r) q o + sum_terms et opts (omap (live_valid et opts) votes) q o.
Proof.
  intros Ht Hin Hq Ho. revert r Ht. induction Hin as [|v votes Hv Hin IH]; intros r Ht; cbn [foldl]; [cbn; lia|].
  rewrite IH by (by apply live_step_tallying). cbn [omap list_omap]. unfold live_step.
  unfold live_tractable in Hv. unfold live_valid in *.
  destruct (live_decoded v) as [b|]; cbn [mbind option_bind] in *; [|done].
  destruct (decide (accepted et opts b)) as [Ha|Ha]; [|done].
  rewrite cell_count by (done || by apply (proj2 Hv _ eq_refl)). cbn. lia.
Qed.

Lemma foldl_live_fits opts et proc votes :
  IP_VoteOpts proc = Some opts -> IP_Envelope proc = Some et -> options_range opts ->
  fits opts (foldl (live_step et opts) (block_start proc) votes).
Proof.
  intros Ho He Hr. assert (Ht : tallying opts et (block_start proc)) by (split; [done|done|done|by left]).
  split; [apply (foldl_live_tallying opts et votes _ Ht)|].
  assert (Hb : forall r, R_BlockHeight (foldl (live_step et opts) r votes) = R_BlockHeight r); [|rewrite Hb; done].
  clear. induction votes as [|v votes IH]; intros r; [done|]. cbn [foldl]. rewrite IH.
  unfold live_step. destruct (live_decoded v); [|done]. by destruct (decide _).
Qed.

(** ** Live results *)

(** A process, its results in both databases, and what else does not change. *)
Definition moves (pid : bytes) (s s' : Scrutinizer) : Prop :=
  same_others pid (idb s) (idb s') /\ same_rest (idb s) (idb s') /\ pools s' = pools s /\
  liveResultsProcs s' = liveResultsProcs s /\ tasks s' = tasks s /\ ignoreLiveResults s' = ignoreLiveResults s.

Lemma on_idb_run {A} (m : GoM IndexDB A) s d o : m (idb s) = (d, o) -> on_idb m s = (set_idb d s, o).
Proof. intros Hm. unfold on_idb, zoom. by rewrite Hm. Qed.

Lemma set_idb_same s : set_idb (idb s) s = s.
Proof. by destruct s. Qed.

Definition live_block (et : EnvelopeType) (opts : ProcessVoteOptions) (votes : list weighed) : IndexResults :=
  foldl (live_step et opts) (mkResults "" [] 0 0 (Some et) (Some opts) [] false 0) votes.

Lemma commit_live_process_run ch pid votes opts et r s :
  indexed pid opts et r (idb s) ->
  Forall (fun v => open_process ch (Vote_ProcessId v)) votes ->
  Forall (live_tractable et opts) (vote_weighed <$> votes) ->
  exists s', commit_live_process true ch pid votes s = (s', Ok tt) /\
    indexed pid opts et (committed_results (live_block et opts (vote_weighed <$> votes)) r) (idb s') /\ moves pid s s'.
Proof.
  intros Hi Hop Hin. destruct (indexed_info _ _ _ _ _ Hi) as (p & Hp & Ho & He & _).
  pose proof (ta_range _ _ _ (ix_tally _ _ _ _ _ Hi)) as Hr.
  set (xs := vote_weighed <$> votes) in *.
  assert (Hb : block_results ch p votes = (live_block et opts xs, Ok tt)).
  { rewrite (block_results_run ch p votes opts et) by done. unfold live_block, block_start. by rewrite Ho, He. }
  assert (Hf : fits opts (live_block et opts xs)).
  { pose proof (foldl_live_fits opts et p xs Ho He Hr) as Hf. unfold block_start in Hf. by rewrite Ho, He in Hf. }
  destruct (commitVotes_indexed pid opts et r (idb s) _ Hi Hf) as (d' & Hc & Hi' & Hso & Hsr).
  exists (set_idb d' s). split; [|split; [done|by split_and!]].
  unfold commit_live_process. erewrite bind_run_Ok.
  2: { unfold catch. rewrite (on_idb_run _ s _ _ Hp), set_idb_same. reflexivity. }
  cbv beta iota. rewrite Hb. apply logged_run with (o := Ok tt); [|done]. by apply on_idb_run.
Qed.

(** Blocks with votes for one process, with the chain at their time. *)
Definition run_blocks (pid : bytes) (blocks : list (Chain * list Vote)) : GoM Scrutinizer unit :=
  mfor blocks (fun '(ch, votes) => commit_live_process true ch pid votes).

Definition live_total (et : EnvelopeType) (opts : ProcessVoteOptions) (r : IndexResults)
    (blocks : list (Chain * list Vote)) : IndexResults :=
  foldl (fun r b => committed_results (live_block et opts (vote_weighed <$> b.2)) r) r blocks.

Definition block_ok (et : EnvelopeType) (opts : ProcessVoteOptions) (b : Chain * list Vote) : Prop :=
  Forall (fun v => open_process b.1 (Vote_ProcessId v)) b.2 /\ Forall (live_tractable et opts) (vote_weighed <$> b.2).

Lemma run_blocks_run pid blocks opts et r s :
  indexed pid opts et r (idb s) -> Forall (block_ok et opts) blocks ->
  exists s', run_blocks pid blocks s = (s', Ok tt) /\ indexed pid opts et (live_total et opts r blocks) (idb s').
Proof.
  intros Hi Hb. revert r s Hi. induction Hb as [|[ch votes] blocks [Hop Hin] Hb IH]; intros r s Hi; [by exists s|].
  destruct (commit_live_process_run ch pid votes opts et r s Hi Hop Hin) as (s1 & Hrun & Hi1 & _).
  destruct (IH _ _ Hi1) as (s' & Hrun' & Hi'). exists s'. split; [|done].
  unfold run_blocks in *. cbn [mfor]. by erewrite bind_run_Ok by exact Hrun.
Qed.

Definition block_ballots (et : EnvelopeType) (opts : ProcessVoteOptions) (blocks : list (Chain * list Vote)) : list ballot :=
  omap (live_valid et opts) (vote_weighed <$> concat blocks.*2).

Lemma sum_terms_app et opts l1 l2 q o :
  sum_terms et opts (l1 ++ l2) q o = sum_terms et opts l1 q o + sum_terms et opts l2 q o.
Proof. induction l1 as [|b l1 IH]; cbn; [done|]. rewrite IH. lia. Qed.

Lemma sum_terms_permutation et opts l1 l2 q o : l1 ≡ₚ l2 -> sum_terms et opts l1 q o = sum_terms et opts l2 q o.
Proof. induction 1; cbn; lia. Qed.

Lemma live_block_fits et opts votes : options_range opts -> fits opts (live_block et opts votes).
Proof.
  intros Hr. assert (Hp : exists p, IP_VoteOpts p = Some opts /\ IP_Envelope p = Some et).
  { by exists (mkIndexProcess "" "" 0 0 0 0 "" "" "" "" 0 0 0 (Some et) None (Some opts) [] [] 0 0 false false 0 "" 0 0). }
  destruct Hp as (p & Ho & He). pose proof (foldl_live_fits opts et p votes Ho He Hr) as Hf.
  unfold block_start in Hf. by rewrite Ho, He in Hf.
Qed.

(** The cells of the live results are the sums of the valid ballots of all the blocks. *)
Lemma live_total_spec et opts r blocks :
  tallying opts et r -> row_shape opts r -> R_Final r = false -> Forall (block_ok et opts) blocks ->
  let r' := live_total et opts r blocks in
  tallying opts et r' /\ row_shape opts r' /\ R_Final r' = false /\
  forall q o, (q < Z.to_nat (MaxCount opts))%nat -> (o < Z.to_nat (MaxValue opts + 1))%nat ->
    cell (R_Votes r') q o = cell (R_Votes r) q o + sum_terms et opts (block_ballots et opts blocks) q o.
Proof.
  intros Ht Hs Hf Hb. revert r Ht Hs Hf. induction Hb as [|[ch votes] blocks [Hop Hin] Hb IH]; intros r Ht Hs Hf.
  - cbn. split_and!; [done..|]. intros q o _ _. lia.
  - cbn [live_total foldl snd]. pose proof (live_block_fits et opts (vote_weighed <$> votes) (ta_range _ _ _ Ht)) as Hfit.
    destruct (sum_results_tallying opts et _ r Ht Hs Hfit) as [Ht1 Hs1].
    unfold committed_results. rewrite Hf. destruct (IH _ Ht1 Hs1 Hf) as (Ht' & Hs' & Hf' & Hc').
    split_and!; [done..|]. intros q o Hq Ho. unfold live_total in Hc'. rewrite Hc' by done.
    unfold block_ballots. cbn [fmap list_fmap concat]. rewrite fmap_app, omap_app, sum_terms_app.
    erewrite cell_sum_results by (apply Hfit || apply Hs). unfold live_block.
    rewrite cell_foldl_live; [cbn [R_Votes snd]; change (cell [] q o) with 0; lia|split; [done|done|apply Ht|by left]|done..].
Qed.

(** The packages that cannot be read: live, their weight and their number are counted. *)
Definition unread (x : weighed) : option ballot :=
  match live_decoded x with None => Some ([], x.2) | Some _ => None end.
Definition unreadable (xs : list weighed) : list ballot := omap unread xs.

Lemma sum_weights_app l1 l2 : sum_weights (l1 ++ l2) = sum_weights l1 + sum_weights l2.
Proof. induction l1 as [|b l1 IH]; cbn; [done|]. rewrite IH. lia. Qed.

Lemma sum_weights_permutation l1 l2 : l1 ≡ₚ l2 -> sum_weights l1 = sum_weights l2.
Proof. induction 1; cbn; lia. Qed.

Lemma weight_foldl_live et opts xs r :
  R_Weight (foldl (live_step et opts) r xs) =
    R_Weight r + sum_weights (omap (live_valid et opts) xs) + sum_weights (unreadable xs).
Proof.
  revert r. induction xs as [|x xs IH]; intros r; cbn [foldl]; [cbn; lia|]. rewrite IH. unfold unreadable.
  cbn [omap list_omap]. unfold live_step, live_valid, unread.
  destruct (live_decoded x) as [b|]; cbn [mbind option_bind]; [|cbn; lia]. destruct (decide _); cbn; lia.
Qed.

Lemma height_foldl_live et opts xs r :
  u64 (R_EnvelopeHeight (foldl (live_step et opts) r xs)) =
    u64 (R_EnvelopeHeight r + Z.of_nat (List.length (omap (live_valid et opts) xs) + List.length (unreadable xs))).
Proof.
  revert r. induction xs as [|x xs IH]; intros r; cbn [foldl]; [cbn; by rewrite Z.add_0_r|]. rewrite IH. unfold unreadable.
  cbn [omap list_omap]. unfold live_step, live_valid, unread.
  destruct (live_decoded x) as [b|]; cbn [mbind option_bind]; [destruct (decide _)|]; cbn [List.length]; [|done|];
    cbn [R_EnvelopeHeight count counted set_EnvelopeHeight set_Weight]; rewrite u64_add_idem; f_equal; lia.
Qed.

Lemma live_total_step et opts r ch votes blocks :
  R_Final r = false ->
  live_total et opts r ((ch, votes) :: blocks) =
    live_total et opts (sum_results (live_block et opts (vote_weighed <$> votes)) r) blocks.
Proof. intros Hf. unfold live_total. cbn [foldl snd]. unfold committed_results. by rewrite Hf. Qed.

Lemma live_total_weight et opts r blocks :
  R_Final r = false ->
  R_Weight (live_total et opts r blocks) =
    R_Weight r + sum_weights (block_ballots et opts blocks) + sum_weights (unreadable (vote_weighed <$> concat blocks.*2)).
Proof.
  revert r. induction blocks as [|[ch votes] blocks IH]; intros r Hf; [cbn; lia|].
  rewrite live_total_step, IH by done. cbn [R_Weight sum_results].
  unfold live_block. rewrite weight_foldl_live. cbn [R_Weight]. unfold block_ballots, unreadable.
  cbn [fmap list_fmap concat snd]. rewrite fmap_app, !omap_app, !sum_weights_app. lia.
Qed.

Lemma live_total_height et opts r blocks :
  R_Final r = false -> is_u64 (R_EnvelopeHeight r) ->
  R_EnvelopeHeight (live_total et opts r blocks) =
    u64 (R_EnvelopeHeight r + Z.of_nat (List.length (block_ballots et opts blocks) +
      List.length (unreadable (vote_weighed <$> concat blocks.*2)))).
Proof.
  revert r. induction blocks as [|[ch votes] blocks IH]; intros r Hf Hu; [cbn; by rewrite Z.add_0_r, u64_id|].
  rewrite live_total_step, IH by (done || apply u64_range).
  cbn [R_EnvelopeHeight sum_results]. rewrite u64_add_idem, (Z.add_comm (R_EnvelopeHeight r)), <- Z.add_assoc, <- u64_add_idem.
  unfold live_block. rewrite height_foldl_live, u64_add_idem. cbn [R_EnvelopeHeight]. f_equal. unfold block_ballots, unreadable.
  cbn [fmap list_fmap concat snd]. rewrite fmap_app, !omap_app, !length_app. lia.
Qed.

(** ** New processes *)

Lemma tbl_put_run {R} (t : IndexDB -> table R) set k (r : R) d : tbl_put t set k r d = (set (t_put k r (t d)) d, Ok tt).
Proof. done. Qed.

(** An update of a table that is there or not. *)
Lemma tbl_update_total {R} (t : IndexDB -> table R) set k (f : R -> R) d :
  exists d', tbl_update t set k (fun r => Ok (f r)) d = (d', Ok tt) /\ (d' = d \/ exists t', d' = set t' d).
Proof.
  unfold tbl_update. erewrite bind_run_Ok by reflexivity. destruct (t_find k (t d)) as [r|]; [|eauto].
  exists (set (t_put k (f r) (t d)) d). split; [done|eauto].
Qed.

(** Only the counters and the entities are different. *)
Definition same_tables (d d' : IndexDB) : Prop :=
  bh_results d' = bh_results d /\ bh_processes d' = bh_processes d /\ sql_processes d' = sql_processes d /\
  bh_votes d' = bh_votes d.

Lemma count_up_run type d : exists d', count_up type d = (d', Ok tt) /\ same_tables d d'.
Proof.
  destruct (tbl_update_total bh_counts set_bh_counts (KUint type)
    (fun c => mkCountStore (CS_Type c) (u64 (CS_Count c + 1))) d) as (d' & Hd & Ho). exists d'. split; [exact Hd|]. by destruct Ho as [-> | [t' ->]].
Qed.

Lemma add_entity_run eid t d : exists d', add_entity eid t d = (d', Ok tt) /\ same_tables d d'.
Proof.
  unfold add_entity. destruct (t_find (KBytes eid) (bh_entities d)) as [e|] eqn:E.
  - eexists. split.
    + erewrite bind_run_Ok by (unfold catch; by rewrite (tbl_find_run _ _ _ _ e)).
      erewrite bind_run_Ok by reflexivity. by apply query_Ok.
    + done.
  - destruct (count_up_run CountStoreEntities d) as (d1 & Hd1 & Hs1). eexists. split.
    + erewrite bind_run_Ok.
      2: { unfold catch, tbl_find. erewrite bind_run_Ok by reflexivity. rewrite E. reflexivity. }
      erewrite bind_run_Ok by (by erewrite bind_run_Ok by exact Hd1). by apply query_Ok.
    + done.
Qed.

Lemma encodedPb_Some {A} `{Codec A} (a : A) : marshal a <> None -> exists b, encodedPb (Some a) = Ok b /\ marshal a = Some b.
Proof. unfold encodedPb. destruct (marshal a); [eauto|done]. Qed.

Lemma encodedPb_total {A} `{Codec A} (m : option A) : (forall a, marshal (A := A) a <> None) -> exists b, encodedPb m = Ok b.
Proof. intros Hm. destruct m as [a|]; [|by exists ""]. destruct (encodedPb_Some a (Hm a)) as (b & Hb & _). eauto. Qed.

(** The row of a new process is decoded to results without votes. *)
Lemma new_row_results pid p opts et h t epb mpb vpb :
  options_range opts -> 0 < MaxCount opts -> marshal et = Some epb -> marshal opts = Some vpb ->
  ResultsFromDB (new_row pid p opts h t epb mpb vpb) = Ok (Some (empty_results pid opts (Some et))).
Proof.
  intros Hr Hc Het Hop. unfold ResultsFromDB. cbn -[encodeVotes decodeVotes NewEmptyVotes].
  rewrite (unmarshal_marshal _ _ Het), (unmarshal_marshal _ _ Hop).
  assert (Hne : vpb <> "").
  { intros ->. pose proof (unmarshal_marshal _ _ Hop) as Hu. rewrite ProcessVoteOptions_empty in Hu.
    injection Hu as <-. cbn in Hc. lia. }
  rewrite bool_decide_false by done. change (hexSplit "") with (Ok (A := list bytes) []).
  cbn [mbind outcome_bind]. unfold empty_results. do 2 f_equal.
  apply results_ext; cbn -[encodeVotes decodeVotes NewEmptyVotes]; try done.
  apply decode_encodeVotes.
  - rewrite NewEmptyVotes_eq by (destruct Hr as (_ & Hv & _); unfold is_u32 in Hv; lia).
    destruct (Z.to_nat (MaxCount opts)) eqn:E; [lia|done].
  - destruct Hr as (_ & Hv & _). unfold is_u32 in Hv. rewrite NewEmptyVotes_eq by lia. apply Forall_replicate.
    destruct (Z.to_nat (MaxValue opts + 1)) eqn:E; [lia|done].
Qed.

Record creatable (ch : Chain) (pid : bytes) (p : Process) (opts : ProcessVoteOptions) (et : EnvelopeType) : Prop := {
  cr_process : ch_Process ch pid = inr p;
  cr_opts : VoteOptions p = Some opts;
  cr_type : P_EnvelopeType p = Some et;
  cr_range : options_range opts;
  cr_count : 0 < MaxCount opts <= MaxQuestions;
  cr_value : MaxValue opts <= MaxOptions
}.

Definition absent (pid : bytes) (d : IndexDB) : Prop :=
  t_find (KBytes pid) (bh_results d) = None /\ t_find (KBytes pid) (bh_processes d) = None /\
  t_find (KBytes pid) (sql_processes d) = None.

Lemma empty_results_good pid opts et :
  options_range opts -> 0 < MaxCount opts ->
  tallying opts et (empty_results pid opts (Some et)) /\ row_shape opts (empty_results pid opts (Some et)).
Proof.
  intros Hr Hc. assert (Hs : shaped (Z.to_nat (MaxCount opts)) (Z.to_nat (MaxValue opts + 1))
    (R_Votes (empty_results pid opts (Some et)))).
  { apply NewEmptyVotes_shaped; [done|]. destruct Hr as (_ & Hv & _). unfold is_u32 in Hv. lia. }
  split; [split; [done..|by right]|]. by split_and!.
Qed.

Lemma newEmptyProcess_indexed ch pid p opts et d :
  creatable ch pid p opts et -> absent pid d ->
  exists d', newEmptyProcess true ch pid d = (d', Ok tt) /\
    indexed pid opts et (empty_results pid opts (Some et)) d' /\ same_others pid d d' /\ bh_votes d' = bh_votes d.
Proof.
  intros [Hp Ho He Hr [Hc Hc'] Hv] (Ha1 & Ha2 & Ha3).
  destruct (empty_results_good pid opts et Hr Hc) as [Ht Hs].
  destruct (insert_new (KBytes pid) (empty_results pid opts (Some et)) (bh_results d) Ha1) as (t1 & Hi1 & Hf1).
  set (d1 := set_bh_results t1 d).
  destruct (count_up_run CountStoreProcesses d1) as (d2 & Hd2 & Hs2).
  destruct (add_entity_run (EntityId p) (ch_TimestampStartBlock ch) d2) as (d3 & Hd3 & Hs3).
  set (h := if negb (EncryptedVotes et) then u32 (BlockCount p + StartBlock p + 1) else 0).
  set (np := new_process pid p h (ch_TimestampStartBlock ch)).
  destruct Hs2 as (E21 & E22 & E23 & E24), Hs3 as (E31 & E32 & E33 & E34).
  assert (Ha2' : t_find (KBytes pid) (bh_processes d3) = None) by (rewrite E32, E22; done).
  destruct (insert_new (KBytes pid) np (bh_processes d3) Ha2') as (t4 & Hi4 & Hf4).
  set (d4 := set_bh_processes t4 d3).
  destruct (encodedPb_Some et (EnvelopeType_marshals et)) as (epb & Hepb & Hme).
  destruct (encodedPb_total (Mode p) ProcessMode_marshals) as (mpb & Hmpb).
  destruct (encodedPb_Some opts (ProcessVoteOptions_marshals opts Hr)) as (vpb & Hvpb & Hmv).
  set (row := new_row pid p opts h (ch_TimestampStartBlock ch) epb mpb vpb).
  assert (Ha3' : t_find (KBytes pid) (sql_processes d4) = None) by (cbn; rewrite E33, E23; done).
  destruct (insert_new (KBytes pid) row (sql_processes d4) Ha3') as (t5 & Hi5 & Hf5).
  exists (set_sql_processes t5 d4). split_and!.
  - unfold newEmptyProcess. erewrite bind_run_Ok by (unfold wrapping, lift; rewrite Hp; reflexivity).
    rewrite Ho. erewrite bind_run_Ok by (unfold reject, check; destruct (Z.eqb_spec (MaxCount opts) 0); [lia|done]).
    erewrite bind_run_Ok.
    2: { unfold reject, check. destruct (Z.ltb_spec MaxQuestions (MaxCount opts)); [lia|].
         destruct (Z.ltb_spec MaxOptions (MaxValue opts)); [lia|]. reflexivity. }
    cbv zeta. erewrite bind_run_Ok.
    2: { erewrite bind_run_Ok by (rewrite He; apply query_Ok; by eapply tbl_insert_run).
         fold d1. erewrite bind_run_Ok by (unfold catch; by rewrite Hd2). exact Hd3. }
    erewrite bind_run_Ok.
    2: { unfold wrapping, lift, isOpenProcess. rewrite Hp. cbn. rewrite He. reflexivity. }
    erewrite bind_run_Ok by (apply query_Ok; by eapply tbl_insert_run).
    rewrite He. erewrite bind_run_Ok by (unfold lift; by rewrite Hepb).
    erewrite bind_run_Ok by (unfold lift; by rewrite Hmpb). erewrite bind_run_Ok by (unfold lift; by rewrite Hvpb).
    apply wrapping_Ok. unfold CreateProcess. by eapply tbl_insert_run.
  - split; cbn; [|done|by rewrite Hf4, decide_True|exists row|done|done].
    + by rewrite E31, E21; cbn; rewrite Hf1, decide_True.
    + rewrite Hf5, decide_True by done. split; [done|]. by apply new_row_results.
  - intros pid' Hne. cbn. rewrite Hf5, Hf4, !decide_False by congruence. cbn.
    rewrite E31, E32, E33, E21, E22, E23. cbn. by rewrite Hf1, decide_False by congruence.
  - cbn. by rewrite E34, E24.
Qed.

(** ** Final results *)

(** A process whose final results can be computed. *)
Definition finishable (opts : ProcessVoteOptions) : Prop :=
  options_range opts /\ 0 < MaxCount opts <= MaxQuestions /\ 0 < MaxValue opts <= MaxOptions.

Definition final_results (ch : Chain) (p : IndexProcess) (et : EnvelopeType) (opts : ProcessVoteOptions)
    (ballots : list ballot) : IndexResults :=
  set_EnvelopeHeight (u64 (Z.of_nat (List.length ballots))) (foldl (count et opts) (final_start ch p opts) ballots).

Lemma final_start_tallying ch p et opts :
  finishable opts -> IP_Envelope p = Some et -> tallying opts et (final_start ch p opts).
Proof.
  intros (Hr & Hc & Hv) He. split; [done|done|done|]. right. apply NewEmptyVotes_shaped; lia.
Qed.

Lemma computeFinalResults_run ch p d et opts :
  finishable opts -> IP_VoteOpts p = Some opts -> IP_Envelope p = Some et ->
  Forall (tractable p et opts) (WalkEnvelopes ch (IP_ID p) d) ->
  computeFinalResults ch p d =
    (d, Ok (final_results ch p et opts (omap (valid_ballot p et opts) (WalkEnvelopes ch (IP_ID p) d)))).
Proof.
  intros Hf Ho He Htr. pose proof (final_start_tallying ch p et opts Hf He) as Ht. destruct Hf as (Hr & Hc & Hv).
  unfold computeFinalResults. rewrite Ho. erewrite bind_run_Ok by reflexivity.
  erewrite bind_run_Ok.
  2: { unfold reject, check. destruct (Z.eqb_spec (MaxCount opts) 0), (Z.eqb_spec (MaxValue opts) 0); try lia. reflexivity. }
  erewrite bind_run_Ok.
  2: { unfold reject, check. destruct (Z.ltb_spec MaxQuestions (MaxCount opts)), (Z.ltb_spec MaxOptions (MaxValue opts));
         try lia. reflexivity. }
  erewrite bind_run_Ok by reflexivity. rewrite (count_envelopes_run p et opts) by done. unfold mret, gom_ret.
  unfold final_results. do 3 f_equal.
  set (bs := omap _ _). pose proof (nvotes_run bs 0) as Hn. rewrite Z.add_0_l in Hn. rewrite <- Hn. symmetry. apply u64_id.
  clear. assert (Hgen : forall n, is_u64 n -> is_u64 (foldl (fun n _ => u64 (n + 1)) n bs)); [|by apply Hgen].
  induction bs as [|b bs IH]; intros n Hn; [done|]. apply IH, u64_range.
Qed.

Lemma final_results_good ch p et opts ballots :
  finishable opts -> IP_Envelope p = Some et -> is_u32 (ch_Height ch) ->
  tallying opts et (final_results ch p et opts ballots) /\ row_shape opts (final_results ch p et opts ballots) /\
  R_ProcessID (final_results ch p et opts ballots) = IP_ID p /\
  R_Signatures (final_results ch p et opts ballots) = [] /\ R_Final (final_results ch p et opts ballots) = true.
Proof.
  intros Hf He Hh. pose proof (final_start_tallying ch p et opts Hf He) as Ht.
  pose proof (foldl_count_tallying et opts ballots _ Ht) as Ht'.
  assert (Hsame : forall r, R_ProcessID (foldl (count et opts) r ballots) = R_ProcessID r /\
    R_Signatures (foldl (count et opts) r ballots) = R_Signatures r /\
    R_Final (foldl (count et opts) r ballots) = R_Final r /\
    R_BlockHeight (foldl (count et opts) r ballots) = R_BlockHeight r /\
    (shaped (Z.to_nat (MaxCount opts)) (Z.to_nat (MaxValue opts + 1)) (R_Votes r) -> tallying opts et r ->
     shaped (Z.to_nat (MaxCount opts)) (Z.to_nat (MaxValue opts + 1)) (R_Votes (foldl (count et opts) r ballots)))).
  { clear. induction ballots as [|b bs IH]; intros r; [by split_and!|]. cbn [foldl].
    destruct (IH (count et opts r b)) as (-> & -> & -> & -> & Hs). split_and!; try done.
    intros Hr Ht. apply Hs; [by apply count_shaped|by apply count_tallying]. }
  destruct (Hsame (final_start ch p opts)) as (Hi & Hsg & Hfi & Hbh & Hsh).
  split; [split; apply Ht'|]. split; [|unfold final_results; cbn; by rewrite Hi, Hsg, Hfi].
  split_and!; [apply Hf| |apply u64_range|cbn; by rewrite Hbh].
  apply Hsh; [|done]. apply NewEmptyVotes_shaped; destruct Hf as (_ & ? & ?); lia.
Qed.

Lemma ResultsFromDB_ready opts et row r r' :
  ResultsFromDB row = Ok (Some r) -> tallying opts et r' -> row_shape opts r' ->
  R_ProcessID r' = R_ProcessID r -> R_EnvelopeType r' = R_EnvelopeType r -> R_VoteOpts r' = R_VoteOpts r ->
  R_Signatures r' = [] -> R_Final r' = true ->
  ResultsFromDB (row_ready (encodeVotes (R_Votes r')) (big_String (R_Weight r')) (i64 (R_EnvelopeHeight r'))
    (joinHexBytes (R_Signatures r')) (R_BlockHeight r') row) = Ok (Some r').
Proof.
  intros Hrow Ht Hs Hid Het Hop Hsig Hfin. pose proof (shape_decodes _ _ _ Ht Hs) as Hdec.
  destruct Hs as (_ & _ & Hh & Hb). rewrite Hsig. unfold ResultsFromDB in *. cbn in *.
  destruct (hexSplit (DB_ResultsSignatures row)) as [sigs|e|w]; cbn in *; try done.
  destruct (unmarshal (DB_EnvelopePb row)) as [et'|]; [|done]. injection Hrow as <-. cbn in *.
  change (hexSplit "") with (Ok (A := list bytes) []). cbn [mbind outcome_bind]. do 2 f_equal.
  apply results_ext; cbn; try done; [by rewrite decodeBigint_String|by apply u64_i64|by apply u32_id].
Qed.

Lemma ComputeResult_indexed ch pid opts et r s :
  indexed pid opts et r (idb s) -> finishable opts -> is_u32 (ch_Height ch) ->
  (forall p, IP_ID p = pid -> IP_VoteOpts p = Some opts -> IP_Envelope p = Some et ->
     ProcessInfo true pid (idb s) = (idb s, Ok p) -> Forall (tractable p et opts) (WalkEnvelopes ch pid (idb s))) ->
  exists p s', ProcessInfo true pid (idb s) = (idb s, Ok p) /\ ComputeResult true ch pid s = (s', Ok tt) /\
    let rf := final_results ch p et opts (omap (valid_ballot p et opts) (WalkEnvelopes ch pid (idb s))) in
    indexed pid opts et rf (idb s') /\ same_others pid (idb s) (idb s') /\ same_rest (idb s) (idb s') /\
    notified s' = notified s ++ [OnComputeResults rf p (ch_Height ch)].
Proof.
  intros Hi Hf Hh Htr. destruct (indexed_info _ _ _ _ _ Hi) as (p & Hp & Ho & He & Hid & row & Hrow & Hpr).
  specialize (Htr p Hid Ho He Hp). destruct Hi as [Hres Hrid Hpr0 (row0 & Hrow0 & Hr0) Ht Hs].
  rewrite Hrow in Hrow0. injection Hrow0 as <-.
  set (rf := final_results ch p et opts (omap (valid_ballot p et opts) (WalkEnvelopes ch pid (idb s)))).
  destruct (final_results_good ch p et opts
    (omap (valid_ballot p et opts) (WalkEnvelopes ch pid (idb s))) Hf He Hh) as (Htf & Hsf & Hidf & Hsg & Hfin).
  fold rf in Htf, Hsf, Hidf, Hsg, Hfin.
  destruct (t_find (KBytes pid) (bh_processes (idb s))) as [p0|] eqn:Ep; [|done].
  set (d1 := set_bh_processes (t_put (KBytes pid) (with_ready p0) (bh_processes (idb s))) (idb s)).
  set (row' := row_ready (encodeVotes (R_Votes rf)) (big_String (R_Weight rf)) (i64 (R_EnvelopeHeight rf))
                 (joinHexBytes (R_Signatures rf)) (R_BlockHeight rf) row).
  set (d2 := set_sql_processes (t_put (KBytes pid) row' (sql_processes d1)) d1).
  set (d3 := set_bh_results (t_put (KBytes pid) rf (bh_results d2)) d2).
  exists p, (set_notified (notified s ++ [OnComputeResults rf p (ch_Height ch)]) (set_idb d3 s)).
  split; [done|]. split; [|cbv zeta; fold rf; split; [|split; [|by split_and!]]].
  - unfold ComputeResult. erewrite bind_run_Ok.
    2: { unfold wrapping. rewrite (on_idb_run _ s _ _ Hp), set_idb_same. reflexivity. }
    erewrite bind_run_Ok.
    2: { erewrite on_idb_run, set_idb_same; [reflexivity|].
         rewrite (computeFinalResults_run ch p (idb s) et opts Hf Ho He) by (by rewrite Hid).
         rewrite Hid. reflexivity. }
    fold rf. erewrite bind_run_Ok.
    2: { apply replacing_Ok, on_idb_run, query_Ok. by eapply tbl_update_run. }
    fold d1. erewrite bind_run_Ok.
    2: { apply on_idb_run. unfold SetProcessResultsReady, sql_update. eapply tbl_update_run; [exact Hrow|reflexivity]. }
    erewrite bind_run_Ok by (apply on_idb_run, query_Ok, tbl_put_run). done.
  - split; [cbn; by rewrite find_put, decide_True|congruence|cbn; by rewrite find_put, decide_True| |done|done].
    exists row'. split; [unfold d3, d2; cbn; by rewrite find_put, decide_True|].
    apply (ResultsFromDB_ready opts et row r); try done; [congruence|by rewrite (ta_type _ _ _ Htf), (ta_type _ _ _ Ht)
      |by rewrite (ta_opts _ _ _ Htf), (ta_opts _ _ _ Ht)].
  - intros pid' Hne. cbn. rewrite !find_put, !decide_False by congruence. done.
Qed.

End databases.
