(* ===== verification/IndexerRuns.v ===== *)
(** * Runs of the indexer

    Votes that are indexed, votes that stop the node, the recovery of the live results and the
    cancellation of a process, as runs of the operations of [Indexer.v], [IndexerVotes.v] and
    [Scrutinizer.v]. *)

From stdpp Require Import base option list strings gmap.
From Stdlib Require Import ZArith Lia.
From S2P Require Import Prelude GoMonad GoLib GoText Models Results ResultsFacts External Tables Nacl Ethereum.
From S2P Require Import StateTrees IndexerTypes Indexer IndexerVotes Scrutinizer TallyFacts IndexerFacts.

Section runs.
Context `{TablesLaws, Memo, ProtoOptsLaws, Proto, EthCrypto, !ProofLibs, !SealedBox}.

(** ** The index of the votes *)

Definition vote_reference (ch : Chain) (height : Z) (v : VoteWithIndex) : VoteReference :=
  mkVoteReference (Nullifier (vi_vote v)) (Vote_ProcessId (vi_vote v)) (vi_voterID v) height
    (big_SetBytes (Weight (vi_vote v))) (vi_txIndex v) (ch_Now ch).

Definition vote_row (ch : Chain) (height : Z) (v : VoteWithIndex) : DBVoteReference :=
  mkDBVoteReference (Nullifier (vi_vote v)) (Vote_ProcessId (vi_vote v)) height
    (big_String (big_SetBytes (Weight (vi_vote v)))) (vi_txIndex v) (ch_Now ch) (vi_voterID v).

Definition unindexed (n : bytes) (d : IndexDB) : Prop :=
  t_find (KBytes n) (bh_votes d) = None /\ t_find (KBytes n) (sql_votes d) = None.

(** The tables other than those of the votes. *)
Definition same_but_votes (d d' : IndexDB) : Prop :=
  bh_results d' = bh_results d /\ bh_processes d' = bh_processes d /\ bh_entities d' = bh_entities d /\
  bh_counts d' = bh_counts d /\ bh_txs d' = bh_txs d /\ sql_processes d' = sql_processes d.

Definition index_vote (ch : Chain) (height : Z) (v : VoteWithIndex) : GoM IndexDB unit :=
  addVoteIndex true ch (Nullifier (vi_vote v)) (Vote_ProcessId (vi_vote v)) height
    (Weight (vi_vote v)) (vi_txIndex v) (vi_voterID v).

Lemma addVoteIndex_run ch height v d :
  unindexed (Nullifier (vi_vote v)) d ->
  exists t1 t2,
    index_vote ch height v d = (set_sql_votes t2 (set_bh_votes t1 d), Ok tt) /\
    t_insert (KBytes (Nullifier (vi_vote v))) (vote_reference ch height v) (bh_votes d) = Some t1 /\
    t_insert (KBytes (Nullifier (vi_vote v))) (vote_row ch height v) (sql_votes d) = Some t2.
Proof.
  intros [Hb Hs]. destruct (insert_new _ (vote_reference ch height v) _ Hb) as (t1 & Hi1 & _).
  destruct (insert_new _ (vote_row ch height v) _ Hs) as (t2 & Hi2 & _). exists t1, t2. split_and!; [|done|done].
  unfold index_vote, addVoteIndex. cbv zeta. erewrite bind_run_Ok by (by apply tbl_insert_run).
  unfold CreateVoteReference. by apply tbl_insert_run.
Qed.

Record votes_added (ch : Chain) (height : Z) (votes : list VoteWithIndex) (d d' : IndexDB) : Prop := {
  va_rows : (t_rows (bh_votes d')).*2 ≡ₚ (vote_reference ch height <$> votes) ++ (t_rows (bh_votes d)).*2;
  va_new v : v ∈ votes ->
    t_find (KBytes (Nullifier (vi_vote v))) (bh_votes d') = Some (vote_reference ch height v) /\
    t_find (KBytes (Nullifier (vi_vote v))) (sql_votes d') = Some (vote_row ch height v);
  va_old n : n ∉ (fun v => Nullifier (vi_vote v)) <$> votes ->
    t_find (KBytes n) (bh_votes d') = t_find (KBytes n) (bh_votes d) /\
    t_find (KBytes n) (sql_votes d') = t_find (KBytes n) (sql_votes d);
  va_rest : same_but_votes d d'
}.

Lemma index_votes_run ch height votes s :
  NoDup ((fun v => Nullifier (vi_vote v)) <$> votes) ->
  Forall (fun v => unindexed (Nullifier (vi_vote v)) (idb s)) votes ->
  exists d', mfor votes (fun v => logged (on_idb (index_vote ch height v))) s = (set_idb d' s, Ok tt) /\
    votes_added ch height votes (idb s) d'.
Proof.
  revert s. induction votes as [|v votes IH]; intros s Hnd Hun.
  - exists (idb s). cbn. split; [by destruct s|]. split; [done|by intros v Hv%elem_of_nil|done|by split_and!].
  - apply NoDup_cons in Hnd as [Hv Hnd]. apply Forall_cons in Hun as [Hu Hun].
    destruct (addVoteIndex_run ch height v (idb s) Hu) as (t1 & t2 & Hrun & Hi1 & Hi2).
    pose proof (rows_insert _ _ _ _ Hi1) as Hrows.
    apply insert_Some in Hi1 as [_ Hf1]. apply insert_Some in Hi2 as [_ Hf2].
    set (d1 := set_sql_votes t2 (set_bh_votes t1 (idb s))) in *.
    destruct (IH (set_idb d1 s) Hnd) as (d' & Hrun' & [Hr Hn Ho Hrest]).
    { rewrite Forall_forall in *. intros v' Hv'. destruct (Hun v' Hv') as [Hb Hs].
      assert (KBytes (Nullifier (vi_vote v')) <> KBytes (Nullifier (vi_vote v))).
      { intros [= E]. apply Hv. rewrite <- E. apply list_elem_of_fmap. eauto. }
      split; cbn; [rewrite Hf1|rewrite Hf2]; by rewrite decide_False. }
    exists d'. split.
    + cbn [mfor]. erewrite bind_run_Ok by (apply logged_run with (o := Ok tt); [by apply on_idb_run|done]).
      rewrite Hrun'. by destruct s.
    + cbn in Hr. split.
      * rewrite Hr, Hrows. cbn. by rewrite Permutation_middle.
      * intros v' [->|Hv']%elem_of_cons; [|by apply Hn]. destruct (Ho _ Hv) as [-> ->]. cbn.
        by rewrite Hf1, Hf2, !decide_True.
      * intros n [Hn1 Hn2]%not_elem_of_cons. destruct (Ho n Hn2) as [-> ->]. cbn.
        by rewrite Hf1, Hf2, !decide_False by congruence.
      * done.
Qed.

Lemma GetEnvelopeReference_run n d ref row :
  t_find (KBytes n) (bh_votes d) = Some ref -> t_find (KBytes n) (sql_votes d) = Some row ->
  (exists w, DV_Weight row = big_String w) -> GetEnvelopeReference n d = (d, Ok ref).
Proof.
  intros Hb Hs [w Hw]. unfold GetEnvelopeReference. erewrite bind_run_Ok by (by apply tbl_find_run).
  erewrite bind_run_Ok by (by apply tbl_find_run). unfold VoteReferenceFromDB. rewrite Hw, big_SetString0_String.
  by erewrite bind_run_Ok.
Qed.

(** The references of a process, after the votes. *)
Lemma vote_refs_added ch height votes d d' pid :
  votes_added ch height votes d d' ->
  vote_refs pid d' ≡ₚ
    (vote_reference ch height <$> filter (fun v => Vote_ProcessId (vi_vote v) = pid) votes) ++ vote_refs pid d.
Proof.
  intros Ha. unfold vote_refs. rewrite (va_rows _ _ _ _ _ Ha), filter_app.
  apply reflexive_eq. f_equal. clear Ha. induction votes as [|v votes IH]; [done|].
  cbn [fmap list_fmap]. rewrite !filter_cons, IH. cbn [vote_reference VR_ProcessID].
  by destruct (decide (Vote_ProcessId (vi_vote v) = pid)).
Qed.

Lemma commit_votes_index_run ch height s :
  let votes := voteIndexPool (pools s) in
  NoDup ((fun v => Nullifier (vi_vote v)) <$> votes) ->
  Forall (fun v => unindexed (Nullifier (vi_vote v)) (idb s)) votes ->
  exists d1 d', commit_votes_index true ch height s = (set_idb d' s, Ok tt) /\
    votes_added ch height votes (idb s) d1 /\ (d' = d1 \/ exists t, d' = set_bh_counts t d1).
Proof.
  intros votes Hnd Hun. destruct (index_votes_run ch height votes s Hnd Hun) as (d1 & Hrun & Hadd).
  unfold commit_votes_index. erewrite bind_run_Ok by reflexivity. cbv beta zeta. fold votes.
  erewrite bind_run_Ok by exact Hrun. case_bool_decide as E; cbn [negb andb].
  - exists d1, d1. by split_and!; [|done|left].
  - destruct (tbl_update_total bh_counts set_bh_counts (KUint CountStoreEnvelopes)
      (fun c => mkCountStore (CS_Type c) (u64 (CS_Count c + Z.of_nat (List.length votes)))) d1) as (d' & Hd & Ho).
    exists d1, d'. split_and!; [|done|done]. apply logged_run with (o := Ok tt); [|done].
    exact (on_idb_run _ (set_idb d1 s) d' _ Hd).
Qed.

(** ** A vote that stops the node *)

Lemma logged_panic {S A} (m : GoM S A) s s' w : m s = (s', Panic w) -> logged m s = (s', Panic w).
Proof. intros Hm. unfold logged, catch. go_run. by rewrite Hm. Qed.

Lemma live_vote_panics ch pid opts et r s v values :
  indexed pid opts et r (idb s) -> open_process ch (Vote_ProcessId v) ->
  json_VotePackage (VotePackage v) = Some values -> ballot_ok et opts values (big_SetBytes (Weight v)) ->
  ~ in_range opts values -> exists w, commit_live_process true ch pid [v] s = (s, Panic w).
Proof.
  intros Hi Hop Hv Hok Hin. destruct (indexed_info _ _ _ _ _ Hi) as (p & Hp & Ho & He & _).
  assert (Ht : tallying opts et (block_start p)).
  { split; [done|done|apply (ix_tally _ _ _ _ _ Hi)|by left]. }
  pose proof (AddVote_panics et opts values _ _ Ht (big_SetBytes_nonneg _) Hok Hin) as Hpan.
  destruct (Results_AddVote values (Some (big_SetBytes (Weight v))) (block_start p)) as [r' [|e|w]] eqn:Er; try done.
  assert (Hb : block_results ch p [v] = (r', Panic w)).
  { unfold block_results. cbn [mfor]. unfold mbind at 1, gom_bind at 1. erewrite logged_panic; [reflexivity|].
    rewrite (addLiveVote_decoded _ _ _ _ values); [done|done|]. unfold unmarshalVote. cbn [rev decrypt_all mbind outcome_bind].
    by rewrite Hv. }
  exists w. unfold commit_live_process. erewrite bind_run_Ok.
  2: { unfold catch. rewrite (on_idb_run _ s _ _ Hp), set_idb_same. reflexivity. }
  cbv beta iota. by rewrite Hb.
Qed.

(** ** Canceled processes *)

Definition with_final (r : IndexResults) : IndexResults :=
  mkResults (R_ProcessID r) (R_Votes r) (R_Weight r) (R_EnvelopeHeight r) (R_EnvelopeType r) (R_VoteOpts r)
    (R_Signatures r) true (R_BlockHeight r).

Lemma ResultsFromDB_cancelled c h row r :
  ResultsFromDB row = Ok (Some r) ->
  ResultsFromDB (row_cancelled (row_results_height h (row_from_state c row))) = Ok (Some (with_final r)).
Proof.
  unfold ResultsFromDB. cbn. destruct (hexSplit _) as [sigs|e|w]; cbn; try done.
  destruct (unmarshal _); [|done]. by intros [= <-].
Qed.

Lemma updateProcess_cancels ch pid opts et r d p old row :
  indexed pid opts et r d -> ch_Process ch pid = inr p -> Status p = CANCELED ->
  t_find (KBytes pid) (bh_processes d) = Some old -> IP_Status old <> ProcessStatus_number CANCELED ->
  t_find (KBytes pid) (sql_processes d) = Some row -> i32 (DB_Status row) <> ProcessStatus_number CANCELED ->
  exists d' row', updateProcess true ch pid d = (d', Ok tt) /\
    t_find (KBytes pid) (bh_results d') = Some (drop_results r) /\
    t_find (KBytes pid) (sql_processes d') = Some row' /\ ResultsFromDB row' = Ok (Some (with_final r)).
Proof.
  intros Hi Hp Hst Hold Hso Hrow Hsr. destruct (ix_row _ _ _ _ _ Hi) as (row0 & Hrow0 & Hr).
  rewrite Hrow in Hrow0. injection Hrow0 as <-.
  assert (Hc : forall z, z <> ProcessStatus_number CANCELED -> canceling z (Status p) = true).
  { intros z Hz. unfold canceling. rewrite Hst. by apply Z.eqb_neq in Hz as ->. }
  eexists _, _. split.
  { unfold updateProcess. erewrite bind_run_Ok by (unfold wrapping, lift; rewrite Hp; reflexivity).
    erewrite bind_run_Ok.
    2: { erewrite bind_run_Ok by reflexivity. rewrite Hold. cbv zeta. rewrite Hc by done. erewrite bind_run_Ok.
         2: { erewrite bind_run_Ok by (by eapply tbl_update_run; [apply Hi|]). reflexivity. }
         apply query_Ok, tbl_put_run. }
    erewrite bind_run_Ok.
    2: { unfold GetProcessStatus, GetProcess. by erewrite bind_run_Ok by (by apply tbl_find_run). }
    erewrite bind_run_Ok by (unfold UpdateProcessFromState, sql_update; eapply tbl_update_run; [exact Hrow|reflexivity]).
    cbv beta. rewrite Hc by done. erewrite bind_run_Ok.
    2: { unfold SetProcessResultsHeight, sql_update. eapply tbl_update_run; [cbn; by rewrite find_put, decide_True|reflexivity]. }
    unfold SetProcessResultsCancelled, sql_update. eapply tbl_update_run; [cbn; by rewrite find_put, decide_True|reflexivity]. }
  split_and!; [cbn; by rewrite find_put, decide_True|cbn; by rewrite find_put, decide_True|].
  by apply ResultsFromDB_cancelled.
Qed.

(** ** Recovery *)

Definition envelope_weighed (e : VoteEnvelope * Z) : weighed := (VE_VotePackage e.1, e.2).

Lemma live_envelopes_run ch opts et envs r :
  tallying opts et r -> Forall (fun e => open_process ch (VE_ProcessId e.1)) envs ->
  Forall (live_tractable et opts) (envelope_weighed <$> envs) ->
  mfor envs (fun '(vote, weight) => logged (addLiveVote ch (VE_ProcessId vote) (VE_VotePackage vote) weight)) r =
    (foldl (live_step et opts) r (envelope_weighed <$> envs), Ok tt).
Proof.
  intros Ht Hop Hin. revert r Ht. induction Hop as [|[vote w] envs Hv Hop IH]; intros r Ht; [done|].
  apply Forall_cons in Hin as [Hv' Hin]. cbn [mfor].
  erewrite bind_run_Ok by (by apply (addLiveVote_run ch _ (envelope_weighed (vote, w)))).
  apply IH; [done|by apply live_step_tallying].
Qed.

(** The record is counted again from nothing; the row keeps what it had. *)
Lemma recover_process_run ch pid p opts et r s :
  indexed pid opts et r (idb s) -> ch_Process ch pid = inr p -> VoteOptions p = Some opts ->
  P_EnvelopeType p = Some et -> R_Final r = false ->
  let envs := WalkEnvelopes ch pid (idb s) in
  Forall (fun e => open_process ch (VE_ProcessId e.1)) envs ->
  Forall (live_tractable et opts) (envelope_weighed <$> envs) ->
  let counted := live_block et opts (envelope_weighed <$> envs) in
  exists s' row, recover_process true ch pid s = (s', Ok tt) /\
    t_find (KBytes pid) (bh_results (idb s')) = Some (sum_results counted (empty_results pid opts (Some et))) /\
    t_find (KBytes pid) (sql_processes (idb s')) = Some row /\
    ResultsFromDB row = Ok (Some (sum_results counted r)) /\ pid ∈ liveResultsProcs s'.
Proof.
  intros Hi Hp Ho He Hf envs Hop Hin counted. destruct Hi as [Hres Hid Hpr (row & Hrow & Hr) Ht Hs].
  pose proof (ta_range _ _ _ Ht) as Hrange. destruct (empty_results_good pid opts et Hrange (proj1 Hs)) as [Ht0 Hs0].
  set (d1 := set_bh_results (t_put (KBytes pid) (empty_results pid opts (Some et)) (bh_results (idb s))) (idb s)).
  destruct (commitVotes_both pid opts et (empty_results pid opts (Some et)) r row d1 counted) as (row' & Hr' & Hrun);
    try done; [cbn; by rewrite find_put, decide_True|by apply live_block_fits|].
  unfold committed_results in Hr', Hrun. rewrite Hf in Hr'. cbn [R_Final empty_results] in Hrun.
  exists (set_liveResultsProcs ({[pid]} ∪ liveResultsProcs s)
    (set_idb (commitVotes true pid counted d1).1 s)), row'. rewrite Hrun.
  split; [|split_and!; [cbn; by rewrite find_put, decide_True|cbn; by rewrite find_put, decide_True|done|cbn; set_solver]].
  unfold recover_process. rewrite Hp, Ho. erewrite bind_run_Ok by reflexivity.
  erewrite bind_run_Ok by (apply on_idb_run, query_Ok, tbl_put_run). rewrite He. fold d1.
  erewrite bind_run_Ok by reflexivity. change (WalkEnvelopes ch pid (idb (set_idb d1 s))) with envs.
  rewrite (live_envelopes_run ch opts et) by (done || (split; [done|done|done|by left])). fold (live_block et opts (envelope_weighed <$> envs)).
  fold counted. erewrite bind_run_Ok by (unfold catch; erewrite on_idb_run by exact Hrun; reflexivity). reflexivity.
Qed.

(** ** Blocks *)

(** A block with votes of one process, from its start to [Commit]. *)
Record vote_block := mkVoteBlock { vb_chain : Chain; vb_height : Z; vb_votes : list VoteWithIndex }.

Section blocks.
Context (range_pool : gmap bytes (list Vote) -> list (bytes * list Vote)).
Context (range_pool_spec : forall m, range_pool m ≡ₚ map_to_list m).

Definition run_vote_block (b : vote_block) : GoM Scrutinizer unit :=
  Scrutinizer_Rollback;;
  mfor (vb_votes b) (fun v => Scrutinizer_OnVote (vi_vote v) (vi_voterID v) (vi_txIndex v));;
  Scrutinizer_Commit true range_pool (vb_chain b) (vb_height b).

Definition live_for (pid : bytes) (s : Scrutinizer) : Prop :=
  ignoreLiveResults s = false /\ pid ∈ liveResultsProcs s.

Definition votes_pool (pid : bytes) (votes : list VoteWithIndex) : Pools :=
  mkPools votes (match votes with [] => ∅ | _ => {[pid := vi_vote <$> votes]} end) [] [] [] [].

Lemma on_votes_run pid s votes done :
  live_for pid s -> Forall (fun v => Vote_ProcessId (vi_vote v) = pid) votes ->
  mfor votes (fun v => Scrutinizer_OnVote (vi_vote v) (vi_voterID v) (vi_txIndex v))
    (set_pools (votes_pool pid done) s) = (set_pools (votes_pool pid (done ++ votes)) s, Ok tt).
Proof.
  intros [Hig Hl] Hv. revert done. induction Hv as [|v votes Hv _ IH]; intros done.
  - by rewrite app_nil_r.
  - cbn [mfor]. erewrite bind_run_Ok; [rewrite (cons_middle v done votes), app_assoc; apply IH|].
    unfold Scrutinizer_OnVote. erewrite bind_run_Ok by reflexivity.
    cbn [ignoreLiveResults set_pools]. rewrite Hig. unfold isProcessLiveResults. cbn [liveResultsProcs set_pools].
    rewrite Hv, bool_decide_true by done. cbn [negb andb]. erewrite bind_run_Ok by reflexivity.
    unfold on_pools, modify, add_voteIndex, add_vote. f_equal. unfold set_pools. cbn [pools]. rewrite Hv.
    destruct v as [v voter i]. f_equal. unfold votes_pool. f_equal. destruct done as [|v0 done]; cbn [app votePool]; [done|].
    rewrite lookup_singleton_eq. cbn [default from_option]. rewrite insert_singleton_eq. f_equal.
    change (vi_vote <$> v0 :: done ++ ?l) with (vi_vote v0 :: (vi_vote <$> done ++ l)). by rewrite fmap_app.
Qed.

Lemma range_pool_votes pid votes :
  range_pool (votePool (votes_pool pid votes)) = match votes with [] => [] | _ => [(pid, vi_vote <$> votes)] end.
Proof.
  pose proof (range_pool_spec (votePool (votes_pool pid votes))) as Hp. destruct votes as [|v votes]; cbn in *.
  - rewrite map_to_list_empty in Hp. by apply Permutation_nil_r in Hp.
  - rewrite map_to_list_singleton in Hp. by apply Permutation_singleton_r in Hp.
Qed.

Lemma indexed_same pid opts et r d d' :
  bh_results d' = bh_results d -> bh_processes d' = bh_processes d -> sql_processes d' = sql_processes d ->
  indexed pid opts et r d -> indexed pid opts et r d'.
Proof. intros E1 E2 E3 [Hr Hid Hp Hrow Ht Hs]. split; [by rewrite E1|done|by rewrite E2|by rewrite E3|done|done]. Qed.

Record block_votes_ok (pid : bytes) (opts : ProcessVoteOptions) (et : EnvelopeType) (d : IndexDB) (b : vote_block) : Prop := {
  bv_process : Forall (fun v => Vote_ProcessId (vi_vote v) = pid) (vb_votes b);
  bv_open : open_process (vb_chain b) pid;
  bv_tractable : Forall (live_tractable et opts) (vote_weighed ∘ vi_vote <$> vb_votes b);
  bv_nodup : NoDup ((fun v => Nullifier (vi_vote v)) <$> vb_votes b);
  bv_new : Forall (fun v => unindexed (Nullifier (vi_vote v)) d) (vb_votes b)
}.

(** The blocks with votes, as [run_blocks] has them. *)
Definition live_blocks (bs : list vote_block) : list (Chain * list Vote) :=
  (fun b => (vb_chain b, vi_vote <$> vb_votes b)) <$> filter (fun b => vb_votes b <> []) bs.

Lemma live_blocks_ok pid opts et bs :
  Forall (fun b => Forall (fun v => Vote_ProcessId (vi_vote v) = pid) (vb_votes b) /\ open_process (vb_chain b) pid /\
    Forall (live_tractable et opts) (vote_weighed ∘ vi_vote <$> vb_votes b)) bs ->
  Forall (block_ok et opts) (live_blocks bs).
Proof.
  intros Hbs. apply Forall_fmap, Forall_forall. intros b [_ Hb]%list_elem_of_filter.
  rewrite Forall_forall in Hbs. destruct (Hbs b Hb) as (Hv & Ho & Ht). split; cbn; [|by rewrite <- list_fmap_compose].
  apply Forall_fmap. eapply Forall_impl; [exact Hv|]. intros v Hp. cbn in *. by rewrite Hp.
Qed.

Lemma commit_live_votes pid opts et r b s :
  indexed pid opts et r (idb s) -> pools s = votes_pool pid (vb_votes b) ->
  Forall (fun v => Vote_ProcessId (vi_vote v) = pid) (vb_votes b) -> open_process (vb_chain b) pid ->
  Forall (live_tractable et opts) (vote_weighed ∘ vi_vote <$> vb_votes b) ->
  exists s', commit_live true range_pool (vb_chain b) s = (s', Ok tt) /\
    indexed pid opts et (live_total et opts r (live_blocks [b])) (idb s') /\ bh_votes (idb s') = bh_votes (idb s) /\
    sql_votes (idb s') = sql_votes (idb s) /\ liveResultsProcs s' = liveResultsProcs s /\
    ignoreLiveResults s' = ignoreLiveResults s.
Proof.
  intros Hi Hp Hv Hop Htr. unfold commit_live. erewrite bind_run_Ok by reflexivity. cbv beta.
  rewrite Hp, range_pool_votes. unfold live_blocks. rewrite filter_cons.
  destruct (vb_votes b) as [|v votes] eqn:Eb.
  { exists s. rewrite decide_False by auto. cbn. by split_and!. }
  rewrite decide_True by done. rewrite <- Eb in *. clear Eb.
  destruct (commit_live_process_run (vb_chain b) pid (vi_vote <$> vb_votes b) opts et r s Hi)
    as (s' & Hrun & Hi' & _ & (E1 & _ & _ & _ & E2) & _ & E3 & _ & E4).
  { apply Forall_fmap. eapply Forall_impl; [exact Hv|]. intros x Hx. cbn in *. by rewrite Hx. }
  { by rewrite <- list_fmap_compose. }
  exists s'. cbn [mfor]. erewrite bind_run_Ok by exact Hrun. by split_and!.
Qed.

Lemma run_vote_block_run pid opts et r b s :
  indexed pid opts et r (idb s) -> live_for pid s -> block_votes_ok pid opts et (idb s) b ->
  exists s', run_vote_block b s = (s', Ok tt) /\ live_for pid s' /\
    indexed pid opts et (live_total et opts r (live_blocks [b])) (idb s') /\
    vote_refs pid (idb s') ≡ₚ (vote_reference (vb_chain b) (vb_height b) <$> vb_votes b) ++ vote_refs pid (idb s) /\
    forall n, n ∉ (fun v => Nullifier (vi_vote v)) <$> vb_votes b -> unindexed n (idb s) -> unindexed n (idb s').
Proof.
  intros Hi Hl [Hv Hop Htr Hnd Hun]. set (s1 := set_pools (votes_pool pid (vb_votes b)) s).
  set (s2 := set_tasks (tasks s1 ++ [IndexTxs []]) s1).
  destruct (commit_votes_index_run (vb_chain b) (vb_height b) s2) as (d1 & d' & Hrun & Hadd & Hd); [done|done|].
  cbn [voteIndexPool pools s2 s1 set_tasks set_pools votes_pool] in Hadd. change (idb s2) with (idb s) in Hadd.
  assert (Hsame : bh_votes d' = bh_votes d1 /\ sql_votes d' = sql_votes d1 /\ bh_results d' = bh_results d1 /\
    bh_processes d' = bh_processes d1 /\ sql_processes d' = sql_processes d1) by (by destruct Hd as [-> | [t ->]]).
  destruct Hsame as (E1 & E2 & E3 & E4 & E5). destruct (va_rest _ _ _ _ _ Hadd) as (F3 & F4 & _ & _ & _ & F5).
  assert (Hi' : indexed pid opts et r (idb (set_idb d' s2))).
  { apply (indexed_same _ _ _ _ (idb s)); cbn; [congruence|congruence|congruence|done]. }
  destruct (commit_live_votes pid opts et r b (set_idb d' s2) Hi') as (s' & Hlive & Hi2 & G1 & G2 & G3 & G4); [done|done|done|done|].
  set (s'' := if 0 <? vb_height b then set_tasks (tasks s' ++ [ComputePending (vb_height b)]) s' else s').
  assert (Hs'' : idb s'' = idb s' /\ liveResultsProcs s'' = liveResultsProcs s' /\ ignoreLiveResults s'' = ignoreLiveResults s')
    by (unfold s''; by destruct (0 <? vb_height b)).
  destruct Hs'' as (K1 & K2 & K3). exists s''. split_and!.
  - unfold run_vote_block. erewrite bind_run_Ok by reflexivity.
    erewrite bind_run_Ok by exact (on_votes_run pid s (vb_votes b) [] Hl Hv). cbn [app]. fold s1.
    unfold Scrutinizer_Commit. erewrite bind_run_Ok by reflexivity. erewrite bind_run_Ok by reflexivity.
    erewrite bind_run_Ok by reflexivity. erewrite (bind_run_Ok (start_task _)) by reflexivity. fold s2.
    erewrite bind_run_Ok by reflexivity. erewrite bind_run_Ok by exact Hrun.
    erewrite bind_run_Ok by exact Hlive. unfold s''. by destruct (0 <? vb_height b).
  - destruct Hl as [Hl1 Hl2]. split; [rewrite K3, G4; done|rewrite K2, G3; done].
  - by rewrite K1.
  - rewrite K1. unfold vote_refs at 1. rewrite G1. cbn [idb set_idb]. rewrite E1. fold (vote_refs pid d1).
    rewrite (vote_refs_added _ _ _ _ _ pid Hadd). apply reflexive_eq. do 2 f_equal.
    clear - Hv. induction Hv as [|v votes Hv _ IH]; [done|]. rewrite filter_cons_True by done. by rewrite IH.
  - intros n Hn [U1 U2]. destruct (va_old _ _ _ _ _ Hadd n Hn) as [V1 V2]. rewrite K1. split.
    + rewrite G1. cbn. by rewrite E1, V1.
    + rewrite G2. cbn. by rewrite E2, V2.
Qed.

Definition nullifiers (bs : list vote_block) : list bytes :=
  b ← bs; (fun v => Nullifier (vi_vote v)) <$> vb_votes b.

Definition references (bs : list vote_block) : list VoteReference :=
  b ← bs; vote_reference (vb_chain b) (vb_height b) <$> vb_votes b.

Lemma live_total_cons et opts r b bs :
  live_total et opts r (live_blocks (b :: bs)) = live_total et opts (live_total et opts r (live_blocks [b])) (live_blocks bs).
Proof.
  unfold live_blocks. rewrite !filter_cons. unfold live_total. by destruct (decide (vb_votes b <> [])).
Qed.

Lemma run_vote_blocks_run pid opts et r bs s :
  indexed pid opts et r (idb s) -> live_for pid s -> Forall (block_votes_ok pid opts et (idb s)) bs ->
  NoDup (nullifiers bs) ->
  exists s', mfor bs run_vote_block s = (s', Ok tt) /\ live_for pid s' /\
    indexed pid opts et (live_total et opts r (live_blocks bs)) (idb s') /\
    vote_refs pid (idb s') ≡ₚ references bs ++ vote_refs pid (idb s).
Proof.
  revert r s. induction bs as [|b bs IH]; intros r s Hi Hl Hok Hnd; [by exists s|].
  apply Forall_cons in Hok as [Hb Hok]. cbn in Hnd. apply NoDup_app in Hnd as (Hnd1 & Hdis & Hnd2).
  destruct (run_vote_block_run pid opts et r b s Hi Hl Hb) as (s1 & Hrun & Hl1 & Hi1 & Hrefs & Hun).
  destruct (IH _ s1 Hi1 Hl1) as (s' & Hrun' & Hl' & Hi' & Hrefs'); [|done|].
  { rewrite Forall_forall in *. intros b' Hb'. destruct (Hok b' Hb') as [C1 C2 C3 C4 C5]. split; [done..|].
    rewrite Forall_forall in *. intros v Hv. apply Hun; [|by apply C5].
    intros Hin. apply (Hdis _ Hin). unfold nullifiers. apply list_elem_of_bind. exists b'. split; [|done].
    apply list_elem_of_fmap. eauto. }
  exists s'. cbn [mfor]. erewrite bind_run_Ok by exact Hrun. split_and!; [done|done|by rewrite live_total_cons|].
  rewrite Hrefs', Hrefs. unfold references. cbn. rewrite <- !app_assoc. apply Permutation_app_swap_app.
Qed.

(** The block store has the envelope of every vote. *)
Definition stored (ch : Chain) (b : vote_block) (v : VoteWithIndex) : Prop :=
  exists stx hash env, ch_GetTxHash ch (vb_height b) (vi_txIndex v) = inr (stx, hash) /\ envelope_of stx = Ok env /\
    VE_VotePackage env = VotePackage (vi_vote v).

Lemma walked_stored ch b v :
  stored ch b v -> envelope_weighed <$> walked ch (vote_reference (vb_chain b) (vb_height b) v) = Some (vote_weighed (vi_vote v)).
Proof.
  intros (stx & hash & env & Ht & He & Hp). unfold walked. cbn [VR_Height VR_TxIndex vote_reference]. rewrite Ht, He.
  cbn. unfold envelope_weighed, vote_weighed. cbn. by rewrite Hp.
Qed.

Lemma walk_references ch bs :
  Forall (fun b => Forall (stored ch b) (vb_votes b)) bs ->
  envelope_weighed <$> omap (walked ch) (references bs) = vote_weighed <$> concat (live_blocks bs).*2.
Proof.
  induction 1 as [|b bs Hb _ IH]; [done|].
  assert (Hlb : concat (live_blocks (b :: bs)).*2 = (vi_vote <$> vb_votes b) ++ concat (live_blocks bs).*2).
  { unfold live_blocks. rewrite filter_cons. destruct (decide (vb_votes b <> [])) as [|E]; [done|].
    destruct (vb_votes b) as [|v votes]; [done|]. exfalso. by apply E. }
  rewrite Hlb. unfold references in *. cbn [mbind list_bind]. rewrite omap_app, !fmap_app, IH. f_equal.
  clear - Hb. induction Hb as [|v votes Hv _ IH]; [done|]. apply walked_stored in Hv.
  rewrite !fmap_cons. cbn [omap list_omap]. destruct (walked ch _) as [x|]; [|done]. injection Hv as Hp Hw.
  rewrite fmap_cons, IH. unfold envelope_weighed, vote_weighed at 2. by rewrite Hp, Hw.
Qed.

(** ** Histories of a process

    What the chain tells the indexer of one process during a block, with the state it had at
    each event, and the commit of the block. *)

Inductive process_event :=
| EvVote (v : VoteWithIndex)
| EvKeys
| EvStatus (ch : Chain) (status : ProcessStatus)
| EvReveal (ch : Chain)
| EvResults (ch : Chain) (results : ProcessResult)
| EvTx (hash : bytes) (blockHeight txIndex : Z).

Definition run_event (pid : bytes) (e : process_event) : GoM Scrutinizer unit :=
  match e with
  | EvVote v => Scrutinizer_OnVote (vi_vote v) (vi_voterID v) (vi_txIndex v)
  | EvKeys => Scrutinizer_OnProcessKeys pid
  | EvStatus ch status => Scrutinizer_OnProcessStatusChange ch pid status
  | EvReveal ch => Scrutinizer_OnRevealKeys ch pid
  | EvResults ch results => Scrutinizer_OnProcessResults ch pid results
  | EvTx hash blockHeight txIndex => Scrutinizer_OnNewTx hash blockHeight txIndex
  end.

Inductive tally_op :=
| IndexBlock (ch : Chain) (height : Z) (events : list process_event)
| FinalTally (ch : Chain).

Definition run_op (pid : bytes) (op : tally_op) : GoM Scrutinizer unit :=
  match op with
  | IndexBlock ch height events =>
      Scrutinizer_Rollback;; mfor events (run_event pid);; Scrutinizer_Commit true range_pool ch height
  | FinalTally ch => ComputeResult true ch pid
  end.

Section history.
Context (pid : bytes) (opts : ProcessVoteOptions) (et : EnvelopeType).

(** A vote that is counted live when the process is open is in range. *)
Definition live_vote_ok (ch : Chain) (v : Vote) : Prop :=
  Vote_ProcessId v = pid /\ (open_process ch pid -> live_tractable et opts (vote_weighed v)).

Definition event_ok (ch : Chain) (e : process_event) : Prop :=
  match e with EvVote v => live_vote_ok ch (vi_vote v) | _ => True end.

(** The process is not canceled, and the votes that are counted can be. *)
Definition op_ok (s : Scrutinizer) (op : tally_op) : Prop :=
  match op with
  | IndexBlock ch height events =>
      (forall p, ch_Process ch pid = inr p -> Status p <> CANCELED) /\ u32 (height + 1) <> 0 /\
      Forall (event_ok ch) events
  | FinalTally ch =>
      finishable opts /\ is_u32 (ch_Height ch) /\
      forall p, ProcessInfo true pid (idb s) = (idb s, Ok p) -> Forall (tractable p et opts) (WalkEnvelopes ch pid (idb s))
  end.

(** Each operation on the state the earlier ones leave. *)
Fixpoint ops_ok (s : Scrutinizer) (ops : list tally_op) : Prop :=
  match ops with
  | [] => True
  | op :: ops' => op_ok s op /\ ops_ok (run_op pid op s).1 ops'
  end.

Definition agreed (d : IndexDB) : Prop := exists r, indexed pid opts et r d.

(** The pools of a block with events of the process only. *)
Record pools_of (ch : Chain) (p : Pools) : Prop := {
  po_new : newProcessPool p = [];
  po_update : Forall (fun x => x = pid) (updateProcessPool p);
  po_results : Forall (fun x => OP_ProcessID x = pid) (resultsPool p);
  po_votes : votePool p = ∅ \/ exists votes, votePool p = {[pid := votes]} /\ Forall (live_vote_ok ch) votes
}.

Lemma pools_of_update ch p : pools_of ch p -> pools_of ch (add_updateProcess pid p).
Proof. intros [? ? ? ?]. split; [done|cbn; by apply Forall_app; split; [|constructor]|done|done]. Qed.

Lemma pools_of_results ch p eid : pools_of ch p -> pools_of ch (add_results (mkOnProcessData eid pid) p).
Proof. intros [? ? ? ?]. split; [done|done|cbn; by apply Forall_app; split; [|constructor]|done]. Qed.

Lemma pools_of_vote ch p v : pools_of ch p -> live_vote_ok ch v -> pools_of ch (add_vote v p).
Proof.
  intros [? ? ? Hv] Hok. split; [done|done|done|]. right. cbn. rewrite (proj1 Hok).
  destruct Hv as [->|(votes & -> & Hf)].
  - exists [v]. split; [by rewrite lookup_empty, insert_empty|by constructor].
  - exists (votes ++ [v]). rewrite lookup_singleton_eq, insert_singleton_eq. split; [done|].
    apply Forall_app. by split; [|constructor].
Qed.

(** What the events of a block leave alone. *)
Definition collecting (ch : Chain) (s0 s : Scrutinizer) : Prop := pools_of ch (pools s) /\ idb s = idb s0.

Lemma on_pools_collecting ch s0 f s :
  collecting ch s0 s -> pools_of ch (f (pools s)) -> exists s', on_pools f s = (s', Ok tt) /\ collecting ch s0 s'.
Proof. intros [_ Hd] Hp. by exists (set_pools (f (pools s)) s). Qed.

Lemma run_event_collecting ch s0 e s :
  event_ok ch e -> collecting ch s0 s -> exists s', run_event pid e s = (s', Ok tt) /\ collecting ch s0 s'.
Proof.
  intros He Hc. pose proof (on_pools_collecting ch s0 _ s Hc (pools_of_update _ _ (proj1 Hc))) as Hup.
  destruct e as [v| |ch' st|ch'|ch' res|hash h i]; cbn [run_event event_ok] in *; [..|].
  - unfold Scrutinizer_OnVote. erewrite bind_run_Ok by reflexivity.
    destruct (negb (ignoreLiveResults s) && isProcessLiveResults (Vote_ProcessId (vi_vote v)) s).
    + destruct (on_pools_collecting ch s0 (add_vote (vi_vote v)) s Hc (pools_of_vote _ _ _ (proj1 Hc) He)) as (s1 & Hr1 & Hc1).
      erewrite bind_run_Ok by exact Hr1. apply (on_pools_collecting ch s0 _ s1 Hc1). by destruct Hc1 as [[] _].
    + erewrite bind_run_Ok by reflexivity. apply (on_pools_collecting ch s0 _ s Hc). by destruct Hc as [[] _].
  - exact Hup.
  - unfold Scrutinizer_OnProcessStatusChange. case_bool_decide; [|by erewrite bind_run_Ok by reflexivity].
    assert (Hs : exists s1, (live ← catch (lift (isOpenProcess ch' pid));
        match live with inr true => on_pools (add_results (mkOnProcessData "" pid)) | _ => mret tt end) s = (s1, Ok tt) /\
        collecting ch s0 s1).
    { unfold isOpenProcess. destruct (ch_Process ch' pid) as [er|p]; [by exists s|]. cbn [of_sum mbind outcome_bind].
      destruct (P_EnvelopeType p) as [et'|]; [|by exists s]. erewrite bind_run_Ok by reflexivity.
      destruct (EncryptedVotes et'); cbn [negb]; [by exists s|].
      apply on_pools_collecting; [done|]. apply pools_of_results, Hc. }
    destruct Hs as (s1 & Hr1 & Hc1). erewrite bind_run_Ok by exact Hr1.
    apply on_pools_collecting; [done|]. apply pools_of_update, Hc1.
  - unfold Scrutinizer_OnRevealKeys. destruct (ch_Process ch' pid) as [er|p]; [by exists s|].
    destruct (KeyIndex p) as [i|]; [|by exists s]. destruct (i <? 1); [|by erewrite bind_run_Ok by reflexivity].
    erewrite bind_run_Ok by reflexivity. apply on_pools_collecting.
    + split; [|apply Hc]. apply pools_of_results, Hc.
    + apply pools_of_update. cbn [pools set_pools]. apply pools_of_results, Hc.
  - unfold Scrutinizer_OnProcessResults. erewrite bind_run_Ok by reflexivity. destruct (ch_IsSynchronizing ch').
    + eexists. split; [reflexivity|]. exact Hc.
    + apply on_pools_collecting; [exact Hc|]. apply pools_of_update, Hc.
  - apply on_pools_collecting; [done|]. by destruct Hc as [[] _].
Qed.
(** The votes of a process that is not open, or not there, are not decoded. *)
Lemma closed_results_run ch proc votes :
  Forall (live_vote_ok ch) votes -> ~ open_process ch pid ->
  exists r, block_results ch proc votes = (r, Ok tt) /\ R_Votes r = [] /\ R_BlockHeight r = 0.
Proof.
  intros Hv Hcl. unfold block_results.
  destruct (mfor_invariant (fun r => R_Votes r = [] /\ R_BlockHeight r = 0)
    (fun v => logged (addLiveVote ch (Vote_ProcessId v) (VotePackage v) (big_SetBytes (Weight v)))) votes (block_start proc))
    as (r & Hr & Hi); [|done|eauto].
  eapply Forall_impl; [exact Hv|]. intros v [-> _] r [Hr1 Hr2]. unfold addLiveVote, open_process in *.
  destruct (isOpenProcess ch pid) as [open|e|w] eqn:Eo.
  - destruct open; [done|]. eexists. split; [by eapply logged_run with (o := Ok tt)|by split].
  - eexists. split; [by eapply logged_run|by split].
  - exfalso. unfold isOpenProcess in Eo. destruct (ch_Process ch pid) as [|p]; [done|]. cbn in Eo. by destruct (P_EnvelopeType p).
Qed.

Lemma commit_live_process_agreed ch votes s :
  Forall (live_vote_ok ch) votes -> agreed (idb s) ->
  exists s', commit_live_process true ch pid votes s = (s', Ok tt) /\ agreed (idb s') /\ pools s' = pools s.
Proof.
  intros Hv [r Hi]. assert (Hd : open_process ch pid \/ ~ open_process ch pid).
  { unfold open_process. destruct (isOpenProcess ch pid) as [[]| |]; auto. }
  destruct Hd as [Hop|Hop].
  - destruct (commit_live_process_run ch pid votes opts et r s Hi) as (s' & Hrun & Hi' & _ & _ & Hp & _).
    + eapply Forall_impl; [exact Hv|]. by intros v [-> _].
    + apply Forall_fmap. eapply Forall_impl; [exact Hv|]. intros v [_ Hl]. by apply Hl.
    + exists s'. split_and!; [done|by eexists|done].
  - destruct (indexed_info _ _ _ _ _ Hi) as (p & Hp & _).
    destruct (closed_results_run ch p votes Hv Hop) as (rb & Hb & Hr1 & Hr2).
    destruct (commitVotes_indexed pid opts et r (idb s) rb Hi) as (d' & Hc & Hi' & _).
    { split; [by left|by rewrite Hr2]. }
    exists (set_idb d' s). split_and!; [|by eexists|done].
    unfold commit_live_process. erewrite bind_run_Ok.
    2: { unfold catch. rewrite (on_idb_run _ s _ _ Hp), set_idb_same. reflexivity. }
    cbv beta iota. rewrite Hb. apply logged_run with (o := Ok tt); [|done]. by apply on_idb_run.
Qed.

(** A change of the columns that are not those of the results. *)
Lemma agreed_columns d proc row row' :
  agreed d -> t_find (KBytes pid) (sql_processes d) = Some row -> ResultsFromDB row' = ResultsFromDB row ->
  agreed (set_sql_processes (t_put (KBytes pid) row' (sql_processes d))
    (set_bh_processes (t_put (KBytes pid) proc (bh_processes d)) d)).
Proof.
  intros [r [Hr Hid Hp (row0 & Hrow0 & Hres) Ht Hs]] Hrow Heq. rewrite Hrow in Hrow0. injection Hrow0 as <-.
  exists r. split; [done|done|cbn; by rewrite find_put, decide_True| |done|done].
  exists row'. cbn. rewrite find_put, decide_True by done. by rewrite Heq.
Qed.

Lemma updateProcess_agreed ch d :
  (forall p, ch_Process ch pid = inr p -> Status p <> CANCELED) -> agreed d ->
  exists d' o, updateProcess true ch pid d = (d', o) /\ is_panic o = false /\ agreed d'.
Proof.
  intros Hst Ha. pose proof Ha as [r [_ _ Hpr (row & Hrow & _) _ _]]. unfold updateProcess.
  destruct (ch_Process ch pid) as [e|p] eqn:Ep; [by eexists d, _|]. specialize (Hst p eq_refl).
  assert (Hc : forall z, canceling z (Status p) = false)
    by (intros z; unfold canceling; rewrite bool_decide_false by done; apply andb_false_r).
  destruct (t_find (KBytes pid) (bh_processes d)) as [old|] eqn:Eo; [|done].
  eexists _, (Ok tt). split.
  { erewrite bind_run_Ok by reflexivity. erewrite bind_run_Ok.
    2: { erewrite bind_run_Ok by reflexivity. rewrite Eo. cbv zeta. rewrite Hc. erewrite bind_run_Ok by reflexivity.
         apply query_Ok, tbl_put_run. }
    erewrite bind_run_Ok.
    2: { unfold GetProcessStatus, GetProcess. by erewrite bind_run_Ok by (by apply tbl_find_run). }
    erewrite bind_run_Ok by (unfold UpdateProcessFromState, sql_update; eapply tbl_update_run; [exact Hrow|reflexivity]).
    by rewrite Hc. }
  split; [done|]. by eapply (agreed_columns d _ row).
Qed.

Lemma setResultsHeight_agreed h d :
  h <> 0 -> agreed d -> exists d', setResultsHeight true pid h d = (d', Ok tt) /\ agreed d'.
Proof.
  intros Hh Ha. pose proof Ha as [r [_ _ Hpr (row & Hrow & _) _ _]]. unfold setResultsHeight.
  destruct (Z.eqb_spec h 0); [done|]. destruct (t_find (KBytes pid) (bh_processes d)) as [old|] eqn:Eo; [|done].
  eexists. split.
  { erewrite bind_run_Ok by (by eapply query_Ok, tbl_update_run).
    unfold SetProcessResultsHeight, sql_update. eapply tbl_update_run; [exact Hrow|reflexivity]. }
  by eapply (agreed_columns d _ row).
Qed.

Lemma agreed_same d d' :
  bh_results d' = bh_results d -> bh_processes d' = bh_processes d -> sql_processes d' = sql_processes d ->
  agreed d -> agreed d'.
Proof. intros E1 E2 E3 [r Hi]. exists r. by eapply (indexed_same _ _ _ _ d). Qed.

(** Every reference is written, or its error is logged. *)
Lemma addVoteIndex_agreed ch height v d :
  agreed d -> exists d' o, index_vote ch height v d = (d', o) /\ is_panic o = false /\ agreed d'.
Proof.
  intros Ha. unfold index_vote, addVoteIndex, CreateVoteReference, tbl_insert. cbv zeta.
  destruct (t_insert (KBytes (Nullifier (vi_vote v))) (vote_reference ch height v) (bh_votes d)) as [t1|] eqn:E1.
  - erewrite bind_run_Ok by (erewrite bind_run_Ok by reflexivity; change (mkVoteReference _ _ _ _ _ _ _) with (vote_reference ch height v); rewrite E1; reflexivity).
    change (mkDBVoteReference _ _ _ _ _ _ _) with (vote_row ch height v).
    erewrite (bind_run_Ok get) by reflexivity. cbn [sql_votes set_bh_votes]. change (DV_Nullifier _) with (Nullifier (vi_vote v)).
    destruct (t_insert (KBytes (Nullifier (vi_vote v))) (vote_row ch height v) (sql_votes d)) as [t2|];
      (eexists _, _; split; [reflexivity|split; [done|by apply (agreed_same d)]]).
  - erewrite bind_run_Err by (erewrite bind_run_Ok by reflexivity; change (mkVoteReference _ _ _ _ _ _ _) with (vote_reference ch height v); rewrite E1; reflexivity). by eexists d, _.
Qed.
(** A phase of [Commit] on the pools of a block. *)
Definition settled (p : Pools) (s : Scrutinizer) : Prop := agreed (idb s) /\ pools s = p.

Lemma logged_settled p (m : GoM IndexDB unit) s d o :
  m (idb s) = (d, o) -> is_panic o = false -> agreed d -> settled p s ->
  exists s', logged (on_idb m) s = (s', Ok tt) /\ settled p s'.
Proof.
  intros Hm Ho Ha [_ Hp]. exists (set_idb d s). split; [|done]. by apply logged_run with (o := o); [apply on_idb_run|].
Qed.

Lemma commit_updates_settled ch p s :
  pools_of ch p -> (forall q, ch_Process ch pid = inr q -> Status q <> CANCELED) -> settled p s ->
  exists s', commit_updates true ch s = (s', Ok tt) /\ settled p s'.
Proof.
  intros Hp Hst Hs. unfold commit_updates. erewrite bind_run_Ok by reflexivity. cbv beta. apply mfor_invariant; [|done].
  rewrite (proj2 Hs). eapply Forall_impl; [apply Hp|]. cbv beta. intros ? -> s1 Hs1.
  destruct (updateProcess_agreed ch (idb s1) Hst (proj1 Hs1)) as (d & o & Hrun & Ho & Ha). by eapply logged_settled.
Qed.

Lemma commit_schedule_settled ch height p s :
  pools_of ch p -> u32 (height + 1) <> 0 -> settled p s ->
  exists s', commit_schedule true height s = (s', Ok tt) /\ settled p s'.
Proof.
  intros Hp Hh Hs. unfold commit_schedule. erewrite bind_run_Ok by reflexivity. cbv beta. apply mfor_invariant; [|done].
  rewrite (proj2 Hs). eapply Forall_impl; [apply Hp|]. cbv beta. intros x -> s1 [Ha1 Hp1].
  destruct (setResultsHeight_agreed (u32 (height + 1)) (idb s1) Hh Ha1) as (d & Hrun & Ha). eexists. split.
  { erewrite bind_run_Ok by (unfold catch; rewrite (on_idb_run _ _ _ _ Hrun); reflexivity). reflexivity. }
  done.
Qed.

Lemma commit_votes_index_settled ch height p s :
  settled p s -> exists s', commit_votes_index true ch height s = (s', Ok tt) /\ settled p s'.
Proof.
  intros Hs. unfold commit_votes_index. erewrite bind_run_Ok by reflexivity. cbv beta zeta.
  destruct (mfor_invariant (settled p) (fun v => logged (on_idb (index_vote ch height v))) (voteIndexPool (pools s)) s)
    as (s1 & Hrun & Hs1); [|done|].
  { apply Forall_true. intros v s1 Hs1. destruct (addVoteIndex_agreed ch height v (idb s1) (proj1 Hs1)) as (d & o & Hr & Ho & Ha).
    by eapply logged_settled. }
  erewrite bind_run_Ok by exact Hrun. destruct (negb _ && true); [|by exists s1].
  destruct (tbl_update_total bh_counts set_bh_counts (KUint CountStoreEnvelopes)
    (fun c => mkCountStore (CS_Type c) (u64 (CS_Count c + Z.of_nat (List.length (voteIndexPool (pools s)))))) (idb s1))
    as (d & Hd & Ho).
  apply (logged_settled p _ s1 d (Ok tt)); [exact Hd|done| |done].
  destruct Ho as [-> | [t ->]]; [apply Hs1|]. apply (agreed_same (idb s1)); [done..|apply Hs1].
Qed.

Lemma commit_live_settled ch p s :
  pools_of ch p -> settled p s -> exists s', commit_live true range_pool ch s = (s', Ok tt) /\ settled p s'.
Proof.
  intros Hp Hs. unfold commit_live. erewrite bind_run_Ok by reflexivity. cbv beta. rewrite (proj2 Hs).
  pose proof (range_pool_spec (votePool p)) as Hr. destruct (po_votes _ _ Hp) as [E|(votes & E & Hv)]; rewrite E in *.
  - rewrite map_to_list_empty in Hr. apply Permutation_nil_r in Hr as ->. by exists s.
  - rewrite map_to_list_singleton in Hr. apply Permutation_singleton_r in Hr as ->. apply mfor_invariant; [|done].
    repeat constructor. intros s1 [Ha1 Hp1].
    destruct (commit_live_process_agreed ch votes s1 Hv Ha1) as (s2 & Hrun & Ha2 & Hp2). exists s2. split; [done|].
    by split; [|congruence].
Qed.

Lemma Commit_settled ch height p s :
  pools_of ch p -> (forall q, ch_Process ch pid = inr q -> Status q <> CANCELED) -> u32 (height + 1) <> 0 ->
  settled p s -> exists s', Scrutinizer_Commit true range_pool ch height s = (s', Ok tt) /\ settled p s'.
Proof.
  intros Hp Hst Hh Hs. unfold Scrutinizer_Commit.
  erewrite bind_run_Ok.
  2: { unfold commit_new_processes. erewrite bind_run_Ok by reflexivity. rewrite (proj2 Hs), (po_new _ _ Hp). reflexivity. }
  destruct (commit_updates_settled ch p s Hp Hst Hs) as (s1 & Hr1 & Hs1). erewrite bind_run_Ok by exact Hr1.
  erewrite bind_run_Ok by reflexivity. erewrite (bind_run_Ok (start_task _)) by reflexivity.
  set (s2 := set_tasks _ s1). assert (Hs2 : settled p s2) by exact Hs1.
  destruct (commit_schedule_settled ch height p s2 Hp Hh Hs2) as (s3 & Hr3 & Hs3). erewrite bind_run_Ok by exact Hr3.
  destruct (commit_votes_index_settled ch height p s3 Hs3) as (s4 & Hr4 & Hs4). erewrite bind_run_Ok by exact Hr4.
  destruct (commit_live_settled ch p s4 Hp Hs4) as (s5 & Hr5 & Hs5). erewrite bind_run_Ok by exact Hr5.
  destruct (0 <? height); [|by exists s5]. eexists. split; [reflexivity|]. exact Hs5.
Qed.

Lemma run_op_agreed s op :
  op_ok s op -> agreed (idb s) -> exists s', run_op pid op s = (s', Ok tt) /\ agreed (idb s').
Proof.
  intros Hop Ha. destruct op as [ch height events|ch].
  - destruct Hop as (Hst & Hh & He). cbn [run_op]. erewrite bind_run_Ok by reflexivity.
    destruct (mfor_invariant (collecting ch s) (run_event pid) events (set_pools no_pools s)) as (s1 & Hr1 & Hc1).
    { eapply Forall_impl; [exact He|]. intros e Hev s1 Hc1. by apply run_event_collecting. }
    { split; [|done]. split; [done|constructor|constructor|by left]. }
    erewrite bind_run_Ok by exact Hr1. destruct Hc1 as [Hp1 Hd1].
    destruct (Commit_settled ch height (pools s1) s1 Hp1 Hst Hh) as (s' & Hr' & Ha' & _); [by split; [rewrite Hd1|]|eauto].
  - destruct Hop as (Hf & Hh & Htr), Ha as [r Hi]. destruct (ComputeResult_indexed ch pid opts et r s Hi Hf Hh)
      as (p & s' & _ & Hrun & Hi' & _); [by auto|]. exists s'. split; [done|by eexists].
Qed.

Lemma run_ops_agreed ops s :
  ops_ok s ops -> agreed (idb s) -> exists s', mfor ops (run_op pid) s = (s', Ok tt) /\ agreed (idb s').
Proof.
  revert s. induction ops as [|op ops IH]; intros s Hok Ha; [by exists s|]. destruct Hok as [Hop Hok].
  destruct (run_op_agreed s op Hop Ha) as (s1 & Hr1 & Ha1). rewrite Hr1 in Hok. destruct (IH s1 Hok Ha1) as (s' & Hr' & Ha').
  exists s'. split; [|done]. by apply (mfor_run _ _ _ s s1).
Qed.
End history.
End blocks.
End runs.
