(* ===== verification/ClientVote.v ===== *)
(** * The vote package of the client

    [genVote] of [src/client/util.go]: a vote package in JSON, sealed with every encryption key of
    the process, in order.  The random octets of the nonce and of each encryption are arguments.
    [vote_keys] and [unmarshalVote] of the indexer open it with the private keys. *)

From stdpp Require Import base option list strings gmap.
From Stdlib Require Import ZArith Lia Ascii.
From S2P Require Import Prelude GoMonad GoLib GoText Models External Tables Nacl StateTrees IndexerTypes IndexerVotes.

(** [json.Marshal] of a [vochain.VotePackage] with votes: an empty nonce is omitted, and the digits
    of a nonce are not escaped. *)
Definition package_text (nonce : bytes) (votes : list Z) : bytes :=
  let quote := String (byte_of 34) "" in
  match nonce with
  | EmptyString => vote_text votes
  | _ => "{" +:+ quote +:+ "nonce" +:+ quote +:+ ":" +:+ quote +:+ hex_encode nonce +:+ quote +:+ "," +:+
         quote +:+ "votes" +:+ quote +:+ ":[" +:+ join_with "," (big_String <$> votes) +:+ "]}"
  end.

Definition sample_votes : list Z := [1; 2; 3; 4; 5; 6].

Section client.
Context `{EthCrypto, !ProofLibs, !SealedBox}.

(** The loop over the keys: [vpBytes] is [None] until the first key that is not empty. *)
Fixpoint seal_all (keys : list string) (i : nat) (nonce : bytes) (rand : nat -> bytes) (vpBytes : option bytes) :
    outcome (option bytes) :=
  match keys with
  | [] => Ok vpBytes
  | k :: keys' =>
      if bool_decide (k = "") then seal_all keys' (S i) nonce rand vpBytes
      else
        match DecodePublic k with
        | Err e => Err (Errorf "cannot decode encryption key")
        | Panic w => Panic w
        | Ok pub =>
            let vp := default (package_text nonce sample_votes) vpBytes in
            match Anonymous_Encrypt vp pub (rand i) with
            | Err e => Err (Errorf "cannot encrypt")
            | Panic w => Panic w
            | Ok c => seal_all keys' (S i) nonce rand (Some c)
            end
        end
  end.

Definition genVote (encrypted : bool) (keys : list string) (nonce : bytes) (rand : nat -> bytes) : outcome bytes :=
  if encrypted then vpBytes ← seal_all keys 0 nonce rand None; Ok (default "" vpBytes)
  else Ok (package_text "" sample_votes).

(** ** The package is read back *)

(** A character that needs no escape. *)
Definition plain_char (c : ascii) : bool :=
  (48 <=? byte_val c) && (byte_val c <=? 57) || (97 <=? byte_val c) && (byte_val c <=? 102).

Fixpoint plain (s : string) : bool :=
  match s with EmptyString => true | String c s' => plain_char c && plain s' end.

Lemma hex_digit_plain z : 0 <= z < 16 -> plain_char (hex_digit z) = true.
Proof.
  intros Hz. unfold plain_char, hex_digit. destruct (Z.ltb_spec z 10); rewrite byte_val_of, Z.mod_small by lia.
  - apply orb_true_iff. left. apply andb_true_iff. split; apply Z.leb_le; lia.
  - apply orb_true_iff. right. apply andb_true_iff. split; apply Z.leb_le; lia.
Qed.

Lemma hex_encode_plain b : plain (hex_encode b) = true.
Proof.
  induction b as [|c b IH]; [done|]. cbn [hex_encode plain]. pose proof (byte_val_range c).
  rewrite IH, !hex_digit_plain; [done|apply Z.mod_pos_bound; lia|].
  split; [apply Z.div_pos; lia|apply Z.div_lt_upper_bound; lia].
Qed.

Lemma json_string_plain s rest :
  plain s = true -> json_string 0 (s +:+ String (byte_of 34) rest) = Some (s, rest).
Proof.
  induction s as [|c s IH]; [done|]. cbn [plain String.append json_string]. rewrite andb_true_iff. intros [Hc Hs].
  unfold plain_char in Hc. rewrite orb_true_iff, !andb_true_iff, !Z.leb_le in Hc.
  destruct (Z.eqb_spec (byte_val c) 34); [lia|]. destruct (Z.ltb_spec (byte_val c) 32); [lia|].
  destruct (Z.eqb_spec (byte_val c) 92); [lia|]. destruct (Z.ltb_spec (byte_val c) 128); [|lia].
  by rewrite IH.
Qed.

Lemma json_members_step fuel d s1 k s3 v s5 l s6 :
  json_string 0 s1 = Some (k, String ":" s3) -> json_value fuel d s3 = Some (v, String "," s5) ->
  json_members fuel d s5 = Some (l, s6) ->
  json_members (S fuel) d (String (byte_of 34) s1) = Some ((k, v) :: l, s6).
Proof.
  intros Hk Hv Hl. cbn [json_members].
  change (skip_space (String (byte_of 34) s1)) with (String (byte_of 34) s1). cbv iota.
  change (byte_val (byte_of 34) =? 34) with true. cbv iota. rewrite Hk. cbn [mbind option_bind].
  change (skip_space (String ":" s3)) with (String ":" s3). cbv iota. rewrite Hv. cbn [mbind option_bind].
  change (skip_space (String "," s5)) with (String "," s5). cbv iota. by rewrite Hl.
Qed.

Lemma json_value_string fuel d s v rest :
  json_string 0 s = Some (v, rest) -> json_value (S fuel) d (String (byte_of 34) s) = Some (JString v, rest).
Proof.
  intros Hs. cbn [json_value]. change (skip_space (String (byte_of 34) s)) with (String (byte_of 34) s). cbv zeta.
  change (byte_of 34) with (Ascii false true false false false true false false). cbv iota.
  change (byte_val _ =? 34) with true. cbv iota. by rewrite Hs.
Qed.

Lemma json_value_object fuel s l rest :
  json_members fuel 1 (String (byte_of 34) s) = Some (l, rest) ->
  json_value (S fuel) 0 (String "{" (String (byte_of 34) s)) = Some (JObject l, rest).
Proof.
  intros Hs. cbn [json_value]. change (skip_space (String "{" ?x)) with (String "{" x). cbv zeta iota.
  change (maxNestingDepth <? 0 + 1) with false. cbv iota.
  change (skip_space (String (byte_of 34) s)) with (String (byte_of 34) s).
  change (0 + 1) with 1. rewrite Hs.
  change (byte_of 34) with (Ascii false true false false false true false false). reflexivity.
Qed.

Lemma json_package_text nonce : json_VotePackage (package_text nonce sample_votes) = Some sample_votes.
Proof.
  destruct nonce as [|c nonce]; [apply json_VotePackage_text; by repeat constructor|].
  assert (Hp : plain (hex_encode (String c nonce)) = true) by apply hex_encode_plain.
  unfold package_text. set (h := hex_encode (String c nonce)) in *. clearbody h. cbv zeta.
  set (votes := (String (byte_of 34) "") +:+ "votes" +:+ _).
  assert (Hv : forall n, json_members (20 + n) 1 votes = Some ([("votes", JArray (JNumber ∘ big_String <$> sample_votes))], ""))
    by (intros n; vm_compute; reflexivity).
  clearbody votes. set (text := "{" +:+ _).
  assert (Hl : exists n, (2 * String.length text + 2 = S (S (20 + n)))%nat).
  { exists (2 * String.length text - 20)%nat. subst text. cbn [String.append String.length].
    rewrite string_length_app. cbn [String.append String.length]. lia. }
  destruct Hl as [n Hl]. unfold json_VotePackage, json_parse. rewrite Hl. subst text.
  cbn [String.append]. erewrite json_value_object.
  2: { eapply json_members_step; [|eapply json_value_string, json_string_plain; exact Hp|apply Hv]. reflexivity. }
  reflexivity.
Qed.

(** ** Encryption *)

Definition key_pair (pubhex privhex : string) : Prop :=
  exists priv, DecodePrivate privhex = Ok priv /\ DecodePublic pubhex = Ok (pk_pub priv).

Definition used_keys (keys : list string) : list string := filter (fun k => k <> "") keys.

Lemma decrypt_all_snoc keys k priv raw m m' :
  decrypt_all keys raw = Ok m -> DecodePrivate k = Ok priv -> Decrypt priv m = Ok m' ->
  decrypt_all (keys ++ [k]) raw = Ok m'.
Proof.
  intros Hd Hk Hm. revert raw Hd. induction keys as [|k' keys IH]; intros raw Hd.
  - injection Hd as ->. cbn. rewrite Hk. cbn. by rewrite Hm.
  - cbn in *. destruct (DecodePrivate k') as [priv'|e|w]; try done.
    destruct (Decrypt priv' raw) as [raw'|e|w]; cbn in *; try done. by apply IH.
Qed.

(** What the loop seals the private keys open, in the opposite order. *)
Lemma seal_all_opens `{!SealedBoxLaws} keys privs nonce rand i vp :
  Forall2 key_pair (used_keys keys) privs ->
  (forall m pub i, exists c, box_SealAnonymous m pub (rand i) = inr c) ->
  exists c, seal_all keys i nonce rand vp = Ok c /\ (privs <> [] -> is_Some c) /\ (is_Some vp -> is_Some c) /\
    decrypt_all (rev privs) (default (package_text nonce sample_votes) c) =
      Ok (default (package_text nonce sample_votes) vp).
Proof.
  intros Hk Hseal. revert privs i vp Hk. induction keys as [|k keys IH]; intros privs i vp Hk.
  - apply Forall2_nil_inv_l in Hk as ->. by exists vp.
  - unfold used_keys in *. rewrite filter_cons in Hk. cbn [seal_all].
    destruct (bool_decide_reflect (k = "")) as [->|Hne].
    { rewrite decide_False in Hk by auto. by apply IH. }
    rewrite decide_True in Hk by done. apply Forall2_cons_inv_l in Hk as (p & privs' & (priv & Hp & Hpub) & Hk & ->).
    rewrite Hpub. cbv zeta. set (m := default (package_text nonce sample_votes) vp).
    destruct (Hseal m (pk_pub priv) i) as [c Hc].
    assert (He : Anonymous_Encrypt m (pk_pub priv) (rand i) = Ok c) by (unfold Anonymous_Encrypt; by rewrite Hc).
    rewrite He. destruct (IH privs' (S i) (Some c) Hk) as (c' & Hs & _ & Hsome & Hd). exists c'.
    split; [done|]. split; [by eauto|]. split; [by eauto|]. cbn [rev].
    by eapply decrypt_all_snoc; [exact Hd|exact Hp|eapply Decrypt_Encrypt].
Qed.

Definition index_of_key (privateKeys : list string) (i : Z) (key : string) : Prop :=
  0 <= i < Z.of_nat KeyKeeperMaxKeyIndex /\ privateKeys !! Z.to_nat i = Some key.

Lemma vote_keys_run privateKeys indexes keys :
  Forall2 (index_of_key privateKeys) indexes keys -> vote_keys privateKeys indexes = Ok (Some keys).
Proof.
  induction 1 as [|i k indexes keys [Hi Hk] _ IH]; [done|]. cbn [vote_keys].
  destruct (Z.leb_spec (Z.of_nat KeyKeeperMaxKeyIndex) i); [lia|]. unfold slice_get.
  destruct (Z.ltb_spec i 0); [lia|]. rewrite Hk. cbn [mbind outcome_bind]. by rewrite IH.
Qed.
End client.
