(* ===== verification/State.v ===== *)
(** * The state of the Vochain application

    Models [src/vochain/state.go] without the functions on processes and accounts,
    which have files of their own.  The mutexes and the logging are left out: the
    operations run one after the other.

    [State] has the fields of the Go struct.  [eventListeners] keeps, with each
    listener, the calls it has received; a listener's [Commit] is a function of
    those calls and of the height. *)

From stdpp Require Import base option list strings gmap.
From S2P Require Import Prelude GoMonad GoLib Sha256 Models External Ethereum Tree StateDB.
From S2P Require Import StateTrees.

(** ** Events *)

Inductive Event :=
| OnVote (vote : Vote) (voterID : bytes) (txIndex : Z)
| OnNewTx (hash : bytes) (blockHeight txIndex : Z)
| OnProcess (pid eid : bytes) (censusRoot censusURI : string) (txIndex : Z)
| OnProcessStatusChange (pid : bytes) (status : ProcessStatus) (txIndex : Z)
| OnCancel (pid : bytes) (txIndex : Z)
| OnProcessKeys (pid : bytes) (encryptionPub : string) (txIndex : Z)
| OnRevealKeys (pid : bytes) (encryptionPriv : string) (txIndex : Z)
| OnProcessResults (pid : bytes) (results : ProcessResult) (txIndex : Z)
| OnProcessesStart (pids : list bytes)
| OnCommit (height : Z)
| OnRollback.

(** The error of [Commit] may be an [ErrHaltVochain], which stops the chain. *)
Inductive CommitResult := CommitOk | CommitWarn | CommitHalt (e : error).

Definition EventListener : Type := list Event -> Z -> CommitResult.

Section state.
Context `{Arbo, Lru}.

Record State := mkState {
  Store : DB;
  STx : TreeTx;
  mainTreeView : TreeView;
  DisableVoteCache : bool;
  voteCache : lru;
  mempoolRemoveTxKeys : bool;           (** the function is set *)
  mempoolRemoved : list (list bytes);   (** the calls made to it *)
  txCounter : Z;
  eventListeners : list (EventListener * list Event);
  currentHeight : Z;
  chainID : string;
}.

Definition set_Store (x : DB) (s : State) : State :=
  mkState x (STx s) (mainTreeView s) (DisableVoteCache s) (voteCache s) (mempoolRemoveTxKeys s)
    (mempoolRemoved s) (txCounter s) (eventListeners s) (currentHeight s) (chainID s).
Definition set_STx (x : TreeTx) (s : State) : State :=
  mkState (Store s) x (mainTreeView s) (DisableVoteCache s) (voteCache s) (mempoolRemoveTxKeys s)
    (mempoolRemoved s) (txCounter s) (eventListeners s) (currentHeight s) (chainID s).
Definition setMainTreeView (x : TreeView) (s : State) : State :=
  mkState (Store s) (STx s) x (DisableVoteCache s) (voteCache s) (mempoolRemoveTxKeys s)
    (mempoolRemoved s) (txCounter s) (eventListeners s) (currentHeight s) (chainID s).
Definition set_voteCache (x : lru) (s : State) : State :=
  mkState (Store s) (STx s) (mainTreeView s) (DisableVoteCache s) x (mempoolRemoveTxKeys s)
    (mempoolRemoved s) (txCounter s) (eventListeners s) (currentHeight s) (chainID s).
Definition set_mempoolRemoved (x : list (list bytes)) (s : State) : State :=
  mkState (Store s) (STx s) (mainTreeView s) (DisableVoteCache s) (voteCache s)
    (mempoolRemoveTxKeys s) x (txCounter s) (eventListeners s) (currentHeight s) (chainID s).
Definition set_txCounter (x : Z) (s : State) : State :=
  mkState (Store s) (STx s) (mainTreeView s) (DisableVoteCache s) (voteCache s)
    (mempoolRemoveTxKeys s) (mempoolRemoved s) x (eventListeners s) (currentHeight s) (chainID s).
Definition set_eventListeners (x : list (EventListener * list Event)) (s : State) : State :=
  mkState (Store s) (STx s) (mainTreeView s) (DisableVoteCache s) (voteCache s)
    (mempoolRemoveTxKeys s) (mempoolRemoved s) (txCounter s) x (currentHeight s) (chainID s).

(** [SetHeight] and [SetChainID]. *)
Definition SetHeight (x : Z) (s : State) : State :=
  mkState (Store s) (STx s) (mainTreeView s) (DisableVoteCache s) (voteCache s)
    (mempoolRemoveTxKeys s) (mempoolRemoved s) (txCounter s) (eventListeners s) x (chainID s).
Definition SetChainID (x : string) (s : State) : State :=
  mkState (Store s) (STx s) (mainTreeView s) (DisableVoteCache s) (voteCache s)
    (mempoolRemoveTxKeys s) (mempoolRemoved s) (txCounter s) (eventListeners s) (currentHeight s) x.

Abbreviation M := (GoM State) (only parsing).

(** Calls on [v.Tx]. *)
Definition on_Tx {A} (m : GoM TreeTx A) : M A := zoom STx set_STx m.

(** [for _, l := range v.eventListeners { l.On...(...) }]. *)
Definition notify (ev : Event) : M unit :=
  modify (fun s => set_eventListeners ((fun '(l, log) => (l, log ++ [ev])) <$> eventListeners s) s).

Definition AddEventListener (l : EventListener) (s : State) : State :=
  set_eventListeners (eventListeners s ++ [(l, [])]) s.

(** [atomic.AddInt32] wraps. *)
Definition TxCounterAdd : M unit := modify (fun s => set_txCounter (i32 (txCounter s + 1)) s).
Definition TxCounter : M Z := gets txCounter.
Definition CurrentHeight : M Z := gets currentHeight.

(** ** Tree viewers *)

(** The two implementations of [statedb.TreeViewer] the state uses. *)
Inductive TreeViewer :=
| UpdateView (p : list string)      (** a [treeUpdateView] of [v.Tx] *)
| StoreView (v : TreeView).         (** a [TreeView] of the last commit *)

Definition mainTreeViewer (committed : bool) : M TreeViewer :=
  if committed then v ← gets mainTreeView; mret (StoreView v) else mret (UpdateView []).

Definition V_SubTree (v : TreeViewer) (cfg : TreeConfig) : M TreeViewer :=
  match v with
  | UpdateView p => q ← on_Tx (SubTree p cfg); mret (UpdateView q)
  | StoreView v => d ← gets Store; v' ← lift (TV_SubTree d v cfg); mret (StoreView v')
  end.

Definition V_DeepSubTree (v : TreeViewer) (cfgs : list TreeConfig) : M TreeViewer :=
  match v with
  | UpdateView p => q ← on_Tx (DeepSubTree p cfgs); mret (UpdateView q)
  | StoreView v => d ← gets Store; v' ← lift (TV_DeepSubTree d v cfgs); mret (StoreView v')
  end.

Definition V_Get (v : TreeViewer) (key : bytes) : M bytes :=
  match v with
  | UpdateView p => on_Tx (TU_Get p key)
  | StoreView v => lift (TV_Get v key)
  end.

Definition V_DeepGet (v : TreeViewer) (key : bytes) (cfgs : list TreeConfig) : M bytes :=
  match v with
  | UpdateView p => on_Tx (DeepGet p key cfgs)
  | StoreView v => d ← gets Store; lift (TV_DeepGet d v key cfgs)
  end.

Definition V_Iterate {A} (v : TreeViewer) (f : A -> bytes -> bytes -> A * bool) (a : A) : M A :=
  match v with
  | UpdateView p => on_Tx (TU_Iterate p f a)
  | StoreView v => lift (TV_Iterate v f a)
  end.

Definition V_Root (v : TreeViewer) : M bytes :=
  match v with
  | UpdateView p => on_Tx (TU_Root p)
  | StoreView v => lift (TV_Root v)
  end.

Definition V_NoState_Get (v : TreeViewer) (key : bytes) : M bytes :=
  match v with
  | UpdateView p => on_Tx (TU_NoState_Get p key)
  | StoreView v => d ← gets Store; lift (TV_NoState_Get d v key)
  end.

(** ** Oracles *)

Definition exist : bytes := String (byte_of 1) "".

Definition AddOracle (address : Address) : M unit :=
  on_Tx (DeepSet [] (addr_bytes address) exist [StateTreeCfg TreeOracles]).

Definition RemoveOracle (address : Address) : M unit :=
  oracles ← on_Tx (SubTree [] (StateTreeCfg TreeOracles));
  r ← catch (on_Tx (TU_Get oracles (addr_bytes address)));
  match r with
  | inl e => if errors_is e arbo_ErrKeyNotFound then throw (Wrap "oracle not found" e) else throw e
  | inr _ => on_Tx (TU_Set oracles (addr_bytes address) "")
  end.

Context `{Proto, EthCrypto}.

Definition oracles_callback (oracles : list Address) (key value : bytes) : list Address * bool :=
  if bool_decide (value = "") then (oracles, true)
  else (oracles ++ [BytesToAddress key], true).

Definition Oracles (committed : bool) : M (list Address) :=
  v ← mainTreeViewer committed;
  oraclesTree ← V_SubTree v (StateTreeCfg TreeOracles);
  V_Iterate oraclesTree oracles_callback [].

Definition IsOracle (addr : Address) : M bool :=
  r ← catch (Oracles false);
  match r with
  | inl _ | inr [] =>
      throw (Errorf "cannot check authorization against a nil or empty oracle list")
  | inr oracles => mret (bool_decide (addr ∈ oracles))
  end.

(** ** Treasurer *)

Definition SetTreasurer (address : Address) (nonce : Z) : M unit :=
  tBytes ← Marshal (mkTreasurer (addr_bytes address) nonce);
  on_Tx (DeepSet [] treasurerKey tBytes [StateTreeCfg TreeExtra]).

Definition State_Treasurer (committed : bool) : M Treasurer :=
  v ← mainTreeViewer committed;
  extraTree ← V_SubTree v (StateTreeCfg TreeExtra);
  rawTreasurer ← V_Get extraTree treasurerKey;
  Unmarshal rawTreasurer.

Definition IsTreasurer (addr : Address) : M bool :=
  t ← State_Treasurer false;
  mret (bool_decide (addr = BytesToAddress (Treasurer_Address t))).

Definition IncrementTreasurerNonce : M unit :=
  t ← wrapping "incrementTreasurerNonce()" (State_Treasurer false);
  let t := with_Treasurer_Nonce (u32 (Treasurer_Nonce t + 1)) t in
  tBytes ← wrapping "incrementTreasurerNonce()" (Marshal t);
  on_Tx (DeepSet [] treasurerKey tBytes [StateTreeCfg TreeExtra]).

Definition VerifyTreasurer (addr : Address) (txNonce : Z) : M unit :=
  treasurer ← replacing "cannot check authorization" (State_Treasurer false);
  (when bool_decide (addr_bytes addr <> Treasurer_Address treasurer)
   return Errorf "not authorized for executing admin transactions";
   when negb (Treasurer_Nonce treasurer =? txNonce) return ErrAccountNonceInvalid;
   mret tt)%go.

(** ** Transaction costs *)

Definition TxTypeCostToStateKey (t : TxType) : option string :=
  match t with
  | SET_PROCESS_STATUS => Some "c_setProcessStatus"
  | SET_PROCESS_CENSUS => Some "c_setProcessCensus"
  | SET_PROCESS_QUESTION_INDEX => Some "c_setProcessResults"
  | SET_PROCESS_RESULTS => Some "c_setProcessQuestionIndex"
  | REGISTER_VOTER_KEY => Some "c_registerKey"
  | NEW_PROCESS => Some "c_newProcess"
  | SEND_TOKENS => Some "c_sendTokens"
  | SET_ACCOUNT_INFO => Some "c_setAccountInfo"
  | ADD_DELEGATE_FOR_ACCOUNT => Some "c_addDelegateForAccount"
  | DEL_DELEGATE_FOR_ACCOUNT => Some "c_delDelegateForAccount"
  | COLLECT_FAUCET => Some "c_collectFaucet"
  | _ => None
  end.

Definition SetTxCost (txType : TxType) (cost : Z) : M unit :=
  match TxTypeCostToStateKey txType with
  | None => throw (Errorf "txType shouldn't cost anything")
  | Some key => on_Tx (DeepSet [] key (LittleEndian_PutUint64 cost) [StateTreeCfg TreeExtra])
  end.

Definition TxCost (txType : TxType) (committed : bool) : M Z :=
  match TxTypeCostToStateKey txType with
  | None => throw (Errorf "txType shouldn't cost anything")
  | Some key =>
      v ← mainTreeViewer committed;
      extraTree ← V_SubTree v (StateTreeCfg TreeExtra);
      cost ← replacing "tx cost not found" (V_Get extraTree key);
      lift (LittleEndian_Uint64 cost)
  end.

(** ** Faucet nonces *)

Definition FaucetNonce (key : bytes) (committed : bool) : M bool :=
  v ← mainTreeViewer committed;
  faucetNonceTree ← V_SubTree v (StateTreeCfg TreeFaucet);
  V_Iterate faucetNonceTree
    (fun found k _ => if bool_decide (key = k) then (true, true) else (found, true)) false.

Definition SetFaucetNonce (key : bytes) : M unit :=
  on_Tx (DeepSet [] key "" [StateTreeCfg TreeFaucet]).

(** ** Validators *)

Definition AddValidator (validator : Validator) : M unit :=
  validatorBytes ← Marshal validator;
  on_Tx (DeepSet [] (Validator_Address validator) validatorBytes [StateTreeCfg TreeValidators]).

Definition RemoveValidator (address : bytes) : M unit :=
  validators ← on_Tx (SubTree [] (StateTreeCfg TreeValidators));
  r ← catch (on_Tx (TU_Get validators address));
  match r with
  | inl e =>
      if errors_is e arbo_ErrKeyNotFound then throw (Wrap "validator not found" e) else throw e
  | inr _ => on_Tx (TU_Set validators address "")
  end.

(** The accumulator holds [validators] and [callbackErr]. *)
Definition validators_callback (acc : list Validator * option error) (key value : bytes) :
  (list Validator * option error) * bool :=
  if bool_decide (value = "") then (acc, true)
  else match unmarshal value with
       | None => ((acc.1, Some (Errorf "proto: unmarshal")), false)
       | Some validator => ((acc.1 ++ [validator], acc.2), true)
       end.

Definition Validators (committed : bool) : M (list Validator) :=
  v ← mainTreeViewer committed;
  validatorsTree ← V_SubTree v (StateTreeCfg TreeValidators);
  acc ← V_Iterate validatorsTree validators_callback ([], None);
  match acc.2 with
  | Some e => throw e
  | None => mret acc.1
  end.

(** ** Votes *)

Definition VoteCount (committed : bool) : M Z :=
  v ← mainTreeViewer committed;
  r ← catch (V_NoState_Get v voteCountKey);
  match r with
  | inl e => if errors_is e db_ErrKeyNotFound then mret 0 else throw e
  | inr voteCountLE => lift (LittleEndian_Uint64 voteCountLE)
  end.

(** [PutUint64] overwrites the first eight octets of the slice that was read. *)
Definition voteCountInc : GoM TreeTx unit :=
  r ← catch (TU_NoState_Get [] voteCountKey);
  voteCountLE ← match r with
                | inl e => if errors_is e db_ErrKeyNotFound then mret (zeros 8) else throw e
                | inr b => mret b
                end;
  voteCount ← lift (LittleEndian_Uint64 voteCountLE);
  let voteCount := u64 (voteCount + 1) in
  TU_NoState_Set [] voteCountKey (LittleEndian_PutUint64 voteCount +:+ bdrop 8 voteCountLE).

Definition voteID (pid nullifier : bytes) : outcome bytes :=
  if negb (String.length pid =? ProcessIDsize)%nat then Err (Errorf "wrong processID size")
  else if negb (String.length nullifier =? VoteNullifierSize)%nat
  then Err (Errorf "wrong nullifier size")
  else Ok (sha256 (pid +:+ nullifier)).

Definition votes_cfgs (pid : bytes) : list TreeConfig :=
  [StateTreeCfg TreeProcess; WithKey (StateChildTreeCfg ChildTreeVotes) pid].

Definition AddVote (vote : Vote) (voterID : bytes) : M unit :=
  vid ← lift (voteID (Vote_ProcessId vote) (Nullifier vote));
  height ← CurrentHeight;
  let vote := with_Vote_Height height vote in
  voteBytes ← wrapping "cannot marshal vote" (Marshal vote);
  sdbVoteBytes ← wrapping "cannot marshal sdbVote"
    (Marshal (mkStateDBVote (HashRaw voteBytes) (Vote_ProcessId vote) (Nullifier vote)));
  on_Tx (DeepAdd [] vid sdbVoteBytes (votes_cfgs (Vote_ProcessId vote));;
         voteCountInc);;
  counter ← TxCounter;
  notify (OnVote vote voterID counter).

Definition Envelope (processID nullifier : bytes) (committed : bool) : M bytes :=
  vid ← lift (voteID processID nullifier);
  v ← mainTreeViewer committed;
  r ← catch (V_DeepSubTree v (votes_cfgs processID));
  match r with
  | inl e => if errors_is e arbo_ErrKeyNotFound then throw ErrProcessNotFound else throw e
  | inr votesTree =>
      r ← catch (V_Get votesTree vid);
      match r with
      | inl e => if errors_is e arbo_ErrKeyNotFound then throw ErrVoteDoesNotExist else throw e
      | inr sdbVoteBytes =>
          sdbVote ← wrapping "cannot unmarshal sdbVote" (Unmarshal sdbVoteBytes);
          mret (VoteHash sdbVote)
      end
  end.

Definition EnvelopeExists (processID nullifier : bytes) (committed : bool) : M bool :=
  r ← catch (Envelope processID nullifier committed);
  match r with
  | inl e =>
      if errors_is e ErrProcessNotFound then mret false
      else if errors_is e ErrVoteDoesNotExist then mret false
      else throw e
  | inr _ => mret true
  end.

(** [fn] threads the variables it captures; the error returned beside them is the one
    of the callback.  Its callers ignore both kinds of errors. *)
Definition iterateVotes {A} (processID : bytes) (fn : A -> bytes -> StateDBVote -> A * bool) (a : A)
  (committed : bool) : M (A * option error) :=
  v ← mainTreeViewer committed;
  votesTree ← V_DeepSubTree v (votes_cfgs processID);
  V_Iterate votesTree
    (fun acc key value =>
       match unmarshal value with
       | None => ((acc.1, Some (Errorf "proto: unmarshal")), true)
       | Some sdbVote => let '(a', stop) := fn acc.1 key sdbVote in ((a', acc.2), stop)
       end) (a, None).

Definition CountVotes (processID : bytes) (committed : bool) : M Z :=
  r ← catch (iterateVotes processID (fun count _ _ => (u32 (count + 1), false)) 0 committed);
  mret match r with inl _ => 0 | inr (count, _) => count end.

Definition EnvelopeList (processID : bytes) (from listSize : Z) (committed : bool) :
  M (list bytes) :=
  r ← catch (iterateVotes processID
         (fun '(idx, nullifiers) _ sdbVote =>
            if i64 (from + listSize) <=? idx then ((idx, nullifiers), true)
            else
              let nullifiers := if from <=? idx then nullifiers ++ [SV_Nullifier sdbVote]
                                else nullifiers in
              ((idx + 1, nullifiers), false)) (0, []) committed);
  mret match r with inl _ => [] | inr ((_, nullifiers), _) => nullifiers end.

(** ** The index of processes by start block *)

Definition pathProcessIDsByStartBlock : string := "pidByStartBlock".

Definition keyProcessIDsByStartBlock (startBlock : Z) : bytes :=
  path_Join [pathProcessIDsByStartBlock; LittleEndian_PutUint32 startBlock].

Definition processIDsByStartBlock (startBlock : Z) : GoM TreeTx (list bytes) :=
  r ← catch (TU_NoState_Get [] (keyProcessIDsByStartBlock startBlock));
  match r with
  | inl e => if bool_decide (e = db_ErrKeyNotFound) then mret [] else throw e
  | inr pidsBytes =>
      pids ← wrapping "cannot proto.Unmarshal pids" (Unmarshal pidsBytes);
      mret (ProcessIds pids)
  end.

Definition setProcessIDByStartBlock (processID : bytes) (startBlock : Z) : GoM TreeTx unit :=
  r ← catch (TU_NoState_Get [] (keyProcessIDsByStartBlock startBlock));
  pids ← match r with
         | inl e => if bool_decide (e = db_ErrKeyNotFound) then mret [] else throw e
         | inr pidsBytes =>
             pids ← wrapping "cannot proto.Unmarshal pids" (Unmarshal pidsBytes);
             mret (ProcessIds pids)
         end;
  pidsBytes ← Marshal (mkProcessIdList (pids ++ [processID]));
  TU_NoState_Set [] (keyProcessIDsByStartBlock startBlock) pidsBytes.

(** ** Creation *)

(** One of the six blocks of [initStateDB]: the leaf of the main tree, then the tree. *)
Definition init_tree (t : StateTree) : GoM TreeTx unit :=
  let treeCfg := StateTreeCfg t in
  TU_Add [] (TreeConfig_Key treeCfg) (zeros (HashFunction_Len (hashFunc (tree_cfg treeCfg))));;
  SubTree [] treeCfg;;
  mret tt.

(** The database with the default trees; an initialised one is left as it is. *)
Definition initStateDB (d : DB) : outcome DB :=
  root ← StateDB_Hash d;
  if bool_decide (root <> zeros (String.length root)) then Ok d
  else
    update ← BeginTx d;
    let '(update, r) :=
      (init_tree TreeExtra;;
       init_tree TreeOracles;;
       init_tree TreeValidators;;
       init_tree TreeProcess;;
       init_tree TreeAccounts;;
       init_tree TreeFaucet;;
       TreeTx_Commit 0) update in
    r;; Ok (tx_db update).

(** [NewState] on an opened database and a new cache. *)
Definition NewState (database : DB) (cache : lru) : outcome State :=
  sdb ← match initStateDB database with
        | Err e => Err (Errorf "cannot init StateDB")
        | r => r
        end;
  _ ← StateDB_Version sdb;
  _ ← StateDB_Hash sdb;
  tx ← BeginTx sdb;
  mainTreeView ← StateDB_TreeView sdb None;
  Ok (mkState sdb tx mainTreeView false cache false [] 0 [] 0 "").

(** ** Heights and hashes *)

Definition LastHeight : M Z := d ← gets Store; lift (StateDB_Version d).

(** [panic] on an error, which [Root] does not return. *)
Definition WorkingHash : M bytes := on_Tx (TU_Root []).

(** [log.Fatalf] ends the node. *)
Definition Rollback : M unit :=
  notify OnRollback;;
  d ← gets Store;
  match BeginTx d with
  | Ok tx => modify (set_STx tx);; modify (set_txCounter 0)
  | Err _ => panic "cannot begin statedb tx"
  | Panic w => panic w
  end.

End state.
