(* ===== verification/StateFacts.v ===== *)
(** * Reading and writing the singleton trees of the state

    The operations of [State.v] reach a tree through [SubTree], which consults the
    open handles, the leaf of the parent and the database.  This file proves once
    what that amounts to.  [view s t] is the content of the singleton tree [t] as the
    open transaction sees it; [wf] says that the handles, the leaves of the main tree
    and the stored trees agree.  Under [wf], opening a tree never fails and changes no
    content, a read returns the leaf of [view], and a write updates one leaf of it. *)

From stdpp Require Import base option list strings gmap.
From S2P Require Import Prelude GoMonad GoLib Models External Tree StateDB StateTrees State.

Section facts.
Context `{ArboLaws, Proto}.

(** ** Prefixes *)

Definition st_prefix (t : StateTree) : string := "s/" +:+ StateTree_KindID t +:+ "/".
Definition st_key (t : StateTree) : string := st_prefix t +:+ "t/".
Definition main_key : string := "t/".

Lemma sub_path_singleton u t :
  tu_prefix u = "" -> sub_path u (StateTreeCfg t) = st_prefix t.
Proof. intros Hu. unfold sub_path. rewrite Hu. by destruct t. Qed.

Lemma tree_key_st t : tree_key (st_prefix t) = st_key t.
Proof. by destruct t. Qed.

Lemma st_key_inj t t' : st_key t = st_key t' -> t = t'.
Proof. by destruct t, t'. Qed.

Lemma st_key_main t : st_key t <> main_key.
Proof. by destruct t. Qed.

Lemma kind_inj t t' : StateTree_KindID t = StateTree_KindID t' -> t = t'.
Proof. by destruct t, t'. Qed.

(** The children of the process tree live under the prefix ["s/procs/"] followed by at
    least one more element, apart from every singleton tree and the main tree. *)
Lemma child_key_not_main x : tree_key (sub_prefix (st_prefix TreeProcess) x) <> main_key.
Proof. done. Qed.

Lemma child_key_not_st x t : tree_key (sub_prefix (st_prefix TreeProcess) x) <> st_key t.
Proof.
  destruct t; try done. unfold tree_key, sub_prefix, st_key, st_prefix.
  intros Heq. apply (f_equal String.length) in Heq. rewrite !string_length_app in Heq.
  simpl in Heq. lia.
Qed.
(** ** Well-formed transactions *)

#[export] Instance StateChildTree_eq_dec : EqDecision StateChildTree.
Proof. solve_decision. Defined.

(** The child trees that the state opens: [ChildTreeCensus] is configured and never used. *)
Definition in_use (c : StateChildTree) : bool := match c with ChildTreeCensus => false | _ => true end.

(** Where the tree of an open handle is stored, and how it was configured. *)
Inductive canonical : list string -> TreeUpdate -> Prop :=
| canonical_main u : tu_prefix u = "" -> canonical [] u
| canonical_st t u :
    tu_prefix u = st_prefix t -> tu_cfg u = StateTreeCfg t -> canonical [StateTree_KindID t] u
| canonical_child c pid x u :
    in_use c = true -> x = prefix (WithKey (StateChildTreeCfg c) pid) ->
    tu_prefix u = sub_prefix (st_prefix TreeProcess) (path_Join [subKeySubTree; x]) ->
    tu_cfg u = WithKey (StateChildTreeCfg c) pid ->
    canonical [StateTree_KindID TreeProcess; x] u.

(** The content of a stored tree; a tree that is not stored yet is empty. *)
Definition stored (tx : TreeTx) (key : string) : arbo :=
  default (arbo_new HashSha256 256) (db_trees (tx_db tx) !! key).

Definition view (tx : TreeTx) (t : StateTree) : gmap bytes bytes := leaves (stored tx (st_key t)).

(** Not open, or open and not written to. *)
Definition clean (tx : TreeTx) (t : StateTree) : Prop :=
  forall u, tx_open tx !! [StateTree_KindID t] = Some u -> dirtyTree u = false.

(** The main tree is not written to before the commit, but for the initialisation. *)
Definition main_clean (tx : TreeTx) : Prop :=
  forall u, tx_open tx !! [] = Some u -> dirtyTree u = false.

(** Every open handle is canonical and its tree is stored; the main tree has a leaf for
    each singleton tree, which is the root of that tree as long as it is clean; the main
    tree is the one of the last version as long as it is clean; the process tree is open when
    one of its children is. *)
Record wf_tx (tx : TreeTx) : Prop := {
  wf_main : is_Some (tx_open tx !! []);
  wf_open p u : tx_open tx !! p = Some u ->
    canonical p u /\ is_Some (db_trees (tx_db tx) !! tree_key (tu_prefix u));
  wf_root t : clean tx t ->
    leaves (stored tx main_key) !! StateTree_KindID t = Some (arbo_root (stored tx (st_key t)));
  wf_leaf t : exists r,
    leaves (stored tx main_key) !! StateTree_KindID t = Some r /\ String.length r = 32%nat;
  wf_levels t : levels (stored tx (st_key t)) = 256;
  wf_version : main_clean tx -> getRoot (tx_db tx) = Ok (arbo_root (stored tx main_key));
  wf_parent x : is_Some (tx_open tx !! [StateTree_KindID TreeProcess; x]) ->
    is_Some (tx_open tx !! [StateTree_KindID TreeProcess]);
}.

(** The entries of a tree are apart from the versions. *)
Lemma nostate_not_version p u key k : canonical p u -> nostate_key u key <> version_key k.
Proof.
  intros Hcan. change (version_key k) with ("m/v/" +:+ k). unfold nostate_key.
  by destruct Hcan as [u Hu|t u Hu _|c pid x u _ _ Hu _]; rewrite Hu.
Qed.

Lemma canonical_key p u : canonical p u ->
  (p = [] /\ tree_key (tu_prefix u) = main_key) \/
  (exists t, p = [StateTree_KindID t] /\ tree_key (tu_prefix u) = st_key t) \/
  (exists x, p = [StateTree_KindID TreeProcess; x] /\
     tree_key (tu_prefix u) <> main_key /\ forall t, tree_key (tu_prefix u) <> st_key t).
Proof.
  intros [u' Hu|t u' Hu _|c pid x u' _ _ Hu _].
  - left. by rewrite Hu.
  - right; left. exists t. by rewrite Hu, tree_key_st.
  - right; right. exists x. rewrite Hu.
    auto using child_key_not_main, child_key_not_st.
Qed.

Lemma canonical_main_inv u : canonical [] u -> tu_prefix u = "".
Proof. by inversion 1. Qed.

Lemma canonical_st_inv t u : canonical [StateTree_KindID t] u -> tu_prefix u = st_prefix t.
Proof. inversion 1 as [|t' ? Hu _ Ht|]; subst. by rewrite Hu, (kind_inj _ _ Ht). Qed.

(** ** Running the handle operations *)

Lemma node_run p u tx : tx_open tx !! p = Some u -> node p tx = (tx, Ok u).
Proof. intros Hp. unfold node. go_run. by rewrite Hp. Qed.

Lemma node_tree_run u t tx :
  db_trees (tx_db tx) !! tree_key (tu_prefix u) = Some t -> node_tree u tx = (tx, Ok t).
Proof. intros Ht. unfold node_tree. go_run. by rewrite Ht. Qed.

Lemma TU_Get_run p u t key tx :
  tx_open tx !! p = Some u -> db_trees (tx_db tx) !! tree_key (tu_prefix u) = Some t ->
  TU_Get p key tx = (tx, of_sum (arbo_get t key)).
Proof.
  intros Hp Ht. unfold TU_Get.
  rewrite (bind_run_Ok _ _ _ _ _ (node_run _ _ _ Hp)).
  by rewrite (bind_run_Ok _ _ _ _ _ (node_tree_run _ _ _ Ht)).
Qed.

Lemma TU_Get_keeps_tx p key tx : (TU_Get p key tx).1 = tx.
Proof.
  unfold TU_Get, node, node_tree. go_run. destruct (tx_open tx !! p); [|done].
  by destruct (db_trees _ !! _).
Qed.

(** Opening a tree whose root is the one recorded changes nothing but the presence of
    an empty tree. *)
Lemma open_at_same key cfg d root :
  arbo_root (default (arbo_new (hashFunc cfg) (maxLevels cfg)) (db_trees d !! key)) = root ->
  open_at key cfg root d =
  (with_trees (<[key := default (arbo_new (hashFunc cfg) (maxLevels cfg)) (db_trees d !! key)]>) d,
   Ok tt).
Proof. intros <-. unfold open_at. by rewrite bool_decide_eq_true_2. Qed.

(** ** Opening a singleton tree *)

Definition opened (t : StateTree) (tx : TreeTx) : TreeTx :=
  match tx_open tx !! [StateTree_KindID t] with
  | Some _ => tx
  | None =>
      mkTreeTx (with_trees (<[st_key t := stored tx (st_key t)]>) (tx_db tx))
        (<[[StateTree_KindID t] := mkTreeUpdate (st_prefix t) (StateTreeCfg t) false]> (tx_open tx))
  end.

Lemma SubTree_singleton t tx :
  wf_tx tx -> SubTree [] (StateTreeCfg t) tx = (opened t tx, Ok [StateTree_KindID t]).
Proof.
  intros Hwf. unfold SubTree, opened. go_run. cbn [app].
  change (prefix (StateTreeCfg t)) with (StateTree_KindID t).
  change (parentLeafKey (StateTreeCfg t)) with (StateTree_KindID t).
  change (parentLeafGetRoot (tree_cfg (StateTreeCfg t))) with rootLeafGetRoot.
  destruct (tx_open tx !! [StateTree_KindID t]) eqn:Hopen; [done|].
  destruct (wf_main tx Hwf) as [u Hu]. destruct (wf_open tx Hwf _ _ Hu) as [Hcan [m Hm]].
  apply canonical_main_inv in Hcan. rewrite (TU_Get_run _ _ _ _ _ Hu Hm).
  pose proof (wf_root tx Hwf t ltac:(by intros ? ?; congruence)) as Hleaf.
  rewrite Hcan in Hm. change (tree_key "") with main_key in Hm.
  unfold stored in Hleaf at 1. rewrite Hm in Hleaf. simpl in Hleaf.
  rewrite (get_found _ _ _ Hleaf). cbn [of_sum].
  rewrite (proj2 (rootLeafGetRoot_Ok _ _) (conj (root_length _) eq_refl)).
  rewrite (node_run _ _ _ Hu), sub_path_singleton, tree_key_st by done.
  by rewrite open_at_same.
Qed.

Lemma stored_insert_same tx k open k' :
  stored (mkTreeTx (with_trees (<[k := stored tx k]>) (tx_db tx)) open) k' = stored tx k'.
Proof.
  unfold stored. simpl. destruct (decide (k = k')) as [->|].
  - by rewrite lookup_insert_eq.
  - by rewrite lookup_insert_ne.
Qed.

Lemma stored_opened t tx k : stored (opened t tx) k = stored tx k.
Proof. unfold opened. destruct (tx_open tx !! _); [done|]. apply stored_insert_same. Qed.

Lemma view_opened t tx t' : view (opened t tx) t' = view tx t'.
Proof. unfold view. by rewrite stored_opened. Qed.

Lemma kv_opened t tx : db_kv (tx_db (opened t tx)) = db_kv (tx_db tx).
Proof. unfold opened. by destruct (tx_open tx !! _). Qed.

Lemma opened_open t tx : is_Some (tx_open (opened t tx) !! [StateTree_KindID t]).
Proof.
  unfold opened. destruct (tx_open tx !! [StateTree_KindID t]) eqn:E; [by rewrite E|].
  simpl. by rewrite lookup_insert_eq.
Qed.

Lemma wf_opened t tx : wf_tx tx -> wf_tx (opened t tx).
Proof.
  intros Hwf. split.
  - unfold opened. destruct (tx_open tx !! [_]); [apply Hwf|]. simpl.
    rewrite lookup_insert_ne by done. apply Hwf.
  - intros p u. unfold opened. destruct (tx_open tx !! [_]); [apply Hwf|]. simpl.
    destruct (decide (p = [StateTree_KindID t])) as [->|Hne].
    + rewrite lookup_insert_eq. intros [= <-]. split; [by constructor|]. simpl.
      by rewrite tree_key_st, lookup_insert_eq.
    + rewrite lookup_insert_ne by done. intros Hp.
      destruct (wf_open tx Hwf _ _ Hp) as [? [m Hm]]. split; [done|].
      destruct (decide (st_key t = tree_key (tu_prefix u))) as [->|].
      * by rewrite lookup_insert_eq.
      * by rewrite lookup_insert_ne.
  - intros t'. rewrite !stored_opened. intros Ht'. apply (wf_root tx Hwf). intros u Hu. apply Ht'.
    unfold opened. destruct (tx_open tx !! [StateTree_KindID t]) eqn:E; [done|]. simpl.
    rewrite lookup_insert_ne; [done|congruence].
  - intros t'. rewrite stored_opened. apply Hwf.
  - intros t'. rewrite stored_opened. apply Hwf.
  - intros Hc. unfold getRoot, getVersion, getVersionRoot. rewrite kv_opened, stored_opened.
    apply (wf_version tx Hwf). intros u Hu. apply Hc. unfold opened.
    destruct (tx_open tx !! [_]); [done|]. simpl. by rewrite lookup_insert_ne.
  - intros x. unfold opened. destruct (tx_open tx !! [_]); [apply (wf_parent tx Hwf)|]. simpl.
    rewrite lookup_insert_ne by done. intros Hx. apply lookup_insert_is_Some'. right. by apply (wf_parent tx Hwf x).
Qed.

(** An open singleton tree is stored under its key. *)
Lemma open_singleton t tx :
  wf_tx tx -> is_Some (tx_open tx !! [StateTree_KindID t]) ->
  exists u, tx_open tx !! [StateTree_KindID t] = Some u /\ tu_prefix u = st_prefix t /\
    db_trees (tx_db tx) !! tree_key (tu_prefix u) = Some (stored tx (st_key t)).
Proof.
  intros Hwf [u Hu]. destruct (wf_open tx Hwf _ _ Hu) as [Hcan [m Hm]].
  apply canonical_st_inv in Hcan. exists u. split_and!; [done..|].
  rewrite Hm. unfold stored. rewrite Hcan, tree_key_st in Hm. by rewrite Hm.
Qed.

(** ** Reads *)

Lemma DeepGet_singleton t key tx :
  wf_tx tx ->
  DeepGet [] key [StateTreeCfg t] tx = (opened t tx, of_sum (arbo_get (stored tx (st_key t)) key)).
Proof.
  intros Hwf. unfold DeepGet, DeepSubTree.
  unfold mbind, gom_bind. rewrite SubTree_singleton by done. simpl.
  destruct (open_singleton t (opened t tx)) as (u & Hu & _ & Hstored);
    [by apply wf_opened | apply opened_open |].
  rewrite stored_opened in Hstored. by rewrite (TU_Get_run _ _ _ _ _ Hu Hstored).
Qed.

(** ** Writes *)

Definition with_dirty (p : list string) (tx : TreeTx) : TreeTx :=
  on_open (alter (fun u => mkTreeUpdate (tu_prefix u) (tu_cfg u) true) p) tx.

Definition put_tree (key : string) (t' : arbo) (tx : TreeTx) : TreeTx :=
  on_db (with_trees (<[key := t']>)) tx.

Lemma stored_put key t' tx k :
  stored (put_tree key t' tx) k = if decide (key = k) then t' else stored tx k.
Proof.
  unfold stored. simpl. destruct (decide (key = k)) as [->|].
  - by rewrite lookup_insert_eq.
  - by rewrite lookup_insert_ne.
Qed.

Lemma with_dirty_lookup p q tx u :
  tx_open (with_dirty p tx) !! q = Some u ->
  exists u0, tx_open tx !! q = Some u0 /\ tu_prefix u = tu_prefix u0 /\ tu_cfg u = tu_cfg u0.
Proof.
  simpl. destruct (decide (p = q)) as [->|Hne].
  - rewrite lookup_alter_eq. destruct (tx_open tx !! q); simpl; [|done]. intros [= <-]. by eexists.
  - rewrite lookup_alter_ne by done. intros Hq. by exists u.
Qed.

Lemma canonical_ext p u u0 :
  tu_prefix u = tu_prefix u0 -> tu_cfg u = tu_cfg u0 -> canonical p u0 -> canonical p u.
Proof.
  intros Hp Hc Hcan. destruct Hcan; econstructor; try rewrite Hp; try rewrite Hc; eauto.
Qed.

Lemma wf_with_dirty p tx : wf_tx tx -> wf_tx (with_dirty p tx).
Proof.
  intros Hwf. split.
  - simpl. apply lookup_alter_is_Some, Hwf.
  - intros q u Hq. apply with_dirty_lookup in Hq as (u0 & Hq & Hp & Hc).
    destruct (wf_open tx Hwf _ _ Hq) as [Hcan Hst]. rewrite Hp.
    split; [by eapply canonical_ext | exact Hst].
  - intros t Ht. apply (wf_root tx Hwf t). intros u Hu.
    destruct (decide (p = [StateTree_KindID t])) as [->|Hne].
    + specialize (Ht (mkTreeUpdate (tu_prefix u) (tu_cfg u) true)). simpl in Ht.
      rewrite lookup_alter_eq, Hu in Ht. by specialize (Ht eq_refl).
    + apply Ht. simpl. by rewrite lookup_alter_ne.
  - intros t. apply (wf_leaf tx Hwf).
  - intros t. apply (wf_levels tx Hwf).
  - intros Hc. apply (wf_version tx Hwf). intros u Hu. destruct (decide (p = [])) as [->|Hne].
    + specialize (Hc (mkTreeUpdate (tu_prefix u) (tu_cfg u) true)). simpl in Hc.
      rewrite lookup_alter_eq, Hu in Hc. by specialize (Hc eq_refl).
    + apply Hc. simpl. by rewrite lookup_alter_ne.
  - intros x. simpl. rewrite !lookup_alter_is_Some. apply (wf_parent tx Hwf).
Qed.

Lemma wf_put_tree p u t' tx :
  wf_tx tx -> p <> [] -> tx_open tx !! p = Some u -> dirtyTree u = true ->
  levels t' = levels (stored tx (tree_key (tu_prefix u))) ->
  wf_tx (put_tree (tree_key (tu_prefix u)) t' tx).
Proof.
  intros Hwf Hp Hu Hdirty Hlev. destruct (wf_open tx Hwf _ _ Hu) as [Hcan _].
  apply canonical_key in Hcan.
  assert (Hmain : tree_key (tu_prefix u) <> main_key).
  { destruct Hcan as [[? _]|[(t1 & _ & ->)|(x & _ & Hm & _)]]; [done|apply st_key_main|done]. }
  split.
  - apply Hwf.
  - intros q w Hq. destruct (wf_open tx Hwf _ _ Hq) as [? [m Hm]]. split; [done|]. simpl.
    destruct (decide (tree_key (tu_prefix u) = tree_key (tu_prefix w))) as [->|];
      [by rewrite lookup_insert_eq | by rewrite lookup_insert_ne].
  - intros t Ht. rewrite !stored_put, decide_False by done.
    destruct Hcan as [[? _]|[(t1 & -> & Hk)|(x & -> & Hm & Hst)]]; [done| |].
    + rewrite Hk. assert (t1 <> t) by (intros ->; specialize (Ht _ Hu); congruence).
      rewrite decide_False by (by intros ->%st_key_inj). by apply (wf_root tx Hwf).
    + rewrite decide_False by done. by apply (wf_root tx Hwf).
  - intros t. rewrite stored_put, decide_False by done. apply Hwf.
  - intros t. rewrite stored_put. case_decide as E; [|apply Hwf].
    rewrite Hlev, E. apply Hwf.
  - rewrite stored_put, decide_False by done. apply (wf_version tx Hwf).
  - apply (wf_parent tx Hwf).
Qed.

Lemma set_dirty_run p tx : set_dirty p tx = (with_dirty p tx, Ok tt).
Proof. done. Qed.

Lemma TU_tree_Set_run p u t key value tx :
  tx_open tx !! p = Some u -> db_trees (tx_db tx) !! tree_key (tu_prefix u) = Some t ->
  TU_tree_Set p key value tx =
  match tree_set t key value with
  | Ok t' => (put_tree (tree_key (tu_prefix u)) t' tx, Ok tt)
  | Err e => (tx, Err e)
  | Panic w => (tx, Panic w)
  end.
Proof.
  intros Hp Ht. unfold TU_tree_Set.
  rewrite (bind_run_Ok _ _ _ _ _ (node_run _ _ _ Hp)).
  rewrite (bind_run_Ok _ _ _ _ _ (node_tree_run _ _ _ Ht)).
  unfold mbind, gom_bind, lift, store_tree, modify. by destruct (tree_set t key value).
Qed.

Lemma DeepSet_singleton t key value tx :
  wf_tx tx ->
  let tx1 := with_dirty [StateTree_KindID t] (opened t tx) in
  DeepSet [] key value [StateTreeCfg t] tx =
  match tree_set (stored tx (st_key t)) key value with
  | Ok t' => (put_tree (st_key t) t' tx1, Ok tt)
  | Err e => (tx1, Err e)
  | Panic w => (tx1, Panic w)
  end.
Proof.
  intros Hwf tx1. assert (Hwf1 : wf_tx tx1) by (by apply wf_with_dirty, wf_opened).
  unfold DeepSet, DeepSubTree, TU_Set.
  unfold mbind at 1, gom_bind at 1. unfold mbind at 1, gom_bind at 1.
  rewrite SubTree_singleton by done. unfold mret, gom_ret.
  rewrite (bind_run_Ok _ _ _ _ _ (set_dirty_run _ _)). fold tx1.
  destruct (open_singleton t tx1) as (u & Hu & Hpre & Hst); [done| |].
  { simpl. rewrite lookup_alter_eq. by apply fmap_is_Some, opened_open. }
  assert (stored tx1 (st_key t) = stored tx (st_key t)) as Heq by apply stored_opened.
  rewrite Heq in Hst. rewrite (TU_tree_Set_run _ _ _ _ _ _ Hu Hst).
  by rewrite Hpre, tree_key_st.
Qed.

Lemma DeepAdd_singleton t key value tx :
  wf_tx tx ->
  let tx1 := with_dirty [StateTree_KindID t] (opened t tx) in
  DeepAdd [] key value [StateTreeCfg t] tx =
  match tree_add (stored tx (st_key t)) key value with
  | Ok t' => (put_tree (st_key t) t' tx1, Ok tt)
  | Err e => (tx1, Err e)
  | Panic w => (tx1, Panic w)
  end.
Proof.
  intros Hwf tx1. assert (Hwf1 : wf_tx tx1) by (by apply wf_with_dirty, wf_opened).
  unfold DeepAdd, DeepSubTree, TU_Add.
  unfold mbind at 1, gom_bind at 1. unfold mbind at 1, gom_bind at 1.
  rewrite SubTree_singleton by done. unfold mret, gom_ret.
  rewrite (bind_run_Ok _ _ _ _ _ (set_dirty_run _ _)). fold tx1.
  destruct (open_singleton t tx1) as (u & Hu & Hpre & Hst); [done| |].
  { simpl. rewrite lookup_alter_eq. by apply fmap_is_Some, opened_open. }
  assert (stored tx1 (st_key t) = stored tx (st_key t)) as Heq by apply stored_opened.
  rewrite Heq in Hst. rewrite (bind_run_Ok _ _ _ _ _ (node_run _ _ _ Hu)).
  rewrite (bind_run_Ok _ _ _ _ _ (node_tree_run _ _ _ Hst)).
  unfold mbind, gom_bind, lift, store_tree, modify.
  rewrite Hpre, tree_key_st. by destruct (tree_add _ key value).
Qed.

(** ** Children of the process tree *)

Lemma wf_put_child key t' tx :
  key <> main_key -> (forall t, key <> st_key t) -> wf_tx tx -> wf_tx (put_tree key t' tx).
Proof.
  intros Hm Hst Hwf. split.
  - apply Hwf.
  - intros q w Hq. destruct (wf_open tx Hwf _ _ Hq) as [? [m Ht]]. split; [done|]. simpl.
    destruct (decide (key = tree_key (tu_prefix w))) as [->|];
      [by rewrite lookup_insert_eq | by rewrite lookup_insert_ne].
  - intros t Ht. rewrite !stored_put, !decide_False by done. by apply (wf_root tx Hwf).
  - intros t. rewrite stored_put, decide_False by done. apply Hwf.
  - intros t. rewrite stored_put, decide_False by done. apply Hwf.
  - rewrite stored_put, decide_False by done. apply (wf_version tx Hwf).
  - apply (wf_parent tx Hwf).
Qed.

Lemma view_put_child key t' tx t : (forall t, key <> st_key t) -> view (put_tree key t' tx) t = view tx t.
Proof. intros Hst. unfold view. by rewrite stored_put, decide_False. Qed.

Lemma wf_add_open p u tx :
  p <> [] -> (forall t, p <> [StateTree_KindID t]) -> canonical p u ->
  is_Some (db_trees (tx_db tx) !! tree_key (tu_prefix u)) -> is_Some (tx_open tx !! [StateTree_KindID TreeProcess]) ->
  wf_tx tx -> wf_tx (on_open (<[p := u]>) tx).
Proof.
  intros Hnil Hp Hcan Hst Hpar Hwf. split.
  - simpl. rewrite lookup_insert_ne by done. apply Hwf.
  - intros q w. simpl. destruct (decide (p = q)) as [->|].
    + rewrite lookup_insert_eq. by intros [= ->].
    + rewrite lookup_insert_ne by done. apply (wf_open tx Hwf).
  - intros t Ht. apply (wf_root tx Hwf t). intros w Hw. apply Ht. simpl.
    by rewrite lookup_insert_ne.
  - intros t. apply (wf_leaf tx Hwf).
  - intros t. apply (wf_levels tx Hwf).
  - intros Hc. apply (wf_version tx Hwf). intros w Hw. apply Hc. simpl. by rewrite lookup_insert_ne.
  - intros x _. simpl. apply lookup_insert_is_Some'. by right.
Qed.

(** ** What a read may change *)

(** The handle of a child tree of a process, and where the tree is stored. *)
Definition child_path (c : StateChildTree) (pid : bytes) : list string :=
  [StateTree_KindID TreeProcess; prefix (WithKey (StateChildTreeCfg c) pid)].
Definition child_key (c : StateChildTree) (pid : bytes) : string :=
  tree_key (sub_prefix (st_prefix TreeProcess) (path_Join [subKeySubTree; prefix (WithKey (StateChildTreeCfg c) pid)])).

(** A child tree that is open in [tx'] and was not in [tx] is stored under [k], at the root that
    the leaf of its process has. *)
Definition child_opened (tx tx' : TreeTx) (k : string) : Prop :=
  exists c pid u leaf t,
    in_use c = true /\ child_key c pid = k /\ tx_open tx !! child_path c pid = None /\
    tx_open tx' !! child_path c pid = Some u /\ view tx TreeProcess !! pid = Some leaf /\ db_trees (tx_db tx') !! k = Some t /\
    parentLeafGetRoot (StateChildTreeCfg c) leaf = Ok (arbo_root t).

(** Trees are opened and none is written: the handles stay as they are, new ones are not dirty,
    and a stored tree is the same unless a child tree is opened there. *)
Record opens (tx tx' : TreeTx) : Prop := {
  opens_old p u : tx_open tx !! p = Some u -> tx_open tx' !! p = Some u;
  opens_new p u : tx_open tx !! p = None -> tx_open tx' !! p = Some u -> dirtyTree u = false;
  opens_tree k t : db_trees (tx_db tx) !! k = Some t ->
    db_trees (tx_db tx') !! k = Some t \/ child_opened tx tx' k;
  opens_none k : db_trees (tx_db tx) !! k = None -> leaves (stored tx' k) = ∅ \/ child_opened tx tx' k
}.

(** From a well-formed transaction: the handles, but no content. *)
Definition reads (tx tx' : TreeTx) : Prop :=
  wf_tx tx ->
  wf_tx tx' /\ (forall t, view tx' t = view tx t) /\ db_kv (tx_db tx') = db_kv (tx_db tx) /\ opens tx tx'.

Lemma opens_refl tx : opens tx tx.
Proof.
  split; [done|congruence|by left|]. intros k Hk. left. unfold stored. rewrite Hk. apply leaves_new.
Qed.

Lemma opens_none_back tx tx' p : opens tx tx' -> tx_open tx' !! p = None -> tx_open tx !! p = None.
Proof.
  intros Ho Hp. destruct (tx_open tx !! p) as [u|] eqn:E; [|done]. apply (opens_old _ _ Ho) in E. congruence.
Qed.

Lemma child_opened_later tx1 tx2 tx3 k :
  opens tx2 tx3 -> (forall t, view tx2 t = view tx1 t) -> child_opened tx1 tx2 k -> opens tx1 tx2 -> child_opened tx1 tx3 k.
Proof.
  intros H23 Hv (c & pid & u & leaf & t & Hc & Hk & Hn & Hs & Hl & Ht & Hr) H12.
  destruct (opens_tree _ _ H23 _ _ Ht) as [Ht'|(c' & pid' & u' & leaf' & t' & Hc' & Hk' & Hn' & Hs' & Hl' & Ht' & Hr')].
  - exists c, pid, u, leaf, t. split_and!; try done. by apply (opens_old _ _ H23).
  - exists c', pid', u', leaf', t'. split_and!; try done; [by eapply opens_none_back|by rewrite <- Hv].
Qed.

Lemma child_opened_earlier tx1 tx2 tx3 k :
  opens tx1 tx2 -> (forall t, view tx2 t = view tx1 t) -> child_opened tx2 tx3 k -> child_opened tx1 tx3 k.
Proof.
  intros H12 Hv (c & pid & u & leaf & t & Hc & Hk & Hn & Hs & Hl & Ht & Hr).
  exists c, pid, u, leaf, t. split_and!; try done; [by eapply opens_none_back|by rewrite <- Hv].
Qed.

Lemma opens_trans tx1 tx2 tx3 :
  (forall t, view tx2 t = view tx1 t) -> opens tx1 tx2 -> opens tx2 tx3 -> opens tx1 tx3.
Proof.
  intros Hv H12 H23. split.
  - intros p u Hp. by apply (opens_old _ _ H23), (opens_old _ _ H12).
  - intros p u H1p H3p. destruct (tx_open tx2 !! p) as [u2|] eqn:E; [|by eapply (opens_new _ _ H23)].
    pose proof (opens_old _ _ H23 _ _ E) as E'. assert (u2 = u) as -> by congruence. by eapply (opens_new _ _ H12).
  - intros k t Hk. destruct (opens_tree _ _ H12 _ _ Hk) as [Hk2|Hc]; [|right; by eapply child_opened_later].
    destruct (opens_tree _ _ H23 _ _ Hk2) as [Hk3|Hc]; [by left|right; by eapply child_opened_earlier].
  - intros k Hk. destruct (opens_none _ _ H12 _ Hk) as [Hk2|Hc]; [|right; by eapply child_opened_later].
    destruct (db_trees (tx_db tx2) !! k) as [t|] eqn:E.
    + destruct (opens_tree _ _ H23 _ _ E) as [Hk3|Hc]; [left|right; by eapply child_opened_earlier].
      unfold stored in *. rewrite E in Hk2. by rewrite Hk3.
    + destruct (opens_none _ _ H23 _ E) as [Hk3|Hc]; [by left|right; by eapply child_opened_earlier].
Qed.

#[export] Instance reads_preorder : PreOrder reads.
Proof.
  split.
  - intros tx Hwf. split_and!; try done. apply opens_refl.
  - intros tx1 tx2 tx3 H12 H23 Hwf. destruct (H12 Hwf) as (Hwf2 & Hv12 & Hk12 & Ho12).
    destruct (H23 Hwf2) as (Hwf3 & Hv23 & Hk23 & Ho23). split_and!; [done| |congruence|by eapply opens_trans].
    intros t. by rewrite Hv23.
Qed.

Lemma opens_opened t tx : opens tx (opened t tx).
Proof.
  unfold opened. destruct (tx_open tx !! [StateTree_KindID t]) as [u0|] eqn:E; [apply opens_refl|]. split; simpl.
  - intros p u Hp. rewrite lookup_insert_ne; [done|congruence].
  - intros p u Hp. destruct (decide (p = [StateTree_KindID t])) as [->|]; [|by rewrite lookup_insert_ne, Hp by done].
    rewrite lookup_insert_eq. by intros [= <-].
  - intros k t' Hk. left. destruct (decide (st_key t = k)) as [->|]; [|by rewrite lookup_insert_ne].
    rewrite lookup_insert_eq. unfold stored. by rewrite Hk.
  - intros k Hk. left. rewrite stored_insert_same. unfold stored. rewrite Hk. apply leaves_new.
Qed.

Lemma reads_SubTree_singleton t : keeps reads (SubTree [] (StateTreeCfg t)).
Proof.
  intros tx Hwf. rewrite SubTree_singleton by done. simpl.
  split_and!; [by apply wf_opened | intros; apply view_opened | apply kv_opened | apply opens_opened].
Qed.

Lemma reads_TU_Get p key : keeps reads (TU_Get p key).
Proof. intros tx. rewrite TU_Get_keeps_tx. reflexivity. Qed.

Lemma with_trees_twice k a b d :
  with_trees (<[k := b]>) (with_trees (<[k := a]>) d) = with_trees (<[k := b]>) d.
Proof. unfold with_trees. simpl. by rewrite insert_insert_eq. Qed.

(** The trees and handles after a child tree was opened at [root], or could not be. *)
Lemma opens_child c pid u leaf t1 tx :
  in_use c = true -> tx_open tx !! child_path c pid = None -> dirtyTree u = false -> view tx TreeProcess !! pid = Some leaf ->
  parentLeafGetRoot (StateChildTreeCfg c) leaf = Ok (arbo_root t1) ->
  opens tx (on_open (<[child_path c pid := u]>) (put_tree (child_key c pid) t1 tx)).
Proof.
  intros Huse Hn Hd Hl Hr.
  assert (Hc : child_opened tx (on_open (<[child_path c pid := u]>) (put_tree (child_key c pid) t1 tx)) (child_key c pid)).
  { exists c, pid, u, leaf, t1. simpl. rewrite !lookup_insert_eq. by split_and!. }
  split; simpl.
  - intros p v Hp. rewrite lookup_insert_ne; [done|congruence].
  - intros p v Hp. destruct (decide (child_path c pid = p)) as [<-|]; [|by rewrite lookup_insert_ne, Hp by done].
    rewrite lookup_insert_eq. by intros [= <-].
  - intros k t Hk. destruct (decide (child_key c pid = k)) as [<-|]; [by right|left]. by rewrite lookup_insert_ne.
  - intros k Hk. destruct (decide (child_key c pid = k)) as [<-|]; [by right|left]. unfold stored. simpl.
    rewrite lookup_insert_ne, Hk by done. apply leaves_new.
Qed.

Lemma opens_created h l k tx :
  opens tx (put_tree k (default (arbo_new h l) (db_trees (tx_db tx) !! k)) tx).
Proof.
  split; simpl; [done|congruence| |].
  - intros k' t Hk. left. destruct (decide (k = k')) as [->|]; [|by rewrite lookup_insert_ne].
    by rewrite lookup_insert_eq, Hk.
  - intros k' Hk. left. unfold stored. simpl. destruct (decide (k = k')) as [->|].
    + rewrite lookup_insert_eq, Hk. apply leaves_new.
    + rewrite lookup_insert_ne, Hk by done. apply leaves_new.
Qed.

Lemma reads_open_child c pid u leaf root tx :
  let cfg := WithKey (StateChildTreeCfg c) pid in
  let p := sub_prefix (st_prefix TreeProcess) (path_Join [subKeySubTree; prefix cfg]) in
  in_use c = true -> tu_prefix u = p -> tu_cfg u = cfg -> dirtyTree u = false ->
  tx_open tx !! child_path c pid = None -> is_Some (tx_open tx !! [StateTree_KindID TreeProcess]) ->
  view tx TreeProcess !! pid = Some leaf -> parentLeafGetRoot (StateChildTreeCfg c) leaf = Ok root ->
  reads tx ((zoom tx_db (fun d => on_db (fun _ => d)) (open_at (tree_key p) (tree_cfg cfg) root);;
             modify (on_open (<[[StateTree_KindID TreeProcess; prefix cfg] := u]>))) tx).1.
Proof.
  intros cfg p Huse Hu Hc Hd Hn Hpar Hl Hr Hwf.
  assert (Hm : tree_key p <> main_key) by apply child_key_not_main.
  assert (Hst : forall t, tree_key p <> st_key t) by (intros t; apply child_key_not_st).
  unfold open_at. go_run. set (t0 := default _ _).
  assert (Hopen : forall t', wf_tx (put_tree (tree_key p) t' tx) ->
    wf_tx (on_open (<[[StateTree_KindID TreeProcess; prefix cfg] := u]>)
             (put_tree (tree_key p) t' tx))).
  { intros t' Hwf'. apply wf_add_open; [done | done | by econstructor | | done | done].
    rewrite Hu. simpl. by rewrite lookup_insert_eq. }
  assert (Hput : forall t', wf_tx (put_tree (tree_key p) t' tx)) by (intros; by apply wf_put_child).
  assert (Hview : forall t' t, view (put_tree (tree_key p) t' tx) t = view tx t)
    by (intros; by apply view_put_child).
  case_bool_decide as E; [|destruct (arbo_set_root t0 root) as [e|t1] eqn:E1].
  - split_and!; [apply (Hopen t0), Hput | apply (Hview t0) | done |].
    apply (opens_child c pid u leaf t0 tx); [done..|]. by rewrite Hr, E.
  - split_and!; [apply (Hput t0) | apply (Hview t0) | done |]. apply (opens_created _ _ (tree_key p) tx).
  - rewrite with_trees_twice. apply set_root_ok in E1 as [E1 _].
    split_and!; [apply (Hopen t1), Hput | apply (Hview t1) | done |].
    apply (opens_child c pid u leaf t1 tx); [done..|]. by rewrite Hr, E1.
Qed.

Lemma node_Ok p tx tx' u : node p tx = (tx', Ok u) <-> tx' = tx /\ tx_open tx !! p = Some u.
Proof.
  unfold node. go_run. destruct (tx_open tx !! p).
  - split; [by intros [= <- <-] | by intros [-> [= ->]]].
  - split; [done | by intros [_ ?]].
Qed.

Lemma node_tree_Ok u tx tx' t :
  node_tree u tx = (tx', Ok t) <-> tx' = tx /\ db_trees (tx_db tx) !! tree_key (tu_prefix u) = Some t.
Proof.
  unfold node_tree. go_run. destruct (db_trees (tx_db tx) !! _).
  - split; [by intros [= <- <-] | by intros [-> [= ->]]].
  - split; [done | by intros [_ ?]].
Qed.

(** A leaf of an open singleton tree. *)
Lemma TU_Get_singleton t key leaf tx tx' :
  wf_tx tx -> TU_Get [StateTree_KindID t] key tx = (tx', Ok leaf) -> view tx t !! key = Some leaf.
Proof.
  intros Hwf Hget. unfold TU_Get in Hget. apply bind_Ok in Hget as (u & tx1 & [-> Hu]%node_Ok & Hget).
  apply bind_Ok in Hget as (a & tx2 & [-> Ha]%node_tree_Ok & [_ Hget]%lift_Ok).
  destruct (wf_open tx Hwf _ _ Hu) as [Hcan _]. apply canonical_st_inv in Hcan. rewrite Hcan, tree_key_st in Ha.
  unfold view, stored. rewrite Ha. simpl. destruct (leaves a !! key) as [v|] eqn:E.
  - rewrite (get_found _ _ _ E) in Hget. by injection Hget as ->.
  - destruct (get_error _ _ E) as [e He]. by rewrite He in Hget.
Qed.

Lemma reads_SubTree_child c pid :
  in_use c = true ->
  keeps reads (SubTree [StateTree_KindID TreeProcess] (WithKey (StateChildTreeCfg c) pid)).
Proof.
  intros Huse tx. unfold SubTree. set (cfg := WithKey _ pid). set (q := _ ++ _).
  apply kept_bind; [apply _|by apply keeps_gets, _|].
  intros open tx1 [-> ->]%gets_Ok. destruct (tx_open tx !! q) eqn:Hq; [by apply keeps_ret, _|].
  apply kept_bind; [apply _|apply reads_TU_Get|].
  intros leaf tx1 Hget. assert (tx1 = tx) as ->.
  { by rewrite <- (TU_Get_keeps_tx [StateTree_KindID TreeProcess] (parentLeafKey cfg) tx), Hget. }
  apply kept_bind; [apply _|by apply keeps_lift, _|]. intros root tx1 [-> Hroot]%lift_Ok.
  unfold node. unfold mbind at 1, gom_bind at 1. go_run.
  destruct (tx_open tx !! [_]) as [u|] eqn:Hu; [|by apply (reflexivity (R:=reads))].
  intros Hwf. destruct (wf_open tx Hwf _ _ Hu) as [Hcan _]. apply canonical_st_inv in Hcan.
  unfold sub_path. rewrite Hcan.
  pose proof (reads_open_child c pid (mkTreeUpdate (sub_prefix (st_prefix TreeProcess)
    (path_Join [subKeySubTree; prefix cfg])) cfg false) leaf root tx Huse eq_refl eq_refl eq_refl Hq (ex_intro _ u Hu)
    (TU_Get_singleton _ _ _ _ _ Hwf Hget) Hroot Hwf) as Hr.
  revert Hr. fold cfg. go_run. by destruct (open_at _ _ _ _) as [d [?|?|?]].
Qed.

Lemma SubTree_path p cfg tx tx' q : SubTree p cfg tx = (tx', Ok q) -> q = p ++ [prefix cfg].
Proof.
  unfold SubTree. intros Hrun. go_inv. case_match; go_inv; done.
Qed.

(** The paths the state opens: a singleton tree, or a child of the process tree. *)
Inductive state_cfgs : list TreeConfig -> Prop :=
| cfgs_st t : state_cfgs [StateTreeCfg t]
| cfgs_child c pid : in_use c = true -> state_cfgs [StateTreeCfg TreeProcess; WithKey (StateChildTreeCfg c) pid].

Lemma reads_DeepSubTree cfgs : state_cfgs cfgs -> keeps reads (DeepSubTree [] cfgs).
Proof.
  intros [t|c pid Huse]; simpl.
  - keeps_auto. apply reads_SubTree_singleton.
  - intros tx. apply kept_bind; [apply _|apply reads_SubTree_singleton|].
    intros q tx1 ->%SubTree_path. revert tx1. simpl.
    change (keeps reads (SubTree [StateTree_KindID TreeProcess] (WithKey (StateChildTreeCfg c) pid)
                         ≫= fun q => mret q)).
    keeps_auto. by apply reads_SubTree_child.
Qed.

Lemma DeepSubTree_path cfgs tx tx' q :
  state_cfgs cfgs -> DeepSubTree [] cfgs tx = (tx', Ok q) -> q = prefix <$> cfgs.
Proof.
  intros [t|c pid Huse] Hrun; simpl in Hrun; go_inv.
  - by apply SubTree_path in Hrun0.
  - apply SubTree_path in Hrun0 as ->. by apply SubTree_path in Hrun1.
Qed.

Lemma reads_DeepGet key cfgs : state_cfgs cfgs -> keeps reads (DeepGet [] key cfgs).
Proof.
  intros Hc. unfold DeepGet. keeps_auto; [by apply reads_DeepSubTree | apply reads_TU_Get].
Qed.

Lemma reads_node p : keeps reads (node p).
Proof. unfold node. keeps_auto. Qed.

Lemma reads_node_tree u : keeps reads (node_tree u).
Proof. unfold node_tree. keeps_auto. Qed.

Lemma reads_TU_Root p : keeps reads (TU_Root p).
Proof. unfold TU_Root. keeps_auto; [apply reads_node | apply reads_node_tree]. Qed.

Lemma reads_TU_Iterate {A} p (f : A -> bytes -> bytes -> A * bool) a : keeps reads (TU_Iterate p f a).
Proof. unfold TU_Iterate. keeps_auto; [apply reads_node | apply reads_node_tree]. Qed.

Lemma reads_TU_NoState_Get p key : keeps reads (TU_NoState_Get p key).
Proof. unfold TU_NoState_Get. keeps_auto. apply reads_node. Qed.

(** ** Invariance of [wf_tx] under writes *)

Definition preserves (tx tx' : TreeTx) : Prop := wf_tx tx -> wf_tx tx'.

#[export] Instance preserves_preorder : PreOrder preserves.
Proof. split; [intros tx Hwf; exact Hwf | intros tx1 tx2 tx3 H12 H23 Hwf; exact (H23 (H12 Hwf))]. Qed.

Lemma reads_preserves {A} (m : GoM TreeTx A) : keeps reads m -> keeps preserves m.
Proof. apply keeps_impl. intros tx tx' Hr Hwf. by apply Hr. Qed.

Lemma preserves_store_tree p u t t' tx :
  p <> [] -> tx_open tx !! p = Some u -> dirtyTree u = true ->
  db_trees (tx_db tx) !! tree_key (tu_prefix u) = Some t -> levels t' = levels t ->
  preserves tx (store_tree u t' tx).1.
Proof.
  intros Hp Hu Hd Ht Hlev Hwf. apply (wf_put_tree p); [done..|].
  unfold stored. by rewrite Ht.
Qed.

Lemma preserves_set_dirty p : keeps preserves (set_dirty p).
Proof. intros tx Hwf. by apply wf_with_dirty. Qed.

Lemma with_dirty_dirty p tx u : tx_open (with_dirty p tx) !! p = Some u -> dirtyTree u = true.
Proof. simpl. rewrite lookup_alter_eq. destruct (tx_open tx !! p); simpl; [by intros [= <-] | done]. Qed.

Lemma preserves_TU_Set p key value : p <> [] -> keeps preserves (TU_Set p key value).
Proof.
  intros Hp tx. unfold TU_Set, TU_tree_Set.
  apply kept_bind; [apply _|apply preserves_set_dirty|]. intros [] tx1 ->%modify_Ok.
  apply kept_bind; [apply _|by apply reads_preserves, reads_node|]. intros u tx2 [-> Hu]%node_Ok.
  apply kept_bind; [apply _|by apply reads_preserves, reads_node_tree|]. intros t tx2 [-> Ht]%node_tree_Ok.
  apply kept_bind; [apply _|by apply keeps_lift, _|]. intros t' tx2 [-> Hset]%lift_Ok.
  apply tree_set_leaves in Hset as [_ Hlev].
  eapply preserves_store_tree; eauto using with_dirty_dirty.
Qed.

Lemma preserves_TU_Add p key value : p <> [] -> keeps preserves (TU_Add p key value).
Proof.
  intros Hp tx. unfold TU_Add.
  apply kept_bind; [apply _|apply preserves_set_dirty|]. intros [] tx1 ->%modify_Ok.
  apply kept_bind; [apply _|by apply reads_preserves, reads_node|]. intros u tx2 [-> Hu]%node_Ok.
  apply kept_bind; [apply _|by apply reads_preserves, reads_node_tree|]. intros t tx2 [-> Ht]%node_tree_Ok.
  apply kept_bind; [apply _|by apply keeps_lift, _|]. intros t' tx2 [-> Hadd]%lift_Ok.
  apply tree_add_leaves in Hadd as (_ & _ & Hlev).
  eapply preserves_store_tree; eauto using with_dirty_dirty.
Qed.

Lemma state_cfgs_path cfgs : state_cfgs cfgs -> prefix <$> cfgs <> [].
Proof. by intros [t|c pid Huse]. Qed.

Lemma preserves_DeepSet key value cfgs : state_cfgs cfgs -> keeps preserves (DeepSet [] key value cfgs).
Proof.
  intros Hc tx. unfold DeepSet.
  apply kept_bind; [apply _|by apply reads_preserves, reads_DeepSubTree|].
  intros q tx1 ->%DeepSubTree_path; [|done]. by apply preserves_TU_Set, state_cfgs_path.
Qed.

Lemma preserves_DeepAdd key value cfgs : state_cfgs cfgs -> keeps preserves (DeepAdd [] key value cfgs).
Proof.
  intros Hc tx. unfold DeepAdd.
  apply kept_bind; [apply _|by apply reads_preserves, reads_DeepSubTree|].
  intros q tx1 ->%DeepSubTree_path; [|done]. by apply preserves_TU_Add, state_cfgs_path.
Qed.

Lemma preserves_TU_NoState_Set p key value : keeps preserves (TU_NoState_Set p key value).
Proof.
  unfold TU_NoState_Set. intros tx.
  apply kept_bind; [apply _|by apply reads_preserves, reads_node|]. intros u tx1 [-> Hu]%node_Ok.
  intros Hwf. destruct (wf_open tx Hwf _ _ Hu) as [Hcan _]. split; try apply Hwf.
  intros Hc. pose proof (wf_version tx Hwf Hc) as Hroot.
  unfold getRoot, getVersion, getVersionRoot in *. simpl.
  rewrite lookup_insert_ne by (by eapply nostate_not_version).
  destruct (match _ with None => _ | Some _ => _ end); simpl in *; try done.
  rewrite lookup_insert_ne by (by eapply nostate_not_version). exact Hroot.
Qed.

End facts.

(** ** Databases between transactions *)

Section databases.
Context `{ArboLaws, Proto}.

(** The main tree is stored at the root of the last version, with the root of every
    singleton tree in its leaf. *)
Record good_db (d : DB) : Prop := {
  good_main : exists m, db_trees d !! main_key = Some m /\ getRoot d = Ok (arbo_root m) /\
    forall t, leaves m !! StateTree_KindID t =
      Some (arbo_root (default (arbo_new HashSha256 256) (db_trees d !! st_key t)));
  good_levels t : levels (default (arbo_new HashSha256 256) (db_trees d !! st_key t)) = 256;
}.

(** A transaction can be opened on it, is well formed and sees its contents. *)
Lemma BeginTx_good d :
  good_db d -> exists tx, BeginTx d = Ok tx /\ wf_tx tx /\
    (forall k, db_trees (tx_db tx) !! k = db_trees d !! k) /\ db_kv (tx_db tx) = db_kv d.
Proof.
  intros [(m & Hm & Hroot & Hleaf) Hlev].
  assert (Hins : forall k, <[main_key := m]> (db_trees d) !! k = db_trees d !! k).
  { intros k. by rewrite insert_id. }
  eexists. split; [|split].
  - unfold BeginTx. rewrite Hroot. change (tree_key "") with main_key. cbn [mbind outcome_bind].
    rewrite open_at_same by (by rewrite Hm). done.
  - rewrite Hm. simpl. split; simpl.
    + by rewrite lookup_singleton_eq.
    + intros p u [<- <-]%lookup_singleton_Some. split; [by constructor|]. simpl.
      change (tree_key "") with main_key. by rewrite lookup_insert_eq.
    + intros t _. unfold stored. simpl. rewrite lookup_insert_eq. simpl. rewrite Hins. apply Hleaf.
    + intros t. unfold stored. simpl. rewrite lookup_insert_eq. simpl. rewrite Hleaf.
      eexists. split; [done|]. apply root_length.
    + intros t. unfold stored. simpl. rewrite Hins. apply Hlev.
    + intros _. unfold stored. simpl. rewrite lookup_insert_eq. exact Hroot.
    + intros x [u Hu]. by apply lookup_singleton_Some in Hu as [? _].
  - rewrite Hm. simpl. auto.
Qed.
End databases.

(** ** The state *)

Section state_facts.
Context `{ArboLaws, Lru, Proto}.

Definition wf (s : State) : Prop := wf_tx (STx s).
(** The leaves of a main tree.  The child trees of the processes are in the stored trees, under
    [child_key]. *)
Definition sview (s : State) (t : StateTree) : gmap bytes bytes := view (STx s) t.
Definition kv (s : State) : gmap string bytes := db_kv (tx_db (STx s)).

(** Everything but the transaction is the same. *)
Definition only_tx (s s' : State) : Prop := s' = set_STx (STx s') s.

(** From a well-formed state: only the handles of the transaction may change. *)
Definition sreads (s s' : State) : Prop := only_tx s s' /\ reads (STx s) (STx s').

(** The committed part of the state and the block are the same. *)
Definition same_block (s s' : State) : Prop :=
  Store s' = Store s /\ mainTreeView s' = mainTreeView s /\ currentHeight s' = currentHeight s /\
  chainID s' = chainID s.

Definition spreserves (s s' : State) : Prop := same_block s s' /\ (wf s -> wf s').

#[export] Instance only_tx_preorder : PreOrder only_tx.
Proof.
  unfold only_tx. split.
  - by intros [].
  - intros s1 s2 s3 H12 H23. rewrite H23, H12. done.
Qed.

#[export] Instance sreads_preorder : PreOrder sreads.
Proof.
  split.
  - intros s. split; reflexivity.
  - intros s1 s2 s3 [H12 R12] [H23 R23]. split; etrans; eauto.
Qed.

#[export] Instance same_block_preorder : PreOrder same_block.
Proof. unfold same_block. split; [done|]. intros s1 s2 s3. naive_solver congruence. Qed.

#[export] Instance spreserves_preorder : PreOrder spreserves.
Proof.
  split; [by intros s|]. intros s1 s2 s3 [B12 H12] [B23 H23]. split; [by etrans|auto].
Qed.

Lemma only_tx_same_block s s' : only_tx s s' -> same_block s s'.
Proof. by intros ->. Qed.

(** What a read gives: the same contents in a well-formed state. *)
Lemma sreads_use s s' : sreads s s' -> wf s ->
  wf s' /\ only_tx s s' /\ (forall t, sview s' t = sview s t) /\ kv s' = kv s.
Proof. intros [Ho Hr] Hwf. destruct (Hr Hwf) as (? & ? & ? & _). auto. Qed.

Lemma sreads_opens s s' : sreads s s' -> wf s -> opens (STx s) (STx s').
Proof. intros [_ Hr] Hwf. by destruct (Hr Hwf) as (_ & _ & _ & Ho). Qed.

Lemma sreads_on_Tx {A} (m : GoM TreeTx A) : keeps reads m -> keeps sreads (on_Tx m).
Proof.
  intros Hm s. specialize (Hm (STx s)). unfold on_Tx, zoom. destruct (m (STx s)) as [tx r].
  by split.
Qed.

Lemma spreserves_on_Tx {A} (m : GoM TreeTx A) : keeps preserves m -> keeps spreserves (on_Tx m).
Proof.
  intros Hm s. specialize (Hm (STx s)). unfold on_Tx, zoom. by destruct (m (STx s)) as [tx r].
Qed.

Lemma only_tx_on_Tx {A} (m : GoM TreeTx A) : keeps only_tx (on_Tx m).
Proof. intros s. unfold on_Tx, zoom. by destruct (m (STx s)) as [tx r]. Qed.

Lemma sreads_spreserves {A} (m : GoM State A) : keeps sreads m -> keeps spreserves m.
Proof.
  apply keeps_impl. intros s s' Hr. split; [by apply only_tx_same_block, Hr|].
  intros Hwf. by apply (sreads_use s s').
Qed.

Lemma on_Tx_run {A} (m : GoM TreeTx A) s tx r :
  m (STx s) = (tx, r) -> on_Tx m s = (set_STx tx s, r).
Proof. intros Hm. unfold on_Tx, zoom. by rewrite Hm. Qed.

Lemma set_STx_twice tx tx' s : set_STx tx (set_STx tx' s) = set_STx tx s.
Proof. done. Qed.

Lemma on_Tx_bind {A B} (m : GoM TreeTx A) (k : A -> GoM TreeTx B) s :
  on_Tx (m ≫= k) s = (on_Tx m ≫= fun a => on_Tx (k a)) s.
Proof.
  unfold on_Tx, zoom, mbind, gom_bind. destruct (m (STx s)) as [tx [a|e|w]]; [|done|done]. simpl.
  by destruct (k a tx).
Qed.

Lemma on_Tx_catch {A} (m : GoM TreeTx A) s : on_Tx (catch m) s = catch (on_Tx m) s.
Proof. unfold on_Tx, zoom, catch. by destruct (m (STx s)) as [tx [a|e|w]]. Qed.

Lemma wf_SetHeight h s : wf s -> wf (SetHeight h s).
Proof. intros Hwf. exact Hwf. Qed.

(** A state created on a good database is well formed. *)
Lemma NewState_wf d c s : NewState d c = Ok s -> good_db (Store s) -> wf s.
Proof.
  unfold NewState. intros Hrun. go_inv. simpl. intros Hgood. unfold wf. simpl.
  destruct (BeginTx_good _ Hgood) as (tx & Htx & Hwf & _). congruence.
Qed.

(** ** Reading a leaf *)

Lemma wf_read t s : wf s -> sreads s (set_STx (opened t (STx s)) s).
Proof.
  intros Hwf. split; [done|]. intros _. simpl.
  split_and!; [by apply wf_opened | intros; apply view_opened | apply kv_opened | apply opens_opened].
Qed.

(** The outcome of [Get] on a singleton tree: the leaf, or an error. *)
Definition leaf_result (s : State) (t : StateTree) (key : bytes) : outcome bytes :=
  of_sum (arbo_get (stored (STx s) (st_key t)) key).

Lemma leaf_result_Some s t key v : sview s t !! key = Some v -> leaf_result s t key = Ok v.
Proof. intros Hv. unfold leaf_result. by rewrite (get_found _ _ _ Hv). Qed.

Lemma leaf_result_None s t key :
  wf s -> sview s t !! key = None -> 8 * blen key <= 256 ->
  leaf_result s t key = Err arbo_ErrKeyNotFound.
Proof.
  intros Hwf Hv Hlen. unfold leaf_result. by rewrite get_missing by (try rewrite (wf_levels _ Hwf); done).
Qed.

Lemma leaf_result_Ok s t key v : leaf_result s t key = Ok v -> sview s t !! key = Some v.
Proof.
  unfold leaf_result, sview, view. intros Hg%of_sum_Ok.
  destruct (leaves _ !! key) as [v'|] eqn:E.
  - rewrite (get_found _ _ _ E) in Hg. congruence.
  - apply get_error in E as [e He]. congruence.
Qed.

Lemma leaf_result_no_panic s t key w : leaf_result s t key <> Panic w.
Proof. apply of_sum_not_panic. Qed.

(** [v.mainTreeViewer(false).DeepGet(key, StateTreeCfg(t))]. *)
Lemma V_DeepGet_run t key s :
  wf s -> exists s', V_DeepGet (UpdateView []) key [StateTreeCfg t] s = (s', leaf_result s t key) /\
    sreads s s'.
Proof.
  intros Hwf. eexists. split; [by apply on_Tx_run, DeepGet_singleton | by apply wf_read].
Qed.

(** [v.mainTreeViewer(false).SubTree(StateTreeCfg(t))], then operations on the result. *)
Definition is_open (s : State) (t : StateTree) : Prop :=
  is_Some (tx_open (STx s) !! [StateTree_KindID t]).

Lemma V_SubTree_run t s :
  wf s -> exists s', V_SubTree (UpdateView []) (StateTreeCfg t) s =
    (s', Ok (UpdateView [StateTree_KindID t])) /\ sreads s s' /\ is_open s' t.
Proof.
  intros Hwf. exists (set_STx (opened t (STx s)) s).
  split_and!; [|by apply wf_read|apply opened_open].
  unfold V_SubTree. by rewrite (bind_run_Ok _ _ _ _ _ (on_Tx_run _ _ _ _ (SubTree_singleton t _ Hwf))).
Qed.

Lemma V_Get_run t key s :
  wf s -> is_open s t -> V_Get (UpdateView [StateTree_KindID t]) key s = (s, leaf_result s t key).
Proof.
  intros Hwf Ho. destruct (open_singleton t (STx s) Hwf Ho) as (u & Hu & _ & Hst).
  unfold V_Get. rewrite (on_Tx_run _ _ _ _ (TU_Get_run _ _ _ _ _ Hu Hst)). by destruct s.
Qed.

Lemma V_Iterate_run {A} t (f : A -> bytes -> bytes -> A * bool) a s :
  wf s -> is_open s t ->
  V_Iterate (UpdateView [StateTree_KindID t]) f a s =
  (s, Ok (arbo_iter (stored (STx s) (st_key t)) f a)).
Proof.
  intros Hwf Ho. destruct (open_singleton t (STx s) Hwf Ho) as (u & Hu & _ & Hst).
  unfold V_Iterate, TU_Iterate, on_Tx, zoom.
  rewrite (bind_run_Ok _ _ _ _ _ (node_run _ _ _ Hu)).
  rewrite (bind_run_Ok _ _ _ _ _ (node_tree_run _ _ _ Hst)). by destruct s.
Qed.

(** The stored tree, not only its content, is what a read leaves alone. *)
Lemma V_SubTree_stored t s s' v :
  wf s -> V_SubTree (UpdateView []) (StateTreeCfg t) s = (s', Ok v) ->
  v = UpdateView [StateTree_KindID t] /\ sreads s s' /\ is_open s' t /\
  forall k, stored (STx s') k = stored (STx s) k.
Proof.
  intros Hwf. unfold V_SubTree.
  rewrite (bind_run_Ok _ _ _ _ _ (on_Tx_run _ _ _ _ (SubTree_singleton t _ Hwf))).
  intros [= <- <-]. split_and!; [done|by apply wf_read|apply opened_open|]. simpl. apply stored_opened.
Qed.

Lemma read_leaf_Ok t key s s1 s2 v b :
  wf s -> V_SubTree (UpdateView []) (StateTreeCfg t) s = (s1, Ok v) -> V_Get v key s1 = (s2, Ok b) ->
  sreads s s2 /\ sview s t !! key = Some b.
Proof.
  intros Hwf Hsub Hget. apply V_SubTree_stored in Hsub as (-> & Hr & Ho & _); [|done].
  destruct (sreads_use _ _ Hr Hwf) as (Hwf1 & _ & Hv & _).
  rewrite V_Get_run in Hget by done. injection Hget as <- Hleaf.
  apply leaf_result_Ok in Hleaf. by rewrite Hv in Hleaf.
Qed.

(** ** Writing a leaf *)

(** The contents after [DeepSet] on a singleton tree. *)
Record wrote (t : StateTree) (key value : bytes) (s s' : State) : Prop := {
  wrote_wf : wf s';
  wrote_only_tx : only_tx s s';
  wrote_view : sview s' t = <[key := value]> (sview s t);
  wrote_other t' : t' <> t -> sview s' t' = sview s t';
  wrote_kv : kv s' = kv s;
}.

Lemma put_wrote t key value t' s :
  wf s -> leaves t' = <[key := value]> (sview s t) -> levels t' = levels (stored (STx s) (st_key t)) ->
  wrote t key value s
    (set_STx (put_tree (st_key t) t' (with_dirty [StateTree_KindID t] (opened t (STx s)))) s).
Proof.
  intros Hwf Hleaves Hlev.
  assert (Hkv : db_kv (tx_db (opened t (STx s))) = db_kv (tx_db (STx s))) by apply kv_opened.
  split; [|done| | |exact Hkv].
  - unfold wf. simpl. set (tx1 := with_dirty _ _).
    assert (Hwf1 : wf_tx tx1) by (by apply wf_with_dirty, wf_opened).
    destruct (open_singleton t tx1) as (u & Hu & Hpre & _); [done| |].
    { simpl. by apply lookup_alter_is_Some, opened_open. }
    rewrite <- tree_key_st, <- Hpre. apply (wf_put_tree [StateTree_KindID t]); [done..|by eapply with_dirty_dirty|].
    rewrite Hpre, tree_key_st, Hlev. by rewrite <- (stored_opened t (STx s) (st_key t)).
  - unfold sview, view. simpl. rewrite stored_put, decide_True by done. exact Hleaves.
  - intros t0 Hne. unfold sview, view. simpl. rewrite stored_put, decide_False by (by intros ?%st_key_inj).
    f_equal. apply stored_opened.
Qed.

Lemma DeepSet_Ok t key value s s' :
  wf s -> on_Tx (DeepSet [] key value [StateTreeCfg t]) s = (s', Ok tt) -> wrote t key value s s'.
Proof.
  intros Hwf Hrun. unfold on_Tx in Hrun. apply zoom_run in Hrun as (tx' & Hrun & ->).
  rewrite DeepSet_singleton in Hrun by done.
  destruct (tree_set _ key value) as [t'|e|w] eqn:Hset; simplify_eq.
  apply tree_set_leaves in Hset as [Hleaves Hlev]. by apply put_wrote.
Qed.

(** [DeepAdd] only adds a leaf under a new key. *)
(** A handle of an open singleton tree and [DeepSet] write the same leaf. *)
Lemma TU_Set_open t key value s :
  wf s -> is_open s t ->
  on_Tx (TU_Set [StateTree_KindID t] key value) s = on_Tx (DeepSet [] key value [StateTreeCfg t]) s.
Proof.
  intros Hwf [u Hu]. unfold on_Tx, zoom, DeepSet, DeepSubTree. unfold mbind at 1 2, gom_bind at 1 2.
  rewrite SubTree_singleton by done. unfold opened. by rewrite Hu.
Qed.

Lemma DeepAdd_Ok t key value s s' :
  wf s -> on_Tx (DeepAdd [] key value [StateTreeCfg t]) s = (s', Ok tt) ->
  wrote t key value s s' /\ sview s t !! key = None.
Proof.
  intros Hwf Hrun. unfold on_Tx in Hrun. apply zoom_run in Hrun as (tx' & Hrun & ->).
  rewrite DeepAdd_singleton in Hrun by done.
  destruct (tree_add _ key value) as [t'|e|w] eqn:Hadd; simplify_eq.
  apply tree_add_leaves in Hadd as (Hnew & Hleaves & Hlev). split; [by apply put_wrote|done].
Qed.

(** A second [DeepAdd] of a key fails. *)
Lemma DeepAdd_duplicate t key value s :
  wf s -> is_Some (sview s t !! key) ->
  exists s' e, on_Tx (DeepAdd [] key value [StateTreeCfg t]) s = (s', Err e).
Proof.
  intros Hwf [v Hk]. destruct (tree_add_duplicate (stored (STx s) (st_key t)) key value v Hk) as [e He].
  do 2 eexists. apply on_Tx_run. rewrite DeepAdd_singleton by done. by rewrite He.
Qed.

(** Replacing a leaf by a value that fits does succeed. *)
Lemma DeepSet_present t key value s :
  wf s -> is_Some (sview s t !! key) -> blen value <= 65535 ->
  exists s', on_Tx (DeepSet [] key value [StateTreeCfg t]) s = (s', Ok tt).
Proof.
  intros Hwf Hk Hlen. destruct (update_present (stored (STx s) (st_key t)) key value) as [t' Ht'];
    [done..|].
  eexists. apply on_Tx_run. rewrite DeepSet_singleton by done. unfold tree_set. by rewrite Ht'.
Qed.

(** A failed write changes no content either. *)
Lemma DeepSet_Err t key value s s' e :
  wf s -> on_Tx (DeepSet [] key value [StateTreeCfg t]) s = (s', Err e) ->
  wf s' /\ only_tx s s' /\ (forall t', sview s' t' = sview s t') /\ kv s' = kv s.
Proof.
  intros Hwf Hrun. unfold on_Tx in Hrun. apply zoom_run in Hrun as (tx' & Hrun & ->).
  rewrite DeepSet_singleton in Hrun by done.
  destruct (tree_set _ key value) as [t'|e'|w] eqn:Hset; simplify_eq.
  split_and!; [by apply wf_with_dirty, wf_opened | done | | apply kv_opened].
  intros t'. apply view_opened.
Qed.

(** ** Reads through the viewers *)

Lemma keeps_main_viewer {A} (R : State -> State -> Prop) `{!PreOrder R} c (k : TreeViewer -> GoM State A) :
  keeps R (k (UpdateView [])) -> (forall v, keeps R (k (StoreView v))) -> keeps R (mainTreeViewer c ≫= k).
Proof.
  intros Hu Hs s. unfold mainTreeViewer. destruct c; go_run; [apply Hs | apply Hu].
Qed.

Lemma sreads_V_SubTree t : keeps sreads (V_SubTree (UpdateView []) (StateTreeCfg t)).
Proof. unfold V_SubTree. keeps_auto. apply sreads_on_Tx, reads_SubTree_singleton. Qed.

Lemma sreads_V_SubTree_store v cfg : keeps sreads (V_SubTree (StoreView v) cfg).
Proof. unfold V_SubTree. keeps_auto. Qed.

Lemma sreads_V_DeepSubTree cfgs : state_cfgs cfgs -> keeps sreads (V_DeepSubTree (UpdateView []) cfgs).
Proof. intros Hc. unfold V_DeepSubTree. keeps_auto. by apply sreads_on_Tx, reads_DeepSubTree. Qed.

Lemma sreads_V_DeepSubTree_store v cfgs : keeps sreads (V_DeepSubTree (StoreView v) cfgs).
Proof. unfold V_DeepSubTree. keeps_auto. Qed.

Lemma sreads_V_DeepGet key cfgs : state_cfgs cfgs -> keeps sreads (V_DeepGet (UpdateView []) key cfgs).
Proof. intros Hc. unfold V_DeepGet. by apply sreads_on_Tx, reads_DeepGet. Qed.

Lemma sreads_V_DeepGet_store v key cfgs : keeps sreads (V_DeepGet (StoreView v) key cfgs).
Proof. unfold V_DeepGet. keeps_auto. Qed.

Lemma sreads_V_Get v key : keeps sreads (V_Get v key).
Proof. unfold V_Get. keeps_auto. apply sreads_on_Tx, reads_TU_Get. Qed.

Lemma sreads_V_Iterate {A} v (f : A -> bytes -> bytes -> A * bool) a : keeps sreads (V_Iterate v f a).
Proof. unfold V_Iterate. keeps_auto. apply sreads_on_Tx, reads_TU_Iterate. Qed.

Lemma sreads_V_Root v : keeps sreads (V_Root v).
Proof. unfold V_Root. keeps_auto. apply sreads_on_Tx, reads_TU_Root. Qed.

Lemma sreads_V_NoState_Get v key : keeps sreads (V_NoState_Get v key).
Proof. unfold V_NoState_Get. keeps_auto. apply sreads_on_Tx, reads_TU_NoState_Get. Qed.
End state_facts.

#[export] Hint Constructors state_cfgs : keeps.
#[export] Hint Resolve sreads_V_SubTree sreads_V_SubTree_store sreads_V_DeepSubTree
  sreads_V_DeepSubTree_store sreads_V_DeepGet sreads_V_DeepGet_store sreads_V_Get sreads_V_Iterate
  sreads_V_Root sreads_V_NoState_Get : keeps.

(** [keeps_auto] for computations that start from a viewer of the main tree. *)
Ltac skeeps_step :=
  match goal with
  | |- keeps _ (mainTreeViewer _ ≫= _) =>
      apply keeps_main_viewer; [eauto with typeclass_instances | | intros ?]
  | |- _ => keeps_step
  end.
Ltac skeeps_auto := repeat skeeps_step.

Section state_reads.
Context `{ArboLaws, Lru, Proto, EthCrypto}.

Lemma sreads_TxCost t c : keeps sreads (TxCost t c).
Proof. unfold TxCost. skeeps_auto. Qed.

Lemma sreads_Oracles c : keeps sreads (Oracles c).
Proof. unfold Oracles. skeeps_auto. Qed.

Lemma sreads_IsOracle a : keeps sreads (IsOracle a).
Proof. unfold IsOracle. skeeps_auto. apply sreads_Oracles. Qed.

Lemma sreads_Treasurer c : keeps sreads (State_Treasurer c).
Proof. unfold State_Treasurer. skeeps_auto. Qed.

Lemma sreads_FaucetNonce k c : keeps sreads (FaucetNonce k c).
Proof. unfold FaucetNonce. skeeps_auto. Qed.

Lemma sreads_Validators c : keeps sreads (Validators c).
Proof. unfold Validators. skeeps_auto. Qed.

Lemma sreads_Envelope pid n c : keeps sreads (Envelope pid n c).
Proof. unfold Envelope, votes_cfgs. skeeps_auto. Qed.

Lemma sreads_EnvelopeExists pid n c : keeps sreads (EnvelopeExists pid n c).
Proof. unfold EnvelopeExists. skeeps_auto. apply sreads_Envelope. Qed.

Lemma sreads_VerifyTreasurer a n : keeps sreads (VerifyTreasurer a n).
Proof. unfold VerifyTreasurer. skeeps_auto. apply sreads_Treasurer. Qed.
End state_reads.

#[export] Hint Resolve sreads_TxCost sreads_Oracles sreads_IsOracle sreads_Treasurer
  sreads_FaucetNonce sreads_Validators sreads_Envelope sreads_EnvelopeExists
  sreads_VerifyTreasurer : keeps.

(** ** Every write keeps the state well formed *)

Section state_writes.
Context `{ArboLaws, Lru, Proto, EthCrypto}.

Lemma spreserves_DeepSet key value cfgs :
  state_cfgs cfgs -> keeps spreserves (on_Tx (DeepSet [] key value cfgs)).
Proof. intros Hc. by apply spreserves_on_Tx, preserves_DeepSet. Qed.

Lemma spreserves_notify ev : keeps spreserves (notify ev).
Proof. by intros s. Qed.

Lemma spreserves_TxCounterAdd : keeps spreserves TxCounterAdd.
Proof. by intros s. Qed.

(** [oracles, err := v.Tx.SubTree(cfg)] followed by a use of the handle. *)
Lemma spreserves_SubTree_bind {A} t (k : list string -> GoM State A) :
  (forall p, p <> [] -> keeps spreserves (k p)) ->
  keeps spreserves (on_Tx (SubTree [] (StateTreeCfg t)) ≫= k).
Proof.
  intros Hk s. apply kept_bind; [apply _| |].
  - apply spreserves_on_Tx, reads_preserves, reads_SubTree_singleton.
  - intros q s1 Hrun. unfold on_Tx in Hrun. apply zoom_run in Hrun as (tx & ->%SubTree_path & ->).
    by apply Hk.
Qed.

Lemma spreserves_TU_Get p key : keeps spreserves (on_Tx (TU_Get p key)).
Proof. apply spreserves_on_Tx, reads_preserves, reads_TU_Get. Qed.

Lemma spreserves_TU_Set p key value : p <> [] -> keeps spreserves (on_Tx (TU_Set p key value)).
Proof. intros Hp. by apply spreserves_on_Tx, preserves_TU_Set. Qed.

Lemma preserves_voteCountInc : keeps preserves voteCountInc.
Proof.
  unfold voteCountInc. keeps_auto; [apply reads_preserves, reads_TU_NoState_Get|].
  apply preserves_TU_NoState_Set.
Qed.

Lemma preserves_setProcessIDByStartBlock pid b : keeps preserves (setProcessIDByStartBlock pid b).
Proof.
  unfold setProcessIDByStartBlock. keeps_auto; [apply reads_preserves, reads_TU_NoState_Get|].
  apply preserves_TU_NoState_Set.
Qed.
End state_writes.

#[export] Hint Resolve spreserves_DeepSet spreserves_notify spreserves_TxCounterAdd spreserves_TU_Get
  spreserves_TU_Set : keeps.
#[export] Hint Extern 5 (keeps spreserves _) =>
  (apply sreads_spreserves; solve [eauto with keeps typeclass_instances]) : keeps.

Section state_writes2.
Context `{ArboLaws, Lru, Proto, EthCrypto}.

Lemma spreserves_AddOracle a : keeps spreserves (AddOracle a).
Proof. unfold AddOracle. skeeps_auto. Qed.

Lemma spreserves_RemoveOracle a : keeps spreserves (RemoveOracle a).
Proof. unfold RemoveOracle. apply spreserves_SubTree_bind. intros p Hp. skeeps_auto. Qed.

Lemma spreserves_SetTreasurer a n : keeps spreserves (SetTreasurer a n).
Proof. unfold SetTreasurer. skeeps_auto. Qed.

Lemma spreserves_IncrementTreasurerNonce : keeps spreserves IncrementTreasurerNonce.
Proof. unfold IncrementTreasurerNonce. skeeps_auto. Qed.

Lemma spreserves_SetTxCost t c : keeps spreserves (SetTxCost t c).
Proof. unfold SetTxCost. skeeps_auto. Qed.

Lemma spreserves_SetFaucetNonce k : keeps spreserves (SetFaucetNonce k).
Proof. unfold SetFaucetNonce. skeeps_auto. Qed.

Lemma spreserves_AddValidator v : keeps spreserves (AddValidator v).
Proof. unfold AddValidator. skeeps_auto. Qed.

Lemma spreserves_RemoveValidator a : keeps spreserves (RemoveValidator a).
Proof. unfold RemoveValidator. apply spreserves_SubTree_bind. intros p Hp. skeeps_auto. Qed.

Lemma spreserves_AddVote v id : keeps spreserves (AddVote v id).
Proof.
  unfold AddVote, CurrentHeight, TxCounter. skeeps_auto. apply spreserves_on_Tx. keeps_auto.
  - apply preserves_DeepAdd. by constructor.
  - apply preserves_voteCountInc.
Qed.
End state_writes2.

#[export] Hint Resolve spreserves_AddOracle spreserves_RemoveOracle spreserves_SetTreasurer
  spreserves_IncrementTreasurerNonce spreserves_SetTxCost spreserves_SetFaucetNonce
  spreserves_AddValidator spreserves_RemoveValidator spreserves_AddVote : keeps.
