(* ===== verification/CommitFacts.v ===== *)
(** * What a commit does

    [TreeTx_Commit] propagates the roots of the trees that changed to the leaves of their
    parents, from the children of the process tree up to the main tree, and records the
    root of the main tree under the new version.  From a well-formed transaction the
    result is a good database: a new transaction on it is well formed and sees the same
    contents.  For the process tree the leaves may differ in the roots of its children: the
    root of a child tree that was written to is the one its leaf gets. *)

From stdpp Require Import base option list strings gmap.
From S2P Require Import Prelude GoMonad GoLib Models External Tree StateDB StateTrees State.
From S2P Require Import StateFacts.

(** ** Roots in the leaves of the process tree *)

(** A process without the roots its leaf keeps for the children trees. *)
Definition unrooted (p : Process) : Process := with_RollingCensusRoot "" (with_NullifiersRoot "" p).

Definition same_but_roots (x x' : StateDBProcess) : Prop :=
  unrooted <$> SDB_Process x' = unrooted <$> SDB_Process x.

Section reroot.
Context `{ProtoLaws}.

(** The leaf stays, or holds the same process with other roots. *)
Definition rerooted (o o' : option bytes) : Prop :=
  o' = o \/ exists b b' x x', o = Some b /\ o' = Some b' /\ unmarshal b = Some x /\ unmarshal b' = Some x' /\
    same_but_roots x x'.

#[export] Instance rerooted_preorder : PreOrder rerooted.
Proof.
  split; [by left|]. intros o1 o2 o3 [->|(b1 & b2 & x1 & x2 & -> & -> & H1 & H2 & R12)]; [done|].
  intros [->|(b2' & b3 & x2' & x3 & Hb & -> & H2' & H3 & R23)]; right.
  - by exists b1, b2, x1, x2.
  - injection Hb as <-. exists b1, b3, x1, x3. split_and!; [done..|].
    simplify_eq. unfold same_but_roots in *. congruence.
Qed.

(** The update of the root of a child tree. *)
Definition child_update (x : update) : Prop :=
  exists c, upd_setRoot x = parentLeafSetRoot (StateChildTreeCfg c).

Lemma child_update_leaf x leaf leaf' :
  child_update x -> upd_setRoot x leaf (upd_root x) = Ok leaf' -> rerooted (Some leaf) (Some leaf').
Proof.
  intros [c ->] Hrun. destruct c; cbn in Hrun;
    unfold processSetCensusRoot, processSetPreRegisterNullifiersRoot, processSetVotesRoot,
      unmarshal_sdbProc, marshal_sdbProc, deref in Hrun;
    (destruct (unmarshal leaf) as [x0|] eqn:Hx; [|done]); cbn [mbind outcome_bind] in Hrun;
    try (destruct (SDB_Process x0) as [p|] eqn:Hp; [|done]); cbn [mbind outcome_bind] in Hrun;
    (destruct (marshal _) as [b|] eqn:Hb; [|done]); injection Hrun as <-;
    right; do 4 eexists; (split_and!; [done|done|done|by apply unmarshal_marshal|]);
    unfold same_but_roots; cbn; by rewrite ?Hp.
Qed.

(** What is set is read back, and the other roots stay. *)
Lemma set_root_same c leaf r leaf' :
  String.length r = 32%nat -> parentLeafSetRoot (StateChildTreeCfg c) leaf r = Ok leaf' ->
  parentLeafGetRoot (StateChildTreeCfg c) leaf' = Ok r.
Proof.
  intros Hr Hrun. destruct c; cbn in *;
    unfold processSetCensusRoot, processSetPreRegisterNullifiersRoot, processSetVotesRoot,
      processGetCensusRoot, processGetPreRegisterNullifiersRoot, processGetVotesRoot in *;
    apply outcome_bind_Ok in Hrun as (x & _ & Hrun);
    try (apply outcome_bind_Ok in Hrun as (p & _ & Hrun));
    rewrite (unmarshal_sdbProc_marshal _ _ Hrun); cbn; by apply known_root_Ok.
Qed.

Lemma set_root_other c c' leaf r leaf' :
  in_use c = true -> in_use c' = true -> c' <> c -> parentLeafSetRoot (StateChildTreeCfg c') leaf r = Ok leaf' ->
  parentLeafGetRoot (StateChildTreeCfg c) leaf' = parentLeafGetRoot (StateChildTreeCfg c) leaf.
Proof.
  intros Hc Hc' Hne Hrun. destruct c, c'; try done; cbn in *;
    unfold processSetCensusRoot, processSetPreRegisterNullifiersRoot, processSetVotesRoot,
      processGetCensusRoot, processGetPreRegisterNullifiersRoot, processGetVotesRoot in *;
    apply outcome_bind_Ok in Hrun as (x & Hx & Hrun); rewrite Hx;
    try (apply outcome_bind_Ok in Hrun as (p & Hp & Hrun));
    rewrite (unmarshal_sdbProc_marshal _ _ Hrun); cbn; try rewrite Hp; try done;
    destruct (SDB_Process x) as [q|]; cbn in *; by simplify_eq.
Qed.

Lemma apply_updates_rerooted us leaf leaf' :
  Forall child_update us -> apply_updates leaf us = Ok leaf' -> rerooted (Some leaf) (Some leaf').
Proof.
  intros Hus. revert leaf. induction Hus as [|x us Hx _ IH]; intros leaf Hrun; cbn in Hrun.
  - injection Hrun as <-. reflexivity.
  - apply outcome_bind_Ok in Hrun as (leaf1 & H1 & Hrun).
    etrans; [by eapply child_update_leaf|by apply IH].
Qed.
End reroot.

Section commit.
Context `{ArboLaws, ProtoLaws}.

(** ** The shape of the hierarchy *)

Definition canonical_open (tx : TreeTx) : Prop :=
  forall p u, tx_open tx !! p = Some u -> canonical p u.
Definition trees_stored (tx : TreeTx) : Prop :=
  forall p u, tx_open tx !! p = Some u -> is_Some (db_trees (tx_db tx) !! tree_key (tu_prefix u)).

Lemma wf_canonical_open tx : wf_tx tx -> canonical_open tx.
Proof. intros Hwf p u Hu. by apply (wf_open tx Hwf). Qed.

Lemma wf_trees_stored tx : wf_tx tx -> trees_stored tx.
Proof. intros Hwf p u Hu. by apply (wf_open tx Hwf p). Qed.

Lemma openSubs_spec p q u open :
  (q, u) ∈ openSubs p open <-> is_child p q = true /\ open !! q = Some u.
Proof. unfold openSubs. rewrite list_elem_of_filter, elem_of_map_to_list. done. Qed.

Lemma openSubs_NoDup p open : NoDup (openSubs p open).*1.
Proof.
  apply NoDup_fmap_fst; [|apply NoDup_filter, NoDup_map_to_list].
  intros q u u' [_ Hu]%openSubs_spec [_ Hu']%openSubs_spec. congruence.
Qed.

(** Below the main tree are the singleton trees, below the process tree its children, and
    nothing below any other tree. *)
Lemma subs_main tx q u :
  canonical_open tx -> (q, u) ∈ openSubs [] (tx_open tx) ->
  exists t, q = [StateTree_KindID t] /\ tx_open tx !! q = Some u /\ tu_cfg u = StateTreeCfg t.
Proof.
  intros Hcan [Hc Hu]%openSubs_spec. destruct (Hcan _ _ Hu) as [|t u _ Hcfg|c pid x u _ _ _]; [done| |].
  - by exists t.
  - by apply bool_decide_eq_true in Hc.
Qed.

Lemma subs_child tx t x : canonical_open tx -> openSubs [StateTree_KindID t; x] (tx_open tx) = [].
Proof.
  intros Hcan. apply elem_of_nil_inv. intros [q u] [Hc Hu]%openSubs_spec.
  by destruct (Hcan _ _ Hu); simpl in Hc; try done; apply bool_decide_eq_true in Hc.
Qed.

Lemma subs_singleton tx t q u :
  canonical_open tx -> (q, u) ∈ openSubs [StateTree_KindID t] (tx_open tx) ->
  t = TreeProcess /\ tx_open tx !! q = Some u /\ exists x, q = [StateTree_KindID TreeProcess; x].
Proof.
  intros Hcan [Hc Hu]%openSubs_spec.
  destruct (Hcan _ _ Hu) as [|t' u _ _|c pid x u _ _ _]; [done|by apply bool_decide_eq_true in Hc|].
  apply bool_decide_eq_true in Hc. injection Hc as Hk. apply (kind_inj TreeProcess) in Hk as <-. eauto.
Qed.

(** ** Changing one tree *)

(** Only the tree stored under [key] changes, with the same number of levels. *)
Record one_tree (key : string) (tx tx' : TreeTx) : Prop := {
  one_open : tx_open tx' = tx_open tx;
  one_kv : db_kv (tx_db tx') = db_kv (tx_db tx);
  one_other k : k <> key -> db_trees (tx_db tx') !! k = db_trees (tx_db tx) !! k;
  one_some : is_Some (db_trees (tx_db tx) !! key) -> is_Some (db_trees (tx_db tx') !! key);
  one_levels : levels (stored tx' key) = levels (stored tx key);
}.

#[export] Instance one_tree_preorder key : PreOrder (one_tree key).
Proof.
  split; [by split|]. intros tx1 tx2 tx3 [O12 K12 E12 S12 L12] [O23 K23 E23 S23 L23].
  split; try congruence; [|by auto]. intros k Hk. by rewrite E23, E12.
Qed.

Lemma one_tree_stored key tx tx' k : one_tree key tx tx' -> k <> key -> stored tx' k = stored tx k.
Proof. intros Ho Hk. unfold stored. by rewrite (one_other _ _ _ Ho). Qed.

Lemma one_tree_canonical key tx tx' : one_tree key tx tx' -> canonical_open tx -> canonical_open tx'.
Proof. intros Ho Hc p u. rewrite (one_open _ _ _ Ho). apply Hc. Qed.

Lemma one_tree_trees_stored key tx tx' : one_tree key tx tx' -> trees_stored tx -> trees_stored tx'.
Proof.
  intros Ho Hs p u. rewrite (one_open _ _ _ Ho). intros Hu.
  destruct (decide (tree_key (tu_prefix u) = key)) as [<-|Hne].
  - apply (one_some _ _ _ Ho), (Hs p), Hu.
  - rewrite (one_other _ _ _ Ho) by done. by apply (Hs p).
Qed.

Lemma update_leaf_Ok p u key k us tx tx' :
  tx_open tx !! p = Some u -> tree_key (tu_prefix u) = key ->
  update_leaf p (k, us) tx = (tx', Ok tt) ->
  one_tree key tx tx' /\
  exists leaf leaf', leaves (stored tx key) !! k = Some leaf /\ apply_updates leaf us = Ok leaf' /\
    leaves (stored tx' key) = <[k := leaf']> (leaves (stored tx key)).
Proof.
  intros Hu Hkey Hrun. unfold update_leaf, TU_Get, TU_tree_Set in Hrun. cbn [fst snd] in Hrun. go_inv.
  repeat match goal with
  | H : node _ _ = (_, Ok _) |- _ => apply node_Ok in H as [? H]; subst
  | H : node_tree _ _ = (_, Ok _) |- _ => apply node_tree_Ok in H as [? H]; subst
  end.
  simplify_eq.
  match goal with H : store_tree _ _ _ = _ |- _ => injection H as <- end.
  match goal with H : tree_set ?t _ _ = Ok ?t' |- _ =>
    apply tree_set_leaves in H as [Hl Hlev];
    assert (Hst : stored tx (tree_key (tu_prefix u)) = t) by (unfold stored; by simplify_option_eq);
    change (on_db _ tx) with (put_tree (tree_key (tu_prefix u)) t' tx) end.
  rewrite <- Hst in *. split.
  - split; try done; simpl.
    + intros k' Hk'. by rewrite lookup_insert_ne.
    + intros _. by rewrite lookup_insert_eq.
    + by rewrite stored_put, decide_True.
  - do 2 eexists. rewrite stored_put, decide_True by done. split_and!; [|done|exact Hl].
    destruct (leaves _ !! k) as [v|] eqn:Ek.
    + rewrite (get_found _ _ _ Ek) in *. congruence.
    + apply get_error in Ek as [e He]. congruence.
Qed.

(** The loop over the leaves to update: each key of the list gets the value of its
    updates, and no other leaf changes. *)
Lemma mfor_update_leaf p u key kus tx tx' :
  tx_open tx !! p = Some u -> tree_key (tu_prefix u) = key -> NoDup kus.*1 ->
  mfor kus (update_leaf p) tx = (tx', Ok tt) ->
  one_tree key tx tx' /\
  (forall k, k ∉ kus.*1 -> leaves (stored tx' key) !! k = leaves (stored tx key) !! k) /\
  (forall k us, (k, us) ∈ kus -> exists leaf leaf', leaves (stored tx key) !! k = Some leaf /\
     apply_updates leaf us = Ok leaf' /\ leaves (stored tx' key) !! k = Some leaf').
Proof.
  intros Hu Hkey. revert tx Hu. induction kus as [|[k us] kus IH]; intros tx Hu Hnd Hrun.
  - simpl in Hrun. go_inv. split_and!; [reflexivity|done|]. intros k us []%not_elem_of_nil.
  - simpl in Hrun. go_inv. destruct a. apply NoDup_cons in Hnd as [Hk Hnd].
    destruct (update_leaf_Ok _ _ _ _ _ _ _ Hu Hkey Hrun0) as (Ho & leaf & leaf' & Hleaf & Happ & Hl).
    destruct (IH s) as (Ho' & Hother & Hin); [by rewrite (one_open _ _ _ Ho)|done|done|].
    split_and!; [by etrans|..].
    + intros k'. cbn. rewrite not_elem_of_cons. intros [Hne Hnin]. rewrite Hother by done.
      by rewrite Hl, lookup_insert_ne.
    + intros k' us'. rewrite elem_of_cons. intros [[= -> ->]|Hin'].
      * exists leaf, leaf'. split_and!; [done..|]. rewrite Hother by done. by rewrite Hl, lookup_insert_eq.
      * assert (k <> k') by (intros ->; apply Hk, list_elem_of_fmap; by exists (k', us')).
        destruct (Hin _ _ Hin') as (lf & lf' & Hlf & ? & ?). rewrite Hl, lookup_insert_ne in Hlf by done.
        by exists lf, lf'.
Qed.

(** ** Propagation *)

(** A tree without open subtrees gives its root when it was written to. *)
Lemma propagate_leaf fuel p u t tx :
  tx_open tx !! p = Some u -> db_trees (tx_db tx) !! tree_key (tu_prefix u) = Some t ->
  openSubs p (tx_open tx) = [] ->
  propagateRoot (S fuel) p tx = (tx, Ok (if dirtyTree u then Some (arbo_root t) else None)).
Proof.
  intros Hu Ht Hs. cbn [propagateRoot]. rewrite bind_gets, (bind_run_Ok _ _ _ _ _ (node_run _ _ _ Hu)), Hs.
  destruct (dirtyTree u); cbn [negb]; [|done]. unfold TU_Root.
  rewrite (bind_run_Ok _ _ tx tx (arbo_root t)); [done|].
  rewrite (bind_run_Ok _ _ _ _ _ (node_run _ _ _ Hu)).
  by rewrite (bind_run_Ok _ _ _ _ _ (node_tree_run _ _ _ Ht)).
Qed.

Lemma child_path_inj c pid c' pid' :
  in_use c = true -> in_use c' = true -> child_path c pid = child_path c' pid' -> c = c' /\ pid = pid'.
Proof. intros Hc Hc' [= E]. destruct c, c'; try done; cbn in E; by simplify_eq. Qed.

Lemma canonical_child_inv x u :
  canonical [StateTree_KindID TreeProcess; x] u ->
  exists c pid, in_use c = true /\ [StateTree_KindID TreeProcess; x] = child_path c pid /\
    tree_key (tu_prefix u) = child_key c pid /\ tu_cfg u = WithKey (StateChildTreeCfg c) pid.
Proof. inversion 1 as [| |c pid x' u' Hc Hx Hp Hcfg]; subst. exists c, pid. by rewrite Hp. Qed.

(** The update a dirty child gives to the leaf of its process. *)
Definition root_update (tx : TreeTx) (c : StateChildTree) (pid : bytes) : update :=
  mkUpdate (parentLeafSetRoot (StateChildTreeCfg c)) (arbo_root (stored tx (child_key c pid))).

Definition dirty_child (tx : TreeTx) (c : StateChildTree) (pid : bytes) : Prop :=
  exists u, tx_open tx !! child_path c pid = Some u /\ dirtyTree u = true.

Definition from_child (tx : TreeTx) (pid : bytes) (x : update) : Prop :=
  exists c, in_use c = true /\ dirty_child tx c pid /\ x = root_update tx c pid.

Lemma from_child_update tx pid x : from_child tx pid x -> child_update x.
Proof. intros (c & _ & _ & ->). by exists c. Qed.

Lemma apply_updates_root tx c pid us leaf leaf' :
  in_use c = true -> Forall (from_child tx pid) us -> apply_updates leaf us = Ok leaf' ->
  root_update tx c pid ∈ us \/
    parentLeafGetRoot (StateChildTreeCfg c) leaf = Ok (arbo_root (stored tx (child_key c pid))) ->
  parentLeafGetRoot (StateChildTreeCfg c) leaf' = Ok (arbo_root (stored tx (child_key c pid))).
Proof.
  intros Hc Hus. revert leaf. induction Hus as [|x us (c' & Hc' & _ & ->) _ IH]; intros leaf Hrun Hor; cbn [apply_updates] in Hrun.
  - injection Hrun as <-. by destruct Hor as [[]%not_elem_of_nil|].
  - apply outcome_bind_Ok in Hrun as (leaf1 & Hl1 & Hrun). apply (IH leaf1 Hrun).
    destruct Hor as [[E|Hin]%elem_of_cons|Hg]; [right|by left|right].
    + apply (set_root_same c leaf); [apply root_length|].
      change (upd_setRoot (root_update tx c' pid) leaf (upd_root (root_update tx c' pid)) = Ok leaf1) in Hl1.
      by rewrite <- E in Hl1.
    + destruct (decide (c' = c)) as [->|Hne]; [by apply (set_root_same c leaf); [apply root_length|]|].
      by rewrite (set_root_other c c' leaf _ _ Hc Hc' Hne Hl1).
Qed.

Lemma apply_updates_other tx c pid us leaf leaf' :
  in_use c = true -> ~ dirty_child tx c pid -> Forall (from_child tx pid) us -> apply_updates leaf us = Ok leaf' ->
  parentLeafGetRoot (StateChildTreeCfg c) leaf' = parentLeafGetRoot (StateChildTreeCfg c) leaf.
Proof.
  intros Hc Hd Hus. revert leaf. induction Hus as [|x us (c' & Hc' & Hd' & ->) _ IH]; intros leaf Hrun; cbn [apply_updates] in Hrun.
  - by injection Hrun as <-.
  - apply outcome_bind_Ok in Hrun as (leaf1 & Hl1 & Hrun). rewrite (IH leaf1 Hrun).
    eapply (set_root_other c c' leaf); [done|done|by intros ->|exact Hl1].
Qed.

(** Below the process tree nothing changes while the roots are gathered; the updates of a leaf
    are those of its dirty children. *)
Lemma gather_children fuel subs m tx tx' m' :
  canonical_open tx -> trees_stored tx ->
  (forall q u, (q, u) ∈ subs -> tx_open tx !! q = Some u /\
     exists x, q = [StateTree_KindID TreeProcess; x]) ->
  map_Forall (fun pid => Forall (from_child tx pid)) m ->
  gather_updates (propagateRoot fuel) subs m tx = (tx', Ok m') ->
  tx' = tx /\ map_Forall (fun pid => Forall (from_child tx pid)) m' /\
  (forall pid x, x ∈ default [] (m !! pid) -> x ∈ default [] (m' !! pid)) /\
  (forall c pid u, in_use c = true -> (child_path c pid, u) ∈ subs -> dirtyTree u = true ->
     root_update tx c pid ∈ default [] (m' !! pid)).
Proof.
  intros Hcan Hst. revert m. induction subs as [|[q u] subs IH]; intros m Hsubs Hm Hrun.
  - cbn in Hrun. go_inv. split_and!; [done|done|done|]. by intros c pid u _ []%not_elem_of_nil.
  - cbn [gather_updates] in Hrun. go_inv. destruct (Hsubs q u) as [Hu [x ->]]; [left|].
    destruct (Hst _ _ Hu) as [t Ht]. destruct fuel as [|fuel]; [done|].
    rewrite (propagate_leaf _ _ _ _ _ Hu Ht) in Hrun0 by (by apply subs_child).
    injection Hrun0 as <- <-. destruct (canonical_child_inv x u (Hcan _ _ Hu)) as (c & pid & Hc & Hp & Hk & Hcfg).
    assert (Hrest : forall q' u', (q', u') ∈ subs -> tx_open tx !! q' = Some u' /\
      exists x, q' = [StateTree_KindID TreeProcess; x]) by (intros q' u' Hq; apply Hsubs; by right).
    destruct (dirtyTree u) eqn:Hd.
    + rewrite Hcfg in Hrun. cbn [parentLeafKey tree_cfg WithKey] in Hrun.
      assert (Hx : mkUpdate (parentLeafSetRoot (StateChildTreeCfg c)) (arbo_root t) = root_update tx c pid).
      { unfold root_update, stored. by rewrite <- Hk, Ht. }
      rewrite Hx in Hrun. apply IH in Hrun as (-> & Hm' & Hmono & Hin); [|done|].
      * assert (Hadd : forall pid0, default [] (add_update pid (root_update tx c pid) m !! pid0) =
          if decide (pid0 = pid) then default [] (m !! pid) ++ [root_update tx c pid] else default [] (m !! pid0)).
        { intros pid0. unfold add_update. destruct (decide (pid0 = pid)) as [->|]; [by rewrite lookup_insert_eq|].
          by rewrite lookup_insert_ne. }
        split_and!; [done|done| |].
        -- intros pid0 y Hy. apply Hmono. rewrite Hadd. case_decide; [subst; set_solver|done].
        -- intros c0 pid0 u0 Hc0 [[Hq ->]%pair_equal_spec|Hq]%elem_of_cons Hd0; [|by eapply Hin].
           rewrite Hp in Hq. destruct (child_path_inj c0 pid0 c pid Hc0 Hc Hq) as [-> ->].
           apply Hmono. rewrite Hadd, decide_True by done. set_solver.
      * apply map_Forall_insert_2; [|done]. apply Forall_app. split.
        -- destruct (m !! _) as [us|] eqn:Hus; [by apply (Hm _ _ Hus)|constructor].
        -- apply Forall_singleton. exists c. split; [done|]. split; [|done]. exists u. by rewrite <- Hp.
    + apply IH in Hrun as (-> & Hm' & Hmono & Hin); [|done|done]. split_and!; [done|done|done|].
      intros c0 pid0 u0 Hc0 [[_ ->]%pair_equal_spec|Hq]%elem_of_cons Hd0; [congruence|by eapply Hin].
Qed.

(** The roots of the children in the leaves of the processes: a dirty child gives its root,
    the others keep theirs. *)
Record rooted (tx tx' : TreeTx) : Prop := {
  rooted_dirty c pid : in_use c = true -> dirty_child tx c pid ->
    exists leaf, view tx' TreeProcess !! pid = Some leaf /\
      parentLeafGetRoot (StateChildTreeCfg c) leaf = Ok (arbo_root (stored tx (child_key c pid)));
  rooted_other c pid : in_use c = true -> ~ dirty_child tx c pid ->
    parentLeafGetRoot (StateChildTreeCfg c) <$> view tx' TreeProcess !! pid =
    parentLeafGetRoot (StateChildTreeCfg c) <$> view tx TreeProcess !! pid
}.

(** What the propagation of a singleton tree gives to the main tree. *)
Definition propagated (t : StateTree) (u : TreeUpdate) (r : option bytes) (tx tx' : TreeTx) : Prop :=
  one_tree (st_key t) tx tx' /\
  match r with
  | None => tx' = tx /\ dirtyTree u = false
  | Some root => root = arbo_root (stored tx' (st_key t))
  end /\
  (t <> TreeProcess -> tx' = tx) /\
  (forall k, rerooted (view tx TreeProcess !! k) (view tx' TreeProcess !! k)) /\
  (t = TreeProcess -> rooted tx tx').

(** The children of the process tree are among its open subtrees. *)
Lemma child_sub c pid u tx :
  tx_open tx !! child_path c pid = Some u -> (child_path c pid, u) ∈ openSubs [StateTree_KindID TreeProcess] (tx_open tx).
Proof. intros Hu. apply openSubs_spec. split; [by apply bool_decide_eq_true|done]. Qed.

Lemma rooted_same tx : (forall c pid, in_use c = true -> ~ dirty_child tx c pid) -> rooted tx tx.
Proof. intros Hno. split; [intros c pid Hc Hd; by destruct (Hno c pid Hc)|done]. Qed.

(** The leaves after the loop over the updates of the children. *)
Lemma rooted_updates m tx tx2 :
  map_Forall (fun pid => Forall (from_child tx pid)) m ->
  (forall c pid, in_use c = true -> dirty_child tx c pid -> root_update tx c pid ∈ default [] (m !! pid)) ->
  (forall k, k ∉ (map_to_list m).*1 -> view tx2 TreeProcess !! k = view tx TreeProcess !! k) ->
  (forall k us, (k, us) ∈ map_to_list m -> exists leaf leaf', view tx TreeProcess !! k = Some leaf /\
     apply_updates leaf us = Ok leaf' /\ view tx2 TreeProcess !! k = Some leaf') ->
  rooted tx tx2.
Proof.
  intros Hm Hd Hout Hin. split; intros c pid Hc Hdc.
  - specialize (Hd c pid Hc Hdc). destruct (m !! pid) as [us|] eqn:Hus; [|by apply not_elem_of_nil in Hd].
    destruct (Hin pid us) as (lf & lf' & _ & Happ & Hl); [by apply elem_of_map_to_list|].
    exists lf'. split; [done|]. eapply apply_updates_root; [done|by apply (Hm _ _ Hus)|exact Happ|by left].
  - destruct (m !! pid) as [us|] eqn:Hus.
    + destruct (Hin pid us) as (lf & lf' & Hl & Happ & Hl'); [by apply elem_of_map_to_list|].
      rewrite Hl, Hl'. simpl. f_equal. eapply apply_updates_other; [done|done|by apply (Hm _ _ Hus)|exact Happ].
    + rewrite Hout; [done|]. intros ([k us] & -> & Hk%elem_of_map_to_list)%list_elem_of_fmap. cbn in Hus. congruence.
Qed.

Lemma rooted_view tx tx1 tx2 : view tx2 TreeProcess = view tx1 TreeProcess -> rooted tx tx1 -> rooted tx tx2.
Proof. intros Hv [R1 R2]. split; intros c pid; rewrite Hv; [apply R1|apply R2]. Qed.

Lemma TU_Root_Ok p u tx tx' r :
  tx_open tx !! p = Some u -> TU_Root p tx = (tx', Ok r) ->
  tx' = tx /\ r = arbo_root (stored tx (tree_key (tu_prefix u))).
Proof.
  intros Hu Hrun. unfold TU_Root in Hrun. go_inv.
  repeat match goal with
  | H : node _ _ = (_, Ok _) |- _ => apply node_Ok in H as [? H]; subst
  | H : node_tree _ _ = (_, Ok _) |- _ => apply node_tree_Ok in H as [? H]; subst
  end.
  simplify_eq. split; [done|]. unfold stored. by simplify_option_eq.
Qed.

Lemma propagate_singleton fuel t u r tx tx' :
  canonical_open tx -> trees_stored tx -> tx_open tx !! [StateTree_KindID t] = Some u ->
  propagateRoot fuel [StateTree_KindID t] tx = (tx', Ok r) -> propagated t u r tx tx'.
Proof.
  intros Hcan Hst Hu Hrun. destruct fuel as [|fuel]; [done|].
  pose proof (canonical_st_inv _ _ (Hcan _ _ Hu)) as Hpre.
  assert (Hkey : tree_key (tu_prefix u) = st_key t) by (by rewrite Hpre, tree_key_st).
  destruct (openSubs [StateTree_KindID t] (tx_open tx)) as [|e subs] eqn:Hsubs.
  - destruct (Hst _ _ Hu) as [t0 Ht0]. rewrite (propagate_leaf _ _ _ _ _ Hu Ht0 Hsubs) in Hrun.
    injection Hrun as <- <-. split_and!; [reflexivity| |done|reflexivity|].
    { destruct (dirtyTree u); [|done]. unfold stored. rewrite Hkey in Ht0. by rewrite Ht0. }
    intros ->. apply rooted_same. intros c pid _ (w & Hw%child_sub & _). rewrite Hsubs in Hw. by apply not_elem_of_nil in Hw.
  - cbn [propagateRoot] in Hrun. rewrite bind_gets in Hrun. apply bind_Ok in Hrun as (u' & tx1 & Hn & Hrun).
    apply node_Ok in Hn as [-> Hu']. simplify_eq. rewrite Hsubs in Hrun.
    apply bind_Ok in Hrun as (m & tx1 & Hg & Hrun).
    assert (Hall : forall q w, (q, w) ∈ e :: subs -> t = TreeProcess /\ tx_open tx !! q = Some w /\
      exists x, q = [StateTree_KindID TreeProcess; x]).
    { intros q w Hq. apply (subs_singleton tx); [done|]. by rewrite Hsubs. }
    destruct (gather_children fuel (e :: subs) ∅ tx tx1 m) as (-> & Hch & _ & Hroots); [done|done| |done|exact Hg|].
    { intros q w Hq. by apply Hall. }
    assert (t = TreeProcess) as -> by (destruct e as [q w]; by apply (Hall q w); left).
    assert (Hdirty : forall c pid, in_use c = true -> dirty_child tx c pid -> root_update tx c pid ∈ default [] (m !! pid)).
    { intros c pid Hc (w & Hw%child_sub & Hd). rewrite Hsubs in Hw. by eapply Hroots. }
    destruct (bool_decide (m = ∅) && negb (dirtyTree u)) eqn:Hc.
    + go_inv. apply andb_prop in Hc as [->%bool_decide_eq_true Hd%negb_true_iff].
      split_and!; [reflexivity|done|done|done|reflexivity|]. intros _. apply rooted_same. intros c pid Hc Hdc.
      specialize (Hdirty c pid Hc Hdc). rewrite lookup_empty in Hdirty. by apply not_elem_of_nil in Hdirty.
    + apply bind_Ok in Hrun as ([] & tx2 & Hm & Hrun). go_inv.
      apply mfor_update_leaf with (u := u) (key := st_key TreeProcess) in Hm as (Ho & Hout & Hin);
        [|done|done|apply NoDup_fst_map_to_list].
      match goal with H : TU_Root _ _ = _ |- _ => apply (TU_Root_Ok _ u) in H as [-> ->] end;
        [|by rewrite (one_open _ _ _ Ho)].
      split_and!; [done|by rewrite Hkey|done| |intros _; by apply (rooted_updates m)]. intros k. unfold view.
      destruct (decide (k ∈ (map_to_list m).*1)) as [([k' us] & -> & Hus)%list_elem_of_fmap|Hk].
      * cbn [fst]. destruct (Hin _ _ Hus) as (lf & lf' & -> & Happ & ->).
        apply apply_updates_rerooted with us; [|done]. apply elem_of_map_to_list, Hch in Hus.
        eapply Forall_impl; [exact Hus|]. intros x. apply from_child_update.
      * by rewrite Hout.
Qed.

(** *** The updates of the main tree *)

Definition unchanged (t : StateTree) (m m' : gmap bytes (list update)) (tx tx' : TreeTx) : Prop :=
  m' !! StateTree_KindID t = m !! StateTree_KindID t /\ stored tx' (st_key t) = stored tx (st_key t).

(** Either nothing is to be propagated, or the last update is the root of the tree. *)
Definition gathered_one (t : StateTree) (m m' : gmap bytes (list update)) (tx tx' : TreeTx) : Prop :=
  (unchanged t m m' tx tx' /\ clean tx t) \/
  m' !! StateTree_KindID t = Some (default [] (m !! StateTree_KindID t) ++
    [mkUpdate rootLeafSetRoot (arbo_root (stored tx' (st_key t)))]).

Record gathered (subs : list (list string * TreeUpdate)) (m m' : gmap bytes (list update))
  (tx tx' : TreeTx) : Prop := {
  g_open : tx_open tx' = tx_open tx;
  g_kv : db_kv (tx_db tx') = db_kv (tx_db tx);
  g_stored : trees_stored tx';
  g_main : db_trees (tx_db tx') !! main_key = db_trees (tx_db tx) !! main_key;
  g_levels t : levels (stored tx' (st_key t)) = levels (stored tx (st_key t));
  g_same t : t <> TreeProcess -> stored tx' (st_key t) = stored tx (st_key t);
  g_process k : rerooted (view tx TreeProcess !! k) (view tx' TreeProcess !! k);
  g_out t : [StateTree_KindID t] ∉ subs.*1 -> unchanged t m m' tx tx';
  g_in t : [StateTree_KindID t] ∈ subs.*1 -> gathered_one t m m' tx tx';
  g_other k : (forall t, k <> StateTree_KindID t) -> m' !! k = m !! k;
  g_child k : (forall t, k <> st_key t) -> db_trees (tx_db tx') !! k = db_trees (tx_db tx) !! k;
  g_rooted : [StateTree_KindID TreeProcess] ∈ subs.*1 -> rooted tx tx';
}.

(** The update that one subtree adds. *)
Definition add_root (t : StateTree) (r : option bytes) (m : gmap bytes (list update)) :
  gmap bytes (list update) :=
  match r with
  | None => m
  | Some root => add_update (StateTree_KindID t) (mkUpdate rootLeafSetRoot root) m
  end.

Lemma add_root_other t r m k : k <> StateTree_KindID t -> add_root t r m !! k = m !! k.
Proof. intros Hk. destruct r; [|done]. unfold add_root, add_update. by rewrite lookup_insert_ne. Qed.

(** One step of the loop, in front of the rest. *)
Lemma gathered_cons t u r subs m m' tx tx1 tx' :
  tx_open tx !! [StateTree_KindID t] = Some u -> propagated t u r tx tx1 ->
  [StateTree_KindID t] ∉ subs.*1 -> gathered subs (add_root t r m) m' tx1 tx' ->
  gathered (([StateTree_KindID t], u) :: subs) m m' tx tx'.
Proof.
  intros Hu (Ho & Hr & Hsame & Hproc & Hrooted) Hnin G. destruct G as [G1 G2 G3 G4 G5 G6 Gp G7 G8 G9 Gc Gr].
  assert (Hne : forall t0, t0 <> t -> stored tx1 (st_key t0) = stored tx (st_key t0)).
  { intros t0 Ht0. apply (one_tree_stored _ _ _ _ Ho). by intros ?%st_key_inj. }
  split.
  - by rewrite G1, (one_open _ _ _ Ho).
  - by rewrite G2, (one_kv _ _ _ Ho).
  - done.
  - rewrite G4. apply (one_other _ _ _ Ho). intros Heq. by apply (st_key_main t).
  - intros t0. rewrite G5. destruct (decide (t0 = t)) as [->|]; [apply Ho|by rewrite Hne].
  - intros t0 Ht0. rewrite G6 by done. destruct (decide (t0 = t)) as [->|]; [by rewrite Hsame|auto].
  - intros k. etrans; [apply Hproc|apply Gp].
  - intros t0. cbn [fmap list_fmap fst]. rewrite not_elem_of_cons. intros [Hk Hn].
    assert (t0 <> t) by (by intros ->). destruct (G7 t0 Hn) as [Hm Hs]. split.
    + rewrite Hm. apply add_root_other. by intros ?%kind_inj.
    + by rewrite Hs, Hne.
  - intros t0. cbn [fmap list_fmap fst]. rewrite elem_of_cons.
    destruct (decide (t0 = t)) as [->|Ht0].
    + intros _. destruct (G7 t Hnin) as [Hm Hs]. destruct r as [root|].
      * right. rewrite Hm, Hs. subst root. unfold add_root, add_update. by rewrite lookup_insert_eq.
      * destruct Hr as [-> Hd]. left. split; [by split|]. intros w Hw. congruence.
    + intros [[=Hk%kind_inj]|Hin]; [done|]. destruct (G8 t0 Hin) as [[[Hm Hs] Hc]|Hm].
      * left. split; [split|].
        -- rewrite Hm. apply add_root_other. by intros ?%kind_inj.
        -- by rewrite Hs, Hne.
        -- intros w Hw. apply Hc. by rewrite (one_open _ _ _ Ho).
      * right. rewrite Hm. rewrite add_root_other; [done|]. by intros ?%kind_inj.
  - intros k Hk. rewrite G9 by done. apply add_root_other, Hk.
  - intros k Hk. rewrite Gc by done. by apply (one_other _ _ _ Ho).
  - cbn [fmap list_fmap fst]. rewrite elem_of_cons. intros Hin. destruct (decide (t = TreeProcess)) as [->|Hp].
    + apply (rooted_view tx tx1); [|by apply Hrooted]. unfold view. f_equal. by apply G7.
    + rewrite (Hsame Hp) in *. apply Gr. destruct Hin as [[= Hk]|Hin]; [|done]. destruct Hp. by apply kind_inj.
Qed.

Lemma gather_main fuel subs m tx tx' m' :
  canonical_open tx -> trees_stored tx -> NoDup subs.*1 ->
  (forall q u, (q, u) ∈ subs ->
     exists t, q = [StateTree_KindID t] /\ tx_open tx !! q = Some u /\ tu_cfg u = StateTreeCfg t) ->
  gather_updates (propagateRoot fuel) subs m tx = (tx', Ok m') -> gathered subs m m' tx tx'.
Proof.
  revert m tx. induction subs as [|[q u] subs IH]; intros m tx Hcan Hst Hnd Hsubs Hrun.
  - cbn in Hrun. go_inv. split; try done; [intros t []%not_elem_of_nil|intros []%not_elem_of_nil].
  - cbn [gather_updates] in Hrun. go_inv. destruct (Hsubs q u) as (t & -> & Hu & Hcfg); [left|].
    apply NoDup_cons in Hnd as [Hnin Hnd].
    pose proof (propagate_singleton _ _ _ _ _ _ Hcan Hst Hu Hrun0) as Hp. pose proof Hp as [Ho _].
    apply (gathered_cons t u a subs m m' tx s tx'); [done..|]. apply IH.
    + by apply (one_tree_canonical _ _ _ Ho).
    + by apply (one_tree_trees_stored _ _ _ Ho).
    + done.
    + intros q' u' Hq. rewrite (one_open _ _ _ Ho). apply Hsubs. by right.
    + rewrite Hcfg in Hrun. by destruct a.
Qed.

(** *** The main tree *)

(** After the propagation every leaf of the main tree is the root of its tree, and the
    root that is returned, if any, is the one of the main tree. *)
Record settled (r : option bytes) (tx tx' : TreeTx) : Prop := {
  s_kv : db_kv (tx_db tx') = db_kv (tx_db tx);
  s_main : exists m, db_trees (tx_db tx') !! main_key = Some m;
  s_levels t : levels (stored tx' (st_key t)) = levels (stored tx (st_key t));
  s_same t : t <> TreeProcess -> stored tx' (st_key t) = stored tx (st_key t);
  s_process k : rerooted (view tx TreeProcess !! k) (view tx' TreeProcess !! k);
  s_leaf t : leaves (stored tx' main_key) !! StateTree_KindID t =
    Some (arbo_root (stored tx' (st_key t)));
  s_root : match r with
           | Some root => root = arbo_root (stored tx' main_key)
           | None => main_clean tx /\ stored tx' main_key = stored tx main_key
           end;
  s_child k : k <> main_key -> (forall t, k <> st_key t) -> db_trees (tx_db tx') !! k = db_trees (tx_db tx) !! k;
  s_rooted : rooted tx tx';
}.

Lemma not_open_clean tx t : [StateTree_KindID t] ∉ (openSubs [] (tx_open tx)).*1 -> clean tx t.
Proof.
  intros Hn u Hu. destruct Hn. apply list_elem_of_fmap. exists ([StateTree_KindID t], u).
  split; [done|]. apply openSubs_spec. split; [by apply bool_decide_eq_true|done].
Qed.

(** A tree with nothing to propagate had its root in the main tree already. *)
Lemma gathered_settled subs m tx tx' t :
  wf_tx tx -> subs = openSubs [] (tx_open tx) -> gathered subs ∅ m tx tx' ->
  m !! StateTree_KindID t = None ->
  leaves (stored tx main_key) !! StateTree_KindID t = Some (arbo_root (stored tx' (st_key t))).
Proof.
  intros Hwf -> G Hm. destruct (decide ([StateTree_KindID t] ∈ (openSubs [] (tx_open tx)).*1)) as [Hin|Hn].
  - destruct (g_in _ _ _ _ _ G t Hin) as [[[_ ->] Hc]|Hm']; [by apply (wf_root tx Hwf)|congruence].
  - destruct (g_out _ _ _ _ _ G t Hn) as [_ ->]. by apply (wf_root tx Hwf), not_open_clean.
Qed.

(** The children of a process tree that is not open are not open. *)
Lemma no_dirty_child tx : wf_tx tx -> [StateTree_KindID TreeProcess] ∉ (openSubs [] (tx_open tx)).*1 ->
  forall c pid, ~ dirty_child tx c pid.
Proof.
  intros Hwf Hn c pid (u & Hu & _). destruct (wf_parent tx Hwf (prefix (WithKey (StateChildTreeCfg c) pid))) as [w Hw];
    [by exists u|]. apply Hn, list_elem_of_fmap. exists ([StateTree_KindID TreeProcess], w). split; [done|].
  apply openSubs_spec. split; [by apply bool_decide_eq_true|done].
Qed.

Lemma gathered_rooted m tx tx' :
  wf_tx tx -> gathered (openSubs [] (tx_open tx)) ∅ m tx tx' -> rooted tx tx'.
Proof.
  intros Hwf G. destruct (decide ([StateTree_KindID TreeProcess] ∈ (openSubs [] (tx_open tx)).*1)) as [Hin|Hn].
  - by apply (g_rooted _ _ _ _ _ G).
  - apply (rooted_view tx tx); [unfold view; f_equal; by apply (g_out _ _ _ _ _ G)|].
    apply rooted_same. intros c pid _. by apply no_dirty_child.
Qed.

Lemma gathered_entry subs m tx tx' k us :
  gathered subs ∅ m tx tx' -> m !! k = Some us ->
  exists t, k = StateTree_KindID t /\ us = [mkUpdate rootLeafSetRoot (arbo_root (stored tx' (st_key t)))].
Proof.
  intros G Hk.
  assert (Hdec : (exists t, k = StateTree_KindID t) \/ forall t, k <> StateTree_KindID t).
  { destruct (decide (k ∈ StateTree_KindID <$>
      [TreeProcess; TreeExtra; TreeOracles; TreeValidators; TreeAccounts; TreeFaucet])) as [Hin|Hn].
    - left. apply list_elem_of_fmap in Hin as (t & -> & _). by exists t.
    - right. intros t ->. apply Hn, list_elem_of_fmap. exists t. split; [done|]. destruct t; set_solver. }
  destruct Hdec as [[t ->]|Hn]; [|by rewrite (g_other _ _ _ _ _ G k Hn) in Hk]. exists t. split; [done|].
  destruct (decide ([StateTree_KindID t] ∈ subs.*1)) as [Hin|Hn].
  - destruct (g_in _ _ _ _ _ G t Hin) as [[[Hm _] _]|Hm]; rewrite Hm in Hk; [done|]. by injection Hk as <-.
  - destruct (g_out _ _ _ _ _ G t Hn) as [Hm _]. by rewrite Hm in Hk.
Qed.

Lemma settled_updates u m tx tx1 tx2 :
  wf_tx tx -> gathered (openSubs [] (tx_open tx)) ∅ m tx tx1 -> tx_open tx1 !! [] = Some u ->
  mfor (map_to_list m) (update_leaf []) tx1 = (tx2, Ok tt) ->
  settled (Some (arbo_root (stored tx2 main_key))) tx tx2.
Proof.
  intros Hwf G Hu Hm. assert (Hu' := Hu). rewrite (g_open _ _ _ _ _ G) in Hu'.
  destruct (wf_open tx Hwf _ _ Hu') as [Hcan%canonical_main_inv [mt Hmt]]. rewrite Hcan in Hmt.
  change (tree_key "") with main_key in Hmt.
  apply mfor_update_leaf with (u := u) (key := main_key) in Hm as (Ho & Hout & Hin);
    [|done|by rewrite Hcan|apply NoDup_fst_map_to_list].
  assert (Hst : forall t, stored tx2 (st_key t) = stored tx1 (st_key t)).
  { intros t. apply (one_tree_stored _ _ _ _ Ho), st_key_main. }
  assert (Hmain : stored tx1 main_key = stored tx main_key).
  { unfold stored. by rewrite (g_main _ _ _ _ _ G). }
  split.
  - by rewrite (one_kv _ _ _ Ho), (g_kv _ _ _ _ _ G).
  - apply (one_some _ _ _ Ho). rewrite (g_main _ _ _ _ _ G). by eexists.
  - intros t. by rewrite Hst, (g_levels _ _ _ _ _ G).
  - intros t Ht. by rewrite Hst, (g_same _ _ _ _ _ G).
  - intros k. unfold view. rewrite Hst. apply (g_process _ _ _ _ _ G).
  - intros t. rewrite Hst. destruct (m !! StateTree_KindID t) as [us|] eqn:Hk.
    + destruct (gathered_entry _ _ _ _ _ _ G Hk) as (t' & Ht' & ->). apply kind_inj in Ht' as <-.
      destruct (Hin (StateTree_KindID t) _ (proj2 (elem_of_map_to_list _ _ _) Hk)) as (lf & lf' & _ & Happ & ->).
      cbn in Happ. unfold rootLeafSetRoot in Happ. destruct (negb _); simplify_eq/=. done.
    + rewrite Hout, Hmain; [by eapply gathered_settled|].
      intros ([k us] & Hk' & Hus)%list_elem_of_fmap. simpl in Hk'. subst k.
      apply elem_of_map_to_list in Hus. congruence.
  - done.
  - intros k Hk1 Hk2. rewrite (one_other _ _ _ Ho) by done. by apply (g_child _ _ _ _ _ G).
  - apply (rooted_view tx tx1); [unfold view; by rewrite Hst|]. by eapply gathered_rooted.
Qed.

Lemma propagate_main fuel tx tx' r :
  wf_tx tx -> propagateRoot fuel [] tx = (tx', Ok r) -> settled r tx tx'.
Proof.
  intros Hwf Hrun. destruct fuel as [|fuel]; [done|].
  destruct (wf_main tx Hwf) as [u Hu]. destruct (wf_open tx Hwf _ _ Hu) as [Hcan [mt Hmt]].
  apply canonical_main_inv in Hcan. assert (Hkey : tree_key (tu_prefix u) = main_key) by by rewrite Hcan.
  rewrite Hkey in Hmt.
  cbn [propagateRoot] in Hrun. rewrite bind_gets, (bind_run_Ok _ _ _ _ _ (node_run _ _ _ Hu)) in Hrun.
  assert (Hclean : dirtyTree u = false -> main_clean tx) by (intros Hd w Hw; congruence).
  destruct (openSubs [] (tx_open tx)) as [|e subs] eqn:Hsubs.
  - assert (Hleaf : forall t, leaves (stored tx main_key) !! StateTree_KindID t =
      Some (arbo_root (stored tx (st_key t)))).
    { intros t. apply (wf_root tx Hwf), not_open_clean. rewrite Hsubs. apply not_elem_of_nil. }
    assert (Hno : rooted tx tx).
    { apply rooted_same. intros c pid _. apply no_dirty_child; [done|]. rewrite Hsubs. apply not_elem_of_nil. }
    destruct (dirtyTree u) eqn:Hd; cbn [negb] in Hrun; go_inv.
    + apply (TU_Root_Ok _ u) in Hrun0 as [-> ->]; [|done]. rewrite Hkey. split; eauto; reflexivity.
    + split; eauto; reflexivity.
  - apply bind_Ok in Hrun as (m & tx1 & Hg & Hrun).
    assert (G : gathered (e :: subs) ∅ m tx tx1).
    { eapply gather_main; [by apply wf_canonical_open|by apply wf_trees_stored| | |exact Hg].
      - rewrite <- Hsubs. apply openSubs_NoDup.
      - intros q w Hq. apply subs_main; [by apply wf_canonical_open|]. by rewrite Hsubs. }
    rewrite <- Hsubs in G.
    assert (Hu1 : tx_open tx1 !! [] = Some u) by by rewrite (g_open _ _ _ _ _ G).
    destruct (bool_decide (m = ∅) && negb (dirtyTree u)) eqn:Hc.
    + go_inv. apply andb_prop in Hc as [->%bool_decide_eq_true Hd%negb_true_iff].
      assert (Hmain : stored tx1 main_key = stored tx main_key).
      { unfold stored. by rewrite (g_main _ _ _ _ _ G). }
      split; [apply G|rewrite (g_main _ _ _ _ _ G); eauto|apply G|apply G|apply G| |by auto
        |intros k _; apply (g_child _ _ _ _ _ G)|by eapply gathered_rooted].
      intros t. rewrite Hmain. eapply gathered_settled; [done|reflexivity|exact G|apply lookup_empty].
    + apply bind_Ok in Hrun as ([] & tx2 & Hm & Hrun). go_inv.
      pose proof (settled_updates _ _ _ _ _ Hwf G Hu1 Hm) as Hset.
      apply mfor_update_leaf with (u := u) (key := main_key) in Hm as (Ho & _);
        [|done|done|apply NoDup_fst_map_to_list].
      apply (TU_Root_Ok _ u) in Hrun0 as [-> ->]; [|by rewrite (one_open _ _ _ Ho)].
      by rewrite Hkey.
Qed.

(** ** The commit *)

Lemma getVersion_setVersionRoot v root d : is_u32 v -> getVersion (setVersionRoot v root d) = Ok v.
Proof.
  intros Hv. unfold getVersion, setVersionRoot. simpl. rewrite lookup_insert_eq.
  exact (LittleEndian_Uint32_Put v Hv).
Qed.

Lemma getRoot_setVersionRoot v root d : is_u32 v -> getRoot (setVersionRoot v root d) = Ok root.
Proof.
  intros Hv. unfold getRoot. rewrite getVersion_setVersionRoot by done. cbn [mbind outcome_bind].
  unfold getVersionRoot, setVersionRoot. simpl.
  rewrite lookup_insert_ne, lookup_insert_eq; [done|]. intros Heq.
  apply (f_equal String.length) in Heq. unfold version_key, uint32ToBytes, LittleEndian_PutUint32 in Heq.
  rewrite !string_length_app, length_le_bytes in Heq. simpl in Heq. lia.
Qed.

Lemma getRoot_kv d d' : db_kv d = db_kv d' -> getRoot d = getRoot d'.
Proof. unfold getRoot, getVersion, getVersionRoot. by intros ->. Qed.

(** The last step: the root under the new version. *)
Lemma settled_good v r newroot tx tx1 :
  wf_tx tx -> is_u32 v -> settled r tx tx1 ->
  match r with Some root => newroot = root | None => getRoot (tx_db tx1) = Ok newroot end ->
  good_db (setVersionRoot v newroot (tx_db tx1)).
Proof.
  intros Hwf Hv S Hroot.
  assert (newroot = arbo_root (stored tx1 main_key)) as ->.
  { pose proof (s_root _ _ _ S) as Hr. destruct r as [root|]; [congruence|].
    destruct Hr as [Hc ->]. pose proof (wf_version tx Hwf Hc) as Hver.
    rewrite (getRoot_kv _ (tx_db tx)) in Hroot by apply S. congruence. }
  destruct (s_main _ _ _ S) as [m Hm].
  assert (Hst : stored tx1 main_key = m) by (unfold stored; by rewrite Hm).
  split.
  - exists m. split; [done|]. split; [by rewrite getRoot_setVersionRoot, Hst|].
    intros t. rewrite <- Hst. apply (s_leaf _ _ _ S).
  - intros t. change (levels (stored tx1 (st_key t)) = 256). rewrite (s_levels _ _ _ S). apply Hwf.
Qed.

(** The database after the commit of a well-formed transaction is good, and holds the same
    trees, up to the leaves of the process tree. *)
Lemma TreeTx_Commit_good v tx tx' :
  wf_tx tx -> is_u32 v -> TreeTx_Commit v tx = (tx', Ok tt) ->
  good_db (tx_db tx') /\ StateDB_Version (tx_db tx') = Ok v /\
  (forall t, t <> TreeProcess -> stored tx' (st_key t) = stored tx (st_key t)) /\
  (forall k, rerooted (view tx TreeProcess !! k) (view tx' TreeProcess !! k)) /\
  (exists root, db_kv (tx_db tx') = db_kv (setVersionRoot v root (tx_db tx))) /\
  StateDB_Hash (tx_db tx') = Ok (arbo_root (stored tx' main_key)) /\
  (forall k, k <> main_key -> (forall t, k <> st_key t) -> db_trees (tx_db tx') !! k = db_trees (tx_db tx) !! k) /\
  rooted tx tx'.
Proof.
  intros Hwf Hv Hrun. unfold TreeTx_Commit in Hrun. rewrite bind_gets in Hrun.
  apply bind_Ok in Hrun as (r & tx1 & Hp & Hrun). apply propagate_main in Hp as S; [|done]. go_inv.
  match goal with H : _ = (_, Ok ?x) |- _ => rename x into newroot; rename H into Hnew end.
  assert (Hs2 : tx_db s2 = tx_db tx1 /\
    match r with Some root => newroot = root | None => getRoot (tx_db tx1) = Ok newroot end).
  { destruct r as [root|]; [by apply ret_Ok in Hnew as [-> <-]|].
    apply lift_Ok in Hnew as [-> Hnew]. split; [done|]. unfold getRoot.
    cbn [tx_db on_open] in *. by rewrite Hrun2. }
  destruct Hs2 as [Hdb Hroot]. pose proof (settled_good _ _ _ _ _ Hwf Hv S Hroot) as Hgood.
  rewrite <- Hdb in Hgood. pose proof (good_main _ Hgood) as (m & Hm & Hhash & _).
  split_and!; [exact Hgood| | | | | | |].
  - apply getVersion_setVersionRoot, Hv.
  - intros t Ht. rewrite <- (s_same _ _ _ S t Ht). unfold stored. simpl. by rewrite Hdb.
  - intros k. pose proof (s_process _ _ _ S k) as Hk. unfold view, stored in *. simpl. by rewrite Hdb.
  - exists newroot. simpl. by rewrite Hdb, (s_kv _ _ _ S).
  - unfold StateDB_Hash, stored. cbn [tx_db on_db]. by rewrite Hhash, Hm.
  - intros k Hk1 Hk2. rewrite <- (s_child _ _ _ S k Hk1 Hk2). simpl. by rewrite Hdb.
  - apply (rooted_view tx tx1); [|apply S]. unfold view, stored. simpl. by rewrite Hdb.
Qed.

(** ** A commit of singleton trees succeeds *)

(** No child of the process tree is open. *)
Definition no_children (tx : TreeTx) : Prop :=
  forall t x, tx_open tx !! [StateTree_KindID t; x] = None.

Lemma gather_runs fuel subs m tx :
  canonical_open tx -> trees_stored tx -> no_children tx ->
  (forall q u, (q, u) ∈ subs -> exists t, q = [StateTree_KindID t] /\ tx_open tx !! q = Some u) ->
  exists m', gather_updates (propagateRoot (S fuel)) subs m tx = (tx, Ok m').
Proof.
  intros Hcan Hst Hno. revert m. induction subs as [|[q u] subs IH]; intros m Hsubs; [by eexists|].
  destruct (Hsubs q u) as (t & -> & Hu); [left|]. destruct (Hst _ _ Hu) as [t0 Ht0].
  assert (Hnil : openSubs [StateTree_KindID t] (tx_open tx) = []).
  { apply elem_of_nil_inv. intros [q' u'] Hq. apply subs_singleton in Hq as (-> & Hq & x & ->); [|done].
    by rewrite Hno in Hq. }
  cbn [gather_updates]. rewrite (bind_run_Ok _ _ _ _ _ (propagate_leaf fuel _ _ _ _ Hu Ht0 Hnil)).
  destruct (dirtyTree u); apply IH; intros q' u' Hq; apply Hsubs; by right.
Qed.

Lemma update_leaf_runs p u key k us leaf leaf' tx :
  tx_open tx !! p = Some u -> tree_key (tu_prefix u) = key -> is_Some (db_trees (tx_db tx) !! key) ->
  leaves (stored tx key) !! k = Some leaf -> apply_updates leaf us = Ok leaf' -> blen leaf' <= 65535 ->
  exists tx', update_leaf p (k, us) tx = (tx', Ok tt).
Proof.
  intros Hu Hkey [t Ht] Hleaf Happ Hlen. unfold stored in Hleaf. rewrite Ht in Hleaf. simpl in Hleaf.
  destruct (update_present t k leaf') as [t' Ht']; [by eexists|done|].
  eexists. unfold update_leaf. cbn [fst snd]. subst key.
  erewrite bind_run_Ok by (rewrite (TU_Get_run _ _ _ _ _ Hu Ht), (get_found _ _ _ Hleaf); reflexivity).
  rewrite (bind_run_Ok _ _ tx tx leaf') by (unfold lift; by rewrite Happ).
  rewrite (TU_tree_Set_run _ _ _ _ _ _ Hu Ht). unfold tree_set. by rewrite Ht'.
Qed.

Lemma mfor_update_leaf_runs p u key kus tx :
  tx_open tx !! p = Some u -> tree_key (tu_prefix u) = key -> is_Some (db_trees (tx_db tx) !! key) ->
  NoDup kus.*1 ->
  (forall k us, (k, us) ∈ kus -> exists leaf leaf', leaves (stored tx key) !! k = Some leaf /\
     apply_updates leaf us = Ok leaf' /\ blen leaf' <= 65535) ->
  exists tx', mfor kus (update_leaf p) tx = (tx', Ok tt).
Proof.
  intros Hu Hkey. revert tx Hu. induction kus as [|[k us] kus IH]; intros tx Hu Hs Hnd Hin; [by eexists|].
  apply NoDup_cons in Hnd as [Hk Hnd].
  destruct (Hin k us) as (leaf & leaf' & Hleaf & Happ & Hlen); [left|].
  destruct (update_leaf_runs p u key k us leaf leaf' tx) as [tx1 Hrun]; [done..|].
  destruct (update_leaf_Ok _ _ _ _ _ _ _ Hu Hkey Hrun) as (Ho & lf & lf' & Hlf & _ & Hl).
  destruct (IH tx1) as [tx' Hrun'].
  - by rewrite (one_open _ _ _ Ho).
  - by apply (one_some _ _ _ Ho).
  - done.
  - intros k' us' Hin'. assert (k <> k') by (intros ->; apply Hk, list_elem_of_fmap; by exists (k', us')).
    rewrite Hl, lookup_insert_ne by done. apply Hin. by right.
  - exists tx'. simpl. by rewrite (bind_run_Ok _ _ _ _ _ Hrun).
Qed.

Lemma depth_ge p u open : open !! p = Some u -> (List.length p <= depth open)%nat.
Proof.
  intros Hp. unfold depth.
  pose proof (proj1 (List.list_max_le _ _) (le_n (list_max (List.length <$> (map_to_list open).*1)))) as Hall.
  rewrite Forall_forall in Hall. apply Hall, list_elem_of_fmap. exists p. split; [done|].
  apply list_elem_of_fmap. exists (p, u). split; [done|]. by apply elem_of_map_to_list.
Qed.

Lemma propagate_main_runs tx :
  wf_tx tx -> no_children tx -> exists tx' r, propagateRoot (S (depth (tx_open tx))) [] tx = (tx', Ok r).
Proof.
  intros Hwf Hno. destruct (wf_main tx Hwf) as [u Hu]. destruct (wf_open tx Hwf _ _ Hu) as [Hcan [mt Hmt]].
  apply canonical_main_inv in Hcan. assert (Hkey : tree_key (tu_prefix u) = main_key) by by rewrite Hcan.
  destruct (openSubs [] (tx_open tx)) as [|[q w] subs] eqn:Hsubs.
  { do 2 eexists. by apply (propagate_leaf _ _ u mt). }
  assert (Hall : forall q' u', (q', u') ∈ (q, w) :: subs ->
    exists t, q' = [StateTree_KindID t] /\ tx_open tx !! q' = Some u' /\ tu_cfg u' = StateTreeCfg t).
  { intros q' u' Hq. apply subs_main; [by apply wf_canonical_open|]. by rewrite Hsubs. }
  assert (exists f, depth (tx_open tx) = S f) as [f ->].
  { destruct (Hall q w) as (t & -> & Hq & _); [left|]. apply depth_ge in Hq. simpl in Hq.
    destruct (depth (tx_open tx)); [lia|eauto]. }
  cbn [propagateRoot]. rewrite bind_gets, (bind_run_Ok _ _ _ _ _ (node_run _ _ _ Hu)), Hsubs.
  destruct (gather_runs f ((q, w) :: subs) ∅ tx) as [m Hg];
    [by apply wf_canonical_open|by apply wf_trees_stored|done| |].
  { intros q' u' Hq. destruct (Hall _ _ Hq) as (t & ? & ? & _). eauto. }
  cbn [propagateRoot] in Hg. rewrite (bind_run_Ok _ _ _ _ _ Hg).
  destruct (bool_decide _ && _); [by do 2 eexists|].
  assert (G : gathered (openSubs [] (tx_open tx)) ∅ m tx tx).
  { rewrite Hsubs. eapply (gather_main (S f)); [by apply wf_canonical_open|by apply wf_trees_stored| |done|exact Hg].
    rewrite <- Hsubs. apply openSubs_NoDup. }
  destruct (mfor_update_leaf_runs [] u main_key (map_to_list m) tx) as [tx' Hm];
    [done|done|by rewrite Hkey in Hmt; eexists|apply NoDup_fst_map_to_list| |].
  { intros k us Hk%elem_of_map_to_list. destruct (gathered_entry _ _ _ _ _ _ G Hk) as (t & -> & ->).
    destruct (wf_leaf tx Hwf t) as (r & Hr & Hlen). exists r, (arbo_root (stored tx (st_key t))).
    split; [done|]. cbn. unfold rootLeafSetRoot. rewrite Hlen. split; [done|].
    unfold blen. rewrite root_length. lia. }
  rewrite (bind_run_Ok _ _ _ _ _ Hm).
  apply mfor_update_leaf with (u := u) (key := main_key) in Hm as (Ho & _);
    [|done|done|apply NoDup_fst_map_to_list].
  destruct (one_some _ _ _ Ho) as [mt' Hmt']; [rewrite Hkey in Hmt; by eexists|].
  do 2 eexists. unfold TU_Root. rewrite <- (one_open _ _ _ Ho) in Hu. rewrite <- Hkey in Hmt'.
  erewrite bind_run_Ok; [reflexivity|].
  rewrite (bind_run_Ok _ _ _ _ _ (node_run _ _ _ Hu)).
  by rewrite (bind_run_Ok _ _ _ _ _ (node_tree_run _ _ _ Hmt')).
Qed.

Lemma TreeTx_Commit_runs v tx :
  wf_tx tx -> no_children tx -> main_clean tx -> exists tx', TreeTx_Commit v tx = (tx', Ok tt).
Proof.
  intros Hwf Hno Hc. destruct (propagate_main_runs tx Hwf Hno) as (tx1 & r & Hp).
  pose proof (propagate_main _ _ _ _ Hwf Hp) as S. pose proof (wf_version tx Hwf Hc) as Hver.
  rewrite <- (getRoot_kv (tx_db tx1)) in Hver by apply S.
  unfold getRoot in Hver. destruct (getVersion (tx_db tx1)) as [cur|e|w] eqn:Hcur; try done.
  cbn [mbind outcome_bind] in Hver. unfold TreeTx_Commit.
  destruct r as [root|]; eexists; rewrite bind_gets, (bind_run_Ok _ _ _ _ _ Hp);
    (erewrite bind_run_Ok; [|reflexivity]); rewrite bind_gets; cbn [tx_db on_open]; rewrite Hcur;
    (erewrite bind_run_Ok; [|reflexivity]); (erewrite bind_run_Ok; [reflexivity|]); [reflexivity|].
  unfold lift. by rewrite Hver.
Qed.
End commit.
