(* ===== verification/Account.v ===== *)
(** * Accounts, balances and the faucet

    Models the operations of [src/vochain/account.go] on accounts and on the state.
    The checks of the account transactions are in [AccountTx.v].  A [*Account] that the
    code tests against nil is an [option]; two reads of the same address give two
    separate objects, so that changing one does not change the other. *)

From stdpp Require Import base option list strings gmap.
From S2P Require Import Prelude GoMonad GoLib Sha256 Models External Ethereum Tree StateDB.
From S2P Require Import StateTrees State StateFacts.

(** ** Operations on an account *)

(** [Transfer]: the new origin and destination. *)
Definition Transfer (a : Account) (dest : option Account) (amount : Z) :
  outcome (Account * Account) :=
  if amount =? 0 then Err (Errorf "cannot transfer zero amount")
  else match dest with
       | None => Err (Errorf "destination account nil")
       | Some dest =>
           if Balance a <? amount then Err ErrNotEnoughBalance
           else if u64 (Balance dest + amount) <=? Balance dest then Err ErrBalanceOverflow
           else Ok (with_Balance (u64 (Balance a - amount)) a,
                    with_Balance (u64 (Balance dest + amount)) dest)
       end.

Definition IsDelegate (a : Account) (addr : Address) : bool :=
  existsb (fun d => bool_decide (addr_bytes addr = d)) (DelegateAddrs a).

Definition AddDelegate (a : Account) (addr : Address) : outcome Account :=
  if IsDelegate a addr then Err (Errorf "address is already a delegate")
  else Ok (with_DelegateAddrs (DelegateAddrs a ++ [addr_bytes addr]) a).

(** The loop of [DelDelegate]: the range is over the [n] elements of the backing array
    [arr], which the body overwrites; [len] is the current length of the slice. *)
Fixpoint del_loop (addr : bytes) (n i len : nat) (arr : list bytes) : outcome (list bytes) :=
  match n with
  | O => Ok (take len arr)
  | S n' =>
      match arr !! i with
      | None => Ok (take len arr)
      | Some d =>
          if bool_decide (addr = d) then
            if (len <=? i)%nat then Panic "index out of range"
            else match arr !! (len - 1)%nat with
                 | None => Panic "index out of range"
                 | Some l => del_loop addr n' (S i) (len - 1) (<[i := l]> arr)
                 end
          else del_loop addr n' (S i) len arr
      end
  end.

Definition DelDelegate (a : Account) (addr : Address) : outcome Account :=
  let l := DelegateAddrs a in
  l' ← del_loop (addr_bytes addr) (List.length l) 0 (List.length l) l;
  Ok (with_DelegateAddrs l' a).

Section account.
Context `{Arbo, Lru, Proto, EthCrypto}.

Definition GetAccount (address : Address) (committed : bool) : GoM State (option Account) :=
  v ← mainTreeViewer committed;
  r ← catch (V_DeepGet v (addr_bytes address) [StateTreeCfg TreeAccounts]);
  match r with
  | inl e => if errors_is e arbo_ErrKeyNotFound then mret None else throw e
  | inr raw => acc ← Unmarshal raw; mret (Some acc)
  end.

Definition SetAccount (accountAddress : Address) (account : Account) : GoM State unit :=
  accBytes ← Marshal account;
  on_Tx (DeepSet [] (addr_bytes accountAddress) accBytes [StateTreeCfg TreeAccounts]).

(** [if acc == nil { return ErrAccountNotExist }]. *)
Definition existing (acc : option Account) : GoM State Account :=
  match acc with Some a => mret a | None => throw ErrAccountNotExist end.

Definition TransferBalance (from to : Address) (amount : Z) : GoM State unit :=
  accFrom ← GetAccount from false;
  accFrom ← existing accFrom;
  accTo ← GetAccount to false;
  accTo ← existing accTo;
  r ← lift (Transfer accFrom (Some accTo) amount);
  let '(accFrom, accTo) := r in
  SetAccount from accFrom;;
  SetAccount to accTo.

Definition MintBalance (address : Address) (amount : Z) : GoM State unit :=
  (when amount =? 0 return Errorf "cannot mint a zero amount balance";
   acc ← wrapping "mintBalance" (GetAccount address false);
   acc ← existing acc;
   when u64 (Balance acc + amount) <=? Balance acc return ErrBalanceOverflow;
   SetAccount address (with_Balance (u64 (Balance acc + amount)) acc))%go.

Definition AccountFromSignature (message signature : bytes) : GoM State (Address * Account) :=
  pubKey ← wrapping "cannot extract public key from signature"
             (lift (PubKeyFromSignature message signature));
  address ← wrapping "cannot extract address from public key" (lift (AddrFromPublicKey pubKey));
  (when bool_decide (address = zero_address) return Errorf "invalid address";
   acc ← wrapping "cannot get account" (GetAccount address false);
   acc ← existing acc;
   mret (address, acc))%go.

Definition SetAccountInfoURI (accountAddress : Address) (infoURI : string) : GoM State unit :=
  acc ← GetAccount accountAddress false;
  acc ← existing acc;
  SetAccount accountAddress (with_InfoURI infoURI acc).

Definition IncrementAccountProcessIndex (accountAddress : Address) : GoM State unit :=
  acc ← GetAccount accountAddress false;
  acc ← existing acc;
  let index := if 2 ^ 22 <? ProcessIndex acc then 0 else ProcessIndex acc in
  SetAccount accountAddress (with_ProcessIndex (u32 (index + 1)) acc).

(** [make([][]byte, len(delegates))] followed by [append]. *)
Definition initial_delegates (delegates : list Address) : list bytes :=
  if (List.length delegates =? 0)%nat then []
  else replicate (List.length delegates) ""
       ++ (addr_bytes <$> filter (fun v => v <> zero_address) delegates).

Definition CreateAccount (accountAddress : Address) (infoURI : string) (delegates : list Address)
  (initBalance : Z) : GoM State unit :=
  (when bool_decide (accountAddress = zero_address) return Errorf "invalid address";
   acc ← wrapping "cannot create account" (GetAccount accountAddress false);
   when bool_decide (acc <> None) return ErrAccountAlreadyExists;
   SetAccount accountAddress
     (mkAccount initBalance 0 infoURI (initial_delegates delegates) 0))%go.

(** [crypto.Sha256] of the issuer's address and the identifier in little endian. *)
Definition faucet_key (from : Address) (identifier : Z) : bytes :=
  sha256 (addr_bytes from +:+ LittleEndian_PutUint64 identifier).

Definition ConsumeFaucetPayload (from : Address) (faucetPayload : option FaucetPayload)
  (txType : TxType) : GoM State unit :=
  match faucetPayload with
  | None => throw (Errorf "faucet payload is nil")
  | Some faucetPayload =>
      (when bool_decide (from = zero_address) return Errorf "invalid from account";
       accFrom ← GetAccount from false;
       accFrom ← existing accFrom;
       let accToAddr := BytesToAddress (FP_To faucetPayload) in
       accTo ← GetAccount accToAddr false;
       accTo ← existing accTo;
       burnAcc ← GetAccount BurnAddress false;
       burnAcc ← existing burnAcc;
       r ← wrapping "cannot transfer balance to burn account"
             (lift (Transfer accFrom (Some accTo) (Amount faucetPayload)));
       let '(accFrom, accTo) := r in
       r ← (if bool_decide (txType = SET_ACCOUNT_INFO) then
              collectFaucetCost ← TxCost COLLECT_FAUCET false;
              r ← wrapping "cannot transfer balance to burn account"
                    (lift (Transfer accFrom (Some burnAcc) collectFaucetCost));
              mret (r.1, accTo, r.2)
            else mret (accFrom, with_Nonce (u32 (Nonce accTo + 1)) accTo, burnAcc));
       let '(accFrom, accTo, burnAcc) := r in
       SetFaucetNonce (faucet_key from (Identifier faucetPayload));;
       SetAccount from accFrom;;
       SetAccount accToAddr accTo;;
       SetAccount BurnAddress burnAcc)%go
  end.

Definition SubtractCostIncrementNonce (accountAddress : Address) (txType : TxType) : GoM State unit :=
  acc ← wrapping "subtractCostIncrementNonce" (GetAccount accountAddress false);
  acc ← existing acc;
  cost ← wrapping "subtractCostIncrementNonce" (TxCost txType false);
  let acc := if bool_decide (txType = COLLECT_FAUCET) then acc
             else with_Nonce (u32 (Nonce acc + 1)) acc in
  acc ← (if cost =? 0 then mret acc
         else
           burnAcc ← wrapping "subtractCostIncrementNonce" (GetAccount BurnAddress false);
           match burnAcc with
           | None => throw (Errorf "subtractCostIncrementNonce: burn account does not exist")
           | Some burnAcc =>
               r ← wrapping "subtractCostIncrementNonce" (lift (Transfer acc (Some burnAcc) cost));
               wrapping "subtractCostIncrementNonce" (SetAccount BurnAddress r.2);;
               mret r.1
           end);
  wrapping "subtractCostIncrementNonce" (SetAccount accountAddress acc).

Definition SetAccountDelegate (accountAddr delegateAddr : Address) (txType : TxType) :
  GoM State unit :=
  acc ← GetAccount accountAddr false;
  acc ← existing acc;
  match txType with
  | ADD_DELEGATE_FOR_ACCOUNT =>
      acc ← wrapping "cannot add delegate, AddDelegate" (lift (AddDelegate acc delegateAddr));
      SetAccount accountAddr acc
  | DEL_DELEGATE_FOR_ACCOUNT =>
      acc ← lift (DelDelegate acc delegateAddr);
      SetAccount accountAddr acc
  | _ => throw (Errorf "invalid setDelegate tx type")
  end.
End account.
