(* ===== verification/AccountFacts.v ===== *)
(** * What the account operations do

    [account s a] is the account stored at [a], [supply s] the sum of all balances.
    The lemmas give the effect of every operation of [Account.v] on them; [updated] is
    the effect of one [SetAccount]. *)

From stdpp Require Import base option list strings gmap.
From S2P Require Import Prelude GoMonad GoLib Sha256 Models External Ethereum Tree StateDB StateTrees State StateFacts.
From S2P Require Import Account.

Section account_facts.
Context `{ArboLaws, Lru, ProtoLaws, EthCryptoLaws}.

Definition account (s : State) (a : Address) : option Account :=
  sview s TreeAccounts !! addr_bytes a ≫= unmarshal.

Definition raw_balance (raw : bytes) : Z := from_option Balance 0 (unmarshal (A:=Account) raw).

Definition supply (s : State) : Z := msum raw_balance (sview s TreeAccounts).

Definition balance (s : State) (a : Address) : Z := from_option Balance 0 (account s a).

Lemma account_range s a acc :
  account s a = Some acc -> is_u64 (Balance acc) /\ is_u32 (Nonce acc) /\ is_u32 (ProcessIndex acc).
Proof.
  unfold account. intros (raw & _ & Hacc)%bind_Some. by eapply unmarshal_Account_range.
Qed.

Lemma account_balance_range s a acc : account s a = Some acc -> is_u64 (Balance acc).
Proof. by intros [? _]%account_range. Qed.

(** ** Reads *)

Lemma sreads_wf s s' : wf s -> sreads s s' -> wf s'.
Proof. intros Hwf Hr. by apply (sreads_use s s'). Qed.

Lemma account_reads s s' a : wf s -> sreads s s' -> account s' a = account s a.
Proof. intros Hwf Hr. apply sreads_use in Hr as (_ & _ & Hv & _); [|done]. unfold account. by rewrite Hv. Qed.

Lemma supply_reads s s' : wf s -> sreads s s' -> supply s' = supply s.
Proof. intros Hwf Hr. apply sreads_use in Hr as (_ & _ & Hv & _); [|done]. unfold supply. by rewrite Hv. Qed.

Lemma addr_key_fits (a : Address) : 8 * blen (addr_bytes a) <= 256.
Proof. unfold blen. rewrite addr_bytes_length. lia. Qed.

Lemma GetAccount_run a s :
  wf s ->
  exists s', sreads s s' /\ GetAccount a false s =
    (s', match sview s TreeAccounts !! addr_bytes a with
         | None => Ok None
         | Some raw => match unmarshal raw with
                       | Some acc => Ok (Some acc)
                       | None => Err (Errorf "proto: unmarshal")
                       end
         end).
Proof.
  intros Hwf.
  destruct (V_DeepGet_run TreeAccounts (addr_bytes a) s Hwf) as (s' & Hrun & Hr).
  exists s'. split; [done|]. unfold GetAccount, mainTreeViewer.
  unfold mbind, gom_bind, mret, gom_ret, catch. rewrite Hrun.
  destruct (sview s TreeAccounts !! addr_bytes a) as [raw|] eqn:E.
  - rewrite (leaf_result_Some _ _ _ _ E). unfold Unmarshal. by destruct (unmarshal raw).
  - rewrite (leaf_result_None _ _ _ Hwf E) by apply addr_key_fits. by rewrite errors_is_refl.
Qed.

(** A successful [GetAccount] returns the stored account, and changes no content. *)
Lemma GetAccount_Ok a s s' r :
  wf s -> GetAccount a false s = (s', Ok r) -> sreads s s' /\ r = account s a.
Proof.
  intros Hwf Hrun. destruct (GetAccount_run a s Hwf) as (s1 & Hr & Heq).
  rewrite Heq in Hrun. unfold account.
  destruct (sview s TreeAccounts !! addr_bytes a) as [raw|]; simpl; [|by simplify_eq].
  destruct (unmarshal raw); by simplify_eq.
Qed.

Lemma existing_Ok o s s' acc : existing o s = (s', Ok acc) <-> s' = s /\ o = Some acc.
Proof.
  destruct o as [a|]; simpl.
  - rewrite ret_Ok. split; [by intros [-> ->] | by intros [-> [= ->]]].
  - rewrite throw_Ok. split; [done | by intros [_ ?]].
Qed.

(** ** Writes *)

Record updated (a : Address) (acc : Account) (s s' : State) : Prop := {
  updated_wf : wf s';
  updated_only_tx : only_tx s s';
  updated_account b : account s' b = if decide (b = a) then Some acc else account s b;
  updated_supply : supply s' = supply s - balance s a + Balance acc;
  updated_view t : t <> TreeAccounts -> sview s' t = sview s t;
  updated_kv : kv s' = kv s;
}.

Lemma wrote_account a acc b s s' :
  marshal acc = Some b -> wrote TreeAccounts (addr_bytes a) b s s' -> updated a acc s s'.
Proof.
  intros Hb Hw. pose proof (unmarshal_marshal _ _ Hb) as Hacc.
  split; try apply Hw.
  - intros a'. unfold account. rewrite (wrote_view _ _ _ _ _ Hw).
    case_decide as Ha; subst.
    + rewrite lookup_insert_eq. exact Hacc.
    + rewrite lookup_insert_ne; [done|]. by intros ?%addr_bytes_inj.
  - unfold supply, balance, account. rewrite (wrote_view _ _ _ _ _ Hw), msum_insert.
    unfold raw_balance at 3. rewrite Hacc. simpl.
    destruct (sview s TreeAccounts !! addr_bytes a); simpl; [|done]. done.
Qed.

Lemma SetAccount_Ok a acc s s' u :
  wf s -> SetAccount a acc s = (s', Ok u) -> updated a acc s s'.
Proof.
  intros Hwf Hrun. unfold SetAccount in Hrun. go_inv. destruct u.
  apply Marshal_Ok in Hrun0 as [-> Hb].
  eapply wrote_account; [exact Hb|]. by apply DeepSet_Ok.
Qed.

(** An encoded account fits in a leaf. *)
Definition storable (acc : Account) : Prop := exists b, marshal acc = Some b /\ blen b <= 65535.

Lemma SetAccount_run a acc s :
  wf s -> is_Some (account s a) -> storable acc -> exists s', SetAccount a acc s = (s', Ok tt).
Proof.
  intros Hwf [x (raw & Hraw & _)%bind_Some] (b & Hb & Hlen).
  destruct (DeepSet_present TreeAccounts (addr_bytes a) b s) as [s' Hs']; [done|by eexists|done|].
  exists s'. unfold SetAccount, Marshal. rewrite Hb. exact Hs'.
Qed.

Lemma GetAccount_found a s acc :
  wf s -> account s a = Some acc -> exists s', GetAccount a false s = (s', Ok (Some acc)) /\ sreads s s'.
Proof.
  intros Hwf Hacc. destruct (GetAccount_run a s Hwf) as (s' & Hr & Hrun). exists s'. split; [|done].
  rewrite Hrun. apply bind_Some in Hacc as (raw & -> & ->). done.
Qed.

(** ** Transaction costs *)

(** The cost stored for a type of transaction. *)
Definition tx_cost (s : State) (t : TxType) : option Z :=
  key ← TxTypeCostToStateKey t;
  raw ← sview s TreeExtra !! key;
  match LittleEndian_Uint64 raw with Ok c => Some c | _ => None end.

Lemma tx_cost_reads s s' t : wf s -> sreads s s' -> tx_cost s' t = tx_cost s t.
Proof.
  intros Hwf Hr. apply sreads_use in Hr as (_ & _ & Hv & _); [|done]. unfold tx_cost.
  destruct (TxTypeCostToStateKey t); simpl; [by rewrite Hv | done].
Qed.

Lemma tx_cost_updated a acc s s' t : updated a acc s s' -> tx_cost s' t = tx_cost s t.
Proof.
  intros Hu. unfold tx_cost.
  destruct (TxTypeCostToStateKey t); simpl; [by rewrite (updated_view _ _ _ _ Hu) | done].
Qed.

Lemma LittleEndian_Uint64_range b c : LittleEndian_Uint64 b = Ok c -> is_u64 c.
Proof.
  unfold LittleEndian_Uint64. destruct (Nat.ltb_spec (String.length b) 8); [done|].
  intros [= <-]. pose proof (le_val_range (btake 8 b)) as Hr. unfold blen in Hr.
  rewrite length_btake, Nat.min_l in Hr by done. exact Hr.
Qed.

Lemma TxCost_Ok t s s' c :
  wf s -> TxCost t false s = (s', Ok c) -> sreads s s' /\ tx_cost s t = Some c /\ is_u64 c.
Proof.
  intros Hwf Hrun. unfold TxCost in Hrun. unfold tx_cost.
  destruct (TxTypeCostToStateKey t) as [key|]; [|go_inv]. simpl.
  unfold mainTreeViewer in Hrun. go_inv.
  match goal with H1 : V_SubTree _ _ _ = _, H2 : V_Get _ _ _ = _ |- _ =>
    destruct (read_leaf_Ok _ _ _ _ _ _ _ Hwf H1 H2) as [Hr Hleaf] end.
  rewrite Hleaf. simpl. rewrite Hrun.
  split_and!; [done|done|by eapply LittleEndian_Uint64_range].
Qed.

(** ** Invariance of the well-formedness *)

Lemma sreads_GetAccount a c : keeps sreads (GetAccount a c).
Proof. unfold GetAccount. skeeps_auto. Qed.

Lemma spreserves_SetAccount a acc : keeps spreserves (SetAccount a acc).
Proof.
  unfold SetAccount. keeps_auto.
Qed.

(** ** Transfers *)

Lemma overflow_check b amount :
  is_u64 b -> is_u64 amount -> amount <> 0 ->
  (u64 (b + amount) <=? b) = false <-> b + amount < 2 ^ 64.
Proof.
  intros Hb Ha Hne. rewrite Z.leb_gt.
  destruct (u64_add_cases b amount Hb Ha) as [[? ->]|[? ->]]; unfold is_u64 in *; lia.
Qed.

Lemma Transfer_Ok a dest amount r :
  is_u64 (Balance a) -> is_u64 (Balance dest) -> is_u64 amount ->
  Transfer a (Some dest) amount = Ok r <->
  0 < amount <= Balance a /\ Balance dest + amount < 2 ^ 64 /\
  r = (with_Balance (Balance a - amount) a, with_Balance (Balance dest + amount) dest).
Proof.
  intros Ha Hd Hm. unfold Transfer. unfold is_u64 in *.
  destruct (Z.eqb_spec amount 0); [split; [done | lia]|].
  destruct (Z.ltb_spec (Balance a) amount); [split; [done | lia]|].
  destruct (u64 (Balance dest + amount) <=? Balance dest) eqn:E.
  - split; [done|]. intros (_ & Hlt & _). apply overflow_check in Hlt; unfold is_u64; [congruence|lia..].
  - apply overflow_check in E; unfold is_u64; [|lia..].
    rewrite !u64_id by (unfold is_u64; lia). split; [intros [= <-]; split_and!; (done || lia) |].
    by intros (_ & _ & ->).
Qed.

Lemma Transfer_not_panic a dest amount w : Transfer a dest amount <> Panic w.
Proof.
  unfold Transfer. destruct (amount =? 0); [done|]. destruct dest; [|done].
  destruct (_ <? _); [done|]. by destruct (_ <=? _).
Qed.

Lemma Balance_with_Balance x a : Balance (with_Balance x a) = x.
Proof. done. Qed.

(** Two updates in a row, as every transfer between accounts does. *)
Lemma updated_twice a x b y s s1 s2 :
  updated a x s s1 -> updated b y s1 s2 ->
  wf s2 /\ only_tx s s2 /\
  (forall c, account s2 c = if decide (c = b) then Some y else if decide (c = a) then Some x
                           else account s c) /\
  supply s2 = supply s - balance s a + Balance x
              - (if decide (b = a) then Balance x else balance s b) + Balance y /\
  (forall t, t <> TreeAccounts -> sview s2 t = sview s t) /\ kv s2 = kv s.
Proof.
  intros Hu1 Hu2. split_and!.
  - apply Hu2.
  - etrans; [apply Hu1 | apply Hu2].
  - intros c. rewrite (updated_account _ _ _ _ Hu2), (updated_account _ _ _ _ Hu1). done.
  - rewrite (updated_supply _ _ _ _ Hu2), (updated_supply _ _ _ _ Hu1).
    unfold balance at 2. rewrite (updated_account _ _ _ _ Hu1). case_decide; [done|]. done.
  - intros t Ht. by rewrite (updated_view _ _ _ _ Hu2), (updated_view _ _ _ _ Hu1).
  - by rewrite (updated_kv _ _ _ _ Hu2), (updated_kv _ _ _ _ Hu1).
Qed.

(** The account operations of a run, in terms of the state it started from. *)
Lemma updated_reads a acc s s1 s2 :
  wf s -> sreads s s1 -> updated a acc s1 s2 -> updated a acc s s2.
Proof.
  intros Hwf Hr Hu. pose proof (sreads_use _ _ Hr Hwf) as (Hwf1 & Ho & Hv & Hk). split.
  - apply Hu.
  - etrans; [exact Ho | apply Hu].
  - intros b. rewrite (updated_account _ _ _ _ Hu). case_decide; [done|]. by apply account_reads.
  - rewrite (updated_supply _ _ _ _ Hu). unfold balance. by rewrite (supply_reads s s1), (account_reads s s1).
  - intros t Ht. by rewrite (updated_view _ _ _ _ Hu).
  - by rewrite (updated_kv _ _ _ _ Hu).
Qed.

Lemma SetFaucetNonce_Ok k s s' u :
  wf s -> SetFaucetNonce k s = (s', Ok u) -> wrote TreeFaucet k "" s s'.
Proof. intros Hwf Hrun. destruct u. by apply DeepSet_Ok. Qed.

End account_facts.

(** [acc_inv] continues [go_inv] through the account operations, and brings what they
    read back to the first state of the run. *)
Ltac acc_inv1 :=
  match goal with
  | H : existing _ _ = (_, Ok _) |- _ => apply existing_Ok in H as [? H]; subst
  | Hwf : wf ?s, H : GetAccount ?a false ?s = (?s1, Ok ?r) |- _ =>
      let Hr := fresh "Hr" in let Hw := fresh "Hwf" in
      apply GetAccount_Ok in H as [Hr H]; [|exact Hwf]; try subst r;
      pose proof (sreads_wf _ _ Hwf Hr) as Hw
  | Hwf : wf ?s, H : SetAccount ?a ?acc ?s = (?s1, Ok _) |- _ =>
      let Hw := fresh "Hwf" in
      apply SetAccount_Ok in H; [|exact Hwf]; pose proof (updated_wf _ _ _ _ H) as Hw
  | Hr : sreads ?s ?s1, Hwf : wf ?s, H : context [account ?s1 ?a] |- _ =>
      rewrite (account_reads s s1 a Hwf Hr) in H
  | H : Some _ = account _ _ |- _ => symmetry in H
  | H : None = account _ _ |- _ => symmetry in H
  | H : (let '(_, _) := ?r in _) _ = (_, Ok _) |- _ => destruct r eqn:?
  end.
Ltac acc_inv := repeat (go_inv1 || acc_inv1).

(** The cost of a transaction, likewise. *)
Ltac cost_inv1 :=
  match goal with
  | Hwf : wf ?s, H : TxCost ?t false ?s = (?s1, Ok ?c) |- _ =>
      let Hr := fresh "Hr" in let Hw := fresh "Hwf" in let Hc := fresh "Hcost" in
      apply TxCost_Ok in H as (Hr & H & Hc); [|exact Hwf];
      pose proof (sreads_wf _ _ Hwf Hr) as Hw
  | Hr : sreads ?s ?s1, Hwf : wf ?s, H : context [tx_cost ?s1 ?a] |- _ =>
      rewrite (tx_cost_reads s s1 a Hwf Hr) in H
  end.

Ltac faucet_inv1 :=
  match goal with
  | Hwf : wf ?s, H : SetFaucetNonce _ ?s = (?s1, Ok _) |- _ =>
      let Hw := fresh "Hwf" in
      apply SetFaucetNonce_Ok in H; [|exact Hwf]; pose proof (wrote_wf _ _ _ _ _ H) as Hw
  end.

(** ** The operations *)

Section operations.
Context `{ArboLaws, Lru, ProtoLaws, EthCryptoLaws}.

Lemma TransferBalance_Ok from to amount s s' u :
  wf s -> is_u64 amount -> TransferBalance from to amount s = (s', Ok u) ->
  exists af at',
    account s from = Some af /\ account s to = Some at' /\
    0 < amount <= Balance af /\ Balance at' + amount < 2 ^ 64 /\
    exists s1, updated from (with_Balance (Balance af - amount) af) s s1 /\
      updated to (with_Balance (Balance at' + amount) at') s1 s'.
Proof.
  intros Hwf Ham Hrun. unfold TransferBalance in Hrun. acc_inv. subst.
  match goal with Ht : Transfer _ _ _ = Ok _ |- _ =>
    apply Transfer_Ok in Ht as (Hle & Hov & [= -> ->]); [|eauto using account_balance_range..] end.
  do 2 eexists. split_and!; [eassumption|eassumption|lia|lia|lia|].
  eexists. split; [|eassumption]. eapply updated_reads; [exact Hwf| |eassumption]. by etrans.
Qed.

Lemma MintBalance_Ok address amount s s' u :
  wf s -> is_u64 amount -> MintBalance address amount s = (s', Ok u) ->
  exists acc, account s address = Some acc /\ 0 < amount /\ Balance acc + amount < 2 ^ 64 /\
    updated address (with_Balance (Balance acc + amount) acc) s s'.
Proof.
  intros Hwf Ham Hrun. unfold MintBalance in Hrun. acc_inv.
  match goal with Hz : (amount =? 0) = false |- _ => apply Z.eqb_neq in Hz end.
  match goal with Hacc : account s address = Some ?acc |- _ =>
    pose proof (account_balance_range _ _ _ Hacc) as Hb; exists acc end.
  match goal with Hov : (u64 _ <=? _) = false |- _ =>
    apply overflow_check in Hov as Hlt; [|done..] end.
  unfold is_u64 in *. rewrite u64_id in Hrun by (unfold is_u64; lia).
  split_and!; [done|lia|done|]. by eapply updated_reads.
Qed.

Lemma CreateAccount_Ok address uri delegates bal s s' u :
  wf s -> CreateAccount address uri delegates bal s = (s', Ok u) ->
  address <> zero_address /\ account s address = None /\
  updated address (mkAccount bal 0 uri (initial_delegates delegates) 0) s s'.
Proof.
  intros Hwf Hrun. unfold CreateAccount in Hrun. acc_inv.
  repeat match goal with Hd : bool_decide _ = false |- _ => apply bool_decide_eq_false in Hd end.
  split_and!; [done| |by eapply updated_reads].
  destruct (account s address); [|done]. exfalso. naive_solver.
Qed.

Lemma SetAccountInfoURI_Ok a uri s s' u :
  wf s -> SetAccountInfoURI a uri s = (s', Ok u) ->
  exists acc, account s a = Some acc /\ updated a (with_InfoURI uri acc) s s'.
Proof.
  intros Hwf Hrun. unfold SetAccountInfoURI in Hrun. acc_inv.
  eexists. split; [done|]. by eapply updated_reads.
Qed.

(** The index restarts at 1 after 2^22 + 1, far below the width of the field. *)
Definition next_process_index (i : Z) : Z := if 2 ^ 22 <? i then 1 else i + 1.

Lemma IncrementAccountProcessIndex_Ok a s s' u :
  wf s -> IncrementAccountProcessIndex a s = (s', Ok u) ->
  exists acc, account s a = Some acc /\
    updated a (with_ProcessIndex (next_process_index (ProcessIndex acc)) acc) s s'.
Proof.
  intros Hwf Hrun. unfold IncrementAccountProcessIndex in Hrun. acc_inv.
  eexists. split; [done|]. eapply updated_reads; [done..|].
  match goal with Hacc : account s a = Some ?acc |- _ =>
    pose proof (account_range _ _ _ Hacc) as (_ & _ & Hi) end.
  unfold next_process_index. unfold is_u32 in Hi.
  destruct (Z.ltb_spec (2 ^ 22) (ProcessIndex a1)); rewrite u32_id in Hrun by (unfold is_u32; lia); done.
Qed.

Lemma SetAccountDelegate_Ok a d t s s' u :
  wf s -> SetAccountDelegate a d t s = (s', Ok u) ->
  exists acc acc', account s a = Some acc /\ updated a acc' s s' /\
    ((t = ADD_DELEGATE_FOR_ACCOUNT /\ AddDelegate acc d = Ok acc') \/
     (t = DEL_DELEGATE_FOR_ACCOUNT /\ DelDelegate acc d = Ok acc')).
Proof.
  intros Hwf Hrun. unfold SetAccountDelegate in Hrun. acc_inv.
  destruct t; try (by apply throw_Ok in Hrun); acc_inv;
    (do 2 eexists; split_and!; [done|by eapply updated_reads|auto]).
Qed.

(** ** Costs *)

Definition bump_nonce (t : TxType) (acc : Account) : Account :=
  if bool_decide (t = COLLECT_FAUCET) then acc else with_Nonce (u32 (Nonce acc + 1)) acc.

Lemma Balance_bump_nonce t acc : Balance (bump_nonce t acc) = Balance acc.
Proof. unfold bump_nonce. by destruct (bool_decide _). Qed.

Lemma SubtractCostIncrementNonce_Ok a t s s' u :
  wf s -> SubtractCostIncrementNonce a t s = (s', Ok u) ->
  exists acc cost, account s a = Some acc /\ tx_cost s t = Some cost /\ is_u64 cost /\
    ((cost = 0 /\ updated a (bump_nonce t acc) s s') \/
     (exists burn, account s BurnAddress = Some burn /\
        0 < cost <= Balance acc /\ Balance burn + cost < 2 ^ 64 /\
        exists s1, updated BurnAddress (with_Balance (Balance burn + cost) burn) s s1 /\
          updated a (with_Balance (Balance acc - cost) (bump_nonce t acc)) s1 s')).
Proof.
  intros Hwf Hrun. unfold SubtractCostIncrementNonce in Hrun.
  repeat (go_inv1 || acc_inv1 || cost_inv1).
  change (if bool_decide (t = COLLECT_FAUCET) then ?x else _) with (bump_nonce t x) in *.
  do 2 eexists. split_and!; [done..|].
  destruct (Z.eqb_spec a2 0) as [->|Hne]; repeat (go_inv1 || acc_inv1 || cost_inv1).
  - left. split; [done|]. eapply updated_reads; [done| |done]. by etrans.
  - right. match goal with H : match ?b with Some _ => _ | None => _ end _ = (_, Ok _) |- _ =>
      destruct b as [burn|] eqn:Hburn; [|by apply throw_Ok in H] end.
    repeat (go_inv1 || acc_inv1 || cost_inv1).
    match goal with Ht : Transfer _ _ _ = Ok _ |- _ => apply Transfer_Ok in Ht as (Hle & Hov & ->);
      [|rewrite Balance_bump_nonce|..]; eauto using account_balance_range end.
    rewrite Balance_bump_nonce in *. simpl in *.
    exists burn. split_and!; [done|lia..|]. eexists. split; [|done].
    eapply updated_reads; [exact Hwf| |eassumption]. do 2 (etrans; [eassumption|]). done.
Qed.

(** Costs conserve the supply, unless the burn account itself pays. *)
Lemma SubtractCost_supply a t s s' u :
  wf s -> a <> BurnAddress -> SubtractCostIncrementNonce a t s = (s', Ok u) -> supply s' = supply s.
Proof.
  intros Hwf Hne Hrun.
  apply SubtractCostIncrementNonce_Ok in Hrun as (acc & cost & Hacc & _ & _ & [[-> Hu]|Hburn]); [| |done].
  - rewrite (updated_supply _ _ _ _ Hu), Balance_bump_nonce. unfold balance. rewrite Hacc. simpl. lia.
  - destruct Hburn as (burn & Hburn & Hle & Hov & s1 & Hu1 & Hu2).
    destruct (updated_twice _ _ _ _ _ _ _ Hu1 Hu2) as (_ & _ & _ & -> & _).
    rewrite decide_False by done. unfold balance. rewrite Hacc, Hburn. simpl. lia.
Qed.

Lemma TransferBalance_supply from to amount s s' u :
  wf s -> is_u64 amount -> TransferBalance from to amount s = (s', Ok u) ->
  supply s' = supply s + (if decide (to = from) then amount else 0).
Proof.
  intros Hwf Ham Hrun.
  apply TransferBalance_Ok in Hrun as (af & at' & Hf & Ht & Hle & Hov & s1 & Hu1 & Hu2); [|done..].
  destruct (updated_twice _ _ _ _ _ _ _ Hu1 Hu2) as (_ & _ & _ & -> & _).
  unfold balance. rewrite Hf, Ht. simpl. case_decide; subst; simplify_eq; lia.
Qed.

(** ** The faucet *)

Lemma account_wrote t k v s s' a :
  t <> TreeAccounts -> wrote t k v s s' -> account s' a = account s a.
Proof. intros Ht Hw. unfold account. by rewrite (wrote_other _ _ _ _ _ Hw). Qed.

Lemma supply_wrote t k v s s' : t <> TreeAccounts -> wrote t k v s s' -> supply s' = supply s.
Proof. intros Ht Hw. unfold supply. by rewrite (wrote_other _ _ _ _ _ Hw). Qed.

Lemma wrote_reads t k v s s1 s2 : wf s -> sreads s s1 -> wrote t k v s1 s2 -> wrote t k v s s2.
Proof.
  intros Hwf Hr Hw. destruct (sreads_use _ _ Hr Hwf) as (_ & Ho & Hv & Hk). split.
  - apply Hw.
  - etrans; [exact Ho | apply Hw].
  - by rewrite (wrote_view _ _ _ _ _ Hw), Hv.
  - intros t' Ht. by rewrite (wrote_other _ _ _ _ _ Hw), Hv.
  - by rewrite (wrote_kv _ _ _ _ _ Hw).
Qed.

(** The accounts that a consumed payload stores: origin, destination and burn account. *)
Definition faucet_accounts (txType : TxType) (af at' bn : Account) (amount cost : Z) :
  Account * Account * Account :=
  if bool_decide (txType = SET_ACCOUNT_INFO)
  then (with_Balance (Balance af - amount - cost) af, with_Balance (Balance at' + amount) at',
        with_Balance (Balance bn + cost) bn)
  else (with_Balance (Balance af - amount) af,
        with_Nonce (u32 (Nonce at' + 1)) (with_Balance (Balance at' + amount) at'), bn).

Lemma ConsumeFaucetPayload_Ok from p txType s s' u :
  wf s -> is_u64 (Amount p) -> ConsumeFaucetPayload from (Some p) txType s = (s', Ok u) ->
  let to := BytesToAddress (FP_To p) in
  exists af at' bn cost s1 s2 s3,
    from <> zero_address /\
    account s from = Some af /\ account s to = Some at' /\ account s BurnAddress = Some bn /\
    0 < Amount p /\ Balance at' + Amount p < 2 ^ 64 /\
    (if bool_decide (txType = SET_ACCOUNT_INFO)
     then tx_cost s COLLECT_FAUCET = Some cost /\ 0 < cost /\ Amount p + cost <= Balance af /\
          Balance bn + cost < 2 ^ 64
     else Amount p <= Balance af) /\
    let '(af', at2, bn') := faucet_accounts txType af at' bn (Amount p) cost in
    wrote TreeFaucet (faucet_key from (Identifier p)) "" s s1 /\
    updated from af' s1 s2 /\ updated to at2 s2 s3 /\ updated BurnAddress bn' s3 s'.
Proof.
  intros Hwf Ham Hrun to. unfold ConsumeFaucetPayload in Hrun. subst to. acc_inv. subst.
  match goal with Hd : bool_decide (from = _) = false |- _ => apply bool_decide_eq_false in Hd as Hz end.
  match goal with Ht : Transfer _ _ (Amount p) = Ok _ |- _ =>
    apply Transfer_Ok in Ht as (Hle & Hov & [= -> ->]); [|eauto using account_balance_range..] end.
  unfold faucet_accounts.
  destruct (bool_decide (txType = SET_ACCOUNT_INFO)).
  - repeat (go_inv1 || acc_inv1 || cost_inv1 || faucet_inv1). simplify_eq.
    match goal with Ht : Transfer _ _ ?c = Ok _ |- _ =>
      apply Transfer_Ok in Ht as (Hle2 & Hov2 & ->); simpl in *;
      [|unfold is_u64 in *; simpl; pose proof (account_balance_range s from _ ltac:(eassumption));
        unfold is_u64 in *; lia | eauto using account_balance_range..]; do 3 eexists; exists c; do 3 eexists end.
    split_and!; try eassumption; try lia.
    eapply wrote_reads; [exact Hwf| |eassumption]. do 3 (etrans; [eassumption|]). done.
  - repeat (go_inv1 || acc_inv1 || cost_inv1 || faucet_inv1). simplify_eq.
    do 3 eexists. exists 0. do 3 eexists. split_and!; try eassumption; try lia.
    eapply wrote_reads; [exact Hwf| |eassumption]. do 2 (etrans; [eassumption|]). done.
Qed.

End operations.

#[export] Hint Resolve sreads_GetAccount spreserves_SetAccount : keeps.

(** ** Every account operation keeps the state well formed *)

Section account_preserves.
Context `{ArboLaws, Lru, Proto, EthCrypto}.

Lemma sreads_existing o : keeps sreads (existing o).
Proof. unfold existing. skeeps_auto. Qed.
End account_preserves.
#[export] Hint Resolve sreads_existing : keeps.

Section account_preserves2.
Context `{ArboLaws, Lru, Proto, EthCrypto}.

Lemma sreads_AccountFromSignature m sig : keeps sreads (AccountFromSignature m sig).
Proof. unfold AccountFromSignature. skeeps_auto. Qed.

Lemma spreserves_TransferBalance a b n : keeps spreserves (TransferBalance a b n).
Proof. unfold TransferBalance. skeeps_auto. Qed.

Lemma spreserves_MintBalance a n : keeps spreserves (MintBalance a n).
Proof. unfold MintBalance. skeeps_auto. Qed.

Lemma spreserves_SetAccountInfoURI a u : keeps spreserves (SetAccountInfoURI a u).
Proof. unfold SetAccountInfoURI. skeeps_auto. Qed.

Lemma spreserves_IncrementAccountProcessIndex a : keeps spreserves (IncrementAccountProcessIndex a).
Proof. unfold IncrementAccountProcessIndex. skeeps_auto. Qed.

Lemma spreserves_CreateAccount a u d b : keeps spreserves (CreateAccount a u d b).
Proof. unfold CreateAccount. skeeps_auto. Qed.

Lemma spreserves_ConsumeFaucetPayload a p t : keeps spreserves (ConsumeFaucetPayload a p t).
Proof. unfold ConsumeFaucetPayload. skeeps_auto. Qed.

Lemma spreserves_SubtractCostIncrementNonce a t : keeps spreserves (SubtractCostIncrementNonce a t).
Proof. unfold SubtractCostIncrementNonce. skeeps_auto. Qed.

Lemma spreserves_SetAccountDelegate a d t : keeps spreserves (SetAccountDelegate a d t).
Proof. unfold SetAccountDelegate. skeeps_auto. Qed.
End account_preserves2.

#[export] Hint Resolve sreads_AccountFromSignature spreserves_TransferBalance spreserves_MintBalance
  spreserves_SetAccountInfoURI spreserves_IncrementAccountProcessIndex spreserves_CreateAccount
  spreserves_ConsumeFaucetPayload spreserves_SubtractCostIncrementNonce
  spreserves_SetAccountDelegate : keeps.

(** ** Delegates *)

Lemma del_loop_none d n i len arr :
  (forall k, (i <= k)%nat -> arr !! k <> Some d) -> del_loop d n i len arr = Ok (take len arr).
Proof.
  revert i. induction n as [|n IH]; intros i Hno; simpl; [done|].
  destruct (arr !! i) as [x|] eqn:Hi; [|done].
  rewrite bool_decide_eq_false_2 by (intros ->; by apply (Hno i)). apply IH. intros k Hk. apply Hno. lia.
Qed.

(** With one occurrence, the last element takes its place. *)
Lemma del_loop_one d j n i last arr :
  (i <= j)%nat -> (i + n = List.length arr)%nat -> arr !! j = Some d ->
  (forall k, k <> j -> arr !! k <> Some d) -> arr !! (List.length arr - 1)%nat = Some last ->
  del_loop d n i (List.length arr) arr = Ok (take (List.length arr - 1) (<[j := last]> arr)).
Proof.
  intros Hij Hn Hj Huniq Hlast. pose proof (lookup_lt_Some _ _ _ Hj) as Hjl.
  revert i Hij Hn. induction n as [|n IH]; intros i Hij Hn; [lia|]. simpl.
  destruct (decide (i = j)) as [->|Hne].
  - rewrite Hj, bool_decide_eq_true_2 by done. destruct (Nat.leb_spec (List.length arr) j); [lia|].
    rewrite Hlast. apply del_loop_none. intros k Hk. rewrite list_lookup_insert_ne by lia. apply Huniq. lia.
  - destruct (lookup_lt_is_Some_2 arr i) as [x Hx]; [lia|].
    rewrite Hx, bool_decide_eq_false_2 by (intros ->; by apply (Huniq i)). apply IH; lia.
Qed.

Lemma take_insert_permutation {A} j (d last : A) arr :
  arr !! j = Some d -> arr !! (List.length arr - 1)%nat = Some last ->
  d :: take (List.length arr - 1) (<[j := last]> arr) ≡ₚ arr.
Proof.
  intros Hj Hlast. pose proof (lookup_lt_Some _ _ _ Hj) as Hjl.
  destruct (exists_last (l := arr)) as (init & y & ->); [by destruct arr|].
  rewrite length_app in *. simpl in *. replace (List.length init + 1 - 1)%nat with (List.length init) in * by lia.
  rewrite lookup_app_r, Nat.sub_diag in Hlast by lia. injection Hlast as ->.
  destruct (decide (j = List.length init)) as [->|Hne].
  - rewrite lookup_app_r, Nat.sub_diag in Hj by lia. injection Hj as ->.
    rewrite list_insert_id by (by rewrite lookup_app_r, Nat.sub_diag by lia).
    rewrite take_app_length. by rewrite Permutation_app_comm.
  - rewrite lookup_app_l in Hj by lia. rewrite insert_app_l by lia.
    rewrite take_app_length' by (by rewrite length_insert).
    rewrite <- (take_drop_middle init j d Hj) at 2. rewrite insert_take_drop by lia.
    rewrite <- app_assoc. simpl. rewrite (Permutation_app_comm (drop _ _) [last]). simpl.
    by rewrite Permutation_middle.
Qed.

Lemma DelDelegate_NoDup a d :
  NoDup (DelegateAddrs a) ->
  exists l, DelDelegate a d = Ok (with_DelegateAddrs l a) /\
    (addr_bytes d ∈ DelegateAddrs a -> addr_bytes d :: l ≡ₚ DelegateAddrs a) /\
    (addr_bytes d ∉ DelegateAddrs a -> l = DelegateAddrs a).
Proof.
  intros Hnd. unfold DelDelegate. set (l := DelegateAddrs a) in *. set (x := addr_bytes d).
  destruct (decide (x ∈ l)) as [Hin|Hout].
  - apply list_elem_of_lookup_1 in Hin as [j Hj]. pose proof (lookup_lt_Some _ _ _ Hj) as Hjl.
    destruct (lookup_lt_is_Some_2 l (List.length l - 1)) as [last Hlast]; [lia|].
    rewrite (del_loop_one x j _ _ last); [|lia|done|done| |done].
    + eexists. split; [reflexivity|]. split; [by intros _; apply take_insert_permutation|].
      intros Hno. exfalso. apply Hno. by apply list_elem_of_lookup_2 in Hj.
    + intros k Hk Hx. apply Hk. by eapply NoDup_lookup.
  - rewrite del_loop_none.
    + exists l. split; [simpl; by rewrite firstn_all|]. split; [done|done].
    + intros k _ Hx. apply Hout. by apply list_elem_of_lookup_2 in Hx.
Qed.

Lemma IsDelegate_spec a d : IsDelegate a d = true <-> addr_bytes d ∈ DelegateAddrs a.
Proof.
  unfold IsDelegate. rewrite existsb_exists. setoid_rewrite bool_decide_eq_true. split.
  - intros (x & Hx & ->). by apply list_elem_of_In.
  - intros Hd. exists (addr_bytes d). split; [|done]. by apply list_elem_of_In.
Qed.

(** No two types of transactions share the key of their cost. *)
Lemma TxTypeCostToStateKey_inj t t' key :
  TxTypeCostToStateKey t = Some key -> TxTypeCostToStateKey t' = Some key -> t = t'.
Proof. destruct t; intros [= <-]; destruct t'; by intros [= ]. Qed.

(** ** What the iterations over a tree compute

    The callbacks of [Oracles], [IsOracle] and [FaucetNonce] return [true] at every leaf.
    Under the contract of arbo, by which the result only stops the branch of that leaf,
    the functions see every leaf. *)

(** The oracles among the leaves of the tree. *)
Definition oracle_leaves `{EthCrypto} (m : gmap bytes bytes) : list Address :=
  (fun kv => BytesToAddress kv.1) <$> filter (fun kv => kv.2 <> "") (map_to_list m).

Section iteration.
Context `{ArboLaws, Lru, Proto, EthCryptoLaws, !ArboIterBranch}.

Lemma fold_oracles order l :
  fold_left (fun acc kv => (oracles_callback acc kv.1 kv.2).1) order l =
  l ++ ((fun kv => BytesToAddress kv.1) <$> filter (fun kv : bytes * bytes => kv.2 <> "") order).
Proof.
  revert l. induction order as [|[k v] order IH]; intros l; simpl; [by rewrite app_nil_r|].
  rewrite IH. unfold oracles_callback. case_bool_decide as Hv.
  - by rewrite filter_cons_False by (simpl; tauto).
  - rewrite filter_cons_True by done. simpl. by rewrite <- app_assoc.
Qed.

Lemma Oracles_run s :
  wf s -> exists s' l, Oracles false s = (s', Ok l) /\ sreads s s' /\
    l ≡ₚ oracle_leaves (sview s TreeOracles).
Proof.
  intros Hwf. destruct (V_SubTree_run TreeOracles s Hwf) as (s1 & Hsub & Hr & Ho).
  pose proof (sreads_wf _ _ Hwf Hr) as Hwf1.
  destruct (iter_branch (list Address) (stored (STx s1) (st_key TreeOracles)) oracles_callback [])
    as (order & Hperm & Heq).
  exists s1, ((fun kv => BytesToAddress kv.1) <$> filter (fun kv : bytes * bytes => kv.2 <> "") order).
  split_and!; [|done|].
  - unfold Oracles, mainTreeViewer. erewrite bind_run_Ok by reflexivity.
    rewrite (bind_run_Ok _ _ _ _ _ Hsub), V_Iterate_run by done. f_equal. f_equal.
    rewrite Heq. apply (fold_oracles order []).
  - unfold oracle_leaves. destruct (sreads_use _ _ Hr Hwf) as (_ & _ & Hv & _).
    rewrite <- (Hv TreeOracles). by rewrite Hperm.
Qed.

(** An address is an oracle when its leaf is not empty. *)
Definition oracle (s : State) (a : Address) : Prop :=
  exists v, sview s TreeOracles !! addr_bytes a = Some v /\ v <> "".

(** The keys of the tree are addresses. *)
Definition oracle_keys (s : State) : Prop :=
  forall k, is_Some (sview s TreeOracles !! k) -> exists a, k = addr_bytes a.

Lemma oracle_leaves_spec s a :
  oracle_keys s -> a ∈ oracle_leaves (sview s TreeOracles) <-> oracle s a.
Proof.
  intros Hkeys. unfold oracle_leaves, oracle. rewrite list_elem_of_fmap. split.
  - intros ([k v] & -> & [Hv Hin%elem_of_map_to_list]%list_elem_of_filter). simpl in *.
    destruct (Hkeys k) as [a ->]; [by eexists|]. rewrite BytesToAddress_bytes. eauto.
  - intros (v & Hv & Hne). exists (addr_bytes a, v). split; [simpl; by rewrite BytesToAddress_bytes|].
    apply list_elem_of_filter. split; [done|]. by apply elem_of_map_to_list.
Qed.
End iteration.

Section oracle_ops.
Context `{ArboLaws, Lru, Proto, EthCryptoLaws, !ArboIterBranch}.

(** [IsOracle] decides [oracle], and fails when there is no oracle at all. *)
Lemma IsOracle_run a s :
  wf s -> oracle_keys s ->
  (exists s' b, IsOracle a s = (s', Ok b) /\ sreads s s' /\ (b = true <-> oracle s a) /\
     exists a', oracle s a') \/
  (exists s' e, IsOracle a s = (s', Err e) /\ sreads s s' /\ forall a', ~ oracle s a').
Proof.
  intros Hwf Hk. destruct (Oracles_run s Hwf) as (s1 & l & Hrun & Hr & Hperm).
  assert (Hin : forall a', a' ∈ l <-> oracle s a').
  { intros a'. rewrite <- oracle_leaves_spec by done. by rewrite Hperm. }
  unfold IsOracle. erewrite bind_run_Ok by (unfold catch; by rewrite Hrun).
  destruct l as [|a0 l].
  - right. eexists s1, _. split_and!; [done|done|]. intros a' Ha%Hin. by apply not_elem_of_nil in Ha.
  - left. eexists s1, _. split_and!; [done|done| |].
    + rewrite bool_decide_eq_true. apply Hin.
    + exists a0. apply Hin. left.
Qed.

Lemma AddOracle_Ok a s s' u :
  wf s -> AddOracle a s = (s', Ok u) -> wrote TreeOracles (addr_bytes a) exist s s'.
Proof. intros Hwf Hrun. destruct u. by apply DeepSet_Ok. Qed.

(** The leaf of a removed oracle stays, with an empty value. *)
Lemma RemoveOracle_Ok a s s' u :
  wf s -> RemoveOracle a s = (s', Ok u) ->
  is_Some (sview s TreeOracles !! addr_bytes a) /\ wrote TreeOracles (addr_bytes a) "" s s'.
Proof.
  intros Hwf Hrun. unfold RemoveOracle in Hrun.
  apply bind_Ok in Hrun as (q & s1 & Hsub & Hrun).
  destruct (V_SubTree_run TreeOracles s Hwf) as (s2 & Hsub2 & Hr & Ho). cbn [V_SubTree] in Hsub2.
  rewrite (bind_run_Ok _ _ _ _ _ Hsub) in Hsub2. injection Hsub2 as -> ->.
  change ["oracs"] with [StateTree_KindID TreeOracles] in *.
  pose proof (sreads_wf _ _ Hwf Hr) as Hwf2.
  apply bind_Ok in Hrun as (r & s3 & Hget & Hrun). apply catch_Ok in Hget.
  pose proof (V_Get_run TreeOracles (addr_bytes a) s2 Hwf2 Ho) as Hv. cbn [V_Get] in Hv.
  rewrite Hv in Hget. destruct Hget as [(raw & [= <- Hget] & ->)|(e & [= <- Hget] & ->)]; cbv beta iota in Hrun;
    [|by destruct (errors_is e _)].
  apply leaf_result_Ok in Hget. destruct (sreads_use _ _ Hr Hwf) as (_ & _ & Hview & _).
  rewrite Hview in Hget. split; [by eexists|]. destruct u.
  rewrite TU_Set_open in Hrun by done. eapply wrote_reads; [done|exact Hr|]. by apply DeepSet_Ok.
Qed.

Lemma oracle_wrote a v s s' a' :
  wrote TreeOracles (addr_bytes a) v s s' ->
  oracle s' a' <-> if decide (a' = a) then v <> "" else oracle s a'.
Proof.
  intros Hw. unfold oracle. rewrite (wrote_view _ _ _ _ _ Hw). case_decide as Ha.
  - subst. rewrite lookup_insert_eq. naive_solver.
  - rewrite lookup_insert_ne; [done|]. intros Heq%address_eq. congruence.
Qed.

Lemma oracle_keys_wrote a v s s' :
  oracle_keys s -> wrote TreeOracles (addr_bytes a) v s s' -> oracle_keys s'.
Proof.
  intros Hk Hw k. rewrite (wrote_view _ _ _ _ _ Hw). destruct (decide (k = addr_bytes a)) as [->|Hne].
  - intros _. by exists a.
  - rewrite lookup_insert_ne by done. apply Hk.
Qed.
End oracle_ops.

(** ** Faucet packages *)

Section faucet.
Context `{ArboLaws, Lru, Proto, EthCryptoLaws, !ArboIterBranch}.

Lemma fold_found key (order : list (bytes * bytes)) found :
  fold_left (fun acc kv => ((fun found k (_ : bytes) =>
      if bool_decide (key = k) then (true, true) else (found, true)) acc kv.1 kv.2).1) order found =
  found || bool_decide (key ∈ order.*1).
Proof.
  revert found. induction order as [|[k v] order IH]; intros found; simpl; [by rewrite orb_comm|].
  rewrite IH. destruct (decide (key = k)) as [->|Hne].
  - rewrite (bool_decide_eq_true_2 (k = k)), (bool_decide_eq_true_2 (k ∈ k :: _)) by (done || left).
    by rewrite orb_true_r.
  - rewrite (bool_decide_eq_false_2 (key = k)) by done. simpl. f_equal. apply bool_decide_ext.
    rewrite elem_of_cons. naive_solver.
Qed.

(** A package is used when its identifier is a leaf of the tree. *)
Lemma FaucetNonce_run key s :
  wf s -> exists s', sreads s s' /\
    FaucetNonce key false s = (s', Ok (bool_decide (is_Some (sview s TreeFaucet !! key)))).
Proof.
  intros Hwf. destruct (V_SubTree_run TreeFaucet s Hwf) as (s1 & Hsub & Hr & Ho).
  pose proof (sreads_wf _ _ Hwf Hr) as Hwf1. exists s1. split; [done|].
  unfold FaucetNonce, mainTreeViewer. erewrite bind_run_Ok by reflexivity.
  rewrite (bind_run_Ok _ _ _ _ _ Hsub), V_Iterate_run by done. f_equal. f_equal.
  match goal with |- arbo_iter ?t ?f ?a = _ => destruct (iter_branch bool t f a) as (order & Hperm & ->) end.
  rewrite fold_found. simpl. apply bool_decide_ext.
  destruct (sreads_use _ _ Hr Hwf) as (_ & _ & Hv & _). rewrite <- (Hv TreeFaucet).
  rewrite (fmap_Permutation fst _ _ Hperm). unfold sview, view. rewrite list_elem_of_fmap. split.
  - intros ([k v] & -> & Hin%elem_of_map_to_list). by eexists.
  - intros [v Hin]. exists (key, v). split; [done|]. by apply elem_of_map_to_list.
Qed.
End faucet.
