(* ===== verification/ProcessID.v ===== *)
(** * Process identifiers

    Models [src/vochain/process_id.go]: the 32 octets that identify a process hold a
    truncated hash of the chain identifier, the address of the organisation, the census
    origin, the envelope type and a nonce. *)

From stdpp Require Import base option list strings.
From Stdlib Require Import ZArith Lia.
From S2P Require Import Prelude GoMonad GoLib Models External Ethereum.
From S2P Require Import Tree StateDB StateTrees State Account.

Definition ProcessesContractMaxEnvelopeType : Z := 31.

(** [uint8] fields are kept below 256 and the [uint32] nonce below 2^32. *)
Record ProcessID := mkProcessID {
  pid_chainID : string;
  organizationAddr : Address;
  censusOrigin : Z;
  envType : Z;
  nonce : Z;
}.

Definition SetEnvelopeType (et : option EnvelopeType) (p : ProcessID) : outcome ProcessID :=
  match et with
  | None => Err (Errorf "invalid envelope type")
  | Some et =>
      let t := 0 in
      let t := if Serial et then Z.lor t 1 else t in
      let t := if Anonymous et then Z.lor t 2 else t in
      let t := if EncryptedVotes et then Z.lor t 4 else t in
      let t := if UniqueValues et then Z.lor t 8 else t in
      let t := if CostFromWeight et then Z.lor t 16 else t in
      Ok (mkProcessID (pid_chainID p) (organizationAddr p) (censusOrigin p) t (nonce p))
  end.

Definition PID_EnvelopeType (p : ProcessID) : EnvelopeType :=
  mkEnvelopeType (0 <? Z.land (envType p) 1) (0 <? Z.land (envType p) 2)
    (0 <? Z.land (envType p) 4) (0 <? Z.land (envType p) 8) (0 <? Z.land (envType p) 16).

(** The census origin is an [int32]: a negative one passes the check. *)
Definition SetCensusOrigin (csOrg : Z) (p : ProcessID) : outcome ProcessID :=
  if (csOrg =? 0) || (255 <? csOrg) then Err (Errorf "cannot set census origin for processID")
  else Ok (mkProcessID (pid_chainID p) (organizationAddr p) (u8 csOrg) (envType p) (nonce p)).

Section process_id.
Context `{EthCrypto}.

(** [PutUint16] of a [uint8] and then its second octet. *)
Definition octet (v : Z) : bytes := bdrop 1 (be_bytes 2 v).

Definition PID_Marshal (p : ProcessID) : bytes :=
  btake 6 (HashRaw (pid_chainID p)) +:+ btake 20 (addr_bytes (organizationAddr p))
  +:+ octet (censusOrigin p) +:+ octet (envType p) +:+ be_bytes 4 (nonce p).

(** The fields read are all within the 32 octets. *)
Definition PID_Unmarshal (pid : bytes) : outcome ProcessID :=
  if negb (String.length pid =? 32)%nat then Err (Errorf "processID lenght not correct")
  else
    let chainID := hex_encode (btake 4 pid) in
    let addr := BytesToAddress (btake 20 (bdrop 6 pid)) in
    let origin := u8 (be_val (zeros 1 +:+ btake 1 (bdrop 26 pid))) in
    if origin =? 0 then Err (Errorf "cannot unmarshal processID: census origin is invalid")
    else
      let env := u8 (be_val (zeros 1 +:+ btake 1 (bdrop 27 pid))) in
      if ProcessesContractMaxEnvelopeType <? env
      then Err (Errorf "cannot unmarshal processID: overflow on envelope type")
      else Ok (mkProcessID chainID addr origin env (be_val (btake 4 (bdrop 28 pid)))).

Definition SetAddr (addr : Address) (p : ProcessID) : ProcessID :=
  mkProcessID (pid_chainID p) (BytesToAddress (addr_bytes addr)) (censusOrigin p) (envType p) (nonce p).

Definition PID_Addr (p : ProcessID) : Address := BytesToAddress (addr_bytes (organizationAddr p)).

Definition SetNonce (n : Z) (p : ProcessID) : ProcessID :=
  mkProcessID (pid_chainID p) (organizationAddr p) (censusOrigin p) (envType p) n.

Context `{Arbo, Lru, Proto}.

(** [acc.GetProcessIndex()] on a nil [*Account] dereferences it. *)
Definition BuildProcessID (chainID : string) (proc : Process) : GoM State ProcessID :=
  let pid := mkProcessID chainID zero_address 0 0 0 in
  pid ← lift (SetEnvelopeType (P_EnvelopeType proc) pid);
  pid ← lift (SetCensusOrigin (CensusOrigin proc) pid);
  let addr := BytesToAddress (EntityId proc) in
  acc ← GetAccount addr false;
  let pid := SetAddr addr pid in
  acc ← lift (deref acc);
  mret (SetNonce (ProcessIndex acc) pid).
End process_id.

(** ** Lemmas *)

(** The census origin and the envelope type are the ones the setters produce. *)
Definition pid_fields_ok (p : ProcessID) : Prop :=
  0 < censusOrigin p < 256 /\ 0 <= envType p <= ProcessesContractMaxEnvelopeType /\ is_u32 (nonce p).

Lemma octet_eq v : octet v = String (byte_of v) "".
Proof. reflexivity. Qed.

Lemma octet_val v : 0 <= v < 256 -> u8 (be_val (zeros 1 +:+ octet v)) = v.
Proof.
  intros Hv. rewrite octet_eq. unfold be_val. cbn [zeros String.append be_val_acc].
  replace (byte_val (Ascii.Ascii _ _ _ _ _ _ _ _)) with 0 by reflexivity. rewrite byte_val_of. unfold u8.
  rewrite (Z.mod_small v 256), Z.mod_small; lia.
Qed.

(** The envelope type read from the identifier is the one that was set. *)
Lemma EnvelopeType_set et p p' :
  SetEnvelopeType (Some et) p = Ok p' ->
  PID_EnvelopeType p' = et /\ 0 <= envType p' <= ProcessesContractMaxEnvelopeType.
Proof. destruct et as [[] [] [] [] []]; intros [= <-]; split; (done || (vm_compute; split; congruence)). Qed.

Lemma SetCensusOrigin_Ok c p p' :
  SetCensusOrigin c p = Ok p' -> c <> 0 /\ c <= 255 /\ censusOrigin p' = u8 c /\ envType p' = envType p.
Proof.
  unfold SetCensusOrigin. destruct (Z.eqb_spec c 0), (Z.ltb_spec 255 c); simpl; try done.
  by intros [= <-].
Qed.

Section process_id_facts.
Context `{EthCryptoLaws}.

Lemma length_PID_Marshal p : String.length (PID_Marshal p) = 32%nat.
Proof.
  unfold PID_Marshal, HashRaw.
  by rewrite !string_length_app, !octet_eq, !length_btake, Keccak256_length, addr_bytes_length,
    length_be_bytes.
Qed.

(** The five parts of an encoded identifier. *)
Lemma PID_Marshal_parts p :
  exists c, String.length c = 6%nat /\ c = btake 6 (Keccak256 (pid_chainID p)) /\
    PID_Marshal p = c +:+ addr_bytes (organizationAddr p) +:+ octet (censusOrigin p)
                      +:+ octet (envType p) +:+ be_bytes 4 (nonce p).
Proof.
  exists (btake 6 (Keccak256 (pid_chainID p))).
  rewrite length_btake, Keccak256_length. split_and!; [done..|].
  unfold PID_Marshal, HashRaw. by rewrite (btake_all 20) by apply addr_bytes_length.
Qed.

(** Decoding an encoded identifier gives every field back but the chain. *)
Lemma PID_roundtrip p :
  pid_fields_ok p ->
  PID_Unmarshal (PID_Marshal p) =
    Ok (mkProcessID (hex_encode (btake 4 (Keccak256 (pid_chainID p)))) (organizationAddr p)
          (censusOrigin p) (envType p) (nonce p)).
Proof.
  intros (Hco & Het & Hn). unfold ProcessesContractMaxEnvelopeType in Het.
  destruct (PID_Marshal_parts p) as (c & Hc & Hc' & Hm).
  unfold PID_Unmarshal. rewrite length_PID_Marshal. cbn [Nat.eqb negb]. rewrite Hm.
  change 28%nat with (6 + (20 + (1 + 1)))%nat. change 27%nat with (6 + (20 + 1))%nat.
  change 26%nat with (6 + 20)%nat.
  rewrite !bdrop_add, !(bdrop_app 6), !(bdrop_app 20), (btake_app 20), !(bdrop_app 1), (btake_app 1)
    by (done || apply addr_bytes_length).
  rewrite (btake_app 1), (btake_all 4 (be_bytes 4 _)) by (done || apply length_be_bytes).
  rewrite !octet_val, BytesToAddress_bytes by lia.
  destruct (Z.eqb_spec (censusOrigin p) 0); [lia|].
  unfold ProcessesContractMaxEnvelopeType. destruct (Z.ltb_spec 31 (envType p)); [lia|].
  rewrite be_val_bytes, Z.mod_small by exact Hn.
  rewrite (btake_app_le 4) by lia. by rewrite Hc', btake_btake by lia.
Qed.

(** Identifiers of one chain are equal only for the same organisation, census origin,
    envelope type and nonce. *)
Lemma PID_Marshal_inj p q :
  pid_fields_ok p -> pid_fields_ok q -> pid_chainID p = pid_chainID q ->
  PID_Marshal p = PID_Marshal q -> p = q.
Proof.
  intros Hp Hq Hch Heq. apply (f_equal PID_Unmarshal) in Heq.
  rewrite !PID_roundtrip in Heq by done. destruct p, q. simpl in *. by simplify_eq.
Qed.
End process_id_facts.
