(* ===== verification/VoteCache.v ===== *)
(** * The vote cache

    Models [src/vochain/cache.go]: the votes checked on entry to the mempool, kept until
    they are delivered or purged.  The cache is golang-lru's; a vote is stored under its
    transaction identifier, and its nullifier under a prefixed key of its own.

    A [Vote] whose nullifier is the empty string stands for one whose nullifier is nil. *)

From stdpp Require Import base option list strings gmap.
From Stdlib Require Import ZArith Lia.
From S2P Require Import Prelude GoMonad GoLib Models External Ethereum Tree StateDB.
From S2P Require Import StateTrees State StateFacts.

Definition cacheNullPrefix : string := "n_".

Definition cacheGetNullifierKey (nullifier : bytes) : string := cacheNullPrefix +:+ nullifier.

Section cache.
Context `{Arbo, Lru}.

Definition cacheDisabled : GoM State bool := gets DisableVoteCache.

(** [if v.cacheDisabled() { return x }]. *)
Definition unless_disabled {A} (x : A) (m : GoM State A) : GoM State A :=
  cacheDisabled ≫= fun disabled : bool => if disabled then mret x else m.

Definition cache_Add (k : cache_key) (v : cache_val) : GoM State unit :=
  modify (fun s => set_voteCache (lru_add (voteCache s) k v) s).
Definition cache_Remove (k : cache_key) : GoM State unit :=
  modify (fun s => set_voteCache (lru_remove (voteCache s) k) s).
Definition cache_Get (k : cache_key) : GoM State (option cache_val) :=
  fun s => let '(c, r) := lru_get (voteCache s) k in (set_voteCache c s, Ok r).

Definition CacheAdd (id : bytes) (vote : option Vote) : GoM State unit :=
  unless_disabled tt
    match vote with
    | None => mret tt
    | Some vote =>
        if bool_decide (Nullifier vote = "") then mret tt
        else cache_Add (TxID id) (CachedVote vote);;
             cache_Add (NullKey (cacheGetNullifierKey (Nullifier vote))) CachedNil
    end.

(** The type assertion on the record panics on another type, which no code stores under a
    transaction identifier. *)
Definition CacheGet (id : bytes) : GoM State (option Vote) :=
  unless_disabled None
    (record ← cache_Get (TxID id);
     mret match record with Some (CachedVote v) => Some v | _ => None end).

Definition CacheDel (id : bytes) : GoM State unit :=
  unless_disabled tt
    (vote ← CacheGet id;
     match vote with
     | Some vote => cache_Remove (NullKey (cacheGetNullifierKey (Nullifier vote)))
     | None => mret tt
     end;;
     cache_Remove (TxID id)).

(** [proto.Clone]: votes are values here. *)
Definition CacheGetCopy (id : bytes) : GoM State (option Vote) :=
  unless_disabled None (CacheGet id).

Definition CacheHasNullifier (nullifier : bytes) : GoM State bool :=
  unless_disabled false
    (r ← cache_Get (NullKey (cacheGetNullifierKey nullifier)); mret (bool_decide (r <> None))).

(** [height >= vote.Height+voteCachePurgeThreshold], in [uint32]. *)
Definition purgeable (height : Z) (vote : Vote) : bool :=
  u32 (Vote_Height vote + voteCachePurgeThreshold) <=? height.

Fixpoint purge_loop (height : Z) (keys : list cache_key) (removed : list bytes) :
  GoM State (list bytes) :=
  match keys with
  | [] => mret removed
  | id :: keys =>
      record ← cache_Get id;
      match record, id with
      | Some (CachedVote vote), TxID vid =>
          if purgeable height vote then
            cache_Remove (NullKey (cacheGetNullifierKey (Nullifier vote)));;
            cache_Remove id;;
            purge_loop height keys (removed ++ [vid])
          else purge_loop height keys removed
      | _, _ => purge_loop height keys removed
      end
  end.

Definition CachePurge (height : Z) : GoM State unit :=
  unless_disabled tt
    (if negb (height mod 18 =? 0) then mret tt
     else
       keys ← gets (fun s => lru_keys (voteCache s));
       removeFromMempool ← purge_loop height keys [];
       hook ← gets mempoolRemoveTxKeys;
       if bool_decide (removeFromMempool <> []) && hook
       then modify (fun s => set_mempoolRemoved (mempoolRemoved s ++ [removeFromMempool]) s)
       else mret tt).

Definition SetCacheSize (size : Z) : GoM State unit :=
  unless_disabled tt (modify (fun s => set_voteCache (lru_resize (voteCache s) size) s)).

Definition CacheSize : GoM State Z := unless_disabled 0 (gets (fun s => lru_len (voteCache s))).
End cache.

(** ** Lemmas *)

Section cache_facts.
Context `{ArboLaws, LruLaws, Proto}.

(** Only the cache changed, and it has no new entry. *)
Definition cache_shrinks (s s' : State) : Prop :=
  s' = set_voteCache (voteCache s') s /\ entries (voteCache s') ⊆ entries (voteCache s).

#[export] Instance cache_shrinks_preorder : PreOrder cache_shrinks.
Proof.
  split.
  - intros []. by split.
  - intros s1 s2 s3 [-> Hs12] [-> Hs23]. split; [done|]. simpl in *. by etrans.
Qed.

Lemma cache_Get_run k s :
  exists s', cache_Get k s = (s', Ok (entries (voteCache s) !! k)) /\
    s' = set_voteCache (voteCache s') s /\ entries (voteCache s') = entries (voteCache s).
Proof.
  unfold cache_Get. rewrite <- (lru_get_spec (voteCache s) k).
  pose proof (lru_get_entries (voteCache s) k) as He.
  destruct (lru_get (voteCache s) k) as [c r]. eexists. split; [done|]. by split.
Qed.

Lemma shrinks_Get k : keeps cache_shrinks (cache_Get k).
Proof. intros s. destruct (cache_Get_run k s) as (s' & -> & Ho & He).
  split; [exact Ho|]. simpl. by rewrite He. Qed.

Lemma shrinks_Remove k : keeps cache_shrinks (cache_Remove k).
Proof. intros s. split; [done|]. simpl. rewrite lru_remove_spec. apply delete_subseteq. Qed.

Lemma keeps_unless_disabled {A} R `{!PreOrder R} (x : A) m :
  keeps R m -> keeps R (unless_disabled x m).
Proof. intros Hm. unfold unless_disabled, cacheDisabled. keeps_auto. Qed.

(** The vote cached for a transaction. *)
Definition cached (s : State) (id : bytes) : option Vote :=
  if DisableVoteCache s then None
  else match entries (voteCache s) !! TxID id with Some (CachedVote v) => Some v | _ => None end.

Lemma CacheGet_run id s :
  exists s', CacheGet id s = (s', Ok (cached s id)) /\
    s' = set_voteCache (voteCache s') s /\ entries (voteCache s') = entries (voteCache s).
Proof.
  unfold CacheGet, unless_disabled, cacheDisabled, cached. rewrite bind_gets.
  destruct (DisableVoteCache s) eqn:Hd; [exists s; by destruct s|].
  destruct (cache_Get_run (TxID id) s) as (s' & Hs' & Ho & He).
  exists s'. by rewrite (bind_run_Ok _ _ _ _ _ Hs').
Qed.

Lemma CacheGetCopy_run id s :
  exists s', CacheGetCopy id s = (s', Ok (cached s id)) /\
    s' = set_voteCache (voteCache s') s /\ entries (voteCache s') = entries (voteCache s).
Proof.
  unfold CacheGetCopy, unless_disabled, cacheDisabled. rewrite bind_gets.
  destruct (DisableVoteCache s) eqn:Hd; [|apply CacheGet_run].
  exists s. unfold cached. rewrite Hd. by destruct s.
Qed.

Lemma shrinks_CacheDel id : keeps cache_shrinks (CacheDel id).
Proof.
  unfold CacheDel. apply keeps_unless_disabled; [apply _|]. keeps_auto; auto using shrinks_Remove.
  intros s. destruct (CacheGet_run id s) as (s' & -> & Ho & He).
  split; [exact Ho|]. simpl. by rewrite He.
Qed.

Lemma shrinks_purge_loop height keys removed : keeps cache_shrinks (purge_loop height keys removed).
Proof.
  revert removed. induction keys as [|id keys IH]; intros removed; simpl; keeps_auto;
    auto using shrinks_Get, shrinks_Remove.
Qed.

(** What is left of an entry when its key is purged. *)
Definition survivor (height : Z) (o : option cache_val) : option cache_val :=
  match o with
  | Some (CachedVote v) => if purgeable height v then None else o
  | _ => o
  end.

Lemma survivor_idem height o : survivor height (survivor height o) = survivor height o.
Proof. destruct o as [[v|]|]; simpl; [|done..]. destruct (purgeable height v) eqn:E; simpl; by rewrite ?E. Qed.

(** The loop ends, and purges the old votes among its keys. *)
Lemma purge_loop_run height keys removed s :
  exists s' r, purge_loop height keys removed s = (s', Ok r) /\ s' = set_voteCache (voteCache s') s /\
    forall id, entries (voteCache s') !! TxID id =
      if decide (TxID id ∈ keys) then survivor height (entries (voteCache s) !! TxID id)
      else entries (voteCache s) !! TxID id.
Proof.
  revert removed s. induction keys as [|k keys IH]; intros removed s.
  { eexists s, removed. split; [done|]. split; [by destruct s|]. intros id. by rewrite decide_False by apply not_elem_of_nil. }
  simpl. destruct (cache_Get_run k s) as (s1 & Hg & Hs1 & He). rewrite (bind_run_Ok _ _ _ _ _ Hg).
  assert (Hstep : exists s2 rm, s2 = set_voteCache (voteCache s2) s /\
    (forall id, entries (voteCache s2) !! TxID id =
       if decide (TxID id = k) then survivor height (entries (voteCache s) !! TxID id)
       else entries (voteCache s) !! TxID id) /\
    forall x, purge_loop height keys rm s2 = x ->
      match entries (voteCache s) !! k, k with
      | Some (CachedVote vote), TxID vid =>
          if purgeable height vote then
            cache_Remove (NullKey (cacheGetNullifierKey (Nullifier vote)));;
            cache_Remove k;;
            purge_loop height keys (removed ++ [vid])
          else purge_loop height keys removed
      | _, _ => purge_loop height keys removed
      end s1 = x).
  { destruct (entries (voteCache s) !! k) as [[vote|]|] eqn:Hk; [destruct k as [vid|nk]|..].
    { destruct (purgeable height vote) eqn:Hp.
      - eexists _, (removed ++ [vid]). split; [|split; [|by intros x <-]]; [simpl; by rewrite Hs1|].
        intros id. simpl. rewrite !lru_remove_spec, He. case_decide as Hid.
        + injection Hid as ->. rewrite lookup_delete_eq, Hk. simpl. by rewrite Hp.
        + rewrite !lookup_delete_ne by congruence. done.
      - exists s1, removed. split_and!; [done| |by intros x <-]. intros id. rewrite He.
        case_decide as Hid; [|done]. injection Hid as ->. rewrite Hk. simpl. by rewrite Hp. }
    all: exists s1, removed; split_and!; [done| |by intros x <-]; intros id; rewrite He;
      case_decide as Hid; [|done]; try discriminate Hid; subst; by rewrite Hk. }
  destruct Hstep as (s2 & rm & Hs2 & He2 & Hrun). destruct (IH rm s2) as (s' & r & Hloop & Hs' & He').
  exists s', r. split; [by apply Hrun|]. split; [by rewrite Hs', Hs2|].
  intros id. rewrite He', He2. repeat case_decide; rewrite ?survivor_idem; set_solver.
Qed.
End cache_facts.
