(* ===== verification/Process.v ===== *)
(** * Voting processes

    Models the operations of [src/vochain/process.go] on the state, [AddProcessKeys] and
    [RevealProcessKeys] of [src/vochain/state.go], and the census properties of
    [src/vochain/types.go].  The transaction checks are in [ProcessTx.v].  A
    [*models.Process] read from a leaf may be nil: using it then is a panic. *)

From stdpp Require Import base option list strings gmap pretty.
From S2P Require Import Prelude GoMonad GoLib Sha256 Models External Ethereum Tree StateDB.
From S2P Require Import StateTrees State StateFacts.

Record CensusProperties := mkCensusProperties {
  Name : string;
  AllowCensusUpdate : bool;
  NeedsDownload : bool;
  NeedsIndexSlot : bool;
  NeedsURI : bool;
  WeightedSupport : bool;
}.

(** A key that is not in the map gives the zero value. *)
Definition CensusOrigins (o : Z) : CensusProperties :=
  if o =? OFF_CHAIN_TREE then mkCensusProperties "offchain tree" true true false true false
  else if o =? OFF_CHAIN_TREE_WEIGHTED then
    mkCensusProperties "offchain weighted tree" true true false true true
  else if o =? ERC20 then mkCensusProperties "erc20" false true true false true
  else if o =? OFF_CHAIN_CA then mkCensusProperties "ca" true false false true true
  else mkCensusProperties "" false false false false false.

(** [GetFriendlyResults]: the totals in decimal. *)
Definition GetFriendlyResults (results : list (list bytes)) : list (list string) :=
  map (map (fun b => pretty (big_SetBytes b))) results.

(** A nil [*models.ProcessResult], as a leaf keeps it. *)
Definition nil_ProcessResult : ProcessResult := mkProcessResult [] "" "" None.

Definition emptyVotesRoot : bytes := zeros 32.
Definition emptyCensusRoot : bytes := zeros 32.
Definition emptyPreRegisterNullifiersRoot : bytes := zeros 32.
Definition keyCensusLen : bytes := "len".

Section process.
Context `{Arbo, Lru, Proto, EthCrypto}.

Definition census_cfgs (pid : bytes) : list TreeConfig :=
  [StateTreeCfg TreeProcess; WithKey (StateChildTreeCfg ChildTreeCensusPoseidon) pid].
Definition nullifiers_cfgs (pid : bytes) : list TreeConfig :=
  [StateTreeCfg TreeProcess; WithKey (StateChildTreeCfg ChildTreePreRegisterNullifiers) pid].

(** ** Creation *)

Definition preRegister (p : Process) : bool :=
  match Mode p with Some m => PreRegister m | None => false end.
Definition anonymous (p : Process) : bool :=
  match P_EnvelopeType p with Some e => Anonymous e | None => false end.

Definition AddProcess (p : Process) : GoM State unit :=
  let p := if preRegister p
           then with_NullifiersRoot emptyPreRegisterNullifiersRoot
                  (with_RollingCensusRoot emptyCensusRoot p)
           else p in
  newProcessBytes ← wrapping "cannot marshal process bytes"
    (Marshal (mkStateDBProcess (Some p) emptyVotesRoot));
  on_Tx (DeepAdd [] (ProcessId p) newProcessBytes [StateTreeCfg TreeProcess];;
         (if preRegister p && anonymous p then
            census ← DeepSubTree [] (census_cfgs (ProcessId p));
            NoState_SetUint64 census keyCensusLen 0;;
            _ ← DeepSubTree [] (nullifiers_cfgs (ProcessId p));
            mret tt
          else mret tt);;
         setProcessIDByStartBlock (ProcessId p) (StartBlock p));;
  counter ← TxCounter;
  notify (OnProcess (ProcessId p) (EntityId p) (hex_encode (CensusRoot p))
            (default "" (CensusURI p)) counter).

(** ** Reads *)

Definition getProcess (mainTreeView : TreeViewer) (pid : bytes) : GoM State (option Process) :=
  r ← catch (V_DeepGet mainTreeView pid [StateTreeCfg TreeProcess]);
  match r with
  | inl e => if errors_is e arbo_ErrKeyNotFound then throw ErrProcessNotFound else throw e
  | inr processBytes =>
      process ← wrapping "cannot unmarshal process" (Unmarshal processBytes);
      mret (SDB_Process process)
  end.

Definition State_Process (pid : bytes) (committed : bool) : GoM State (option Process) :=
  v ← mainTreeViewer committed;
  getProcess v pid.

Definition CountProcesses (committed : bool) : GoM State Z :=
  v ← mainTreeViewer committed;
  processesTree ← V_SubTree v (StateTreeCfg TreeProcess);
  V_Iterate processesTree (fun count _ _ => (u64 (count + 1), false)) 0.

Definition ListProcessIDs (committed : bool) : GoM State (list bytes) :=
  v ← mainTreeViewer committed;
  processesTree ← V_SubTree v (StateTreeCfg TreeProcess);
  V_Iterate processesTree (fun pids key _ => (pids ++ [key], false)) [].

(** ** Updates *)

(** The package-level [updateProcess]: the root of the votes is kept. *)
Definition updateProcess_tx (p : option Process) (pid : bytes) : GoM TreeTx unit :=
  processesTree ← SubTree [] (StateTreeCfg TreeProcess);
  r ← catch (TU_Get processesTree pid);
  match r with
  | inl e => if errors_is e arbo_ErrKeyNotFound then throw ErrProcessNotFound else throw e
  | inr processBytes =>
      process ← Unmarshal processBytes;
      updatedProcessBytes ← wrapping "cannot marshal updated process bytes"
        (Marshal (mkStateDBProcess p (VotesRoot process)));
      TU_Set processesTree pid updatedProcessBytes
  end.

(** [State.updateProcess]. *)
Definition updateProcess (p : Process) (pid : bytes) : GoM State unit :=
  (when negb (String.length (ProcessId p) =? ProcessIDsize)%nat return ErrProcessNotFound;
   on_Tx (updateProcess_tx (Some p) pid))%go.

(** The encoding of a [Process] is stored where the readers expect a
    [StateDBProcess]. *)
Definition CancelProcess (pid : bytes) : GoM State unit :=
  process ← State_Process pid false;
  process ← lift (deref process);
  if bool_decide (Status process = CANCELED) then mret tt
  else
    updatedProcessBytes ← wrapping "cannot marshal updated process bytes"
      (Marshal (with_Status CANCELED process));
    on_Tx (DeepSet [] pid updatedProcessBytes [StateTreeCfg TreeProcess]);;
    counter ← TxCounter;
    notify (OnCancel pid counter).

(** The transition checks of [SetProcessStatus]; sums of heights wrap at 32 bits. *)
Definition interruptible (process : Process) : outcome bool :=
  mode ← deref (Mode process); Ok (Interruptible mode).

Definition end_block (process : Process) : Z := u32 (StartBlock process + BlockCount process).

Definition check_transition (process : Process) (newstatus : ProcessStatus) (height : Z) :
  outcome unit :=
  let currentStatus := Status process in
  match newstatus with
  | READY =>
      check (bool_decide (currentStatus <> PAUSED)) (Errorf "cannot set process status to ready")
  | ENDED =>
      check (bool_decide (currentStatus <> READY)) (Errorf "can only be ended from ready status");;
      i ← interruptible process;
      check (negb i && (height <=? end_block process)) (Errorf "process is not interruptible")
  | CANCELED =>
      check (bool_decide (currentStatus = CANCELED)) (Errorf "already in canceled state");;
      check (bool_decide (currentStatus = ENDED) || bool_decide (currentStatus = RESULTS))
        (Errorf "cannot set state to canceled from ended or results");;
      if bool_decide (currentStatus <> PAUSED) then
        i ← interruptible process; check (negb i) (Errorf "process is not interruptible")
      else Ok tt
  | PAUSED =>
      check (bool_decide (currentStatus <> READY)) (Errorf "cannot set process status to paused");;
      i ← interruptible process;
      check (negb i) (Errorf "cannot pause process, it is not interruptible")
  | RESULTS =>
      check (bool_decide (currentStatus = RESULTS)) (Errorf "already in results state");;
      check (bool_decide (currentStatus <> ENDED) && bool_decide (currentStatus <> READY))
        (Errorf "cannot set state to results");;
      check (bool_decide (currentStatus = READY) && (end_block process <=? height))
        (Errorf "cannot set state to results, process is still alive")
  | _ => Err (Errorf "process status unknown")
  end.

Definition SetProcessStatus (pid : bytes) (newstatus : ProcessStatus) (commit : bool) :
  GoM State unit :=
  process ← State_Process pid false;
  process ← lift (deref process);
  height ← CurrentHeight;
  lift (check_transition process newstatus height);;
  if commit then
    let process := with_Status newstatus process in
    updateProcess process (ProcessId process);;
    counter ← TxCounter;
    notify (OnProcessStatusChange (ProcessId process) (Status process) counter)
  else mret tt.

(** ** Results and census *)

(** [process.Results == nil] after decoding is an empty list.  [bytes.Equal] does not tell
    a nil slice from an empty one. *)
Definition SetProcessResults (pid : bytes) (result : option ProcessResult) (commit : bool) :
  GoM State unit :=
  process ← State_Process pid false;
  process ← lift (deref process);
  height ← CurrentHeight;
  (when bool_decide (Status process <> ENDED) && bool_decide (Status process <> READY)
        && bool_decide (Status process <> RESULTS)
   return Errorf "cannot set results, invalid status";
   when bool_decide (Status process = READY) && (height <? end_block process)
   return Errorf "cannot set state to results, process is still alive";
   result ← lift (deref result);
   when bool_decide (PR_ProcessId result <> ProcessId process)
   return Errorf "invalid process id on result provided";
   when bool_decide (PR_EntityId result <> EntityId process)
   return Errorf "invalid entity id on result provided";
   when bool_decide (OracleAddress result = None)
   return Errorf "cannot set results, oracle address is nil";
   if commit then
     prior ← (if bool_decide (Results process = []) then
                n ← wrapping "cannot set results" (Oracles false);
                mret (replicate (List.length n * 2) nil_ProcessResult)
              else mret (Results process));
     when existsb (fun pr => bool_decide (default "" (OracleAddress pr) =
                                          default "" (OracleAddress result))) prior
     return Errorf "results already set for this oracle address";
     let process := with_Status RESULTS (with_Results (prior ++ [result]) process) in
     wrapping "cannot set results" (updateProcess process (ProcessId process));;
     counter ← TxCounter;
     notify (OnProcessResults (ProcessId process) result counter)
   else mret tt)%go.

Definition GetProcessResults (pid : bytes) : GoM State (list (list string)) :=
  process ← State_Process pid true;
  process ← lift (deref process);
  match Results process with
  | r :: _ => mret (GetFriendlyResults (Votes r))
  | [] => throw (Errorf "no results for process")
  end.

Definition SetProcessCensus (pid censusRoot : bytes) (censusURI : string) (commit : bool) :
  GoM State unit :=
  process ← State_Process pid false;
  process ← lift (deref process);
  mode ← lift (deref (Mode process));
  (when negb (DynamicCensus mode)
   return Errorf "only processes with dynamic census can update their census";
   when negb (AllowCensusUpdate (CensusOrigins (CensusOrigin process)))
   return Errorf "cannot update census, invalid census origin";
   when bool_decide (Status process <> READY) && bool_decide (Status process <> PAUSED)
   return Errorf "cannot update census, process status must be READY or PAUSED";
   when bool_decide (censusRoot = CensusRoot process)
   return Errorf "cannot update census, same censusRoot";
   when NeedsURI (CensusOrigins (CensusOrigin process)) && bool_decide (censusURI = "")
   return Errorf "process requires URI but an empty one was provided";
   if commit then
     let process := with_CensusURI (Some censusURI) (with_CensusRoot censusRoot process) in
     updateProcess process (ProcessId process)
   else mret tt)%go.

(** ** Encryption keys *)

Definition key_args (tx : AdminTx) : GoM State (bytes * Z) :=
  match Adm_ProcessId tx, Adm_KeyIndex tx with
  | Some pid, Some i => mret (pid, i)
  | _, _ => throw (Errorf "no processId or keyIndex provided on AddProcessKeys")
  end.

Definition AddProcessKeys (tx : AdminTx) : GoM State unit :=
  a ← key_args tx;
  process ← State_Process a.1 false;
  process ← lift (deref process);
  process ← match EncryptionPublicKey tx with
            | None => mret process
            | Some k =>
                l ← lift (slice_set (EncryptionPublicKeys process) a.2 (hex_encode k));
                mret (with_EncryptionPublicKeys l process)
            end;
  let process := with_KeyIndex (Some (u32 (default 0 (KeyIndex process) + 1))) process in
  updateProcess process a.1;;
  counter ← TxCounter;
  notify (OnProcessKeys a.1 (hex_encode (default "" (EncryptionPublicKey tx))) counter).

Definition RevealProcessKeys (tx : AdminTx) : GoM State unit :=
  a ← key_args tx;
  process ← State_Process a.1 false;
  process ← lift (deref process);
  (when default 0 (KeyIndex process) <? 1 return Errorf "no keys to reveal, keyIndex is < 1";
   r ← match EncryptionPrivateKey tx with
       | None => mret (process, "")
       | Some k =>
           let ekey := hex_encode k in
           l ← lift (slice_set (EncryptionPrivateKeys process) a.2 ekey);
           mret (with_EncryptionPrivateKeys l process, ekey)
       end;
   let process := with_KeyIndex (Some (u32 (default 0 (KeyIndex process) - 1))) r.1 in
   updateProcess process a.1;;
   counter ← TxCounter;
   notify (OnRevealKeys a.1 r.2 counter))%go.
End process.
