(* ===== verification/ProcessFacts.v ===== *)
(** * What the process operations do

    [process s pid] is the process stored at [pid], [process_leaf s pid] the leaf with the
    root of its votes.  The lemmas give the effect of the operations of [Process.v] on
    them, and describe the changes of status as a transition relation. *)

From stdpp Require Import base option list strings gmap.
From S2P Require Import Prelude GoMonad GoLib Sha256 Models External Ethereum Tree StateDB.
From S2P Require Import StateTrees State StateFacts Account AccountFacts Process.

(** ** The status of a process *)

(** [transition m live s s']: a process with mode [m], live or past its end block, may go
    from status [s] to status [s']. *)
Inductive transition (interrupt live : bool) : ProcessStatus -> ProcessStatus -> Prop :=
| resume : transition interrupt live PAUSED READY
| finish : interrupt = true \/ live = false -> transition interrupt live READY ENDED
| cancel_paused : transition interrupt live PAUSED CANCELED
| cancel s : interrupt = true -> s <> CANCELED -> s <> ENDED -> s <> RESULTS ->
    transition interrupt live s CANCELED
| pause : interrupt = true -> transition interrupt live READY PAUSED
| results_ended : transition interrupt live ENDED RESULTS.

(** Apart from the results of a process that has not ended, [SetProcessStatus] allows the
    transitions of the relation and no other one.  The end block itself is still live for
    [ENDED]. *)
Lemma check_transition_spec p m st h :
  Mode p = Some m -> st <> RESULTS ->
  check_transition p st h = Ok tt <->
  transition (Interruptible m) (h <=? end_block p) (Status p) st.
Proof.
  intros Hm Hst. unfold check_transition, interruptible. rewrite Hm. destruct m as [a i d e r].
  cbn [deref Interruptible]. generalize (h <=? end_block p) (Status p). intros live cur.
  destruct st, cur, i, live; try done; split; vm_compute; intros Ht; try discriminate Ht;
    try (by inversion Ht); try reflexivity; try solve [constructor; auto];
    by inversion Ht as [| [|] | | | |].
Qed.

Lemma check_transition_no_panic p m st h w : Mode p = Some m -> check_transition p st h <> Panic w.
Proof.
  intros Hm. unfold check_transition, interruptible. rewrite Hm. destruct m as [a i d e r].
  cbn [deref Interruptible]. generalize (h <=? end_block p) (end_block p <=? h) (Status p).
  intros live past cur. by destruct st, cur, i, live, past.
Qed.

Section process_facts.
Context `{ArboLaws, Lru, ProtoLaws, EthCryptoLaws}.

Definition process_leaf (s : State) (pid : bytes) : option StateDBProcess :=
  sview s TreeProcess !! pid ≫= unmarshal.

Definition process (s : State) (pid : bytes) : option Process := process_leaf s pid ≫= SDB_Process.

(** ** Reads *)

Lemma process_leaf_reads s s' pid : wf s -> sreads s s' -> process_leaf s' pid = process_leaf s pid.
Proof. intros Hwf Hr. apply sreads_use in Hr as (_ & _ & Hv & _); [|done]. unfold process_leaf. by rewrite Hv. Qed.

Lemma process_reads s s' pid : wf s -> sreads s s' -> process s' pid = process s pid.
Proof. intros Hwf Hr. unfold process. by rewrite (process_leaf_reads s s'). Qed.

Lemma State_Process_run pid s :
  wf s ->
  exists s', sreads s s' /\ State_Process pid false s =
    (s', match leaf_result s TreeProcess pid with
         | Ok raw => match unmarshal raw with
                     | Some x => Ok (SDB_Process x)
                     | None => Err (Wrap "cannot unmarshal process" (Errorf "proto: unmarshal"))
                     end
         | Err e => if errors_is e arbo_ErrKeyNotFound then Err ErrProcessNotFound else Err e
         | Panic w => Panic w
         end).
Proof.
  intros Hwf. destruct (V_DeepGet_run TreeProcess pid s Hwf) as (s' & Hrun & Hr).
  exists s'. split; [done|]. unfold State_Process, getProcess, mainTreeViewer.
  unfold mbind, gom_bind, mret, gom_ret, catch. rewrite Hrun.
  destruct (leaf_result s TreeProcess pid) as [raw|e|w]; [| |done].
  - unfold wrapping, Unmarshal. by destruct (unmarshal raw).
  - by destruct (errors_is e arbo_ErrKeyNotFound).
Qed.

Lemma State_Process_Ok pid s s' r :
  wf s -> State_Process pid false s = (s', Ok r) ->
  sreads s s' /\ exists x, process_leaf s pid = Some x /\ r = SDB_Process x.
Proof.
  intros Hwf Hrun. destruct (State_Process_run pid s Hwf) as (s1 & Hr & Heq). rewrite Heq in Hrun.
  destruct (leaf_result s TreeProcess pid) as [raw|e|w] eqn:Hleaf; [|by destruct (errors_is _ _)|done].
  apply leaf_result_Ok in Hleaf. unfold process_leaf. rewrite Hleaf. simpl.
  destruct (unmarshal raw) as [x|]; simplify_eq. eauto.
Qed.

Lemma State_Process_found pid s x :
  wf s -> process_leaf s pid = Some x ->
  exists s', State_Process pid false s = (s', Ok (SDB_Process x)) /\ sreads s s'.
Proof.
  intros Hwf Hx. destruct (State_Process_run pid s Hwf) as (s1 & Hr & Heq). exists s1. split; [|done].
  rewrite Heq. apply bind_Some in Hx as (raw & Hraw & Hx).
  by rewrite (leaf_result_Some _ _ _ _ Hraw), Hx.
Qed.

Lemma State_Process_missing pid s :
  wf s -> sview s TreeProcess !! pid = None -> 8 * blen pid <= 256 ->
  exists s', State_Process pid false s = (s', Err ErrProcessNotFound) /\ sreads s s'.
Proof.
  intros Hwf Hx Hlen. destruct (State_Process_run pid s Hwf) as (s1 & Hr & Heq). exists s1. split; [|done].
  rewrite Heq, (leaf_result_None _ _ _ Hwf Hx Hlen). by rewrite errors_is_refl.
Qed.

(** [p, err := v.Process(pid, false)] followed by a use of the pointer. *)
Lemma deref_process pid s s' s'' r p :
  wf s -> State_Process pid false s = (s', Ok r) -> lift (deref r) s' = (s'', Ok p) ->
  s'' = s' /\ sreads s s' /\ process s pid = Some p.
Proof.
  intros Hwf Hrun [-> Hd%deref_Ok]%lift_Ok. apply State_Process_Ok in Hrun as (Hr & x & Hx & ->); [|done].
  split_and!; [done..|]. unfold process. by rewrite Hx.
Qed.

(** ** Writes *)

(** The leaf of one process was replaced. *)
Definition leaf_updated (pid : bytes) (x : StateDBProcess) (s s' : State) : Prop :=
  exists b, marshal x = Some b /\ wrote TreeProcess pid b s s'.

Lemma leaf_updated_leaf pid x s s' pid' :
  leaf_updated pid x s s' ->
  process_leaf s' pid' = if decide (pid' = pid) then Some x else process_leaf s pid'.
Proof.
  intros (b & Hb & Hw). unfold process_leaf. rewrite (wrote_view _ _ _ _ _ Hw).
  case_decide; subst; [rewrite lookup_insert_eq; exact (unmarshal_marshal _ _ Hb)|].
  by rewrite lookup_insert_ne.
Qed.

Lemma leaf_updated_process pid x s s' pid' :
  leaf_updated pid x s s' ->
  process s' pid' = if decide (pid' = pid) then SDB_Process x else process s pid'.
Proof. intros Hu. unfold process. rewrite (leaf_updated_leaf _ _ _ _ _ Hu). by case_decide. Qed.

Lemma leaf_updated_reads pid x s s1 s' :
  wf s -> sreads s s1 -> leaf_updated pid x s1 s' -> leaf_updated pid x s s'.
Proof. intros Hwf Hr (b & Hb & Hw). exists b. split; [done|]. by eapply wrote_reads. Qed.

Lemma updateProcess_tx_Ok p pid s s' :
  wf s -> on_Tx (updateProcess_tx p pid) s = (s', Ok tt) ->
  exists x, process_leaf s pid = Some x /\ leaf_updated pid (mkStateDBProcess p (VotesRoot x)) s s'.
Proof.
  intros Hwf Hrun. unfold updateProcess_tx in Hrun. rewrite on_Tx_bind in Hrun.
  apply bind_Ok in Hrun as (q & s1 & Hsub & Hrun).
  assert (Hq : q = [StateTree_KindID TreeProcess] /\ s1 = set_STx (opened TreeProcess (STx s)) s).
  { unfold on_Tx, zoom in Hsub. rewrite SubTree_singleton in Hsub by done. by simplify_eq. }
  destruct Hq as [-> ->]. set (s1 := set_STx _ s) in *.
  assert (Hr : sreads s s1) by by apply wf_read.
  pose proof (sreads_wf _ _ Hwf Hr) as Hwf1. assert (Ho : is_open s1 TreeProcess) by apply opened_open.
  rewrite on_Tx_bind in Hrun. apply bind_Ok in Hrun as (r & s2 & Hget & Hrun).
  rewrite on_Tx_catch in Hget. apply catch_Ok in Hget.
  pose proof (V_Get_run TreeProcess pid s1 Hwf1 Ho) as Hv. cbn [V_Get] in Hv. rewrite Hv in Hget.
  destruct Hget as [(raw & Hget & ->)|(e & Hget & ->)]; injection Hget as <- Hget; cbv beta iota in Hrun;
    [|by destruct (errors_is e _)].
  apply leaf_result_Ok in Hget. rewrite !on_Tx_bind in Hrun.
  apply bind_Ok in Hrun as (x & s2 & Hx & Hrun). apply zoom_run in Hx as (tx2 & [-> Hx]%Unmarshal_Ok & ->).
  rewrite on_Tx_bind in Hrun. apply bind_Ok in Hrun as (b & s2 & Hb & Hrun).
  apply zoom_run in Hb as (tx2 & [-> Hb]%wrapping_Ok%Marshal_Ok & ->).
  exists x. destruct (sreads_use _ _ Hr Hwf) as (_ & _ & Hview & _). rewrite Hview in Hget. split.
  - unfold process_leaf. by rewrite Hget.
  - eapply leaf_updated_reads; [done|exact Hr|]. exists b. split; [done|].
    change (set_STx _ (set_STx _ s1)) with s1 in Hrun. rewrite TU_Set_open in Hrun by done.
    by apply DeepSet_Ok.
Qed.

Lemma updateProcess_Ok p pid s s' u :
  wf s -> updateProcess p pid s = (s', Ok u) ->
  String.length (ProcessId p) = 32%nat /\
  exists x, process_leaf s pid = Some x /\
    leaf_updated pid (mkStateDBProcess (Some p) (VotesRoot x)) s s'.
Proof.
  intros Hwf Hrun. unfold updateProcess in Hrun. go_inv. destruct u.
  match goal with H : negb _ = false |- _ => apply negb_false_iff, Nat.eqb_eq in H end.
  split; [done|]. by apply updateProcess_tx_Ok.
Qed.

(** The leaf of a process can be written. *)
Definition storable_process (x : StateDBProcess) : Prop :=
  exists b, marshal x = Some b /\ blen b <= 65535.

Lemma updateProcess_run p pid x s :
  wf s -> process_leaf s pid = Some x -> String.length (ProcessId p) = 32%nat ->
  storable_process (mkStateDBProcess (Some p) (VotesRoot x)) ->
  exists s', updateProcess p pid s = (s', Ok tt).
Proof.
  intros Hwf Hx Hlen (b & Hb & Hl). unfold updateProcess, ProcessIDsize. rewrite Hlen.
  erewrite bind_run_Ok by reflexivity. unfold updateProcess_tx. rewrite on_Tx_bind.
  destruct (V_SubTree_run TreeProcess s Hwf) as (s1 & Hsub & Hr & Ho). cbn [V_SubTree] in Hsub.
  apply bind_Ok in Hsub as (q & s1' & Hsub & Hq). apply ret_Ok in Hq as [-> [= ->]].
  pose proof (sreads_wf _ _ Hwf Hr) as Hwf1. rewrite (bind_run_Ok _ _ _ _ _ Hsub), on_Tx_bind.
  change ["procs"] with [StateTree_KindID TreeProcess].
  apply bind_Some in Hx as (raw & Hraw & Hx). destruct (sreads_use _ _ Hr Hwf) as (_ & _ & Hv & _).
  pose proof (V_Get_run TreeProcess pid s1' Hwf1 Ho) as Hget. cbn [V_Get] in Hget.
  erewrite bind_run_Ok by (rewrite on_Tx_catch; unfold catch; rewrite Hget;
    by rewrite (leaf_result_Some _ _ _ raw) by (by rewrite Hv)).
  cbv beta iota. rewrite on_Tx_bind. unfold Unmarshal. rewrite Hx.
  erewrite bind_run_Ok by reflexivity. rewrite on_Tx_bind. unfold wrapping, Marshal. rewrite Hb.
  erewrite bind_run_Ok by reflexivity. cbv beta. rewrite TU_Set_open by (apply Hwf1 || apply Ho).
  apply DeepSet_present; [apply Hwf1| |done]. exists raw.
  change (sview (set_STx _ (set_STx _ s1')) TreeProcess) with (sview s1' TreeProcess). by rewrite Hv.
Qed.

(** The state after the listeners are told of an event. *)
Definition notified (ev : Event) (s : State) : State := (notify ev s).1.

Lemma notify_Ok ev s s' u : notify ev s = (s', Ok u) -> s' = notified ev s.
Proof. unfold notified. by intros ->. Qed.

Lemma only_tx_fields s s' :
  only_tx s s' ->
  currentHeight s' = currentHeight s /\ txCounter s' = txCounter s /\
  eventListeners s' = eventListeners s /\ Store s' = Store s /\ chainID s' = chainID s.
Proof. by intros ->. Qed.

Lemma leaf_updated_only_tx pid x s s' : leaf_updated pid x s s' -> only_tx s s'.
Proof. intros (b & _ & Hw). apply Hw. Qed.

Lemma leaf_updated_wf pid x s s' : leaf_updated pid x s s' -> wf s'.
Proof. intros (b & _ & Hw). apply Hw. Qed.

(** The end of every operation: the process is written and the listeners are told. *)
Lemma write_and_notify m p pid ev s s' u :
  wf s -> (forall s1 u1, m s = (s1, Ok u1) -> updateProcess p pid s = (s1, Ok u1)) ->
  (m;; counter ← TxCounter; notify (ev counter)) s = (s', Ok u) ->
  String.length (ProcessId p) = 32%nat /\
  exists x s1, process_leaf s pid = Some x /\
    leaf_updated pid (mkStateDBProcess (Some p) (VotesRoot x)) s s1 /\
    s' = notified (ev (txCounter s)) s1.
Proof.
  intros Hwf Hm Hrun. unfold TxCounter in Hrun. apply bind_Ok in Hrun as (u1 & s1 & Hrun1%Hm & Hrun).
  apply updateProcess_Ok in Hrun1 as (Hlen & x & Hx & Hu); [|done]. go_inv.
  split; [done|]. exists x, s1. split_and!; [done..|].
  destruct (only_tx_fields _ _ (leaf_updated_only_tx _ _ _ _ Hu)) as (_ & <- & _).
  by eapply notify_Ok.
Qed.

Lemma SetProcessStatus_Ok pid st s s' u :
  wf s -> SetProcessStatus pid st true s = (s', Ok u) ->
  exists p x s1, process s pid = Some p /\ check_transition p st (currentHeight s) = Ok tt /\
    process_leaf s (ProcessId p) = Some x /\
    leaf_updated (ProcessId p) (mkStateDBProcess (Some (with_Status st p)) (VotesRoot x)) s s1 /\
    s' = notified (OnProcessStatusChange (ProcessId p) st (txCounter s)) s1.
Proof.
  intros Hwf Hrun. unfold SetProcessStatus, CurrentHeight in Hrun.
  apply bind_Ok in Hrun as (r & s1 & Hp & Hrun). apply bind_Ok in Hrun as (p & s2 & Hd & Hrun).
  destruct (deref_process _ _ _ _ _ _ Hwf Hp Hd) as (-> & Hr & Hproc).
  pose proof (sreads_wf _ _ Hwf Hr) as Hwf1.
  destruct (only_tx_fields _ _ (proj1 Hr)) as (Hh & Hc & _).
  rewrite bind_gets in Hrun. apply bind_Ok in Hrun as ([] & s2 & [-> Ht]%lift_Ok & Hrun). rewrite Hh in Ht.
  apply (write_and_notify _ (with_Status st p) (ProcessId p) (fun c => OnProcessStatusChange _ st c)) in Hrun
    as (_ & x & s2 & Hx & Hu & ->); [|done|done].
  exists p, x, s2. rewrite (process_leaf_reads s s1) in Hx by done. rewrite Hc.
  split_and!; [done..|by eapply leaf_updated_reads|done].
Qed.

(** The results kept before the ones of an oracle are added. *)
Definition prior_results (p : Process) (oracles : list Address) : list ProcessResult :=
  if bool_decide (Results p = []) then replicate (List.length oracles * 2) nil_ProcessResult
  else Results p.

Lemma SetProcessResults_Ok pid result s s' u :
  wf s -> SetProcessResults pid result true s = (s', Ok u) ->
  exists p x s1 r oracles, process s pid = Some p /\ result = Some r /\
    (Status p = ENDED \/ Status p = RESULTS \/
     Status p = READY /\ end_block p <= currentHeight s) /\
    PR_ProcessId r = ProcessId p /\ PR_EntityId r = EntityId p /\ OracleAddress r <> None /\
    (Results p = [] -> exists s0 s2, sreads s s0 /\ Oracles false s0 = (s2, Ok oracles)) /\
    process_leaf s (ProcessId p) = Some x /\
    leaf_updated (ProcessId p)
      (mkStateDBProcess (Some (with_Status RESULTS (with_Results (prior_results p oracles ++ [r]) p)))
         (VotesRoot x)) s s1 /\
    s' = notified (OnProcessResults (ProcessId p) r (txCounter s)) s1.
Proof.
  intros Hwf Hrun. unfold SetProcessResults, CurrentHeight in Hrun.
  apply bind_Ok in Hrun as (r & s1 & Hp & Hrun). apply bind_Ok in Hrun as (p & s2 & Hd & Hrun).
  destruct (deref_process _ _ _ _ _ _ Hwf Hp Hd) as (-> & Hr & Hproc).
  pose proof (sreads_wf _ _ Hwf Hr) as Hwf1.
  destruct (only_tx_fields _ _ (proj1 Hr)) as (Hh & Hc & _).
  rewrite bind_gets in Hrun.
  do 2 (apply bind_Ok in Hrun as ([] & s2 & [-> ?]%reject_Ok & Hrun)).
  apply bind_Ok in Hrun as (res & s2 & [-> ->%deref_Ok]%lift_Ok & Hrun).
  do 3 (apply bind_Ok in Hrun as ([] & s2 & [-> ?]%reject_Ok & Hrun)).
  apply bind_Ok in Hrun as (prior & s2 & Hprior & Hrun).
  assert (exists oracles, sreads s1 s2 /\ prior = prior_results p oracles /\
    (Results p = [] -> exists s2', Oracles false s1 = (s2', Ok oracles))) as (oracles & Hr2 & -> & Hor).
  { unfold prior_results. destruct (bool_decide (Results p = [])) eqn:Hres.
    - apply bind_Ok in Hprior as (n & s2' & Hn%wrapping_Ok & Hprior). go_inv. exists n.
      split_and!; [|done|by eauto]. by apply (keeps_run _ _ _ _ _ (sreads_Oracles false) Hn).
    - go_inv. exists []. split_and!; [reflexivity|done|]. by apply bool_decide_eq_false in Hres. }
  pose proof (sreads_wf _ _ Hwf1 Hr2) as Hwf2.
  apply bind_Ok in Hrun as ([] & s3 & [-> Hdup]%reject_Ok & Hrun).
  set (p' := with_Status RESULTS _) in Hrun.
  apply (write_and_notify _ p' (ProcessId p) (fun c => OnProcessResults _ res c)) in Hrun
    as (_ & x & s3 & Hx & Hu & ->); [|done|by intros s4 u4 ?%wrapping_Ok].
  assert (Hr' : sreads s s2) by by etrans.
  rewrite (process_leaf_reads s s2) in Hx by done.
  destruct (only_tx_fields _ _ (proj1 Hr')) as (_ & Hc' & _). rewrite Hc'.
  exists p, x, s3, res, oracles.
  rewrite Hh in *. bool_inv. split_and!; try done; try (by eapply leaf_updated_reads).
  - destruct (Status p) eqn:Hst; simpl in *; auto; try done. right. right. split; [done|]. by bool_inv.
  - intros Hnil. destruct (Hor Hnil) as [s2' Ho]. eauto.
Qed.
End process_facts.
