(* ===== verification/CensusProof.v ===== *)
(** * Census proofs

    Models [src/vochain/proof.go], [src/crypto/saltedkey/saltedkey.go] and
    [src/crypto/zk/utils.go]: how a voter shows that they belong to the census of a
    process, for each census origin.  The cryptographic libraries are parameters. *)

From stdpp Require Import base option list strings gmap.
From S2P Require Import Prelude GoMonad GoLib Models External Ethereum.

Definition SaltSize : nat := 20.

(** The getters of the [oneof]: nil when the payload is another one. *)
Definition GetCa (p : Proof) : option ProofCA := match p with ProofOfCA x => Some x | _ => None end.
Definition GetEthereumStorage (p : Proof) : option ProofEthereumStorage :=
  match p with ProofOfEthereumStorage x => Some x | _ => None end.
Definition GetMinimeStorage (p : Proof) : option ProofMinime :=
  match p with ProofOfMinime x => Some x | _ => None end.
Definition GetZkSnark (p : Proof) : option ProofZkSNARK :=
  match p with ProofOfZkSNARK x => Some x | _ => None end.

Section proof.
Context `{ProofLibs, Proto}.

(** [VerifyProof] of package tree. *)
Definition tree_VerifyProof (hashFunc : HashFunction) (key value proof root : bytes) : outcome bool :=
  of_sum (arbo_CheckProof hashFunc key value root proof).

Definition SaltBlindPubKey (pubKey : blind_pub) (salt : bytes) : outcome blind_pub :=
  if (String.length salt <? SaltSize)%nat then Err (Errorf "provided salt is not large enough")
  else Ok (blind_add_base pubKey (btake SaltSize salt)).

Definition SaltECDSAPubKey (pubKey : ecdsa_pub) (salt : bytes) : outcome ecdsa_pub :=
  if (String.length salt <? SaltSize)%nat then Err (Errorf "provided salt is not large enough")
  else Ok (ecdsa_add_base pubKey (btake SaltSize salt)).

Definition ProtobufZKProofToCircomProof (p : ProofZkSNARK) : outcome (snark_proof * list Z) :=
  match ZK_A p, ZK_B p, ZK_C p with
  | [_; _; _], [b0; b1; b2; b3; b4; b5], [_; _; _] =>
      proof ← of_sum (ProofStringToProof (ZK_A p) [[b0; b1]; [b2; b3]; [b4; b5]] (ZK_C p));
      publicInputs ← of_sum (PublicSignalsStringToPublicSignals (ZK_PublicInputs p));
      Ok (proof, publicInputs)
  | _, _, _ => Err (Errorf "error on zkProof format")
  end.

(** The weight is a [*big.Int], not nil when no error is returned. *)
Definition VerifyProofFunc : Type :=
  Process -> Proof -> Z -> bytes -> bytes -> bytes -> Address -> outcome (bool * Z).

Definition VerifyProofOffChainTree : VerifyProofFunc :=
  fun process proof censusOrigin censusRoot processID pubKey addr =>
  let key := pubKey in
  match proof with
  | ProofGraviton => Err (Errorf "graviton proof no longer supported")
  | ProofIden3 => Err (Errorf "iden3 proof not implemented")
  | ProofOfArbo p =>
      hashFunc ← match PA_Type p with
                 | BLAKE2B => Ok HashBlake2b
                 | POSEIDON => Ok HashPoseidon
                 | _ => Err (Errorf "not recognized ProofArbo type")
                 end;
      hashedKey ← wrapping_out "cannot hash proof key" (of_sum (arbo_hash hashFunc key));
      valid ← tree_VerifyProof hashFunc hashedKey (default "" (PA_Value p)) (PA_Siblings p) censusRoot;
      match PA_Value p with
      | None => Ok (valid, 1)
      | Some v => Ok (valid, arbo_BytesToBigInt v)
      end
  | _ => Err (Errorf "unexpected proof.Payload type")
  end.

(** The key of the census root, salted with the process identifier. *)
Definition salted_root (censusRoot processID : bytes) : outcome bytes :=
  rootPub ← wrapping_out "cannot decompress CSP public key" (DecompressPubKey censusRoot);
  rootPubSalted ← wrapping_out "cannot unmarshal ECDSA CSP public key"
    (of_sum (UnmarshalPubkey rootPub));
  rootPubSalted ← wrapping_out "cannot salt ECDSA public key"
    (SaltECDSAPubKey rootPubSalted processID);
  Ok (FromECDSAPub rootPubSalted).

Definition VerifyProofOffChainCSP : VerifyProofFunc :=
  fun process proof censusOrigin censusRoot processID pubKey addr =>
  let key := addr_bytes addr in
  p ← deref (GetCa proof);
  bundle ← deref (CA_Bundle p);
  check (bool_decide (CB_Address bundle <> key)) (Errorf "CSP bundle address and key do not match");;
  check (bool_decide (CB_ProcessId bundle <> processID))
    (Errorf "CSP bundle processID does not match");;
  cspBundle ← match marshal bundle with
              | Some b => Ok b
              | None => Err (Errorf "cannot marshal CSP bundle to protobuf")
              end;
  match CA_Type p with
  | ECDSA =>
      bundlePub ← wrapping_out "cannot fetch CSP public key from signature"
        (PubKeyFromSignature cspBundle (CA_Signature p));
      check (bool_decide (bundlePub <> censusRoot)) (Errorf "csp bundle signature does not match");;
      Ok (true, 1)
  | ECDSA_PIDSALTED =>
      bundlePub ← wrapping_out "cannot fetch CSP public key from signature"
        (PubKeyFromSignature cspBundle (CA_Signature p));
      censusRoot ← salted_root censusRoot processID;
      bundlePub ← wrapping_out "unable to decompress proof pub key" (DecompressPubKey bundlePub);
      check (bool_decide (bundlePub <> censusRoot)) (Errorf "csp bundle signature does not match");;
      Ok (true, 1)
  | ECDSA_BLIND | ECDSA_BLIND_PIDSALTED =>
      rootPubdesc ← wrapping_out "cannot decompress CSP public key" (DecompressPubKey censusRoot);
      rootPub ← wrapping_out "cannot compute blind CSP public key"
        (of_sum (NewPublicKeyFromECDSA rootPubdesc));
      signature ← wrapping_out "cannot compute blind CSP signature"
        (of_sum (NewSignatureFromBytesUncompressed (CA_Signature p)));
      rootPub ← (if bool_decide (CA_Type p = ECDSA_BLIND_PIDSALTED)
                 then wrapping_out "cannot salt blind pubkey" (SaltBlindPubKey rootPub processID)
                 else Ok rootPub);
      check (negb (blind_Verify (big_SetBytes (HashRaw cspBundle)) signature rootPub))
        (Errorf "blind CSP verification failed");;
      Ok (true, 1)
  | _ => Err (Errorf "csp proof type not supported")
  end.

Definition VerifyProofERC20 : VerifyProofFunc :=
  fun process proof censusOrigin censusRoot processID pubKey addr =>
  match EthIndexSlot process with
  | None => Err (Errorf "index slot not found for process")
  | Some slot =>
      match GetEthereumStorage proof with
      | None => Err (Errorf "ethereum proof is empty")
      | Some p =>
          let balance := big_SetBytes (ES_Value p) in
          check (balance =? 0) (Errorf "balance at proof is 0");;
          match mapbased_VerifyProof addr (BytesToHash censusRoot) p slot balance with
          | Some e => Err e
          | None => Ok (true, balance)
          end
      end
  end.

Definition VerifyProofMiniMe : VerifyProofFunc :=
  fun process proof censusOrigin censusRoot processID pubKey addr =>
  match EthIndexSlot process, SourceBlockHeight process with
  | None, _ => Err (Errorf "index slot not found for process")
  | _, None => Err (Errorf "source block height not found for process")
  | Some slot, Some sourceBlockHeight =>
      match GetMinimeStorage proof with
      | None => Err (Errorf "minime proof is empty")
      | Some p =>
          prev ← deref (ProofPrevBlock p);
          proof0Balance ← deref (minime_ParseMinimeValue (ES_Value prev));
          check (proof0Balance =? 0) (Errorf "balance at proofPrevBlock is 0");;
          next ← deref (ProofNextBlock p);
          match minime_VerifyProof addr (BytesToHash censusRoot) [prev; next] slot proof0Balance
                  sourceBlockHeight with
          | Some e => Err e
          | None => Ok (true, proof0Balance)
          end
      end
  end.

Definition VerifyProof : VerifyProofFunc :=
  fun process proof censusOrigin censusRoot processID pubKey addr =>
  let origin := CensusOrigin process in
  verifyProof ← (if (origin =? OFF_CHAIN_TREE) || (origin =? OFF_CHAIN_TREE_WEIGHTED)
                 then Ok VerifyProofOffChainTree
                 else if origin =? OFF_CHAIN_CA then Ok VerifyProofOffChainCSP
                 else if origin =? ERC20 then Ok VerifyProofERC20
                 else if origin =? MINI_ME then Ok VerifyProofMiniMe
                 else Err (Errorf "census origin not compatible"));
  wrapping_out "proof not valid"
    (verifyProof process proof origin (CensusRoot process) (ProcessId process) pubKey addr).
End proof.
