(* ===== verification/Census.v ===== *)
(** * The rolling census of anonymous processes

    Models [src/vochain/census.go] and [GenerateNullifier] of [src/vochain/apputils.go]:
    voters of an anonymous process register a key before it starts; the keys go, in
    order, into a Poseidon tree of the process, and the weight an address has used into
    its tree of pre-register nullifiers. *)

From stdpp Require Import base option list strings gmap.
From S2P Require Import Prelude GoMonad GoLib Sha256 Models External Ethereum Tree StateDB.
From S2P Require Import StateTrees State StateFacts Process CensusProof.

Section census.
Context `{Arbo, Lru, Proto, ProofLibs}.

Definition GenerateNullifier (address : Address) (processID : bytes) : bytes :=
  HashRaw (addr_bytes address +:+ processID).

(** The weight is not used. *)
Definition AddToRollingCensus (pid key : bytes) (weight : Z) : GoM State unit :=
  v ← mainTreeViewer false;
  process ← wrapping "cannot open process" (getProcess v pid);
  on_Tx
    (census ← wrapping "cannot open rolling census" (DeepSubTree [] (census_cfgs pid));
     censusLen ← wrapping "cannot get ceneusLen" (NoState_GetUint64 census keyCensusLen);
     process ← lift (deref process);
     maxCensusSize ← lift (deref (MaxCensusSize process));
     (when maxCensusSize <=? censusLen return Errorf "maxCensusSize already reached";
      wrapping "cannot add to rolling census"
        (TU_Add census (LittleEndian_PutUint64 censusLen) key);;
      NoState_SetUint64 census keyCensusLen (u64 (censusLen + 1)))%go).

(** [GetUint64] on the [NoState] database of a viewer. *)
Definition getRollingCensusSize (mainTreeView : TreeViewer) (pid : bytes) : GoM State Z :=
  census ← wrapping "cannot open rolling census" (V_DeepSubTree mainTreeView (census_cfgs pid));
  wrapping "cannot get ceneusLen"
    (value ← V_NoState_Get census keyCensusLen; lift (LittleEndian_Uint64 value)).

Definition GetRollingCensusSize (pid : bytes) (committed : bool) : GoM State Z :=
  v ← mainTreeViewer committed;
  getRollingCensusSize v pid.

Definition PurgeRollingCensus (pid : bytes) : GoM State unit := throw (Errorf "TODO").

Definition GetRollingCensusRoot (pid : bytes) (committed : bool) : GoM State bytes :=
  v ← mainTreeViewer committed;
  census ← wrapping "cannot open rolling census"
    (V_DeepSubTree v (StateParentChildTreeCfg TreeProcess ChildTreeCensusPoseidon pid));
  V_Root census.

(** [weight.Bytes()] drops the sign. *)
Definition setPreRegisterAddrUsedWeight (pid : bytes) (addr : Address) (weight : Z) :
  GoM State unit :=
  on_Tx (DeepSet [] (GenerateNullifier addr pid) (big_Bytes weight) (nullifiers_cfgs pid)).

Definition GetPreRegisterAddrUsedWeight (pid : bytes) (addr : Address) : GoM State Z :=
  r ← catch (on_Tx (DeepGet [] (GenerateNullifier addr pid) (nullifiers_cfgs pid)));
  match r with
  | inl e => if errors_is e arbo_ErrKeyNotFound then mret 0 else throw e
  | inr weightBytes => mret (big_SetBytes weightBytes)
  end.

(** The tests on the transaction and on the process. *)
Definition register_preconditions (tx : RegisterKeyTx) (signature : option bytes)
  (process : option Process) (height : Z) : outcome (Process * Proof * bytes) :=
  match process with
  | None => Err (Errorf "process malformed")
  | Some process =>
      match P_EnvelopeType process, Mode process with
      | Some envelopeType, Some mode =>
          check (StartBlock process <=? height) (Errorf "process already started");;
          check (negb (PreRegister mode && Anonymous envelopeType))
            (Errorf "RegisterKeyTx only supported with PreRegister and Anonymous");;
          check (bool_decide (Status process <> READY)) (Errorf "process not in READY state");;
          match RK_Proof tx, signature with
          | None, _ => Err (Errorf "proof missing on registerKeyTx")
          | _, None => Err (Errorf "signature missing on voteTx")
          | Some proof, Some signature =>
              check (negb (String.length (NewKey tx) =? 32)%nat) (Errorf "newKey wrong size");;
              Ok (process, proof, signature)
          end
      | _, _ => Err (Errorf "process malformed")
      end
  end.

(** [RegisterKeyTxCheck]: the error of [setPreRegisterAddrUsedWeight] is dropped. *)
Definition RegisterKeyTxCheck (vtx : option Tx) (txBytes : option bytes)
  (signature : option bytes) (forCommit : bool) : GoM State unit :=
  match GetRegisterKey vtx with
  | None => throw (Errorf "register key transaction is nil")
  | Some tx =>
      process ← wrapping "cannot fetch processId" (State_Process (RK_ProcessId tx) false);
      height ← CurrentHeight;
      r ← lift (register_preconditions tx signature process height);
      let '(process, proof, signature) := r in
      censusSize ← GetRollingCensusSize (RK_ProcessId tx) false;
      maxCensusSize ← lift (deref (MaxCensusSize process));
      (when maxCensusSize <=? censusSize return Errorf "maxCensusSize already reached";
       pubKey ← wrapping "cannot extract public key from signature"
                  (lift (PubKeyFromSignature (default "" txBytes) signature));
       addr ← wrapping "cannot extract address from public key" (lift (AddrFromPublicKey pubKey));
       r ← wrapping "proof not valid"
             (lift (VerifyProof process proof (CensusOrigin process) (CensusRoot process)
                      (ProcessId process) pubKey addr));
       let '(valid, weight) := r in
       when negb valid return Errorf "proof not valid";
       usedWeight ← wrapping "cannot get nullifeir used weight"
                      (GetPreRegisterAddrUsedWeight (ProcessId process) addr);
       txWeight ← match big_SetString10 (RK_Weight tx) with
                  | Some w => mret w
                  | None => throw (Errorf "cannot parse tx weight")
                  end;
       let usedWeight := usedWeight + txWeight in
       when negb (usedWeight =? 1) return Errorf "weight != 1 is not yet supported";
       when weight <? usedWeight return Errorf "cannot register more keys";
       if forCommit then
         catch (setPreRegisterAddrUsedWeight (ProcessId process) addr usedWeight);;
         mret tt
       else mret tt)%go
  end.
End census.
