(* ===== verification/AccountTx.v ===== *)
(** * The checks of the account transactions

    Models [SetAccountInfoTxCheck], [MintTokensTxCheck], [SendTokensTxCheck],
    [SetAccountDelegateTxCheck] and [CollectFaucetTxCheck] of [src/vochain/account.go]
    and [SetTransactionCostsTxCheck] of [src/vochain/transaction.go].  Sums of an amount
    and a cost wrap at 64 bits, as in the code. *)

From stdpp Require Import base option list strings gmap.
From S2P Require Import Prelude GoMonad GoLib Sha256 Models External Ethereum Tree StateDB.
From S2P Require Import StateTrees State StateFacts Account AccountFacts.

Record setAccountInfoTxCheckValues := mkSetAccountInfoValues {
  SAIV_Account : Address;
  TxSender : Address;
  FaucetPayloadSigner : Address;
  CreateAccountV : bool;
  CreateAccountWithFaucet : bool;
}.

Record sendTokensTxCheckValues := mkSendTokensValues {
  STV_From : Address;
  STV_To : Address;
  STV_Value : Z;
  STV_Nonce : Z;
}.

Record setAccountDelegateTxCheckValues := mkSetDelegateValues {
  SADV_From : Address;
  SADV_Delegate : Address;
}.

Section account_tx.
Context `{Arbo, Lru, Proto, EthCrypto}.

(** [if signature == nil || tx == nil || txBytes == nil { return error }]. *)
Definition signed_tx {T} (msg : string) (signature txBytes : option bytes) (tx : option T) :
  GoM State (bytes * bytes * T) :=
  match signature, tx, txBytes with
  | Some signature, Some tx, Some txBytes => mret (signature, txBytes, tx)
  | _, _, _ => throw (Errorf msg)
  end.

(** [PubKeyFromSignature] and then [AddrFromPublicKey]. *)
Definition sender_address (txBytes signature : bytes) : GoM State Address :=
  pubKey ← wrapping "cannot extract public key from signature"
             (lift (PubKeyFromSignature txBytes signature));
  wrapping "cannot extract address from public key" (lift (AddrFromPublicKey pubKey)).

Definition not_nil_tx (vtx : option Tx) : GoM State unit := reject (bool_decide (vtx = None)) ErrNilTx.

(** The issuer of a faucet package, whose identifier is not used yet and who holds the
    amount plus the cost of the transaction. *)
Definition faucet_issuer (payload : FaucetPayload) (signature : option bytes) : GoM State Address :=
  faucetPackageBytes ← wrapping "cannot extract faucet package payload" (Marshal payload);
  issuerAddress ← lift (AddrFromSignature faucetPackageBytes (default "" signature));
  used ← wrapping "cannot check faucet nonce"
           (FaucetNonce (faucet_key issuerAddress (Identifier payload)) false);
  (when (used : bool) return Errorf "faucet package identifier already used";
   issuerAcc ← wrapping "cannot get faucet account" (GetAccount issuerAddress false);
   issuerAcc ← match issuerAcc with
               | Some a => mret a
               | None => throw (Errorf "the account signing the faucet payload does not exist")
               end;
   cost ← wrapping "cannot get tx cost" (TxCost COLLECT_FAUCET false);
   when Balance issuerAcc <? u64 (Amount payload + cost)
   return Errorf "faucet does not have enough balance";
   mret issuerAddress)%go.

Definition SetAccountInfoTxCheck (vtx : option Tx) (txBytes signature : option bytes) :
  GoM State setAccountInfoTxCheckValues :=
  not_nil_tx vtx;;
  a ← signed_tx "missing signature and/or transaction" signature txBytes (GetSetAccountInfo vtx);
  let '(signature, txBytes, tx) := a in
  (when bool_decide (default "" (SAI_InfoURI tx) = "") return Errorf "invalid URI, cannot be empty";
   sender ← sender_address txBytes signature;
   txSender ← wrapping "cannot check if account exists" (GetAccount sender false);
   let account := BytesToAddress (SAI_Account tx) in
   acc ← wrapping "cannot check if account exists" (GetAccount account false);
   let account := match acc with None => sender | Some _ => account end in
   match txSender with
   | None =>
       match SAI_FaucetPackage tx with
       | None => mret (mkSetAccountInfoValues account sender zero_address true false)
       | Some faucetPackage =>
           match FP_Payload faucetPackage with
           | None => throw (Errorf "faucet payload is nil")
           | Some payload =>
               when bool_decide (FP_To payload <> addr_bytes sender)
               return Errorf "payload to and tx sender missmatch";
               issuer ← faucet_issuer payload (FP_Signature faucetPackage);
               mret (mkSetAccountInfoValues account sender issuer true true)
           end
       end
   | Some txSender =>
       (if bool_decide (sender <> account) then
          acc ← lift (deref acc);
          reject (negb (IsDelegate acc sender)) (Errorf "tx sender is not a delegate")
        else mret tt);;
       when negb (SAI_Nonce tx =? Nonce txSender) return Errorf "invalid nonce";
       cost ← TxCost SET_ACCOUNT_INFO false;
       when Balance txSender <? cost return Errorf "unauthorized: not enough balance";
       mret (mkSetAccountInfoValues account sender zero_address false false)
   end)%go.

Definition MintTokensTxCheck (vtx : option Tx) (txBytes signature : option bytes) :
  GoM State (Address * Z) :=
  a ← signed_tx "missing signature and/or transaction" signature txBytes (GetMintTokens vtx);
  let '(signature, txBytes, tx) := a in
  (when MT_Value tx <=? 0 return Errorf "invalid value";
   when negb (String.length (MT_To tx) =? EntityIDsize)%nat
        || bool_decide (MT_To tx = addr_bytes zero_address)
   return Errorf "invalid To address";
   treasurer ← State_Treasurer false;
   when negb (MT_Nonce tx =? Treasurer_Nonce treasurer) return Errorf "invalid nonce";
   let toAddr := BytesToAddress (MT_To tx) in
   toAcc ← wrapping "MintTokensTxCheck" (GetAccount toAddr false);
   wrapping "MintTokensTxCheck" (existing toAcc);;
   sigAddress ← sender_address txBytes signature;
   when bool_decide (BytesToAddress (Treasurer_Address treasurer) <> sigAddress)
   return Errorf "address recovered not treasurer";
   mret (toAddr, MT_Value tx))%go.

Definition SendTokensTxCheck (vtx : option Tx) (txBytes signature : option bytes) :
  GoM State sendTokensTxCheckValues :=
  not_nil_tx vtx;;
  a ← signed_tx "missing signature and/or transaction" signature txBytes (GetSendTokens vtx);
  let '(signature, txBytes, tx) := a in
  (when ST_Value tx =? 0 return Errorf "invalid value";
   from ← match ST_From tx with
          | Some b => mret b
          | None => throw (Errorf "from field not found")
          end;
   when bool_decide (from = addr_bytes zero_address) return Errorf "invalid from address";
   to ← match ST_To tx with
        | Some b => mret b
        | None => throw (Errorf "to field not found")
        end;
   when bool_decide (to = addr_bytes zero_address) return Errorf "invalid to address";
   sigAddress ← sender_address txBytes signature;
   when bool_decide (BytesToAddress from <> sigAddress)
   return Errorf "from field and extracted signature mismatch";
   let txToAddress := BytesToAddress to in
   toTxAccount ← wrapping "cannot get to account info" (GetAccount txToAddress false);
   existing toTxAccount;;
   acc ← wrapping "cannot get account info" (GetAccount sigAddress false);
   acc ← existing acc;
   when negb (ST_Nonce tx =? Nonce acc) return Errorf "invalid nonce";
   cost ← TxCost SEND_TOKENS false;
   when Balance acc <? u64 (ST_Value tx + cost) return ErrNotEnoughBalance;
   mret (mkSendTokensValues sigAddress txToAddress (ST_Value tx) (ST_Nonce tx)))%go.

Definition SetAccountDelegateTxCheck (vtx : option Tx) (txBytes signature : option bytes) :
  GoM State setAccountDelegateTxCheckValues :=
  reject (bool_decide (vtx = None)) (Errorf "transaction is nil");;
  a ← signed_tx "missing signature and/or transaction" signature txBytes
        (GetSetAccountDelegateTx vtx);
  let '(signature, txBytes, tx) := a in
  let delAcc := BytesToAddress (Delegate tx) in
  (when bool_decide (delAcc = zero_address) return Errorf "invalid delegate address";
   r ← AccountFromSignature txBytes signature;
   let '(sigAddress, acc) := r in
   when bool_decide (delAcc = sigAddress) return Errorf "cannot add self to delegates list";
   when negb (SAD_Nonce tx =? Nonce acc) return Errorf "invalid nonce";
   cost ← TxCost (SAD_Txtype tx) false;
   when Balance acc <? cost return ErrNotEnoughBalance;
   match SAD_Txtype tx with
   | ADD_DELEGATE_FOR_ACCOUNT =>
       when IsDelegate acc delAcc return Errorf "already added";
       mret (mkSetDelegateValues sigAddress delAcc)
   | DEL_DELEGATE_FOR_ACCOUNT =>
       if existsb (fun d => bool_decide (BytesToAddress d = delAcc)) (DelegateAddrs acc)
       then mret (mkSetDelegateValues sigAddress delAcc)
       else throw (Errorf "cannot remove a non existent delegate")
   | _ => throw (Errorf "unsupported SetAccountDelegate operation")
   end)%go.

Definition CollectFaucetTxCheck (vtx : option Tx) (txBytes signature : option bytes) :
  GoM State Address :=
  not_nil_tx vtx;;
  a ← signed_tx "missing signature and/or transaction" signature txBytes (GetCollectFaucet vtx);
  let '(signature, txBytes, tx) := a in
  match CF_FaucetPackage tx with
  | None => throw (Errorf "nil faucet package")
  | Some faucetPkg =>
      (when bool_decide (FP_Signature faucetPkg = None)
       return Errorf "invalid faucet package signature";
       payload ← match FP_Payload faucetPkg with
                 | Some p => mret p
                 | None => throw (Errorf "invalid faucet package payload")
                 end;
       when Amount payload =? 0 return Errorf "invalid faucet package payload amount";
       toAddr ← sender_address txBytes signature;
       fromAddr ← faucet_issuer payload (FP_Signature faucetPkg);
       when bool_decide (addr_bytes toAddr <> FP_To payload)
       return Errorf "txSender and faucet payload To mismatch";
       txSender ← wrapping "cannot check if account exists" (GetAccount toAddr false);
       txSender ← existing txSender;
       when negb (Nonce txSender =? CF_Nonce tx) return Errorf "invalid nonce";
       mret fromAddr)%go
  end.

Definition SetTransactionCostsTxCheck (vtx : option Tx) (txBytes signature : option bytes) :
  GoM State Z :=
  not_nil_tx vtx;;
  a ← signed_tx "missing signature and/or transaction" signature txBytes
        (GetSetTransactionCosts vtx);
  let '(signature, txBytes, tx) := a in
  treasurer ← State_Treasurer false;
  (when negb (TC_Nonce tx =? Treasurer_Nonce treasurer) return Errorf "invalid nonce";
   when bool_decide (TxTypeCostToStateKey (TC_Txtype tx) = None)
   return Errorf "tx type not supported";
   sigAddress ← sender_address txBytes signature;
   when bool_decide (BytesToAddress (Treasurer_Address treasurer) <> sigAddress)
   return Errorf "address recovered not treasurer";
   mret (TC_Value tx))%go.
End account_tx.
