(* ===== verification/VoteTx.v ===== *)
(** * Checking a vote

    Models [VoteEnvelopeCheck] of [src/vochain/transaction.go].  The verification keys of
    the application ([app.ZkVKs]) are an argument.  A [VoterID] is a byte string; its nil
    value is the empty one. *)

From stdpp Require Import base option list strings gmap.
From S2P Require Import Prelude GoMonad GoLib Sha256 Models External Ethereum Tree StateDB.
From S2P Require Import StateTrees State StateFacts VoteCache Process CensusProof Census.

(** [ErrorAlreadyExistInCache]. *)
Definition ErrorAlreadyExistInCache : error := Sentinel "ErrorAlreadyExistInCache".

Definition VoterIDTypeECDSA : Z := 1.
Definition VoterID_Nil : bytes := "".

Section vote_tx.
Context `{Arbo, Lru, Proto, ProofLibs}.

(** The checks common to the two kinds of votes; the process and its envelope type. *)
Definition vote_preconditions (process : option Process) (height : Z) :
  outcome (Process * EnvelopeType) :=
  match process with
  | None => Err (Errorf "process malformed")
  | Some process =>
      match P_EnvelopeType process, Mode process with
      | Some envelopeType, Some _ =>
          check (height <? StartBlock process) (Errorf "process has not started");;
          check (end_block process <? height) (Errorf "process finished");;
          check (bool_decide (Status process <> READY)) (Errorf "process not in READY state");;
          check (EncryptedVotes envelopeType &&
                 match KeyIndex process with Some i => i <? 1 | None => false end)
            (Errorf "no keys available, voting is not possible");;
          Ok (process, envelopeType)
      | _, _ => Err (Errorf "process malformed")
      end
  end.

(** [if exist, err := EnvelopeExists(...); err != nil || exist { return error }]. *)
Definition not_voted (pid nullifier : bytes) : GoM State unit :=
  EnvelopeExists pid nullifier false ≫= fun exist : bool =>
  reject exist (Errorf "vote already exists").

(** The key indexes of an encrypted vote. *)
Definition vote_key_indexes (envelopeType : EnvelopeType) (ve : VoteEnvelope) : outcome (list Z) :=
  if EncryptedVotes envelopeType then
    check (bool_decide (VE_KeyIndexes ve = [])) (Errorf "no key indexes provided on vote package");;
    Ok (VE_KeyIndexes ve)
  else Ok [].

(** [b[:16]] and [b[16:]]. *)
Definition halves (b : bytes) : outcome (bytes * bytes) :=
  if (String.length b <? 16)%nat then Panic "slice bounds out of range"
  else Ok (btake 16 b, bdrop 16 b).

(** The public inputs of the circuit that the process defines. *)
Definition zk_publicInputs (process : Process) (ve : VoteEnvelope) : outcome (list Z) :=
  processId ← halves (ProcessId process);
  voteHash ← halves (sha256 (VE_VotePackage ve));
  Ok [arbo_BytesToBigInt processId.1; arbo_BytesToBigInt processId.2;
      arbo_BytesToBigInt (RollingCensusRoot process); arbo_BytesToBigInt (VE_Nullifier ve);
      arbo_BytesToBigInt voteHash.1; arbo_BytesToBigInt voteHash.2].

(** An anonymous vote that is not in the cache. *)
Definition check_anonymous_vote (ZkVKs : list snark_vk) (process : Process)
  (envelopeType : EnvelopeType) (ve : VoteEnvelope) (height : Z) : GoM State Vote :=
  match VE_Proof ve ≫= GetZkSnark with
  | None => throw (Errorf "zkSNARK proof is empty")
  | Some proofZkSNARK =>
      r ← wrapping "failed on zk.ProtobufZKProofToCircomProof"
            (lift (ProtobufZKProofToCircomProof proofZkSNARK));
      let '(proof, _) := r in
      not_voted (VE_ProcessId ve) (VE_Nullifier ve);;
      let index := CircuitParametersIndex proofZkSNARK in
      (when (Z.of_nat (List.length ZkVKs) <=? index) || (index <? 0)
       return Errorf "invalid CircuitParametersIndex";
       verificationKey ← lift (slice_get ZkVKs index);
       publicInputs ← lift (zk_publicInputs process ve);
       when negb (snark_Verify verificationKey proof publicInputs)
       return Errorf "zkSNARK proof verification failed";
       keyIndexes ← lift (vote_key_indexes envelopeType ve);
       mret (mkVote height (VE_ProcessId ve) (VE_VotePackage ve) (VE_Nullifier ve) (big_Bytes 1)
               keyIndexes))%go
  end.

(** A signed vote that is not in the cache, with the identifier of the voter. *)
Definition check_signed_vote (process : Process) (envelopeType : EnvelopeType) (ve : VoteEnvelope)
  (txBytes : option bytes) (signature : bytes) (height : Z) : GoM State (Vote * bytes) :=
  match VE_Proof ve with
  | None => throw (Errorf "proof not found on transaction")
  | Some proof =>
      keyIndexes ← lift (vote_key_indexes envelopeType ve);
      pubKey ← wrapping "cannot extract public key from signature"
                 (lift (PubKeyFromSignature (default "" txBytes) signature));
      let voterID := String (byte_of VoterIDTypeECDSA) pubKey in
      addr ← wrapping "cannot extract address from public key" (lift (AddrFromPublicKey pubKey));
      let nullifier := GenerateNullifier addr (VE_ProcessId ve) in
      not_voted (VE_ProcessId ve) nullifier;;
      r ← lift (VerifyProof process proof (CensusOrigin process) (CensusRoot process)
                  (ProcessId process) pubKey addr);
      let '(valid, weight) := r in
      (when negb valid return Errorf "proof not valid";
       mret (mkVote height (VE_ProcessId ve) (VE_VotePackage ve) nullifier (big_Bytes weight)
               keyIndexes, voterID))%go
  end.

(** A cached vote is only checked against the votes of the chain, and then dropped from the
    cache whatever the result. *)
Definition cached_vote (txID : bytes) (vote : Vote) (height : Z) (still_valid : bool) :
  GoM State (Vote * bytes) :=
  let vote := with_Vote_Height height vote in
  deferring (fun s => (CacheDel txID s).1)
    (not_voted (Vote_ProcessId vote) (Nullifier vote);;
     (when negb still_valid return Errorf "vote is not longer valid";
      mret (vote, VoterID_Nil))%go).

Definition VoteEnvelopeCheck (ZkVKs : list snark_vk) (ve : option VoteEnvelope)
  (txBytes signature : option bytes) (txID : bytes) (forCommit : bool) : GoM State (Vote * bytes) :=
  match ve with
  | None => throw (Errorf "vote envelope is nil")
  | Some ve =>
      process ← wrapping "cannot fetch processId" (State_Process (VE_ProcessId ve) false);
      height ← CurrentHeight;
      r ← lift (vote_preconditions process height);
      let '(process, envelopeType) := r in
      if Anonymous envelopeType then
        vote ← CacheGetCopy txID;
        match vote with
        | Some vote =>
            if negb forCommit then throw ErrorAlreadyExistInCache
            else cached_vote txID vote height true
        | None =>
            vote ← check_anonymous_vote ZkVKs process envelopeType ve height;
            (if negb forCommit then CacheAdd txID (Some vote) else mret tt);;
            mret (vote, VoterID_Nil)
        end
      else
        match signature with
        | None => throw (Errorf "signature missing on voteTx")
        | Some signature =>
            vote ← CacheGetCopy txID;
            match vote with
            | Some vote =>
                if negb forCommit then throw (Errorf "vote already exists in cache")
                else cached_vote txID vote height
                       (negb ((end_block process <? height) || bool_decide (Status process <> READY)))
            | None =>
                r ← check_signed_vote process envelopeType ve txBytes signature height;
                (if negb forCommit then CacheAdd txID (Some r.1) else mret tt);;
                mret r
            end
        end
  end.
End vote_tx.
