(* ===== verification/ProcessTx.v ===== *)
(** * The checks of the process and administration transactions

    Models [NewProcessTxCheck] and [SetProcessTxCheck] of [src/vochain/process.go],
    [AdminTxCheck] with its helpers of [src/vochain/transaction.go],
    [verifySignatureAgainstOracles] of [src/vochain/apputils.go] and the private keys of
    [src/crypto/nacl/nacl.go].  [NewProcessTxCheck] modifies the process of the
    transaction; here it returns the modified process. *)

From stdpp Require Import base option list strings gmap.
From S2P Require Import Prelude GoMonad GoLib Sha256 Models External Nacl Ethereum Tree StateDB.
From S2P Require Import StateTrees State StateFacts Account AccountFacts ProcessID Process AccountTx.

(** The parameters of the circuits of a chain, [Genesis[chainID].CircuitsConfig]; an
    unknown chain uses the ones of the chain [dev]. *)
Definition circuit_parameters (chainID : string) : list (list Z) :=
  if bool_decide (chainID = "azeno") then [[1024]; [65536]]
  else if bool_decide (chainID = "stage") then [[8]; [16]; [1024]]
  else [[1024]; [65536]].

(** [circuits[len(circuits)-1].Parameters[0]]. *)
Definition biggest_circuit (chainID : string) : outcome Z :=
  let circuits := circuit_parameters chainID in
  if bool_decide (circuits = []) then Err (Errorf "no circuit configs in the genesis")
  else parameters ← slice_get circuits (Z.of_nat (List.length circuits) - 1);
       slice_get parameters 0.

Section process_tx.
Context `{Arbo, Lru, Proto, EthCrypto}.

(** ** New processes *)

(** The fields a process must have, from the nil checks to the block count; the start
    block 0 or 1 is replaced by the next height. *)
Definition new_process_fields (p : Process) (signature txBytes : option bytes) (height : Z) :
  outcome (Process * EnvelopeType * ProcessMode * bytes * bytes) :=
  match VoteOptions p, P_EnvelopeType p, Mode p with
  | Some voteOptions, Some envelopeType, Some mode =>
      check (MaxCount voteOptions =? 0) (Errorf "missing vote maxCount parameter");;
      match signature, txBytes with
      | Some signature, Some txBytes =>
          p ← (if (StartBlock p =? 0) || (StartBlock p =? 1)
               then Ok (with_StartBlock (u32 (height + 1)) p)
               else if StartBlock p <? height
               then Err (Errorf "cannot add process with start block lower than the current height")
               else Ok p);
          check (BlockCount p <=? 0) (Errorf "cannot add process with such a duration");;
          Ok (p, envelopeType, mode, signature, txBytes)
      | _, _ => Err (Errorf "missing signature or new process transaction")
      end
  | _, _, _ => Err (Errorf "missing required fields (voteOptions, envelopeType or processMode)")
  end.

(** The process types the chain supports. *)
Definition implemented_process (appChainID : string) (p : Process) (envelopeType : EnvelopeType)
  (mode : ProcessMode) : outcome unit :=
  check (negb (Bool.eqb (PreRegister mode) (Anonymous envelopeType)))
    (Errorf "pre-register mode only supported with anonymous envelope type and viceversa");;
  (if PreRegister mode then
     check (match MaxCensusSize p with Some n => n <=? 0 | None => true end)
       (Errorf "pre-register mode requires setting maxCensusSize to be > 0")
   else Ok tt);;
  (if PreRegister mode && Anonymous envelopeType then
     biggest ← biggest_circuit appChainID;
     match MaxCensusSize p with
     | None => Err (Errorf "maxCensusSize is not provided")
     | Some n => check (u64 biggest <? n)
                   (Errorf "maxCensusSize cannot be bigger than the biggest circuit")
     end
   else Ok tt);;
  check (Serial envelopeType) (Errorf "serial process not yet implemented").

(** An oracle may choose the identifier; any other sender gets the one of its account.
    [ProcessId] is empty when the field is nil. *)
Definition assign_processID (appChainID : string) (p : Process) (addr : Address) (isOracle : bool) :
  GoM State Process :=
  if negb isOracle || bool_decide (ProcessId p = "") then
    let q := if isOracle then with_EntityId (addr_bytes addr) p else p in
    pid ← wrapping "cannot build processID" (BuildProcessID appChainID q);
    mret (with_ProcessId (PID_Marshal pid) p)
  else mret p.

Definition NewProcessTxCheck (appChainID : string) (vtx : option Tx)
  (txBytes signature : option bytes) : GoM State (Process * Address) :=
  tx ← lift (deref (GetNewProcess vtx));
  match NP_Process tx with
  | None => throw (Errorf "process data is empty")
  | Some p =>
      height ← CurrentHeight;
      r ← lift (new_process_fields p signature txBytes height);
      let '(p, envelopeType, mode, signature, txBytes) := r in
      cost ← wrapping "cannot get NewProcessTx transaction cost" (TxCost NEW_PROCESS false);
      a ← AccountFromSignature txBytes signature;
      let '(addr, acc) := a in
      (when Balance acc <? cost return ErrNotEnoughBalance;
       when negb (Nonce acc =? NP_Nonce tx) return ErrAccountNonceInvalid;
       IsOracle addr ≫= fun isOracle : bool =>
       when bool_decide (EntityId p <> addr_bytes addr) && negb isOracle
       return Errorf "unauthorized to create a new process";
       p ← assign_processID appChainID p addr isOracle;
       r ← catch (State_Process (ProcessId p) false);
       when match r with inr _ => true | inl _ => false end
       return Errorf "process already exists";
       lift (implemented_process appChainID p envelopeType mode);;
       let keys := replicate KeyKeeperMaxKeyIndex "" in
       mret ((if EncryptedVotes envelopeType || Anonymous envelopeType
              then with_EncryptionPrivateKeys keys (with_EncryptionPublicKeys keys p)
              else p), addr))%go
  end.

(** ** Changing a process *)

(** The organisation of the process and the oracles may change it. *)
Definition authorized_setter (process : Process) (addr : Address) : GoM State bool :=
  if bool_decide (EntityId process = addr_bytes addr) then mret false
  else
    IsOracle addr ≫= fun isOracle : bool =>
    reject (negb isOracle) (Errorf "unauthorized to set process status");;
    mret true.

Definition SetProcessTxCheck (vtx : option Tx) (txBytes signature : option bytes) : GoM State Address :=
  a ← signed_tx "missing signature on setProcess transaction" signature txBytes (GetSetProcess vtx);
  let '(signature, txBytes, tx) := a in
  cost ← wrapping "cannot get transaction cost" (TxCost (SP_Txtype tx) false);
  a ← AccountFromSignature txBytes signature;
  let '(addr, acc) := a in
  (when Balance acc <? cost return ErrNotEnoughBalance;
   when negb (Nonce acc =? SP_Nonce tx) return ErrAccountNonceInvalid;
   process ← wrapping "cannot get process" (State_Process (SP_ProcessId tx) false);
   process ← lift (deref process);
   isOracle ← authorized_setter process addr;
   match SP_Txtype tx with
   | SET_PROCESS_RESULTS =>
       when negb isOracle return Errorf "only oracles can execute set process results transaction";
       when Balance acc <? cost return ErrNotEnoughBalance;
       when negb (Nonce acc =? SP_Nonce tx) return ErrAccountNonceInvalid;
       results ← lift (deref (SP_Results tx));
       when bool_decide (default "" (OracleAddress results) <> addr_bytes addr)
       return Errorf "oracle address provided in results does not match";
       SetProcessResults (ProcessId process) (Some results) false;;
       mret addr
   | SET_PROCESS_STATUS =>
       SetProcessStatus (ProcessId process) (default PROCESS_UNKNOWN (SP_Status tx)) false;;
       mret addr
   | SET_PROCESS_CENSUS =>
       SetProcessCensus (ProcessId process) (default "" (SP_CensusRoot tx))
         (default "" (SP_CensusURI tx)) false;;
       mret addr
   | _ => throw (Errorf "unknown setProcess tx type")
   end)%go.
End process_tx.

(** ** Administration *)

Section admin_tx.
Context `{Arbo, Lru, Proto, ProofLibs}.

Definition valid_key_index (i : Z) : bool := (1 <=? i) && (i <=? Z.of_nat KeyKeeperMaxKeyIndex).

Definition checkAddProcessKeys (tx : option AdminTx) (process : Process) : outcome unit :=
  match tx with
  | None => Err ErrNilTx
  | Some tx =>
      match Adm_KeyIndex tx with
      | None => Err (Errorf "key index is nil")
      | Some i =>
          check (bool_decide (EncryptionPublicKey tx = None) || negb (valid_key_index i))
            (Errorf "no keys provided or invalid key index");;
          key ← slice_get (EncryptionPublicKeys process) i;
          check (0 <? blen key) (Errorf "key index already exists")
      end
  end.

Definition checkRevealProcessKeys (tx : option AdminTx) (process : option Process) : outcome unit :=
  match tx, process with
  | None, _ => Err ErrNilTx
  | _, None => Err (Errorf "process is nil")
  | Some tx, Some process =>
      match Adm_KeyIndex tx with
      | None => Err (Errorf "key index is nil")
      | Some i =>
          check (bool_decide (EncryptionPrivateKey tx = None) || negb (valid_key_index i))
            (Errorf "no keys provided or invalid key index");;
          key ← slice_get (EncryptionPublicKeys process) i;
          check (blen key <? 1) (Errorf "key index does not exist");;
          match EncryptionPrivateKey tx with
          | None => Ok tt
          | Some priv =>
              priv ← DecodePrivate (hex_encode priv);
              key ← slice_get (EncryptionPublicKeys process) i;
              check (bool_decide (hex_encode (pk_pub priv) <> key))
                (Errorf "the provided private key does not match with the stored public key")
          end
      end
  end.

(** [VerifySender] with the oracles as the authorised keys. *)
Definition verifySignatureAgainstOracles (oracles : list Address) (message signature : bytes) :
  outcome (bool * Address) :=
  recoveredAddr ← AddrFromSignature message signature;
  Ok (bool_decide (recoveredAddr ∈ oracles), recoveredAddr).

Definition process_keys_check (tx : AdminTx) (process : Process) (height : Z) : outcome unit :=
  match Adm_Txtype tx with
  | ADD_PROCESS_KEYS =>
      match Adm_KeyIndex tx with
      | None => Err (Errorf "missing keyIndex on AdminTxCheck")
      | Some i =>
          check (StartBlock process <? height)
            (Errorf "cannot add process keys to a process that has started or finished");;
          check (bool_decide (Status process = CANCELED) || bool_decide (Status process = ENDED)
                 || bool_decide (Status process = RESULTS))
            (Errorf "cannot add process keys to such a process");;
          key ← slice_get (EncryptionPublicKeys process) i;
          check (0 <? blen key) (Errorf "keys for process already revealed");;
          checkAddProcessKeys (Some tx) process
      end
  | REVEAL_PROCESS_KEYS =>
      match Adm_KeyIndex tx with
      | None => Err (Errorf "missing keyIndex on AdminTxCheck")
      | Some i =>
          check ((height <? end_block process) &&
                 negb (bool_decide (Status process = ENDED) || bool_decide (Status process = CANCELED)))
            (Errorf "cannot reveal keys before the process is finished");;
          key ← slice_get (EncryptionPrivateKeys process) i;
          check (0 <? blen key) (Errorf "keys for process already revealed");;
          checkRevealProcessKeys (Some tx) (Some process)
      end
  | _ => Ok tt
  end.

(** An oracle of the chain, with an account, handles the keys of a process. *)
Definition process_keys_tx_check (tx : AdminTx) (txBytes signature : bytes) : GoM State unit :=
  match Adm_ProcessId tx with
  | None => throw (Errorf "missing processId on AdminTxCheck")
  | Some pid =>
      process ← State_Process pid false;
      match process with
      | None => throw (Errorf "process does not exist")
      | Some process =>
          envelopeType ← lift (deref (P_EnvelopeType process));
          (when negb (EncryptedVotes envelopeType) && negb (Anonymous envelopeType)
           return Errorf "process does not require keys";
           r ← catch (Oracles false);
           oracles ← match r with
                     | inl _ | inr [] =>
                         throw (Errorf "cannot check authorization against a nil or empty oracle list")
                     | inr l => mret l
                     end;
           r ← lift (verifySignatureAgainstOracles oracles txBytes signature);
           let '(authorized, addr) := r in
           when negb authorized return Errorf "unauthorized to perform an adminTx";
           oracleAcc ← wrapping "cannot get oracle account" (GetAccount addr false);
           existing oracleAcc;;
           height ← CurrentHeight;
           lift (process_keys_check tx process height))%go
      end
  end.

(** [ADD_ORACLE] and [REMOVE_ORACLE]: the treasurer names an address of 20 octets that is
    not zero; [present] is whether it has to be an oracle already. *)
Definition oracle_tx_check (tx : AdminTx) (addr : Address) (present : bool) : GoM State unit :=
  wrapping "tx sender not authorized" (VerifyTreasurer addr (Adm_Nonce tx));;
  let address := default "" (Adm_Address tx) in
  (when bool_decide (address = "") || negb (String.length address =? 20)%nat
        || bool_decide (address = addr_bytes zero_address)
   return Errorf "invalid oracle address";
   oracles ← replacing "cannot get oracles" (Oracles false);
   let found := bool_decide (BytesToAddress address ∈ oracles) in
   if present then reject (negb found) (Errorf "cannot remove oracle, not found")
   else reject found (Errorf "oracle already added to oracle list"))%go.

Definition AdminTxCheck (vtx : option Tx) (txBytes signature : option bytes) : GoM State Address :=
  not_nil_tx vtx;;
  a ← signed_tx "missing signature and/or admin transaction" signature txBytes (GetAdmin vtx);
  let '(signature, txBytes, tx) := a in
  addr ← sender_address txBytes signature;
  match Adm_Txtype tx with
  | ADD_PROCESS_KEYS | REVEAL_PROCESS_KEYS => process_keys_tx_check tx txBytes signature
  | ADD_ORACLE => oracle_tx_check tx addr false
  | REMOVE_ORACLE => oracle_tx_check tx addr true
  | _ => throw (Errorf "tx not supported")
  end;;
  mret addr.
End admin_tx.
