(* ===== verification/Transaction.v ===== *)
(** * Transactions

    Models [VochainTx], [TxKey] and [AddTx] of [src/vochain/transaction.go]: a transaction
    is decoded, checked, and applied to the state when it is delivered.  The branch of
    [AddTx] for each payload is a definition of its own.  Of the application, [AddTx] reads
    the chain identifier and the verification keys. *)

From stdpp Require Import base option list strings gmap.
From S2P Require Import Prelude GoMonad GoLib Sha256 Models External Ethereum Tree StateDB.
From S2P Require Import StateTrees State StateFacts Account AccountFacts ProcessID VoteCache.
From S2P Require Import Process CensusProof Census AccountTx VoteTx ProcessTx.

Record VochainTx := mkVochainTx {
  VTx : option Tx;
  SignedBody : option bytes;
  Signature : option bytes;
  VTxID : bytes;
}.

Record AddTxResponse := mkAddTxResponse {
  TxHash : bytes;
  Data : bytes;
  Log : string;
}.

(** [TxKey]: the checksum of the transaction. *)
Definition TxKey (tx : bytes) : bytes := sha256 tx.

Section transaction.
Context `{Arbo, Lru, Proto, ProofLibs}.

Definition VochainTx_Unmarshal (content : bytes) (chainID : string) : outcome VochainTx :=
  match (unmarshal content : option SignedTx) with
  | None => Err (Errorf "proto: unmarshal")
  | Some stx =>
      match (unmarshal (STx_Tx stx) : option Tx) with
      | None => Err (Errorf "proto: unmarshal")
      | Some tx =>
          Ok (mkVochainTx (Some tx) (Some (BuildVocdoniTransaction (STx_Tx stx) chainID))
                (STx_Signature stx) (TxKey content))
      end
  end.

Section add_tx.
Context (appChainID : string) (ZkVKs : list snark_vk) (vtx : VochainTx) (commit : bool).

(** [if commit { ... }]. *)
Definition on_commit (m : GoM State unit) : GoM State unit := if commit then m else mret tt.

Definition AddTx_Vote : GoM State bytes :=
  r ← wrapping "voteTxCheck"
        (VoteEnvelopeCheck ZkVKs (GetVote (VTx vtx)) (SignedBody vtx) (Signature vtx) (VTxID vtx)
           commit);
  let '(v, voterID) := r in
  on_commit (AddVote v voterID);;
  mret (Nullifier v).

Definition AddTx_Admin : GoM State unit :=
  wrapping "adminTxCheck" (AdminTxCheck (VTx vtx) (SignedBody vtx) (Signature vtx));;
  on_commit
    (tx ← lift (deref (GetAdmin (VTx vtx)));
     match Adm_Txtype tx with
     | ADD_ORACLE =>
         wrapping "addOracle" (AddOracle (BytesToAddress (default "" (Adm_Address tx))));;
         IncrementTreasurerNonce
     | REMOVE_ORACLE =>
         wrapping "removeOracle" (RemoveOracle (BytesToAddress (default "" (Adm_Address tx))));;
         IncrementTreasurerNonce
     | ADD_PROCESS_KEYS => wrapping "addProcessKeys" (AddProcessKeys tx)
     | REVEAL_PROCESS_KEYS => wrapping "revealProcessKeys" (RevealProcessKeys tx)
     | _ => throw (Errorf "tx not supported")
     end).

Definition AddTx_NewProcess : GoM State bytes :=
  r ← wrapping "newProcess"
        (NewProcessTxCheck appChainID (VTx vtx) (SignedBody vtx) (Signature vtx));
  let '(p, txSender) := r in
  on_commit
    (wrapping "newProcess: addProcess" (AddProcess p);;
     wrapping "newProcess: cannot increment process index" (IncrementAccountProcessIndex txSender);;
     SubtractCostIncrementNonce txSender NEW_PROCESS);;
  mret (ProcessId p).

Definition AddTx_SetProcess : GoM State unit :=
  txSender ← wrapping "setProcess" (SetProcessTxCheck (VTx vtx) (SignedBody vtx) (Signature vtx));
  on_commit
    (tx ← lift (deref (GetSetProcess (VTx vtx)));
     match SP_Txtype tx with
     | SET_PROCESS_STATUS =>
         reject (bool_decide (default PROCESS_UNKNOWN (SP_Status tx) = PROCESS_UNKNOWN))
           (Errorf "set process status, status unknown");;
         status ← lift (deref (SP_Status tx));
         replacing "setProcessStatus" (SetProcessStatus (SP_ProcessId tx) status true)
     | SET_PROCESS_RESULTS =>
         reject (bool_decide (SP_Results tx = None)) (Errorf "set process results, results is nil");;
         replacing "setProcessResults" (SetProcessResults (SP_ProcessId tx) (SP_Results tx) true)
     | SET_PROCESS_CENSUS =>
         match SP_CensusRoot tx with
         | None => throw (Errorf "set process census, census root is nil")
         | Some root =>
             replacing "setProcessCensus"
               (SetProcessCensus (SP_ProcessId tx) root (default "" (SP_CensusURI tx)) true)
         end
     | _ => throw (Errorf "unknown set process tx type")
     end;;
     SubtractCostIncrementNonce txSender (SP_Txtype tx)).

Definition AddTx_RegisterKey : GoM State unit :=
  wrapping "registerKeyTx" (RegisterKeyTxCheck (VTx vtx) (SignedBody vtx) (Signature vtx) commit);;
  on_commit
    (tx ← lift (deref (GetRegisterKey (VTx vtx)));
     match big_SetString10 (RK_Weight tx) with
     | None => throw (Errorf "cannot parse weight")
     | Some weight => AddToRollingCensus (RK_ProcessId tx) (NewKey tx) weight
     end).

(** [&models.FaucetPayload{...}] from the getters of the package. *)
Definition faucet_payload_copy (p : option FaucetPayload) : FaucetPayload :=
  mkFaucetPayload (from_option Identifier 0 p) (from_option FP_To "" p) (from_option Amount 0 p).

Definition AddTx_SetAccountInfo : GoM State unit :=
  txValues ← wrapping "setAccountInfoTxCheck"
               (SetAccountInfoTxCheck (VTx vtx) (SignedBody vtx) (Signature vtx));
  on_commit
    (tx ← lift (deref (GetSetAccountInfo (VTx vtx)));
     let infoURI := default "" (SAI_InfoURI tx) in
     if CreateAccountV txValues then
       if CreateAccountWithFaucet txValues then
         wrapping "setAccountInfoTxCheck: createAccount"
           (CreateAccount (TxSender txValues) infoURI [] 0);;
         ConsumeFaucetPayload (FaucetPayloadSigner txValues)
           (Some (faucet_payload_copy (SAI_FaucetPackage tx ≫= FP_Payload))) SET_ACCOUNT_INFO
       else CreateAccount (TxSender txValues) infoURI [] 0
     else
       wrapping "setAccountInfoURI" (SetAccountInfoURI (SAIV_Account txValues) infoURI);;
       SubtractCostIncrementNonce (TxSender txValues) SET_ACCOUNT_INFO).

Definition AddTx_SetTransactionCosts : GoM State unit :=
  cost ← wrapping "setTransactionCostsTx"
           (SetTransactionCostsTxCheck (VTx vtx) (SignedBody vtx) (Signature vtx));
  on_commit
    (tx ← lift (deref (GetSetTransactionCosts (VTx vtx)));
     wrapping "setTransactionCosts" (SetTxCost (TC_Txtype tx) cost);;
     IncrementTreasurerNonce).

Definition AddTx_MintTokens : GoM State unit :=
  r ← wrapping "mintTokensTx" (MintTokensTxCheck (VTx vtx) (SignedBody vtx) (Signature vtx));
  let '(address, amount) := r in
  on_commit
    (wrapping "mintTokensTx" (MintBalance address amount);;
     IncrementTreasurerNonce).

Definition AddTx_SendTokens : GoM State unit :=
  txValues ← wrapping "sendTokensTxCheck"
               (SendTokensTxCheck (VTx vtx) (SignedBody vtx) (Signature vtx));
  on_commit
    (wrapping "sendTokensTx: transferBalance"
       (TransferBalance (STV_From txValues) (STV_To txValues) (STV_Value txValues));;
     SubtractCostIncrementNonce (STV_From txValues) SEND_TOKENS).

Definition AddTx_SetAccountDelegate : GoM State unit :=
  txValues ← wrapping "setAccountDelegateTxCheck"
               (SetAccountDelegateTxCheck (VTx vtx) (SignedBody vtx) (Signature vtx));
  on_commit
    (tx ← lift (deref (GetSetAccountDelegateTx (VTx vtx)));
     match SAD_Txtype tx with
     | ADD_DELEGATE_FOR_ACCOUNT =>
         wrapping "setAccountDelegate"
           (SetAccountDelegate (SADV_From txValues) (SADV_Delegate txValues) ADD_DELEGATE_FOR_ACCOUNT);;
         SubtractCostIncrementNonce (SADV_From txValues) ADD_DELEGATE_FOR_ACCOUNT
     | DEL_DELEGATE_FOR_ACCOUNT =>
         wrapping "setAccountDelegate"
           (SetAccountDelegate (SADV_From txValues) (SADV_Delegate txValues) DEL_DELEGATE_FOR_ACCOUNT);;
         SubtractCostIncrementNonce (SADV_From txValues) DEL_DELEGATE_FOR_ACCOUNT
     | _ => throw (Errorf "setAccountDelegate: invalid transaction type")
     end).

Definition AddTx_CollectFaucet : GoM State unit :=
  fromAcc ← wrapping "collectFaucetTxCheck"
              (CollectFaucetTxCheck (VTx vtx) (SignedBody vtx) (Signature vtx));
  on_commit
    (tx ← lift (deref (GetCollectFaucet (VTx vtx)));
     package ← lift (deref (CF_FaucetPackage tx));
     payload ← lift (deref (FP_Payload package));
     wrapping "collectFaucetTx" (ConsumeFaucetPayload fromAcc (Some payload) COLLECT_FAUCET);;
     SubtractCostIncrementNonce fromAcc COLLECT_FAUCET).

(** [AddTx]: only votes and new processes answer with data. *)
Definition AddTx : GoM State AddTxResponse :=
  let response d := mret (mkAddTxResponse (VTxID vtx) d "") in
  match tx_payload (VTx vtx) with
  | None => throw (Errorf "transaction, state, and/or transaction payload is nil")
  | Some (Tx_Vote _) => AddTx_Vote ≫= response
  | Some (Tx_Admin _) => AddTx_Admin;; response ""
  | Some (Tx_NewProcess _) => AddTx_NewProcess ≫= response
  | Some (Tx_SetProcess _) => AddTx_SetProcess;; response ""
  | Some (Tx_RegisterKey _) => AddTx_RegisterKey;; response ""
  | Some (Tx_SetAccountInfo _) => AddTx_SetAccountInfo;; response ""
  | Some (Tx_SetTransactionCosts _) => AddTx_SetTransactionCosts;; response ""
  | Some (Tx_MintTokens _) => AddTx_MintTokens;; response ""
  | Some (Tx_SendTokens _) => AddTx_SendTokens;; response ""
  | Some (Tx_SetAccountDelegate _) => AddTx_SetAccountDelegate;; response ""
  | Some (Tx_CollectFaucet _) => AddTx_CollectFaucet;; response ""
  | Some Tx_Other => throw (Errorf "invalid transaction type")
  end.
End add_tx.
End transaction.
