(* ===== verification/App.v ===== *)
(** * Blocks: the ABCI application

    Models [Save] and [setRollingCensusSize] of [src/vochain/state.go], the ABCI methods of
    [src/vochain/app.go] (InitChain, BeginBlock, CheckTx, DeliverTx, EndBlock, Commit, Info)
    and the genesis types of [src/vochain/types.go].  [log.Fatal] ends the node and is a
    panic.  The genesis is taken after its JSON is decoded; the snapshot that [Commit]
    writes to a file every 50000 blocks is added in [Snapshot.v]. *)

From stdpp Require Import base option list strings gmap.
From S2P Require Import Prelude GoMonad GoLib Sha256 Models External Ethereum Tree StateDB.
From S2P Require Import StateTrees State StateFacts Account AccountFacts ProcessID VoteCache.
From S2P Require Import Process CensusProof Census AccountTx VoteTx ProcessTx Transaction.

(** ** Genesis *)

Record TransactionCosts := mkTransactionCosts {
  SetProcessStatus_cost : Z;
  SetProcessCensus_cost : Z;
  SetProcessResults_cost : Z;
  SetProcessQuestionIndex_cost : Z;
  RegisterKey_cost : Z;
  NewProcess_cost : Z;
  SendTokens_cost : Z;
  SetAccountInfo_cost : Z;
  AddDelegateForAccount_cost : Z;
  DelDelegateForAccount_cost : Z;
  CollectFaucet_cost : Z;
}.

(** [AsMap], as the list of its entries in the order of the fields. *)
Definition AsMap (t : TransactionCosts) : list (TxType * Z) :=
  [(SET_PROCESS_STATUS, SetProcessStatus_cost t);
   (SET_PROCESS_CENSUS, SetProcessCensus_cost t);
   (SET_PROCESS_RESULTS, SetProcessResults_cost t);
   (SET_PROCESS_QUESTION_INDEX, SetProcessQuestionIndex_cost t);
   (REGISTER_VOTER_KEY, RegisterKey_cost t);
   (NEW_PROCESS, NewProcess_cost t);
   (SEND_TOKENS, SendTokens_cost t);
   (SET_ACCOUNT_INFO, SetAccountInfo_cost t);
   (ADD_DELEGATE_FOR_ACCOUNT, AddDelegateForAccount_cost t);
   (DEL_DELEGATE_FOR_ACCOUNT, DelDelegateForAccount_cost t);
   (COLLECT_FAUCET, CollectFaucet_cost t)].

Record GenesisValidator := mkGenesisValidator {
  GV_Address : bytes;
  GV_PubKey : bytes;
  GV_Power : string;
}.

Record GenesisAppState := mkGenesisAppState {
  G_Validators : list GenesisValidator;
  G_Oracles : list bytes;
  G_Accounts : list (bytes * Z);
  G_Treasurer : bytes;
  G_TxCost : TransactionCosts;
}.

(** [strconv.ParseUint(s, 10, 64)]. *)
Definition ParseUint64 (s : string) : option Z :=
  match s with
  | EmptyString => None
  | _ => n ← dec_parse 0 s; if n <? 2 ^ 64 then Some n else None
  end.

Section app.
Context `{Arbo, Lru, Proto, ProofLibs}.

(** ** Saving the state *)

Definition nil_TreeTx : TreeTx := mkTreeTx empty_DB ∅.

(** The size of the rolling census of each process that starts. *)
Definition set_rolling_size (pid : bytes) : GoM State unit :=
  process ← getProcess (UpdateView []) pid;
  process ← lift (deref process);
  mode ← lift (deref (Mode process));
  if negb (PreRegister mode) then mret tt
  else
    censusSize ← getRollingCensusSize (UpdateView []) pid;
    on_Tx (updateProcess_tx (Some (with_RollingCensusSize (Some censusSize) process)) pid).

Definition setRollingCensusSize (pids : list bytes) : GoM State unit := mfor pids set_rolling_size.

(** [l.Commit(height)] on each listener; the first that asks to halt stops the loop. *)
Fixpoint commit_listeners (height : Z) (ls : list (EventListener * list Event)) :
  list (EventListener * list Event) * option error :=
  match ls with
  | [] => ([], None)
  | (l, log) :: ls' =>
      let log := log ++ [OnCommit height] in
      match l log height with
      | CommitHalt e => ((l, log) :: ls', Some e)
      | _ => let '(ls'', r) := commit_listeners height ls' in ((l, log) :: ls'', r)
      end
  end.

(** [v.Tx.Commit(height)] writes the contents of the transaction to the store. *)
Definition save_commit (height : Z) : GoM State unit :=
  wrapping "cannot commit statedb tx" (on_Tx (TreeTx_Commit height));;
  modify (fun s => set_Store (tx_db (STx s)) s).

Definition save_begin : GoM State unit :=
  d ← gets Store;
  match BeginTx d with
  | Ok tx => modify (set_STx tx)
  | Err e => modify (set_STx nil_TreeTx);; throw (Wrap "cannot begin statedb tx" e)
  | Panic w => panic w
  end.

Definition Save : GoM State bytes :=
  height ← CurrentHeight;
  pidsStartNextBlock ← wrapping "cannot get processIDs by StartBlock"
    (on_Tx (processIDsByStartBlock (u32 (height + 1))));
  replacing "cannot set rollingCensusSize for processes" (setRollingCensusSize pidsStartNextBlock);;
  save_commit height;;
  save_begin;;
  d ← gets Store;
  view ← wrapping "cannot get statdeb mainTreeView" (lift (StateDB_TreeView d None));
  modify (setMainTreeView view);;
  ls ← gets eventListeners;
  let '(ls, halt) := commit_listeners height ls in
  modify (set_eventListeners ls);;
  match halt with
  | Some e => throw e
  | None =>
      (if bool_decide (pidsStartNextBlock = []) then mret tt
       else notify (OnProcessesStart pidsStartNextBlock));;
      lift (StateDB_Hash d)
  end.

(** ** The application *)

Record BaseApplication := mkApp {
  AppState : State;
  app_height : Z;
  endBlockTimestamp : Z;
  startBlockTimestamp : Z;
  app_chainID : string;
  ZkVKs : list snark_vk;
}.

Definition set_AppState (s : State) (a : BaseApplication) : BaseApplication :=
  mkApp s (app_height a) (endBlockTimestamp a) (startBlockTimestamp a) (app_chainID a) (ZkVKs a).
Definition set_startBlockTimestamp (t : Z) (a : BaseApplication) : BaseApplication :=
  mkApp (AppState a) (app_height a) (endBlockTimestamp a) t (app_chainID a) (ZkVKs a).

Definition on_State {A} (m : GoM State A) : GoM BaseApplication A := zoom AppState set_AppState m.

(** [if err := m; err != nil { log.Fatal(err) }]. *)
Definition fatal {A} (m : GoM State A) : GoM State A :=
  r ← catch m; match r with inl _ => panic "fatal" | inr a => mret a end.

(** [SetChainID]. *)
Definition App_SetChainID (chainId : string) (a : BaseApplication) : BaseApplication :=
  mkApp (SetChainID chainId (AppState a)) (app_height a) (endBlockTimestamp a)
    (startBlockTimestamp a) chainId (ZkVKs a).

(** The error of [CreateAccount] is dropped for an oracle. *)
Definition genesis_oracle (v : bytes) : GoM State unit :=
  let addr := BytesToAddress v in
  fatal (AddOracle addr);;
  catch (CreateAccount addr "" [] 100);;
  mret tt.

Definition genesis_account (acc : bytes * Z) : GoM State unit :=
  let addr := BytesToAddress acc.1 in
  r ← catch (CreateAccount addr "" [] acc.2);
  match r with
  | inr _ => mret tt
  | inl e =>
      if bool_decide (e <> ErrAccountAlreadyExists) then panic "fatal"
      else fatal (MintBalance addr acc.2)
  end.

Definition genesis_validator (v : GenesisValidator) : GoM State unit :=
  match ParseUint64 (GV_Power v) with
  | None => panic "fatal"
  | Some pwr => fatal (AddValidator (mkValidator (GV_Address v) (GV_PubKey v) pwr))
  end.

(** [range_order] is the order in which the runtime visits the map of the costs. *)
Definition InitChain (range_order : list (TxType * Z) -> list (TxType * Z)) (g : GenesisAppState) :
  GoM State unit :=
  mfor (G_Oracles g) genesis_oracle;;
  mfor (G_Accounts g) genesis_account;;
  mfor (G_Validators g) genesis_validator;;
  fatal (SetTreasurer (BytesToAddress (G_Treasurer g)) 0);;
  mfor (range_order (AsMap (G_TxCost g))) (fun kv => fatal (SetTxCost kv.1 kv.2));;
  fatal (SetAccount BurnAddress (mkAccount 0 0 "" [] 0));;
  fatal Save;;
  mret tt.

(** [CachePurge] runs in a goroutine of its own; here it runs at once. *)
Definition BeginBlock (time height : Z) : GoM BaseApplication unit :=
  on_State Rollback;;
  modify (set_startBlockTimestamp time);;
  let height := u32 height in
  on_State (modify (SetHeight height));;
  on_State (CachePurge height).

(** The code is 0 for an accepted transaction and 1 for a rejected one. *)
Inductive TxResult :=
| Accepted (data : bytes) (info : string) (log : string)
| Rejected (e : error).

Definition Code (r : TxResult) : Z := match r with Accepted _ _ _ => 0 | Rejected _ => 1 end.

Definition accepted (response : AddTxResponse) : TxResult :=
  Accepted (Data response) (hex_encode (TxHash response)) (Log response).

Definition app_AddTx (tx : VochainTx) (commit : bool) : GoM BaseApplication AddTxResponse :=
  a ← get;
  on_State (AddTx (app_chainID a) (ZkVKs a) tx commit).

Definition CheckTx (recheck : bool) (content : bytes) : GoM BaseApplication TxResult :=
  if recheck then mret (Accepted "" "" "")
  else
    a ← get;
    match VochainTx_Unmarshal content (app_chainID a) with
    | Panic w => panic w
    | Err e => mret (Rejected (Wrap "unmarshalTx" e))
    | Ok tx =>
        r ← catch (app_AddTx tx false);
        mret match r with
             | inr response => accepted response
             | inl e => if errors_is e ErrorAlreadyExistInCache then Accepted "" "" ""
                        else Rejected (Wrap "addTx" e)
             end
    end.

(** [tm_Hash] is the hash tendermint gives to a transaction. *)
Definition DeliverTx (tm_Hash : bytes -> bytes) (content : bytes) : GoM BaseApplication TxResult :=
  deferring (fun a => set_AppState (TxCounterAdd (AppState a)).1 a)
    (a ← get;
     match VochainTx_Unmarshal content (app_chainID a) with
     | Panic w => panic w
     | Err e => mret (Rejected e)
     | Ok tx =>
         r ← catch (app_AddTx tx true);
         match r with
         | inl e => mret (Rejected e)
         | inr response =>
             a ← get;
             on_State (counter ← TxCounter;
                       notify (OnNewTx (tm_Hash content) (u32 (app_height a + 1)) counter));;
             mret (accepted response)
         end
     end).

Definition EndBlock (height timestamp : Z) : GoM BaseApplication unit :=
  modify (fun a => mkApp (AppState a) (u32 height) timestamp (startBlockTimestamp a)
                     (app_chainID a) (ZkVKs a)).

Definition App_Commit : GoM BaseApplication bytes := on_State (fatal Save).

(** [Info]: the height and the hash of the last commit. *)
Definition App_Info : GoM BaseApplication (Z * bytes) :=
  on_State
    (lastHeight ← fatal LastHeight;
     appHash ← fatal (d ← gets Store; lift (StateDB_Hash d));
     mret (lastHeight, appHash)).

Definition AdvanceTestBlock : GoM BaseApplication unit :=
  a ← get;
  let endingHeight := app_height a + 1 in
  let endingTime := startBlockTimestamp a + 10 in
  EndBlock endingHeight endingTime;;
  App_Commit;;
  BeginBlock (endingTime + 2) (endingHeight + 1).
End app.
