(* ===== verification/Snapshot.v ===== *)
(** * Snapshots of the state

    Models [src/vochain/state_snapshot.go]: the file of a snapshot, which holds the dumps of a list
    of trees behind a header, how it is written and read, and the snapshot that the application
    makes of all the trees of the state. *)

From stdpp Require Import base option list strings gmap.
From Stdlib Require Import ZArith Lia.
From S2P Require Import Prelude GoMonad GoLib GoText Models External StateDB StateTrees State Process App.

Definition snapshotHeaderVersion : Z := 1.
Definition snapshotHeaderLenSize : nat := 32.
Definition io_EOF : error := Sentinel "EOF".

Record SnapshotHeaderTree := mkHeaderTree {
  HT_Name : string;
  HT_Size : Z;
  HT_Parent : string;
  HT_Root : bytes;
}.

Record SnapshotHeader := mkSnapshotHeader {
  SH_Version : Z;
  SH_Root : bytes;
  SH_ChainID : string;
  SH_Height : Z;
  SH_Trees : list SnapshotHeaderTree;
}.

Definition zero_header : SnapshotHeader := mkSnapshotHeader 0 "" "" 0 [].

(** ** Libraries *)

(** [gob] leaves the fields that are not in the data as they were.  [arbo_DumpWriter] is what a tree
    writes, in the order of the calls, and the error it ends with. *)
Class SnapshotLibs `{Arbo} := {
  gob_Encode : SnapshotHeader -> error + bytes;
  gob_Decode : SnapshotHeader -> bytes -> error + SnapshotHeader;
  arbo_DumpWriter : arbo -> list bytes * option error;
}.

Class SnapshotLawful `{SnapshotLibs} := {
  gob_total h : exists b, gob_Encode h = inr b;
  gob_roundtrip h b : gob_Encode h = inr b -> gob_Decode zero_header b = inr h;
}.

(** ** Files *)

(** An open file, with the place of the next read or write. *)
Record open_file := mkHandle { h_path : string; h_off : nat; h_writable : bool }.

(** The buffer of the current tree is a reader of the file with the number of octets that are left. *)
Record StateSnapshot := mkStateSnapshot {
  s_path : string;
  s_file : option open_file;
  s_lock : bool;
  s_header : SnapshotHeader;
  s_headerSize : Z;
  s_currentTree : Z;
  s_reader : option nat;
}.

Definition zero_snapshot : StateSnapshot := mkStateSnapshot "" None false zero_header 0 0 None.

Record SnapEnv := mkSnapEnv { e_disk : gmap string bytes; e_snap : StateSnapshot }.

Definition set_disk x (e : SnapEnv) : SnapEnv := mkSnapEnv x (e_snap e).
Definition set_snap x (e : SnapEnv) : SnapEnv := mkSnapEnv (e_disk e) x.
Definition set_s_path x (s : StateSnapshot) : StateSnapshot :=
  mkStateSnapshot x (s_file s) (s_lock s) (s_header s) (s_headerSize s) (s_currentTree s) (s_reader s).
Definition set_s_file x (s : StateSnapshot) : StateSnapshot :=
  mkStateSnapshot (s_path s) x (s_lock s) (s_header s) (s_headerSize s) (s_currentTree s) (s_reader s).
Definition set_s_lock x (s : StateSnapshot) : StateSnapshot :=
  mkStateSnapshot (s_path s) (s_file s) x (s_header s) (s_headerSize s) (s_currentTree s) (s_reader s).
Definition set_s_header x (s : StateSnapshot) : StateSnapshot :=
  mkStateSnapshot (s_path s) (s_file s) (s_lock s) x (s_headerSize s) (s_currentTree s) (s_reader s).
Definition set_s_headerSize x (s : StateSnapshot) : StateSnapshot :=
  mkStateSnapshot (s_path s) (s_file s) (s_lock s) (s_header s) x (s_currentTree s) (s_reader s).
Definition set_s_currentTree x (s : StateSnapshot) : StateSnapshot :=
  mkStateSnapshot (s_path s) (s_file s) (s_lock s) (s_header s) (s_headerSize s) x (s_reader s).
Definition set_s_reader x (s : StateSnapshot) : StateSnapshot :=
  mkStateSnapshot (s_path s) (s_file s) (s_lock s) (s_header s) (s_headerSize s) (s_currentTree s) x.
Definition set_trees x (h : SnapshotHeader) : SnapshotHeader :=
  mkSnapshotHeader (SH_Version h) (SH_Root h) (SH_ChainID h) (SH_Height h) x.

Notation SM := (GoM SnapEnv).

Definition on_snap (f : StateSnapshot -> StateSnapshot) : SM unit := modify (fun e => set_snap (f (e_snap e)) e).
Definition snap {A} (f : StateSnapshot -> A) : SM A := gets (fun e => f (e_snap e)).

(** [os.Create] truncates the file. *)
Definition os_Create (path : string) : SM open_file :=
  modify (fun e => set_disk (<[path := ""]> (e_disk e)) e);; mret (mkHandle path 0 true).

Definition write_at (content : bytes) (off : nat) (b : bytes) : bytes :=
  btake off content +:+ zeros (off - String.length content) +:+ b +:+ bdrop (off + String.length b) content.

(** [s.file.Write]; a method on a nil or closed file is an error. *)
Definition file_Write (b : bytes) : SM unit :=
  f ← snap s_file;
  match f with
  | Some (mkHandle path off true) =>
      modify (fun e => set_disk (<[path := write_at (default "" (e_disk e !! path)) off b]> (e_disk e)) e);;
      on_snap (set_s_file (Some (mkHandle path (off + String.length b) true)))
  | _ => throw (Errorf "file cannot be written")
  end.

Definition file_Seek (off : nat) : SM unit :=
  f ← snap s_file;
  match f with
  | Some h => on_snap (set_s_file (Some (mkHandle (h_path h) off (h_writable h))))
  | None => throw (Errorf "invalid argument")
  end.

(** At most [n] octets from the place of the file, which moves on. *)
Definition file_Read (n : nat) : SM bytes :=
  f ← snap s_file;
  match f with
  | Some h =>
      e ← get;
      let b := btake n (bdrop (h_off h) (default "" (e_disk e !! h_path h))) in
      on_snap (set_s_file (Some (mkHandle (h_path h) (h_off h + String.length b) (h_writable h))));;
      mret b
  | None => throw (Errorf "invalid argument")
  end.

(** [s.lock.Lock(); defer s.lock.Unlock()].  A second lock waits forever. *)
Definition locked {A} (m : SM A) : SM A :=
  fun e => if s_lock (e_snap e) then (e, Panic "deadlock")
           else let (e', o) := m (set_snap (set_s_lock true (e_snap e)) e) in
                (set_snap (set_s_lock false (e_snap e')) e', o).

Section snapshot.
Context `{SnapshotLibs}.

Definition SetMainRoot (root : bytes) : SM unit :=
  on_snap (fun s => let h := s_header s in
                    set_s_header (mkSnapshotHeader (SH_Version h) root (SH_ChainID h) (SH_Height h) (SH_Trees h)) s).
Definition Snapshot_SetHeight (height : Z) : SM unit :=
  on_snap (fun s => let h := s_header s in
                    set_s_header (mkSnapshotHeader (SH_Version h) (SH_Root h) (SH_ChainID h) height (SH_Trees h)) s).
Definition Snapshot_SetChainID (chainID : string) : SM unit :=
  on_snap (fun s => let h := s_header s in
                    set_s_header (mkSnapshotHeader (SH_Version h) (SH_Root h) chainID (SH_Height h) (SH_Trees h)) s).

(** ** Reading *)

(** The start of the tree [i]: after the header and the trees before it. *)
Definition tree_offset (headerSize : Z) (trees : list SnapshotHeaderTree) (i : nat) : Z :=
  Z.of_nat snapshotHeaderLenSize + headerSize + fold_right (fun t n => HT_Size t + n) 0 (take i trees).

Definition FetchNextTree : SM unit :=
  locked (
    s ← snap id;
    let trees := SH_Trees (s_header s) in
    if s_currentTree s >=? Z.of_nat (List.length trees) - 1 then throw io_EOF
    else
      let current := s_currentTree s + 1 in
      on_snap (set_s_currentTree current);;
      r ← catch (file_Seek (Z.to_nat (tree_offset (s_headerSize s) trees (Z.to_nat current))));
      tree ← lift (slice_get trees current);
      on_snap (set_s_reader (Some (Z.to_nat (HT_Size tree))));;
      match r with inl e => throw e | inr _ => mret tt end).

(** The octets that the decoder reads from the file do not matter: [FetchNextTree] seeks. *)
Definition Snapshot_Open (filePath : string) : SM unit :=
  on_snap (set_s_path filePath);;
  e ← get;
  match e_disk e !! filePath with
  | None => on_snap (set_s_file None);; throw (Errorf "no such file or directory")
  | Some content =>
      on_snap (set_s_file (Some (mkHandle filePath 0 false)));;
      headerSizeBytes ← file_Read snapshotHeaderLenSize;
      reject (bool_decide (headerSizeBytes = "")) io_EOF;;
      reject (String.length headerSizeBytes <? snapshotHeaderLenSize)%nat (Errorf "unexpected EOF");;
      headerSize ← lift (LittleEndian_Uint32 headerSizeBytes);
      on_snap (set_s_headerSize headerSize);;
      file_Seek snapshotHeaderLenSize;;
      s ← snap id;
      header ← lift (wrapping_out "cannot decode header"
                       (of_sum (gob_Decode (s_header s) (btake (Z.to_nat headerSize) (bdrop snapshotHeaderLenSize content)))));
      on_snap (set_s_header header);;
      reject (negb (SH_Version header =? snapshotHeaderVersion)) (Errorf "snapshot version not compatible");;
      on_snap (fun s => set_s_currentTree (s_currentTree s - 1) s);;
      FetchNextTree
  end.

(** [n] is the length of the buffer. *)
Definition Snapshot_Read (n : nat) : SM bytes :=
  locked (
    r ← snap s_reader;
    match r with
    | None => panic "nil pointer dereference"
    | Some O => throw io_EOF
    | Some remaining =>
        b ← file_Read (Nat.min n remaining);
        reject (bool_decide (b = "") && negb (n =? 0)%nat) io_EOF;;
        on_snap (set_s_reader (Some (remaining - String.length b)%nat));;
        mret b
    end).

Definition Snapshot_ReadAll : SM bytes :=
  locked (
    r ← snap s_reader;
    match r with
    | None => panic "nil pointer dereference"
    | Some remaining =>
        b ← file_Read remaining;
        on_snap (set_s_reader (Some (remaining - String.length b)%nat));;
        reject (bool_decide (b = "")) io_EOF;;
        mret b
    end).

Definition Snapshot_Header : SM SnapshotHeader := snap s_header.
Definition Snapshot_TreeHeader : SM SnapshotHeaderTree :=
  s ← snap id; lift (slice_get (SH_Trees (s_header s)) (s_currentTree s)).
Definition Snapshot_Path : SM string := snap s_path.

(** ** Writing *)

Definition Snapshot_Create (filePath : string) : SM unit :=
  locked (
    on_snap (fun s => let h := s_header s in
                      set_s_header (mkSnapshotHeader snapshotHeaderVersion (SH_Root h) (SH_ChainID h) (SH_Height h) (SH_Trees h)) s);;
    f ← os_Create (filePath +:+ ".tmp");
    on_snap (set_s_file (Some f));;
    on_snap (set_s_path filePath)).

(** The lock is held until [EndTree]. *)
Definition Snapshot_AddTree (name parent : string) (root : bytes) : SM unit :=
  l ← snap s_lock;
  (if l : bool then panic "deadlock" else mret tt);;
  on_snap (set_s_lock true);;
  on_snap (fun s => set_s_header (set_trees (SH_Trees (s_header s) ++ [mkHeaderTree name 0 parent root]) (s_header s)) s).

Definition Snapshot_EndTree : SM unit :=
  on_snap (fun s => set_s_currentTree (s_currentTree s + 1) s);;
  l ← snap s_lock;
  (if l : bool then mret tt else panic "unlock of unlocked mutex");;
  on_snap (set_s_lock false).

Definition grow_tree (n : Z) (t : SnapshotHeaderTree) : SnapshotHeaderTree :=
  mkHeaderTree (HT_Name t) (u32 (HT_Size t + u32 n)) (HT_Parent t) (HT_Root t).

Definition Snapshot_Write (b : bytes) : SM Z :=
  r ← catch (file_Write b);
  let n := match r with inr _ => blen b | inl _ => 0 end in
  s ← snap id;
  tree ← lift (slice_get (SH_Trees (s_header s)) (s_currentTree s));
  trees ← lift (slice_set (SH_Trees (s_header s)) (s_currentTree s) (grow_tree n tree));
  on_snap (set_s_header (set_trees trees (s_header s)));;
  match r with inr _ => mret n | inl e => throw e end.

(** The final file has the size of the header in 32 octets, the header and the temporary file. *)
Definition header_size_bytes (n : nat) : bytes := LittleEndian_PutUint32 (u32 (Z.of_nat n)) +:+ zeros (snapshotHeaderLenSize - 4).

Definition Snapshot_Save : SM unit :=
  locked (
    s ← snap id;
    final ← os_Create (s_path s);
    buf ← lift (of_sum (gob_Encode (s_header s)));
    let append x := modify (fun e => set_disk (<[h_path final := default "" (e_disk e !! h_path final) +:+ x]> (e_disk e)) e) in
    append (header_size_bytes (String.length buf));;
    append buf;;
    file_Seek 0;;
    e ← get;
    match s_file (e_snap e) with
    | Some f =>
        append (default "" (e_disk e !! h_path f));;
        on_snap (set_s_file None);;
        modify (fun e => set_disk (delete (h_path f) (e_disk e)) e)
    | None => throw (Errorf "invalid argument")
    end).

Definition write_chunks (chunks : list bytes) : SM unit := mfor chunks (fun b => Snapshot_Write b;; mret tt).

(** [tr.Dump(&snap)]. *)
Definition dump_to (t : arbo) : SM unit :=
  let '(chunks, err) := arbo_DumpWriter t in
  write_chunks chunks;;
  match err with Some e => throw e | None => mret tt end.
End snapshot.

(** ** The snapshot of the state *)

Definition tree_name (t : StateTree) : string :=
  match t with
  | TreeProcess => "Processes" | TreeExtra => "Extra" | TreeOracles => "Oracles" | TreeValidators => "Validators"
  | TreeAccounts => "Accounts" | TreeFaucet => "FaucetNonce"
  end.
Definition child_name (t : StateChildTree) : string :=
  match t with
  | ChildTreeCensus => "Census" | ChildTreeCensusPoseidon => "CensusPoseidon"
  | ChildTreePreRegisterNullifiers => "PreRegisterNullifiers" | ChildTreeVotes => "Votes"
  end.

Definition storageDirectory : string := "vcstate".
Definition snapshotsDirectory : string := "snapshots".

Section state.
Context `{Arbo, Lru, Proto, EthCrypto, !SnapshotLibs}.

Record SnapRun := mkSnapRun { r_state : State; r_env : SnapEnv }.
Notation RM := (GoM SnapRun).

Definition of_state {A} : GoM State A -> RM A := zoom r_state (fun s r => mkSnapRun s (r_env r)).
Definition of_env {A} : SM A -> RM A := zoom r_env (fun e r => mkSnapRun (r_state r) e).

Definition dumpTree (name parent : string) (tr : TreeView) : RM unit :=
  root ← of_state (lift (TV_Root tr));
  of_env (Snapshot_AddTree name parent root);;
  wrapping "cannot dump tree" (of_env (dump_to (tv_tree tr)));;
  of_env Snapshot_EndTree.

(** A committed subtree. *)
Definition sub_view (v : TreeView) (cfg : TreeConfig) : RM TreeView :=
  of_state (d ← gets Store; lift (TV_SubTree d v cfg)).

(** Errors of a child tree that does not exist. *)
Definition no_child (e : error) : bool :=
  errors_is e arbo_ErrKeyNotFound || errors_is e ErrProcessChildLeafRootUnknown || errors_is e ErrEmptyTree.

Definition dump_child (view : TreeView) (name : StateChildTree) (p : bytes) : RM unit :=
  processTree ← wrapping "cannot load process tree" (sub_view view (StateTreeCfg TreeProcess));
  r ← catch (sub_view processTree (WithKey (StateChildTreeCfg name) p));
  match r with
  | inl e => if no_child e then mret tt else throw (Wrap "child tree cannot be loaded" e)
  | inr childTree => dumpTree (child_name name) (tree_name TreeProcess) childTree
  end.

(** [mains] and [children] are the keys of the maps [MainTrees] and [ChildTrees] in the order of their iterations, which Go
    leaves open.  Of the operations on files only the errors that the contents cause are there. *)
Definition State_snapshot (dataDir : string) (mains : list StateTree) (children : list StateChildTree) : RM string :=
  view ← of_state (gets mainTreeView);
  height ← of_state LastHeight;
  root ← of_state (lift (TV_Root view));
  of_env (modify (set_snap zero_snapshot));;
  of_env (Snapshot_Create (path_Join [dataDir; storageDirectory; snapshotsDirectory; big_String height]));;
  of_env (SetMainRoot root);;
  of_env (Snapshot_SetHeight height);;
  id ← of_state (gets chainID);
  of_env (Snapshot_SetChainID id);;
  dumpTree "Main" "" view;;
  mfor mains (fun k => t ← sub_view view (StateTreeCfg k); dumpTree (tree_name k) "" t);;
  pids ← of_state (ListProcessIDs true);
  mfor children (fun name => mfor pids (fun p => dump_child view name p));;
  path ← of_env Snapshot_Path;
  of_env Snapshot_Save;;
  mret path.
End state.

(** ** The snapshots on disk *)

Record FileInfo := mkFileInfo { FI_Name : string; FI_IsDir : bool; FI_Size : Z; FI_ModTime : Z }.
Record diskSnapshotInfo := mkDiskSnapshotInfo { DS_ModTime : Z; DS_Height : Z; DS_Size : Z }.

(** [strconv.Atoi]. *)
Definition Atoi (s : string) : option Z := ParseInt10_64 s.

Definition snapshot_info (file : FileInfo) : option diskSnapshotInfo :=
  if FI_IsDir file then None
  else height ← Atoi (FI_Name file); Some (mkDiskSnapshotInfo (FI_ModTime file) (u32 height) (FI_Size file)).

(** The files are those of the directory of the snapshots; [log.Fatal] ends the node when it cannot be read. *)
Definition listSnapshots (files : error + list FileInfo) : outcome (list diskSnapshotInfo) :=
  match files with
  | inl _ => Panic "log.Fatal"
  | inr files => Ok (omap snapshot_info files)
  end.

(** [Commit] with the snapshot of every 50000 blocks, of a node that is not catching up. *)
Definition snapshotBlocks : Z := 50000.

Section commit.
Context `{Arbo, Lru, Proto, ProofLibs, !SnapshotLibs}.

Record Node := mkNode { n_app : BaseApplication; n_env : SnapEnv }.

Definition of_app {A} : GoM BaseApplication A -> GoM Node A := zoom n_app (fun a n => mkNode a (n_env n)).
Definition node_run (n : Node) : SnapRun := mkSnapRun (AppState (n_app n)) (n_env n).
Definition node_of (r : SnapRun) (n : Node) : Node := mkNode (set_AppState (r_state r) (n_app n)) (r_env r).

Definition Commit_snapshot (synchronizing : bool) (dataDir : string) (mains : list StateTree) (children : list StateChildTree)
    (files : error + list FileInfo) : GoM Node bytes :=
  data ← of_app App_Commit;
  a ← of_app get;
  (if (app_height a mod snapshotBlocks =? 0) && negb synchronizing then
     r ← catch (zoom node_run node_of (State_snapshot dataDir mains children));
     match r with
     | inl _ => panic "fatal"
     | inr _ => lift (listSnapshots files);; mret tt
     end
   else mret tt);;
  mret data.
End commit.

(** ** Snapshots: lemmas

    What the temporary file of a snapshot holds while trees are added, and what is read back from
    the final file. *)

Definition bconcat (l : list bytes) : bytes := fold_right String.append "" l.

Lemma bconcat_app l l' : bconcat (l ++ l') = bconcat l +:+ bconcat l'.
Proof. induction l as [|b l IH]; [done|]. cbn. unfold bconcat in IH. by rewrite IH, string_app_assoc. Qed.

Lemma blen_app a b : blen (a +:+ b) = blen a + blen b.
Proof. unfold blen. rewrite string_length_app. lia. Qed.

Lemma write_at_end content b : write_at content (String.length content) b = content +:+ b.
Proof.
  unfold write_at. rewrite Nat.sub_diag. cbn [zeros]. rewrite btake_all by done.
  assert (E : bdrop (String.length content + String.length b) content = "").
  { destruct (bdrop _ _) as [|c s] eqn:E; [done|]. apply (f_equal String.length) in E. rewrite length_bdrop in E. cbn in E. lia. }
  rewrite E. cbn. by rewrite string_app_nil_r.
Qed.

Section facts.
Context `{SnapshotLawful}.

(** ** Writing *)

(** A tree of a snapshot: its header and its dump. *)
Notation stree := (SnapshotHeaderTree * bytes)%type.

Definition contents (ts : list stree) : bytes := bconcat (snd <$> ts).

Definition in_progress (cur : option stree) : list stree := match cur with Some t => [t] | None => [] end.

(** The trees [ts] were written, and [c] of the tree [cur] that is being added. *)
Record writing (p : string) (h : SnapshotHeader) (ts : list stree) (cur : option stree) (e : SnapEnv) : Prop := {
  wr_path : s_path (e_snap e) = p;
  wr_file : s_file (e_snap e) =
    Some (mkHandle (p +:+ ".tmp") (String.length (contents (ts ++ in_progress cur))) true);
  wr_lock : s_lock (e_snap e) = bool_decide (is_Some cur);
  wr_header : s_header (e_snap e) = set_trees (fst <$> (ts ++ in_progress cur)) h;
  wr_current : s_currentTree (e_snap e) = Z.of_nat (List.length ts);
  wr_content : e_disk e !! (p +:+ ".tmp") = Some (contents (ts ++ in_progress cur));
}.

(** Only the temporary file of [p] differs. *)
Definition same_files (p : string) (e e' : SnapEnv) : Prop :=
  forall q, q <> p +:+ ".tmp" -> e_disk e' !! q = e_disk e !! q.

#[local] Instance same_files_preorder p : PreOrder (same_files p).
Proof. split; [done|]. intros e1 e2 e3 H12 H23 q Hq. by rewrite H23, H12. Qed.

Lemma contents_app ts ts' : contents (ts ++ ts') = contents ts +:+ contents ts'.
Proof. unfold contents. by rewrite fmap_app, bconcat_app. Qed.

Lemma contents_one t c : contents [(t, c)] = c.
Proof. unfold contents. cbn. apply string_app_nil_r. Qed.

Lemma AddTree_run p h ts e name parent root :
  writing p h ts None e ->
  exists e', Snapshot_AddTree name parent root e = (e', Ok tt) /\
    writing p h ts (Some (mkHeaderTree name 0 parent root, "")) e' /\ same_files p e e'.
Proof.
  intros [Wp Wf Wl Wh Wc Wd]. destruct e as [disk [path file lock header hs cur reader]]. cbn in *. subst.
  eexists. split; [reflexivity|]. split; [|done]. cbn [in_progress] in *. rewrite app_nil_r in *.
  assert (E : contents (ts ++ [(mkHeaderTree name 0 parent root, "")]) = contents ts).
  { rewrite contents_app, contents_one. apply string_app_nil_r. }
  split; cbn [e_snap e_disk s_path s_file s_lock s_header s_currentTree set_snap set_s_lock set_s_header in_progress]; rewrite ?E; try done.
  by rewrite fmap_app.
Qed.

Lemma Write_run p h ts t c b e :
  writing p h ts (Some (t, c)) e ->
  exists e', Snapshot_Write b e = (e', Ok (blen b)) /\ writing p h ts (Some (grow_tree (blen b) t, c +:+ b)) e' /\ same_files p e e'.
Proof.
  intros [Wp Wf Wl Wh Wc Wd]. destruct e as [disk [path file lock header hs cur reader]]. cbn in *. subst.
  set (s := contents (ts ++ [(t, c)])) in *.
  assert (E : contents (ts ++ [(grow_tree (blen b) t, c +:+ b)]) = s +:+ b).
  { subst s. rewrite !contents_app, !contents_one. by rewrite string_app_assoc. }
  assert (Hg : forall t' : SnapshotHeaderTree, slice_get ((ts ++ [(t', c)]).*1) (Z.of_nat (List.length ts)) = Ok t').
  { intros t'. unfold slice_get. destruct (Z.ltb_spec (Z.of_nat (List.length ts)) 0); [lia|]. rewrite Nat2Z.id, fmap_app.
    rewrite lookup_app_r by (by rewrite length_fmap). by rewrite length_fmap, Nat.sub_diag. }
  assert (Hs : slice_set ((ts ++ [(t, c)]).*1) (Z.of_nat (List.length ts)) (grow_tree (blen b) t) =
               Ok ((ts ++ [(grow_tree (blen b) t, c +:+ b)]).*1)).
  { unfold slice_set. rewrite fmap_app, length_app, length_fmap. cbn [fmap list_fmap List.length].
    destruct (Z.leb_spec 0 (Z.of_nat (List.length ts))); [|lia].
    destruct (Z.ltb_spec (Z.of_nat (List.length ts)) (Z.of_nat (List.length ts + 1))); [|lia]. cbn [andb]. f_equal.
    rewrite Nat2Z.id, fmap_app, insert_app_r_alt by (by rewrite length_fmap). by rewrite length_fmap, Nat.sub_diag. }
  eexists. split.
  - unfold Snapshot_Write, catch, file_Write, mbind, gom_bind, snap, gets, on_snap, modify, lift, id.
    cbn [e_snap e_disk s_file s_header s_currentTree set_snap set_disk set_s_file set_trees SH_Trees].
    rewrite Hg, Hs. reflexivity.
  - rewrite Wd. cbn [default]. unfold s at 1 2. fold s. rewrite write_at_end. split.
    + split; cbn [e_snap e_disk s_path s_file s_lock s_header s_currentTree set_snap set_disk set_s_file set_s_header in_progress];
        rewrite ?E; try done.
      * by rewrite string_length_app.
      * by rewrite lookup_insert_eq.
    + intros q Hq. cbn. by rewrite lookup_insert_ne.
Qed.

Lemma grow_exact t c b :
  HT_Size t = blen c -> blen c + blen b < 2 ^ 32 ->
  grow_tree (blen b) t = mkHeaderTree (HT_Name t) (blen (c +:+ b)) (HT_Parent t) (HT_Root t).
Proof.
  intros Hs Hb. unfold grow_tree. rewrite Hs, blen_app. assert (0 <= blen c /\ 0 <= blen b) by (unfold blen; lia).
  rewrite !u32_id by (unfold is_u32; rewrite ?u32_id by (unfold is_u32; lia); lia). done.
Qed.

Lemma write_chunks_run p h ts name parent root chunks c e :
  writing p h ts (Some (mkHeaderTree name (blen c) parent root, c)) e -> blen c + blen (bconcat chunks) < 2 ^ 32 ->
  exists e', write_chunks chunks e = (e', Ok tt) /\ same_files p e e' /\
    writing p h ts (Some (mkHeaderTree name (blen (c +:+ bconcat chunks)) parent root, c +:+ bconcat chunks)) e'.
Proof.
  revert c e. induction chunks as [|b chunks IH]; intros c e W Hb.
  { exists e. cbn. rewrite string_app_nil_r. done. }
  change (bconcat (b :: chunks)) with (b +:+ bconcat chunks) in *. rewrite blen_app in Hb.
  destruct (Write_run _ _ _ _ _ b _ W) as (e1 & Hr & W1 & Hs1). assert (0 <= blen (bconcat chunks)) by (unfold blen; lia).
  rewrite (grow_exact _ c) in W1 by (done || lia). cbn [HT_Name HT_Parent HT_Root] in W1.
  destruct (IH _ _ W1) as (e2 & Hr2 & Hs2 & W2); [rewrite blen_app; lia|]. exists e2.
  rewrite string_app_assoc in W2. split_and!; [|by etrans|done].
  unfold write_chunks in *. cbn [mfor]. rewrite (bind_run_Ok _ _ e e1 tt) by (by rewrite (bind_run_Ok _ _ _ _ _ Hr)). exact Hr2.
Qed.

Lemma EndTree_run p h ts t e :
  writing p h ts (Some t) e ->
  exists e', Snapshot_EndTree e = (e', Ok tt) /\ writing p h (ts ++ [t]) None e' /\ same_files p e e'.
Proof.
  intros [Wp Wf Wl Wh Wc Wd]. destruct e as [disk [path file lock header hs cur reader]]. cbn in *. subst.
  eexists. split; [reflexivity|]. split; [|done]. split; cbn; rewrite ?app_nil_r; try done.
  rewrite length_app. cbn. lia.
Qed.

(** A tree with its chunks, and what the snapshot has of it. *)
Record tree_dump := mkTreeDump { td_name : string; td_parent : string; td_root : bytes; td_chunks : list bytes }.
Definition dumped (t : tree_dump) : stree :=
  (mkHeaderTree (td_name t) (blen (bconcat (td_chunks t))) (td_parent t) (td_root t), bconcat (td_chunks t)).

Definition add_tree (t : tree_dump) : SM unit :=
  Snapshot_AddTree (td_name t) (td_parent t) (td_root t);; write_chunks (td_chunks t);; Snapshot_EndTree.

Lemma add_tree_run p h ts t e :
  writing p h ts None e -> blen (bconcat (td_chunks t)) < 2 ^ 32 ->
  exists e', add_tree t e = (e', Ok tt) /\ writing p h (ts ++ [dumped t]) None e' /\ same_files p e e'.
Proof.
  intros W Hb. destruct (AddTree_run _ _ _ _ (td_name t) (td_parent t) (td_root t) W) as (e1 & R1 & W1 & S1).
  destruct (write_chunks_run p h ts (td_name t) (td_parent t) (td_root t) (td_chunks t) "" e1 W1) as (e2 & R2 & S2 & W2); [exact Hb|].
  destruct (EndTree_run _ _ _ _ _ W2) as (e3 & R3 & W3 & S3). exists e3.
  split_and!; [|done|etrans; [exact S1|]; by etrans]. unfold add_tree.
  rewrite (bind_run_Ok _ _ _ _ _ R1). cbv beta. by rewrite (bind_run_Ok _ _ _ _ _ R2).
Qed.

Lemma Create_run p e :
  s_lock (e_snap e) = false -> s_currentTree (e_snap e) = 0 -> SH_Trees (s_header (e_snap e)) = [] ->
  exists e', Snapshot_Create p e = (e', Ok tt) /\ same_files p e e' /\
    writing p (let h := s_header (e_snap e) in mkSnapshotHeader snapshotHeaderVersion (SH_Root h) (SH_ChainID h) (SH_Height h) [])
      [] None e'.
Proof.
  intros Hl Hc Ht. destruct e as [disk [path file lock header hs cur reader]]. cbn in Hl, Hc, Ht. subst.
  eexists. split; [reflexivity|]. split; [intros q Hq; cbn; by rewrite lookup_insert_ne|].
  split; cbn; try done; [by rewrite Ht|by rewrite lookup_insert_eq].
Qed.

(** ** The final file *)

Definition snapshot_file (buf : bytes) (ts : list stree) : bytes := header_size_bytes (String.length buf) +:+ buf +:+ contents ts.

Lemma tmp_other p : p +:+ ".tmp" <> p.
Proof. intros E. apply (f_equal String.length) in E. rewrite string_length_app in E. cbn in E. lia. Qed.

Lemma Save_run p h ts e buf :
  writing p h ts None e -> gob_Encode (set_trees (fst <$> ts) h) = inr buf ->
  exists e', Snapshot_Save e = (e', Ok tt) /\ e_disk e' !! p = Some (snapshot_file buf ts) /\ e_disk e' !! (p +:+ ".tmp") = None /\
    forall q, q <> p -> q <> p +:+ ".tmp" -> e_disk e' !! q = e_disk e !! q.
Proof.
  intros [Wp Wf Wl Wh Wc Wd] Hbuf. destruct e as [disk [path file lock header hs cur reader]]. cbn in Wp, Wf, Wl, Wh, Wc, Wd.
  rewrite app_nil_r in Wf, Wh, Wd. subst. pose proof (tmp_other p) as Hne.
  eexists. split.
  - unfold Snapshot_Save, locked, mbind, gom_bind, snap, gets, on_snap, modify, lift, id, os_Create, file_Seek, get.
    cbn [e_snap e_disk s_lock s_path s_file s_header set_snap set_disk set_s_lock set_s_file h_path h_writable].
    rewrite Hbuf. cbn [of_sum mret gom_ret]. reflexivity.
  - cbn [e_disk set_disk set_snap e_snap]. rewrite !lookup_insert_eq. cbn [default].
    assert (Ht : forall x y z : bytes, <[p := x]> (<[p := y]> (<[p := z]> disk)) !! (p +:+ ".tmp") = Some (contents ts)).
    { intros x y z. by rewrite !lookup_insert_ne. }
    rewrite Ht. cbn [default]. split_and!.
    + rewrite lookup_delete_ne, lookup_insert_eq by done. f_equal.
    + apply lookup_delete_eq.
    + intros q Hq Hq'. rewrite lookup_delete_ne by done. by rewrite !lookup_insert_ne by done.
Qed.

(** ** Reading *)

Definition offset_of (buf : bytes) (ts : list stree) (i : nat) : nat := (32 + String.length buf + String.length (contents (take i ts)))%nat.

#[local] Arguments header_size_bytes : simpl never.
#[local] Arguments snapshot_file : simpl never.
#[local] Arguments offset_of : simpl never.

Lemma locked_run {A} (m : SM A) e :
  s_lock (e_snap e) = false ->
  locked m e = let (e', o) := m (set_snap (set_s_lock true (e_snap e)) e) in (set_snap (set_s_lock false (e_snap e')) e', o).
Proof. intros Hl. unfold locked. by rewrite Hl. Qed.

Lemma file_Read_run n e h content :
  s_file (e_snap e) = Some h -> e_disk e !! h_path h = Some content ->
  file_Read n e =
  let b := btake n (bdrop (h_off h) content) in
  (set_snap (set_s_file (Some (mkHandle (h_path h) (h_off h + String.length b) (h_writable h))) (e_snap e)) e, Ok b).
Proof.
  intros Hf Hd. unfold file_Read, snap. rewrite bind_gets, Hf. rewrite (bind_run_Ok get _ e e e eq_refl). by rewrite Hd.
Qed.

(** The snapshot [p] is open at the tree [i], and then the tree [i] was not read yet. *)
Record opened_at (p : string) (h : SnapshotHeader) (buf : bytes) (ts : list stree) (i : Z) (e : SnapEnv) : Prop := {
  rd_disk : e_disk e !! p = Some (snapshot_file buf ts);
  rd_handle : exists off, s_file (e_snap e) = Some (mkHandle p off false);
  rd_lock : s_lock (e_snap e) = false;
  rd_header : s_header (e_snap e) = set_trees (fst <$> ts) h;
  rd_size : s_headerSize (e_snap e) = Z.of_nat (String.length buf);
  rd_current : s_currentTree (e_snap e) = i;
}.

Record reading (p : string) (h : SnapshotHeader) (buf : bytes) (ts : list stree) (i : nat) (e : SnapEnv) : Prop := {
  rd_open : opened_at p h buf ts (Z.of_nat i) e;
  rd_file : s_file (e_snap e) = Some (mkHandle p (offset_of buf ts i) false);
  rd_reader : s_reader (e_snap e) = String.length <$> (snd <$> (ts !! i));
}.

Definition sized (t : stree) : Prop := HT_Size t.1 = blen t.2.

Lemma sizes_sum ts : Forall sized ts -> fold_right (fun t n => HT_Size t + n) 0 (fst <$> ts) = blen (contents ts).
Proof.
  induction ts as [|[t c] ts IH]; [done|]. intros [Ht Hts]%Forall_cons. cbn [fmap list_fmap fold_right].
  change (contents ((t, c) :: ts)) with (c +:+ contents ts). rewrite blen_app, <- IH by done. by rewrite Ht.
Qed.

Lemma tree_offset_run buf ts i :
  Forall sized ts -> Z.to_nat (tree_offset (Z.of_nat (String.length buf)) (fst <$> ts) i) = offset_of buf ts i.
Proof.
  intros Hs. unfold tree_offset, offset_of. rewrite <- fmap_take, sizes_sum by (by apply Forall_take).
  unfold blen, snapshotHeaderLenSize. lia.
Qed.

Lemma header_size_length n : String.length (header_size_bytes n) = 32%nat.
Proof. unfold header_size_bytes. rewrite string_length_app, length_zeros. unfold LittleEndian_PutUint32. by rewrite length_le_bytes. Qed.

Lemma contents_drop ts i t c :
  ts !! i = Some (t, c) -> bdrop (String.length (contents (take i ts))) (contents ts) = c +:+ contents (drop (S i) ts).
Proof.
  intros Hi. rewrite <- (take_drop i ts) at 2. rewrite contents_app, bdrop_app by done.
  rewrite (drop_S _ _ _ Hi). reflexivity.
Qed.

(** What is in the file where the tree [i] begins. *)
Lemma file_drop buf ts i t c :
  ts !! i = Some (t, c) -> bdrop (offset_of buf ts i) (snapshot_file buf ts) = c +:+ contents (drop (S i) ts).
Proof.
  intros Hi. unfold offset_of, snapshot_file. rewrite !bdrop_add.
  rewrite (bdrop_app 32) by apply header_size_length. rewrite (bdrop_app (String.length buf)) by done. by eapply contents_drop.
Qed.

Lemma ReadAll_run p h buf ts i t c e :
  reading p h buf ts i e -> ts !! i = Some (t, c) ->
  exists e', Snapshot_ReadAll e = (e', if bool_decide (c = "") then Err io_EOF else Ok c) /\ opened_at p h buf ts (Z.of_nat i) e'.
Proof.
  intros [[Rd _ Rl Rh Rs Rc] Rf Rr] Hi. rewrite Hi in Rr. destruct e as [disk [path file lock header hs cur reader]]. cbn in *. subst.
  assert (Hread : btake (String.length c) (bdrop (offset_of buf ts i) (snapshot_file buf ts)) = c).
  { rewrite (file_drop _ _ _ _ _ Hi). by rewrite btake_app. }
  eexists. split.
  - unfold Snapshot_ReadAll. rewrite locked_run by done. unfold snap. rewrite bind_gets. cbn [s_reader e_snap set_snap set_s_lock].
    erewrite bind_run_Ok by (by apply file_Read_run). cbn [e_snap e_disk h_off h_path h_writable]. rewrite Hread.
    unfold on_snap. erewrite bind_run_Ok by reflexivity. cbv beta. destruct (bool_decide (c = "")); reflexivity.
  - split; cbn; eauto.
Qed.

Lemma FetchNextTree_run p h buf ts (i : nat) t c e :
  opened_at p h buf ts (Z.of_nat i - 1) e -> Forall sized ts -> ts !! i = Some (t, c) ->
  exists e', FetchNextTree e = (e', Ok tt) /\ reading p h buf ts i e'.
Proof.
  intros [Rd [off Rf] Rl Rh Rs Rc] Hs Hi. destruct e as [disk [path file lock header hs cur reader]]. cbn in *. subst.
  pose proof (lookup_lt_Some _ _ _ Hi) as Hlt.
  assert (Ht : HT_Size t = blen c) by (by apply (Forall_lookup_1 _ _ _ _ Hs Hi)).
  eexists. split.
  - unfold FetchNextTree. rewrite locked_run by done. unfold snap. rewrite bind_gets. cbn [s_header s_currentTree id e_snap set_snap set_s_lock SH_Trees set_trees].
    rewrite length_fmap. destruct (Z.geb_spec (Z.of_nat i - 1) (Z.of_nat (List.length ts) - 1)); [lia|].
    unfold on_snap. erewrite bind_run_Ok by reflexivity. cbv beta. replace (Z.of_nat i - 1 + 1) with (Z.of_nat i) by lia.
    assert (Hg : slice_get ts.*1 (Z.of_nat i) = Ok t).
    { unfold slice_get. destruct (Z.ltb_spec (Z.of_nat i) 0); [lia|]. by rewrite Nat2Z.id, list_lookup_fmap, Hi. }
    rewrite Hg, Nat2Z.id. unfold id. cbn [s_headerSize set_s_lock]. rewrite tree_offset_run by done. reflexivity.
  - split; [split; cbn; eauto|done|]. cbn. rewrite Hi, Ht. cbn. unfold blen. by rewrite Nat2Z.id.
Qed.

Lemma FetchNextTree_end p h buf ts e :
  opened_at p h buf ts (Z.of_nat (List.length ts) - 1) e -> exists e', FetchNextTree e = (e', Err io_EOF).
Proof.
  intros [Rd [off Rf] Rl Rh Rs Rc]. destruct e as [disk [path file lock header hs cur reader]]. cbn in *. subst.
  eexists. unfold FetchNextTree. rewrite locked_run by done. unfold snap. rewrite bind_gets.
  cbn [s_header s_currentTree id e_snap set_snap set_s_lock SH_Trees set_trees]. rewrite length_fmap.
  destruct (Z.geb_spec (Z.of_nat (List.length ts) - 1) (Z.of_nat (List.length ts) - 1)); [|lia]. reflexivity.
Qed.

Lemma TreeHeader_run p h buf ts i t c e :
  opened_at p h buf ts (Z.of_nat i) e -> ts !! i = Some (t, c) -> Snapshot_TreeHeader e = (e, Ok t).
Proof.
  intros [Rd [off Rf] Rl Rh Rs Rc] Hi. unfold Snapshot_TreeHeader, snap. rewrite bind_gets. unfold id. rewrite Rh, Rc.
  unfold lift, slice_get. destruct (Z.ltb_spec (Z.of_nat i) 0); [lia|]. cbn. by rewrite Nat2Z.id, list_lookup_fmap, Hi.
Qed.

Lemma header_size_read n rest :
  Z.of_nat n < 2 ^ 32 -> LittleEndian_Uint32 (btake 32 (header_size_bytes n +:+ rest)) = Ok (Z.of_nat n).
Proof.
  intros Hn. rewrite btake_app by apply header_size_length. unfold header_size_bytes, LittleEndian_Uint32.
  rewrite string_length_app, length_zeros. unfold LittleEndian_PutUint32 at 1. rewrite length_le_bytes. cbn [Nat.add Nat.ltb Nat.leb].
  rewrite btake_app by (unfold LittleEndian_PutUint32; apply length_le_bytes). unfold LittleEndian_PutUint32.
  rewrite le_val_bytes, u32_id by (unfold is_u32; lia). f_equal. apply Z.mod_small. lia.
Qed.

Lemma Open_run p h buf ts e :
  s_lock (e_snap e) = false -> s_header (e_snap e) = zero_header -> s_currentTree (e_snap e) = 0 ->
  e_disk e !! p = Some (snapshot_file buf ts) -> gob_Encode (set_trees (fst <$> ts) h) = inr buf ->
  Z.of_nat (String.length buf) < 2 ^ 32 -> SH_Version h = snapshotHeaderVersion -> Forall sized ts -> ts <> [] ->
  exists e', Snapshot_Open p e = (e', Ok tt) /\ reading p h buf ts 0 e'.
Proof.
  intros Hl Hh Hc Hd Hbuf Hb Hv Hs Hne. destruct e as [disk [path file lock header hs cur reader]]. cbn in Hl, Hh, Hc, Hd. subst.
  assert (Hdec : btake (String.length buf) (bdrop 32 (snapshot_file buf ts)) = buf).
  { unfold snapshot_file. rewrite bdrop_app by apply header_size_length. by rewrite btake_app. }
  assert (Hlen : String.length (btake 32 (snapshot_file buf ts)) = 32%nat).
  { unfold snapshot_file. rewrite btake_app by apply header_size_length. apply header_size_length. }
  pose proof (header_size_read (String.length buf) (buf +:+ contents ts) Hb) as Hsz. fold (snapshot_file buf ts) in Hsz.
  unfold Snapshot_Open, on_snap. erewrite bind_run_Ok by reflexivity. cbv beta. rewrite (bind_run_Ok get _ _ _ _ eq_refl). cbv beta.
  cbn [e_disk set_snap]. rewrite Hd. erewrite bind_run_Ok by reflexivity. cbv beta.
  erewrite bind_run_Ok by (by apply file_Read_run). cbn [h_off h_path h_writable bdrop]. cbv beta.
  change (bdrop 0 (snapshot_file buf ts)) with (snapshot_file buf ts). unfold snapshotHeaderLenSize. rewrite bool_decide_eq_false_2, Hlen by (intros Hemp; by rewrite Hemp in Hlen).
  cbn [Nat.ltb Nat.leb]. do 2 (rewrite (bind_run_Ok (reject false _) _ _ _ tt eq_refl); cbv beta). rewrite Hsz. rewrite (bind_run_Ok (lift (Ok _)) _ _ _ _ eq_refl). cbv beta.
  erewrite bind_run_Ok by reflexivity. cbv beta. erewrite bind_run_Ok by reflexivity. cbv beta. unfold snap. rewrite bind_gets.
  rewrite Nat2Z.id, Hdec. unfold id. cbn [s_header e_snap set_snap set_s_headerSize set_s_file set_s_path].
  rewrite (gob_roundtrip _ _ Hbuf). cbn [of_sum wrapping_out]. rewrite (bind_run_Ok (lift (Ok _)) _ _ _ _ eq_refl). cbv beta.
  erewrite bind_run_Ok by reflexivity. cbv beta. cbn [SH_Version set_trees]. rewrite Hv.
  change (negb (snapshotHeaderVersion =? snapshotHeaderVersion)) with false.
  rewrite (bind_run_Ok (reject false _) _ _ _ tt eq_refl). cbv beta. erewrite bind_run_Ok by reflexivity. cbv beta.
  destruct ts as [|[t c] ts]; [done|]. eapply FetchNextTree_run; [|done|reflexivity]. split; cbn; eauto.
Qed.

(** ** Reading all of it *)

(** The loop of a reader: the header and the octets of each tree, until there are no more trees.  The end of a tree
    without octets is also its start. *)
Fixpoint read_trees (n : nat) : SM (list stree) :=
  match n with
  | O => mret []
  | S n' =>
      t ← Snapshot_TreeHeader;
      r ← catch Snapshot_ReadAll;
      c ← (match r with inr b => mret b | inl e => if bool_decide (e = io_EOF) then mret "" else throw e end);
      next ← catch FetchNextTree;
      match next with
      | inr _ => ts ← read_trees n'; mret ((t, c) :: ts)
      | inl e => if bool_decide (e = io_EOF) then mret [(t, c)] else throw e
      end
  end.

Definition read_snapshot (p : string) : SM (SnapshotHeader * list stree) :=
  Snapshot_Open p;;
  h ← Snapshot_Header;
  ts ← read_trees (List.length (SH_Trees h));
  mret (h, ts).

Lemma catch_run {S A} (m : GoM S A) s s' o :
  m s = (s', o) -> is_panic o = false ->
  catch m s = (s', Ok match o with Ok a => inr a | Err e => inl e | Panic _ => inl (Errorf "") end).
Proof. intros Hm Ho. unfold catch. rewrite Hm. by destruct o. Qed.

Lemma read_trees_run p h buf ts n i e :
  reading p h buf ts i e -> Forall sized ts -> (i + n)%nat = List.length ts -> (0 < n)%nat ->
  exists e', read_trees n e = (e', Ok (drop i ts)).
Proof.
  revert i e. induction n as [|n IH]; intros i e R Hs Hn Hpos; [lia|].
  destruct (lookup_lt_is_Some_2 ts i) as [[t c] Hi]; [lia|]. rewrite (drop_S _ _ _ Hi). cbn [read_trees].
  rewrite (bind_run_Ok _ _ _ _ _ (TreeHeader_run _ _ _ _ _ _ _ _ (rd_open _ _ _ _ _ _ R) Hi)). cbv beta.
  destruct (ReadAll_run _ _ _ _ _ _ _ _ R Hi) as (e1 & Hr & O1).
  erewrite bind_run_Ok by (apply (catch_run _ _ _ _ Hr); by case_bool_decide). cbv beta.
  assert (Hc : (match match (if bool_decide (c = "") then Err io_EOF else Ok c) with
                   | Ok a => inr a | Err e0 => inl e0 | Panic _ => inl (Errorf "") end with
                | inl e0 => if bool_decide (e0 = io_EOF) then mret "" else throw e0
                | inr b => mret b end : SM bytes) e1 = (e1, Ok c)).
  { case_bool_decide; [|done]. subst. by rewrite bool_decide_true. }
  rewrite (bind_run_Ok _ _ _ _ _ Hc). cbv beta.
  destruct (decide (n = 0%nat)) as [->|Hn0].
  - destruct (FetchNextTree_end p h buf ts e1) as [e2 Hf]; [replace (Z.of_nat (List.length ts) - 1) with (Z.of_nat i) by lia; done|].
    rewrite (bind_run_Ok _ _ _ _ _ (catch_run _ _ _ _ Hf eq_refl)). exists e2. cbv beta. rewrite bool_decide_true by done.
    by rewrite drop_ge by lia.
  - destruct (lookup_lt_is_Some_2 ts (S i)) as [[t' c'] Hi']; [lia|].
    destruct (FetchNextTree_run p h buf ts (S i) t' c' e1) as (e2 & Hf & R2);
      [replace (Z.of_nat (S i) - 1) with (Z.of_nat i) by lia; done|done|done|].
    rewrite (bind_run_Ok _ _ _ _ _ (catch_run _ _ _ _ Hf eq_refl)). cbv beta.
    destruct (IH (S i) e2 R2 Hs) as [e3 H3]; [lia|lia|]. exists e3. by rewrite (bind_run_Ok _ _ _ _ _ H3).
Qed.

Lemma read_snapshot_run p h buf ts e :
  s_lock (e_snap e) = false -> s_header (e_snap e) = zero_header -> s_currentTree (e_snap e) = 0 ->
  e_disk e !! p = Some (snapshot_file buf ts) -> gob_Encode (set_trees (fst <$> ts) h) = inr buf ->
  Z.of_nat (String.length buf) < 2 ^ 32 -> SH_Version h = snapshotHeaderVersion -> Forall sized ts -> ts <> [] ->
  exists e', read_snapshot p e = (e', Ok (set_trees (fst <$> ts) h, ts)).
Proof.
  intros Hl Hh Hc Hd Hbuf Hb Hv Hs Hne. destruct (Open_run p h buf ts e) as (e1 & Ho & R); try done.
  unfold read_snapshot. rewrite (bind_run_Ok _ _ _ _ _ Ho). cbv beta. unfold Snapshot_Header, snap. rewrite bind_gets.
  rewrite (rd_header _ _ _ _ _ _ (rd_open _ _ _ _ _ _ R)). cbn [SH_Trees set_trees]. rewrite length_fmap.
  destruct (read_trees_run p h buf ts (List.length ts) 0 e1 R Hs) as [e2 Hr]; [done|destruct ts; [done|cbn; lia]|].
  exists e2. by rewrite (bind_run_Ok _ _ _ _ _ Hr).
Qed.
End facts.
