(* ===== verification/CensusDownloader.v ===== *)
(** * The downloader of censuses

    Models [src/vochain/censusdownloader/censusdownloader.go], the listener of the state that imports
    the censuses of the new processes, and [DumpRollingCensus] of [src/vochain/census.go], which it
    imports when an anonymous process starts. *)

From stdpp Require Import base option list strings gmap.
From Stdlib Require Import ZArith Lia.
From S2P Require Import Prelude GoMonad GoLib GoText Models External Ethereum Tree CensusTree CensusAPI CensusManager.
From S2P Require Import CensusManagerFacts StateDB StateTrees State Process Snapshot.

(** [queue] has the URI of each census of the block. *)
Record CensusDownloader := mkCensusDownloader {
  dl_queue : gmap string string;
  importOnlyNew : bool;
  isFastSync : bool;
}.

Section downloader.
Context `{Arbo, Lru, Proto, EthCrypto, !ProofLibs, !ArboCensus, !SnapshotLibs}.

Record World := mkWorld { w_state : State; w_census : Manager; w_dl : CensusDownloader }.
Notation W := (GoM World).

Definition of_State {A} : GoM State A -> W A := zoom w_state (fun s w => mkWorld s (w_census w) (w_dl w)).
Definition of_Census {A} : GoM Manager A -> W A := zoom w_census (fun m w => mkWorld (w_state w) m (w_dl w)).
Definition set_dl (f : CensusDownloader -> CensusDownloader) : W unit :=
  modify (fun w => mkWorld (w_state w) (w_census w) (f (w_dl w))).

Record RollingCensus := mkRollingCensus { RC_CensusID : string; RC_DumpData : bytes; RC_DumpRoot : bytes; RC_Type : Census_Type }.

Definition DumpRollingCensus (pid : bytes) : GoM State RollingCensus :=
  s ← get;
  census ← wrapping "cannot access rolling census"
             (lift (TV_DeepSubTree (Store s) (mainTreeView s) (StateParentChildTreeCfg TreeProcess ChildTreeCensusPoseidon pid)));
  dumpRoot ← wrapping "cannot get census root" (lift (TV_Root census));
  let '(chunks, err) := arbo_DumpWriter (tv_tree census) in
  (match err with Some e => throw (Wrap "cannot dump census" e) | None => mret tt end);;
  mret (mkRollingCensus (hex_encode dumpRoot) (foldr String.append "" chunks) dumpRoot Census_ARBO_POSEIDON).

(** The goroutine that sends to the queue of the manager is taken to have run. *)
Definition importCensus (storage : option Storage) (root uri : string) : W unit :=
  match storage with
  | None => panic "nil pointer dereference"
  | Some st =>
      if negb (String.prefix (URIprefix st) uri) || (String.length root =? 0)%nat || (String.length uri <=? String.length (URIprefix st))%nat
      then mret tt
      else of_Census (AddToImportQueue root uri)
  end.

Definition DL_Rollback (synchronizing : bool) : W unit :=
  set_dl (fun d => mkCensusDownloader ∅ (importOnlyNew d) synchronizing).

(** The entries of the queue, in the order of the iteration. *)
Definition DL_Commit (storage : option Storage) (entries : list (string * string)) : W unit :=
  mfor entries (fun '(root, uri) => importCensus storage root uri).

Definition DL_OnProcess (pid : bytes) (censusRoot censusURI : string) : W unit :=
  let censusRoot := TrimHex censusRoot in
  w ← get;
  if negb (importOnlyNew (w_dl w)) || negb (isFastSync (w_dl w)) then
    r ← catch (of_State (State_Process pid false));
    match r with
    | inr (Some p) =>
        if NeedsDownload (CensusOrigins (CensusOrigin p)) && (0 <? String.length censusURI)%nat
        then set_dl (fun d => mkCensusDownloader (<[censusRoot := censusURI]> (dl_queue d)) (importOnlyNew d) (isFastSync d))
        else mret tt
    | _ => mret tt
    end
  else mret tt.

(** An error that is logged leaves a nil pointer, and a census that is already there ends the loop. *)
Fixpoint DL_OnProcessesStart (pids : list bytes) : W unit :=
  match pids with
  | [] => mret tt
  | pid :: pids' =>
      r ← catch (of_State (State_Process pid true));
      process ← lift (deref (match r with inr p => p | inl _ => None end));
      mode ← lift (deref (Mode process));
      anonymous ← (if PreRegister mode then et ← lift (deref (P_EnvelopeType process)); mret (Anonymous et) else mret false);
      if anonymous : bool then
        rc ← catch (of_State (DumpRollingCensus pid));
        rcensus ← lift (deref (match rc with inr c => Some c | inl _ => None end));
        i ← catch (of_Census (Manager_ImportDump (RC_CensusID rcensus) (RC_Type rcensus) (RC_DumpRoot rcensus) (RC_DumpData rcensus)));
        match i with
        | inl e => if errors_is e ErrNamespaceExist then mret tt else DL_OnProcessesStart pids'
        | inr _ => DL_OnProcessesStart pids'
        end
      else DL_OnProcessesStart pids'
  end.
End downloader.

(** ** Facts about the downloader of censuses

    What a block puts in the queue of the manager, and when the processes that start are not all
    handled. *)

Section downloader.
Context `{Arbo, Lru, Proto, EthCrypto, !ProofLibs, !ArboCensus, !SnapshotLibs}.

(** The URI is one of the storage, and the root is not empty. *)
Definition importable (st : Storage) (e : string * string) : bool :=
  String.prefix (URIprefix st) e.2 && (0 <? String.length e.1)%nat && (String.length (URIprefix st) <? String.length e.2)%nat.

Lemma importCensus_run st root uri w :
  importCensus (Some st) root uri w =
  (mkWorld (w_state w)
     (if importable st (root, uri) then set_importQueue (importQueue (w_census w) ++ [mkCensusImport root uri]) (w_census w) else w_census w)
     (w_dl w), Ok tt).
Proof.
  unfold importCensus, importable. cbn [fst snd]. destruct (String.prefix (URIprefix st) uri); cbn [negb orb andb]; [|by destruct w].
  destruct (Nat.eqb_spec (String.length root) 0), (Nat.ltb_spec 0 (String.length root)); try lia; cbn [orb andb]; [by destruct w|].
  destruct (Nat.leb_spec (String.length uri) (String.length (URIprefix st))), (Nat.ltb_spec (String.length (URIprefix st)) (String.length uri));
    try lia; [by destruct w|done].
Qed.

(** The end of a block puts the censuses of its processes in the queue, those with a URI of the storage. *)
Theorem block_imports_queued st entries w :
  DL_Commit (Some st) entries w =
  (mkWorld (w_state w)
     (set_importQueue (importQueue (w_census w) ++ ((fun e => mkCensusImport e.1 e.2) <$> List.filter (importable st) entries)) (w_census w))
     (w_dl w), Ok tt).
Proof.
  revert w. induction entries as [|[root uri] entries IH]; intros w.
  { cbn. rewrite app_nil_r. by destruct w as [s [] d]. }
  unfold DL_Commit in *. cbn [mfor]. erewrite bind_run_Ok by apply importCensus_run. cbv beta. rewrite IH. cbn [w_state w_census w_dl List.filter].
  destruct (importable st (root, uri)); cbn; [by rewrite <- app_assoc|done].
Qed.

(** When the census of a process is already there, the processes after it are not handled. *)
Theorem processes_start_stops pid rest w s1 s2 p mode et rc :
  State_Process pid true (w_state w) = (s1, Ok (Some p)) -> Mode p = Some mode -> PreRegister mode = true ->
  P_EnvelopeType p = Some et -> Anonymous et = true -> DumpRollingCensus pid s1 = (s2, Ok rc) ->
  Exists (RC_CensusID rc) (w_census w) = true ->
  DL_OnProcessesStart (pid :: rest) w = (mkWorld s2 (w_census w) (w_dl w), Ok tt).
Proof.
  intros Hp Hm Hpre He Han Hrc Hex. destruct w as [s m d]. cbn [w_state w_census w_dl] in *. cbn [DL_OnProcessesStart].
  erewrite bind_run_Ok by (unfold catch, of_State, zoom; cbn [w_state]; rewrite Hp; reflexivity). cbv beta iota.
  rewrite (bind_run_Ok (lift (Ok p)) _ _ _ _ eq_refl). cbv beta. rewrite Hm. rewrite (bind_run_Ok (lift (Ok mode)) _ _ _ _ eq_refl). cbv beta.
  rewrite Hpre, He. erewrite bind_run_Ok by (rewrite (bind_run_Ok (lift (Ok et)) _ _ _ _ eq_refl); reflexivity). cbv beta. rewrite Han.
  erewrite bind_run_Ok by (unfold catch, of_State, zoom; cbn [w_state]; rewrite Hrc; reflexivity). cbv beta iota.
  rewrite (bind_run_Ok (lift (Ok rc)) _ _ _ _ eq_refl). cbv beta.
  erewrite bind_run_Ok.
  2: { unfold catch, of_Census, zoom. cbn [w_census]. unfold Manager_ImportDump at 1. unfold mbind at 1, gom_bind at 1, wrapping at 1.
       rewrite AddNamespace_exists by done. reflexivity. }
  reflexivity.
Qed.
End downloader.
