(* ===== verification/KeyKeeper.v ===== *)
(** * The key keeper

    [src/vochain/keykeeper/keykeeper.go]: a node that keeps the encryption keys of the processes.
    It derives a key pair for a new process, publishes the public key in a transaction, and
    reveals the private key when the process is over.  [KeyKeeper] has the fields of the Go struct,
    with the application it runs in and the transactions it has sent; [storage] is a database of
    [Database.v].  The lock is held for the whole of the functions that take it; the two goroutines
    that [Commit] starts are the tasks of a configuration, run by [step] in any order. *)

From stdpp Require Import base option list strings gmap pretty.
From Stdlib Require Import ZArith.
From S2P Require Import Prelude GoMonad GoLib GoText Database Sha256 Models External Nacl Ethereum SignKeys.
From S2P Require Import Tree StateDB StateTrees State Process App.

Definition encryptionKeySize : nat := KeyLength.
Definition dbPrefixProcess : string := "p_".
Definition dbPrefixBlock : string := "b_".

(** ** Stored keys *)

Record processKeys := mkProcessKeys { pks_pubKey : bytes; pks_privKey : bytes; pks_index : Z }.

(** [copy(dst[i:], src)]. *)
Definition copy_at (dst : bytes) (i : nat) (src : bytes) : bytes :=
  let n := Nat.min (String.length src) (String.length dst - i) in
  btake i dst +:+ btake n src +:+ bdrop (i + n) dst.

Definition processKeys_Encode (pk : processKeys) : bytes :=
  let data := zeros (encryptionKeySize * 2 + 1) in
  let data := copy_at data 0 (pks_pubKey pk) in
  let data := copy_at data encryptionKeySize (pks_privKey pk) in
  set_octet (encryptionKeySize + encryptionKeySize) (u8 (pks_index pk)) data.

(** [int8(x)] of an octet. *)
Definition i8 (z : Z) : Z := (z + 2 ^ 7) mod 2 ^ 8 - 2 ^ 7.

Definition processKeys_Decode (data : bytes) : outcome processKeys :=
  if (String.length data <? encryptionKeySize * 2 + 1)%nat
  then Err (Errorf "cannot decode, data too small")
  else
    index ← deref (bget (encryptionKeySize + encryptionKeySize) data);
    Ok (mkProcessKeys (btake encryptionKeySize data)
          (btake encryptionKeySize (bdrop encryptionKeySize data)) (i8 index)).

(** [models.StoredKeys]; [unmarshal_partial] is what a failed [proto.Unmarshal] leaves. *)
Record StoredKeys := mkStoredKeys { Pids : list bytes }.

Class StoredKeysCodec := {
  StoredKeys_codec :: Codec StoredKeys;
  unmarshal_partial : bytes -> StoredKeys
}.

(** [SendTx] of the application and [util.RandomInt(0, 1000000000)], which may depend on what was
    sent before; the result has a code.  [range] is the order of a loop over a map. *)
Class KeeperEnv := {
  SendTx : list bytes -> bytes -> error + Z;
  RandomInt : list bytes -> Z;
  range {A} : gmap bytes A -> list (bytes * A)
}.

Section keykeeper.
Context `{Arbo, Lru, Proto, EthCrypto, !ProofLibs, !EthSign, !StoredKeysCodec, !KeeperEnv}.
Context {D T : Type} `{Database D T}.

Record KeyKeeper := mkKeyKeeper {
  kk_vochain : BaseApplication;
  kk_storage : D;
  (** nil until [Rollback] *)
  kk_keyPool : option (gmap bytes (option processKeys));
  kk_blockPool : option (gmap bytes Z);
  kk_signer : SignKeys;
  kk_myIndex : Z;
  (** the transactions given to [SendTx] *)
  kk_sent : list bytes
}.

Definition set_vochain x k := mkKeyKeeper x (kk_storage k) (kk_keyPool k) (kk_blockPool k) (kk_signer k) (kk_myIndex k) (kk_sent k).
Definition set_storage x k := mkKeyKeeper (kk_vochain k) x (kk_keyPool k) (kk_blockPool k) (kk_signer k) (kk_myIndex k) (kk_sent k).
Definition set_keyPool x k := mkKeyKeeper (kk_vochain k) (kk_storage k) x (kk_blockPool k) (kk_signer k) (kk_myIndex k) (kk_sent k).
Definition set_blockPool x k := mkKeyKeeper (kk_vochain k) (kk_storage k) (kk_keyPool k) x (kk_signer k) (kk_myIndex k) (kk_sent k).
Definition set_sent x k := mkKeyKeeper (kk_vochain k) (kk_storage k) (kk_keyPool k) (kk_blockPool k) (kk_signer k) (kk_myIndex k) x.

#[local] Notation K := (GoM KeyKeeper).

Definition on_vochain {A} (m : GoM State A) : K A := zoom kk_vochain set_vochain (on_State m).

(** ** Transactions *)

(** Writes to the entry of a nil map panic. *)
Definition map_write {A} (key : bytes) (x : A) (m : option (gmap bytes A)) : outcome (gmap bytes A) :=
  match m with None => Panic "assignment to entry in nil map" | Some m => Ok (<[key := x]> m) end.

Definition commit_tx (t : T) : K unit :=
  fun k => let '(d, r) := tx_Commit t (kk_storage k) in (set_storage d k, r).

(** An operation of a transaction on the storage. *)
Definition on_tx_of {A} (t : T) (m : D -> GoM T A) : K (T * outcome A) :=
  fun k => let '(t', r) := m (kk_storage k) t in
           (k, match r with Panic w => Panic w | _ => Ok (t', r) end).

Definition signAndSendTx (tx : AdminTx) : K unit :=
  stx_Tx ← Marshal (mkTx (Some (Tx_Admin tx)));
  k ← get;
  stx_Signature ← lift (SignVocdoniTx (kk_signer k) stx_Tx (app_chainID (kk_vochain k)));
  vtxBytes ← Marshal (mkSignedTx stx_Tx (Some stx_Signature));
  modify (fun k => set_sent (kk_sent k ++ [vtxBytes]) k);;
  code ← lift (of_sum (SendTx (kk_sent k) vtxBytes));
  reject (negb (code =? 0)) (Errorf "error sending transaction").

(** ** Keys *)

(** A nil [D] panics. *)
Definition generateKeys (pid : bytes) (k : KeyKeeper) : outcome processKeys :=
  let pb := pid +:+ String (byte_of (u8 (kk_myIndex k))) "" in
  key ← deref (sk_Private (kk_signer k));
  match DecodePrivate (hex_encode (HashRaw (priv_D key +:+ pb))) with
  | Ok priv => Ok (mkProcessKeys (pk_pub priv) (pk_key priv) (kk_myIndex k))
  | Err _ => Err (Errorf "cannot generate encryption key")
  | Panic w => Panic w
  end.

Definition publish_tx (pk : processKeys) (pid : bytes) (nonce : Z) : AdminTx :=
  mkAdminTx ADD_PROCESS_KEYS (Some pid) None nonce (Some (u32 (pks_index pk))) None (Some (pks_pubKey pk)).

Definition publishKeys (pk : option processKeys) (pid : bytes) : K unit :=
  pk ← lift (deref pk);
  sent ← gets kk_sent;
  signAndSendTx (publish_tx pk pid (RandomInt sent));;
  let dbKey := dbPrefixProcess +:+ pid in
  wTx ← gets (fun k => db_WriteTx (kk_storage k));
  a ← on_tx_of wTx (tx_Get dbKey);
  match a with
  | (wTx, Err e) =>
      if errors_is e ErrKeyNotFound then
        b ← on_tx_of wTx (fun _ => tx_Set dbKey (processKeys_Encode pk));
        lift (snd b);;
        commit_tx (fst b)
      else throw (Errorf "keys for process already exist or error fetching storage")
  | _ => throw (Errorf "keys for process already exist or error fetching storage")
  end.

Definition reveal_tx (pk : processKeys) (pid : bytes) (nonce : Z) : AdminTx :=
  mkAdminTx REVEAL_PROCESS_KEYS (Some pid) None nonce (Some (u32 (pks_index pk))) (Some (pks_privKey pk)) None.

Definition revealKeys (pid : bytes) : K unit :=
  k ← get;
  pk ← lift (generateKeys pid k);
  signAndSendTx (reveal_tx pk pid (RandomInt (kk_sent k)));;
  wTx ← gets (fun k => db_WriteTx (kk_storage k));
  a ← on_tx_of wTx (fun _ => tx_Delete (dbPrefixProcess +:+ pid));
  commit_tx (fst a).

(** ** Events *)

Definition KK_Rollback : K unit :=
  modify (fun k => set_blockPool (Some ∅) (set_keyPool (Some ∅) k)).

Definition needs_keys (p : Process) : outcome bool :=
  et ← deref (P_EnvelopeType p); Ok (Anonymous et || EncryptedVotes et).

(** [p, err := k.vochain.State.Process(pid, false); if err != nil { log; return }]. *)
Definition with_process (pid : bytes) (f : Process -> K unit) : K unit :=
  r ← catch (on_vochain (State_Process pid false));
  match r with
  | inl _ => mret tt
  | inr p => p ← lift (deref p); f p
  end.

Definition KK_OnProcess (pid : bytes) : K unit :=
  with_process pid (fun p =>
    needs ← lift (needs_keys p);
    if negb needs then mret tt
    else
      k ← get;
      key ← lift (slice_get (EncryptionPublicKeys p) (kk_myIndex k));
      if (0 <? blen key) then mret tt
      else if bool_decide (is_Some (kk_keyPool k ≫= lookup pid)) then mret tt
      else
        (** the entry of the pool is set whether there is an error or not *)
        match generateKeys pid k with
        | Panic w => panic w
        | Err _ => pool ← lift (map_write pid None (kk_keyPool k)); modify (set_keyPool (Some pool))
        | Ok pk =>
            pool ← lift (map_write pid (Some pk) (kk_keyPool k));
            modify (set_keyPool (Some pool));;
            blocks ← lift (map_write pid (end_block p) (kk_blockPool k));
            modify (set_blockPool (Some blocks))
        end).

(** The reveal of a process with keys is scheduled for the next block. *)
Definition schedule_next (pid : bytes) : K unit :=
  height ← on_vochain CurrentHeight;
  k ← get;
  blocks ← lift (map_write pid (height + 1) (kk_blockPool k));
  modify (set_blockPool (Some blocks)).

Definition schedule_if (pid : bytes) (cond : bool) : K unit :=
  with_process pid (fun p =>
    needs ← lift (needs_keys p);
    if negb needs then mret tt
    else
      k ← get;
      key ← lift (slice_get (EncryptionPublicKeys p) (kk_myIndex k));
      if bool_decide (key <> "") && cond then schedule_next pid else mret tt).

Definition KK_OnCancel (pid : bytes) : K unit := schedule_if pid true.
Definition KK_OnProcessStatusChange (pid : bytes) (status : ProcessStatus) : K unit :=
  schedule_if pid (bool_decide (status = ENDED)).

(** ** Commit *)

Definition block_key (height : Z) : bytes := dbPrefixBlock +:+ pretty height.

Definition schedule_add (pkey pid : bytes) (pids : StoredKeys) : GoM T unit :=
  logged (data ← Marshal (mkStoredKeys (Pids pids ++ [pid])); tx_Set pkey data).

Definition schedule_one (d : D) (x : bytes * Z) : GoM T unit :=
  let '(pid, height) := x in
  let pkey := block_key height in
  r ← catch (tx_Get pkey d);
  match r with
  | inr data => schedule_add pkey pid (default (unmarshal_partial data) (unmarshal data))
  | inl e => if bool_decide (e = ErrKeyNotFound) then schedule_add pkey pid (mkStoredKeys []) else mret tt
  end.

(** A loop over a nil map has no rounds. *)
Definition scheduleRevealKeys : K unit :=
  pool ← gets kk_blockPool;
  wTx ← gets (fun k => db_WriteTx (kk_storage k));
  a ← on_tx_of wTx (fun d => mfor (range (default ∅ pool)) (schedule_one d));
  logged (commit_tx (fst a)).

(** One round of the loop; [false] is its [return]. *)
Definition reveal_round (p : bytes) : K bool :=
  r ← catch (on_vochain (State_Process p false));
  match r with
  | inl _ => mret true
  | inr process =>
      process ← lift (deref process);
      needs ← lift (needs_keys process);
      if negb needs then mret false
      else
        k ← get;
        key ← lift (slice_get (EncryptionPublicKeys process) (kk_myIndex k));
        (if bool_decide (key <> "") then logged (revealKeys p) else mret tt);;
        mret true
  end.

Fixpoint reveal_loop (pids : list bytes) : K bool :=
  match pids with
  | [] => mret true
  | p :: pids' => go ← reveal_round p; if go : bool then reveal_loop pids' else mret false
  end.

Definition checkRevealProcess (height : Z) : K unit :=
  let pKey := block_key height in
  wTx ← gets (fun k => db_WriteTx (kk_storage k));
  a ← on_tx_of wTx (tx_Get pKey);
  match a with
  | (wTx, Ok data) =>
      match unmarshal data with
      | None => mret tt
      | Some pids =>
          done ← reveal_loop (Pids pids);
          if done : bool then
            b ← on_tx_of wTx (fun _ => tx_Delete pKey);
            logged (commit_tx (fst b))
          else mret tt
      end
  | _ => mret tt
  end.

Definition publishPendingKeys : K unit :=
  pool ← gets kk_keyPool;
  mfor (range (default ∅ pool)) (fun '(pid, pk) => logged (publishKeys pk pid)).

Inductive task := CheckReveal (height : Z) | PublishPending.

Definition run_keeper_task (t : task) : K unit :=
  match t with CheckReveal h => checkRevealProcess h | PublishPending => publishPendingKeys end.

(** [Commit]: the tasks it starts. *)
Definition KK_Commit (height : Z) : K (list task) :=
  scheduleRevealKeys;; mret [CheckReveal height; PublishPending].

(** The listener: the calls of the state. *)
Definition handle (e : Event) : K unit :=
  match e with
  | OnProcess pid _ _ _ _ => KK_OnProcess pid
  | OnProcessStatusChange pid status _ => KK_OnProcessStatusChange pid status
  | OnCancel pid _ => KK_OnCancel pid
  | OnRollback => KK_Rollback
  | _ => mret tt
  end.

(** [NewKeyKeeper], with the database that [badgerdb.New] opens.  The keeper is a listener of the
    state whose [Commit] returns nil. *)
Definition NewKeyKeeper (dbPath : string) (v : option BaseApplication) (signer : option SignKeys) (index : Z)
    (badgerdb_New : string -> error + D) : outcome KeyKeeper :=
  match v, signer with
  | Some v, Some signer =>
      check (blen dbPath <? 1) (Errorf "missing values for creating a key keeper");;
      check (index =? 0) (Errorf "index 0 cannot be used");;
      storage ← of_sum (badgerdb_New dbPath);
      Ok (mkKeyKeeper (set_AppState (AddEventListener (fun _ _ => CommitOk) (AppState v)) v) storage None None
            signer index [])
  | _, _ => Err (Errorf "missing values for creating a key keeper")
  end.

(** ** Recovery *)

(** The first loop: the blocks that are over. *)
Definition recover_block (height : Z) (x : bytes * bytes) (wTx : T) : K T :=
  let '(key, value) := x in
  digits ← lift (slice_from 2 key);
  match ParseInt10_64 digits with
  | None => mret wTx
  | Some h =>
      if height <=? i64 (h + 1) then mret wTx
      else match unmarshal value with
           | None => mret wTx
           | Some pids =>
               mfor (Pids pids) (fun p => logged (revealKeys p));;
               a ← on_tx_of wTx (fun _ => tx_Delete key);
               mret (fst a)
           end
  end.

Fixpoint recover_blocks (height : Z) (l : list (bytes * bytes)) (wTx : T) : K T :=
  match l with
  | [] => mret wTx
  | x :: l' => wTx ← recover_block height x wTx; recover_blocks height l' wTx
  end.

(** The second loop: the processes that are over. *)
Definition recover_keys (x : bytes * bytes) : K unit :=
  pid ← lift (slice_from 2 (fst x));
  r ← catch (on_vochain (State_Process pid true));
  match r with
  | inl _ => mret tt
  | inr process =>
      process ← lift (deref process);
      if bool_decide (Status process = CANCELED) || bool_decide (Status process = ENDED)
      then logged (revealKeys pid) else mret tt
  end.

(** The keys given to the first callback are copied here; the source keeps the slices, see
    [db.Database.Iterate]. *)
Definition RevealUnpublished : K unit :=
  r ← catch (on_vochain LastHeight);
  match r with
  | inl _ => mret tt
  | inr height =>
      k ← get;
      wTx ← recover_blocks height (db_Iterate dbPrefixBlock (kk_storage k)) (db_WriteTx (kk_storage k));
      logged (commit_tx wTx);;
      k ← get;
      mfor (db_Iterate dbPrefixProcess (kk_storage k)) recover_keys
  end.
End keykeeper.

