(* ===== verification/KeyKeeperFacts.v ===== *)
(** * What the key keeper does

    The encoding of stored keys, the keys of a process, the transactions that are sent and the
    schedule of the reveals. *)

From stdpp Require Import base option list strings gmap pretty.
From Stdlib Require Import ZArith Lia.
From S2P Require Import Prelude GoMonad GoLib GoText Database Sha256 Models External Nacl Ethereum SignKeys.
From S2P Require Import Tree StateDB StateTrees State StateFacts Account AccountFacts Process ProcessFacts App KeyKeeper.

(** ** Stored keys *)

Lemma copy_at_exact a b c src i :
  String.length a = i -> String.length src = String.length b -> copy_at (a +:+ b +:+ c) i src = a +:+ src +:+ c.
Proof.
  intros Ha Hs. unfold copy_at. rewrite !string_length_app, Ha, Hs.
  replace (Nat.min _ _) with (String.length b) by lia. rewrite btake_app by done.
  f_equal. rewrite btake_all by done. f_equal. rewrite bdrop_add, bdrop_app by done. by apply bdrop_app.
Qed.

Lemma set_octet_end a c v i : String.length a = i -> set_octet i v (a +:+ String c "") = a +:+ String (byte_of v) "".
Proof.
  intros Ha. unfold set_octet. rewrite btake_app by done. f_equal. f_equal.
  replace (S i) with (i + 1)%nat by lia. by rewrite bdrop_add, bdrop_app.
Qed.

Lemma processKeys_Encode_eq pk :
  String.length (pks_pubKey pk) = 32%nat -> String.length (pks_privKey pk) = 32%nat ->
  processKeys_Encode pk = (pks_pubKey pk +:+ pks_privKey pk) +:+ String (byte_of (u8 (pks_index pk))) "".
Proof.
  intros Hp Hs. unfold processKeys_Encode.
  change (zeros (encryptionKeySize * 2 + 1)) with ("" +:+ zeros 32 +:+ zeros 33).
  rewrite copy_at_exact by (rewrite ?length_zeros; done). cbn [String.append].
  change (zeros 33) with (zeros 32 +:+ zeros 1).
  rewrite copy_at_exact by (rewrite ?length_zeros; done).
  rewrite <- string_app_assoc. change (zeros 1) with (String (byte_of 0) "").
  apply set_octet_end. by rewrite string_length_app, Hp, Hs.
Qed.

Lemma i8_u8 i : -2 ^ 7 <= i < 2 ^ 7 -> i8 (u8 i) = i.
Proof.
  intros Hi. unfold i8, u8. rewrite Z.add_mod_idemp_l by lia. rewrite Z.mod_small by lia. lia.
Qed.

Lemma bget_end a c : bget (String.length a) (a +:+ String c "") = Some (byte_val c).
Proof. induction a as [|x a IH]; [done|]. exact IH. Qed.

Lemma processKeys_roundtrip pk :
  String.length (pks_pubKey pk) = 32%nat -> String.length (pks_privKey pk) = 32%nat ->
  -2 ^ 7 <= pks_index pk < 2 ^ 7 -> processKeys_Decode (processKeys_Encode pk) = Ok pk.
Proof.
  intros Hp Hs Hi. rewrite processKeys_Encode_eq by done. unfold processKeys_Decode.
  assert (Hl : String.length (pks_pubKey pk +:+ pks_privKey pk) = 64%nat) by (by rewrite string_length_app, Hp, Hs).
  rewrite string_length_app, Hl. change (_ <? _)%nat with false. cbv iota.
  change (encryptionKeySize + encryptionKeySize)%nat with 64%nat. rewrite <- Hl, bget_end. cbn [deref mbind outcome_bind].
  rewrite !string_app_assoc, btake_app, bdrop_app, btake_app by done.
  destruct pk as [p s i]. cbn in *. do 2 f_equal. rewrite byte_val_of.
  change (u8 i mod 256) with ((i mod 2 ^ 8) mod 2 ^ 8). rewrite Z.mod_mod by lia. by apply i8_u8.
Qed.

(** ** Documented behaviour of the libraries *)

(** A public key is derived from any 32 octets; messages without strings are always encoded, and
    decoded to the same message; a loop over a map visits each entry once. *)
Class KeeperLaws `{EthCrypto, !ProofLibs, Proto, !StoredKeysCodec, !KeeperEnv} := {
  X25519_total key : String.length key = 32%nat -> exists pub, X25519_base key = inr pub /\ String.length pub = 32%nat;
  admin_marshal (tx : AdminTx) : exists b, marshal (mkTx (Some (Tx_Admin tx))) = Some b;
  signed_marshal (stx : SignedTx) : exists b, marshal stx = Some b;
  stored_marshal (pids : StoredKeys) : exists b, marshal pids = Some b;
  KeeperLaws_Tx :: CodecLaws Tx;
  KeeperLaws_SignedTx :: CodecLaws SignedTx;
  KeeperLaws_StoredKeys :: CodecLaws StoredKeys;
  range_spec {A} (m : gmap bytes A) : range m ≡ₚ map_to_list m
}.

(** What a round of the loop of the reveals does with a process: nothing, a reveal, the end of the loop or a
    panic. *)
Inductive verdict := VReveal | VSkip | VStop | VPanic.

#[export] Instance verdict_eq_dec : EqDecision verdict.
Proof. solve_decision. Defined.

Section facts.
Context `{ArboLaws, Lru, ProtoLaws, EthCryptoLaws, !ProofLibs, !EthSign, !EthSignLaws}.
Context `{!StoredKeysCodec, !KeeperEnv, !KeeperLaws}.

(** ** The keys of a process *)

(** The two halves of a key pair. *)
Definition keypair (pk : processKeys) : Prop :=
  DecodePrivate (hex_encode (pks_privKey pk)) = Ok (mkPrivateKey (pks_privKey pk) (pks_pubKey pk)) /\
  String.length (pks_privKey pk) = 32%nat /\ String.length (pks_pubKey pk) = 32%nat.

Lemma DecodePrivate_hex key :
  String.length key = 32%nat ->
  exists pub, DecodePrivate (hex_encode key) = Ok (mkPrivateKey key pub) /\ String.length pub = 32%nat.
Proof.
  intros Hl. destruct (X25519_total key Hl) as (pub & Hp & Hpl). exists pub. split; [|done].
  unfold DecodePrivate, key_decode. rewrite hex_decode_encode. unfold KeyLength at 1. rewrite Hl. cbn [Nat.eqb negb mbind outcome_bind].
  unfold derivePublic. rewrite Hp. cbn [of_sum mbind outcome_bind]. by rewrite btake_app.
Qed.

Context {D T : Type} {ops : Database D T} {view : DatabaseView D T} {laws : DatabaseLaws D T}.
Notation keeper := (KeyKeeper (D := D)).

Lemma generateKeys_run pid (k : keeper) key :
  keyed (kk_signer k) key ->
  exists pk, generateKeys pid k = Ok pk /\ keypair pk /\ pks_index pk = kk_myIndex k.
Proof.
  intros [Hk _]. unfold generateKeys. rewrite Hk. cbn [deref mbind outcome_bind]. unfold HashRaw.
  destruct (DecodePrivate_hex (Keccak256 (priv_D key +:+ pid +:+ String (byte_of (u8 (kk_myIndex k))) "")))
    as (pub & Hd & Hl); [apply Keccak256_length|].
  rewrite Hd. eexists. split; [reflexivity|]. split; [|done]. split_and!; [done|apply Keccak256_length|done].
Qed.

(** ** Transactions *)

(** [b] is the transaction [tx], signed by the key of the keeper. *)
Definition sends (k : keeper) (b : bytes) (tx : AdminTx) : Prop :=
  exists txb sig addr,
    unmarshal b = Some (mkSignedTx txb (Some sig)) /\ unmarshal txb = Some (mkTx (Some (Tx_Admin tx))) /\
    SK_Address (kk_signer k) = Ok addr /\
    AddrFromSignature (BuildVocdoniTransaction txb (app_chainID (kk_vochain k))) sig = Ok addr.

Lemma signAndSendTx_run tx (k : keeper) key :
  keyed (kk_signer k) key ->
  exists b o, signAndSendTx tx k = (set_sent (kk_sent k ++ [b]) k, o) /\ is_panic o = false /\ sends k b tx /\
              (o = Ok tt <-> SendTx (kk_sent k) b = inr 0).
Proof.
  intros Hk. destruct (admin_marshal tx) as [txb Htx].
  destruct (sign_total _ _ (BuildVocdoniTransaction txb (app_chainID (kk_vochain k))) Hk) as [sig Hsig].
  destruct (signed_marshal (mkSignedTx txb (Some sig))) as [b Hb].
  exists b. unfold signAndSendTx.
  eexists. split.
  { erewrite bind_run_Ok by (apply Marshal_Ok; eauto). erewrite bind_run_Ok by reflexivity.
    erewrite bind_run_Ok by (unfold SignVocdoniTx; rewrite Hsig; reflexivity).
    erewrite bind_run_Ok by (apply Marshal_Ok; eauto). erewrite bind_run_Ok by reflexivity.
    unfold mbind, gom_bind, lift, of_sum, reject.
    instantiate (1 := match SendTx (kk_sent k) b with
                      | inl e => Err e
                      | inr c => if negb (c =? 0) then Err (Errorf "error sending transaction") else Ok tt end).
    destruct (SendTx (kk_sent k) b) as [e|c]; [reflexivity|]. by destruct (c =? 0). }
  split_and!.
  - destruct (SendTx (kk_sent k) b) as [e|c]; [done|]. by destruct (c =? 0).
  - exists txb, sig, (PubkeyToAddress (priv_PublicKey key)). split_and!.
    + by apply unmarshal_marshal.
    + by apply unmarshal_marshal.
    + unfold SK_Address. by rewrite (proj2 Hk).
    + by eapply sign_recovers.
  - destruct (SendTx (kk_sent k) b) as [e|c]; [by split|]. destruct (Z.eqb_spec c 0) as [->|Hc]; cbn; [by split|].
    split; [done|]. intros [= ?]. done.
Qed.

(** ** Storage *)

Context {conflict : ConflictLaws D T}.

(** A change of the storage at keys of [P], that no other transaction notices. *)
Definition touches (P : bytes -> Prop) (d d' : D) : Prop :=
  (forall k, ~ P k -> contents (T := T) d' k = contents (T := T) d k) /\
  (forall t : T, tx_clean t d -> (forall k, P k -> ~ tx_reads t k) -> tx_clean t d').

#[local] Instance touches_preorder P : PreOrder (touches P).
Proof.
  split; [intros d; split; auto|]. intros d1 d2 d3 [Hc1 Ht1] [Hc2 Ht2]. split; [intros k Hk; by rewrite Hc2, Hc1|auto].
Qed.

Lemma touches_weaken (P Q : bytes -> Prop) d d' : (forall k, P k -> Q k) -> touches P d d' -> touches Q d d'.
Proof. intros HPQ [Hc Ht]. split; [intros k Hk; apply Hc; auto|]. intros t Hcl Hr. apply Ht; auto. Qed.

Lemma commit_touches (P : bytes -> Prop) t d :
  tx_clean t d -> (forall k, tx_writes (D := D) t k <> None -> P k) -> touches P d (tx_Commit t d).1.
Proof.
  intros Hv Hw. split.
  - intros k Hk. rewrite (proj2 (tx_Commit_spec (D := D) t d Hv)). unfold overlay.
    destruct (tx_writes t k) eqn:E; [|done]. exfalso. apply Hk, Hw. by rewrite E.
  - intros t' Ht' Hr. apply (tx_Commit_clean (D := D)); [done|done|]. intros k Hk. by apply Hr, Hw.
Qed.

(** ** Reveal and publication of the keys of a process *)

Definition process_key (pid : bytes) : bytes := dbPrefixProcess +:+ pid.

Lemma on_tx_of_run {A} t (m : D -> GoM T A) (k : keeper) t' r :
  m (kk_storage k) t = (t', r) -> is_panic r = false -> on_tx_of t m k = (k, Ok (t', r)).
Proof. intros Hm Hr. unfold on_tx_of. rewrite Hm. by destruct r. Qed.

Lemma revealKeys_run pid (k : keeper) key :
  keyed (kk_signer k) key ->
  exists pk b d' o,
    generateKeys pid k = Ok pk /\ keypair pk /\ pks_index pk = kk_myIndex k /\
    revealKeys pid k = (set_storage d' (set_sent (kk_sent k ++ [b]) k), o) /\ is_panic o = false /\
    sends k b (reveal_tx pk pid (RandomInt (kk_sent k))) /\ touches (eq (process_key pid)) (kk_storage k) d'.
Proof.
  intros Hk. destruct (generateKeys_run pid k key Hk) as (pk & Hg & Hp & Hi).
  destruct (signAndSendTx_run (reveal_tx pk pid (RandomInt (kk_sent k))) k key Hk) as (b & o & Hs & Ho & Hb & _).
  exists pk, b. unfold revealKeys.
  destruct o as [[]|e|w]; [|exists (kk_storage k), (Err e)|done].
  - destruct (tx_op_fresh (WDelete (process_key pid)) [] (kk_storage k)) as (t & Ht & Hv & Hw).
    destruct (tx_view_commit _ _ _ Hv) as (d' & Hc & _). exists d', (Ok tt). split_and!; try done.
    + erewrite bind_run_Ok by reflexivity. erewrite bind_run_Ok by (apply lift_Ok; eauto).
      erewrite bind_run_Ok by exact Hs. erewrite bind_run_Ok by reflexivity.
      erewrite bind_run_Ok by (apply on_tx_of_run; [exact Ht|done]).
      unfold commit_tx. cbn [fst kk_storage set_sent]. rewrite Hc. reflexivity.
    + pose proof (commit_touches (eq (process_key pid)) _ _ (tv_clean _ _ _ Hv)) as Hto. rewrite Hc in Hto. apply Hto.
      intros k' Hk'. symmetry. by apply Hw.
  - do 3 (split; [done|]). split; [|split; [done|split; [done|reflexivity]]].
    erewrite bind_run_Ok by reflexivity. erewrite bind_run_Ok by (apply lift_Ok; eauto).
    erewrite bind_run_Err by exact Hs. by destruct k.
Qed.

Lemma publishKeys_run pk pid (k : keeper) key :
  keyed (kk_signer k) key ->
  exists b d' o,
    publishKeys (Some pk) pid k = (set_storage d' (set_sent (kk_sent k ++ [b]) k), o) /\ is_panic o = false /\
    sends k b (publish_tx pk pid (RandomInt (kk_sent k))) /\
    touches (eq (process_key pid)) (kk_storage k) d' /\
    (SendTx (kk_sent k) b = inr 0 -> contents (T := T) (kk_storage k) (process_key pid) = None ->
     contents (T := T) d' (process_key pid) = Some (processKeys_Encode pk)).
Proof.
  intros Hk.
  destruct (signAndSendTx_run (publish_tx pk pid (RandomInt (kk_sent k))) k key Hk) as (b & o & Hs & Ho & Hb & Hok).
  exists b. unfold publishKeys. set (dbKey := dbPrefixProcess +:+ pid).
  destruct (tx_view_get dbKey (db_WriteTx (kk_storage k)) (kk_storage k) _ (tx_view_new _)) as (t & Hg & _).
  destruct o as [[]|e|w]; [|exists (kk_storage k), (Err e)|done].
  - destruct (contents (kk_storage k) dbKey) eqn:Ec.
    + exists (kk_storage k). eexists. split; [|split; [|split; [done|split; [reflexivity|]]]].
      * erewrite bind_run_Ok by reflexivity. erewrite bind_run_Ok by reflexivity.
        erewrite bind_run_Ok by exact Hs. erewrite bind_run_Ok by reflexivity.
        erewrite bind_run_Ok by (apply on_tx_of_run; [exact Hg|done]). cbv beta iota. by destruct k.
      * done.
      * unfold process_key. fold dbKey. by rewrite Ec.
    + destruct (tx_op_fresh (WSet dbKey (processKeys_Encode pk)) [dbKey] (kk_storage k)) as (t' & Ht & Hv & Hw).
      cbn [after_reads fold_left] in Ht. rewrite Hg in Ht. destruct (tx_view_commit _ _ _ Hv) as (d' & Hc & Hd).
      exists d', (Ok tt). split; [|split; [done|split; [done|split]]].
      * erewrite bind_run_Ok by reflexivity. erewrite bind_run_Ok by reflexivity.
        erewrite bind_run_Ok by exact Hs. erewrite bind_run_Ok by reflexivity.
        erewrite bind_run_Ok by (apply on_tx_of_run; [exact Hg|done]). cbv beta iota. rewrite errors_is_refl.
        erewrite bind_run_Ok by (apply on_tx_of_run; [exact Ht|done]). erewrite bind_run_Ok by reflexivity.
        unfold commit_tx. cbn [fst kk_storage set_sent]. by rewrite Hc.
      * pose proof (commit_touches (eq (process_key pid)) _ _ (tv_clean _ _ _ Hv)) as Hto. rewrite Hc in Hto. apply Hto.
        intros k' Hk'. symmetry. by apply Hw.
      * intros _ _. rewrite Hd. unfold apply_write. by rewrite decide_True.
  - split; [|split; [done|split; [done|split; [reflexivity|]]]].
    + erewrite bind_run_Ok by reflexivity. erewrite bind_run_Ok by reflexivity.
      erewrite bind_run_Err by exact Hs. by destruct k.
    + intros Hz _. by apply Hok in Hz.
Qed.

(** ** The loop of the reveals *)

Lemma State_Process_cases pid s :
  wf s ->
  exists s', sreads s s' /\
    match process_leaf s pid with
    | Some x => State_Process pid false s = (s', Ok (SDB_Process x))
    | None => exists e, State_Process pid false s = (s', Err e)
    end.
Proof.
  intros Hwf. destruct (State_Process_run pid s Hwf) as (s' & Hr & Heq). exists s'. split; [done|]. rewrite Heq.
  destruct (leaf_result s TreeProcess pid) as [raw|e|w] eqn:E.
  - apply leaf_result_Ok in E. unfold process_leaf. rewrite E. cbn. destruct (unmarshal raw); eauto.
  - assert (Hn : sview s TreeProcess !! pid = None).
    { destruct (sview s TreeProcess !! pid) eqn:Hs; [|done]. by rewrite (leaf_result_Some _ _ _ _ Hs) in E. }
    unfold process_leaf. rewrite Hn. cbn. destruct (errors_is _ _); eauto.
  - unfold leaf_result in E. by destruct (arbo_get _ _).
Qed.

Lemma needs_keys_not_err p e : needs_keys p <> Err e.
Proof. unfold needs_keys. by destruct (P_EnvelopeType p). Qed.

Lemma slice_get_not_err {A} (l : list A) i e : slice_get l i <> Err e.
Proof. unfold slice_get. destruct (_ <? _); [done|]. by destruct (_ !! _). Qed.

Definition judge (s : State) (index : Z) (pid : bytes) : verdict :=
  match process_leaf s pid with
  | None => VSkip
  | Some x =>
      match SDB_Process x with
      | None => VPanic
      | Some p =>
          match needs_keys p, slice_get (EncryptionPublicKeys p) index with
          | Ok true, Ok key => if bool_decide (key <> "") then VReveal else VSkip
          | Ok false, _ => VStop
          | _, _ => VPanic
          end
      end
  end.

Lemma judge_reads s s' i pid : wf s -> sreads s s' -> judge s' i pid = judge s i pid.
Proof. intros Hwf Hr. unfold judge. by rewrite (process_leaf_reads s s'). Qed.

(** The keys of the storage that hold the keys of a process. *)
Definition process_keyed (key : bytes) : Prop := exists pid, key = process_key pid.

Notation kstate k := (AppState (kk_vochain k)).

(** What a task keeps, when it changes the storage at keys of [P]. *)
Record kept_at (P : bytes -> Prop) (k k' : keeper) : Prop := {
  kp_signer : kk_signer k' = kk_signer k;
  kp_index : kk_myIndex k' = kk_myIndex k;
  kp_chain : app_chainID (kk_vochain k') = app_chainID (kk_vochain k);
  kp_keys : kk_keyPool k' = kk_keyPool k;
  kp_blocks : kk_blockPool k' = kk_blockPool k;
  kp_state : sreads (kstate k) (kstate k');
  kp_storage : touches P (kk_storage k) (kk_storage k')
}.
Arguments kp_signer {P k k'}.
Arguments kp_index {P k k'}.
Arguments kp_chain {P k k'}.
Arguments kp_keys {P k k'}.
Arguments kp_blocks {P k k'}.
Arguments kp_state {P k k'}.
Arguments kp_storage {P k k'}.
Notation kept := (kept_at process_keyed).

#[local] Instance kept_preorder P : PreOrder (kept_at P).
Proof.
  split.
  - intros k. by split.
  - intros k1 k2 k3 [] []. split; try congruence; by etrans.
Qed.

Lemma kept_weaken (P Q : bytes -> Prop) k k' : (forall x, P x -> Q x) -> kept_at P k k' -> kept_at Q k k'.
Proof. intros HPQ []. split; try done. by eapply touches_weaken. Qed.

Lemma kept_wf P k k' : kept_at P k k' -> wf (kstate k) -> wf (kstate k').
Proof. intros Hk Hwf. by apply (sreads_use _ _ (kp_state Hk) Hwf). Qed.

Lemma kept_judge P k k' pid :
  kept_at P k k' -> wf (kstate k) -> judge (kstate k') (kk_myIndex k') pid = judge (kstate k) (kk_myIndex k) pid.
Proof. intros Hk Hwf. rewrite (kp_index Hk). apply judge_reads; [done|apply Hk]. Qed.

(** [b] is a transaction that reveals the key of [pid]. *)
Definition reveals (k : keeper) (pid b : bytes) : Prop :=
  exists pk nonce, generateKeys pid k = Ok pk /\ keypair pk /\ pks_index pk = kk_myIndex k /\
                   sends k b (reveal_tx pk pid nonce).

Lemma kept_sends P k k' b tx : kept_at P k k' -> sends k' b tx -> sends k b tx.
Proof. intros Hk. unfold sends. by rewrite (kp_signer Hk), (kp_chain Hk). Qed.

Lemma kept_reveals P k k' pid b : kept_at P k k' -> reveals k' pid b -> reveals k pid b.
Proof.
  intros Hk (pk & n & Hg & Hp & Hi & Hs). exists pk, n. split_and!; try done.
  - rewrite <- Hg. unfold generateKeys. by rewrite (kp_signer Hk), (kp_index Hk).
  - by rewrite <- (kp_index Hk).
  - by eapply kept_sends.
Qed.

Lemma kept_read k s' : sreads (kstate k) s' -> kept k (set_vochain (set_AppState s' (kk_vochain k)) k).
Proof. intros Hr. by split. Qed.

Lemma on_vochain_run {A} (m : GoM State A) (k : keeper) s' r :
  m (kstate k) = (s', r) -> on_vochain m k = (set_vochain (set_AppState s' (kk_vochain k)) k, r).
Proof. intros Hm. unfold on_vochain, on_State, zoom. by rewrite Hm. Qed.

Lemma revealed_kept pid (k : keeper) key :
  keyed (kk_signer k) key ->
  exists k' b, logged (revealKeys pid) k = (k', Ok tt) /\ kept k k' /\ kk_sent k' = kk_sent k ++ [b] /\ reveals k pid b.
Proof.
  intros Hk. destruct (revealKeys_run pid k key Hk) as (pk & b & d' & o & Hg & Hp & Hi & Hr & Ho & Hs & Ht).
  eexists _, b. split; [by eapply logged_run|]. split_and!; [|done|by eexists _, _].
  split; try done. eapply touches_weaken, Ht. intros x <-. by exists pid.
Qed.

(** One round. *)
Definition round_result (k : keeper) (pid : bytes) (k' : keeper) (o : outcome bool) : Prop :=
  match judge (kstate k) (kk_myIndex k) pid with
  | VReveal => o = Ok true /\ exists b, kk_sent k' = kk_sent k ++ [b] /\ reveals k pid b
  | VSkip => o = Ok true /\ kk_sent k' = kk_sent k
  | VStop => o = Ok false /\ kk_sent k' = kk_sent k
  | VPanic => is_panic o = true /\ kk_sent k' = kk_sent k
  end.

Lemma reveal_round_run pid (k : keeper) key :
  keyed (kk_signer k) key -> wf (kstate k) ->
  exists k' o, reveal_round pid k = (k', o) /\ kept k k' /\ round_result k pid k' o.
Proof.
  intros Hk Hwf. destruct (State_Process_cases pid _ Hwf) as (s' & Hr & Hp). unfold reveal_round, round_result, judge.
  destruct (process_leaf (kstate k) pid) as [x|].
  2:{ destruct Hp as [e Hp]. eexists _, _. split; [|split; [by apply kept_read|split; reflexivity]].
      erewrite bind_run_Ok by (unfold catch; rewrite (on_vochain_run _ _ _ _ Hp); reflexivity). reflexivity. }
  set (k1 := set_vochain (set_AppState s' (kk_vochain k)) k). assert (Hk1 : kept k k1) by (by apply kept_read).
  erewrite bind_run_Ok by (unfold catch; rewrite (on_vochain_run _ _ _ _ Hp); reflexivity). fold k1. cbv beta iota.
  destruct (SDB_Process x) as [p|]; [|by eexists _, _]. cbn [deref]. erewrite bind_run_Ok by reflexivity.
  destruct (needs_keys p) as [[]|e|w] eqn:En.
  - erewrite bind_run_Ok by reflexivity. cbn [negb]. erewrite bind_run_Ok by reflexivity.
    change (kk_myIndex k1) with (kk_myIndex k).
    destruct (slice_get (EncryptionPublicKeys p) (kk_myIndex k)) as [pub|e|w] eqn:Es.
    + erewrite bind_run_Ok by reflexivity. destruct (bool_decide (pub <> "")).
      * destruct (revealed_kept pid k1 key Hk) as (k' & b & Hrun & Hk' & Hs & Hb). exists k', (Ok true).
        split; [by erewrite bind_run_Ok by exact Hrun|]. split; [by etrans|]. split; [done|]. exists b.
        split; [done|by eapply kept_reveals].
      * by eexists _, _.
    + by apply slice_get_not_err in Es.
    + by eexists _, _.
  - erewrite bind_run_Ok by reflexivity. by eexists _, _.
  - by apply needs_keys_not_err in En.
  - by eexists _, _.
Qed.

(** The loop, when no round stops it. *)
Lemma reveal_loop_run (pids : list bytes) (k : keeper) key :
  keyed (kk_signer k) key -> wf (kstate k) ->
  Forall (fun pid => judge (kstate k) (kk_myIndex k) pid = VReveal \/ judge (kstate k) (kk_myIndex k) pid = VSkip) pids ->
  exists k' bs, reveal_loop pids k = (k', Ok true) /\ kept k k' /\ kk_sent k' = kk_sent k ++ bs /\
    Forall2 (reveals k) (filter (fun pid => judge (kstate k) (kk_myIndex k) pid = VReveal) pids) bs.
Proof.
  revert k. induction pids as [|pid pids IH]; intros k Hk Hwf Hall.
  { exists k, []. by rewrite app_nil_r. }
  apply Forall_cons in Hall as [Hpid Hall].
  destruct (reveal_round_run pid k key Hk Hwf) as (k1 & o & Hr & Hk1 & Hres). unfold round_result in Hres.
  assert (Hbs : exists bs1, o = Ok true /\ kk_sent k1 = kk_sent k ++ bs1 /\
            Forall2 (reveals k) (filter (fun pid => judge (kstate k) (kk_myIndex k) pid = VReveal) [pid]) bs1).
  { destruct Hpid as [Hj | Hj]; rewrite Hj in Hres.
    - destruct Hres as (-> & b & Hs & Hb). exists [b]. rewrite filter_cons_True by done. auto.
    - destruct Hres as [-> Hs]. exists []. rewrite filter_cons_False by (by rewrite Hj). by rewrite app_nil_r. }
  destruct Hbs as (bs1 & -> & Hs1 & Hb1).
  destruct (IH k1) as (k' & bs & Hr' & Hk' & Hs' & Hb').
  { by rewrite (kp_signer Hk1). }
  { by eapply kept_wf. }
  { eapply Forall_impl; [exact Hall|]. intros x. by rewrite (kept_judge process_keyed k k1). }
  exists k', (bs1 ++ bs). split_and!; [|by etrans|by rewrite Hs', Hs1, app_assoc|].
  - cbn [reveal_loop]. by erewrite bind_run_Ok by exact Hr.
  - change (pid :: pids) with ([pid] ++ pids). rewrite filter_app. apply Forall2_app; [done|].
    rewrite (list_filter_iff _ (fun pid => judge (kstate k1) (kk_myIndex k1) pid = VReveal))
      by (intros x; by rewrite (kept_judge process_keyed k k1)).
    eapply Forall2_impl; [exact Hb'|]. intros x b. by eapply kept_reveals.
Qed.

Lemma reveal_loop_kept (pids : list bytes) (k : keeper) key :
  keyed (kk_signer k) key -> wf (kstate k) -> kept k (reveal_loop pids k).1.
Proof.
  revert k. induction pids as [|pid pids IH]; intros k Hk Hwf; [reflexivity|].
  destruct (reveal_round_run pid k key Hk Hwf) as (k1 & o & Hr & Hk1 & _). cbn [reveal_loop].
  unfold mbind, gom_bind. rewrite Hr. destruct o as [[]|e|w]; try done.
  etrans; [exact Hk1|]. apply IH; [by rewrite (kp_signer Hk1)|by eapply kept_wf].
Qed.

(** ** The schedule *)

Definition scheduled (d : D) (h : Z) : list bytes :=
  match contents (T := T) d (block_key h) with
  | Some data => match unmarshal data with Some pids => Pids pids | None => [] end
  | None => []
  end.

(** What is stored for a block can be decoded. *)
Definition readable (d : D) : Prop :=
  forall h data, contents (T := T) d (block_key h) = Some data -> exists pids : StoredKeys, unmarshal data = Some pids.

Lemma block_key_inj h h' : block_key h = block_key h' -> h = h'.
Proof. intros E%append_inj. by apply (inj pretty). Qed.

Lemma block_key_not_process h : ~ process_keyed (block_key h).
Proof. intros [pid [=]]. Qed.

(** The transaction that has read the pids of a block and deletes them. *)
Lemma block_tx h d :
  exists t t', tx_Get (block_key h) d (db_WriteTx (T := T) d) =
                 (t, match contents (T := T) d (block_key h) with Some v => Ok v | None => Err ErrKeyNotFound end) /\
    tx_Delete (block_key h) t = (t', Ok tt) /\ tx_clean t' d /\
    (forall k, tx_writes (D := D) t' k <> None -> k = block_key h) /\
    tx_writes (D := D) t' (block_key h) = Some None /\ (forall k, tx_reads t' k -> k = block_key h).
Proof.
  destruct (tx_view_get (block_key h) (db_WriteTx d) d _ (tx_view_new _)) as (t & Hg & _).
  destruct (tx_op_fresh (WDelete (block_key h)) [block_key h] d) as (t' & Ht & Hv & Hw).
  cbn [after_reads fold_left] in Ht. rewrite Hg in Ht. cbn [fst tx_op] in Ht. exists t, t'.
  do 3 (split; [first [done|apply Hv]|]). split; [done|]. split.
  - pose proof (tx_Delete_spec (D := D) (block_key h) t) as [(_ & Hs & _)|Hs]; rewrite Ht in Hs; [|done].
    rewrite Hs. unfold fn_write. by rewrite decide_True.
  - intros k Hk. pose proof (tx_Delete_reads (D := D) (block_key h) t k) as Hd. rewrite Ht in Hd. apply Hd in Hk.
    pose proof (tx_Get_reads (D := D) (block_key h) d (db_WriteTx d) k) as Hr. rewrite Hg in Hr.
    apply Hr in Hk as [Hk | Hk]; [|done]. by apply db_WriteTx_reads in Hk.
Qed.

Definition task_keys (h : Z) (key : bytes) : Prop := process_keyed key \/ key = block_key h.

Lemma block_commit h t' d0 d1 :
  tx_clean t' d0 -> (forall k, tx_writes (D := D) t' k <> None -> k = block_key h) ->
  tx_writes (D := D) t' (block_key h) = Some None -> (forall k, tx_reads t' k -> k = block_key h) ->
  touches process_keyed d0 d1 ->
  exists d2, tx_Commit t' d1 = (d2, Ok tt) /\ touches (task_keys h) d1 d2 /\ contents (T := T) d2 (block_key h) = None.
Proof.
  intros Hc Hw Hn Hr [_ Ht]. assert (Hc1 : tx_clean t' d1).
  { apply Ht; [done|]. intros k Hk Hrk. apply Hr in Hrk as ->. by apply block_key_not_process in Hk. }
  pose proof (commit_touches (task_keys h) t' d1 Hc1) as Hto. destruct (tx_Commit_spec (D := D) t' d1 Hc1) as [Ho Hd].
  destruct (tx_Commit t' d1) as [d2 o]. cbn in *. subst o. exists d2. split_and!; [done| |].
  - apply Hto. intros k Hk. right. by apply Hw.
  - rewrite Hd. unfold overlay. by rewrite Hn.
Qed.

Lemma kept_loop_storage h k k1 d2 :
  kept k k1 -> touches (task_keys h) (kk_storage k1) d2 -> kept_at (task_keys h) k (set_storage d2 k1).
Proof.
  intros Hk Ht. apply (kept_weaken _ (task_keys h)) in Hk; [|by left]. etrans; [exact Hk|]. by split.
Qed.

(** The loop is followed by the removal of the schedule of the block. *)
Lemma checkRevealProcess_done h (k : keeper) data pids k1 :
  contents (T := T) (kk_storage k) (block_key h) = Some data -> unmarshal data = Some pids ->
  reveal_loop (Pids pids) k = (k1, Ok true) -> kept k k1 ->
  exists d2, checkRevealProcess h k = (set_storage d2 k1, Ok tt) /\ touches (task_keys h) (kk_storage k1) d2 /\
             contents (T := T) d2 (block_key h) = None.
Proof.
  intros Hd Hu Hl Hk. destruct (block_tx h (kk_storage k)) as (t & t' & Hg & Ht & Hc & Hw & Hn & Hr).
  destruct (block_commit h t' _ (kk_storage k1) Hc Hw Hn Hr (kp_storage Hk)) as (d2 & Hcm & Hto & Hnone).
  exists d2. split_and!; [|done|done]. rewrite Hd in Hg. unfold checkRevealProcess.
  erewrite bind_run_Ok by reflexivity. erewrite bind_run_Ok by (apply on_tx_of_run; [exact Hg|done]). cbv beta iota.
  rewrite Hu. erewrite bind_run_Ok by exact Hl. cbv beta iota. erewrite bind_run_Ok by (apply on_tx_of_run; [exact Ht|done]).
  eapply logged_run with (o := Ok tt); [|done]. unfold commit_tx. cbn [fst]. by rewrite Hcm.
Qed.

(** Otherwise the storage is left as the loop leaves it. *)
Lemma checkRevealProcess_other h (k : keeper) :
  match contents (T := T) (kk_storage k) (block_key h) ≫= unmarshal (A := StoredKeys) with
  | None => checkRevealProcess h k = (k, Ok tt)
  | Some pids => (reveal_loop (Pids pids) k).2 <> Ok true ->
                 (checkRevealProcess h k).1 = (reveal_loop (Pids pids) k).1
  end.
Proof.
  destruct (block_tx h (kk_storage k)) as (t & _ & Hg & _). unfold checkRevealProcess.
  destruct (contents (T := T) (kk_storage k) (block_key h)) as [data|]; cbn [mbind option_bind].
  - destruct (unmarshal (A := StoredKeys) data) as [pids|] eqn:Hu.
    + intros Hne. erewrite bind_run_Ok by reflexivity.
      erewrite bind_run_Ok by (apply on_tx_of_run; [exact Hg|done]). cbv beta iota. rewrite Hu.
      unfold mbind, gom_bind. by destruct (reveal_loop (Pids pids) k) as [k1 [[]|e|w]].
    + erewrite bind_run_Ok by reflexivity.
      erewrite bind_run_Ok by (apply on_tx_of_run; [exact Hg|done]). cbv beta iota. by rewrite Hu.
  - erewrite bind_run_Ok by reflexivity. by erewrite bind_run_Ok by (apply on_tx_of_run; [exact Hg|done]).
Qed.

Lemma checkRevealProcess_kept h (k : keeper) key :
  keyed (kk_signer k) key -> wf (kstate k) -> kept_at (task_keys h) k (checkRevealProcess h k).1.
Proof.
  intros Hk Hwf. pose proof (checkRevealProcess_other h k) as Hot.
  destruct (contents (T := T) (kk_storage k) (block_key h)) as [data|] eqn:Hd; cbn [mbind option_bind] in Hot;
    [|by rewrite Hot].
  destruct (unmarshal (A := StoredKeys) data) as [pids|] eqn:Hu; [|by rewrite Hot].
  pose proof (reveal_loop_kept (Pids pids) k key Hk Hwf) as Hk1.
  destruct (reveal_loop (Pids pids) k) as [k1 o] eqn:Hl. cbn in Hk1, Hot.
  destruct o as [[]|e|w]; try (rewrite Hot by done; eapply kept_weaken, Hk1; by left).
  destruct (checkRevealProcess_done h k data pids k1 Hd Hu Hl Hk1) as (d2 & -> & Hto & _). by apply kept_loop_storage.
Qed.

(** The schedule of the block is removed or left. *)
Lemma checkRevealProcess_block h (k : keeper) key :
  keyed (kk_signer k) key -> wf (kstate k) ->
  contents (T := T) (kk_storage (checkRevealProcess h k).1) (block_key h) = None \/
  contents (T := T) (kk_storage (checkRevealProcess h k).1) (block_key h) =
  contents (T := T) (kk_storage k) (block_key h).
Proof.
  intros Hk Hwf. pose proof (checkRevealProcess_other h k) as Hot.
  destruct (contents (T := T) (kk_storage k) (block_key h)) as [data|] eqn:Hd; cbn [mbind option_bind] in Hot;
    [|left; by rewrite Hot].
  destruct (unmarshal (A := StoredKeys) data) as [pids|] eqn:Hu; [|right; by rewrite Hot].
  pose proof (reveal_loop_kept (Pids pids) k key Hk Hwf) as Hk1.
  destruct (reveal_loop (Pids pids) k) as [k1 o] eqn:Hl. cbn in Hk1, Hot.
  destruct o as [[]|e|w]; [| |right..].
  { destruct (checkRevealProcess_done h k data pids k1 Hd Hu Hl Hk1) as (d2 & -> & _ & Hn). by left. }
  1: right.
  all: rewrite Hot by done; rewrite <- Hd; apply (proj1 (kp_storage Hk1)), block_key_not_process.
Qed.

(** The check of a block reveals the keys of the processes of its schedule. *)
Lemma checkRevealProcess_run h (k : keeper) key :
  keyed (kk_signer k) key -> wf (kstate k) -> readable (kk_storage k) ->
  Forall (fun pid => judge (kstate k) (kk_myIndex k) pid = VReveal \/ judge (kstate k) (kk_myIndex k) pid = VSkip)
    (scheduled (kk_storage k) h) ->
  exists k' bs, checkRevealProcess h k = (k', Ok tt) /\ kept_at (task_keys h) k k' /\ kk_sent k' = kk_sent k ++ bs /\
    scheduled (kk_storage k') h = [] /\
    Forall2 (reveals k)
      (filter (fun pid => judge (kstate k) (kk_myIndex k) pid = VReveal) (scheduled (kk_storage k) h)) bs.
Proof.
  intros Hk Hwf Hread Hall. unfold scheduled in *.
  destruct (contents (T := T) (kk_storage k) (block_key h)) as [data|] eqn:Hd.
  - destruct (Hread h data Hd) as [pids Hu]. rewrite Hu in Hall |- *.
    destruct (reveal_loop_run (Pids pids) k key Hk Hwf Hall) as (k1 & bs & Hl & Hk1 & Hs & Hb).
    destruct (checkRevealProcess_done h k data pids k1 Hd Hu Hl Hk1) as (d2 & Hr & Hto & Hn).
    exists (set_storage d2 k1), bs. split_and!; [done|by apply kept_loop_storage|done| |done].
    cbn [kk_storage set_storage]. by rewrite Hn.
  - pose proof (checkRevealProcess_other h k) as Hot. rewrite Hd in Hot. cbn in Hot.
    exists k, []. rewrite Hot, app_nil_r, Hd. split_and!; [done|reflexivity|done|done|constructor].
Qed.

(** ** Publication *)

(** [b] is a transaction that publishes the key of an entry of the pool. *)
Definition publishes (k : keeper) (x : bytes * option processKeys) (b : bytes) : Prop :=
  exists pk nonce, x.2 = Some pk /\ sends k b (publish_tx pk x.1 nonce).

Lemma publish_one pid pk (k : keeper) key :
  keyed (kk_signer k) key ->
  exists k' b, logged (publishKeys (Some pk) pid) k = (k', Ok tt) /\ kept k k' /\ kk_sent k' = kk_sent k ++ [b] /\
               publishes k (pid, Some pk) b.
Proof.
  intros Hk. destruct (publishKeys_run pk pid k key Hk) as (b & d' & o & Hr & Ho & Hs & Ht & _).
  eexists _, b. split; [by eapply logged_run|]. split_and!; [|done|by eexists _, _].
  split; try done. eapply touches_weaken, Ht. intros x <-. by exists pid.
Qed.

Lemma publish_loop (l : list (bytes * option processKeys)) (k : keeper) key :
  keyed (kk_signer k) key -> Forall (fun x => is_Some x.2) l ->
  exists k' bs, mfor l (fun '(pid, pk) => logged (publishKeys pk pid)) k = (k', Ok tt) /\ kept k k' /\
    kk_sent k' = kk_sent k ++ bs /\ Forall2 (publishes k) l bs.
Proof.
  revert k. induction l as [|[pid opk] l IH]; intros k Hk Hall.
  { exists k, []. rewrite app_nil_r. split_and!; [done|reflexivity|done|constructor]. }
  apply Forall_cons in Hall as [[pk Hpk] Hall]. cbn in Hpk. subst opk.
  destruct (publish_one pid pk k key Hk) as (k1 & b & Hr & Hk1 & Hs & Hb).
  destruct (IH k1) as (k' & bs & Hr' & Hk' & Hs' & Hb'); [by rewrite (kp_signer Hk1)|done|].
  exists k', (b :: bs). split_and!; [|by etrans|by rewrite Hs', Hs, <- app_assoc|].
  - cbn [mfor]. by erewrite bind_run_Ok by exact Hr.
  - constructor; [done|]. eapply Forall2_impl; [exact Hb'|]. intros x y (pk' & n & E & Hx). exists pk', n.
    split; [done|by eapply kept_sends].
Qed.

Lemma publishPendingKeys_run (k : keeper) key pool :
  keyed (kk_signer k) key -> kk_keyPool k = Some pool -> map_Forall (fun _ => is_Some) pool ->
  exists k' bs, publishPendingKeys k = (k', Ok tt) /\ kept k k' /\ kk_sent k' = kk_sent k ++ bs /\
    Forall2 (publishes k) (range pool) bs.
Proof.
  intros Hk Hp Hall. unfold publishPendingKeys. erewrite bind_run_Ok by reflexivity. rewrite Hp.
  apply (publish_loop _ _ key); [done|]. apply Forall_forall. intros [pid x] Hx.
  rewrite range_spec, elem_of_map_to_list in Hx. by apply (Hall pid).
Qed.

Lemma publish_loop_kept (l : list (bytes * option processKeys)) (k : keeper) key :
  keyed (kk_signer k) key -> kept k (mfor l (fun '(pid, pk) => logged (publishKeys pk pid)) k).1.
Proof.
  revert k. induction l as [|[pid [pk|]] l IH]; intros k Hk; [reflexivity| |reflexivity].
  destruct (publish_one pid pk k key Hk) as (k1 & b & Hr & Hk1 & _). cbn [mfor]. erewrite bind_run_Ok by exact Hr.
  etrans; [exact Hk1|]. apply IH. by rewrite (kp_signer Hk1).
Qed.

Lemma publishPendingKeys_kept (k : keeper) key : keyed (kk_signer k) key -> kept k (publishPendingKeys k).1.
Proof. intros Hk. unfold publishPendingKeys. erewrite bind_run_Ok by reflexivity. by eapply publish_loop_kept. Qed.

(** ** Scheduling *)

(** The schedule that a view of the storage holds. *)
Definition view_scheduled (m : bytes -> option bytes) (h : Z) : option (list bytes) :=
  match m (block_key h) with
  | Some data => Pids <$> unmarshal (A := StoredKeys) data
  | None => Some []
  end.

(** A transaction on [d] sees the schedule [f], and has written at blocks only. *)
Record sees (d : D) (t : T) (f : Z -> list bytes) (m : bytes -> option bytes) : Prop := {
  se_view : tx_view t d m;
  se_blocks h : view_scheduled m h = Some (f h);
  se_other k : (forall h, k <> block_key h) -> m k = contents (T := T) d k
}.

Definition schedule_at (f : Z -> list bytes) (x : bytes * Z) (h : Z) : list bytes :=
  if decide (h = x.2) then f h ++ [x.1] else f h.

(** The writes of the block fit in a transaction. *)
Definition roomy : Prop := forall k v (t : T), (tx_Set (D := D) k v t).2 = Ok tt.

Lemma schedule_one_run d x t f m :
  roomy -> sees d t f m ->
  exists t' m', schedule_one d x t = (t', Ok tt) /\ sees d t' (schedule_at f x) m'.
Proof.
  intros Hroom [Hv Hb Ho]. destruct x as [pid h]. unfold schedule_one.
  destruct (tx_view_get (block_key h) t d m Hv) as (t1 & Hg & Hv1).
  assert (Hadd : exists t' m', schedule_add (block_key h) pid (mkStoredKeys (f h)) t1 = (t', Ok tt) /\
                               sees d t' (schedule_at f (pid, h)) m').
  { unfold schedule_add. cbn [Pids]. destruct (stored_marshal (mkStoredKeys (f h ++ [pid]))) as [data Hdata].
    pose proof (Hroom (block_key h) data t1) as Hr. destruct (tx_Set (block_key h) data t1) as [t' o] eqn:Hs.
    cbn in Hr. subst o. exists t', (apply_write m (WSet (block_key h) data)). split.
    { eapply logged_run with (o := Ok tt); [|done]. by erewrite bind_run_Ok by (apply Marshal_Ok; eauto). }
    split; [by eapply tx_view_op| |].
    - intros h'. unfold view_scheduled, apply_write, schedule_at. cbn [write_key write_value fst snd].
      destruct (decide (h' = h)) as [->|Hne].
      + rewrite decide_True by done. by rewrite (unmarshal_marshal _ _ Hdata).
      + rewrite decide_False by (by intros ?%block_key_inj). apply Hb.
    - intros k Hk. unfold apply_write. cbn. rewrite decide_False by apply Hk. by apply Ho. }
  destruct Hadd as (t' & m' & Ha & Hse). exists t', m'. split; [|done].
  erewrite bind_run_Ok by (unfold catch; rewrite Hg; instantiate (1 := match m (block_key h) with Some v => inr v | None => inl ErrKeyNotFound end); by destruct (m (block_key h))).
  pose proof (Hb h) as Hbh. unfold view_scheduled in Hbh. destruct (m (block_key h)) as [v|].
  - destruct (unmarshal (A := StoredKeys) v) as [[l]|]; [|done]. cbn in Hbh. injection Hbh as ->. exact Ha.
  - injection Hbh as Hbh. rewrite <- Hbh in Ha. by rewrite bool_decide_true.
Qed.
End facts.
