(* ===== verification/TxFacts.v ===== *)
(** * What transactions may change

    Two facts about every transaction, whatever its outcome: a check changes no content of
    the state ([checks]), and a delivered transaction keeps the state well formed
    ([spreserves]).  Both follow the structure of the code with [skeeps_auto]. *)

From stdpp Require Import base option list strings gmap.
From S2P Require Import Prelude GoMonad GoLib Sha256 Models External Ethereum Tree StateDB.
From S2P Require Import StateTrees State StateFacts Account AccountFacts ProcessID VoteCache.
From S2P Require Import Process CensusProof Census AccountTx VoteTx ProcessTx Transaction App.

Section reads.
Context `{ArboLaws, Lru, Proto, ProofLibs}.

Lemma sreads_CurrentHeight : keeps sreads CurrentHeight.
Proof. unfold CurrentHeight. skeeps_auto. Qed.

Lemma sreads_getProcess pid : keeps sreads (getProcess (UpdateView []) pid).
Proof. unfold getProcess. skeeps_auto. Qed.

Lemma sreads_getProcess_store v pid : keeps sreads (getProcess (StoreView v) pid).
Proof. unfold getProcess. skeeps_auto. Qed.

Lemma sreads_signed_tx {T} msg sig b (tx : option T) : keeps sreads (signed_tx msg sig b tx).
Proof. unfold signed_tx. skeeps_auto. Qed.

Lemma sreads_sender_address b sig : keeps sreads (sender_address b sig).
Proof. unfold sender_address. skeeps_auto. Qed.

Lemma sreads_not_nil_tx vtx : keeps sreads (not_nil_tx vtx).
Proof. unfold not_nil_tx. skeeps_auto. Qed.
End reads.

#[export] Hint Resolve sreads_CurrentHeight sreads_getProcess sreads_getProcess_store
  sreads_signed_tx sreads_sender_address sreads_not_nil_tx : keeps.

Section checks_read.
Context `{ArboLaws, Lru, Proto, ProofLibs}.

Lemma sreads_State_Process pid c : keeps sreads (State_Process pid c).
Proof. unfold State_Process. skeeps_auto. Qed.
End checks_read.

#[export] Hint Resolve sreads_State_Process : keeps.

Section checks_read2.
Context `{ArboLaws, Lru, Proto, ProofLibs}.

Lemma sreads_faucet_issuer p sig : keeps sreads (faucet_issuer p sig).
Proof. unfold faucet_issuer. skeeps_auto. Qed.

Lemma sreads_BuildProcessID c p : keeps sreads (BuildProcessID c p).
Proof. unfold BuildProcessID. skeeps_auto. Qed.

Lemma sreads_authorized_setter p a : keeps sreads (authorized_setter p a).
Proof. unfold authorized_setter. skeeps_auto. Qed.

Lemma sreads_SetProcessStatus pid st : keeps sreads (SetProcessStatus pid st false).
Proof. unfold SetProcessStatus. skeeps_auto. Qed.

Lemma sreads_SetProcessResults pid r : keeps sreads (SetProcessResults pid r false).
Proof. unfold SetProcessResults. skeeps_auto. Qed.

Lemma sreads_SetProcessCensus pid r u : keeps sreads (SetProcessCensus pid r u false).
Proof. unfold SetProcessCensus. skeeps_auto. Qed.

Lemma sreads_getRollingCensusSize pid : keeps sreads (getRollingCensusSize (UpdateView []) pid).
Proof. unfold getRollingCensusSize. skeeps_auto. Qed.

Lemma sreads_getRollingCensusSize_store v pid : keeps sreads (getRollingCensusSize (StoreView v) pid).
Proof. unfold getRollingCensusSize. skeeps_auto. Qed.

Lemma sreads_not_voted pid n : keeps sreads (not_voted pid n).
Proof. unfold not_voted. skeeps_auto. Qed.

Lemma sreads_process_keys_tx_check tx b sig : keeps sreads (process_keys_tx_check tx b sig).
Proof. unfold process_keys_tx_check. skeeps_auto. Qed.

Lemma sreads_oracle_tx_check tx a p : keeps sreads (oracle_tx_check tx a p).
Proof. unfold oracle_tx_check. skeeps_auto. Qed.

Lemma sreads_UsedWeight pid a : keeps sreads (GetPreRegisterAddrUsedWeight pid a).
Proof. unfold GetPreRegisterAddrUsedWeight, nullifiers_cfgs. skeeps_auto. Qed.
End checks_read2.

#[export] Hint Resolve sreads_faucet_issuer sreads_BuildProcessID sreads_authorized_setter
  sreads_SetProcessStatus sreads_SetProcessResults sreads_SetProcessCensus
  sreads_getRollingCensusSize sreads_getRollingCensusSize_store sreads_not_voted sreads_process_keys_tx_check sreads_oracle_tx_check
  sreads_UsedWeight : keeps.

Section tx_checks_read.
Context `{ArboLaws, Lru, Proto, ProofLibs}.

Lemma sreads_assign_processID c p a o : keeps sreads (assign_processID c p a o).
Proof. unfold assign_processID. skeeps_auto. Qed.

Lemma sreads_MintTokensTxCheck t b sig : keeps sreads (MintTokensTxCheck t b sig).
Proof. unfold MintTokensTxCheck. skeeps_auto. Qed.

Lemma sreads_SendTokensTxCheck t b sig : keeps sreads (SendTokensTxCheck t b sig).
Proof. unfold SendTokensTxCheck. skeeps_auto. Qed.

Lemma sreads_SetAccountInfoTxCheck t b sig : keeps sreads (SetAccountInfoTxCheck t b sig).
Proof. unfold SetAccountInfoTxCheck. skeeps_auto. Qed.

Lemma sreads_SetAccountDelegateTxCheck t b sig : keeps sreads (SetAccountDelegateTxCheck t b sig).
Proof. unfold SetAccountDelegateTxCheck. skeeps_auto. Qed.

Lemma sreads_CollectFaucetTxCheck t b sig : keeps sreads (CollectFaucetTxCheck t b sig).
Proof. unfold CollectFaucetTxCheck. skeeps_auto. Qed.

Lemma sreads_SetTransactionCostsTxCheck t b sig : keeps sreads (SetTransactionCostsTxCheck t b sig).
Proof. unfold SetTransactionCostsTxCheck. skeeps_auto. Qed.

Lemma sreads_AdminTxCheck t b sig : keeps sreads (AdminTxCheck t b sig).
Proof. unfold AdminTxCheck. skeeps_auto. Qed.

Lemma sreads_SetProcessTxCheck t b sig : keeps sreads (SetProcessTxCheck t b sig).
Proof. unfold SetProcessTxCheck. skeeps_auto. Qed.
End tx_checks_read.

#[export] Hint Resolve sreads_assign_processID sreads_MintTokensTxCheck sreads_SendTokensTxCheck
  sreads_SetAccountInfoTxCheck sreads_SetAccountDelegateTxCheck sreads_CollectFaucetTxCheck
  sreads_SetTransactionCostsTxCheck sreads_AdminTxCheck sreads_SetProcessTxCheck : keeps.

Section tx_checks_read2.
Context `{ArboLaws, Lru, Proto, ProofLibs}.

Lemma sreads_NewProcessTxCheck c t b sig : keeps sreads (NewProcessTxCheck c t b sig).
Proof. unfold NewProcessTxCheck. skeeps_auto. Qed.

Lemma sreads_RegisterKeyTxCheck t b sig : keeps sreads (RegisterKeyTxCheck t b sig false).
Proof. unfold RegisterKeyTxCheck, GetRollingCensusSize. skeeps_auto. Qed.
End tx_checks_read2.

#[export] Hint Resolve sreads_NewProcessTxCheck sreads_RegisterKeyTxCheck : keeps.

(** ** Checks *)

Section checks.
Context `{ArboLaws, LruLaws, Proto, ProofLibs}.

(** Only the handles of the open transaction and the vote cache may change. *)
Definition checks (s s' : State) : Prop :=
  s' = set_voteCache (voteCache s') (set_STx (STx s') s) /\ reads (STx s) (STx s').

#[export] Instance checks_preorder : PreOrder checks.
Proof.
  split.
  - intros []. by split.
  - intros s1 s2 s3 [-> R12] [-> R23]. split; [done|]. simpl in *. by etrans.
Qed.

Lemma sreads_checks {A} (m : GoM State A) : keeps sreads m -> keeps checks m.
Proof. apply keeps_impl. intros s s' [Ho Hr]. split; [|done]. destruct s, s'. by injection Ho as -> -> -> -> -> -> -> -> -> ->. Qed.

Lemma cache_only_checks {A} (m : GoM State A) :
  (forall s, (m s).1 = set_voteCache (voteCache (m s).1) s) -> keeps checks m.
Proof. intros Hm s. rewrite (Hm s). split; [by destruct s|]. simpl. by apply (reflexivity (R:=reads)). Qed.

Lemma checks_cache_Get k : keeps checks (cache_Get k).
Proof. apply cache_only_checks. intros s. unfold cache_Get. by destruct (lru_get _ k). Qed.

Lemma checks_cache_Add k v : keeps checks (cache_Add k v).
Proof. by apply cache_only_checks. Qed.

Lemma checks_cache_Remove k : keeps checks (cache_Remove k).
Proof. by apply cache_only_checks. Qed.
End checks.

#[export] Hint Resolve checks_cache_Get checks_cache_Add checks_cache_Remove : keeps.
#[export] Hint Extern 5 (keeps checks _) =>
  (apply sreads_checks; solve [eauto with keeps typeclass_instances]) : keeps.

Section vote_checks.
Context `{ArboLaws, LruLaws, Proto, ProofLibs}.

Lemma checks_CacheGet id : keeps checks (CacheGet id).
Proof. unfold CacheGet, unless_disabled, cacheDisabled. skeeps_auto. Qed.

Lemma checks_CacheAdd id v : keeps checks (CacheAdd id v).
Proof. unfold CacheAdd, unless_disabled, cacheDisabled. skeeps_auto. Qed.
End vote_checks.

#[export] Hint Resolve checks_CacheGet checks_CacheAdd : keeps.

Section vote_checks2.
Context `{ArboLaws, LruLaws, Proto, ProofLibs}.

Lemma checks_CacheGetCopy id : keeps checks (CacheGetCopy id).
Proof. unfold CacheGetCopy, unless_disabled, cacheDisabled. skeeps_auto. Qed.

Lemma checks_CacheDel id : keeps checks (CacheDel id).
Proof. unfold CacheDel, unless_disabled, cacheDisabled. skeeps_auto. Qed.

Lemma checks_anonymous vks p e ve h : keeps checks (check_anonymous_vote vks p e ve h).
Proof. unfold check_anonymous_vote. skeeps_auto. Qed.

Lemma checks_signed p e ve b sig h : keeps checks (check_signed_vote p e ve b sig h).
Proof. unfold check_signed_vote. skeeps_auto. Qed.

Lemma checks_cached id v h ok : keeps checks (cached_vote id v h ok).
Proof.
  unfold cached_vote. apply keeps_deferring; [apply _|intros s; apply checks_CacheDel|]. skeeps_auto.
Qed.
End vote_checks2.

#[export] Hint Resolve checks_CacheGetCopy checks_CacheDel checks_anonymous checks_signed
  checks_cached : keeps.

Section add_tx_check.
Context `{ArboLaws, LruLaws, Proto, ProofLibs}.

Lemma checks_VoteEnvelopeCheck vks ve b sig id c :
  keeps checks (VoteEnvelopeCheck vks ve b sig id c).
Proof. unfold VoteEnvelopeCheck. skeeps_auto. Qed.

(** A transaction that is not committed changes no content. *)
Lemma checks_AddTx ch vks vtx : keeps checks (AddTx ch vks vtx false).
Proof.
  unfold AddTx, AddTx_Vote, AddTx_Admin, AddTx_NewProcess, AddTx_SetProcess, AddTx_RegisterKey,
    AddTx_SetAccountInfo, AddTx_SetTransactionCosts, AddTx_MintTokens, AddTx_SendTokens,
    AddTx_SetAccountDelegate, AddTx_CollectFaucet, on_commit.
  skeeps_auto. apply checks_VoteEnvelopeCheck.
Qed.
End add_tx_check.

(** ** Delivered transactions *)

Lemma checks_spreserves `{ArboLaws, Lru, Proto} {A} (m : GoM State A) :
  keeps checks m -> keeps spreserves m.
Proof. apply keeps_impl. intros s s' [-> Hr]. split; [done|]. intros Hwf. by apply Hr. Qed.

#[export] Hint Extern 6 (keeps spreserves _) =>
  (apply checks_spreserves; solve [eauto with keeps typeclass_instances]) : keeps.

Section writes.
Context `{ArboLaws, LruLaws, Proto, ProofLibs}.

Lemma preserves_NoState_SetUint64 p k n : keeps preserves (NoState_SetUint64 p k n).
Proof. apply preserves_TU_NoState_Set. Qed.

Lemma preserves_NoState_GetUint64 p k : keeps preserves (NoState_GetUint64 p k).
Proof. unfold NoState_GetUint64. keeps_auto. apply reads_preserves, reads_TU_NoState_Get. Qed.

Lemma preserves_updateProcess_tx p pid : keeps preserves (updateProcess_tx p pid).
Proof.
  unfold updateProcess_tx. intros tx. apply kept_bind; [apply _| |].
  - apply reads_preserves, reads_SubTree_singleton.
  - intros q tx1 ->%SubTree_path. revert tx1.
    enough (Hk : keeps preserves _) by exact Hk. keeps_auto.
    + apply reads_preserves, reads_TU_Get.
    + by apply preserves_TU_Set.
Qed.

Lemma spreserves_updateProcess p pid : keeps spreserves (updateProcess p pid).
Proof. unfold updateProcess. skeeps_auto. apply spreserves_on_Tx, preserves_updateProcess_tx. Qed.
End writes.

#[export] Hint Resolve spreserves_updateProcess : keeps.

Section writes2.
Context `{ArboLaws, LruLaws, Proto, ProofLibs}.

Lemma spreserves_AddProcess p : keeps spreserves (AddProcess p).
Proof.
  unfold AddProcess, census_cfgs, nullifiers_cfgs, TxCounter. skeeps_auto. apply spreserves_on_Tx.
  keeps_auto; first [ apply preserves_DeepAdd; by constructor
                    | apply preserves_setProcessIDByStartBlock
                    | apply preserves_NoState_SetUint64
                    | apply reads_preserves, reads_DeepSubTree; by constructor ].
Qed.

Lemma spreserves_SetProcessStatus pid st c : keeps spreserves (SetProcessStatus pid st c).
Proof. unfold SetProcessStatus, TxCounter. skeeps_auto. Qed.

Lemma spreserves_SetProcessResults pid r c : keeps spreserves (SetProcessResults pid r c).
Proof. unfold SetProcessResults, TxCounter. skeeps_auto. Qed.

Lemma spreserves_SetProcessCensus pid r u c : keeps spreserves (SetProcessCensus pid r u c).
Proof. unfold SetProcessCensus. skeeps_auto. Qed.

Lemma spreserves_CancelProcess pid : keeps spreserves (CancelProcess pid).
Proof. unfold CancelProcess, TxCounter. skeeps_auto. Qed.

Lemma spreserves_AddProcessKeys tx : keeps spreserves (AddProcessKeys tx).
Proof. unfold AddProcessKeys, key_args, TxCounter. skeeps_auto. Qed.

Lemma spreserves_RevealProcessKeys tx : keeps spreserves (RevealProcessKeys tx).
Proof. unfold RevealProcessKeys, key_args, TxCounter. skeeps_auto. Qed.

Lemma spreserves_setUsedWeight pid a w : keeps spreserves (setPreRegisterAddrUsedWeight pid a w).
Proof. unfold setPreRegisterAddrUsedWeight, nullifiers_cfgs. skeeps_auto. Qed.

Lemma spreserves_AddToRollingCensus pid k w : keeps spreserves (AddToRollingCensus pid k w).
Proof.
  unfold AddToRollingCensus. skeeps_auto; apply spreserves_on_Tx; intros tx;
    (apply kept_bind; [apply _| |]); try (apply keeps_wrapping, reads_preserves, reads_DeepSubTree; by constructor);
    intros q tx1 Hq%wrapping_Ok; (apply DeepSubTree_path in Hq as ->; [|by constructor]); revert tx1;
    (enough (Hk : keeps preserves _) by exact Hk); keeps_auto;
    auto using preserves_NoState_GetUint64, preserves_NoState_SetUint64; by apply preserves_TU_Add.
Qed.
End writes2.

#[export] Hint Resolve spreserves_AddProcess spreserves_SetProcessStatus spreserves_SetProcessResults
  spreserves_SetProcessCensus spreserves_CancelProcess spreserves_AddProcessKeys
  spreserves_RevealProcessKeys spreserves_setUsedWeight spreserves_AddToRollingCensus : keeps.

Section writes3.
Context `{ArboLaws, LruLaws, Proto, ProofLibs}.

Lemma spreserves_RegisterKeyTxCheck t b sig c : keeps spreserves (RegisterKeyTxCheck t b sig c).
Proof. unfold RegisterKeyTxCheck, GetRollingCensusSize. skeeps_auto. Qed.

Lemma spreserves_VoteEnvelopeCheck vks ve b sig id c :
  keeps spreserves (VoteEnvelopeCheck vks ve b sig id c).
Proof. apply checks_spreserves, checks_VoteEnvelopeCheck. Qed.
End writes3.

#[export] Hint Resolve spreserves_RegisterKeyTxCheck spreserves_VoteEnvelopeCheck : keeps.

Section add_tx_writes.
Context `{ArboLaws, LruLaws, Proto, ProofLibs}.

(** Whatever the transaction and its outcome, the state stays well formed. *)
Lemma spreserves_AddTx ch vks vtx c : keeps spreserves (AddTx ch vks vtx c).
Proof.
  unfold AddTx, AddTx_Vote, AddTx_Admin, AddTx_NewProcess, AddTx_SetProcess, AddTx_RegisterKey,
    AddTx_SetAccountInfo, AddTx_SetTransactionCosts, AddTx_MintTokens, AddTx_SendTokens,
    AddTx_SetAccountDelegate, AddTx_CollectFaucet, on_commit.
  skeeps_auto.
Qed.
End add_tx_writes.
