(* ===== verification/KeyKeeperRuns.v ===== *)
(** * Runs of the key keeper

    [Commit] stores the schedule of the block; then the steps of a keeper, in any order: the calls
    of the state, changes of the chain, commits and the tasks that commits have started. *)

From stdpp Require Import base option list strings gmap pretty.
From Stdlib Require Import ZArith Lia.
From S2P Require Import Prelude GoMonad GoLib GoText Database Sha256 Models External Nacl Ethereum SignKeys.
From S2P Require Import Tree StateDB StateTrees State StateFacts Account AccountFacts Process ProcessFacts ProcessTx App.
From S2P Require Import TxFacts KeyKeeper KeyKeeperFacts.

Section runs.
Context `{ArboLaws, Lru, ProtoLaws, EthCryptoLaws, !ProofLibs, !EthSign, !EthSignLaws}.
Context `{!StoredKeysCodec, !KeeperEnv, !KeeperLaws}.
Context {D T : Type} {ops : Database D T} {view : DatabaseView D T} {laws : DatabaseLaws D T}.
Context {conflict : ConflictLaws D T}.
Notation keeper := (KeyKeeper (D := D)).
Notation kstate k := (AppState (kk_vochain k)).

(** ** Commit *)

(** The processes of the pool that are scheduled for [h]. *)
Definition pool_at (pool : list (bytes * Z)) (h : Z) : list bytes := (filter (fun x => x.2 = h) pool).*1.

Lemma schedule_fold (l : list (bytes * Z)) f h : fold_left schedule_at l f h = f h ++ pool_at l h.
Proof.
  revert f. induction l as [|x l IH]; intros f; [by rewrite app_nil_r|]. cbn [fold_left]. rewrite IH.
  unfold pool_at, schedule_at. rewrite filter_cons. destruct (decide (h = x.2)) as [->|Hne].
  - by rewrite decide_True, <- app_assoc by done.
  - by rewrite decide_False by done.
Qed.

Lemma schedule_loop (l : list (bytes * Z)) d t f m :
  roomy (D := D) (T := T) -> sees d t f m ->
  exists t' m', mfor l (schedule_one d) t = (t', Ok tt) /\ sees d t' (fold_left schedule_at l f) m'.
Proof.
  intros Hroom. revert t f m. induction l as [|x l IH]; intros t f m Hs; [by exists t, m|].
  destruct (schedule_one_run d x t f m Hroom Hs) as (t1 & m1 & Hr & Hs1).
  destruct (IH _ _ _ Hs1) as (t' & m' & Hr' & Hs'). exists t', m'. split; [|done].
  cbn [mfor]. by erewrite bind_run_Ok by exact Hr.
Qed.

Lemma sees_new d : readable (T := T) d -> sees d (db_WriteTx d) (scheduled (T := T) d) (contents (T := T) d).
Proof.
  intros Hread. split; [apply tx_view_new| |done]. intros h. unfold view_scheduled, scheduled.
  destruct (contents (T := T) d (block_key h)) as [data|] eqn:Hd; [|done].
  destruct (Hread h data Hd) as [pids Hu]. by rewrite Hu.
Qed.

(** The schedule of each block is extended with the processes of the pool. *)
Lemma scheduleRevealKeys_run (k : keeper) :
  roomy (D := D) (T := T) -> readable (T := T) (kk_storage k) ->
  exists d', scheduleRevealKeys k = (set_storage d' k, Ok tt) /\ readable (T := T) d' /\
    (forall h, scheduled (T := T) d' h =
               scheduled (T := T) (kk_storage k) h ++ pool_at (range (default ∅ (kk_blockPool k))) h) /\
    (forall x, (forall h, x <> block_key h) -> contents (T := T) d' x = contents (T := T) (kk_storage k) x).
Proof.
  intros Hroom Hread. set (l := range (default ∅ (kk_blockPool k))).
  destruct (schedule_loop l _ _ _ _ Hroom (sees_new _ Hread)) as (t & m & Hr & [Hv Hb Ho]).
  destruct (tx_view_commit _ _ _ Hv) as (d' & Hc & Hd). exists d'. split_and!.
  - unfold scheduleRevealKeys. erewrite bind_run_Ok by reflexivity. erewrite bind_run_Ok by reflexivity.
    erewrite bind_run_Ok by (apply on_tx_of_run; [exact Hr|done]).
    eapply logged_run with (o := Ok tt); [|done]. unfold commit_tx. cbn [fst]. by rewrite Hc.
  - intros h data Hdata. specialize (Hb h). unfold view_scheduled in Hb. rewrite <- Hd, Hdata in Hb.
    destruct (unmarshal (A := StoredKeys) data); [eauto|done].
  - intros h. rewrite <- schedule_fold. specialize (Hb h). unfold view_scheduled in Hb. rewrite <- Hd in Hb.
    unfold scheduled at 1. destruct (contents d' (block_key h)); [|by injection Hb].
    destruct (unmarshal _); [|done]. by injection Hb.
  - intros x Hx. rewrite Hd. by apply Ho.
Qed.

(** ** Events *)

(** An event leaves the storage. *)
Record undisturbed (k k' : keeper) : Prop := {
  un_storage : kk_storage k' = kk_storage k;
  un_signer : kk_signer k' = kk_signer k;
  un_index : kk_myIndex k' = kk_myIndex k;
  un_sent : kk_sent k' = kk_sent k;
  un_chain : app_chainID (kk_vochain k') = app_chainID (kk_vochain k);
  un_state : sreads (kstate k) (kstate k')
}.

#[local] Instance undisturbed_preorder : PreOrder undisturbed.
Proof.
  split; [intros k; by split|]. intros k1 k2 k3 [] []. split; try congruence. by etrans.
Qed.

Lemma undisturbed_on_vochain {A} (m : GoM State A) : keeps sreads m -> keeps undisturbed (on_vochain m).
Proof.
  intros Hm k. specialize (Hm (kstate k)). unfold on_vochain, on_State, zoom.
  destruct (m (kstate k)) as [s r]. by split.
Qed.

Lemma undisturbed_process pid : keeps undisturbed (on_vochain (State_Process pid false)).
Proof. apply undisturbed_on_vochain, sreads_State_Process. Qed.

Lemma undisturbed_height : keeps undisturbed (on_vochain CurrentHeight).
Proof. apply undisturbed_on_vochain. apply keeps_gets, _. Qed.

Lemma undisturbed_keyPool x : keeps undisturbed (modify (set_keyPool x)).
Proof. intros k. by split. Qed.

Lemma undisturbed_blockPool x : keeps undisturbed (modify (set_blockPool x)).
Proof. intros k. by split. Qed.

Hint Resolve undisturbed_process undisturbed_height undisturbed_keyPool undisturbed_blockPool : keeps.

Lemma undisturbed_get : keeps undisturbed get.
Proof. intros k. by split. Qed.
Hint Resolve undisturbed_get : keeps.

Lemma handle_undisturbed e : keeps undisturbed (handle e).
Proof.
  destruct e; cbn [handle]; try apply keeps_ret, _;
    unfold KK_OnProcess, KK_OnProcessStatusChange, KK_OnCancel, schedule_if, schedule_next, with_process; try keeps_auto.
  intros k. by split.
Qed.

(** ** Steps *)

Inductive label := LEvent (e : Event) | LChain (app : BaseApplication) | LCommit (h : Z) | LTask (t : task).

(** A configuration is a keeper with the goroutines that have not run yet. *)
Inductive kstep : label -> keeper * list task -> keeper * list task -> Prop :=
| step_event e k k' ts : handle e k = (k', Ok tt) -> kstep (LEvent e) (k, ts) (k', ts)
| step_chain app k ts :
    wf (AppState app) -> app_chainID app = app_chainID (kk_vochain k) ->
    kstep (LChain app) (k, ts) (set_vochain app k, ts)
| step_commit h k k' new ts : KK_Commit h k = (k', Ok new) -> kstep (LCommit h) (k, ts) (k', ts ++ new)
| step_task t k k' ts1 ts2 : run_keeper_task t k = (k', Ok tt) -> kstep (LTask t) (k, ts1 ++ t :: ts2) (k', ts1 ++ ts2).

Inductive ksteps : list label -> keeper * list task -> keeper * list task -> Prop :=
| ksteps_nil c : ksteps [] c c
| ksteps_cons l ls c c1 c2 : kstep l c c1 -> ksteps ls c1 c2 -> ksteps (l :: ls) c c2.

(** A keeper with a key, on a chain that is well formed, with a storage it can read. *)
Record sound (key : ecdsa_priv) (k : keeper) : Prop := {
  so_keyed : keyed (kk_signer k) key;
  so_wf : wf (kstate k);
  so_readable : readable (T := T) (kk_storage k)
}.

Lemma scheduled_same d d' h :
  contents (T := T) d' (block_key h) = contents (T := T) d (block_key h) -> scheduled (T := T) d' h = scheduled (T := T) d h.
Proof. intros E. unfold scheduled. by rewrite E. Qed.

Lemma readable_kept P (k k' : keeper) :
  readable (T := T) (kk_storage k) -> kept_at P k k' ->
  (forall h, P (block_key h) -> contents (T := T) (kk_storage k') (block_key h) = None \/
             contents (T := T) (kk_storage k') (block_key h) = contents (T := T) (kk_storage k) (block_key h)) ->
  (forall h, P (block_key h) \/ ~ P (block_key h)) ->
  readable (T := T) (kk_storage k').
Proof.
  intros Hread Hk HP Hdec h data Hd. destruct (Hdec h) as [Hp | Hp].
  - destruct (HP h Hp) as [Hn | Hs]; [congruence|]. apply (Hread h). by rewrite <- Hs.
  - apply (Hread h). by rewrite <- (proj1 (kp_storage _ _ _ Hk) _ Hp).
Qed.

Lemma task_keys_block h h' : task_keys h (block_key h') <-> h' = h.
Proof.
  split; [|by intros ->; right]. intros [Hp | E]; [by apply block_key_not_process in Hp|by apply block_key_inj].
Qed.

(** What a task does to the storage of a sound keeper. *)
Lemma task_sound t key (k : keeper) :
  sound key k -> sound key (run_keeper_task t k).1 /\
  forall e, t <> CheckReveal e -> scheduled (T := T) (kk_storage (run_keeper_task t k).1) e = scheduled (T := T) (kk_storage k) e.
Proof.
  intros [Hk Hwf Hread]. destruct t as [h|]; cbn [run_keeper_task].
  - pose proof (checkRevealProcess_kept h k key Hk Hwf) as Hkept.
    pose proof (checkRevealProcess_block h k key Hk Hwf) as Hblock.
    destruct (checkRevealProcess h k) as [k' o]. cbn in *. split; [split|].
    + by rewrite (kp_signer _ _ _ Hkept).
    + by eapply kept_wf.
    + eapply readable_kept; [exact Hread|exact Hkept| |].
      * intros h' ->%task_keys_block. done.
      * intros h'. rewrite task_keys_block. destruct (decide (h' = h)); auto.
    + intros e Hne. apply scheduled_same, (proj1 (kp_storage _ _ _ Hkept)). rewrite task_keys_block. congruence.
  - pose proof (publishPendingKeys_kept k key Hk) as Hkept.
    destruct (publishPendingKeys k) as [k' o]. cbn in *. split; [split|].
    + by rewrite (kp_signer _ _ _ Hkept).
    + by eapply kept_wf.
    + eapply readable_kept; [exact Hread|exact Hkept| |].
      * by intros h' ?%block_key_not_process.
      * right. apply block_key_not_process.
    + intros e _. apply scheduled_same, (proj1 (kp_storage _ _ _ Hkept)), block_key_not_process.
Qed.

Context (room : roomy (D := D) (T := T)).

Lemma KK_Commit_run h (k : keeper) :
  readable (T := T) (kk_storage k) ->
  exists d', KK_Commit h k = (set_storage d' k, Ok [CheckReveal h; PublishPending]) /\ readable (T := T) d' /\
    forall h, scheduled (T := T) d' h =
              scheduled (T := T) (kk_storage k) h ++ pool_at (range (default ∅ (kk_blockPool k))) h.
Proof.
  intros Hread. destruct (scheduleRevealKeys_run k room Hread) as (d' & Hr & Hread' & Hs & _). exists d'.
  split_and!; [|done|done]. unfold KK_Commit. by erewrite bind_run_Ok by exact Hr.
Qed.

(** A step keeps a keeper sound, and a process stays in the schedule of a block until the check of
    that block runs. *)
Lemma kstep_sound l c c' key :
  kstep l c c' -> sound key c.1 ->
  sound key c'.1 /\
  forall e pid, l <> LTask (CheckReveal e) -> pid ∈ scheduled (T := T) (kk_storage c.1) e ->
                pid ∈ scheduled (T := T) (kk_storage c'.1) e.
Proof.
  intros Hstep Hs. destruct Hstep as [e k k' ts Hr|app k ts Hwf Hchain|h k k' new ts Hr|t k k' ts1 ts2 Hr]; cbn in *.
  - pose proof (handle_undisturbed e k) as Hu. rewrite Hr in Hu. destruct Hu as [Hst Hsg _ _ _ Hrd].
    destruct Hs as [Hk Hwf Hread]. cbn in *. split; [split; [by rewrite Hsg|by apply (sreads_use _ _ Hrd)|by rewrite Hst]|].
    intros e' pid _. by rewrite Hst.
  - destruct Hs as [Hk _ Hread]. split; [by split|done].
  - destruct Hs as [Hk Hwf Hread]. destruct (KK_Commit_run h k Hread) as (d' & Hr' & Hread' & Hsch).
    rewrite Hr in Hr'. injection Hr' as -> ->. split; [by split|]. intros e pid _ Hp. cbn. rewrite Hsch.
    apply elem_of_app. by left.
  - destruct (task_sound t key k Hs) as [Hs' Hsch]. rewrite Hr in Hs', Hsch. split; [done|].
    intros e pid Hne Hp. cbn in *. rewrite Hsch by congruence. done.
Qed.

Lemma ksteps_sound ls c c' key :
  ksteps ls c c' -> sound key c.1 ->
  sound key c'.1 /\
  forall e pid, LTask (CheckReveal e) ∉ ls -> pid ∈ scheduled (T := T) (kk_storage c.1) e ->
                pid ∈ scheduled (T := T) (kk_storage c'.1) e.
Proof.
  induction 1 as [c|l ls c c1 c2 Hl Hls IH]; intros Hs; [by split|].
  destruct (kstep_sound _ _ _ _ Hl Hs) as [Hs1 Hp1]. destruct (IH Hs1) as [Hs2 Hp2]. split; [done|].
  intros e pid Hnot Hp. apply not_elem_of_cons in Hnot as [Hne Hnot]. by apply Hp2, Hp1.
Qed.

(** A step keeps the key and the index of the keeper, and the chain. *)
Lemma kstep_identity l c c' key :
  kstep l c c' -> sound key c.1 ->
  kk_signer c'.1 = kk_signer c.1 /\ kk_myIndex c'.1 = kk_myIndex c.1 /\
  app_chainID (kk_vochain c'.1) = app_chainID (kk_vochain c.1).
Proof.
  intros Hstep Hs. destruct Hstep as [e k k' ts Hr|app k ts Hwf Hchain|h k k' new ts Hr|t k k' ts1 ts2 Hr]; cbn in *.
  - pose proof (handle_undisturbed e k) as Hu. rewrite Hr in Hu. by destruct Hu.
  - done.
  - destruct (KK_Commit_run h k (so_readable _ _ Hs)) as (d' & Hr' & _). rewrite Hr in Hr'. by injection Hr' as -> ->.
  - destruct Hs as [Hk Hwf Hread]. destruct t as [h|]; cbn [run_keeper_task] in Hr.
    + pose proof (checkRevealProcess_kept h k key Hk Hwf) as Hkept. rewrite Hr in Hkept. by destruct Hkept.
    + pose proof (publishPendingKeys_kept k key Hk) as Hkept. rewrite Hr in Hkept. by destruct Hkept.
Qed.

Lemma ksteps_identity ls c c' key :
  ksteps ls c c' -> sound key c.1 ->
  kk_signer c'.1 = kk_signer c.1 /\ kk_myIndex c'.1 = kk_myIndex c.1 /\
  app_chainID (kk_vochain c'.1) = app_chainID (kk_vochain c.1).
Proof.
  induction 1 as [c|l ls c c1 c2 Hl Hls IH]; intros Hs; [done|].
  destruct (kstep_sound _ _ _ _ Hl Hs) as [Hs1 _]. destruct (kstep_identity _ _ _ _ Hl Hs) as (Hg & Hi & Hc).
  destruct (IH Hs1) as (Hg' & Hi' & Hc'). split_and!; congruence.
Qed.

Lemma publish_empty (k : keeper) : kk_keyPool k = Some ∅ -> publishPendingKeys k = (k, Ok tt).
Proof.
  intros Hp. unfold publishPendingKeys. erewrite bind_run_Ok by reflexivity. rewrite Hp. cbn [default id].
  pose proof (range_spec (A := option processKeys) ∅) as Hr. rewrite map_to_list_empty in Hr.
  apply Permutation_nil_r in Hr. by rewrite Hr.
Qed.

Lemma pool_at_elem (pool : gmap bytes Z) pid h : pool !! pid = Some h -> pid ∈ pool_at (range pool) h.
Proof.
  intros Hp. unfold pool_at. apply list_elem_of_fmap. exists (pid, h). split; [done|].
  apply list_elem_of_filter. split; [done|]. by rewrite range_spec, elem_of_map_to_list.
Qed.

(** From the commit of a block whose pool schedules [pid] for [e] to the check of block [e]. *)
Lemma reveal_follows key (k : keeper) ts h pool pid e ls k1 ts1 :
  sound key k -> kk_blockPool k = Some pool -> pool !! pid = Some e ->
  ksteps (LCommit h :: ls) (k, ts) (k1, ts1) -> LTask (CheckReveal e) ∉ ls ->
  judge (kstate k1) (kk_myIndex k1) pid = VReveal ->
  Forall (fun q => judge (kstate k1) (kk_myIndex k1) q = VReveal \/ judge (kstate k1) (kk_myIndex k1) q = VSkip)
    (scheduled (T := T) (kk_storage k1) e) ->
  exists k2 b, run_keeper_task (CheckReveal e) k1 = (k2, Ok tt) /\ b ∈ kk_sent k2 /\ reveals k pid b.
Proof.
  intros Hs Hpool Hpid Hsteps Hnot Hj Hall. inversion Hsteps as [|l ls' c c1 c2 Hc Hls]; subst.
  destruct (kstep_sound _ _ _ _ Hc Hs) as [Hs1 _]. destruct (kstep_identity _ _ _ _ Hc Hs) as (Hg & Hi & Hch).
  destruct (ksteps_sound _ _ _ _ Hls Hs1) as [[Hk1 Hwf1 Hread1] Hp1].
  destruct (ksteps_identity _ _ _ _ Hls Hs1) as (Hg1 & Hi1 & Hch1).
  assert (Hin : pid ∈ scheduled (T := T) (kk_storage k1) e).
  { apply Hp1; [done|]. inversion Hc as [| |h' k0 k0' new ts0 Hr|]; subst. cbn.
    destruct (KK_Commit_run h k (so_readable _ _ Hs)) as (d' & Hr' & _ & Hsch). rewrite Hr in Hr'.
    injection Hr' as -> ->. cbn. rewrite Hsch, Hpool. apply elem_of_app. right. by apply pool_at_elem. }
  destruct (checkRevealProcess_run e k1 key Hk1 Hwf1 Hread1 Hall) as (k2 & bs & Hr & _ & Hsent & _ & Hbs).
  assert (Hf : pid ∈ filter (fun q => judge (kstate k1) (kk_myIndex k1) q = VReveal) (scheduled (T := T) (kk_storage k1) e))
    by (by apply list_elem_of_filter).
  apply list_elem_of_lookup in Hf as [i Hf]. destruct (Forall2_lookup_l _ _ _ _ _ Hbs Hf) as (b & Hb & Hrev).
  exists k2, b. split_and!; [done|rewrite Hsent; apply elem_of_app; right; by eapply list_elem_of_lookup_2|].
  destruct Hrev as (pk & n & Hgen & Hkp & Hix & Hsd). exists pk, n. cbn in *. split_and!; try done.
  - rewrite <- Hgen. unfold generateKeys. by rewrite Hg1, Hi1, Hg, Hi.
  - congruence.
  - unfold sends in *. rewrite Hg1, Hg, Hch1, Hch in Hsd. done.
Qed.
End runs.
