(* ===== verification/Vocone.v ===== *)
(** * A chain with one node

    [src/vocone/vocone.go]: a node that makes blocks by itself from a queue of transactions.  The
    queue is the package goconcurrentqueue, the class [Fifo]; the store of the blocks is a
    database of [Database.v].  A round of the loop of [Start] is [produce_block], with the times it
    reads as arguments.  The HTTP API, the printing of statistics and the waiting are left out. *)

From stdpp Require Import base option list strings gmap pretty.
From Stdlib Require Import ZArith.
From S2P Require Import Prelude GoMonad GoLib Database Sha256 Models External Ethereum SignKeys.
From S2P Require Import Tree StateDB StateTrees State Account App.

Definition DefaultTxsPerBlock : Z := 500.
Definition mempoolSize : Z := Z.shiftl 100 10.

(** A queue of limited size. *)
Class Fifo := {
  fifo : Type;
  NewFixedFIFO : Z -> fifo;
  fifo_Enqueue : bytes -> fifo -> error + fifo;
  fifo_Dequeue : fifo -> error + bytes * fifo;
  fifo_GetLen : fifo -> Z
}.

(** Items come out in the order in which they were put in; it is an error to put one into a full
    queue and to take one from an empty queue. *)
Class FifoLaws `{Fifo} := {
  items : fifo -> list bytes;
  capacity : fifo -> Z;
  items_new n : items (NewFixedFIFO n) = [] /\ capacity (NewFixedFIFO n) = n;
  Enqueue_spec x q :
    (Z.of_nat (List.length (items q)) < capacity q /\
     exists q', fifo_Enqueue x q = inr q' /\ items q' = items q ++ [x] /\ capacity q' = capacity q) \/
    (capacity q <= Z.of_nat (List.length (items q)) /\ exists e, fifo_Enqueue x q = inl e);
  Dequeue_spec q :
    match items q with
    | [] => exists e, fifo_Dequeue q = inl e
    | x :: l => exists q', fifo_Dequeue q = inr (x, q') /\ items q' = l /\ capacity q' = capacity q
    end;
  GetLen_spec q : fifo_GetLen q = Z.of_nat (List.length (items q))
}.

Section vocone.
Context `{Arbo, Lru, Proto, EthCrypto, !ProofLibs, !EthSign, !Fifo}.
Context {D T : Type} `{Database D T}.

Record Vocone := mkVocone {
  vc_app : BaseApplication;
  vc_mempool : fifo;
  vc_blockStore : D;
  vc_height : Z;
  vc_txsPerBlock : Z
}.

Definition set_vc_app x v := mkVocone x (vc_mempool v) (vc_blockStore v) (vc_height v) (vc_txsPerBlock v).
Definition set_vc_mempool x v := mkVocone (vc_app v) x (vc_blockStore v) (vc_height v) (vc_txsPerBlock v).
Definition set_vc_blockStore x v := mkVocone (vc_app v) (vc_mempool v) x (vc_height v) (vc_txsPerBlock v).
Definition set_vc_height x v := mkVocone (vc_app v) (vc_mempool v) (vc_blockStore v) x (vc_txsPerBlock v).

#[local] Notation V := (GoM Vocone).

(** [tm_Hash] is the hash tendermint gives to a transaction. *)
Context (tm_Hash : bytes -> bytes).

Definition on_app {A} (m : GoM BaseApplication A) : V A := zoom vc_app set_vc_app m.
Definition on_vc_state {A} (m : GoM State A) : V A := on_app (on_State m).

(** ** Transactions *)

Record ResultBroadcastTx := mkResultBroadcastTx { RB_Code : Z; RB_Data : bytes; RB_Hash : bytes }.

Definition tx_data (r : TxResult) (message : error -> bytes) : bytes :=
  match r with Accepted data _ _ => data | Rejected e => message e end.

(** [message] is the text of an error. *)
Definition addTx (message : error -> bytes) (tx : bytes) : V ResultBroadcastTx :=
  resp ← on_app (CheckTx false tx);
  (if Code resp =? 0 then
     v ← get;
     match fifo_Enqueue tx (vc_mempool v) with
     | inl _ => throw (Errorf "mempool is full")
     | inr q => modify (set_vc_mempool q)
     end
   else mret tt);;
  mret (mkResultBroadcastTx (Code resp) (tx_data resp message) (HashRaw tx)).

Definition block_tx_key (height i : Z) : bytes := pretty height +:+ "_" +:+ pretty i.

(** The loop of [commitBlock].  Each round takes a transaction from the queue; [fuel] is more than
    the length of the queue.  [addTx] takes no lock and may run in another goroutine meanwhile;
    only the orders in which it runs before or after the whole block are modelled. *)
Fixpoint commit_loop (fuel : nat) (txCount : Z) (blockStoreTx : T) : V (Z * T) :=
  match fuel with
  | O => panic "the queue has more transactions than its length"
  | S fuel' =>
      v ← get;
      if txCount <? vc_txsPerBlock v then
        match fifo_Dequeue (vc_mempool v) with
        | inl _ => mret (txCount, blockStoreTx)
        | inr (tx, q) =>
            modify (set_vc_mempool q);;
            resp ← on_app (DeliverTx tm_Hash tx);
            if Code resp =? 0 then
              match tx_Set (block_tx_key (vc_height v) txCount) tx blockStoreTx with
              | (_, Panic w) => panic w
              | (blockStoreTx, _) => commit_loop fuel' (txCount + 1) blockStoreTx
              end
            else commit_loop fuel' txCount blockStoreTx
        end
      else mret (txCount, blockStoreTx)
  end.

Definition commitBlock : V unit :=
  v ← get;
  let blockStoreTx := db_WriteTx (vc_blockStore v) in
  a ← commit_loop (S (Z.to_nat (fifo_GetLen (vc_mempool v)))) 0 blockStoreTx;
  let '(txCount, blockStoreTx) := a in
  if 0 <? txCount then
    logged (fun v => let '(d, r) := tx_Commit blockStoreTx (vc_blockStore v) in (set_vc_blockStore d v, r))
  else mret tt.

(** A round of the loop of [Start]. *)
Definition produce_block (begin_time end_time : Z) : V bytes :=
  height ← gets vc_height;
  on_app (BeginBlock begin_time height);;
  commitBlock;;
  comres ← on_app App_Commit;
  on_app (EndBlock height end_time);;
  modify (fun v => set_vc_height (i64 (vc_height v + 1)) v);;
  mret comres.

(** ** The block store *)

Definition store_Get (key : bytes) : V bytes :=
  v ← get; lift (tx_Get key (vc_blockStore v) (db_WriteTx (vc_blockStore v))).2.

Definition getTx (height txIndex : Z) : V SignedTx :=
  tx ← store_Get (block_tx_key height txIndex); Unmarshal tx.

Definition getTxWithHash (height txIndex : Z) : V (SignedTx * bytes) :=
  tx ← store_Get (block_tx_key height txIndex);
  stx ← Unmarshal tx;
  mret (stx, HashRaw tx).

(** [fuel] bounds the number of transactions of a block. *)
Fixpoint getBlock_loop (fuel : nat) (height i : Z) : V (list bytes) :=
  match fuel with
  | O => panic "out of fuel"
  | S fuel' =>
      r ← catch (getTx height i);
      match r with
      | inl _ => mret []
      | inr tx =>
          rest ← getBlock_loop fuel' height (i32 (i + 1));
          mret match marshal tx with Some txb => txb :: rest | None => rest end
      end
  end.

(** ** Administration *)

Definition SetBlockSize (txsCount : Z) : V unit :=
  modify (fun v => mkVocone (vc_app v) (vc_mempool v) (vc_blockStore v) (vc_height v) txsCount).

(** The changes are committed at once. *)
Definition saved_change (m : GoM State unit) : V unit := on_vc_state (m;; Save);; mret tt.

(** The error of [State.AddOracle] is dropped. *)
Definition Vocone_AddOracle (oracleKey : SignKeys) : V unit :=
  oracleList ← on_vc_state (Oracles true);
  addr ← lift (SK_Address oracleKey);
  if bool_decide (addr ∈ oracleList) then mret tt
  else saved_change (catch (AddOracle addr);; mret tt).

Definition Vocone_CreateAccount (key : Address) (acc : Account) : V unit := saved_change (SetAccount key acc).
Definition Vocone_SetTreasurer (treasurer : Address) : V unit := saved_change (SetTreasurer treasurer 0).
Definition Vocone_MintTokens (to : Address) (amount : Z) : V unit :=
  saved_change (MintBalance to amount;; IncrementTreasurerNonce).
Definition Vocone_SetTxCost (txType : TxType) (cost : Z) : V unit :=
  saved_change (SetTxCost txType cost;; IncrementTreasurerNonce).

(** [types] are the keys of [TxTypeCostToStateKey], in the order of the loop. *)
Definition SetBulkTxCosts (types : list TxType) (txCosts : Z) : V unit :=
  saved_change (mfor types (fun k => SetTxCost k txCosts);; IncrementTreasurerNonce).

(** [NewVocone], up to the services that listen to the state, with the application, the queue and
    the block store that were opened. *)
Definition NewVocone (app : BaseApplication) (queue : fifo) (blockStore : D) (oracleKey : SignKeys) :
    outcome Vocone :=
  version ← StateDB_Version (Store (AppState app));
  let app := set_AppState (SetHeight (u32 version) (AppState app)) app in
  let vc := mkVocone app queue blockStore version DefaultTxsPerBlock in
  ((Vocone_AddOracle oracleKey;;
    addr ← lift (SK_Address oracleKey);
    on_vc_state (SetAccount addr (mkAccount 10000 0 "" [] 0));;
    on_vc_state (SetTxCost NEW_PROCESS 10);;
    on_vc_state (SetTxCost SET_PROCESS_RESULTS 10);;
    on_vc_state (SetTxCost SET_PROCESS_STATUS 10);;
    Vocone_CreateAccount BurnAddress (mkAccount 0 0 "" [] 0);;
    get) vc).2.
End vocone.
