(* ===== verification/Lifecycle.v ===== *)
(** * The life of a process under any transaction

    [quiet] and [squiet] say that the leaves of the process tree are left alone; every
    computation that does not write to that tree keeps them.  [pstep] is an abstract
    machine for one process, and [evolves] says that the processes of a state only make
    its steps.  The operations of [Process.v] and [AddTx] keep [evolves], whatever their
    outcome. *)

From stdpp Require Import base option list strings gmap relations.
From S2P Require Import Prelude GoMonad GoLib Sha256 Models External Ethereum Tree StateDB.
From S2P Require Import StateTrees State StateFacts Account AccountFacts ProcessID VoteCache.
From S2P Require Import Process ProcessFacts CensusProof Census AccountTx VoteTx ProcessTx.
From S2P Require Import Transaction TxFacts.

(** ** Writes outside the process tree *)

Section quiet.
Context `{ArboLaws, Proto}.

Definition quiet (tx tx' : TreeTx) : Prop :=
  wf_tx tx -> wf_tx tx' /\ view tx' TreeProcess = view tx TreeProcess.

#[export] Instance quiet_preorder : PreOrder quiet.
Proof.
  split; [by intros tx Hwf|]. intros t1 t2 t3 H12 H23 Hwf.
  destruct (H12 Hwf) as [Hwf2 <-]. by apply H23.
Qed.

Lemma reads_quiet {A} (m : GoM TreeTx A) : keeps reads m -> keeps quiet m.
Proof. apply keeps_impl. intros tx tx' Hr Hwf. destruct (Hr Hwf) as (? & Hv & _). auto. Qed.

Lemma preserves_quiet {A} (m : GoM TreeTx A) :
  (forall tx, view (m tx).1 TreeProcess = view tx TreeProcess) -> keeps preserves m -> keeps quiet m.
Proof. intros Hv Hp tx Hwf. split; [by apply Hp|apply Hv]. Qed.

(** The handle of another tree than the main one and the one of the processes. *)
Definition elsewhere (p : list string) : Prop := p <> [] /\ p <> [StateTree_KindID TreeProcess].

Lemma elsewhere_key p u : elsewhere p -> canonical p u -> tree_key (tu_prefix u) <> st_key TreeProcess.
Proof.
  intros [Hp Hp'] Hc. destruct (canonical_key p u Hc) as [[-> _]|[(t & -> & ->)|(x & -> & _ & Hk)]];
    [done| |apply Hk]. intros Heq%st_key_inj. by subst.
Qed.

Lemma quiet_store_tree p u t t' tx :
  elsewhere p -> tx_open tx !! p = Some u -> dirtyTree u = true ->
  db_trees (tx_db tx) !! tree_key (tu_prefix u) = Some t -> levels t' = levels t ->
  quiet tx (store_tree u t' tx).1.
Proof.
  intros Hp Hu Hd Ht Hlev Hwf. split; [by eapply preserves_store_tree; eauto; apply Hp|].
  destruct (wf_open tx Hwf _ _ Hu) as [Hc _]. unfold view. f_equal.
  change (store_tree u t' tx).1 with (put_tree (tree_key (tu_prefix u)) t' tx).
  rewrite stored_put, decide_False; [done|]. by eapply elsewhere_key.
Qed.

Lemma quiet_set_dirty p : keeps quiet (set_dirty p).
Proof. by apply preserves_quiet, preserves_set_dirty. Qed.

Lemma quiet_TU_Set p key value : elsewhere p -> keeps quiet (TU_Set p key value).
Proof.
  intros Hp tx. unfold TU_Set, TU_tree_Set.
  apply kept_bind; [apply _|apply quiet_set_dirty|]. intros [] tx1 ->%modify_Ok.
  apply kept_bind; [apply _|by apply reads_quiet, reads_node|]. intros u tx2 [-> Hu]%node_Ok.
  apply kept_bind; [apply _|by apply reads_quiet, reads_node_tree|]. intros t tx2 [-> Ht]%node_tree_Ok.
  apply kept_bind; [apply _|by apply keeps_lift, _|]. intros t' tx2 [-> Hset]%lift_Ok.
  apply tree_set_leaves in Hset as [_ Hlev]. eapply quiet_store_tree; eauto using with_dirty_dirty.
Qed.

Lemma quiet_TU_Add p key value : elsewhere p -> keeps quiet (TU_Add p key value).
Proof.
  intros Hp tx. unfold TU_Add.
  apply kept_bind; [apply _|apply quiet_set_dirty|]. intros [] tx1 ->%modify_Ok.
  apply kept_bind; [apply _|by apply reads_quiet, reads_node|]. intros u tx2 [-> Hu]%node_Ok.
  apply kept_bind; [apply _|by apply reads_quiet, reads_node_tree|]. intros t tx2 [-> Ht]%node_tree_Ok.
  apply kept_bind; [apply _|by apply keeps_lift, _|]. intros t' tx2 [-> Hadd]%lift_Ok.
  apply tree_add_leaves in Hadd as (_ & _ & Hlev). eapply quiet_store_tree; eauto using with_dirty_dirty.
Qed.

(** The configurations that lead elsewhere. *)
Inductive other_cfgs : list TreeConfig -> Prop :=
| other_st t : t <> TreeProcess -> other_cfgs [StateTreeCfg t]
| other_child c pid : in_use c = true -> other_cfgs [StateTreeCfg TreeProcess; WithKey (StateChildTreeCfg c) pid].

Lemma other_state_cfgs cfgs : other_cfgs cfgs -> state_cfgs cfgs.
Proof. intros [t Ht|c pid Huse]; by constructor. Qed.

Lemma other_elsewhere cfgs : other_cfgs cfgs -> elsewhere (prefix <$> cfgs).
Proof.
  intros [t Ht|c pid Huse]; (split; [done|]); [|done].
  intros [= Heq]. by apply Ht, kind_inj.
Qed.

Lemma quiet_DeepSet key value cfgs : other_cfgs cfgs -> keeps quiet (DeepSet [] key value cfgs).
Proof.
  intros Hc tx. unfold DeepSet.
  apply kept_bind; [apply _|by apply reads_quiet, reads_DeepSubTree, other_state_cfgs|].
  intros q tx1 ->%DeepSubTree_path; [|by apply other_state_cfgs]. by apply quiet_TU_Set, other_elsewhere.
Qed.

Lemma quiet_DeepAdd key value cfgs : other_cfgs cfgs -> keeps quiet (DeepAdd [] key value cfgs).
Proof.
  intros Hc tx. unfold DeepAdd.
  apply kept_bind; [apply _|by apply reads_quiet, reads_DeepSubTree, other_state_cfgs|].
  intros q tx1 ->%DeepSubTree_path; [|by apply other_state_cfgs]. by apply quiet_TU_Add, other_elsewhere.
Qed.

Lemma quiet_TU_NoState_Set p key value : keeps quiet (TU_NoState_Set p key value).
Proof.
  apply preserves_quiet; [|apply preserves_TU_NoState_Set]. intros tx. unfold TU_NoState_Set, node.
  go_run. by destruct (tx_open tx !! p).
Qed.

Lemma quiet_TU_NoState_Get p key : keeps quiet (TU_NoState_Get p key).
Proof. apply reads_quiet, reads_TU_NoState_Get. Qed.

Lemma quiet_voteCountInc : keeps quiet voteCountInc.
Proof.
  unfold voteCountInc. keeps_auto; [apply quiet_TU_NoState_Get|apply quiet_TU_NoState_Set].
Qed.

Lemma quiet_setProcessIDByStartBlock pid b : keeps quiet (setProcessIDByStartBlock pid b).
Proof.
  unfold setProcessIDByStartBlock. keeps_auto; [apply quiet_TU_NoState_Get|apply quiet_TU_NoState_Set].
Qed.
End quiet.

#[export] Hint Constructors other_cfgs : keeps.

(** ** Writes of one leaf of the process tree *)

Section leafy.
Context `{ArboLaws, Proto}.
Variable Q : option bytes -> bytes -> Prop.
Hypothesis Q_trans : forall o b c, Q o b -> Q (Some b) c -> Q o c.

(** At most the leaf [pid] was replaced, by one that [Q] allows. *)
Definition leafy (pid : bytes) (tx tx' : TreeTx) : Prop :=
  wf_tx tx -> wf_tx tx' /\
  (view tx' TreeProcess = view tx TreeProcess \/
   exists b, Q (view tx TreeProcess !! pid) b /\
     view tx' TreeProcess = <[pid := b]> (view tx TreeProcess)).

Lemma leafy_preorder pid : PreOrder (leafy pid).
Proof.
  split; [by intros tx Hwf; auto|]. intros t1 t2 t3 H12 H23 Hwf.
  destruct (H12 Hwf) as [Hwf2 V12]. destruct (H23 Hwf2) as [Hwf3 V23]. split; [done|].
  destruct V12 as [V12|(b & Qb & V12)], V23 as [V23|(c & Qc & V23)]; rewrite V12 in *.
  - by left.
  - right. by exists c.
  - right. by exists b.
  - right. exists c. rewrite V23, insert_insert_eq. rewrite lookup_insert_eq in Qc. eauto.
Qed.

Lemma quiet_leafy {A} pid (m : GoM TreeTx A) : keeps quiet m -> keeps (leafy pid) m.
Proof. apply keeps_impl. intros tx tx' Hq Hwf. destruct (Hq Hwf). auto. Qed.

(** A write of the leaf through the handle of the process tree. *)
Lemma leafy_write (write : arbo -> outcome arbo) pid b :
  (forall t t', write t = Ok t' ->
     leaves t' = <[pid := b]> (leaves t) /\ levels t' = levels t /\ Q (leaves t !! pid) b) ->
  let p := [StateTree_KindID TreeProcess] in
  keeps (leafy pid) (set_dirty p;; u ← node p; t ← node_tree u; t' ← lift (write t); store_tree u t').
Proof.
  intros Hw p tx. pose proof (leafy_preorder pid) as Hpre.
  apply kept_bind; [done|apply quiet_leafy, quiet_set_dirty|]. intros [] tx1 ->%modify_Ok.
  fold (with_dirty p tx).
  apply kept_bind; [done|by apply quiet_leafy, reads_quiet, reads_node|]. intros u tx2 [-> Hu]%node_Ok.
  apply kept_bind; [done|by apply quiet_leafy, reads_quiet, reads_node_tree|].
  intros t tx2 [-> Ht]%node_tree_Ok.
  apply kept_bind; [done|by apply keeps_lift|]. intros t' tx2 [-> (Hl & Hlev & HQ)%Hw]%lift_Ok.
  intros Hwf. split; [by eapply preserves_store_tree; eauto using with_dirty_dirty|]. right. exists b.
  destruct (wf_open _ Hwf _ _ Hu) as [Hpre'%canonical_st_inv _].
  assert (Hst : stored (with_dirty p tx) (st_key TreeProcess) = t).
  { rewrite Hpre', tree_key_st in Ht. unfold stored. by rewrite Ht. }
  change (store_tree u t' _).1 with (put_tree (tree_key (tu_prefix u)) t' (with_dirty p tx)).
  unfold view. rewrite Hst, stored_put, decide_True by (by rewrite Hpre', tree_key_st). auto.
Qed.

Lemma leafy_TU_Set pid b :
  (forall o, Q o b) -> keeps (leafy pid) (TU_Set [StateTree_KindID TreeProcess] pid b).
Proof.
  intros HQ. apply (leafy_write (fun t => tree_set t pid b) pid b).
  intros t t' [Hl Hlev]%tree_set_leaves. auto.
Qed.

Lemma leafy_DeepAdd pid b :
  Q None b -> keeps (leafy pid) (DeepAdd [] pid b [StateTreeCfg TreeProcess]).
Proof.
  intros HQ tx. unfold DeepAdd. pose proof (leafy_preorder pid) as Hpre.
  apply kept_bind; [done|apply quiet_leafy, reads_quiet, reads_DeepSubTree; by constructor|].
  intros q tx1 ->%DeepSubTree_path; [|constructor]. apply (leafy_write (fun t => tree_add t pid b) pid b).
  intros t t' (Hnone & Hl & Hlev)%tree_add_leaves. by rewrite Hnone.
Qed.
End leafy.

(** ** The state *)

Section squiet.
Context `{ArboLaws, Lru, Proto, EthCrypto}.

Definition squiet (s s' : State) : Prop :=
  currentHeight s' = currentHeight s /\ quiet (STx s) (STx s').

#[export] Instance squiet_preorder : PreOrder squiet.
Proof.
  split; [by intros s|]. intros s1 s2 s3 [Hh12 H12] [Hh23 H23].
  split; [by rewrite Hh23|by etrans].
Qed.

Lemma squiet_on_Tx {A} (m : GoM TreeTx A) : keeps quiet m -> keeps squiet (on_Tx m).
Proof.
  intros Hm s. specialize (Hm (STx s)). unfold on_Tx, zoom. by destruct (m (STx s)) as [tx r].
Qed.

Lemma checks_squiet {A} (m : GoM State A) : keeps checks m -> keeps squiet m.
Proof.
  apply keeps_impl. intros s s' [Hs Hr]. split; [by rewrite Hs|].
  intros Hwf. by destruct (Hr Hwf) as (? & Hv & _).
Qed.

Lemma squiet_notify ev : keeps squiet (notify ev).
Proof. by intros s. Qed.

Lemma squiet_DeepSet key value cfgs : other_cfgs cfgs -> keeps squiet (on_Tx (DeepSet [] key value cfgs)).
Proof. intros Hc. by apply squiet_on_Tx, quiet_DeepSet. Qed.
End squiet.

#[export] Hint Resolve squiet_notify squiet_DeepSet : keeps.
#[export] Hint Extern 6 (keeps squiet _) =>
  (apply checks_squiet; solve [eauto with keeps typeclass_instances]) : keeps.
#[export] Hint Extern 1 (_ <> TreeProcess) => discriminate : keeps.

Section squiet_ops.
Context `{ArboLaws, LruLaws, Proto, ProofLibs}.

Lemma squiet_AddOracle a : keeps squiet (AddOracle a).
Proof. unfold AddOracle. skeeps_auto. Qed.

Lemma squiet_RemoveOracle a : keeps squiet (RemoveOracle a).
Proof.
  unfold RemoveOracle. intros s. apply kept_bind; [apply _| |].
  - apply squiet_on_Tx, reads_quiet, reads_SubTree_singleton.
  - intros q s1 Hrun. apply zoom_run in Hrun as (tx & ->%SubTree_path & ->). generalize (set_STx tx s).
    enough (Hk : keeps squiet _) by exact Hk. keeps_auto; apply squiet_on_Tx; [apply reads_quiet, reads_TU_Get|].
    by apply quiet_TU_Set.
Qed.

Lemma squiet_SetTxCost t c : keeps squiet (SetTxCost t c).
Proof. unfold SetTxCost. skeeps_auto. Qed.

Lemma squiet_IncrementTreasurerNonce : keeps squiet IncrementTreasurerNonce.
Proof. unfold IncrementTreasurerNonce. skeeps_auto. Qed.

Lemma squiet_SetFaucetNonce k : keeps squiet (SetFaucetNonce k).
Proof. unfold SetFaucetNonce. skeeps_auto. Qed.

Lemma squiet_AddVote v id : keeps squiet (AddVote v id).
Proof.
  unfold AddVote, CurrentHeight, TxCounter, votes_cfgs. skeeps_auto. apply squiet_on_Tx. keeps_auto.
  - apply quiet_DeepAdd. by constructor.
  - apply quiet_voteCountInc.
Qed.

Lemma squiet_SetAccount a acc : keeps squiet (SetAccount a acc).
Proof. unfold SetAccount. skeeps_auto. Qed.

Lemma squiet_setUsedWeight pid a w : keeps squiet (setPreRegisterAddrUsedWeight pid a w).
Proof. unfold setPreRegisterAddrUsedWeight, nullifiers_cfgs. skeeps_auto. Qed.

Lemma squiet_AddToRollingCensus pid k w : keeps squiet (AddToRollingCensus pid k w).
Proof.
  unfold AddToRollingCensus. skeeps_auto; apply squiet_on_Tx; intros tx;
    (apply kept_bind; [apply _| |]); try (apply keeps_wrapping, reads_quiet, reads_DeepSubTree; by constructor);
    intros q tx1 Hq%wrapping_Ok; (apply DeepSubTree_path in Hq as ->; [|by constructor]); revert tx1;
    (enough (Hk : keeps quiet _) by exact Hk); unfold NoState_GetUint64, NoState_SetUint64; keeps_auto;
    auto using quiet_TU_NoState_Get, quiet_TU_NoState_Set; by apply quiet_TU_Add.
Qed.
End squiet_ops.

#[export] Hint Resolve squiet_AddOracle squiet_RemoveOracle squiet_SetTxCost
  squiet_IncrementTreasurerNonce squiet_SetFaucetNonce squiet_AddVote squiet_SetAccount
  squiet_setUsedWeight squiet_AddToRollingCensus : keeps.

Section squiet_accounts.
Context `{ArboLaws, LruLaws, Proto, ProofLibs}.

Lemma squiet_TransferBalance a b n : keeps squiet (TransferBalance a b n).
Proof. unfold TransferBalance. skeeps_auto. Qed.

Lemma squiet_MintBalance a n : keeps squiet (MintBalance a n).
Proof. unfold MintBalance. skeeps_auto. Qed.

Lemma squiet_SetAccountInfoURI a u : keeps squiet (SetAccountInfoURI a u).
Proof. unfold SetAccountInfoURI. skeeps_auto. Qed.

Lemma squiet_IncrementAccountProcessIndex a : keeps squiet (IncrementAccountProcessIndex a).
Proof. unfold IncrementAccountProcessIndex. skeeps_auto. Qed.

Lemma squiet_CreateAccount a u d b : keeps squiet (CreateAccount a u d b).
Proof. unfold CreateAccount. skeeps_auto. Qed.

Lemma squiet_ConsumeFaucetPayload a p t : keeps squiet (ConsumeFaucetPayload a p t).
Proof. unfold ConsumeFaucetPayload. skeeps_auto. Qed.

Lemma squiet_SubtractCostIncrementNonce a t : keeps squiet (SubtractCostIncrementNonce a t).
Proof. unfold SubtractCostIncrementNonce. skeeps_auto. Qed.

Lemma squiet_SetAccountDelegate a d t : keeps squiet (SetAccountDelegate a d t).
Proof. unfold SetAccountDelegate. skeeps_auto. Qed.

Lemma squiet_RegisterKeyTxCheck t b sig c : keeps squiet (RegisterKeyTxCheck t b sig c).
Proof. unfold RegisterKeyTxCheck, GetRollingCensusSize. skeeps_auto. Qed.

Lemma squiet_VoteEnvelopeCheck vks ve b sig id c : keeps squiet (VoteEnvelopeCheck vks ve b sig id c).
Proof. apply checks_squiet, checks_VoteEnvelopeCheck. Qed.
End squiet_accounts.

#[export] Hint Resolve squiet_TransferBalance squiet_MintBalance squiet_SetAccountInfoURI
  squiet_IncrementAccountProcessIndex squiet_CreateAccount squiet_ConsumeFaucetPayload
  squiet_SubtractCostIncrementNonce squiet_SetAccountDelegate squiet_RegisterKeyTxCheck
  squiet_VoteEnvelopeCheck : keeps.

(** ** The abstract process *)

Definition interrupt (p : Process) : bool :=
  match Mode p with Some m => Interruptible m | None => false end.

(** The steps of a process at height [h].  The status follows [transition], but for
    [pstep_early]: [SetProcessStatus] lets a process that is still alive go to
    [RESULTS]. *)
Inductive pstep (h : Z) (p : Process) : Process -> Prop :=
| pstep_status st :
    transition (interrupt p) (h <=? end_block p) (Status p) st -> pstep h p (with_Status st p)
| pstep_early :
    Status p = READY -> h < end_block p -> pstep h p (with_Status RESULTS p)
| pstep_results l :
    Status p = ENDED \/ Status p = RESULTS \/ Status p = READY /\ end_block p <= h ->
    pstep h p (with_Status RESULTS (with_Results l p))
| pstep_census m root uri :
    Mode p = Some m -> DynamicCensus m = true -> Status p = READY \/ Status p = PAUSED ->
    root <> CensusRoot p ->
    pstep h p (with_CensusURI (Some uri) (with_CensusRoot root p))
| pstep_add_key k i : pstep h p (with_KeyIndex i (with_EncryptionPublicKeys k p))
| pstep_reveal_key k i : pstep h p (with_KeyIndex i (with_EncryptionPrivateKeys k p)).

Lemma check_transition_step p st h :
  check_transition p st h = Ok tt -> pstep h p (with_Status st p).
Proof.
  intros Hc. destruct (decide (st = RESULTS)) as [->|Hst].
  - unfold check_transition in Hc. destruct (Status p) eqn:Hp; simpl in Hc; try done.
    + destruct (Z.leb_spec (end_block p) h); [done|]. by apply pstep_early.
    + apply pstep_status. rewrite Hp. constructor.
  - apply pstep_status. unfold interrupt. destruct (Mode p) as [m|] eqn:Hm.
    + by apply (check_transition_spec p m st h).
    + unfold check_transition, interruptible in Hc. rewrite Hm in Hc.
      destruct st, (Status p); simpl in Hc; try discriminate Hc; try done; constructor.
Qed.

(** What no step changes. *)
Definition identity (p : Process) :=
  (ProcessId p, EntityId p, StartBlock p, BlockCount p, Mode p, P_EnvelopeType p, VoteOptions p,
   CensusOrigin p, MaxCensusSize p, Namespace p, Metadata p, SourceNetworkId p).

Lemma pstep_identity h p p' : pstep h p p' -> identity p' = identity p.
Proof. by intros []. Qed.

Lemma rtc_identity h p p' : rtc (pstep h) p p' -> identity p' = identity p.
Proof. induction 1 as [|p p1 p' H1 _ IH]; [done|]. by rewrite IH, (pstep_identity h p p1). Qed.

(** A canceled process stays canceled, and one with results keeps that status. *)
Lemma pstep_final h p p' :
  pstep h p p' -> Status p = CANCELED \/ Status p = RESULTS -> Status p' = Status p.
Proof.
  intros Hs Hf. destruct Hs as [st Ht|Hr|l Hr|m root uri Hm Hd Hr Hne|k i|k i]; simpl; try done.
  - destruct Hf as [Hf|Hf]; rewrite Hf in Ht; by inversion Ht.
  - destruct Hf; congruence.
  - destruct Hf as [Hf|Hf]; [|done]. destruct Hr as [?|[?|[? ?]]]; congruence.
Qed.

Lemma rtc_final h p p' :
  rtc (pstep h) p p' -> Status p = CANCELED \/ Status p = RESULTS -> Status p' = Status p.
Proof.
  induction 1 as [|p p1 p' H1 _ IH]; [done|]. intros Hf. pose proof (pstep_final h p p1 H1 Hf) as Heq.
  rewrite IH by (by rewrite Heq). done.
Qed.

(** ** Processes only make steps *)

Section evolves.
Context `{ArboLaws, LruLaws, ProtoLaws, EthCryptoLaws, !ProofLibs}.

(** Every process is stored under its identifier. *)
Definition keyed (s : State) : Prop := forall pid p, process s pid = Some p -> ProcessId p = pid.

Definition evolves (s s' : State) : Prop :=
  wf s -> keyed s ->
  wf s' /\ keyed s' /\ currentHeight s' = currentHeight s /\
  forall pid p, process s pid = Some p ->
    exists p', process s' pid = Some p' /\ rtc (pstep (currentHeight s)) p p'.

#[export] Instance evolves_preorder : PreOrder evolves.
Proof.
  split.
  - intros s Hwf Hk. split_and!; [done..|]. intros pid p Hp. by exists p.
  - intros s1 s2 s3 H12 H23 Hwf Hk. destruct (H12 Hwf Hk) as (Hwf2 & Hk2 & Hh2 & Hp2).
    destruct (H23 Hwf2 Hk2) as (Hwf3 & Hk3 & Hh3 & Hp3).
    split_and!; [done..|by rewrite Hh3|]. intros pid p (p2 & Hp & Hr2)%Hp2.
    apply Hp3 in Hp as (p3 & Hp & Hr3). rewrite Hh2 in Hr3. exists p3. split; [done|by etrans].
Qed.

Lemma process_view s s' pid :
  sview s' TreeProcess !! pid = sview s TreeProcess !! pid -> process s' pid = process s pid.
Proof. intros Hv. unfold process, process_leaf. by rewrite Hv. Qed.

Lemma squiet_evolves {A} (m : GoM State A) : keeps squiet m -> keeps evolves m.
Proof.
  apply keeps_impl. intros s s' [Hh Hq] Hwf Hk. destruct (Hq Hwf) as [Hwf' Hv].
  assert (Hp : forall pid, process s' pid = process s pid).
  { intros pid. apply process_view. unfold sview. by rewrite Hv. }
  split_and!; [done| |done|].
  - intros pid p. rewrite Hp. apply Hk.
  - intros pid p Hpid. exists p. by rewrite Hp.
Qed.

(** The octets of a leaf that holds the process. *)
Definition holds (p : Process) (o : option bytes) (b : bytes) : Prop :=
  unmarshal b ≫= SDB_Process = Some p.

Lemma leafy_updateProcess_tx p pid : keeps (leafy (holds p) pid) (updateProcess_tx (Some p) pid).
Proof.
  unfold updateProcess_tx. intros tx. assert (Hpre : PreOrder (leafy (holds p) pid)) by by apply leafy_preorder.
  apply kept_bind; [done|apply quiet_leafy, reads_quiet, reads_SubTree_singleton|].
  intros q tx1 ->%SubTree_path.
  apply kept_bind; [done|apply keeps_catch, quiet_leafy, reads_quiet, reads_TU_Get|].
  intros [e|raw] tx2 _; [by destruct (errors_is _ _)|].
  apply kept_bind; [done|apply quiet_leafy, reads_quiet; unfold Unmarshal; keeps_auto|]. intros x tx3 _.
  apply kept_bind; [done|apply quiet_leafy, reads_quiet; unfold Marshal; keeps_auto|].
  intros b tx4 [_ Hb]%wrapping_Ok%Marshal_Ok. apply leafy_TU_Set; [done|].
  intros o. unfold holds. by rewrite (unmarshal_marshal _ _ Hb).
Qed.

(** A new value of a process that the machine can reach is written under its identifier. *)
Lemma evolves_write p0 p pid s :
  process s pid = Some p0 -> rtc (pstep (currentHeight s)) p0 p ->
  evolves s (updateProcess p pid s).1.
Proof.
  intros Hp0 Hr. unfold updateProcess. apply kept_bind; [apply _|by apply keeps_reject, _|].
  intros [] s1 [-> _]%reject_Ok Hwf Hk.
  pose proof (leafy_updateProcess_tx p pid (STx s)) as Hl. unfold on_Tx, zoom.
  destruct (updateProcess_tx (Some p) pid (STx s)) as [tx r]. simpl in *.
  destruct (Hl Hwf) as [Hwf' Hv]. set (s' := set_STx tx s). split; [done|].
  assert (Hpid : ProcessId p = pid).
  { pose proof (rtc_identity _ _ _ Hr) as Hid. unfold identity in Hid. rewrite <- (Hk _ _ Hp0). congruence. }
  assert (Hproc : forall pid', process s' pid' = process s pid' \/ pid' = pid /\ process s' pid' = Some p).
  { intros pid'. destruct Hv as [Hv|(b & Hb & Hv)].
    - left. apply process_view. unfold sview. simpl. by rewrite Hv.
    - destruct (decide (pid' = pid)) as [->|Hne].
      + right. split; [done|]. unfold process, process_leaf, sview. simpl. by rewrite Hv, lookup_insert_eq.
      + left. apply process_view. unfold sview. simpl. by rewrite Hv, lookup_insert_ne. }
  split_and!; [|done|].
  - intros pid' p'. destruct (Hproc pid') as [->|[-> ->]]; [apply Hk|by intros [= <-]].
  - intros pid' p' Hp'. destruct (Hproc pid') as [->|[-> ->]]; [by exists p'|].
    rewrite Hp0 in Hp'. injection Hp' as <-. by exists p.
Qed.
End evolves.

#[export] Hint Extern 7 (keeps evolves _) =>
  (apply squiet_evolves; solve [eauto with keeps typeclass_instances]) : keeps.

Section evolves_ops.
Context `{ArboLaws, LruLaws, ProtoLaws, EthCryptoLaws, !ProofLibs}.

Lemma evolves_intro s s' : (wf s -> keyed s -> evolves s s') -> evolves s s'.
Proof. intros He Hwf Hk. by apply He. Qed.

Lemma evolves_write_then {A} p0 p pid (m : GoM State unit) (k : GoM State A) s :
  process s pid = Some p0 -> rtc (pstep (currentHeight s)) p0 p ->
  (m s).1 = (updateProcess p pid s).1 -> keeps evolves k -> evolves s ((m;; k) s).1.
Proof.
  intros Hp Hr Hm Hk. apply kept_bind; [apply _|rewrite Hm; by eapply evolves_write|].
  intros a s1 _. apply Hk.
Qed.

(** [evolves] has to be shown from a state with a process in it, once that process is
    read. *)
Lemma evolves_read {A} pid (k : Process -> GoM State A) s :
  (forall p s1, wf s1 -> keyed s1 -> process s1 pid = Some p -> ProcessId p = pid ->
     currentHeight s1 = currentHeight s -> evolves s1 (k p s1).1) ->
  evolves s ((process ← State_Process pid false; process ← lift (deref process); k process) s).1.
Proof.
  intros Hk. apply evolves_intro.
  intros Hwf Hkey. apply kept_bind; [apply _|apply squiet_evolves, checks_squiet, sreads_checks, sreads_State_Process|].
  intros r s1 Hrun. apply kept_bind; [apply _|by apply keeps_lift, _|]. intros p s2 Hd.
  destruct (deref_process _ _ _ _ _ _ Hwf Hrun Hd) as (-> & Hr & Hp).
  apply Hk.
  - by eapply sreads_wf.
  - intros pid' p'. rewrite (process_reads s s1) by done. apply Hkey.
  - by rewrite (process_reads s s1).
  - by apply Hkey in Hp.
  - by destruct (only_tx_fields _ _ (proj1 Hr)).
Qed.

Lemma evolves_SetProcessStatus pid st c : keeps evolves (SetProcessStatus pid st c).
Proof.
  intros s. apply evolves_read. intros p s1 Hwf Hk Hp Hpid _.
  unfold CurrentHeight. rewrite bind_gets. apply kept_bind; [apply _|by apply keeps_lift, _|].
  intros [] s2 [-> Ht]%lift_Ok. destruct c; [|by apply keeps_ret, _].
  apply (evolves_write_then p (with_Status st p) (ProcessId p)); [by rewrite Hpid| |done|unfold TxCounter; keeps_auto].
  by apply rtc_once, check_transition_step.
Qed.

Lemma evolves_SetProcessResults pid r c : keeps evolves (SetProcessResults pid r c).
Proof.
  intros s. apply evolves_read. intros p s1 Hwf Hk Hp Hpid _.
  unfold CurrentHeight. rewrite bind_gets.
  apply kept_bind; [apply _|by apply keeps_reject, _|]. intros [] s2 [-> Hst]%reject_Ok.
  apply kept_bind; [apply _|by apply keeps_reject, _|]. intros [] s2 [-> Hend]%reject_Ok.
  apply kept_bind; [apply _|by apply keeps_lift, _|]. intros res s2 [-> _]%lift_Ok.
  do 3 (apply kept_bind; [apply _|by apply keeps_reject, _|]; intros [] s2 [-> _]%reject_Ok).
  destruct c; [|by apply keeps_ret, _].
  assert (Hpre : Status p = ENDED \/ Status p = RESULTS \/
                 Status p = READY /\ end_block p <= currentHeight s1).
  { destruct (Status p) eqn:E; simpl in *; auto; try done. bool_inv. auto. }
  match goal with |- evolves _ ((?m ≫= _) _).1 => assert (Hm : keeps sreads m) end.
  { keeps_auto. }
  apply kept_bind; [apply _|by apply squiet_evolves, checks_squiet, sreads_checks|].
  intros prior s2 Hprior. apply (keeps_run _ _ _ _ _ Hm) in Hprior.
  apply kept_bind; [apply _|by apply keeps_reject, _|]. intros [] s3 [-> _]%reject_Ok.
  destruct (only_tx_fields _ _ (proj1 Hprior)) as (Hh & _).
  apply (evolves_write_then p (with_Status RESULTS (with_Results (prior ++ [res]) p)) (ProcessId p));
    [by rewrite Hpid, (process_reads s1 s2)| |apply wrapping_state|unfold TxCounter; keeps_auto].
  apply rtc_once. constructor. by rewrite Hh.
Qed.

Lemma evolves_SetProcessCensus pid root uri c : keeps evolves (SetProcessCensus pid root uri c).
Proof.
  intros s. apply evolves_read. intros p s1 Hwf Hk Hp Hpid _.
  apply kept_bind; [apply _|by apply keeps_lift, _|]. intros mode s2 [-> Hm%deref_Ok]%lift_Ok.
  do 5 (apply kept_bind; [apply _|by apply keeps_reject, _|]; intros [] s2 [-> ?]%reject_Ok).
  destruct c; [|by apply keeps_ret, _]. bool_inv.
  apply (evolves_write p _ (ProcessId p)); [by rewrite Hpid|].
  apply rtc_once. econstructor; [done..| |done]. destruct (Status p); simpl in *; auto; done.
Qed.

(** Reading the arguments and setting the entry of the slice. *)
Lemma evolves_key_args {A} tx (k : bytes * Z -> GoM State A) :
  (forall a, keeps evolves (k a)) -> keeps evolves (a ← key_args tx; k a).
Proof. intros Hk. unfold key_args. keeps_auto. Qed.

Lemma evolves_AddProcessKeys tx : keeps evolves (AddProcessKeys tx).
Proof.
  apply evolves_key_args. intros [pid i] s. apply evolves_read. intros p s1 Hwf Hk Hp Hpid _.
  assert (Hkeys : forall l n, evolves s1 ((updateProcess
      (with_KeyIndex n (with_EncryptionPublicKeys l p)) pid;; counter ← TxCounter;
      notify (OnProcessKeys pid (hex_encode (default "" (EncryptionPublicKey tx))) counter)) s1).1).
  { intros l n. eapply (evolves_write_then p _ pid); [done| |reflexivity|]; [apply rtc_once; constructor|].
    unfold TxCounter. keeps_auto. }
  destruct (EncryptionPublicKey tx) as [key|].
  - apply kept_bind; [apply _|kept_auto|]. intros p' s2 Hrun. go_inv. apply Hkeys.
  - rewrite (bind_run_Ok _ _ s1 s1 p) by done.
    specialize (Hkeys (EncryptionPublicKeys p)). by destruct p.
Qed.

Lemma evolves_RevealProcessKeys tx : keeps evolves (RevealProcessKeys tx).
Proof.
  apply evolves_key_args. intros [pid i] s. apply evolves_read. intros p s1 Hwf Hk Hp Hpid _.
  apply kept_bind; [apply _|by apply keeps_reject, _|]. intros [] s2 [-> _]%reject_Ok.
  assert (Hkeys : forall l n e, evolves s1 ((updateProcess
      (with_KeyIndex n (with_EncryptionPrivateKeys l p)) pid;; counter ← TxCounter;
      notify (OnRevealKeys pid e counter)) s1).1).
  { intros l n e. eapply (evolves_write_then p _ pid); [done| |reflexivity|]; [apply rtc_once; constructor|].
    unfold TxCounter. keeps_auto. }
  destruct (EncryptionPrivateKey tx) as [key|].
  - apply kept_bind; [apply _|kept_auto|]. intros p' s2 Hrun. cbv zeta in Hrun. go_inv. apply Hkeys.
  - rewrite (bind_run_Ok _ _ s1 s1 (p, "")) by done.
    specialize (Hkeys (EncryptionPrivateKeys p)). by destruct p.
Qed.

(** A new process: only a leaf that was not there is written. *)
Definition fresh_leaf (o : option bytes) (b : bytes) (p : Process) : Prop :=
  o = None /\ unmarshal b ≫= SDB_Process = Some p.

Definition added (p : Process) : Process :=
  if preRegister p
  then with_NullifiersRoot emptyPreRegisterNullifiersRoot (with_RollingCensusRoot emptyCensusRoot p)
  else p.

Lemma ProcessId_added p : ProcessId (added p) = ProcessId p.
Proof. unfold added. by destruct (preRegister p). Qed.

Lemma evolves_fresh pid p tx s :
  ProcessId p = pid -> leafy (fun o b => fresh_leaf o b p) pid (STx s) tx -> evolves s (set_STx tx s).
Proof.
  intros Hpid Hl Hwf Hk. destruct (Hl Hwf) as [Hwf' Hv].
  assert (Hproc : forall pid', process (set_STx tx s) pid' = process s pid' \/
      pid' = pid /\ process s pid' = None /\ process (set_STx tx s) pid' = Some p).
  { intros pid'. destruct Hv as [Hv|(b & [Hnone Hb] & Hv)].
    - left. apply process_view. unfold sview. simpl. by rewrite Hv.
    - destruct (decide (pid' = pid)) as [->|Hne].
      + right. unfold process, process_leaf, sview. simpl. rewrite Hv, lookup_insert_eq. by rewrite Hnone.
      + left. apply process_view. unfold sview. simpl. by rewrite Hv, lookup_insert_ne. }
  split_and!; [done| |done|].
  - intros pid' p'. destruct (Hproc pid') as [->|(-> & _ & ->)]; [apply Hk|by intros [= <-]].
  - intros pid' p' Hp'. destruct (Hproc pid') as [->|(-> & Hn & _)]; [by exists p'|congruence].
Qed.

Lemma evolves_on_Tx_fresh {A} p (m : GoM TreeTx A) :
  keeps (leafy (fun o b => fresh_leaf o b p) (ProcessId p)) m -> keeps evolves (on_Tx m).
Proof.
  intros Hm s. specialize (Hm (STx s)). unfold on_Tx, zoom. destruct (m (STx s)) as [tx r].
  by apply (evolves_fresh (ProcessId p) p).
Qed.

Lemma evolves_AddProcess p : keeps evolves (AddProcess p).
Proof.
  unfold AddProcess. fold (added p). cbv zeta. set (q := added p). intros s.
  apply kept_bind; [apply _|kept_auto; unfold Marshal; keeps_auto|].
  intros b s1 [-> Hb]%wrapping_Ok%Marshal_Ok.
  apply kept_bind; [apply _| |intros [] s2 _; unfold TxCounter; kept_auto].
  set (Q := fun o b' => fresh_leaf o b' q).
  match goal with |- evolves _ (on_Tx ?m _).1 => assert (Hm : keeps (leafy Q (ProcessId q)) m) end.
  { assert (Hpre : PreOrder (leafy Q (ProcessId q))) by (apply leafy_preorder; by intros o b1 b2 ? [? ?]).
    apply keeps_bind; [done| |intros ?].
    - apply leafy_DeepAdd; [by intros o b1 b2 ? [? ?]|]. split; [done|]. by rewrite (unmarshal_marshal _ _ Hb).
    - apply quiet_leafy. unfold census_cfgs, nullifiers_cfgs, NoState_SetUint64. keeps_auto;
        first [apply quiet_setProcessIDByStartBlock | apply quiet_TU_NoState_Set
              | apply reads_quiet, reads_DeepSubTree; by constructor]. }
  by apply (evolves_on_Tx_fresh q).
Qed.
End evolves_ops.

#[export] Hint Resolve evolves_SetProcessStatus evolves_SetProcessResults evolves_SetProcessCensus
  evolves_AddProcessKeys evolves_RevealProcessKeys evolves_AddProcess : keeps.

Section add_process.
Context `{ArboLaws, LruLaws, ProtoLaws, EthCryptoLaws}.

Lemma StartBlock_added p : StartBlock (added p) = StartBlock p.
Proof. unfold added. by destruct (preRegister p). Qed.

(** A process that was added: its leaf is new, and the index of its start block was the
    last thing written. *)
Lemma AddProcess_Ok p s s' u :
  wf s -> AddProcess p s = (s', Ok u) ->
  sview s TreeProcess !! ProcessId p = None /\ wf s' /\
  (exists b, marshal (mkStateDBProcess (Some (added p)) emptyVotesRoot) = Some b /\
     sview s' TreeProcess = <[ProcessId p := b]> (sview s TreeProcess)) /\
  exists s1 s2, wf s1 /\ STx s' = STx s2 /\
    on_Tx (setProcessIDByStartBlock (ProcessId p) (StartBlock p)) s1 = (s2, Ok tt).
Proof.
  intros Hwf Hrun. unfold AddProcess in Hrun. fold (added p) in Hrun. cbv zeta in Hrun.
  rewrite !ProcessId_added, StartBlock_added in Hrun.
  apply bind_Ok in Hrun as (b & s0 & [-> Hb]%wrapping_Ok%Marshal_Ok & Hrun).
  apply bind_Ok in Hrun as ([] & s2 & Htx & Hrun). unfold TxCounter in Hrun. go_inv.
  apply notify_Ok in Hrun as ->. rewrite on_Tx_bind in Htx. apply bind_Ok in Htx as ([] & s1 & Hadd & Htx).
  apply DeepAdd_Ok in Hadd as [Hw Hnone]; [|done]. pose proof (wrote_wf _ _ _ _ _ Hw) as Hwf1.
  rewrite on_Tx_bind in Htx. apply bind_Ok in Htx as ([] & s3 & Hsub & Hidx).
  match type of Hsub with on_Tx ?m _ = _ => assert (Hq : keeps quiet m) end.
  { unfold census_cfgs, nullifiers_cfgs, NoState_SetUint64. keeps_auto;
      first [apply quiet_TU_NoState_Set | apply reads_quiet, reads_DeepSubTree; by constructor]. }
  apply (keeps_run _ _ _ _ _ (squiet_on_Tx _ Hq)) in Hsub as [_ Hsub].
  destruct (Hsub Hwf1) as [Hwf3 Hv3].
  pose proof (keeps_run _ _ _ _ _ (squiet_on_Tx _ (quiet_setProcessIDByStartBlock _ _)) Hidx) as [_ Hq2].
  destruct (Hq2 Hwf3) as [Hwf2 Hv2]. split_and!; [done|exact Hwf2| |].
  - exists b. split; [done|]. rewrite <- (wrote_view _ _ _ _ _ Hw).
    unfold sview. simpl. by rewrite Hv2, Hv3.
  - by exists s3, s2.
Qed.

(** The index read back. *)
Lemma setProcessIDByStartBlock_Ok pid b b' s s' :
  keyProcessIDsByStartBlock b' = keyProcessIDsByStartBlock b ->
  on_Tx (setProcessIDByStartBlock pid b) s = (s', Ok tt) ->
  exists pids, on_Tx (processIDsByStartBlock b') s' = (s', Ok (pids ++ [pid])).
Proof.
  intros Hkey Hrun. apply zoom_run in Hrun as (tx & Hrun & ->). unfold setProcessIDByStartBlock in Hrun.
  apply bind_Ok in Hrun as (r & tx1 & _ & Hrun). apply bind_Ok in Hrun as (pids & tx2 & _ & Hrun).
  apply bind_Ok in Hrun as (x & tx3 & [-> Hx]%Marshal_Ok & Hrun).
  unfold TU_NoState_Set in Hrun. apply bind_Ok in Hrun as (u & tx3 & [-> Hu]%node_Ok & ->%modify_Ok).
  exists pids. erewrite on_Tx_run; [by rewrite set_STx_twice|].
  unfold processIDsByStartBlock, TU_NoState_Get. rewrite Hkey.
  erewrite bind_run_Ok; [|unfold catch; erewrite bind_run_Ok by (apply node_Ok; split; [reflexivity|]; exact Hu);
    rewrite bind_gets; simpl; rewrite lookup_insert_eq; reflexivity].
  cbv beta iota. unfold wrapping, Unmarshal. by rewrite (unmarshal_marshal _ _ Hx).
Qed.
End add_process.

Section evolves_tx.
Context `{ArboLaws, LruLaws, ProtoLaws, EthCryptoLaws, !ProofLibs}.

(** Whatever the transaction and its outcome, the processes only make steps. *)
Lemma evolves_AddTx ch vks vtx c : keeps evolves (AddTx ch vks vtx c).
Proof.
  unfold AddTx, AddTx_Vote, AddTx_Admin, AddTx_NewProcess, AddTx_SetProcess, AddTx_RegisterKey,
    AddTx_SetAccountInfo, AddTx_SetTransactionCosts, AddTx_MintTokens, AddTx_SendTokens,
    AddTx_SetAccountDelegate, AddTx_CollectFaucet, on_commit.
  skeeps_auto.
Qed.
End evolves_tx.
