(* ===== verification/BlockFacts.v ===== *)
(** * Saving and rolling back the state

    What [Save] and [Rollback] of [src/vochain/state.go] do to the contents: after [Save]
    the store holds the working contents under the height of the block, and a new
    transaction sees them; [Rollback] gives the contents of the store back.  A process may
    differ after [Save] in the roots of its children trees and in the size of its rolling
    census. *)

From stdpp Require Import base option list strings gmap.
From S2P Require Import Prelude GoMonad GoLib Models External Tree StateDB StateTrees State.
From S2P Require Import StateFacts CommitFacts Account AccountFacts Process ProcessFacts Census.
From S2P Require Import CensusProof TxFacts App Lifecycle.

(** ** The contents of a store *)

Section store.
Context `{ArboLaws, Lru, Proto}.

Definition db_view (d : DB) (t : StateTree) : gmap bytes bytes :=
  leaves (default (arbo_new HashSha256 256) (db_trees d !! st_key t)).

Definition committed (s : State) (t : StateTree) : gmap bytes bytes := db_view (Store s) t.

(** A transaction that was just opened on the store: only the main tree is open, and every tree
    of the database, those of the children included, is as it is stored. *)
Record begun (s : State) : Prop := {
  begun_wf : wf s;
  begun_view t : sview s t = committed s t;
  begun_kv : kv s = db_kv (Store s);
  begun_trees k : db_trees (tx_db (STx s)) !! k = db_trees (Store s) !! k;
  begun_open p u : tx_open (STx s) !! p = Some u -> p = [] /\ dirtyTree u = false;
}.

Lemma BeginTx_open d tx p u : BeginTx d = Ok tx -> tx_open tx !! p = Some u -> p = [] /\ dirtyTree u = false.
Proof.
  unfold BeginTx. intros Hb Hp. apply outcome_bind_Ok in Hb as (root & _ & Hb). destruct (open_at _ _ root d) as [d' r].
  apply outcome_bind_Ok in Hb as ([] & _ & [= <-]). simpl in Hp. by apply lookup_singleton_Some in Hp as [<- <-].
Qed.

Lemma BeginTx_begun s tx : good_db (Store s) -> BeginTx (Store s) = Ok tx -> begun (set_STx tx s).
Proof.
  intros Hg Hb. destruct (BeginTx_good _ Hg) as (tx' & Htx & Hwf & Htrees & Hkv).
  rewrite Hb in Htx. injection Htx as <-. split; [exact Hwf| |exact Hkv|exact Htrees|exact (fun p u => BeginTx_open _ _ p u Hb)].
  intros t. unfold sview, view, stored, committed, db_view. simpl. by rewrite Htrees.
Qed.

(** Only the listeners hear about it. *)
Lemma notify_fields ev s s' u :
  notify ev s = (s', Ok u) ->
  Store s' = Store s /\ STx s' = STx s /\ mainTreeView s' = mainTreeView s /\
  currentHeight s' = currentHeight s /\ chainID s' = chainID s /\ voteCache s' = voteCache s.
Proof. intros [= <-]. done. Qed.

Lemma Rollback_Ok s :
  good_db (Store s) ->
  exists s', Rollback s = (s', Ok tt) /\ begun s' /\ same_block s s' /\ txCounter s' = 0 /\
    voteCache s' = voteCache s.
Proof.
  intros Hg. destruct (BeginTx_good _ Hg) as (tx & Htx & _).
  assert (Hn : exists s1, notify OnRollback s = (s1, Ok tt)) by (by eexists). destruct Hn as [s1 Hn].
  destruct (notify_fields _ _ _ _ Hn) as (Hst & _ & Hv & Hh & Hc & Hvc).
  eexists. split; [|split_and!].
  - unfold Rollback. rewrite (bind_run_Ok _ _ _ _ _ Hn), bind_gets, Hst, Htx. reflexivity.
  - rewrite <- Hst in Hg, Htx. pose proof (BeginTx_begun s1 tx Hg Htx) as [Hw Hvw Hk Ht Ho]. by split.
  - by split.
  - done.
  - done.
Qed.
End store.

(** ** The committed view *)

Section committed_view.
Context `{ArboLaws, Lru, Proto}.

(** The view of the last commit is the one of the store. *)
Definition view_current (s : State) : Prop := StateDB_TreeView (Store s) None = Ok (mainTreeView s).

Lemma st_sub_prefix t :
  sub_prefix "" (path_Join [subKeySubTree; prefix (StateTreeCfg t)]) = st_prefix t.
Proof. by destruct t. Qed.

(** The committed view of a main tree has the leaves of the store. *)
Lemma committed_subtree s t t0 :
  good_db (Store s) -> view_current s -> db_trees (Store s) !! st_key t = Some t0 ->
  exists t1, TV_SubTree (Store s) (mainTreeView s) (StateTreeCfg t) = Ok (mkTreeView (st_prefix t) t1) /\
    leaves t1 = leaves t0.
Proof.
  intros Hg Hv Htree. destruct (good_main _ Hg) as (m & Hm & Hroot & Hleaf).
  unfold view_current, StateDB_TreeView in Hv. rewrite Hroot in Hv. cbn [mbind outcome_bind] in Hv.
  unfold view_at in Hv. change (tree_key "") with main_key in Hv. rewrite Hm in Hv.
  destruct (snapshot_current m) as (m' & Hm' & Hl' & _). rewrite Hm' in Hv. simpl in Hv. injection Hv as Hv.
  destruct (snapshot_current t0) as (t1 & Ht1 & Hlt1 & _). exists t1. split; [|done].
  rewrite <- Hv. unfold TV_SubTree, TV_Get. cbn [tv_tree tv_prefix].
  change (parentLeafKey (StateTreeCfg t)) with (StateTree_KindID t).
  pose proof (Hleaf t) as Hlt. rewrite Htree in Hlt. simpl in Hlt. rewrite <- Hl' in Hlt.
  rewrite (get_found _ _ _ Hlt). cbn [of_sum mbind outcome_bind].
  change (parentLeafGetRoot (tree_cfg (StateTreeCfg t))) with rootLeafGetRoot.
  unfold rootLeafGetRoot. rewrite root_length. cbn [negb Nat.eqb mbind outcome_bind defaultHashLen].
  rewrite st_sub_prefix. unfold view_at. by rewrite tree_key_st, Htree, Ht1.
Qed.

Lemma committed_tree s t key v :
  committed s t !! key = Some v -> exists t0, db_trees (Store s) !! st_key t = Some t0 /\ leaves t0 !! key = Some v.
Proof.
  unfold committed, db_view. destruct (db_trees (Store s) !! st_key t) as [t0|]; simpl; [eauto|].
  by rewrite leaves_new, lookup_empty.
Qed.

(** A leaf of the store is what the committed view reads. *)
Lemma committed_read s t key v :
  good_db (Store s) -> view_current s -> committed s t !! key = Some v ->
  V_DeepGet (StoreView (mainTreeView s)) key [StateTreeCfg t] s = (s, Ok v).
Proof.
  intros Hg Hv (t0 & Ht0 & Hk)%committed_tree. destruct (committed_subtree s t t0 Hg Hv Ht0) as (t1 & Hsub & Hl).
  unfold V_DeepGet, TV_DeepGet. rewrite bind_gets. cbn [TV_DeepSubTree]. rewrite Hsub. cbn [mbind outcome_bind].
  unfold TV_Get. cbn [tv_tree]. rewrite <- Hl in Hk. by rewrite (get_found _ _ _ Hk).
Qed.

(** A leaf of a child tree, when the process has the root of the tree. *)
Lemma committed_child_read s c pid leaf t key v :
  good_db (Store s) -> view_current s -> committed s TreeProcess !! pid = Some leaf ->
  db_trees (Store s) !! child_key c pid = Some t -> parentLeafGetRoot (StateChildTreeCfg c) leaf = Ok (arbo_root t) ->
  leaves t !! key = Some v ->
  V_DeepGet (StoreView (mainTreeView s)) key (StateParentChildTreeCfg TreeProcess c pid) s = (s, Ok v).
Proof.
  intros Hg Hv (t0 & Ht0 & Hk)%committed_tree Ht Hroot Hkey.
  destruct (committed_subtree s TreeProcess t0 Hg Hv Ht0) as (t1 & Hsub & Hl).
  unfold V_DeepGet, TV_DeepGet, StateParentChildTreeCfg. rewrite bind_gets. cbn [TV_DeepSubTree]. rewrite Hsub.
  cbn [mbind outcome_bind]. unfold TV_SubTree, TV_Get. cbn [tv_tree tv_prefix].
  change (parentLeafKey (WithKey (StateChildTreeCfg c) pid)) with pid.
  change (tree_cfg (WithKey (StateChildTreeCfg c) pid)) with (StateChildTreeCfg c).
  rewrite <- Hl in Hk. rewrite (get_found _ _ _ Hk). cbn [of_sum mbind outcome_bind]. rewrite Hroot. cbn [mbind outcome_bind].
  destruct (snapshot_current t) as (t2 & Ht2 & Hl2 & _).
  unfold view_at. fold (child_key c pid). rewrite Ht, Ht2. cbn [of_sum mbind outcome_bind tv_tree].
  rewrite <- Hl2 in Hkey. by rewrite (get_found _ _ _ Hkey).
Qed.
End committed_view.

(** ** Saving *)

(** A process without what [Save] may change. *)
Definition unsaved (p : Process) : Process := with_RollingCensusSize None (unrooted p).

Definition saved (p p' : Process) : Prop := unsaved p' = unsaved p.

#[export] Instance saved_equiv : Equivalence saved.
Proof. unfold saved. split; intros ?; congruence. Qed.

Lemma saved_identity p p' : saved p p' -> identity p' = identity p /\ Status p' = Status p.
Proof. destruct p, p'. unfold saved, unsaved, identity. cbn. intros [=]. by subst. Qed.

Lemma saved_size p n : saved p (with_RollingCensusSize n p).
Proof. by destruct p. Qed.

Lemma saved_roots p p' : unrooted p' = unrooted p -> saved p p'.
Proof. unfold saved, unsaved. by intros ->. Qed.

(** ** The child trees *)

Section children.
Context `{ArboLaws, LruLaws, ProtoLaws, EthCryptoLaws, !ProofLibs}.

(** No other child tree of a process is stored where this one is.  [path.Join] cleans the
    identifier of the process, so this is not the case of every set of identifiers. *)
Definition apart (s : State) (c : StateChildTree) (pid : bytes) : Prop :=
  forall c' pid', in_use c' = true -> is_Some (sview s TreeProcess !! pid') -> child_key c' pid' = child_key c pid ->
    c' = c /\ pid' = pid.

(** The root of a child in the leaf of its process. *)
Definition root_in (c : StateChildTree) (leaf : option bytes) : option (outcome bytes) :=
  parentLeafGetRoot (StateChildTreeCfg c) <$> leaf.

(** The open child trees, their handles and the roots in the leaves are the same; new handles
    are clean. *)
Record keeps_children (s s' : State) : Prop := {
  kc_old c pid u : tx_open (STx s) !! child_path c pid = Some u -> tx_open (STx s') !! child_path c pid = Some u;
  kc_new c pid u : tx_open (STx s) !! child_path c pid = None -> tx_open (STx s') !! child_path c pid = Some u ->
    dirtyTree u = false;
  kc_tree c pid t : apart s c pid -> is_Some (tx_open (STx s) !! child_path c pid) ->
    db_trees (tx_db (STx s)) !! child_key c pid = Some t -> db_trees (tx_db (STx s')) !! child_key c pid = Some t;
  kc_ids pid : is_Some (sview s' TreeProcess !! pid) <-> is_Some (sview s TreeProcess !! pid);
  kc_root c pid : in_use c = true -> root_in c (sview s' TreeProcess !! pid) = root_in c (sview s TreeProcess !! pid)
}.

#[export] Instance keeps_children_preorder : PreOrder keeps_children.
Proof.
  split; [intros s; split; try done; congruence|].
  intros s1 s2 s3 [O12 N12 T12 I12 R12] [O23 N23 T23 I23 R23]. split.
  - auto.
  - intros c pid u H1u H3u. destruct (tx_open (STx s2) !! child_path c pid) as [u2|] eqn:E; [|by eapply N23].
    pose proof (O23 _ _ _ E) as E'. assert (u2 = u) as -> by congruence. by eapply N12.
  - intros c pid t Ha [u Hu] Ht. apply T23; [|by exists u; apply O12|by apply T12; [|exists u|]].
    intros c' pid' Hc' Hp'. apply Ha; [done|by apply I12].
  - intros pid. by rewrite I23.
  - intros c pid Hc. by rewrite R23, R12.
Qed.

Lemma keeps_children_reads s s' : wf s -> sreads s s' -> keeps_children s s'.
Proof.
  intros Hwf Hr. pose proof (sreads_use _ _ Hr Hwf) as (_ & _ & Hv & _). pose proof (sreads_opens _ _ Hr Hwf) as Ho. split.
  - intros c pid u. apply (opens_old _ _ Ho).
  - intros c pid u. apply (opens_new _ _ Ho).
  - intros c pid t Ha [u Hu] Ht. destruct (opens_tree _ _ Ho _ _ Ht) as [|(c' & pid' & u' & leaf & t' & Hc & Hk & Hn & _ & Hl & _)];
      [done|]. destruct (Ha c' pid' Hc) as [-> ->]; [by exists leaf|done|congruence].
  - intros pid. by rewrite Hv.
  - intros c pid _. by rewrite Hv.
Qed.

(** Only the process tree and its handle change. *)
Definition only_processes (tx tx' : TreeTx) : Prop :=
  wf_tx tx -> wf_tx tx' /\
  (forall q, q <> [StateTree_KindID TreeProcess] -> tx_open tx' !! q = tx_open tx !! q) /\
  forall k, k <> st_key TreeProcess -> db_trees (tx_db tx') !! k = db_trees (tx_db tx) !! k.

#[export] Instance only_processes_preorder : PreOrder only_processes.
Proof.
  split; [by intros tx Hwf|]. intros tx1 tx2 tx3 H12 H23 Hwf. destruct (H12 Hwf) as (Hwf2 & O12 & T12).
  destruct (H23 Hwf2) as (Hwf3 & O23 & T23). split_and!; [done|intros q Hq; by rewrite O23, O12|intros k Hk; by rewrite T23, T12].
Qed.

Lemma only_processes_TU_Set key value : keeps only_processes (TU_Set [StateTree_KindID TreeProcess] key value).
Proof.
  intros tx Hwf. split; [by apply (preserves_TU_Set [StateTree_KindID TreeProcess] key value ltac:(done) tx)|].
  unfold TU_Set. rewrite (bind_run_Ok _ _ _ _ _ (set_dirty_run _ _)). unfold TU_tree_Set.
  pose proof (wf_with_dirty [StateTree_KindID TreeProcess] tx Hwf) as Hwf1.
  assert (Hd : forall q, q <> [StateTree_KindID TreeProcess] ->
    tx_open (with_dirty [StateTree_KindID TreeProcess] tx) !! q = tx_open tx !! q).
  { intros q Hq. simpl. by rewrite lookup_alter_ne. }
  destruct (tx_open (with_dirty [StateTree_KindID TreeProcess] tx) !! [StateTree_KindID TreeProcess]) as [u|] eqn:Hu.
  - rewrite (bind_run_Ok _ _ _ _ _ (node_run _ _ _ Hu)). destruct (wf_open _ Hwf1 _ _ Hu) as [Hcan%canonical_st_inv [t Ht]].
    rewrite (bind_run_Ok _ _ _ _ _ (node_tree_run _ _ _ Ht)). unfold lift, mbind, gom_bind.
    destruct (tree_set t key value); cbn [fst]; [|done..]. split; [exact Hd|]. intros k Hk. simpl.
    rewrite Hcan, tree_key_st, lookup_insert_ne by done. done.
  - unfold node. unfold mbind, gom_bind. cbn -[with_dirty StateTree_KindID]. rewrite Hu. by split.
Qed.

Lemma only_processes_updateProcess_tx p pid : keeps only_processes (updateProcess_tx p pid).
Proof.
  unfold updateProcess_tx. intros tx. apply kept_bind; [apply _| |].
  - intros Hwf. rewrite SubTree_singleton by done. cbn [fst]. split; [by apply wf_opened|]. unfold opened.
    destruct (tx_open tx !! [StateTree_KindID TreeProcess]); [done|]. simpl.
    split; intros q Hq; by rewrite lookup_insert_ne.
  - intros q tx1 ->%SubTree_path. revert tx1. enough (Hk : keeps only_processes _) by exact Hk. keeps_auto.
    + intros tx1. rewrite TU_Get_keeps_tx. reflexivity.
    + apply only_processes_TU_Set.
Qed.

Lemma child_key_apart c pid : child_key c pid <> main_key /\ forall t, child_key c pid <> st_key t.
Proof. split; [apply child_key_not_main|intros t; apply child_key_not_st]. Qed.

(** The new size of a rolling census changes neither a root nor a child tree. *)
Lemma keeps_children_size pid p n s s' :
  wf s -> process s pid = Some p -> on_Tx (updateProcess_tx (Some (with_RollingCensusSize n p)) pid) s = (s', Ok tt) ->
  keeps_children s s'.
Proof.
  intros Hwf Hp Hrun. pose proof (only_processes_updateProcess_tx (Some (with_RollingCensusSize n p)) pid (STx s) Hwf) as Ho.
  assert (Hs' : STx s' = (updateProcess_tx (Some (with_RollingCensusSize n p)) pid (STx s)).1).
  { unfold on_Tx in Hrun. apply zoom_run in Hrun as (tx & Hrun & ->). by rewrite Hrun. }
  rewrite <- Hs' in Ho. destruct Ho as (_ & Hop & Htr).
  apply updateProcess_tx_Ok in Hrun as (x & Hx & b & Hb & Hw); [|done].
  assert (Hview : forall pid', sview s' TreeProcess !! pid' = if decide (pid' = pid) then Some b else sview s TreeProcess !! pid').
  { intros pid'. rewrite (wrote_view _ _ _ _ _ Hw). case_decide; subst; [by rewrite lookup_insert_eq|by rewrite lookup_insert_ne]. }
  unfold process in Hp. rewrite Hx in Hp. simpl in Hp. unfold process_leaf in Hx.
  destruct (sview s TreeProcess !! pid) as [leaf|] eqn:El; [|done]. simpl in Hx. split.
  - intros c pid' u. by rewrite Hop.
  - intros c pid' u. rewrite Hop by done. congruence.
  - intros c pid' t _ _. rewrite Htr; [done|apply child_key_apart].
  - intros pid'. rewrite Hview. case_decide; [subst|done]. rewrite El. split; by eexists.
  - intros c pid' Hc. rewrite Hview. case_decide; [subst|done]. rewrite El. unfold root_in. simpl. f_equal.
    pose proof (unmarshal_marshal _ _ Hb) as Hub.
    destruct c; [done|..]; cbn; unfold processGetCensusRoot, processGetPreRegisterNullifiersRoot, processGetVotesRoot,
      unmarshal_sdbProc; rewrite Hub, Hx; cbn; rewrite ?Hp; by destruct p.
Qed.
End children.

Section save.
Context `{ArboLaws, LruLaws, ProtoLaws, EthCryptoLaws, !ProofLibs}.

(** The processes are the same, up to [saved], and every other tree is unchanged. *)
Record settles (s s' : State) : Prop := {
  settles_other t : t <> TreeProcess -> sview s' t = sview s t;
  settles_process pid p : process s pid = Some p -> exists p', process s' pid = Some p' /\ saved p p';
  settles_back pid p' : process s' pid = Some p' -> exists p, process s pid = Some p /\ saved p p';
}.

#[export] Instance settles_preorder : PreOrder settles.
Proof.
  split.
  - intros s. split; [done|..]; intros pid p Hp; by exists p.
  - intros s1 s2 s3 [O12 P12 B12] [O23 P23 B23]. split.
    + intros t Ht. by rewrite O23, O12.
    + intros pid p (p2 & Hp & S2)%P12. apply P23 in Hp as (p3 & Hp & S3). exists p3. split; [done|by etrans].
    + intros pid p (p2 & Hp & S2)%B23. apply B12 in Hp as (p3 & Hp & S3). exists p3. split; [done|by etrans].
Qed.

Lemma settles_reads s s' : wf s -> sreads s s' -> settles s s'.
Proof.
  intros Hwf Hr. pose proof (sreads_use _ _ Hr Hwf) as (_ & _ & Hv & _). split; [by intros; apply Hv|..];
    intros pid p Hp; exists p; rewrite (process_reads s s') in * by done; done.
Qed.

Lemma settles_updated pid p p' x s s' :
  process s pid = Some p -> saved p p' -> leaf_updated pid (mkStateDBProcess (Some p') x) s s' -> settles s s'.
Proof.
  intros Hp Hs Hu. split.
  - intros t Ht. destruct Hu as (b & _ & Hw). by apply Hw.
  - intros pid0 q Hq. rewrite (leaf_updated_process _ _ _ _ _ Hu). case_decide as Hd; [|by exists q].
    subst. exists p'. split; [done|]. by simplify_eq.
  - intros pid0 q. rewrite (leaf_updated_process _ _ _ _ _ Hu). case_decide as Hd; [|by exists q].
    subst. intros [= <-]. by exists p.
Qed.

Lemma set_rolling_size_Ok pid s s' :
  wf s -> set_rolling_size pid s = (s', Ok tt) -> wf s' /\ only_tx s s' /\ settles s s' /\ keeps_children s s'.
Proof.
  intros Hwf Hrun. unfold set_rolling_size in Hrun.
  apply bind_Ok in Hrun as (r & s1 & Hget & Hrun). apply bind_Ok in Hrun as (p & s2 & Hd & Hrun).
  assert (Hget' : State_Process pid false s = (s1, Ok r)) by exact Hget.
  destruct (deref_process _ _ _ _ _ _ Hwf Hget' Hd) as (-> & Hr & Hp).
  apply bind_Ok in Hrun as (m & s2 & [-> _]%lift_Ok & Hrun).
  pose proof (sreads_wf _ _ Hwf Hr) as Hwf1.
  destruct (negb (PreRegister m)).
  { apply ret_Ok in Hrun as [-> _]. split_and!; [done|apply Hr|by apply settles_reads|by apply keeps_children_reads]. }
  apply bind_Ok in Hrun as (n & s2 & Hn & Hrun).
  apply (keeps_run _ _ _ _ _ (sreads_getRollingCensusSize pid)) in Hn as Hr2.
  pose proof (sreads_wf _ _ Hwf1 Hr2) as Hwf2.
  assert (Hp2 : process s2 pid = Some p) by by rewrite (process_reads s1 s2), (process_reads s s1).
  pose proof (keeps_children_size _ _ _ _ _ Hwf2 Hp2 Hrun) as Hk.
  apply updateProcess_tx_Ok in Hrun as (x & Hx & Hu); [|done].
  split_and!; [by eapply leaf_updated_wf|etrans; [apply Hr|etrans; [apply Hr2|by eapply leaf_updated_only_tx]]| |].
  - etrans; [by apply settles_reads|]. etrans; [by apply settles_reads|].
    by eapply settles_updated; [|apply saved_size|exact Hu].
  - etrans; [by apply keeps_children_reads|]. etrans; [by apply keeps_children_reads|done].
Qed.

Lemma setRollingCensusSize_Ok pids s s' :
  wf s -> setRollingCensusSize pids s = (s', Ok tt) -> wf s' /\ only_tx s s' /\ settles s s' /\ keeps_children s s'.
Proof.
  unfold setRollingCensusSize. revert s. induction pids as [|pid pids IH]; intros s Hwf Hrun; cbn in Hrun.
  - apply ret_Ok in Hrun as [-> _]. split_and!; [done|reflexivity|reflexivity|reflexivity].
  - apply bind_Ok in Hrun as ([] & s1 & Hone & Hrun).
    apply set_rolling_size_Ok in Hone as (Hwf1 & Ho1 & S1 & K1); [|done].
    destruct (IH _ Hwf1 Hrun) as (Hwf2 & Ho2 & S2 & K2). split_and!; [done|by etrans|by etrans|by etrans].
Qed.

Lemma reads_processIDsByStartBlock b : keeps reads (processIDsByStartBlock b).
Proof. unfold processIDsByStartBlock. keeps_auto. apply reads_TU_NoState_Get. Qed.

(** The commit and the new transaction. *)
Lemma save_commit_Ok h s s' :
  wf s -> is_u32 h -> save_commit h s = (s', Ok tt) ->
  good_db (Store s') /\ StateDB_Version (Store s') = Ok h /\
  (forall t, t <> TreeProcess -> committed s' t = sview s t) /\
  (forall k, rerooted (sview s TreeProcess !! k) (committed s' TreeProcess !! k)) /\
  (exists root, db_kv (Store s') = db_kv (setVersionRoot h root (tx_db (STx s)))) /\
  currentHeight s' = currentHeight s /\ chainID s' = chainID s /\ eventListeners s' = eventListeners s /\
  (forall c pid, db_trees (Store s') !! child_key c pid = db_trees (tx_db (STx s)) !! child_key c pid) /\
  (forall c pid, in_use c = true -> dirty_child (STx s) c pid ->
     exists leaf, committed s' TreeProcess !! pid = Some leaf /\
       parentLeafGetRoot (StateChildTreeCfg c) leaf = Ok (arbo_root (stored (STx s) (child_key c pid)))) /\
  (forall c pid, in_use c = true -> ~ dirty_child (STx s) c pid ->
     root_in c (committed s' TreeProcess !! pid) = root_in c (sview s TreeProcess !! pid)).
Proof.
  intros Hwf Hh Hrun. unfold save_commit in Hrun. apply bind_Ok in Hrun as ([] & s1 & Hc & Hrun).
  apply wrapping_Ok in Hc. apply zoom_run in Hc as (tx' & Hc & ->). apply modify_Ok in Hrun as ->.
  destruct (TreeTx_Commit_good _ _ _ Hwf Hh Hc) as (Hg & Hv & Hs & Hp & Hkv & _ & Hch & Hroot). simpl.
  split_and!; [exact Hg|exact Hv| | |exact Hkv|done|done|done| | |].
  - intros t Ht. unfold committed, db_view, sview, view. simpl. by rewrite <- Hs.
  - exact Hp.
  - intros c pid. destruct (child_key_apart c pid) as [Hk1 Hk2]. by apply Hch.
  - apply (rooted_dirty _ _ Hroot).
  - apply (rooted_other _ _ Hroot).
Qed.

Definition leaf_process (o : option bytes) : option Process := (o ≫= unmarshal) ≫= SDB_Process.

(** What the last commit holds of a process. *)
Definition committed_process (s : State) (pid : bytes) : option Process :=
  leaf_process (committed s TreeProcess !! pid).

Lemma begun_process s pid : begun s -> process s pid = committed_process s pid.
Proof. intros Hb. unfold process, process_leaf, committed_process. by rewrite (begun_view s Hb). Qed.

Lemma rerooted_process o o' :
  rerooted o o' ->
  unrooted <$> leaf_process o' = unrooted <$> leaf_process o.
Proof.
  intros [->|(b & b' & x & x' & -> & -> & Hx & Hx' & Hs)]; [done|]. cbn. rewrite Hx, Hx'. exact Hs.
Qed.

(** After [Save] the store is good and holds the working contents, which a new
    transaction sees. *)
Record saves (s s' : State) (hash : bytes) : Prop := {
  saves_good : good_db (Store s');
  saves_begun : begun s';
  saves_version : StateDB_Version (Store s') = Ok (currentHeight s);
  saves_hash : StateDB_Hash (Store s') = Ok hash;
  saves_view : view_current s';
  saves_settles : settles s s';
  saves_height : currentHeight s' = currentHeight s;
  saves_chain : chainID s' = chainID s;
  saves_child c pid t : in_use c = true -> apart s c pid -> dirty_child (STx s) c pid ->
    db_trees (tx_db (STx s)) !! child_key c pid = Some t ->
    db_trees (Store s') !! child_key c pid = Some t /\
    exists leaf, committed s' TreeProcess !! pid = Some leaf /\
      parentLeafGetRoot (StateChildTreeCfg c) leaf = Ok (arbo_root t);
  saves_root c pid : in_use c = true -> ~ dirty_child (STx s) c pid ->
    root_in c (committed s' TreeProcess !! pid) = root_in c (sview s TreeProcess !! pid)
}.

Lemma save_begin_Ok s s' :
  good_db (Store s) -> save_begin s = (s', Ok tt) -> begun s' /\ only_tx s s'.
Proof.
  intros Hg Hrun. unfold save_begin in Hrun. rewrite bind_gets in Hrun.
  destruct (BeginTx_good _ Hg) as (tx & Htx & _). rewrite Htx in Hrun. apply modify_Ok in Hrun as ->.
  split; [by apply BeginTx_begun|done].
Qed.

Lemma settles_committed s s' :
  (forall t, t <> TreeProcess -> committed s' t = sview s t) ->
  (forall k, rerooted (sview s TreeProcess !! k) (committed s' TreeProcess !! k)) ->
  begun s' -> settles s s'.
Proof.
  intros Ho Hp Hb.
  assert (Hu : forall pid, unrooted <$> process s' pid = unrooted <$> process s pid).
  { intros pid. rewrite (begun_process s' pid Hb). apply (rerooted_process _ _ (Hp pid)). }
  split.
  - intros t Ht. by rewrite (begun_view s' Hb), Ho.
  - intros pid p Hq. specialize (Hu pid). rewrite Hq in Hu. apply fmap_Some in Hu as (p' & Hp' & Heq).
    exists p'. split; [done|]. by apply saved_roots.
  - intros pid p Hq. specialize (Hu pid). rewrite Hq in Hu. symmetry in Hu.
    apply fmap_Some in Hu as (p' & Hp' & Heq). exists p'. split; [done|]. by apply saved_roots.
Qed.

Lemma Save_Ok s s' hash :
  wf s -> is_u32 (currentHeight s) -> Save s = (s', Ok hash) -> saves s s' hash.
Proof.
  intros Hwf Hh Hrun. unfold Save, CurrentHeight in Hrun. rewrite bind_gets in Hrun.
  apply bind_Ok in Hrun as (pids & s1 & Hpids%wrapping_Ok & Hrun).
  apply (keeps_run _ _ _ _ _ (sreads_on_Tx _ (reads_processIDsByStartBlock _))) in Hpids as Hr.
  pose proof (sreads_wf _ _ Hwf Hr) as Hwf1.
  apply bind_Ok in Hrun as ([] & s2 & Hroll%replacing_Ok & Hrun).
  apply setRollingCensusSize_Ok in Hroll as (Hwf2 & Ho2 & S2 & K2); [|done].
  assert (K : keeps_children s s2) by (etrans; [by apply keeps_children_reads|exact K2]).
  apply bind_Ok in Hrun as ([] & s3 & Hc & Hrun). apply save_commit_Ok in Hc; [|done..].
  destruct Hc as (Hg & Hver & Hother & Hproc & _ & Hh3 & Hc3 & _ & Hchild & Hdirty & Hroot).
  apply bind_Ok in Hrun as ([] & s4 & Hb & Hrun). apply save_begin_Ok in Hb as [Hb Ho4]; [|done].
  destruct (only_tx_fields _ _ Ho4) as (Hh4 & _ & _ & Hst4 & Hc4).
  destruct (only_tx_fields _ _ Ho2) as (Hh2 & _ & _ & _ & Hc2).
  destruct (only_tx_fields _ _ (proj1 Hr)) as (Hh1 & _ & _ & _ & Hc1).
  rewrite bind_gets in Hrun. apply bind_Ok in Hrun as (view & s5 & Hview%wrapping_Ok & Hrun).
  apply lift_Ok in Hview as [-> Hview]. apply bind_Ok in Hrun as ([] & s5 & ->%modify_Ok & Hrun).
  rewrite bind_gets in Hrun. destruct (commit_listeners _ _) as [ls halt].
  apply bind_Ok in Hrun as ([] & s5 & ->%modify_Ok & Hrun). destruct halt; [done|].
  assert (S : settles s s4).
  { etrans; [by apply settles_reads|]. etrans; [exact S2|]. apply settles_committed; [| |done].
    - intros t Ht. unfold committed. rewrite Hst4. by apply Hother.
    - intros k. unfold committed. rewrite Hst4. apply Hproc. }
  apply bind_Ok in Hrun as ([] & s5 & Hn & [Heq Hhash]%lift_Ok).
  symmetry in Heq. subst s5.
  assert (Hs' : Store s' = Store s4 /\ STx s' = STx s4 /\ mainTreeView s' = view /\
    currentHeight s' = currentHeight s4 /\ chainID s' = chainID s4).
  { case_bool_decide; [by apply ret_Ok in Hn as [-> _]|by apply notify_fields in Hn as (-> & -> & -> & -> & -> & _)]. }
  destruct Hs' as (Hs1 & Hs2 & Hs3 & Hs4 & Hs5).
  split.
  - rewrite Hs1, Hst4. exact Hg.
  - destruct Hb as [B1 B2 B3 B4 B5]. split; [|intros t; specialize (B2 t)| |intros k; specialize (B4 k)|by rewrite Hs2];
      unfold wf, sview, kv, committed in *; by rewrite Hs2, ?Hs1.
  - rewrite Hs1, Hst4, Hver. congruence.
  - by rewrite Hs1.
  - unfold view_current. rewrite Hs1, Hs3. exact Hview.
  - destruct S as [A B C]. split; unfold process, process_leaf, sview in *; rewrite Hs2; done.
  - congruence.
  - congruence.
  - intros c pid t Hc Ha [u [Hu Hd]] Ht. pose proof (kc_tree _ _ K c pid t Ha (ex_intro _ u Hu) Ht) as Ht2.
    rewrite Hs1, Hst4, Hchild. split; [done|]. unfold committed. rewrite Hs1, Hst4.
    destruct (Hdirty c pid Hc) as (leaf & Hl & Hlr); [exists u; split; [by apply (kc_old _ _ K)|done]|].
    exists leaf. split; [exact Hl|]. rewrite Hlr. unfold stored. by rewrite Ht2.
  - intros c pid Hc Hnd. unfold committed. rewrite Hs1, Hst4, <- (kc_root _ _ K c pid Hc). apply (Hroot c pid Hc).
    intros (u & Hu & Hd). destruct (tx_open (STx s) !! child_path c pid) as [u0|] eqn:E.
    + pose proof (kc_old _ _ K _ _ _ E) as E'. apply Hnd. exists u0. split; [done|congruence].
    + rewrite (kc_new _ _ K c pid u E Hu) in Hd. done.
Qed.
End save.

(** ** The first state *)

Section genesis.
Context `{ArboLaws, LruLaws, ProtoLaws}.

(** The trees [ts] have their leaf in the main tree; every tree is still empty. *)
Record starting (ts : list StateTree) (tx : TreeTx) : Prop := {
  st_main : exists u, tx_open tx !! [] = Some u /\ (ts <> [] -> dirtyTree u = true);
  st_open p u : tx_open tx !! p = Some u ->
    canonical p u /\ is_Some (db_trees (tx_db tx) !! tree_key (tu_prefix u)) /\
    (p <> [] -> dirtyTree u = false);
  st_leaf t : t ∈ ts -> leaves (stored tx main_key) !! StateTree_KindID t = Some (zeros 32);
  st_tree t : stored tx (st_key t) = arbo_new HashSha256 256;
  st_child p x : tx_open tx !! [p; x] = None;
}.

Lemma starting_wf ts tx : (forall t, t ∈ ts) -> starting ts tx -> wf_tx tx.
Proof.
  intros Hall [(u & Hu & Hd) Hopen Hleaf Htree Hchild].
  assert (Hne : ts <> []) by (intros ->; specialize (Hall TreeExtra); set_solver). split.
  - by eexists.
  - intros p w Hw. destruct (Hopen p w Hw) as (? & ? & _). done.
  - intros t _. by rewrite Hleaf, Htree, root_new.
  - intros t. exists (zeros 32). split; [by apply Hleaf|done].
  - intros t. by rewrite Htree, levels_new.
  - intros Hc. specialize (Hc u Hu). rewrite Hd in Hc by done. done.
  - intros x. rewrite Hchild. by intros [? ?].
Qed.

Lemma starting_add ts key value tx tx' :
  starting ts tx -> TU_Add [] key value tx = (tx', Ok tt) ->
  exists m, tx' = put_tree main_key m (with_dirty [] tx) /\ starting ts tx' /\
    leaves m = <[key := value]> (leaves (stored tx main_key)) /\
    (forall w, tx_open tx' !! [] = Some w -> dirtyTree w = true).
Proof.
  intros S Hrun. destruct (st_main _ _ S) as (u & Hu & _).
  destruct (st_open _ _ S _ _ Hu) as (Hpre%canonical_main_inv & [t Ht] & _).
  unfold TU_Add in Hrun. apply bind_Ok in Hrun as ([] & tx1 & ->%modify_Ok & Hrun).
  fold (with_dirty [] tx) in Hrun.
  apply bind_Ok in Hrun as (u' & tx2 & [-> Hu']%node_Ok & Hrun).
  destruct (with_dirty_lookup _ _ _ _ Hu') as (u0 & Hu0 & Hpre' & _).
  assert (u0 = u) as -> by congruence. rewrite Hpre in Hpre'.
  apply bind_Ok in Hrun as (t0 & tx2 & [-> Ht0]%node_tree_Ok & Hrun).
  apply bind_Ok in Hrun as (t' & tx2 & [-> Hadd]%lift_Ok & ->%modify_Ok).
  rewrite Hpre' in *. change (tree_key "") with main_key in *.
  apply tree_add_leaves in Hadd as (Hnone & Hl & _). exists t'.
  change (on_db (with_trees (<[main_key := t']>)) (with_dirty [] tx))
    with (put_tree main_key t' (with_dirty [] tx)).
  assert (Hst : stored tx main_key = t0) by (unfold stored; simpl in Ht0; by rewrite Ht0).
  split_and!; [done| |by rewrite Hl, Hst|intros w; apply with_dirty_dirty].
  split.
  - exists u'. split; [exact Hu'|]. intros _. by eapply with_dirty_dirty.
  - intros p w Hw. destruct (with_dirty_lookup _ _ _ _ Hw) as (w0 & Hw0 & Hpw & Hcw).
    destruct (st_open _ _ S _ _ Hw0) as (Hcan & Hst0 & Hdw). split_and!.
    + by eapply canonical_ext.
    + simpl. rewrite Hpw, lookup_insert_is_Some'. by right.
    + intros Hp. specialize (Hdw Hp). simpl in Hw. rewrite lookup_alter_ne in Hw by done. congruence.
  - intros t1 Ht1. rewrite stored_put, decide_True by done. rewrite Hl.
    destruct (decide (key = StateTree_KindID t1)) as [->|Hne]; [|].
    + pose proof (st_leaf _ _ S t1 Ht1) as Hleaf. rewrite Hst in Hleaf. congruence.
    + rewrite lookup_insert_ne, <- Hst by done. by apply (st_leaf _ _ S).
  - intros t1. rewrite stored_put, decide_False by (intros Heq; by apply (st_key_main t1)).
    apply (st_tree _ _ S).
  - intros p x. simpl. rewrite lookup_alter_ne by done. apply (st_child _ _ S).
Qed.

Lemma starting_subtree t ts tx tx' q :
  starting ts tx -> (forall w, tx_open tx !! [] = Some w -> dirtyTree w = true) ->
  leaves (stored tx main_key) !! StateTree_KindID t = Some (zeros 32) ->
  SubTree [] (StateTreeCfg t) tx = (tx', Ok q) -> starting (t :: ts) tx'.
Proof.
  intros S Hd Hleaf Hrun. assert (Hopened : tx' = opened t tx).
  { unfold SubTree in Hrun. rewrite bind_gets in Hrun. cbn [app] in Hrun. unfold opened.
    change (prefix (StateTreeCfg t)) with (StateTree_KindID t) in Hrun.
    destruct (tx_open tx !! [StateTree_KindID t]) eqn:Ho; [by apply ret_Ok in Hrun as [-> _]|].
    destruct (st_main _ _ S) as (u & Hu & _).
    destruct (st_open _ _ S _ _ Hu) as (Hpre%canonical_main_inv & [m Hm] & _).
    assert (Hst : stored tx main_key = m) by (rewrite Hpre in Hm; change (tree_key "") with main_key in Hm; unfold stored; by rewrite Hm).
    change (parentLeafKey (StateTreeCfg t)) with (StateTree_KindID t) in Hrun.
    erewrite bind_run_Ok in Hrun;
      [|rewrite (TU_Get_run _ _ _ _ _ Hu Hm); rewrite Hst in Hleaf; rewrite (get_found _ _ _ Hleaf); reflexivity].
    erewrite bind_run_Ok in Hrun by reflexivity.
    rewrite (bind_run_Ok _ _ _ _ _ (node_run _ _ _ Hu)), sub_path_singleton, tree_key_st in Hrun by done.
    unfold mbind at 1, gom_bind at 1, zoom in Hrun. rewrite open_at_same in Hrun.
    - change (default _ (db_trees (tx_db tx) !! st_key t)) with (stored tx (st_key t)) in Hrun.
      by injection Hrun as <- _.
    - change (default _ (db_trees (tx_db tx) !! st_key t)) with (stored tx (st_key t)).
      by rewrite (st_tree _ _ S), root_new. }
  subst tx'. split.
  - destruct (st_main _ _ S) as (u & Hu & _). exists u. split; [|intros _; by apply Hd].
    unfold opened. destruct (tx_open tx !! [StateTree_KindID t]); [done|]. simpl. by rewrite lookup_insert_ne.
  - intros p u. unfold opened. destruct (tx_open tx !! [StateTree_KindID t]) eqn:Ho; [apply (st_open _ _ S)|].
    simpl. destruct (decide (p = [StateTree_KindID t])) as [->|Hne].
    + rewrite lookup_insert_eq. intros [= <-]. split_and!; [by constructor| |done]. simpl.
      by rewrite tree_key_st, lookup_insert_eq.
    + rewrite lookup_insert_ne by done. intros Hp. destruct (st_open _ _ S _ _ Hp) as (? & ? & ?).
      split_and!; [done| |done]. rewrite lookup_insert_is_Some'. by right.
  - intros t1. rewrite elem_of_cons, stored_opened. intros [->|Ht1]; [done|by apply (st_leaf _ _ S)].
  - intros t1. rewrite stored_opened. apply (st_tree _ _ S).
  - intros p x. unfold opened. destruct (tx_open tx !! [StateTree_KindID t]); [apply (st_child _ _ S)|]. simpl.
    rewrite lookup_insert_ne by done. apply (st_child _ _ S).
Qed.

Lemma init_tree_starting t ts tx tx' :
  starting ts tx -> init_tree t tx = (tx', Ok tt) -> starting (t :: ts) tx'.
Proof.
  intros S Hrun. unfold init_tree in Hrun. apply bind_Ok in Hrun as ([] & tx1 & Hadd & Hrun).
  apply bind_Ok in Hrun as (q & tx2 & Hsub & Hrun). apply ret_Ok in Hrun as [-> _].
  destruct (starting_add _ _ _ _ _ S Hadd) as (m & -> & S1 & Hl & Hd).
  eapply starting_subtree; [done|done| |done]. rewrite stored_put, decide_True by done. rewrite Hl.
  by rewrite lookup_insert_eq.
Qed.

Lemma BeginTx_empty tx : BeginTx empty_DB = Ok tx -> starting [] tx.
Proof.
  unfold BeginTx. change (getRoot empty_DB) with (Ok (zeros hashLen)). cbn [mbind outcome_bind].
  rewrite open_at_same by apply root_new. intros [= <-]. split; simpl.
  - eexists. split; [by rewrite lookup_singleton_eq|done].
  - intros p u [<- <-]%lookup_singleton_Some. split_and!; [by constructor| |done]. simpl.
    change (tree_key "") with main_key. by rewrite lookup_insert_eq.
  - intros t []%not_elem_of_nil.
  - intros t. unfold stored. simpl. change (tree_key "") with main_key.
    rewrite lookup_insert_ne; [done|]. intros Heq. by apply (st_key_main t).
  - intros p x. by apply lookup_singleton_ne.
Qed.

(** The database that [initStateDB] creates is good. *)
Lemma initStateDB_good d :
  initStateDB empty_DB = Ok d ->
  good_db d /\ StateDB_Version d = Ok 0 /\ forall k, db_view d TreeProcess !! k = None.
Proof.
  unfold initStateDB. change (StateDB_Hash empty_DB) with (Ok (zeros hashLen)). cbn [mbind outcome_bind].
  rewrite bool_decide_false by auto. intros Hrun.
  apply outcome_bind_Ok in Hrun as (tx & Hbegin & Hrun). apply BeginTx_empty in Hbegin as S.
  match type of Hrun with context [let '(_, _) := ?m tx in _] => destruct (m tx) as [tx' r] eqn:Hm end.
  apply outcome_bind_Ok in Hrun as ([] & -> & [= <-]).
  do 6 (apply bind_Ok in Hm as ([] & ? & Hi & Hm); apply (init_tree_starting _ _ _ _ S) in Hi; clear S; rename Hi into S).
  pose proof (st_tree _ _ S TreeProcess) as Hempty. apply starting_wf in S; [|intros []; set_solver].
  destruct (TreeTx_Commit_good 0 _ _ S ltac:(done) Hm) as (Hg & Hv & _ & Hr & _).
  split_and!; [done..|]. intros k. specialize (Hr k). unfold view in Hr at 1.
  rewrite Hempty, leaves_new, lookup_empty in Hr. destruct Hr as [Hr|(? & ? & ? & ? & Hb & _)]; [exact Hr|done].
Qed.

(** An initialised database is left as it is. *)
Lemma initStateDB_again d d' : good_db d -> initStateDB d = Ok d' -> d' = d.
Proof.
  intros Hg. unfold initStateDB. intros Hrun. apply outcome_bind_Ok in Hrun as (root & _ & Hrun).
  case_bool_decide; [by injection Hrun as <-|]. apply outcome_bind_Ok in Hrun as (tx & Hb & Hrun).
  match type of Hrun with context [let '(_, _) := ?m tx in _] => destruct (m tx) as [tx' r] eqn:Hm end.
  apply outcome_bind_Ok in Hrun as ([] & -> & _). exfalso.
  apply bind_Ok in Hm as ([] & tx1 & Hi & _). unfold init_tree in Hi.
  apply bind_Ok in Hi as ([] & tx2 & Hadd & _). unfold TU_Add in Hadd.
  apply bind_Ok in Hadd as ([] & tx3 & ->%modify_Ok & Hadd).
  apply bind_Ok in Hadd as (u & tx4 & [-> Hu]%node_Ok & Hadd).
  apply bind_Ok in Hadd as (t & tx4 & [-> Ht]%node_tree_Ok & Hadd).
  apply bind_Ok in Hadd as (t' & tx4 & [-> Hleaf]%lift_Ok & _). fold (with_dirty [] tx) in *.
  destruct (BeginTx_good _ Hg) as (tx0 & Htx & Hwf & _). rewrite Hb in Htx. injection Htx as <-.
  destruct (with_dirty_lookup _ _ _ _ Hu) as (u0 & Hu0 & Hpre & _).
  destruct (wf_open tx Hwf _ _ Hu0) as [Hcan%canonical_main_inv _]. rewrite Hpre, Hcan in Ht.
  change (tree_key "") with main_key in Ht. apply tree_add_leaves in Hleaf as (Hnone & _).
  destruct (wf_leaf tx Hwf TreeExtra) as (r & Hr & _). unfold stored in Hr. simpl in Ht.
  rewrite Ht in Hr. simpl in Hr. change (TreeConfig_Key (StateTreeCfg TreeExtra)) with "xtra" in Hnone.
  congruence.
Qed.

Lemma NewState_again d c s :
  good_db d -> NewState d c = Ok s -> Store s = d /\ begun s /\ view_current s /\ currentHeight s = 0.
Proof.
  unfold NewState. intros Hg Hrun. apply outcome_bind_Ok in Hrun as (d' & Hd & Hrun).
  destruct (initStateDB d) as [d0|e|w] eqn:Hi; try done. injection Hd as ->.
  apply initStateDB_again in Hi as ->; [|done].
  apply outcome_bind_Ok in Hrun as (v & _ & Hrun). apply outcome_bind_Ok in Hrun as (h & _ & Hrun).
  apply outcome_bind_Ok in Hrun as (tx & Hb & Hrun). apply outcome_bind_Ok in Hrun as (view & Hv & [= <-]).
  split_and!; [done| |done|done].
  exact (BeginTx_begun (mkState d tx view false c false [] 0 [] 0 "") tx Hg Hb).
Qed.

Lemma NewState_first c s :
  NewState empty_DB c = Ok s ->
  good_db (Store s) /\ begun s /\ view_current s /\ currentHeight s = 0 /\
  forall k, sview s TreeProcess !! k = None.
Proof.
  unfold NewState. intros Hrun. apply outcome_bind_Ok in Hrun as (d & Hd & Hrun).
  destruct (initStateDB empty_DB) as [d'|e|w] eqn:Hi; try done. injection Hd as ->.
  apply initStateDB_good in Hi as (Hg & _ & Hempty).
  apply outcome_bind_Ok in Hrun as (v & _ & Hrun). apply outcome_bind_Ok in Hrun as (h & _ & Hrun).
  apply outcome_bind_Ok in Hrun as (tx & Hb & Hrun). apply outcome_bind_Ok in Hrun as (mv & Hv & [= <-]).
  pose proof (BeginTx_begun (mkState d tx mv false c false [] 0 [] 0 "") tx Hg Hb) as Hbg.
  split_and!; [done|exact Hbg|done|done|].
  intros k. etrans; [|exact (Hempty k)]. exact (f_equal (.!! k) (begun_view _ Hbg TreeProcess)).
Qed.
End genesis.
