(* ===== verification/ChainFacts.v ===== *)
(** * The application as a state machine

    The calls tendermint makes to the application of [src/vochain/app.go] are the steps of a
    relation on its states, with the restart of the node on its database as a further step.
    The invariant of the machine says that the store is a good database, that the working
    state is well formed and that its processes come from the committed ones by the steps of
    the abstract process of [Lifecycle.v] and by what [Save] writes. *)

From stdpp Require Import base option list strings gmap relations.
From S2P Require Import Prelude GoMonad GoLib Models External Tree StateDB StateTrees State.
From S2P Require Import StateFacts CommitFacts Account AccountFacts VoteCache Process ProcessFacts.
From S2P Require Import Census CensusProof Transaction TxFacts App Lifecycle BlockFacts.

(** ** Steps of a process over several blocks *)

Definition chain_step (p p' : Process) : Prop := (exists h, pstep h p p') \/ saved p p'.

Lemma chain_identity p p' : rtc chain_step p p' -> identity p' = identity p.
Proof.
  induction 1 as [|p p1 p' [[h Hs]|Hs] _ IH]; [done|..]; rewrite IH.
  - by eapply pstep_identity.
  - by apply saved_identity.
Qed.

Lemma chain_final p p' :
  rtc chain_step p p' -> Status p = CANCELED \/ Status p = RESULTS -> Status p' = Status p.
Proof.
  induction 1 as [|p p1 p' Hs _ IH]; [done|]. intros Hf.
  assert (Heq : Status p1 = Status p).
  { destruct Hs as [[h Hs]|Hs]; [by eapply pstep_final|by apply saved_identity]. }
  rewrite IH by (by rewrite Heq). done.
Qed.

Lemma rtc_chain h p p' : rtc (pstep h) p p' -> rtc chain_step p p'.
Proof. apply rtc_subrel. intros x y Hs. left. by exists h. Qed.

Section machine.
Context `{ArboLaws, LruLaws, ProtoLaws, EthCryptoLaws, !ProofLibs}.
Variable tm_Hash : bytes -> bytes.

(** The calls of tendermint that return; a panic ends the node, which then restarts on the
    store with an empty cache. *)
Inductive abci_step (a : BaseApplication) : BaseApplication -> Prop :=
| abci_begin time h a' : BeginBlock time h a = (a', Ok tt) -> abci_step a a'
| abci_check recheck content a' r : CheckTx recheck content a = (a', Ok r) -> abci_step a a'
| abci_deliver content a' r : DeliverTx tm_Hash content a = (a', Ok r) -> abci_step a a'
| abci_end h time a' : EndBlock h time a = (a', Ok tt) -> abci_step a a'
| abci_commit a' hash : App_Commit a = (a', Ok hash) -> abci_step a a'
| abci_restart c s : NewState (Store (AppState a)) c = Ok s -> abci_step a (set_AppState s a).

Record chain_inv (s : State) : Prop := {
  inv_good : good_db (Store s);
  inv_wf : wf s;
  inv_view : view_current s;
  inv_height : is_u32 (currentHeight s);
  inv_keyed : keyed s;
  inv_committed pid p : committed_process s pid = Some p -> ProcessId p = pid;
  inv_working pid p : committed_process s pid = Some p ->
    exists p', process s pid = Some p' /\ rtc chain_step p p';
}.

(** The committed processes only make steps. *)
Definition advances (s s' : State) : Prop :=
  forall pid p, committed_process s pid = Some p ->
    exists p', committed_process s' pid = Some p' /\ rtc chain_step p p'.

#[export] Instance advances_preorder : PreOrder advances.
Proof.
  split; [by intros s pid p Hp; exists p|]. intros s1 s2 s3 H12 H23 pid p (p2 & Hp & R2)%H12.
  apply H23 in Hp as (p3 & Hp & R3). exists p3. split; [done|by etrans].
Qed.

Lemma advances_store s s' : Store s' = Store s -> advances s s'.
Proof. intros Heq pid p Hp. exists p. split; [|done]. unfold committed_process, committed in *. by rewrite Heq. Qed.

(** A state that was just opened on a good store. *)
Lemma chain_inv_begun s :
  good_db (Store s) -> begun s -> view_current s -> is_u32 (currentHeight s) ->
  (forall pid p, committed_process s pid = Some p -> ProcessId p = pid) -> chain_inv s.
Proof.
  intros Hg Hb Hv Hh Hk. split; try done.
  - apply Hb.
  - intros pid p. rewrite (begun_process s pid Hb). apply Hk.
  - intros pid p Hp. exists p. by rewrite (begun_process s pid Hb).
Qed.

(** ** Work on the state within a block *)

Definition works (s s' : State) : Prop := same_block s s' /\ evolves s s'.

#[export] Instance works_preorder : PreOrder works.
Proof. split; [by intros s|]. intros s1 s2 s3 [A1 B1] [A2 B2]. split; by etrans. Qed.

Lemma works_inv s s' : works s s' -> chain_inv s -> chain_inv s' /\ advances s s'.
Proof.
  intros [(Hst & Hv & Hh & Hc) He] [Ig Iw Iv Ih Ik Ic Ip]. destruct (He Iw Ik) as (Hwf & Hk & _ & Hp).
  assert (Hcom : forall pid, committed_process s' pid = committed_process s pid).
  { intros pid. unfold committed_process, committed. by rewrite Hst. }
  split; [|by apply advances_store]. split; try done.
  - by rewrite Hst.
  - unfold view_current. by rewrite Hst, Hv.
  - by rewrite Hh.
  - intros pid p. rewrite Hcom. apply Ic.
  - intros pid p. rewrite Hcom. intros (p1 & Hp1 & R1)%Ip. apply Hp in Hp1 as (p2 & Hp2 & R2).
    exists p2. split; [done|]. etrans; [done|]. by eapply rtc_chain.
Qed.

Lemma works_AddTx ch vks vtx c : keeps works (AddTx ch vks vtx c).
Proof. intros s. split; [apply (spreserves_AddTx ch vks vtx c s)|apply (evolves_AddTx ch vks vtx c s)]. Qed.

Lemma works_squiet {A} (m : GoM State A) : keeps spreserves m -> keeps squiet m -> keeps works m.
Proof. intros Hp Hq s. split; [apply (Hp s)|apply (squiet_evolves _ Hq s)]. Qed.

Lemma works_notify ev : keeps works (notify ev).
Proof. apply works_squiet; [apply spreserves_notify|apply squiet_notify]. Qed.

Lemma works_TxCounterAdd : keeps works TxCounterAdd.
Proof. apply works_squiet; [apply spreserves_TxCounterAdd|]. intros s. by split. Qed.

Definition app_works (a a' : BaseApplication) : Prop := works (AppState a) (AppState a').

#[export] Instance app_works_preorder : PreOrder app_works.
Proof. split; [by intros a|]. intros a1 a2 a3. unfold app_works. by etrans. Qed.

Lemma app_works_on_State {A} (m : GoM State A) : keeps works m -> keeps app_works (on_State m).
Proof. intros Hm a. specialize (Hm (AppState a)). unfold on_State, zoom. by destruct (m (AppState a)). Qed.

Lemma app_works_AddTx tx c : keeps app_works (app_AddTx tx c).
Proof.
  unfold app_AddTx. apply keeps_bind; [apply _|intros a; reflexivity|]. intros a.
  apply app_works_on_State, works_AddTx.
Qed.

Lemma app_works_CheckTx recheck content : keeps app_works (CheckTx recheck content).
Proof.
  unfold CheckTx. destruct recheck; [apply keeps_ret, _|].
  apply keeps_bind; [apply _|intros a; reflexivity|]. intros a.
  destruct (VochainTx_Unmarshal _ _); [|apply keeps_ret, _|apply keeps_panic, _].
  apply keeps_bind; [apply _|apply keeps_catch, app_works_AddTx|]. intros r. apply keeps_ret, _.
Qed.

Lemma app_works_DeliverTx content : keeps app_works (DeliverTx tm_Hash content).
Proof.
  unfold DeliverTx. apply keeps_deferring; [apply _|intros a; apply (works_TxCounterAdd (AppState a))|].
  apply keeps_bind; [apply _|intros a; reflexivity|]. intros a.
  destruct (VochainTx_Unmarshal _ _); [|apply keeps_ret, _|apply keeps_panic, _].
  apply keeps_bind; [apply _|apply keeps_catch, app_works_AddTx|]. intros [e|response]; [apply keeps_ret, _|].
  apply keeps_bind; [apply _|intros a1; reflexivity|]. intros a1.
  apply keeps_bind; [apply _| |intros _; apply keeps_ret, _].
  apply app_works_on_State, keeps_bind; [apply _|apply keeps_gets, _|]. intros n. apply works_notify.
Qed.

(** ** Blocks *)

(** Everything the chain is about is the same. *)
Definition same_chain (s s' : State) : Prop :=
  Store s' = Store s /\ STx s' = STx s /\ mainTreeView s' = mainTreeView s /\
  currentHeight s' = currentHeight s.

#[export] Instance same_chain_preorder : PreOrder same_chain.
Proof. unfold same_chain. split; [done|]. intros s1 s2 s3. naive_solver congruence. Qed.

Lemma same_chain_CachePurge h : keeps same_chain (CachePurge h).
Proof.
  unfold CachePurge. apply keeps_unless_disabled; [apply _|]. destruct (negb _); [apply keeps_ret, _|].
  apply keeps_bind; [apply _|apply keeps_gets, _|]. intros keys.
  apply keeps_bind; [apply _| |].
  { apply (keeps_impl cache_shrinks); [|apply shrinks_purge_loop]. by intros s s' [-> _]. }
  intros removed. apply keeps_bind; [apply _|apply keeps_gets, _|]. intros hook.
  destruct (_ && _); [by intros s|apply keeps_ret, _].
Qed.

Lemma CachePurge_runs h s : exists s', CachePurge h s = (s', Ok tt).
Proof.
  unfold CachePurge, unless_disabled, cacheDisabled. rewrite bind_gets.
  destruct (DisableVoteCache s); [by eexists|]. destruct (negb _); [by eexists|]. rewrite bind_gets.
  destruct (purge_loop_run h (lru_keys (voteCache s)) [] s) as (s1 & r & Hrun & _).
  rewrite (bind_run_Ok _ _ _ _ _ Hrun), bind_gets. destruct (_ && _); by eexists.
Qed.

Lemma chain_inv_fields s s' : same_chain s s' -> chain_inv s -> chain_inv s' /\ advances s s'.
Proof.
  intros (Hst & Htx & Hv & Hh) [Ig Iw Iv Ih Ik Ic Ip]. split; [|by apply advances_store].
  unfold keyed, process, process_leaf, sview, committed_process, committed, view_current, wf in *.
  split; unfold keyed, process, process_leaf, sview, committed_process, committed, view_current, wf;
    rewrite ?Hst, ?Htx, ?Hv, ?Hh; done.
Qed.

(** The working state is the committed one at the start of a block. *)
Lemma BeginBlock_inv time h a a' :
  chain_inv (AppState a) -> BeginBlock time h a = (a', Ok tt) ->
  chain_inv (AppState a') /\ advances (AppState a) (AppState a') /\ begun (AppState a') /\
  currentHeight (AppState a') = u32 h /\ Store (AppState a') = Store (AppState a).
Proof.
  intros I Hrun. unfold BeginBlock in Hrun. apply bind_Ok in Hrun as ([] & a1 & Hr & Hrun).
  apply zoom_run in Hr as (s1 & Hr & ->).
  destruct (Rollback_Ok (AppState a) (inv_good _ I)) as (s1' & Hr' & Hb & (Hst & Hv & Hh & _) & _).
  rewrite Hr in Hr'. injection Hr' as <-.
  apply bind_Ok in Hrun as ([] & a2 & ->%modify_Ok & Hrun).
  apply bind_Ok in Hrun as ([] & a3 & Hm & Hrun). apply zoom_run in Hm as (s2 & ->%modify_Ok & ->).
  apply zoom_run in Hrun as (s3 & Hp & ->).
  apply (keeps_run _ _ _ _ _ (same_chain_CachePurge _)) in Hp. simpl in Hp.
  assert (I1 : chain_inv (SetHeight (u32 h) s1)).
  { apply chain_inv_begun; simpl.
    - rewrite Hst. apply I.
    - destruct Hb as [B1 B2 B3 B4 B5]. by split.
    - unfold view_current. simpl. rewrite Hst, Hv. apply I.
    - apply u32_range.
    - intros pid p. unfold committed_process, committed. simpl. rewrite Hst. apply (inv_committed _ I). }
  destruct (chain_inv_fields _ _ Hp I1) as [I2 _]. destruct Hp as (P1 & P2 & P3 & P4). simpl in *.
  split_and!; [exact I2|apply advances_store; simpl; by rewrite P1| |by rewrite P4|by rewrite P1].
  destruct Hb as [B1 B2 B3 B4 B5]. split; [|intros t; specialize (B2 t)| |intros k; specialize (B4 k)|by rewrite P2];
    unfold wf, sview, kv, committed in *; by rewrite P2, ?P1.
Qed.

Lemma fatal_Ok {A} (m : GoM State A) s s' x : fatal m s = (s', Ok x) -> m s = (s', Ok x).
Proof.
  intros Hrun. unfold fatal in Hrun. apply bind_Ok in Hrun as (r & s1 & Hc & Hrun).
  apply catch_Ok in Hc. destruct r as [e|y]; [done|]. apply ret_Ok in Hrun as [-> <-].
  by destruct Hc as [(? & ? & ?)|(? & ? & ?)]; simplify_eq.
Qed.

Lemma Save_inv s s' hash :
  chain_inv s -> Save s = (s', Ok hash) -> chain_inv s' /\ advances s s'.
Proof.
  intros I Hrun. destruct (Save_Ok _ _ _ (inv_wf _ I) (inv_height _ I) Hrun) as [Sg Sb Sv Sh Svw Ss Sht Sc].
  assert (Hcom : forall pid p, committed_process s' pid = Some p -> ProcessId p = pid).
  { intros pid p'. rewrite <- (begun_process s' pid Sb). intros (p & Hp & Hs)%(settles_back _ _ Ss).
    apply saved_identity in Hs as [Hid _]. unfold identity in Hid. apply (inv_keyed _ I) in Hp. congruence. }
  split; [apply chain_inv_begun; [done..| |done]; rewrite Sht; apply I|].
  intros pid p (p1 & Hp1 & R1)%(inv_working _ I). apply (settles_process _ _ Ss) in Hp1 as (p2 & Hp2 & S2).
  exists p2. rewrite <- (begun_process s' pid Sb). split; [done|]. eapply rtc_r; [done|]. by right.
Qed.

Lemma abci_inv a a' :
  abci_step a a' -> chain_inv (AppState a) ->
  chain_inv (AppState a') /\ advances (AppState a) (AppState a').
Proof.
  intros Hs I. destruct Hs as [time h a' Hrun|re content a' r Hrun|content a' r Hrun|h time a' Hrun|a' hash Hrun|c s Hrun].
  - by destruct (BeginBlock_inv _ _ _ _ I Hrun) as (? & ? & _).
  - apply (keeps_run _ _ _ _ _ (app_works_CheckTx re content)) in Hrun. by apply works_inv.
  - apply (keeps_run _ _ _ _ _ (app_works_DeliverTx content)) in Hrun. by apply works_inv.
  - apply modify_Ok in Hrun as ->. split; [exact I|reflexivity].
  - apply zoom_run in Hrun as (s' & Hrun%fatal_Ok & ->). by eapply Save_inv.
  - destruct (NewState_again _ _ _ (inv_good _ I) Hrun) as (Hst & Hb & Hv & Hh). split; [|by apply advances_store].
    apply chain_inv_begun; simpl; [rewrite Hst; apply I|done|done|by rewrite Hh|].
    intros pid p. unfold committed_process, committed. rewrite Hst. apply (inv_committed _ I).
Qed.

Lemma abci_star a a' :
  rtc abci_step a a' -> chain_inv (AppState a) ->
  chain_inv (AppState a') /\ advances (AppState a) (AppState a').
Proof.
  induction 1 as [a|a a1 a' Hs _ IH]; intros I; [by split|].
  destruct (abci_inv _ _ Hs I) as [I1 A1]. destruct (IH I1) as [I2 A2]. split; [done|by etrans].
Qed.

(** ** Genesis *)

Lemma squiet_AddValidator v : keeps squiet (AddValidator v).
Proof. unfold AddValidator. skeeps_auto. Qed.

Lemma squiet_SetTreasurer a n : keeps squiet (SetTreasurer a n).
Proof. unfold SetTreasurer. skeeps_auto. Qed.

Lemma works_fatal {A} (m : GoM State A) : keeps works m -> keeps works (fatal m).
Proof.
  intros Hm. unfold fatal. apply keeps_bind; [apply _|by apply keeps_catch|].
  intros [e|x]; [apply keeps_panic, _|apply keeps_ret, _].
Qed.

Lemma works_AddOracle a : keeps works (AddOracle a).
Proof. apply works_squiet; [apply spreserves_AddOracle|apply squiet_AddOracle]. Qed.

Lemma works_CreateAccount a u d b : keeps works (CreateAccount a u d b).
Proof. apply works_squiet; [apply spreserves_CreateAccount|apply squiet_CreateAccount]. Qed.

Lemma works_MintBalance a n : keeps works (MintBalance a n).
Proof. apply works_squiet; [apply spreserves_MintBalance|apply squiet_MintBalance]. Qed.

Lemma works_SetAccount a acc : keeps works (SetAccount a acc).
Proof. apply works_squiet; [apply spreserves_SetAccount|apply squiet_SetAccount]. Qed.

Lemma works_AddValidator v : keeps works (AddValidator v).
Proof. apply works_squiet; [apply spreserves_AddValidator|apply squiet_AddValidator]. Qed.

Lemma works_SetTreasurer a n : keeps works (SetTreasurer a n).
Proof. apply works_squiet; [apply spreserves_SetTreasurer|apply squiet_SetTreasurer]. Qed.

Lemma works_SetTxCost t c : keeps works (SetTxCost t c).
Proof. apply works_squiet; [apply spreserves_SetTxCost|apply squiet_SetTxCost]. Qed.
End machine.

#[export] Hint Resolve works_fatal works_AddOracle works_CreateAccount works_MintBalance works_SetAccount
  works_AddValidator works_SetTreasurer works_SetTxCost : keeps.

Section genesis_chain.
Context `{ArboLaws, LruLaws, ProtoLaws, EthCryptoLaws, !ProofLibs}.
Variable tm_Hash : bytes -> bytes.

Lemma works_then {A} (m : GoM State unit) (k : GoM State A) s s' x :
  keeps works m -> chain_inv s -> (m;; k) s = (s', Ok x) -> exists s1, chain_inv s1 /\ k s1 = (s', Ok x).
Proof.
  intros Hm I Hrun. apply bind_Ok in Hrun as ([] & s1 & Hone & Hrun). exists s1. split; [|done].
  apply (keeps_run _ _ _ _ _ Hm) in Hone. by destruct (works_inv _ _ Hone I).
Qed.

(** The writes of [InitChain], then its [Save]. *)
Lemma InitChain_inv order g s s' :
  chain_inv s -> InitChain order g s = (s', Ok tt) -> chain_inv s'.
Proof.
  intros I Hrun. unfold InitChain in Hrun.
  apply works_then in Hrun as (s1 & I1 & Hrun); [|unfold genesis_oracle; keeps_auto|done].
  apply works_then in Hrun as (s2 & I2 & Hrun); [|unfold genesis_account; keeps_auto|done].
  apply works_then in Hrun as (s3 & I3 & Hrun); [|unfold genesis_validator; keeps_auto|done].
  do 3 (apply works_then in Hrun as (? & ? & Hrun); [|keeps_auto|done]).
  apply bind_Ok in Hrun as (h & s7 & Hsave%fatal_Ok & Hrun). apply ret_Ok in Hrun as [-> _].
  by eapply Save_inv.
Qed.

(** The states of a node that was started on an empty database. *)
Inductive reachable (order : list (TxType * Z) -> list (TxType * Z)) (g : GenesisAppState) :
  BaseApplication -> Prop :=
| reach_genesis c s chain vks a :
    NewState empty_DB c = Ok s ->
    on_State (InitChain order g) (App_SetChainID chain (mkApp s 0 0 0 "" vks)) = (a, Ok tt) ->
    reachable order g a
| reach_step a a' : reachable order g a -> abci_step tm_Hash a a' -> reachable order g a'.

Lemma reachable_inv order g a : reachable order g a -> chain_inv (AppState a).
Proof.
  induction 1 as [c s chain vks a Hn Hi|a a' _ IH Hs]; [|by apply (abci_inv tm_Hash _ _ Hs)].
  apply zoom_run in Hi as (s' & Hi & ->). eapply InitChain_inv; [|exact Hi].
  destruct (NewState_first _ _ Hn) as (Hg & Hb & Hv & Hh & Hempty). simpl. apply chain_inv_begun; simpl.
  - done.
  - destruct Hb as [B1 B2 B3]. by split.
  - done.
  - by rewrite Hh.
  - intros pid p. unfold committed_process, committed. simpl. fold (committed s TreeProcess).
    by rewrite <- (begun_view s Hb), Hempty.
Qed.
End genesis_chain.
