(* ===== verification/VoconeFacts.v ===== *)
(** * What the chain with one node does

    [commitBlock] delivers the transactions of the queue in order and stores the accepted ones; a
    round of the loop is a sequence of the calls of tendermint. *)

From stdpp Require Import base option list strings gmap pretty.
From Stdlib Require Import ZArith Ascii String Lia.
From S2P Require Import Prelude GoMonad GoLib Database Sha256 Models External Ethereum SignKeys Tree StateDB StateTrees.
From S2P Require Import State StateFacts CommitFacts Account AccountFacts VoteCache Process ProcessFacts CensusProof.
From S2P Require Import Census AccountTx VoteTx ProcessTx Transaction App TxFacts Vocone Lifecycle BlockFacts.
From S2P Require Import ChainFacts.

(** ** The counter of transactions

    Nothing in the delivery of a transaction but [DeliverTx] itself changes the counter of the
    transactions of the block. *)

Definition same_counter `{Arbo, Lru} (s s' : State) : Prop := txCounter s' = txCounter s.

#[export] Instance same_counter_preorder `{Arbo, Lru} : PreOrder same_counter.
Proof. unfold same_counter. split; [done|]. intros ? ? ? ? ?. congruence. Qed.

Section counter.
Context `{Arbo, Lru, Proto, EthCrypto, !ProofLibs}.

Lemma same_counter_on_Tx {A} (m : GoM TreeTx A) : keeps same_counter (on_Tx m).
Proof. intros s. unfold on_Tx, zoom. by destruct (m (STx s)). Qed.

Lemma same_counter_notify e : keeps same_counter (notify e).
Proof. by intros s. Qed.

Lemma same_counter_cache_Get k : keeps same_counter (cache_Get k).
Proof. intros s. unfold cache_Get. by destruct (lru_get (voteCache s) k). Qed.

(** Unfolds the operations down to those of the transaction of the trees. *)
Ltac head t := match t with ?f _ => head f | _ => t end.
Ltac counter_step :=
  first
    [ apply same_counter_on_Tx | apply same_counter_notify | apply same_counter_cache_Get | keeps_step
    | match goal with
      | |- keeps _ (modify _) => by intros ?s
      | |- keeps _ (deferring _ _) => fail 1
      | |- keeps _ ?m => let h := head m in unfold h
      end ].

Lemma same_counter_CacheDel id : keeps same_counter (CacheDel id).
Proof. repeat counter_step. Qed.

Lemma same_counter_AddTx ch vks tx c : keeps same_counter (AddTx ch vks tx c).
Proof.
  repeat first [counter_step | apply keeps_deferring; [apply _|intros ?; apply same_counter_CacheDel|]].
Qed.

(** Whatever becomes of a transaction, the counter goes up by one; the listeners are told of an
    accepted one with the counter before. *)
Lemma DeliverTx_counter tm_Hash content a a' r :
  DeliverTx tm_Hash content a = (a', Ok r) ->
  txCounter (AppState a') = i32 (txCounter (AppState a) + 1) /\
  (Code r = 0 -> exists s h, AppState a' =
     set_txCounter (i32 (txCounter (AppState a) + 1)) (notified (OnNewTx (tm_Hash content) h (txCounter (AppState a))) s)).
Proof.
  unfold DeliverTx, deferring. intros Hr.
  match type of Hr with (let (_, _) := ?x in _) = _ => destruct x as [a1 o] eqn:Hm end. injection Hr as <- ->.
  apply bind_Ok in Hm as (x & y & Hg & Hm). injection Hg as <- <-.
  destruct (VochainTx_Unmarshal content (app_chainID a)) as [tx|e|w]; [| |done].
  2:{ apply ret_Ok in Hm as [-> <-]. by split. }
  apply bind_Ok in Hm as (res & a2 & Hc & Hm).
  assert (Hs : txCounter (AppState a2) = txCounter (AppState a)).
  { apply catch_Ok in Hc.
    assert (Hk : keeps (fun a b => same_counter (AppState a) (AppState b)) (app_AddTx tx true)).
    { intros b. unfold app_AddTx. rewrite (bind_run_Ok get _ b b b eq_refl). unfold on_State, zoom.
      pose proof (same_counter_AddTx (app_chainID b) (ZkVKs b) tx true (AppState b)) as Hb.
      by destruct (AddTx _ _ _ _ (AppState b)) as [s o]. }
    destruct Hc as [(z & Hc & _) | (z & Hc & _)]; exact (keeps_run _ _ _ _ _ Hk Hc). }
  destruct res as [e|response].
  - apply ret_Ok in Hm as [-> <-]. split; [|done]. cbn. by rewrite Hs.
  - apply bind_Ok in Hm as (b & a3 & Hg & Hm). injection Hg as <- <-.
    apply bind_Ok in Hm as ([] & a4 & Hn & Hm). apply ret_Ok in Hm as [-> <-].
    apply zoom_run in Hn as (s & Hn & ->). unfold TxCounter in Hn. rewrite bind_gets in Hn. apply notify_Ok in Hn as ->.
    cbn. rewrite Hs. split; [done|]. intros _. eexists _, _. reflexivity.
Qed.
End counter.

(** ** Keys of the block store *)

(** No underscore. *)
Fixpoint unscored (s : string) : Prop :=
  match s with EmptyString => True | String c s' => c <> "_"%char /\ unscored s' end.

Lemma unscored_char x : pretty_N_char x <> "_"%char.
Proof. unfold pretty_N_char. by repeat case_match. Qed.

Lemma unscored_go x s : unscored s -> unscored (pretty_N_go x s).
Proof.
  revert s. induction (N.lt_wf_0 x) as [x _ IH]; intros s Hs.
  assert (x = 0 \/ 0 < x)%N as [->|Hx] by lia; [by rewrite pretty_N_go_0|].
  rewrite pretty_N_go_step by done. apply IH; [by apply N.div_lt|]. split; [apply unscored_char|done].
Qed.

Lemma unscored_N (x : N) : unscored (pretty x).
Proof. unfold pretty, pretty_N. case_decide; [by split|]. by apply unscored_go. Qed.

Lemma unscored_pretty (z : Z) : unscored (pretty z).
Proof. destruct z as [|p|p]; [by split|exact (unscored_N (N.pos p))|split; [done|exact (unscored_N (N.pos p))]]. Qed.

Lemma unscored_split a b c d :
  unscored a -> unscored c -> a +:+ String "_" b = c +:+ String "_" d -> a = c /\ b = d.
Proof.
  revert c. induction a as [|x a IH]; intros [|y c] Ha Hc E; cbn in *.
  - by injection E.
  - injection E as <- _. by destruct Hc.
  - injection E as -> _. by destruct Ha.
  - injection E as <- E. destruct (IH c) as [-> ->]; naive_solver.
Qed.

Lemma block_tx_key_inj h i h' i' : block_tx_key h i = block_tx_key h' i' -> h = h' /\ i = i'.
Proof.
  intros E. apply unscored_split in E as [Eh Ei]; [|apply unscored_pretty..].
  apply (inj pretty) in Eh, Ei. done.
Qed.


Section facts.
Context `{ArboLaws, LruLaws, ProtoLaws, EthCryptoLaws, !ProofLibs, !EthSign, FifoLaws}.
Context {D T : Type} {ops : Database D T} {view : DatabaseView D T} {laws : DatabaseLaws D T}.
Notation vocone := (Vocone (D := D)).
Variable tm_Hash : bytes -> bytes.

(** ** Deliveries *)

(** The transactions of a block, of which [room] are accepted at most: the accepted ones and those
    that are left. *)
Fixpoint deliver_all (room : Z) (txs : list bytes) : GoM BaseApplication (list bytes * list bytes) :=
  match txs with
  | [] => mret ([], [])
  | tx :: rest =>
      if 0 <? room then
        resp ← DeliverTx tm_Hash tx;
        if Code resp =? 0 then r ← deliver_all (room - 1) rest; mret (tx :: r.1, r.2)
        else deliver_all room rest
      else mret ([], txs)
  end.

Definition block_writes (h c : Z) (acc : list bytes) : list write_op :=
  imap (fun i tx => WSet (block_tx_key h (c + Z.of_nat i)) tx) acc.

Context (room : forall k v (t : T), (tx_Set (D := D) k v t).2 = Ok tt).

Lemma commit_loop_run fuel c t (v : vocone) m :
  (List.length (items (vc_mempool v)) < fuel)%nat -> tx_view t (vc_blockStore v) m ->
  match deliver_all (vc_txsPerBlock v - c) (items (vc_mempool v)) (vc_app v) with
  | (a, Ok (acc, later)) =>
      exists q t', commit_loop tm_Hash fuel c t v =
                     (set_vc_mempool q (set_vc_app a v), Ok (c + Z.of_nat (List.length acc), t')) /\
        items q = later /\
        tx_view t' (vc_blockStore v) (fold_left apply_write (block_writes (vc_height v) c acc) m)
  | (_, Err e) => (commit_loop tm_Hash fuel c t v).2 = Err e
  | (_, Panic w) => (commit_loop tm_Hash fuel c t v).2 = Panic w
  end.
Proof.
  revert c t v m. induction fuel as [|fuel IH]; intros c t v m Hf Hv; [lia|].
  cbn [commit_loop]. erewrite bind_run_Ok by reflexivity. cbv beta.
  pose proof (Dequeue_spec (vc_mempool v)) as Hd.
  destruct (items (vc_mempool v)) as [|tx rest] eqn:Hi; cbn [deliver_all].
  - destruct Hd as [e Hd]. exists (vc_mempool v), t. rewrite Hd, Z.add_0_r.
    split_and!; [|done|done]. destruct v, (_ <? _); done.
  - replace (0 <? vc_txsPerBlock v - c) with (c <? vc_txsPerBlock v) by lia.
    destruct (c <? vc_txsPerBlock v).
    2:{ exists (vc_mempool v), t. rewrite Z.add_0_r. split_and!; [|done|done]. by destruct v. }
    destruct Hd as (q & Hd & Hq & _). rewrite Hd.
    rewrite (bind_run_Ok (modify (set_vc_mempool q)) _ v (set_vc_mempool q v) tt eq_refl).
    destruct (DeliverTx tm_Hash tx (vc_app v)) as [a1 r] eqn:Hdel.
    assert (Hz : on_app (DeliverTx tm_Hash tx) (set_vc_mempool q v) = (set_vc_app a1 (set_vc_mempool q v), r)).
    { unfold on_app, zoom. cbn [vc_app set_vc_mempool]. by rewrite Hdel. }
    unfold mbind at 1, gom_bind at 1. rewrite Hdel. destruct r as [resp|e|w].
    2,3: unfold mbind, gom_bind; by rewrite Hz.
    rewrite (bind_run_Ok _ _ _ _ _ Hz). cbv beta. destruct (Code resp =? 0).
    + pose proof (room (block_tx_key (vc_height v) c) tx t) as Hr.
      destruct (tx_Set (block_tx_key (vc_height v) c) tx t) as [t1 o] eqn:Hs. cbn in Hr. subst o.
      assert (Hv1 : tx_view t1 (vc_blockStore v) (apply_write m (WSet (block_tx_key (vc_height v) c) tx)))
        by (by eapply tx_view_op).
      specialize (IH (c + 1) t1 (set_vc_app a1 (set_vc_mempool q v)) _ ltac:(cbn in *; rewrite Hq; lia) Hv1).
      cbn [vc_txsPerBlock vc_mempool vc_app vc_height vc_blockStore set_vc_app set_vc_mempool] in IH. rewrite Hq in IH.
      replace (vc_txsPerBlock v - c - 1) with (vc_txsPerBlock v - (c + 1)) by lia.
      unfold mbind at 1, gom_bind at 1.
      destruct (deliver_all (vc_txsPerBlock v - (c + 1)) rest a1) as [a2 [[acc later]|e|w]]; [|done|done].
      destruct IH as (q' & t' & Hrun & Hq' & Ht'). exists q', t'. split_and!; [|done|].
      * rewrite Hrun. cbn. do 3 f_equal. lia.
      * cbn [fst snd]. unfold block_writes in *. cbn [imap fold_left]. rewrite Z.add_0_r.
        erewrite imap_ext; [exact Ht'|]. intros i x _. cbn. do 2 f_equal. lia.
    + specialize (IH c t (set_vc_app a1 (set_vc_mempool q v)) m ltac:(cbn in *; rewrite Hq; lia) Hv).
      cbn [vc_txsPerBlock vc_mempool vc_app vc_height vc_blockStore set_vc_app set_vc_mempool] in IH. by rewrite Hq in IH.
Qed.

(** ** Blocks *)

Lemma block_writes_cons h c x (acc : list bytes) :
  block_writes h c (x :: acc) = WSet (block_tx_key h c) x :: block_writes h (c + 1) acc.
Proof.
  unfold block_writes. cbn [imap]. rewrite Z.add_0_r. f_equal. apply imap_ext. intros j y _. cbn. do 2 f_equal. lia.
Qed.

Lemma block_writes_other h c (acc : list bytes) m k :
  (forall j, (j < List.length acc)%nat -> k <> block_tx_key h (c + Z.of_nat j)) ->
  fold_left apply_write (block_writes h c acc) m k = m k.
Proof.
  revert c m. induction acc as [|x acc IH]; intros c m Hk; [done|].
  rewrite block_writes_cons. cbn [fold_left]. rewrite IH.
  - unfold apply_write. rewrite decide_False; [done|]. cbn. rewrite <- (Z.add_0_r c). apply (Hk 0%nat). cbn. lia.
  - intros j Hj. replace (c + 1 + Z.of_nat j) with (c + Z.of_nat (S j)) by lia. apply Hk. cbn. lia.
Qed.

Lemma block_writes_lookup h c (acc : list bytes) m i :
  (i < List.length acc)%nat ->
  fold_left apply_write (block_writes h c acc) m (block_tx_key h (c + Z.of_nat i)) = acc !! i.
Proof.
  revert c m i. induction acc as [|x acc IH]; intros c m i Hi; [cbn in Hi; lia|].
  rewrite block_writes_cons. cbn [fold_left]. destruct i as [|i].
  - rewrite Z.add_0_r. rewrite block_writes_other by (intros j Hj E; apply block_tx_key_inj in E as [_ E]; lia).
    unfold apply_write. by rewrite decide_True.
  - replace (c + Z.of_nat (S i)) with (c + 1 + Z.of_nat i) by lia. apply IH. cbn in Hi. lia.
Qed.

Lemma commitBlock_run (v : vocone) :
  match deliver_all (vc_txsPerBlock v) (items (vc_mempool v)) (vc_app v) with
  | (a, Ok (acc, later)) =>
      exists q d', commitBlock tm_Hash v = (set_vc_blockStore d' (set_vc_mempool q (set_vc_app a v)), Ok tt) /\
        items q = later /\
        forall k, contents (T := T) d' k =
                  fold_left apply_write (block_writes (vc_height v) 0 acc) (contents (T := T) (vc_blockStore v)) k
  | (_, Err e) => (commitBlock tm_Hash v).2 = Err e
  | (_, Panic w) => (commitBlock tm_Hash v).2 = Panic w
  end.
Proof.
  pose proof (commit_loop_run (S (Z.to_nat (fifo_GetLen (vc_mempool v)))) 0 (db_WriteTx (vc_blockStore v)) v
                _ ltac:(rewrite GetLen_spec; lia) (tx_view_new _)) as Hl.
  rewrite Z.sub_0_r in Hl. unfold commitBlock.
  destruct (deliver_all (vc_txsPerBlock v) (items (vc_mempool v)) (vc_app v)) as [a [[acc later]|e|w]].
  - destruct Hl as (q & t & Hr & Hq & Hv). rewrite Z.add_0_l in Hr. exists q.
    rewrite (bind_run_Ok get _ v v v eq_refl). cbv beta zeta. rewrite (bind_run_Ok _ _ _ _ _ Hr). cbv beta iota.
    destruct (Z.ltb_spec 0 (Z.of_nat (List.length acc))).
    + destruct (tx_view_commit _ _ _ Hv) as (d' & Hc & Hd). exists d'. split_and!; [|done|done].
      eapply logged_run with (o := Ok tt); [|done]. cbn [vc_blockStore set_vc_mempool set_vc_app]. by rewrite Hc.
    + destruct acc; [|cbn in *; lia]. exists (vc_blockStore v). split_and!; [by destruct v|done|done].
  - rewrite (bind_run_Ok get _ v v v eq_refl). unfold mbind, gom_bind.
    destruct (commit_loop _ _ _ _ v) as [v' o]. cbn in Hl. by subst o.
  - rewrite (bind_run_Ok get _ v v v eq_refl). unfold mbind, gom_bind.
    destruct (commit_loop _ _ _ _ v) as [v' o]. cbn in Hl. by subst o.
Qed.

Lemma store_Get_run k (v : vocone) :
  store_Get k v = (v, match contents (T := T) (vc_blockStore v) k with Some b => Ok b | None => Err ErrKeyNotFound end).
Proof.
  unfold store_Get. rewrite (bind_run_Ok get _ v v v eq_refl).
  destruct (tx_view_get k (db_WriteTx (vc_blockStore v)) (vc_blockStore v) _ (tx_view_new _)) as (t & Hg & _).
  by rewrite Hg.
Qed.

(** ** The calls of tendermint *)

Lemma deliver_all_works n (txs : list bytes) : keeps app_works (deliver_all n txs).
Proof.
  revert n. induction txs as [|tx txs IH]; intros n; cbn [deliver_all]; [apply keeps_ret, _|].
  destruct (0 <? n); [|apply keeps_ret, _]. apply keeps_bind; [apply _|apply app_works_DeliverTx|].
  intros resp. destruct (Code resp =? 0); [|apply IH]. apply keeps_bind; [apply _|apply IH|].
  intros r. apply keeps_ret, _.
Qed.

Lemma deliver_all_steps n (txs : list bytes) a a' r :
  deliver_all n txs a = (a', Ok r) -> rtc (abci_step tm_Hash) a a'.
Proof.
  revert n a r. induction txs as [|tx txs IH]; intros n a r Hr; cbn [deliver_all] in Hr.
  { apply ret_Ok in Hr as [-> _]. done. }
  destruct (0 <? n); [|apply ret_Ok in Hr as [-> _]; done].
  apply bind_Ok in Hr as (resp & a1 & Hd & Hr). eapply rtc_l; [by eapply abci_deliver|].
  destruct (Code resp =? 0); [|by eapply IH].
  apply bind_Ok in Hr as (x & a2 & Hx & Hr). apply ret_Ok in Hr as [-> _]. by eapply IH.
Qed.

(** A round of [Start], call by call. *)
Lemma produce_block_run bt et (v v' : vocone) hash :
  produce_block tm_Hash bt et v = (v', Ok hash) ->
  exists a1 a2 acc a3,
    BeginBlock bt (vc_height v) (vc_app v) = (a1, Ok tt) /\
    deliver_all (vc_txsPerBlock v) (items (vc_mempool v)) a1 = (a2, Ok (acc, items (vc_mempool v'))) /\
    App_Commit a2 = (a3, Ok hash) /\ EndBlock (vc_height v) et a3 = (vc_app v', Ok tt) /\
    vc_height v' = i64 (vc_height v + 1) /\
    forall k, contents (T := T) (vc_blockStore v') k =
              fold_left apply_write (block_writes (vc_height v) 0 acc) (contents (T := T) (vc_blockStore v)) k.
Proof.
  unfold produce_block. intros Hr. apply bind_Ok in Hr as (h & v1 & Hh & Hr). cbn in Hh. injection Hh as <- <-.
  apply bind_Ok in Hr as ([] & v1 & Hb & Hr). apply zoom_run in Hb as (a1 & Hb & ->).
  apply bind_Ok in Hr as ([] & v2 & Hc & Hr).
  pose proof (commitBlock_run (set_vc_app a1 v)) as Hcb. cbn [vc_txsPerBlock vc_mempool vc_app set_vc_app] in Hcb.
  destruct (deliver_all _ _ a1) as [a2 [[acc later]|e|w]] eqn:Hd; [|rewrite Hc in Hcb; done..].
  destruct Hcb as (q & d' & Hcb & <- & Hk). rewrite Hc in Hcb. injection Hcb as ->.
  apply bind_Ok in Hr as (comres & v3 & Hcm & Hr). apply zoom_run in Hcm as (a3 & Hcm & ->).
  apply bind_Ok in Hr as ([] & v4 & He & Hr). apply zoom_run in He as (a4 & He & ->).
  apply bind_Ok in Hr as ([] & v5 & Hm & Hr). apply modify_Ok in Hm as ->. apply ret_Ok in Hr as [-> ->]. cbn in *.
  by exists a1, a2, acc, a3.
Qed.

Lemma produce_block_steps bt et (v v' : vocone) hash :
  produce_block tm_Hash bt et v = (v', Ok hash) -> rtc (abci_step tm_Hash) (vc_app v) (vc_app v').
Proof.
  intros (a1 & a2 & acc & a3 & Hb & Hd & Hc & He & _)%produce_block_run.
  eapply rtc_l; [by eapply abci_begin|]. etrans; [by eapply deliver_all_steps|].
  eapply rtc_l; [by eapply abci_commit|]. by eapply rtc_once, abci_end.
Qed.

(** The transactions that the next block of the node stores. *)
Definition accepted_txs (bt : Z) (v : vocone) : list bytes :=
  match (BeginBlock bt (vc_height v);; deliver_all (vc_txsPerBlock v) (items (vc_mempool v))) (vc_app v) with
  | (_, Ok (acc, _)) => acc
  | _ => []
  end.

Lemma produce_block_stores bt et (v v' : vocone) hash i tx :
  produce_block tm_Hash bt et v = (v', Ok hash) -> accepted_txs bt v !! i = Some tx ->
  contents (T := T) (vc_blockStore v') (block_tx_key (vc_height v) (Z.of_nat i)) = Some tx.
Proof.
  intros (a1 & a2 & acc & a3 & Hb & Hd & _ & _ & _ & Hk)%produce_block_run Hi. unfold accepted_txs in Hi.
  rewrite (bind_run_Ok _ _ _ _ _ Hb), Hd in Hi. rewrite Hk, <- (Z.add_0_l (Z.of_nat i)).
  by rewrite block_writes_lookup by (by apply lookup_lt_Some in Hi).
Qed.

(** The number of a block is the version of the store after it. *)
Lemma produce_block_version bt et (v v' : vocone) hash :
  chain_inv (AppState (vc_app v)) -> produce_block tm_Hash bt et v = (v', Ok hash) ->
  StateDB_Version (Store (AppState (vc_app v'))) = Ok (u32 (vc_height v)).
Proof.
  intros I (a1 & a2 & acc & a3 & Hb & Hd & Hc & He & _)%produce_block_run.
  destruct (BeginBlock_inv _ _ _ _ I Hb) as (I1 & _ & _ & Hh & _).
  apply (keeps_run _ _ _ _ _ (deliver_all_works _ _)) in Hd. destruct (works_inv _ _ Hd I1) as [I2 _]. destruct Hd as [(_ & _ & Hh2 & _) _].
  apply zoom_run in Hc as (s & Hs%fatal_Ok & ->). apply modify_Ok in He as ->. cbn.
  destruct (Save_Ok _ _ _ (inv_wf _ I2) (inv_height _ I2) Hs) as [_ _ Hv _ _ _ _ _]. by rewrite Hv, Hh2, Hh.
Qed.

(** ** Administration *)

Notation vstate v := (AppState (vc_app v)).

(** What a step does to the chain. *)
Definition chain_kept (v v' : vocone) : Prop :=
  chain_inv (vstate v) -> chain_inv (vstate v') /\ advances (vstate v) (vstate v').

#[local] Instance chain_kept_preorder : PreOrder chain_kept.
Proof.
  split; [by intros v I|]. intros v1 v2 v3 A B I. destruct (A I) as [I2 A2]. destruct (B I2) as [I3 A3].
  split; [done|by etrans].
Qed.

Lemma on_vc_state_works {A} (m : GoM State A) (v v' : vocone) r :
  keeps works m -> on_vc_state m v = (v', Ok r) -> chain_kept v v'.
Proof.
  intros Hm Hr. apply zoom_run in Hr as (a & Hr & ->). apply zoom_run in Hr as (s & Hr & ->).
  apply (keeps_run _ _ _ _ _ Hm) in Hr. intros I. by apply works_inv.
Qed.

Lemma saved_change_kept (m : GoM State unit) (v v' : vocone) :
  keeps works m -> saved_change m v = (v', Ok tt) -> chain_kept v v'.
Proof.
  intros Hm Hr I. unfold saved_change in Hr. apply bind_Ok in Hr as (h & v1 & Hr & Hret). apply ret_Ok in Hret as [-> _].
  apply zoom_run in Hr as (a & Hr & ->). apply zoom_run in Hr as (s & Hr & ->).
  apply bind_Ok in Hr as ([] & s1 & Hone & Hs). apply (keeps_run _ _ _ _ _ Hm) in Hone.
  destruct (works_inv _ _ Hone I) as [I1 A1]. destruct (Save_inv _ _ _ I1 Hs) as [I2 A2]. split; [done|by etrans].
Qed.

Lemma works_IncrementTreasurerNonce : keeps works IncrementTreasurerNonce.
Proof. apply works_squiet; [apply spreserves_IncrementTreasurerNonce|apply squiet_IncrementTreasurerNonce]. Qed.

Lemma works_oracle addr : keeps works (catch (AddOracle addr);; mret tt).
Proof. apply keeps_bind; [apply _|apply keeps_catch, works_AddOracle|]. intros _. apply keeps_ret, _. Qed.

Lemma works_Oracles c : keeps works (Oracles c).
Proof. apply works_squiet; [apply sreads_spreserves, sreads_Oracles|]. unfold Oracles. skeeps_auto. Qed.

Lemma AddOracle_kept k (v v' : vocone) : Vocone_AddOracle k v = (v', Ok tt) -> chain_kept v v'.
Proof.
  intros Hr. unfold Vocone_AddOracle in Hr. apply bind_Ok in Hr as (l & v1 & Hl & Hr).
  apply bind_Ok in Hr as (addr & v2 & Ha & Hr). apply lift_Ok in Ha as [-> _].
  etrans; [by eapply on_vc_state_works; [apply works_Oracles|]|].
  destruct (bool_decide _); [apply ret_Ok in Hr as [-> _]; reflexivity|].
  eapply saved_change_kept; [apply works_oracle|done].
Qed.

(** ** Steps *)

(** The steps are the calls that return without error; a call of the administration that fails is
    reported to its caller and is not followed further. *)
Inductive vstep (v v' : vocone) : Prop :=
| v_block bt et hash : produce_block tm_Hash bt et v = (v', Ok hash) -> vstep v v'
| v_addTx message tx r : addTx message tx v = (v', Ok r) -> vstep v v'
| v_size n : SetBlockSize n v = (v', Ok tt) -> vstep v v'
| v_oracle k : Vocone_AddOracle k v = (v', Ok tt) -> vstep v v'
| v_account a acc : Vocone_CreateAccount a acc v = (v', Ok tt) -> vstep v v'
| v_treasurer a : Vocone_SetTreasurer a v = (v', Ok tt) -> vstep v v'
| v_mint a n : Vocone_MintTokens a n v = (v', Ok tt) -> vstep v v'
| v_cost t c : Vocone_SetTxCost t c v = (v', Ok tt) -> vstep v v'
| v_costs ts c : SetBulkTxCosts ts c v = (v', Ok tt) -> vstep v v'.

Lemma addTx_kept message tx (v v' : vocone) r : addTx message tx v = (v', Ok r) -> chain_kept v v'.
Proof.
  intros Hr. unfold addTx in Hr. apply bind_Ok in Hr as (resp & v1 & Hc & Hr).
  apply zoom_run in Hc as (a & Hc & ->). apply (keeps_run _ _ _ _ _ (app_works_CheckTx false tx)) in Hc.
  assert (Hv : vstate v' = AppState a).
  { apply bind_Ok in Hr as ([] & v2 & Hq & Hr). apply ret_Ok in Hr as [-> _].
    destruct (Code resp =? 0); [|by apply ret_Ok in Hq as [-> _]].
    apply bind_Ok in Hq as (v3 & v4 & Hg & Hq). injection Hg as <- <-.
    destruct (fifo_Enqueue _ _) as [e|q]; [by apply throw_Ok in Hq|]. by apply modify_Ok in Hq as ->. }
  intros I. rewrite Hv. by apply works_inv.
Qed.

Lemma vstep_kept v v' : vstep v v' -> chain_kept v v'.
Proof.
  intros [bt et hash Hr|message tx r Hr|n Hr|k Hr|a acc Hr|a Hr|a n Hr|t c Hr|ts c Hr].
  - intros I. apply produce_block_steps in Hr. by eapply abci_star.
  - by eapply addTx_kept.
  - apply modify_Ok in Hr as ->. intros I. by split.
  - by eapply AddOracle_kept.
  - by eapply saved_change_kept, Hr; apply works_SetAccount.
  - by eapply saved_change_kept, Hr; apply works_SetTreasurer.
  - eapply saved_change_kept, Hr. apply keeps_bind; [apply _|apply works_MintBalance|].
    intros _. apply works_IncrementTreasurerNonce.
  - eapply saved_change_kept, Hr. apply keeps_bind; [apply _|apply works_SetTxCost|].
    intros _. apply works_IncrementTreasurerNonce.
  - eapply saved_change_kept, Hr. apply keeps_bind; [apply _|apply keeps_mfor; [apply _|]; intros t; apply works_SetTxCost|].
    intros _. apply works_IncrementTreasurerNonce.
Qed.

(** ** Counters *)

Lemma i32_add c n : i32 (i32 c + n) = i32 (c + n).
Proof.
  unfold i32. replace ((c + 2 ^ 31) mod 2 ^ 32 - 2 ^ 31 + n + 2 ^ 31) with ((c + 2 ^ 31) mod 2 ^ 32 + n) by lia.
  rewrite Z.add_mod_idemp_l by lia. do 2 f_equal. lia.
Qed.

(** Every transaction that was taken from the queue counts. *)
Lemma deliver_all_counter n (txs : list bytes) a a' acc :
  deliver_all n txs a = (a', Ok (acc, [])) -> - 2 ^ 31 <= txCounter (AppState a) < 2 ^ 31 ->
  txCounter (AppState a') = i32 (txCounter (AppState a) + Z.of_nat (List.length txs)).
Proof.
  intros Hr Hc. assert (Hc' : i32 (txCounter (AppState a)) = txCounter (AppState a)).
  { unfold i32. rewrite Z.mod_small by lia. lia. }
  clear Hc. revert n a acc Hr Hc'. induction txs as [|tx txs IH]; intros n a acc Hr Hc; cbn [deliver_all] in Hr.
  { apply ret_Ok in Hr as [-> _]. by rewrite Z.add_0_r. }
  destruct (0 <? n); [|by apply ret_Ok in Hr as [_ [=]]].
  apply bind_Ok in Hr as (resp & a1 & Hd & Hr). apply DeliverTx_counter in Hd as [Hd _].
  assert (Hc1 : i32 (txCounter (AppState a1)) = txCounter (AppState a1)).
  { rewrite Hd. pose proof (i32_add (txCounter (AppState a) + 1) 0) as Hi. by rewrite !Z.add_0_r in Hi. }
  assert (Ha' : txCounter (AppState a') = i32 (txCounter (AppState a1) + Z.of_nat (List.length txs))).
  { destruct (Code resp =? 0); [|by eapply IH].
    apply bind_Ok in Hr as ([acc' later] & a2 & Hx & Hr). apply ret_Ok in Hr as [-> [= _ ->]]. by eapply IH. }
  rewrite Ha', Hd, i32_add. f_equal. cbn [List.length]. lia.
Qed.

Lemma deliver_all_app n (pre rest : list bytes) a a1 acc :
  deliver_all n pre a = (a1, Ok (acc, [])) ->
  deliver_all n (pre ++ rest) a =
  (r ← deliver_all (n - Z.of_nat (List.length acc)) rest; mret (acc ++ r.1, r.2)) a1.
Proof.
  revert n a acc. induction pre as [|tx pre IH]; intros n a acc Hr; cbn [deliver_all app] in *.
  { apply ret_Ok in Hr as [-> [= <-]]. rewrite Z.sub_0_r. unfold mbind, gom_bind.
    by destruct (deliver_all n rest a) as [? [[]| |]]. }
  destruct (0 <? n); [|by apply ret_Ok in Hr as [_ [=]]].
  apply bind_Ok in Hr as (resp & a2 & Hd & Hr). rewrite (bind_run_Ok _ _ _ _ _ Hd). destruct (Code resp =? 0); [|by apply IH].
  apply bind_Ok in Hr as ([acc' later] & a3 & Hx & Hr). apply ret_Ok in Hr as [Hs Heq]. simplify_eq/=.
  apply IH in Hx. unfold mbind at 1, gom_bind at 1. rewrite Hx. cbn [List.length].
  replace (n - Z.of_nat (S (List.length acc'))) with (n - 1 - Z.of_nat (List.length acc')) by lia.
  unfold mbind, gom_bind. by destruct (deliver_all _ rest a3) as [? [[]| |]].
Qed.

Lemma deliver_all_room n (txs : list bytes) a a' acc later :
  deliver_all n txs a = (a', Ok (acc, later)) -> Z.of_nat (List.length acc) <= Z.max 0 n.
Proof.
  revert n a a' acc later. induction txs as [|tx txs IH]; intros n a a' acc later Hr; cbn [deliver_all] in Hr.
  { apply ret_Ok in Hr as [_ [= <- _]]. cbn. lia. }
  destruct (Z.ltb_spec 0 n); [|apply ret_Ok in Hr as [_ [= <- _]]; cbn; lia].
  apply bind_Ok in Hr as (resp & a2 & Hd & Hr). destruct (Code resp =? 0); [|by eapply IH].
  apply bind_Ok in Hr as ([acc' later'] & a3 & Hx & Hr). apply ret_Ok in Hr as [_ Heq]. simplify_eq/=.
  apply IH in Hx. lia.
Qed.

(** ** Start *)

Lemma chain_inv_SetHeight h s : chain_inv s -> chain_inv (SetHeight (u32 h) s).
Proof. intros []. split; try done. apply u32_range. Qed.

Lemma on_vc_state_Ok {A} (m : GoM State A) (v v' : vocone) r :
  on_vc_state m v = (v', Ok r) -> m (vstate v) = (vstate v', Ok r).
Proof. intros Hr. apply zoom_run in Hr as (a & Hr & ->). by apply zoom_run in Hr as (s & Hr & ->). Qed.

Lemma SetTxCost_accounts t c s s' a : wf s -> SetTxCost t c s = (s', Ok tt) -> account s' a = account s a.
Proof.
  intros Hwf Hr. unfold SetTxCost in Hr. destruct (TxTypeCostToStateKey t); [|done].
  apply DeepSet_Ok in Hr; [|done]. unfold account. by rewrite (wrote_other _ _ _ _ _ Hr).
Qed.

(** The account of the oracle when the node is started. *)
Definition start_account : Account := mkAccount 10000 0 "" [] 0.

Lemma saved_account key acc (v v' : vocone) a :
  chain_inv (vstate v) -> Vocone_CreateAccount key acc v = (v', Ok tt) -> a <> key ->
  account (vstate v') a = account (vstate v) a.
Proof.
  intros I Hr Hne. unfold Vocone_CreateAccount, saved_change in Hr. apply bind_Ok in Hr as (h & v1 & Hr & Hret).
  apply ret_Ok in Hret as [-> _]. apply on_vc_state_Ok in Hr. apply bind_Ok in Hr as ([] & s1 & Ha & Hs).
  pose proof (keeps_run _ _ _ _ _ (works_SetAccount key acc) Ha) as Hw.
  destruct (works_inv _ _ Hw I) as [I1 _]. apply SetAccount_Ok in Ha; [|apply I].
  destruct (Save_Ok _ _ _ (inv_wf _ I1) (inv_height _ I1) Hs) as [_ _ _ _ _ Hset _ _].
  transitivity (account s1 a); [unfold account; by rewrite (settles_other _ _ Hset)|].
  rewrite (updated_account _ _ _ _ Ha). by rewrite decide_False.
Qed.

Lemma NewVocone_start app q d k addr (vc : vocone) :
  chain_inv (AppState app) -> SK_Address k = Ok addr -> NewVocone app q d k = Ok vc ->
  chain_inv (vstate vc) /\ advances (AppState app) (vstate vc) /\
  (addr <> BurnAddress -> account (vstate vc) addr = Some start_account).
Proof.
  intros I Ha Hn. unfold NewVocone in Hn. destruct (StateDB_Version (Store (AppState app))) as [version|e|w]; try done.
  cbn [mbind outcome_bind] in Hn. set (app1 := set_AppState _ app) in Hn. set (v0 := mkVocone app1 _ _ _ _) in Hn.
  assert (I0 : chain_inv (vstate v0)) by (by apply chain_inv_SetHeight).
  match type of Hn with (?m v0).2 = _ => destruct (m v0) as [v r] eqn:Hr end. cbn in Hn. subst r.
  apply bind_Ok in Hr as ([] & v1 & Ho & Hr). destruct (AddOracle_kept _ _ _ Ho I0) as [I1 A1].
  apply bind_Ok in Hr as (addr' & v1' & Hl & Hr). apply lift_Ok in Hl as [-> Hl]. rewrite Ha in Hl. injection Hl as <-.
  apply bind_Ok in Hr as ([] & v2 & Hs & Hr). destruct (on_vc_state_works _ _ _ _ (works_SetAccount _ _) Hs I1) as [I2 A2].
  apply bind_Ok in Hr as ([] & v3 & Hc1 & Hr). destruct (on_vc_state_works _ _ _ _ (works_SetTxCost _ _) Hc1 I2) as [I3 A3].
  apply bind_Ok in Hr as ([] & v4 & Hc2 & Hr). destruct (on_vc_state_works _ _ _ _ (works_SetTxCost _ _) Hc2 I3) as [I4 A4].
  apply bind_Ok in Hr as ([] & v5 & Hc3 & Hr). destruct (on_vc_state_works _ _ _ _ (works_SetTxCost _ _) Hc3 I4) as [I5 A5].
  apply bind_Ok in Hr as ([] & v6 & Hb & Hr). destruct (saved_change_kept _ _ _ (works_SetAccount _ _) Hb I5) as [I6 A6].
  injection Hr as <- <-. split; [done|]. split.
  - do 5 (etrans; [eassumption|]). done.
  - intros Hne. rewrite (saved_account _ _ _ _ _ I5 Hb Hne). apply on_vc_state_Ok in Hs, Hc1, Hc2, Hc3.
    rewrite (SetTxCost_accounts _ _ _ _ _ (inv_wf _ I4) Hc3), (SetTxCost_accounts _ _ _ _ _ (inv_wf _ I3) Hc2),
      (SetTxCost_accounts _ _ _ _ _ (inv_wf _ I2) Hc1).
    apply SetAccount_Ok in Hs; [|apply I1]. rewrite (updated_account _ _ _ _ Hs). by rewrite decide_True.
Qed.
(** Calls on the application leave the rest of the node. *)
Definition same_node (v v' : vocone) : Prop :=
  vc_height v' = vc_height v /\ vc_mempool v' = vc_mempool v /\ vc_blockStore v' = vc_blockStore v.

#[local] Instance same_node_preorder : PreOrder same_node.
Proof. split; [by intros v|]. intros v1 v2 v3 (A1 & B1 & C1) (A2 & B2 & C2). split_and!; by etrans. Qed.

Lemma same_node_on_app {A} (m : GoM BaseApplication A) : keeps same_node (on_app m).
Proof. intros v. unfold on_app, zoom. by destruct (m (vc_app v)). Qed.

Lemma same_node_saved_change m : keeps same_node (saved_change m).
Proof. apply keeps_bind; [apply _|apply same_node_on_app|]. intros _. apply keeps_ret, _. Qed.

Lemma same_node_AddOracle k : keeps same_node (Vocone_AddOracle k).
Proof.
  apply keeps_bind; [apply _|apply same_node_on_app|]. intros l. apply keeps_bind; [apply _|apply keeps_lift, _|].
  intros addr. destruct (bool_decide _); [apply keeps_ret, _|apply same_node_saved_change].
Qed.

Lemma NewVocone_node app q d k (vc : vocone) :
  NewVocone app q d k = Ok vc ->
  StateDB_Version (Store (AppState app)) = Ok (vc_height vc) /\ vc_mempool vc = q /\ vc_blockStore vc = d.
Proof.
  intros Hn. unfold NewVocone in Hn. destruct (StateDB_Version (Store (AppState app))) as [version|e|w]; try done.
  cbn [mbind outcome_bind] in Hn. set (v0 := mkVocone _ _ _ _ _) in Hn.
  match type of Hn with (?m v0).2 = _ => destruct (m v0) as [v r] eqn:Hr end. cbn in Hn. subst r.
  assert (Hv : same_node v0 v).
  { eapply keeps_run, Hr. apply keeps_bind; [apply _|apply same_node_AddOracle|]. intros _.
    apply keeps_bind; [apply _|apply keeps_lift, _|]. intros addr.
    do 4 (apply keeps_bind; [apply _|apply same_node_on_app|]; intros _).
    apply keeps_bind; [apply _|apply same_node_saved_change|]. intros _ v1. reflexivity. }
  assert (v = vc) as ->.
  { do 7 (apply bind_Ok in Hr as (? & ? & _ & Hr)). by injection Hr as <- <-. }
  destruct Hv as (Hh & Hq & Hd). cbn in *. by rewrite Hh.
Qed.
End facts.
