(* ===== verification/TokenFacts.v ===== *)
(** * What the token transactions do

    The effect of the checks of [AccountTx.v] and of the branches of [AddTx] that move
    tokens, as facts about accounts, costs and the treasurer. *)

From stdpp Require Import base option list strings gmap.
From Stdlib Require Import ZArith Lia.
From S2P Require Import Prelude GoMonad GoLib Sha256 Models External Ethereum Tree StateDB.
From S2P Require Import StateTrees State StateFacts Account AccountFacts AccountTx.
From S2P Require Import ProcessTx Transaction TxFacts.

(** The address that signed a message. *)
Definition signed_by `{EthCrypto} (body sig : bytes) (a : Address) : Prop :=
  exists pk, PubKeyFromSignature body sig = Ok pk /\ AddrFromPublicKey pk = Ok a.

Section checks_ok.
Context `{ArboLaws, LruLaws, ProtoLaws, EthCryptoLaws, !ProofLibs}.

Lemma sender_address_Ok body sig s s' a :
  sender_address body sig s = (s', Ok a) -> s' = s /\ signed_by body sig a.
Proof. unfold sender_address. intros Hrun. go_inv. split; [done|]. by eexists. Qed.

Lemma signed_tx_Ok {T} msg sig b (tx : option T) s s' x :
  signed_tx msg sig b tx s = (s', Ok x) -> s' = s /\ sig = Some x.1.1 /\ b = Some x.1.2 /\ tx = Some x.2.
Proof. unfold signed_tx. intros Hrun. destruct sig, tx, b; go_inv; by simpl. Qed.

End checks_ok.

(** Decomposes the run of a check. *)
Ltac tx_inv1 :=
  match goal with
  | H : signed_tx _ _ _ _ _ = (_, Ok ?x) |- _ =>
      let sig := fresh "sig" in let body := fresh "body" in let tx := fresh "tx" in
      let H1 := fresh "Hsig" in let H2 := fresh "Hbody" in let H3 := fresh "Htx" in
      destruct x as [[sig body] tx];
      apply signed_tx_Ok in H as (-> & H1 & H2 & H3); cbn [fst snd] in H1, H2, H3
  | H : sender_address _ _ _ = (_, Ok _) |- _ => apply sender_address_Ok in H as [-> H]
  | H : match ?o with Some _ => _ | None => throw _ end _ = (_, Ok _) |- _ => destruct o eqn:?; [|by go_inv]
  end.
Ltac tx_inv := repeat (tx_inv1 || go_inv1 || acc_inv1 || cost_inv1); bool_inv.

Section token_checks.
Context `{ArboLaws, LruLaws, ProtoLaws, EthCryptoLaws, !ProofLibs}.

Lemma SendTokensTxCheck_Ok vtx b sg s s' v :
  wf s -> SendTokensTxCheck vtx b sg s = (s', Ok v) ->
  sreads s s' /\
  exists tx body sig from to acc acc_to cost,
    GetSendTokens vtx = Some tx /\ b = Some body /\ sg = Some sig /\
    ST_From tx = Some from /\ ST_To tx = Some to /\
    signed_by body sig (BytesToAddress from) /\
    account s (BytesToAddress from) = Some acc /\ account s (BytesToAddress to) = Some acc_to /\
    Nonce acc = ST_Nonce tx /\ tx_cost s SEND_TOKENS = Some cost /\
    u64 (ST_Value tx + cost) <= Balance acc /\
    v = mkSendTokensValues (BytesToAddress from) (BytesToAddress to) (ST_Value tx) (ST_Nonce tx).
Proof.
  intros Hwf Hrun. pose proof (keeps_run _ _ _ _ _ (sreads_SendTokensTxCheck vtx b sg) Hrun) as Hr.
  split; [done|]. unfold SendTokensTxCheck, not_nil_tx in Hrun. tx_inv. subst.
  eexists _, _, _, _, _, _, _, _. by split_and!.
Qed.
End token_checks.

(** ** The treasurer *)

Section treasurer.
Context `{ArboLaws, LruLaws, ProtoLaws, EthCryptoLaws, !ProofLibs}.

Definition treasurer (s : State) : option Treasurer := sview s TreeExtra !! treasurerKey ≫= unmarshal.

Lemma treasurer_reads s s' : wf s -> sreads s s' -> treasurer s' = treasurer s.
Proof. intros Hwf Hr. unfold treasurer. by destruct (sreads_use _ _ Hr Hwf) as (_ & _ & -> & _). Qed.

Lemma State_Treasurer_Ok s s' t :
  wf s -> State_Treasurer false s = (s', Ok t) -> sreads s s' /\ treasurer s = Some t.
Proof.
  intros Hwf Hrun. unfold State_Treasurer, mainTreeViewer in Hrun.
  erewrite bind_run_Ok in Hrun by reflexivity.
  apply bind_Ok in Hrun as (v & s1 & Hsub & Hrun). apply bind_Ok in Hrun as (b & s2 & Hget & Hrun).
  destruct (read_leaf_Ok _ _ _ _ _ _ _ Hwf Hsub Hget) as [Hr Hb]. apply Unmarshal_Ok in Hrun as [-> Ht].
  split; [done|]. unfold treasurer. by rewrite Hb.
Qed.

Definition next_nonce (t : Treasurer) : Treasurer := with_Treasurer_Nonce (u32 (Treasurer_Nonce t + 1)) t.

Lemma IncrementTreasurerNonce_Ok s s' u :
  wf s -> IncrementTreasurerNonce s = (s', Ok u) ->
  exists t b, treasurer s = Some t /\ marshal (next_nonce t) = Some b /\
    wrote TreeExtra treasurerKey b s s'.
Proof.
  intros Hwf Hrun. unfold IncrementTreasurerNonce in Hrun.
  apply bind_Ok in Hrun as (t & s1 & Ht%wrapping_Ok & Hrun).
  apply State_Treasurer_Ok in Ht as [Hr Ht]; [|done].
  apply bind_Ok in Hrun as (b & s2 & [-> Hb]%wrapping_Ok%Marshal_Ok & Hrun). destruct u.
  apply DeepSet_Ok in Hrun; [|by eapply sreads_wf].
  exists t, b. split_and!; [done..|]. by eapply wrote_reads.
Qed.

Lemma treasurer_wrote t b s s' :
  marshal t = Some b -> wrote TreeExtra treasurerKey b s s' -> treasurer s' = Some t.
Proof.
  intros Hb Hw. unfold treasurer. rewrite (wrote_view _ _ _ _ _ Hw), lookup_insert_eq.
  exact (unmarshal_marshal _ _ Hb).
Qed.

Lemma treasurer_updated a acc s s' : updated a acc s s' -> treasurer s' = treasurer s.
Proof. intros Hu. unfold treasurer. by rewrite (updated_view _ _ _ _ Hu). Qed.

(** The nonce that was used is not the next one. *)
Lemma next_nonce_differs n : is_u32 n -> u32 (n + 1) <> n.
Proof.
  unfold is_u32, u32. intros Hn Heq. destruct (decide (n + 1 < 2 ^ 32)).
  - rewrite Z.mod_small in Heq; lia.
  - replace (n + 1) with (2 ^ 32) in Heq by lia. rewrite Z.mod_same in Heq; lia.
Qed.

Lemma MintTokensTxCheck_Ok vtx b sg s s' r :
  wf s -> MintTokensTxCheck vtx b sg s = (s', Ok r) ->
  sreads s s' /\
  exists tx body sig t,
    GetMintTokens vtx = Some tx /\ b = Some body /\ sg = Some sig /\ treasurer s = Some t /\
    signed_by body sig (BytesToAddress (Treasurer_Address t)) /\
    MT_Nonce tx = Treasurer_Nonce t /\ 0 < MT_Value tx /\
    r = (BytesToAddress (MT_To tx), MT_Value tx).
Proof.
  intros Hwf Hrun. pose proof (keeps_run _ _ _ _ _ (sreads_MintTokensTxCheck vtx b sg) Hrun) as Hr.
  split; [done|]. unfold MintTokensTxCheck in Hrun.
  apply bind_Ok in Hrun as ([[sig body] tx] & s1 & (-> & -> & -> & Htx)%signed_tx_Ok & Hrun).
  cbn [fst snd] in *. do 2 (apply bind_Ok in Hrun as ([] & s1 & [-> ?]%reject_Ok & Hrun)).
  apply bind_Ok in Hrun as (t & s1 & Ht & Hrun). apply State_Treasurer_Ok in Ht as [Hr1 Ht]; [|done].
  pose proof (sreads_wf _ _ Hwf Hr1) as Hwf1. tx_inv. subst.
  eexists _, _, _, _. by split_and!.
Qed.
End treasurer.

(** ** Faucet packages at no cost *)

Section zero_cost.
Context `{ArboLaws, LruLaws, ProtoLaws, EthCryptoLaws, !ProofLibs}.

(** A package cannot be consumed by a [SetAccountInfo] transaction when the cost is zero:
    the transfer of the cost is refused, before anything is written. *)
Lemma ConsumeFaucetPayload_zero from p s :
  wf s -> tx_cost s COLLECT_FAUCET = Some 0 ->
  sreads s (ConsumeFaucetPayload from p SET_ACCOUNT_INFO s).1 /\
  is_ok (ConsumeFaucetPayload from p SET_ACCOUNT_INFO s).2 = false.
Proof.
  intros Hwf Hc. destruct p as [p|]; [|done]. unfold ConsumeFaucetPayload.
  set (R := fun (s : State) (x : State * outcome unit) => sreads s x.1 /\ is_ok x.2 = false).
  assert (Hb : forall A (m : GoM State A) k s, wf s -> tx_cost s COLLECT_FAUCET = Some 0 -> keeps sreads m ->
    (forall a s1, m s = (s1, Ok a) -> wf s1 -> tx_cost s1 COLLECT_FAUCET = Some 0 -> R s1 (k a s1)) ->
    R s ((m ≫= k) s)).
  { intros A m k s0 Hwf0 Hc0 Hm Hk. specialize (Hm s0). unfold mbind, gom_bind.
    destruct (m s0) as [s1 [a|e|w]]; [|by split..]. simpl in Hm.
    destruct (Hk a s1 eq_refl) as [Hr Hno]; [by eapply sreads_wf|by rewrite (tx_cost_reads s0 s1)|].
    split; [by etrans|done]. }
  apply Hb; [done|done|keeps_auto|]. intros [] s1 _ Hwf1 Hc1.
  do 6 (apply Hb; [done|done|keeps_auto|]; clear Hwf1 Hc1; intros ? ? _ Hwf1 Hc1).
  apply Hb; [done|done|keeps_auto|]. intros [af at'] t1 _ Hwf2 Hc2. cbv beta iota.
  rewrite bool_decide_eq_true_2 by done. apply Hb; [done|done|keeps_auto|].
  intros r t2 Hrun Hwf3 Hc3. exfalso.
  apply bind_Ok in Hrun as (cost & t3 & Hcost & Hrun). apply TxCost_Ok in Hcost; [|done].
  destruct Hcost as (_ & Hcost & _). rewrite Hc2 in Hcost. injection Hcost as <-. by go_inv.
Qed.
End zero_cost.
