(* ===== verification/VoteFacts.v ===== *)
(** * The votes of a process

    Lemmas on the trees opened below the process tree, the effect of [AddVote] on the tree
    of the votes, and what the vote cache answers. *)

From stdpp Require Import base option list strings gmap.
From Stdlib Require Import ZArith Lia.
From S2P Require Import Prelude GoMonad GoLib Sha256 Models External Ethereum Tree StateDB.
From S2P Require Import StateTrees State StateFacts Account AccountFacts VoteCache Process.
From S2P Require Import ProcessFacts CensusProof Census VoteTx TxFacts.

(** ** Handles *)

Section handles.
Context `{ArboLaws, Lru, ProtoLaws}.

Definition opens (p : list string) (tx : TreeTx) : Prop := is_Some (tx_open tx !! p).

Lemma SubTree_opens p cfg tx tx' q :
  SubTree p cfg tx = (tx', Ok q) ->
  opens q tx' /\ forall p', opens p' tx -> opens p' tx'.
Proof.
  intros Hrun. unfold SubTree in Hrun. rewrite bind_gets in Hrun. cbv zeta in Hrun.
  destruct (tx_open tx !! (p ++ [prefix cfg])) as [u|] eqn:Hq.
  - apply ret_Ok in Hrun as [-> <-]. split; [by exists u|done].
  - apply bind_Ok in Hrun as (leaf & tx1 & Hleaf & Hrun).
    assert (tx1 = tx) as ->. { pose proof (TU_Get_keeps_tx p (parentLeafKey cfg) tx) as Hk. by rewrite Hleaf in Hk. }
    go_inv. apply node_Ok in Hrun1 as [-> Hu]. apply zoom_run in Hrun2 as (d & _ & ->). unfold opens. simpl.
    split; [by rewrite lookup_insert_eq; eexists|]. intros p' Hp'. by apply lookup_insert_is_Some'; right.
Qed.

Lemma SubTree_opened p cfg tx :
  opens (p ++ [prefix cfg]) tx -> SubTree p cfg tx = (tx, Ok (p ++ [prefix cfg])).
Proof. intros [u Hu]. unfold SubTree. rewrite bind_gets. cbv zeta. by rewrite Hu. Qed.

(** The path of a child of the process tree. *)
Definition child_path (c : StateChildTree) (pid : bytes) : list string :=
  [StateTree_KindID TreeProcess; prefix (WithKey (StateChildTreeCfg c) pid)].

Definition child_cfgs (c : StateChildTree) (pid : bytes) : list TreeConfig :=
  [StateTreeCfg TreeProcess; WithKey (StateChildTreeCfg c) pid].

Lemma DeepSubTree_child_opens c pid tx tx' q :
  DeepSubTree [] (child_cfgs c pid) tx = (tx', Ok q) ->
  q = child_path c pid /\ opens [StateTree_KindID TreeProcess] tx' /\ opens (child_path c pid) tx'.
Proof.
  intros Hrun. cbn [DeepSubTree child_cfgs] in Hrun.
  apply bind_Ok in Hrun as (q1 & tx1 & Ha & Hrun). apply bind_Ok in Hrun as (q2 & tx2 & Hb & Hrun).
  apply ret_Ok in Hrun as [-> <-]. pose proof (SubTree_path _ _ _ _ _ Ha) as ->.
  pose proof (SubTree_path _ _ _ _ _ Hb) as ->.
  apply SubTree_opens in Ha as [Ha _]. apply SubTree_opens in Hb as [Hb Hb']. split; [done|]. auto.
Qed.

Lemma DeepSubTree_child_opened c pid tx :
  opens [StateTree_KindID TreeProcess] tx -> opens (child_path c pid) tx ->
  DeepSubTree [] (child_cfgs c pid) tx = (tx, Ok (child_path c pid)).
Proof.
  intros Ha Hb. cbn [DeepSubTree child_cfgs].
  rewrite (bind_run_Ok _ _ tx tx [StateTree_KindID TreeProcess]) by (by apply (SubTree_opened [])).
  by rewrite (bind_run_Ok _ _ tx tx (child_path c pid))
    by (by apply (SubTree_opened [StateTree_KindID TreeProcess])).
Qed.

(** The tree of an opened path. *)
Definition tree_at (p : list string) (tx : TreeTx) : option arbo :=
  u ← tx_open tx !! p; db_trees (tx_db tx) !! tree_key (tu_prefix u).

Lemma TU_Get_at p key tx t : tree_at p tx = Some t -> TU_Get p key tx = (tx, of_sum (arbo_get t key)).
Proof. unfold tree_at. intros (u & Hu & Ht)%bind_Some. by eapply TU_Get_run. Qed.

Lemma TU_Add_Ok p key value tx tx' :
  TU_Add p key value tx = (tx', Ok tt) ->
  (forall p', opens p' tx -> opens p' tx') /\
  exists t t', tree_at p tx = Some t /\ tree_at p tx' = Some t' /\ leaves t !! key = None /\
    leaves t' = <[key := value]> (leaves t).
Proof.
  intros Hrun. unfold TU_Add in Hrun. apply bind_Ok in Hrun as ([] & tx1 & ->%modify_Ok & Hrun).
  apply bind_Ok in Hrun as (u & tx2 & [-> Hu]%node_Ok & Hrun).
  apply bind_Ok in Hrun as (t & tx2 & [-> Ht]%node_tree_Ok & Hrun).
  apply bind_Ok in Hrun as (t' & tx2 & [-> Hadd]%lift_Ok & ->%modify_Ok).
  apply tree_add_leaves in Hadd as (Hnone & Hl & _). fold (with_dirty p tx) in *. split.
  - intros p' [u' Hu']. unfold opens. simpl. rewrite lookup_alter_is_Some. by eexists.
  - apply with_dirty_lookup in Hu as Hu0. destruct Hu0 as (u0 & Hu0 & Hpre & _).
    exists t, t'. unfold tree_at. rewrite Hu0. simpl. rewrite <- Hpre. split_and!; [exact Ht| |done|done].
    simpl in Hu. rewrite Hu. simpl. by rewrite lookup_insert_eq.
Qed.

Lemma TU_Add_duplicate p key value v tx t :
  tree_at p tx = Some t -> leaves t !! key = Some v ->
  exists tx' e, TU_Add p key value tx = (tx', Err e).
Proof.
  unfold tree_at. intros (u & Hu & Ht)%bind_Some Hv. destruct (tree_add_duplicate t key value v Hv) as [e He].
  unfold TU_Add. erewrite bind_run_Ok by reflexivity. fold (with_dirty p tx).
  assert (exists u', tx_open (with_dirty p tx) !! p = Some u' /\ tu_prefix u' = tu_prefix u) as (u' & Hu' & Hpre).
  { eexists. split; [simpl; by rewrite lookup_alter_eq, Hu|done]. }
  erewrite bind_run_Ok by (by apply node_Ok).
  erewrite bind_run_Ok by (apply node_tree_Ok; split; [done|]; rewrite Hpre; exact Ht).
  rewrite He. by eexists _, _.
Qed.
End handles.

(** ** Adding a vote *)

Section votes.
Context `{ArboLaws, Lru, ProtoLaws, EthCryptoLaws}.

(** Plain entries do not touch the trees. *)
Definition same_trees (tx tx' : TreeTx) : Prop :=
  tx_open tx' = tx_open tx /\ db_trees (tx_db tx') = db_trees (tx_db tx).

#[export] Instance same_trees_preorder : PreOrder same_trees.
Proof. split; [done|]. intros t1 t2 t3 [? ?] [? ?]. split; congruence. Qed.

Lemma same_trees_voteCountInc : keeps same_trees voteCountInc.
Proof.
  unfold voteCountInc. keeps_auto; unfold TU_NoState_Get, TU_NoState_Set, node; keeps_auto.
  intros tx. by split.
Qed.

Lemma tree_at_same p tx tx' : same_trees tx tx' -> tree_at p tx' = tree_at p tx.
Proof. intros [Ho Hd]. unfold tree_at. by rewrite Ho, Hd. Qed.

Lemma opens_same p tx tx' : same_trees tx tx' -> opens p tx' <-> opens p tx.
Proof. intros [Ho _]. unfold opens. by rewrite Ho. Qed.

(** The state keeps a leaf for the vote in the opened tree of the process. *)
Definition voted (s : State) (pid nullifier : bytes) (x : StateDBVote) : Prop :=
  exists vid t b, voteID pid nullifier = Ok vid /\
    opens [StateTree_KindID TreeProcess] (STx s) /\
    tree_at (child_path ChildTreeVotes pid) (STx s) = Some t /\
    leaves t !! vid = Some b /\ unmarshal b = Some x.

Lemma AddVote_Ok v id s s' u :
  AddVote v id s = (s', Ok u) ->
  exists b, marshal (with_Vote_Height (currentHeight s) v) = Some b /\
    voted s' (Vote_ProcessId v) (Nullifier v)
      (mkStateDBVote (HashRaw b) (Vote_ProcessId v) (Nullifier v)).
Proof.
  intros Hrun. unfold AddVote, CurrentHeight, TxCounter in Hrun.
  apply bind_Ok in Hrun as (vid & s1 & [-> Hvid]%lift_Ok & Hrun). rewrite bind_gets in Hrun. cbv zeta in Hrun.
  apply bind_Ok in Hrun as (b & s1 & [-> Hb]%wrapping_Ok%Marshal_Ok & Hrun).
  apply bind_Ok in Hrun as (x & s1 & [-> Hx]%wrapping_Ok%Marshal_Ok & Hrun).
  apply bind_Ok in Hrun as ([] & s1 & Htx & Hrun). rewrite bind_gets in Hrun. apply notify_Ok in Hrun as ->.
  cbn [Vote_ProcessId Nullifier with_Vote_Height] in *.
  apply zoom_run in Htx as (tx & Htx & ->). apply bind_Ok in Htx as ([] & tx1 & Hadd & Hinc).
  unfold DeepAdd in Hadd. apply bind_Ok in Hadd as (q & tx2 & Hq & Hadd).
  apply DeepSubTree_child_opens in Hq as (-> & Ho1 & Ho2).
  apply TU_Add_Ok in Hadd as (Hop & t & t' & _ & Ht' & _ & Hl).
  apply (keeps_run _ _ _ _ _ same_trees_voteCountInc) in Hinc.
  exists b. split; [done|]. exists vid, t', x. split_and!; [done|..].
  - simpl. apply (opens_same _ _ _ Hinc). auto.
  - simpl. by rewrite (tree_at_same _ _ _ Hinc).
  - rewrite Hl. by rewrite lookup_insert_eq.
  - exact (unmarshal_marshal _ _ Hx).
Qed.

Lemma tree_at_opens p tx t : tree_at p tx = Some t -> opens p tx.
Proof. unfold tree_at. intros (u & Hu & _)%bind_Some. by exists u. Qed.

Lemma EnvelopeExists_voted s pid n x :
  voted s pid n x -> Envelope pid n false s = (s, Ok (VoteHash x)) /\ EnvelopeExists pid n false s = (s, Ok true).
Proof.
  intros (vid & t & b & Hvid & Ho & Ht & Hb & Hx).
  assert (Henv : Envelope pid n false s = (s, Ok (VoteHash x))).
  { unfold Envelope. rewrite Hvid. erewrite bind_run_Ok by reflexivity. erewrite bind_run_Ok by reflexivity.
    assert (Hsub : V_DeepSubTree (UpdateView []) (votes_cfgs pid) s =
                   (s, Ok (UpdateView (child_path ChildTreeVotes pid)))).
    { unfold V_DeepSubTree. erewrite bind_run_Ok; [reflexivity|].
      erewrite on_Tx_run by (apply DeepSubTree_child_opened; [exact Ho|by eapply tree_at_opens]).
      by destruct s. }
    erewrite bind_run_Ok by (unfold catch; by rewrite Hsub). cbv beta iota.
    assert (Hget : V_Get (UpdateView (child_path ChildTreeVotes pid)) vid s = (s, Ok b)).
    { unfold V_Get. erewrite on_Tx_run by (by apply TU_Get_at). rewrite (get_found _ _ _ Hb). by destruct s. }
    erewrite bind_run_Ok by (unfold catch; by rewrite Hget). cbv beta iota.
    unfold wrapping, Unmarshal. by rewrite Hx. }
  split; [done|]. unfold EnvelopeExists. by erewrite bind_run_Ok by (unfold catch; by rewrite Henv).
Qed.

Lemma AddVote_voted s v id x :
  voted s (Vote_ProcessId v) (Nullifier v) x -> exists s' e, AddVote v id s = (s', Err e).
Proof.
  intros (vid & t & b & Hvid & Ho & Ht & Hb & Hx). unfold AddVote, CurrentHeight. rewrite Hvid.
  erewrite bind_run_Ok by reflexivity. rewrite bind_gets. cbv zeta.
  change (Vote_ProcessId (with_Vote_Height (currentHeight s) v)) with (Vote_ProcessId v).
  change (Nullifier (with_Vote_Height (currentHeight s) v)) with (Nullifier v).
  destruct (Marshal_cases (with_Vote_Height (currentHeight s) v) s) as [(b1 & _ & Hm)|[e Hm]];
    [|eexists _, _; by apply bind_run_Err, wrapping_Err].
  erewrite bind_run_Ok by (by apply wrapping_Ok).
  destruct (Marshal_cases (mkStateDBVote (HashRaw b1) (Vote_ProcessId v) (Nullifier v)) s)
    as [(b2 & _ & Hm2)|[e Hm2]]; [|eexists _, _; by apply bind_run_Err, wrapping_Err].
  erewrite bind_run_Ok by (by apply wrapping_Ok).
  destruct (TU_Add_duplicate _ vid b2 _ _ _ Ht Hb) as (tx' & e & Hadd).
  unfold mbind at 1, gom_bind at 1. erewrite on_Tx_run.
  2: { unfold mbind, gom_bind. unfold DeepAdd. erewrite bind_run_Ok by
         (apply DeepSubTree_child_opened; [exact Ho|by eapply tree_at_opens]). rewrite Hadd. reflexivity. }
  by eexists _, _.
Qed.
End votes.
