(* ===== verification/Codecs.v ===== *)
(** * A concrete encoding of the messages

    The theorems take the protobuf codecs as a parameter with laws.  This file gives
    an instance, so that the laws are known to be satisfiable and runs of the node can
    be evaluated: a message is the list of the encodings of its fields, read as the digits
    of one number.  The file holds no property of the program. *)

From stdpp Require Import base option list strings countable.
From S2P Require Import Prelude GoMonad GoLib Models External.

(** ** Countability of the messages *)

#[export] Instance TxType_countable : Countable TxType.
Proof.
  refine (inj_countable
    (fun x => match x with | TX_UNKNOWN => [0] | NEW_PROCESS => [1] | SET_PROCESS_STATUS => [2]
      | SET_PROCESS_CENSUS => [3] | SET_PROCESS_QUESTION_INDEX => [4] | SET_PROCESS_RESULTS => [5]
      | ADD_ORACLE => [6] | REMOVE_ORACLE => [7] | ADD_VALIDATOR => [8] | REMOVE_VALIDATOR => [9]
      | ADD_PROCESS_KEYS => [10] | REVEAL_PROCESS_KEYS => [11] | REGISTER_VOTER_KEY => [12] |
      MINT_TOKENS => [13] | SEND_TOKENS => [14] | SET_ACCOUNT_INFO => [15] |
      ADD_DELEGATE_FOR_ACCOUNT => [16] | DEL_DELEGATE_FOR_ACCOUNT => [17] | COLLECT_FAUCET => [18]
      | TxType_Unrecognized n => [0; n] end : list Z)
    (fun l => match l with | [0] => Some TX_UNKNOWN | [1] => Some NEW_PROCESS | [2] => Some
      SET_PROCESS_STATUS | [3] => Some SET_PROCESS_CENSUS | [4] => Some SET_PROCESS_QUESTION_INDEX
      | [5] => Some SET_PROCESS_RESULTS | [6] => Some ADD_ORACLE | [7] => Some REMOVE_ORACLE | [8]
      => Some ADD_VALIDATOR | [9] => Some REMOVE_VALIDATOR | [10] => Some ADD_PROCESS_KEYS | [11]
      => Some REVEAL_PROCESS_KEYS | [12] => Some REGISTER_VOTER_KEY | [13] => Some MINT_TOKENS |
      [14] => Some SEND_TOKENS | [15] => Some SET_ACCOUNT_INFO | [16] => Some
      ADD_DELEGATE_FOR_ACCOUNT | [17] => Some DEL_DELEGATE_FOR_ACCOUNT | [18] => Some
      COLLECT_FAUCET | [0; n] => Some (TxType_Unrecognized n) | _ => None end) _).
  by intros [].
Defined.

#[export] Instance ProcessStatus_countable : Countable ProcessStatus.
Proof.
  refine (inj_countable
    (fun x => match x with | PROCESS_UNKNOWN => [0] | READY => [1] | ENDED => [2] | CANCELED =>
      [3] | PAUSED => [4] | RESULTS => [5] | ProcessStatus_Unrecognized n => [0; n] end : list Z)
    (fun l => match l with | [0] => Some PROCESS_UNKNOWN | [1] => Some READY | [2] => Some ENDED
      | [3] => Some CANCELED | [4] => Some PAUSED | [5] => Some RESULTS | [0; n] => Some
      (ProcessStatus_Unrecognized n) | _ => None end) _).
  by intros [].
Defined.

#[export] Instance ProofArbo_Type_countable : Countable ProofArbo_Type.
Proof.
  refine (inj_countable
    (fun x => match x with | BLAKE2B => [0] | POSEIDON => [1] | ProofArbo_Unrecognized n => [0;
      n] end : list Z)
    (fun l => match l with | [0] => Some BLAKE2B | [1] => Some POSEIDON | [0; n] => Some
      (ProofArbo_Unrecognized n) | _ => None end) _).
  by intros [].
Defined.

#[export] Instance ProofCA_Type_countable : Countable ProofCA_Type.
Proof.
  refine (inj_countable
    (fun x => match x with | PCA_UNKNOWN => [0] | ECDSA => [1] | ECDSA_PIDSALTED => [2] |
      ECDSA_BLIND => [3] | ECDSA_BLIND_PIDSALTED => [4] | ProofCA_Unrecognized n => [0; n] end :
      list Z)
    (fun l => match l with | [0] => Some PCA_UNKNOWN | [1] => Some ECDSA | [2] => Some
      ECDSA_PIDSALTED | [3] => Some ECDSA_BLIND | [4] => Some ECDSA_BLIND_PIDSALTED | [0; n] =>
      Some (ProofCA_Unrecognized n) | _ => None end) _).
  by intros [].
Defined.

#[export] Instance EnvelopeType_countable : Countable EnvelopeType.
Proof.
  refine (inj_countable
    (fun r => [encode (Serial r); encode (Anonymous r); encode (EncryptedVotes r); encode
      (UniqueValues r); encode (CostFromWeight r)] : list positive)
    (fun l => match l with
              | [p0; p1; p2; p3; p4] => x0 ← decode p0; x1 ← decode p1; x2 ← decode p2; x3 ←
                decode p3; x4 ← decode p4; Some (mkEnvelopeType x0 x1 x2 x3 x4)
              | _ => None end) _).
  intros r. cbv beta iota. rewrite !decode_encode. by destruct r.
Defined.

#[export] Instance ProcessMode_countable : Countable ProcessMode.
Proof.
  refine (inj_countable
    (fun r => [encode (AutoStart r); encode (Interruptible r); encode (DynamicCensus r); encode
      (EncryptedMetaData r); encode (PreRegister r)] : list positive)
    (fun l => match l with
              | [p0; p1; p2; p3; p4] => x0 ← decode p0; x1 ← decode p1; x2 ← decode p2; x3 ←
                decode p3; x4 ← decode p4; Some (mkProcessMode x0 x1 x2 x3 x4)
              | _ => None end) _).
  intros r. cbv beta iota. rewrite !decode_encode. by destruct r.
Defined.

#[export] Instance ProcessVoteOptions_countable : Countable ProcessVoteOptions.
Proof.
  refine (inj_countable
    (fun r => [encode (MaxCount r); encode (MaxValue r); encode (MaxVoteOverwrites r); encode
      (MaxTotalCost r); encode (CostExponent r)] : list positive)
    (fun l => match l with
              | [p0; p1; p2; p3; p4] => x0 ← decode p0; x1 ← decode p1; x2 ← decode p2; x3 ←
                decode p3; x4 ← decode p4; Some (mkProcessVoteOptions x0 x1 x2 x3 x4)
              | _ => None end) _).
  intros r. cbv beta iota. rewrite !decode_encode. by destruct r.
Defined.

#[export] Instance Account_countable : Countable Account.
Proof.
  refine (inj_countable
    (fun r => [encode (Balance r); encode (Nonce r); encode (InfoURI r); encode (DelegateAddrs
      r); encode (ProcessIndex r)] : list positive)
    (fun l => match l with
              | [p0; p1; p2; p3; p4] => x0 ← decode p0; x1 ← decode p1; x2 ← decode p2; x3 ←
                decode p3; x4 ← decode p4; Some (mkAccount x0 x1 x2 x3 x4)
              | _ => None end) _).
  intros r. cbv beta iota. rewrite !decode_encode. by destruct r.
Defined.

#[export] Instance Treasurer_countable : Countable Treasurer.
Proof.
  refine (inj_countable
    (fun r => [encode (Treasurer_Address r); encode (Treasurer_Nonce r)] : list positive)
    (fun l => match l with
              | [p0; p1] => x0 ← decode p0; x1 ← decode p1; Some (mkTreasurer x0 x1)
              | _ => None end) _).
  intros r. cbv beta iota. rewrite !decode_encode. by destruct r.
Defined.

#[export] Instance Validator_countable : Countable Validator.
Proof.
  refine (inj_countable
    (fun r => [encode (Validator_Address r); encode (Validator_PubKey r); encode
      (Validator_Power r)] : list positive)
    (fun l => match l with
              | [p0; p1; p2] => x0 ← decode p0; x1 ← decode p1; x2 ← decode p2; Some
                (mkValidator x0 x1 x2)
              | _ => None end) _).
  intros r. cbv beta iota. rewrite !decode_encode. by destruct r.
Defined.

#[export] Instance ProcessResult_countable : Countable ProcessResult.
Proof.
  refine (inj_countable
    (fun r => [encode (Votes r); encode (PR_ProcessId r); encode (PR_EntityId r); encode
      (OracleAddress r)] : list positive)
    (fun l => match l with
              | [p0; p1; p2; p3] => x0 ← decode p0; x1 ← decode p1; x2 ← decode p2; x3 ← decode
                p3; Some (mkProcessResult x0 x1 x2 x3)
              | _ => None end) _).
  intros r. cbv beta iota. rewrite !decode_encode. by destruct r.
Defined.

#[export] Instance Process_countable : Countable Process.
Proof.
  refine (inj_countable
    (fun r => [encode (ProcessId r); encode (EntityId r); encode (StartBlock r); encode
      (BlockCount r); encode (CensusRoot r); encode (CensusURI r); encode (EncryptionPrivateKeys
      r); encode (EncryptionPublicKeys r); encode (KeyIndex r); encode (Status r); encode
      (P_EnvelopeType r); encode (Mode r); encode (VoteOptions r); encode (CensusOrigin r); encode
      (Results r); encode (EthIndexSlot r); encode (SourceBlockHeight r); encode (MaxCensusSize
      r); encode (RollingCensusRoot r); encode (RollingCensusSize r); encode (NullifiersRoot r);
      encode (Namespace r); encode (Metadata r); encode (SourceNetworkId r)] : list positive)
    (fun l => match l with
              | [p0; p1; p2; p3; p4; p5; p6; p7; p8; p9; p10; p11; p12; p13; p14; p15; p16; p17;
                p18; p19; p20; p21; p22; p23] => x0 ← decode p0; x1 ← decode p1; x2 ← decode p2; x3 ← decode p3;
                x4 ← decode p4; x5 ← decode p5; x6 ← decode p6; x7 ← decode p7; x8 ← decode p8; x9
                ← decode p9; x10 ← decode p10; x11 ← decode p11; x12 ← decode p12; x13 ← decode
                p13; x14 ← decode p14; x15 ← decode p15; x16 ← decode p16; x17 ← decode p17; x18 ←
                decode p18; x19 ← decode p19; x20 ← decode p20; x21 ← decode p21; x22 ← decode p22;
                x23 ← decode p23; Some (mkProcess x0 x1 x2 x3 x4 x5
                x6 x7 x8 x9 x10 x11 x12 x13 x14 x15 x16 x17 x18 x19 x20 x21 x22 x23)
              | _ => None end) _).
  intros r. cbv beta iota. rewrite !decode_encode. by destruct r.
Defined.

#[export] Instance StateDBProcess_countable : Countable StateDBProcess.
Proof.
  refine (inj_countable
    (fun r => [encode (SDB_Process r); encode (VotesRoot r)] : list positive)
    (fun l => match l with
              | [p0; p1] => x0 ← decode p0; x1 ← decode p1; Some (mkStateDBProcess x0 x1)
              | _ => None end) _).
  intros r. cbv beta iota. rewrite !decode_encode. by destruct r.
Defined.

#[export] Instance Vote_countable : Countable Vote.
Proof.
  refine (inj_countable
    (fun r => [encode (Vote_Height r); encode (Vote_ProcessId r); encode (VotePackage r); encode
      (Nullifier r); encode (Weight r); encode (Vote_KeyIndexes r)] : list positive)
    (fun l => match l with
              | [p0; p1; p2; p3; p4; p5] => x0 ← decode p0; x1 ← decode p1; x2 ← decode p2; x3 ←
                decode p3; x4 ← decode p4; x5 ← decode p5; Some (mkVote x0 x1 x2 x3 x4 x5)
              | _ => None end) _).
  intros r. cbv beta iota. rewrite !decode_encode. by destruct r.
Defined.

#[export] Instance StateDBVote_countable : Countable StateDBVote.
Proof.
  refine (inj_countable
    (fun r => [encode (VoteHash r); encode (SV_ProcessId r); encode (SV_Nullifier r)] : list
      positive)
    (fun l => match l with
              | [p0; p1; p2] => x0 ← decode p0; x1 ← decode p1; x2 ← decode p2; Some
                (mkStateDBVote x0 x1 x2)
              | _ => None end) _).
  intros r. cbv beta iota. rewrite !decode_encode. by destruct r.
Defined.

#[export] Instance ProcessIdList_countable : Countable ProcessIdList.
Proof.
  refine (inj_countable
    (fun r => [encode (ProcessIds r)] : list positive)
    (fun l => match l with
              | [p0] => x0 ← decode p0; Some (mkProcessIdList x0)
              | _ => None end) _).
  intros r. cbv beta iota. rewrite !decode_encode. by destruct r.
Defined.

#[export] Instance ProofArbo_countable : Countable ProofArbo.
Proof.
  refine (inj_countable
    (fun r => [encode (PA_Type r); encode (PA_Siblings r); encode (PA_Value r)] : list positive)
    (fun l => match l with
              | [p0; p1; p2] => x0 ← decode p0; x1 ← decode p1; x2 ← decode p2; Some
                (mkProofArbo x0 x1 x2)
              | _ => None end) _).
  intros r. cbv beta iota. rewrite !decode_encode. by destruct r.
Defined.

#[export] Instance CAbundle_countable : Countable CAbundle.
Proof.
  refine (inj_countable
    (fun r => [encode (CB_ProcessId r); encode (CB_Address r)] : list positive)
    (fun l => match l with
              | [p0; p1] => x0 ← decode p0; x1 ← decode p1; Some (mkCAbundle x0 x1)
              | _ => None end) _).
  intros r. cbv beta iota. rewrite !decode_encode. by destruct r.
Defined.

#[export] Instance ProofCA_countable : Countable ProofCA.
Proof.
  refine (inj_countable
    (fun r => [encode (CA_Type r); encode (CA_Bundle r); encode (CA_Signature r)] : list positive)
    (fun l => match l with
              | [p0; p1; p2] => x0 ← decode p0; x1 ← decode p1; x2 ← decode p2; Some (mkProofCA
                x0 x1 x2)
              | _ => None end) _).
  intros r. cbv beta iota. rewrite !decode_encode. by destruct r.
Defined.

#[export] Instance ProofEthereumStorage_countable : Countable ProofEthereumStorage.
Proof.
  refine (inj_countable
    (fun r => [encode (ES_Key r); encode (ES_Value r); encode (ES_Siblings r)] : list positive)
    (fun l => match l with
              | [p0; p1; p2] => x0 ← decode p0; x1 ← decode p1; x2 ← decode p2; Some
                (mkProofEthereumStorage x0 x1 x2)
              | _ => None end) _).
  intros r. cbv beta iota. rewrite !decode_encode. by destruct r.
Defined.

#[export] Instance ProofMinime_countable : Countable ProofMinime.
Proof.
  refine (inj_countable
    (fun r => [encode (ProofPrevBlock r); encode (ProofNextBlock r)] : list positive)
    (fun l => match l with
              | [p0; p1] => x0 ← decode p0; x1 ← decode p1; Some (mkProofMinime x0 x1)
              | _ => None end) _).
  intros r. cbv beta iota. rewrite !decode_encode. by destruct r.
Defined.

#[export] Instance ProofZkSNARK_countable : Countable ProofZkSNARK.
Proof.
  refine (inj_countable
    (fun r => [encode (CircuitParametersIndex r); encode (ZK_A r); encode (ZK_B r); encode (ZK_C
      r); encode (ZK_PublicInputs r)] : list positive)
    (fun l => match l with
              | [p0; p1; p2; p3; p4] => x0 ← decode p0; x1 ← decode p1; x2 ← decode p2; x3 ←
                decode p3; x4 ← decode p4; Some (mkProofZkSNARK x0 x1 x2 x3 x4)
              | _ => None end) _).
  intros r. cbv beta iota. rewrite !decode_encode. by destruct r.
Defined.

#[export] Instance Proof_countable : Countable Proof.
Proof.
  refine (inj_countable
    (fun p => match p with
      | ProofNone => [encode (0%Z)]
      | ProofGraviton => [encode (1%Z)]
      | ProofIden3 => [encode (2%Z)]
      | ProofOfArbo x => [encode (3%Z); encode x]
      | ProofOfCA x => [encode (4%Z); encode x]
      | ProofOfEthereumStorage x => [encode (5%Z); encode x]
      | ProofOfMinime x => [encode (6%Z); encode x]
      | ProofOfZkSNARK x => [encode (7%Z); encode x]
      end : list positive)
    (fun l => match l with
      | [t] => match (decode t : option Z) with
        | Some 0 => Some ProofNone
        | Some 1 => Some ProofGraviton
        | Some 2 => Some ProofIden3
        | _ => None end
      | [t; x] => match (decode t : option Z) with
        | Some 3 => ProofOfArbo <$> decode x
        | Some 4 => ProofOfCA <$> decode x
        | Some 5 => ProofOfEthereumStorage <$> decode x
        | Some 6 => ProofOfMinime <$> decode x
        | Some 7 => ProofOfZkSNARK <$> decode x
        | _ => None end
      | _ => None end) _).
  intros []; cbv beta iota; rewrite !decode_encode; done.
Defined.

#[export] Instance VoteEnvelope_countable : Countable VoteEnvelope.
Proof.
  refine (inj_countable
    (fun r => [encode (VE_Nonce r); encode (VE_ProcessId r); encode (VE_Proof r); encode
      (VE_VotePackage r); encode (VE_Nullifier r); encode (VE_KeyIndexes r)] : list positive)
    (fun l => match l with
              | [p0; p1; p2; p3; p4; p5] => x0 ← decode p0; x1 ← decode p1; x2 ← decode p2; x3 ←
                decode p3; x4 ← decode p4; x5 ← decode p5; Some (mkVoteEnvelope x0 x1 x2 x3 x4 x5)
              | _ => None end) _).
  intros r. cbv beta iota. rewrite !decode_encode. by destruct r.
Defined.

#[export] Instance AdminTx_countable : Countable AdminTx.
Proof.
  refine (inj_countable
    (fun r => [encode (Adm_Txtype r); encode (Adm_ProcessId r); encode (Adm_Address r); encode
      (Adm_Nonce r); encode (Adm_KeyIndex r); encode (EncryptionPrivateKey r); encode
      (EncryptionPublicKey r)] : list positive)
    (fun l => match l with
              | [p0; p1; p2; p3; p4; p5; p6] => x0 ← decode p0; x1 ← decode p1; x2 ← decode p2;
                x3 ← decode p3; x4 ← decode p4; x5 ← decode p5; x6 ← decode p6; Some (mkAdminTx x0
                x1 x2 x3 x4 x5 x6)
              | _ => None end) _).
  intros r. cbv beta iota. rewrite !decode_encode. by destruct r.
Defined.

#[export] Instance NewProcessTx_countable : Countable NewProcessTx.
Proof.
  refine (inj_countable
    (fun r => [encode (NP_Nonce r); encode (NP_Process r)] : list positive)
    (fun l => match l with
              | [p0; p1] => x0 ← decode p0; x1 ← decode p1; Some (mkNewProcessTx x0 x1)
              | _ => None end) _).
  intros r. cbv beta iota. rewrite !decode_encode. by destruct r.
Defined.

#[export] Instance SetProcessTx_countable : Countable SetProcessTx.
Proof.
  refine (inj_countable
    (fun r => [encode (SP_Txtype r); encode (SP_Nonce r); encode (SP_ProcessId r); encode
      (SP_Status r); encode (SP_CensusRoot r); encode (SP_CensusURI r); encode (SP_Results r)] :
      list positive)
    (fun l => match l with
              | [p0; p1; p2; p3; p4; p5; p6] => x0 ← decode p0; x1 ← decode p1; x2 ← decode p2;
                x3 ← decode p3; x4 ← decode p4; x5 ← decode p5; x6 ← decode p6; Some
                (mkSetProcessTx x0 x1 x2 x3 x4 x5 x6)
              | _ => None end) _).
  intros r. cbv beta iota. rewrite !decode_encode. by destruct r.
Defined.

#[export] Instance RegisterKeyTx_countable : Countable RegisterKeyTx.
Proof.
  refine (inj_countable
    (fun r => [encode (RK_ProcessId r); encode (RK_Proof r); encode (NewKey r); encode
      (RK_Weight r)] : list positive)
    (fun l => match l with
              | [p0; p1; p2; p3] => x0 ← decode p0; x1 ← decode p1; x2 ← decode p2; x3 ← decode
                p3; Some (mkRegisterKeyTx x0 x1 x2 x3)
              | _ => None end) _).
  intros r. cbv beta iota. rewrite !decode_encode. by destruct r.
Defined.

#[export] Instance FaucetPayload_countable : Countable FaucetPayload.
Proof.
  refine (inj_countable
    (fun r => [encode (Identifier r); encode (FP_To r); encode (Amount r)] : list positive)
    (fun l => match l with
              | [p0; p1; p2] => x0 ← decode p0; x1 ← decode p1; x2 ← decode p2; Some
                (mkFaucetPayload x0 x1 x2)
              | _ => None end) _).
  intros r. cbv beta iota. rewrite !decode_encode. by destruct r.
Defined.

#[export] Instance FaucetPackage_countable : Countable FaucetPackage.
Proof.
  refine (inj_countable
    (fun r => [encode (FP_Payload r); encode (FP_Signature r)] : list positive)
    (fun l => match l with
              | [p0; p1] => x0 ← decode p0; x1 ← decode p1; Some (mkFaucetPackage x0 x1)
              | _ => None end) _).
  intros r. cbv beta iota. rewrite !decode_encode. by destruct r.
Defined.

#[export] Instance SetAccountInfoTx_countable : Countable SetAccountInfoTx.
Proof.
  refine (inj_countable
    (fun r => [encode (SAI_Nonce r); encode (SAI_InfoURI r); encode (SAI_Account r); encode
      (SAI_FaucetPackage r)] : list positive)
    (fun l => match l with
              | [p0; p1; p2; p3] => x0 ← decode p0; x1 ← decode p1; x2 ← decode p2; x3 ← decode
                p3; Some (mkSetAccountInfoTx x0 x1 x2 x3)
              | _ => None end) _).
  intros r. cbv beta iota. rewrite !decode_encode. by destruct r.
Defined.

#[export] Instance SetTransactionCostsTx_countable : Countable SetTransactionCostsTx.
Proof.
  refine (inj_countable
    (fun r => [encode (TC_Txtype r); encode (TC_Nonce r); encode (TC_Value r)] : list positive)
    (fun l => match l with
              | [p0; p1; p2] => x0 ← decode p0; x1 ← decode p1; x2 ← decode p2; Some
                (mkSetTransactionCostsTx x0 x1 x2)
              | _ => None end) _).
  intros r. cbv beta iota. rewrite !decode_encode. by destruct r.
Defined.

#[export] Instance MintTokensTx_countable : Countable MintTokensTx.
Proof.
  refine (inj_countable
    (fun r => [encode (MT_Nonce r); encode (MT_To r); encode (MT_Value r)] : list positive)
    (fun l => match l with
              | [p0; p1; p2] => x0 ← decode p0; x1 ← decode p1; x2 ← decode p2; Some
                (mkMintTokensTx x0 x1 x2)
              | _ => None end) _).
  intros r. cbv beta iota. rewrite !decode_encode. by destruct r.
Defined.

#[export] Instance SendTokensTx_countable : Countable SendTokensTx.
Proof.
  refine (inj_countable
    (fun r => [encode (ST_Nonce r); encode (ST_From r); encode (ST_To r); encode (ST_Value r)] :
      list positive)
    (fun l => match l with
              | [p0; p1; p2; p3] => x0 ← decode p0; x1 ← decode p1; x2 ← decode p2; x3 ← decode
                p3; Some (mkSendTokensTx x0 x1 x2 x3)
              | _ => None end) _).
  intros r. cbv beta iota. rewrite !decode_encode. by destruct r.
Defined.

#[export] Instance SetAccountDelegateTx_countable : Countable SetAccountDelegateTx.
Proof.
  refine (inj_countable
    (fun r => [encode (SAD_Txtype r); encode (SAD_Nonce r); encode (Delegate r)] : list positive)
    (fun l => match l with
              | [p0; p1; p2] => x0 ← decode p0; x1 ← decode p1; x2 ← decode p2; Some
                (mkSetAccountDelegateTx x0 x1 x2)
              | _ => None end) _).
  intros r. cbv beta iota. rewrite !decode_encode. by destruct r.
Defined.

#[export] Instance CollectFaucetTx_countable : Countable CollectFaucetTx.
Proof.
  refine (inj_countable
    (fun r => [encode (CF_Nonce r); encode (CF_FaucetPackage r)] : list positive)
    (fun l => match l with
              | [p0; p1] => x0 ← decode p0; x1 ← decode p1; Some (mkCollectFaucetTx x0 x1)
              | _ => None end) _).
  intros r. cbv beta iota. rewrite !decode_encode. by destruct r.
Defined.

#[export] Instance TxPayload_countable : Countable TxPayload.
Proof.
  refine (inj_countable
    (fun p => match p with
      | Tx_Vote x => [encode (0%Z); encode x]
      | Tx_Admin x => [encode (1%Z); encode x]
      | Tx_NewProcess x => [encode (2%Z); encode x]
      | Tx_SetProcess x => [encode (3%Z); encode x]
      | Tx_RegisterKey x => [encode (4%Z); encode x]
      | Tx_SetAccountInfo x => [encode (5%Z); encode x]
      | Tx_SetTransactionCosts x => [encode (6%Z); encode x]
      | Tx_MintTokens x => [encode (7%Z); encode x]
      | Tx_SendTokens x => [encode (8%Z); encode x]
      | Tx_SetAccountDelegate x => [encode (9%Z); encode x]
      | Tx_CollectFaucet x => [encode (10%Z); encode x]
      | Tx_Other => [encode (11%Z)]
      end : list positive)
    (fun l => match l with
      | [t] => match (decode t : option Z) with
        | Some 11 => Some Tx_Other
        | _ => None end
      | [t; x] => match (decode t : option Z) with
        | Some 0 => Tx_Vote <$> decode x
        | Some 1 => Tx_Admin <$> decode x
        | Some 2 => Tx_NewProcess <$> decode x
        | Some 3 => Tx_SetProcess <$> decode x
        | Some 4 => Tx_RegisterKey <$> decode x
        | Some 5 => Tx_SetAccountInfo <$> decode x
        | Some 6 => Tx_SetTransactionCosts <$> decode x
        | Some 7 => Tx_MintTokens <$> decode x
        | Some 8 => Tx_SendTokens <$> decode x
        | Some 9 => Tx_SetAccountDelegate <$> decode x
        | Some 10 => Tx_CollectFaucet <$> decode x
        | _ => None end
      | _ => None end) _).
  intros []; cbv beta iota; rewrite !decode_encode; done.
Defined.

#[export] Instance Tx_countable : Countable Tx.
Proof.
  refine (inj_countable
    (fun r => [encode (Payload r)] : list positive)
    (fun l => match l with
              | [p0] => x0 ← decode p0; Some (mkTx x0)
              | _ => None end) _).
  intros r. cbv beta iota. rewrite !decode_encode. by destruct r.
Defined.

#[export] Instance SignedTx_countable : Countable SignedTx.
Proof.
  refine (inj_countable
    (fun r => [encode (STx_Tx r); encode (STx_Signature r)] : list positive)
    (fun l => match l with
              | [p0; p1] => x0 ← decode p0; x1 ← decode p1; Some (mkSignedTx x0 x1)
              | _ => None end) _).
  intros r. cbv beta iota. rewrite !decode_encode. by destruct r.
Defined.

(** ** Codecs *)

(** The digits of a positive number, the least significant first, in octets; the last digit
    is 1 and the rest of its octet 0. *)
Fixpoint pos_bits (p : positive) : list bool :=
  match p with
  | xH => [true]
  | xO p => false :: pos_bits p
  | xI p => true :: pos_bits p
  end.

Fixpoint bits_pos (l : list bool) : option positive :=
  match l with
  | [] => None
  | b :: l => match bits_pos l with
              | Some p => Some (if b then xI p else xO p)
              | None => if b then Some xH else None
              end
  end.

Fixpoint bits_bytes (l : list bool) : bytes :=
  match l with
  | b0 :: b1 :: b2 :: b3 :: b4 :: b5 :: b6 :: b7 :: l =>
      String (Ascii.Ascii b0 b1 b2 b3 b4 b5 b6 b7) (bits_bytes l)
  | _ => let b i := nth i l false in
         String (Ascii.Ascii (b 0%nat) (b 1%nat) (b 2%nat) (b 3%nat) (b 4%nat) (b 5%nat) (b 6%nat) (b 7%nat))
           EmptyString
  end.

Fixpoint bytes_bits (s : bytes) : list bool :=
  match s with
  | EmptyString => []
  | String (Ascii.Ascii b0 b1 b2 b3 b4 b5 b6 b7) s =>
      b0 :: b1 :: b2 :: b3 :: b4 :: b5 :: b6 :: b7 :: bytes_bits s
  end.

Lemma bits_bytes_bits n l :
  (List.length l <= n)%nat -> exists k, bytes_bits (bits_bytes l) = l ++ replicate k false.
Proof.
  revert l. induction n as [|n IH]; intros l Hn.
  { destruct l; [|simpl in Hn; lia]. by exists 8%nat. }
  destruct l as [|b0 l]; [by exists 8%nat|]. destruct l as [|b1 l]; [by exists 7%nat|].
  destruct l as [|b2 l]; [by exists 6%nat|]. destruct l as [|b3 l]; [by exists 5%nat|].
  destruct l as [|b4 l]; [by exists 4%nat|]. destruct l as [|b5 l]; [by exists 3%nat|].
  destruct l as [|b6 l]; [by exists 2%nat|]. destruct l as [|b7 l]; [by exists 1%nat|].
  destruct (IH l) as [k Hk]; [simpl in Hn; lia|]. exists k. cbn [bits_bytes bytes_bits]. by rewrite Hk.
Qed.

Lemma bits_pos_zeros k : bits_pos (replicate k false) = None.
Proof. induction k as [|k IH]; [done|]. simpl. by rewrite IH. Qed.

Lemma bits_pos_bits p k : bits_pos (pos_bits p ++ replicate k false) = Some p.
Proof. induction p as [p IH|p IH|]; simpl; by rewrite ?IH, ?bits_pos_zeros. Qed.

Definition enc_bytes {A} `{Countable A} (a : A) : bytes := bits_bytes (pos_bits (encode a)).
Definition dec_bytes {A} `{Countable A} (b : bytes) : option A := bits_pos (bytes_bits b) ≫= decode.

Lemma dec_enc_bytes {A} `{Countable A} (a : A) : dec_bytes (enc_bytes a) = Some a.
Proof.
  unfold dec_bytes, enc_bytes. destruct (bits_bytes_bits _ (pos_bits (encode a)) (le_n _)) as [k ->].
  rewrite bits_pos_bits. apply decode_encode.
Qed.

(** A codec for the values that satisfy [ok]. *)
Definition codec_of {A} `{Countable A} (ok : A -> bool) : Codec A := {|
  marshal a := if ok a then Some (enc_bytes a) else None;
  unmarshal b := a ← dec_bytes b; if ok a then Some a else None;
|}.

Lemma codec_of_laws {A} `{Countable A} (ok : A -> bool) : @CodecLaws A (codec_of ok).
Proof.
  intros a b. simpl. destruct (ok a) eqn:E; [|done]. intros [= <-].
  rewrite dec_enc_bytes. simpl. by rewrite E.
Qed.

Definition u32b (z : Z) : bool := (0 <=? z) && (z <? 2 ^ 32).
Definition u64b (z : Z) : bool := (0 <=? z) && (z <? 2 ^ 64).

Definition account_ok (a : Account) : bool :=
  u64b (Balance a) && u32b (Nonce a) && u32b (ProcessIndex a).
Definition options_ok (o : ProcessVoteOptions) : bool :=
  u32b (MaxCount o) && u32b (MaxValue o) && u32b (MaxVoteOverwrites o) && u32b (MaxTotalCost o) &&
  u32b (CostExponent o).
Definition sdbprocess_ok (x : StateDBProcess) : bool :=
  match SDB_Process x with
  | None => true
  | Some p => u32b (StartBlock p) && u32b (BlockCount p) &&
              match KeyIndex p with Some i => u32b i | None => true end &&
              match VoteOptions p with Some o => options_ok o | None => true end
  end.

Lemma u32b_spec z : u32b z = true -> is_u32 z.
Proof. unfold u32b, is_u32. lia. Qed.
Lemma u64b_spec z : u64b z = true -> is_u64 z.
Proof. unfold u64b, is_u64. lia. Qed.

Definition sample_Proto : Proto := {|
  Proto_Account := codec_of account_ok;
  Proto_Treasurer := codec_of (fun t => u32b (Treasurer_Nonce t));
  Proto_Validator := codec_of (fun _ => true);
  Proto_Process := codec_of (fun _ => true);
  Proto_StateDBProcess := codec_of sdbprocess_ok;
  Proto_Vote := codec_of (fun _ => true);
  Proto_StateDBVote := codec_of (fun _ => true);
  Proto_ProcessIdList := codec_of (fun _ => true);
  Proto_FaucetPayload := codec_of (fun _ => true);
  Proto_CAbundle := codec_of (fun _ => true);
  Proto_SignedTx := codec_of (fun _ => true);
  Proto_Tx := codec_of (fun _ => true);
|}.

Lemma unmarshal_ok {A} `{Countable A} (ok : A -> bool) b a :
  unmarshal (Codec := codec_of ok) b = Some a -> ok a = true.
Proof. simpl. intros (a' & _ & Hok)%bind_Some. destruct (ok a') eqn:E; by simplify_eq. Qed.

Lemma sample_ProtoLaws : @ProtoLaws sample_Proto.
Proof.
  split; try apply codec_of_laws.
  - intros b a Ha%unmarshal_ok. unfold account_ok in Ha. rewrite !andb_true_iff in Ha.
    destruct Ha as [[? ?] ?]. auto using u32b_spec, u64b_spec.
  - intros b t Ht%unmarshal_ok. by apply u32b_spec.
  - intros b x p Hx%unmarshal_ok Hp. unfold sdbprocess_ok in Hx. rewrite Hp in Hx.
    rewrite !andb_true_iff in Hx. destruct Hx as [[[? ?] ?] ?].
    split_and!; [by apply u32b_spec..|]. destruct (KeyIndex p); [by apply u32b_spec | done].
  - intros b x p o Hx%unmarshal_ok Hp Ho. unfold sdbprocess_ok in Hx. rewrite Hp, Ho in Hx.
    rewrite !andb_true_iff in Hx. destruct Hx as [_ Hx]. unfold options_ok in Hx.
    rewrite !andb_true_iff in Hx. destruct Hx as [[[[? ?] ?] ?] ?].
    split_and!; by apply u32b_spec.
Qed.
