(* ===== verification/Sample.v ===== *)
(** * A concrete environment

    Instances of the third-party parameters, with their laws, and the state of a node
    whose database has just been created.  The witnesses of the theorems run the model
    on them.  The file holds no property of the program. *)

From stdpp Require Import base option list strings gmap.
From Stdlib Require Import ZArith Lia.
From S2P Require Import Prelude GoMonad GoLib Sha256 Models External Codecs Ethereum Tree StateDB.
From S2P Require Import StateTrees State StateFacts Account AccountFacts Process ProcessFacts.
From S2P Require Import Transaction TxFacts Lifecycle.

(** ** arbo *)

Record sample_tree := mkSampleTree { st_leaves : gmap bytes bytes; st_levels : Z }.

(** A digest of the leaves, in 32 octets; zero when there are none. *)
Definition sample_root (t : sample_tree) : bytes :=
  be_bytes 32 (fold_left (fun h kv => (h * 1000003 + be_val kv.1 * 257 + be_val kv.2 + 1) mod 2 ^ 256)
                 (map_to_list (st_leaves t)) 0).

Definition sample_set_root (t : sample_tree) (r : bytes) : error + sample_tree :=
  if bool_decide (r = sample_root t) then inr t else inl (Errorf "root not found").

#[export] Instance sample_Arbo : Arbo := {|
  arbo := sample_tree;
  arbo_new _ l := mkSampleTree ∅ l;
  arbo_get t k := match st_leaves t !! k with Some v => inr v | None => inl arbo_ErrKeyNotFound end;
  arbo_add t k v :=
    match st_leaves t !! k with
    | Some _ => inl (Errorf "key already exists")
    | None => if 8 * blen k <=? st_levels t
              then inr (mkSampleTree (<[k := v]> (st_leaves t)) (st_levels t))
              else inl (Errorf "key too long")
    end;
  arbo_update t k v :=
    match st_leaves t !! k with
    | Some _ => inr (mkSampleTree (<[k := v]> (st_leaves t)) (st_levels t))
    | None => inl arbo_ErrKeyNotFound
    end;
  arbo_root := sample_root;
  arbo_set_root := sample_set_root;
  arbo_snapshot := sample_set_root;
  arbo_iter A t f a :=
    fold_left (fun acc kv => fst (f acc kv.1 kv.2)) (map_to_list (st_leaves t)) a;
|}.

#[export] Instance sample_ArboLaws : ArboLaws.
Proof.
  refine {| leaves := st_leaves; levels := st_levels |}; simpl.
  - done.
  - done.
  - intros h l. reflexivity.
  - done.
  - by intros t k v ->.
  - by intros t k ->.
  - intros t k ->. by eexists.
  - intros t k v t'. destruct (st_leaves t !! k) eqn:E; [done|].
    destruct (_ <=? _); [|done]. by intros [= <-].
  - intros t k v t'. destruct (st_leaves t !! k) eqn:E; [|done]. by intros [= <-].
  - intros t k v [x ->] _. by eexists.
  - by intros t k v ->.
  - intros t r t'. unfold sample_set_root. case_bool_decide; [|done]. by intros [= <-].
  - intros t. exists t. unfold sample_set_root. by rewrite bool_decide_eq_true_2.
Defined.

#[export] Instance sample_ArboIterBranch : ArboIterBranch.
Proof. intros A t f a. exists (map_to_list (st_leaves t)). split; [done|]. reflexivity. Qed.

(** ** golang-lru: a cache that never evicts *)

#[export] Instance sample_Lru : Lru := {|
  lru := gmap cache_key cache_val;
  lru_get c k := (c, c !! k);
  lru_add c k v := <[k := v]> c;
  lru_remove c k := delete k c;
  lru_keys c := (map_to_list c).*1;
  lru_len c := Z.of_nat (size c);
  lru_resize c _ := c;
|}.

#[export] Instance sample_LruLaws : LruLaws.
Proof.
  refine {| entries := fun c : @lru sample_Lru => c : gmap cache_key cache_val |}; simpl; try done.
  - intros c k v. by rewrite lookup_insert_eq.
  - intros c k. rewrite list_elem_of_fmap. split.
    + intros ([k' v] & -> & Hin%elem_of_map_to_list). by eexists.
    + intros [v Hv]. exists (k, v). split; [done|]. by apply elem_of_map_to_list.
Defined.

(** ** go-ethereum: a signature carries the address of its signer *)

Definition pad20 (b : bytes) : bytes :=
  if (20 <? String.length b)%nat then bdrop (String.length b - 20) b
  else zeros (20 - String.length b) +:+ b.

Lemma pad20_length b : (String.length (pad20 b) =? 20)%nat = true.
Proof.
  apply Nat.eqb_eq. unfold pad20. destruct (Nat.ltb_spec 20 (String.length b)).
  - rewrite length_bdrop. lia.
  - rewrite string_length_app, length_zeros. lia.
Qed.

Definition addr_of (b : bytes) : Address := mkAddress (pad20 b) (pad20_length b).

Lemma addr_of_bytes a : addr_of (addr_bytes a) = a.
Proof.
  apply address_eq. simpl. unfold pad20. by rewrite addr_bytes_length.
Qed.

#[export] Instance sample_EthCrypto : EthCrypto := {|
  ecdsa_pub := Address;
  Keccak256 := sha256;
  BytesToAddress := addr_of;
  SigToPub _ sig := inr (addr_of (btake 20 sig));
  CompressPubkey pk := addr_bytes pk +:+ zeros 13;
  DecompressPubkey b := inr (addr_of (btake 20 b));
  FromECDSAPub pk := addr_bytes pk +:+ zeros 45;
  UnmarshalPubkey b := inr (addr_of (btake 20 b));
  PubkeyToAddress pk := pk;
|}.

Lemma addr_of_prefix a x : addr_of (btake 20 (addr_bytes a +:+ x)) = a.
Proof. by rewrite btake_app, addr_of_bytes by apply addr_bytes_length. Qed.

#[export] Instance sample_EthCryptoLaws : EthCryptoLaws.
Proof.
  split.
  - apply addr_of_bytes.
  - apply length_sha256.
  - intros pk. cbn [CompressPubkey sample_EthCrypto].
    by rewrite string_length_app, addr_bytes_length, length_zeros.
  - intros pk. cbn [DecompressPubkey CompressPubkey sample_EthCrypto]. f_equal. apply addr_of_prefix.
  - intros pk. cbn [UnmarshalPubkey FromECDSAPub sample_EthCrypto]. f_equal. apply addr_of_prefix.
Qed.

#[export] Existing Instance sample_Proto.
#[export] Existing Instance sample_ProtoLaws.

(** The signature of [a] on anything. *)
Definition sign (a : Address) : bytes := addr_bytes a +:+ zeros 45.

(** ** A new node *)

Definition nil_tx : TreeTx := mkTreeTx empty_DB ∅.
Definition nil_state : State := mkState empty_DB nil_tx (mkTreeView "" (mkSampleTree ∅ 256)) false ∅
  false [] 0 [] 0 "".

Definition state0 : State :=
  match NewState empty_DB ∅ with Ok s => s | _ => nil_state end.

(** The state a computation ends in, and its outcome. *)
Definition run_state {A} (m : GoM State A) (s : State) : State := (m s).1.
Definition run_out {A} (m : GoM State A) (s : State) : outcome A := (m s).2.

Lemma state0_eq : NewState empty_DB ∅ = Ok state0.
Proof.
  assert (Hok : is_ok (NewState empty_DB ∅) = true) by (vm_compute; reflexivity).
  unfold state0. by destruct (NewState empty_DB ∅).
Qed.

(** The new node is in a well-formed state. *)
Lemma state0_wf : wf state0.
Proof.
  apply (NewState_wf _ _ _ state0_eq). split.
  - exists (default (mkSampleTree ∅ 0) (db_trees (Store state0) !! main_key)).
    split; [vm_compute; reflexivity|]. split; [vm_compute; reflexivity|].
    intros []; vm_compute; reflexivity.
  - intros []; vm_compute; reflexivity.
Qed.

Lemma run_eq {A} (m : GoM State A) s r : run_out m s = r -> m s = (run_state m s, r).
Proof. unfold run_out, run_state. intros <-. apply surjective_pairing. Qed.

(** ** A node with two funded accounts, a burn account and transaction costs *)

Definition alice : Address := addr_of "alice".
Definition bob : Address := addr_of "bob".

Definition setup : GoM State unit :=
  SetAccount alice (mkAccount 1000 0 "ipfs://alice" [] 0);;
  SetAccount bob (mkAccount 50 7 "ipfs://bob" [] 0);;
  SetAccount BurnAddress (mkAccount 0 0 "" [] 0);;
  SetTxCost SEND_TOKENS 10;;
  SetTxCost COLLECT_FAUCET 4.

Definition state1 : State := run_state setup state0.

Lemma state1_wf : wf state1.
Proof.
  assert (Hk : keeps spreserves setup) by (unfold setup; keeps_auto).
  exact (proj2 (Hk state0) state0_wf).
Qed.

(** ** Proof libraries that accept the proof ["ok"] *)

#[export] Instance sample_ProofLibs : ProofLibs := {|
  arbo_hash _ b := inr (sha256 b);
  arbo_CheckProof _ _ _ _ proof := inr (bool_decide (proof = "ok"));
  arbo_BytesToBigInt := be_val;
  ecdsa_add_base pk _ := pk;
  blind_pub := Address;
  blind_sig := bytes;
  NewPublicKeyFromECDSA b := inr (addr_of b);
  NewSignatureFromBytesUncompressed b := inr b;
  blind_Verify _ sig _ := bool_decide (sig = "ok");
  blind_add_base pk _ := pk;
  BytesToHash b := b;
  mapbased_VerifyProof _ _ _ _ _ := None;
  minime_ParseMinimeValue b := Some (be_val b);
  minime_VerifyProof _ _ _ _ _ _ := None;
  snark_vk := unit;
  snark_proof := list string;
  ProofStringToProof a _ _ := inr a;
  PublicSignalsStringToPublicSignals _ := inr [];
  snark_Verify _ proof _ := bool_decide (proof = ["ok"]);
  X25519_base b := inr (sha256 b);
|}.

(** ** A node with a treasurer, an oracle and two processes *)

Definition carol : Address := addr_of "carol".

Definition pid1 : bytes := zeros 31 +:+ "1".
Definition pid2 : bytes := zeros 31 +:+ "2".

(** An interruptible process of [alice], with a census that may change, from block 5 to
    block 15. *)
Definition process1 : Process :=
  mkProcess pid1 (addr_bytes alice) 5 10 "root" (Some "ipfs://census") [] [] None READY
    (Some (mkEnvelopeType false false false false false))
    (Some (mkProcessMode true true true false false))
    (Some (mkProcessVoteOptions 1 3 0 0 0)) OFF_CHAIN_TREE [] None None None "" None "" 0 None 0.

(** The same with encrypted votes, not interruptible. *)
Definition process2 : Process :=
  mkProcess pid2 (addr_bytes alice) 5 10 "root" (Some "ipfs://census")
    (replicate 16 "") (replicate 16 "") None READY
    (Some (mkEnvelopeType false false true false false))
    (Some (mkProcessMode true false false false false))
    (Some (mkProcessVoteOptions 1 3 0 0 0)) OFF_CHAIN_TREE [] None None None "" None "" 0 None 0.

Definition setup2 : GoM State unit :=
  SetTreasurer carol 3;;
  AddOracle bob;;
  SetTxCost SET_PROCESS_STATUS 1;;
  SetTxCost SET_PROCESS_RESULTS 1;;
  SetTxCost NEW_PROCESS 2;;
  AddProcess process1;;
  AddProcess process2.

Definition state2 : State := run_state setup2 state1.

Lemma state2_wf : wf state2.
Proof.
  assert (Hk : keeps spreserves setup2) by (unfold setup2; keeps_auto).
  exact (proj2 (Hk state1) state1_wf).
Qed.

(** The same at height 20, after the end of the processes. *)
Definition state2_late : State := SetHeight 20 state2.

Lemma state2_late_wf : wf state2_late.
Proof. apply wf_SetHeight, state2_wf. Qed.

Lemma state2_keyed : keyed state2.
Proof.
  assert (Hk0 : keyed state0).
  { assert (Hv : sview state0 TreeProcess = ∅) by (vm_compute; reflexivity).
    intros pid p. unfold process, process_leaf. by rewrite Hv, lookup_empty. }
  assert (Hk1 : keeps evolves setup) by (unfold setup; keeps_auto).
  assert (Hk2 : keeps evolves setup2).
  { unfold setup2, SetTreasurer. keeps_auto. }
  destruct (Hk1 state0 state0_wf Hk0) as (Hwf1 & Hk1' & _).
  by destruct (Hk2 state1 Hwf1 Hk1') as (_ & ? & _).
Qed.

(** A transaction signed by [a]. *)
Definition signed (a : Address) (t : TxPayload) : VochainTx :=
  mkVochainTx (Some (mkTx (Some t))) (Some "body") (Some (sign a)) (sha256 "body").

Lemma state_process_sample s pid p :
  process s pid = Some p -> exists x, process_leaf s pid = Some x /\ SDB_Process x = Some p.
Proof. unfold process. intros (x & Hx & Hp)%bind_Some. eauto. Qed.
