(* ===== verification/IndexerSample.v ===== *)
(** * A concrete indexer

    Instances of the databases, caches and codecs of the indexer, with their laws.  The
    witnesses of the properties of the indexer run on them.  The file holds no property of the
    program. *)

From stdpp Require Import base option list strings gmap.
From Stdlib Require Import ZArith Lia.
From S2P Require Import Prelude GoMonad GoLib GoText Models Results ResultsFacts External Tables Nacl Codecs.
From S2P Require Import StateTrees IndexerTypes Indexer IndexerVotes Scrutinizer TallyFacts IndexerFacts IndexerRuns Sample.

(** ** Tables and caches *)

#[export] Instance sample_Tables : Tables := {|
  table R := gmap db_key R;
  t_empty R := ∅;
  t_find R k t := t !! k;
  t_insert R k v t := match t !! k with Some _ => None | None => Some (<[k := v]> t) end;
  t_put R k v t := <[k := v]> t;
  t_rows R t := map_to_list t
|}.

#[export] Instance sample_TablesLaws : TablesLaws.
Proof.
  split.
  - intros R k. apply lookup_empty.
  - intros R k v t Hk. exists (<[k := v]> t). cbn in *. rewrite Hk. split; [done|].
    intros k'. rewrite lookup_insert. destruct (decide (k' = k)), (decide (k = k')); congruence.
  - intros R k v t Hk. cbn in *. by destruct (t !! k).
  - intros R k v t k'. cbn. rewrite lookup_insert. destruct (decide (k' = k)), (decide (k = k')); congruence.
  - intros R t. apply NoDup_fst_map_to_list.
  - intros R t k v. apply elem_of_map_to_list.
Qed.

#[export] Instance sample_Memo : Memo := {|
  memo V := gmap string V;
  memo_new V := ∅;
  memo_get V c k := (c, c !! k);
  memo_add V c k v := <[k := v]> c
|}.

(** ** Codecs *)

(** The default message has no bytes; the others are marked. *)
Definition zero_codec {A} `{Countable A} (zero : A) : Codec A := {|
  marshal a := if decide (a = zero) then Some "" else Some ("m" +:+ enc_bytes a);
  unmarshal b := match b with EmptyString => Some zero | String _ b' => dec_bytes b' end
|}.

Lemma zero_codec_laws {A} `{Countable A} (zero : A) : @CodecLaws A (zero_codec zero).
Proof.
  intros a b. cbn. destruct (decide (a = zero)) as [->|]; intros [= <-]; [done|]. apply dec_enc_bytes.
Qed.

Lemma zero_codec_marshals {A} `{Countable A} (zero a : A) : marshal (Codec := zero_codec zero) a <> None.
Proof. cbn. by destruct (decide (a = zero)). Qed.

#[export] Instance sample_ProtoOpts : ProtoOpts := {|
  Proto_EnvelopeType := zero_codec zero_EnvelopeType;
  Proto_ProcessMode := zero_codec zero_ProcessMode;
  Proto_ProcessVoteOptions := zero_codec zero_ProcessVoteOptions;
  SourceNetworkId_String n := big_String n
|}.

#[export] Instance sample_ProtoOptsLaws : ProtoOptsLaws.
Proof.
  split; try apply zero_codec_laws; try done; intros; apply zero_codec_marshals.
Qed.

(** ** Sealed boxes *)

#[export] Instance sample_SealedBox : SealedBox := {|
  box_SealAnonymous m pub _ := inr (pub +:+ m);
  box_OpenAnonymous c pub _ := strip_prefix pub c
|}.

#[export] Instance sample_SealedBoxLaws : SealedBoxLaws.
Proof. intros key priv m rand c _ [= <-]. apply strip_prefix_app. Qed.

(** ** An indexer *)

Definition empty_IndexDB : IndexDB := mkIndexDB ∅ ∅ ∅ ∅ ∅ ∅ ∅ ∅.
Definition indexer0 : Scrutinizer := (NewScrutinizer true empty_IndexDB true).1.

(** ** An election

    The process [process1] of the sample state, two votes and the block store that has them. *)

Definition options1 : ProcessVoteOptions := mkProcessVoteOptions 1 3 0 0 0.
Definition plain1 : EnvelopeType := mkEnvelopeType false false false false false.

Definition envelope1 (package : bytes) : VoteEnvelope := mkVoteEnvelope "nonce" pid1 None package "" [].
Definition store1 (package : bytes) : SignedTx :=
  mkSignedTx (default "" (marshal (mkTx (Some (Tx_Vote (envelope1 package)))))) None.

Definition package1 : bytes := vote_text [2].
Definition package2 : bytes := vote_text [3].

Definition chain1 : Chain := {|
  ch_Process pid := if bool_decide (pid = pid1) then inr process1 else inl ErrNotFound;
  ch_Height := 9;
  ch_IsSynchronizing := false;
  ch_TimestampStartBlock := 100;
  ch_GetTxHash h i :=
    if (h =? 7) && (i =? 0) then inr (store1 package1, "h1")
    else if (h =? 8) && (i =? 1) then inr (store1 package2, "h2") else inl ErrNotFound;
  ch_Now := 101
|}.

Definition vote1 : VoteWithIndex := mkVoteWithIndex (mkVote 7 pid1 package1 "n1" "5" []) "voter1" 0.
Definition vote2 : VoteWithIndex := mkVoteWithIndex (mkVote 8 pid1 package2 "n2" "7" []) "voter2" 1.

Definition created1 : IndexDB := (newEmptyProcess true chain1 pid1 empty_IndexDB).1.
Definition indexer1 : Scrutinizer := mkScrutinizer no_pools {[pid1]} created1 memo_new memo_new false [] [].

Lemma creatable1 : creatable chain1 pid1 process1 options1 plain1.
Proof. split; try done; by vm_compute. Qed.

Lemma absent1 pid : absent pid empty_IndexDB.
Proof. done. Qed.

Lemma created1_indexed : indexed pid1 options1 plain1 (empty_results pid1 options1 (Some plain1)) created1.
Proof.
  destruct (newEmptyProcess_indexed _ _ _ _ _ _ creatable1 (absent1 pid1)) as (d & Hd & Hi & _).
  unfold created1. rewrite Hd. exact Hi.
Qed.

Lemma created1_votes : bh_votes created1 = ∅.
Proof.
  destruct (newEmptyProcess_indexed _ _ _ _ _ _ creatable1 (absent1 pid1)) as (d & Hd & _ & _ & Hv).
  unfold created1. rewrite Hd. exact Hv.
Qed.

Lemma finishable1 : finishable options1.
Proof. by vm_compute. Qed.

Lemma open1 : open_process chain1 pid1.
Proof. reflexivity. Qed.

(** The hypotheses of the properties, by evaluation. *)
Lemma live_tractable_eval et opts x :
  (0 <=? x.2) && match live_valid et opts x with Some b => bool_decide (in_range opts b.1) | None => true end = true ->
  live_tractable et opts x.
Proof.
  intros [Hw%Z.leb_le Hb]%andb_true_iff. split; [done|]. intros b Hv. rewrite Hv in Hb.
  by apply bool_decide_eq_true in Hb.
Qed.
