(* ===== verification/KeeperSample.v ===== *)
(** * A database in memory and a key keeper

    An instance of the databases of [Database.v], with transactions that hold a limited number of
    writes and are checked for conflicts when they are committed, and the libraries of the key
    keeper.  The file holds no property of the program. *)

From stdpp Require Import base option list strings gmap sorting pretty.
From Stdlib Require Import ZArith Lia.
From S2P Require Import Prelude GoMonad GoLib GoText Database Sha256 Models External Nacl Ethereum SignKeys.
From S2P Require Import Tree StateDB StateTrees State StateFacts Account Process App KeyKeeper KeyKeeperFacts.
From S2P Require Import Codecs Sample IndexerSample.

(** ** The database *)

Notation memdb := (gmap bytes bytes).

Record memtx := mkMemtx {
  mt_base : memdb;
  mt_writes : gmap bytes (option bytes);
  mt_reads : gset bytes
}.

Definition mem_write (limit : option nat) (k : bytes) (v : option bytes) (t : memtx) : memtx * outcome unit :=
  if match limit with Some n => (n <=? size (mt_writes t))%nat | None => false end then (t, Err ErrTxnTooBig)
  else (mkMemtx (mt_base t) (<[k := v]> (mt_writes t)) (mt_reads t), Ok tt).

Definition mem_apply (w : gmap bytes (option bytes)) (d : memdb) : memdb :=
  merge (fun w v => match w with Some w => w | None => v end) w d.

(** No key that was read has another value. *)
Definition mem_clean (t : memtx) (d : memdb) : Prop := forall k, k ∈ mt_reads t -> d !! k = mt_base t !! k.

#[export] Instance mem_clean_dec t d : Decision (mem_clean t d).
Proof.
  refine (cast_if (decide (Forall (fun k => d !! k = mt_base t !! k) (elements (mt_reads t)))));
    unfold mem_clean; rewrite Forall_forall in *; set_solver.
Defined.

Definition key_le (a b : bytes * bytes) : Prop := bytes_le a.1 b.1 = true.
#[export] Instance key_le_dec a b : Decision (key_le a b).
Proof. unfold key_le. apply _. Defined.

Definition mem_rests (prefix : bytes) (d : memdb) : list (bytes * bytes) :=
  merge_sort key_le (omap (fun '(k, v) => (fun rest => (rest, v)) <$> strip_prefix prefix k) (map_to_list d)).

Definition mem_Database (limit : option nat) : Database memdb memtx := {|
  db_WriteTx d := mkMemtx d ∅ ∅;
  tx_Get k d t :=
    (mkMemtx (mt_base t) (mt_writes t) ({[k]} ∪ mt_reads t),
     match (match mt_writes t !! k with Some v => v | None => mt_base t !! k end) with
     | Some v => Ok v | None => Err ErrKeyNotFound end);
  tx_Set k v := mem_write limit k (Some v);
  tx_Delete k := mem_write limit k None;
  tx_Apply other t := (mkMemtx (mt_base t) (mt_writes other ∪ mt_writes t) (mt_reads t), Ok tt);
  tx_Commit t d := if decide (mem_clean t d) then (mem_apply (mt_writes t) d, Ok tt) else (d, Err ErrConflict);
  db_Iterate prefix d := (fun '(rest, v) => (prefix +:+ rest, v)) <$> mem_rests prefix d
|}.

Definition mem_View : DatabaseView memdb memtx := {|
  contents d k := d !! k;
  tx_base t k := mt_base t !! k;
  tx_writes t k := mt_writes t !! k;
  tx_clean := mem_clean;
  iter_key prefix rest := prefix +:+ rest
|}.

(** *** Order *)

Lemma bytes_le_refl a : bytes_le a a = true.
Proof. induction a as [|c a IH]; [done|]. cbn. rewrite Z.ltb_irrefl, Z.eqb_refl. exact IH. Qed.

#[export] Instance key_le_total : Total key_le.
Proof.
  intros [a v] [b w]. unfold key_le. cbn. revert b. induction a as [|x a IH]; intros [|y b]; auto. cbn.
  destruct (Z.ltb_spec (byte_val x) (byte_val y)), (Z.ltb_spec (byte_val y) (byte_val x)); auto.
  assert (byte_val x = byte_val y) as -> by lia. rewrite Z.eqb_refl. cbn. apply IH.
Qed.

#[export] Instance key_le_trans : Transitive key_le.
Proof.
  intros [a u] [b v] [c w]. unfold key_le. cbn. revert b c.
  induction a as [|x a IH]; intros [|y b] [|z c]; try done. cbn.
  rewrite !orb_true_iff, !andb_true_iff, !Z.ltb_lt, !Z.eqb_eq.
  intros [Hxy | [Exy Hab]] [Hyz | [Eyz Hbc]]; [left; lia|left; lia|left; lia|right].
  split; [lia|by eapply IH].
Qed.

Lemma mem_rests_elem prefix d rest v : (rest, v) ∈ mem_rests prefix d <-> d !! (prefix +:+ rest) = Some v.
Proof.
  unfold mem_rests. rewrite merge_sort_Permutation, list_elem_of_omap. split.
  - intros ([k w] & Hk & Hr). apply elem_of_map_to_list in Hk. destruct (strip_prefix prefix k) eqn:E; [|done].
    apply strip_prefix_Some in E as ->. by injection Hr as -> ->.
  - intros Hd. exists (prefix +:+ rest, v). split; [by apply elem_of_map_to_list|].
    by rewrite (proj2 (strip_prefix_Some _ _ _) eq_refl).
Qed.

Lemma rests_NoDup prefix (l : list (bytes * bytes)) :
  NoDup l.*1 -> NoDup (omap (fun '(k, v) => (fun rest => (rest, v)) <$> strip_prefix prefix k) l).*1.
Proof.
  induction l as [|[k v] l IH]; intros Hnd; [constructor|]. cbn in Hnd. apply NoDup_cons in Hnd as [Hk Hnd].
  cbn. destruct (strip_prefix prefix k) as [rest|] eqn:E; [|by apply IH]. cbn. constructor; [|by apply IH].
  apply strip_prefix_Some in E as ->. intros ([r w] & [= <-] & Hin)%list_elem_of_fmap.
  apply list_elem_of_omap in Hin as ([k' w'] & Hin & Hr). destruct (strip_prefix prefix k') eqn:E'; [|done].
  apply strip_prefix_Some in E' as ->. injection Hr as -> ->. apply Hk, list_elem_of_fmap. by exists (prefix +:+ rest, w).
Qed.

(** *** Laws *)

Lemma mem_apply_lookup w d k : mem_apply w d !! k = match w !! k with Some v => v | None => d !! k end.
Proof. unfold mem_apply. rewrite lookup_merge. by destruct (w !! k), (d !! k). Qed.

Lemma mem_wrote limit k v t :
  @Database.wrote memdb memtx mem_View k v t (mem_write limit k v t).
Proof.
  unfold Database.wrote, mem_write. destruct (match limit with Some n => _ | None => _ end); [by right|left].
  split_and!; [done|..]; cbn; [|done|done]. intros k'. unfold fn_write.
  destruct (decide (k' = k)) as [->|Hne]; [by rewrite lookup_insert_eq|by rewrite lookup_insert_ne].
Qed.

Lemma mem_after_reads limit ks d :
  mt_writes (@after_reads _ _ (mem_Database limit) ks d) = ∅.
Proof.
  unfold after_reads. assert (Hn : mt_writes (@db_WriteTx _ _ (mem_Database limit) d) = ∅) by done.
  revert Hn. generalize (@db_WriteTx _ _ (mem_Database limit) d).
  induction ks as [|k ks IH]; intros t Ht; [done|]. by apply IH.
Qed.

Lemma mem_fits n k v t : mt_writes t = ∅ -> (mem_write (Some (S n)) k v t).2 = Ok tt.
Proof. intros Ht. unfold mem_write. by rewrite Ht. Qed.

Lemma mem_laws limit :
  (forall k v t, mt_writes t = ∅ -> (mem_write limit k v t).2 = Ok tt) ->
  @DatabaseLaws memdb memtx (mem_Database limit) mem_View.
Proof.
  intros Hfits. split.
  - intros d k. split; [done|]. apply lookup_empty.
  - intros d k Hk. by apply elem_of_empty in Hk.
  - intros k d t _. cbn. unfold overlay. cbn. by destruct (mt_writes t !! k).
  - done.
  - intros k d t Hb Ht k' [->%elem_of_singleton | Hk]%elem_of_union; [done|by apply Ht].
  - intros k v t. apply mem_wrote.
  - intros k t. apply mem_wrote.
  - intros k v ks d. apply Hfits, mem_after_reads.
  - intros k ks d. apply Hfits, mem_after_reads.
  - intros other t. left. split_and!; [done|..]; [|done]. intros k. cbn. rewrite lookup_union.
    by destruct (mt_writes other !! k), (mt_writes t !! k).
  - intros t d Ht. cbn. rewrite decide_True by exact Ht. split; [done|]. intros k. apply mem_apply_lookup.
  - intros prefix d. exists (mem_rests prefix d). split_and!; [done|..].
    + apply (StronglySorted_merge_sort key_le).
    + unfold mem_rests. rewrite merge_sort_Permutation. apply rests_NoDup, NoDup_fst_map_to_list.
    + intros rest v. apply mem_rests_elem.
Qed.

(** The databases of the samples: with at most two writes in a transaction, and without a limit. *)
Definition small : Database memdb memtx := mem_Database (Some 2%nat).
Definition large : Database memdb memtx := mem_Database None.

Definition small_laws : @DatabaseLaws memdb memtx small mem_View := mem_laws (Some 2%nat) (mem_fits 1).
Definition large_laws : @DatabaseLaws memdb memtx large mem_View := mem_laws None (fun _ _ _ _ => eq_refl).

Lemma mem_conflict : @ConflictLaws memdb memtx large mem_View large_laws.
Proof.
  unshelve esplit; [exact (fun t k => k ∈ mt_reads t)|..].
  - intros d k Hk. by apply elem_of_empty in Hk.
  - intros k d t k' [->%elem_of_singleton | Hk]%elem_of_union; auto.
  - done.
  - done.
  - intros t t' d Ht Ht' Hw k Hk. cbn. rewrite decide_True by exact Ht'. cbn. rewrite mem_apply_lookup.
    destruct (mt_writes t' !! k) eqn:E; [|by apply Ht]. exfalso. apply (Hw k); [|done]. cbn. by rewrite E.
Defined.

(** ** The key keeper *)

#[export] Instance sample_EthSign : EthSign := {|
  ecdsa_priv := Address;
  GenerateKey rand := inr (addr_of rand);
  HexToECDSA s := match hex_decode s with Some b => inr (addr_of b) | None => inl (Errorf "hex") end;
  FromECDSA := addr_bytes;
  priv_D := addr_bytes;
  priv_PublicKey k := k;
  ecdsa_Sign _ k := inr (sign k)
|}.

Lemma bget_app_r a b i n : String.length a = n -> bget (n + i) (a +:+ b) = bget i b.
Proof. intros <-. induction a as [|c a IH]; [done|exact IH]. Qed.

#[export] Instance sample_EthSignLaws : EthSignLaws.
Proof.
  split.
  - intros h k _. by eexists.
  - intros h k sig [= <-]. unfold sign. rewrite string_length_app, addr_bytes_length, length_zeros. split; [done|].
    exists 0. split; [|lia]. exact (bget_app_r (addr_bytes k) (zeros 45) 44 20 (addr_bytes_length k)).
  - intros h k sig [= <-]. cbn. f_equal. apply addr_of_prefix.
  - intros k. cbn. rewrite hex_decode_encode. f_equal. apply addr_of_bytes.
Qed.

#[export] Instance StoredKeys_countable_eq : EqDecision StoredKeys.
Proof. solve_decision. Defined.
#[export] Instance StoredKeys_countable : Countable StoredKeys.
Proof. refine (inj_countable' Pids mkStoredKeys _). by intros []. Defined.

#[export] Instance sample_StoredKeys : StoredKeysCodec := {|
  StoredKeys_codec := codec_of (fun _ => true);
  unmarshal_partial _ := mkStoredKeys []
|}.

#[export] Instance sample_KeeperEnv : KeeperEnv := {|
  SendTx _ _ := inr 0;
  RandomInt sent := Z.of_nat (List.length sent);
  range A m := map_to_list m
|}.

#[export] Instance sample_KeeperLaws : KeeperLaws.
Proof.
  split.
  - intros key _. eexists. split; [reflexivity|]. apply length_sha256.
  - intros tx. by eexists.
  - intros tx. by eexists.
  - intros tx. by eexists.
  - apply codec_of_laws.
  - apply codec_of_laws.
  - apply codec_of_laws.
  - done.
Qed.
