(* ===== verification/ChainSample.v ===== *)
(** * A sample chain

    A node that is started on an empty database, makes a block with a new process and begins the
    next one.  The file holds no property of the program. *)

From stdpp Require Import base option list strings gmap relations.
From S2P Require Import Prelude GoMonad GoLib Sha256 Models External Codecs Ethereum Tree StateDB.
From S2P Require Import StateTrees State StateFacts CommitFacts Account AccountFacts VoteCache Process.
From S2P Require Import ProcessFacts Census CensusProof Transaction TxFacts App Lifecycle BlockFacts.
From S2P Require Import ChainFacts Sample.

(** A chain with the oracle [bob], the account [alice] and the treasurer [carol]. *)
Definition genesis1 : GenesisAppState :=
  mkGenesisAppState [mkGenesisValidator "validator" "key" "10"] [addr_bytes bob] [(addr_bytes alice, 1000)]
    (addr_bytes carol) (mkTransactionCosts 1 1 1 1 1 2 10 1 1 1 4).

Definition tm_hash : bytes -> bytes := fun b => b.
Definition order : list (TxType * Z) -> list (TxType * Z) := fun l => l.

Definition app_state {A} (m : GoM BaseApplication A) (a : BaseApplication) : BaseApplication := (m a).1.
Definition app_out {A} (m : GoM BaseApplication A) (a : BaseApplication) : outcome A := (m a).2.

Lemma app_eq {A} (m : GoM BaseApplication A) a r : app_out m a = r -> m a = (app_state m a, r).
Proof. unfold app_out, app_state. intros <-. apply surjective_pairing. Qed.

(** The transaction of [bob] that creates the first process, as it is sent. *)
Definition new_content : bytes :=
  enc_bytes (mkSignedTx (enc_bytes (mkTx (Some (Tx_NewProcess (mkNewProcessTx 0 (Some process1))))))
               (Some (sign bob))).

Definition start : BaseApplication := App_SetChainID "dev" (mkApp state0 0 0 0 "" []).
Definition app0 : BaseApplication := app_state (on_State (InitChain order genesis1)) start.
Definition app1 : BaseApplication := app_state (BeginBlock 100 1) app0.
Definition app2 : BaseApplication := app_state (DeliverTx tm_hash new_content) app1.
Definition app3 : BaseApplication := app_state App_Commit app2.
Definition app4 : BaseApplication := app_state (BeginBlock 110 2) app3.

Lemma reach_init c s chain g :
  NewState empty_DB c = Ok s ->
  let a := App_SetChainID chain (mkApp s 0 0 0 "" []) in
  app_out (on_State (InitChain order g)) a = Ok tt ->
  reachable tm_hash order g (app_state (on_State (InitChain order g)) a).
Proof. intros Hs a Hrun. eapply reach_genesis; [exact Hs|]. by apply app_eq. Qed.

Lemma reach_begin g a time h :
  reachable tm_hash order g a -> app_out (BeginBlock time h) a = Ok tt ->
  reachable tm_hash order g (app_state (BeginBlock time h) a).
Proof. intros Hr Hrun. eapply reach_step; [exact Hr|]. by apply (abci_begin _ _ time h), app_eq. Qed.

Lemma reach_deliver g a content :
  reachable tm_hash order g a -> is_ok (app_out (DeliverTx tm_hash content) a) = true ->
  reachable tm_hash order g (app_state (DeliverTx tm_hash content) a).
Proof.
  intros Hr Hrun. eapply reach_step; [exact Hr|].
  destruct (app_out (DeliverTx tm_hash content) a) as [r|e|w] eqn:Ho; try done.
  by eapply (abci_deliver _ _ content), app_eq.
Qed.

Lemma reach_commit g a :
  reachable tm_hash order g a -> is_ok (app_out App_Commit a) = true ->
  reachable tm_hash order g (app_state App_Commit a).
Proof.
  intros Hr Hrun. eapply reach_step; [exact Hr|].
  destruct (app_out App_Commit a) as [r|e|w] eqn:Ho; try done. by eapply (abci_commit _ _), app_eq.
Qed.

Lemma app0_reachable : reachable tm_hash order genesis1 app0.
Proof. unfold app0, start. apply (reach_init ∅); [exact state0_eq|]. vm_compute. reflexivity. Qed.

Lemma app1_reachable : reachable tm_hash order genesis1 app1.
Proof. unfold app1. apply reach_begin; [exact app0_reachable|]. vm_compute. reflexivity. Qed.

Lemma app2_reachable : reachable tm_hash order genesis1 app2.
Proof. unfold app2. apply reach_deliver; [exact app1_reachable|]. vm_compute. reflexivity. Qed.

Lemma app3_reachable : reachable tm_hash order genesis1 app3.
Proof. unfold app3. apply reach_commit; [exact app2_reachable|]. vm_compute. reflexivity. Qed.

Lemma app3_begin : abci_step tm_hash app3 app4.
Proof.
  assert (Hb : forall a, app_out (BeginBlock 110 2) a = Ok tt ->
    abci_step tm_hash a (app_state (BeginBlock 110 2) a)).
  { intros a Ha. by apply (abci_begin _ _ 110 2), app_eq. }
  unfold app4. apply Hb. vm_compute. reflexivity.
Qed.
