(* ===== verification/CensusSample.v ===== *)
(** * A concrete environment for the censuses

    Instances of the tree, identifier and compression libraries of the census service, with their
    laws.  The witnesses run the model on them.  The file holds no property of the program. *)

From stdpp Require Import base option list strings gmap.
From Stdlib Require Import ZArith Lia.
From S2P Require Import Prelude GoMonad GoLib External Sample CensusTree CensusAPI.

(** ** Trees with their hash function *)

Record census_tree := mkCensusTree { cs_leaves : gmap bytes bytes; cs_levels : Z; cs_hash : HashFunction }.

Definition set_cs_leaves (m : gmap bytes bytes) (t : census_tree) : census_tree := mkCensusTree m (cs_levels t) (cs_hash t).

Definition census_root (t : census_tree) : bytes := sample_root (mkSampleTree (cs_leaves t) (cs_levels t)).

Definition census_set_root (t : census_tree) (r : bytes) : error + census_tree :=
  if bool_decide (r = census_root t) then inr t else inl (Errorf "root not found").

#[export] Instance census_Arbo : Arbo := {|
  arbo := census_tree;
  arbo_new h l := mkCensusTree ∅ l h;
  arbo_get t k := match cs_leaves t !! k with Some v => inr v | None => inl arbo_ErrKeyNotFound end;
  arbo_add t k v :=
    match cs_leaves t !! k with
    | Some _ => inl (Errorf "key already exists")
    | None => if 8 * blen k <=? cs_levels t then inr (set_cs_leaves (<[k := v]> (cs_leaves t)) t)
              else inl (Errorf "key too long")
    end;
  arbo_update t k v :=
    match cs_leaves t !! k with
    | Some _ => inr (set_cs_leaves (<[k := v]> (cs_leaves t)) t)
    | None => inl arbo_ErrKeyNotFound
    end;
  arbo_root := census_root;
  arbo_set_root := census_set_root;
  arbo_snapshot := census_set_root;
  arbo_iter A t f a := fold_left (fun acc kv => fst (f acc kv.1 kv.2)) (map_to_list (cs_leaves t)) a;
|}.

#[export] Instance census_ArboLaws : @ArboLaws census_Arbo.
Proof.
  refine (Build_ArboLaws census_Arbo cs_leaves cs_levels _ _ _ _ _ _ _ _ _ _ _ _ _); simpl.
  - done.
  - done.
  - intros h l. reflexivity.
  - done.
  - by intros t k v ->.
  - by intros t k ->.
  - intros t k ->. by eexists.
  - intros t k v t'. destruct (cs_leaves t !! k) eqn:E; [done|].
    destruct (_ <=? _); [|done]. by intros [= <-].
  - intros t k v t'. destruct (cs_leaves t !! k) eqn:E; [|done]. by intros [= <-].
  - intros t k v [x ->] _. by eexists.
  - by intros t k v ->.
  - intros t r t'. unfold census_set_root. case_bool_decide; [|done]. by intros [= <-].
  - intros t. exists t. unfold census_set_root. by rewrite bool_decide_eq_true_2.
Defined.

#[export] Instance census_ArboIterBranch : @ArboIterBranch census_Arbo census_ArboLaws.
Proof. intros A t f a. exists (map_to_list (cs_leaves t)). split; [done|]. reflexivity. Qed.

(** ** Batches *)

(** A value of more than 32 octets is not valid. *)
Definition batch_step (ks vs : list bytes) (s : list nat * gmap bytes bytes) (i : nat) : list nat * gmap bytes bytes :=
  match ks !! i with
  | Some k => if bool_decide (s.2 !! k = None) && (blen (default "" (vs !! i)) <=? 32) then (s.1, batch_leaf ks vs s.2 i) else (s.1 ++ [i], s.2)
  | None => s
  end.

Definition batch_run (ks vs : list bytes) (m : gmap bytes bytes) (n : nat) : list nat * gmap bytes bytes :=
  fold_left (batch_step ks vs) (seq 0 n) ([], m).

Record batch_good (ks vs : list bytes) (m : gmap bytes bytes) (n : nat) (inv : list nat) (m' : gmap bytes bytes) : Prop := {
  bg_nodup : NoDup inv;
  bg_bound : forall i, i ∈ inv -> (i < n)%nat;
  bg_leaves : m' = fold_left (batch_leaf ks vs) (valid_indexes n inv) m;
  bg_valid : forall i k, (i < n)%nat -> ks !! i = Some k -> i ∉ inv ->
    m !! k = None /\ forall j, (j < n)%nat -> ks !! j = Some k -> j ∉ inv -> j = i;
  bg_dom : forall k, m' !! k = None -> m !! k = None /\ forall i, (i < n)%nat -> ks !! i = Some k -> i ∈ inv;
}.

Lemma valid_indexes_S n inv :
  valid_indexes (S n) inv = valid_indexes n inv ++ (if decide (n ∈ inv) then [] else [n]).
Proof.
  unfold valid_indexes. rewrite seq_S, filter_app. cbn. f_equal.
  destruct (decide (n ∈ inv)); [rewrite decide_False by naive_solver|rewrite decide_True by done]; done.
Qed.

Lemma valid_indexes_bound n m inv : (n <= m)%nat -> valid_indexes n (inv ++ [m]) = valid_indexes n inv.
Proof.
  intros Hle. induction n as [|n IH]; [done|]. rewrite !valid_indexes_S, IH by lia. f_equal.
  destruct (decide (n ∈ inv)), (decide (n ∈ inv ++ [m])); try done; exfalso; set_solver by lia.
Qed.

Lemma batch_run_good ks vs m n : (n <= List.length ks)%nat -> batch_good ks vs m n (batch_run ks vs m n).1 (batch_run ks vs m n).2.
Proof.
  induction n as [|n IH]; intros Hle.
  - split; cbn; [apply NoDup_nil_2|set_solver|done|lia|]. intros k Hk. split; [done|lia].
  - specialize (IH ltac:(lia)). unfold batch_run in *. rewrite seq_S, fold_left_app. cbn [fold_left Nat.add].
    destruct (fold_left _ (seq 0 n) _) as [inv m']. cbn [fst snd] in IH. destruct IH as [Hnd Hbd Hlv Hval Hdom].
    destruct (ks !! n) as [k|] eqn:Hk; [|apply lookup_ge_None in Hk; lia].
    assert (Hn : n ∉ inv) by (intros Hin%Hbd; lia).
    unfold batch_step. rewrite Hk. cbn [fst snd]. destruct (bool_decide (m' !! k = None) && _) eqn:Hb.
    + apply andb_true_iff in Hb as [Hm'%bool_decide_eq_true _]. destruct (Hdom _ Hm') as [Hm Hks]. cbn [fst snd]. split; [done|intros i Hi%Hbd; lia| | |].
      * rewrite valid_indexes_S, decide_False, fold_left_app, <- Hlv by done. done.
      * intros i k1 Hi Hk1 Hin. destruct (decide (i = n)) as [->|Hne].
        -- rewrite Hk in Hk1. injection Hk1 as <-. split; [done|]. intros j Hj Hkj Hjin.
           destruct (decide (j = n)) as [->|]; [done|]. destruct Hjin. apply Hks; [lia|done].
        -- destruct (Hval i k1) as [? Hu]; [lia|done|done|]. split; [done|]. intros j Hj Hkj Hjin.
           destruct (decide (j = n)) as [->|]; [|apply Hu; [lia|done|done]].
           rewrite Hk in Hkj. injection Hkj as <-. destruct Hin. apply Hks; [lia|done].
      * intros k1. unfold batch_leaf. rewrite Hk, lookup_insert_None. intros [Hk1 Hne]. destruct (Hdom _ Hk1) as [? Hu].
        split; [done|]. intros i Hi Hki. destruct (decide (i = n)) as [->|]; [congruence|]. apply Hu; [lia|done].
    + cbn [fst snd]. split.
      * apply NoDup_app. split_and!; [done|set_solver|apply NoDup_singleton].
      * intros i [Hi%Hbd| ->%list_elem_of_singleton]%elem_of_app; lia.
      * rewrite valid_indexes_S, decide_True, app_nil_r, valid_indexes_bound by (done || set_solver). done.
      * intros i k1 Hi Hk1 Hin. destruct (decide (i = n)) as [->|Hne]; [set_solver|].
        destruct (Hval i k1) as [? Hu]; [lia|done|set_solver|]. split; [done|]. intros j Hj Hkj Hjin.
        destruct (decide (j = n)) as [->|]; [set_solver|]. apply Hu; [lia|done|set_solver].
      * intros k1 Hk1. destruct (Hdom _ Hk1) as [? Hu]. split; [done|]. intros i Hi Hki.
        destruct (decide (i = n)) as [->|]; [set_solver|]. apply elem_of_app. left. apply Hu; [lia|done].
Qed.

(** ** Dumps: a number that encodes the leaves *)

Definition census_dump (m : gmap bytes bytes) : bytes :=
  let z := Z.pos (encode m) in be_bytes (Z.to_nat (Z.log2 z / 8 + 1)) z.
Definition census_undump (b : bytes) : option (gmap bytes bytes) := decode (Z.to_pos (be_val b)).

Lemma census_undump_dump m : census_undump (census_dump m) = Some m.
Proof.
  unfold census_undump, census_dump. set (z := Z.pos (encode m)). rewrite be_val_bytes.
  assert (Hz : 0 < z) by lia. pose proof (Z.log2_nonneg z). pose proof (Z.log2_spec z Hz) as [_ Hlt].
  rewrite Z2Nat.id by (pose proof (Z.div_pos (Z.log2 z) 8); lia). rewrite Z.mod_small.
  - unfold z. cbn [Z.to_pos]. apply decode_encode.
  - split; [lia|]. eapply Z.lt_le_trans; [exact Hlt|]. change 256 with (2 ^ 8).
    rewrite <- Z.pow_mul_r by (pose proof (Z.div_pos (Z.log2 z) 8); lia).
    apply Z.pow_le_mono_r; [lia|]. pose proof (Z.div_mod (Z.log2 z) 8). pose proof (Z.mod_pos_bound (Z.log2 z) 8). lia.
Qed.

(** ** The libraries *)

Lemma be_val_nonneg b : 0 <= be_val b.
Proof.
  unfold be_val. assert (Hgen : forall acc, 0 <= acc -> 0 <= be_val_acc acc b).
  { induction b as [|c b IH]; intros acc Hacc; [done|]. cbn. apply IH. pose proof (byte_val_range c). lia. }
  by apply Hgen.
Qed.

#[export] Instance census_ArboCensus : @ArboCensus census_Arbo := @Build_ArboCensus census_Arbo
  (fun h l (t : census_tree) => mkCensusTree (cs_leaves t) l h)
  (fun (t : census_tree) ks vs =>
     let r := batch_run ks vs (cs_leaves t) (List.length ks) in inr (r.1, set_cs_leaves r.2 t))
  (fun t : census_tree => Z.of_nat (size (cs_leaves t)))
  (fun (t : census_tree) k => match cs_leaves t !! k with Some v => inr (v, "ok", true) | None => inr ("", "", false) end)
  (fun t : census_tree => inr (census_dump (cs_leaves t)))
  (fun (t : census_tree) b =>
     if bool_decide (cs_leaves t = ∅)
     then match census_undump b with Some m => inr (set_cs_leaves m t) | None => inl (Errorf "invalid dump") end
     else inl (Errorf "tree is not empty"))
  (fun n z => be_bytes (Z.to_nat n) z).

#[export] Instance census_ArboCensusLaws :
  @ArboCensusLaws census_Arbo census_ArboLaws sample_EthCrypto sample_ProofLibs census_ArboCensus.
Proof.
  refine (Build_ArboCensusLaws census_Arbo census_ArboLaws sample_EthCrypto sample_ProofLibs census_ArboCensus
            cs_hash _ _ _ _ _ _ _ _ _ _ _ _ _ _ _); simpl.
  - done.
  - intros t k v t'. destruct (cs_leaves t !! k); [done|]. destruct (_ <=? _); [|done]. by intros [= <-].
  - intros t ks vs inv t' [= _ <-]. done.
  - by intros [].
  - done.
  - intros t ks vs inv t' [= <- <-]. destruct (batch_run_good ks vs (cs_leaves t) (List.length ks)) as [Hn Hb Hl Hv _]; [done|].
    split_and!; [done|done|done|exact Hl|]. intros i k Hk Hi. pose proof (lookup_lt_Some _ _ _ Hk) as Hlt.
    destruct (Hv i k Hlt Hk Hi) as [Hm Hu]. split; [done|]. intros j Hj. apply Hu; [by apply lookup_lt_Some in Hj|done].
  - done.
  - intros t k v s. destruct (cs_leaves t !! k) as [v0|] eqn:E; [|done]. intros [= -> <-]. by rewrite bool_decide_eq_true_2.
  - intros t k v ->. by eexists.
  - intros t b t'. case_bool_decide; [|done]. destruct (census_undump b); [|done]. by intros [= <-].
  - intros t b t0 Hl Hlev Hh [= <-]. rewrite bool_decide_eq_true_2, census_undump_dump by done.
    exists (set_cs_leaves (cs_leaves t0) t). split_and!; [done|done|]. reflexivity.
  - intros t b t0 t' [= <-]. case_bool_decide; [|done]. rewrite census_undump_dump. by intros [= <-].
  - reflexivity.
  - intros b. apply be_val_nonneg.
  - intros n z Hz. rewrite be_val_bytes. destruct (Z.le_gt_cases 0 n) as [Hn|Hn].
    + rewrite Z2Nat.id by done. by apply Z.mod_small.
    + rewrite Z.pow_neg_r in Hz by done. lia.
Defined.

#[export] Instance census_ApiLibs : ApiLibs := {|
  uuid_Parse s := if (String.length s =? 16)%nat then inr s else inl (Errorf "invalid UUID length");
  zstd_EncodeAll b := String (byte_of 40) (String (byte_of 181) (String (byte_of 47) (String (byte_of 253) b)));
  zstd_DecodeAll b := inr (bdrop 4 b);
|}.

#[export] Instance census_ApiLibsLaws : ApiLibsLaws.
Proof.
  split.
  - reflexivity.
  - intros b. cbn. by destruct b.
  - intros s u. cbn. destruct (Nat.eqb_spec (String.length s) 16); [|done]. by intros [= <-].
Qed.
