(* ===== verification/AccountSpec.v ===== *)
(** * Correctness of the account operations

    The properties of [src/vochain/account.go], with their witnesses on the node of
    [Sample.v]. *)

From stdpp Require Import base option list strings gmap.
From Stdlib Require Import ZArith Lia.
From S2P Require Import Prelude GoMonad GoLib Sha256 Models External Codecs Ethereum Tree StateDB.
From S2P Require Import StateTrees State StateFacts Account AccountFacts AccountTx Sample.

Section transfers.
Context `{ArboLaws, Lru, ProtoLaws, EthCryptoLaws}.

(** [TransferBalance] succeeds when both accounts exist, the amount is positive, the origin
    holds it, the destination does not overflow and the new accounts can be encoded.  The
    two accounts may be the same one. *)
Lemma TransferBalance_run from to amount s af at' :
  wf s -> account s from = Some af -> account s to = Some at' ->
  0 < amount <= Balance af -> Balance at' + amount < 2 ^ 64 ->
  storable (with_Balance (Balance af - amount) af) ->
  storable (with_Balance (Balance at' + amount) at') ->
  exists s', TransferBalance from to amount s = (s', Ok tt).
Proof.
  intros Hwf Hf Ht Hle Hov Hsf Hst.
  pose proof (account_balance_range _ _ _ Hf) as Hbf. pose proof (account_balance_range _ _ _ Ht) as Hbt.
  assert (Ham : is_u64 amount) by (unfold is_u64 in *; lia).
  destruct (GetAccount_found from s af Hwf Hf) as (s1 & Hg1 & Hr1).
  pose proof (sreads_wf _ _ Hwf Hr1) as Hwf1.
  destruct (GetAccount_found to s1 at' Hwf1) as (s2 & Hg2 & Hr2);
    [by rewrite (account_reads s s1)|].
  pose proof (sreads_wf _ _ Hwf1 Hr2) as Hwf2.
  destruct (SetAccount_run from (with_Balance (Balance af - amount) af) s2) as [s3 Hs3]; [done| |done|].
  { rewrite (account_reads s1 s2), (account_reads s s1), Hf by done. by eexists. }
  pose proof (SetAccount_Ok _ _ _ _ _ Hwf2 Hs3) as Hu3.
  destruct (SetAccount_run to (with_Balance (Balance at' + amount) at') s3) as [s4 Hs4];
    [apply Hu3| |done|].
  { rewrite (updated_account _ _ _ _ Hu3). destruct (decide (to = from)); [by eexists|].
    rewrite (account_reads s1 s2), (account_reads s s1), Ht by done. by eexists. }
  exists s4. unfold TransferBalance. rewrite (bind_run_Ok _ _ _ _ _ Hg1). simpl existing.
  rewrite (bind_run_Ok _ _ s1 s1 af) by done. rewrite (bind_run_Ok _ _ _ _ _ Hg2). simpl existing.
  rewrite (bind_run_Ok _ _ s2 s2 at') by done.
  erewrite bind_run_Ok; [|apply lift_Ok; split; [done|]; by apply Transfer_Ok].
  cbv beta iota. by rewrite (bind_run_Ok _ _ _ _ _ Hs3).
Qed.

(** C17.  [TransferBalance] between two different accounts succeeds when both exist, the
    amount is positive, the origin holds it and the destination does not overflow (and
    the new accounts can be encoded in a leaf).  Then exactly the two balances change,
    by the amount, and the sum of all balances is conserved.  The nonces do not change,
    although the comment of the function says that the new values include the nonce: the
    callers increment it. *)
Theorem transfer_correct from to amount s af at' :
  wf s -> from <> to -> account s from = Some af -> account s to = Some at' ->
  0 < amount <= Balance af -> Balance at' + amount < 2 ^ 64 ->
  storable (with_Balance (Balance af - amount) af) ->
  storable (with_Balance (Balance at' + amount) at') ->
  exists s', TransferBalance from to amount s = (s', Ok tt) /\
    wf s' /\ only_tx s s' /\ supply s' = supply s /\
    forall c, account s' c =
      if decide (c = to) then Some (with_Balance (Balance at' + amount) at')
      else if decide (c = from) then Some (with_Balance (Balance af - amount) af)
      else account s c.
Proof.
  intros Hwf Hne Hf Ht Hle Hov Hsf Hst. pose proof (account_balance_range _ _ _ Hf) as Hbf.
  assert (Ham : is_u64 amount) by (unfold is_u64 in *; lia).
  destruct (TransferBalance_run from to amount s af at') as [s' Hrun]; [done..|].
  exists s'. split; [done|].
  pose proof (TransferBalance_supply _ _ _ _ _ _ Hwf Ham Hrun) as Hsup. rewrite decide_False in Hsup by congruence.
  apply TransferBalance_Ok in Hrun as (af' & at2 & Hf' & Ht' & _ & _ & s1 & Hu1 & Hu2); [|done..].
  assert (af' = af) as -> by congruence. assert (at2 = at') as -> by congruence.
  destruct (updated_twice _ _ _ _ _ _ _ Hu1 Hu2) as (? & ? & ? & _).
  split_and!; [done..|lia|done].
Qed.

(** C39.  A transfer from an account to itself is not refused: whenever the account exists,
    holds the positive amount, does not overflow and can be encoded, [TransferBalance]
    succeeds.  It creates tokens: the balance and the sum of all balances grow by the
    amount, and nothing else changes. *)
Theorem self_transfer_creates_tokens a amount s acc :
  wf s -> account s a = Some acc -> 0 < amount <= Balance acc -> Balance acc + amount < 2 ^ 64 ->
  storable (with_Balance (Balance acc - amount) acc) ->
  storable (with_Balance (Balance acc + amount) acc) ->
  exists s', TransferBalance a a amount s = (s', Ok tt) /\
    wf s' /\ only_tx s s' /\ supply s' = supply s + amount /\
    forall c, account s' c = if decide (c = a) then Some (with_Balance (Balance acc + amount) acc)
                            else account s c.
Proof.
  intros Hwf Ha Hle Hov Hsf Hst. pose proof (account_balance_range _ _ _ Ha) as Hb.
  assert (Ham : is_u64 amount) by (unfold is_u64 in *; lia).
  destruct (TransferBalance_run a a amount s acc acc) as [s' Hrun]; [done..|].
  exists s'. split; [done|].
  pose proof (TransferBalance_supply _ _ _ _ _ _ Hwf Ham Hrun) as Hsup. rewrite decide_True in Hsup by done.
  apply TransferBalance_Ok in Hrun as (af & at' & Hf & Ht & _ & _ & s1 & Hu1 & Hu2); [|done..].
  assert (af = acc) as -> by congruence. assert (at' = acc) as -> by congruence.
  destruct (updated_twice _ _ _ _ _ _ _ Hu1 Hu2) as (? & ? & Hacc & _).
  split_and!; [done..|]. intros c. rewrite Hacc. by destruct (decide (c = a)).
Qed.

(** [MintBalance] adds the amount to the balance of an account and to the sum of all
    balances, and changes no other account.  It succeeds when the account exists, the
    amount is positive and the balance does not overflow. *)
Theorem mint_correct a amount s acc :
  wf s -> account s a = Some acc -> 0 < amount -> Balance acc + amount < 2 ^ 64 ->
  storable (with_Balance (Balance acc + amount) acc) ->
  exists s', MintBalance a amount s = (s', Ok tt) /\ wf s' /\ supply s' = supply s + amount /\
    forall c, account s' c = if decide (c = a) then Some (with_Balance (Balance acc + amount) acc)
                            else account s c.
Proof.
  intros Hwf Ha Hpos Hov Hsto. pose proof (account_balance_range _ _ _ Ha) as Hb.
  assert (Ham : is_u64 amount) by (unfold is_u64 in *; lia).
  destruct (GetAccount_found a s acc Hwf Ha) as (s1 & Hg & Hr). pose proof (sreads_wf _ _ Hwf Hr) as Hwf1.
  destruct (SetAccount_run a (with_Balance (Balance acc + amount) acc) s1) as [s2 Hs2]; [done| |done|].
  { rewrite (account_reads s s1), Ha by done. by eexists. }
  assert (Hrun : MintBalance a amount s = (s2, Ok tt)).
  { unfold MintBalance. rewrite (proj2 (Z.eqb_neq amount 0)) by lia.
    erewrite bind_run_Ok by reflexivity. erewrite bind_run_Ok by (by apply wrapping_Ok).
    erewrite bind_run_Ok by reflexivity. rewrite (proj2 (overflow_check _ _ Hb Ham ltac:(lia)) Hov).
    erewrite bind_run_Ok by reflexivity. rewrite u64_id by (unfold is_u64 in *; lia). exact Hs2. }
  exists s2. split; [done|]. apply MintBalance_Ok in Hrun as (acc' & Ha' & _ & _ & Hu); [|done..].
  rewrite Ha in Ha'. injection Ha' as <-. destruct Hu as [Hwf2 _ Hacc Hsup _ _].
  split_and!; [done| |done]. rewrite Hsup. unfold balance. rewrite Ha. simpl. lia.
Qed.

(** The index of an account's next process stays between 1 and 2^22 + 1: the counter
    goes up by one and starts again at 1 once it has passed 2^22, so there is no maximum
    number of processes of an account. *)
Theorem process_index_bounds a s s' :
  wf s -> IncrementAccountProcessIndex a s = (s', Ok tt) ->
  exists acc acc', account s a = Some acc /\ account s' a = Some acc' /\
    1 <= ProcessIndex acc' <= 2 ^ 22 + 1 /\
    ProcessIndex acc' = (if 2 ^ 22 <? ProcessIndex acc then 1 else ProcessIndex acc + 1) /\
    Balance acc' = Balance acc /\ Nonce acc' = Nonce acc /\ supply s' = supply s.
Proof.
  intros Hwf Hrun. apply IncrementAccountProcessIndex_Ok in Hrun as (acc & Ha & [_ _ Hacc Hsup _ _]); [|done].
  exists acc, (with_ProcessIndex (next_process_index (ProcessIndex acc)) acc).
  destruct (account_range _ _ _ Ha) as (_ & _ & Hi).
  rewrite Hacc, decide_True by done. split_and!; try done.
  - simpl. unfold next_process_index, is_u32 in *. destruct (Z.ltb_spec (2 ^ 22) (ProcessIndex acc)); lia.
  - simpl. unfold next_process_index, is_u32 in *. destruct (Z.ltb_spec (2 ^ 22) (ProcessIndex acc)); lia.
  - rewrite Hsup. unfold balance. rewrite Ha. simpl. lia.
Qed.
End transfers.

(** On an account without repeated delegates, [AddDelegate] adds a delegate that was
    not there and refuses one that was, [DelDelegate] removes it without a panic, both
    leave the other delegates alone, and no delegate is repeated afterwards. *)
Theorem delegates_correct a d :
  NoDup (DelegateAddrs a) ->
  match AddDelegate a d with
  | Ok a' => IsDelegate a d = false /\ NoDup (DelegateAddrs a') /\
      forall e, IsDelegate a' e = bool_decide (e = d) || IsDelegate a e
  | Err _ => IsDelegate a d = true
  | Panic _ => False
  end /\
  exists a', DelDelegate a d = Ok a' /\ NoDup (DelegateAddrs a') /\
    forall e, IsDelegate a' e = negb (bool_decide (e = d)) && IsDelegate a e.
Proof.
  intros Hnd. split.
  - unfold AddDelegate. destruct (IsDelegate a d) eqn:Hd; [done|]. split_and!; [done| |].
    + simpl. apply NoDup_app. split_and!; [done| |by apply NoDup_singleton].
      intros x Hx ->%list_elem_of_singleton. apply not_true_iff_false in Hd. by apply Hd, IsDelegate_spec.
    + intros e. apply eq_true_iff_eq. rewrite orb_true_iff, bool_decide_eq_true, !IsDelegate_spec. simpl.
      rewrite elem_of_app, list_elem_of_singleton. split; [intros [?|?%address_eq]; auto|].
      intros [->|?]; auto.
  - destruct (DelDelegate_NoDup a d Hnd) as (l & Hrun & Hin & Hout). exists (with_DelegateAddrs l a).
    split; [done|]. destruct (decide (addr_bytes d ∈ DelegateAddrs a)) as [Hd|Hd].
    + specialize (Hin Hd). rewrite <- Hin in Hnd. apply NoDup_cons in Hnd as [Hnot Hnd]. split; [done|].
      intros e. apply eq_true_iff_eq. rewrite andb_true_iff, negb_true_iff, bool_decide_eq_false, !IsDelegate_spec.
      simpl. rewrite <- Hin, elem_of_cons. split.
      * intros He. split; [by intros ->|by right].
      * intros [Hne [He%address_eq|He]]; done.
    + rewrite (Hout Hd). split; [done|]. intros e. apply eq_true_iff_eq.
      rewrite andb_true_iff, negb_true_iff, bool_decide_eq_false, !IsDelegate_spec. simpl.
      split; [|by intros [_ ?]]. intros He. split; [by intros ->|done].
Qed.

Section costs.
Context `{ArboLaws, Lru, ProtoLaws, EthCryptoLaws, !ArboIterBranch}.

(** The cost of a transaction type that [SetTxCost] stored is the one [TxCost] reads,
    for every 64-bit cost, and the costs of the other types are left alone. *)
Theorem tx_cost_roundtrip t c s s' :
  wf s -> is_u64 c -> SetTxCost t c s = (s', Ok tt) ->
  wf s' /\ (exists s1, TxCost t false s' = (s1, Ok c)) /\
  forall t', t' <> t -> tx_cost s' t' = tx_cost s t'.
Proof.
  intros Hwf Hc Hrun. unfold SetTxCost in Hrun. destruct (TxTypeCostToStateKey t) as [key|] eqn:Hkey; [|done].
  apply DeepSet_Ok in Hrun as Hw; [|done]. pose proof (wrote_wf _ _ _ _ _ Hw) as Hwf'.
  split_and!; [done| |].
  - unfold TxCost. rewrite Hkey. destruct (V_SubTree_run TreeExtra s' Hwf') as (s1 & Hsub & Hr & Ho).
    exists s1. erewrite bind_run_Ok by reflexivity. rewrite (bind_run_Ok _ _ _ _ _ Hsub).
    pose proof (sreads_wf _ _ Hwf' Hr) as Hwf1. destruct (sreads_use _ _ Hr Hwf') as (_ & _ & Hv & _).
    erewrite bind_run_Ok; [|apply replacing_Ok; rewrite V_Get_run by done;
      rewrite (leaf_result_Some _ _ _ (LittleEndian_PutUint64 c)); [reflexivity|]].
    + by rewrite LittleEndian_Uint64_Put.
    + by rewrite Hv, (wrote_view _ _ _ _ _ Hw), lookup_insert_eq.
  - intros t' Hne. unfold tx_cost. destruct (TxTypeCostToStateKey t') as [key'|] eqn:Hkey'; [|done]. simpl.
    rewrite (wrote_view _ _ _ _ _ Hw), lookup_insert_ne; [done|].
    intros <-. apply Hne. by eapply TxTypeCostToStateKey_inj.
Qed.

(** C32.  A faucet package is used once: after [ConsumeFaucetPayload] no package of the same
    issuer with the same identifier passes the checks of a transaction. *)
Theorem faucet_package_once from p txType s s' payload sig b :
  wf s -> is_u64 (Amount p) -> ConsumeFaucetPayload from (Some p) txType s = (s', Ok tt) ->
  Identifier payload = Identifier p -> marshal payload = Some b ->
  AddrFromSignature b sig = Ok from ->
  exists s1 e, faucet_issuer payload (Some sig) s' = (s1, Err e).
Proof.
  intros Hwf Ham Hrun Hid Hb Hsig. apply ConsumeFaucetPayload_Ok in Hrun
    as (af & at' & bn & cost & s1 & s2 & s3 & _ & _ & _ & _ & _ & _ & _ & Heff); [|done..].
  destruct (faucet_accounts _ _ _ _ _ _) as [[af' at2] bn']. destruct Heff as (Hw & Hu1 & Hu2 & Hu3).
  assert (Hv : sview s' TreeFaucet !! faucet_key from (Identifier p) = Some "").
  { rewrite (updated_view _ _ _ _ Hu3), (updated_view _ _ _ _ Hu2), (updated_view _ _ _ _ Hu1) by done.
    by rewrite (wrote_view _ _ _ _ _ Hw), lookup_insert_eq. }
  destruct (FaucetNonce_run (faucet_key from (Identifier p)) s' (updated_wf _ _ _ _ Hu3)) as (s4 & _ & Hf).
  rewrite Hv in Hf. unfold faucet_issuer. rewrite Hid. unfold wrapping at 1, Marshal. rewrite Hb.
  erewrite bind_run_Ok by reflexivity. simpl default. rewrite Hsig.
  erewrite bind_run_Ok by reflexivity. erewrite bind_run_Ok by (apply wrapping_Ok; exact Hf).
  by eexists s4, _.
Qed.
End costs.

(** ** Witnesses *)

Lemma storable_sample acc b :
  marshal acc = Some b -> (blen b <=? 65535) = true -> storable acc.
Proof. intros Hb Hl. exists b. split; [done|]. by apply Z.leb_le. Qed.

Lemma transfer_correct_witness :
  exists s', TransferBalance alice bob 300 state1 = (s', Ok tt) /\ supply s' = supply state1.
Proof.
  edestruct (transfer_correct alice bob 300 state1) as (s' & Hrun & _ & _ & Hsup & _).
  - exact state1_wf.
  - intros Heq. apply (f_equal addr_bytes) in Heq. vm_compute in Heq. discriminate Heq.
  - vm_compute. reflexivity.
  - vm_compute. reflexivity.
  - vm_compute. split; [reflexivity | discriminate].
  - vm_compute. reflexivity.
  - eapply storable_sample; vm_compute; reflexivity.
  - eapply storable_sample; vm_compute; reflexivity.
  - exists s'. split; [exact Hrun | exact Hsup].
Defined.

Lemma self_transfer_creates_tokens_witness :
  exists s', TransferBalance alice alice 300 state1 = (s', Ok tt) /\ supply s' = supply state1 + 300.
Proof.
  edestruct (self_transfer_creates_tokens alice 300 state1) as (s' & Hrun & _ & _ & Hsup & _).
  - exact state1_wf.
  - vm_compute. reflexivity.
  - vm_compute. split; [reflexivity | discriminate].
  - vm_compute. reflexivity.
  - eapply storable_sample; vm_compute; reflexivity.
  - eapply storable_sample; vm_compute; reflexivity.
  - exists s'. split; [exact Hrun | exact Hsup].
Defined.

Lemma mint_correct_witness :
  exists s', MintBalance bob 500 state1 = (s', Ok tt) /\ supply s' = supply state1 + 500.
Proof.
  edestruct (mint_correct bob 500 state1) as (s' & Hrun & _ & Hsup & _).
  - exact state1_wf.
  - vm_compute. reflexivity.
  - reflexivity.
  - reflexivity.
  - eapply storable_sample; vm_compute; reflexivity.
  - exists s'. split; [exact Hrun | exact Hsup].
Defined.

Lemma process_index_bounds_witness :
  exists acc acc', account state1 bob = Some acc /\
    account (run_state (IncrementAccountProcessIndex bob) state1) bob = Some acc' /\
    1 <= ProcessIndex acc' <= 2 ^ 22 + 1.
Proof.
  destruct (process_index_bounds bob state1 (run_state (IncrementAccountProcessIndex bob) state1))
    as (acc & acc' & Ha & Ha' & Hb & _).
  - exact state1_wf.
  - apply run_eq. vm_compute. reflexivity.
  - exists acc, acc'. split; [exact Ha|]. split; [exact Ha' | exact Hb].
Defined.

Lemma delegates_correct_witness :
  exists a', DelDelegate (mkAccount 0 0 "" [addr_bytes alice; addr_bytes bob] 0) alice = Ok a' /\
    NoDup (DelegateAddrs a').
Proof.
  destruct (delegates_correct (mkAccount 0 0 "" [addr_bytes alice; addr_bytes bob] 0) alice)
    as [_ (a' & Hrun & Hnd & _)].
  - apply (bool_decide_eq_true_1 _). vm_compute. reflexivity.
  - exists a'. split; [exact Hrun | exact Hnd].
Defined.

Lemma tx_cost_roundtrip_witness :
  exists s1, TxCost NEW_PROCESS false (run_state (SetTxCost NEW_PROCESS 77) state1) = (s1, Ok 77).
Proof.
  destruct (tx_cost_roundtrip NEW_PROCESS 77 state1 (run_state (SetTxCost NEW_PROCESS 77) state1))
    as (_ & Hget & _).
  - exact state1_wf.
  - vm_compute. split; [discriminate | reflexivity].
  - apply run_eq. vm_compute. reflexivity.
  - exact Hget.
Defined.

(** The package number 5 of [alice] for [bob]. *)
Definition payload5 : FaucetPayload := mkFaucetPayload 5 (addr_bytes bob) 100.

Lemma faucet_package_once_witness :
  exists s1 e, faucet_issuer payload5 (Some (sign alice))
    (run_state (ConsumeFaucetPayload alice (Some payload5) COLLECT_FAUCET) state1) = (s1, Err e).
Proof.
  eapply (faucet_package_once alice payload5 COLLECT_FAUCET state1 _ payload5 (sign alice)).
  - exact state1_wf.
  - vm_compute. split; [discriminate | reflexivity].
  - apply run_eq. vm_compute. reflexivity.
  - reflexivity.
  - vm_compute. reflexivity.
  - vm_compute. f_equal. apply address_eq. reflexivity.
Defined.
