(* ===== verification/ProcessSpec.v ===== *)
(** * Correctness of the voting processes

    The properties of [src/vochain/process.go] and of the transactions on processes, with
    their witnesses on the node of [Sample.v]. *)

From stdpp Require Import base option list strings gmap relations.
From Stdlib Require Import ZArith Lia.
From S2P Require Import Prelude GoMonad GoLib Sha256 Models External Codecs Ethereum Tree StateDB.
From S2P Require Import StateTrees State StateFacts Account AccountFacts ProcessID VoteCache.
From S2P Require Import Process ProcessFacts CensusProof Census AccountTx VoteTx ProcessTx.
From S2P Require Import Transaction TxFacts Lifecycle Sample.

Section lifecycle.
Context `{ArboLaws, LruLaws, ProtoLaws, EthCryptoLaws, !ProofLibs}.

(** C2.  Whatever the transaction and its outcome (accepted, rejected or a panic), [AddTx]
    deletes no process and every process only makes the steps of the abstract machine
    [pstep]: its identifier, organisation, blocks, mode, envelope type, options and census
    origin never change, and a process that is canceled or has results keeps that
    status. *)
Theorem AddTx_process_lifecycle ch vks vtx commit s s' r :
  wf s -> keyed s -> AddTx ch vks vtx commit s = (s', r) ->
  wf s' /\ keyed s' /\
  forall pid p, process s pid = Some p ->
    exists p', process s' pid = Some p' /\ rtc (pstep (currentHeight s)) p p' /\
      identity p' = identity p /\
      (Status p = CANCELED \/ Status p = RESULTS -> Status p' = Status p).
Proof.
  intros Hwf Hk Hrun. pose proof (evolves_AddTx ch vks vtx commit s) as He. rewrite Hrun in He.
  destruct (He Hwf Hk) as (Hwf' & Hk' & _ & Hp). split_and!; [done..|].
  intros pid p (p' & Hp' & Hr)%Hp. exists p'.
  split_and!; eauto using rtc_identity, rtc_final.
Qed.
End lifecycle.

Section status.
Context `{ArboLaws, Lru, ProtoLaws, EthCryptoLaws}.

(** [SetProcessStatus] implements the table [transition]: the change to a status other
    than [RESULTS] is written exactly when the table allows it (and the leaf can be
    encoded), it changes the status of that process and of no other one, and it is
    refused otherwise. *)
Theorem SetProcessStatus_correct pid p m x st s :
  wf s -> process_leaf s pid = Some x -> SDB_Process x = Some p -> Mode p = Some m ->
  ProcessId p = pid -> String.length pid = 32%nat -> st <> RESULTS ->
  storable_process (mkStateDBProcess (Some (with_Status st p)) (VotesRoot x)) ->
  (transition (Interruptible m) (currentHeight s <=? end_block p) (Status p) st /\
   exists s', SetProcessStatus pid st true s = (s', Ok tt) /\
     forall pid', process s' pid' = if decide (pid' = pid) then Some (with_Status st p)
                                   else process s pid') \/
  (~ transition (Interruptible m) (currentHeight s <=? end_block p) (Status p) st /\
   exists s' e, SetProcessStatus pid st true s = (s', Err e) /\
     forall pid', process s' pid' = process s pid').
Proof.
  intros Hwf Hx Hp Hm Hpid Hlen Hst Hsto. rewrite <- (check_transition_spec p m st) by done.
  destruct (State_Process_found pid s x Hwf Hx) as (s1 & Hget & Hr). rewrite Hp in Hget.
  pose proof (sreads_wf _ _ Hwf Hr) as Hwf1. destruct (only_tx_fields _ _ (proj1 Hr)) as (Hh & _).
  assert (Hstep : SetProcessStatus pid st true s =
    (lift (check_transition p st (currentHeight s));; updateProcess (with_Status st p) pid;;
     counter ← TxCounter; notify (OnProcessStatusChange pid st counter)) s1).
  { unfold SetProcessStatus, CurrentHeight. rewrite (bind_run_Ok _ _ _ _ _ Hget).
    erewrite bind_run_Ok by reflexivity. rewrite bind_gets, Hh. cbv zeta. simpl. by rewrite Hpid. }
  destruct (check_transition p st (currentHeight s)) as [[]|e|w] eqn:Hc.
  - left. split; [done|]. assert (Hx1 : process_leaf s1 pid = Some x) by by rewrite (process_leaf_reads s s1).
    destruct (updateProcess_run (with_Status st p) pid x s1 Hwf1 Hx1) as [s2 Hs2];
      [by simpl; rewrite Hpid|done|].
    pose proof (updateProcess_Ok _ _ _ _ _ Hwf1 Hs2) as (_ & x' & Hx' & Hu).
    assert (Hall : forall pid', process s2 pid' = if decide (pid' = pid) then Some (with_Status st p)
                                    else process s pid').
    { intros pid'. rewrite (leaf_updated_process _ _ _ _ _ Hu). by rewrite (process_reads s s1). }
    rewrite Hstep. erewrite bind_run_Ok by reflexivity. rewrite (bind_run_Ok _ _ _ _ _ Hs2).
    eexists. split; [reflexivity|]. exact Hall.
  - right. split; [done|]. exists s1, e. rewrite Hstep. split; [done|].
    intros pid'. by rewrite (process_reads s s1).
  - by apply (check_transition_no_panic p m) in Hc.
Qed.
End status.

Section results.
Context `{ArboLaws, Lru, ProtoLaws, EthCryptoLaws, !ArboIterBranch}.

(** The two ways to the status [RESULTS] disagree about a process that is [READY]:
    [SetProcessStatus] accepts it exactly when the process is still alive, before its end
    block, and [SetProcessResults] only when the end block is reached. *)
Theorem results_condition_inverted pid p s :
  wf s -> process s pid = Some p -> Status p = READY ->
  ((exists s', SetProcessStatus pid RESULTS false s = (s', Ok tt)) <-> currentHeight s < end_block p) /\
  (forall r, (exists s', SetProcessResults pid (Some r) false s = (s', Ok tt)) ->
     end_block p <= currentHeight s).
Proof.
  intros Hwf (x & Hx & Hp)%bind_Some Hst.
  destruct (State_Process_found pid s x Hwf Hx) as (s1 & Hget & Hr). rewrite Hp in Hget.
  destruct (only_tx_fields _ _ (proj1 Hr)) as (Hh & _).
  unfold SetProcessStatus, SetProcessResults, CurrentHeight. split.
  - rewrite (bind_run_Ok _ _ _ _ _ Hget). erewrite bind_run_Ok by reflexivity. rewrite bind_gets, Hh. unfold check_transition. rewrite Hst.
    simpl. destruct (Z.leb_spec (end_block p) (currentHeight s)); simpl; split; try lia.
    + by intros [s' [=]].
    + intros _. by eexists.
  - intros r [s' Hrun]. rewrite (bind_run_Ok _ _ _ _ _ Hget) in Hrun.
    erewrite bind_run_Ok in Hrun by reflexivity. rewrite bind_gets, Hh, Hst in Hrun.
    simpl in Hrun. destruct (Z.ltb_spec (currentHeight s) (end_block p)); [done|lia].
Qed.

(** The first results of a process are not the ones that are read: with at least one
    oracle, [SetProcessResults] puts empty entries before them, and [GetProcessResults]
    answers with the first entry, which has no votes. *)
Theorem first_results_hidden pid p r s s' :
  wf s -> process s pid = Some p -> ProcessId p = pid -> Results p = [] ->
  (exists a, oracle s a) ->
  SetProcessResults pid (Some r) true s = (s', Ok tt) ->
  exists p' rs, process s' pid = Some p' /\ Status p' = RESULTS /\
    Results p' = nil_ProcessResult :: rs ++ [r] /\
    forall s1 s2, State_Process pid true s1 = (s2, Ok (Some p')) ->
      GetProcessResults pid s1 = (s2, Ok []).
Proof.
  intros Hwf Hp Hpid Hres [a (v & Ha & Hv)] Hrun. apply SetProcessResults_Ok in Hrun
    as (p0 & x & s1 & r' & oracles & Hp0 & [= <-] & _ & _ & _ & _ & Hor & Hx & Hu & ->); [|done].
  rewrite Hp in Hp0. injection Hp0 as <-. destruct (Hor Hres) as (s0 & s2 & Hr & Ho).
  pose proof (sreads_wf _ _ Hwf Hr) as Hwf0.
  destruct (Oracles_run s0 Hwf0) as (s3 & l & Ho' & _ & Hperm). rewrite Ho in Ho'. injection Ho' as _ <-.
  destruct (sreads_use _ _ Hr Hwf) as (_ & _ & Hview & _). rewrite Hview in Hperm.
  destruct oracles as [|o oracles].
  { apply Permutation_nil_l in Hperm. symmetry in Hperm. apply fmap_nil_inv in Hperm.
    assert (Hin : (addr_bytes a, v) ∈ filter (fun kv : bytes * bytes => kv.2 <> "")
                    (map_to_list (sview s TreeOracles))).
    { apply list_elem_of_filter. split; [done|]. by apply elem_of_map_to_list. }
    rewrite Hperm in Hin. by apply not_elem_of_nil in Hin. }
  unfold prior_results in Hu. rewrite bool_decide_eq_true_2 in Hu by done. rewrite Hpid in *.
  eexists _, (replicate (S (List.length oracles * 2)) nil_ProcessResult). split_and!.
  - change (process (notified _ s1) pid) with (process s1 pid).
    rewrite (leaf_updated_process _ _ _ _ _ Hu), decide_True by done. reflexivity.
  - done.
  - done.
  - intros s4 s5 Hget. unfold GetProcessResults. by rewrite (bind_run_Ok _ _ _ _ _ Hget).
Qed.
End results.

Section creation.
Context `{ArboLaws, LruLaws, ProtoLaws, EthCryptoLaws}.

(** C31.  A process that [AddProcess] accepted was not there, is read back as it was given
    (with empty roots when its voters pre-register), leaves the other processes alone, is
    listed among the processes of its start block, and cannot be added again. *)
Theorem AddProcess_correct p s s' :
  wf s -> AddProcess p s = (s', Ok tt) ->
  sview s TreeProcess !! ProcessId p = None /\ wf s' /\
  (exists s1, State_Process (ProcessId p) false s' = (s1, Ok (Some (added p)))) /\
  (forall pid, pid <> ProcessId p -> process s' pid = process s pid) /\
  (exists s1 pids, on_Tx (processIDsByStartBlock (StartBlock p)) s' = (s1, Ok pids) /\ ProcessId p ∈ pids) /\
  (forall p2, ProcessId p2 = ProcessId p -> exists s1 e, AddProcess p2 s' = (s1, Err e)).
Proof.
  intros Hwf Hrun. apply AddProcess_Ok in Hrun as (Hnone & Hwf' & (b & Hb & Hv) & s1 & s2 & Hwf1 & Htx & Hidx);
    [|done]. split_and!; [done..| | | |].
  - destruct (State_Process_found (ProcessId p) s' (mkStateDBProcess (Some (added p)) emptyVotesRoot))
      as (s3 & Hget & _); [done| |by eauto].
    unfold process_leaf. rewrite Hv, lookup_insert_eq. exact (unmarshal_marshal _ _ Hb).
  - intros pid Hne. apply process_view. by rewrite Hv, lookup_insert_ne.
  - apply (setProcessIDByStartBlock_Ok _ _ (StartBlock p)) in Hidx as [pids Hpids]; [|done].
    unfold on_Tx, zoom in Hpids |- *. rewrite Htx. destruct (processIDsByStartBlock _ (STx s2)) as [tx r].
    injection Hpids as _ ->. eexists _, _. split; [done|]. apply elem_of_app. right. left.
  - intros p2 Heq. unfold AddProcess. fold (added p2). cbv zeta. rewrite !ProcessId_added.
    unfold wrapping at 1, Marshal.
    destruct (marshal (mkStateDBProcess (Some (added p2)) emptyVotesRoot)) as [b2|]; [|by eexists _, _].
    erewrite bind_run_Ok by reflexivity. unfold mbind at 1, gom_bind at 1. rewrite on_Tx_bind.
    destruct (DeepAdd_duplicate TreeProcess (ProcessId p2) b2 s' Hwf') as (s3 & e & Hdup).
    { rewrite Hv, Heq, lookup_insert_eq. by eexists. }
    unfold mbind at 1, gom_bind at 1. rewrite Hdup. by eexists _, _.
Qed.

(** The index of the start blocks is kept under [path.Join] of the bytes of the block
    number, which cleans a path: a process that starts at block 12079 is listed among the
    processes of block 12078. *)
Theorem start_block_index_collision p s s' :
  wf s -> StartBlock p = 12079 -> AddProcess p s = (s', Ok tt) ->
  exists s1 pids, on_Tx (processIDsByStartBlock 12078) s' = (s1, Ok pids) /\ ProcessId p ∈ pids.
Proof.
  intros Hwf Hsb Hrun. apply AddProcess_Ok in Hrun as (_ & _ & _ & s1 & s2 & _ & Htx & Hidx); [|done].
  rewrite Hsb in Hidx. apply (setProcessIDByStartBlock_Ok _ _ 12078) in Hidx as [pids Hpids]; [|done].
  unfold on_Tx, zoom in Hpids |- *. rewrite Htx. destruct (processIDsByStartBlock _ (STx s2)) as [tx r].
  injection Hpids as _ ->. eexists _, _. split; [done|]. apply elem_of_app. right. left.
Qed.
End creation.

(** A process is created with 16 encryption keys, and a key index from 1 to 16 is
    valid: the last valid index is out of range, and the check of a transaction that adds
    the key 16 panics. *)
Theorem last_key_index_panics tx p h :
  Adm_Txtype tx = ADD_PROCESS_KEYS -> Adm_KeyIndex tx = Some (Z.of_nat KeyKeeperMaxKeyIndex) ->
  List.length (EncryptionPublicKeys p) = KeyKeeperMaxKeyIndex ->
  h <= StartBlock p -> Status p = READY ->
  valid_key_index (Z.of_nat KeyKeeperMaxKeyIndex) = true /\
  exists w, process_keys_check tx p h = Panic w.
Proof.
  intros Ht Hi Hl Hh Hst. split; [done|]. unfold process_keys_check. rewrite Ht, Hi, Hst.
  destruct (Z.ltb_spec (StartBlock p) h); [lia|]. simpl. unfold slice_get.
  change (Z.of_nat KeyKeeperMaxKeyIndex) with 16 in *. simpl.
  rewrite lookup_ge_None_2 by (rewrite Hl; vm_compute; lia). by eexists.
Qed.

(** ** Witnesses *)

(** [alice] cancels the first process. *)
Definition cancel_tx : VochainTx :=
  signed alice (Tx_SetProcess (mkSetProcessTx SET_PROCESS_STATUS 0 pid1 (Some CANCELED) None None None)).

Lemma AddTx_process_lifecycle_witness :
  exists p', process (run_state (AddTx "dev" [] cancel_tx true) state2) pid1 = Some p' /\
    Status p' = CANCELED /\ identity p' = identity process1.
Proof.
  destruct (AddTx_process_lifecycle "dev" [] cancel_tx true state2 _ _ state2_wf state2_keyed
              (run_eq (AddTx "dev" [] cancel_tx true) state2 _ eq_refl)) as (_ & _ & Hp).
  destruct (Hp pid1 process1) as (p' & Hp' & _ & Hid & _); [vm_compute; reflexivity|].
  exists p'. split; [exact Hp'|]. split; [|exact Hid].
  assert (Hst : Status <$> process (run_state (AddTx "dev" [] cancel_tx true) state2) pid1 = Some CANCELED)
    by (vm_compute; reflexivity).
  rewrite Hp' in Hst. injection Hst as Hst. exact Hst.
Defined.

Lemma SetProcessStatus_correct_witness :
  exists s', SetProcessStatus pid1 PAUSED true state2 = (s', Ok tt) /\
    process s' pid1 = Some (with_Status PAUSED process1).
Proof.
  destruct (SetProcessStatus_correct pid1 process1 (mkProcessMode true true true false false)
              (mkStateDBProcess (Some process1) emptyVotesRoot) PAUSED state2) as [[_ (s' & Hrun & Hall)]|[Hno _]].
  - exact state2_wf.
  - vm_compute. reflexivity.
  - reflexivity.
  - reflexivity.
  - reflexivity.
  - reflexivity.
  - discriminate.
  - eexists. split; [vm_compute; reflexivity | vm_compute; discriminate].
  - exists s'. split; [exact Hrun|]. rewrite Hall, decide_True by reflexivity. reflexivity.
  - exfalso. apply Hno. apply pause. reflexivity.
Defined.

Lemma results_condition_inverted_witness :
  exists s', SetProcessStatus pid1 RESULTS false state2 = (s', Ok tt).
Proof.
  destruct (results_condition_inverted pid1 process1 state2) as [[_ Hlive] _].
  - exact state2_wf.
  - vm_compute. reflexivity.
  - reflexivity.
  - apply Hlive. vm_compute. reflexivity.
Defined.

(** The results [bob] publishes for the first process. *)
Definition results1 : ProcessResult :=
  mkProcessResult [["7"]] pid1 (addr_bytes alice) (Some (addr_bytes bob)).

Lemma first_results_hidden_witness :
  exists p' rs, process (run_state (SetProcessResults pid1 (Some results1) true) state2_late) pid1 = Some p' /\
    Results p' = nil_ProcessResult :: rs ++ [results1].
Proof.
  destruct (first_results_hidden pid1 process1 results1 state2_late
              (run_state (SetProcessResults pid1 (Some results1) true) state2_late))
    as (p' & rs & Hp & _ & Hres & _).
  - exact state2_late_wf.
  - vm_compute. reflexivity.
  - reflexivity.
  - reflexivity.
  - exists bob, exist. split; [vm_compute; reflexivity | discriminate].
  - apply run_eq. vm_compute. reflexivity.
  - exists p', rs. split; [exact Hp | exact Hres].
Defined.

Lemma AddProcess_correct_witness :
  exists s1, State_Process pid1 false (run_state (AddProcess process1) state1) = (s1, Ok (Some process1)).
Proof.
  destruct (AddProcess_correct process1 state1 (run_state (AddProcess process1) state1))
    as (_ & _ & Hget & _).
  - exact state1_wf.
  - apply run_eq. vm_compute. reflexivity.
  - exact Hget.
Defined.

(** The first process, starting later. *)
Definition process_12079 : Process := with_StartBlock 12079 process1.

Lemma start_block_index_collision_witness :
  exists s1 pids, on_Tx (processIDsByStartBlock 12078) (run_state (AddProcess process_12079) state1) =
    (s1, Ok pids) /\ pid1 ∈ pids.
Proof.
  apply (start_block_index_collision process_12079 state1).
  - exact state1_wf.
  - reflexivity.
  - apply run_eq. vm_compute. reflexivity.
Defined.

Lemma last_key_index_panics_witness :
  exists w, process_keys_check
    (mkAdminTx ADD_PROCESS_KEYS (Some pid2) None 0 (Some 16) None (Some "key")) process2 0 = Panic w.
Proof.
  apply (last_key_index_panics
    (mkAdminTx ADD_PROCESS_KEYS (Some pid2) None 0 (Some 16) None (Some "key")) process2 0).
  - reflexivity.
  - reflexivity.
  - reflexivity.
  - discriminate.
  - reflexivity.
Defined.
