(* ===== verification/TxSpec.v ===== *)
(** * Correctness of the transactions

    The properties of [AddTx] of [src/vochain/transaction.go] and of the checks of the
    account and administration transactions, with their witnesses on the node of
    [Sample.v]. *)

From stdpp Require Import base option list strings gmap.
From Stdlib Require Import ZArith Lia.
From S2P Require Import Prelude GoMonad GoLib Sha256 Models External Codecs Ethereum Tree StateDB.
From S2P Require Import StateTrees State StateFacts Account AccountFacts ProcessID VoteCache.
From S2P Require Import Process ProcessFacts CensusProof Census AccountTx VoteTx ProcessTx.
From S2P Require Import Transaction App TxFacts TokenFacts Lifecycle Sample.

(** ** Tokens *)

Section tokens.
Context `{ArboLaws, LruLaws, ProtoLaws, EthCryptoLaws, !ProofLibs}.

(** The run of an accepted transaction that sends tokens. *)
Lemma AddTx_SendTokens_Ok ch vks vtx tx s s' resp :
  wf s -> tx_payload (VTx vtx) = Some (Tx_SendTokens tx) -> is_u64 (ST_Value tx) ->
  AddTx ch vks vtx true s = (s', Ok resp) ->
  exists body sig from to af at' cost s1 s2 s3,
    SignedBody vtx = Some body /\ Signature vtx = Some sig /\
    ST_From tx = Some from /\ ST_To tx = Some to /\ signed_by body sig (BytesToAddress from) /\
    account s (BytesToAddress from) = Some af /\ account s (BytesToAddress to) = Some at' /\
    Nonce af = ST_Nonce tx /\ tx_cost s SEND_TOKENS = Some cost /\ ST_Value tx <= Balance af /\
    wf s1 /\ sreads s s1 /\
    updated (BytesToAddress from) (with_Balance (Balance af - ST_Value tx) af) s1 s2 /\
    updated (BytesToAddress to) (with_Balance (Balance at' + ST_Value tx) at') s2 s3 /\
    SubtractCostIncrementNonce (BytesToAddress from) SEND_TOKENS s3 = (s', Ok tt) /\
    TransferBalance (BytesToAddress from) (BytesToAddress to) (ST_Value tx) s1 = (s3, Ok tt).
Proof.
  intros Hwf Hp Hval Hrun. unfold AddTx in Hrun. rewrite Hp in Hrun. unfold AddTx_SendTokens, on_commit in Hrun.
  apply bind_Ok in Hrun as ([] & s0 & Hrun & Hresp). apply ret_Ok in Hresp as [-> _].
  apply bind_Ok in Hrun as (v & s1 & Hchk%wrapping_Ok & Hrun).
  apply SendTokensTxCheck_Ok in Hchk
    as (Hr & tx' & body & sig & from & to & af & at' & cost & Htx & Hb & Hs & Hf & Ht & Hsig & Haf & Hat & Hn & Hc & _ & ->);
    [|done].
  assert (tx' = tx) as -> by (unfold GetSendTokens in Htx; rewrite Hp in Htx; congruence).
  pose proof (sreads_wf _ _ Hwf Hr) as Hwf1. cbn [STV_From STV_To STV_Value] in Hrun.
  apply bind_Ok in Hrun as ([] & s3 & Htr%wrapping_Ok & Hsub). pose proof Htr as Htr'.
  apply TransferBalance_Ok in Htr as (af' & at2 & Haf' & Hat' & Hle & Hov & s2 & Hu1 & Hu2); [|done..].
  rewrite (account_reads s s1) in Haf', Hat' by done.
  assert (af' = af) as -> by congruence. assert (at2 = at') as -> by congruence.
  destruct Hle. exists body, sig, from, to, af, at', cost, s1, s2, s3. by split_and!.
Qed.

(** The accounts after [TransferBalance from to v]: the destination is written last, from
    the balance it had before the transfer. *)
Definition moved (from to : Address) (v : Z) (f : Address -> option Account) (c : Address) : option Account :=
  if decide (c = to) then (fun acc => with_Balance (Balance acc + v) acc) <$> f to
  else if decide (c = from) then (fun acc => with_Balance (Balance acc - v) acc) <$> f from
  else f c.

(** The accounts after [SubtractCostIncrementNonce a]: the payer is written last. *)
Definition charged (a : Address) (cost : Z) (f : Address -> option Account) (c : Address) : option Account :=
  if decide (c = a) then
    (fun acc => with_Nonce (u32 (Nonce acc + 1)) (with_Balance (Balance acc - cost) acc)) <$> f a
  else if decide (c = BurnAddress) then (fun acc => with_Balance (Balance acc + cost) acc) <$> f BurnAddress
  else f c.

Lemma with_Balance_same acc : with_Balance (Balance acc) acc = acc.
Proof. by destruct acc. Qed.

Lemma SubtractCost_charged a t s s' u :
  wf s -> t <> COLLECT_FAUCET -> SubtractCostIncrementNonce a t s = (s', Ok u) ->
  exists cost, tx_cost s t = Some cost /\
    (forall c, account s' c = charged a cost (account s) c) /\
    supply s' = supply s - (if decide (a = BurnAddress) then cost else 0).
Proof.
  intros Hwf Ht Hrun.
  apply SubtractCostIncrementNonce_Ok in Hrun as (acc & cost & Ha & Hc & _ & Heff); [|done].
  exists cost. split; [done|]. unfold bump_nonce in Heff. rewrite bool_decide_eq_false_2 in Heff by done.
  destruct Heff as [[-> Hu]|(burn & Hburn & _ & _ & s1 & Hu1 & Hu2)]; split.
  - intros c. unfold charged. rewrite (updated_account _ _ _ _ Hu). case_decide.
    + rewrite Ha. simpl. rewrite Z.sub_0_r. by destruct acc.
    + case_decide; [|done]. subst. destruct (account s BurnAddress); simpl; [|done].
      by rewrite Z.add_0_r, with_Balance_same.
  - rewrite (updated_supply _ _ _ _ Hu). unfold balance. rewrite Ha. simpl. case_decide; lia.
  - intros c. unfold charged. rewrite (updated_account _ _ _ _ Hu2), (updated_account _ _ _ _ Hu1).
    case_decide; [by rewrite Ha|]. case_decide; [by rewrite Hburn|done].
  - destruct (updated_twice _ _ _ _ _ _ _ Hu1 Hu2) as (_ & _ & _ & -> & _).
    unfold balance. rewrite Hburn, Ha. simpl. case_decide; [|lia].
    subst a. assert (burn = acc) as -> by congruence. lia.
Qed.

(** C3.  A delivered [SendTokens] transaction that is accepted was signed by the owner of
    the origin account with its current nonce.  Every account is then the one that the
    transfer of the value followed by the charge of the cost gives ([moved], [charged]),
    also when the origin, the destination and the burn account are not all different.
    The sum of all balances is conserved, with two exceptions: a transfer to oneself
    creates the value, and a cost paid by the burn account itself is lost.  Between three
    different accounts the value goes to the destination and the cost to the burn
    account, the nonce of the origin is incremented, no other account changes, and the
    sum is conserved. *)
Theorem send_tokens_correct ch vks vtx tx from to s s' resp :
  wf s -> tx_payload (VTx vtx) = Some (Tx_SendTokens tx) -> is_u64 (ST_Value tx) ->
  BytesToAddress <$> ST_From tx = Some from -> BytesToAddress <$> ST_To tx = Some to ->
  AddTx ch vks vtx true s = (s', Ok resp) ->
  exists body sig af at' cost,
    SignedBody vtx = Some body /\ Signature vtx = Some sig /\ signed_by body sig from /\
    account s from = Some af /\ account s to = Some at' /\ Nonce af = ST_Nonce tx /\
    ST_Value tx <= Balance af /\ tx_cost s SEND_TOKENS = Some cost /\
    (forall c, account s' c = charged from cost (moved from to (ST_Value tx) (account s)) c) /\
    supply s' = supply s + (if decide (to = from) then ST_Value tx else 0)
                         - (if decide (from = BurnAddress) then cost else 0) /\
    (from <> to -> from <> BurnAddress -> to <> BurnAddress ->
     account s' from =
       Some (with_Nonce (u32 (Nonce af + 1)) (with_Balance (Balance af - ST_Value tx - cost) af)) /\
     account s' to = Some (with_Balance (Balance at' + ST_Value tx) at') /\
     account s' BurnAddress = (fun b => with_Balance (Balance b + cost) b) <$> account s BurnAddress /\
     (forall c, c <> from -> c <> to -> c <> BurnAddress -> account s' c = account s c) /\
     supply s' = supply s).
Proof.
  intros Hwf Hp Hval Hf Ht Hrun. apply (AddTx_SendTokens_Ok _ _ _ tx) in Hrun
    as (body & sig & fb & tb & af & at' & cost & s1 & s2 & s3 & Hb & Hs & Hfb & Htb & Hsig & Haf & Hat &
        Hn & Hc & Hle & Hwf1 & Hr & Hu1 & Hu2 & Hsub & Htr); [|done..].
  rewrite Hfb in Hf. injection Hf as Hf. rewrite Htb in Ht. injection Ht as Ht. rewrite Hf, Ht in *.
  pose proof (updated_reads _ _ _ _ _ Hwf Hr Hu1) as Hu1'.
  destruct (updated_twice _ _ _ _ _ _ _ Hu1' Hu2) as (Hwf3 & _ & Hacc & _ & Hv & _).
  apply SubtractCost_charged in Hsub as (cost' & Hc' & Hcharged & Hsup2); [|done..].
  assert (cost' = cost) as -> by (unfold tx_cost in Hc, Hc'; rewrite Hv in Hc' by done; congruence).
  assert (Hmoved : forall c, account s3 c = moved from to (ST_Value tx) (account s) c).
  { intros c. rewrite Hacc. unfold moved. by rewrite Hat, Haf. }
  assert (Hfin : forall c, account s' c = charged from cost (moved from to (ST_Value tx) (account s)) c).
  { intros c. rewrite Hcharged. unfold charged. by rewrite !Hmoved. }
  assert (Hsup : supply s' = supply s + (if decide (to = from) then ST_Value tx else 0)
                                      - (if decide (from = BurnAddress) then cost else 0)).
  { by rewrite Hsup2, (TransferBalance_supply _ _ _ _ _ _ Hwf1 Hval Htr), (supply_reads s s1). }
  exists body, sig, af, at', cost. split_and!; try done. intros Hne Hnb Hnb'.
  rewrite !decide_False in Hsup by congruence. split_and!; [..|lia].
  all: intros; rewrite Hfin; unfold charged, moved; repeat case_decide; try congruence;
    by rewrite ?Haf, ?Hat.
Qed.

(** A transaction that sends tokens cannot be replayed: once it was accepted, the
    same transaction is never accepted in the next state, because the nonce of the signer
    has changed (it wraps at 2^32). *)
Theorem send_tokens_no_replay ch vks vtx tx s s' resp :
  wf s -> tx_payload (VTx vtx) = Some (Tx_SendTokens tx) -> is_u64 (ST_Value tx) ->
  AddTx ch vks vtx true s = (s', Ok resp) ->
  forall ch' vks' commit s2 resp2, AddTx ch' vks' vtx commit s' <> (s2, Ok resp2).
Proof.
  intros Hwf Hp Hval Hrun ch' vks' commit s4 resp2 Hagain.
  apply (AddTx_SendTokens_Ok _ _ _ tx) in Hrun
    as (body & sig & fb & tb & af & at' & cost & s1 & s2 & s3 & _ & _ & Hfb & _ & _ & Haf & Hat &
        Hn & _ & _ & Hwf1 & Hr & Hu1 & Hu2 & Hsub & _); [|done..].
  pose proof (updated_reads _ _ _ _ _ Hwf Hr Hu1) as Hu1'.
  destruct (updated_twice _ _ _ _ _ _ _ Hu1' Hu2) as (Hwf3 & _ & Hacc & _).
  destruct (account_range _ _ _ Haf) as (_ & Hn32 & _).
  assert (exists acc', account s' (BytesToAddress fb) = Some acc' /\ Nonce acc' = u32 (Nonce af + 1) /\ wf s')
    as (acc' & Hacc' & Hn' & Hwf').
  { apply SubtractCostIncrementNonce_Ok in Hsub as (acc & c & Ha & _ & _ & Heff); [|done].
    assert (Nonce acc = Nonce af) as Hna.
    { rewrite Hacc in Ha. case_decide as Hft; [|rewrite decide_True in Ha by done; by injection Ha as <-].
      rewrite <- Hft, Haf in Hat. injection Hat as <-. by injection Ha as <-. }
    destruct Heff as [[_ Hu]|(burn & _ & _ & _ & s5 & _ & Hu)]; eexists;
      (split; [by rewrite (updated_account _ _ _ _ Hu), decide_True|]);
      (split; [simpl; by rewrite Hna|apply Hu]). }
  unfold AddTx in Hagain. rewrite Hp in Hagain. unfold AddTx_SendTokens in Hagain.
  apply bind_Ok in Hagain as ([] & s5 & Hagain & _).
  apply bind_Ok in Hagain as (v & s6 & Hchk%wrapping_Ok & _).
  apply SendTokensTxCheck_Ok in Hchk
    as (_ & tx' & ? & ? & fb' & ? & af2 & ? & ? & Htx & _ & _ & Hf & _ & _ & Haf2 & _ & Hn2 & _); [|done].
  unfold GetSendTokens in Htx. rewrite Hp in Htx. injection Htx as <-.
  rewrite Hfb in Hf. injection Hf as <-. rewrite Hacc' in Haf2. injection Haf2 as <-.
  apply (next_nonce_differs (Nonce af)); [done|]. congruence.
Qed.
End tokens.

Section treasury.
Context `{ArboLaws, LruLaws, ProtoLaws, EthCryptoLaws, !ProofLibs}.

(** C23.  Only the treasurer creates tokens: an accepted [MintTokens] transaction was signed
    by the treasurer with its current nonce, adds the value to the balance of the
    destination and to the sum of all balances, and cannot be replayed. *)
Theorem mint_tokens_authorized ch vks vtx tx s s' resp :
  wf s -> tx_payload (VTx vtx) = Some (Tx_MintTokens tx) -> is_u64 (MT_Value tx) ->
  AddTx ch vks vtx true s = (s', Ok resp) ->
  (exists body sig t acc,
     SignedBody vtx = Some body /\ Signature vtx = Some sig /\ treasurer s = Some t /\
     signed_by body sig (BytesToAddress (Treasurer_Address t)) /\ MT_Nonce tx = Treasurer_Nonce t /\
     account s (BytesToAddress (MT_To tx)) = Some acc /\
     account s' (BytesToAddress (MT_To tx)) = Some (with_Balance (Balance acc + MT_Value tx) acc) /\
     treasurer s' = Some (next_nonce t)) /\
  supply s' = supply s + MT_Value tx /\
  forall ch' vks' commit s2 resp2, AddTx ch' vks' vtx commit s' <> (s2, Ok resp2).
Proof.
  intros Hwf Hp Hval Hrun. unfold AddTx in Hrun. rewrite Hp in Hrun. unfold AddTx_MintTokens, on_commit in Hrun.
  apply bind_Ok in Hrun as ([] & s0 & Hrun & Hresp). apply ret_Ok in Hresp as [-> _].
  apply bind_Ok in Hrun as (v & s1 & Hchk%wrapping_Ok & Hrun).
  apply MintTokensTxCheck_Ok in Hchk
    as (Hr & tx' & body & sig & t & Htx & Hb & Hs & Ht & Hsig & Hn & Hpos & ->); [|done].
  assert (tx' = tx) as -> by (unfold GetMintTokens in Htx; rewrite Hp in Htx; congruence).
  pose proof (sreads_wf _ _ Hwf Hr) as Hwf1. cbv beta iota in Hrun.
  apply bind_Ok in Hrun as ([] & s2 & Hmint%wrapping_Ok & Hinc).
  apply MintBalance_Ok in Hmint as (acc & Hacc & _ & _ & Hu); [|done..].
  pose proof (updated_reads _ _ _ _ _ Hwf Hr Hu) as Hu'. rewrite (account_reads s s1) in Hacc by done.
  apply IncrementTreasurerNonce_Ok in Hinc as (t' & b & Ht' & Hb' & Hw); [|apply Hu].
  rewrite (treasurer_updated _ _ _ _ Hu') in Ht'. assert (t' = t) as -> by congruence.
  pose proof (treasurer_wrote _ _ _ _ Hb' Hw) as Htr.
  split_and!.
  - exists body, sig, t, acc. split_and!; try done. rewrite (account_wrote TreeExtra _ _ _ _ _ ltac:(done) Hw).
    by rewrite (updated_account _ _ _ _ Hu'), decide_True.
  - rewrite (supply_wrote TreeExtra _ _ _ _ ltac:(done) Hw), (updated_supply _ _ _ _ Hu').
    unfold balance. rewrite Hacc. simpl. lia.
  - intros ch' vks' commit s4 resp2 Hagain. unfold AddTx in Hagain. rewrite Hp in Hagain.
    unfold AddTx_MintTokens in Hagain. apply bind_Ok in Hagain as ([] & s5 & Hagain & _).
    apply bind_Ok in Hagain as (v & s6 & Hchk%wrapping_Ok & _).
    apply MintTokensTxCheck_Ok in Hchk as (_ & tx' & ? & ? & t2 & Htx' & _ & _ & Ht2 & _ & Hn2 & _); [|apply Hw].
    unfold GetMintTokens in Htx'. rewrite Hp in Htx'. injection Htx' as <-.
    rewrite Htr in Ht2. injection Ht2 as <-. apply (next_nonce_differs (Treasurer_Nonce t)); [|simpl in Hn2; congruence].
    apply bind_Some in Ht as (raw & _ & Ht). by apply unmarshal_Treasurer_range in Ht.
Qed.
End treasury.

Section oracles.
Context `{ArboLaws, LruLaws, ProtoLaws, EthCryptoLaws, !ProofLibs, !ArboIterBranch}.

(** [AddOracle] and [RemoveOracle] do what [IsOracle] reads: an added address is an
    oracle, a removed one is not as long as another oracle is left (with no oracle left
    [IsOracle] fails), and the other addresses are not affected. *)
Theorem oracles_correct a s s' :
  wf s -> oracle_keys s ->
  (AddOracle a s = (s', Ok tt) ->
   wf s' /\ (exists s1, IsOracle a s' = (s1, Ok true)) /\
   forall a', a' <> a -> oracle s' a' <-> oracle s a') /\
  (RemoveOracle a s = (s', Ok tt) ->
   wf s' /\ (forall a', a' <> a -> oracle s' a' <-> oracle s a') /\
   ((exists a', a' <> a /\ oracle s a') -> exists s1, IsOracle a s' = (s1, Ok false)) /\
   ((forall a', a' <> a -> ~ oracle s a') -> exists s1 e, IsOracle a s' = (s1, Err e))).
Proof.
  intros Hwf Hk. split.
  - intros Hw%AddOracle_Ok; [|done]. pose proof (wrote_wf _ _ _ _ _ Hw) as Hwf'. split; [done|].
    pose proof (fun a' => oracle_wrote _ _ _ _ a' Hw) as Hor. split.
    + destruct (IsOracle_run a s' Hwf' (oracle_keys_wrote _ _ _ _ Hk Hw))
        as [(s1 & b & Hrun & _ & Hb & _)|(s1 & e & _ & _ & Hno)].
      * exists s1. rewrite Hrun. do 2 f_equal. apply Hb, Hor. by rewrite decide_True.
      * exfalso. apply (Hno a), Hor. by rewrite decide_True.
    + intros a' Hne. rewrite Hor. by rewrite decide_False.
  - intros [_ Hw]%RemoveOracle_Ok; [|done]. pose proof (wrote_wf _ _ _ _ _ Hw) as Hwf'.
    assert (Hor : forall a', oracle s' a' <-> a' <> a /\ oracle s a').
    { intros a'. rewrite (oracle_wrote _ _ _ _ a' Hw). case_decide; naive_solver. }
    split_and!; [done|naive_solver|..].
    + intros (a' & Hne & Ha'). destruct (IsOracle_run a s' Hwf' (oracle_keys_wrote _ _ _ _ Hk Hw))
        as [(s1 & [] & Hrun & _ & Hb & _)|(s1 & e & _ & _ & Hno)]; [|by eauto|].
      * exfalso. by destruct (proj1 (Hor a) (proj1 Hb eq_refl)).
      * exfalso. apply (Hno a'), Hor. done.
    + intros Hnone. destruct (IsOracle_run a s' Hwf' (oracle_keys_wrote _ _ _ _ Hk Hw))
        as [(s1 & b & _ & _ & _ & a' & Ha')|(s1 & e & Hrun & _)]; [|by eauto].
      apply Hor in Ha' as [Hne Ha']. by apply Hnone in Ha'.
Qed.
End oracles.

(** ** Checks and rejections *)

Section rejections.
Context `{ArboLaws, LruLaws, ProtoLaws, EthCryptoLaws, !ProofLibs}.

(** C22.  Checking a transaction writes nothing: whatever the content and the answer, [CheckTx]
    leaves the leaves of the main trees, the plain entries, the committed database, the block
    and the application as they were.  It may only open trees: the handles that were open stay
    as they are, dirty or not, no new one is dirty, and a stored tree, the child trees of the
    processes included, is the same unless a child tree is opened there, which is then at the
    root that its process has.  The vote cache may differ. *)
Theorem CheckTx_read_only recheck content a a' r :
  wf (AppState a) -> CheckTx recheck content a = (a', r) ->
  wf (AppState a') /\ (forall t, sview (AppState a') t = sview (AppState a) t) /\
  kv (AppState a') = kv (AppState a) /\ opens (STx (AppState a)) (STx (AppState a')) /\
  same_block (AppState a) (AppState a') /\ eventListeners (AppState a') = eventListeners (AppState a) /\
  txCounter (AppState a') = txCounter (AppState a) /\ a' = set_AppState (AppState a') a.
Proof.
  intros Hwf Hrun.
  assert (Hk : keeps (fun a a' => a' = set_AppState (AppState a') a /\ checks (AppState a) (AppState a'))
                 (CheckTx recheck content)).
  { intros a0. unfold CheckTx, app_AddTx. destruct recheck; [by destruct a0|]. go_run.
    destruct (VochainTx_Unmarshal content (app_chainID a0)) as [tx|e|w]; [|by destruct a0..].
    unfold on_State, zoom. pose proof (checks_AddTx (app_chainID a0) (ZkVKs a0) tx (AppState a0)) as Hc.
    destruct (AddTx _ _ tx false (AppState a0)) as [s1 [resp|e|w]]; simpl in *; by destruct a0. }
  specialize (Hk a). rewrite Hrun in Hk. destruct Hk as [Happ [Hs Hr]].
  destruct (Hr Hwf) as (Hwf' & Hv & Hkv & Hop). simpl in *. split_and!; try done; by rewrite Hs.
Qed.

(** A rejected transaction may leave its writes behind: a [SetAccountInfo] transaction
    that creates its account with a faucet package, when collecting from the faucet costs
    nothing, is always rejected, and the account it created stays in the working state
    without the tokens of the package. *)
Theorem rejected_tx_keeps_account ch vks vtx tx v s s1 s2 :
  wf s -> tx_payload (VTx vtx) = Some (Tx_SetAccountInfo tx) ->
  tx_cost s COLLECT_FAUCET = Some 0 ->
  SetAccountInfoTxCheck (VTx vtx) (SignedBody vtx) (Signature vtx) s = (s1, Ok v) ->
  CreateAccountV v = true -> CreateAccountWithFaucet v = true ->
  CreateAccount (TxSender v) (default "" (SAI_InfoURI tx)) [] 0 s1 = (s2, Ok tt) ->
  account s (TxSender v) = None /\
  exists s' r, AddTx ch vks vtx true s = (s', r) /\ is_ok r = false /\
    account s' (TxSender v) = Some (mkAccount 0 0 (default "" (SAI_InfoURI tx)) [] 0).
Proof.
  intros Hwf Hp Hc Hchk Hcr Hf Hcreate.
  pose proof (keeps_run _ _ _ _ _ (sreads_SetAccountInfoTxCheck _ _ _) Hchk) as Hr.
  pose proof (sreads_wf _ _ Hwf Hr) as Hwf1. pose proof Hcreate as Hcreate'.
  apply CreateAccount_Ok in Hcreate' as (_ & Hnone & Hu); [|done]. rewrite (account_reads s s1) in Hnone by done.
  split; [done|].
  set (q := Some (faucet_payload_copy (SAI_FaucetPackage tx ≫= FP_Payload))).
  destruct (ConsumeFaucetPayload_zero (FaucetPayloadSigner v) q s2) as [Hr2 Hno]; [apply Hu| |].
  { by rewrite (tx_cost_updated _ _ _ _ _ Hu), (tx_cost_reads s s1). }
  destruct (ConsumeFaucetPayload (FaucetPayloadSigner v) q SET_ACCOUNT_INFO s2) as [s3 r] eqn:Hcons.
  assert (Hset : AddTx_SetAccountInfo vtx true s = (s3, r)).
  { unfold AddTx_SetAccountInfo, on_commit. erewrite bind_run_Ok by (by apply wrapping_Ok).
    unfold GetSetAccountInfo. rewrite Hp. simpl deref. erewrite bind_run_Ok by reflexivity.
    rewrite Hcr, Hf. erewrite bind_run_Ok by (apply wrapping_Ok; exact Hcreate). exact Hcons. }
  unfold AddTx. rewrite Hp. unfold mbind, gom_bind. rewrite Hset. simpl in Hno, Hr2.
  assert (Hacc : account s3 (TxSender v) = Some (mkAccount 0 0 (default "" (SAI_InfoURI tx)) [] 0)).
  { rewrite (account_reads s2 s3), (updated_account _ _ _ _ Hu), decide_True; [done..|apply Hu|done]. }
  destruct r as [[]|e|w]; [done| |]; by eexists _, _.
Qed.
End rejections.

(** ** Witnesses *)

Ltac addresses_differ :=
  let Heq := fresh in intros Heq; apply (f_equal addr_bytes) in Heq; vm_compute in Heq; discriminate Heq.

(** [alice] sends 300 tokens to [bob]. *)
Definition send_body : SendTokensTx :=
  mkSendTokensTx 0 (Some (addr_bytes alice)) (Some (addr_bytes bob)) 300.
Definition send_tx : VochainTx := signed alice (Tx_SendTokens send_body).

Lemma send_tokens_correct_witness :
  supply (run_state (AddTx "dev" [] send_tx true) state1) = supply state1.
Proof.
  edestruct (send_tokens_correct "dev" [] send_tx send_body alice bob state1
               (run_state (AddTx "dev" [] send_tx true) state1))
    as (body & sig & af & at' & cost & _ & _ & _ & _ & _ & _ & _ & _ & _ & _ & Hsup).
  - exact state1_wf.
  - reflexivity.
  - vm_compute. split; [discriminate | reflexivity].
  - exact (f_equal Some (addr_of_bytes alice)).
  - exact (f_equal Some (addr_of_bytes bob)).
  - apply run_eq. vm_compute. reflexivity.
  - apply Hsup; addresses_differ.
Defined.

Lemma send_tokens_no_replay_witness :
  is_ok (run_out (AddTx "dev" [] send_tx true) state1) = true /\
  forall s2 resp2,
    AddTx "dev" [] send_tx true (run_state (AddTx "dev" [] send_tx true) state1) <> (s2, Ok resp2).
Proof.
  split; [vm_compute; reflexivity|].
  eapply (send_tokens_no_replay "dev" [] send_tx send_body state1).
  - exact state1_wf.
  - reflexivity.
  - vm_compute. split; [discriminate | reflexivity].
  - apply run_eq. vm_compute. reflexivity.
Defined.

(** The treasurer [carol] mints 500 tokens for [bob]. *)
Definition mint_body : MintTokensTx := mkMintTokensTx 3 (addr_bytes bob) 500.
Definition mint_tx : VochainTx := signed carol (Tx_MintTokens mint_body).

Lemma mint_tokens_authorized_witness :
  supply (run_state (AddTx "dev" [] mint_tx true) state2) = supply state2 + 500.
Proof.
  edestruct (mint_tokens_authorized "dev" [] mint_tx mint_body state2
               (run_state (AddTx "dev" [] mint_tx true) state2)) as (_ & Hsup & _).
  - exact state2_wf.
  - reflexivity.
  - vm_compute. split; [discriminate | reflexivity].
  - apply run_eq. vm_compute. reflexivity.
  - exact Hsup.
Defined.

Lemma state1_oracle_keys : oracle_keys state1.
Proof.
  assert (Hv : sview state1 TreeOracles = ∅) by (vm_compute; reflexivity).
  intros k. rewrite Hv, lookup_empty. intros [x Hx]. discriminate Hx.
Qed.

Lemma oracles_correct_witness :
  exists s1, IsOracle bob (run_state (AddOracle bob) state1) = (s1, Ok true).
Proof.
  destruct (oracles_correct bob state1 (run_state (AddOracle bob) state1)) as [Hadd _].
  - exact state1_wf.
  - exact state1_oracle_keys.
  - destruct Hadd as (_ & His & _); [|exact His]. apply run_eq. vm_compute. reflexivity.
Defined.

(** The transaction of [alice] as it is sent to the node. *)
Definition send_content : bytes :=
  default "" (b ← marshal (mkTx (Some (Tx_SendTokens send_body)));
              marshal (mkSignedTx b (Some (sign alice)))).
Definition app1 : BaseApplication := mkApp state1 0 0 0 "dev" [].

Lemma CheckTx_read_only_witness :
  supply (AppState (CheckTx false send_content app1).1) = supply state1.
Proof.
  destruct (CheckTx_read_only false send_content app1 _ _ state1_wf (surjective_pairing _)) as (_ & Hv & _).
  unfold supply. rewrite Hv. reflexivity.
Defined.

(** [carol] creates an account with a package of [alice] that costs nothing to collect. *)
Definition state_free : State := run_state (SetTxCost COLLECT_FAUCET 0) state1.

Lemma state_free_wf : wf state_free.
Proof. exact (proj2 (spreserves_SetTxCost COLLECT_FAUCET 0 state1) state1_wf). Qed.

Definition faucet_body : SetAccountInfoTx :=
  mkSetAccountInfoTx 0 (Some "ipfs://carol") (addr_bytes carol)
    (Some (mkFaucetPackage (Some (mkFaucetPayload 9 (addr_bytes carol) 100)) (Some (sign alice)))).
Definition faucet_tx : VochainTx := signed carol (Tx_SetAccountInfo faucet_body).
Definition faucet_check : GoM State setAccountInfoTxCheckValues :=
  SetAccountInfoTxCheck (VTx faucet_tx) (SignedBody faucet_tx) (Signature faucet_tx).
Definition faucet_values : setAccountInfoTxCheckValues :=
  mkSetAccountInfoValues carol carol alice true true.

Lemma rejected_tx_keeps_account_witness :
  exists s' r, AddTx "dev" [] faucet_tx true state_free = (s', r) /\ is_ok r = false /\
    account s' carol = Some (mkAccount 0 0 "ipfs://carol" [] 0).
Proof.
  edestruct (rejected_tx_keeps_account "dev" [] faucet_tx faucet_body faucet_values state_free
               (run_state faucet_check state_free)) as [_ Hrej].
  - exact state_free_wf.
  - reflexivity.
  - vm_compute. reflexivity.
  - apply (run_eq faucet_check). vm_compute. apply (f_equal Ok). f_equal; apply address_eq; reflexivity.
  - reflexivity.
  - reflexivity.
  - apply (run_eq (CreateAccount carol "ipfs://carol" [] 0)). vm_compute. reflexivity.
  - exact Hrej.
Defined.
