(* ===== verification/VoteSpec.v ===== *)
(** * Correctness of the votes

    The properties of the votes: [AddVote] and [EnvelopeExists] of [src/vochain/state.go],
    [VoteEnvelopeCheck] of [src/vochain/transaction.go] and the cache of
    [src/vochain/cache.go], with their witnesses on the node of [Sample.v]. *)

From stdpp Require Import base option list strings gmap.
From Stdlib Require Import ZArith Lia.
From S2P Require Import Prelude GoMonad GoLib Sha256 Models External Codecs Ethereum Tree StateDB.
From S2P Require Import StateTrees State StateFacts Account AccountFacts ProcessID VoteCache.
From S2P Require Import Process ProcessFacts CensusProof Census AccountTx VoteTx ProcessTx.
From S2P Require Import Transaction TxFacts Lifecycle VoteFacts Sample.

Section votes.
Context `{ArboLaws, LruLaws, ProtoLaws, EthCryptoLaws, !ProofLibs}.

(** C4.  A vote is recorded once: after [AddVote] the envelope exists, [Envelope] answers
    with the hash of the vote at the current height, and no other vote with the same
    process and nullifier is accepted, neither by [AddVote] nor by the check of a
    transaction. *)
Theorem vote_recorded_once v id s s' :
  AddVote v id s = (s', Ok tt) ->
  exists b, marshal (with_Vote_Height (currentHeight s) v) = Some b /\
    Envelope (Vote_ProcessId v) (Nullifier v) false s' = (s', Ok (HashRaw b)) /\
    EnvelopeExists (Vote_ProcessId v) (Nullifier v) false s' = (s', Ok true) /\
    (exists e, not_voted (Vote_ProcessId v) (Nullifier v) s' = (s', Err e)) /\
    forall v2 id2, Vote_ProcessId v2 = Vote_ProcessId v -> Nullifier v2 = Nullifier v ->
      exists s2 e, AddVote v2 id2 s' = (s2, Err e).
Proof.
  intros (b & Hb & Hv)%AddVote_Ok. destruct (EnvelopeExists_voted _ _ _ _ Hv) as [Henv Hex].
  exists b. split_and!; try done.
  - unfold not_voted. rewrite (bind_run_Ok _ _ _ _ _ Hex). by eexists.
  - intros v2 id2 Hp Hn. eapply AddVote_voted. by rewrite Hp, Hn.
Qed.

Lemma not_voted_Ok pid n s s' u :
  not_voted pid n s = (s', Ok u) -> EnvelopeExists pid n false s = (s', Ok false).
Proof. unfold not_voted. intros Hrun. go_inv. congruence. Qed.

Lemma vote_preconditions_Ok o h p et :
  vote_preconditions o h = Ok (p, et) ->
  o = Some p /\ P_EnvelopeType p = Some et /\ StartBlock p <= h <= end_block p /\ Status p = READY.
Proof.
  unfold vote_preconditions. intros Hrun. destruct o as [p0|]; [|done].
  destruct (P_EnvelopeType p0) as [et0|] eqn:He, (Mode p0); try done. go_inv. bool_inv.
  repeat match goal with a : unit |- _ => destruct a end. simplify_eq. auto.
Qed.

(** A vote whose proof was verified against the census of the process. *)
Definition proof_verified (vks : list snark_vk) (p : Process) (et : EnvelopeType) (ve : VoteEnvelope)
  (body sig : option bytes) (v : Vote) : Prop :=
  if Anonymous et then
    exists zk proof signals vk inputs,
      VE_Proof ve ≫= GetZkSnark = Some zk /\ ProtobufZKProofToCircomProof zk = Ok (proof, signals) /\
      slice_get vks (CircuitParametersIndex zk) = Ok vk /\ zk_publicInputs p ve = Ok inputs /\
      snark_Verify vk proof inputs = true /\ Nullifier v = VE_Nullifier ve
  else
    exists sg pk addr proof weight,
      sig = Some sg /\ PubKeyFromSignature (default "" body) sg = Ok pk /\ AddrFromPublicKey pk = Ok addr /\
      VE_Proof ve = Some proof /\
      VerifyProof p proof (CensusOrigin p) (CensusRoot p) (ProcessId p) pk addr = Ok (true, weight) /\
      Nullifier v = GenerateNullifier addr (VE_ProcessId ve) /\ Weight v = big_Bytes weight.

Definition vote_of (ve : VoteEnvelope) (h : Z) (v : Vote) : Prop :=
  Vote_ProcessId v = VE_ProcessId ve /\ VotePackage v = VE_VotePackage ve /\ Vote_Height v = h.

Lemma check_signed_vote_Ok vks p et ve body sg h s s' r :
  Anonymous et = false -> check_signed_vote p et ve body sg h s = (s', Ok r) ->
  vote_of ve h r.1 /\ proof_verified vks p et ve body (Some sg) r.1 /\
  EnvelopeExists (VE_ProcessId ve) (Nullifier r.1) false s = (s', Ok false).
Proof.
  intros Hanon Hrun. unfold check_signed_vote in Hrun. destruct (VE_Proof ve) as [proof|] eqn:Hproof; [|done].
  apply bind_Ok in Hrun as (ki & s1 & [-> _]%lift_Ok & Hrun).
  apply bind_Ok in Hrun as (pk & s1 & [-> Hpk]%wrapping_Ok%lift_Ok & Hrun).
  apply bind_Ok in Hrun as (addr & s1 & [-> Haddr]%wrapping_Ok%lift_Ok & Hrun).
  apply bind_Ok in Hrun as (u & s1 & Hno%not_voted_Ok & Hrun).
  apply bind_Ok in Hrun as ([valid weight] & s2 & [-> Hver]%lift_Ok & Hrun). go_inv. bool_inv. subst valid.
  split; [done|]. split; [|done]. unfold proof_verified. rewrite Hanon.
  exists sg, pk, addr, proof, weight. by split_and!.
Qed.

Lemma check_anonymous_vote_Ok vks p et ve body sig h s s' v :
  Anonymous et = true -> check_anonymous_vote vks p et ve h s = (s', Ok v) ->
  vote_of ve h v /\ proof_verified vks p et ve body sig v /\
  EnvelopeExists (VE_ProcessId ve) (Nullifier v) false s = (s', Ok false).
Proof.
  intros Hanon Hrun. unfold check_anonymous_vote in Hrun.
  destruct (VE_Proof ve ≫= GetZkSnark) as [zk|] eqn:Hproof; [|done].
  apply bind_Ok in Hrun as ([proof signals] & s1 & [-> Hzk]%wrapping_Ok%lift_Ok & Hrun).
  apply bind_Ok in Hrun as (u & s1 & Hno%not_voted_Ok & Hrun). cbv zeta in Hrun. go_inv. bool_inv.
  split; [done|]. split; [|done]. unfold proof_verified. rewrite Hanon.
  eexists zk, proof, signals, _, _. by split_and!.
Qed.

(** C5.  A vote that is not in the cache passes the check only if its process exists, is
    [READY] and between its start and end blocks, the nullifier was not used in it, and the
    proof was verified: the zk-SNARK proof on the public inputs of the process for an
    anonymous vote, the census proof of the signer otherwise, whose nullifier is then the
    one of its address. *)
Theorem vote_check_sound vks ve body sig id commit s s' v voter :
  wf s -> cached s id = None ->
  VoteEnvelopeCheck vks (Some ve) body sig id commit s = (s', Ok (v, voter)) ->
  exists p et s1 s2,
    process s (VE_ProcessId ve) = Some p /\ P_EnvelopeType p = Some et /\
    Status p = READY /\ StartBlock p <= currentHeight s <= end_block p /\
    vote_of ve (currentHeight s) v /\ proof_verified vks p et ve body sig v /\
    checks s s1 /\ EnvelopeExists (VE_ProcessId ve) (Nullifier v) false s1 = (s2, Ok false).
Proof.
  intros Hwf Hcache Hrun. unfold VoteEnvelopeCheck, CurrentHeight in Hrun.
  apply bind_Ok in Hrun as (o & s1 & Hp%wrapping_Ok & Hrun).
  apply State_Process_Ok in Hp as (Hr & x & Hx & ->); [|done]. rewrite bind_gets in Hrun.
  destruct (only_tx_fields _ _ (proj1 Hr)) as (Hh & _). rewrite Hh in Hrun.
  apply bind_Ok in Hrun as ([p et] & s2 & [-> Hpre]%lift_Ok & Hrun).
  apply vote_preconditions_Ok in Hpre as (Hp & Het & Hwin & Hst).
  assert (Hproc : process s (VE_ProcessId ve) = Some p) by (unfold process; by rewrite Hx).
  assert (Hc1 : cached s1 id = None).
  { rewrite <- Hcache. unfold cached. by rewrite (proj1 Hr). }
  destruct (CacheGetCopy_run id s1) as (s2 & Hget & Hs2 & _). rewrite Hc1 in Hget.
  assert (Hchk : checks s s2).
  { transitivity s1; [split; [by rewrite (proj1 Hr)|apply Hr]|].
    pose proof (checks_CacheGetCopy id s1) as Hk. by rewrite Hget in Hk. }
  destruct (Anonymous et) eqn:Hanon.
  - rewrite (bind_run_Ok _ _ _ _ _ Hget) in Hrun. apply bind_Ok in Hrun as (v' & s3 & Hv & Hrun).
    assert (v' = v) as -> by (apply bind_Ok in Hrun as (? & ? & _ & [_ ?]%ret_Ok); congruence).
    apply (check_anonymous_vote_Ok _ _ _ _ body sig) in Hv as (? & ? & ?); [|done].
    by exists p, et, s2, s3.
  - destruct sig as [sg|]; [|by go_inv]. rewrite (bind_run_Ok _ _ _ _ _ Hget) in Hrun.
    apply bind_Ok in Hrun as (r & s3 & Hv & Hrun).
    assert (r = (v, voter)) as -> by (apply bind_Ok in Hrun as (? & ? & _ & [_ ?]%ret_Ok); congruence).
    apply (check_signed_vote_Ok vks) in Hv as (? & ? & ?); [|done]. by exists p, et, s2, s3.
Qed.

(** C36.  [CachePurge] always ends.  On a height that is a multiple of 18 it drops exactly
    the cached votes that are at least 180 blocks old (the sum of the height of the vote
    and 180 wraps at 32 bits) and keeps the others; on any other height it drops none. *)
Theorem cache_purge_correct height s :
  exists s', CachePurge height s = (s', Ok tt) /\
    forall id, cached s' id =
      match cached s id with
      | Some v => if (height mod 18 =? 0) && (u32 (Vote_Height v + 180) <=? height) then None else Some v
      | None => None
      end.
Proof.
  unfold CachePurge, unless_disabled, cacheDisabled. rewrite bind_gets.
  destruct (DisableVoteCache s) eqn:Hd.
  { exists s. split; [done|]. intros id. unfold cached. by rewrite Hd. }
  destruct (height mod 18 =? 0) eqn:Hm; simpl.
  2: { exists s. split; [done|]. intros id. by destruct (cached s id). }
  rewrite bind_gets. destruct (purge_loop_run height (lru_keys (voteCache s)) [] s) as (s1 & r & Hrun & Hs1 & He).
  assert (Hc : forall id, cached s1 id = match cached s id with
      | Some v => if u32 (Vote_Height v + 180) <=? height then None else Some v | None => None end).
  { intros id. unfold cached. rewrite Hs1. simpl. rewrite Hd, He. case_decide as Hin.
    - destruct (entries (voteCache s) !! TxID id) as [[v|]|]; [|done..]. simpl.
      unfold purgeable, voteCachePurgeThreshold. by destruct (_ <=? _).
    - destruct (entries (voteCache s) !! TxID id) as [[v|]|] eqn:Hid; [|done..].
      exfalso. apply Hin, lru_keys_spec. by eexists. }
  rewrite (bind_run_Ok _ _ _ _ _ Hrun), bind_gets. destruct (_ && _); (eexists; split; [reflexivity|]); exact Hc.
Qed.

Lemma vote_preconditions_run p et m h :
  P_EnvelopeType p = Some et -> Mode p = Some m -> EncryptedVotes et = false -> Status p = READY ->
  StartBlock p <= h <= end_block p -> vote_preconditions (Some p) h = Ok (p, et).
Proof.
  intros Het Hm Henc Hst Hwin. unfold vote_preconditions. rewrite Het, Hm, Hst, Henc.
  destruct (Z.ltb_spec h (StartBlock p)); [lia|]. destruct (Z.ltb_spec (end_block p) h); [lia|]. done.
Qed.

Lemma cached_vote_run id v h s s' :
  EnvelopeExists (Vote_ProcessId v) (Nullifier v) false s = (s', Ok false) ->
  cached_vote id v h true s = ((CacheDel id s').1, Ok (with_Vote_Height h v, VoterID_Nil)).
Proof.
  intros Hex. unfold cached_vote, deferring, not_voted. cbv zeta.
  change (Vote_ProcessId (with_Vote_Height h v)) with (Vote_ProcessId v).
  change (Nullifier (with_Vote_Height h v)) with (Nullifier v).
  erewrite bind_run_Ok; [|by rewrite (bind_run_Ok _ _ _ _ _ Hex)]. reflexivity.
Qed.

(** A vote found in the cache is not verified again: on delivery it is accepted if its
    process is still open and its nullifier unused, whatever the proof of the envelope and
    whatever the census root of the process is by then.  A node without the entry verifies
    the proof. *)
Theorem cached_vote_not_reverified vks ve body sg id p et m v s :
  wf s -> process s (VE_ProcessId ve) = Some p -> P_EnvelopeType p = Some et -> Mode p = Some m ->
  Anonymous et = false -> EncryptedVotes et = false -> Status p = READY ->
  StartBlock p <= currentHeight s <= end_block p -> cached s id = Some v ->
  (EnvelopeExists (Vote_ProcessId v) (Nullifier v) false
     (CacheGetCopy id (State_Process (VE_ProcessId ve) false s).1).1).2 = Ok false ->
  exists s', VoteEnvelopeCheck vks (Some ve) body (Some sg) id true s =
    (s', Ok (with_Vote_Height (currentHeight s) v, VoterID_Nil)).
Proof.
  intros Hwf (x & Hx & Hp)%bind_Some Het Hm Hanon Henc Hst Hwin Hv Hno.
  destruct (State_Process_found _ s x Hwf Hx) as (s1 & Hget & Hr). rewrite Hp in Hget.
  destruct (only_tx_fields _ _ (proj1 Hr)) as (Hh & _). rewrite Hget in Hno. cbn [fst] in Hno.
  assert (Hc1 : cached s1 id = Some v). { rewrite <- Hv. unfold cached. by rewrite (proj1 Hr). }
  destruct (CacheGetCopy_run id s1) as (s2 & Hcopy & _). rewrite Hc1 in Hcopy.
  rewrite Hcopy in Hno. cbn [fst] in Hno.
  destruct (EnvelopeExists (Vote_ProcessId v) (Nullifier v) false s2) as [s3 r] eqn:Hex.
  cbn [snd] in Hno. subst r.
  unfold VoteEnvelopeCheck, CurrentHeight. erewrite bind_run_Ok by (by apply wrapping_Ok).
  rewrite bind_gets, Hh, (vote_preconditions_run p et m) by done.
  erewrite bind_run_Ok by reflexivity. cbv beta iota. rewrite Hanon, (bind_run_Ok _ _ _ _ _ Hcopy).
  cbv beta iota. cbn [negb]. rewrite Hst, (proj2 (Z.ltb_ge _ _)) by lia. eexists. by apply cached_vote_run.
Qed.
End votes.

(** ** Witnesses *)

(** The node of [Sample.v] at height 7, when the processes are open. *)
Definition state7 : State := SetHeight 7 state2.

Lemma state7_wf : wf state7.
Proof. apply wf_SetHeight, state2_wf. Qed.

Definition vote1 : Vote := mkVote 0 pid1 "ballot" (zeros 31 +:+ "n") (big_Bytes 1) [].

Lemma vote_recorded_once_witness :
  let s' := run_state (AddVote vote1 "voter") state7 in
  EnvelopeExists pid1 (zeros 31 +:+ "n") false s' = (s', Ok true).
Proof.
  destruct (vote_recorded_once vote1 "voter" state7 (run_state (AddVote vote1 "voter") state7))
    as (b & _ & _ & Hex & _).
  - apply run_eq. vm_compute. reflexivity.
  - exact Hex.
Defined.

(** A vote of [alice] in the first process. *)
Definition envelope1 : VoteEnvelope :=
  mkVoteEnvelope "nonce" pid1 (Some (ProofOfArbo (mkProofArbo BLAKE2B "ok" None))) "ballot" "" [].
Definition check1 (forCommit : bool) : GoM State (Vote * bytes) :=
  VoteEnvelopeCheck [] (Some envelope1) (Some "body") (Some (sign alice)) "txid" forCommit.
Definition voted1 : Vote :=
  mkVote 7 pid1 "ballot" (GenerateNullifier alice pid1) (big_Bytes 1) [].

Lemma check1_run : exists voter, run_out (check1 false) state7 = Ok (voted1, voter).
Proof. eexists. vm_compute. reflexivity. Qed.

Lemma vote_check_sound_witness :
  exists p et, process state7 pid1 = Some p /\ P_EnvelopeType p = Some et /\
    proof_verified [] p et envelope1 (Some "body") (Some (sign alice)) voted1.
Proof.
  destruct check1_run as [voter Hrun]. apply run_eq in Hrun. unfold check1 in Hrun.
  assert (Hc : cached state7 "txid" = None) by (vm_compute; reflexivity).
  destruct (vote_check_sound [] envelope1 (Some "body") (Some (sign alice)) "txid" false state7 _ _ _
              state7_wf Hc Hrun)
    as (p & et & s1 & s2 & Hp & Het & _ & _ & _ & Hver & _).
  exists p, et. split; [exact Hp|]. split; [exact Het | exact Hver].
Defined.

Lemma cache_purge_correct_witness : exists s', CachePurge 198 state7 = (s', Ok tt).
Proof. destruct (cache_purge_correct 198 state7) as (s' & Hrun & _). exists s'. exact Hrun. Defined.

(** The node after the vote of [alice] entered the mempool, and the same envelope without
    its proof. *)
Definition state7_cached : State := run_state (check1 false) state7.
Definition envelope_no_proof : VoteEnvelope := mkVoteEnvelope "nonce" pid1 None "ballot" "" [].

Lemma state7_cached_wf : wf state7_cached.
Proof.
  assert (Hk : keeps spreserves (check1 false)) by (unfold check1; apply spreserves_VoteEnvelopeCheck).
  exact (proj2 (Hk state7) state7_wf).
Qed.

Lemma cached_vote_not_reverified_witness :
  exists s', VoteEnvelopeCheck [] (Some envelope_no_proof) (Some "body") (Some (sign alice)) "txid" true
    state7_cached = (s', Ok (voted1, VoterID_Nil)).
Proof.
  assert (Hv : with_Vote_Height (currentHeight state7_cached) voted1 = voted1)
    by (vm_compute; reflexivity).
  edestruct (cached_vote_not_reverified [] envelope_no_proof (Some "body") (sign alice) "txid" process1
            (mkEnvelopeType false false false false false) (mkProcessMode true true true false false)
            voted1 state7_cached) as [s' Hs'].
  - exact state7_cached_wf.
  - vm_compute. reflexivity.
  - reflexivity.
  - reflexivity.
  - reflexivity.
  - reflexivity.
  - reflexivity.
  - vm_compute. split; discriminate.
  - vm_compute. reflexivity.
  - vm_compute. reflexivity.
  - exists s'. rewrite Hv in Hs'. exact Hs'.
Defined.
