(* ===== verification/ChainSpec.v ===== *)
(** * The properties of blocks and of the chain

    Theorems on [Save], [Rollback], the start of a block, the restart of a node and the
    processes of the chain, over every sequence of calls of the application.  The lemmas are
    in [BlockFacts.v] and [ChainFacts.v]; the witnesses run the concrete node of
    [Sample.v]. *)

From stdpp Require Import base option list strings gmap relations.
From S2P Require Import Prelude GoMonad GoLib Sha256 Models External Codecs Ethereum Tree StateDB.
From S2P Require Import StateTrees State StateFacts CommitFacts Account AccountFacts VoteCache Process.
From S2P Require Import ProcessFacts Census CensusProof Transaction TxFacts App Lifecycle BlockFacts.
From S2P Require Import ChainFacts Sample ChainSample.

Section chain.
Context `{ArboLaws, LruLaws, ProtoLaws, EthCryptoLaws, !ProofLibs}.

(** C1.  Over every sequence of blocks, transactions and restarts of a node that was started
    on an empty database: the store is a good database and the working state is well formed,
    no committed process is ever deleted, it only makes the steps of the abstract process
    (and the updates of [Save]), its identity never changes, and a process that is canceled
    or has results keeps that status. *)
Theorem chain_processes tm_Hash order g a a' pid p :
  reachable tm_Hash order g a -> rtc (abci_step tm_Hash) a a' ->
  committed_process (AppState a) pid = Some p ->
  good_db (Store (AppState a')) /\ wf (AppState a') /\
  exists p', committed_process (AppState a') pid = Some p' /\ rtc chain_step p p' /\
    identity p' = identity p /\
    (Status p = CANCELED \/ Status p = RESULTS -> Status p' = Status p).
Proof.
  intros Hr Hs Hp. destruct (abci_star _ _ _ Hs (reachable_inv _ _ _ _ Hr)) as [I A].
  destruct (A pid p Hp) as (p' & Hp' & Hc). split; [apply I|]. split; [apply I|].
  exists p'. split_and!; [done|done|by apply chain_identity|by apply chain_final].
Qed.

(** C18.  [Save] commits the block: the version of the store is the height, its hash is the
    answer, and the committed view reads every leaf the working state had in the main trees
    other than the processes.  Every process is committed up to the roots of its children and
    the size of its rolling census.  The child trees that were written to (votes, rolling
    census and nullifiers) are committed with it: the process gets their roots and the
    committed view reads every leaf they had, provided that no other child tree of a process
    is stored under the same key; the roots of the other children stay.  The new transaction
    sees the committed contents. *)
Theorem save_correct s s' hash :
  wf s -> is_u32 (currentHeight s) -> Save s = (s', Ok hash) ->
  LastHeight s' = (s', Ok (currentHeight s)) /\ StateDB_Hash (Store s') = Ok hash /\
  good_db (Store s') /\ wf s' /\
  (forall t key v, t <> TreeProcess -> sview s t !! key = Some v ->
     V_DeepGet (StoreView (mainTreeView s')) key [StateTreeCfg t] s' = (s', Ok v)) /\
  (forall pid p, process s pid = Some p ->
     exists p', committed_process s' pid = Some p' /\ saved p p') /\
  (forall c pid key v, in_use c = true -> apart s c pid -> dirty_child (STx s) c pid ->
     leaves (stored (STx s) (child_key c pid)) !! key = Some v ->
     V_DeepGet (StoreView (mainTreeView s')) key (StateParentChildTreeCfg TreeProcess c pid) s' = (s', Ok v)) /\
  (forall c pid, in_use c = true -> ~ dirty_child (STx s) c pid ->
     root_in c (committed s' TreeProcess !! pid) = root_in c (sview s TreeProcess !! pid)) /\
  (forall t, sview s' t = committed s' t).
Proof.
  intros Hwf Hh Hrun. destruct (Save_Ok _ _ _ Hwf Hh Hrun) as [Sg Sb Sv Sh Svw Ss Sht Sc Sch Srt].
  split_and!; [|done|done|apply Sb| | | |done|apply Sb].
  - unfold LastHeight. rewrite bind_gets, Sv. done.
  - intros t key v Ht Hv. apply committed_read; [done|done|].
    by rewrite <- (begun_view s' Sb), (settles_other _ _ Ss).
  - intros pid p Hp. apply (settles_process _ _ Ss) in Hp as (p' & Hp' & Hs). exists p'.
    by rewrite <- (begun_process s' pid Sb).
  - intros c pid key v Hc Ha Hd Hv. unfold stored in Hv.
    destruct (db_trees (tx_db (STx s)) !! child_key c pid) as [t|] eqn:Ht; [|simpl in Hv; by rewrite leaves_new, lookup_empty in Hv].
    destruct (Sch c pid t Hc Ha Hd Ht) as (Ht' & leaf & Hl & Hr). by eapply committed_child_read.
Qed.

(** The key of a child tree is built with [path.Join] on the identifier of the process, which
    cleans the path: the votes of two processes with identifiers of 32 octets can be stored
    under one key. *)
Lemma child_key_shared :
  let pid1 := "a///b123456789012345678901234567" in
  let pid2 := "a/./b123456789012345678901234567" in
  pid1 <> pid2 /\ String.length pid1 = 32%nat /\
  child_key ChildTreeVotes pid1 = child_key ChildTreeVotes pid2.
Proof. split; [done|]. split; [done|]. by vm_compute. Qed.

(** C19.  A block starts from the last commit: in every reachable state [BeginBlock] returns,
    and every write that was checked or delivered since the last commit is gone from the
    transaction.  The leaves of the main trees, every stored tree with those of the votes,
    censuses and nullifiers of the processes, and the plain entries are the committed ones; no
    subtree is open and nothing is dirty, at the height of the block.  The vote cache is not
    part of the transaction: it is purged and not discarded. *)
Theorem begin_block_discards tm_Hash order g time h a :
  reachable tm_Hash order g a ->
  exists a', BeginBlock time h a = (a', Ok tt) /\
    (forall t, sview (AppState a') t = committed (AppState a) t) /\
    (forall k, db_trees (tx_db (STx (AppState a'))) !! k = db_trees (Store (AppState a)) !! k) /\
    kv (AppState a') = db_kv (Store (AppState a)) /\
    (forall p u, tx_open (STx (AppState a')) !! p = Some u -> p = [] /\ dirtyTree u = false) /\
    currentHeight (AppState a') = u32 h /\ Store (AppState a') = Store (AppState a).
Proof.
  intros Hr%reachable_inv. destruct (Rollback_Ok _ (inv_good _ Hr)) as (s1 & Hrb & _).
  assert (Hok : exists a', BeginBlock time h a = (a', Ok tt)).
  { unfold BeginBlock. erewrite bind_run_Ok by (unfold on_State, zoom; rewrite Hrb; reflexivity).
    erewrite bind_run_Ok by reflexivity. erewrite bind_run_Ok by reflexivity.
    destruct (CachePurge_runs (u32 h) (SetHeight (u32 h) s1)) as [s2 Hp].
    eexists. unfold on_State, zoom. simpl. rewrite Hp. reflexivity. }
  destruct Hok as [a' Hok]. exists a'. split; [done|].
  destruct (BeginBlock_inv _ _ _ _ Hr Hok) as (_ & _ & Hb & Hh & Hst).
  split_and!; [|intros k; by rewrite (begun_trees _ Hb), Hst|by rewrite (begun_kv _ Hb), Hst|apply (begun_open _ Hb)|done|done].
  intros t. rewrite (begun_view _ Hb t). unfold committed. by rewrite Hst.
Qed.

(** C20.  A node that restarts on its database continues from the last commit: the new state
    has the contents, the height and the hash of the store, and no write that was not
    committed. *)
Theorem restart_recovers tm_Hash order g a c s :
  reachable tm_Hash order g a -> NewState (Store (AppState a)) c = Ok s ->
  wf s /\ (forall t, sview s t = committed (AppState a) t) /\
  App_Info (set_AppState s a) = (set_AppState s a, (App_Info a).2).
Proof.
  intros I%reachable_inv Hn. destruct (NewState_again _ _ _ (inv_good _ I) Hn) as (Hst & Hb & Hv & Hh).
  split_and!; [apply Hb|intros t; rewrite (begun_view s Hb t); unfold committed; by rewrite Hst|].
  unfold App_Info, on_State, zoom, fatal, LastHeight. cbn [AppState set_AppState]. go_run. rewrite Hst.
  destruct (StateDB_Version (Store (AppState a))); [|done..]. rewrite Hst.
  by destruct (StateDB_Hash (Store (AppState a))).
Qed.
End chain.

(** ** Witnesses *)

Lemma chain_processes_witness :
  exists p', committed_process (AppState app4) pid1 = Some p' /\ identity p' = identity process1.
Proof.
  destruct (chain_processes tm_hash order genesis1 app3 app4 pid1 process1) as (_ & _ & p' & Hp & _ & Hid & _).
  - exact app3_reachable.
  - apply rtc_once. exact app3_begin.
  - vm_compute. reflexivity.
  - exists p'. split; [exact Hp | exact Hid].
Defined.

(** A vote for the committed process, in the block that follows. *)
Definition voted4 : State :=
  run_state (AddVote (mkVote 0 pid1 "package" (zeros 32) "1" []) "voter") (AppState app4).

Lemma voted4_wf : wf voted4.
Proof.
  unfold voted4, run_state.
  exact (proj2 (spreserves_AddVote _ "voter" (AppState app4)) (inv_wf _ (reachable_inv _ _ _ _ (reach_step _ _ _ _ _ app3_reachable app3_begin)))).
Qed.

Definition vote_key4 : bytes := default "" (match voteID pid1 (zeros 32) with Ok k => Some k | _ => None end).
Definition vote_leaf4 : bytes :=
  default "" (leaves (stored (STx voted4) (child_key ChildTreeVotes pid1)) !! vote_key4).

Lemma voted4_apart c : apart voted4 c pid1.
Proof.
  assert (E : (map_to_list (sview voted4 TreeProcess)).*1 = [pid1]) by (vm_compute; reflexivity).
  intros c' pid' _ [b Hb] Hk. assert (Hp : pid' ∈ (map_to_list (sview voted4 TreeProcess)).*1).
  { apply list_elem_of_fmap. exists (pid', b). split; [reflexivity|]. by apply elem_of_map_to_list. }
  rewrite E in Hp. apply list_elem_of_singleton in Hp as ->. split; [|reflexivity].
  destruct c, c'; try reflexivity; vm_compute in Hk; discriminate Hk.
Qed.

Lemma save_correct_witness :
  LastHeight (run_state Save voted4) = (run_state Save voted4, Ok 2) /\
  V_DeepGet (StoreView (mainTreeView (run_state Save voted4))) vote_key4
    (StateParentChildTreeCfg TreeProcess ChildTreeVotes pid1) (run_state Save voted4) = (run_state Save voted4, Ok vote_leaf4).
Proof.
  assert (Hok : is_ok (run_out Save voted4) = true) by (vm_compute; reflexivity).
  assert (Hh : is_u32 (currentHeight voted4)) by (vm_compute; split; [discriminate|reflexivity]).
  assert (Hc2 : currentHeight voted4 = 2) by (vm_compute; reflexivity).
  assert (Hdirty : dirty_child (STx voted4) ChildTreeVotes pid1).
  { assert (E : dirtyTree <$> tx_open (STx voted4) !! child_path ChildTreeVotes pid1 = Some true) by (vm_compute; reflexivity).
    apply fmap_Some in E as (u & Hu & Hd). exists u. split; [exact Hu|congruence]. }
  assert (Hleaf : leaves (stored (STx voted4) (child_key ChildTreeVotes pid1)) !! vote_key4 = Some vote_leaf4)
    by (vm_compute; reflexivity).
  destruct (run_out Save voted4) as [hash|e|w] eqn:Ho; [|discriminate Hok..].
  destruct (save_correct voted4 (run_state Save voted4) hash voted4_wf Hh (run_eq Save voted4 (Ok hash) Ho))
    as (Hheight & _ & _ & _ & _ & _ & Hc & _).
  rewrite Hc2 in Hheight. split; [exact Hheight|].
  exact (Hc ChildTreeVotes pid1 vote_key4 vote_leaf4 eq_refl (voted4_apart _) Hdirty Hleaf).
Defined.

Lemma begin_block_discards_witness :
  exists a', BeginBlock 100 1 app2 = (a', Ok tt) /\ sview (AppState a') TreeProcess = committed (AppState app2) TreeProcess.
Proof.
  destruct (begin_block_discards tm_hash order genesis1 100 1 app2 app2_reachable) as (a' & Hrun & Hv & _).
  exists a'. split; [exact Hrun | exact (Hv TreeProcess)].
Defined.

(** The node restarts after the first process was committed. *)
Definition state_of (o : outcome State) : State := match o with Ok s => s | _ => nil_state end.
Definition restarted : State := state_of (NewState (Store (AppState app3)) ∅).

Lemma restart_recovers_witness :
  wf restarted /\ sview restarted TreeProcess = committed (AppState app3) TreeProcess.
Proof.
  destruct (restart_recovers tm_hash order genesis1 app3 ∅ restarted) as (Hwf & Hv & _).
  - exact app3_reachable.
  - assert (Hok : is_ok (NewState (Store (AppState app3)) ∅) = true) by (vm_compute; reflexivity).
    unfold restarted. destruct (NewState (Store (AppState app3)) ∅); [reflexivity|discriminate Hok..].
  - split; [exact Hwf | exact (Hv TreeProcess)].
Defined.
