(* ===== verification/IdSpec.v ===== *)
(** * The properties of process identifiers

    The identifiers of [src/vochain/process_id.go] are decoded to what they were built from,
    and they are different for different processes of a chain; but the part that salts the
    keys of a census authority is the same for all the processes of an organisation.  The
    lemmas are in [ProcessID.v]. *)

From stdpp Require Import base option list strings gmap.
From Stdlib Require Import ZArith Lia.
From S2P Require Import Prelude GoMonad GoLib Sha256 Models External Codecs Ethereum Tree StateDB.
From S2P Require Import StateTrees State StateFacts Account AccountFacts ProcessID CensusProof Sample.

Section identifiers.
Context `{ArboLaws, Lru, ProtoLaws, EthCryptoLaws, !ProofLibs}.

Lemma account_index_range s a acc : account s a = Some acc -> is_u32 (ProcessIndex acc).
Proof. by intros (_ & _ & ?)%account_range. Qed.

(** The fields of an identifier that [BuildProcessID] gives. *)
Lemma BuildProcessID_Ok ch proc s s' pid :
  wf s -> BuildProcessID ch proc s = (s', Ok pid) ->
  exists acc et, account s (BytesToAddress (EntityId proc)) = Some acc /\ P_EnvelopeType proc = Some et /\
    CensusOrigin proc <> 0 /\ CensusOrigin proc <= 255 /\ sreads s s' /\
    pid_chainID pid = ch /\ organizationAddr pid = BytesToAddress (EntityId proc) /\
    censusOrigin pid = u8 (CensusOrigin proc) /\ PID_EnvelopeType pid = et /\
    nonce pid = ProcessIndex acc /\ 0 <= envType pid <= ProcessesContractMaxEnvelopeType.
Proof.
  intros Hwf Hrun. unfold BuildProcessID in Hrun.
  apply bind_Ok in Hrun as (p1 & s1 & [-> Het]%lift_Ok & Hrun).
  apply bind_Ok in Hrun as (p2 & s1 & [-> Hco]%lift_Ok & Hrun).
  apply bind_Ok in Hrun as (acc & s1 & Hacc & Hrun). apply GetAccount_Ok in Hacc as [Hr Hacc]; [|done].
  apply bind_Ok in Hrun as (a & s2 & [-> Hd%deref_Ok]%lift_Ok & Hrun). apply ret_Ok in Hrun as [-> <-].
  destruct (P_EnvelopeType proc) as [et|] eqn:Hp; [|done].
  destruct (EnvelopeType_set _ _ _ Het) as [Hdec Hrange].
  destruct (SetCensusOrigin_Ok _ _ _ Hco) as (Hne & Hle & Hv & Hsame).
  assert (Hch : pid_chainID p2 = ch).
  { unfold SetCensusOrigin in Hco. destruct (_ || _); [done|]. injection Hco as <-. simpl.
    unfold SetEnvelopeType in Het. by injection Het as <-. }
  exists a, et. unfold PID_EnvelopeType in *. cbn. rewrite Hsame, BytesToAddress_bytes. split_and!; try done.
  - congruence.
  - lia.
  - lia.
Qed.

(** C33.  An identifier that [BuildProcessID] made, once encoded and decoded, names the
    organisation, the census origin, the envelope type and the process index of the
    organisation's account. *)
Theorem process_id_roundtrip ch proc s s' pid :
  wf s -> 0 < CensusOrigin proc -> BuildProcessID ch proc s = (s', Ok pid) ->
  String.length (PID_Marshal pid) = 32%nat /\
  exists acc q, account s (BytesToAddress (EntityId proc)) = Some acc /\
    PID_Unmarshal (PID_Marshal pid) = Ok q /\
    PID_Addr q = BytesToAddress (EntityId proc) /\ censusOrigin q = CensusOrigin proc /\
    P_EnvelopeType proc = Some (PID_EnvelopeType q) /\ nonce q = ProcessIndex acc.
Proof.
  intros Hwf Hco Hrun.
  destruct (BuildProcessID_Ok _ _ _ _ _ Hwf Hrun)
    as (acc & et & Hacc & Het & _ & Hle & _ & _ & Haddr & Hor & Hty & Hn & Hrange).
  split; [apply length_PID_Marshal|]. exists acc. eexists. split; [done|].
  assert (Hor' : censusOrigin pid = CensusOrigin proc) by (rewrite Hor; unfold u8; rewrite Z.mod_small; lia).
  assert (Hnonce : is_u32 (nonce pid)) by (rewrite Hn; by eapply account_index_range).
  rewrite PID_roundtrip by (split_and!; lia || done). split; [done|].
  unfold PID_Addr, PID_EnvelopeType in *. cbn. rewrite Haddr, BytesToAddress_bytes. by subst et.
Qed.

(** Two identifiers of a chain are different when the organisations or the process
    indices of their accounts are. *)
Theorem process_ids_distinct ch proc1 proc2 s1 s2 s1' s2' pid1 pid2 acc1 acc2 :
  wf s1 -> wf s2 -> 0 < CensusOrigin proc1 -> 0 < CensusOrigin proc2 ->
  BuildProcessID ch proc1 s1 = (s1', Ok pid1) -> BuildProcessID ch proc2 s2 = (s2', Ok pid2) ->
  account s1 (BytesToAddress (EntityId proc1)) = Some acc1 ->
  account s2 (BytesToAddress (EntityId proc2)) = Some acc2 ->
  BytesToAddress (EntityId proc1) <> BytesToAddress (EntityId proc2) \/ ProcessIndex acc1 <> ProcessIndex acc2 ->
  PID_Marshal pid1 <> PID_Marshal pid2.
Proof.
  intros W1 W2 C1 C2 R1 R2 A1 A2 Hne Heq.
  destruct (BuildProcessID_Ok _ _ _ _ _ W1 R1) as (a1 & e1 & B1 & _ & _ & L1 & _ & K1 & O1 & G1 & _ & N1 & V1).
  destruct (BuildProcessID_Ok _ _ _ _ _ W2 R2) as (a2 & e2 & B2 & _ & _ & L2 & _ & K2 & O2 & G2 & _ & N2 & V2).
  simplify_eq. assert (forall z, 0 < z -> z <= 255 -> u8 z = z) as Hu8 by (intros; apply Z.mod_small; lia).
  rewrite Hu8 in G1, G2 by done.
  apply PID_Marshal_inj in Heq as ->.
  - destruct Hne; congruence.
  - split_and!; [lia|lia|lia|lia|rewrite N1; by eapply account_index_range..].
  - split_and!; [lia|lia|lia|lia|rewrite N2; by eapply account_index_range..].
  - congruence.
Qed.

(** The salt of a census authority's key is the first 20 of the 32 octets of the process
    identifier, where neither the last octets of the address nor the nonce are: all the
    processes of an organisation on a chain have the same salted keys, so that a blind
    signature of the authority for one of them is valid for the others. *)
Theorem salt_shared ch proc1 proc2 s1 s2 s1' s2' pid1 pid2 root censusRoot :
  wf s1 -> wf s2 -> BuildProcessID ch proc1 s1 = (s1', Ok pid1) -> BuildProcessID ch proc2 s2 = (s2', Ok pid2) ->
  BytesToAddress (EntityId proc1) = BytesToAddress (EntityId proc2) ->
  SaltBlindPubKey root (PID_Marshal pid1) = SaltBlindPubKey root (PID_Marshal pid2) /\
  salted_root censusRoot (PID_Marshal pid1) = salted_root censusRoot (PID_Marshal pid2).
Proof.
  intros W1 W2 R1 R2 Haddr.
  destruct (BuildProcessID_Ok _ _ _ _ _ W1 R1) as (a1 & e1 & _ & _ & _ & _ & _ & K1 & O1 & _).
  destruct (BuildProcessID_Ok _ _ _ _ _ W2 R2) as (a2 & e2 & _ & _ & _ & _ & _ & K2 & O2 & _).
  assert (Hsalt : btake 20 (PID_Marshal pid1) = btake 20 (PID_Marshal pid2)).
  { destruct (PID_Marshal_parts pid1) as (c1 & L1 & E1 & ->). destruct (PID_Marshal_parts pid2) as (c2 & L2 & E2 & ->).
    assert (c1 = c2) as -> by congruence. rewrite O1, O2, Haddr, <- !(string_app_assoc c2).
    rewrite !(btake_app_le 20 (c2 +:+ addr_bytes _)); [done|rewrite string_length_app, addr_bytes_length; lia..]. }
  unfold SaltBlindPubKey, salted_root, SaltECDSAPubKey. rewrite !length_PID_Marshal. cbn [Nat.ltb Nat.leb SaltSize].
  change SaltSize with 20%nat. by rewrite Hsalt.
Qed.
End identifiers.

(** ** The properties at a concrete state *)

Definition state1_next : State := run_state (IncrementAccountProcessIndex alice) state1.

Lemma state1_next_wf : wf state1_next.
Proof.
  assert (Hk : keeps spreserves (IncrementAccountProcessIndex alice)) by keeps_auto.
  exact (proj2 (Hk state1) state1_wf).
Qed.

Definition built (ch : string) (proc : Process) (s : State) : ProcessID :=
  match run_out (BuildProcessID ch proc) s with Ok p => p | _ => mkProcessID "" alice 0 0 0 end.

Lemma built_eq ch proc s :
  (if run_out (BuildProcessID ch proc) s is Ok _ then true else false) = true ->
  BuildProcessID ch proc s = (run_state (BuildProcessID ch proc) s, Ok (built ch proc s)).
Proof. unfold built, run_out, run_state. by destruct (BuildProcessID ch proc s) as [s' []]. Qed.

Lemma process_id_roundtrip_witness :
  0 < CensusOrigin process2 /\
  exists q, PID_Unmarshal (PID_Marshal (built "azeno" process2 state1_next)) = Ok q /\ nonce q = 1.
Proof.
  split; [done|].
  assert (Hrun : (if run_out (BuildProcessID "azeno" process2) state1_next is Ok _ then true else false) = true)
    by (vm_compute; reflexivity).
  assert (Hacc : option_map ProcessIndex (account state1_next (BytesToAddress (EntityId process2))) = Some 1)
    by (vm_compute; reflexivity).
  destruct (process_id_roundtrip "azeno" process2 state1_next _ _ state1_next_wf ltac:(done)
    (built_eq "azeno" process2 state1_next Hrun)) as (_ & acc & q & Ha & Hq & _ & _ & _ & Hn).
  exists q. split; [exact Hq|]. rewrite Ha in Hacc. cbn [option_map] in Hacc. congruence.
Defined.

Lemma process_ids_distinct_witness :
  ProcessIndex (mkAccount 1000 0 "ipfs://alice" [] 0) <> ProcessIndex (mkAccount 1000 0 "ipfs://alice" [] 1) /\
  PID_Marshal (built "azeno" process1 state1) <> PID_Marshal (built "azeno" process1 state1_next).
Proof.
  split; [done|].
  eapply (process_ids_distinct "azeno" process1 process1 state1 state1_next _ _ _ _
    (mkAccount 1000 0 "ipfs://alice" [] 0) (mkAccount 1000 0 "ipfs://alice" [] 1) state1_wf state1_next_wf);
    [done|done|apply built_eq; vm_compute; reflexivity|apply built_eq; vm_compute; reflexivity
    |vm_compute; reflexivity|vm_compute; reflexivity|right; done].
Defined.

Definition authority : blind_pub := alice.

Lemma salt_shared_witness :
  EntityId process1 = EntityId process2 /\
  salted_root "root" (PID_Marshal (built "azeno" process1 state1)) =
  salted_root "root" (PID_Marshal (built "azeno" process2 state1_next)).
Proof.
  split; [done|].
  eapply (salt_shared "azeno" process1 process2 state1 state1_next _ _ _ _ authority "root" state1_wf state1_next_wf);
    [apply built_eq; vm_compute; reflexivity|apply built_eq; vm_compute; reflexivity|done].
Defined.
