(* ===== verification/TallySpec.v ===== *)
(** * The properties of the tally

    The results an indexer computes are the sums of the valid ballots, in every interleaving of
    its goroutines; the live results are the final ones; both databases hold the same results
    until a process is canceled; and there are votes that stop the node. *)

From stdpp Require Import base option list strings gmap.
From Stdlib Require Import ZArith Lia.
From S2P Require Import Prelude GoMonad GoLib GoText Sha256 Models Results ResultsFacts External Tables Nacl Ethereum.
From S2P Require Import StateTrees IndexerTypes Indexer IndexerVotes Scrutinizer TallyFacts IndexerFacts IndexerRuns ClientVote.
From S2P Require Import Codecs Sample IndexerSample.

Section tally.
Context `{TablesLaws, Memo, ProtoOptsLaws, Proto, EthCrypto, !ProofLibs, !SealedBox}.

Lemma final_vote_plain p et vote :
  IP_Envelope p = Some et -> EncryptedVotes et = false ->
  final_vote p vote = match unmarshalVote (VE_VotePackage vote) [] with
                      | Ok v => Ok (Some v) | Err _ => Ok None | Panic w => Panic w end.
Proof. intros He Hn. unfold final_vote. by rewrite He, Hn. Qed.

Lemma valid_ballot_plain p et opts e :
  IP_Envelope p = Some et -> EncryptedVotes et = false ->
  valid_ballot p et opts e = live_valid et opts (envelope_weighed e).
Proof.
  intros He Hn. unfold valid_ballot, decoded, live_valid, live_decoded. rewrite (final_vote_plain p et) by done.
  cbn [fst snd envelope_weighed]. by destruct (unmarshalVote (VE_VotePackage e.1) []).
Qed.

Lemma tractable_plain p et opts e :
  IP_Envelope p = Some et -> EncryptedVotes et = false -> live_tractable et opts (envelope_weighed e) ->
  tractable p et opts e.
Proof.
  intros He Hn [Hw Hin]. unfold tractable. rewrite (final_vote_plain p et) by done.
  pose proof (unmarshalVote_plain_no_panic (VE_VotePackage e.1)) as Hnp.
  destruct (unmarshalVote (VE_VotePackage e.1) []) as [v|err|w] eqn:E; [| |by destruct (Hnp w)];
    (split; [done|]; split; [done|]; split; [done|]; intros b; rewrite valid_ballot_plain by done; apply Hin).
Qed.

Lemma omap_fmap_compose {A B C} (f : A -> B) (g : B -> option C) (l : list A) :
  omap (g ∘ f) l = omap g (f <$> l).
Proof. induction l as [|x l IH]; [done|]. cbn. by rewrite IH. Qed.

Lemma omap_ext_eq {A B} (f g : A -> option B) (l : list A) : (forall x, f x = g x) -> omap f l = omap g l.
Proof. intros E. induction l as [|x l IH]; [done|]. cbn. by rewrite E, IH. Qed.

(** The votes of a walk over plain envelopes. *)
Lemma valid_ballots_plain p et opts (envs : list (VoteEnvelope * Z)) :
  IP_Envelope p = Some et -> EncryptedVotes et = false ->
  omap (valid_ballot p et opts) envs = omap (live_valid et opts) (envelope_weighed <$> envs).
Proof.
  intros He Hn. rewrite <- omap_fmap_compose. apply omap_ext_eq. intros e. by apply valid_ballot_plain.
Qed.

Lemma live_valid_in_range et opts (xs : list weighed) :
  Forall (live_tractable et opts) xs -> Forall (fun b => in_range opts b.1) (omap (live_valid et opts) xs).
Proof.
  intros Hf. apply Forall_forall. intros b (x & Hx & Hb)%list_elem_of_omap. rewrite Forall_forall in Hf.
  by apply (Hf x Hx).
Qed.

(** Plain votes that were counted live give the same results when they are counted again. *)
Lemma recount ch p d opts et r blocks :
  finishable opts -> IP_VoteOpts p = Some opts -> IP_Envelope p = Some et -> EncryptedVotes et = false ->
  is_u32 (ch_Height ch) -> Forall (block_ok et opts) blocks -> tallying opts et r -> row_shape opts r ->
  R_Final r = false -> (forall q o, cell (R_Votes r) q o = 0) -> R_Weight r = 0 -> R_EnvelopeHeight r = 0 ->
  envelope_weighed <$> WalkEnvelopes ch (IP_ID p) d ≡ₚ vote_weighed <$> concat blocks.*2 ->
  let live := live_total et opts r blocks in
  let lost := unreadable (vote_weighed <$> concat blocks.*2) in
  exists rf, computeFinalResults ch p d = (d, Ok rf) /\ R_Votes rf = R_Votes live /\
    R_Weight live = R_Weight rf + sum_weights lost /\
    R_EnvelopeHeight live = u64 (R_EnvelopeHeight rf + Z.of_nat (List.length lost)).
Proof.
  intros Hf Ho He Hn Hh Hb Ht Hs Hfin Hz Hzw Hzh Hw live lost.
  assert (Htr : Forall (live_tractable et opts) (vote_weighed <$> concat blocks.*2)).
  { apply Forall_fmap, Forall_concat, Forall_fmap. eapply Forall_impl; [exact Hb|]. intros [c vs] [_ Hv]. cbn in Hv |- *.
    exact (proj1 (Forall_fmap vote_weighed (live_tractable et opts) vs) Hv). }
  pose proof (live_valid_in_range _ _ _ Htr) as Hin.
  assert (Hballots : omap (valid_ballot p et opts) (WalkEnvelopes ch (IP_ID p) d) ≡ₚ block_ballots et opts blocks).
  { rewrite valid_ballots_plain by done. unfold block_ballots. by rewrite Hw. }
  destruct (live_total_spec et opts r blocks Ht Hs Hfin Hb) as (_ & Hs' & _ & Hc').
  eexists. split.
  { apply computeFinalResults_run; [done|done|done|]. apply Forall_forall. intros e Hel.
    apply tractable_plain; [done|done|]. rewrite Forall_forall in Htr. apply Htr. rewrite <- Hw.
    apply list_elem_of_fmap. eauto. }
  destruct (final_results_good ch p et opts (omap (valid_ballot p et opts) (WalkEnvelopes ch (IP_ID p) d)) Hf He Hh)
    as (_ & (_ & Hsf & _) & _).
  split_and!.
  2: { unfold live. rewrite live_total_weight, Hzw by done. unfold final_results. cbn [R_Weight set_EnvelopeHeight].
       rewrite weight_foldl_count, (sum_weights_permutation _ _ Hballots). done. }
  2: { unfold live. rewrite live_total_height, Hzh by (done || by rewrite Hzh). unfold final_results. cbn [R_EnvelopeHeight set_EnvelopeHeight].
       rewrite u64_add_idem, Hballots. f_equal. fold lost. lia. }
  eapply shaped_ext; [exact Hsf|apply Hs'|]. intros q o Hq Hq'. unfold final_results. cbn [R_Votes set_EnvelopeHeight].
  rewrite cell_foldl_count by (done || (by apply final_start_tallying) || (by rewrite Hballots)).
  rewrite Hc', Hz by done. cbn [R_Votes final_start]. rewrite cell_NewEmptyVotes.
  by rewrite (sum_terms_permutation et opts _ _ q o Hballots).
Qed.

(** C7.  The final results of a process that can be finished (at least one question and one
    value above zero, within the limits of the indexer) are the sums of its valid ballots, and
    the goroutines that count them cannot change that.  The envelopes are asked to be tractable:
    none makes the decoding panic, weights are not negative, and a ballot that passes the checks
    is in range.  Then every interleaving of the goroutines, twenty of which hold the semaphore
    at most, is no longer than four steps for each vote, never blocks and never panics, and ends
    with the results of the sequential run. *)
Theorem final_results_any_schedule ch p d et opts :
  finishable opts -> IP_VoteOpts p = Some opts -> IP_Envelope p = Some et ->
  Forall (tractable p et opts) (WalkEnvelopes ch (IP_ID p) d) ->
  let envs := WalkEnvelopes ch (IP_ID p) d in
  let ballots := omap (valid_ballot p et opts) envs in
  exists r, computeFinalResults ch p d = (d, Ok r) /\
    (forall q o, (q < Z.to_nat (MaxCount opts))%nat -> (o < Z.to_nat (MaxValue opts + 1))%nat ->
       cell (R_Votes r) q o = sum_terms et opts ballots q o) /\
    R_Weight r = sum_weights ballots /\ R_EnvelopeHeight r = u64 (Z.of_nat (List.length ballots)) /\
    forall n w, nsteps (walk_step p) n (walk_start (final_start ch p opts) envs) w ->
      (n <= 4 * List.length envs)%nat /\ ~ walk_panics p w /\
      (w_tasks w <> [] -> exists w', walk_step p w w') /\
      (w_tasks w = [] -> set_EnvelopeHeight (w_nvotes w) (w_results w) = r).
Proof.
  intros Hf Ho He Htr envs ballots. pose proof (final_start_tallying ch p et opts Hf He) as Ht.
  exists (final_results ch p et opts ballots). split; [by apply computeFinalResults_run|].
  assert (Hin : Forall (fun b => in_range opts b.1) ballots).
  { apply Forall_forall. intros b (e & He' & Hb)%list_elem_of_omap. rewrite Forall_forall in Htr. by apply (Htr e He'). }
  split_and!.
  - intros q o Hq Hq'. unfold final_results. cbn [R_Votes set_EnvelopeHeight].
    rewrite cell_foldl_count by done. cbn [R_Votes final_start]. rewrite cell_NewEmptyVotes. lia.
  - unfold final_results. cbn [R_Weight set_EnvelopeHeight]. rewrite weight_foldl_count. done.
  - done.
  - intros n w Hn. pose proof (rtc_nsteps_2 n _ _ Hn) as Hs. split_and!.
    + apply walk_bounded in Hn. rewrite walk_start_work in Hn. lia.
    + destruct (walk_inv_star p et opts _ envs Ht Htr w Hs) as [done Hi]. by eapply walk_no_panic.
    + intros Hne. destruct (walk_inv_star p et opts _ envs Ht Htr w Hs) as [done Hi]. by eapply walk_progress.
    + intros Hw. destruct (walk_final p et opts _ envs Ht Htr w Hs Hw) as [-> ->]. done.
Qed.

(** C6.  The live results of a process without encryption have the votes of its final
    results.  From the creation of the process, blocks of its votes go through [OnVote] and
    [Commit]; they are indexed and added up block by block, and when the block store has them
    [computeFinalResults] finds them all and comes to the same matrix of votes.  The weight and
    the number of the live results are those of the final ones and of the packages that cannot
    be read, which are only counted live.  The process can be finished (its maximum value is not
    zero), and the ballots that pass the checks are in range. *)
Theorem live_results_match_final range_pool ch pid opts et bs s :
  (forall m, range_pool m ≡ₚ map_to_list m) ->
  indexed pid opts et (empty_results pid opts (Some et)) (idb s) -> live_for pid s -> vote_refs pid (idb s) = [] ->
  finishable opts -> EncryptedVotes et = false -> is_u32 (ch_Height ch) ->
  Forall (block_votes_ok pid opts et (idb s)) bs -> NoDup (nullifiers bs) ->
  Forall (fun b => Forall (stored ch b) (vb_votes b)) bs ->
  exists s' r, mfor bs (run_vote_block range_pool) s = (s', Ok tt) /\
    t_find (KBytes pid) (bh_results (idb s')) = Some r /\
    forall p, IP_ID p = pid -> IP_VoteOpts p = Some opts -> IP_Envelope p = Some et ->
      let lost := unreadable (vote_weighed <$> concat (live_blocks bs).*2) in
      exists rf, computeFinalResults ch p (idb s') = (idb s', Ok rf) /\ R_Votes rf = R_Votes r /\
        R_Weight r = R_Weight rf + sum_weights lost /\
        R_EnvelopeHeight r = u64 (R_EnvelopeHeight rf + Z.of_nat (List.length lost)).
Proof.
  intros Hrange Hi Hl Hno Hf Hn Hh Hok Hnd Hst.
  destruct (run_vote_blocks_run range_pool Hrange pid opts et _ bs s Hi Hl Hok Hnd) as (s' & Hrun & _ & Hi' & Hrefs).
  exists s', (live_total et opts (empty_results pid opts (Some et)) (live_blocks bs)).
  split; [done|]. split; [apply (ix_results _ _ _ _ _ Hi')|]. intros p Hp Ho He.
  apply recount; try done.
  - apply (live_blocks_ok pid). eapply Forall_impl; [exact Hok|]. by intros b [? ? ? ? ?].
  - apply (ix_tally _ _ _ _ _ Hi).
  - apply (ix_shape _ _ _ _ _ Hi).
  - intros q o. apply cell_NewEmptyVotes.
  - rewrite Hp. unfold WalkEnvelopes. rewrite Hrefs, Hno, app_nil_r. by rewrite walk_references.
Qed.

(** C8.  The two databases of the indexer agree.  From the creation of a process, whatever
    blocks with its votes, keys, status changes and results are committed and whatever
    computations of the final results follow, every one of them returns and the row of SQLite
    is decoded to the record of badgerhold: what [GetResults] answers without badgerhold.  The
    process may be encrypted, and its votes are indexed with the blocks.  It is not canceled,
    and the votes that are counted, live while it is open and in a final tally with the private
    keys the indexer has then, do not panic. *)
Theorem databases_agree range_pool ch pid pr opts et s ops :
  (forall m, range_pool m ≡ₚ map_to_list m) ->
  creatable ch pid pr opts et -> absent pid (idb s) ->
  exists d, newEmptyProcess true ch pid (idb s) = (d, Ok tt) /\
    (ops_ok range_pool pid opts et (set_idb d s) ops ->
     exists s' r, mfor ops (run_op range_pool pid) (set_idb d s) = (s', Ok tt) /\
       t_find (KBytes pid) (bh_results (idb s')) = Some r /\
       GetResults false pid s' = (s', Ok (Some r))).
Proof.
  intros Hrange Hc Ha. destruct (newEmptyProcess_indexed ch pid pr opts et (idb s) Hc Ha) as (d & Hd & Hi & _).
  exists d. split; [done|]. intros Hops.
  destruct (run_ops_agreed range_pool Hrange pid opts et ops (set_idb d s) Hops) as (s' & Hrun & r & Hi'); [by eexists|].
  exists s', r. split; [done|]. split; [apply (ix_results _ _ _ _ _ Hi')|].
  destruct (ix_row _ _ _ _ _ Hi') as (row & Hrow & Hr). unfold GetResults. erewrite bind_run_Ok by reflexivity.
  cbv beta iota. erewrite bind_run_Ok by (erewrite on_idb_run, set_idb_same by (by apply tbl_find_run); reflexivity).
  by erewrite bind_run_Ok by (unfold lift; by rewrite Hr).
Qed.

(** The hypothesis of a final tally, for a process without encryption. *)
Lemma tally_plain pid opts et d ch :
  agreed pid opts et d -> EncryptedVotes et = false ->
  Forall (live_tractable et opts) (envelope_weighed <$> WalkEnvelopes ch pid d) ->
  forall p, ProcessInfo true pid d = (d, Ok p) -> Forall (tractable p et opts) (WalkEnvelopes ch pid d).
Proof.
  intros [r Hi] Hn Hf p Hp. destruct (indexed_info _ _ _ _ _ Hi) as (p' & Hp' & _ & He & _).
  rewrite Hp in Hp'. injection Hp' as <-. apply Forall_forall. intros e Hel.
  apply tractable_plain; [done..|]. apply (proj1 (Forall_forall _ _) Hf), list_elem_of_fmap. eauto.
Qed.

(** C35.  Every vote of a block is indexed: after [Commit] its nullifier leads to its process,
    its weight and its place in the block store, and the votes of a process are those it had
    and the new ones. *)
Theorem votes_indexed ch height s :
  let votes := voteIndexPool (pools s) in
  NoDup ((fun v => Nullifier (vi_vote v)) <$> votes) ->
  Forall (fun v => unindexed (Nullifier (vi_vote v)) (idb s)) votes ->
  exists s', commit_votes_index true ch height s = (s', Ok tt) /\
    (forall v, v ∈ votes -> GetEnvelopeReference (Nullifier (vi_vote v)) (idb s') = (idb s', Ok (vote_reference ch height v))) /\
    forall pid, vote_refs pid (idb s') ≡ₚ
      (vote_reference ch height <$> filter (fun v => Vote_ProcessId (vi_vote v) = pid) votes) ++ vote_refs pid (idb s).
Proof.
  intros votes Hnd Hun. destruct (commit_votes_index_run ch height s Hnd Hun) as (d1 & d' & Hrun & Hadd & Hd).
  fold votes in Hadd. exists (set_idb d' s). split; [done|]. cbn [idb set_idb].
  assert (Hsame : bh_votes d' = bh_votes d1 /\ sql_votes d' = sql_votes d1) by (by destruct Hd as [-> | [t ->]]).
  destruct Hsame as [E1 E2]. split.
  - intros v Hv. destruct (va_new _ _ _ _ _ Hadd v Hv) as [Hb Hs].
    apply GetEnvelopeReference_run with (row := vote_row ch height v); [by rewrite E1|by rewrite E2|by eexists].
  - intros pid. unfold vote_refs at 1. rewrite E1. by apply vote_refs_added.
Qed.

(** C34.  A vote package that the client seals with the keys of a process is opened by the
    indexer with the private keys, once they are revealed, and it holds the votes. *)
Theorem encrypted_vote_opens `{!SealedBoxLaws} keys privs nonce rand p et :
  Forall2 key_pair (used_keys keys) privs -> privs <> [] ->
  (forall m pub i, exists c, box_SealAnonymous m pub (rand i) = inr c) ->
  IP_Envelope p = Some et -> EncryptedVotes et = true ->
  (List.length privs <= List.length (IP_PrivateKeys p))%nat ->
  exists c, genVote true keys nonce rand = Ok c /\
    forall vote, VE_VotePackage vote = c -> Forall2 (index_of_key (IP_PrivateKeys p)) (VE_KeyIndexes vote) privs ->
      final_vote p vote = Ok (Some sample_votes).
Proof.
  intros Hk Hne Hseal He Henc Hlen.
  destruct (seal_all_opens keys privs nonce rand 0 None Hk Hseal) as (c & Hs & Hsome & _ & Hd).
  destruct (Hsome Hne) as [m ->]. change (default _ (Some m)) with m in Hd.
  change (default _ None) with (package_text nonce sample_votes) in Hd. exists m. split.
  - unfold genVote. rewrite Hs. done.
  - intros vote Hm Hidx. unfold final_vote. rewrite He, Henc. rewrite (Forall2_length _ _ _ Hidx).
    destruct (Nat.ltb_spec (List.length (IP_PrivateKeys p)) (List.length privs)); [lia|].
    rewrite (vote_keys_run _ _ _ Hidx). cbn [mbind outcome_bind]. destruct privs as [|k privs]; [done|].
    unfold unmarshalVote. rewrite Hm, Hd.
    change (Ok ?a ≫= ?f) with (f a). cbv beta. by rewrite json_package_text.
Qed.

(** A single vote stops the node.  The value [2 ^ 32] is cut to 32 bits before it is
    compared with the maximum, so the vote passes, and its column is out of range: [Commit]
    panics. *)
Theorem vote_value_crashes ch pid opts et r s v :
  indexed pid opts et r (idb s) -> open_process ch (Vote_ProcessId v) ->
  0 < MaxValue opts -> MaxTotalCost opts = 0 -> CostFromWeight et = false ->
  VotePackage v = vote_text [2 ^ 32] ->
  exists w, commit_live_process true ch pid [v] s = (s, Panic w).
Proof.
  intros Hi Hop Hmv Hmc Hcw Hv. apply (live_vote_panics ch pid opts et r s v [2 ^ 32] Hi Hop).
  - rewrite Hv. apply json_VotePackage_text. repeat constructor; lia.
  - destruct (ix_shape _ _ _ _ _ Hi) as (Hc & _). unfold ballot_ok. rewrite Hmc, Hcw. split_and!.
    + cbn. lia.
    + by vm_compute.
    + intros _. apply NoDup_singleton.
    + intros _. repeat constructor. change (u32 (2 ^ 32)) with 0. lia.
    + intros [|]; [lia|done].
  - intros Hin. apply Forall_cons in Hin as [Hin _]. unfold ballot_col in Hin.
    destruct (ta_range _ _ _ (ix_tally _ _ _ _ _ Hi)) as (_ & Hu & _). unfold is_u32 in Hu.
    destruct (Z.eqb_spec (MaxValue opts) 0); lia.
Qed.

(** A process whose votes are amounts, with a maximum value of zero, is created and counted
    live, but its final results are never computed: [ComputeResult] fails on every try. *)
Theorem amounts_never_final ch pid pr opts et s blocks :
  creatable ch pid pr opts et -> absent pid (idb s) -> MaxValue opts = 0 -> Forall (block_ok et opts) blocks ->
  exists d s', newEmptyProcess true ch pid (idb s) = (d, Ok tt) /\ run_blocks pid blocks (set_idb d s) = (s', Ok tt) /\
    forall ch', exists e, ComputeResult true ch' pid s' = (s', Err e).
Proof.
  intros Hc Ha Hz Hb. destruct (newEmptyProcess_indexed ch pid pr opts et (idb s) Hc Ha) as (d & Hd & Hi & _).
  destruct (run_blocks_run pid blocks opts et _ (set_idb d s) Hi Hb) as (s' & Hrun & Hi').
  exists d, s'. split_and!; [done|done|]. intros ch'.
  destruct (indexed_info _ _ _ _ _ Hi') as (p & Hp & Ho & _). eexists. unfold ComputeResult. erewrite bind_run_Ok.
  2: { unfold wrapping. rewrite (on_idb_run _ s' _ _ Hp), set_idb_same. reflexivity. }
  apply bind_run_Err. erewrite on_idb_run, set_idb_same; [reflexivity|].
  unfold computeFinalResults. rewrite Ho. erewrite bind_run_Ok by reflexivity.
  apply bind_run_Err. unfold reject, check. by rewrite Hz, orb_true_r.
Qed.

(** The cancellation of a process takes its votes out of badgerhold and not out of SQLite:
    the row keeps them, as final results. *)
Theorem cancel_keeps_row ch pid opts et r d p old row :
  indexed pid opts et r d -> ch_Process ch pid = inr p -> Status p = CANCELED ->
  t_find (KBytes pid) (bh_processes d) = Some old -> IP_Status old <> ProcessStatus_number CANCELED ->
  t_find (KBytes pid) (sql_processes d) = Some row -> i32 (DB_Status row) <> ProcessStatus_number CANCELED ->
  exists d' r1 r2 row', Indexer.updateProcess true ch pid d = (d', Ok tt) /\
    t_find (KBytes pid) (bh_results d') = Some r1 /\ R_Votes r1 = [] /\ R_Final r1 = false /\
    t_find (KBytes pid) (sql_processes d') = Some row' /\ ResultsFromDB row' = Ok (Some r2) /\
    R_Votes r2 = R_Votes r /\ R_Final r2 = true.
Proof.
  intros Hi Hp Hst Hold Hso Hrow Hsr.
  destruct (updateProcess_cancels ch pid opts et r d p old row Hi Hp Hst Hold Hso Hrow Hsr) as (d' & row' & Hrun & Hb & Hs & Hr).
  exists d', (drop_results r), (with_final r), row'. by split_and!.
Qed.

(** The recovery of the live results after a restart counts the votes again for badgerhold
    from nothing, but adds them to what the row of SQLite already has: a row that was right has
    every vote twice. *)
Theorem recovery_doubles_row ch pid p opts et r s :
  indexed pid opts et r (idb s) -> ch_Process ch pid = inr p -> VoteOptions p = Some opts ->
  P_EnvelopeType p = Some et -> R_Final r = false ->
  Forall (fun e => open_process ch (VE_ProcessId e.1)) (WalkEnvelopes ch pid (idb s)) ->
  Forall (live_tractable et opts) (envelope_weighed <$> WalkEnvelopes ch pid (idb s)) ->
  exists s' r1 r2 row, recover_process true ch pid s = (s', Ok tt) /\
    t_find (KBytes pid) (bh_results (idb s')) = Some r1 /\
    t_find (KBytes pid) (sql_processes (idb s')) = Some row /\ ResultsFromDB row = Ok (Some r2) /\
    forall q o, (q < Z.to_nat (MaxCount opts))%nat -> (o < Z.to_nat (MaxValue opts + 1))%nat ->
      let votes := sum_terms et opts (omap (live_valid et opts) (envelope_weighed <$> WalkEnvelopes ch pid (idb s))) q o in
      cell (R_Votes r1) q o = votes /\ cell (R_Votes r2) q o = cell (R_Votes r) q o + votes.
Proof.
  intros Hi Hp Ho He Hf Hop Hin.
  destruct (recover_process_run ch pid p opts et r s Hi Hp Ho He Hf Hop Hin) as (s' & row & Hrun & Hb & Hs & Hr & _).
  eexists s', _, _, row. split_and!; [exact Hrun|exact Hb|exact Hs|exact Hr|]. intros q o Hq Ho'. cbv zeta.
  pose proof (ta_range _ _ _ (ix_tally _ _ _ _ _ Hi)) as Hrange.
  destruct (live_block_fits et opts (envelope_weighed <$> WalkEnvelopes ch pid (idb s)) Hrange) as [Hfit _].
  destruct (empty_results_good pid opts et Hrange (proj1 (ix_shape _ _ _ _ _ Hi))) as [_ (_ & Hs0 & _)].
  assert (Hcell : cell (R_Votes (live_block et opts (envelope_weighed <$> WalkEnvelopes ch pid (idb s)))) q o =
    sum_terms et opts (omap (live_valid et opts) (envelope_weighed <$> WalkEnvelopes ch pid (idb s))) q o).
  { unfold live_block. rewrite cell_foldl_live; [by cbn|split; [done|done|done|by left]|done..]. }
  split; erewrite cell_sum_results by (exact Hfit || exact Hs0 || apply (ix_shape _ _ _ _ _ Hi)); rewrite Hcell; [|done].
  cbn [R_Votes empty_results]. rewrite cell_NewEmptyVotes. lia.
Qed.
End tally.

(** ** Witnesses *)

Definition indexed1 : IndexProcess :=
  mkIndexProcess pid1 (addr_bytes alice) 0 5 15 16 "root" "" "" "" 1 0 0 (Some plain1) None (Some options1)
    [] [] 0 0 false false 0 "" 0 0.

Definition voted1 : IndexDB :=
  set_bh_votes (<[KBytes "n1" := vote_reference chain1 7 vote1]> (<[KBytes "n2" := vote_reference chain1 8 vote2]> ∅))
    created1.

Ltac eval_tractable :=
  repeat (apply Forall_cons_2; [apply live_tractable_eval; vm_compute; reflexivity|]); apply Forall_nil_2.

Lemma voted1_tractable :
  Forall (live_tractable plain1 options1) (envelope_weighed <$> WalkEnvelopes chain1 pid1 voted1).
Proof.
  assert (E : envelope_weighed <$> WalkEnvelopes chain1 pid1 voted1 = [(package1, 53); (package2, 55)])
    by (vm_compute; reflexivity).
  rewrite E. eval_tractable.
Qed.

Lemma final_results_any_schedule_witness :
  exists r, computeFinalResults chain1 indexed1 voted1 = (voted1, Ok r) /\ cell (R_Votes r) 0 2 = 53 /\
    R_Weight r = 108 /\ R_EnvelopeHeight r = 2.
Proof.
  destruct (final_results_any_schedule chain1 indexed1 voted1 plain1 options1) as (r & Hr & Hc & Hw & Hh & _).
  - exact finishable1.
  - reflexivity.
  - reflexivity.
  - apply Forall_forall. intros e He. apply tractable_plain; [reflexivity|reflexivity|].
    pose proof voted1_tractable as Ht. rewrite Forall_forall in Ht. apply Ht, list_elem_of_fmap. eauto.
  - exists r. split; [exact Hr|]. split.
    + rewrite Hc by (vm_compute; lia). vm_compute. reflexivity.
    + rewrite Hw, Hh. split; vm_compute; reflexivity.
Defined.

Definition block1 : vote_block := mkVoteBlock chain1 7 [vote1].
Definition block2 : vote_block := mkVoteBlock chain1 8 [vote2].

Lemma created1_unindexed n : unindexed n (idb indexer1).
Proof.
  assert (E : bh_votes created1 = ∅ /\ sql_votes created1 = ∅) by (split; vm_compute; reflexivity).
  destruct E as [E1 E2]. unfold unindexed. cbn [idb indexer1]. rewrite E1, E2. split; apply lookup_empty.
Qed.

Lemma block_votes_ok1 b :
  b ∈ [block1; block2] -> block_votes_ok pid1 options1 plain1 (idb indexer1) b.
Proof.
  intros Hb. repeat (apply elem_of_cons in Hb as [->|Hb]); [| |by apply elem_of_nil in Hb];
    (split; [by repeat constructor|apply open1| | |]); [eval_tractable|apply NoDup_singleton|repeat constructor; apply created1_unindexed|eval_tractable|apply NoDup_singleton
    |repeat constructor; apply created1_unindexed].
Qed.

Lemma live_results_match_final_witness :
  exists s' r, mfor [block1; block2] (run_vote_block map_to_list) indexer1 = (s', Ok tt) /\
    t_find (KBytes pid1) (bh_results (idb s')) = Some r /\
    exists rf, computeFinalResults chain1 indexed1 (idb s') = (idb s', Ok rf) /\ R_Votes rf = R_Votes r /\
      R_Weight r = R_Weight rf.
Proof.
  destruct (live_results_match_final map_to_list chain1 pid1 options1 plain1 [block1; block2] indexer1)
    as (s' & r & Hrun & Hr & Hf).
  - done.
  - exact created1_indexed.
  - split; [reflexivity|]. cbn. set_solver.
  - unfold vote_refs. cbn [idb indexer1]. rewrite created1_votes. vm_compute. reflexivity.
  - exact finishable1.
  - reflexivity.
  - vm_compute. split; [discriminate|reflexivity].
  - apply Forall_forall. exact block_votes_ok1.
  - vm_compute. repeat constructor; set_solver.
  - repeat constructor; (eexists _, _, _; split; [reflexivity|]; split; vm_compute; reflexivity).
  - exists s', r. split; [exact Hrun|]. split; [exact Hr|].
    destruct (Hf indexed1 eq_refl eq_refl eq_refl) as (rf & Hrf & Hv & Hw & _). exists rf. split; [exact Hrf|].
    split; [exact Hv|]. rewrite Hw. vm_compute (sum_weights _). apply Z.add_0_r.
Defined.

(** Both votes are indexed by their blocks, and the tally counts them. *)
Definition op1 : tally_op := IndexBlock chain1 7 [EvVote vote1].
Definition op2 : tally_op := IndexBlock chain1 8 [EvKeys; EvVote vote2; EvStatus chain1 ENDED].

Lemma live_vote_ok1 v :
  v ∈ [vote1; vote2] -> live_vote_ok pid1 options1 plain1 chain1 (vi_vote v).
Proof.
  intros Hv. repeat (apply elem_of_cons in Hv as [->|Hv]); [| |by apply elem_of_nil in Hv];
    (split; [reflexivity|]; intros _; apply live_tractable_eval; vm_compute; reflexivity).
Qed.

Lemma op1_ok s : op_ok pid1 options1 plain1 s op1.
Proof.
  split; [intros p [= <-]; discriminate|]. split; [vm_compute; discriminate|].
  apply Forall_cons_2; [|apply Forall_nil_2]. apply live_vote_ok1. constructor.
Qed.

Lemma op2_ok s : op_ok pid1 options1 plain1 s op2.
Proof.
  split; [intros p [= <-]; discriminate|]. split; [vm_compute; discriminate|].
  apply Forall_cons_2; [exact I|]. apply Forall_cons_2; [apply live_vote_ok1; constructor; constructor|].
  apply Forall_cons_2; [exact I|]. apply Forall_nil_2.
Qed.

Definition created0 : IndexDB := (newEmptyProcess true chain1 pid1 (idb indexer0)).1.
Definition ended1 : Scrutinizer :=
  (run_op map_to_list pid1 op2 (run_op map_to_list pid1 op1 (set_idb created0 indexer0)).1).1.

Lemma absent0 : absent pid1 (idb indexer0).
Proof. vm_compute. split_and!; reflexivity. Qed.

Lemma created0_indexed : indexed pid1 options1 plain1 (empty_results pid1 options1 (Some plain1)) created0.
Proof.
  destruct (newEmptyProcess_indexed _ _ _ _ _ _ creatable1 absent0) as (d & Hd & Hi & _).
  unfold created0. rewrite Hd. exact Hi.
Qed.

Lemma ended1_agreed : agreed pid1 options1 plain1 (idb ended1).
Proof.
  destruct (run_op_agreed map_to_list (fun _ => reflexivity _) pid1 options1 plain1 (set_idb created0 indexer0) op1
    (op1_ok _)) as (s1 & Hrun1 & Ha1); [eexists; exact created0_indexed|].
  destruct (run_op_agreed map_to_list (fun _ => reflexivity _) pid1 options1 plain1 s1 op2 (op2_ok _) Ha1) as (s2 & Hrun2 & Ha2).
  unfold ended1. rewrite Hrun1. cbn [fst]. rewrite Hrun2. exact Ha2.
Qed.

Lemma ended1_walk : envelope_weighed <$> WalkEnvelopes chain1 pid1 (idb ended1) = [(package1, 53); (package2, 55)].
Proof. vm_compute. reflexivity. Qed.

Lemma ended1_tally : op_ok pid1 options1 plain1 ended1 (FinalTally chain1).
Proof.
  split; [exact finishable1|]. split; [vm_compute; split; [discriminate|reflexivity]|].
  apply (tally_plain pid1 options1 plain1 (idb ended1) chain1 ended1_agreed); [reflexivity|].
  rewrite ended1_walk. eval_tractable.
Qed.

Lemma databases_agree_witness :
  exists d, newEmptyProcess true chain1 pid1 (idb indexer0) = (d, Ok tt) /\
    exists s' r, mfor [op1; op2; FinalTally chain1] (run_op map_to_list pid1) (set_idb d indexer0) = (s', Ok tt) /\
      t_find (KBytes pid1) (bh_results (idb s')) = Some r /\ GetResults false pid1 s' = (s', Ok (Some r)).
Proof.
  destruct (databases_agree map_to_list chain1 pid1 process1 options1 plain1 indexer0 [op1; op2; FinalTally chain1])
    as (d & Hd & Hrun).
  - done.
  - exact creatable1.
  - exact absent0.
  - exists d. split; [exact Hd|]. apply Hrun.
    assert (d = created0) as -> by (unfold created0; rewrite Hd; reflexivity).
    exact (conj (op1_ok _) (conj (op2_ok _) (conj ended1_tally I))).
Defined.

Definition pooled1 : Scrutinizer := set_pools (votes_pool pid1 [vote1; vote2]) indexer1.

Lemma votes_indexed_witness :
  exists s', commit_votes_index true chain1 7 pooled1 = (s', Ok tt) /\
    GetEnvelopeReference "n2" (idb s') = (idb s', Ok (vote_reference chain1 7 vote2)).
Proof.
  destruct (votes_indexed chain1 7 pooled1) as (s' & Hrun & Href & _).
  - vm_compute. repeat constructor; set_solver.
  - repeat constructor; apply created1_unindexed.
  - exists s'. split; [exact Hrun|]. apply (Href vote2). cbn. set_solver.
Defined.

Definition crashing1 : Vote := mkVote 7 pid1 (vote_text [2 ^ 32]) "n3" "1" [].

Lemma vote_value_crashes_witness : exists w, commit_live_process true chain1 pid1 [crashing1] indexer1 = (indexer1, Panic w).
Proof.
  apply (vote_value_crashes chain1 pid1 options1 plain1 (empty_results pid1 options1 (Some plain1))).
  - exact created1_indexed.
  - exact open1.
  - reflexivity.
  - reflexivity.
  - reflexivity.
  - reflexivity.
Defined.

(** Keys *)

Definition priv1 : string := hex_encode (zeros 32).
Definition priv2 : string := hex_encode (zeros 31 +:+ "2").
Definition pub1 : string := hex_encode (sha256 (zeros 32)).
Definition pub2 : string := hex_encode (sha256 (zeros 31 +:+ "2")).

Lemma sealed_key_pairs : Forall2 key_pair (used_keys [""; pub1; ""; pub2]) [priv1; priv2].
Proof.
  assert (E : used_keys [""; pub1; ""; pub2] = [pub1; pub2]) by (vm_compute; reflexivity).
  rewrite E. repeat constructor; (eexists; split; vm_compute; reflexivity).
Qed.

Definition secret1 : IndexProcess :=
  mkIndexProcess pid1 (addr_bytes alice) 0 5 15 16 "root" "" "" "" 1 0 0
    (Some (mkEnvelopeType false false true false false)) None (Some options1)
    ["none"; priv1; "none"; priv2] [] 0 0 false false 0 "" 0 0.

Lemma encrypted_vote_opens_witness :
  exists c, genVote true [""; pub1; ""; pub2] "random" (fun _ => "") = Ok c /\
    final_vote secret1 (mkVoteEnvelope "" pid1 None c "" [1; 3]) = Ok (Some sample_votes).
Proof.
  destruct (encrypted_vote_opens [""; pub1; ""; pub2] [priv1; priv2] "random" (fun _ => "") secret1
    (mkEnvelopeType false false true false false)) as (c & Hc & Hf).
  - exact sealed_key_pairs.
  - discriminate.
  - intros m pub i. eexists. reflexivity.
  - reflexivity.
  - reflexivity.
  - cbn. lia.
  - exists c. split; [exact Hc|]. apply Hf; [reflexivity|]. repeat constructor; discriminate.
Defined.

(** Other elections *)

Definition amounts1 : ProcessVoteOptions := mkProcessVoteOptions 2 0 0 12 2.

Definition chain_of (p : Process) : Chain :=
  mkChain (fun pid => if bool_decide (pid = pid1) then inr p else inl ErrNotFound) 9 false 100
    (ch_GetTxHash chain1) 101.

Definition quadratic1 : Process :=
  mkProcess pid1 (addr_bytes alice) 5 10 "root" None [] [] None READY (Some plain1)
    (Some (mkProcessMode true true true false false)) (Some amounts1) OFF_CHAIN_TREE [] None None None "" None "" 0 None 0.

Lemma amounts_never_final_witness :
  exists d s', newEmptyProcess true (chain_of quadratic1) pid1 (idb indexer0) = (d, Ok tt) /\
    run_blocks pid1 [(chain1, [vi_vote vote1])] (set_idb d indexer0) = (s', Ok tt) /\
    forall ch', exists e, ComputeResult true ch' pid1 s' = (s', Err e).
Proof.
  apply (amounts_never_final (chain_of quadratic1) pid1 quadratic1 amounts1 plain1).
  - split; try done; by vm_compute.
  - vm_compute. split_and!; reflexivity.
  - reflexivity.
  - apply Forall_cons_2; [|apply Forall_nil_2]. split; [repeat constructor; apply open1|eval_tractable].
Defined.

Definition canceled1 : Process :=
  mkProcess pid1 (addr_bytes alice) 5 10 "root" None [] [] None CANCELED (Some plain1)
    (Some (mkProcessMode true true true false false)) (Some options1) OFF_CHAIN_TREE [] None None None "" None "" 0 None 0.

Lemma cancel_keeps_row_witness :
  exists d' r2 row', Indexer.updateProcess true (chain_of canceled1) pid1 created1 = (d', Ok tt) /\
    t_find (KBytes pid1) (sql_processes d') = Some row' /\ ResultsFromDB row' = Ok (Some r2) /\ R_Votes r2 = [[0; 0; 0; 0]].
Proof.
  assert (E1 : IP_Status <$> t_find (KBytes pid1) (bh_processes created1) = Some 1) by (vm_compute; reflexivity).
  assert (E2 : DB_Status <$> t_find (KBytes pid1) (sql_processes created1) = Some 1) by (vm_compute; reflexivity).
  apply fmap_Some in E1 as (old & Hold & E1), E2 as (row & Hrow & E2).
  destruct (cancel_keeps_row (chain_of canceled1) pid1 options1 plain1 (empty_results pid1 options1 (Some plain1)) created1
    canceled1 old row) as (d' & r1 & r2 & row' & Hrun & _ & _ & _ & Hs & Hr & Hv & _).
  - exact created1_indexed.
  - reflexivity.
  - reflexivity.
  - exact Hold.
  - rewrite <- E1. discriminate.
  - exact Hrow.
  - rewrite <- E2. discriminate.
  - exists d', r2, row'. split_and!; [exact Hrun|exact Hs|exact Hr|rewrite Hv; reflexivity].
Defined.

(** The indexer after both blocks. *)
Definition live1 : Scrutinizer := (mfor [block1; block2] (run_vote_block map_to_list) indexer1).1.
Definition live1_results : IndexResults :=
  live_total plain1 options1 (empty_results pid1 options1 (Some plain1)) (live_blocks [block1; block2]).

Lemma live1_indexed : indexed pid1 options1 plain1 live1_results (idb live1).
Proof.
  destruct (run_vote_blocks_run map_to_list (fun _ => reflexivity _) pid1 options1 plain1
    (empty_results pid1 options1 (Some plain1)) [block1; block2] indexer1) as (s' & Hrun & _ & Hi & _).
  - exact created1_indexed.
  - split; [reflexivity|]. cbn. set_solver.
  - apply Forall_forall. exact block_votes_ok1.
  - vm_compute. repeat constructor; set_solver.
  - unfold live1. rewrite Hrun. exact Hi.
Qed.

Lemma live1_walk : envelope_weighed <$> WalkEnvelopes chain1 pid1 (idb live1) = [(package1, 53); (package2, 55)].
Proof. vm_compute. reflexivity. Qed.

Lemma recovery_doubles_row_witness :
  exists s' r1 r2 row, recover_process true chain1 pid1 live1 = (s', Ok tt) /\
    t_find (KBytes pid1) (bh_results (idb s')) = Some r1 /\
    t_find (KBytes pid1) (sql_processes (idb s')) = Some row /\ ResultsFromDB row = Ok (Some r2) /\
    cell (R_Votes r1) 0 2 = 53 /\ cell (R_Votes r2) 0 2 = 106.
Proof.
  destruct (recovery_doubles_row chain1 pid1 process1 options1 plain1 live1_results live1)
    as (s' & r1 & r2 & row & Hrun & Hb & Hs & Hr & Hc).
  - exact live1_indexed.
  - reflexivity.
  - reflexivity.
  - reflexivity.
  - reflexivity.
  - apply Forall_forall. intros e He.
    assert (E : (fun e => VE_ProcessId e.1) <$> WalkEnvelopes chain1 pid1 (idb live1) = [pid1; pid1]) by (vm_compute; reflexivity).
    assert (Hp : VE_ProcessId e.1 ∈ [pid1; pid1]) by (rewrite <- E; apply list_elem_of_fmap; exists e; split; [reflexivity|exact He]).
    clear E He. repeat (apply elem_of_cons in Hp as [Hp|Hp]; [rewrite Hp; exact open1|]). by apply elem_of_nil in Hp.
  - rewrite live1_walk. eval_tractable.
  - exists s', r1, r2, row. rewrite live1_walk in Hc. split_and!; [exact Hrun|exact Hb|exact Hs|exact Hr|..].
    + destruct (Hc 0%nat 2%nat) as [-> _]; [vm_compute; lia|vm_compute; lia|]. vm_compute. reflexivity.
    + destruct (Hc 0%nat 2%nat) as [_ ->]; [vm_compute; lia|vm_compute; lia|]. vm_compute. reflexivity.
Defined.
