(* ===== verification/KeeperSpec.v ===== *)
(** * Databases, signatures and the key keeper

    The properties of [src/db], of the keys of [src/crypto/ethereum] and of the key keeper, with a
    run of each on the samples. *)

From stdpp Require Import base option list strings gmap sorting pretty.
From Stdlib Require Import ZArith Lia.
From S2P Require Import Prelude GoMonad GoLib GoText Database Sha256 Models External Nacl Ethereum SignKeys.
From S2P Require Import Tree StateDB StateTrees State StateFacts Account AccountFacts Process ProcessFacts ProcessTx App.
From S2P Require Import TxFacts KeyKeeper KeyKeeperFacts KeyKeeperRuns Codecs Sample IndexerSample KeeperSample.

(** ** Databases *)

Section databases.
Context {D T : Type} {base : Database D T} {view : DatabaseView D T} {laws : DatabaseLaws D T}.

(** C10.  A batch on a database with prefixes, however they are nested, writes what a sequence of
    writes on the keys of the prefix writes: wherever the limit of a transaction or the maximum of
    the batch makes it commit, no write fails or is lost, and no key without the prefix changes. *)
Theorem batch_refines_writes (ps : list bytes) d maxSize ws :
  let h := fold_left NewPrefixedDatabase ps Bare in
  let p := String.concat "" ps in
  exists b d',
    mfor ws (handle_op base h) (@NewBatchMaxSize D T (handle_ops base h) d maxSize) = (b, Ok tt) /\
    @Batch_Commit D T (handle_ops base h) b = (set_b_db d' b, Ok tt) /\
    (forall k, contents d' (p +:+ k) = fold_left apply_write ws (fun k => contents d (p +:+ k)) k) /\
    (forall k, outside p k -> contents d' k = contents d k).
Proof.
  cbv zeta. destruct (handle_run (fold_left NewPrefixedDatabase ps Bare) d maxSize ws) as (b & d' & Hr & Hc & Hk).
  rewrite handle_prefix_nested in Hk. exists b, d'. split_and!; [done|done| |]; intros k; rewrite Hk.
  - apply fold_write_prefix.
  - intros Ho. by apply fold_write_outside.
Qed.

(** [Iterate] of pebble goes through exactly the entries with the prefix, whatever octets the
    prefix has, with the prefix removed and no slice out of range.  A prefixed database removes its
    prefix from the keys it is given: over whole keys, as badger gives them, it goes once through
    the entries with its prefix, in order; over the keys that pebble gives, a key that repeats the
    prefix comes out without its own first octets. *)
Theorem iterate_prefix_keys p :
  (forall entries, PebbleDB_Iterate p entries =
     Ok (omap (fun '(k, v) => (fun rest => (rest, v)) <$> strip_prefix p k) entries)) /\
  (full_keys (D := D) (T := T) -> forall q d, exists l : list (bytes * bytes),
     @db_Iterate D T (PrefixedDatabase p) q d = (fun '(rest, v) => (q +:+ rest, v)) <$> l /\
     StronglySorted (fun a b => bytes_le a.1 b.1 = true) l /\ NoDup l.*1 /\
     forall rest v, (rest, v) ∈ l <-> contents d (p +:+ q +:+ rest) = Some v) /\
  (forall entries rest v, (p +:+ p +:+ rest, v) ∈ entries -> exists calls,
     PebbleDB_Iterate p entries = Ok calls /\ (rest, v) ∈ (fun '(k, v) => (TrimPrefix k p, v)) <$> calls).
Proof.
  split_and!.
  - apply PebbleDB_Iterate_run.
  - intros Hfull q d. destruct (@db_Iterate_spec D T _ _ (prefixed_laws p) q d) as (l & Hi & Hs & Hn & Hl). exists l.
    split_and!; [|done|done|done]. rewrite Hi. apply list_fmap_ext. intros i [rest v] _.
    by rewrite (prefixed_full_keys p Hfull).
  - intros entries rest v Hin. eexists. split; [apply PebbleDB_Iterate_run|].
    apply list_elem_of_fmap. exists (p +:+ rest, v). split; [by rewrite TrimPrefix_append|].
    apply list_elem_of_omap. exists (p +:+ p +:+ rest, v). split; [done|]. by rewrite strip_prefix_app.
Qed.
End databases.

(** ** Signatures *)

Section signatures.
Context `{EthSign, !EthCryptoLaws, !EthSignLaws}.

(** The signature of a transaction is recovered to the address of the key that signed it, and
    it is accepted by those who authorise that address only; a key that [HexString] writes is
    imported by [AddHexKey] as the same key. *)
Theorem signature_identifies_key k key j txData chainID :
  keyed k key ->
  exists sig addr,
    SignVocdoniTx k txData chainID = Ok sig /\ SK_Address k = Ok addr /\
    AddrFromSignature (BuildVocdoniTransaction txData chainID) sig = Ok addr /\
    VerifySender j (BuildVocdoniTransaction txData chainID) sig = Ok (bool_decide (addr ∈ sk_Authorized j), addr) /\
    exists pub priv j', HexString k = Ok (pub, priv) /\ AddHexKey priv j = (j', Ok tt) /\ keyed j' key /\
      sk_Authorized j' = sk_Authorized j.
Proof.
  intros Hk. destruct (sign_total k key (BuildVocdoniTransaction txData chainID) Hk) as [sig Hs].
  exists sig, (PubkeyToAddress (priv_PublicKey key)). split_and!; [done| |by eapply sign_recovers|by eapply sign_verified|].
  - unfold SK_Address. by rewrite (proj2 Hk).
  - unfold HexString, PublicKey. rewrite (proj1 Hk), (proj2 Hk). cbn. eexists _, _, _. split; [reflexivity|].
    unfold AddHexKey. rewrite trimHex_hex, HexToECDSA_From. by split.
Qed.
End signatures.

(** ** The key keeper *)

Section keeper.
Context `{ArboLaws, Lru, ProtoLaws, EthCryptoLaws, !ProofLibs, !SealedBox, !EthSign, !EthSignLaws}.
Context `{!StoredKeysCodec, !KeeperEnv, !KeeperLaws}.
Context {D T : Type} {ops : Database D T} {view : DatabaseView D T} {laws : DatabaseLaws D T}.
Context {conflict : ConflictLaws D T}.
Notation keeper := (KeyKeeper (D := D)).
Notation kstate k := (AppState (kk_vochain k)).

(** C9.  The reveal of a process that is scheduled for block [e] when a block is committed does
    happen: whatever events, changes of the chain, commits and goroutines come in between, in any
    order, the check of block [e] that runs next sends a transaction, signed by the keeper, with the
    private key of the process.  When the check runs, the chain must have the process, which must
    need keys, with the public key of the keeper (a publication that was lost is never revealed);
    and each of the other processes of the block must be such a process, be absent, or need keys
    and lack the public key: a process that needs no keys would stop the check before the others. *)
Theorem scheduled_reveal_happens key (k : keeper) ts h pool pid e ls k1 ts1 :
  roomy (D := D) (T := T) ->
  sound key k -> kk_blockPool k = Some pool -> pool !! pid = Some e ->
  ksteps (LCommit h :: ls) (k, ts) (k1, ts1) -> LTask (CheckReveal e) ∉ ls ->
  judge (kstate k1) (kk_myIndex k1) pid = VReveal ->
  Forall (fun q => judge (kstate k1) (kk_myIndex k1) q = VReveal \/ judge (kstate k1) (kk_myIndex k1) q = VSkip)
    (scheduled (T := T) (kk_storage k1) e) ->
  exists k2 b, run_keeper_task (CheckReveal e) k1 = (k2, Ok tt) /\ b ∈ kk_sent k2 /\ reveals k pid b.
Proof. intros Hroom. by apply reveal_follows. Qed.

(** The keys of the pool are published, one transaction for each, by the goroutine of
    [Commit] if it runs before the next block begins; if the block begins before, [Rollback] has
    emptied the pool and nothing is sent. *)
Theorem publication_races_rollback key (k : keeper) h pool :
  roomy (D := D) (T := T) ->
  sound key k -> kk_keyPool k = Some pool -> map_Forall (fun _ => is_Some) pool ->
  (exists k1 bs, ksteps [LCommit h; LTask PublishPending] (k, []) (k1, [CheckReveal h]) /\
     kk_sent k1 = kk_sent k ++ bs /\ Forall2 (publishes k) (range pool) bs) /\
  (exists k1, ksteps [LCommit h; LEvent OnRollback; LTask PublishPending] (k, []) (k1, [CheckReveal h]) /\
     kk_sent k1 = kk_sent k).
Proof.
  intros Hroom [Hk Hwf Hread] Hpool Hall. destruct (KK_Commit_run Hroom h k Hread) as (d' & Hc & _).
  assert (Hstep : kstep (LCommit h) (k, []) (set_storage d' k, [CheckReveal h; PublishPending])).
  { exact (step_commit h k _ _ [] Hc). }
  split.
  - destruct (publishPendingKeys_run (set_storage d' k) key pool Hk Hpool Hall) as (k1 & bs & Hr & _ & Hs & Hb).
    exists k1, bs. split_and!; [|done|done]. econstructor; [exact Hstep|]. econstructor; [|constructor].
    exact (step_task PublishPending _ _ [CheckReveal h] [] Hr).
  - set (k0 := set_blockPool (Some ∅) (set_keyPool (Some ∅) (set_storage d' k))).
    assert (Hr : publishPendingKeys k0 = (k0, Ok tt)) by (by apply publish_empty).
    exists k0. split; [|done]. econstructor; [exact Hstep|]. econstructor; [by apply step_event|].
    econstructor; [|constructor]. exact (step_task PublishPending _ _ [CheckReveal h] [] Hr).
Qed.

(** C25.  The keys of a keeper with an index from 1 to 15 work on the chain: the public key is
    accepted for a process that has not started and has no key with that index; once it is stored
    and the process is over, the private key is accepted; and what was encrypted with the key that
    was published is decrypted with the key that was revealed. *)
Theorem keeper_keys_accepted `{!SealedBoxLaws} key (k : keeper) pid p h n n' :
  keyed (kk_signer k) key -> 1 <= kk_myIndex k <= 15 ->
  EncryptionPublicKeys p !! Z.to_nat (kk_myIndex k) = Some "" -> h <= StartBlock p ->
  Status p <> CANCELED -> Status p <> ENDED -> Status p <> RESULTS ->
  exists pk, generateKeys pid k = Ok pk /\
    process_keys_check (publish_tx pk pid n) p h = Ok tt /\
    (forall q h',
       EncryptionPublicKeys q = <[Z.to_nat (kk_myIndex k) := hex_encode (pks_pubKey pk)]> (EncryptionPublicKeys p) ->
       EncryptionPrivateKeys q !! Z.to_nat (kk_myIndex k) = Some "" ->
       end_block q <= h' \/ Status q = ENDED \/ Status q = CANCELED ->
       process_keys_check (reveal_tx pk pid n') q h' = Ok tt) /\
    (forall m rand c, Anonymous_Encrypt m (pks_pubKey pk) rand = Ok c ->
       exists priv, DecodePrivate (hex_encode (pks_privKey pk)) = Ok priv /\ Decrypt priv c = Ok m).
Proof.
  intros Hk Hi Hslot Hh Hc He Hr. destruct (generateKeys_run pid k key Hk) as (pk & Hg & (Hd & Hls & Hlp) & Hix).
  exists pk. assert (Hu : u32 (pks_index pk) = kk_myIndex k) by (rewrite Hix; unfold u32; apply Z.mod_small; lia).
  assert (Hval : valid_key_index (kk_myIndex k) = true).
  { unfold valid_key_index. change (Z.of_nat KeyKeeperMaxKeyIndex) with 16. lia. }
  assert (Hget : forall l : list string, slice_get l (kk_myIndex k) =
                 match l !! Z.to_nat (kk_myIndex k) with Some x => Ok x | None => Panic "index out of range" end).
  { intros l. unfold slice_get. by rewrite (proj2 (Z.ltb_ge _ _)) by lia. }
  split_and!; [done| | |].
  - unfold process_keys_check, publish_tx, checkAddProcessKeys. cbn [Adm_Txtype Adm_KeyIndex EncryptionPublicKey].
    rewrite Hu, !Hget, Hslot, Hval, (proj2 (Z.ltb_ge _ _)) by lia.
    rewrite !bool_decide_false by done. reflexivity.
  - intros q h' Hq Hqp Hover. unfold process_keys_check, reveal_tx, checkRevealProcessKeys.
    cbn [Adm_Txtype Adm_KeyIndex EncryptionPrivateKey]. rewrite Hu, !Hget, Hqp, Hq, Hval.
    rewrite list_lookup_insert_eq by (by apply lookup_lt_Some in Hslot).
    assert (Hb : ((h' <? end_block q) && negb (bool_decide (Status q = ENDED) || bool_decide (Status q = CANCELED))) = false).
    { destruct Hover as [Hle | [-> | ->]]; [|by rewrite andb_false_r..]. by rewrite (proj2 (Z.ltb_ge _ _)). }
    rewrite Hb. cbn [check mbind outcome_bind negb orb]. rewrite (bool_decide_false (Some _ = None)) by done.
    assert (Hne : (blen (hex_encode (pks_pubKey pk)) <? 1) = false).
    { unfold blen. by rewrite length_hex_encode, Hlp. }
    rewrite Hne, Hd. cbn. by rewrite bool_decide_false by tauto.
  - intros m rand c Hm. eexists. split; [exact Hd|]. eapply Decrypt_Encrypt; [exact Hd|exact Hm].
Qed.
End keeper.

(** ** Witnesses *)

Section witnesses.
#[local] Existing Instance mem_View.

(** Two prefixes, five writes in transactions of at most two. *)
Definition writes1 : list write_op := [WSet "a" "1"; WSet "b" "2"; WSet "a" "3"; WDelete "b"; WSet "c" "4"].
Definition memdb1 : memdb := {[ "x/y/b" := "0"; "x/z" := "9" ]}.

Lemma batch_refines_writes_witness :
  exists d' : memdb, contents d' "x/y/a" = Some "3" /\ contents d' "x/y/b" = None /\ contents d' "x/y/c" = Some "4" /\
                     contents d' "x/z" = Some "9".
Proof.
  destruct (@batch_refines_writes memdb memtx small mem_View small_laws ["x/"; "y/"] memdb1 10 writes1)
    as (b & d' & _ & _ & Hin & Hout).
  exists d'. split_and!; [exact (Hin "a")|exact (Hin "b")|exact (Hin "c")|]. rewrite Hout; [reflexivity|].
  intros rest E. discriminate E.
Defined.

Lemma iterate_prefix_keys_witness :
  exists l : list (bytes * bytes), @db_Iterate memdb memtx (@PrefixedDatabase _ _ small "x/") "y" memdb1 =
    (fun '(rest, v) => ("y" +:+ rest, v)) <$> l /\ ("/b", "0") ∈ l /\ ("/z", "9") ∉ l.
Proof.
  destruct (@iterate_prefix_keys memdb memtx small mem_View small_laws "x/") as (_ & Hfull & _).
  destruct (Hfull (fun _ _ => eq_refl) "y" memdb1) as (l & Hi & _ & _ & Hl). exists l.
  split_and!; [exact Hi|by apply Hl|]. intros Hz%Hl. discriminate Hz.
Defined.

Definition signer1 : SignKeys := mkSignKeys (Some bob) (Some bob) [].

Lemma signature_identifies_key_witness :
  exists sig, SignVocdoniTx signer1 "tx" "dev" = Ok sig /\
    AddrFromSignature (BuildVocdoniTransaction "tx" "dev") sig = Ok bob.
Proof.
  destruct (signature_identifies_key signer1 bob NewSignKeys "tx" "dev") as (sig & addr & Hs & Ha & Hr & _); [by split|].
  exists sig. split; [exact Hs|]. rewrite Hr. exact (eq_sym Ha).
Defined.
End witnesses.

Section keeper_witnesses.
#[local] Existing Instances large mem_View large_laws mem_conflict.

Definition bob_key : @ecdsa_priv sample_EthCrypto sample_EthSign := bob.

(** The keeper of [bob], an oracle of the sample node, when process 2 has been created. *)
Definition app1 (s : State) : BaseApplication := mkApp s 3 0 0 "dev" [].

Definition keeper0 (keys : gmap bytes (option processKeys)) : KeyKeeper (D := memdb) :=
  mkKeyKeeper (app1 state2) ∅ (Some keys) (Some {[ pid2 := 15 ]}) signer1 1 [].

Definition keys1 : processKeys :=
  match generateKeys pid2 (keeper0 ∅) with Ok pk => pk | _ => mkProcessKeys "" "" 0 end.

Definition keeper1 : KeyKeeper (D := memdb) := keeper0 {[ pid2 := Some keys1 ]}.

Lemma keeper1_sound : sound (T := memtx) bob_key keeper1.
Proof. split; [by split|exact state2_wf|]. intros h data Hd. cbn in Hd. by rewrite lookup_empty in Hd. Qed.

Lemma large_roomy : roomy (D := memdb) (T := memtx).
Proof. by intros k v t. Qed.

Lemma publication_races_rollback_witness :
  exists k1 b, ksteps [LCommit 3; LTask PublishPending] (keeper1, []) (k1, [CheckReveal 3]) /\
    kk_sent k1 = [b] /\ publishes (D := memdb) keeper1 (pid2, Some keys1) b.
Proof.
  destruct (publication_races_rollback bob_key keeper1 3 {[ pid2 := Some keys1 ]} large_roomy keeper1_sound eq_refl)
    as [(k1 & bs & Hs & Hsent & Hb) _].
  { apply map_Forall_singleton. by eexists. }
  cbn [range sample_KeeperEnv] in Hb. rewrite map_to_list_singleton in Hb.
  inversion Hb as [|x b l bs' Hx Hl]; subst. inversion Hl; subst. exists k1, b. split_and!; [exact Hs|exact Hsent|exact Hx].
Defined.

(** The chain once the key is published. *)
Definition state2_keys : State := run_state (AddProcessKeys (publish_tx keys1 pid2 0)) state2.

Lemma state2_keys_wf : wf state2_keys.
Proof.
  exact (proj2 (spreserves_AddProcessKeys (publish_tx keys1 pid2 0) state2) state2_wf).
Qed.

Definition keeper2 : KeyKeeper (D := memdb) := (KK_Commit 3 keeper1).1.

Lemma keeper_steps :
  ksteps [LCommit 3; LChain (app1 state2_keys)] (keeper1, [])
    (set_vochain (app1 state2_keys) keeper2, [CheckReveal 3; PublishPending]).
Proof.
  econstructor; [|econstructor; [|constructor]].
  - exact (step_commit 3 keeper1 keeper2 [CheckReveal 3; PublishPending] [] eq_refl).
  - apply step_chain; [exact state2_keys_wf|vm_compute; reflexivity].
Qed.

Lemma scheduled_reveal_happens_witness :
  exists k2 b, run_keeper_task (CheckReveal 15) (set_vochain (app1 state2_keys) keeper2) = (k2, Ok tt) /\ b ∈ kk_sent k2 /\
    reveals keeper1 pid2 b.
Proof.
  apply (scheduled_reveal_happens bob_key keeper1 [] 3 {[ pid2 := 15 ]} pid2 15 [LChain (app1 state2_keys)]
           (set_vochain (app1 state2_keys) keeper2) [CheckReveal 3; PublishPending] large_roomy keeper1_sound eq_refl).
  - reflexivity.
  - exact keeper_steps.
  - intros E%list_elem_of_singleton. discriminate E.
  - vm_compute. reflexivity.
  - assert (Hs : scheduled (T := memtx) (kk_storage (set_vochain (app1 state2_keys) keeper2)) 15 = [pid2])
      by (vm_compute; reflexivity).
    rewrite Hs. constructor; [left; vm_compute; reflexivity|constructor].
Defined.

Lemma keeper_keys_accepted_witness :
  exists pk, generateKeys pid2 keeper1 = Ok pk /\ process_keys_check (publish_tx pk pid2 0) process2 3 = Ok tt.
Proof.
  destruct (keeper_keys_accepted bob_key keeper1 pid2 process2 3 0 1) as (pk & Hg & Hp & _);
    [by split|split; discriminate|reflexivity|discriminate|discriminate|discriminate|discriminate|].
  exists pk. split; [exact Hg|exact Hp].
Defined.
End keeper_witnesses.
