(* ===== verification/VoconeSpec.v ===== *)
(** * The properties of the chain with one node

    Theorems on the blocks that [Vocone.v] makes and on its chain; the lemmas are in
    [VoconeFacts.v], and the witnesses run a node on the sample chain. *)

From stdpp Require Import base option list strings gmap pretty.
From Stdlib Require Import ZArith Lia.
From S2P Require Import Prelude GoMonad GoLib Database Sha256 Models External Codecs Ethereum SignKeys.
From S2P Require Import Tree StateDB StateTrees State StateFacts CommitFacts Account AccountFacts Process ProcessFacts App.
From S2P Require Import TxFacts Lifecycle BlockFacts ChainFacts Vocone VoconeFacts.
From S2P Require Import Sample IndexerSample KeyKeeper KeyKeeperFacts KeeperSample ChainSample.

Section vocone.
Context `{ArboLaws, LruLaws, ProtoLaws, EthCryptoLaws, !ProofLibs, !EthSign, FifoLaws}.
Context {D T : Type} {ops : Database D T} {view : DatabaseView D T} {laws : DatabaseLaws D T}.
Notation vocone := (Vocone (D := D)).
Notation vstate v := (AppState (vc_app v)).
Variable tm_Hash : bytes -> bytes.

(** C24.  A block of the node: [commitBlock] ends, takes the transactions from the queue in order
    until the block is full, leaves the others in the queue, and stores the accepted ones, no more
    than the block size, under consecutive numbers, from which [getTx] reads them; the rest of
    the block store is not touched. *)
Theorem commit_block_correct (v : vocone) a acc later :
  (forall k x (t : T), (tx_Set (D := D) k x t).2 = Ok tt) ->
  deliver_all tm_Hash (vc_txsPerBlock v) (items (vc_mempool v)) (vc_app v) = (a, Ok (acc, later)) ->
  exists v', commitBlock tm_Hash v = (v', Ok tt) /\ vc_app v' = a /\ items (vc_mempool v') = later /\
    Z.of_nat (List.length acc) <= Z.max 0 (vc_txsPerBlock v) /\
    (forall i tx, acc !! i = Some tx ->
       (getTx (vc_height v) (Z.of_nat i) v').2 =
       match unmarshal tx with Some stx => Ok stx | None => Err (Errorf "proto: unmarshal") end) /\
    (forall k, (forall i, (i < List.length acc)%nat -> k <> block_tx_key (vc_height v) (Z.of_nat i)) ->
       contents (T := T) (vc_blockStore v') k = contents (T := T) (vc_blockStore v) k).
Proof.
  intros Hroom Hd. pose proof (commitBlock_run tm_Hash Hroom v) as Hc. rewrite Hd in Hc.
  destruct Hc as (q & d' & Hr & Hq & Hk). eexists. split; [exact Hr|]. split_and!; [done|done| | |].
  - by apply deliver_all_room in Hd.
  - intros i tx Hi. unfold getTx. unfold mbind, gom_bind. rewrite store_Get_run. cbn [vc_blockStore set_vc_blockStore].
    rewrite Hk, <- (Z.add_0_l (Z.of_nat i)), block_writes_lookup by (by apply lookup_lt_Some in Hi). rewrite Hi.
    cbn. unfold Unmarshal. by destruct (unmarshal tx).
  - intros k Hne. cbn. rewrite Hk. apply block_writes_other. intros j Hj. rewrite Z.add_0_l. by apply Hne.
Qed.

(** A transaction is stored under the number of transactions accepted before it in the block,
    but the listeners of the state are told a number that counts those that were rejected too:
    after a rejected transaction the index leads to another place in the block store. *)
Theorem stored_index_drifts (v v' : vocone) pre tx post a1 acc a2 resp :
  (forall k x (t : T), (tx_Set (D := D) k x t).2 = Ok tt) ->
  items (vc_mempool v) = pre ++ tx :: post -> txCounter (vstate v) = 0 ->
  Z.of_nat (List.length pre) < 2 ^ 31 ->
  deliver_all tm_Hash (vc_txsPerBlock v) pre (vc_app v) = (a1, Ok (acc, [])) ->
  Z.of_nat (List.length acc) < vc_txsPerBlock v ->
  DeliverTx tm_Hash tx a1 = (a2, Ok resp) -> Code resp = 0 ->
  commitBlock tm_Hash v = (v', Ok tt) ->
  contents (T := T) (vc_blockStore v') (block_tx_key (vc_height v) (Z.of_nat (List.length acc))) = Some tx /\
  exists s h n, AppState a2 = set_txCounter n (notified (OnNewTx (tm_Hash tx) h (Z.of_nat (List.length pre))) s).
Proof.
  intros Hroom Hi Hz Hlen Hpre Hacc Hd Hc Hr. split.
  - pose proof (commitBlock_run tm_Hash Hroom v) as Hb. rewrite Hi, (deliver_all_app _ _ _ _ _ _ _ Hpre) in Hb.
    cbn [deliver_all] in Hb. replace (0 <? vc_txsPerBlock v - Z.of_nat (List.length acc)) with true in Hb by lia.
    unfold mbind, gom_bind in Hb. rewrite Hd, Hc in Hb. cbn [Z.eqb] in Hb.
    destruct (deliver_all tm_Hash _ post a2) as [a3 [[acc' later]|e|w]]; cbn in Hb;
      [|by rewrite Hr in Hb|by rewrite Hr in Hb].
    destruct Hb as (q & d' & Hb & _ & Hk). rewrite Hr in Hb. injection Hb as ->. cbn. rewrite Hk.
    rewrite <- (Z.add_0_l (Z.of_nat (List.length acc))), block_writes_lookup by (rewrite length_app; cbn; lia).
    by rewrite lookup_app_r, Nat.sub_diag by lia.
  - apply DeliverTx_counter in Hd as [_ Hd]. destruct (Hd Hc) as (s & h & Hs). exists s, h.
    apply deliver_all_counter in Hpre; [|rewrite Hz; lia]. rewrite Hz in Hpre. rewrite Hs, Hpre.
    eexists. do 3 f_equal. unfold i32. rewrite Z.mod_small by lia. lia.
Qed.

(** C11.  From the start of the node on a chain, over every sequence of blocks, transactions and
    calls of the administration, the chain keeps its invariant: no committed process disappears
    and each one only makes the steps of the abstract process. *)
Theorem vocone_chain_safe app q d k addr (v v' : vocone) :
  (forall k x (t : T), (tx_Set (D := D) k x t).2 = Ok tt) ->
  chain_inv (AppState app) -> SK_Address k = Ok addr -> NewVocone app q d k = Ok v ->
  rtc (vstep tm_Hash) v v' ->
  chain_inv (vstate v') /\
  forall pid p, committed_process (AppState app) pid = Some p ->
    exists p', committed_process (vstate v') pid = Some p' /\ rtc chain_step p p'.
Proof.
  intros Hroom I Ha Hn Hsteps. destruct (NewVocone_start app q d k addr v I Ha Hn) as (I0 & A0 & _).
  assert (Hk : chain_kept v v').
  { clear Hn I I0 A0 Ha. induction Hsteps as [v|v v1 v' Hs _ IH]; [by intros I|].
    intros I. destruct (vstep_kept tm_Hash Hroom _ _ Hs I) as [I1 A1]. destruct (IH I1) as [I2 A2]. split; [done|by etrans]. }
  destruct (Hk I0) as [I1 A1]. split; [done|]. intros pid p (p1 & Hp1 & R1)%A0. apply A1 in Hp1 as (p2 & Hp2 & R2).
  exists p2. split; [done|by etrans].
Qed.

(** Each time the node is started the account of its oracle is replaced by a new one: whatever
    it had, the balance is 10000 and the nonce is 0, so that the transactions of its first run
    have a valid nonce again. *)
Theorem start_resets_oracle app q d k addr (v : vocone) :
  chain_inv (AppState app) -> SK_Address k = Ok addr -> addr <> BurnAddress -> NewVocone app q d k = Ok v ->
  exists acc, account (vstate v) addr = Some acc /\ Nonce acc = 0 /\ Balance acc = 10000 /\ DelegateAddrs acc = [].
Proof.
  intros I Ha Hne Hn. destruct (NewVocone_start app q d k addr v I Ha Hn) as (_ & _ & Hacc).
  exists start_account. by rewrite Hacc.
Qed.
(** A node that is started again makes its next block with the number of the last one: the
    transactions of the last block are replaced, in the block store, by those of the new one. *)
Theorem restart_overwrites_block bt et (v v1 v2 : vocone) hash c s app q k :
  (forall k x (t : T), (tx_Set (D := D) k x t).2 = Ok tt) ->
  chain_inv (vstate v) -> is_u32 (vc_height v) ->
  produce_block tm_Hash bt et v = (v1, Ok hash) -> NewState (Store (vstate v1)) c = Ok s ->
  NewVocone (set_AppState s app) q (vc_blockStore v1) k = Ok v2 ->
  vc_height v2 = vc_height v /\ vc_blockStore v2 = vc_blockStore v1 /\
  (forall i tx, accepted_txs tm_Hash bt v !! i = Some tx ->
     contents (T := T) (vc_blockStore v1) (block_tx_key (vc_height v) (Z.of_nat i)) = Some tx) /\
  (forall bt' et' v3 hash' i tx,
     produce_block tm_Hash bt' et' v2 = (v3, Ok hash') -> accepted_txs tm_Hash bt' v2 !! i = Some tx ->
     contents (T := T) (vc_blockStore v3) (block_tx_key (vc_height v) (Z.of_nat i)) = Some tx).
Proof.
  intros Hroom I Hh Hb Hs Hn. pose proof (produce_block_steps _ Hroom _ _ _ _ _ Hb) as Hsteps.
  destruct (abci_star _ _ _ Hsteps I) as [I1 _]. apply (produce_block_version _ Hroom) in Hb as Hv; [|done].
  destruct (NewState_again _ _ _ (inv_good _ I1) Hs) as (Hst & _). apply NewVocone_node in Hn as (Hver & _ & Hd).
  assert (Hheight : vc_height v2 = vc_height v).
  { cbn [AppState set_AppState] in Hver. rewrite Hst, Hv in Hver. injection Hver as <-. by apply u32_id. }
  split_and!; [done|done| |].
  - intros i tx Hi. by eapply produce_block_stores.
  - intros bt' et' v3 hash' i tx Hb' Hi. rewrite <- Hheight. by eapply produce_block_stores.
Qed.
End vocone.

(** ** Witnesses *)

(** A queue in memory. *)
#[export] Instance sample_Fifo : Fifo := {|
  fifo := list bytes * Z;
  NewFixedFIFO n := ([], n);
  fifo_Enqueue x q := if Z.of_nat (List.length q.1) <? q.2 then inr (q.1 ++ [x], q.2) else inl (Errorf "FIFO queue is full");
  fifo_Dequeue q := match q.1 with [] => inl (Errorf "empty queue") | x :: l => inr (x, (l, q.2)) end;
  fifo_GetLen q := Z.of_nat (List.length q.1)
|}.

Lemma sample_FifoLaws : FifoLaws.
Proof.
  refine {| items := fst : fifo -> list bytes; capacity := snd : fifo -> Z |}.
  - done.
  - intros x q. cbn. destruct (Z.ltb_spec (Z.of_nat (List.length q.1)) q.2); [left|right]; (split; [lia|eauto]).
  - intros q. cbn. destruct q as [[|x l] n]; cbn; eauto.
  - done.
Defined.

Section witnesses.
#[local] Existing Instances large mem_View large_laws sample_FifoLaws.

(** The node of [bob], with the same transaction twice in its queue, then another one. *)
Definition oracle_key : SignKeys := mkSignKeys (Some bob) (Some bob) [].
Definition new_content2 : bytes :=
  enc_bytes (mkSignedTx (enc_bytes (mkTx (Some (Tx_NewProcess (mkNewProcessTx 1 (Some process2))))))
               (Some (sign bob))).
Definition queue1 : @fifo sample_Fifo := ([new_content; new_content; new_content2], 100).
Definition vocone_on (a : BaseApplication) : Vocone (D := memdb) := mkVocone a queue1 (∅ : memdb) 1 500.

Lemma large_room k x (t : memtx) : (tx_Set (D := memdb) k x t).2 = Ok tt.
Proof. reflexivity. Qed.

Definition block1 : GoM BaseApplication (list bytes * list bytes) :=
  deliver_all tm_hash 500 [new_content; new_content; new_content2].

(** The second copy is rejected: the other transaction is stored under 1 and announced with 2. *)
Definition first_two : GoM BaseApplication (list bytes * list bytes) := deliver_all tm_hash 500 [new_content; new_content].

Definition accepts (o : outcome TxResult) : bool := match o with Ok r => Code r =? 0 | _ => false end.

(** What the runs of the sample give. *)
Definition outcomes (a : BaseApplication) : outcome (list bytes * list bytes) * outcome (list bytes * list bytes) * Z * bool :=
  let r := first_two a in
  (app_out block1 a, r.2, txCounter (AppState a), accepts (app_out (DeliverTx tm_hash new_content2) r.1)).

Lemma outcomes_app1 : outcomes app1 = (Ok ([new_content; new_content2], []), Ok ([new_content], []), 0, true).
Proof. vm_compute. reflexivity. Qed.

Lemma outcomes_split a x y z b :
  outcomes a = (x, y, z, b) ->
  app_out block1 a = x /\ app_out first_two a = y /\ txCounter (AppState a) = z /\
  accepts (app_out (DeliverTx tm_hash new_content2) (app_state first_two a)) = b.
Proof.
  intros Ho. split; [exact (f_equal (fun o => o.1.1.1) Ho)|]. split; [exact (f_equal (fun o => o.1.1.2) Ho)|].
  split; [exact (f_equal (fun o => o.1.2) Ho)|exact (f_equal (fun o => o.2) Ho)].
Qed.

Lemma commit_block_correct_witness :
  exists v', commitBlock tm_hash (vocone_on app1) = (v', Ok tt) /\ is_ok (getTx 1 1 v').2 = true.
Proof.
  assert (Hgen : forall a, app_out block1 a = Ok ([new_content; new_content2], []) ->
            exists v', commitBlock tm_hash (vocone_on a) = (v', Ok tt) /\ is_ok (getTx 1 1 v').2 = true).
  { intros a Ha.
    assert (Hd : deliver_all tm_hash (vc_txsPerBlock (vocone_on a)) (items (vc_mempool (vocone_on a))) (vc_app (vocone_on a)) =
                 (app_state block1 a, Ok ([new_content; new_content2], []))) by exact (app_eq block1 a _ Ha).
    destruct (commit_block_correct tm_hash (vocone_on a) (app_state block1 a) [new_content; new_content2] []
                large_room Hd) as (v' & Hr & _ & _ & _ & Hget & _).
    exists v'. split; [exact Hr|]. pose proof (Hget 1%nat new_content2 eq_refl) as Hg.
    change (getTx (vc_height (vocone_on a)) (Z.of_nat 1) v') with (getTx 1 1 v') in Hg. rewrite Hg. vm_compute. reflexivity. }
  exact (Hgen app1 (proj1 (outcomes_split _ _ _ _ _ outcomes_app1))).
Defined.

Lemma stored_index_drifts_witness :
  exists d' : memdb, contents (T := memtx) d' (block_tx_key 1 1) = Some new_content2 /\
    exists s h n, AppState (app_state (DeliverTx tm_hash new_content2) (app_state first_two app1)) =
                  set_txCounter n (notified (OnNewTx (tm_hash new_content2) h 2) s).
Proof.
  assert (Hgen : forall a, txCounter (AppState a) = 0 -> app_out first_two a = Ok ([new_content], []) ->
            accepts (app_out (DeliverTx tm_hash new_content2) (app_state first_two a)) = true ->
            is_ok (app_out block1 a) = true ->
            exists d' : memdb, contents (T := memtx) d' (block_tx_key 1 1) = Some new_content2 /\
              exists s h n, AppState (app_state (DeliverTx tm_hash new_content2) (app_state first_two a)) =
                            set_txCounter n (notified (OnNewTx (tm_hash new_content2) h 2) s)).
  { intros a Hz H2 H3 Hb. unfold accepts in H3.
    destruct (app_out (DeliverTx tm_hash new_content2) (app_state first_two a)) as [resp|e|w] eqn:E; try discriminate H3.
    apply Z.eqb_eq in H3.
    pose proof (commitBlock_run tm_hash large_room (vocone_on a)) as Hc.
    cbn [vocone_on vc_txsPerBlock vc_mempool vc_app vc_height vc_blockStore] in Hc.
    change (deliver_all tm_hash 500 (items queue1) a) with (block1 a) in Hc.
    destruct (app_out block1 a) as [[acc later]|e|w] eqn:Eb; try discriminate Hb.
    rewrite (app_eq block1 a _ Eb) in Hc. destruct Hc as (q & d' & Hr & _).
    assert (Hd : deliver_all tm_hash (vc_txsPerBlock (vocone_on a)) [new_content; new_content] (vc_app (vocone_on a)) =
                 (app_state first_two a, Ok ([new_content], []))) by exact (app_eq first_two a _ H2).
    assert (Hi : items (vc_mempool (vocone_on a)) = [new_content; new_content] ++ new_content2 :: []) by reflexivity.
    destruct (stored_index_drifts tm_hash (vocone_on a) _ [new_content; new_content] new_content2 []
                (app_state first_two a) [new_content] (app_state (DeliverTx tm_hash new_content2) (app_state first_two a)) resp
                large_room Hi Hz eq_refl Hd eq_refl (app_eq _ _ _ E) H3 Hr) as [Hs He].
    exists d'. split; [exact Hs|exact He]. }
  destruct (outcomes_split _ _ _ _ _ outcomes_app1) as (Hb & H2 & Hz & H3). apply Hgen; [exact Hz|exact H2|exact H3|].
  rewrite Hb. reflexivity.
Defined.

(** The node starts on the chain of the first process, and makes one block. *)
Definition vocone_of (o : outcome (Vocone (D := memdb))) : Vocone (D := memdb) :=
  match o with Ok v => v | _ => vocone_on start end.
Definition started (a : BaseApplication) : outcome (Vocone (D := memdb)) :=
  NewVocone a (([], 100) : @fifo sample_Fifo) (∅ : memdb) oracle_key.
Definition one_block (a : BaseApplication) : Vocone (D := memdb) * outcome bytes :=
  produce_block tm_hash 120 121 (vocone_of (started a)).

Lemma vocone_of_eq o : is_ok o = true -> o = Ok (vocone_of o).
Proof. by destruct o. Qed.

Lemma one_block_step a : is_ok (one_block a).2 = true -> vstep tm_hash (vocone_of (started a)) (one_block a).1.
Proof.
  intros Hb. destruct (one_block a) as [v' [hash|e|w]] eqn:E; try discriminate Hb. by eapply (v_block _ _ _ 120 121 hash).
Qed.

Lemma started_app3 : is_ok (started app3) = true /\ is_ok (one_block app3).2 = true /\
  committed_process (AppState app3) pid1 = Some process1.
Proof. vm_compute. done. Qed.

Lemma vocone_chain_safe_witness :
  exists p', committed_process (AppState (vc_app (one_block app3).1)) pid1 = Some p' /\ rtc chain_step process1 p'.
Proof.
  assert (Hgen : forall a, reachable tm_hash order genesis1 a ->
            is_ok (started a) = true -> is_ok (one_block a).2 = true ->
            committed_process (AppState a) pid1 = Some process1 ->
            exists p', committed_process (AppState (vc_app (one_block a).1)) pid1 = Some p' /\ rtc chain_step process1 p').
  { intros a Hr Hs Hb Hp.
    destruct (vocone_chain_safe tm_hash a _ _ oracle_key _ (vocone_of (started a)) (one_block a).1 large_room
                (reachable_inv _ _ _ _ Hr) eq_refl (vocone_of_eq _ Hs) (rtc_once _ _ (one_block_step a Hb))) as [_ Hk].
    exact (Hk pid1 process1 Hp). }
  exact (Hgen app3 app3_reachable (proj1 started_app3) (proj1 (proj2 started_app3)) (proj2 (proj2 started_app3))).
Defined.

Lemma start_resets_oracle_witness :
  exists acc, account (AppState (vc_app (vocone_of (started app3)))) (PubkeyToAddress bob) = Some acc /\ Balance acc = 10000.
Proof.
  assert (Hgen : forall a, reachable tm_hash order genesis1 a -> is_ok (started a) = true ->
            exists acc, account (AppState (vc_app (vocone_of (started a)))) (PubkeyToAddress bob) = Some acc /\
    Balance acc = 10000).
  { intros a Hr Hs.
    assert (Hne : PubkeyToAddress bob <> BurnAddress) by (vm_compute; discriminate).
    destruct (start_resets_oracle a _ _ oracle_key _ (vocone_of (started a)) (reachable_inv _ _ _ _ Hr) eq_refl Hne
                (vocone_of_eq _ Hs)) as (acc & Ha & _ & Hb & _).
    exists acc. split; [exact Ha|exact Hb]. }
  exact (Hgen app3 app3_reachable (proj1 started_app3)).
Defined.

(** The first process is created in a block, and the second one after the node is started again. *)
Definition node1 (a : BaseApplication) : Vocone (D := memdb) :=
  mkVocone a (([new_content], 100) : @fifo sample_Fifo) (∅ : memdb) 1 500.
Definition run1 (a : BaseApplication) : Vocone (D := memdb) * outcome bytes := produce_block tm_hash 100 101 (node1 a).
Definition reopened (a : BaseApplication) : outcome State := NewState (Store (AppState (vc_app (run1 a).1))) ∅.
Definition node2 (a : BaseApplication) (s : State) : outcome (Vocone (D := memdb)) :=
  NewVocone (set_AppState s a) (([new_content2], 100) : @fifo sample_Fifo) (vc_blockStore (run1 a).1)
    (mkSignKeys (Some carol) (Some carol) []).
Definition run2 (v : Vocone (D := memdb)) : Vocone (D := memdb) * outcome bytes :=
  produce_block tm_hash 110 111 v.

(** Both blocks are made, and each one accepts its transaction. *)
Definition restarts (a : BaseApplication) : bool :=
  is_ok (run1 a).2 && bool_decide (accepted_txs tm_hash 100 (node1 a) = [new_content]) &&
  match reopened a with
  | Ok s => match node2 a s with
            | Ok v => is_ok (run2 v).2 && bool_decide (accepted_txs tm_hash 110 v = [new_content2])
            | _ => false
            end
  | _ => false
  end.

Lemma restarts_app0 : restarts app0 = true.
Proof. vm_compute. reflexivity. Qed.

Lemma is_ok_run {A} (m : Vocone (D := memdb) * outcome A) : is_ok m.2 = true -> exists a, m = (m.1, Ok a).
Proof. destruct m as [v [a|e|w]]; try discriminate. eauto. Qed.

Lemma restart_overwrites_block_witness :
  contents (T := memtx) (vc_blockStore (run1 app0).1) (block_tx_key 1 0) = Some new_content /\
  exists s v2, reopened app0 = Ok s /\ node2 app0 s = Ok v2 /\
    contents (T := memtx) (vc_blockStore (run2 v2).1) (block_tx_key 1 0) = Some new_content2.
Proof.
  assert (Hgen : forall a, reachable tm_hash order genesis1 a -> restarts a = true ->
            contents (T := memtx) (vc_blockStore (run1 a).1) (block_tx_key 1 0) = Some new_content /\
            exists s v2, reopened a = Ok s /\ node2 a s = Ok v2 /\
              contents (T := memtx) (vc_blockStore (run2 v2).1) (block_tx_key 1 0) = Some new_content2).
  { intros a Hr Hc. unfold restarts in Hc. apply andb_prop in Hc as [[H1 Ha1]%andb_prop Hc].
    apply bool_decide_eq_true in Ha1. apply is_ok_run in H1 as [hash H1].
    destruct (reopened a) as [s|e|w] eqn:Hs; try discriminate Hc.
    destruct (node2 a s) as [v2|e|w] eqn:Hn; try discriminate Hc. apply andb_prop in Hc as [H2 Ha2].
    apply bool_decide_eq_true in Ha2. apply is_ok_run in H2 as [hash2 H2].
    assert (Hu : is_u32 (vc_height (node1 a))) by (cbn; unfold is_u32; lia).
    destruct (restart_overwrites_block tm_hash 100 101 (node1 a) (run1 a).1 v2 hash ∅ s a _ _ large_room
                (reachable_inv _ _ _ _ Hr) Hu H1 Hs Hn) as (_ & _ & Hb1 & Hb2).
    split; [apply (Hb1 0%nat); rewrite Ha1; reflexivity|]. exists s, v2. split; [reflexivity|]. split; [exact Hn|].
    apply (Hb2 110 111 _ hash2 0%nat new_content2 H2). rewrite Ha2. reflexivity. }
  exact (Hgen app0 app0_reachable restarts_app0).
Defined.
End witnesses.
