(* ===== verification/CensusSpec.v ===== *)
(** * Censuses

    The correctness of the census trees, of the requests on them and of the authorization of the
    requests: counts, numbering, proofs, dumps, publication, tokens and quotas. *)

From stdpp Require Import base option list strings gmap relations.
From Stdlib Require Import ZArith Lia.
From S2P Require Import Prelude GoMonad GoLib External Tree CensusTree BearerAPI CensusRuns CensusAPI CensusAPIFacts.
From S2P Require Import Sample CensusSample.

(** ** Histories of a census *)

Inductive census_op :=
| OAdd (key : bytes) (value : option bytes)
| OAddBatch (keys : list bytes) (values : option (list bytes))
| OImport (dump : bytes).

Definition is_import (o : census_op) : bool := match o with OImport _ => true | _ => false end.

(** The number of keys in a batch fits in the 32 bits to which the code converts it. *)
Definition small (o : census_op) : Prop :=
  match o with OAddBatch keys _ => Z.of_nat (List.length keys) < 2 ^ 32 | _ => True end.

Section histories.
Context `{Arbo, EthCrypto, !ProofLibs, !ArboCensus}.

Definition run_op (t : CTree) (d : CensusDB) (o : census_op) : CensusDB :=
  match o with
  | OAdd key value => (CT_Add t key value d).1
  | OAddBatch keys values => (CT_AddBatch t keys values d).1
  | OImport dump => (CT_ImportDump t dump d).1
  end.
Definition run_ops (t : CTree) (ops : list census_op) (d : CensusDB) : CensusDB := fold_left (run_op t) ops d.

(** The keys of an indexed census: an operation that answers no error appends its keys. *)
Definition keys_of (t : CTree) (d : CensusDB) (o : census_op) : list bytes :=
  match o with
  | OAdd key value => if is_ok (CT_Add t key value d).2 then [key] else []
  | OAddBatch keys values => if is_ok (CT_AddBatch t keys values d).2 then keys else []
  | OImport _ => []
  end.
Fixpoint all_keys (t : CTree) (d : CensusDB) (ops : list census_op) : list bytes :=
  match ops with [] => [] | o :: ops => keys_of t d o ++ all_keys t (run_op t d o) ops end.

(** No import, no values, and no batch of which the tree refused some keys. *)
Definition clean (t : CTree) (d : CensusDB) (o : census_op) : Prop :=
  match o with
  | OAdd _ value => value = None
  | OAddBatch keys values => values = None /\ forall inv, (CT_AddBatch t keys values d).2 = Ok inv -> inv = []
  | OImport _ => False
  end.
Fixpoint all_clean (t : CTree) (d : CensusDB) (ops : list census_op) : Prop :=
  match ops with [] => True | o :: ops => clean t d o /\ all_clean t (run_op t d o) ops end.
End histories.

Section census.
Context `{ArboLaws, EthCrypto, !ProofLibs, !ArboCensus, !ArboCensusLaws, !ArboIterBranch}.

(** ** Weights *)

Lemma weighted_op t d a o :
  opened t d a -> indexAsKeysCensus t = false -> small o ->
  exists a', opened t (run_op t d o) a' /\ (weight_ok a d -> weight_ok a' (run_op t d o)) /\
    (is_import o = false -> index_ok a d -> index_ok a' (run_op t d o)).
Proof.
  intros O Hi Hs. destruct o as [key value|keys values|dump]; cbn [run_op is_import].
  - destruct (CT_Add t key value d) as [d' [[]|e|w]] eqn:Hr; [|by rewrite (in_tx_fails _ _ _ _ Hr eq_refl); eauto..].
    destruct (CT_Add_weighted _ _ _ _ _ _ O Hi Hr) as (a' & _ & O' & Hw & Hx). eauto.
  - destruct (CT_AddBatch t keys values d) as [d' [inv|e|w]] eqn:Hr; [|by rewrite (in_tx_fails _ _ _ _ Hr eq_refl); eauto..].
    destruct (CT_AddBatch_weighted _ _ _ _ _ _ _ O Hi Hs Hr) as (a' & _ & O' & Hw & Hx). eauto.
  - pose proof (CT_ImportDump_weighted t dump d a O Hi) as Hr. destruct (arbo_import_dump a dump) as [e|a'].
    + rewrite Hr. eauto.
    + destruct Hr as (d' & -> & O' & Hw & _). exists a'. done.
Qed.

Lemma weighted_ops t ops d a :
  opened t d a -> indexAsKeysCensus t = false -> Forall small ops ->
  exists a', opened t (run_ops t ops d) a' /\ (weight_ok a d -> weight_ok a' (run_ops t ops d)) /\
    (forallb (fun o => negb (is_import o)) ops = true -> index_ok a d -> index_ok a' (run_ops t ops d)).
Proof.
  intros O Hi. revert d a O. induction ops as [|o ops IH]; intros d a O Hs; [eauto|].
  apply Forall_cons in Hs as [Ho Hs]. destruct (weighted_op t d a o O Hi Ho) as (a1 & O1 & Hw1 & Hx1).
  destruct (IH (run_op t d o) a1 O1 Hs) as (a' & O' & Hw' & Hx'). exists a'. cbn. split_and!; [done|eauto|].
  destruct (is_import o); [done|]. eauto.
Qed.

(** C15. A census with weights counts right, whatever was done to it.  A census that [New] makes is opened, and additions,
    batches and imports are tried on it in any order, each with its success or its error.  Then the tree is there,
    [GetCensusWeight] is the sum of the values of its leaves as long as this sum fits in 256 bits, [Size] is the number
    of its leaves, and [GetCensusIndex] is this number too when nothing was imported. *)
Theorem weighted_census_counts type h t d0 ops :
  type_hash type = Some h -> CT_New type false empty_census = (d0, Ok t) -> Forall small ops ->
  let d := run_ops t ops d0 in
  exists a, tree_of t d = Ok a /\
    (weight_sum (leaves a) < 2 ^ 256 -> GetCensusWeight d = weight_sum (leaves a)) /\
    (Z.of_nat (size (leaves a)) < 2 ^ 32 -> CT_Size t d = Ok (Z.of_nat (size (leaves a))) /\
      (forallb (fun o => negb (is_import o)) ops = true -> GetCensusIndex d = Z.of_nat (size (leaves a)))).
Proof.
  intros Hh Hnew Hs. cbv zeta. destruct (CT_New_empty type false h Hh) as (t1 & d1 & Hr & F & S & Hx & Hw & Hl).
  rewrite Hnew in Hr. injection Hr as <- <-. pose proof (fits_opened _ _ _ _ _ F S) as O.
  destruct (weighted_ops t ops d0 _ O (ft_indexed _ _ _ F) Hs) as (a & O' & Hw' & Hx'). exists a.
  split; [apply O'|]. rewrite GetCensusWeight_raw, GetCensusIndex_raw. split.
  - intros Hlt. apply Hw'; [|done]. intros _. by rewrite Hl.
  - intros Hlt. split.
    + unfold CT_Size. rewrite (op_tree _ _ _ O'). cbn. rewrite nleafs_size, u64_id by (unfold is_u64; lia). done.
    + intros Hni. rewrite (Hx' Hni); [rewrite u64_id, u32_id by (unfold is_u64, is_u32; lia); done| |done].
      intros _. by rewrite Hl, Hx.
Qed.

(** ** Indexed censuses *)

Lemma indexed_op t d a ks o :
  opened t d a -> indexAsKeysCensus t = true -> numbered ks a (cd_kv d) -> clean t d o ->
  Z.of_nat (List.length (ks ++ keys_of t d o)) < 2 ^ 32 ->
  exists a', opened t (run_op t d o) a' /\ numbered (ks ++ keys_of t d o) a' (cd_kv (run_op t d o)).
Proof.
  intros O Hi N Hc Hb. destruct o as [key value|keys values|dump]; cbn [run_op keys_of clean] in *; [subst value|destruct Hc as [-> Hinv]|done].
  - destruct (CT_Add t key None d) as [d' [[]|e|w]] eqn:Hr; cbn [fst snd is_ok] in *;
      [|by rewrite (in_tx_fails _ _ _ _ Hr eq_refl), app_nil_r; eauto..].
    rewrite length_app in Hb. cbn [List.length] in Hb.
    destruct (CT_Add_indexed _ _ _ _ _ _ O Hi N ltac:(lia) Hr) as (a' & _ & O' & N'). eauto.
  - destruct (CT_AddBatch t keys None d) as [d' [inv|e|w]] eqn:Hr; cbn [fst snd is_ok] in *;
      [|by rewrite (in_tx_fails _ _ _ _ Hr eq_refl), app_nil_r; eauto..].
    rewrite (Hinv inv eq_refl) in Hr. rewrite length_app in Hb.
    assert (Hb2 : Z.of_nat (List.length ks) + Z.of_nat (List.length keys) < 2 ^ 32) by lia.
    destruct (CT_AddBatch_numbered _ _ _ _ _ _ O Hi N Hb2 Hr) as (a' & O' & N'). eauto.
Qed.

Lemma indexed_ops t ops d a ks :
  opened t d a -> indexAsKeysCensus t = true -> numbered ks a (cd_kv d) -> all_clean t d ops ->
  Z.of_nat (List.length (ks ++ all_keys t d ops)) < 2 ^ 32 ->
  exists a', opened t (run_ops t ops d) a' /\ numbered (ks ++ all_keys t d ops) a' (cd_kv (run_ops t ops d)).
Proof.
  intros O Hi. revert d a ks O. induction ops as [|o ops IH]; intros d a ks O N Hc Hb.
  { cbn [all_keys]. rewrite app_nil_r. eauto. }
  destruct Hc as [Ho Hc]. cbn [all_keys] in *. rewrite app_assoc in *.
  destruct (indexed_op t d a ks o O Hi N Ho) as (a1 & O1 & N1); [rewrite length_app in Hb; lia|].
  apply (IH _ a1); done.
Qed.

Lemma numbered_new h l d : raw_index (cd_kv d) = 0 -> numbered [] (arbo_new h l) (cd_kv d).
Proof.
  intros Hx. split; [done|by rewrite leaves_new|done| |set_solver]. intros key k. by rewrite leaves_new, lookup_empty.
Qed.

(** The keys of a new indexed census after a history. *)
Lemma indexed_history type h t d0 ops :
  type_hash type = Some h -> CT_New type true empty_census = (d0, Ok t) -> all_clean t d0 ops ->
  Z.of_nat (List.length (all_keys t d0 ops)) < 2 ^ 32 ->
  exists a, opened t (run_ops t ops d0) a /\ indexAsKeysCensus t = true /\
    numbered (all_keys t d0 ops) a (cd_kv (run_ops t ops d0)).
Proof.
  intros Hh Hnew Hc Hb. destruct (CT_New_empty type true h Hh) as (t1 & d1 & Hr & F & S & Hx & _ & _).
  rewrite Hnew in Hr. injection Hr as <- <-. pose proof (fits_opened _ _ _ _ _ F S) as O. pose proof (ft_indexed _ _ _ F) as Hi.
  destruct (indexed_ops t ops d0 _ [] O Hi (numbered_new _ _ _ Hx) Hc Hb) as (a & O' & N). eauto.
Qed.

Lemma get_leaf t d a key v : opened t d a -> CT_Get t key d = Ok v <-> leaves a !! key = Some v.
Proof.
  intros O. unfold CT_Get. rewrite (op_tree _ _ _ O). cbn. destruct (leaves a !! key) as [v'|] eqn:E.
  - rewrite (get_found _ _ _ E). cbn. naive_solver.
  - destruct (get_error _ _ E) as [e ->]. done.
Qed.

(** C16. An indexed census is the list of its keys.  Additions and batches without values are tried, in any order, on a census
    that [New] made with the index as keys; those that answer an error add nothing.  Provided that nothing was imported
    and no batch that succeeded had keys that the tree refused ([all_clean]), and that there are less than 2^32 keys,
    the index and the size are the length of the list of the keys that were added, the leaf of each index is the key
    at this position, there are no other leaves, and every key has the index of one of its positions. *)
Theorem indexed_census_refines type h t d0 ops :
  type_hash type = Some h -> CT_New type true empty_census = (d0, Ok t) -> all_clean t d0 ops ->
  let d := run_ops t ops d0 in
  let ks := all_keys t d0 ops in
  Z.of_nat (List.length ks) < 2 ^ 32 ->
  GetCensusIndex d = Z.of_nat (List.length ks) /\ CT_Size t d = Ok (Z.of_nat (List.length ks)) /\
  (forall i k, ks !! i = Some k -> CT_Get t (LittleEndian_PutUint64 (Z.of_nat i)) d = Ok k) /\
  (forall key k, CT_Get t key d = Ok k -> exists i, ks !! i = Some k /\ key = LittleEndian_PutUint64 (Z.of_nat i)) /\
  (forall k, k ∈ ks -> exists i, ks !! i = Some k /\ keyToIndex k d = Ok (LittleEndian_PutUint64 (Z.of_nat i))).
Proof.
  intros Hh Hnew Hc d ks Hb. destruct (indexed_history type h t d0 ops Hh Hnew Hc Hb) as (a & O & Hi & [Nx Ns Nl No Ne]).
  fold d ks in O, Nx, Ns, Nl, No, Ne. split_and!.
  - rewrite GetCensusIndex_raw, Nx, u64_id, u32_id by (unfold is_u64, is_u32; lia). done.
  - unfold CT_Size. rewrite (op_tree _ _ _ O). cbn. rewrite nleafs_size, Ns, u64_id by (unfold is_u64; lia). done.
  - intros i k Hik. by apply (get_leaf _ _ _ _ _ O), Nl.
  - intros key k Hk. by apply No, (get_leaf _ _ _ _ _ O).
  - intros k (i & Hik & He)%Ne. exists i. split; [done|]. unfold keyToIndex.
    change (censusKeysToIndexPrefix +:+ k) with (key_entry k). by rewrite He.
Qed.

(** The proofs of a census verify.  After any history of a new census, for every key of a census with weights, and for every
    key that was added to an indexed census of which nothing was imported and no batch had refused keys, [GenProof]
    answers the value and a proof which [VerifyProof] accepts, against the root of the census and when no root is given. *)
Theorem census_proofs_verify type indexed h t d0 ops :
  type_hash type = Some h -> CT_New type indexed empty_census = (d0, Ok t) -> Forall small ops ->
  (indexed = true -> all_clean t d0 ops /\ Z.of_nat (List.length (all_keys t d0 ops)) < 2 ^ 32) ->
  let d := run_ops t ops d0 in
  exists root, CT_Root t d = Ok root /\
  forall key value, (if indexed then key ∈ all_keys t d0 ops /\ value = key else CT_Get t key d = Ok value) ->
  exists siblings, CT_GenProof t key d = Ok (value, siblings) /\ CT_VerifyProof t key value siblings None d = Ok true /\
    CT_VerifyProof t key value siblings (Some root) d = Ok true.
Proof.
  intros Hh Hnew Hs Hc d.
  assert (exists a, opened t d a /\ indexAsKeysCensus t = indexed /\
            (indexed = true -> numbered (all_keys t d0 ops) a (cd_kv d))) as (a & O & Hi & N).
  { destruct indexed.
    - destruct (Hc eq_refl) as [Hcl Hb]. destruct (indexed_history type h t d0 ops Hh Hnew Hcl Hb) as (a & O & Hi & N). eauto.
    - destruct (CT_New_empty type false h Hh) as (t1 & d1 & Hr & F & S & _).
      rewrite Hnew in Hr. injection Hr as <- <-. pose proof (ft_indexed _ _ _ F) as Hi.
      destruct (weighted_ops t ops d0 _ (fits_opened _ _ _ _ _ F S) Hi Hs) as (a & O & _). by exists a. }
  exists (arbo_root a). split; [unfold CT_Root; by rewrite (op_tree _ _ _ O)|]. intros key value Hk. destruct indexed.
  - destruct Hk as [Hk ->]. by apply (proof_indexed t d a (all_keys t d0 ops) key key); auto.
  - apply proof_weighted; [done|done|]. by apply (get_leaf _ _ _ _ _ O).
Qed.

(** After a batch with keys that the tree refused, an indexed census may take no key any more.  The batch gave an index to
    all its keys, and the census index only grew by the number of keys that were added: when the next index is the one
    of a key of the batch that was added, every further [Add] is an error that leaves the census as it is. *)
Theorem batch_gap_blocks_adds type h t d0 ops keys d invalids :
  type_hash type = Some h -> CT_New type true empty_census = (d0, Ok t) -> all_clean t d0 ops ->
  Z.of_nat (List.length (all_keys t d0 ops)) + Z.of_nat (List.length keys) < 2 ^ 32 ->
  CT_AddBatch t keys None (run_ops t ops d0) = (d, Ok invalids) -> invalids <> [] ->
  (List.length keys - List.length invalids)%nat ∉ invalids ->
  forall key, exists e, CT_Add t key None d = (d, Err e).
Proof.
  intros Hh Hnew Hc Hb Hr Hne Hi key. destruct (indexed_history type h t d0 ops Hh Hnew Hc) as (a & O & Hix & N); [lia|].
  destruct (CT_AddBatch_indexed _ _ _ _ _ _ _ O Hix N Hb Hr) as (a' & Hbatch & O' & Hx & _).
  set (ks := all_keys t d0 ops) in *. set (i := (List.length keys - List.length invalids)%nat) in *.
  destruct (add_batch_leaves _ _ _ _ _ Hbatch) as (_ & _ & Hle & Hl & _). rewrite length_fmap, length_seq in Hle.
  destruct invalids as [|j invalids]; [done|]. cbn [List.length] in *.
  destruct (lookup_lt_is_Some_2 keys i) as [k Hk]; [lia|].
  apply (CT_Add_blocked t key d a' (List.length ks + i)%nat O' Hix); [lia|lia|].
  destruct (Hl i (slot (List.length ks + i))) as [_ Hv]; [|done|by eexists].
  rewrite list_lookup_fmap, lookup_seq_lt by lia. done.
Qed.
End census.

(** ** Requests *)

Section requests.
Context `{ArboLaws, EthCrypto, !ProofLibs, !ArboCensus, !ArboCensusLaws, !ArboIterBranch, !ApiLibs, !ApiLibsLaws}.

(** C28. The censuses of the API are well formed after any requests.  From an empty database, whatever requests come, with
    whatever tokens and answers, and whenever the service is restarted: every reference has an identifier of 32 octets
    and the tree of its census, with the hash function of its type and the right weight; the references in memory
    are those of the database, with a tree of the same kind; and nothing is left under other identifiers. *)
Theorem requests_keep_censuses rs : proper_all (mkURLAPI ∅ ∅ ∅) rs -> api_ok (served_all (mkURLAPI ∅ ∅ ∅) rs).
Proof. apply served_all_ok, api_ok_init. Qed.

(** C12. Only its token changes a census.  In a state that requests have reached, take a census and any further requests, with
    the restarts of the service, of which none has the token of the census: it is still there, with the same token and
    the same leaves.  A published census has no token, so nothing changes it. *)
Theorem census_needs_token rs rs' id data ix a :
  let u := served_all (mkURLAPI ∅ ∅ ∅) rs in
  proper_all (mkURLAPI ∅ ∅ ∅) (rs ++ rs') -> u_refs u !! id = Some data ->
  stored (CensusType data) ix (census_at id u) a ->
  (forall r t, r ∈ rs' -> request_token r = Some t -> AuthToken data <> Some t) ->
  exists data' ix' a', u_refs (served_all u rs') !! id = Some data' /\ AuthToken data' = AuthToken data /\
    stored (CensusType data') ix' (census_at id (served_all u rs')) a' /\ leaves a' = leaves a.
Proof.
  intros u Hp Hd S Htok. apply proper_all_app in Hp as [Hp1 Hp2]. pose proof (served_all_ok rs _ api_ok_init Hp1) as I.
  destruct (served_all_untouched id (AuthToken data) rs' u I Hp2) with (data := data) (ix := ix) (a := a)
    as (data' & a' & Hd' & Ht' & _ & S' & Hl); [intros data' Hd'; congruence|done|by eexists|done|done|].
  by exists data', ix, a'.
Qed.

(** C29. A key that was added to a census proves its weight.  In a state that requests have reached, a request with the token of a
    census with weights adds a key with a positive weight and is answered without error.  Whatever requests come then,
    with the restarts of the service, except imports and deletions with this token: the request for the proof of the
    key answers the weight and a proof, and the verification request accepts this proof for the key, without a root and
    with the root that the root request answers. *)
Theorem added_key_proves rs rs' token t cid id data a key kb weight w :
  let u := served_all (mkURLAPI ∅ ∅ ∅) rs in
  let u' := served_all u (RAdd token cid key weight :: rs') in
  proper_all (mkURLAPI ∅ ∅ ∅) (rs ++ RAdd token cid key weight :: rs') ->
  uuid_Parse token = inr t -> censusIDparse cid = Ok id -> censusKeyParse key = Ok kb ->
  weight <> "" -> censusWeightParse weight = Ok w -> 0 < w < 2 ^ 256 ->
  u_refs u !! id = Some data -> AuthToken data = Some t -> stored (CensusType data) false (census_at id u) a ->
  is_ok (serve (RAdd token cid key weight) u).2 = true -> Forall (mild t) rs' ->
  exists u1 msg u2 root,
    serve (RProof cid key) u' = (u1, Ok (SendCensus msg)) /\ CM_Weight msg = Some w /\
    serve (RRoot cid) u1 = (u2, Ok (SendCensus root)) /\
    forall given, given = None \/ given = Some (CM_Root root) ->
    exists u3 answer, serve (RVerify cid (Some kb) (Some (CM_Proof msg)) given (CM_Value msg)) u2 = (u3, Ok (SendCensus answer)) /\
      CM_Valid answer = true.
Proof.
  intros u u' Hp Ht Hid Hkey Hne Hw Hlt Hd Htok S Hok Hmild. apply proper_all_app in Hp as [Hp [Hpa Hp']].
  pose proof (served_all_ok rs _ api_ok_init Hp) as I.
  destruct (serve (RAdd token cid key weight) u) as [ua [r|e|x]] eqn:Hadd; [|discriminate Hok..].
  assert (Hua : served u (RAdd token cid key weight) = ua) by (unfold served; by rewrite Hadd).
  assert (Ia : api_ok ua) by (rewrite <- Hua; by apply (served_spares id _ _ Hpa)).
  destruct (add_run token cid t u id data a key kb weight w ua r) as (Hrefs & a1 & kh & v & S1 & Hh & Hv & Hvw); try done; [lia|].
  change (served_all u _) with (served_all (served u (RAdd token cid key weight)) rs') in u'.
  fold u in Hp'. subst u'. rewrite Hua in *.
  assert (Hd1 : u_refs ua !! id = Some data) by (by rewrite Hrefs).
  destruct (served_all_grows id t rs' ua data) with (data := data) (a := a1) as (a2 & Hd2 & S2 & Hl2); try done; [by eexists..|].
  assert (Hh2 : arbo_hash (hasher a2) kb = inr kh).
  { pose proof (sd_type _ _ _ _ S1) as E1. rewrite (sd_type _ _ _ _ S2) in E1. injection E1 as ->. done. }
  assert (Hvne : v <> "") by (intros ->; rewrite BytesToBigInt_empty in Hvw; lia).
  pose proof (served_all_ok rs' _ Ia Hp') as I'.
  destruct (proof_run cid (served_all ua rs') id data a2 key kb kh v) as (u1 & s & Hproof & I1 & Hs1 & Hc); try done;
    [by eapply lookup_weaken|].
  assert (S3 : stored (CensusType data) false (census_at id u1) a2) by (by apply (same_store_stored _ _ _ _ _ _ Hs1)).
  destruct (root_run cid u1 id data false a2) as (u2 & Hroot & I2 & Hs2); try done; [by rewrite (proj1 Hs1)|].
  eexists u1, _, u2, _. split_and!; [exact Hproof|by rewrite <- Hvw|exact Hroot|]. intros given Hgiven. cbn in Hgiven |- *.
  destruct (verify_run cid u2 id data a2 kb kh v s given) as [u3 Hv3]; try done;
    [by rewrite (proj1 Hs2), (proj1 Hs1)|by apply (same_store_stored _ _ _ _ _ _ Hs2)|].
  by eexists u3, _.
Qed.

(** C26. A census is published under its root.  When a request with the token of a census publishes it, and no census has its
    root as identifier, the answer has the root; the new census is public, has no token, the type of the first one,
    its leaves and its root, its weight when it has weights, and when it is indexed its numbering. *)
Theorem publish_correct storage token cid t u id data ix a dump :
  api_ok u -> uuid_Parse token = inr t -> censusIDparse cid = Ok id -> u_refs u !! id = Some data -> AuthToken data = Some t ->
  stored (CensusType data) ix (census_at id u) a -> Indexed data = ix -> u_refs u !! arbo_root a = None -> arbo_dump a = inr dump ->
  (ix = true -> exists ks kv, numbered ks a kv /\ Z.of_nat (List.length ks) < 2 ^ 32) ->
  exists u' msg a', censusPublishHandler storage token cid "" u = (u', Ok (SendCensus msg)) /\ CM_CensusID msg = arbo_root a /\
    u_refs u' = <[arbo_root a := mkRefData None (CensusType data) ix true]> (u_refs u) /\
    stored (CensusType data) ix (census_at (arbo_root a) u') a' /\ leaves a' = leaves a /\ arbo_root a' = arbo_root a /\
    (ix = false -> weight_sum (leaves a) < 2 ^ 256 -> GetCensusWeight (census_at (arbo_root a) u') = weight_sum (leaves a)) /\
    (ix = true -> forall ks kv, numbered ks a kv -> Z.of_nat (List.length ks) < 2 ^ 32 ->
       numbered ks a' (cd_kv (census_at (arbo_root a) u'))).
Proof.
  intros I Ht Hid Hd Htok S Hix Hn Hdump Hks.
  destruct (publish_run storage token cid t u id data ix a dump I Ht Hid Hd Htok S Hix Hn Hdump Hks)
    as (u' & msg & a' & Hr & Hm & I' & Hrefs & S' & Hl & Hroot & Hnum).
  exists u', msg, a'. split_and!; try done. intros Hf Hlt. rewrite GetCensusWeight_raw.
  assert (Hd' : u_refs u' !! arbo_root a = Some (mkRefData None (CensusType data) ix true)) by (rewrite Hrefs; apply lookup_insert_eq).
  destruct (ok_census _ I' _ _ Hd') as (_ & ix1 & a1 & S1 & Hw). destruct (stored_unique _ _ _ _ _ _ S' S1) as [-> ->].
  rewrite <- Hl. apply Hw; [done|]. by rewrite Hl.
Qed.

(** C30. What a census dumps, another imports.  The answer to a dump request with the token of a census is the body of an import
    request with the token of an empty census of the same type and kind: the import succeeds, and then the second
    census has the leaves and the root of the first one. *)
Theorem dump_import_roundtrip token1 cid1 t1 token2 cid2 t2 u id1 id2 data1 data2 ix a1 a2 dump :
  api_ok u ->
  uuid_Parse token1 = inr t1 -> censusIDparse cid1 = Ok id1 -> u_refs u !! id1 = Some data1 -> AuthToken data1 = Some t1 ->
  uuid_Parse token2 = inr t2 -> censusIDparse cid2 = Ok id2 -> u_refs u !! id2 = Some data2 -> AuthToken data2 = Some t2 ->
  CensusType data2 = CensusType data1 -> Indexed data2 = Indexed data1 ->
  stored (CensusType data1) ix (census_at id1 u) a1 -> stored (CensusType data2) ix (census_at id2 u) a2 ->
  leaves a2 = ∅ -> GetCensusIndex (census_at id2 u) = 0 -> raw_index (cd_kv (census_at id2 u)) < 2 ^ 32 ->
  arbo_dump a1 = inr dump ->
  (ix = true -> exists ks kv, numbered ks a1 kv /\ Z.of_nat (List.length ks) < 2 ^ 32) ->
  exists u1 body u2 a', censusDumpHandler token1 cid1 u = (u1, Ok (SendDump body)) /\
    censusImportHandler token2 cid2 (Ok body) u1 = (u2, Ok (SendNil HTTPstatusCodeOK)) /\
    stored (CensusType data2) ix (census_at id2 u2) a' /\ leaves a' = leaves a1 /\ arbo_root a' = arbo_root a1.
Proof.
  intros I Ht1 Hid1 Hd1 Htok1 Ht2 Hid2 Hd2 Htok2 Hty Hix S1 S2 Hl2 Hx Hlt Hdump Hks.
  destruct (dump_run token1 cid1 t1 u id1 data1 ix a1 dump I Ht1 Hid1 Hd1 Htok1 S1 Hdump) as (u1 & Hr1 & I1 & Hs).
  pose proof (proj2 (same_store_stored _ _ _ _ _ _ Hs) S2) as S2'.
  assert (Hraw : raw_index (cd_kv (census_at id2 u)) = 0).
  { rewrite GetCensusIndex_raw in Hx. pose proof (BytesToBigInt_range (default "" (cd_kv (census_at id2 u) !! censusIndexKey))).
    unfold raw_index in *. rewrite u64_id, u32_id in Hx by (unfold is_u64, is_u32; lia). done. }
  destruct (import_run token2 cid2 t2 u1 id2 data2 ix a2 a1 dump) as (u2 & a' & Hr2 & _ & S' & Hl & Hroot);
    try done; [|by rewrite (proj1 Hs)| | | |].
  - unfold decompressBytes, compressBytes. by rewrite zstd_magic, zstd_roundtrip.
  - destruct (proj2 Hs id2) as (_ & _ & ->); [done|]. rewrite Hraw. by vm_compute.
  - pose proof (sd_type _ _ _ _ S1) as E1. pose proof (sd_type _ _ _ _ S2) as E2. rewrite Hty in E2. congruence.
  - destruct (sd_tree _ _ _ _ S1) as (b & _ & ->). apply open_ok.
  - eexists u1, _, u2, a'. split; [exact Hr1|]. rewrite Hty, Hix in Hr2. done.
Qed.
End requests.

(** ** Witnesses *)

(** A run of which the answer is known. *)
Lemma run_answer {S A} (m : GoM S A) s a : (m s).2 = Ok a -> m s = ((m s).1, Ok a).
Proof. destruct (m s) as [s' o]. cbn. by intros ->. Qed.

Definition weighted_tree : CTree := mkCTree None false Census_ARBO_BLAKE2B (Some HashBlake2b) 32 false.
Definition weighted_db : CensusDB := (CT_New Census_ARBO_BLAKE2B false empty_census).1.
Definition indexed_tree : CTree := mkCTree None false Census_ARBO_POSEIDON (Some HashPoseidon) 32 true.
Definition indexed_db : CensusDB := (CT_New Census_ARBO_POSEIDON true empty_census).1.

Lemma weighted_new : CT_New Census_ARBO_BLAKE2B false empty_census = (weighted_db, Ok weighted_tree).
Proof. apply run_answer. reflexivity. Qed.
Lemma indexed_new : CT_New Census_ARBO_POSEIDON true empty_census = (indexed_db, Ok indexed_tree).
Proof. apply run_answer. reflexivity. Qed.

(** The second addition has a key that is there already. *)
Definition weighted_history : list census_op :=
  [OAdd "alice" (Some (be_bytes 32 5)); OAdd "alice" (Some (be_bytes 32 9));
   OAddBatch ["bob"; "alice"; "carol"] (Some [be_bytes 32 2; be_bytes 32 3; be_bytes 32 4]); OImport "dump"].

Definition weighted_final : CensusDB := run_ops weighted_tree weighted_history weighted_db.

Lemma weighted_small : Forall small weighted_history.
Proof. by repeat (apply Forall_cons; split). Qed.
Lemma weighted_sum a : tree_of weighted_tree weighted_final = Ok a -> weight_sum (leaves a) = 11.
Proof.
  assert (Hs : match tree_of weighted_tree weighted_final with Ok a => weight_sum (leaves a) | _ => 0 end = 11) by (vm_compute; reflexivity).
  generalize dependent (tree_of weighted_tree weighted_final). intros o Hs ->. exact Hs.
Qed.

Lemma weighted_census_counts_witness : GetCensusWeight weighted_final = 11.
Proof.
  destruct (weighted_census_counts Census_ARBO_BLAKE2B HashBlake2b weighted_tree weighted_db weighted_history eq_refl weighted_new
              weighted_small) as (a & Ha & Hw & _).
  pose proof (weighted_sum a Ha) as Hs. rewrite Hs in Hw. apply Hw. reflexivity.
Defined.

Definition indexed_history_ops : list census_op := [OAdd "alice" None; OAddBatch ["bob"; "carol"] None; OAdd "alice" None].
Definition indexed_final : CensusDB := run_ops indexed_tree indexed_history_ops indexed_db.

Lemma indexed_clean : all_clean indexed_tree indexed_db indexed_history_ops.
Proof.
  split; [reflexivity|]. split; [|by split]. split; [reflexivity|]. intros inv Hi.
  assert (Ok inv = Ok []) as [= ->]; [|reflexivity]. rewrite <- Hi. vm_compute. reflexivity.
Qed.

Lemma indexed_keys : all_keys indexed_tree indexed_db indexed_history_ops = ["alice"; "bob"; "carol"; "alice"].
Proof. vm_compute. reflexivity. Qed.

Lemma indexed_short : Z.of_nat (List.length (all_keys indexed_tree indexed_db indexed_history_ops)) < 2 ^ 32.
Proof. rewrite indexed_keys. reflexivity. Qed.
Lemma indexed_small : Forall small indexed_history_ops.
Proof. by repeat (apply Forall_cons; split). Qed.

Lemma indexed_census_refines_witness : CT_Get indexed_tree (LittleEndian_PutUint64 2) indexed_final = Ok "carol".
Proof.
  destruct (indexed_census_refines Census_ARBO_POSEIDON HashPoseidon indexed_tree indexed_db indexed_history_ops
              eq_refl indexed_new indexed_clean indexed_short) as (_ & _ & Hl & _).
  apply (Hl 2%nat). rewrite indexed_keys. reflexivity.
Defined.

Lemma census_proofs_verify_witness :
  exists s, CT_GenProof indexed_tree "bob" indexed_final = Ok ("bob", s) /\
    CT_VerifyProof indexed_tree "bob" "bob" s None indexed_final = Ok true.
Proof.
  destruct (census_proofs_verify Census_ARBO_POSEIDON true HashPoseidon indexed_tree indexed_db indexed_history_ops
              eq_refl indexed_new indexed_small (fun _ => conj indexed_clean indexed_short)) as (root & _ & Hp).
  destruct (Hp "bob" "bob") as (s & Hs & Hv & _); [|exact (ex_intro _ s (conj Hs Hv))].
  rewrite indexed_keys. split; [right; left|reflexivity].
Defined.

(** A batch of which the tree refuses the first key. *)
Definition gap_keys : list bytes := ["a key of more than thirty-two octets"; "dave"].
Definition gap_db : CensusDB := (CT_AddBatch indexed_tree gap_keys None indexed_final).1.

Lemma batch_gap_blocks_adds_witness : exists e, CT_Add indexed_tree "erin" None gap_db = (gap_db, Err e).
Proof.
  apply (batch_gap_blocks_adds Census_ARBO_POSEIDON HashPoseidon indexed_tree indexed_db indexed_history_ops gap_keys gap_db [0%nat]
           eq_refl indexed_new indexed_clean).
  - rewrite indexed_keys. reflexivity.
  - apply run_answer. vm_compute. reflexivity.
  - discriminate.
  - cbn. intros [E|Hin]%elem_of_cons; [discriminate E|inversion Hin].
Defined.

Definition id_a : bytes := "aaaaaaaaaaaaaaaaaaaaaaaaaaaaaaaa".
Definition id_b : bytes := "bbbbbbbbbbbbbbbbbbbbbbbbbbbbbbbb".
Definition token_a : string := "0123456789abcdef".
Definition token_b : string := "fedcba9876543210".
Definition no_censuses : URLAPI := mkURLAPI ∅ ∅ ∅.

(** Two censuses, of which the first one has a key. *)
Definition two_requests : list request :=
  [RCreate id_a token_a "weighted"; RCreate id_b token_b "weighted";
   RAdd token_a (hex_encode id_a) "00112233445566778899aabbccddeeff00112233" "7"].
Definition two_censuses : URLAPI := served_all no_censuses two_requests.
Definition weighted_data (token : string) : refData := mkRefData (Some token) Census_ARBO_BLAKE2B false false.

Lemma two_proper : proper_all no_censuses two_requests.
Proof. repeat split. Qed.
Lemma two_ok : api_ok two_censuses.
Proof. exact (served_all_ok _ _ api_ok_init two_proper). Qed.
Lemma two_ids id data : u_refs two_censuses !! id = Some data -> id = id_a \/ id = id_b.
Proof.
  intros Hd. apply elem_of_map_to_list in Hd. apply (list_elem_of_fmap_2 fst) in Hd.
  assert (E : (map_to_list (u_refs two_censuses)).*1 = [id_a; id_b]) by (vm_compute; reflexivity).
  rewrite E in Hd. cbn [fst] in Hd. by apply elem_of_cons in Hd as [->| ->%list_elem_of_singleton]; [left|right].
Qed.
Lemma two_ref_a : u_refs two_censuses !! id_a = Some (weighted_data token_a).
Proof. vm_compute. reflexivity. Qed.
Lemma two_ref_b : u_refs two_censuses !! id_b = Some (weighted_data token_b).
Proof. vm_compute. reflexivity. Qed.

(** What a stored census has, by its database. *)
Definition root_at (id : bytes) (u : URLAPI) : bytes := match cd_tree (census_at id u) with Some a => arbo_root a | None => "" end.
Definition leaves_at (id : bytes) (u : URLAPI) : gmap bytes bytes :=
  match cd_tree (census_at id u) with Some a => leaves a | None => ∅ end.

Lemma stored_at type ix id u a : stored type ix (census_at id u) a -> arbo_root a = root_at id u /\ leaves a = leaves_at id u.
Proof. intros [(a0 & Ha & ->) _ _]. unfold root_at, leaves_at. rewrite Ha. split; apply open_ok. Qed.

Lemma two_stored id data :
  u_refs two_censuses !! id = Some data -> cd_kv (census_at id two_censuses) !! isIndexAsKeysCensus = Some (mark_of false) ->
  exists a, stored (CensusType data) false (census_at id two_censuses) a.
Proof.
  intros Hd Hm. destruct (ok_census _ two_ok _ _ Hd) as (_ & ix & a & S & _). pose proof (sd_mark _ _ _ _ S) as E.
  rewrite Hm in E. assert (ix = false) as ->; [by destruct ix|]. eauto.
Qed.
Lemma two_stored_a : exists a, stored Census_ARBO_BLAKE2B false (census_at id_a two_censuses) a.
Proof. apply (two_stored id_a _ two_ref_a). vm_compute. reflexivity. Qed.
Lemma two_stored_b : exists a, stored Census_ARBO_BLAKE2B false (census_at id_b two_censuses) a.
Proof. apply (two_stored id_b _ two_ref_b). vm_compute. reflexivity. Qed.

Lemma two_root_a : u_refs two_censuses !! root_at id_a two_censuses = None.
Proof. vm_compute. reflexivity. Qed.
Lemma two_weight_a : weight_sum (leaves_at id_a two_censuses) = 7.
Proof. vm_compute. reflexivity. Qed.
Lemma two_root_b : u_refs two_censuses !! root_at id_b two_censuses = None.
Proof. vm_compute. reflexivity. Qed.

Lemma two_no_collision : no_collision two_censuses.
Proof.
  intros cid data ix a src Hd S Hsrc. assert (src = a) as ->.
  { destruct Hsrc as [->|[r Hr]]; [done|]. cbn in Hr. unfold census_set_root in Hr. case_bool_decide; [|done]. by injection Hr. }
  destruct (stored_at _ _ _ _ _ S) as [Hroot _]. intros data' ix' a' Hd'. exfalso. rewrite Hroot in Hd'.
  destruct (two_ids _ _ Hd) as [-> | ->].
  - by rewrite two_root_a in Hd'.
  - by rewrite two_root_b in Hd'.
Qed.

Lemma requests_keep_censuses_witness :
  api_ok (served_all no_censuses (two_requests ++ [RPublish None token_a (hex_encode id_a) ""; RRestart])).
Proof.
  apply requests_keep_censuses. pose proof two_no_collision as Hnc. destruct two_proper as (Hp1 & Hp2 & Hp3 & _).
  exact (conj Hp1 (conj Hp2 (conj Hp3 (conj Hnc (conj I I))))).
Defined.

(** Requests with another token, with no valid token, and without token. *)
Definition other_requests : list request :=
  [RAdd token_b (hex_encode id_a) "0011" "9"; RRestart; RDelete token_b (hex_encode id_a); RDelete "" (hex_encode id_a);
   RWeight (hex_encode id_a); RDelete token_b (hex_encode id_b); RCreate id_b token_b "zkindexed"].

Lemma census_needs_token_witness :
  exists data' ix' a', u_refs (served_all two_censuses other_requests) !! id_a = Some data' /\ AuthToken data' = Some token_a /\
    stored (CensusType data') ix' (census_at id_a (served_all two_censuses other_requests)) a' /\ weight_sum (leaves a') = 7.
Proof.
  destruct two_stored_a as [a S]. pose proof two_weight_a as Hw. rewrite <- (proj2 (stored_at _ _ _ _ _ S)) in Hw.
  destruct (census_needs_token two_requests other_requests id_a (weighted_data token_a) false a)
    as (data' & ix' & a' & Hd & Ht & S' & Hl); [| |exact S| |].
  - assert (Hfree : u_refs (served_all two_censuses (firstn 6 other_requests)) !! id_b = None) by (vm_compute; reflexivity).
    destruct two_proper as (Hp1 & Hp2 & Hp3 & _).
    exact (conj Hp1 (conj Hp2 (conj Hp3 (conj I (conj I (conj I (conj I (conj I (conj I (conj (conj eq_refl Hfree) I)))))))))).
  - exact two_ref_a.
  - intros r t Hr Ht [= <-]. repeat (apply elem_of_cons in Hr as [->|Hr]; [discriminate Ht|]). inversion Hr.
  - exists data', ix', a'. rewrite Hl. exact (conj Hd (conj Ht (conj S' Hw))).
Defined.

(** Two empty censuses; then a key is added to the first one, and more requests come, with its token and others. *)
Definition empty_requests : list request := [RCreate id_a token_a "weighted"; RCreate id_b token_b "weighted"].
Definition key_a : string := "00112233445566778899aabbccddeeff00112233".
Definition later_requests : list request :=
  [RAdd token_a (hex_encode id_a) "0011" "9"; RRestart; RDelete token_b (hex_encode id_a); RDelete token_b (hex_encode id_b);
   RAdd token_a (hex_encode id_a) key_a "8"; RDump token_a (hex_encode id_a)].

Lemma empty_proper : proper_all no_censuses empty_requests.
Proof. repeat split. Qed.
Lemma empty_ok : api_ok (served_all no_censuses empty_requests).
Proof. exact (served_all_ok _ _ api_ok_init empty_proper). Qed.
Lemma empty_stored_a : exists a, stored Census_ARBO_BLAKE2B false (census_at id_a (served_all no_censuses empty_requests)) a.
Proof.
  assert (Hd : u_refs (served_all no_censuses empty_requests) !! id_a = Some (weighted_data token_a)) by (vm_compute; reflexivity).
  assert (Hm : cd_kv (census_at id_a (served_all no_censuses empty_requests)) !! isIndexAsKeysCensus = Some (mark_of false))
    by (vm_compute; reflexivity).
  destruct (ok_census _ empty_ok _ _ Hd) as (_ & ix & a & S & _).
  pose proof (sd_mark _ _ _ _ S) as E. rewrite Hm in E. assert (ix = false) as ->; [by destruct ix|]. by exists a.
Qed.

Lemma added_key_proves_witness :
  exists u1 msg, serve (RProof (hex_encode id_a) key_a) (served_all two_censuses later_requests) = (u1, Ok (SendCensus msg)) /\
    CM_Weight msg = Some 7.
Proof.
  destruct empty_stored_a as [a S].
  destruct (added_key_proves empty_requests later_requests token_a token_a (hex_encode id_a) id_a (weighted_data token_a) a
              key_a (match hex_decode key_a with Some b => b | None => "" end) "7" 7)
    as (u1 & msg & _ & _ & Hr & Hw & _); [| | | |discriminate| | | | |exact S| | |].
  - destruct empty_proper as (Hp1 & Hp2 & _). exact (conj Hp1 (conj Hp2 (conj I (conj I (conj I (conj I (conj I (conj I (conj I I))))))))).
  - reflexivity.
  - reflexivity.
  - reflexivity.
  - reflexivity.
  - split; reflexivity.
  - vm_compute. reflexivity.
  - reflexivity.
  - vm_compute. reflexivity.
  - repeat (constructor; [first [exact I|discriminate]|]). constructor.
  - exists u1, msg. exact (conj Hr Hw).
Defined.

Lemma publish_correct_witness :
  exists u' msg, censusPublishHandler None token_a (hex_encode id_a) "" two_censuses = (u', Ok (SendCensus msg)) /\
    GetCensusWeight (census_at (CM_CensusID msg) u') = 7.
Proof.
  destruct two_stored_a as [a S]. pose proof two_weight_a as Hw. destruct (stored_at _ _ _ _ _ S) as [Hroot Hl]. rewrite <- Hl in Hw.
  destruct (publish_correct None token_a (hex_encode id_a) token_a two_censuses id_a (weighted_data token_a) false a
              (census_dump (cs_leaves a)) two_ok) as (u' & msg & a' & Hr & Hm & _ & _ & _ & _ & Hweight & _).
  - reflexivity.
  - reflexivity.
  - exact two_ref_a.
  - reflexivity.
  - exact S.
  - reflexivity.
  - rewrite Hroot. exact two_root_a.
  - reflexivity.
  - discriminate.
  - exists u', msg. split; [exact Hr|]. rewrite Hm, <- Hw. apply Hweight; [reflexivity|]. rewrite Hw. reflexivity.
Defined.

Lemma dump_import_roundtrip_witness :
  exists u1 body u2 a', censusDumpHandler token_a (hex_encode id_a) two_censuses = (u1, Ok (SendDump body)) /\
    censusImportHandler token_b (hex_encode id_b) (Ok body) u1 = (u2, Ok (SendNil HTTPstatusCodeOK)) /\
    stored Census_ARBO_BLAKE2B false (census_at id_b u2) a' /\ weight_sum (leaves a') = 7.
Proof.
  destruct two_stored_a as [a S], two_stored_b as [b Sb]. pose proof two_weight_a as Hw.
  destruct (stored_at _ _ _ _ _ S) as [Hroot Hl]. rewrite <- Hl in Hw. destruct (stored_at _ _ _ _ _ Sb) as [_ Hlb].
  assert (Hempty : leaves_at id_b two_censuses = ∅) by (vm_compute; reflexivity).
  assert (Hindex : raw_index (cd_kv (census_at id_b two_censuses)) = 0) by (vm_compute; reflexivity).
  destruct (dump_import_roundtrip token_a (hex_encode id_a) token_a token_b (hex_encode id_b) token_b two_censuses id_a id_b
              (weighted_data token_a) (weighted_data token_b) false a b (census_dump (cs_leaves a)) two_ok)
    as (u1 & body & u2 & a' & Hr1 & Hr2 & S' & Hl' & _).
  - reflexivity.
  - reflexivity.
  - exact two_ref_a.
  - reflexivity.
  - reflexivity.
  - reflexivity.
  - exact two_ref_b.
  - reflexivity.
  - reflexivity.
  - reflexivity.
  - exact S.
  - exact Sb.
  - rewrite Hlb. exact Hempty.
  - rewrite GetCensusIndex_raw, Hindex. reflexivity.
  - rewrite Hindex. reflexivity.
  - reflexivity.
  - discriminate.
  - exists u1, body, u2, a'. rewrite Hl'. exact (conj Hr1 (conj Hr2 (conj S' Hw))).
Defined.
