(* ===== verification/CensusManagerSpec.v ===== *)
(** * The census manager

    The properties of the manager of the censuses: who may change a census, what an imported census
    holds, and what an import that fails leaves behind. *)

From stdpp Require Import base option list strings gmap.
From Stdlib Require Import ZArith Lia.
From S2P Require Import Prelude GoMonad GoLib GoText External Ethereum Tree CensusTree CensusRuns CensusAPI.
From S2P Require Import CensusManager CensusManagerFacts Sample CensusSample.

Section spec.
Context `{ArboLaws, EthCrypto, !ProofLibs, !ArboCensus, !ArboCensusLaws}.

(** A request with its prefix, and the storage when it is served. *)
Record call := mkCall { c_storage : option Storage; c_request : APIrequest; c_prefix : string }.
Definition handle_calls (l : list call) (m : Manager) : Manager :=
  fold_left (fun m c => (Handler (c_storage c) (c_request c) (c_prefix c) m).1) l m.

(** C13. The requests of an account change only the censuses under its prefix.  Whatever requests are served, in any order
    and with any result, with prefixes that the name of an existing census does not begin with, that census has
    the namespace, the database and the tree in memory it had. *)
Theorem prefix_confines n calls m :
  Exists n m = true -> Forall (fun c => c_prefix c <> "" /\ String.prefix (c_prefix c) n = false) calls ->
  Exists n (handle_calls calls m) = true /\ same_at n m (handle_calls calls m).
Proof.
  intros He Hc. enough (same_at n m (handle_calls calls m)) as Hs.
  { split; [|done]. apply Exists_ns_of. rewrite (sa_ns _ _ _ Hs). by apply Exists_ns_of. }
  revert m He. induction Hc as [|c calls [Hne Hp] _ IH]; intros m He; [reflexivity|].
  assert (Hs : same_at n m (Handler (c_storage c) (c_request c) (c_prefix c) m).1).
  { apply (Handler_keep (same_at n) n); [done|done|done|]. intros. by apply publish_spares. }
  etrans; [exact Hs|]. apply IH. apply Exists_ns_of. rewrite (sa_ns _ _ _ Hs). by apply Exists_ns_of.
Qed.

(** A manager that was never started. *)
Definition new_manager : Manager := restarted (mkManager None ∅ ∅ (mkNamespaces "" []) ∅ [] 0 ∅).

Lemma run_steps_good `{!ArboSnapshotLaws} n steps m :
  has_slash n = false -> Forall slash_prefixed steps -> plain_all m -> authentic n m ->
  plain_all (run_steps steps m) /\ authentic n (run_steps steps m).
Proof.
  intros Hn Hs. revert m. induction Hs as [|s steps Hs _ IH]; intros m Hp Ha; [done|]. cbn.
  apply IH; [by apply plainly_step|]. by apply (authentic_step n s m).
Qed.

(** C14. A census that was imported is the one that its name says.  Of a new manager, after any requests of accounts, whose prefixes
    end in a slash, any imports that were put in the queue, with any answers of the storage, and any retries: a census
    without a slash in its name, once it is public, has its name, without 0x, as root; and this is the root
    that a request for it is answered. *)
Theorem imported_census_authentic `{!ArboSnapshotLaws} n steps key :
  has_slash n = false -> Forall slash_prefixed steps ->
  let m := run_steps steps (Start key new_manager).1 in
  (forall t, Trees m !! n = Some t -> CT_IsPublic t = true -> exists root, CT_Root t (db_of n m) = Ok root /\ hex_encode root = TrimHex n) /\
  (forall st r prefix m' resp, Method r = "getRoot" -> TrimHex (R_CensusID r) = n -> Handler st r prefix m = (m', Ok resp) ->
     hex_encode (A_Root resp) = TrimHex n).
Proof.
  intros Hn Hs m. destruct (run_steps_good n steps (Start key new_manager).1 Hn Hs) as [_ Ha]; [done|done|]. fold m in Ha. split.
  - intros t Ht Hp. by apply Ha.
  - intros st r prefix m' resp Hr Hid Hh. destruct (getRoot_answer st r prefix m m' resp Hr Hh) as (t & Ht & Hp & Hroot). rewrite Hid in *.
    destruct (Ha t Ht Hp) as (_ & root & Hroot' & Hx). rewrite Hroot in Hroot'. injection Hroot' as <-. done.
Qed.

(** C27. A published census is imported by another manager.  When the storage answers to an import that was never tried with
    the dump of a census, under its root, the census is public afterwards, with the root and the leaves of the
    original; further imports of it do nothing. *)
Theorem good_import_served cid uri st dump h src m :
  Exists cid m = false -> db_of cid m = empty_census -> uri_path st uri = Ok (bdrop (String.length (URIprefix st)) uri) ->
  Retrieve st (bdrop (String.length (URIprefix st)) uri) = inr (Some dump) ->
  type_hash (D_Type dump) = Some h -> arbo_dump src = inr (D_Data dump) -> D_Data dump <> "" -> D_RootHash dump = arbo_root src ->
  levels src = nLevels -> hasher src = h -> TrimHex cid = hex_encode (arbo_root src) ->
  exists m' t b, handleImport (Some st) (mkCensusImport cid uri) m = (m', Ok tt) /\ Trees m' !! cid = Some t /\ CT_IsPublic t = true /\
    CT_Root t (db_of cid m') = Ok (arbo_root src) /\ cd_tree (db_of cid m') = Some b /\ leaves b = leaves src /\
    (forall st' uri', handleImport st' (mkCensusImport cid uri') m' = (m', Ok tt)).
Proof.
  intros He Hdb Hu Hret Hh Hdump Hne Hrh Hlev Hhash Hid. set (m1 := set_queueSize (queueSize m + 1) m).
  destruct (ImportDump_good cid (D_Type dump) h (D_Data dump) m1 src He Hdb Hh Hdump Hlev Hhash) as (m2 & t & b & Hr & He2 & Ht & Hp & Hroot & Hd & Hl).
  exists (set_queueSize (queueSize m2 + -1) m2), t, b. split_and!; try done.
  - unfold handleImport. rewrite (bind_run_Ok get _ m m m eq_refl). cbv beta. cbn [ci_censusID ci_censusURI]. rewrite He.
    rewrite (bind_run_Ok (queueAdd 1) _ m m1 tt eq_refl). cbv beta. unfold retrieve. rewrite Hu.
    rewrite (bind_run_Ok _ _ m1 m1 (inr (Some dump))) by (rewrite (bind_run_Ok (lift (Ok _)) _ _ _ _ eq_refl); cbv beta; by rewrite Hret). cbv beta iota.
    rewrite (bind_run_Ok (catch _) _ m1 m2 (inr tt)); [done|]. unfold importTree. rewrite Hrh, Hid.
    rewrite (bool_decide_eq_false_2 _ Hne), bool_decide_eq_true_2 by done. cbn [negb].
    unfold catch at 1. do 2 (rewrite (bind_run_Ok (reject false _) _ m1 m1 tt eq_refl); cbv beta).
    by rewrite (bind_run_Ok (catch _) _ m1 m2 (inr tt)) by (unfold catch; by rewrite Hr).
  - intros st' uri'. unfold handleImport. rewrite (bind_run_Ok get _ _ _ _ eq_refl). cbv beta. cbn [ci_censusID].
    replace (Exists cid (set_queueSize (queueSize m2 + -1) m2)) with true by (symmetry; exact He2). done.
Qed.

(** C40. An import that fails blocks the census and a restart publishes what it left.  When the storage answers with a
    dump that has the root of the census but that the tree does not take, the namespace stays without a public census:
    later imports of the census are skipped whatever the storage answers, and every request on it is refused; after a
    restart the census is public, with the root of the tree without the dump. *)
Theorem failed_import_blocks cid uri st dump h e m :
  Exists cid m = false -> uri_path st uri = Ok (bdrop (String.length (URIprefix st)) uri) ->
  Retrieve st (bdrop (String.length (URIprefix st)) uri) = inr (Some dump) ->
  hex_encode (D_RootHash dump) = TrimHex cid -> D_Data dump <> "" -> type_hash (D_Type dump) = Some h ->
  arbo_import_dump (arbo_open h nLevels (load_tree h (db_of cid m))) (D_Data dump) = inl e ->
  Forall (fun ns => NS_Version ns = CurrentCensusVersion) (NS_List (Census m)) ->
  exists m', handleImport (Some st) (mkCensusImport cid uri) m = (m', Ok tt) /\
    (forall st' uri', handleImport st' (mkCensusImport cid uri') m' = (m', Ok tt)) /\
    (forall st' r prefix, TrimHex (R_CensusID r) = cid -> Method r <> "addCensus" -> Method r <> "getCensusList" ->
       Handler st' r prefix m' = (m', Err (Errorf "census not yet published"))) /\
    (forall key, exists m'' t, Start key (restarted m') = (m'', Ok tt) /\ Trees m'' !! cid = Some t /\ CT_IsPublic t = true /\
       CT_Root t (db_of cid m'') = Ok (arbo_root (load_tree h (db_of cid m)))).
Proof.
  intros He Hu Hret Hx Hne Hh Hi Hv. destruct (handleImport_fails cid uri st dump h e m He Hu Hret Hx Hne Hh Hi) as (m' & t & Hr & A).
  exists m'. split; [exact Hr|]. split_and!.
  - intros st' uri'. unfold handleImport. rewrite (bind_run_Ok get _ m' m' m' eq_refl). cbv beta. cbn [ci_censusID].
    by rewrite (ad_exists _ _ _ _ _ _ A).
  - intros st' r prefix Hid Hm1 Hm2. unfold Handler. cbn [Method R_CensusID trim_id]. rewrite Hid. do 2 (rewrite bool_decide_eq_false_2 by done).
    rewrite (bind_run_Ok get _ m' m' m' eq_refl). cbv beta. rewrite (ad_exists _ _ _ _ _ _ A).
    rewrite (bind_run_Ok (reject false _) _ m' m' tt eq_refl). cbv beta.
    rewrite (ad_tree _ _ _ _ _ _ A), lookup_insert_eq. unfold CT_IsPublic. by rewrite (ad_public _ _ _ _ _ _ A).
  - intros key. destruct (ad_versions _ _ _ _ _ _ A) as (ns & Hl & Hnv & Hnn & Hnt).
    destruct (Start_loads cid (D_Type dump) h (NS_List (Census m)) ns key m') as (m'' & t' & Hs & Ht & Hp & Hroot); try done.
    + apply A.
    + apply Forall_app. split; [done|]. by constructor.
    + by apply Exists_names.
    + exists m'', t'. split_and!; [done|done|done|]. rewrite Hroot. unfold load_tree. by rewrite (ad_db _ _ _ _ _ _ A).
Qed.

(** An import with another root keeps the census from ever being imported: its leaves stay in the database, and nothing is
    imported over them. *)
Theorem wrong_root_poisons cid type h root data b m :
  Exists cid m = false -> cid <> "" -> type_hash type = Some h ->
  arbo_import_dump (arbo_open h nLevels (load_tree h (db_of cid m))) data = inr b -> leaves b <> ∅ -> arbo_root b <> root ->
  exists m' e, Manager_ImportDump cid type root data m = (m', Err e) /\ Exists cid m' = false /\
    forall type' root' data', exists m'' e', Manager_ImportDump cid type' root' data' m' = (m'', Err e').
Proof.
  intros He Hne Hh Hi Hl Hroot. destruct (ImportDump_other_root cid type h root data m b He Hne Hh Hi Hroot) as (m' & e & Hr & He' & Hd).
  exists m', e. split_and!; [done|done|]. intros. by eapply ImportDump_over.
Qed.
End spec.

(** The name of an entry is a cleaned path, so that two keys may have the same entry. *)
Lemma key_index_shared : keyCensusKeyIndex "census" "a//b" = keyCensusKeyIndex "census" "a/b".
Proof. vm_compute. reflexivity. Qed.

(** ** Samples *)

#[export] Instance census_ArboSnapshotLaws : ArboSnapshotLaws.
Proof. intros t r t'. cbn. unfold census_set_root. case_bool_decide; [|done]. by intros [= <-]. Qed.

Definition request_of (method id : string) (key : option bytes) : APIrequest :=
  mkAPIrequest method id Census_ARBO_BLAKE2B [] key [] None None [] true "" "" "" "".

(** The account [aa] has a census with a key. *)
Definition started : Manager := (Start "" new_manager).1.
Definition with_census : Manager :=
  handle_calls [mkCall None (request_of "addCensus" "x" None) "aa/"; mkCall None (request_of "addClaim" "aa/x" (Some "key")) "aa/"] started.

(** Another account tries to add a key to it, and makes its own. *)
Definition other_calls : list call :=
  [mkCall None (request_of "addClaim" "aa/x" (Some "mine")) "bb/"; mkCall None (request_of "addCensus" "y" None) "bb/";
   mkCall None (request_of "addClaim" "bb/y" (Some "mine")) "bb/"].

Definition size_of (name : string) (m : Manager) : Z := GetCensusWeight (db_of name m).

Lemma prefix_confines_witness :
  Exists "aa/x" (handle_calls other_calls with_census) = true /\ same_at "aa/x" with_census (handle_calls other_calls with_census) /\
  size_of "aa/x" with_census = 1 /\ size_of "bb/y" (handle_calls other_calls with_census) = 1.
Proof.
  assert (Hs : size_of "aa/x" with_census = 1 /\ size_of "bb/y" (handle_calls other_calls with_census) = 1) by (vm_compute; split; reflexivity).
  destruct (prefix_confines "aa/x" other_calls with_census) as [He Hsame].
  - vm_compute. reflexivity.
  - repeat constructor; discriminate.
  - exact (conj He (conj Hsame Hs)).
Defined.

(** A census with a key, as it is published. *)
Definition dumped_tree : @arbo census_Arbo := mkCensusTree {["key" := "v"]} 256 HashBlake2b.
Definition good_dump : Dump := mkDump Census_ARBO_BLAKE2B (census_root dumped_tree) (census_dump (cs_leaves dumped_tree)).
Definition dump_id : string := hex_encode (census_root dumped_tree).
Definition storage_of (d : Dump) : Storage := mkStorage "ipfs://" (fun _ => inr (Some d)) (fun _ => inl (Errorf "read only")).
Definition import_steps : list step :=
  [SRequest None (request_of "addCensus" "x" None) "aa/"; SQueue dump_id "ipfs://d"; SImport (Some (storage_of good_dump))].

Lemma imported_census_authentic_witness :
  let m := run_steps import_steps (Start "" new_manager).1 in
  exists t root, Trees m !! dump_id = Some t /\ CT_IsPublic t = true /\ CT_Root t (db_of dump_id m) = Ok root /\ hex_encode root = TrimHex dump_id.
Proof.
  intros m. assert (Hb : match Trees m !! dump_id with Some t => CT_IsPublic t | None => false end = true) by (vm_compute; reflexivity).
  destruct (imported_census_authentic dump_id import_steps "") as [Ha _].
  - vm_compute. reflexivity.
  - repeat constructor.
  - fold m in Ha. destruct (Trees m !! dump_id) as [t|] eqn:Ht; [|discriminate Hb]. destruct (Ha t eq_refl Hb) as (root & Hr & Hx).
    exists t, root. exact (conj eq_refl (conj Hb (conj Hr Hx))).
Defined.

Lemma good_import_served_witness :
  exists m' t b, handleImport (Some (storage_of good_dump)) (mkCensusImport dump_id "ipfs://d") started = (m', Ok tt) /\
    Trees m' !! dump_id = Some t /\ CT_IsPublic t = true /\ CT_Root t (db_of dump_id m') = Ok (census_root dumped_tree) /\
    cd_tree (db_of dump_id m') = Some b /\ leaves b = {["key" := "v"]}.
Proof.
  destruct (good_import_served dump_id "ipfs://d" (storage_of good_dump) good_dump HashBlake2b dumped_tree started) as (m' & t & b & Hr & Ht & Hp & Hroot & Hd & Hl & _).
  - vm_compute. reflexivity.
  - reflexivity.
  - reflexivity.
  - reflexivity.
  - reflexivity.
  - reflexivity.
  - vm_compute. discriminate.
  - reflexivity.
  - reflexivity.
  - reflexivity.
  - vm_compute. reflexivity.
  - exists m', t, b. exact (conj Hr (conj Ht (conj Hp (conj Hroot (conj Hd Hl))))).
Defined.

(** A dump with the right root whose data is broken. *)
Definition broken_dump : Dump := mkDump Census_ARBO_BLAKE2B (census_root dumped_tree) "?".

Lemma failed_import_blocks_witness :
  exists m', handleImport (Some (storage_of broken_dump)) (mkCensusImport dump_id "ipfs://d") started = (m', Ok tt) /\
    handleImport (Some (storage_of good_dump)) (mkCensusImport dump_id "ipfs://d") m' = (m', Ok tt) /\
    exists m'' t, Start "" (restarted m') = (m'', Ok tt) /\ Trees m'' !! dump_id = Some t /\ CT_IsPublic t = true /\
      CT_Root t (db_of dump_id m'') = Ok (zeros 32) /\ hex_encode (zeros 32) <> dump_id.
Proof.
  assert (Hz : hex_encode (zeros 32) <> dump_id) by (vm_compute; discriminate).
  destruct (failed_import_blocks dump_id "ipfs://d" (storage_of broken_dump) broken_dump HashBlake2b (Errorf "invalid dump") started) as (m' & Hr & Hskip & _ & Hstart).
  - vm_compute. reflexivity.
  - reflexivity.
  - reflexivity.
  - vm_compute. reflexivity.
  - discriminate.
  - reflexivity.
  - vm_compute. reflexivity.
  - constructor.
  - destruct (Hstart "") as (m'' & t & Hs & Ht & Hp & Hroot). exists m'. split; [exact Hr|]. split; [exact (Hskip _ _)|].
    exists m'', t. exact (conj Hs (conj Ht (conj Hp (conj Hroot Hz)))).
Defined.

(** A dump with the right root and the data of another census, then the right one. *)
Definition false_tree : @arbo census_Arbo := mkCensusTree {["other" := "v"]} 256 HashBlake2b.
Definition false_dump : bytes := census_dump (cs_leaves false_tree).

Lemma wrong_root_poisons_witness :
  exists m' e, Manager_ImportDump dump_id Census_ARBO_BLAKE2B (census_root dumped_tree) false_dump started = (m', Err e) /\
    Exists dump_id m' = false /\
    exists m'' e', Manager_ImportDump dump_id Census_ARBO_BLAKE2B (census_root dumped_tree) (D_Data good_dump) m' = (m'', Err e').
Proof.
  destruct (wrong_root_poisons dump_id Census_ARBO_BLAKE2B HashBlake2b (census_root dumped_tree) false_dump
              false_tree started) as (m' & e & Hr & He & Hagain).
  - vm_compute. reflexivity.
  - vm_compute. discriminate.
  - reflexivity.
  - vm_compute. reflexivity.
  - discriminate.
  - vm_compute. discriminate.
  - exists m', e. exact (conj Hr (conj He (Hagain _ _ _))).
Defined.
