(* ===== verification/BearerSpec.v ===== *)
(** * Bearer authorization: quotas

    What the credits of a token are worth: to requests that come one after the other, and to
    requests that come at the same time. *)

From stdpp Require Import base option list strings gmap relations.
From Stdlib Require Import ZArith Lia.
From S2P Require Import Prelude GoMonad GoLib BearerAPI.

(** ** One after the other *)

Notation http_request := (AuthAccessType * string)%type.

Definition quota_noCredits : error := Errorf "no more requests available".

Fixpoint route_all (reqs : list http_request) (b : BearerStandardAPI) : BearerStandardAPI * list (http_request * outcome routed) :=
  match reqs with
  | [] => (b, [])
  | r :: reqs =>
      let '(b1, o) := routerHandler r.1 r.2 b in
      let '(b2, os) := route_all reqs b1 in (b2, (r, o) :: os)
  end.

Definition uses_quota (token : string) (r : http_request) : bool :=
  bool_decide (r.1 = AccessTypeQuota) && bool_decide (ProcessData r.2 = token).

(** The answers to the requests that use the quota of a token, in their order. *)
Definition quota_answers (token : string) (os : list (http_request * outcome routed)) : list (outcome routed) :=
  omap (fun ro => if uses_quota token ro.1 then Some ro.2 else None) os.

Lemma quota_answers_cons token r o os :
  quota_answers token ((r, o) :: os) = if uses_quota token r then o :: quota_answers token os else quota_answers token os.
Proof. unfold quota_answers. cbn. by destruct (uses_quota token r). Qed.

Lemma quota_use token authorization n b :
  ProcessData authorization = token -> authTokens b !! token = Some n ->
  routerHandler AccessTypeQuota authorization b =
  if n <? 1 then (b, Ok (Unauthorized quota_noCredits))
  else (set_authTokens (<[token := n - 1]> (authTokens b)) b, Ok (Handled token)).
Proof.
  intros Hp Hn. unfold routerHandler, catch, AuthorizeRequest. rewrite Hp. unfold mbind, gom_bind. cbn. rewrite Hn.
  by destruct (n <? 1).
Qed.

Lemma quota_other token r n b :
  uses_quota token r = false -> authTokens b !! token = Some n ->
  authTokens (routerHandler r.1 r.2 b).1 !! token = Some n.
Proof.
  destruct r as [ty auth]. unfold uses_quota, routerHandler, AuthorizeRequest. cbn [fst snd]. intros Hu Hn.
  unfold catch, mbind, gom_bind. destruct ty; generalize dependent (ProcessData auth); intros tok Hu; cbn.
  - done.
  - destruct (authTokens b !! tok) as [m|] eqn:Hm; [|done]. destruct (m <? 1); [done|]. cbn.
    rewrite lookup_insert_ne; [done|]. intros E. by rewrite !bool_decide_true in Hu.
  - by destruct (bool_decide (authTokens b !! tok = None)).
  - by destruct (bool_decide (tok = adminToken b)).
Qed.

(** C38. The credits of a token pay for as many requests.  Requests of any kind and with any token come one after the other, while a
    token has [n] credits: of those that use its quota the first [n] reach their handler, all others are refused,
    and the credits that are left are those that were not used. *)
Theorem quota_exact token n reqs b :
  0 <= n -> authTokens b !! token = Some n ->
  let '(b', os) := route_all reqs b in
  let k := List.length (quota_answers token os) in
  let m := Nat.min (Z.to_nat n) k in
  quota_answers token os = replicate m (Ok (Handled token)) ++ replicate (k - m) (Ok (Unauthorized quota_noCredits)) /\
  k = List.length (List.filter (uses_quota token) reqs) /\ GetAuthTokens token b' = n - Z.of_nat m.
Proof.
  revert n b. induction reqs as [|r reqs IH]; intros n b Hn Hb.
  { cbn. unfold GetAuthTokens. rewrite Hb, Nat.min_0_r. split_and!; [done|done|cbn; lia]. }
  cbn [route_all List.filter]. destruct (uses_quota token r) eqn:Hu.
  - unfold uses_quota in Hu. apply andb_true_iff in Hu as [Hty%bool_decide_eq_true Htok%bool_decide_eq_true].
    rewrite Hty, (quota_use token _ n b Htok Hb). assert (Hq : uses_quota token r = true).
    { unfold uses_quota. by rewrite !bool_decide_true. }
    destruct (Z.ltb_spec n 1).
    + specialize (IH n b Hn Hb). destruct (route_all reqs b) as [b' os]. rewrite quota_answers_cons, Hq. cbn [List.length].
      generalize dependent (quota_answers token os). intros l (Ho & Hk & Hc). assert (n = 0) as -> by lia.
      change (Z.to_nat 0) with 0%nat in *. rewrite !Nat.min_0_l, ?Nat.sub_0_r in *. cbn [replicate app] in *.
      split_and!; [by f_equal|by f_equal|done].
    + assert (Hb1 : authTokens (set_authTokens (<[token:=n - 1]> (authTokens b)) b) !! token = Some (n - 1)) by apply lookup_insert_eq.
      specialize (IH (n - 1) _ ltac:(lia) Hb1). destruct (route_all reqs _) as [b' os]. rewrite quota_answers_cons, Hq. cbn [List.length].
      generalize dependent (quota_answers token os). intros l (Ho & Hk & Hc).
      replace (Z.to_nat n) with (S (Z.to_nat (n - 1))) by lia. cbn [Nat.min Nat.sub replicate app].
      split_and!; [by f_equal|by f_equal|rewrite Hc; lia].
  - pose proof (quota_other token r n b Hu Hb) as Hb1. destruct (routerHandler r.1 r.2 b) as [b1 o]. cbn [fst] in Hb1.
    specialize (IH n b1 Hn Hb1). destruct (route_all reqs b1) as [b' os]. by rewrite quota_answers_cons, Hu.
Qed.

(** ** At the same time *)

(** A request that is alone takes its two steps at once. *)
Lemma quota_alone token authorization b b' o :
  ProcessData authorization = token -> routerHandler AccessTypeQuota authorization b = (b', Ok o) ->
  match o with
  | Handled _ => exists n, quota_step token (b, Waiting) (b, Loaded n) /\ quota_step token (b, Loaded n) (b', Served)
  | Unauthorized _ => quota_step token (b, Waiting) (b', Refused)
  end.
Proof.
  intros Hp. destruct (authTokens b !! token) as [n|] eqn:Hn.
  - rewrite (quota_use _ _ _ _ Hp Hn). destruct (Z.ltb_spec n 1); intros [= <- <-].
    + apply quota_refuse. intros m Hm. rewrite Hn in Hm. by injection Hm as <-.
    + exists n. split; [by apply quota_load|apply quota_store].
  - unfold routerHandler, catch, AuthorizeRequest. rewrite Hp. unfold mbind, gom_bind. cbn. rewrite Hn. intros [= <- <-].
    apply quota_refuse. intros m Hm. by rewrite Hn in Hm.
Qed.

Lemma race_loads token n b j k rs :
  authTokens b !! token = Some n -> 1 <= n ->
  rtc (quota_steps token) (b, replicate j (Loaded n) ++ replicate k Waiting ++ rs) (b, replicate (j + k) (Loaded n) ++ rs).
Proof.
  intros Hn Hle. revert j. induction k as [|k IH]; intros j; [by rewrite Nat.add_0_r|].
  eapply rtc_l; [|rewrite Nat.add_succ_r, <- Nat.add_succ_l; apply IH].
  pose proof (quota_one token b b (replicate j (Loaded n) ++ replicate (S k) Waiting ++ rs) j Waiting (Loaded n)) as Hs.
  rewrite insert_app_r_alt, length_replicate, Nat.sub_diag in Hs by (by rewrite length_replicate).
  rewrite (replicate_S_end j), <- app_assoc. apply Hs; [|by apply quota_load].
  by rewrite lookup_app_r, length_replicate, Nat.sub_diag by (by rewrite length_replicate).
Qed.

Lemma race_stores token n b j k :
  authTokens b !! token = Some (n - 1) ->
  rtc (quota_steps token) (b, replicate j Served ++ replicate k (Loaded n)) (b, replicate (j + k) Served).
Proof.
  intros Hn. revert j. induction k as [|k IH]; intros j; [by rewrite Nat.add_0_r, app_nil_r|].
  eapply rtc_l; [|rewrite Nat.add_succ_r, <- Nat.add_succ_l; apply IH].
  assert (Hb : set_authTokens (<[token := n - 1]> (authTokens b)) b = b) by (destruct b; unfold set_authTokens; cbn in *; by rewrite insert_id).
  pose proof (quota_one token b b (replicate j Served ++ replicate (S k) (Loaded n)) j (Loaded n) Served) as Hs.
  rewrite insert_app_r_alt, length_replicate, Nat.sub_diag in Hs by (by rewrite length_replicate).
  rewrite (replicate_S_end j), <- app_assoc. apply Hs.
  - by rewrite lookup_app_r, length_replicate, Nat.sub_diag by (by rewrite length_replicate).
  - rewrite <- Hb at 2. apply quota_store.
Qed.

(** Requests that come at the same time do not pay for each other.  [AuthorizeRequest] loads the credits of a token and stores one
    less in two steps.  Any number of requests with a token that has at least one credit can all load before
    one of them stores: then they all reach their handler, and they cost one credit together. *)
Theorem quota_race token n k b :
  authTokens b !! token = Some n -> 1 <= n -> (0 < k)%nat ->
  exists b', rtc (quota_steps token) (b, replicate k Waiting) (b', replicate k Served) /\ GetAuthTokens token b' = n - 1.
Proof.
  intros Hn Hle Hk. set (b' := set_authTokens (<[token := n - 1]> (authTokens b)) b).
  assert (Hb' : authTokens b' !! token = Some (n - 1)) by apply lookup_insert_eq.
  exists b'. split; [|unfold GetAuthTokens; by rewrite Hb'].
  pose proof (race_loads token n b 0 k [] Hn Hle) as Hload. cbn [replicate app Nat.add] in Hload. rewrite !app_nil_r in Hload.
  etrans; [exact Hload|]. destruct k as [|k]; [lia|].
  eapply rtc_l; [|exact (race_stores token n b' 1 k Hb')].
  exact (quota_one token b b' (replicate (S k) (Loaded n)) 0 (Loaded n) Served eq_refl (quota_store token b n)).
Qed.

(** ** The admin token *)

(** Until an admin token is set, it is the empty token of a request without authorization. *)
Lemma admin_token_unset base b :
  NewBearerStandardAPI base = Ok b -> routerHandler AccessTypeAdmin "" b = (b, Ok (Handled "")).
Proof.
  unfold NewBearerStandardAPI. destruct (starts_with_slash base); cbn; [|done]. by intros [= <-].
Qed.

(** ** Witnesses *)

Definition bearer_sample : BearerStandardAPI := mkBearerStandardAPI "/api" {["tok" := 2]} "admin".

Definition bearer_requests : list http_request :=
  [(AccessTypeQuota, "Bearer tok"); (AccessTypePrivate, "Bearer tok"); (AccessTypeQuota, "Bearer tok");
   (AccessTypeQuota, "tok"); (AccessTypeQuota, "")].

Lemma quota_exact_witness :
  quota_answers "tok" (route_all bearer_requests bearer_sample).2 =
  [Ok (Handled "tok"); Ok (Handled "tok"); Ok (Unauthorized quota_noCredits)].
Proof.
  pose proof (quota_exact "tok" 2 bearer_requests bearer_sample ltac:(lia) eq_refl) as Hq.
  destruct (route_all bearer_requests bearer_sample) as [b' os]. cbv zeta in Hq. destruct Hq as (Hq & Hk & _).
  cbn [snd]. rewrite Hq, Hk. reflexivity.
Defined.

Lemma quota_race_witness :
  exists b', rtc (quota_steps "tok") (bearer_sample, replicate 5 Waiting) (b', replicate 5 Served) /\ GetAuthTokens "tok" b' = 1.
Proof. apply (quota_race "tok" 2 5 bearer_sample); [reflexivity|lia|lia]. Defined.
