(* ===== verification/SnapshotSpec.v ===== *)
(** * Snapshots

    What is written to a snapshot is read back from it, and the snapshot of the state has all its
    trees. *)

From Stdlib Require Import Ascii ZArith Lia.
From stdpp Require Import base option list strings gmap countable.
From S2P Require Import Prelude GoMonad GoLib GoText Models External Tree StateDB StateTrees State Process App Snapshot Sample.

Section file.
Context `{SnapshotLawful}.

Lemma add_trees_run p h ts trees e :
  writing p h ts None e -> Forall (fun t => blen (bconcat (td_chunks t)) < 2 ^ 32) trees ->
  exists e', mfor trees add_tree e = (e', Ok tt) /\ writing p h (ts ++ (dumped <$> trees)) None e' /\ same_files p e e'.
Proof.
  revert ts e. induction trees as [|t trees IH]; intros ts e W Hb.
  { exists e. rewrite app_nil_r. done. }
  apply Forall_cons_1 in Hb as [Ht Hb]. destruct (add_tree_run _ _ _ _ _ W Ht) as (e1 & R1 & W1 & S1).
  destruct (IH _ _ W1 Hb) as (e2 & R2 & W2 & S2). exists e2. split_and!.
  - by eapply mfor_run.
  - by rewrite <- app_assoc in W2.
  - intros q Hq. by rewrite S2, S1.
Qed.

Lemma dumped_sized trees : Forall sized (dumped <$> trees).
Proof. induction trees; cbn; constructor; done. Qed.

Definition start_snapshot (p : string) (root : bytes) (chain : string) (height : Z) : SM unit :=
  Snapshot_Create p;; SetMainRoot root;; Snapshot_SetHeight height;; Snapshot_SetChainID chain.

Lemma start_run p root chain height disk :
  exists e, start_snapshot p root chain height (mkSnapEnv disk zero_snapshot) = (e, Ok tt) /\
    writing p (mkSnapshotHeader snapshotHeaderVersion root chain height []) [] None e /\ same_files p (mkSnapEnv disk zero_snapshot) e.
Proof.
  destruct (Create_run p (mkSnapEnv disk zero_snapshot)) as (e & Hc & Hs & W); [done..|]. cbn in W.
  unfold start_snapshot. rewrite (bind_run_Ok _ _ _ _ _ Hc). cbv beta. eexists. split; [reflexivity|].
  split; [|done]. unfold on_snap, modify. destruct e as [d0 [path file lock header hs cur reader]]. destruct W as [Wp Wf Wl Wh Wc Wd].
  cbn in *. subst. by split.
Qed.

(** The file of a snapshot that has been built. *)
Lemma build_run p root chain height trees disk buf :
  let h := mkSnapshotHeader snapshotHeaderVersion root chain height [] in
  Forall (fun t => blen (bconcat (td_chunks t)) < 2 ^ 32) trees ->
  gob_Encode (set_trees (fst <$> (dumped <$> trees)) h) = inr buf ->
  exists e, (start_snapshot p root chain height;; mfor trees add_tree;; Snapshot_Save) (mkSnapEnv disk zero_snapshot) = (e, Ok tt) /\
    e_disk e !! p = Some (snapshot_file buf (dumped <$> trees)) /\ e_disk e !! (p +:+ ".tmp") = None /\
    forall q, q <> p -> q <> p +:+ ".tmp" -> e_disk e !! q = disk !! q.
Proof.
  intros h Hb Hbuf. destruct (start_run p root chain height disk) as (e1 & R1 & W1 & S1).
  destruct (add_trees_run _ _ _ trees _ W1 Hb) as (e2 & R2 & W2 & S2). destruct (Save_run _ _ _ _ buf W2 Hbuf) as (e3 & R3 & Hp & Ht & Ho).
  exists e3. split_and!; [|done|done|].
  - rewrite (bind_run_Ok _ _ _ _ _ R1). cbv beta. by rewrite (bind_run_Ok _ _ _ _ _ R2).
  - intros q Hq Hq'. by rewrite Ho, S2, S1.
Qed.

(** C37. A snapshot is read as it was written, if the dumps and the header are shorter than 2^32 octets.  A snapshot is made with the root, the chain and the height of the state and with a list
    of trees, whose dumps are written in pieces of any size, and saved; it is then opened by a new reader, that
    reads each tree and goes to the next one until the end.  The reader gets the header, and of each tree in its order
    the name, the parent, the root and the octets that were written; the other files are as they were. *)
Theorem snapshot_file_roundtrip p root chain height trees disk :
  trees <> [] -> Forall (fun t => blen (bconcat (td_chunks t)) < 2 ^ 32) trees ->
  (forall buf, gob_Encode (mkSnapshotHeader snapshotHeaderVersion root chain height (fst <$> (dumped <$> trees))) = inr buf ->
     Z.of_nat (String.length buf) < 2 ^ 32) ->
  exists e e', (start_snapshot p root chain height;; mfor trees add_tree;; Snapshot_Save) (mkSnapEnv disk zero_snapshot) = (e, Ok tt) /\
    read_snapshot p (mkSnapEnv (e_disk e) zero_snapshot) =
      (e', Ok (mkSnapshotHeader snapshotHeaderVersion root chain height (fst <$> (dumped <$> trees)), dumped <$> trees)) /\
    (forall q, q <> p -> q <> p +:+ ".tmp" -> e_disk e !! q = disk !! q).
Proof.
  intros Hne Hb Hbuf. destruct (gob_total (mkSnapshotHeader snapshotHeaderVersion root chain height (fst <$> (dumped <$> trees)))) as [buf Henc].
  destruct (build_run p root chain height trees disk buf Hb Henc) as (e & Hr & Hf & _ & Ho). exists e.
  destruct (read_snapshot_run p (mkSnapshotHeader snapshotHeaderVersion root chain height []) buf (dumped <$> trees)
              (mkSnapEnv (e_disk e) zero_snapshot)) as [e' Hread]; try done.
  - by apply Hbuf.
  - apply dumped_sized.
  - by destruct trees.
  - exists e'. done.
Qed.
End file.

(** ** The snapshot of the state *)

Section state.
Context `{ArboLaws, Lru, Proto, EthCrypto, !SnapshotLibs, !SnapshotLawful, !ArboIterBranch}.

Definition view_dump (name parent : string) (v : TreeView) : tree_dump :=
  mkTreeDump name parent (arbo_root (tv_tree v)) (arbo_DumpWriter (tv_tree v)).1.

(** The tree writes its dump without error, in less than 4 GiB. *)
Definition dumpable (v : TreeView) : Prop :=
  (arbo_DumpWriter (tv_tree v)).2 = None /\ blen (bconcat (arbo_DumpWriter (tv_tree v)).1) < 2 ^ 32.

Lemma of_env_run {A} (m : SM A) st e e' o : m e = (e', o) -> of_env m (mkSnapRun st e) = (mkSnapRun st e', o).
Proof. intros Hm. unfold of_env, zoom. cbn. by rewrite Hm. Qed.

Lemma of_state_run {A} (m : GoM State A) st e o : m st = (st, o) -> of_state m (mkSnapRun st e) = (mkSnapRun st e, o).
Proof. intros Hm. unfold of_state, zoom. cbn. by rewrite Hm. Qed.

Lemma dump_to_run p h ts name parent v e :
  writing p h ts None e -> dumpable v ->
  exists e1 e2 e3, Snapshot_AddTree name parent (arbo_root (tv_tree v)) e = (e1, Ok tt) /\ dump_to (tv_tree v) e1 = (e2, Ok tt) /\
    Snapshot_EndTree e2 = (e3, Ok tt) /\ writing p h (ts ++ [dumped (view_dump name parent v)]) None e3 /\ same_files p e e3.
Proof.
  intros W [Hd Hb]. destruct (AddTree_run _ _ _ _ name parent (arbo_root (tv_tree v)) W) as (e1 & R1 & W1 & S1).
  destruct (arbo_DumpWriter (tv_tree v)) as [chunks err] eqn:Ed. cbn [fst snd] in *. subst err.
  destruct (write_chunks_run p h ts name parent (arbo_root (tv_tree v)) chunks "" e1 W1) as (e2 & R2 & S2 & W2); [exact Hb|].
  destruct (EndTree_run _ _ _ _ _ W2) as (e3 & R3 & W3 & S3). exists e1, e2, e3. split_and!; [done| |done| |].
  - unfold dump_to. rewrite Ed. by rewrite (bind_run_Ok _ _ _ _ _ R2).
  - unfold view_dump, dumped. rewrite Ed. exact W3.
  - intros q Hq. by rewrite S3, S2, S1.
Qed.

Lemma dumpTree_run p h ts name parent v st e :
  writing p h ts None e -> dumpable v ->
  exists e', dumpTree name parent v (mkSnapRun st e) = (mkSnapRun st e', Ok tt) /\
    writing p h (ts ++ [dumped (view_dump name parent v)]) None e' /\ same_files p e e'.
Proof.
  intros W Hd. destruct (dump_to_run p h ts name parent v e W Hd) as (e1 & e2 & e3 & R1 & R2 & R3 & W3 & S3). exists e3.
  split_and!; [|done|done]. unfold dumpTree.
  rewrite (bind_run_Ok _ _ _ _ _ (of_state_run (lift (TV_Root v)) st e _ eq_refl)). cbv beta.
  rewrite (bind_run_Ok _ _ _ _ _ (of_env_run _ st _ _ _ R1)). cbv beta.
  rewrite (bind_run_Ok (wrapping _ _) _ _ (mkSnapRun st e2) tt) by (apply wrapping_Ok, of_env_run, R2).
  apply of_env_run, R3.
Qed.

(** The trees of the state, in the order of the iterations. *)
Definition main_trees (d : DB) (view : TreeView) (mains : list StateTree) : list tree_dump :=
  omap (fun k => match TV_SubTree d view (StateTreeCfg k) with Ok v => Some (view_dump (tree_name k) "" v) | _ => None end) mains.

Definition child_tree (d : DB) (processes : TreeView) (name : StateChildTree) (pid : bytes) : option tree_dump :=
  match TV_SubTree d processes (WithKey (StateChildTreeCfg name) pid) with
  | Ok v => Some (view_dump (child_name name) (tree_name TreeProcess) v)
  | _ => None
  end.
Definition child_trees (d : DB) (processes : TreeView) (children : list StateChildTree) (pids : list bytes) : list tree_dump :=
  children ≫= fun name => omap (child_tree d processes name) pids.

Definition process_ids (processes : TreeView) : list bytes :=
  Tree_IterateLeaves (tv_tree processes) (fun pids key _ => (pids ++ [key], false)) [].

Lemma mains_run p h ts view mains st e :
  writing p h ts None e ->
  (forall k, k ∈ mains -> exists v, TV_SubTree (Store st) view (StateTreeCfg k) = Ok v /\ dumpable v) ->
  exists e', mfor mains (fun k => t ← sub_view view (StateTreeCfg k); dumpTree (tree_name k) "" t) (mkSnapRun st e) =
      (mkSnapRun st e', Ok tt) /\
    writing p h (ts ++ (dumped <$> main_trees (Store st) view mains)) None e' /\ same_files p e e'.
Proof.
  revert ts e. induction mains as [|k mains IH]; intros ts e W Hm.
  { exists e. cbn. rewrite app_nil_r. done. }
  destruct (Hm k) as (v & Hv & Hd); [left|]. destruct (dumpTree_run p h ts (tree_name k) "" v st e W Hd) as (e1 & R1 & W1 & S1).
  destruct (IH _ _ W1) as (e2 & R2 & W2 & S2); [intros k' Hk'; apply Hm; by right|]. exists e2. split_and!.
  - eapply mfor_run; [|exact R2].
    rewrite (bind_run_Ok (sub_view view (StateTreeCfg k)) _ _ (mkSnapRun st e) v); [exact R1|].
    unfold sub_view, of_state, zoom, mbind, gom_bind, gets, lift. cbn [r_state]. by rewrite Hv.
  - rewrite <- app_assoc in W2. cbn [main_trees omap list_omap]. rewrite Hv. exact W2.
  - intros q Hq. by rewrite S2, S1.
Qed.

(** A child tree is there, or it is absent in one of the ways that the snapshot accepts. *)
Definition child_fine (d : DB) (processes : TreeView) (name : StateChildTree) (pid : bytes) : Prop :=
  match TV_SubTree d processes (WithKey (StateChildTreeCfg name) pid) with
  | Ok v => dumpable v
  | Err e => no_child e = true
  | Panic _ => False
  end.

Lemma dump_child_run p h ts view processes name pid st e :
  writing p h ts None e -> TV_SubTree (Store st) view (StateTreeCfg TreeProcess) = Ok processes ->
  child_fine (Store st) processes name pid ->
  exists e', dump_child view name pid (mkSnapRun st e) = (mkSnapRun st e', Ok tt) /\
    writing p h (ts ++ (dumped <$> option_list (child_tree (Store st) processes name pid))) None e' /\ same_files p e e'.
Proof.
  intros W Hp Hc. unfold dump_child.
  assert (Hsub : forall v cfg, sub_view v cfg (mkSnapRun st e) = (mkSnapRun st e, TV_SubTree (Store st) v cfg)) by done.
  rewrite (bind_run_Ok (wrapping _ _) _ _ (mkSnapRun st e) processes) by (apply wrapping_Ok; by rewrite Hsub, Hp). cbv beta.
  unfold child_fine, child_tree in *. destruct (TV_SubTree (Store st) processes _) as [v|err|w] eqn:Hv; [| |done].
  - rewrite (bind_run_Ok _ _ _ _ _ (catch_run _ _ _ _ (eq_trans (Hsub _ _) (f_equal (pair _) Hv)) eq_refl)). cbv beta.
    by apply dumpTree_run.
  - rewrite (bind_run_Ok _ _ _ _ _ (catch_run _ _ _ _ (eq_trans (Hsub _ _) (f_equal (pair _) Hv)) eq_refl)). cbv beta.
    rewrite Hc. exists e. cbn. rewrite app_nil_r. done.
Qed.

Lemma child_pids_run p h ts view processes name pids st e :
  writing p h ts None e -> TV_SubTree (Store st) view (StateTreeCfg TreeProcess) = Ok processes ->
  (forall pid, pid ∈ pids -> child_fine (Store st) processes name pid) ->
  exists e', mfor pids (fun pid => dump_child view name pid) (mkSnapRun st e) = (mkSnapRun st e', Ok tt) /\
    writing p h (ts ++ (dumped <$> omap (child_tree (Store st) processes name) pids)) None e' /\ same_files p e e'.
Proof.
  intros W Hp. revert ts e W. induction pids as [|pid pids IH]; intros ts e W Hc.
  { exists e. cbn. rewrite app_nil_r. done. }
  destruct (dump_child_run p h ts view processes name pid st e W Hp) as (e1 & R1 & W1 & S1); [apply Hc; left|].
  destruct (IH _ _ W1) as (e2 & R2 & W2 & S2); [intros q Hq; apply Hc; by right|]. exists e2. split_and!.
  - by eapply mfor_run.
  - rewrite <- app_assoc in W2. cbn [omap list_omap]. destruct (child_tree _ _ _ pid); exact W2.
  - intros q Hq. by rewrite S2, S1.
Qed.

Lemma children_run p h ts view processes children pids st e :
  writing p h ts None e -> TV_SubTree (Store st) view (StateTreeCfg TreeProcess) = Ok processes ->
  (forall name pid, name ∈ children -> pid ∈ pids -> child_fine (Store st) processes name pid) ->
  exists e', mfor children (fun name => mfor pids (fun pid => dump_child view name pid)) (mkSnapRun st e) = (mkSnapRun st e', Ok tt) /\
    writing p h (ts ++ (dumped <$> child_trees (Store st) processes children pids)) None e' /\ same_files p e e'.
Proof.
  intros W Hp. revert ts e W. induction children as [|name children IH]; intros ts e W Hc.
  { exists e. cbn. rewrite app_nil_r. done. }
  destruct (child_pids_run p h ts view processes name pids st e W Hp) as (e1 & R1 & W1 & S1); [intros; apply Hc; [left|done]|].
  destruct (IH _ _ W1) as (e2 & R2 & W2 & S2); [intros n q Hn Hq; apply Hc; [by right|done]|]. exists e2. split_and!.
  - by eapply mfor_run.
  - rewrite <- app_assoc, <- fmap_app in W2. exact W2.
  - intros q Hq. by rewrite S2, S1.
Qed.

Lemma process_ids_perm processes : process_ids processes ≡ₚ (map_to_list (leaves (tv_tree processes))).*1.
Proof.
  unfold process_ids, Tree_IterateLeaves.
  destruct (iter_branch (list bytes) (tv_tree processes) (fun pids key _ => (pids ++ [key], false)) []) as (order & Hperm & ->).
  rewrite <- Hperm. enough (Hf : forall l, fold_left (fun acc kv => (acc ++ [kv.1], false).1) order l = l ++ order.*1) by by rewrite Hf.
  clear. induction order as [|[k v] order IH]; intros l; cbn; [by rewrite app_nil_r|]. rewrite IH. by rewrite <- app_assoc.
Qed.

Lemma ListProcessIDs_committed st processes :
  TV_SubTree (Store st) (mainTreeView st) (StateTreeCfg TreeProcess) = Ok processes ->
  ListProcessIDs true st = (st, Ok (process_ids processes)).
Proof.
  intros Hp. unfold ListProcessIDs, mainTreeViewer, V_SubTree, V_Iterate, mbind, gom_bind, gets, lift, mret, gom_ret. by rewrite Hp.
Qed.

Definition snapshot_path (dataDir : string) (height : Z) : string :=
  path_Join [dataDir; storageDirectory; snapshotsDirectory; big_String height].

(** The trees of a state, in the order of the snapshot. *)
Definition state_trees (st : State) (processes : TreeView) (mains : list StateTree) (children : list StateChildTree) : list tree_dump :=
  view_dump "Main" "" (mainTreeView st) :: main_trees (Store st) (mainTreeView st) mains ++
  child_trees (Store st) processes children (process_ids processes).

Definition state_header (st : State) (height : Z) (trees : list tree_dump) : SnapshotHeader :=
  mkSnapshotHeader snapshotHeaderVersion (arbo_root (tv_tree (mainTreeView st))) (chainID st) height (fst <$> (dumped <$> trees)).

(** The run up to [Save]. *)
Lemma State_snapshot_trees dataDir mains children st processes height disk s0 buf :
  let trees := state_trees st processes mains children in
  let p := snapshot_path dataDir height in
  StateDB_Version (Store st) = Ok height -> dumpable (mainTreeView st) ->
  (forall k, k ∈ mains -> exists v, TV_SubTree (Store st) (mainTreeView st) (StateTreeCfg k) = Ok v /\ dumpable v) ->
  TV_SubTree (Store st) (mainTreeView st) (StateTreeCfg TreeProcess) = Ok processes ->
  (forall name pid, name ∈ children -> pid ∈ process_ids processes -> child_fine (Store st) processes name pid) ->
  gob_Encode (state_header st height trees) = inr buf ->
  exists e, State_snapshot dataDir mains children (mkSnapRun st (mkSnapEnv disk s0)) = (mkSnapRun st e, Ok p) /\
    e_disk e !! p = Some (snapshot_file buf (dumped <$> trees)) /\
    forall q, q <> p -> q <> p +:+ ".tmp" -> e_disk e !! q = disk !! q.
Proof.
  intros trees p Hh Hd Hm Hp Hc Hbuf. destruct (start_run p (arbo_root (tv_tree (mainTreeView st))) (chainID st) height disk) as (e1 & R1 & W1 & S1).
  destruct (dumpTree_run _ _ _ "Main" "" (mainTreeView st) st _ W1 Hd) as (e2 & R2 & W2 & S2).
  destruct (mains_run _ _ _ (mainTreeView st) mains st _ W2 Hm) as (e3 & R3 & W3 & S3).
  destruct (children_run _ _ _ (mainTreeView st) processes children (process_ids processes) st _ W3 Hp Hc) as (e4 & R4 & W4 & S4).
  assert (Htrees : (([] ++ [dumped (view_dump "Main" "" (mainTreeView st))]) ++ (dumped <$> main_trees (Store st) (mainTreeView st) mains)) ++
    (dumped <$> child_trees (Store st) processes children (process_ids processes)) = dumped <$> trees)
    by (unfold trees, state_trees; cbn; by rewrite fmap_app).
  rewrite Htrees in W4. destruct (Save_run _ _ _ _ buf W4 Hbuf) as (e5 & R5 & Hf & _ & Ho). exists e5. split_and!; [|exact Hf|].
  - unfold State_snapshot. erewrite bind_run_Ok by reflexivity. cbv beta.
    rewrite (bind_run_Ok (of_state LastHeight) _ _ (mkSnapRun st (mkSnapEnv disk s0)) height)
      by (apply of_state_run; unfold LastHeight, mbind, gom_bind, gets, lift; by rewrite Hh). cbv beta.
    erewrite (bind_run_Ok (of_state (lift _))) by reflexivity. cbv beta.
    rewrite (bind_run_Ok (of_env (modify _)) _ _ (mkSnapRun st (mkSnapEnv disk zero_snapshot)) tt) by done. cbv beta.
    unfold start_snapshot in R1. apply bind_Ok in R1 as ([] & e1a & Ra & R1). apply bind_Ok in R1 as ([] & e1b & Rb & R1).
    apply bind_Ok in R1 as ([] & e1c & Rc & R1).
    rewrite (bind_run_Ok _ _ _ _ _ (of_env_run _ st _ _ _ Ra)). cbv beta. rewrite (bind_run_Ok _ _ _ _ _ (of_env_run _ st _ _ _ Rb)). cbv beta.
    rewrite (bind_run_Ok _ _ _ _ _ (of_env_run _ st _ _ _ Rc)). cbv beta.
    erewrite (bind_run_Ok (of_state (gets chainID))) by reflexivity. cbv beta. cbn [r_state].
    rewrite (bind_run_Ok _ _ _ _ _ (of_env_run _ st _ _ _ R1)). cbv beta.
    rewrite (bind_run_Ok _ _ _ _ _ R2). cbv beta. rewrite (bind_run_Ok _ _ _ _ _ R3). cbv beta.
    rewrite (bind_run_Ok _ _ _ _ _ (of_state_run _ _ e3 _ (ListProcessIDs_committed st processes Hp))). cbv beta.
    rewrite (bind_run_Ok _ _ _ _ _ R4). cbv beta.
    erewrite (bind_run_Ok (of_env Snapshot_Path)) by reflexivity. cbv beta. cbn [r_env].
    rewrite (bind_run_Ok _ _ _ _ _ (of_env_run _ st _ _ _ R5)). cbv beta. unfold mret, gom_ret. by rewrite (wr_path _ _ _ _ _ W4).
  - intros q Hq Hq'. by rewrite Ho, S4, S3, S2, S1.
Qed.

(** C21. The snapshot of a state has the committed trees of the state: all of its main trees, and of every process all the
    trees that the process has.  When the main tree, the subtrees [mains] and the existing child trees are written
    without error, the snapshot is saved under the height of the state, the state is as it was, and a new
    reader of the file gets the root, the chain and the height of the state and the trees, with their roots
    and their dumps; a process without one of the child trees is no error, and the other files are as they were. *)
Theorem state_snapshot_complete dataDir mains children st processes height disk s0 :
  let trees := state_trees st processes mains children in
  let p := snapshot_path dataDir height in
  StateDB_Version (Store st) = Ok height -> dumpable (mainTreeView st) ->
  (forall k, k ∈ mains -> exists v, TV_SubTree (Store st) (mainTreeView st) (StateTreeCfg k) = Ok v /\ dumpable v) ->
  TV_SubTree (Store st) (mainTreeView st) (StateTreeCfg TreeProcess) = Ok processes ->
  (forall name pid, name ∈ children -> pid ∈ process_ids processes -> child_fine (Store st) processes name pid) ->
  (forall buf, gob_Encode (state_header st height trees) = inr buf -> Z.of_nat (String.length buf) < 2 ^ 32) ->
  (exists e e', State_snapshot dataDir mains children (mkSnapRun st (mkSnapEnv disk s0)) = (mkSnapRun st e, Ok p) /\
    read_snapshot p (mkSnapEnv (e_disk e) zero_snapshot) = (e', Ok (state_header st height trees, dumped <$> trees)) /\
    forall q, q <> p -> q <> p +:+ ".tmp" -> e_disk e !! q = disk !! q) /\
  (forall k v, k ∈ mains -> TV_SubTree (Store st) (mainTreeView st) (StateTreeCfg k) = Ok v -> view_dump (tree_name k) "" v ∈ trees) /\
  (forall name pid v, name ∈ children -> is_Some (leaves (tv_tree processes) !! pid) ->
     TV_SubTree (Store st) processes (WithKey (StateChildTreeCfg name) pid) = Ok v ->
     view_dump (child_name name) (tree_name TreeProcess) v ∈ trees).
Proof.
  intros trees p Hh Hd Hm Hp Hc Hlen. split_and!.
  - destruct (gob_total (state_header st height trees)) as [buf Hbuf].
    destruct (State_snapshot_trees dataDir mains children st processes height disk s0 buf Hh Hd Hm Hp Hc Hbuf) as (e & Hr & Hf & Ho).
    destruct (read_snapshot_run p (mkSnapshotHeader snapshotHeaderVersion (arbo_root (tv_tree (mainTreeView st))) (chainID st) height [])
                buf (dumped <$> trees) (mkSnapEnv (e_disk e) zero_snapshot)) as [e' Hread]; try done.
    + by apply Hlen.
    + apply dumped_sized.
    + by exists e, e'.
  - intros k v Hk Hv. right. apply elem_of_app. left. apply list_elem_of_omap. exists k. by rewrite Hv.
  - intros name pid v Hn [leaf Hl] Hv. right. apply elem_of_app. right. apply list_elem_of_bind. exists name. split; [|done].
    apply list_elem_of_omap. exists pid. split; [|unfold child_tree; by rewrite Hv].
    rewrite process_ids_perm. apply list_elem_of_fmap. exists (pid, leaf). split; [done|]. by apply elem_of_map_to_list.
Qed.
End state.

(** ** [Commit] *)

Section commit.
Context `{Arbo, Lru, Proto, ProofLibs, !SnapshotLibs}.

Definition state_kept (r r' : SnapRun) : Prop := r_state r' = r_state r.
#[local] Instance state_kept_preorder : PreOrder state_kept.
Proof. split; [done|]. intros r1 r2 r3 H12 H23. unfold state_kept in *. congruence. Qed.

Lemma kept_of_env {A} (m : SM A) : keeps state_kept (of_env m).
Proof. intros r. unfold of_env, zoom. by destruct (m (r_env r)). Qed.
Lemma kept_of_state {A} (m : GoM State A) : (forall s, (m s).1 = s) -> keeps state_kept (of_state m).
Proof. intros Hm r. unfold of_state, zoom, state_kept. specialize (Hm (r_state r)). by destruct (m (r_state r)). Qed.
#[local] Hint Resolve kept_of_env : keeps.

Lemma sub_view_kept v cfg : keeps state_kept (sub_view v cfg).
Proof. apply kept_of_state. done. Qed.

Lemma dumpTree_kept name parent v : keeps state_kept (dumpTree name parent v).
Proof. unfold dumpTree. assert (Hr := kept_of_state (lift (TV_Root v)) (fun _ => eq_refl)). keeps_auto; auto. Qed.
#[local] Hint Resolve sub_view_kept dumpTree_kept : keeps.

Lemma dump_child_kept v name pid : keeps state_kept (dump_child v name pid).
Proof. unfold dump_child. keeps_auto. Qed.
#[local] Hint Resolve dump_child_kept : keeps.

(** A snapshot, also one that fails, leaves the state as it was. *)
Lemma State_snapshot_kept dataDir mains children : keeps state_kept (State_snapshot dataDir mains children).
Proof.
  assert (Hg : forall A (f : State -> A), keeps state_kept (of_state (gets f))) by (intros; by apply kept_of_state).
  assert (Hh : keeps state_kept (of_state LastHeight)) by by apply kept_of_state.
  assert (Hl : keeps state_kept (of_state (ListProcessIDs true))).
  { apply kept_of_state. intros s. unfold ListProcessIDs, mainTreeViewer, V_SubTree, mbind, gom_bind, gets, lift, mret, gom_ret.
    by destruct (TV_SubTree _ _ _). }
  assert (Hr : forall v, keeps state_kept (of_state (lift (TV_Root v)))) by (intros; by apply kept_of_state).
  unfold State_snapshot. keeps_auto; auto.
Qed.

(** [Commit] does to the application what it does without the snapshot, unless the snapshot ends the node. *)
Lemma commit_snapshot_refines synchronizing dataDir mains children files n n' data :
  Commit_snapshot synchronizing dataDir mains children files n = (n', Ok data) -> App_Commit (n_app n) = (n_app n', Ok data).
Proof.
  intros Hc. unfold Commit_snapshot in Hc. apply bind_Ok in Hc as (d & n1 & Ha & Hc). apply bind_Ok in Hc as (a & n2 & Hg & Hc).
  injection Hg as <- <-. apply bind_Ok in Hc as (u & n3 & Hs & Hc). apply ret_Ok in Hc as [-> ->].
  assert (n_app n3 = n_app n1) as ->.
  { destruct (_ && _); [|by apply ret_Ok in Hs as [-> _]]. apply bind_Ok in Hs as (r & n4 & Hz & Hs).
    assert (n_app n4 = n_app n1) as Hn4.
    { clear Ha. destruct n1 as [a1 env1]. cbn in Hz |- *. unfold catch, zoom in Hz. pose proof (State_snapshot_kept dataDir mains children (node_run (mkNode a1 env1))) as Hk. unfold state_kept in Hk.
      destruct (State_snapshot dataDir mains children (node_run (mkNode a1 env1))) as [r1 o1]. cbn in Hk.
      assert (n4 = node_of r1 (mkNode a1 env1)) as -> by (destruct o1; cbn in Hz; congruence). unfold node_of. cbn. rewrite Hk. by destruct a1. }
    destruct r as [|p]; [done|]. apply bind_Ok in Hs as (l & n5 & Hl & Hs). apply lift_Ok in Hl as [-> _]. apply ret_Ok in Hs as [-> _]. exact Hn4. }
  unfold of_app, zoom in Ha. destruct (App_Commit (n_app n)) as [a' o]. injection Ha as <- ->. done.
Qed.
End commit.

(** ** The snapshots on disk *)

(** A saved snapshot is listed with its height. *)
Lemma snapshot_listed file height files l :
  listSnapshots (inr files) = Ok l -> file ∈ files -> FI_IsDir file = false -> FI_Name file = big_String height -> 0 <= height < 2 ^ 32 ->
  mkDiskSnapshotInfo (FI_ModTime file) height (FI_Size file) ∈ l.
Proof.
  intros [= <-] Hf Hd Hn Hh. apply list_elem_of_omap. exists file. split; [done|].
  unfold snapshot_info, Atoi. rewrite Hd, Hn, ParseInt_String by lia. cbn. unfold u32. by rewrite Z.mod_small.
Qed.

(** ** Samples

    An encoding of headers, a writer of dumps and a state for the witnesses. *)

#[export] Instance HeaderTree_eq_dec : EqDecision SnapshotHeaderTree.
Proof. solve_decision. Defined.
#[export] Instance HeaderTree_countable : Countable SnapshotHeaderTree.
Proof.
  refine (inj_countable' (fun t => (HT_Name t, HT_Size t, HT_Parent t, HT_Root t))
    (fun x => let '(n, s, p, r) := x in mkHeaderTree n s p r) _). by intros [].
Defined.
#[export] Instance Header_eq_dec : EqDecision SnapshotHeader.
Proof. solve_decision. Defined.
#[export] Instance Header_countable : Countable SnapshotHeader.
Proof.
  refine (inj_countable' (fun h => (SH_Version h, SH_Root h, SH_ChainID h, SH_Height h, SH_Trees h))
    (fun x => let '(v, r, c, n, ts) := x in mkSnapshotHeader v r c n ts) _). by intros [].
Defined.

(** The bits of a number, as octets. *)
Fixpoint bits (p : positive) : bytes :=
  match p with xH => "" | xO p => String "0"%char (bits p) | xI p => String "1"%char (bits p) end.
Fixpoint unbits (b : bytes) : positive :=
  match b with "" => xH | String c b => if bool_decide (c = "1"%char) then xI (unbits b) else xO (unbits b) end.

Lemma unbits_bits p : unbits (bits p) = p.
Proof. induction p as [p IH|p IH|]; cbn; by rewrite ?IH. Qed.

(** A tree is dumped leaf by leaf. *)
Definition leaf_chunk (kv : bytes * bytes) : bytes := kv.1 +:+ kv.2.

#[export] Instance sample_SnapshotLibs : SnapshotLibs := {|
  gob_Encode h := inr (bits (encode h));
  gob_Decode h b := match decode (unbits b) with Some h' => inr h' | None => inl (Errorf "gob") end;
  arbo_DumpWriter t := (leaf_chunk <$> map_to_list (leaves t), None);
|}.

#[export] Instance sample_SnapshotLawful : SnapshotLawful.
Proof.
  split; [by eexists|]. intros h b [= <-]. cbn. by rewrite unbits_bits, decode_encode.
Qed.

Lemma gob_bits h b : gob_Encode h = inr b -> b = bits (encode h).
Proof. by intros [= <-]. Qed.

(** Two processes, one of which has a vote, at height 7. *)
Definition ballot1 : Vote := mkVote 0 pid1 "ballot" (zeros 31 +:+ "n") (big_Bytes 1) [].
Definition committed : State := run_state (AddVote ballot1 "voter";; Save) (SetHeight 7 state2).

Definition all_trees : list StateTree := [TreeProcess; TreeExtra; TreeOracles; TreeValidators; TreeAccounts; TreeFaucet].
Definition all_children : list StateChildTree :=
  [ChildTreeCensus; ChildTreeCensusPoseidon; ChildTreePreRegisterNullifiers; ChildTreeVotes].

Definition is_ok {A} (o : outcome A) : bool := match o with Ok _ => true | _ => false end.
Definition ok_or {A} (x : A) (o : outcome A) : A := match o with Ok y => y | _ => x end.

Lemma ok_or_eq {A} (x : A) o : is_ok o = true -> o = Ok (ok_or x o).
Proof. by destruct o. Qed.

Definition processes : TreeView :=
  ok_or (mainTreeView committed) (TV_SubTree (Store committed) (mainTreeView committed) (StateTreeCfg TreeProcess)).

Definition sample_dumps : list tree_dump :=
  [mkTreeDump "Main" "" "r1" ["abc"; "de"]; mkTreeDump "Extra" "" "r2" []; mkTreeDump "Votes" "Processes" "r3" ["f"]].

Lemma snapshot_file_roundtrip_witness :
  exists e e', (start_snapshot "/7" "r" "dev" 7;; mfor sample_dumps add_tree;; Snapshot_Save) (mkSnapEnv {["/6" := "old"]} zero_snapshot) =
      (e, Ok tt) /\
    read_snapshot "/7" (mkSnapEnv (e_disk e) zero_snapshot) =
      (e', Ok (mkSnapshotHeader 1 "r" "dev" 7
                [mkHeaderTree "Main" 5 "" "r1"; mkHeaderTree "Extra" 0 "" "r2"; mkHeaderTree "Votes" 1 "Processes" "r3"],
               dumped <$> sample_dumps)) /\
    (dumped <$> sample_dumps).*2 = ["abcde"; ""; "f"] /\ e_disk e !! "/6" = Some "old".
Proof.
  destruct (snapshot_file_roundtrip "/7" "r" "dev" 7 sample_dumps {["/6" := "old"]}) as (e & e' & Hw & Hr & Ho).
  - done.
  - repeat constructor.
  - intros buf ->%gob_bits. vm_compute. reflexivity.
  - exists e, e'. split_and!; [exact Hw|exact Hr|reflexivity|]. rewrite Ho by done. reflexivity.
Defined.

(** The conditions on the trees, as tests. *)
Definition dumps (v : TreeView) : bool := bool_decide (blen (bconcat (arbo_DumpWriter (tv_tree v)).1) < 2 ^ 32).
Definition main_ok (st : State) (k : StateTree) : bool :=
  match TV_SubTree (Store st) (mainTreeView st) (StateTreeCfg k) with Ok v => dumps v | _ => false end.
Definition child_ok (st : State) (v : TreeView) (np : StateChildTree * bytes) : bool :=
  match TV_SubTree (Store st) v (WithKey (StateChildTreeCfg np.1) np.2) with
  | Ok v => dumps v | Err e => no_child e | Panic _ => false end.

Lemma dumps_dumpable v : dumps v = true -> dumpable v.
Proof. intros Hd%bool_decide_eq_true. by split. Qed.

Lemma state_snapshot_complete_witness :
  let trees := state_trees committed processes all_trees all_children in
  (fun t => (td_name t, td_parent t)) <$> trees =
    [("Main", ""); ("Processes", ""); ("Extra", ""); ("Oracles", ""); ("Validators", ""); ("Accounts", ""); ("FaucetNonce", "");
     ("Votes", "Processes")] /\
  exists e e', State_snapshot "/data" all_trees all_children (mkSnapRun committed (mkSnapEnv ∅ zero_snapshot)) =
      (mkSnapRun committed e, Ok (snapshot_path "/data" 7)) /\
    read_snapshot (snapshot_path "/data" 7) (mkSnapEnv (e_disk e) zero_snapshot) =
      (e', Ok (state_header committed 7 trees, dumped <$> trees)).
Proof.
  intros trees. split; [vm_compute; reflexivity|].
  assert (Hm : forallb (main_ok committed) all_trees = true) by (vm_compute; reflexivity).
  assert (Hc : forallb (child_ok committed processes) (all_children ≫= fun n => (n,.) <$> process_ids processes) = true) by (vm_compute; reflexivity).
  destruct (state_snapshot_complete "/data" all_trees all_children committed processes 7 ∅ zero_snapshot) as ((e & e' & Hs & Hr & _) & _).
  - vm_compute. reflexivity.
  - apply dumps_dumpable. vm_compute. reflexivity.
  - intros k Hk. rewrite forallb_forall in Hm. specialize (Hm k (proj1 (list_elem_of_In _ _) Hk)). unfold main_ok in Hm.
    destruct (TV_SubTree _ _ _) as [v| |]; [|discriminate Hm|discriminate Hm]. exists v. exact (conj eq_refl (dumps_dumpable v Hm)).
  - apply ok_or_eq. vm_compute. reflexivity.
  - intros n pid Hn Hp. rewrite forallb_forall in Hc.
    assert (Hin : (n, pid) ∈ (all_children ≫= fun n => (n,.) <$> process_ids processes)).
    { apply list_elem_of_bind. exists n. split; [|exact Hn]. apply list_elem_of_fmap. exists pid. exact (conj eq_refl Hp). }
    specialize (Hc _ (proj1 (list_elem_of_In _ _) Hin)). unfold child_ok in Hc. cbn [fst snd] in Hc. unfold child_fine.
    destruct (TV_SubTree _ _ _) as [v|err|w]; [exact (dumps_dumpable v Hc)|exact Hc|discriminate Hc].
  - intros buf ->%gob_bits. vm_compute. reflexivity.
  - exists e, e'. exact (conj Hs Hr).
Defined.
